(* ===== verification/_CoqProject ===== *)
-Q . S2P
Prelude.v
PyVal.v
Schema.v
Canonical.v
Json.v
PyConv.v
Keyed.v
Tools.v
Transitions.v
Tokens.v
Rpc.v
Fold.v
Store.v
StoreSpec.v
StoreInv.v
Scenario.v
StoreProps.v
StoreClaims.v
AuditChain.v
AuditProps.v
LocalChain.v
Table.v
Daemon.v
DaemonProps.v
AuditClient.v
Bundle.v
BundleProps.v
Moves.v
Artefacts.v
JsonText.v
Rules.v
Params.v
Builder.v
BuilderProps.v
Control.v
Runner.v
RunnerSteps.v
RunnerProps.v
RunnerTrace.v
RunnerDemo.v
Verifier.v
VerifierProps.v
Client.v
Consensus.v
Checks.v
Sentinel.v
SentinelProps.v
Broker.v
EpisodeBroker.v
EpisodeBrokerProps.v
Providers.v
ModelBroker.v
ModelBrokerProps.v
ReportBroker.v
ReportBrokerProps.v
AlertProps.v
ObserverBroker.v
ObserverBrokerProps.v
Sandbox.v
Services.v
Calls.v
ServicesProps.v
Worker.v
Runtimes.v
WorkerProps.v
Regex.v
Redact.v
Parsers.v
Builtins.v
RpcWire.v
Lines.v
Ledger.v
Stats.v
Anchor.v
SampleProps.v
Writepath.v
Sinks.v
Crypto.v
Cli.v
Bridge.v
