(* ===== verification/Prelude.v ===== *)
(** * Verification of the valops-agent control plane

    The program watches one Solana validator, opens an episode for what it finds, has
    language-model workers diagnose it and recommend an action, has another worker judge
    the recommendation, reports to an operator, and confirms recovery itself. It never
    acts on the validator. Its processes talk over Unix sockets; what they guarantee rests
    on the episode store, the audit chain and on checks that every process repeats.

    ** The parts, and the files that model them

    Paths are below src/valops unless they start with src/.

    Python underneath.  [PyVal] is the universe of dynamically typed values with the
    operations the handlers use ([==], [in], ordering, truth, [dict.get], indexing,
    [str], [repr], [round]); [PyConv] has [float], [int], iteration, [str.strip]; [Keyed]
    dictionaries keyed by pairs; [Regex] Python's [re] as a backtracking matcher with its
    meaning; [Lines] files of lines; [Prelude] the result type, the state-and-exception
    monad [M S E A], its laws, histories in which every event is justified, and the lists
    and options the components share.

    common/.  [Schema] (schema.py), [Canonical] (canonical.py: canonical JSON, a JSON
    reader, base64url; the class [Hash] stands for SHA-256) and [JsonText] (the texts
    [json.dumps] writes), with [Json] for their round trips; [Tools] (tools.py); [Tokens]
    (tokens.py); [Rpc] (rpc.py: dispatch) and [RpcWire] (rpc.py: lines, caps, the
    connection); [Crypto] (crypto.py).

    store/.  [Transitions] (transitions.py), [Fold] (fold.py), [Store] (service.py: one
    definition per handler, [endpoints] for the five sockets, [rebuild] for a restart).
    [StoreSpec] is the abstract store, a step relation whose labels are legal entries, and
    the refinement of every handler to it; [StoreInv] the record's well-formedness and the
    store's invariant; [StoreProps] and [StoreClaims] what every reachable store satisfies;
    [Scenario] one recorded episode, executed by the model.

    audit/.  [AuditChain] (sequencer.py, with verify_chain) and [AuditProps]; [Anchor]
    (anchor.py); [AuditClient] (client.py), against the interface [Server] the sequencer
    implements.

    bundle/.  [Bundle] (registry.py, the manifest of builder.py) and [BundleProps];
    [Params] (params.py); [Builder] (builder.py: what a bundle is built from, and every
    check that may refuse it) and [BuilderProps].

    observer/.  [Table] (table.py, validate.py); [LocalChain] (chain.py) with the sequencer
    that records its checkpoints; [Daemon] (daemon.py) and [DaemonProps]; [Redact]
    (redact.py), [Parsers] (parsers.py), [Builtins] (builtins.py); [SampleProps] joins the
    daemon, its commands and parsers to the sentinel's rules.

    controller/, sandbox/.  [Control] (preflight.py, and the surroundings of the
    controller), [Artefacts] (artefacts.py, common/artefact_schema.py), [Runner]
    (runner.py), [Sandbox] (sandbox/bwrap.py, controller/spawn.py). [Moves] says who moves
    an episode and from which record; [RunnerSteps] lifts a relation on worlds through
    every function of the runner, once; [RunnerProps] and [RunnerTrace] instantiate it;
    [RunnerDemo] is a recorded run, with the theorems on it.

    worker/.  [Worker] (tools/stubs.py, hooks/policy_gate.py), [Runtimes] (main.py,
    tools/mcp_server.py, adapters/), [WorkerProps]; [Bridge] (bridge.py).

    verifier/.  [Rules] (rules.py); [Verifier] (verifier.py), [VerifierProps].

    sentinel/, consensus.py.  [Consensus], [Checks] (checks.py), [Sentinel]
    (scheduler.py), [SentinelProps].

    brokers/.  [Broker] (base.py); [EpisodeBroker] (episode_broker.py) and
    [EpisodeBrokerProps]; [ObserverBroker] (observer_broker.py, observer/client.py) and
    [ObserverBrokerProps]; [ReportBroker] (report_broker.py, alerts.py),
    [ReportBrokerProps], [AlertProps], and [Sinks] (alerts.py: where alerts go);
    [Providers] (providers.py), [ModelBroker] (model_broker.py) and [ModelBrokerProps].
    [Client] is the interface ([Class Client]) of a component that keeps a trace of its
    calls and has the store behind a socket; the sentinel's and the brokers' theorems are
    proved against its laws.

    The whole.  [Services] (config.py, services.py), [Calls] what each process asks of the
    others, [ServicesProps] that it finds it; [Cli] (cli.py); [Writepath] (writepath.py).

    Evaluation.  [Ledger] (eval/ledger.py, eval/fixtures.py, src/eval/injections,
    src/eval/rubric), [Stats] (eval/stats.py).

    Recorded runs and witnesses stand at the end of the file of the theorems they
    instantiate.

    ** How code becomes definitions

    A handler is a computation of [M S exn A]: it gets its object's attributes, returns or
    raises ([PyExc cls] for a Python exception, [RpcError code data] for the program's),
    and what it assigned before raising stays. Definitions keep the code's order of checks,
    since the error a caller sees depends on it. What a callee outside the repository, the
    operating system or another process may answer is a parameter: the store's [env]
    (clock, token gate, registry, audit answer, fresh uuid), the controller's
    [surroundings] (answers as arbitrary functions of the trace of calls so far, and what
    the store's other clients did meanwhile), the daemon's [Os], the outcome of a process,
    a provider's response. A theorem that quantifies over them holds for every behaviour
    of theirs. Third-party code (the YAML parser, Ed25519, bubblewrap's reading of its
    options, the worker's SDKs) is a parameter or a class with the laws it documents; no
    property of SHA-256 is assumed where a collision can be named instead, and a theorem
    that needs 64 hexadecimal digits says so.

    ** What the theorems show

    The store implements its contract: each request is one abstract step or nothing
    ([store_refines_contract]); histories walk the tables, the record is the fold of its
    log, a restart finds it again, a retry is applied once, an error changes nothing, the
    judge is blind to advocacy. A charge that no float holds is the exception: it is
    written, its reply is an error, and no restart folds the log ([uncountable_cost]).

    Composition. The controller over the store, with its other clients acting between any
    two requests and replies getting lost: every move is justified by the record it moves,
    a degraded tick starts nothing, a step's token is revoked on every path. The verifier
    over the store and the observer: each request has its warrant in the calls made
    before. The brokers over the store: nothing is written or observed that was not
    admitted; a session of the model broker is pinned, and stays within its budget; an
    alert nobody acknowledges reaches the backup operator and survives a restart. The
    sentinel over all of them: an episode is opened under a mode only on the answers that
    show it. The daemon's chain against the sequencer's record of it. Every call of a loop
    arrives at a socket that serves it, a worker finds in its sandbox the sockets meant for
    it, and what one side writes to a socket the other reads ([call_crosses_the_wire]).

    The chain: an anchored prefix that verifies is the honest one, anchors are read back as
    they were put. Bundles: an id fixes a bundle's files, what is built verifies. The
    observer: a request runs a read-only command line, one run per command, an answer holds
    no text of a secret's shape, what it reads is what the rules can use. The tools: the
    ledgers, the ground truth, the check of the write path, the bridge's bytes.

    ** Fuel and bounds

    Where Python loops or recurses on data, the definitions are structural. Fuel is in
    [Canonical.parse_val] (the length of the text, which every recursive call shortens;
    [Json.json_roundtrip] shows it enough on canonical text), [Canonical.print_digits],
    [strip_zeros] and [dec_places] (the binary size of the number; [Json.print_N_read],
    [Json.strip_zeros_spec], [Json.dec_places_spec]), [splitlines] and the formatting of
    templates (the length), the repetitions of a regular expression (the characters left;
    [Regex.v] shows the matcher complete) and a connection's requests (the length of its
    input). The processes' endless loops are their first [n] turns, for every [n].

    ** Not modelled

    Sockets, threads, files and SQLite as such: what they may do to a component is in its
    environment, and interleavings are sequences of steps. Rounding: outside [Stats] a
    float is the decimal its [repr] writes, and sums are exact; infinity and NaN are left
    out but for the one age that may be infinite, and [OverflowError] is modelled where the
    record is folded. The texts of error messages where only their presence is used.
    Argument parsing, the third-party SDK runtimes behind the worker's adapters, the Gemini
    binding, the object-storage service behind the S3 anchors, TLS and the algorithms of
    cryptography. *)
From Stdlib Require Export QArith Lqa.
From stdpp Require Export relations base list strings option pretty numbers.
From stdpp Require Import options.
Close Scope Q_scope.

(** ** Notations of the development *)
Declare Scope valops_scope.
Delimit Scope valops_scope with valops.

(** ** Results and the state-and-exception monad

    A Python callable that may raise is a [result]; one that also works on an
    object's attributes is an [M S E A]: it gets the object's state, returns or
    raises, and leaves a state behind in both cases, because an exception does
    not undo the assignments made before it. *)
Inductive result (E A : Type) : Type :=
| Ok (a : A)
| Err (e : E).
Arguments Ok {_ _} _.
Arguments Err {_ _} _.

Definition M (S E A : Type) : Type := S → result E A * S.

Section monads.
Context {S E : Type}.

#[export] Instance result_ret : MRet (result E) := λ A a, Ok a.
#[export] Instance result_bind : MBind (result E) := λ A B f m,
  match m with Ok a => f a | Err e => Err e end.
#[export] Instance result_fmap : FMap (result E) := λ A B f m,
  match m with Ok a => Ok (f a) | Err e => Err e end.

#[export] Instance M_ret : MRet (M S E) := λ A a s, (Ok a, s).
#[export] Instance M_bind : MBind (M S E) := λ A B f m s,
  match m s with
  | (Ok a, s') => f a s'
  | (Err e, s') => (Err e, s')
  end.

Definition raise {A} (e : E) : M S E A := λ s, (Err e, s).
Definition lift {A} (r : result E A) : M S E A := λ s, (r, s).
Definition get_state : M S E S := λ s, (Ok s, s).
Definition put_state (s' : S) : M S E unit := λ _, (Ok tt, s').
Definition modify (f : S → S) : M S E unit := λ s, (Ok tt, f s).
(** [if not b: raise e] *)
Definition require (b : bool) (e : E) : M S E unit := λ s, (if b then Ok tt else Err e, s).
(** [try: m except: h] *)
Definition catch {A} (m : M S E A) (h : E → M S E A) : M S E A := λ s,
  match m s with
  | (Ok a, s') => (Ok a, s')
  | (Err e, s') => h e s'
  end.
End monads.

(** [if not b: raise e], for a callable without state. *)
Definition check {E} (b : bool) (e : E) : result E unit := if b then Ok tt else Err e.

(** The value of an option, or the exception raised in its absence. *)
Definition of_opt {E A} (o : option A) (e : E) : result E A := match o with Some a => Ok a | None => Err e end.

Lemma Ok_inj {E A} (a b : A) : Ok (E := E) a = Ok b → a = b.
Proof. by intros [= ->]. Qed.

Definition is_ok {E A} (r : result E A) : bool := match r with Ok _ => true | Err _ => false end.
Definition result_opt {E A} (r : result E A) : option A := match r with Ok a => Some a | Err _ => None end.

(** ** Inversion of monadic computations *)
Section inversion.
Context {S E : Type}.

Lemma bind_Ok {A B} (m : M S E A) (k : A → M S E B) s b s' :
  (m ≫= k) s = (Ok b, s') ↔ ∃ a s1, m s = (Ok a, s1) ∧ k a s1 = (Ok b, s').
Proof.
  unfold mbind, M_bind. destruct (m s) as [[a|e] s1]; naive_solver.
Qed.

Lemma bind_Err {A B} (m : M S E A) (k : A → M S E B) s e s' :
  (m ≫= k) s = (Err e, s') ↔
  m s = (Err e, s') ∨ ∃ a s1, m s = (Ok a, s1) ∧ k a s1 = (Err e, s').
Proof.
  unfold mbind, M_bind. destruct (m s) as [[a|e'] s1]; naive_solver.
Qed.

Lemma rbind_Ok {A B} (m : result E A) (k : A → result E B) b :
  (m ≫= k) = Ok b ↔ ∃ a, m = Ok a ∧ k a = Ok b.
Proof. destruct m; cbn; split; try naive_solver. Qed.

Lemma require_Ok b (e : E) (s s' : S) u : require b e s = (Ok u, s') ↔ b = true ∧ s' = s.
Proof. unfold require. destruct b, u; naive_solver. Qed.
Lemma require_Err b (e e' : E) (s s' : S) : require b e s = (Err e', s') ↔ b = false ∧ e' = e ∧ s' = s.
Proof. unfold require. destruct b; naive_solver. Qed.
Lemma lift_Ok {A} (r : result E A) (s s' : S) a : lift r s = (Ok a, s') ↔ r = Ok a ∧ s' = s.
Proof. unfold lift. naive_solver. Qed.
Lemma lift_Err {A} (r : result E A) (s s' : S) e : lift r s = (Err e, s') ↔ r = Err e ∧ s' = s.
Proof. unfold lift. naive_solver. Qed.
Lemma get_state_Ok (s s' a : S) : get_state (E := E) s = (Ok a, s') ↔ a = s ∧ s' = s.
Proof. unfold get_state. naive_solver. Qed.
Lemma ret_Ok {A} (a b : A) (s s' : S) : mret (M := M S E) a s = (Ok b, s') ↔ b = a ∧ s' = s.
Proof. unfold mret, M_ret. naive_solver. Qed.
Lemma check_Ok b (e : E) u : check b e = Ok u ↔ b = true.
Proof. unfold check. destruct b, u; naive_solver. Qed.
Lemma check_Err b (e e' : E) : check b e = Err e' ↔ b = false ∧ e' = e.
Proof. unfold check. destruct b; naive_solver. Qed.

Lemma of_opt_Ok {A} (o : option A) (e : E) a : of_opt o e = Ok a ↔ o = Some a.
Proof. destruct o; cbn; naive_solver. Qed.

(** How a step runs, by what it does. *)
Lemma bind_run {A B} (m : M S E A) (k : A → M S E B) s a s1 : m s = (Ok a, s1) → (m ≫= k) s = k a s1.
Proof. unfold mbind, M_bind. by intros ->. Qed.
Lemma bind_raises {A B} (m : M S E A) (k : A → M S E B) s e s1 : m s = (Err e, s1) → (m ≫= k) s = (Err e, s1).
Proof. unfold mbind, M_bind. by intros ->. Qed.
Lemma bind_cases {A B} (m : M S E A) (k : A → M S E B) s r s' : (m ≫= k) s = (r, s') →
  (∃ e, m s = (Err e, s') ∧ r = Err e) ∨ ∃ a s1, m s = (Ok a, s1) ∧ k a s1 = (r, s').
Proof. unfold mbind, M_bind. destruct (m s) as [[a|e] s1]; [eauto|]. intros [= <- <-]. eauto. Qed.
Lemma require_bind {B} b e (k : unit → M S E B) s : (require b e ≫= k) s = if b then k tt s else (Err e, s).
Proof. by destruct b. Qed.
Lemma lift_bind {A B} r (k : A → M S E B) s :
  (lift r ≫= k) s = match r with Ok a => k a s | Err e => (Err e, s) end.
Proof. by destruct r. Qed.
Lemma get_bind {B} (k : S → M S E B) s : (get_state ≫= k) s = k s s.
Proof. done. Qed.

Lemma modify_bind {B} f (k : unit → M S E B) s : (modify f ≫= k) s = k tt (f s).
Proof. done. Qed.
Lemma put_bind {B} s1 (k : unit → M S E B) s : (put_state s1 ≫= k) s = k tt s1.
Proof. done. Qed.

(** A computation that never changes the state. *)
Definition readonly {A} (m : M S E A) : Prop := ∀ s, (m s).2 = s.

Lemma readonly_bind {A B} (m : M S E A) (k : A → M S E B) :
  readonly m → (∀ a, readonly (k a)) → readonly (m ≫= k).
Proof.
  intros Hm Hk s. unfold mbind, M_bind. specialize (Hm s).
  destruct (m s) as [[a|e] s1]; cbn in *; subst; [apply Hk | done].
Qed.
Lemma readonly_ret {A} (a : A) : readonly (mret a).
Proof. done. Qed.
Lemma readonly_raise {A} (e : E) : readonly (raise (A := A) e).
Proof. done. Qed.
Lemma readonly_lift {A} (r : result E A) : readonly (lift r).
Proof. done. Qed.
Lemma readonly_get : readonly get_state.
Proof. done. Qed.
Lemma readonly_require b (e : E) : readonly (require b e).
Proof. done. Qed.
Lemma readonly_at {A} (m : M S E A) s r s' : readonly m → m s = (r, s') → s' = s.
Proof. intros Hm H. specialize (Hm s). by rewrite H in Hm. Qed.
End inversion.

Section readonly_steps.
Context {S E : Type}.

(** A read-only computation run first either raises, changing nothing, or
    returns and hands the same state on. *)
Lemma bind_readonly {A B} (m : M S E A) (k : A → M S E B) s r s' :
  readonly m → (m ≫= k) s = (r, s') →
  (∃ e, m s = (Err e, s) ∧ r = Err e ∧ s' = s) ∨ (∃ a, m s = (Ok a, s) ∧ k a s = (r, s')).
Proof.
  intros Hro. specialize (Hro s). unfold mbind, M_bind.
  destruct (m s) as [[a|e] s1]; cbn in Hro; subst s1.
  - right. by exists a.
  - intros H. left. exists e. by simplify_eq.
Qed.

Lemma readonly_if {A} (b : bool) (m1 m2 : M S E A) : readonly m1 → readonly m2 → readonly (if b then m1 else m2).
Proof. by destruct b. Qed.

(** A computation that relates the state it starts on to the one it leaves. *)
Definition respects {A} (R : relation S) (m : M S E A) : Prop := ∀ s r s', m s = (r, s') → R s s'.

Section respects.
Context (R : relation S) `{HR : !PreOrder R}.
Lemma respects_bind {A B} (P : A → Prop) (m : M S E A) (k : A → M S E B) :
  respects R m → (∀ s a s', m s = (Ok a, s') → P a) → (∀ a, P a → respects R (k a)) → respects R (m ≫= k).
Proof using HR.
  intros Hm HP Hk s r s' H. unfold mbind, M_bind in H. destruct (m s) as [[a|e] s1] eqn:Hrun.
  - etrans; [by eapply Hm | eapply Hk; [by eapply HP | done]].
  - injection H as <- <-. by eapply Hm.
Qed.
Lemma respects_readonly {A} (m : M S E A) : readonly m → respects R m.
Proof using HR. intros Hm s r s' H. apply readonly_at in H; [|done]. by subst. Qed.
Lemma respects_bind_ro {A B} (m : M S E A) (k : A → M S E B) :
  readonly m → (∀ a, (∃ s, m s = (Ok a, s)) → respects R (k a)) → respects R (m ≫= k).
Proof using HR.
  intros Hm Hk. apply (respects_bind (λ a, ∃ s, m s = (Ok a, s))); [by apply respects_readonly | | done].
  intros s a s' H. exists s. by rewrite (readonly_at _ _ _ _ Hm H) in H.
Qed.
Lemma respects_catch {A} (m : M S E A) (h : E → M S E A) :
  respects R m → (∀ e, respects R (h e)) → respects R (catch m h).
Proof using HR.
  intros Hm Hh s r s' H. unfold catch in H. destruct (m s) as [[a|e] s1] eqn:Hrun.
  - injection H as <- <-. by eapply Hm.
  - etrans; [by eapply Hm | by eapply Hh].
Qed.
(** The same from one state: what the first part returned there may be used. *)
Lemma bind_at {A B} (m : M S E A) (k : A → M S E B) s :
  (∀ r s', m s = (r, s') → R s s') → (∀ a s1, m s = (Ok a, s1) → ∀ r s', k a s1 = (r, s') → R s1 s') →
  ∀ r s', (m ≫= k) s = (r, s') → R s s'.
Proof using HR.
  intros Hm Hk r s' H. unfold mbind, M_bind in H. destruct (m s) as [[a|e] s1] eqn:Hrun.
  - etrans; [by eapply Hm | by eapply Hk].
  - injection H as <- <-. by eapply Hm.
Qed.
Lemma respects_modify f : (∀ s, R s (f s)) → respects R (modify f).
Proof using Type. intros Hf s r s' [= _ <-]. apply Hf. Qed.
End respects.
End readonly_steps.

(** A history in which every event is justified by what came before it. *)
Section histories.
Context {E : Type} (J : list E → E → Prop).
Definition sound (h l : list E) : Prop := ∀ l1 e l2, l = l1 ++ e :: l2 → J (h ++ l1) e.
Lemma sound_nil h : sound h [].
Proof. intros [|? ?] ? ? H; discriminate H. Qed.
Lemma sound_app h l l' : sound h l → sound (h ++ l) l' → sound h (l ++ l').
Proof.
  intros H H' l1 e l2 Heq. assert (∀ l3, l1 = l ++ l3 → l' = l3 ++ e :: l2 → J (h ++ l1) e) as Hr.
  { intros l3 -> Hl. rewrite (assoc_L app). exact (H' l3 e l2 Hl). }
  apply app_eq_inv in Heq as [(k & Hk & Heq)|(k & Hk & Heq)]; [|by apply (Hr k)].
  destruct k as [|x k]; [cbn in Heq; rewrite app_nil_r in Hk; by apply (Hr []); [rewrite app_nil_r|]|].
  injection Heq as <- _. exact (H l1 e k Hk).
Qed.
Lemma sound_one h e : J h e → sound h [e].
Proof. intros He l1 x l2 Heq. destruct l1 as [|y [|? ?]]; [|discriminate Heq..]. injection Heq as <- _. by rewrite app_nil_r. Qed.
Lemma sound_Forall h l (P : E → Prop) : (∀ h e, P e → J h e) → Forall P l → sound h l.
Proof. intros HP Hl l1 e l2 ->. apply HP. apply Forall_app in Hl as [_ Hl]. by apply list.Forall_cons in Hl as [He _]. Qed.
End histories.

Create HintDb valops discriminated.
Create Rewrite HintDb valops.
#[export] Hint Resolve readonly_bind readonly_ret readonly_raise readonly_lift readonly_get readonly_require readonly_if : valops.

(** One step of inversion of an equation about a computation; [minv H] repeats it. *)
Ltac minv1 H :=
  lazymatch type of H with
  | (_ ≫= _) _ = (Ok _, _) =>
      let a := fresh "a" in let s := fresh "st" in let H1 := fresh "Hm" in
      apply bind_Ok in H as (a & s & H1 & H); minv1 H1
  | require _ _ _ = (Ok _, _) =>
      let H1 := fresh "Hreq" in apply require_Ok in H as [H1 H]; subst
  | lift _ _ = (Ok _, _) =>
      let H1 := fresh "Hlift" in apply lift_Ok in H as [H1 H]; subst
  | get_state _ = (Ok _, _) =>
      let H1 := fresh "Hget" in apply get_state_Ok in H as [H1 H]; subst
  | mret _ _ = (Ok _, _) =>
      let H1 := fresh "Hret" in apply ret_Ok in H as [H1 H]; subst
  | raise _ _ = (Ok _, _) => discriminate H
  | match ?x with (_, _) => _ end _ = (Ok _, _) =>
      let a := fresh "a" in let b := fresh "b" in destruct x as [a b]
  | _ => idtac
  end.
Ltac minv H := repeat (progress (minv1 H)).

(** Peel the read-only steps off a computation [H : m s = (r, s')]: each step
    that raises leaves the case [s' = s], closed by [tac]; the others leave
    their inverted equation and the rest of the computation. *)
Ltac ro1 H tac :=
  cbv beta in H;
  lazymatch type of H with
  | (_ ≫= _) ?s = (?r, ?s') =>
      let a := fresh "a" in let e := fresh "e" in let H1 := fresh "Hm" in
      apply bind_readonly in H as [(e & H1 & -> & ->) | (a & H1 & H)];
      [ tac | try minv1 H1 | solve [auto 10 with valops] ]
  | match ?x with (_, _) => _ end ?s = _ =>
      let a := fresh "a" in let b := fresh "b" in destruct x as [a b]
  end.
Ltac ro H tac := repeat (ro1 H tac).

(** Inversion of a chain of [result] steps that returned: every [check] becomes
    its boolean, every [of_opt] its [Some]. *)
Ltac rinv H :=
  cbv beta in H;
  lazymatch type of H with
  | (_ ≫= _) = Ok _ =>
      let a := fresh "a" in let H1 := fresh "Hr" in
      apply rbind_Ok in H as (a & H1 & H); rinv H1; rinv H
  | match ?x with (_, _) => _ end = Ok _ =>
      let a := fresh "a" in let b := fresh "b" in
      destruct x as [a b]; rinv H
  | of_opt _ _ = Ok _ => apply of_opt_Ok in H
  | check _ _ = Ok _ => apply check_Ok in H
  | Ok _ = Ok _ => injection H as H; subst
  | Err _ = Ok _ => discriminate H
  | _ => idtac
  end.

(** Case analysis on every [match]/[if] scrutinee of the goal or a hypothesis. *)
Ltac case_matches :=
  repeat match goal with
  | H : context [match ?x with _ => _ end] |- _ => destruct x eqn:?; simplify_eq; try done
  | |- context [match ?x with _ => _ end] => destruct x eqn:?; simplify_eq; try done
  end.

(** Turn boolean connectives in the hypotheses into propositions. *)
Ltac bools :=
  repeat match goal with
  | H : (_ && _)%bool = true |- _ => apply andb_true_iff in H as [? ?]
  | H : (_ || _)%bool = false |- _ => apply orb_false_iff in H as [? ?]
  | H : negb _ = true |- _ => apply negb_true_iff in H
  | H : negb _ = false |- _ => apply negb_false_iff in H
  | H : String.eqb _ _ = true |- _ => apply String.eqb_eq in H
  | H : String.eqb _ _ = false |- _ => apply String.eqb_neq in H
  | H : Z.eqb _ _ = true |- _ => apply Z.eqb_eq in H
  | H : bool_decide _ = true |- _ => apply bool_decide_eq_true in H
  | H : bool_decide _ = false |- _ => apply bool_decide_eq_false in H
  end.

(** ** Rational arithmetic used for Python floats *)
Definition Qltb (x y : Q) : bool := negb (Qle_bool y x).

Lemma Qltb_lt x y : Qltb x y = true ↔ (x < y)%Q.
Proof.
  unfold Qltb. rewrite negb_true_iff, <- not_true_iff_false, Qle_bool_iff. split.
  - intros. by apply Qnot_le_lt.
  - intros ? ?. by apply (Qlt_not_le x y).
Qed.
Lemma Qltb_ge x y : Qltb x y = false ↔ (y <= x)%Q.
Proof. unfold Qltb. by rewrite negb_false_iff, Qle_bool_iff. Qed.

(** [int(q)]: towards zero. *)
Definition Qtrunc (q : Q) : Z := Z.quot (Qnum q) (Zpos (Qden q)).

(** [round(q, digits)]: half to even, as Python rounds. *)
Definition py_round (digits : nat) (q : Q) : Q :=
  let scale := (10 ^ Z.of_nat digits)%Z in
  let n := (Qnum q * scale)%Z in
  let d := Zpos (Qden q) in
  let lo := (n / d)%Z in
  let r2 := (2 * (n mod d))%Z in
  let k := match (r2 ?= d)%Z with
           | Lt => lo
           | Gt => (lo + 1)%Z
           | Eq => if Z.even lo then lo else (lo + 1)%Z
           end in
  Qred (k # Z.to_pos scale).

(** ** Lists *)
Section lists.
Context {A : Type}.

(** Python's [next((x for x in l if p x), None)]. *)
Fixpoint find_first (p : A → bool) (l : list A) : option A :=
  match l with
  | [] => None
  | x :: l' => if p x then Some x else find_first p l'
  end.

Lemma find_first_Some p (l : list A) x : find_first p l = Some x → x ∈ l ∧ p x = true.
Proof.
  induction l as [|y l IH]; cbn; [done|]. destruct (p y) eqn:Hy.
  - intros [= ->]. split; [left | done].
  - intros [? ?]%IH. split; [by right | done].
Qed.
Lemma find_first_None p (l : list A) : find_first p l = None ↔ ∀ x, x ∈ l → p x = false.
Proof.
  induction l as [|y l IH]; cbn.
  - split; [intros _ x Hx; by apply not_elem_of_nil in Hx | done].
  - destruct (p y) eqn:Hy; split.
    + done.
    + intros H. by rewrite H in Hy by left.
    + intros H x [->|Hx]%elem_of_cons; [done | by apply IH].
    + intros H. apply IH. intros x Hx. apply H. by right.
Qed.

Lemma existsb_false (p : A → bool) l : existsb p l = false ↔ ∀ x, x ∈ l → p x = false.
Proof.
  rewrite <- not_true_iff_false, existsb_exists. split.
  - intros H x Hx. apply not_true_iff_false. intros Hp. apply H. exists x. by rewrite <- list_elem_of_In.
  - intros H (x & Hx%list_elem_of_In & Hp). by rewrite H in Hp.
Qed.

Lemma existsb_true (p : A → bool) l : existsb p l = true ↔ ∃ x, x ∈ l ∧ p x = true.
Proof. rewrite existsb_exists. by setoid_rewrite list_elem_of_In. Qed.
End lists.

(** [x in l] for strings. *)
Definition str_in (x : string) (l : list string) : bool := existsb (String.eqb x) l.

Lemma str_in_spec x l : str_in x l = true ↔ x ∈ l.
Proof.
  unfold str_in. rewrite existsb_true. split.
  - intros (y & Hy & ->%String.eqb_eq). done.
  - intros. exists x. by rewrite String.eqb_refl.
Qed.
Lemma str_in_false x l : str_in x l = false ↔ x ∉ l.
Proof. by rewrite <- str_in_spec, not_true_iff_false. Qed.
