(* ===== verification/PyVal.v ===== *)
(** * Python values

    The values that cross the program's JSON boundaries (request parameters,
    YAML documents, log lines) are dynamically typed, and the handlers test
    their types. [val] is that universe. Dictionaries keep insertion order, as
    Python's do; strings are byte strings; a float is the rational it denotes
    (rounding of float operations is not modelled). *)
From S2P Require Import Prelude.

Inductive val : Type :=
| VNone
| VBool (b : bool)
| VInt (z : Z)
| VFloat (q : Q)
| VStr (s : string)
| VList (l : list val)
| VDict (d : list (string * val)).

Abbreviation dict := (list (string * val)).

(** Exceptions: the program's [RpcError(code, message, data)], whose message is
    not modelled, and Python's own exceptions by class name. *)
Inductive exn : Type :=
| RpcError (code : string) (data : val)
| PyExc (cls : string).

Abbreviation rpc_error c := (RpcError c VNone).

Section val_induction.
Context (P : val → Prop)
  (HNone : P VNone) (HBool : ∀ b, P (VBool b)) (HInt : ∀ z, P (VInt z))
  (HFloat : ∀ q, P (VFloat q)) (HStr : ∀ s, P (VStr s))
  (HList : ∀ l, Forall P l → P (VList l))
  (HDict : ∀ d, Forall (λ kv, P kv.2) d → P (VDict d)).

Fixpoint val_rect_strong (v : val) : P v :=
  match v with
  | VNone => HNone
  | VBool b => HBool b
  | VInt z => HInt z
  | VFloat q => HFloat q
  | VStr s => HStr s
  | VList l => HList l
      ((fix go (l : list val) : Forall P l :=
          match l with
          | [] => Forall_nil_2 P
          | x :: l' => Forall_cons_2 P x l' (val_rect_strong x) (go l')
          end) l)
  | VDict d => HDict d
      ((fix go (d : dict) : Forall (λ kv, P kv.2) d :=
          match d with
          | [] => Forall_nil_2 _
          | (k, x) :: d' => Forall_cons_2 (λ kv, P kv.2) (k, x) d' (val_rect_strong x) (go d')
          end) d)
  end.
End val_induction.

(** ** Dictionaries *)
Fixpoint dget {A} (d : list (string * A)) (k : string) : option A :=
  match d with
  | [] => None
  | (k', v) :: d' => if String.eqb k k' then Some v else dget d' k
  end.

(** [d.get(k)] *)
Definition dget_none (d : dict) (k : string) : val := default VNone (dget d k).

(** [k in d] *)
Definition dmem {A} (d : list (string * A)) (k : string) : bool := if dget d k is Some _ then true else false.

Lemma dmem_true {A} (d : list (string * A)) k : dmem d k = true ↔ ∃ v, dget d k = Some v.
Proof. unfold dmem. destruct (dget d k); naive_solver. Qed.

(** [d[k] = v]: an existing key keeps its place. *)
Fixpoint dset {A} (d : list (string * A)) (k : string) (v : A) : list (string * A) :=
  match d with
  | [] => [(k, v)]
  | (k', v') :: d' => if String.eqb k k' then (k, v) :: d' else (k', v') :: dset d' k v
  end.

(** [d.pop(k, None)] *)
Definition dpop {A} (d : list (string * A)) (k : string) : list (string * A) := List.filter (λ kv, negb (String.eqb k kv.1)) d.

(** [{**d, **d2}] *)
Definition dupdate {A} (d d2 : list (string * A)) : list (string * A) := fold_left (λ acc kv, dset acc kv.1 kv.2) d2 d.

Definition dkeys {A} (d : list (string * A)) : list string := map fst d.

Lemma dget_dset_eq {A} (d : list (string * A)) k v : dget (dset d k v) k = Some v.
Proof.
  induction d as [|[k' v'] d IH]; cbn; [by rewrite String.eqb_refl|].
  destruct (String.eqb k k') eqn:E; cbn; [by rewrite String.eqb_refl|]. by rewrite E.
Qed.
Lemma dget_dset_ne {A} (d : list (string * A)) k k' v : k ≠ k' → dget (dset d k v) k' = dget d k'.
Proof.
  intros Hne. induction d as [|[k'' v'] d IH]; cbn.
  - destruct (String.eqb_spec k' k); [congruence | done].
  - destruct (String.eqb_spec k k''); cbn; destruct (String.eqb_spec k' k''); try congruence.
    destruct (String.eqb_spec k' k); congruence.
Qed.
Lemma dget_dpop_eq {A} (d : list (string * A)) k : dget (dpop d k) k = None.
Proof.
  unfold dpop. induction d as [|[k' v'] d IH]; cbn; [done|].
  destruct (String.eqb k k') eqn:E; cbn; [done | by rewrite E].
Qed.
Lemma dget_dpop_ne {A} (d : list (string * A)) k k' : k ≠ k' → dget (dpop d k) k' = dget d k'.
Proof.
  intros Hne. unfold dpop. induction d as [|[k'' v'] d IH]; cbn; [done|].
  destruct (String.eqb_spec k k''); cbn; destruct (String.eqb_spec k' k''); congruence.
Qed.
Lemma dset_dset {A} (d : list (string * A)) k v v' : dset (dset d k v) k v' = dset d k v'.
Proof.
  induction d as [|[k' w] d IH]; cbn; [by rewrite String.eqb_refl|].
  destruct (String.eqb k k') eqn:E; cbn; [by rewrite String.eqb_refl|]. by rewrite E, IH.
Qed.
Lemma dpop_dset_fresh {A} (d : list (string * A)) k v : dget d k = None → dpop (dset d k v) k = d.
Proof.
  unfold dpop. induction d as [|[k' w] d IH]; cbn; [by rewrite String.eqb_refl|].
  destruct (String.eqb k k') eqn:E; cbn; [done|]. rewrite E. cbn. intros H. by rewrite IH.
Qed.
Lemma dget_elem {A} (d : list (string * A)) k v : dget d k = Some v → (k, v) ∈ d.
Proof.
  induction d as [|[k' v'] d IH]; cbn; [done|].
  destruct (String.eqb k k') eqn:E; bools.
  - intros [= <-]. subst. left.
  - intros. right. auto.
Qed.

Lemma elem_dkeys_dset {A} (d : list (string * A)) k v x : x ∈ dkeys (dset d k v) ↔ x = k ∨ x ∈ dkeys d.
Proof.
  induction d as [|[k' v'] d IH]; cbn.
  - rewrite list_elem_of_singleton, elem_of_nil. tauto.
  - destruct (String.eqb_spec k k') as [->|]; cbn; rewrite !elem_of_cons, ?IH; tauto.
Qed.

Lemma dkeys_dset {A} (d : list (string * A)) k v : NoDup (dkeys d) → NoDup (dkeys (dset d k v)).
Proof.
  induction d as [|[k' v'] d IH]; cbn; [intros _; apply NoDup_singleton|].
  rewrite list.NoDup_cons. intros [Hk' Hnd]. destruct (String.eqb_spec k k') as [->|Hne]; cbn.
  - by apply list.NoDup_cons.
  - apply list.NoDup_cons. split; [|by apply IH]. by intros [?|?]%elem_dkeys_dset; [congruence|].
Qed.

Lemma elem_dget {A} (d : list (string * A)) k v : NoDup (dkeys d) → (k, v) ∈ d → dget d k = Some v.
Proof.
  induction d as [|[k' v'] d IH]; cbn; [by intros _ ?%not_elem_of_nil|].
  rewrite list.NoDup_cons, elem_of_cons. intros [Hk Hnd] [[= -> ->]|Hin]; [by rewrite String.eqb_refl|].
  destruct (String.eqb_spec k k') as [->|]; [|by apply IH].
  exfalso. apply Hk. by apply (list_elem_of_fmap_2 fst _ (k', v)).
Qed.

#[export] Hint Rewrite @dget_dset_eq @dget_dpop_eq : valops.

(** ** Truth, types, strings *)

(** [bool(v)] *)
Definition truthy (v : val) : bool :=
  match v with
  | VNone => false
  | VBool b => b
  | VInt z => negb (z =? 0)%Z
  | VFloat q => negb (Qeq_bool q 0)
  | VStr s => negb (String.eqb s "")
  | VList l => negb (bool_decide (l = []))
  | VDict d => negb (bool_decide (d = []))
  end.

(** [v or w] *)
Definition py_or (v w : val) : val := if truthy v then v else w.

(** Membership in [[]] or [{}] uses hashing only for dicts and sets. *)
Definition hashable (v : val) : bool := match v with VList _ | VDict _ => false | _ => true end.

(** Whitespace of [str.strip] among single bytes. *)
Definition is_space (c : Ascii.ascii) : bool :=
  let n := Ascii.nat_of_ascii c in
  ((9 <=? n) && (n <=? 13) || (28 <=? n) && (n <=? 32))%nat.

Fixpoint is_blank (s : string) : bool :=
  match s with
  | EmptyString => true
  | String c s' => is_space c && is_blank s'
  end.

(** [isinstance(v, str) and bool(v.strip())], src/valops/store/service.py:76-77 _nonempty *)
Definition nonempty (v : val) : bool := match v with VStr s => negb (is_blank s) | _ => false end.

Lemma nonempty_str v : nonempty v = true → ∃ s, v = VStr s ∧ is_blank s = false.
Proof. destruct v; cbn; try done. intros H. bools. eauto. Qed.

(** [v.get(k)]: raises unless [v] is a dict. *)
Definition vget (v : val) (k : string) : result exn val :=
  match v with VDict d => Ok (dget_none d k) | _ => Err (PyExc "AttributeError") end.

(** [v[k]] *)
Definition vindex (v : val) (k : string) : result exn val :=
  match v with
  | VDict d => match dget d k with Some x => Ok x | None => Err (PyExc "KeyError") end
  | _ => Err (PyExc "TypeError")
  end.

Definition is_str (v : val) : bool := match v with VStr _ => true | _ => false end.
Definition is_dict (v : val) : bool := match v with VDict _ => true | _ => false end.
Definition is_list (v : val) : bool := match v with VList _ => true | _ => false end.
Definition is_bool (v : val) : bool := match v with VBool _ => true | _ => false end.
(** [isinstance(v, int)]: a bool is an int. *)
Definition is_int (v : val) : bool := match v with VInt _ | VBool _ => true | _ => false end.
(** [isinstance(v, (int, float))] *)
Definition is_num (v : val) : bool := match v with VInt _ | VBool _ | VFloat _ => true | _ => false end.

Definition as_str (v : val) : option string := match v with VStr s => Some s | _ => None end.
Definition opt_val {A} (f : A → val) (o : option A) : val := match o with Some a => f a | None => VNone end.

(** The number a value is, when it is one. *)
Definition num_of (v : val) : option Q :=
  match v with
  | VBool b => Some (if b then 1 else 0)%Q
  | VInt z => Some (inject_Z z)
  | VFloat q => Some q
  | _ => None
  end.

(** ** Python's [==] and [<] *)
Fixpoint py_eq (a b : val) : bool :=
  match a, b with
  | VNone, VNone => true
  | VStr s, VStr t => String.eqb s t
  | VList l, VList m =>
      (fix go (l m : list val) : bool :=
         match l, m with
         | [], [] => true
         | x :: l', y :: m' => py_eq x y && go l' m'
         | _, _ => false
         end) l m
  | VDict d, VDict e =>
      (length d =? length e)%nat &&
      (fix go (d : dict) : bool :=
         match d with
         | [] => true
         | (k, x) :: d' => match dget e k with Some y => py_eq x y | None => false end && go d'
         end) d
  | _, _ => match num_of a, num_of b with Some p, Some q => Qeq_bool p q | _, _ => false end
  end.

(** [v in l] for a list or tuple. *)
Definition py_in (v : val) (l : list val) : bool := existsb (py_eq v) l.

(** [a < b]; [None] is the [TypeError] of incomparable operands. *)
Fixpoint py_lt (a b : val) : option bool :=
  match a, b with
  | VStr s, VStr t => Some (String.ltb s t)
  | VList l, VList m =>
      (fix go (l m : list val) : option bool :=
         match l, m with
         | x :: l', y :: m' => if py_eq x y then go l' m' else py_lt x y
         | [], _ :: _ => Some true
         | _, [] => Some false
         end) l m
  | _, _ => match num_of a, num_of b with Some p, Some q => Some (Qltb p q) | _, _ => None end
  end.

Lemma py_eq_str_l s v : py_eq (VStr s) v = true ↔ v = VStr s.
Proof.
  destruct v; cbn; try (split; congruence).
  split; [intros; bools; congruence | intros [= ->]; apply String.eqb_refl].
Qed.
Lemma py_eq_str_r s v : py_eq v (VStr s) = true ↔ v = VStr s.
Proof.
  destruct v; cbn; try (split; congruence).
  split; [intros; bools; congruence | intros [= ->]; apply String.eqb_refl].
Qed.

(** Membership of a value in a tuple of string constants. *)
Lemma py_in_strs v l : py_in v (map VStr l) = true ↔ ∃ s, v = VStr s ∧ s ∈ l.
Proof.
  unfold py_in. rewrite existsb_true. split.
  - intros (x & Hx%list_elem_of_In%in_map_iff & Heq). destruct Hx as (s & <- & Hs).
    apply py_eq_str_r in Heq as ->. exists s. by rewrite list_elem_of_In.
  - intros (s & -> & Hs). exists (VStr s). split; [|by apply py_eq_str_r].
    apply list_elem_of_In, in_map_iff. exists s. by rewrite <- list_elem_of_In.
Qed.

(** ** [str(v)] and [repr(v)]

    Exact for [None], booleans, integers and strings; nested values follow
    Python's notation without its escapes; a float shows its exact fraction. *)
Fixpoint py_repr (v : val) : string :=
  match v with
  | VNone => "None"
  | VBool b => if b then "True" else "False"
  | VInt z => pretty z
  | VFloat q => pretty (Qnum q) +:+ "/" +:+ pretty (Npos (Qden q))
  | VStr s => "'" +:+ s +:+ "'"
  | VList l => "[" +:+ (fix go (l : list val) : string :=
      match l with
      | [] => ""
      | [x] => py_repr x
      | x :: l' => py_repr x +:+ ", " +:+ go l'
      end) l +:+ "]"
  | VDict d => "{" +:+ (fix go (d : dict) : string :=
      match d with
      | [] => ""
      | [(k, x)] => "'" +:+ k +:+ "': " +:+ py_repr x
      | (k, x) :: d' => "'" +:+ k +:+ "': " +:+ py_repr x +:+ ", " +:+ go d'
      end) d +:+ "}"
  end.

Definition py_str (v : val) : string := match v with VStr s => s | _ => py_repr v end.

(** [f"{prefix}{n}"] *)
Definition fmt_id (prefix : string) (n : nat) : string := prefix +:+ pretty (N.of_nat n).

#[export] Instance string_app_inj s : Inj (=) (=) (String.append s).
Proof. intros a b H. induction s as [|c s IH]; cbn in H; [done | by injection H]. Qed.

Lemma fmt_id_inj prefix n m : fmt_id prefix n = fmt_id prefix m → n = m.
Proof. unfold fmt_id. intros H%(inj _)%(inj _). lia. Qed.

(** [x in c] for a container [c]. *)
Fixpoint substr (x s : string) : bool :=
  String.prefix x s || match s with EmptyString => false | String _ s' => substr x s' end.
Definition py_contains (c x : val) : result exn bool :=
  match c with
  | VList l => Ok (py_in x l)
  | VDict d => match x with
               | VStr k => Ok (dmem d k)
               | _ => if hashable x then Ok false else Err (PyExc "TypeError")
               end
  | VStr s => match x with VStr t => Ok (substr t s) | _ => Err (PyExc "TypeError") end
  | _ => Err (PyExc "TypeError")
  end.

(** [x in s] for a set of strings [s]. *)
Definition in_str_set (x : val) (l : list string) : result exn bool :=
  match x with
  | VStr s => Ok (str_in s l)
  | _ => if hashable x then Ok false else Err (PyExc "TypeError")
  end.

Lemma in_str_set_true x l : in_str_set x l = Ok true → ∃ s, x = VStr s ∧ s ∈ l.
Proof. destruct x; cbn; try done. intros [= H]. apply str_in_spec in H. eauto. Qed.
