(* ===== verification/Schema.v ===== *)
(** * Strings as the program's regular expressions see them, and the JSON-Schema
    subset validator (src/valops/common/schema.py). *)
From S2P Require Import Prelude PyVal.
From Stdlib Require Import Ascii.

(** ** Character classes and anchored patterns

    The program's patterns are all of the form [^...$] over character classes.
    Python's [$] also matches before one trailing newline; [chomp] is that. *)
Definition in_range (lo hi c : Ascii.ascii) : bool :=
  ((Ascii.nat_of_ascii lo <=? Ascii.nat_of_ascii c) && (Ascii.nat_of_ascii c <=? Ascii.nat_of_ascii hi))%nat.
Definition is_digit (c : Ascii.ascii) : bool := in_range "0"%char "9"%char c.
Definition is_lower (c : Ascii.ascii) : bool := in_range "a"%char "z"%char c.
Definition is_upper (c : Ascii.ascii) : bool := in_range "A"%char "Z"%char c.
Definition is_hex (c : Ascii.ascii) : bool := is_digit c || in_range "a"%char "f"%char c.

Definition newline : string := String (Ascii.ascii_of_nat 10) EmptyString.

Fixpoint all_chars (p : Ascii.ascii → bool) (s : string) : bool :=
  match s with
  | EmptyString => true
  | String c s' => p c && all_chars p s'
  end.
Fixpoint any_char (p : Ascii.ascii → bool) (s : string) : bool :=
  match s with
  | EmptyString => false
  | String c s' => p c || any_char p s'
  end.

(** The string without its final newline, when it ends in one. *)
Fixpoint chomp (s : string) : string :=
  match s with
  | EmptyString => EmptyString
  | String c s' => if String.eqb s newline then EmptyString else String c (chomp s')
  end.

(** [^[cls]{m,n}$] *)
Definition class_rep (p : Ascii.ascii → bool) (m n : nat) (s : string) : bool :=
  (all_chars p s && (m <=? String.length s) && (String.length s <=? n))%nat.
(** A pattern body followed by [$]. *)
Definition dollar (body : string → bool) (s : string) : bool := body s || body (chomp s).

(** [s[len(p):]] when [s] starts with [p]. *)
Fixpoint strip_prefix (p s : string) : option string :=
  match p, s with
  | EmptyString, _ => Some s
  | String a p', String b s' => if Ascii.eqb a b then strip_prefix p' s' else None
  | String _ _, EmptyString => None
  end.

Lemma strip_prefix_Some p s r : strip_prefix p s = Some r ↔ s = p +:+ r.
Proof.
  revert s. induction p as [|a p IH]; intros s; cbn.
  - split; [by intros [= ->] | by intros ->].
  - destruct s as [|b s]; [done|].
    destruct (Ascii.eqb_spec a b) as [->|Hne].
    + rewrite IH. split; [by intros -> | by intros [= ->]].
    + split; [done|]. intros [= -> _]. done.
Qed.

(** The patterns that occur in the program's schemas (common/tools.py,
    common/artefact_schema.py): [^[x...][0-9]+$] and [^report:sha256:[0-9a-f]{64}$]. *)
Inductive pattern : Type :=
| PatId (first : list Ascii.ascii)
| PatReportRef.

Definition pattern_body (p : pattern) (s : string) : bool :=
  match p with
  | PatId first =>
      match s with
      | String c s' => existsb (Ascii.eqb c) first && all_chars is_digit s' && negb (String.eqb s' "")
      | EmptyString => false
      end
  | PatReportRef =>
      match strip_prefix "report:sha256:" s with
      | Some h => class_rep is_hex 64 64 h
      | None => false
      end
  end.
(** [re.search(pattern, s)] *)
Definition re_search (p : pattern) (s : string) : bool := dollar (pattern_body p) s.

(** ** Schemas *)
Inductive schema : Type := Schema {
  s_type : option (list string);
  s_const : option val;
  s_enum : option (list val);
  s_minLength : option N;
  s_maxLength : option N;
  s_pattern : option pattern;
  s_minimum : option Q;
  s_maximum : option Q;
  s_minItems : option N;
  s_maxItems : option N;
  s_items : option schema;
  s_properties : list (string * schema);
  s_required : list string;
  s_closed : bool; (* additionalProperties is False *)
}.

(** [isinstance(value, _TYPES[ty])], a bool being neither integer nor number here. *)
Definition type_ok (v : val) (ty : string) : bool :=
  if is_bool v && (String.eqb ty "integer" || String.eqb ty "number") then false
  else match ty with
       | "object" => is_dict v
       | "array" => is_list v
       | "string" => is_str v
       | "boolean" => is_bool v
       | "integer" => is_int v
       | "number" => is_num v
       | "null" => match v with VNone => true | _ => false end
       | _ => false
       end.

Definition slen (s : string) : N := N.of_nat (String.length s).
Definition llen {A} (l : list A) : N := N.of_nat (length l).
Definition opt_all {A} (o : option A) (p : A → bool) : bool := match o with Some a => p a | None => true end.

(** src/valops/common/schema.py:21-72 validate

    [true] is a normal return, [false] a [SchemaError]. *)
Fixpoint validate (sch : schema) (value : val) {struct sch} : bool :=
  let 'Schema ty const enum minLen maxLen pat mini maxi minIt maxIt items props required closed := sch in
  opt_all ty (λ tys, existsb (type_ok value) tys) &&
  opt_all const (λ c, py_eq value c) &&
  opt_all enum (λ l, py_in value l) &&
  match value with
  | VStr s =>
      negb (slen s <? default 0 minLen)%N &&
      opt_all maxLen (λ n, (slen s <=? n)%N) &&
      opt_all pat (λ p, re_search p s) &&
      negb (is_blank s && (0 <? default 0 minLen)%N)
  | _ => true
  end &&
  (if is_num value && negb (is_bool value) then
     match num_of value with
     | Some q => opt_all mini (λ m, negb (Qltb q m)) && opt_all maxi (λ m, negb (Qltb m q))
     | None => true
     end
   else true) &&
  match value with
  | VList l =>
      negb (llen l <? default 0 minIt)%N &&
      opt_all maxIt (λ n, (llen l <=? n)%N) &&
      match items with
      | Some it => forallb (validate it) l
      | None => true
      end
  | VDict d =>
      forallb (dmem d) required &&
      (if closed then forallb (λ k, str_in k (map fst props)) (dkeys d) else true) &&
      forallb (λ '(k, sub), match dget d k with Some x => validate sub x | None => true end) props
  | _ => true
  end.

(** src/valops/common/schema.py:75-80 is_valid *)
Definition is_valid (value : val) (sch : schema) : bool := validate sch value.

(** ** Building schemas *)
Definition any_schema : schema :=
  Schema None None None None None None None None None None None [] [] false.
Definition obj_schema (props : list (string * schema)) (required : list string) : schema :=
  Schema (Some ["object"]) None None None None None None None None None None props required true.
Definition str_schema (minLen maxLen : option N) (pat : option pattern) : schema :=
  Schema (Some ["string"]) None None minLen maxLen pat None None None None None [] [] false.
Definition enum_schema (l : list string) : schema :=
  Schema (Some ["string"]) None (Some (map VStr l)) None None None None None None None None [] [] false.
Definition int_schema (mini maxi : option Q) : schema :=
  Schema (Some ["integer"]) None None None None None mini maxi None None None [] [] false.
Definition arr_schema (minIt maxIt : option N) (items : schema) : schema :=
  Schema (Some ["array"]) None None None None None None None minIt maxIt (Some items) [] [] false.

(** ** What acceptance means *)
Lemma validate_str minLen maxLen pat v :
  validate (str_schema minLen maxLen pat) v = true →
  ∃ s, v = VStr s ∧ opt_all pat (λ p, re_search p s) = true ∧
       (∀ n, maxLen = Some n → slen s ≤ n)%N ∧
       (minLen ≠ None → minLen ≠ Some 0%N → is_blank s = false).
Proof.
  cbn. intros H. bools. destruct v; cbn in *; try done. bools.
  exists s. split_and!; try done.
  - intros n ->. by apply N.leb_le.
  - intros Hsome Hne0. destruct minLen as [[|n]|]; try done. cbn in *.
    by destruct (is_blank s).
Qed.

Lemma validate_enum l v : validate (enum_schema l) v = true → ∃ s, v = VStr s ∧ s ∈ l.
Proof. cbn. intros H. bools. by apply py_in_strs. Qed.

Lemma validate_arr minIt maxIt items v :
  validate (arr_schema minIt maxIt items) v = true →
  ∃ l, v = VList l ∧ (default 0 minIt ≤ llen l)%N ∧ ∀ x, x ∈ l → validate items x = true.
Proof.
  cbn. intros H. bools. destruct v; cbn in *; try done. bools.
  exists l. split_and!; [done | by apply N.ltb_ge |].
  intros x Hx%list_elem_of_In. by eapply forallb_forall in Hx.
Qed.

Lemma validate_obj props required v :
  validate (obj_schema props required) v = true →
  ∃ d, v = VDict d ∧
       (∀ k, k ∈ required → ∃ x, dget d k = Some x) ∧
       (∀ k, k ∈ dkeys d → k ∈ map fst props) ∧
       (∀ k sub x, (k, sub) ∈ props → dget d k = Some x → validate sub x = true).
Proof.
  cbn. intros H. bools. destruct v; cbn in *; try done. bools.
  exists d. split_and!; [done | | |].
  - intros k Hk%list_elem_of_In. eapply forallb_forall in Hk; [|done].
    by apply dmem_true.
  - intros k Hk%list_elem_of_In. eapply forallb_forall in Hk; [|done]. by apply str_in_spec.
  - intros k sub x Hin Hx.
    apply list_elem_of_In in Hin. eapply forallb_forall in Hin; [|done]. cbn in Hin. by rewrite Hx in Hin.
Qed.

Lemma any_char_app p s t : any_char p (s +:+ t) = any_char p s || any_char p t.
Proof. induction s as [|c s IH]; [done|]. change (String c s +:+ t) with (String c (s +:+ t)). cbn [any_char]. by rewrite IH, orb_assoc. Qed.
