(* ===== verification/Canonical.v ===== *)
(** * Canonical JSON, base64url and hashing (src/valops/common/canonical.py)

    [canonical] is [json.dumps] with sorted keys and no spaces, [json_loads] is
    [json.loads], [b64u]/[b64u_dec] the unpadded URL-safe base64 pair. SHA-256
    is the operational class [Hash]: nothing is assumed of it but that it is a
    function; theorems about it conclude with an explicit collision. *)
From S2P Require Import Prelude PyVal Schema.
From Stdlib Require Import Ascii.

(** src/valops/common/canonical.py:20-21 sha256_hex *)
Class Hash := sha256_hex : string → string.

Definition ch (n : nat) : string := String (ascii_of_nat n) EmptyString.
Definition join (sep : string) (l : list string) : string := String.concat sep l.

(** ** Printing *)
Definition hex_digit (n : nat) : string := ch (if (n <? 10)%nat then 48 + n else 87 + n).

(** One character of a JSON string literal, [ensure_ascii=False]. *)
Definition esc_char (c : ascii) : string :=
  let n := nat_of_ascii c in
  match n with
  | 34 => ch 92 +:+ ch 34
  | 92 => ch 92 +:+ ch 92
  | 10 => ch 92 +:+ "n"
  | 13 => ch 92 +:+ "r"
  | 9 => ch 92 +:+ "t"
  | 8 => ch 92 +:+ "b"
  | 12 => ch 92 +:+ "f"
  | _ => if (n <? 32)%nat then ch 92 +:+ "u00" +:+ hex_digit (n / 16) +:+ hex_digit (n mod 16)
         else String c EmptyString
  end.
Fixpoint esc (s : string) : string :=
  match s with
  | EmptyString => EmptyString
  | String c s' => esc_char c +:+ esc s'
  end.
Definition quote (s : string) : string := ch 34 +:+ esc s +:+ ch 34.

(** Decimal notation, most significant digit first; the fuel is the binary size. *)
Definition digit (n : N) : string := String (ascii_of_N (48 + n)) EmptyString.
Fixpoint print_digits (fuel : nat) (n : N) : string :=
  match fuel with
  | O => EmptyString
  | S f => if (n <? 10)%N then digit n else print_digits f (n / 10) +:+ digit (n mod 10)
  end.
Definition print_N (n : N) : string := print_digits (S (N.size_nat n)) n.
Definition print_int (z : Z) : string := (if (z <? 0)%Z then "-" else EmptyString) +:+ print_N (Z.abs_N z).

(** The [k] low decimal digits of [n]. *)
Fixpoint fixed_digits (k : nat) (n : N) : string :=
  match k with
  | O => EmptyString
  | S k' => fixed_digits k' (n / 10) +:+ digit (n mod 10)
  end.

(** A float is modelled by the decimal its [repr] writes, the shortest that no other float
    is nearer to; rounding is not modelled. Its decimal places: the denominator divides a
    power of ten. *)
Fixpoint dec_places (fuel : nat) (den : Z) (k : nat) : nat :=
  match fuel with
  | O => k
  | S f => if (10 ^ Z.of_nat k mod den =? 0)%Z then k else dec_places f den (S k)
  end.
Definition places (q : Q) : nat := Nat.max 1 (dec_places (Pos.size_nat (Qden q)) (Zpos (Qden q)) 0).
(** [n] without its trailing zeros, and how many they are. *)
Fixpoint strip_zeros (fuel : nat) (n : N) : N * nat :=
  match fuel with
  | O => (n, O)
  | S f => if (n mod 10 =? 0)%N then let '(m, z) := strip_zeros f (n / 10) in (m, S z) else (n, O)
  end.
(** An exponent has two digits at least. *)
Definition exponent_digits (n : N) : string := (if (n <? 10)%N then "0" else EmptyString) +:+ print_N n.
(** The integer part of a float's text, and what follows it: [1e-4] and what is above it,
    below [1e16], are written with their digits only, the others with an exponent. *)
Definition float_parts (q : Q) : N * string :=
  let k := places q in
  let n := Z.to_N (Z.abs (Qnum q) * 10 ^ Z.of_nat k / Zpos (Qden q)) in
  let '(m, z) := strip_zeros (N.size_nat n) n in
  let l := pred (String.length (print_N m)) in
  let e := (Z.of_nat l + (Z.of_nat z - Z.of_nat k))%Z in
  if (n =? 0)%N || ((-4 <=? e)%Z && (e <? 16)%Z) then ((n / 10 ^ N.of_nat k)%N, "." +:+ fixed_digits k n)
  else ((m / 10 ^ N.of_nat l)%N,
        (if (l =? 0)%nat then EmptyString else "." +:+ fixed_digits l m) +:+
        "e" +:+ (if (e <? 0)%Z then "-" else "+") +:+ exponent_digits (Z.abs_N e)).
(** [repr] of a float that stands for the decimal [q]. *)
Definition print_float (q : Q) : string :=
  let q := Qred q in
  (if (Qnum q <? 0)%Z then "-" else EmptyString) +:+ (print_N (float_parts q).1 +:+ (float_parts q).2).

(** Sorting by key, stable. *)
Fixpoint kinsert {A} (kv : string * A) (l : list (string * A)) : list (string * A) :=
  match l with
  | [] => [kv]
  | kv' :: l' => if String.ltb kv'.1 kv.1 then kv' :: kinsert kv l' else kv :: l
  end.
Definition ksort {A} (l : list (string * A)) : list (string * A) := foldr kinsert [] l.

(** src/valops/common/canonical.py:16-17 canonical *)
Fixpoint canonical (v : val) : string :=
  match v with
  | VNone => "null"
  | VBool b => if b then "true" else "false"
  | VInt z => print_int z
  | VFloat q => print_float q
  | VStr s => quote s
  | VList l => "[" +:+ join "," (map canonical l) +:+ "]"
  | VDict d => "{" +:+ join "," (map (λ kt, quote kt.1 +:+ ":" +:+ kt.2)
                                   (ksort (map (λ '(k, x), (k, canonical x)) d))) +:+ "}"
  end.

(** src/valops/common/canonical.py:24-25 sha256_obj *)
Definition sha256_obj `{Hash} (v : val) : string := sha256_hex (canonical v).

(** ** Parsing *)
Definition is_ws (c : ascii) : bool :=
  let n := nat_of_ascii c in ((n =? 32) || (n =? 9) || (n =? 10) || (n =? 13))%nat.
Fixpoint skip_ws (s : string) : string :=
  match s with
  | String c s' => if is_ws c then skip_ws s' else s
  | EmptyString => EmptyString
  end.
Fixpoint span (p : ascii → bool) (s : string) : string * string :=
  match s with
  | String c s' => if p c then let '(a, b) := span p s' in (String c a, b) else (EmptyString, s)
  | EmptyString => (EmptyString, EmptyString)
  end.

Fixpoint digits_acc (acc : N) (s : string) : option N :=
  match s with
  | EmptyString => Some acc
  | String c s' => if is_digit c then digits_acc (acc * 10 + (N_of_ascii c - 48)) s' else None
  end.
Definition digits_N (s : string) : option N := match s with EmptyString => None | _ => digits_acc 0 s end.
Definition hex_val (c : ascii) : option nat :=
  let n := nat_of_ascii c in
  if is_digit c then Some (n - 48)%nat
  else if in_range "a"%char "f"%char c then Some (n - 87)%nat
  else if in_range "A"%char "F"%char c then Some (n - 55)%nat else None.
(** UTF-8 bytes of a code point of the basic multilingual plane. *)
Definition utf8 (n : nat) : string :=
  if (n <? 128)%nat then ch n
  else if (n <? 2048)%nat then ch (192 + n / 64) +:+ ch (128 + n mod 64)
  else ch (224 + n / 4096) +:+ ch (128 + (n / 64) mod 64) +:+ ch (128 + n mod 64).

(** The rest of a string literal after its opening quote. *)
Fixpoint parse_str (s : string) : option (string * string) :=
  match s with
  | EmptyString => None
  | String c s1 =>
      let n := nat_of_ascii c in
      if (n =? 34)%nat then Some (EmptyString, s1)
      else if (n <? 32)%nat then None
      else if negb (n =? 92)%nat then '(a, r) ← parse_str s1; Some (String c a, r)
      else match s1 with
      | String e s2 =>
          let one m := '(a, r) ← parse_str s2; Some (ch m +:+ a, r) in
          match e with
          | "n"%char => one 10
          | "r"%char => one 13
          | "t"%char => one 9
          | "b"%char => one 8
          | "f"%char => one 12
          | "/"%char => one 47
          | "u"%char =>
              match s2 with
              | String h1 (String h2 (String h3 (String h4 s3))) =>
                  a ← hex_val h1; b ← hex_val h2; c ← hex_val h3; d ← hex_val h4;
                  '(x, r) ← parse_str s3;
                  Some (utf8 (a * 4096 + b * 256 + c * 16 + d)%nat +:+ x, r)
              | _ => None
              end
          | _ => let m := nat_of_ascii e in if ((m =? 34) || (m =? 92))%nat then one m else None
          end
      | EmptyString => None
      end
  end.

(** The parts of a JSON number: a minus, an integer part without leading zeros, a
    fraction, an exponent. *)
Definition split_sign (s : string) : bool * string :=
  match s with String "-"%char s' => (true, s') | _ => (false, s) end.
Definition int_part (s : string) : string * string :=
  match s with String "0"%char s' => ("0", s') | _ => span is_digit s end.
Definition fraction (r : string) : option string * string :=
  match r with
  | String "."%char r' => match span is_digit r' with
                          | (EmptyString, _) => (None, r)
                          | (f, r'') => (Some f, r'')
                          end
  | _ => (None, r)
  end.
Definition exponent (r : string) : option (bool * string) * string :=
  match r with
  | String e r' =>
      if Ascii.eqb e "e" || Ascii.eqb e "E" then
        let '(eneg, r'') := match r' with
                            | String "-"%char x => (true, x)
                            | String "+"%char x => (false, x)
                            | _ => (false, r')
                            end in
        match span is_digit r'' with
        | (EmptyString, _) => (None, r)
        | (x, rest) => (Some (eneg, x), rest)
        end
      else (None, r)
  | EmptyString => (None, r)
  end.

Definition parse_num (s : string) : option (val * string) :=
  let '(neg, s) := split_sign s in
  let '(ds, r) := int_part s in
  n ← digits_N ds;
  let sg (z : Z) := if neg : bool then (- z)%Z else z in
  let '(fr, r1) := fraction r in
  let '(ex, r2) := exponent r1 in
  match fr, ex with
  | None, None => Some (VInt (sg (Z.of_N n)), r)
  | _, _ =>
      f ← digits_N (default "0" fr);
      let k := match fr with Some f => Z.of_nat (String.length f) | None => 0%Z end in
      x ← match ex with Some (b, x) => m ← digits_N x; Some (if b : bool then (- Z.of_N m)%Z else Z.of_N m)
                      | None => Some 0%Z end;
      let m := sg (Z.of_N n * 10 ^ k + (if fr is Some _ then Z.of_N f else 0))%Z in
      let e := (x - k)%Z in
      Some (VFloat (Qred (if (e <? 0)%Z then m # Z.to_pos (10 ^ (- e)) else inject_Z (m * 10 ^ e))), r2)
  end.

(** A value, array elements, object members; the fuel is the input's length. *)
Fixpoint parse_val (fuel : nat) (s : string) : option (val * string) :=
  match fuel with
  | O => None
  | S f =>
      match strip_prefix "null" s, strip_prefix "true" s, strip_prefix "false" s with
      | Some r, _, _ => Some (VNone, r)
      | _, Some r, _ => Some (VBool true, r)
      | _, _, Some r => Some (VBool false, r)
      | _, _, _ =>
          match s with
          | String "["%char r =>
              match skip_ws r with
              | String "]"%char r' => Some (VList [], r')
              | r' => '(l, r'') ← parse_elems f r'; Some (VList l, r'')
              end
          | String "{"%char r =>
              match skip_ws r with
              | String "}"%char r' => Some (VDict [], r')
              | r' => '(d, r'') ← parse_members f r'; Some (VDict (dupdate [] d), r'')
              end
          | String c r =>
              if (nat_of_ascii c =? 34)%nat then '(a, r') ← parse_str r; Some (VStr a, r') else parse_num s
          | EmptyString => None
          end
      end
  end
with parse_elems (fuel : nat) (s : string) : option (list val * string) :=
  match fuel with
  | O => None
  | S f =>
      '(v, r) ← parse_val f s;
      match skip_ws r with
      | String "]"%char r' => Some ([v], r')
      | String ","%char r' => '(l, r'') ← parse_elems f (skip_ws r'); Some (v :: l, r'')
      | _ => None
      end
  end
with parse_members (fuel : nat) (s : string) : option (dict * string) :=
  match fuel with
  | O => None
  | S f =>
      match s with
      | String c r =>
          if (nat_of_ascii c =? 34)%nat then
            '(k, r1) ← parse_str r;
            match skip_ws r1 with
            | String ":"%char r2 =>
                '(v, r3) ← parse_val f (skip_ws r2);
                match skip_ws r3 with
                | String "}"%char r4 => Some ([(k, v)], r4)
                | String ","%char r4 => '(d, r5) ← parse_members f (skip_ws r4); Some ((k, v) :: d, r5)
                | _ => None
                end
            | _ => None
            end
          else None
      | EmptyString => None
      end
  end.

(** [json.loads(s)]; [None] is its [ValueError]. *)
Definition json_loads (s : string) : option val :=
  let s := skip_ws s in
  '(v, r) ← parse_val (2 * String.length s + 1) s;
  if String.eqb (skip_ws r) "" then Some v else None.

(** ** Base64, URL-safe alphabet *)
Definition b64_char (n : nat) : ascii :=
  ascii_of_nat (if (n <? 26)%nat then 65 + n else if (n <? 52)%nat then 71 + n
                else if (n <? 62)%nat then n - 4 else if (n =? 62)%nat then 45 else 95).

(** src/valops/common/canonical.py:28-29 b64u *)
Fixpoint b64u (s : string) : string :=
  match s with
  | EmptyString => EmptyString
  | String a EmptyString =>
      let a := nat_of_ascii a in
      String (b64_char (a / 4)) (String (b64_char ((a mod 4) * 16)) EmptyString)
  | String a (String b EmptyString) =>
      let a := nat_of_ascii a in let b := nat_of_ascii b in
      String (b64_char (a / 4)) (String (b64_char ((a mod 4) * 16 + b / 16))
        (String (b64_char ((b mod 16) * 4)) EmptyString))
  | String a (String b (String c s')) =>
      let a := nat_of_ascii a in let b := nat_of_ascii b in let c := nat_of_ascii c in
      String (b64_char (a / 4)) (String (b64_char ((a mod 4) * 16 + b / 16))
        (String (b64_char ((b mod 16) * 4 + c / 64)) (String (b64_char (c mod 64)) (b64u s'))))
  end.

Definition b64_digit (c : ascii) : option nat :=
  let n := nat_of_ascii c in
  if in_range "A"%char "Z"%char c then Some (n - 65)%nat
  else if in_range "a"%char "z"%char c then Some (n - 71)%nat
  else if is_digit c then Some (n + 4)%nat
  else if Ascii.eqb c "-" || Ascii.eqb c "+" then Some 62%nat
  else if Ascii.eqb c "_" || Ascii.eqb c "/" then Some 63%nat else None.

(** [binascii.a2b_base64], not strict: characters outside the alphabet are
    skipped; [quad], [left], [pads] are the C loop's variables. *)
Fixpoint a2b (quad left pads : nat) (s : string) : option string :=
  match s with
  | EmptyString => if (quad =? 0)%nat then Some EmptyString else None
  | String c s' =>
      if Ascii.eqb c "=" then
        if (2 <=? quad)%nat then
          if (4 <=? quad + S pads)%nat then Some EmptyString else a2b quad left (S pads) s'
        else a2b quad left pads s'
      else match b64_digit c with
      | None => a2b quad left pads s'
      | Some d =>
          match quad with
          | 0 => a2b 1 d 0 s'
          | 1 => (λ r, ch (left * 4 + d / 16)%nat +:+ r) <$> a2b 2 (d mod 16) 0 s'
          | 2 => (λ r, ch (left * 16 + d / 4)%nat +:+ r) <$> a2b 3 (d mod 4) 0 s'
          | _ => (λ r, ch (left * 64 + d)%nat +:+ r) <$> a2b 0 0 0 s'
          end
      end
  end.

Fixpoint repeat_str (s : string) (n : nat) : string :=
  match n with O => EmptyString | S n' => s +:+ repeat_str s n' end.

(** src/valops/common/canonical.py:32-33 b64u_dec

    [None] is the [ValueError] of a malformed or non-ASCII string. *)
Definition b64u_dec (s : string) : option string :=
  if any_char (λ c, 128 <=? nat_of_ascii c)%nat s then None
  else a2b 0 0 0 (s +:+ repeat_str "=" ((4 - String.length s mod 4) mod 4)).

(** [base64.b64decode] of a string: the standard alphabet, no padding added; [-] and
    [_] are among the characters it skips. *)
Fixpoint drop_chars (p : ascii → bool) (s : string) : string :=
  match s with
  | EmptyString => EmptyString
  | String c s' => if p c then drop_chars p s' else String c (drop_chars p s')
  end.
Definition b64decode (s : string) : option string :=
  if any_char (λ c, 128 <=? nat_of_ascii c)%nat s then None
  else a2b 0 0 0 (drop_chars (λ c, Ascii.eqb c "-" || Ascii.eqb c "_") s).

(** ** Examples *)
Definition sample : val :=
  VDict [("b", VList [VInt (-3); VNone; VBool true]); ("a", VStr ("q" +:+ ch 34 +:+ ch 10)); ("c", VFloat (5 # 4))].
Example canonical_sample : canonical sample =
  "{" +:+ quote "a" +:+ ":" +:+ ch 34 +:+ "q" +:+ ch 92 +:+ ch 34 +:+ ch 92 +:+ "n" +:+ ch 34 +:+ ","
  +:+ quote "b" +:+ ":[-3,null,true]," +:+ quote "c" +:+ ":1.25}".
Proof. vm_compute. reflexivity. Qed.
Example loads_sample : json_loads (canonical sample) =
  Some (VDict [("a", VStr ("q" +:+ ch 34 +:+ ch 10)); ("b", VList [VInt (-3); VNone; VBool true]); ("c", VFloat (5 # 4))]).
Proof. vm_compute. reflexivity. Qed.
Example b64u_sample : b64u_dec (b64u "any carnal pleas") = Some "any carnal pleas".
Proof. vm_compute. reflexivity. Qed.
