(* ===== verification/Json.v ===== *)
(** * Canonical JSON round-trips

    [json_loads (canonical v)] is [v] with its dictionaries sorted by key: what a
    component signs or hashes is what the other side reads. Canonical text is
    therefore injective up to key order. *)
From S2P Require Import Prelude PyVal Schema Canonical.
From Stdlib Require Qcanon.
From Stdlib Require Import Ascii ZifyNat Sorted.

#[local] Arguments String.append !_ _ /.

(** ** Strings *)
Lemma string_app_assoc (a b c : string) : (a +:+ b) +:+ c = a +:+ (b +:+ c).
Proof. induction a as [|x a IH]; cbn; [done | by rewrite IH]. Qed.
Lemma string_app_nil (a : string) : a +:+ "" = a.
Proof. induction a as [|x a IH]; cbn; [done | by rewrite IH]. Qed.
Lemma string_length_app (a b : string) : String.length (a +:+ b) = String.length a + String.length b.
Proof. induction a as [|x a IH]; cbn; [done | by rewrite IH]. Qed.

(** An escaped string is read back. *)
Lemma parse_str_char c rest : parse_str (esc_char c +:+ rest) = ('(a, r) ← parse_str rest; Some (String c a, r)).
Proof. by destruct c as [[] [] [] [] [] [] [] []]. Qed.
Lemma parse_str_esc s r : parse_str (esc s +:+ String (ascii_of_nat 34) r) = Some (s, r).
Proof. induction s as [|c s IH]; [done|]. cbn [esc]. by rewrite string_app_assoc, parse_str_char, IH. Qed.

(** ** Digits *)
Definition value_of (acc : N) (s : string) (n : N) : Prop := digits_acc acc s = Some (acc * 10 ^ N.of_nat (String.length s) + n)%N.

Lemma digits_acc_app acc s t : digits_acc acc (s +:+ t) = (a ← digits_acc acc s; digits_acc a t).
Proof. revert acc. induction s as [|c s IH]; cbn; intros acc; [done|]. destruct (is_digit c); [apply IH | done]. Qed.

Lemma digit_read acc n : (n < 10)%N → digits_acc acc (digit n) = Some (acc * 10 + n)%N.
Proof.
  intros Hn. assert (n ∈ [0; 1; 2; 3; 4; 5; 6; 7; 8; 9]%N) as Hin by (rewrite !elem_of_cons; lia).
  rewrite !elem_of_cons, elem_of_nil in Hin. by repeat destruct Hin as [->|Hin].
Qed.

Lemma digits_snoc acc s n m :
  value_of acc s n → (m < 10)%N → value_of acc (s +:+ digit m) (n * 10 + m).
Proof.
  unfold value_of. intros Hs Hm. rewrite digits_acc_app, Hs, string_length_app. cbn -[digit].
  rewrite digit_read by done. f_equal. cbn [String.length digit]. rewrite Nat.add_1_r, Nat2N.inj_succ, N.pow_succ_r'. lia.
Qed.

Lemma print_digits_read f n acc : (n < 2 ^ N.of_nat f)%N → value_of acc (print_digits (S f) n) n.
Proof.
  revert n. induction f as [|f IH]; intros n Hn.
  - cbn in Hn. assert (n = 0)%N as -> by lia. unfold value_of. cbn -[digits_acc digit]. by rewrite digit_read.
  - remember (S f) as f' eqn:Hf. cbn [print_digits]. destruct (N.ltb_spec n 10) as [Hlt|Hge].
    + unfold value_of. rewrite digit_read by done. cbn. f_equal; lia.
    + rewrite (N.div_mod' n 10) at 3. rewrite N.mul_comm. apply digits_snoc; [|by apply N.mod_lt].
      subst f'. apply IH. rewrite Nat2N.inj_succ, N.pow_succ_r' in Hn. apply N.Div0.div_lt_upper_bound. lia.
Qed.

Lemma size_nat_bound n : (n < 2 ^ N.of_nat (N.size_nat n))%N.
Proof.
  destruct n as [|p]; [done|]. cbn [N.size_nat]. induction p as [p IH|p IH|]; cbn [Pos.size_nat];
    rewrite ?Nat2N.inj_succ, ?N.pow_succ_r'; [lia | lia | done].
Qed.

Lemma print_N_read n acc : value_of acc (print_N n) n.
Proof. apply print_digits_read, size_nat_bound. Qed.

Lemma fixed_digits_length k n : String.length (fixed_digits k n) = k.
Proof. revert n. induction k as [|k IH]; intros n; cbn; [done|]. rewrite string_length_app, IH. cbn. lia. Qed.
Lemma fixed_digits_read k n acc : value_of acc (fixed_digits k n) (n mod 10 ^ N.of_nat k).
Proof.
  revert n. induction k as [|k IH]; intros n; cbn [fixed_digits].
  - unfold value_of. cbn. f_equal. rewrite N.mod_1_r. lia.
  - replace (n mod 10 ^ N.of_nat (S k))%N with ((n / 10) mod 10 ^ N.of_nat k * 10 + n mod 10)%N.
    + apply digits_snoc; [apply IH | by apply N.mod_lt].
    + rewrite Nat2N.inj_succ, N.pow_succ_r'. rewrite N.Div0.mod_mul_r. lia.
Qed.

(** A string of digits, and where it stops. *)
Definition all_digits (s : string) : bool := all_chars is_digit s.
Definition no_digit (r : string) : bool := match r with String c _ => negb (is_digit c) | EmptyString => true end.

Lemma digits_acc_all acc s n : digits_acc acc s = Some n → all_digits s = true.
Proof. revert acc. induction s as [|c s IH]; cbn; intros acc; [done|]. destruct (is_digit c); [apply IH | done]. Qed.

Lemma span_digits s r : all_digits s = true → no_digit r = true → span is_digit (s +:+ r) = (s, r).
Proof.
  intros Hs Hr. induction s as [|c s IH]; cbn in *.
  - destruct r as [|c r]; [done|]. cbn in *. by destruct (is_digit c).
  - bools. rewrite H. by rewrite IH.
Qed.

(** ** Numbers *)
Lemma print_digits_head f n : (n < 2 ^ N.of_nat f)%N →
  (n = 0%N ∧ print_digits (S f) n = "0") ∨
  ∃ c s, print_digits (S f) n = String c s ∧ is_digit c = true ∧ c ≠ "0"%char.
Proof.
  revert n. induction f as [|f IH]; intros n Hn.
  - cbn in Hn. assert (n = 0)%N as -> by lia. by left.
  - remember (S f) as f' eqn:Hf. cbn [print_digits]. destruct (N.ltb_spec n 10) as [Hlt|Hge].
    + assert (n ∈ [0; 1; 2; 3; 4; 5; 6; 7; 8; 9]%N) as Hin by (rewrite !elem_of_cons; lia).
      rewrite !elem_of_cons, elem_of_nil in Hin.
      repeat destruct Hin as [->|Hin]; try done; [by left|..]; right; eexists _, _; by split_and!.
    + right. subst f'. destruct (IH (n / 10)%N) as [[H0 _]|(c & s & -> & Hc & Hne)].
      * rewrite Nat2N.inj_succ, N.pow_succ_r' in Hn. apply N.Div0.div_lt_upper_bound. lia.
      * apply N.div_small_iff in H0; lia.
      * eexists _, _. split; [reflexivity | done].
Qed.

Lemma print_N_head n : (n = 0%N ∧ print_N n = "0") ∨
  ∃ c s, print_N n = String c s ∧ is_digit c = true ∧ c ≠ "0"%char.
Proof. apply print_digits_head, size_nat_bound. Qed.

Lemma print_N_digits n : digits_N (print_N n) = Some n.
Proof.
  pose proof (print_N_read n 0) as H. unfold value_of in H. rewrite N.mul_0_l, N.add_0_l in H.
  unfold digits_N. destruct (print_N_head n) as [[_ Hs]|(c & s & Hs & _)]; by rewrite Hs in *.
Qed.

(** The integer part of a printed number is read up to what follows it. *)
Lemma int_part_read n r : no_digit r = true → int_part (print_N n +:+ r) = (print_N n, r).
Proof.
  intros Hr. destruct (print_N_head n) as [[_ Hs]|(c & s & Hs & Hc & Hne)]; [by rewrite Hs|].
  rewrite <- (span_digits (print_N n) r); [|by apply (digits_acc_all 0 _ _ (print_N_read n 0))|done].
  rewrite Hs. by destruct c as [[] [] [] [] [] [] [] []].
Qed.
Lemma split_sign_read neg n r :
  split_sign ((if neg : bool then "-" else EmptyString) +:+ (print_N n +:+ r)) = (neg, print_N n +:+ r).
Proof.
  destruct neg; [done|]. destruct (print_N_head n) as [[_ ->]|(c & s & -> & Hc & _)]; [done|].
  by destruct c as [[] [] [] [] [] [] [] []].
Qed.

(** What may follow a value: the end, a separator, the end of its line. *)
Definition delim (r : string) : bool :=
  match r with
  | String c _ => Ascii.eqb c "," || Ascii.eqb c "]" || Ascii.eqb c "}" || Ascii.eqb c "010"
  | EmptyString => true
  end.
Lemma delim_inv r : delim r = true → r = EmptyString ∨ ∃ c r', r = String c r' ∧ c ∈ [","; "]"; "}"; "010"]%char.
Proof.
  destruct r as [|c r]; [by left|]. cbn. intros H. right. exists c, r. split; [done|]. rewrite !elem_of_cons.
  repeat match goal with H : _ || _ = true |- _ => apply orb_true_iff in H as [H|H] end; apply Ascii.eqb_eq in H; auto.
Qed.
Lemma delim_no_digit r : delim r = true → no_digit r = true.
Proof.
  intros [->|(c & r' & -> & Hc)]%delim_inv; [done|]. rewrite !elem_of_cons, elem_of_nil in Hc.
  by repeat destruct Hc as [->|Hc].
Qed.

Lemma delim_exponent r : delim r = true → exponent r = (None, r).
Proof.
  intros [->|(c & r' & -> & Hc)]%delim_inv; [done|]. rewrite !elem_of_cons, elem_of_nil in Hc.
  by repeat destruct Hc as [->|Hc].
Qed.
Lemma delim_fraction r : delim r = true → fraction r = (None, r).
Proof.
  intros [->|(c & r' & -> & Hc)]%delim_inv; [done|]. rewrite !elem_of_cons, elem_of_nil in Hc.
  by repeat destruct Hc as [->|Hc].
Qed.

Lemma parse_print_int z r : delim r = true → parse_num (print_int z +:+ r) = Some (VInt z, r).
Proof.
  intros Hr. unfold print_int, parse_num. rewrite string_app_assoc, split_sign_read.
  rewrite (int_part_read _ _ (delim_no_digit _ Hr)), print_N_digits, (delim_fraction _ Hr), (delim_exponent _ Hr).
  cbn. repeat f_equal. destruct (Z.ltb_spec z 0); lia.
Qed.

Lemma join_digits n k :
  (Z.of_N (n / 10 ^ N.of_nat k) * 10 ^ Z.of_nat k + Z.of_N (n mod 10 ^ N.of_nat k) = Z.of_N n)%Z.
Proof.
  replace (10 ^ Z.of_nat k)%Z with (Z.of_N (10 ^ N.of_nat k)) by (rewrite N2Z.inj_pow; f_equal; lia).
  rewrite <- N2Z.inj_mul, <- N2Z.inj_add, N.mul_comm. by rewrite <- N.div_mod'.
Qed.

(** Floats with a finite decimal notation, as all those of a computer are. *)
Definition decimal (q : Q) : Prop := (10 ^ Z.of_nat (places (Qred q)) mod Zpos (Qden (Qred q)) = 0)%Z.

(** The value of [m] tens to the power [d], as the reader makes it. *)
Definition scaled (m d : Z) : Q := if (d <? 0)%Z then m # Z.to_pos (10 ^ (- d)) else inject_Z (m * 10 ^ d).
Lemma scaled_value p n m z k : decimal p → Qred p = p → n = Z.to_N (Z.abs (Qnum p) * 10 ^ Z.of_nat k / Zpos (Qden p)) → k = places p →
  n = (m * 10 ^ N.of_nat z)%N → Qred (scaled (if (Qnum p <? 0)%Z then (- Z.of_N m)%Z else Z.of_N m) (Z.of_nat z - Z.of_nat k)) = p.
Proof.
  intros Hq Hp Hn Hk Hm. unfold decimal in Hq. rewrite Hp, <- Hk in Hq.
  assert (Z.of_N m * 10 ^ Z.of_nat z * Zpos (Qden p) = Z.abs (Qnum p) * 10 ^ Z.of_nat k)%Z as Hv.
  { transitivity (Z.of_N n * Zpos (Qden p))%Z; [by rewrite Hm, N2Z.inj_mul, N2Z.inj_pow, nat_N_Z|]. rewrite Hn, Z2N.id by (apply Z.div_pos; lia).
    apply Z.mod_divide in Hq as [c Hc]; [|lia]. rewrite Hc, Z.mul_assoc, Z.div_mul by lia. lia. }
  transitivity (Qred p); [|done]. apply Qred_complete. unfold scaled.
  destruct (Z.ltb_spec (Z.of_nat z - Z.of_nat k) 0) as [Hd|Hd]; unfold Qeq; cbn [Qnum Qden inject_Z].
  - rewrite Z2Pos.id by lia. replace (Z.of_nat k) with (Z.of_nat z + - (Z.of_nat z - Z.of_nat k))%Z in Hv by lia.
    rewrite Z.pow_add_r in Hv by lia. assert (0 < 10 ^ Z.of_nat z)%Z by lia. destruct (Z.ltb_spec (Qnum p) 0); nia.
  - replace (Z.of_nat z) with (Z.of_nat k + (Z.of_nat z - Z.of_nat k))%Z in Hv by lia.
    rewrite Z.pow_add_r in Hv by lia. assert (0 < 10 ^ Z.of_nat k)%Z by lia. destruct (Z.ltb_spec (Qnum p) 0); nia.
Qed.
Lemma strip_zeros_spec f n : n = ((strip_zeros f n).1 * 10 ^ N.of_nat (strip_zeros f n).2)%N.
Proof.
  revert n. induction f as [|f IH]; intros n; cbn [strip_zeros]; [cbn; lia|]. destruct (N.eqb_spec (n mod 10) 0) as [H0|H0]; [|cbn; lia].
  specialize (IH (n / 10)%N). destruct (strip_zeros f (n / 10)) as [m z]. cbn [fst snd] in *. rewrite Nat2N.inj_succ, N.pow_succ_r'.
  pose proof (N.div_mod' n 10). lia.
Qed.

(** The digits after the point, and the exponent, are read. *)
Lemma digits_N_fixed k n : (0 < k)%nat → digits_N (fixed_digits k n) = Some (n mod 10 ^ N.of_nat k)%N.
Proof.
  intros Hk. pose proof (fixed_digits_read k n 0) as Hf. unfold value_of in Hf. rewrite N.mul_0_l, N.add_0_l in Hf.
  assert (String.length (fixed_digits k n) = k) as Hlen by apply fixed_digits_length. unfold digits_N.
  destruct (fixed_digits k n); [cbn in Hlen; lia|done].
Qed.
Lemma fraction_read k n r : (0 < k)%nat → no_digit r = true → fraction ("." +:+ (fixed_digits k n +:+ r)) = (Some (fixed_digits k n), r).
Proof.
  intros Hk Hr. cbn [fraction String.append]. rewrite span_digits; [|by apply (digits_acc_all 0 _ _ (fixed_digits_read k n 0))|done].
  assert (String.length (fixed_digits k n) = k) as Hlen by apply fixed_digits_length. destruct (fixed_digits k n); [cbn in Hlen; lia|done].
Qed.
Lemma exponent_digits_read n : digits_N (exponent_digits n) = Some n.
Proof.
  unfold exponent_digits. pose proof (print_N_digits n) as H. destruct (n <? 10)%N; [|exact H].
  unfold digits_N in *. destruct (print_N n); [done|exact H].
Qed.
Lemma exponent_digits_all n : all_digits (exponent_digits n) = true.
Proof.
  pose proof (exponent_digits_read n) as H. unfold digits_N in H. destruct (exponent_digits n); [done|]. by apply digits_acc_all in H.
Qed.
Lemma exponent_read (e : Z) r : delim r = true →
  exponent ("e" +:+ ((if (e <? 0)%Z then "-" else "+") +:+ (exponent_digits (Z.abs_N e) +:+ r))) = (Some ((e <? 0)%Z, exponent_digits (Z.abs_N e)), r).
Proof.
  intros Hr. assert (span is_digit (exponent_digits (Z.abs_N e) +:+ r) = (exponent_digits (Z.abs_N e), r)) as Hs
    by (apply span_digits; [apply exponent_digits_all|by apply delim_no_digit]).
  pose proof (exponent_digits_read (Z.abs_N e)) as Hd. destruct (e <? 0)%Z; cbn [exponent String.append Ascii.eqb Bool.eqb orb];
    rewrite Hs; by destruct (exponent_digits _).
Qed.

Lemma parse_print_float q r : decimal q → delim r = true → parse_num (print_float q +:+ r) = Some (VFloat (Qred q), r).
Proof.
  intros Hq Hr. unfold print_float, parse_num. set (p := Qred q).
  assert (Qred p = p) as Hp by (apply Qred_complete, Qred_correct). assert (decimal p) as Hdec by (unfold decimal in *; by rewrite Hp).
  unfold float_parts. set (k := places p). set (n := Z.to_N _). pose proof (strip_zeros_spec (N.size_nat n) n) as Hn.
  destruct (strip_zeros _ n) as [m z]. cbn [fst snd] in Hn. cbv zeta. set (l := pred _). set (e := (Z.of_nat l + (Z.of_nat z - Z.of_nat k))%Z).
  assert (0 < k)%nat as Hk by (unfold k, places; lia). destruct (_ || _); cbn [fst snd].
  - rewrite !string_app_assoc, split_sign_read, int_part_read by done. rewrite print_N_digits. cbn [mbind option_bind].
    rewrite (fraction_read k n r Hk (delim_no_digit _ Hr)), (delim_exponent _ Hr), fixed_digits_length. cbn [from_option id].
    rewrite digits_N_fixed by done. cbn [mbind option_bind]. do 3 f_equal. rewrite (join_digits n k).
    apply (scaled_value p n n 0 k); try done. cbn. lia.
  - rewrite !string_app_assoc, split_sign_read.
    assert (∀ x, digits_N (exponent_digits (Z.abs_N e)) = Some x → (if (e <? 0)%Z then (- Z.of_N x)%Z else Z.of_N x) = e) as Hx.
    { intros x. rewrite exponent_digits_read. intros [= <-]. destruct (Z.ltb_spec e 0); lia. }
    destruct (Nat.eqb_spec l 0) as [Hl|Hl].
    + rewrite int_part_read by done. rewrite print_N_digits. cbn [mbind option_bind String.append].
      cbn [fraction]. pose proof (exponent_read e r Hr) as He. cbn [String.append] in He. rewrite He.
      cbn [from_option id]. change (digits_N "0") with (Some 0%N). cbn [mbind option_bind]. rewrite exponent_digits_read in *.
      cbn [mbind option_bind]. rewrite (Hx _ eq_refl). do 3 f_equal. unfold e. rewrite Hl, N.pow_0_r, N.div_1_r.
      rewrite Z.add_0_l, Z.sub_0_r. cbn [Z.pow]. rewrite Z.mul_1_r, Z.add_0_r. by apply (scaled_value p n m z k).
    + rewrite !string_app_assoc, int_part_read by done. rewrite print_N_digits. cbn [mbind option_bind].
      rewrite fraction_read by (try lia; done). rewrite exponent_read, fixed_digits_length by done. cbn [from_option id].
      rewrite digits_N_fixed by lia. cbn [mbind option_bind]. rewrite exponent_digits_read in *. cbn [mbind option_bind].
      rewrite (Hx _ eq_refl). do 3 f_equal. rewrite (join_digits m l). replace (e - Z.of_nat l)%Z with (Z.of_nat z - Z.of_nat k)%Z by lia.
      by apply (scaled_value p n m z k).
Qed.

Lemma dec_places_spec fuel den k j :
  (10 ^ Z.of_nat j mod den = 0)%Z → (0 < den)%Z → k ≤ j → j ≤ k + fuel →
  (10 ^ Z.of_nat (dec_places fuel den k) mod den = 0)%Z.
Proof.
  intros Hj Hden. revert k. induction fuel as [|f IH]; intros k Hkj Hjf; cbn [dec_places].
  - by replace k with j by lia.
  - destruct (Z.eqb_spec (10 ^ Z.of_nat k mod den) 0) as [|Hne]; [done|].
    destruct (decide (k = j)) as [->|]; [done|]. apply IH; lia.
Qed.

(** A binary float has a finite decimal notation. *)
Lemma binary_decimal q m : Qden (Qred q) = (2 ^ m)%positive → decimal q.
Proof.
  intros Hden. unfold decimal, places. rewrite Hden. set (fuel := Pos.size_nat _).
  assert (Zpos (2 ^ m) = 2 ^ Zpos m)%Z as Hpow by (by rewrite Pos2Z.inj_pow).
  assert (∀ j, (Pos.to_nat m ≤ j)%nat → (10 ^ Z.of_nat j mod Zpos (2 ^ m) = 0)%Z) as Hdiv.
  { intros j Hj. rewrite Hpow. apply Z.mod_divide; [lia|].
    replace 10%Z with (2 * 5)%Z by done. rewrite Z.pow_mul_l. apply Z.divide_mul_l.
    exists (2 ^ (Z.of_nat j - Zpos m))%Z. rewrite <- Z.pow_add_r by lia. f_equal. lia. }
  assert (Pos.to_nat m ≤ fuel) as Hfuel.
  { pose proof (size_nat_bound (Npos (2 ^ m))) as H. cbn [N.size_nat] in H. fold fuel in H.
    change (Npos (2 ^ m)) with (2 ^ Npos m)%N in H. apply N.pow_lt_mono_r_iff in H; lia. }
  assert (10 ^ Z.of_nat (dec_places fuel (Zpos (2 ^ m)) 0) mod Zpos (2 ^ m) = 0)%Z as H0.
  { apply (dec_places_spec _ _ _ (Pos.to_nat m)); [by apply Hdiv | done | lia | lia]. }
  destruct (dec_places fuel _ 0) as [|k] eqn:Hk; [|by rewrite Nat.max_r by lia].
  cbn [Z.of_nat Z.pow] in H0. rewrite Z.mod_1_l in H0; [done|]. rewrite Hpow. apply Z.pow_gt_1; lia.
Qed.

(** ** Values *)
(** What a JSON reader returns: no key twice, finite floats. *)
Fixpoint jwf (v : val) : Prop :=
  match v with
  | VFloat q => decimal q
  | VList l => (fix go (l : list val) : Prop := match l with [] => True | x :: l' => jwf x ∧ go l' end) l
  | VDict d => NoDup (dkeys d) ∧ (fix go (d : dict) : Prop := match d with [] => True | (_, x) :: d' => jwf x ∧ go d' end) d
  | _ => True
  end.

(** The value with its dictionaries sorted and its floats reduced. *)
Fixpoint norm (v : val) : val :=
  match v with
  | VFloat q => VFloat (Qred q)
  | VList l => VList (map norm l)
  | VDict d => VDict (ksort (map (λ '(k, x), (k, norm x)) d))
  | _ => v
  end.

Lemma jwf_list l : jwf (VList l) ↔ Forall jwf l.
Proof. cbn. induction l as [|x l IH]; [by split; [constructor|]|]. by rewrite list.Forall_cons, IH. Qed.
Lemma jwf_dict d : jwf (VDict d) ↔ NoDup (dkeys d) ∧ Forall (λ kv, jwf kv.2) d.
Proof.
  cbn. apply and_iff_compat_l. induction d as [|[k x] d IH]; [by split; [constructor|]|]. by rewrite list.Forall_cons, IH.
Qed.

(** Sorting permutes, and commutes with a map over the values. *)
Lemma kinsert_perm {A} (x : string * A) l : kinsert x l ≡ₚ x :: l.
Proof. induction l as [|y l IH]; cbn; [done|]. destruct (String.ltb _ _); [|done]. by rewrite IH, Permutation_swap. Qed.
Lemma ksort_perm {A} (l : list (string * A)) : ksort l ≡ₚ l.
Proof. unfold ksort. induction l as [|x l IH]; cbn; [done|]. by rewrite kinsert_perm, IH. Qed.
Lemma kinsert_map {A B} (f : A → B) (x : string * A) l :
  kinsert (x.1, f x.2) (map (λ '(k, y), (k, f y)) l) = map (λ '(k, y), (k, f y)) (kinsert x l).
Proof. induction l as [|[k y] l IH]; cbn; [by destruct x|]. destruct (String.ltb k x.1); cbn; [by rewrite IH | by destruct x]. Qed.
Lemma ksort_map {A B} (f : A → B) (l : list (string * A)) :
  ksort (map (λ '(k, y), (k, f y)) l) = map (λ '(k, y), (k, f y)) (ksort l).
Proof. unfold ksort. induction l as [|[k y] l IH]; cbn; [done|]. rewrite IH. apply (kinsert_map f (k, y)). Qed.

(** The first character of a value. *)
Definition starts_value (c : ascii) : bool :=
  negb (is_ws c) && negb (Ascii.eqb c "]") && negb (Ascii.eqb c "}").
Lemma digit_starts c : is_digit c = true → starts_value c = true.
Proof. by destruct c as [[] [] [] [] [] [] [] []]. Qed.
Lemma print_N_starts n : ∃ c s, print_N n = String c s ∧ is_digit c = true.
Proof. destruct (print_N_head n) as [[_ ->]|(c & s & -> & Hc & _)]; by eexists _, _. Qed.
Lemma number_starts (b : bool) n r : ∃ c s, (if b then "-" else EmptyString) +:+ (print_N n +:+ r) = String c s ∧
  starts_value c = true ∧ (c = "-"%char ∨ is_digit c = true).
Proof.
  destruct (print_N_starts n) as (c & s & -> & Hc). destruct b; eexists _, _; (split; [reflexivity|]); [by auto|].
  split; [by apply digit_starts | by right].
Qed.

(** [json_loads]' reader on numbers: a number is not a keyword, a string or a container. *)
Lemma parse_val_number f c s x : c = "-"%char ∨ is_digit c = true →
  parse_num (String c s) = x → parse_val (S f) (String c s) = x.
Proof. intros Hc <-. destruct c as [[] [] [] [] [] [] [] []]; try done; by destruct Hc as [?|?]. Qed.

(** One step of the readers of elements and members. *)
Lemma parse_elems_S f s : parse_elems (S f) s =
  ('(v, r) ← parse_val f s;
   match skip_ws r with
   | String "]"%char r' => Some ([v], r')
   | String ","%char r' => '(l, r'') ← parse_elems f (skip_ws r'); Some (v :: l, r'')
   | _ => None
   end).
Proof. done. Qed.
Lemma parse_members_S f r : parse_members (S f) (String (ascii_of_nat 34) r) =
  ('(k, r1) ← parse_str r;
   match skip_ws r1 with
   | String ":"%char r2 =>
       '(v, r3) ← parse_val f (skip_ws r2);
       match skip_ws r3 with
       | String "}"%char r4 => Some ([(k, v)], r4)
       | String ","%char r4 => '(d, r5) ← parse_members f (skip_ws r4); Some ((k, v) :: d, r5)
       | _ => None
       end
   | _ => None
   end).
Proof. done. Qed.

Lemma skip_ws_sep c r : is_ws c = false → skip_ws (String c r) = String c r.
Proof. cbn. by intros ->. Qed.
Lemma skip_ws_append s r : (∃ c s', s = String c s' ∧ is_ws c = false) → skip_ws (s +:+ r) = s +:+ r.
Proof. intros (c & s' & -> & Hc). cbn. by rewrite Hc. Qed.
Lemma skip_ws_pad p r : all_chars is_ws p = true → skip_ws (p +:+ r) = skip_ws r.
Proof. induction p as [|c p IH]; cbn; [done|]. by destruct (is_ws c). Qed.

Lemma dset_fresh {A} (d : list (string * A)) k v : k ∉ dkeys d → dset d k v = d ++ [(k, v)].
Proof.
  induction d as [|[k' v'] d IH]; cbn; [done|]. intros [Hne Hk]%not_elem_of_cons.
  apply String.eqb_neq in Hne. by rewrite Hne, IH.
Qed.
Lemma dupdate_app {A} (d d2 : list (string * A)) : NoDup (dkeys (d ++ d2)) → dupdate d d2 = d ++ d2.
Proof.
  unfold dupdate. revert d. induction d2 as [|[k v] d2 IH]; intros d; cbn; [by rewrite app_nil_r|].
  intros Hnd. rewrite dset_fresh.
  - rewrite IH; [by rewrite <- app_assoc|]. by rewrite <- app_assoc.
  - unfold dkeys in *. rewrite map_app in Hnd. apply list.NoDup_app in Hnd as (_ & Hnd & _).
    intros Hin. apply (Hnd _ Hin). left.
Qed.

(** The reader at the opening bracket or brace of a container. *)
Lemma parse_val_list f c s : starts_value c = true →
  parse_val (S f) (String "[" (String c s)) = ('(l, r) ← parse_elems f (String c s); Some (VList l, r)).
Proof. intros Hc. destruct c as [[] [] [] [] [] [] [] []]; done. Qed.
Lemma parse_val_dict f s :
  parse_val (S f) (String "{" (String (ascii_of_nat 34) s)) =
  ('(d, r) ← parse_members f (String (ascii_of_nat 34) s); Some (VDict (dupdate [] d), r)).
Proof. done. Qed.
Lemma parse_val_str f s : parse_val (S f) (String (ascii_of_nat 34) s) = ('(a, r) ← parse_str s; Some (VStr a, r)).
Proof. done. Qed.

(** *** Printable ASCII *)
Definition printable_char (c : ascii) : bool := let n := nat_of_ascii c in ((32 <=? n) && (n <? 127))%nat.
Definition printable (s : string) : bool := all_chars printable_char s.
Lemma printable_app a b : printable (a +:+ b) = printable a && printable b.
Proof. unfold printable. induction a as [|c a IH]; cbn; [done|]. by rewrite IH, andb_assoc. Qed.
Lemma digits_printable s : all_digits s = true → printable s = true.
Proof.
  unfold all_digits, printable. induction s as [|c s IH]; cbn; [done|]. intros [Hc Hs]%andb_prop. rewrite IH by done.
  by destruct c as [[] [] [] [] [] [] [] []].
Qed.
Lemma print_N_printable n : printable (print_N n) = true.
Proof.
  apply digits_printable. pose proof (print_N_digits n) as H. unfold digits_N in H. destruct (print_N n) as [|c s] eqn:E; [done|].
  by apply digits_acc_all in H.
Qed.
Lemma fixed_digits_printable k n : printable (fixed_digits k n) = true.
Proof. apply digits_printable. pose proof (fixed_digits_read k n 0) as H. by apply digits_acc_all in H. Qed.
Lemma print_int_printable z : printable (print_int z) = true.
Proof. unfold print_int. rewrite printable_app, print_N_printable. by destruct (z <? 0)%Z. Qed.
Lemma print_float_printable x : printable (print_float x) = true.
Proof.
  unfold print_float. rewrite !printable_app, print_N_printable. assert (printable (float_parts (Qred x)).2 = true) as ->; [|by destruct (Qnum _ <? 0)%Z].
  unfold float_parts. destruct (strip_zeros _ _) as [m z]. cbv zeta. destruct (_ || _); cbn [fst snd]; rewrite !printable_app.
  - by rewrite fixed_digits_printable.
  - rewrite (digits_printable _ (exponent_digits_all _)).
    destruct (_ =? 0)%nat; rewrite ?printable_app, ?fixed_digits_printable; by destruct (_ <? 0)%Z.
Qed.

(** *** Printers

    The program writes JSON in more ways than one: with and without spaces, with the keys
    sorted or as they come, with the characters above ASCII escaped or not. All of them
    read back. *)
(** The strings and keys of a value. *)
Fixpoint texts (ok : string → Prop) (v : val) : Prop :=
  match v with
  | VStr s => ok s
  | VList l => (fix go (l : list val) : Prop := match l with [] => True | x :: l' => texts ok x ∧ go l' end) l
  | VDict d => (fix go (d : dict) : Prop := match d with [] => True | (k, x) :: d' => (ok k ∧ texts ok x) ∧ go d' end) d
  | _ => True
  end.
Lemma texts_list ok l : texts ok (VList l) ↔ Forall (texts ok) l.
Proof. cbn. induction l as [|x l IH]; [by split; [constructor|]|]. by rewrite list.Forall_cons, IH. Qed.
Lemma texts_dict ok d : texts ok (VDict d) ↔ Forall (λ kv : string * val, ok kv.1 ∧ texts ok kv.2) d.
Proof. cbn. induction d as [|[k x] d IH]; [by split; [constructor|]|]. by rewrite list.Forall_cons, IH. Qed.
Lemma texts_any (ok : string → Prop) v : (∀ s, ok s) → texts ok v.
Proof.
  intros Hok. induction v as [| | | |s|l Hl|d Hd] using val_rect_strong; try done; [apply Hok|by apply texts_list|].
  apply texts_dict. eapply list.Forall_impl; [exact Hd|]. by intros.
Qed.

Section printer.
(** The printer of values, of strings, the space after separators, the order of members;
    and what is read back. *)
Context (pr : val → string) (q : string → string) (pad : string) (ord : ∀ A, list (string * A) → list (string * A)) (ok : string → Prop).
Fixpoint read_as (v : val) : val :=
  match v with
  | VFloat q => VFloat (Qred q)
  | VList l => VList (map read_as l)
  | VDict d => VDict (ord _ (map (λ '(k, x), (k, read_as x)) d))
  | _ => v
  end.
Definition member (kv : string * val) : string := q kv.1 +:+ ":" +:+ pad +:+ pr kv.2.
Definition sep : string := "," +:+ pad.
Record printer : Prop := mkPrinter {
  pr_pad : all_chars is_ws pad = true;
  pr_none : pr VNone = "null";
  pr_bool b : pr (VBool b) = if b then "true" else "false";
  pr_int z : pr (VInt z) = print_int z;
  pr_float x : pr (VFloat x) = print_float x;
  pr_str s : pr (VStr s) = q s;
  pr_list l : pr (VList l) = "[" +:+ join sep (map pr l) +:+ "]";
  pr_dict d : pr (VDict d) = "{" +:+ join sep (map member (ord _ d)) +:+ "}";
  pr_quote s : ok s → ∃ t, q s = String (ascii_of_nat 34) t ∧ ∀ r, parse_str (t +:+ r) = Some (s, r);
  pr_perm A d : ord A d ≡ₚ d;
  pr_map A B (f : A → B) d : ord B (map (λ '(k, x), (k, f x)) d) = map (λ '(k, x), (k, f x)) (ord A d) }.

Section reads.
Context (P : printer).
Lemma pr_starts v : texts ok v → ∃ c s, pr v = String c s ∧ starts_value c = true.
Proof.
  destruct v as [|b|z|x|s|l|d]; intros Ht.
  - rewrite (pr_none P). by eexists _, _.
  - rewrite (pr_bool P). destruct b; by eexists _, _.
  - rewrite (pr_int P). destruct (number_starts (z <? 0)%Z (Z.abs_N z) EmptyString) as (c & s & Hs & Hc & _).
    rewrite string_app_nil in Hs. by exists c, s.
  - rewrite (pr_float P). unfold print_float.
    match goal with |- context [(if ?b then "-" else _) +:+ (print_N ?n +:+ ?r)] =>
      destruct (number_starts b n r) as (c & s & Hs & Hc & _) end. by exists c, s.
  - rewrite (pr_str P). destruct (pr_quote P s Ht) as (t & -> & _). by eexists _, _.
  - rewrite (pr_list P). by eexists _, _.
  - rewrite (pr_dict P). by eexists _, _.
Qed.
Lemma skip_ws_pr v r : texts ok v → skip_ws (pr v +:+ r) = pr v +:+ r.
Proof.
  intros Ht. apply skip_ws_append. destruct (pr_starts v Ht) as (c & s & -> & Hc). exists c, s. split; [done|].
  unfold starts_value in Hc. by destruct (is_ws c).
Qed.
Definition reads (v : val) : Prop := ∀ f r, jwf v → texts ok v → delim r = true → String.length (pr v) < f →
  parse_val f (pr v +:+ r) = Some (read_as v, r).
Lemma join_sep x y l : join sep (x :: y :: l) = x +:+ String "," (pad +:+ join sep (y :: l)).
Proof. done. Qed.
Lemma join_starts x l r c s : x = String c s → ∃ s', join sep (x :: l) +:+ r = String c s'.
Proof. intros ->. destruct l; cbn; eauto. Qed.

Lemma parse_elems_join l : Forall reads l → Forall jwf l → Forall (texts ok) l → l ≠ [] → ∀ f r,
  S (String.length (join sep (map pr l))) < f →
  parse_elems f (join sep (map pr l) +:+ String "]" r) = Some (map read_as l, r).
Proof.
  induction l as [|x l IH]; [done|]. intros [Hx Hl]%list.Forall_cons [Hwx Hwl]%list.Forall_cons [Htx Htl]%list.Forall_cons _ f r Hf.
  destruct f as [|f]; [lia|]. rewrite parse_elems_S. destruct l as [|y l].
  - cbn [map join String.concat] in *. rewrite Hx; [|done..|lia]. cbn [mbind option_bind]. by rewrite skip_ws_sep.
  - cbn [map] in *. rewrite join_sep in *. rewrite string_length_app in Hf. cbn [String.length] in Hf. rewrite string_length_app in Hf.
    rewrite string_app_assoc. cbn [String.append]. rewrite Hx; [|done..|lia].
    cbn [mbind option_bind]. rewrite skip_ws_sep by done. rewrite string_app_assoc, (skip_ws_pad pad) by apply (pr_pad P). rewrite skip_ws_append.
    + rewrite IH; [done..|lia].
    + apply list.Forall_cons in Htl as [Hty _]. destruct (pr_starts y Hty) as (c & s & Hc & Hst). unfold starts_value in Hst.
      destruct l; cbn [map join String.concat]; rewrite Hc; eexists _, _; (split; [reflexivity|]); by destruct (is_ws c).
Qed.

Lemma parse_members_join d : Forall (λ kv, reads kv.2) d → Forall (λ kv, jwf kv.2) d → Forall (λ kv : string * val, ok kv.1 ∧ texts ok kv.2) d →
  d ≠ [] → ∀ f r, S (String.length (join sep (map member d))) < f →
  parse_members f (join sep (map member d) +:+ String "}" r) = Some (map (λ '(k, x), (k, read_as x)) d, r).
Proof.
  induction d as [|[k x] d IH]; [done|]. intros [Hx Hd]%list.Forall_cons [Hwx Hwd]%list.Forall_cons [[Hk Htx] Htd]%list.Forall_cons _ f r Hf.
  cbn [fst snd] in *. destruct f as [|f]; [lia|]. destruct (pr_quote P k Hk) as (t & Hq & Hread).
  assert (∀ u, member (k, x) +:+ u = String (ascii_of_nat 34) (t +:+ String ":" (pad +:+ (pr x +:+ u)))) as Hmem.
  { intros u. unfold member. cbn [fst snd]. rewrite Hq. cbn [String.append]. rewrite string_app_assoc. cbn [String.append]. by rewrite string_app_assoc. }
  assert (String.length (pr x) + 1 ≤ String.length (member (k, x))) as Hlen.
  { unfold member. rewrite !string_length_app. cbn [fst snd String.length]. lia. }
  assert (∀ u, delim u = true → parse_members (S f) (member (k, x) +:+ u) = match skip_ws u with
     | String "}"%char r4 => Some ([(k, read_as x)], r4)
     | String ","%char r4 => '(d, r5) ← parse_members f (skip_ws r4); Some ((k, read_as x) :: d, r5)
     | _ => None end) as Hstep.
  { intros u Hu. rewrite Hmem, parse_members_S, Hread. cbn [mbind option_bind]. rewrite skip_ws_sep by done.
    rewrite (skip_ws_pad pad) by apply (pr_pad P). rewrite skip_ws_pr by done. rewrite Hx; [done|done..|].
    destruct d as [|y d]; cbn [map join String.concat] in Hf; rewrite ?string_length_app in Hf; lia. }
  destruct d as [|[k' y] d].
  - cbn [map join String.concat] in *. rewrite Hstep by done. by rewrite skip_ws_sep.
  - cbn [map] in *. rewrite join_sep in *. rewrite string_length_app in Hf. cbn [String.length] in Hf. rewrite string_length_app in Hf.
    rewrite string_app_assoc. cbn [String.append]. rewrite Hstep by done. rewrite skip_ws_sep by done.
    rewrite string_app_assoc, (skip_ws_pad pad) by apply (pr_pad P).
    rewrite skip_ws_append; [rewrite IH; [done..|lia]|].
    apply list.Forall_cons in Htd as [[Hk' _] _]. destruct (pr_quote P k' Hk') as (t' & Hq' & _). cbn [fst] in Hq'.
    destruct d; cbn [map join String.concat]; unfold member; cbn [fst snd]; rewrite Hq'; eexists _, _; (split; [reflexivity|done]).
Qed.

Lemma reads_all v : reads v.
Proof.
  induction v as [|b|z|x|s|l Hl|d Hd] using val_rect_strong; intros f r Hw Ht Hr Hf; destruct f as [|f]; try lia.
  - by rewrite (pr_none P).
  - rewrite (pr_bool P). by destruct b.
  - rewrite (pr_int P). destruct (number_starts (z <? 0)%Z (Z.abs_N z) r) as (c & s & Hs & _ & Hc).
    pose proof (parse_print_int z r Hr) as Hp. unfold print_int in *. rewrite string_app_assoc in *.
    rewrite Hs in *. by apply parse_val_number.
  - rewrite (pr_float P). pose proof (parse_print_float x r Hw Hr) as Hp. unfold print_float in *. rewrite !string_app_assoc in *.
    match type of Hp with context [(if ?b then "-" else _) +:+ (print_N ?n +:+ ?r)] =>
      destruct (number_starts b n r) as (c & s & Hs & _ & Hc) end.
    rewrite Hs in *. by apply parse_val_number.
  - rewrite (pr_str P). destruct (pr_quote P s Ht) as (t & -> & Hq). cbn [String.append]. by rewrite parse_val_str, Hq.
  - apply jwf_list in Hw. apply texts_list in Ht. rewrite (pr_list P) in *. destruct l as [|x l]; [done|].
    rewrite !string_length_app in Hf. rewrite !string_app_assoc. cbn [String.append String.length] in *.
    pose proof (parse_elems_join (x :: l) Hl Hw Ht ltac:(done) f r ltac:(lia)) as Hp.
    apply list.Forall_cons in Ht as [Htx _]. destruct (pr_starts x Htx) as (c & s & Hs & Hst).
    destruct (join_starts (pr x) (map pr l) (String "]" r) c s Hs) as [s' Hs'].
    cbn [map] in *. rewrite Hs' in *. rewrite parse_val_list by done. by rewrite Hp.
  - apply jwf_dict in Hw as [Hnd Hw]. apply texts_dict in Ht. rewrite (pr_dict P) in *. cbn [read_as]. rewrite (pr_map P).
    pose proof (pr_perm P _ d) as He. set (e := ord val d) in *. clearbody e.
    rewrite !string_length_app in Hf. rewrite !string_app_assoc. cbn [String.append String.length] in *.
    destruct e as [|[k x] e]; [done|]. rewrite <- He in Hd, Hw, Ht.
    pose proof (parse_members_join ((k, x) :: e) Hd Hw Ht ltac:(done) f r ltac:(lia)) as Hp.
    apply list.Forall_cons in Ht as [[Hk _] _]. destruct (pr_quote P k Hk) as (t & Hq & _).
    destruct (join_starts (member (k, x)) (map member e) (String "}" r) (ascii_of_nat 34) (t +:+ ":" +:+ pad +:+ pr x)) as [s' Hs'].
    { unfold member. cbn [fst snd]. by rewrite Hq. }
    cbn [map] in *. rewrite Hs' in *. rewrite parse_val_dict, Hp. cbn [mbind option_bind]. do 3 f_equal.
    rewrite dupdate_app; [done|]. cbn [app]. unfold dkeys.
    assert (map fst ((k, read_as x) :: map (λ '(k, x), (k, read_as x)) e) = map fst ((k, x) :: e)) as ->.
    { cbn. f_equal. rewrite map_map. apply map_ext. by intros []. }
    by rewrite He.
Qed.

(** Reading back what was printed, the end of its line with it. *)
Lemma loads_line v w : jwf v → texts ok v → delim w = true → all_chars is_ws w = true → json_loads (pr v +:+ w) = Some (read_as v).
Proof.
  intros Hw Ht Hd Hws. unfold json_loads. rewrite (skip_ws_pr v w Ht). destruct (pr_starts v Ht) as (c & s & Hc & _).
  rewrite reads_all; [|done..|rewrite string_length_app, Hc; cbn; lia]. cbn [mbind option_bind].
  assert (skip_ws w = EmptyString) as ->; [|done]. pose proof (skip_ws_pad w EmptyString Hws) as H. by rewrite string_app_nil in H.
Qed.
Lemma loads_printed v : jwf v → texts ok v → json_loads (pr v) = Some (read_as v).
Proof. intros Hw Ht. pose proof (loads_line v EmptyString Hw Ht eq_refl eq_refl) as H. by rewrite string_app_nil in H. Qed.
End reads.

(** A printer of printable ASCII. *)
Lemma pr_printable v : printer → (∀ s, printable (q s) = true) → printable pad = true → printable (pr v) = true.
Proof.
  intros P Hq Hp. assert (∀ l, Forall (λ s, printable s = true) l → printable (join sep l) = true) as Hj.
  { intros l Hl. induction Hl as [|x l Hx Hl IH]; [done|]. destruct l as [|y l]; [done|]. rewrite join_sep, printable_app, Hx. cbn [printable all_chars andb].
    change (all_chars printable_char) with printable. by rewrite printable_app, Hp. }
  induction v as [|b|z|x|s|l Hl|d Hd] using val_rect_strong.
  - by rewrite (pr_none P).
  - rewrite (pr_bool P). by destruct b.
  - rewrite (pr_int P). apply print_int_printable.
  - rewrite (pr_float P). apply print_float_printable.
  - by rewrite (pr_str P).
  - rewrite (pr_list P), !printable_app, Hj; [done|]. apply List.Forall_map. done.
  - rewrite (pr_dict P), !printable_app, Hj; [done|]. apply List.Forall_map. rewrite (pr_perm P). eapply list.Forall_impl; [exact Hd|].
    intros [k x]. cbn [snd]. intros Hx. unfold member. cbn [fst snd]. by rewrite !printable_app, Hq, Hp, Hx.
Qed.
End printer.

Lemma quote_read k r : parse_str (esc k +:+ (ch 34 +:+ r)) = Some (k, r).
Proof. apply parse_str_esc. Qed.
Lemma canonical_printer : printer canonical quote EmptyString (@ksort) (λ _, True).
Proof.
  split; try done.
  - intros d. cbn [canonical]. rewrite (ksort_map canonical d), map_map. do 3 f_equal. apply map_ext. by intros [k x].
  - intros s _. exists (esc s +:+ ch 34). split; [done|]. intros r. rewrite string_app_assoc. apply quote_read.
  - intros A d. apply ksort_perm.
  - intros A B f d. apply ksort_map.
Qed.

(** Reading back what [canonical] wrote. *)
Lemma loads_canonical v : jwf v → json_loads (canonical v) = Some (norm v).
Proof. intros Hw. apply (loads_printed _ _ _ _ _ canonical_printer v Hw). by apply texts_any. Qed.

Lemma canonical_inj v w : jwf v → jwf w → canonical v = canonical w → norm v = norm w.
Proof. intros Hv Hw H. apply loads_canonical in Hv, Hw. rewrite H in Hv. congruence. Qed.

(** Lookups see the same members before and after. *)
Lemma dget_perm {A} (d e : list (string * A)) k : d ≡ₚ e → NoDup (dkeys d) → dget d k = dget e k.
Proof.
  intros Hp Hnd. assert (NoDup (dkeys e)) as Hne by (unfold dkeys in *; by rewrite <- Hp).
  destruct (dget d k) as [v|] eqn:Hd; symmetry.
  - apply dget_elem in Hd. rewrite Hp in Hd. by apply elem_dget.
  - destruct (dget e k) as [v|] eqn:He; [|done]. apply dget_elem in He. rewrite <- Hp in He.
    apply elem_dget in He; [congruence | done].
Qed.
Lemma dget_map {A B} (f : A → B) (d : list (string * A)) k : dget (map (λ '(k, x), (k, f x)) d) k = f <$> dget d k.
Proof. induction d as [|[k' x] d IH]; cbn; [done|]. by destruct (String.eqb k k'). Qed.
Lemma norm_get d k : NoDup (dkeys d) → ∃ d', norm (VDict d) = VDict d' ∧ dget d' k = norm <$> dget d k.
Proof.
  intros Hnd. eexists. split; [reflexivity|]. rewrite <- dget_map. symmetry. apply dget_perm; [by rewrite ksort_perm|].
  unfold dkeys. rewrite map_map. erewrite map_ext; [exact Hnd|]. by intros [].
Qed.

(** Equal canonical texts have the same string members. *)
Lemma canonical_member d e k s :
  jwf (VDict d) → jwf (VDict e) → canonical (VDict d) = canonical (VDict e) →
  dget d k = Some (VStr s) → dget e k = Some (VStr s).
Proof.
  intros Hd He Hc Hk. pose proof (canonical_inj _ _ Hd He Hc) as Hn.
  apply jwf_dict in Hd as [Hd _], He as [He _].
  destruct (norm_get d k Hd) as (d' & Hd' & Hg), (norm_get e k He) as (e' & He' & Hg').
  rewrite Hd', He' in Hn. injection Hn as ->. rewrite Hg, Hk in Hg'. cbn in Hg'.
  destruct (dget e k) as [[]|]; cbn in Hg'; simplify_eq; done.
Qed.

(** Sorting a sorted dictionary changes nothing, so neither does normalising twice. *)
Lemma ltb_asym (a b : string) : String.ltb a b = true → String.ltb b a = false.
Proof.
  unfold String.ltb. rewrite String.compare_antisym. destruct (String.compare b a); cbn; done.
Qed.
Definition key_le {A} (x y : string * A) : Prop := String.ltb y.1 x.1 = false.
Lemma kinsert_sorted {A} (x : string * A) l : Sorted key_le l → Sorted key_le (kinsert x l).
Proof.
  induction l as [|y l IH]; cbn; [intros _; by repeat constructor|]. intros [Hs Hr]%Sorted_inv.
  destruct (String.ltb y.1 x.1) eqn:Hlt.
  - constructor; [by apply IH|]. destruct l as [|z l]; cbn.
    + constructor. by apply ltb_asym.
    + destruct (String.ltb z.1 x.1); constructor; [by inversion Hr | by apply ltb_asym].
  - constructor; [by constructor|]. by constructor.
Qed.
Lemma ksort_sorted {A} (l : list (string * A)) : Sorted key_le (ksort l).
Proof. unfold ksort. induction l as [|x l IH]; [constructor | by apply kinsert_sorted]. Qed.
Lemma ksort_id {A} (l : list (string * A)) : Sorted key_le l → ksort l = l.
Proof.
  unfold ksort. induction l as [|x l IH]; [done|]. intros [Hs Hr]%Sorted_inv. cbn. rewrite IH by done.
  destruct l as [|y l]; [done|]. cbn. inversion Hr as [|? ? Hxy]. unfold key_le in Hxy. by rewrite Hxy.
Qed.

Lemma canonical_norm v : canonical (norm v) = canonical v.
Proof.
  induction v as [|b|z|q|s|l Hl|d Hd] using val_rect_strong; try done.
  - cbn. unfold print_float. assert (Qred (Qred q) = Qred q) as -> by apply Qred_complete, Qred_correct. done.
  - cbn. do 3 f_equal. rewrite map_map. apply map_ext_in. intros x Hx%list_elem_of_In.
    by apply (proj1 (list.Forall_forall _ _) Hl).
  - assert (∀ e : dict, map (λ '(k, x), (k, canonical x)) (map (λ '(k, x), (k, norm x)) e) =
                 map (λ '(k, x), (k, canonical (norm x))) e) as Hmap by (intros e; rewrite map_map; apply map_ext; by intros []).
    cbn [norm canonical]. rewrite (ksort_map norm d), Hmap, (ksort_map (λ x, canonical (norm x))).
    rewrite (ksort_id (ksort d)) by apply ksort_sorted. rewrite (ksort_map canonical).
    do 3 f_equal. f_equal. apply map_ext_in. intros [k x] Hx%list_elem_of_In. f_equal.
    rewrite ksort_perm in Hx. by apply (proj1 (list.Forall_forall _ _) Hd (k, x)).
Qed.

(** ** Base64 *)
Lemma b64_digit_char n : n < 64 → b64_digit (b64_char n) = Some n ∧ Ascii.eqb (b64_char n) "=" = false.
Proof. intros Hn. do 64 (destruct n as [|n]; [done|]). lia. Qed.

Lemma a2b_char quad left pads n s : n < 64 → a2b quad left pads (String (b64_char n) s) =
  match quad with
  | 0 => a2b 1 n 0 s
  | 1 => (λ r, ch (left * 4 + n / 16)%nat +:+ r) <$> a2b 2 (n mod 16) 0 s
  | 2 => (λ r, ch (left * 16 + n / 4)%nat +:+ r) <$> a2b 3 (n mod 4) 0 s
  | _ => (λ r, ch (left * 64 + n)%nat +:+ r) <$> a2b 0 0 0 s
  end.
Proof. intros Hn. destruct (b64_digit_char n Hn) as [Hd He]. cbn [a2b]. by rewrite He, Hd. Qed.

Lemma ch_nat c n : n = nat_of_ascii c → ch n = String c EmptyString.
Proof. intros ->. unfold ch. by rewrite ascii_nat_embedding. Qed.

Lemma string_ind3 (P : string → Prop) :
  P EmptyString → (∀ a, P (String a EmptyString)) → (∀ a b, P (String a (String b EmptyString))) →
  (∀ a b c s, P s → P (String a (String b (String c s)))) → ∀ s, P s.
Proof.
  intros H0 H1 H2 H3 s. enough (P s ∧ (∀ a, P (String a s)) ∧ ∀ a b, P (String a (String b s))) by tauto.
  induction s as [|c s (IH0 & IH1 & IH2)]; [done|]. split_and!; [apply IH1 | intros a; apply IH2 | auto].
Qed.

Definition padding (s : string) : string :=
  match String.length s mod 3 with 0 => EmptyString | 1 => "==" | _ => "=" end.
Lemma mod_add_self n k : (k + n) mod k = n mod k.
Proof. replace (k + n) with (n + 1 * k) by lia. apply Nat.Div0.mod_add. Qed.
Lemma padding_step a b c s : padding (String a (String b (String c s))) = padding s.
Proof. unfold padding. cbn [String.length].
  change (S (S (S (String.length s)))) with (3 + String.length s). by rewrite mod_add_self. Qed.

Lemma padding_b64u s : repeat_str "=" ((4 - String.length (b64u s) mod 4) mod 4) = padding s.
Proof.
  induction s as [|a|a b|a b c s IH] using string_ind3; [done|done|done|].
  rewrite padding_step, <- IH. cbn [b64u String.length].
  change (S (S (S (S (String.length (b64u s)))))) with (4 + String.length (b64u s)). by rewrite mod_add_self.
Qed.

(** [lia] with division and remainder. *)
Ltac dlia := zify; Z.to_euclidean_division_equations; lia.

Lemma nat_bound a : nat_of_ascii a < 256.
Proof. apply nat_ascii_bounded. Qed.

Lemma a2b_pad2 l : a2b 2 l 0 "==" = Some EmptyString.
Proof. done. Qed.
Lemma a2b_pad1 l : a2b 3 l 0 "=" = Some EmptyString.
Proof. done. Qed.

Lemma a2b_b64u s : a2b 0 0 0 (b64u s +:+ padding s) = Some s.
Proof.
  induction s as [|a|a b|a b c s IH] using string_ind3; [done| | |];
    try rewrite padding_step; cbn [b64u String.append].
  - pose proof (nat_bound a). set (n := nat_of_ascii a) in *. change (padding _) with "==".
    rewrite !a2b_char by dlia. cbn [String.append]. rewrite a2b_pad2. cbn [fmap option_fmap option_map].
    rewrite (ch_nat a); [done|]. fold n. dlia.
  - pose proof (nat_bound a). pose proof (nat_bound b). set (n := nat_of_ascii a) in *. set (m := nat_of_ascii b) in *.
    change (padding _) with "=". rewrite !a2b_char by dlia. cbn [String.append]. rewrite a2b_pad1.
    cbn [fmap option_fmap option_map]. rewrite (ch_nat a), (ch_nat b); [done|..]; fold n m; dlia.
  - pose proof (nat_bound a). pose proof (nat_bound b). pose proof (nat_bound c).
    set (n := nat_of_ascii a) in *. set (m := nat_of_ascii b) in *. set (o := nat_of_ascii c) in *.
    rewrite !a2b_char by dlia. rewrite IH. cbn [fmap option_fmap option_map].
    rewrite (ch_nat a), (ch_nat b), (ch_nat c); [done|..]; fold n m o; dlia.
Qed.

(** What no character of the alphabet satisfies holds of no base64 text. *)
Lemma b64u_any_char p s : (∀ n, n < 64 → p (b64_char n) = false) → any_char p (b64u s) = false.
Proof.
  intros Hp. induction s as [|a|a b|a b c s IH] using string_ind3; [done| | |]; cbn [b64u any_char];
    repeat match goal with a : ascii |- _ => let H := fresh in pose proof (nat_bound a) as H; revert H; generalize (nat_of_ascii a); clear a; intros end;
    rewrite ?Hp by dlia; done.
Qed.
Lemma b64u_ascii s : any_char (λ c, 128 <=? nat_of_ascii c)%nat (b64u s) = false.
Proof. apply b64u_any_char. intros n Hn. do 64 (destruct n as [|n]; [done|]). lia. Qed.

(** Base64 text decodes to what was encoded. *)
Lemma b64u_dec_b64u s : b64u_dec (b64u s) = Some s.
Proof. unfold b64u_dec. by rewrite b64u_ascii, padding_b64u, a2b_b64u. Qed.

(** C38: roundtrip. Canonical JSON and base64 read back: the value with its keys sorted,
    the string itself; and two values with the same canonical text, hence the same
    hash, agree on every string member. *)
Theorem json_roundtrip v : jwf v →
  json_loads (canonical v) = Some (norm v) ∧ b64u_dec (b64u (canonical v)) = Some (canonical v) ∧
  ∀ w, jwf w → canonical v = canonical w → norm v = norm w.
Proof.
  intros Hv. split_and!; [by apply loads_canonical | apply b64u_dec_b64u|]. intros w Hw. by apply canonical_inj.
Qed.

Definition sample_nested : val :=
  VDict [("ts", VFloat (7 # 4)); ("data", VDict [("z", VList [VInt (-12); VNone]); ("a", VStr "x")]); ("seq", VInt 3)].
Lemma json_roundtrip_witness :
  json_loads (canonical sample_nested) =
  Some (VDict [("data", VDict [("a", VStr "x"); ("z", VList [VInt (-12); VNone])]); ("seq", VInt 3); ("ts", VFloat (7 # 4))]).
Proof.
  apply (json_roundtrip sample_nested).
  cbn. split_and!; try exact I; try (apply (bool_decide_unpack _); vm_compute; exact I).
Defined.

(** Small and large floats are written with an exponent, and read back. *)
Example float_texts :
  map print_float [1 # 10000; 1 # 100000; - (123 # 10000000); inject_Z 9999999999999998; inject_Z (10 ^ 16); inject_Z (125 * 10 ^ 20)]%Q =
    ["0.0001"; "1e-05"; "-1.23e-05"; "9999999999999998.0"; "1e+16"; "1.25e+22"] ∧
  json_loads "[1.23e-05,1e+16]" = Some (VList [VFloat (123 # 10000000); VFloat (inject_Z (10 ^ 16))]).
Proof. split; vm_compute; reflexivity. Qed.

(** A literal dictionary of readable values. *)
Ltac jwf_literal := apply jwf_dict; split; [apply (bool_decide_unpack _); vm_compute; exact I|];
  cbn [app]; rewrite !list.Forall_cons; split_and!; try done; apply list.Forall_nil_2.

(** ** What the reader returns *)
(** A divisor of a power of ten divides the power its binary size names. *)
Lemma divides_pow10 n : ∀ d e : Z, (0 < d < 2 ^ Z.of_nat n → 0 <= e → (d | 10 ^ e) → (d | 10 ^ Z.of_nat n))%Z.
Proof.
  induction n as [|n IH]; intros d e Hd He Hdiv; [cbn in Hd; lia|].
  destruct (decide (d = 1)%Z) as [->|Hne]; [apply Z.divide_1_l|].
  pose proof (Z.gcd_nonneg d 10) as Hg0. pose proof (Z.gcd_divide_l d 10) as [d' Hd']. pose proof (Z.gcd_divide_r d 10) as Hg10.
  set (g := Z.gcd d 10) in *.
  assert (g ≠ 1)%Z as Hg1.
  { intros Hg. assert (Z.gcd d (10 ^ e) = 1)%Z as Hrel by (by apply Z.coprime_pow_r).
    assert ((d | 1)%Z) as Hd1 by (rewrite <- Hrel; by apply Z.gcd_greatest).
    apply Z.divide_1_r_nonneg in Hd1; lia. }
  assert (g ≠ 0)%Z by (intros Hz; rewrite Hz in Hd'; lia).
  assert (2 <= g)%Z by lia. assert (0 < d')%Z by nia.
  replace (Z.of_nat (S n)) with (1 + Z.of_nat n)%Z in * by lia. rewrite Z.pow_add_r in * by lia. rewrite Z.pow_1_r in *.
  rewrite Hd', Z.mul_comm. transitivity (g * 10 ^ Z.of_nat n)%Z; [|by apply Z.mul_divide_mono_r]. apply Z.mul_divide_mono_l.
  apply (IH d' e); [nia|done|]. etrans; [|exact Hdiv]. exists g. lia.
Qed.

Lemma dec_places_divides f den k : (10 ^ Z.of_nat (k + f) mod den = 0 → 10 ^ Z.of_nat (dec_places f den k) mod den = 0)%Z.
Proof.
  revert k. induction f as [|f IH]; intros k H; cbn; [by rewrite Nat.add_0_r in H|].
  destruct (Z.eqb_spec (10 ^ Z.of_nat k mod den) 0) as [|Hne]; [done|]. apply IH. by rewrite Nat.add_succ_comm.
Qed.

Lemma decimal_divides q e : (0 <= e)%Z → (Zpos (Qden (Qred q)) | 10 ^ e)%Z → decimal q.
Proof.
  intros He Hdiv. unfold decimal, places. set (d := Qden (Qred q)) in *.
  assert (Zpos d < 2 ^ Z.of_nat (Pos.size_nat d))%Z as Hsize.
  { pose proof (size_nat_bound (Npos d)) as Hs. apply N2Z.inj_lt in Hs. rewrite N2Z.inj_pow, nat_N_Z in Hs. exact Hs. }
  pose proof (divides_pow10 (Pos.size_nat d) (Zpos d) e (conj (Pos2Z.is_pos d) Hsize) He Hdiv) as H%Z.mod_divide; [|lia].
  pose proof (dec_places_divides _ _ 0 H) as Hp. apply Z.mod_divide; [lia|]. apply Z.mod_divide in Hp; [|lia].
  etrans; [exact Hp|]. destruct (Nat.max_spec 1 (dec_places (Pos.size_nat d) (Zpos d) 0)) as [[Hlt ->]|[Hle ->]]; [done|].
  destruct (dec_places _ _ _) as [|[|]]; [apply Z.divide_1_l|done|lia].
Qed.

Lemma decimal_scaled m e : (0 <= e)%Z → decimal (m # Z.to_pos (10 ^ e))%Q.
Proof.
  intros He. assert (0 < 10 ^ e)%Z as Hpos by (by apply Z.pow_pos_nonneg).
  apply (decimal_divides _ e He). set (x := (m # _)%Q).
  assert (Qred x == x)%Q as Hq by apply Qred_correct. unfold Qeq in Hq. cbn [Qnum Qden x] in Hq.
  rewrite Z2Pos.id in Hq by done.
  assert (Z.gcd (Qnum (Qred x)) (Zpos (Qden (Qred x))) = 1)%Z as Hgcd by (apply Qcanon.Qred_iff; apply Qred_complete, Qred_correct).
  apply (Z.gauss _ (Qnum (Qred x))); [exists m; lia | by rewrite Z.gcd_comm].
Qed.
Lemma decimal_int m : decimal (inject_Z m).
Proof. apply (decimal_scaled m 0). lia. Qed.
Lemma decimal_red q : decimal q → decimal (Qred q).
Proof. unfold decimal. by rewrite (Qred_complete _ _ (Qred_correct q)). Qed.

Lemma parse_num_jwf s v r : parse_num s = Some (v, r) → jwf v.
Proof.
  unfold parse_num. destruct (split_sign s) as [neg s1], (int_part s1) as [ds r0]. intros (n & _ & H)%bind_Some.
  destruct (fraction r0) as [fr r1], (exponent r1) as [ex r2].
  assert (∀ (m e : Z), jwf (VFloat (Qred (if (e <? 0)%Z then (m # Z.to_pos (10 ^ (- e)))%Q else inject_Z (m * 10 ^ e)%Z)))) as Hf.
  { intros m e. cbn. apply decimal_red. destruct (Z.ltb_spec e 0); [apply decimal_scaled; lia | apply decimal_int]. }
  destruct fr as [f|], ex as [[b x]|]; [| | |by injection H as <- _];
    apply bind_Some in H as (f' & _ & H); apply bind_Some in H as (x' & _ & H); injection H as <- _; apply Hf.
Qed.

Lemma Forall_dset {A} (P : A → Prop) (d : list (string * A)) k v :
  P v → Forall (λ kv, P kv.2) d → Forall (λ kv, P kv.2) (dset d k v).
Proof.
  intros Hv. induction d as [|[k' v'] d IH]; intros Hd; cbn.
  - by rewrite list.Forall_cons.
  - apply list.Forall_cons in Hd as [Hv' Hd]. destruct (String.eqb k k'); rewrite list.Forall_cons; auto.
Qed.
Lemma dupdate_jwf d e : jwf (VDict d) → Forall (λ kv, jwf kv.2) e → jwf (VDict (dupdate d e)).
Proof.
  unfold dupdate. revert d. induction e as [|[k x] e IH]; intros d Hd He; cbn; [done|].
  apply list.Forall_cons in He as [Hx He]. apply IH; [|done]. apply jwf_dict in Hd as [Hnd Hd]. apply jwf_dict.
  split; [by apply dkeys_dset | by apply Forall_dset].
Qed.

Lemma parse_jwf f :
  (∀ s v r, parse_val f s = Some (v, r) → jwf v) ∧
  (∀ s l r, parse_elems f s = Some (l, r) → Forall jwf l) ∧
  (∀ s d r, parse_members f s = Some (d, r) → Forall (λ kv, jwf kv.2) d).
Proof.
  induction f as [|f (IHv & IHe & IHm)]; [split_and!; by intros|]. split_and!; intros s x r H; cbn [parse_val parse_elems parse_members] in H.
  - repeat (case_match; simplify_eq; try done).
    all: try (apply bind_Some in H as ([? ?] & ? & H); simplify_eq).
    all: try done; try by eapply parse_num_jwf.
    all: try (apply jwf_list; by eapply IHe).
    all: try (apply dupdate_jwf; [apply jwf_dict; split; constructor | by eapply IHm]).
    all: apply jwf_dict; split; constructor.
  - apply bind_Some in H as ([v r1] & Hv%IHv & H). repeat (case_match; simplify_eq; try done).
    + by apply list.Forall_singleton.
    + apply bind_Some in H as ([l r2] & Hl%IHe & H). simplify_eq. by rewrite list.Forall_cons.
  - destruct s as [|c s]; [done|]. destruct (nat_of_ascii c =? 34)%nat; [|done]. apply bind_Some in H as ([k r1] & _ & H).
    repeat (case_match; simplify_eq; try done). apply bind_Some in H as ([v r3] & Hv%IHv & H).
    repeat (case_match; simplify_eq; try done).
    + by apply list.Forall_singleton.
    + apply bind_Some in H as ([l r4] & Hl%IHm & H). simplify_eq. by rewrite list.Forall_cons.
Qed.

Lemma json_loads_jwf s v : json_loads s = Some v → jwf v.
Proof. unfold json_loads. intros ([w r] & Hw%parse_jwf & H)%bind_Some. case_match; by simplify_eq. Qed.

#[global] Arguments json_loads : simpl never.
#[global] Arguments canonical : simpl never.
#[global] Arguments b64u : simpl never.
#[global] Arguments b64u_dec : simpl never.
