(* ===== verification/PyConv.v ===== *)
(** * Conversions and iteration of Python values

    [str.strip], [float], [int], iteration over a value, and the loops of a callable that
    may raise. *)
From S2P Require Import Prelude PyVal Schema Canonical Json.
From Stdlib Require Import Ascii.

(** [s.strip()] *)
Fixpoint lstrip (s : string) : string :=
  match s with String c s' => if is_space c then lstrip s' else s | EmptyString => EmptyString end.
Fixpoint rstrip (s : string) : string :=
  match s with
  | EmptyString => EmptyString
  | String c s' => match rstrip s' with EmptyString => if is_space c then EmptyString else String c EmptyString | r => String c r end
  end.
Definition strip (s : string) : string := rstrip (lstrip s).
(** [float(v)] and [int(v)]; a string is read when it is a number as JSON writes one. *)
Definition parsed (s : string) : option val := match parse_num (strip s) with Some (v, EmptyString) => Some v | _ => None end.
Definition py_float (v : val) : result exn Q :=
  match v with
  | VStr s => of_opt (parsed s ≫= num_of) (PyExc "ValueError")
  | _ => of_opt (num_of v) (PyExc "TypeError")
  end.
Definition py_int (v : val) : result exn Z :=
  match v with
  | VStr s => match parsed s with Some (VInt z) => Ok z | _ => Err (PyExc "ValueError") end
  | VInt z => Ok z
  | _ => Qtrunc <$> of_opt (num_of v) (PyExc "TypeError")
  end.
(** [for x in v] *)
Definition py_iter (v : val) : result exn (list val) :=
  match v with
  | VList l => Ok l
  | VDict d => Ok (map VStr (dkeys d))
  | VStr s => Ok (map (λ c, VStr (String c EmptyString)) (String.list_ascii_of_string s))
  | _ => Err (PyExc "TypeError")
  end.
(** [l[-n:]] *)
Definition last_n {A} (n : Z) (l : list A) : list A :=
  if (0 <? n)%Z then drop (length l - Z.to_nat n) l else drop (Z.to_nat (- n)) l.
(** [[x for x in l if p(x)]] for a [p] that may raise. *)
Fixpoint filterR {A} (p : A → result exn bool) (l : list A) : result exn (list A) :=
  match l with
  | [] => Ok []
  | x :: l' => b ← p x; l'' ← filterR p l'; Ok (if b : bool then x :: l'' else l'')
  end.
(** [for x in l: f(x)] *)
Fixpoint for_each {S A} (f : A → M S exn unit) (l : list A) : M S exn unit :=
  match l with [] => mret tt | x :: l' => _ ← f x; for_each f l' end.

