(* ===== verification/Keyed.v ===== *)
(** * Dictionaries whose keys are pairs

    [(episode, rule)] and [(session, tool)]: a string and a value compared with [==], which
    is an equivalence on what can be hashed. *)
From S2P Require Import Prelude PyVal.
From Stdlib Require Import Ascii.

Abbreviation skey := (string * val)%type.
Definition skey_eqb (a b : skey) : bool := String.eqb a.1 b.1 && py_eq a.2 b.2.
Fixpoint sget (l : list (skey * Z)) (k : skey) : option Z :=
  match l with [] => None | (k', n) :: l' => if skey_eqb k k' then Some n else sget l' k end.
Fixpoint sset (l : list (skey * Z)) (k : skey) (n : Z) : list (skey * Z) :=
  match l with [] => [(k, n)] | (k', m) :: l' => if skey_eqb k k' then (k', n) :: l' else (k', m) :: sset l' k n end.

(** ** Facts *)
Lemma py_eq_refl_key v : hashable v = true → py_eq v v = true.
Proof. destruct v; intros H; try discriminate H; cbn; try done; [destruct b; done|apply Qeq_bool_iff; reflexivity..|apply String.eqb_refl]. Qed.
Lemma py_eq_num a b p : num_of a = Some p → py_eq a b = match num_of b with Some q => Qeq_bool p q | None => false end.
Proof. intros Ha. destruct a; try discriminate Ha; injection Ha as <-; by destruct b. Qed.
Lemma py_eq_nonnum a b : hashable a = true → num_of a = None → py_eq a b = true ↔ a = b.
Proof.
  intros Hh Ha. destruct a; try discriminate; destruct b; cbn; try (split; congruence); try done.
  rewrite String.eqb_eq. split; congruence.
Qed.
Lemma py_eq_key_trans a b c : hashable a = true → hashable b = true → py_eq a b = true → py_eq a c = py_eq b c.
Proof.
  intros Ha Hb Hab. destruct (num_of a) as [p|] eqn:Hna.
  - rewrite (py_eq_num _ _ _ Hna) in Hab. destruct (num_of b) as [q|] eqn:Hnb; [|discriminate Hab]. apply Qeq_bool_iff in Hab.
    rewrite (py_eq_num _ _ _ Hna), (py_eq_num _ _ _ Hnb). destruct (num_of c) as [r|]; [|done].
    apply eq_true_iff_eq. rewrite !Qeq_bool_iff. by rewrite Hab.
  - apply py_eq_nonnum in Hab as ->; done.
Qed.
Lemma py_eq_key_sym a b : hashable a = true → hashable b = true → py_eq a b = py_eq b a.
Proof.
  intros Ha Hb. destruct (py_eq a b) eqn:Hab.
  - by rewrite <- (py_eq_key_trans a b a Ha Hb Hab), py_eq_refl_key.
  - destruct (py_eq b a) eqn:Hba; [|done]. rewrite <- (py_eq_key_trans b a b Hb Ha Hba), py_eq_refl_key in Hab by done. discriminate Hab.
Qed.

Definition key_ok (k : skey) : Prop := hashable k.2 = true.
Lemma skey_refl k : key_ok k → skey_eqb k k = true.
Proof. intros Hk. unfold skey_eqb. by rewrite String.eqb_refl, py_eq_refl_key. Qed.
Lemma skey_sym a b : key_ok a → key_ok b → skey_eqb a b = skey_eqb b a.
Proof. intros Ha Hb. unfold skey_eqb. by rewrite String.eqb_sym, py_eq_key_sym. Qed.
Lemma skey_trans a b c : key_ok a → key_ok b → skey_eqb a b = true → skey_eqb a c = skey_eqb b c.
Proof.
  intros Ha Hb H. unfold skey_eqb in *. apply andb_true_iff in H as [->%String.eqb_eq H]. by rewrite (py_eq_key_trans _ _ _ Ha Hb H).
Qed.

Lemma sget_sset l k n k' : Forall (λ x, key_ok x.1) l → key_ok k → key_ok k' →
  sget (sset l k n) k' = if skey_eqb k' k then Some n else sget l k'.
Proof.
  intros Hl Hk Hk'. induction Hl as [|[k1 m] l H1 _ IH]; cbn; [done|]. cbn in H1.
  destruct (skey_eqb k k1) eqn:Hkk; cbn.
  - rewrite (skey_sym k' k1), (skey_sym k' k) by done. rewrite (skey_trans k k1 k') by done. by destruct (skey_eqb k1 k').
  - destruct (skey_eqb k' k1) eqn:Hk1; [|done]. destruct (skey_eqb k' k) eqn:Hk2; [|done].
    rewrite (skey_trans k' k k1) in Hk1 by done. congruence.
Qed.
Lemma sset_keys l k n : Forall (λ x, key_ok x.1) l → key_ok k → Forall (λ x, key_ok x.1) (sset l k n).
Proof. intros Hl Hk. induction Hl as [|[k1 m] l H1 Hl' IH]; cbn; [by constructor|]. destruct (skey_eqb k k1); by constructor. Qed.
Lemma sget_key l k k' : key_ok k → key_ok k' → skey_eqb k k' = true → sget l k = sget l k'.
Proof. intros Hk Hk' He. induction l as [|[k1 n] l IH]; cbn; [done|]. rewrite (skey_trans k k' k1) by done. by rewrite IH. Qed.
