(* ===== verification/Tools.v ===== *)
(** * The tool surface by role (src/valops/common/tools.py)

    The table every layer checks against: worker stubs, hooks, brokers, store.
    Tool descriptions (prose for the model) are left out. *)
From S2P Require Import Prelude PyVal Schema.
From Stdlib Require Import Ascii.

(** src/valops/common/tools.py:9-9 DIAG *)
Definition DIAG : string := "diagnostician".
Definition PLAN : string := "change_planner".
Definition JUDGE : string := "proposal_judge".
Definition REPORT : string := "reporter".
(** src/valops/common/tools.py:10-10 T0_ROLES *)
Definition T0_ROLES : list string := [DIAG; PLAN; JUDGE].

(** src/valops/common/tools.py:12-12 _STR *)
Definition STR_ : schema := str_schema (Some 1%N) (Some 4000%N) None.
(** src/valops/common/tools.py:13-13 _REFS *)
Definition REFS_ (minItems : option N) : schema :=
  arr_schema minItems (Some 50%N) (str_schema None None (Some (PatId ["s"%char]))).
Definition empty_schema : schema := obj_schema [] [].

(** src/valops/common/tools.py:16-25 ToolSpec *)
Record ToolSpec : Type := mkTool {
  t_name : string;
  t_roles : list string;
  t_tier : string;
  t_broker : string;
  t_input_schema : schema;
  t_command_id : option string;
  t_states : list string;
}.

(** src/valops/common/tools.py:28-30 _obs *)
Definition obs_ (name command_id : string) (sch : schema) : ToolSpec :=
  mkTool name T0_ROLES "T0" "observer" sch (Some command_id) ["diagnosing"; "recommending"; "judging"].

(** src/valops/common/tools.py:54-57 add_hypothesis.input_schema *)
Definition hypothesis_schema : schema :=
  obj_schema [("rank", int_schema (Some 1%Q) (Some 20%Q)); ("claim", STR_); ("test", STR_); ("expected_evidence", STR_)]
    ["rank"; "claim"; "test"; "expected_evidence"].
(** src/valops/common/tools.py:61-65 set_hypothesis_status.input_schema *)
Definition status_schema : schema :=
  obj_schema [("hypothesis_id", str_schema None None (Some (PatId ["h"%char])));
              ("status", enum_schema ["supported"; "refuted"]); ("evidence_refs", REFS_ (Some 1%N))]
    ["hypothesis_id"; "status"; "evidence_refs"].
(** src/valops/common/tools.py:69-77 propose_recommendation.input_schema *)
Definition recommendation_schema : schema :=
  obj_schema [("hypothesis_id", str_schema None None (Some (PatId ["h"%char]))); ("action_text", STR_);
              ("skill", str_schema (Some 1%N) (Some 80%N) None);
              ("preconditions", arr_schema (Some 1%N) (Some 20%N) STR_);
              ("expected_postcondition", STR_); ("evidence_refs", REFS_ (Some 1%N))]
    ["hypothesis_id"; "action_text"; "skill"; "preconditions"; "expected_postcondition"; "evidence_refs"].
(** src/valops/common/tools.py:81-82 report_no_action.input_schema *)
Definition no_action_schema : schema :=
  obj_schema [("reason", STR_); ("evidence_refs", REFS_ (Some 1%N))] ["reason"; "evidence_refs"].
(** src/valops/common/tools.py:92-97 submit_verdict.checks.items.input_schema *)
Definition check_schema : schema :=
  obj_schema [("check", str_schema (Some 1%N) (Some 200%N) None); ("result", enum_schema ["pass"; "fail"; "n/a"]);
              ("note", str_schema None (Some 2000%N) None)] ["check"; "result"].
(** src/valops/common/tools.py:92-97 submit_verdict.checks *)
Definition checks_schema : schema := arr_schema (Some 1%N) (Some 30%N) check_schema.
(** src/valops/common/tools.py:89-98 submit_verdict.input_schema *)
Definition verdict_schema : schema :=
  obj_schema [("target_id", str_schema None None (Some (PatId ["r"%char; "n"%char])));
              ("result", enum_schema ["PASS"; "FAIL"]); ("checks", checks_schema)]
    ["target_id"; "result"; "checks"].
(** src/valops/common/tools.py:102-105 write_incident_report.input_schema *)
Definition report_schema : schema :=
  obj_schema [("kind", enum_schema ["incident"; "closure"]); ("markdown", str_schema (Some 1%N) (Some 60000%N) None)]
    ["kind"; "markdown"].
(** src/valops/common/tools.py:110-113 send_alert.input_schema *)
Definition alert_schema : schema :=
  obj_schema [("kind", enum_schema ["incident"; "closure"]); ("summary", str_schema (Some 1%N) (Some 1500%N) None)]
    ["kind"; "summary"].
(** src/valops/common/tools.py:37-37 get_leader_schedule.input_schema *)
Definition epoch_schema : schema := obj_schema [("epoch", int_schema (Some 0%Q) None)] [].
(** src/valops/common/tools.py:41-42 tail_validator_log.input_schema *)
Definition lines_schema : schema := obj_schema [("lines", int_schema (Some 1%Q) (Some 500%Q))] ["lines"].

(** src/valops/common/tools.py:33-115 TOOLS *)
Definition TOOLS : list ToolSpec := [
  obs_ "get_validator_monitor" "validator_monitor" empty_schema;
  obs_ "get_catchup" "catchup" empty_schema;
  obs_ "get_leader_schedule" "leader_schedule_self" epoch_schema;
  obs_ "get_identity_balance" "identity_balance" empty_schema;
  obs_ "get_running_version" "running_version" empty_schema;
  obs_ "tail_validator_log" "log_tail" lines_schema;
  obs_ "get_host_metrics" "host_metrics" empty_schema;
  obs_ "get_host_hygiene" "host_hygiene" empty_schema;
  obs_ "get_consensus_state_files" "consensus_state_files" empty_schema;
  mkTool "get_telemetry_health" T0_ROLES "T0" "observer" empty_schema None ["diagnosing"; "recommending"; "judging"];
  mkTool "get_verification_result" [PLAN; JUDGE; REPORT] "T0" "episode" empty_schema None
    ["recommending"; "judging"; "reporting"; "resolved"];
  mkTool "add_hypothesis" [DIAG] "T1" "episode" hypothesis_schema None ["diagnosing"];
  mkTool "set_hypothesis_status" [DIAG] "T1" "episode" status_schema None ["diagnosing"];
  mkTool "propose_recommendation" [PLAN] "T1" "episode" recommendation_schema None ["recommending"];
  mkTool "report_no_action" [PLAN] "T1" "episode" no_action_schema None ["recommending"];
  mkTool "draft_failover_runbook" [PLAN] "T1" "episode" empty_schema None ["recommending"];
  mkTool "submit_verdict" [JUDGE] "T1" "episode" verdict_schema None ["judging"];
  mkTool "write_incident_report" [REPORT] "T1" "report" report_schema None ["reporting"; "resolved"];
  mkTool "send_alert" [REPORT] "T1" "report" alert_schema None ["reporting"; "resolved"]
].

(** src/valops/common/tools.py:117-117 TOOLS_BY_NAME *)
Definition TOOLS_BY_NAME (name : string) : option ToolSpec :=
  find_first (λ t, String.eqb name (t_name t)) TOOLS.

(** src/valops/common/tools.py:118-120 TOOLS_BY_ROLE *)
Definition TOOLS_BY_ROLE (role : string) : list string :=
  if str_in role [DIAG; PLAN; JUDGE; REPORT]
  then map t_name (List.filter (λ t, str_in role (t_roles t)) TOOLS) else [].

(** src/valops/common/tools.py:123-125 tool_allowed

    [TOOLS_BY_ROLE.get(role, ())]: a role that is not a string has no tools,
    and one that cannot be hashed raises. *)
Definition tool_allowed (role : val) (tool : string) : result exn bool :=
  match role with
  | VStr r => Ok (str_in tool (TOOLS_BY_ROLE r))
  | _ => if hashable role then Ok false else Err (PyExc "TypeError")
  end.

(** ** Facts *)
Lemma TOOLS_BY_NAME_Some name t : TOOLS_BY_NAME name = Some t → t ∈ TOOLS ∧ t_name t = name.
Proof. intros [? H]%find_first_Some. by apply String.eqb_eq in H. Qed.

Example tool_names_distinct : NoDup (map t_name TOOLS).
Proof. apply (bool_decide_unpack _). vm_compute. exact I. Qed.
