(* ===== verification/Transitions.v ===== *)
(** * The episode state machine's transition table (src/valops/store/transitions.py) *)
From S2P Require Import Prelude PyVal.

(** src/valops/store/transitions.py:4-4 STATES *)
Definition STATES : list string :=
  ["open"; "diagnosing"; "recommending"; "judging"; "reporting"; "awaiting_operator"; "resolved"; "handed_off"].
(** src/valops/store/transitions.py:5-5 TERMINAL *)
Definition TERMINAL : list string := ["resolved"; "handed_off"].
(** src/valops/store/transitions.py:6-6 NONTERMINAL *)
Definition NONTERMINAL : list string := List.filter (λ s, negb (str_in s TERMINAL)) STATES.

(** src/valops/store/transitions.py:8-17 CONTROLLER *)
Definition CONTROLLER : list (string * string) :=
  [("open", "diagnosing"); ("diagnosing", "recommending"); ("diagnosing", "reporting");
   ("recommending", "judging"); ("judging", "recommending"); ("judging", "reporting");
   ("reporting", "awaiting_operator")] ++ map (λ s, (s, "handed_off")) NONTERMINAL.
(** src/valops/store/transitions.py:18-20 VERIFIER *)
Definition VERIFIER : list (string * string) := [("awaiting_operator", "resolved")].

Definition pair_eqb (a b : string * string) : bool := String.eqb a.1 b.1 && String.eqb a.2 b.2.

(** src/valops/store/transitions.py:23-25 allowed *)
Definition allowed (principal frm to : string) : bool :=
  let table := match principal with
               | "controller" => CONTROLLER
               | "verifier" => VERIFIER
               | _ => []
               end in
  existsb (pair_eqb (frm, to)) table.

(** [rec["state"] in transitions.TERMINAL], for a state that may be unset. *)
Definition terminal (state : option string) : bool :=
  match state with Some s => str_in s TERMINAL | None => false end.

(** ** Facts *)
Lemma pair_eqb_eq a b : pair_eqb a b = true ↔ a = b.
Proof.
  unfold pair_eqb. rewrite andb_true_iff, !String.eqb_eq. destruct a, b; cbn.
  split; [intros [-> ->] | intros [= -> ->]]; done.
Qed.

(** Only the controller and the verifier move an episode, along their tables. *)
Lemma allowed_inv p frm to : allowed p frm to = true →
  (p = "controller" ∧ (frm, to) ∈ CONTROLLER) ∨ (p = "verifier" ∧ frm = "awaiting_operator" ∧ to = "resolved").
Proof.
  unfold allowed. intros (x & Hx & <-%pair_eqb_eq)%existsb_true.
  destruct (String.eqb_spec p "controller") as [->|Hc]; [by left|].
  destruct (String.eqb_spec p "verifier") as [->|Hv].
  - right. by apply list_elem_of_singleton in Hx as [= -> ->].
  - exfalso. revert Hx. repeat case_match; subst; try done; intros Hx; by apply not_elem_of_nil in Hx.
Qed.

Lemma allowed_from_nonterminal p frm to : allowed p frm to = true → str_in frm TERMINAL = false.
Proof.
  intros [[-> H]|(-> & -> & ->)]%allowed_inv; [|done].
  revert H. unfold CONTROLLER; cbn. rewrite !elem_of_cons.
  intros H. repeat destruct H as [[= -> ->]|H]; try done. by apply not_elem_of_nil in H.
Qed.

Lemma allowed_states p frm to : allowed p frm to = true → frm ∈ STATES ∧ to ∈ STATES.
Proof.
  intros [[-> H]|(-> & -> & ->)]%allowed_inv; [|by rewrite <- !str_in_spec].
  revert H. unfold CONTROLLER; cbn. rewrite !elem_of_cons.
  intros H. repeat destruct H as [[= -> ->]|H]; try (by rewrite <- !str_in_spec). by apply not_elem_of_nil in H.
Qed.

Lemma allowed_resolved p frm : allowed p frm "resolved" = true → p = "verifier" ∧ frm = "awaiting_operator".
Proof.
  intros [[-> H]|(-> & -> & _)]%allowed_inv; [|done].
  exfalso. revert H. unfold CONTROLLER; cbn. rewrite !elem_of_cons.
  intros H. repeat destruct H as [[=]|H]. by apply not_elem_of_nil in H.
Qed.
