(* ===== verification/Tokens.v ===== *)
(** * Capability tokens (src/valops/common/tokens.py)

    A token is [b64u(body).b64u(signature)], the body the canonical JSON of a
    [Capability]. Ed25519 is third-party code: a gate holds its verification
    function as the Python object holds the key, and [mint] takes the signing
    function. *)
From S2P Require Import Prelude PyVal Schema Canonical Tools.
From Stdlib Require Import Ascii.

(** src/valops/common/tokens.py:19-19 ROLES *)
Definition ROLES : list string := ["diagnostician"; "change_planner"; "proposal_judge"; "reporter"].

(** src/valops/common/tokens.py:22-31 Capability

    The fields are what the JSON body holds: the class does not check them. *)
Record Capability : Type := mkCap {
  c_episode_id : val;
  c_role : val;
  c_session_id : val;
  c_bundle_id : val;
  c_exp : val;
  c_nonce : val;
  c_iat : val;
  c_v : val;
}.

(** [asdict(cap)] *)
Definition cap_dict (c : Capability) : val := VDict [
  ("episode_id", c_episode_id c); ("role", c_role c); ("session_id", c_session_id c);
  ("bundle_id", c_bundle_id c); ("exp", c_exp c); ("nonce", c_nonce c); ("iat", c_iat c); ("v", c_v c)].

Definition cap_fields : list string :=
  ["episode_id"; "role"; "session_id"; "bundle_id"; "exp"; "nonce"; "iat"; "v"].

(** [Capability] applied to the keywords of a parsed JSON body: an unknown or a
    missing field, or a body that is not an object, is the [TypeError] of the call. *)
Definition cap_of_body (v : val) : option Capability :=
  match v with
  | VDict d =>
      if forallb (λ k, str_in k cap_fields) (dkeys d) then
        e ← dget d "episode_id"; r ← dget d "role"; s ← dget d "session_id"; b ← dget d "bundle_id";
        x ← dget d "exp"; n ← dget d "nonce"; i ← dget d "iat";
        Some (mkCap e r s b x n i (default (VInt 1) (dget d "v")))
      else None
  | _ => None
  end.

(** src/valops/common/tokens.py:34-40 mint

    [t] is [now()], [nonce] the random hex, [sign] the controller's key. *)
Definition mint (sign : string → string) (t : Q) (nonce : string)
    (episode_id role session_id bundle_id : string) (ttl_s : Q) : result exn string :=
  _ ← check (str_in role ROLES) (PyExc "ValueError");
  let cap := mkCap (VStr episode_id) (VStr role) (VStr session_id) (VStr bundle_id)
                   (VFloat (t + ttl_s)) (VStr nonce) (VFloat t) (VInt 1) in
  let body := canonical (cap_dict cap) in
  Ok (b64u body +:+ "." +:+ b64u (sign body)).

(** src/valops/common/tokens.py:47-51 TokenGate.__init__ *)
Record TokenGate : Type := mkGate {
  g_verify : string → string → bool;                        (* _verifier.verify(sig, body) *)
  g_bundle_ok : option (val → result exn (option string));  (* the reason a bundle is refused, if any *)
  g_revoked : list string;
}.

(** src/valops/common/tokens.py:53-55 TokenGate.revoke_session *)
Definition revoke_session (g : TokenGate) (session_id : string) : TokenGate :=
  mkGate (g_verify g) (g_bundle_ok g) (session_id :: g_revoked g).

(** [token.split(".")] of a string with exactly one dot. *)
Fixpoint split_dot (s : string) : option (string * string) :=
  match s with
  | EmptyString => None
  | String c s' =>
      if Ascii.eqb c "."%char then (if any_char (Ascii.eqb "."%char) s' then None else Some (EmptyString, s'))
      else '(a, b) ← split_dot s'; Some (String c a, b)
  end.

(** src/valops/common/tokens.py:57-84 TokenGate.check

    [t] is [now()]; [VNone] for [episode_id] or [role] is the omitted argument. *)
Definition check_token (g : TokenGate) (t : Q) (token episode_id role : val) : result exn Capability :=
  '(body_s, sig_s) ← of_opt (s ← as_str token; split_dot s) (rpc_error "unauthenticated");
  body ← of_opt (b64u_dec body_s) (rpc_error "unauthenticated");
  sig ← of_opt (b64u_dec sig_s) (rpc_error "unauthenticated");
  _ ← check (g_verify g sig body) (rpc_error "unauthenticated");
  cap ← of_opt (v ← json_loads body; cap_of_body v) (rpc_error "unauthenticated");
  expired ← of_opt (py_lt (c_exp cap) (VFloat t)) (PyExc "TypeError");
  _ ← check (negb expired) (rpc_error "token_expired");
  revoked ← in_str_set (c_session_id cap) (g_revoked g);
  _ ← check (negb revoked) (rpc_error "token_revoked");
  _ ← check (match episode_id with VNone => true | _ => py_eq episode_id (c_episode_id cap) end) (rpc_error "forbidden");
  _ ← check (match role with VNone => true | _ => py_eq role (c_role cap) end) (rpc_error "forbidden");
  _ ← match g_bundle_ok g with
      | None => Ok tt
      | Some ok =>
          reason ← ok (c_bundle_id cap);
          check (match reason with Some r => String.eqb r "" | None => true end) (rpc_error "bundle_refused")
      end;
  Ok cap.

(** ** What an accepted token is *)
Lemma split_dot_Some s a b : split_dot s = Some (a, b) → s = a +:+ "." +:+ b.
Proof.
  revert a. induction s as [|c s IH]; cbn; intros a; [done|].
  destruct (Ascii.eqb_spec c "."%char) as [->|Hc].
  - destruct (any_char _ s); [done|]. by intros [= <- <-].
  - destruct (split_dot s) as [[a' b']|]; cbn; [|done]. intros [= <- <-]. by rewrite (IH a').
Qed.

(** A capability carries the claims of a body the key verified, at time [t], for
    the episode and role the caller asked for. *)
Record token_carries (g : TokenGate) (t : Q) (token episode_id role : val) (cap : Capability) : Prop := {
  tc_signed : ∃ body_s sig_s body sig,
    token = VStr (body_s +:+ "." +:+ sig_s) ∧ b64u_dec body_s = Some body ∧ b64u_dec sig_s = Some sig ∧
    g_verify g sig body = true ∧ json_loads body ≫= cap_of_body = Some cap;
  tc_unexpired : py_lt (c_exp cap) (VFloat t) = Some false;
  tc_unrevoked : ∀ s, c_session_id cap = VStr s → s ∉ g_revoked g;
  tc_episode : episode_id = VNone ∨ py_eq episode_id (c_episode_id cap) = true;
  tc_role : role = VNone ∨ py_eq role (c_role cap) = true;
  tc_bundle : ∀ ok, g_bundle_ok g = Some ok → ∃ r, ok (c_bundle_id cap) = Ok r ∧ (r = None ∨ r = Some "");
}.

Lemma check_token_carries g t token e r cap :
  check_token g t token e r = Ok cap → token_carries g t token e r cap.
Proof.
  unfold check_token. intros H. rinv H. bools.
  match goal with H : (_ ≫= _) = Some (_, _) |- _ => apply bind_Some in H as (s & Hs & Hd%split_dot_Some) end.
  destruct token; try done. injection Hs as [= ->]. subst.
  split.
  - eexists _, _, _, _. split_and!; done.
  - done.
  - intros s' Hs'. rewrite Hs' in *. cbn in *. simplify_eq. by apply str_in_false.
  - destruct e; eauto.
  - destruct r; eauto.
  - intros ok Hok. rewrite Hok in *.
    match goal with H : (ok _ ≫= _) = Ok _ |- _ => rinv H end.
    eexists. split; [done|]. case_match; [|by left]. bools. subst. by right.
Qed.

(** Revocation is for good: it only grows the set a check consults. *)
Lemma revoke_session_revoked g s s' :
  s' ∈ g_revoked (revoke_session g s) ↔ s' = s ∨ s' ∈ g_revoked g.
Proof. apply elem_of_cons. Qed.

(** * Minted tokens, and what checking one gives

    Checking the token [mint] made is a decision on its expiry, its revocation, the
    episode and role asked for, and the bundle, in that order. *)
From S2P Require Import Json.

(** ** Where the two halves of a token split *)
Lemma split_dot_join a b :
  any_char (Ascii.eqb "."%char) a = false → any_char (Ascii.eqb "."%char) b = false →
  split_dot (a +:+ "." +:+ b) = Some (a, b).
Proof.
  change ("." +:+ b) with (String "." b). intros Ha Hb. induction a as [|c a IH].
  - change (split_dot (String "." b) = Some (EmptyString, b)). unfold split_dot. change (Ascii.eqb "." ".") with true. by rewrite Hb.
  - cbn [any_char] in Ha. apply orb_false_iff in Ha as [Hc Ha]. change (String c a +:+ String "." b) with (String c (a +:+ String "." b)).
    cbn [split_dot]. rewrite Ascii.eqb_sym, Hc. by rewrite (IH Ha).
Qed.

Lemma b64_char_dot n : n < 64 → Ascii.eqb "."%char (b64_char n) = false.
Proof. intros Hn. do 64 (destruct n as [|n]; [done|]). lia. Qed.
Lemma b64u_no_dot s : any_char (Ascii.eqb "."%char) (b64u s) = false.
Proof. apply b64u_any_char. apply b64_char_dot. Qed.

(** The capability [mint] signs, and the one a check reads back. *)
Definition minted (t : Q) (nonce episode_id role session_id bundle_id : string) (ttl_s : Q) : Capability :=
  mkCap (VStr episode_id) (VStr role) (VStr session_id) (VStr bundle_id) (VFloat (t + ttl_s)) (VStr nonce) (VFloat t) (VInt 1).
Definition read_back (c : Capability) : Capability :=
  mkCap (norm (c_episode_id c)) (norm (c_role c)) (norm (c_session_id c)) (norm (c_bundle_id c)) (norm (c_exp c))
    (norm (c_nonce c)) (norm (c_iat c)) (norm (c_v c)).

Lemma cap_of_cap_dict c : jwf (cap_dict c) → json_loads (canonical (cap_dict c)) ≫= cap_of_body = Some (read_back c).
Proof. intros Hw. by rewrite loads_canonical. Qed.

Lemma minted_jwf t nonce e r s b ttl : decimal t → decimal (t + ttl) → jwf (cap_dict (minted t nonce e r s b ttl)).
Proof. intros Ht Hx. cbn. split_and!; try done. apply (bool_decide_unpack _). vm_compute. exact I. Qed.

Lemma mint_Ok sign t nonce e r s b ttl token : mint sign t nonce e r s b ttl = Ok token →
  let body := canonical (cap_dict (minted t nonce e r s b ttl)) in
  r ∈ ROLES ∧ token = b64u body +:+ "." +:+ b64u (sign body).
Proof.
  unfold mint, check. destruct (str_in r ROLES) eqn:Hr; [|done]. intros H. apply Ok_inj in H. symmetry in H.
  split; [by apply str_in_spec | exact H].
Qed.

Lemma Qltb_red x y : Qltb (Qred x) y = Qltb x y.
Proof.
  apply eq_true_iff_eq. rewrite !Qltb_lt. by rewrite Qred_correct.
Qed.

(** What is decided once a signed body has been read as [cap]. *)
Definition check_claims (g : TokenGate) (t : Q) (cap : Capability) (episode_id role : val) : result exn Capability :=
  expired ← of_opt (py_lt (c_exp cap) (VFloat t)) (PyExc "TypeError");
  _ ← check (negb expired) (rpc_error "token_expired");
  revoked ← in_str_set (c_session_id cap) (g_revoked g);
  _ ← check (negb revoked) (rpc_error "token_revoked");
  _ ← check (match episode_id with VNone => true | _ => py_eq episode_id (c_episode_id cap) end) (rpc_error "forbidden");
  _ ← check (match role with VNone => true | _ => py_eq role (c_role cap) end) (rpc_error "forbidden");
  _ ← match g_bundle_ok g with
      | None => Ok tt
      | Some ok =>
          reason ← ok (c_bundle_id cap);
          check (match reason with Some r => String.eqb r EmptyString | None => true end) (rpc_error "bundle_refused")
      end;
  Ok cap.

Lemma check_token_read g t body sig cap e r :
  g_verify g sig body = true → json_loads body ≫= cap_of_body = Some cap →
  check_token g t (VStr (b64u body +:+ "." +:+ b64u sig)) e r = check_claims g t cap e r.
Proof.
  intros Hsig Hcap. unfold check_token. cbn [as_str mbind option_bind].
  rewrite (split_dot_join (b64u body) (b64u sig)) by apply b64u_no_dot. cbn [of_opt mbind result_bind].
  rewrite !b64u_dec_b64u. cbn [of_opt mbind result_bind]. rewrite Hsig. cbn [check mbind result_bind].
  change (json_loads body ≫= cap_of_body) with (json_loads body ≫= λ v, cap_of_body v) in Hcap. by rewrite Hcap.
Qed.

(** Checking a minted token, branch by branch: expired, revoked, for
    another episode, for another role, its bundle refused; otherwise the check
    returns the capability that was minted. *)
Theorem minted_token_outcome g sign t nonce episode role session bundle ttl token t' ask_episode ask_role :
  (∀ body, g_verify g (sign body) body = true) → decimal t → decimal (t + ttl) →
  mint sign t nonce episode role session bundle ttl = Ok token →
  check_token g t' (VStr token) ask_episode ask_role =
    if Qltb (t + ttl) t' then Err (rpc_error "token_expired")
    else if str_in session (g_revoked g) then Err (rpc_error "token_revoked")
    else if negb (match ask_episode with VNone => true | _ => py_eq ask_episode (VStr episode) end)
         then Err (rpc_error "forbidden")
    else if negb (match ask_role with VNone => true | _ => py_eq ask_role (VStr role) end)
         then Err (rpc_error "forbidden")
    else
      _ ← match g_bundle_ok g with
          | None => Ok tt
          | Some ok =>
              reason ← ok (VStr bundle);
              check (match reason with Some r => String.eqb r EmptyString | None => true end) (rpc_error "bundle_refused")
          end;
      Ok (read_back (minted t nonce episode role session bundle ttl)).
Proof.
  intros Hsign Ht Hx Hmint. apply mint_Ok in Hmint as [_ ->].
  rewrite (check_token_read g t' _ _ (read_back (minted t nonce episode role session bundle ttl)));
    [|apply Hsign | by apply cap_of_cap_dict, minted_jwf].
  unfold check_claims. cbn [read_back minted c_exp c_session_id c_episode_id c_role c_bundle_id norm py_lt num_of of_opt
    mbind result_bind in_str_set].
  rewrite Qltb_red. destruct (Qltb (t + ttl) t'); [done|]. cbn [negb check mbind result_bind].
  destruct (str_in session (g_revoked g)); [done|]. cbn [negb check mbind result_bind].
  destruct (match ask_episode with VNone => true | _ => _ end); [|done]. cbn [negb check mbind result_bind].
  destruct (match ask_role with VNone => true | _ => _ end); done.
Qed.

Definition token_gate : TokenGate := mkGate (λ sig body, String.eqb sig ("signed" +:+ body)) (Some (λ _, Ok None)) ["revoked"].
Definition token_sign (body : string) : string := "signed" +:+ body.
Definition token_of (session : string) : string :=
  match mint token_sign (5 # 2) "n" "ep1" "reporter" session "b1" 600 with Ok t => t | Err _ => EmptyString end.

Lemma minted_token_outcome_witness :
  check_token token_gate 100 (VStr (token_of "sess1")) (VStr "ep1") VNone =
    Ok (read_back (minted (5 # 2) "n" "ep1" "reporter" "sess1" "b1" 600)) ∧
  check_token token_gate 100 (VStr (token_of "sess1")) (VStr "ep2") VNone = Err (rpc_error "forbidden").
Proof.
  assert (∀ body, g_verify token_gate (token_sign body) body = true) as Hsign by (intros body; apply String.eqb_refl).
  assert (decimal (5 # 2)) as H1 by (apply (binary_decimal _ 1); reflexivity).
  assert (decimal ((5 # 2) + 600)) as H2 by (apply (binary_decimal _ 1); reflexivity).
  split.
  - rewrite (minted_token_outcome token_gate token_sign (5 # 2) "n" "ep1" "reporter" "sess1" "b1" 600 (token_of "sess1")
               100 (VStr "ep1") VNone Hsign H1 H2); [vm_compute; reflexivity | vm_compute; reflexivity].
  - rewrite (minted_token_outcome token_gate token_sign (5 # 2) "n" "ep1" "reporter" "sess1" "b1" 600 (token_of "sess1")
               100 (VStr "ep2") VNone Hsign H1 H2); [vm_compute; reflexivity | vm_compute; reflexivity].
Defined.
