(* ===== verification/Rpc.v ===== *)
(** * RPC dispatch with transport-derived principals (src/valops/common/rpc.py)

    Sockets, framing and peer credentials are the operating system's: a
    connection is its peer uid and pid, a request its parsed line. What is
    modelled is who is let in, what a request can reach, and which exceptions
    become which replies. *)
From S2P Require Import Prelude PyVal Schema Canonical.

(** src/valops/common/rpc.py:30-30 IDENTITY_FIELDS *)
Definition IDENTITY_FIELDS : list string := ["actor"; "principal"; "caller"].

(** src/valops/common/rpc.py:47-52 Ctx *)
Record Ctx : Type := mkCtx { x_endpoint : string; x_principal : string; x_uid : Z; x_pid : Z }.

(** src/valops/common/rpc.py:58-68 Endpoint

    [S] is the state of the object the methods are bound to, [R] their results. *)
Record Endpoint (S R : Type) : Type := mkEndpoint {
  ep_name : string;
  ep_principal : string;
  ep_allowed_uids : list Z;
  ep_methods : list (string * (Ctx → dict → M S exn R));
}.
Arguments mkEndpoint {_ _}.
Arguments ep_name {_ _}.
Arguments ep_principal {_ _}.
Arguments ep_allowed_uids {_ _}.
Arguments ep_methods {_ _}.

(** What the peer reads: a result, an error object, the method list, or a
    connection closed because an exception left the handler. *)
Inductive response (R : Type) : Type :=
| RespResult (id : val) (r : R)
| RespMethods (id : val) (l : list string)
| RespError (id : val) (code : string) (data : val)
| RespDropped (e : exn).
Arguments RespResult {_}.
Arguments RespMethods {_}.
Arguments RespError {_}.
Arguments RespDropped {_}.

(** [for f in IDENTITY_FIELDS: params.pop(f, None)] *)
Definition strip_identity (params : dict) : dict := fold_left dpop IDENTITY_FIELDS params.

Section dispatch.
Context {S R : Type}.
Implicit Types ep : Endpoint S R.

(** src/valops/common/rpc.py:67-68 Endpoint.served *)
Definition served ep : list string := dkeys (ksort (ep_methods ep)).

(** src/valops/common/rpc.py:100-124 _Handler._dispatch

    [line] is [json.loads] of the request line, [None] its [ValueError]. The
    [RpcError] raised for non-object [params] is not among the exceptions
    that [try] catches, and the method lookup is outside any [try]. *)
Definition dispatch ep (ctx : Ctx) (line : option val) (s : S) : response R * S :=
  match line with
  | Some (VDict req) =>
      let rid := dget_none req "id" in
      let method := dget_none req "method" in
      match py_or (dget_none req "params") (VDict []) with
      | VDict params =>
          let params := strip_identity params in
          if py_eq method (VStr "rpc.methods") then (RespMethods rid (served ep), s)
          else if negb (hashable method) then (RespDropped (PyExc "TypeError"), s)
          else match as_str method ≫= dget (ep_methods ep) with
               | None => (RespError rid "unknown_method" VNone, s)
               | Some fn =>
                   match fn ctx params s with
                   | (Ok r, s') => (RespResult rid r, s')
                   | (Err (RpcError code data), s') => (RespError rid code data, s')
                   | (Err (PyExc _), s') => (RespError rid "internal" VNone, s')
                   end
               end
      | _ => (RespDropped (rpc_error "invalid"), s)
      end
  | _ => (RespError VNone "invalid" VNone, s)
  end.

(** src/valops/common/rpc.py:80-98 _Handler.handle

    One request of a connection: the peer's uid is checked against the
    endpoint and the principal is the endpoint's. *)
Definition handle ep (uid pid : Z) (line : option val) (s : S) : response R * S :=
  if existsb (Z.eqb uid) (ep_allowed_uids ep)
  then dispatch ep (mkCtx (ep_name ep) (ep_principal ep) uid pid) line s
  else (RespError VNone "denied" VNone, s).

(** src/valops/common/rpc.py:174-202 RpcClient.call

    What a call that got this response returns or raises; one that could not connect,
    or whose connection closed without a response, raises [unavailable]. *)
Definition call_result (resp : response R) : result exn R :=
  match resp with
  | RespResult _ r => Ok r
  | RespMethods _ _ => Err (PyExc "TypeError")
  | RespError _ code data => Err (RpcError code data)
  | RespDropped _ => Err (rpc_error "unavailable")
  end.

(** ** Facts *)
Definition succeeded (resp : response R) : bool := match resp with RespResult _ _ => true | _ => false end.

Lemma strip_identity_get params f : f ∈ IDENTITY_FIELDS → dget (strip_identity params) f = None.
Proof.
  unfold strip_identity, IDENTITY_FIELDS; cbn. rewrite !elem_of_cons, elem_of_nil.
  intros [->|[->|[->|[]]]].
  - rewrite !dget_dpop_ne by done. apply dget_dpop_eq.
  - rewrite dget_dpop_ne by done. apply dget_dpop_eq.
  - apply dget_dpop_eq.
Qed.

Lemma strip_identity_other params f : f ∉ IDENTITY_FIELDS → dget (strip_identity params) f = dget params f.
Proof.
  unfold strip_identity, IDENTITY_FIELDS; cbn. rewrite !elem_of_cons. intros Hf.
  rewrite !dget_dpop_ne by naive_solver. done.
Qed.

(** The method a request names and the parameters it reaches it with. *)
Definition request_of (line : option val) : option (string * dict) :=
  match line with
  | Some (VDict req) =>
      match py_or (dget_none req "params") (VDict []), dget_none req "method" with
      | VDict params, VStr name => Some (name, strip_identity params)
      | _, _ => None
      end
  | _ => None
  end.

(** What a peer reads of a method's outcome. *)
Definition answers (r : result exn R) (resp : response R) : Prop :=
  match r with
  | Ok x => ∃ id, resp = RespResult id x
  | Err (RpcError code data) => ∃ id, resp = RespError id code data
  | Err (PyExc _) => ∃ id, resp = RespError id "internal" VNone
  end.

(** Whatever a request says, it is refused, or runs one of the endpoint's
    methods as the endpoint's principal, on parameters without identity. *)
Lemma handle_routed ep uid pid line s resp s' :
  handle ep uid pid line s = (resp, s') →
  (s' = s ∧ succeeded resp = false) ∨ ∃ name params fn r,
    uid ∈ ep_allowed_uids ep ∧ request_of line = Some (name, params) ∧ dget (ep_methods ep) name = Some fn ∧
    fn (mkCtx (ep_name ep) (ep_principal ep) uid pid) params s = (r, s') ∧ answers r resp.
Proof.
  unfold handle. destruct (existsb _ _) eqn:Huid; [|intros [= <- <-]; by left].
  apply existsb_true in Huid as (u & Hu & ->%Z.eqb_eq).
  unfold dispatch, request_of. destruct line as [[| | | | | |req]|]; try (intros [= <- <-]; by left).
  destruct (py_or _ _) as [| | | | | |params]; try (intros [= <- <-]; by left).
  destruct (py_eq _ _); [intros [= <- <-]; by left|].
  destruct (negb _); [intros [= <- <-]; by left|].
  destruct (dget_none req "method") as [| | | |name| |]; cbn; try (intros [= <- <-]; by left).
  destruct (dget (ep_methods ep) name) as [fn|] eqn:Hfn; [|intros [= <- <-]; by left].
  destruct (fn _ _ s) as [r s1] eqn:Hrun. intros H. right. exists name, (strip_identity params), fn, r.
  destruct r as [x|[code data|]]; injection H as <- <-; split_and!; cbn; eauto.
Qed.

Lemma answers_succeeded r resp : answers r resp → is_ok r = succeeded resp.
Proof. destruct r as [x|[]]; cbn; intros [id ->]; done. Qed.
End dispatch.
