(* ===== verification/Fold.v ===== *)
(** * The episode record as a fold over the entry log (src/valops/store/fold.py)

    Entry bodies are a tagged union with one constructor per entry kind; the
    record's lists hold the bodies with what [apply] adds to them. The
    formatted time [t] of an item is its timestamp here. *)
From S2P Require Import Prelude PyVal Tools.

(** ** Entry bodies *)
Record signal_body : Type := mkSignalB {
  sg_id : string; sg_command_id : val; sg_status : val; sg_summary : val; sg_truncated : bool;
  sg_collected_at : val; sg_flags : val; sg_ref : val; sg_source : string }.
Record hypothesis_body : Type := mkHypB {
  h_id : string; h_step_session : val; h_rank : Z; h_claim : string; h_test : string; h_expected : string }.
Record status_body : Type := mkStatusB { st_hypothesis_id : string; st_status : string; st_refs : list string }.
Record recommendation_body : Type := mkRecB {
  rc_id : string; rc_hypothesis : string; rc_action_text : string; rc_skill : string; rc_preconditions : val;
  rc_postcondition : string; rc_refs : list string }.
Record no_action_body : Type := mkNoActB { na_id : string; na_reason : string; na_refs : list string }.
Record verdict_body : Type := mkVerdictB { vd_target_id : string; vd_result : string; vd_checks : list val }.
Record report_body : Type := mkReportB { rp_kind : string; rp_ref : string }.
Record cost_body : Type := mkCostB {
  co_role : string; co_usd : val; co_turns : val; co_session_id : val; co_configuration : val; co_tokens : val }.
Record step_body : Type := mkStepB {
  sp_role : string; sp_session_id : val; sp_outcome : string; sp_reason : val; sp_state : val; sp_configuration : val }.
Record opened_body : Type := mkOpenB {
  o_class : string; o_trigger : val; o_validator_id : string; o_bundle_id : string;
  o_mode : string; o_mode_evidence : val; o_dedupe_key : string }.

Inductive body : Type :=
| BOpened (o : opened_body)
| BSignal (s : signal_body)
| BHypothesis (h : hypothesis_body)
| BHypothesisStatus (s : status_body)
| BRecommendation (r : recommendation_body)
| BNoAction (n : no_action_body)
| BVerdict (v : verdict_body)
| BReport (r : report_body)
| BVerification (rule result samples : val)
| BRecovery (rule note : val)
| BState (frm : option string) (to : string) (reason : val)
| BCost (c : cost_body)
| BStep (s : step_body)
| BAnnotation (kind note : val).

(** src/valops/store/service.py:102-105 EpisodeStore._row *)
Record entry : Type := mkEntry {
  e_episode : string; e_rev : Z; e_ts : Q; e_body : body; e_principal : string; e_session : val;
  e_bundle : string; e_audit_ref : string }.

(** ** The record *)
Record signal : Type := mkSignal { sg_body :> signal_body; sg_t : Q; sg_audit_ref : string }.
Record hypothesis : Type := mkHyp {
  h_body :> hypothesis_body; h_status : string; h_refs : list string; h_status_history : list (Q * string * val); h_t : Q }.
Record recommendation : Type := mkRecom { rc_body :> recommendation_body; rc_session : val; rc_t : Q; rc_rev : Z }.
Record no_action : Type := mkNoAct { na_body :> no_action_body; na_session : val; na_t : Q; na_rev : Z }.
Record verdict : Type := mkVerdict { vd_body :> verdict_body; vd_session : val; vd_t : Q }.
Record report : Type := mkReport { rp_body :> report_body; rp_session : val; rp_t : Q }.
Record verification : Type := mkVerif { vf_rule : val; vf_result : val; vf_samples : val; vf_t : Q }.
Record recovery : Type := mkRecov { rv_rule : val; rv_note : val; rv_t : Q }.
Record annotation : Type := mkAnnot { an_kind : val; an_note : val; an_t : Q }.
Record step : Type := mkStep { sp_body :> step_body; sp_ts : Q }.
Record history : Type := mkHist {
  sh_ts : Q; sh_from : option string; sh_to : string; sh_by : string; sh_rev : Z; sh_reason : val }.
Record cost : Type := mkCost {
  ct_per_role_usd : list (string * Q); ct_turns : list (string * Z); ct_by_session : list (val * cost_body) }.

Record record : Type := mkRec {
  r_episode_id : string; r_revision : Z; r_class : option string; r_opened_ts : option Q; r_trigger : val;
  r_validator_id : option string; r_bundle_id : option string; r_policy_bundle : option string;
  r_consensus_mode : option string; r_consensus_mode_evidence : val;
  r_signals : list signal; r_hypotheses : list hypothesis; r_recommendations : list recommendation;
  r_no_action : list no_action; r_verdicts : list verdict;
  r_approvals : list val; r_executions : list val;
  r_verifications : list verification; r_recovery : list recovery; r_reports : list report;
  r_annotations : list annotation; r_steps : list step;
  r_state : option string; r_history : list history; r_cost : cost; r_dedupe_key : option string }.

(** src/valops/store/fold.py:10-19 empty_record *)
Definition empty_record (episode_id : string) : record :=
  mkRec episode_id 0 None None VNone None None None None (VDict []) [] [] [] [] [] [] [] [] [] [] [] []
    None [] (mkCost [] [] []) None.

(** Field update: [set_field (f r) v] is [r] with the field [f] replaced by [v]. *)
Definition rec_eta (r : record) : record :=
  mkRec (r_episode_id r) (r_revision r) (r_class r) (r_opened_ts r) (r_trigger r) (r_validator_id r) (r_bundle_id r)
    (r_policy_bundle r) (r_consensus_mode r) (r_consensus_mode_evidence r) (r_signals r) (r_hypotheses r)
    (r_recommendations r) (r_no_action r) (r_verdicts r) (r_approvals r) (r_executions r) (r_verifications r)
    (r_recovery r) (r_reports r) (r_annotations r) (r_steps r) (r_state r) (r_history r) (r_cost r) (r_dedupe_key r).
Ltac set_field r f v :=
  let t := eval cbv beta delta [rec_eta] in (rec_eta r) in
  match eval pattern (f r) in t with
  | ?F _ => let x := eval cbv beta in (F v) in exact x
  end.

Definition set_revision (v : Z) (r : record) : record := ltac:(set_field r r_revision v).
Definition set_bundle_id (v : option string) (r : record) : record := ltac:(set_field r r_bundle_id v).
Definition set_state_field (v : option string) (r : record) : record := ltac:(set_field r r_state v).
Definition set_signals (v : list signal) (r : record) : record := ltac:(set_field r r_signals v).
Definition set_hypotheses (v : list hypothesis) (r : record) : record := ltac:(set_field r r_hypotheses v).
Definition set_recommendations (v : list recommendation) (r : record) : record := ltac:(set_field r r_recommendations v).
Definition set_no_action (v : list no_action) (r : record) : record := ltac:(set_field r r_no_action v).
Definition set_verdicts (v : list verdict) (r : record) : record := ltac:(set_field r r_verdicts v).
Definition set_reports (v : list report) (r : record) : record := ltac:(set_field r r_reports v).
Definition set_verifications (v : list verification) (r : record) : record := ltac:(set_field r r_verifications v).
Definition set_recovery (v : list recovery) (r : record) : record := ltac:(set_field r r_recovery v).
Definition set_annotations (v : list annotation) (r : record) : record := ltac:(set_field r r_annotations v).
Definition set_steps (v : list step) (r : record) : record := ltac:(set_field r r_steps v).
Definition set_history (v : list history) (r : record) : record := ltac:(set_field r r_history v).
Definition set_cost (v : cost) (r : record) : record := ltac:(set_field r r_cost v).

(** [rec.update(...)] of an [opened] entry. *)
Definition set_opened (o : opened_body) (ts : Q) (r : record) : record :=
  mkRec (r_episode_id r) (r_revision r) (Some (o_class o)) (Some ts) (o_trigger o) (Some (o_validator_id o))
    (Some (o_bundle_id o)) (Some ("sha256:" +:+ o_bundle_id o)) (Some (o_mode o)) (o_mode_evidence o)
    (r_signals r) (r_hypotheses r) (r_recommendations r) (r_no_action r) (r_verdicts r) (r_approvals r) (r_executions r)
    (r_verifications r) (r_recovery r) (r_reports r) (r_annotations r) (r_steps r)
    (Some "open") (r_history r) (r_cost r) (Some (o_dedupe_key o)).

(** [d[k] = v] for a dict whose keys are arbitrary hashable values. *)
Fixpoint vset {A} (d : list (val * A)) (k : val) (v : A) : list (val * A) :=
  match d with
  | [] => [(k, v)]
  | (k', v') :: d' => if py_eq k k' then (k', v) :: d' else (k', v') :: vset d' k v
  end.

Definition Z_of_val (v : val) : Z := match v with VInt z => z | VBool b => if b then 1 else 0 | _ => 0 end%Z.
Definition Q_of_val (v : val) : Q := default 0%Q (num_of v).

(** The first integer that rounds to no finite float; adding one of that size to a float
    raises. *)
Definition FLOAT_END : Z := (2 ^ 1024 - 2 ^ 970)%Z.
Definition no_float (v : val) : bool := match v with VInt z => (FLOAT_END <=? Z.abs z)%Z | _ => false end.
(** What [apply] raises at a body, if anything. *)
Definition apply_error (b : body) : option exn :=
  match b with BCost b => if no_float (co_usd b) then Some (PyExc "OverflowError") else None | _ => None end.

(** The [cost] branch of [apply]: the sum is the first of its three assignments, so nothing
    is assigned when it raises. *)
Definition apply_cost (b : cost_body) (c : cost) : cost :=
  if no_float (co_usd b) then c
  else
    mkCost (dset (ct_per_role_usd c) (co_role b)
              (py_round 6 (default 0%Q (dget (ct_per_role_usd c) (co_role b)) + Q_of_val (co_usd b))%Q))
           (dset (ct_turns c) (co_role b) (default 0%Z (dget (ct_turns c) (co_role b)) + Z_of_val (co_turns b))%Z)
           (vset (ct_by_session c) (co_session_id b) b).

(** The [hypothesis_status] branch of [apply], at one hypothesis. *)
Definition apply_status (b : status_body) (ts : Q) (session : val) (h : hypothesis) : hypothesis :=
  if String.eqb (h_id h) (st_hypothesis_id b)
  then mkHyp (h_body h) (st_status b) (st_refs b) (h_status_history h ++ [(ts, st_status b, session)]) (h_t h)
  else h.

(** src/valops/store/fold.py:22-70 apply

    What becomes of the record the code updates in place, also when it raises
    [apply_error], with the revision then set and nothing else. *)
Definition apply (rec : record) (e : entry) : record :=
  let rec := set_revision (e_rev e) rec in
  let t := e_ts e in
  match e_body e with
  | BOpened b =>
      let rec := set_opened b t rec in
      set_history (r_history rec ++ [mkHist t None "open" (e_principal e) (e_rev e) VNone]) rec
  | BSignal b => set_signals (r_signals rec ++ [mkSignal b t (e_audit_ref e)]) rec
  | BHypothesis b => set_hypotheses (r_hypotheses rec ++ [mkHyp b "open" [] [] t]) rec
  | BHypothesisStatus b => set_hypotheses (map (apply_status b t (e_session e)) (r_hypotheses rec)) rec
  | BRecommendation b => set_recommendations (r_recommendations rec ++ [mkRecom b (e_session e) t (e_rev e)]) rec
  | BNoAction b => set_no_action (r_no_action rec ++ [mkNoAct b (e_session e) t (e_rev e)]) rec
  | BVerdict b => set_verdicts (r_verdicts rec ++ [mkVerdict b (e_session e) t]) rec
  | BReport b => set_reports (r_reports rec ++ [mkReport b (e_session e) t]) rec
  | BVerification rule result samples => set_verifications (r_verifications rec ++ [mkVerif rule result samples t]) rec
  | BRecovery rule note => set_recovery (r_recovery rec ++ [mkRecov rule note t]) rec
  | BState frm to reason =>
      let rec := set_state_field (Some to) rec in
      set_history (r_history rec ++ [mkHist t frm to (e_principal e) (e_rev e) reason]) rec
  | BCost b => set_cost (apply_cost b (r_cost rec)) rec
  | BStep b => set_steps (r_steps rec ++ [mkStep b t]) rec
  | BAnnotation kind note => set_annotations (r_annotations rec ++ [mkAnnot kind note t]) rec
  end.

(** [apply(rec, e)] where what it raises is not caught. *)
Definition applies (rec : record) (e : entry) : result exn record :=
  match apply_error (e_body e) with Some x => Err x | None => Ok (apply rec e) end.
Fixpoint apply_all (rec : record) (entries : list entry) : result exn record :=
  match entries with [] => Ok rec | e :: entries => rec ← applies rec e; apply_all rec entries end.
(** src/valops/store/fold.py:73-79 fold *)
Definition fold (entries : list entry) : result exn record :=
  match entries with
  | [] => Err (PyExc "KeyError")
  | e :: _ => apply_all (empty_record (e_episode e)) entries
  end.

(** ** Views *)

(** src/valops/store/fold.py:82-92 top_hypothesis *)
Definition top_hypothesis (rec : record) : option hypothesis :=
  let done_ := List.filter (λ s : step, String.eqb (sp_role s) "diagnostician" && String.eqb (sp_outcome s) "ok") (r_steps rec) in
  match list.last done_ with
  | Some s => find_first (λ h : hypothesis, py_eq (h_step_session h) (sp_session_id s) && (h_rank h =? 1)%Z) (r_hypotheses rec)
  | None => None
  end.

(** A recommendation or a no-action record. *)
Inductive artefact : Type :=
| ARec (r : recommendation)
| ANo (n : no_action).
Definition a_id (a : artefact) : string := match a with ARec r => rc_id r | ANo n => na_id n end.
Definition a_rev (a : artefact) : Z := match a with ARec r => rc_rev r | ANo n => na_rev n end.
Definition a_session (a : artefact) : val := match a with ARec r => rc_session r | ANo n => na_session n end.
Definition a_refs (a : artefact) : list string := match a with ARec r => rc_refs r | ANo n => na_refs n end.
Definition artefacts (rec : record) : list artefact := map ARec (r_recommendations rec) ++ map ANo (r_no_action rec).

(** [max(l, key=rev)]: the first of the greatest. *)
Fixpoint max_by_rev (best : artefact) (l : list artefact) : artefact :=
  match l with
  | [] => best
  | a :: l' => max_by_rev (if (a_rev best <? a_rev a)%Z then a else best) l'
  end.

(** src/valops/store/fold.py:95-98 under_judgement *)
Definition under_judgement (rec : record) : option artefact :=
  match artefacts rec with
  | [] => None
  | a :: l => Some (max_by_rev a l)
  end.

Record skill_view : Type := mkSkillView { sv_name : string; sv_modes : val; sv_preconditions : val }.
(** The artefact without [session_id] and [rev]. *)
Inductive artefact_view : Type :=
| AVRec (b : recommendation_body) (t : Q)
| AVNo (b : no_action_body) (t : Q).
Definition strip_artefact (a : artefact) : artefact_view :=
  match a with ARec r => AVRec (rc_body r) (rc_t r) | ANo n => AVNo (na_body n) (na_t n) end.

Record judge_view_t : Type := mkJudgeView {
  jv_episode_id : string; jv_class : option string; jv_trigger : val; jv_state : option string;
  jv_mode : option string; jv_mode_evidence : val; jv_signals : list signal;
  jv_under_judgement : option artefact_view; jv_skill : option skill_view;
  jv_verifications : list verification; jv_recovery : list recovery }.

(** [skills.get(name) or {}], then [.get(k)]: a skill is a dict. *)
Definition skill_get (skills : dict) (name k : string) (dflt : val) : val :=
  match dget skills name with
  | Some (VDict s) => default dflt (dget s k)
  | _ => dflt
  end.

(** src/valops/store/fold.py:101-122 judge_view *)
Definition judge_view (rec : record) (skills : dict) : judge_view_t :=
  let target := under_judgement rec in
  let skill := match target with
               | Some (ARec r) => Some (mkSkillView (rc_skill r) (skill_get skills (rc_skill r) "modes" VNone)
                                          (skill_get skills (rc_skill r) "preconditions" (VList [])))
               | _ => None
               end in
  mkJudgeView (r_episode_id rec) (r_class rec) (r_trigger rec) (r_state rec) (r_consensus_mode rec)
    (r_consensus_mode_evidence rec) (r_signals rec) (strip_artefact <$> target) skill
    (r_verifications rec) (r_recovery rec).

Record full_view_t : Type := mkFullView { fv_record : record; fv_top : option hypothesis }.
(** src/valops/store/fold.py:125-130 full_view

    The whole record with the top hypothesis; the dedupe key is dropped. *)
Definition full_view (rec : record) : full_view_t :=
  mkFullView (ltac:(set_field rec r_dedupe_key (@None string))) (top_hypothesis rec).

(** src/valops/store/fold.py:133-135 VIEW_BY_ROLE *)
Definition VIEW_BY_ROLE (role : string) : option string :=
  dget [("diagnostician", "full"); ("change_planner", "full"); ("proposal_judge", "judge"); ("reporter", "full")] role.

Inductive view : Type :=
| VJudge (v : judge_view_t)
| VFull (v : full_view_t).

(** src/valops/store/fold.py:138-141 view_for *)
Definition view_for (rec : record) (which : val) (skills : dict) : view :=
  if py_eq which (VStr "judge") then VJudge (judge_view rec skills) else VFull (full_view rec).
