(* ===== verification/Store.v ===== *)
(** * The episode store (src/valops/store/service.py)

    [EpisodeStore]'s state is its two append-only tables and the in-memory
    records folded from them. Every handler is a computation of the
    state-and-exception monad, run under the store's lock; what it reads from
    its collaborators during a call (clock, token gate, bundle registry, audit
    client, fresh uuid) is its [env]. *)
From S2P Require Import Prelude PyVal Schema Canonical Tools Transitions Tokens Rpc Fold.

(** ** State *)

(** src/valops/store/service.py:51-55 SCHEMA.entries *)
Record row : Type := mkRow { w_entry :> entry; w_idem : string; w_result : val }.
(** src/valops/store/service.py:56-56 SCHEMA.opens *)
Record open_row : Type := mkOpenRow { op_idem : string; op_episode : string; op_result : val }.

(** src/valops/store/service.py:80-91 EpisodeStore.__init__ *)
Record store : Type := mkStore {
  s_entries : list row;
  s_opens : list open_row;
  s_records : list (string * record);
}.
Abbreviation SM := (M store exn).

(** The collaborators as one call sees them. *)
Record env : Type := mkEnv {
  v_now : Q;                                      (* now() *)
  v_gate : TokenGate;                             (* self.tokens *)
  v_verify : val → result exn (option string);    (* self.bundles.verify *)
  v_skills : string → result exn dict;            (* self.bundles.load(id).skills *)
  v_audit : option (result exn val);              (* self.audit, and what submit does *)
  v_uuid : string;                                (* str(uuid.uuid4()) *)
}.

(** src/valops/store/service.py:63-64 CLASSES *)
Definition CLASSES : list string := ["validator_health"; "telemetry_health"].
Definition MODES : list string := ["tower"; "alpenglow"; "unknown"].

(** src/valops/store/service.py:66-73 AGENT_OPS *)
Definition AGENT_OPS (op : string) : option string :=
  dget [("append_hypothesis", "add_hypothesis"); ("append_hypothesis_status", "set_hypothesis_status");
        ("append_recommendation", "propose_recommendation"); ("append_no_action", "report_no_action");
        ("append_verdict", "submit_verdict"); ("append_report", "write_incident_report")] op.

Definition contract : exn := rpc_error "contract".
Definition str_of (v : val) : string := match v with VStr s => s | _ => "" end.
(** [rec["state"]], [rec["bundle_id"]], ... as a Python value. *)
Definition opt_str (o : option string) : val := match o with Some s => VStr s | None => VNone end.

(** ** Persistence *)

(** src/valops/store/service.py:94-100 EpisodeStore._rebuild

    [rows] are in the order of the query's [ORDER BY episode_id, rev]. *)
Fixpoint rebuild_from (recs : list (string * record)) (rows : list row) : result exn (list (string * record)) :=
  match rows with
  | [] => Ok recs
  | r :: rows =>
      let rec := default (empty_record (e_episode r)) (dget recs (e_episode r)) in
      rec ← applies rec r;
      rebuild_from (dset recs (e_episode r) rec) rows
  end.
Definition rebuild (rows : list row) : result exn (list (string * record)) := rebuild_from [] rows.

(** The order of the query: by episode, then by revision. *)
Definition row_le (x y : row) : bool :=
  String.ltb (e_episode x) (e_episode y) || (String.eqb (e_episode x) (e_episode y) && (e_rev x <=? e_rev y)%Z).
Fixpoint row_insert (x : row) (l : list row) : list row :=
  match l with
  | [] => [x]
  | y :: l' => if row_le x y then x :: l else y :: row_insert x l'
  end.
Definition order_rows (rows : list row) : list row := foldr row_insert [] rows.

(** A process restart: the tables are on disk, the records are rebuilt; what that raises
    ends the process. *)
Definition restart (s : store) : result exn store :=
  recs ← rebuild (order_rows (s_entries s)); Ok (mkStore (s_entries s) (s_opens s) recs).

(** src/valops/store/service.py:107-111 EpisodeStore._record *)
Definition get_record (episode_id : val) : SM record :=
  s ← get_state;
  match episode_id with
  | VStr k => lift (of_opt (dget (s_records s) k) (rpc_error "not_found"))
  | _ => raise (if hashable episode_id then rpc_error "not_found" else PyExc "TypeError")
  end.

Definition find_idem (rows : list row) (episode_id idem_key : string) : option row :=
  find_first (λ r : row, String.eqb (e_episode r) episode_id && String.eqb (w_idem r) idem_key) rows.

(** src/valops/store/service.py:113-117 EpisodeStore._idem *)
Definition idem (episode_id : string) (idem_key : val) : SM val :=
  _ ← require (nonempty idem_key && (slen (str_of idem_key) <=? 200)%N) (rpc_error "invalid");
  s ← get_state;
  mret (match find_idem (s_entries s) episode_id (str_of idem_key) with Some r => w_result r | None => VNone end).

(** [if prior is not None: return prior] *)
Definition unless_prior (prior : val) (k : SM val) : SM val :=
  match prior with VNone => k | _ => mret prior end.

(** Values SQLite can bind. *)
Definition bindable (v : val) : result exn unit :=
  match v with
  | VList _ | VDict _ => Err (PyExc "ProgrammingError")
  | VInt z => check ((- 2 ^ 63 <=? z) && (z <? 2 ^ 63))%Z (PyExc "OverflowError")
  | _ => Ok tt
  end.

(** [f"audit:{result['seq']}" if "seq" in result else "audit:pending"],
    src/valops/audit/client.py:62-63 AuditClient.ref *)
Definition audit_ref_of (r : val) : string :=
  match r with
  | VDict d => match dget d "seq" with Some q => "audit:" +:+ py_str q | None => "audit:pending" end
  | _ => "audit:pending"
  end.

(** The INSERT of [_append] with the table's constraints. *)
Definition insert_row (r : row) : SM unit :=
  _ ← lift (bindable (e_session r));
  s ← get_state;
  _ ← require (negb (existsb (λ r' : row, String.eqb (e_episode r') (e_episode r) &&
                                ((e_rev r' =? e_rev r)%Z || String.eqb (w_idem r') (w_idem r))) (s_entries s)))
              (PyExc "IntegrityError");
  put_state (mkStore (s_entries s ++ [r]) (s_opens s) (s_records s)).

Definition set_record (k : string) (rec : record) : SM unit :=
  modify (λ s, mkStore (s_entries s) (s_opens s) (dset (s_records s) k rec)).

(** src/valops/store/service.py:119-138 EpisodeStore._append

    Audit first, then the row, which is on disk at once, then the record; [rec] is the
    object held in [_records] under its own id, updated in place. *)
Definition append (v : env) (rec : record) (b : body) (principal : string) (session_id : val)
    (idem_key : string) (result : val) : SM val :=
  let rev := (r_revision rec + 1)%Z in
  audit_ref ← match v_audit v with
              | None => mret "audit:none"
              | Some (Ok r) => mret (audit_ref_of r)
              | Some (Err (RpcError _ _)) => raise (rpc_error "audit_unavailable")
              | Some (Err e) => raise e
              end;
  bundle ← lift (of_opt (r_bundle_id rec) (PyExc "IntegrityError"));
  let e := mkEntry (r_episode_id rec) rev (v_now v) b principal session_id bundle audit_ref in
  _ ← insert_row (mkRow e idem_key result);
  _ ← set_record (r_episode_id rec) (apply rec e);
  match apply_error b with Some x => raise x | None => mret result end.

(** src/valops/store/service.py:140-142 EpisodeStore._next_id *)
Definition next_id {A} (items : list A) (prefix : string) : string := fmt_id prefix (length items + 1).

(** ** Shared checks *)

(** src/valops/store/service.py:145-154 EpisodeStore._refs_exist *)
Definition refs_exist (rec : record) (refs : val) : result exn (list string) :=
  match refs with
  | VList ((_ :: _) as xs) =>
      let have := map (λ s : signal, sg_id s) (r_signals rec) in
      if forallb hashable xs then
        match mapM as_str xs with
        | Some ss => if forallb (λ r, str_in r have) ss then Ok ss else Err contract
        | None => Err contract
        end
      else Err (PyExc "TypeError")
  | _ => Err contract
  end.

(** src/valops/store/service.py:156-170 EpisodeStore._agent_gate *)
Definition agent_gate (v : env) (ctx : Ctx) (op : string) (p : dict) : SM (Capability * record) :=
  _ ← require (str_in (x_principal ctx) ["episode_broker"; "report_broker"]) (rpc_error "forbidden");
  let episode_id := dget_none p "episode_id" in
  cap ← lift (check_token (v_gate v) (v_now v) (dget_none p "token") episode_id VNone);
  rec ← get_record episode_id;
  _ ← require (py_eq (c_bundle_id cap) (opt_str (r_bundle_id rec))) (rpc_error "bundle_refused");
  match AGENT_OPS op ≫= TOOLS_BY_NAME with
  | None => mret (cap, rec)
  | Some tool =>
      _ ← require (py_in (c_role cap) (map VStr (t_roles tool))) (rpc_error "forbidden");
      _ ← require (match r_state rec with Some s => str_in s (t_states tool) | None => false end) (rpc_error "illegal_state");
      mret (cap, rec)
  end.

(** [f"agent:{cap.role}"] *)
Definition agent_principal (cap : Capability) : string := "agent:" +:+ py_str (c_role cap).

Definition ok_result : val := VDict [("ok", VBool true)].

(** ** store-agent *)

(** src/valops/store/service.py:173-192 EpisodeStore.append_hypothesis *)
Definition append_hypothesis (v : env) (ctx : Ctx) (p : dict) : SM val :=
  '(cap, rec) ← agent_gate v ctx "append_hypothesis" p;
  prior ← idem (r_episode_id rec) (dget_none p "idem_key");
  unless_prior prior (
  let h := py_or (dget_none p "hypothesis") (VDict []) in
  claim ← lift (vget h "claim"); _ ← require (nonempty claim) contract;
  test ← lift (vget h "test"); _ ← require (nonempty test) contract;
  expected ← lift (vget h "expected_evidence"); _ ← require (nonempty expected) contract;
  rank ← lift (vget h "rank");
  _ ← require (match rank with VInt z => (1 <=? z)%Z | _ => false end) contract;
  let rank := Z_of_val rank in
  _ ← require (negb (existsb (λ x : hypothesis, py_eq (h_step_session x) (c_session_id cap) && (h_rank x =? rank)%Z)
                       (r_hypotheses rec))) contract;
  let hid := next_id (r_hypotheses rec) "h" in
  append v rec (BHypothesis (mkHypB hid (c_session_id cap) rank (str_of claim) (str_of test) (str_of expected)))
    (agent_principal cap) (c_session_id cap) (str_of (dget_none p "idem_key")) (VDict [("hypothesis_id", VStr hid)])).

(** src/valops/store/service.py:194-208 EpisodeStore.append_hypothesis_status *)
Definition append_hypothesis_status (v : env) (ctx : Ctx) (p : dict) : SM val :=
  '(cap, rec) ← agent_gate v ctx "append_hypothesis_status" p;
  prior ← idem (r_episode_id rec) (dget_none p "idem_key");
  unless_prior prior (
  let hid := dget_none p "hypothesis_id" in
  let status := dget_none p "status" in
  known ← lift (in_str_set hid (map (λ h : hypothesis, h_id h) (r_hypotheses rec)));
  _ ← require known contract;
  _ ← require (py_in status (map VStr ["supported"; "refuted"])) contract;
  refs ← lift (refs_exist rec (dget_none p "evidence_refs"));
  append v rec (BHypothesisStatus (mkStatusB (str_of hid) (str_of status) refs))
    (agent_principal cap) (c_session_id cap) (str_of (dget_none p "idem_key")) ok_result).

(** src/valops/store/service.py:210-213 EpisodeStore._one_per_session

    [sessions] are the session ids of the record's items of the given kinds. *)
Definition one_per_session (sessions : list val) (cap : Capability) : SM unit :=
  require (negb (existsb (λ x, py_eq x (c_session_id cap)) sessions)) contract.
Definition planner_sessions (rec : record) : list val := map a_session (artefacts rec).
Definition verdict_sessions (rec : record) : list val := map vd_session (r_verdicts rec).

(** The skill checks of [append_recommendation]: a planner skill of the bundle,
    whose modes admit the record's consensus mode. *)
Definition skill_admitted (skills : dict) (name : string) (mode : option string) : result exn unit :=
  skill ← match dget_none skills name with VNone => Err contract | s => Ok s end;
  planner ← match skill with
            | VDict d => py_contains (default (VList []) (dget d "roles")) (VStr "change_planner")
            | _ => Err (PyExc "AttributeError")
            end;
  _ ← check planner contract;
  modes ← vget skill "modes";
  if py_eq modes (VStr "any") then Ok tt
  else
    _ ← check (negb (py_eq (opt_str mode) (VStr "unknown"))) contract;
    applies ← py_contains modes (opt_str mode);
    check applies contract.

(** src/valops/store/service.py:215-248 EpisodeStore.append_recommendation *)
Definition append_recommendation (v : env) (ctx : Ctx) (p : dict) : SM val :=
  '(cap, rec) ← agent_gate v ctx "append_recommendation" p;
  prior ← idem (r_episode_id rec) (dget_none p "idem_key");
  unless_prior prior (
  _ ← one_per_session (planner_sessions rec) cap;
  let r := py_or (dget_none p "recommendation") (VDict []) in
  _ ← require (validate recommendation_schema r) contract;
  hyp ← lift (vindex r "hypothesis_id");
  _ ← require (str_in (str_of hyp) (map (λ h : hypothesis, h_id h) (r_hypotheses rec))) contract;
  bundle ← lift (of_opt (r_bundle_id rec) (PyExc "TypeError"));
  skills ← lift (v_skills v bundle);
  skill ← lift (vindex r "skill");
  _ ← lift (skill_admitted skills (str_of skill) (r_consensus_mode rec));
  refs_v ← lift (vindex r "evidence_refs");
  refs ← lift (refs_exist rec refs_v);
  action ← lift (vindex r "action_text");
  pre ← lift (vindex r "preconditions");
  post ← lift (vindex r "expected_postcondition");
  let rid := next_id (r_recommendations rec) "r" in
  append v rec (BRecommendation (mkRecB rid (str_of hyp) (str_of action) (str_of skill) pre (str_of post) refs))
    (agent_principal cap) (c_session_id cap) (str_of (dget_none p "idem_key")) (VDict [("recommendation_id", VStr rid)])).

(** src/valops/store/service.py:250-263 EpisodeStore.append_no_action *)
Definition append_no_action (v : env) (ctx : Ctx) (p : dict) : SM val :=
  '(cap, rec) ← agent_gate v ctx "append_no_action" p;
  prior ← idem (r_episode_id rec) (dget_none p "idem_key");
  unless_prior prior (
  _ ← one_per_session (planner_sessions rec) cap;
  _ ← require (nonempty (dget_none p "reason")) contract;
  refs ← lift (refs_exist rec (dget_none p "evidence_refs"));
  let nid := next_id (r_no_action rec) "n" in
  append v rec (BNoAction (mkNoActB nid (str_of (dget_none p "reason")) refs))
    (agent_principal cap) (c_session_id cap) (str_of (dget_none p "idem_key")) (VDict [("no_action_id", VStr nid)])).

(** src/valops/store/service.py:265-288 EpisodeStore.append_verdict *)
Definition append_verdict (v : env) (ctx : Ctx) (p : dict) : SM val :=
  '(cap, rec) ← agent_gate v ctx "append_verdict" p;
  prior ← idem (r_episode_id rec) (dget_none p "idem_key");
  unless_prior prior (
  _ ← one_per_session (verdict_sessions rec) cap;
  target ← lift (of_opt (under_judgement rec) contract);
  _ ← require (py_eq (dget_none p "target_id") (VStr (a_id target))) contract;
  _ ← require (py_in (dget_none p "result") (map VStr ["PASS"; "FAIL"])) contract;
  let checks := dget_none p "checks" in
  _ ← require (is_list checks && truthy checks) contract;
  _ ← require (validate checks_schema checks) contract;
  append v rec (BVerdict (mkVerdictB (a_id target) (str_of (dget_none p "result"))
                            (match checks with VList l => l | _ => [] end)))
    (agent_principal cap) (c_session_id cap) (str_of (dget_none p "idem_key")) ok_result).

(** src/valops/store/service.py:290-306 EpisodeStore.append_report *)
Definition append_report (v : env) (ctx : Ctx) (p : dict) : SM val :=
  _ ← require (String.eqb (x_principal ctx) "report_broker") (rpc_error "forbidden");
  '(cap, rec) ← agent_gate v ctx "append_report" p;
  prior ← idem (r_episode_id rec) (dget_none p "idem_key");
  unless_prior prior (
  let kind := dget_none p "kind" in
  let ref := dget_none p "ref" in
  _ ← require (hashable kind) (PyExc "TypeError");
  _ ← require (match as_str kind ≫= dget [("incident", "reporting"); ("closure", "resolved")], r_state rec with
               | Some need, Some s => String.eqb s need
               | _, _ => false
               end) (rpc_error "illegal_state");
  _ ← require (nonempty ref && String.prefix "report:sha256:" (str_of ref)) contract;
  append v rec (BReport (mkReportB (str_of kind) (str_of ref)))
    (agent_principal cap) (c_session_id cap) (str_of (dget_none p "idem_key")) ok_result).

(** src/valops/store/service.py:308-312 EpisodeStore.agent_read *)
Definition agent_read (v : env) (ctx : Ctx) (p : dict) : SM view :=
  '(cap, rec) ← agent_gate v ctx "read_episode" p;
  _ ← require (hashable (c_role cap)) (PyExc "TypeError");
  which ← lift (of_opt (as_str (c_role cap) ≫= VIEW_BY_ROLE) (PyExc "KeyError"));
  bundle ← lift (of_opt (r_bundle_id rec) (PyExc "TypeError"));
  skills ← lift (v_skills v bundle);
  mret (view_for rec (VStr which) skills).

(** ** store-control *)

Definition dedupe_matches (key : string) (rec : record) : bool :=
  match r_dedupe_key rec with Some k => String.eqb k key | None => false end && negb (terminal (r_state rec)).

Definition insert_open (o : open_row) : SM unit :=
  s ← get_state;
  _ ← require (negb (existsb (λ o', String.eqb (op_idem o') (op_idem o)) (s_opens s))) (PyExc "IntegrityError");
  put_state (mkStore (s_entries s) (s_opens s ++ [o]) (s_records s)).

Definition del_record (k : string) : SM unit :=
  modify (λ s, mkStore (s_entries s) (s_opens s) (dpop (s_records s) k)).

(** src/valops/store/service.py:315-355 EpisodeStore.open_episode

    A bundle id the registry accepts is a string. *)
Definition open_episode (v : env) (ctx : Ctx) (p : dict) : SM val :=
  let idem := dget_none p "idem_key" in
  _ ← require (nonempty idem) (rpc_error "invalid");
  s ← get_state;
  match find_first (λ o, String.eqb (op_idem o) (str_of idem)) (s_opens s) with
  | Some o => mret (op_result o)
  | None =>
      let cls := dget_none p "class" in
      let trig := py_or (dget_none p "trigger") (VDict []) in
      let vid := dget_none p "validator_id" in
      _ ← require (py_in cls (map VStr CLASSES)) (rpc_error "invalid");
      src ← lift (vget trig "source"); chk ← lift (vget trig "check"); sev ← lift (vget trig "severity");
      _ ← require (nonempty src && nonempty chk && nonempty sev && nonempty vid) (rpc_error "invalid");
      let mode := dget_none p "consensus_mode" in
      _ ← require (py_in mode (map VStr MODES)) (rpc_error "invalid");
      let bundle_id := dget_none p "bundle_id" in
      reason ← lift (v_verify v bundle_id);
      _ ← require (match reason with Some r => String.eqb r "" | None => true end) (rpc_error "bundle_refused");
      bid ← lift (of_opt (as_str bundle_id) (PyExc "TypeError"));
      let dedupe_key := str_of cls +:+ "|" +:+ str_of chk +:+ "|" +:+ str_of vid in
      match find_first (dedupe_matches dedupe_key) (map snd (s_records s)) with
      | Some rec =>
          let result := VDict [("episode_id", VStr (r_episode_id rec)); ("deduplicated", VBool true)] in
          _ ← insert_open (mkOpenRow (str_of idem) (r_episode_id rec) result);
          mret result
      | None =>
          let eid := v_uuid v in
          let rec := set_bundle_id (Some bid) (empty_record eid) in
          _ ← set_record eid rec;
          let b := BOpened (mkOpenB (str_of cls) trig (str_of vid) bid (str_of mode)
                              (py_or (dget_none p "consensus_mode_evidence") (VDict [])) dedupe_key) in
          let result := VDict [("episode_id", VStr eid); ("deduplicated", VBool false)] in
          _ ← catch (append v rec b (x_principal ctx) VNone (str_of idem) result)
                    (λ e, _ ← del_record eid; raise e);
          _ ← insert_open (mkOpenRow (str_of idem) eid result);
          mret result
      end
  end.

(** [transitions.allowed] applied to a request's target state. *)
Definition allowed_val (principal : string) (frm : option string) (to : val) : result exn bool :=
  match to with
  | VStr t => Ok (match frm with Some f => allowed principal f t | None => false end)
  | _ => if hashable to then Ok false else Err (PyExc "TypeError")
  end.

(** src/valops/store/service.py:357-377 EpisodeStore.set_state *)
Definition set_state (v : env) (ctx : Ctx) (p : dict) : SM val :=
  rec ← get_record (dget_none p "episode_id");
  let to := dget_none p "state" in
  let expected := dget_none p "expected_revision" in
  let key := py_or (dget_none p "idem_key") (VStr ("state:" +:+ py_str expected +:+ ":" +:+ py_str to)) in
  prior ← idem (r_episode_id rec) key;
  unless_prior prior (
  _ ← require (negb (terminal (r_state rec))) (rpc_error "terminal");
  now_ok ← lift (allowed_val (x_principal ctx) (r_state rec) to);
  _ ← require (now_ok || existsb (λ f, match to with VStr t => allowed (x_principal ctx) f t | _ => false end) STATES)
              (rpc_error "forbidden_transition");
  _ ← require (py_eq expected (VInt (r_revision rec)))
              (RpcError "conflict" (VDict [("revision", VInt (r_revision rec)); ("state", opt_str (r_state rec))]));
  _ ← require now_ok (rpc_error "forbidden_transition");
  append v rec (BState (r_state rec) (str_of to) (dget_none p "reason")) (x_principal ctx) VNone (str_of key)
    (VDict [("revision", VInt (r_revision rec + 1)); ("state", to)])).

(** src/valops/store/service.py:379-396 EpisodeStore.append_signal

    [who] is the keyword [principal], the caller's own when omitted. *)
Definition append_signal (v : env) (ctx : Ctx) (p : dict) (who : option string) (session_id : val) : SM val :=
  rec ← get_record (dget_none p "episode_id");
  prior ← idem (r_episode_id rec) (dget_none p "idem_key");
  unless_prior prior (
  _ ← require (negb (terminal (r_state rec))) (rpc_error "terminal");
  let snap := py_or (dget_none p "snapshot") (VDict []) in
  cid ← lift (vget snap "command_id");
  _ ← require (nonempty cid) (rpc_error "invalid");
  status ← lift (vget snap "status");
  structured ← lift (vget snap "structured"); summary ← lift (vget snap "summary");
  truncated ← lift (vget snap "truncated"); collected ← lift (vget snap "collected_at");
  ref ← lift (vget snap "audit_ref");
  let flags := match snap with VDict d => default (VList []) (dget d "flags") | _ => VNone end in
  let sid := next_id (r_signals rec) "s" in
  let who := default (x_principal ctx) who in
  append v rec
    (BSignal (mkSignalB sid cid status (match structured with VNone => summary | _ => structured end)
                (truthy truncated) collected flags ref who))
    who session_id (str_of (dget_none p "idem_key")) (VDict [("signal_id", VStr sid)])).

(** src/valops/store/service.py:398-406 EpisodeStore._simple *)
Definition simple (v : env) (ctx : Ctx) (p : dict) (b : body) : SM val :=
  rec ← get_record (dget_none p "episode_id");
  prior ← idem (r_episode_id rec) (dget_none p "idem_key");
  unless_prior prior (
  append v rec b (x_principal ctx) (dget_none p "session_id") (str_of (dget_none p "idem_key"))
    (VDict [("ok", VBool true); ("revision", VInt (r_revision rec + 1))])).

(** [role in VIEW_BY_ROLE] *)
Definition known_role (role : val) : result exn bool :=
  in_str_set role ["diagnostician"; "change_planner"; "proposal_judge"; "reporter"].

(** src/valops/store/service.py:408-411 EpisodeStore.append_cost *)
Definition append_cost (v : env) (ctx : Ctx) (p : dict) : SM val :=
  let role := dget_none p "role" in
  known ← lift (known_role role);
  _ ← require (known && is_num (dget_none p "usd") && is_int (dget_none p "turns")) (rpc_error "invalid");
  simple v ctx p (BCost (mkCostB (str_of role) (dget_none p "usd") (dget_none p "turns") (dget_none p "session_id")
                           (dget_none p "configuration") (dget_none p "tokens"))).

(** src/valops/store/service.py:413-416 EpisodeStore.append_step *)
Definition append_step (v : env) (ctx : Ctx) (p : dict) : SM val :=
  let role := dget_none p "role" in
  let outcome := dget_none p "outcome" in
  _ ← require (py_in outcome (map VStr ["ok"; "failed"])) (rpc_error "invalid");
  known ← lift (known_role role);
  _ ← require known (rpc_error "invalid");
  simple v ctx p (BStep (mkStepB (str_of role) (dget_none p "session_id") (str_of outcome) (dget_none p "reason")
                           (dget_none p "state") (dget_none p "configuration"))).

(** src/valops/store/service.py:418-421 EpisodeStore.annotate *)
Definition annotate (v : env) (ctx : Ctx) (p : dict) : SM val :=
  _ ← require (nonempty (dget_none p "note")) (rpc_error "invalid");
  simple v ctx p (BAnnotation (dget_none p "kind") (dget_none p "note")).

(** What a read returns: a view, or the record itself. *)
Inductive read_result : Type :=
| RView (v : view)
| RRecord (r : record).

(** src/valops/store/service.py:423-429 EpisodeStore.control_read *)
Definition control_read (v : env) (ctx : Ctx) (p : dict) : SM read_result :=
  rec ← get_record (dget_none p "episode_id");
  let which := default (VStr "full") (dget p "view") in
  if py_eq which (VStr "record") then mret (RRecord rec)
  else if py_eq which (VStr "judge") then
    bundle ← lift (of_opt (r_bundle_id rec) (PyExc "TypeError"));
    skills ← lift (v_skills v bundle);
    mret (RView (view_for rec which skills))
  else mret (RView (view_for rec which [])).

(** The projection [list_episodes] returns of a record. *)
Record summary : Type := mkSummary {
  su_episode_id : string; su_state : option string; su_revision : Z; su_class : option string;
  su_bundle_id : option string; su_trigger : val; su_opened_ts : option Q; su_validator_id : option string;
  su_mode : option string }.
Definition summarise_record (r : record) : summary :=
  mkSummary (r_episode_id r) (r_state r) (r_revision r) (r_class r) (r_bundle_id r) (r_trigger r) (r_opened_ts r)
    (r_validator_id r) (r_consensus_mode r).

(** [sorted(out, key=lambda r: r["opened_ts"] or 0)], stable. *)
Fixpoint ts_insert (x : summary) (l : list summary) : list summary :=
  match l with
  | [] => [x]
  | y :: l' => if Qltb (default 0%Q (su_opened_ts y)) (default 0%Q (su_opened_ts x)) then y :: ts_insert x l' else x :: l
  end.

(** src/valops/store/service.py:431-441 EpisodeStore.list_episodes *)
Definition list_episodes (v : env) (ctx : Ctx) (p : dict) : SM (list summary) :=
  s ← get_state;
  let keep (rec : record) :=
    negb (truthy (dget_none p "nonterminal_only") && terminal (r_state rec)) &&
    negb (truthy (dget_none p "class") && negb (py_eq (opt_str (r_class rec)) (dget_none p "class"))) in
  mret (foldr ts_insert [] (map summarise_record (List.filter keep (map snd (s_records s))))).

(** ** store-verify *)

(** The checks of [append_verification] made before [_simple] takes the lock again. *)
Definition verification_precheck (p : dict) : SM unit :=
  _ ← require (py_in (dget_none p "result") (map VStr ["pass"; "fail"]) && nonempty (dget_none p "rule")) (rpc_error "invalid");
  rec ← get_record (dget_none p "episode_id");
  require (negb (terminal (r_state rec))) (rpc_error "terminal").
Definition verification_write (v : env) (ctx : Ctx) (p : dict) : SM val :=
  simple v ctx p (BVerification (dget_none p "rule") (dget_none p "result") (dget_none p "samples")).

(** src/valops/store/service.py:444-450 EpisodeStore.append_verification *)
Definition append_verification (v : env) (ctx : Ctx) (p : dict) : SM val :=
  _ ← verification_precheck p;
  verification_write v ctx p.

(** src/valops/store/service.py:452-455 EpisodeStore.append_recovery_observation *)
Definition append_recovery_observation (v : env) (ctx : Ctx) (p : dict) : SM val :=
  _ ← require (nonempty (dget_none p "rule")) (rpc_error "invalid");
  simple v ctx p (BRecovery (dget_none p "rule") (dget_none p "note")).

(** ** store-observe *)

(** src/valops/store/service.py:458-464 EpisodeStore.append_observation *)
Definition append_observation (v : env) (ctx : Ctx) (p : dict) : SM val :=
  cap ← lift (check_token (v_gate v) (v_now v) (dget_none p "token") (dget_none p "episode_id") VNone);
  rec ← get_record (c_episode_id cap);
  _ ← require (py_eq (c_bundle_id cap) (opt_str (r_bundle_id rec))) (rpc_error "bundle_refused");
  append_signal v ctx p (Some ("observer_broker/" +:+ agent_principal cap)) (c_session_id cap).

(** src/valops/store/service.py:498-501 EpisodeStore._verifier_set_state *)
Definition verifier_set_state (v : env) (ctx : Ctx) (p : dict) : SM val :=
  _ ← require (py_eq (dget_none p "state") (VStr "resolved")) (rpc_error "forbidden_transition");
  set_state v ctx p.

(** ** Endpoints *)

Inductive reply : Type :=
| ReplyVal (v : val)
| ReplyRead (r : read_result)
| ReplyList (l : list summary).

(** src/valops/store/service.py:467-496 EpisodeStore.endpoints *)
Definition endpoints (v : env) (uids : string → list Z) : list (Endpoint store reply) :=
  let w (h : env → Ctx → dict → SM val) : Ctx → dict → M store exn reply := λ ctx p, x ← h v ctx p; mret (ReplyVal x) in
  let read_agent : Ctx → dict → M store exn reply := λ ctx p, x ← agent_read v ctx p; mret (ReplyRead (RView x)) in
  let read_control : Ctx → dict → M store exn reply := λ ctx p, x ← control_read v ctx p; mret (ReplyRead x) in
  let list_eps : Ctx → dict → M store exn reply := λ ctx p, x ← list_episodes v ctx p; mret (ReplyList x) in
  let signal : env → Ctx → dict → SM val := λ v ctx p, append_signal v ctx p None VNone in
  let agent := [("append_hypothesis", w append_hypothesis); ("append_hypothesis_status", w append_hypothesis_status);
                ("append_recommendation", w append_recommendation); ("append_no_action", w append_no_action);
                ("append_verdict", w append_verdict); ("read_episode", read_agent)] in
  let agent_report := [("append_report", w append_report); ("read_episode", read_agent)] in
  let control := [("open_episode", w open_episode); ("set_state", w set_state); ("append_signal", w signal);
                  ("append_cost", w append_cost); ("append_step", w append_step); ("annotate", w annotate);
                  ("read_episode", read_control); ("list_episodes", list_eps)] in
  let verify := [("append_verification", w append_verification);
                 ("append_recovery_observation", w append_recovery_observation);
                 ("set_state", w verifier_set_state); ("read_episode", read_control); ("list_episodes", list_eps)] in
  let observe := [("append_observation", w append_observation)] in
  [mkEndpoint "store-agent" "episode_broker" (uids "episode_broker") agent;
   mkEndpoint "store-agent-report" "report_broker" (uids "report_broker") agent_report;
   mkEndpoint "store-control" "controller" (uids "controller") control;
   mkEndpoint "store-verify" "verifier" (uids "verifier") verify;
   mkEndpoint "store-observe" "observer_broker" (uids "observer_broker") observe].
