(* ===== verification/StoreSpec.v ===== *)
(** * The store's contract, and the handlers as an implementation of it

    [legal rec principal session b] says when a body may be appended to an
    episode; [sstep] is the abstract store: it appends legal entries, opens
    episodes and records repeated opens, and does nothing else. The refinement
    lemma [run_refines] shows that every method of every endpoint either leaves
    the store as it was or takes one such step. *)
From S2P Require Import Prelude PyVal Schema Canonical Tools Transitions Tokens Rpc Fold Store.

(** ** The contract of a write *)
Definition signal_ids (rec : record) : list string := map (λ s : signal, sg_id s) (r_signals rec).
Definition hypothesis_ids (rec : record) : list string := map (λ h : hypothesis, h_id h) (r_hypotheses rec).

(** Evidence: at least one reference, all to signals collected in the episode. *)
Definition refs_legal (rec : record) (refs : list string) : Prop :=
  refs ≠ [] ∧ ∀ r, r ∈ refs → r ∈ signal_ids rec.
Definition fresh_session (sessions : list val) (session : val) : Prop :=
  ∀ x, x ∈ sessions → py_eq x session = false.

Definition legal (rec : record) (principal : string) (session : val) (b : body) : Prop :=
  match b with
  | BOpened _ => False
  | BSignal s => terminal (r_state rec) = false ∧ sg_id s = next_id (r_signals rec) "s"
  | BHypothesis h =>
      r_state rec = Some "diagnosing" ∧ h_step_session h = session ∧ (1 ≤ h_rank h)%Z ∧
      is_blank (h_claim h) = false ∧ is_blank (h_test h) = false ∧ is_blank (h_expected h) = false ∧
      h_id h = next_id (r_hypotheses rec) "h" ∧
      ∀ x : hypothesis, x ∈ r_hypotheses rec → py_eq (h_step_session x) session = true → h_rank x ≠ h_rank h
  | BHypothesisStatus st =>
      r_state rec = Some "diagnosing" ∧ st_hypothesis_id st ∈ hypothesis_ids rec ∧
      st_status st ∈ ["supported"; "refuted"] ∧ refs_legal rec (st_refs st)
  | BRecommendation r =>
      r_state rec = Some "recommending" ∧ fresh_session (planner_sessions rec) session ∧
      rc_hypothesis r ∈ hypothesis_ids rec ∧ refs_legal rec (rc_refs r) ∧
      rc_id r = next_id (r_recommendations rec) "r" ∧
      ∃ skills, skill_admitted skills (rc_skill r) (r_consensus_mode rec) = Ok tt
  | BNoAction n =>
      r_state rec = Some "recommending" ∧ fresh_session (planner_sessions rec) session ∧
      is_blank (na_reason n) = false ∧ refs_legal rec (na_refs n) ∧ na_id n = next_id (r_no_action rec) "n"
  | BVerdict vd =>
      r_state rec = Some "judging" ∧ fresh_session (verdict_sessions rec) session ∧
      (∃ a, under_judgement rec = Some a ∧ vd_target_id vd = a_id a) ∧
      vd_result vd ∈ ["PASS"; "FAIL"] ∧ vd_checks vd ≠ []
  | BReport rp =>
      (rp_kind rp = "incident" ∧ r_state rec = Some "reporting") ∨
      (rp_kind rp = "closure" ∧ r_state rec = Some "resolved")
  | BState frm to _ => frm = r_state rec ∧ ∃ f, r_state rec = Some f ∧ allowed principal f to = true
  | BVerification _ _ _ | BRecovery _ _ | BCost _ | BStep _ | BAnnotation _ _ => True
  end.

(** ** The abstract store *)
Definition record_fresh_idem (s : store) (k idem : string) : Prop :=
  ∀ r : row, r ∈ s_entries s → e_episode r = k → w_idem r ≠ idem.
Definition record_fresh_rev (s : store) (k : string) (rev : Z) : Prop :=
  ∀ r : row, r ∈ s_entries s → e_episode r = k → e_rev r ≠ rev.

(** The store with one more entry, folded into its record (but for a cost that is no
    float, which counts for nothing). *)
Definition appended (s : store) (recs : list (string * record)) (rec : record) (e : entry) (idem : string) (result : val)
    (opens : list open_row) : store :=
  mkStore (s_entries s ++ [mkRow e idem result]) opens (dset recs (r_episode_id rec) (apply rec e)).

(** What a step writes: an entry on an episode, a new episode, a repeated open. *)
Inductive label : Type :=
| LAppend (k : string) (b : body) (principal audit_ref : string)
| LOpen (k : string) (o : opened_body) (audit_ref : string)
| LReopen (k : string).

Inductive sstep (s : store) : label → store → Prop :=
| sstep_append k rec b ts principal session bundle audit_ref idem result :
    dget (s_records s) k = Some rec → r_episode_id rec = k → r_bundle_id rec = Some bundle →
    record_fresh_idem s k idem → record_fresh_rev s k (r_revision rec + 1) →
    legal rec principal session b →
    sstep s (LAppend k b principal audit_ref)
      (appended s (s_records s) rec
         (mkEntry k (r_revision rec + 1) ts b principal session bundle audit_ref) idem result (s_opens s))
| sstep_open eid o ts principal audit_ref idem result :
    dget (s_records s) eid = None → record_fresh_idem s eid idem → record_fresh_rev s eid 1 →
    (∀ k rec, (k, rec) ∈ s_records s → dedupe_matches (o_dedupe_key o) rec = false) →
    o_class o ∈ CLASSES → o_mode o ∈ MODES →
    sstep s (LOpen eid o audit_ref)
      (appended s (s_records s) (set_bundle_id (Some (o_bundle_id o)) (empty_record eid))
         (mkEntry eid 1 ts (BOpened o) principal VNone (o_bundle_id o) audit_ref) idem result
         (s_opens s ++ [mkOpenRow idem eid result]))
| sstep_reopen k rec key idem result :
    (k, rec) ∈ s_records s → dedupe_matches key rec = true →
    sstep s (LReopen k) (mkStore (s_entries s) (s_opens s ++ [mkOpenRow idem (r_episode_id rec) result]) (s_records s)).

(** What each endpoint's principal can cause: the capability split of the
    endpoints, by entry kind. *)
Definition may_write (principal : string) (l : label) : Prop :=
  match l with
  | LOpen _ _ _ | LReopen _ => principal = "controller"
  | LAppend _ b who _ =>
      match b with
      | BOpened _ => False
      | BHypothesis _ | BHypothesisStatus _ | BRecommendation _ | BNoAction _ | BVerdict _ => principal = "episode_broker"
      | BReport _ => principal = "report_broker"
      | BState _ to _ => (principal = "controller" ∧ who = "controller") ∨
                         (principal = "verifier" ∧ who = "verifier" ∧ to = "resolved")
      | BSignal _ => principal = "controller" ∨ principal = "observer_broker"
      | BCost _ | BStep _ | BAnnotation _ _ => principal = "controller"
      | BVerification _ _ _ | BRecovery _ _ => principal = "verifier"
      end
  end.

(** The reference an append records: what the audit service answered, when
    there is one; no answer, no entry. *)
Definition audit_of (v : env) : option string :=
  match v_audit v with
  | None => Some "audit:none"
  | Some (Ok r) => Some (audit_ref_of r)
  | Some (Err _) => None
  end.
Definition audited (v : env) (l : label) : Prop :=
  match l with
  | LAppend _ _ _ aref | LOpen _ _ aref => audit_of v = Some aref
  | LReopen _ => True
  end.

(** Whether the request that took the step is answered with a result: not when the entry
    could not be folded in. *)
Definition answered_ok (l : label) : bool :=
  match l with LAppend _ b _ _ => match apply_error b with Some _ => false | None => true end | _ => true end.

(** The [kind] column of an entry. *)
Definition kind_of (b : body) : string :=
  match b with
  | BOpened _ => "opened"
  | BSignal _ => "signal"
  | BHypothesis _ => "hypothesis"
  | BHypothesisStatus _ => "hypothesis_status"
  | BRecommendation _ => "recommendation"
  | BNoAction _ => "no_action"
  | BVerdict _ => "verdict"
  | BReport _ => "report"
  | BVerification _ _ _ => "verification"
  | BRecovery _ _ => "recovery_observation"
  | BState _ _ _ => "state"
  | BCost _ => "cost"
  | BStep _ => "step"
  | BAnnotation _ _ => "annotation"
  end.

(** Records are filed under their own ids. *)
Definition keyed (s : store) : Prop := ∀ k rec, dget (s_records s) k = Some rec → r_episode_id rec = k.

(** ** Inversion of the handlers' building blocks *)
Lemma readonly_get_record x : readonly (get_record x).
Proof. unfold get_record. apply readonly_bind; [apply readonly_get|]. intros s. destruct x; auto with valops. Qed.
Lemma readonly_idem k x : readonly (idem k x).
Proof. unfold idem. repeat (apply readonly_bind; [auto with valops|intros]). auto with valops. Qed.
Lemma readonly_agent_gate v ctx op p : readonly (agent_gate v ctx op p).
Proof.
  unfold agent_gate. repeat (apply readonly_bind; [auto using readonly_get_record with valops|intros]).
  destruct (_ ≫= TOOLS_BY_NAME); [|auto with valops].
  repeat (apply readonly_bind; [auto with valops|intros]). auto with valops.
Qed.
Lemma readonly_one_per_session l cap : readonly (one_per_session l cap).
Proof. unfold one_per_session. auto with valops. Qed.
#[export] Hint Resolve readonly_get_record readonly_idem readonly_agent_gate readonly_one_per_session : valops.

Lemma get_record_Ok x s rec s' :
  get_record x s = (Ok rec, s') → ∃ k, x = VStr k ∧ dget (s_records s) k = Some rec ∧ s' = s.
Proof.
  intros H. unfold get_record in H. minv H. subst.
  destruct x; try (by unfold raise in H).
  apply lift_Ok in H as [H%of_opt_Ok ->]. eauto.
Qed.

Lemma agent_gate_Ok v ctx op p s cap rec s' :
  agent_gate v ctx op p s = (Ok (cap, rec), s') →
  ∃ k, dget_none p "episode_id" = VStr k ∧ dget (s_records s) k = Some rec ∧ s' = s ∧
    ∀ tool, AGENT_OPS op ≫= TOOLS_BY_NAME = Some tool →
      py_in (c_role cap) (map VStr (t_roles tool)) = true ∧
      ∃ st, r_state rec = Some st ∧ st ∈ t_states tool.
Proof.
  intros H. unfold agent_gate in H. minv H.
  apply get_record_Ok in Hm as (k & Hk & Hrec & ->).
  destruct (AGENT_OPS op ≫= TOOLS_BY_NAME) as [tool|].
  - minv H. injection Hret as <- <-. exists k. split_and!; try done.
    intros tool' [= <-]. split; [done|]. destruct (r_state rec) as [st|]; [|done].
    exists st. by rewrite <- str_in_spec.
  - minv H. injection Hret as <- <-. exists k. split_and!; done.
Qed.

Lemma agent_gate_role v ctx op p s cap rec s' tool :
  agent_gate v ctx op p s = (Ok (cap, rec), s') → AGENT_OPS op ≫= TOOLS_BY_NAME = Some tool →
  ∃ role, c_role cap = VStr role ∧ role ∈ t_roles tool.
Proof.
  intros H Ht. apply agent_gate_Ok in H as (k & _ & _ & _ & H). destruct (H _ Ht) as [Hr _].
  by apply py_in_strs in Hr.
Qed.

Lemma idem_Ok k key s prior s' :
  idem k key s = (Ok prior, s') →
  ∃ x, key = VStr x ∧ s' = s ∧
    prior = match find_idem (s_entries s) k x with Some r => w_result r | None => VNone end.
Proof.
  intros H. unfold idem in H. minv H. bools. subst.
  destruct (nonempty_str key) as (x & -> & _); [done|]. eauto.
Qed.

Lemma unless_prior_run prior k s r s' :
  unless_prior prior k s = (r, s') → (prior ≠ VNone ∧ r = Ok prior ∧ s' = s) ∨ (prior = VNone ∧ k s = (r, s')).
Proof. unfold unless_prior, mret, M_ret. destruct prior; intros H; [by right|..]; left; by simplify_eq. Qed.

Lemma insert_row_run rw s r s' :
  insert_row rw s = (r, s') →
  ((∃ e, r = Err e) ∧ s' = s) ∨
  (r = Ok tt ∧ record_fresh_idem s (e_episode rw) (w_idem rw) ∧ record_fresh_rev s (e_episode rw) (e_rev rw) ∧
   s' = mkStore (s_entries s ++ [rw]) (s_opens s) (s_records s)).
Proof.
  unfold insert_row. intros H. ro H ltac:(left; eauto).
  subst. right. cbv [put_state] in H. injection H as <- <-. bools. rewrite existsb_false in *.
  split_and!; try done; intros x Hx Hk;
    match goal with H : ∀ x, x ∈ s_entries _ → _ |- _ => specialize (H x Hx) end;
    cbn in *; rewrite Hk, String.eqb_refl in *; cbn in *; bools; [done | by apply Z.eqb_neq].
Qed.

(** What [append] does when it runs: nothing, or the row and its record. *)
Lemma append_run v rec b principal session idem result s r s' :
  append v rec b principal session idem result s = (r, s') →
  ((∃ e, r = Err e) ∧ s' = s) ∨
  ∃ bundle audit_ref, r = match apply_error b with Some x => Err x | None => Ok result end ∧ audit_of v = Some audit_ref ∧ r_bundle_id rec = Some bundle ∧
    record_fresh_idem s (r_episode_id rec) idem ∧ record_fresh_rev s (r_episode_id rec) (r_revision rec + 1) ∧
    s' = appended s (s_records s) rec
           (mkEntry (r_episode_id rec) (r_revision rec + 1) (v_now v) b principal session bundle audit_ref)
           idem result (s_opens s).
Proof.
  unfold append. intros H.
  apply bind_readonly in H as [(e & H1 & -> & ->) | (aref & H1 & H)]; [left; eauto| |].
  2: { intros s0. destruct (v_audit v) as [[?|[]]|]; done. }
  apply bind_readonly in H as [(e & H2 & -> & ->) | (bundle & H2 & H)]; [left; eauto| |auto with valops].
  apply lift_Ok in H2 as [H2%of_opt_Ok _].
  assert (audit_of v = Some aref) as Haref.
  { unfold audit_of. destruct (v_audit v) as [[?|[]]|]; cbv [mret M_ret raise] in H1; congruence. }
  unfold mbind at 1, M_bind at 1 in H.
  match type of H with context [insert_row ?rw ?s0] => destruct (insert_row rw s0) as [[[]|e] s1] eqn:Hins end;
    apply insert_row_run in Hins as [[[? He] ->] | (He & Hi & Hr & ->)]; try done.
  - right. exists bundle, aref. cbv [set_record modify mbind M_bind mret M_ret] in H.
    destruct (apply_error b); injection H as <- <-; done.
  - left. injection H as <- <-. eauto.
Qed.

(** ** Refinement, one handler at a time *)
Section refinement.
Context (v : env) (ctx : Ctx) (p : dict).

(** A run that changed nothing, or took one audited step satisfying [P] and returned, but
    for an entry that could not be folded in. *)
Definition refined {A} (r : result exn A) (s s' : store) (P : label → Prop) : Prop :=
  s' = s ∨ ∃ l, sstep s l s' ∧ audited v l ∧ is_ok r = answered_ok l ∧ P l.

Lemma append_refined k rec b principal session idem result s r s' (P : label → Prop) :
  keyed s → dget (s_records s) k = Some rec → legal rec principal session b → (∀ aref, P (LAppend k b principal aref)) →
  append v rec b principal session idem result s = (r, s') → refined r s s' P.
Proof.
  intros Hkeyed Hk Hlegal HP H. pose proof (Hkeyed _ _ Hk) as Hid. subst k.
  apply append_run in H as [[_ ->] | (bundle & aref & -> & Ha & Hb & Hi & Hr & ->)]; [by left|].
  right. eexists. split_and!; [by eapply sstep_append | done | by cbn; destruct (apply_error b) | done].
Qed.

Lemma refs_exist_Ok rec refs l : refs_exist rec refs = Ok l → refs_legal rec l.
Proof.
  unfold refs_exist, refs_legal, signal_ids.
  destruct refs as [| | | | |[|x xs]|]; try done.
  destruct (forallb hashable (x :: xs)); [|done]. destruct (mapM as_str (x :: xs)) as [ss|] eqn:Hm; [|done].
  destruct (forallb _ ss) eqn:Hss; [|done]. intros [= <-]. split.
  - apply mapM_Some in Hm. by destruct ss; [inversion Hm|].
  - intros y Hy%list_elem_of_In. eapply forallb_forall in Hy; [|done]. by apply str_in_spec.
Qed.

Ltac start H :=
  let cap := fresh "cap" in let rc := fresh "rec" in
  apply bind_readonly in H as [(? & ? & -> & ->) | ([cap rc] & Hgate & H)]; [by left| |auto with valops];
  pose proof (agent_gate_Ok _ _ _ _ _ _ _ _ Hgate) as (k & _ & Hk & _ & Htool);
  destruct (Htool _ eq_refl) as [_ (st & Hst & Hin)]; clear Htool; cbn in Hin; rewrite ?elem_of_cons, ?elem_of_nil in Hin;
  apply bind_readonly in H as [(? & ? & -> & ->) | (prior & Hidem & H)]; [by left| |auto with valops];
  apply unless_prior_run in H as [(_ & _ & ->) | [_ H]]; [by left|].

Ltac strs := repeat match goal with
  | H : nonempty _ = true |- _ => apply nonempty_str in H as (? & -> & ?)
  | H : py_in _ (map VStr _) = true |- _ => apply py_in_strs in H as (? & -> & ?)
  | H : in_str_set _ _ = Ok true |- _ => apply in_str_set_true in H as (? & -> & ?)
  end.
Ltac finish H := eapply append_refined; [| | | |exact H]; [done|done| |by eexists _, _, _, _].

(** The step appends an entry of kind [kd]. *)
Definition writes (kd : string) (l : label) : Prop := ∃ k b who aref, l = LAppend k b who aref ∧ kind_of b = kd.

Lemma append_hypothesis_refined s r s' :
  keyed s → append_hypothesis v ctx p s = (r, s') → refined r s s' (writes "hypothesis").
Proof.
  intros Hkeyed H. unfold append_hypothesis in H. start H. destruct Hin as [->|[]].
  ro H ltac:(by left). bools. finish H. strs.
  cbn. split_and!; try done.
  - match goal with H : match ?x with _ => _ end = true |- _ => destruct x; try done end. by apply Z.leb_le.
  - intros y Hy Hsess Hrank. rewrite existsb_false in *.
    match goal with H : ∀ x, x ∈ r_hypotheses _ → _ |- _ => specialize (H y Hy); cbn in H end.
    by rewrite Hsess, Hrank, Z.eqb_refl in *.
Qed.

Lemma append_hypothesis_status_refined s r s' :
  keyed s → append_hypothesis_status v ctx p s = (r, s') → refined r s s' (writes "hypothesis_status").
Proof.
  intros Hkeyed H. unfold append_hypothesis_status in H. start H. destruct Hin as [->|[]].
  ro H ltac:(by left). subst. finish H. strs.
  split_and!; try done. by eapply refs_exist_Ok.
Qed.

Lemma one_per_session_Ok l cap s s' u : one_per_session l cap s = (Ok u, s') → fresh_session l (c_session_id cap).
Proof. intros [H _]%require_Ok. bools. by rewrite existsb_false in H. Qed.

Lemma append_recommendation_refined s r s' :
  keyed s → append_recommendation v ctx p s = (r, s') → refined r s s' (writes "recommendation").
Proof.
  intros Hkeyed H. unfold append_recommendation in H. start H. destruct Hin as [->|[]].
  ro H ltac:(by left). finish H.
  split_and!; try done.
  - by eapply one_per_session_Ok.
  - by apply str_in_spec.
  - by eapply refs_exist_Ok.
  - cbn. destruct a6. eauto.
Qed.

Lemma append_no_action_refined s r s' :
  keyed s → append_no_action v ctx p s = (r, s') → refined r s s' (writes "no_action").
Proof.
  intros Hkeyed H. unfold append_no_action in H. start H. destruct Hin as [->|[]].
  ro H ltac:(by left). finish H. strs.
  split_and!; try done.
  - by eapply one_per_session_Ok.
  - by eapply refs_exist_Ok.
Qed.

Lemma append_verdict_refined s r s' :
  keyed s → append_verdict v ctx p s = (r, s') → refined r s s' (writes "verdict").
Proof.
  intros Hkeyed H. unfold append_verdict in H. start H. destruct Hin as [->|[]].
  ro H ltac:(by left). bools. finish H. strs.
  split_and!; try done.
  - by eapply one_per_session_Ok.
  - eexists. split; [|done]. by eapply of_opt_Ok.
  - intros Hnil. destruct (dget_none p "checks"); try done. by cbn in *; subst.
Qed.

Lemma append_report_refined s r s' :
  keyed s → append_report v ctx p s = (r, s') → refined r s s' (writes "report").
Proof.
  intros Hkeyed H. unfold append_report in H. ro1 H ltac:(by left). start H.
  ro H ltac:(by left). finish H. cbn.
  destruct (dget_none p "kind"); try done. cbn in *. rewrite Hst in *.
  repeat match goal with H : context [String.eqb ?a ?b] |- _ => destruct (String.eqb_spec a b); subst; cbn in *; try done; auto end.
Qed.

(** *** Store-control, store-verify and store-observe *)
Ltac start_control H :=
  let rc := fresh "rec" in
  apply bind_readonly in H as [(? & ? & -> & ->) | (rc & Hrec & H)]; [by left| |auto with valops];
  apply get_record_Ok in Hrec as (k & Hid & Hk & _).
Ltac start_idem H :=
  apply bind_readonly in H as [(? & ? & -> & ->) | (prior & Hidem & H)]; [by left| |auto with valops];
  apply unless_prior_run in H as [(_ & _ & ->) | [_ H]]; [by left|].

Lemma set_state_refined s r s' :
  keyed s → set_state v ctx p s = (r, s') →
  refined r s s' (λ l, ∃ k frm to why aref, l = LAppend k (BState frm to why) (x_principal ctx) aref ∧
                                          dget_none p "state" = VStr to).
Proof.
  intros Hkeyed H. unfold set_state in H. start_control H. start_idem H.
  ro H ltac:(by left). bools. subst.
  destruct (dget_none p "state") as [| | | |to| |] eqn:Hto; cbn in *; try (by case_matches).
  eapply append_refined; [| | | |exact H]; [done|done| |by eexists _, _, _, _, _].
  split; [done|]. destruct (r_state rec) as [f|]; [|by simplify_eq]. exists f. split; congruence.
Qed.

Lemma verifier_set_state_refined s r s' :
  keyed s → verifier_set_state v ctx p s = (r, s') →
  refined r s s' (λ l, ∃ k frm why aref, l = LAppend k (BState frm "resolved" why) (x_principal ctx) aref).
Proof.
  intros Hkeyed H. unfold verifier_set_state in H. ro1 H ltac:(by left). apply py_eq_str_r in Hreq.
  apply set_state_refined in H as [->|(l & Hl & Ha & Hr & k & frm & to & why & aref & -> & Hto)]; [by left| |done].
  right. eexists. split_and!; [done|done|done|]. rewrite Hreq in Hto. injection Hto as <-. by eexists _, _, _, _.
Qed.

Lemma append_signal_refined who session s r s' :
  keyed s → append_signal v ctx p who session s = (r, s') → refined r s s' (writes "signal").
Proof.
  intros Hkeyed H. unfold append_signal in H. start_control H. start_idem H.
  ro H ltac:(by left). bools. finish H. done.
Qed.

Lemma simple_refined b kd s r s' :
  keyed s → kind_of b = kd → (∀ rec principal session k, dget (s_records s) k = Some rec →
    legal rec principal session b) →
  simple v ctx p b s = (r, s') → refined r s s' (writes kd).
Proof.
  intros Hkeyed Hkd Hlegal H. unfold simple in H. start_control H. start_idem H.
  eapply append_refined; [| | | |exact H]; [done|done|by eauto|by eexists _, _, _, _].
Qed.

Lemma append_cost_refined s r s' :
  keyed s → append_cost v ctx p s = (r, s') → refined r s s' (writes "cost").
Proof.
  intros Hkeyed H. unfold append_cost in H. do 2 ro1 H ltac:(by left).
  by eapply simple_refined in H.
Qed.
Lemma append_step_refined s r s' :
  keyed s → append_step v ctx p s = (r, s') → refined r s s' (writes "step").
Proof.
  intros Hkeyed H. unfold append_step in H. do 3 ro1 H ltac:(by left).
  by eapply simple_refined in H.
Qed.
Lemma annotate_refined s r s' :
  keyed s → annotate v ctx p s = (r, s') → refined r s s' (writes "annotation").
Proof.
  intros Hkeyed H. unfold annotate in H. ro1 H ltac:(by left). by eapply simple_refined in H.
Qed.
Lemma append_recovery_observation_refined s r s' :
  keyed s → append_recovery_observation v ctx p s = (r, s') → refined r s s' (writes "recovery_observation").
Proof.
  intros Hkeyed H. unfold append_recovery_observation in H. ro1 H ltac:(by left). by eapply simple_refined in H.
Qed.

Lemma readonly_verification_precheck : readonly (verification_precheck p).
Proof. unfold verification_precheck. repeat (apply readonly_bind; [auto with valops|intros]). auto with valops. Qed.

Lemma verification_write_refined s r s' :
  keyed s → verification_write v ctx p s = (r, s') → refined r s s' (writes "verification").
Proof. intros Hkeyed H. by eapply simple_refined in H. Qed.

Lemma append_verification_refined s r s' :
  keyed s → append_verification v ctx p s = (r, s') → refined r s s' (writes "verification").
Proof.
  intros Hkeyed H. unfold append_verification in H.
  apply bind_readonly in H as [(? & ? & -> & ->) | ([] & Hpre & H)]; [by left| |apply readonly_verification_precheck].
  by eapply verification_write_refined.
Qed.

Lemma append_observation_refined s r s' :
  keyed s → append_observation v ctx p s = (r, s') → refined r s s' (writes "signal").
Proof.
  intros Hkeyed H. unfold append_observation in H. do 3 ro1 H ltac:(by left).
  by eapply append_signal_refined in H.
Qed.

Lemma insert_open_run o s r s' : insert_open o s = (r, s') →
  ((∃ e, r = Err e) ∧ s' = s) ∨ (r = Ok tt ∧ s' = mkStore (s_entries s) (s_opens s ++ [o]) (s_records s)).
Proof.
  unfold insert_open. intros H. ro H ltac:(left; eauto). subst. cbv [put_state] in H. injection H as <- <-. by right.
Qed.

Lemma insert_open_fresh o s :
  find_first (λ o', String.eqb (op_idem o') (op_idem o)) (s_opens s) = None →
  insert_open o s = (Ok tt, mkStore (s_entries s) (s_opens s ++ [o]) (s_records s)).
Proof.
  intros H. unfold insert_open. cbn. cbv [mbind M_bind get_state require put_state].
  replace (existsb _ _) with false; [done|]. symmetry. apply existsb_false. by apply find_first_None.
Qed.

(** The first entry of a new episode, with its opens row, or nothing. *)
Lemma open_new_refined s r s' o idem result :
  let eid := v_uuid v in
  let rec := set_bundle_id (Some (o_bundle_id o)) (empty_record eid) in
  dget (s_records s) eid = None →
  find_first (λ o', String.eqb (op_idem o') idem) (s_opens s) = None →
  o_class o ∈ CLASSES ∧ o_mode o ∈ MODES →
  (∀ k rec, (k, rec) ∈ s_records s → dedupe_matches (o_dedupe_key o) rec = false) →
  (_ ← set_record eid rec;
   _ ← catch (append v rec (BOpened o) (x_principal ctx) VNone idem result) (λ e, _ ← del_record eid; raise e);
   _ ← insert_open (mkOpenRow idem eid result);
   mret result) s = (r, s') →
  refined r s s' (λ l, match l with LOpen _ _ _ | LReopen _ => True | _ => False end).
Proof.
  intros eid rec Hfresh Hidem [Hc Hm] Hdup H.
  unfold mbind at 1, M_bind at 1, set_record at 1, modify in H.
  unfold mbind at 1, M_bind at 1, catch at 1 in H.
  match type of H with context [append ?a ?b ?c ?d ?e ?f ?g ?h] => destruct (append a b c d e f g h) as [r1 s1] eqn:Happ end.
  apply append_run in Happ as [[[e ->] ->] | (bundle & aref & -> & Ha & Hb & Hi & Hr & ->)].
  - left. cbv [del_record modify raise mbind M_bind] in H. injection H as <- <-. cbn.
    rewrite dpop_dset_fresh by done. by destruct s.
  - right. cbn [apply_error] in H. unfold mbind at 1, M_bind at 1 in H. rewrite insert_open_fresh in H by done.
    injection H as <- <-. injection Hb as <-.
    unfold appended. cbn. rewrite dset_dset. eexists. split_and!; [by eapply sstep_open | done | done | done].
Qed.

(** Opening needs a uuid no episode has; a failed first entry takes the record away again. *)
Lemma open_episode_refined s r s' :
  dget (s_records s) (v_uuid v) = None → open_episode v ctx p s = (r, s') →
  refined r s s' (λ l, match l with LOpen _ _ _ | LReopen _ => True | _ => False end).
Proof.
  intros Hfresh H. unfold open_episode in H. ro H ltac:(by left). subst.
  destruct (find_first _ (s_opens s)) as [o|] eqn:Hfind; [injection H as <- <-; by left|].
  ro H ltac:(by left). bools.
  destruct (find_first (dedupe_matches _) _) as [rec|] eqn:Hdup.
  - apply find_first_Some in Hdup as [Hin Hm']. apply list_elem_of_fmap in Hin as ([k rec'] & -> & Hin).
    unfold mbind, M_bind in H. destruct (insert_open _ s) as [[[]|e] s1] eqn:Hins;
      apply insert_open_run in Hins as [[[? He] ->] | [He ->]]; try done; injection H as <- <-; [right|by left].
    eexists. split_and!; [by eapply sstep_reopen | done | done | done].
  - eapply open_new_refined; [| | | |exact H]; [done|done| |].
    { strs. cbn. split; done. }
    intros k rec Hin. eapply find_first_None in Hdup; [done|]. by apply (list_elem_of_fmap_2 snd _ (k, rec)).
Qed.
Lemma agent_read_readonly : readonly (agent_read v ctx p).
Proof.
  unfold agent_read. apply readonly_bind; [auto with valops|]. intros [cap rec]. auto 10 with valops.
Qed.
Lemma control_read_readonly : readonly (control_read v ctx p).
Proof.
  unfold control_read. apply readonly_bind; [auto with valops|]. intros rec.
  auto 10 with valops.
Qed.
Lemma list_episodes_readonly : readonly (list_episodes v ctx p).
Proof. unfold list_episodes. apply readonly_bind; [auto with valops|]. done. Qed.
End refinement.

(** ** The endpoints refine the contract *)
Lemma bind_mret_run {S E A B} (m : M S E A) (f : A → B) s r s' :
  (m ≫= λ x, mret (f x)) s = (r, s') → ∃ r', m s = (r', s') ∧ is_ok r' = is_ok r.
Proof. unfold mbind, M_bind. destruct (m s) as [[a|e] s1]; intros H; injection H as <- <-; eauto. Qed.

Lemma refined_may_write {A} v principal (r : result exn A) (ok : bool) s s' P :
  refined v r s s' P → is_ok r = ok → (∀ l, P l → may_write principal l) →
  s' = s ∨ ∃ l, sstep s l s' ∧ audited v l ∧ ok = answered_ok l ∧ may_write principal l.
Proof. intros [->|(l & Hl & Ha & Hr & HP)] Hok H; [by left|]. right. subst ok. eauto 10. Qed.

Ltac pick := match goal with
  | H : context [String.eqb ?a ?b] |- _ => destruct (String.eqb a b)
  | H : Some _ = Some _ |- _ => injection H as <-
  | H : None = Some _ |- _ => discriminate H
  end.
Ltac by_handler H :=
  first [ apply append_hypothesis_refined in H | apply append_hypothesis_status_refined in H
        | apply append_recommendation_refined in H | apply append_no_action_refined in H
        | apply append_verdict_refined in H | apply append_report_refined in H
        | apply open_episode_refined in H | apply set_state_refined in H | apply append_signal_refined in H
        | apply append_cost_refined in H | apply append_step_refined in H | apply annotate_refined in H
        | apply append_verification_refined in H | apply append_recovery_observation_refined in H
        | apply verifier_set_state_refined in H | apply append_observation_refined in H ]; try done.
Ltac ro_done H := left; eapply readonly_at; [|exact H];
  auto using agent_read_readonly, control_read_readonly, list_episodes_readonly.

(** Every request at every endpoint leaves the store as it was or takes one
    contract step, of a kind the endpoint's principal may cause, and is answered with a
    result unless the entry could not be folded in. *)
Lemma handle_refined v uids ep uid pid line s resp s' :
  ep ∈ endpoints v uids → keyed s → dget (s_records s) (v_uuid v) = None →
  handle ep uid pid line s = (resp, s') →
  s' = s ∨ ∃ l, sstep s l s' ∧ audited v l ∧ succeeded resp = answered_ok l ∧ may_write (ep_principal ep) l.
Proof.
  intros Hep Hkeyed Huuid H.
  apply handle_routed in H as [[-> _]|(name & q & fn & r & Huid & _ & Hfn & Hrun & Hresp%answers_succeeded)]; [by left|].
  unfold endpoints in Hep. rewrite !elem_of_cons, elem_of_nil in Hep.
  repeat destruct Hep as [->|Hep]; [..|done]; cbn in Hfn; repeat pick;
    apply bind_mret_run in Hrun as (r' & Hrun & Hr'); rewrite Hresp in Hr'; try solve [ro_done Hrun];
    by_handler Hrun; (eapply refined_may_write; [exact Hrun | exact Hr' |]); cbn;
    intros l; try (intros (k & b & who & aref & -> & Hk); destruct b; try done; cbn; by auto).
  - by destruct l.
  - intros (k & frm & to & why & aref & -> & _). cbn. by auto.
  - intros (k & frm & why & aref & ->). cbn. by auto.
Qed.
