(* ===== verification/StoreInv.v ===== *)
(** * Well-formed episode records, and the invariant of reachable stores

    [wf rec] collects what holds of every record: its history walks the
    transition tables, its ids count its items, its evidence exists. [inv s] ties
    the records to the rows they are folded from. Both are preserved by every
    abstract step, hence by every request. *)
From S2P Require Import Prelude PyVal Schema Canonical Tools Transitions Tokens Rpc Fold Store StoreSpec.
From Stdlib Require Import Sorted.

(** ** Well-formed records *)

(** A history is a walk of the transition tables from [open]; [st] is where it ends. *)
Inductive walk : list history → string → Prop :=
| walk_open ts by_ rev : walk [mkHist ts None "open" by_ rev VNone] "open"
| walk_move hs st ts to by_ rev why :
    walk hs st → allowed by_ st to = true → Forall (λ h, (sh_rev h < rev)%Z) hs →
    walk (hs ++ [mkHist ts (Some st) to by_ rev why]) to.

Definition ids {A} (prefix : string) (l : list A) : list string := map (fmt_id prefix) (seq 1 (length l)).

(** At most one element of [l] satisfies [f]. *)
Definition at_most_one {A} (f : A → bool) (l : list A) : Prop := length (List.filter f l) ≤ 1.

Definition same_slot (session : string) (rank : Z) (h : hypothesis) : bool :=
  py_eq (h_step_session h) (VStr session) && (h_rank h =? rank)%Z.

Record wf (rec : record) : Prop := {
  wf_bundle : ∃ b, r_bundle_id rec = Some b;
  wf_walk : ∃ st, r_state rec = Some st ∧ walk (r_history rec) st;
  wf_history_revs : Forall (λ h, (sh_rev h ≤ r_revision rec)%Z) (r_history rec);
  wf_signals : signal_ids rec = ids "s" (r_signals rec);
  wf_hypotheses : hypothesis_ids rec = ids "h" (r_hypotheses rec);
  wf_recommendations : map (λ x : recommendation, rc_id x) (r_recommendations rec) = ids "r" (r_recommendations rec);
  wf_no_actions : map (λ x : no_action, na_id x) (r_no_action rec) = ids "n" (r_no_action rec);
  wf_evidence : ∀ a, a ∈ artefacts rec → refs_legal rec (a_refs a);
  wf_status : ∀ h : hypothesis, h ∈ r_hypotheses rec →
    (h_status h = "open" ∧ h_refs h = []) ∨ (h_status h ∈ ["supported"; "refuted"] ∧ refs_legal rec (h_refs h));
  wf_tested : ∀ r : recommendation, r ∈ r_recommendations rec → rc_hypothesis r ∈ hypothesis_ids rec;
  wf_ranks : ∀ session rank, at_most_one (same_slot session rank) (r_hypotheses rec);
  wf_rank_pos : ∀ h : hypothesis, h ∈ r_hypotheses rec → (1 ≤ h_rank h)%Z;
  wf_one_artefact : ∀ session, at_most_one (λ x, py_eq x (VStr session)) (planner_sessions rec);
  wf_one_verdict : ∀ session, at_most_one (λ x, py_eq x (VStr session)) (verdict_sessions rec);
  wf_verdicts : ∀ v : verdict, v ∈ r_verdicts rec →
    vd_result v ∈ ["PASS"; "FAIL"] ∧ ∃ a, a ∈ artefacts rec ∧ vd_target_id v = a_id a;
  wf_none : r_approvals rec = [] ∧ r_executions rec = [];
}.

(** ** Lists *)
Lemma ids_snoc {A} prefix (l : list A) x : ids prefix (l ++ [x]) = ids prefix l ++ [fmt_id prefix (length l + 1)].
Proof. unfold ids. rewrite length_app, seq_app, map_app. cbn. by rewrite Nat.add_comm. Qed.

Lemma ids_NoDup {A} prefix (l : list A) : NoDup (ids prefix l).
Proof. unfold ids. apply NoDup_fmap_2_strong; [|apply NoDup_seq]. intros x y _ _. apply fmt_id_inj. Qed.

Lemma ids_next {A} prefix (l : list A) (xs : list string) x :
  xs = ids prefix l → x = next_id l prefix → ∀ y, xs ++ [x] = ids prefix (l ++ [y]).
Proof. intros -> -> y. by rewrite ids_snoc. Qed.

Lemma at_most_one_snoc {A} (f : A → bool) l x :
  at_most_one f l → (f x = true → ∀ y, y ∈ l → f y = false) → at_most_one f (l ++ [x]).
Proof.
  unfold at_most_one. intros Hl Hx. rewrite List.filter_app, length_app. cbn.
  destruct (f x) eqn:Hf; cbn; [|lia].
  replace (List.filter f l) with (@nil A); [cbn; lia|].
  specialize (Hx eq_refl). clear Hl. induction l as [|y l IH]; cbn; [done|].
  rewrite Hx by left. apply IH. intros z Hz. apply Hx. by right.
Qed.

Lemma at_most_one_insert {A} (f : A → bool) l1 l2 x :
  at_most_one f (l1 ++ l2) → (f x = true → ∀ y, y ∈ l1 ++ l2 → f y = false) → at_most_one f ((l1 ++ [x]) ++ l2).
Proof.
  intros Hl Hx. pose proof (at_most_one_snoc f (l1 ++ l2) x Hl Hx) as H. revert H.
  unfold at_most_one. rewrite !List.filter_app, !length_app. lia.
Qed.

Lemma at_most_one_eq {A} (f : A → bool) l i j x y :
  at_most_one f l → l !! i = Some x → l !! j = Some y → f x = true → f y = true → i = j.
Proof.
  unfold at_most_one. revert i j. induction l as [|z l IH]; cbn; intros i j Hl Hi Hj Hx Hy; [done|].
  assert (∀ k w, l !! k = Some w → f w = true → length (List.filter f l) ≥ 1) as Hone.
  { intros k w Hk Hw. assert (w ∈ List.filter f l) as Hin.
    { apply list_elem_of_In, filter_In. rewrite <- list_elem_of_In. by apply list_elem_of_lookup_2 in Hk. }
    destruct (List.filter f l); [by apply not_elem_of_nil in Hin | cbn; lia]. }
  destruct i as [|i], j as [|j]; cbn in *; simplify_eq; [done| | |].
  - rewrite Hx in Hl. specialize (Hone _ _ Hj Hy). cbn in Hl. lia.
  - rewrite Hy in Hl. specialize (Hone _ _ Hi Hx). cbn in Hl. lia.
  - f_equal. eapply IH; try done. destruct (f z); cbn in Hl; lia.
Qed.

(** ** Every legal entry preserves well-formedness *)
Lemma refs_legal_mono rec rec' l :
  (∀ x, x ∈ signal_ids rec → x ∈ signal_ids rec') → refs_legal rec l → refs_legal rec' l.
Proof. intros Hsub [Hl Hr]. split; auto. Qed.

Lemma history_revs_weaken hs n m : (n ≤ m)%Z → Forall (λ h, (sh_rev h ≤ n)%Z) hs → Forall (λ h, (sh_rev h ≤ m)%Z) hs.
Proof. intros Hnm. apply Forall_impl. intros. lia. Qed.

Lemma history_revs_lt hs n : Forall (λ h, (sh_rev h ≤ n)%Z) hs → Forall (λ h, (sh_rev h < n + 1)%Z) hs.
Proof. apply Forall_impl. intros. lia. Qed.

Lemma max_by_rev_elem a l : max_by_rev a l = a ∨ max_by_rev a l ∈ l.
Proof.
  revert a. induction l as [|b l IH]; intros a; cbn; [by left|].
  destruct (IH (if (a_rev a <? a_rev b)%Z then b else a)) as [->|H]; [|by right; right].
  destruct (_ <? _)%Z; [right; left | by left].
Qed.
Lemma under_judgement_elem rec a : under_judgement rec = Some a → a ∈ artefacts rec.
Proof.
  unfold under_judgement. destruct (artefacts rec) as [|b l]; [done|]. intros [= <-].
  destruct (max_by_rev_elem b l) as [->|H]; [left | by right].
Qed.

(** The fields an entry does not touch keep their property. *)
Ltac wf_frame Hwf :=
  destruct Hwf as [Hb Hwk Hrv Hsg Hhy Hrc Hna Hev Hst Hte Hrk Hrp H1a H1v Hvd Hno]; split; cbn;
  first [ exact Hb | exact Hwk | (eapply history_revs_weaken; [|exact Hrv]; lia) | exact Hsg | exact Hhy | exact Hrc
        | exact Hna | exact Hev | exact Hst | exact Hte | exact Hrk | exact Hrp | exact H1a | exact H1v
        | exact Hvd | exact Hno | idtac ].

Section apply_wf.
Context (rec : record) (ts : Q) (principal : string) (session : val) (bundle aref : string).
Context (Hwf : wf rec).
Let e (b : body) : entry := mkEntry (r_episode_id rec) (r_revision rec + 1) ts b principal session bundle aref.

Lemma apply_signal_wf s : legal rec principal session (BSignal s) → wf (apply rec (e (BSignal s))).
Proof.
  intros [_ Hid]. assert (∀ x, x ∈ signal_ids rec → x ∈ signal_ids (apply rec (e (BSignal s)))) as Hsub.
  { intros x Hx. unfold signal_ids. cbn. rewrite map_app. apply elem_of_app. by left. }
  wf_frame Hwf.
  - unfold signal_ids. cbn. rewrite map_app. by apply (ids_next "s").
  - intros a Ha. eapply refs_legal_mono; [exact Hsub | by apply Hev].
  - intros h Hh. destruct (Hst h Hh) as [?|[? ?]]; [by left|]. right. split; [done|].
    by eapply refs_legal_mono; [exact Hsub|].
Qed.

Lemma apply_hypothesis_wf h : legal rec principal session (BHypothesis h) → wf (apply rec (e (BHypothesis h))).
Proof.
  intros (_ & Hs & Hrank & _ & _ & _ & Hid & Hdistinct). wf_frame Hwf.
  - unfold hypothesis_ids. cbn. rewrite map_app. by apply (ids_next "h").
  - intros x [Hx|Hx%list_elem_of_singleton]%elem_of_app; [by apply Hst|]. subst x. by left.
  - intros r Hr. unfold hypothesis_ids. cbn. rewrite map_app. apply elem_of_app. left. by apply Hte.
  - intros ss rk. apply at_most_one_snoc; [apply Hrk|]. unfold same_slot. cbn. intros H y Hy. bools.
    apply py_eq_str_r in H as H'. subst. rewrite <- not_true_iff_false. intros Hm. bools.
    apply (Hdistinct y Hy); [by rewrite H' | congruence].
  - intros x [Hx|Hx%list_elem_of_singleton]%elem_of_app; [by apply Hrp|]. by subst x.
Qed.

Lemma apply_status_ids st t ss l :
  map (λ h : hypothesis, h_id h) (map (apply_status st t ss) l) = map (λ h : hypothesis, h_id h) l.
Proof. induction l as [|h l IH]; cbn; [done|]. rewrite IH. unfold apply_status. by destruct (String.eqb _ _). Qed.
Lemma apply_status_body st t ss h : h_body (apply_status st t ss h) = h_body h.
Proof. unfold apply_status. by destruct (String.eqb _ _). Qed.

Lemma apply_hypothesis_status_wf st :
  legal rec principal session (BHypothesisStatus st) → wf (apply rec (e (BHypothesisStatus st))).
Proof.
  intros (_ & Hid & Hstat & Hrefs). wf_frame Hwf.
  - unfold hypothesis_ids, ids in *. cbn. by rewrite apply_status_ids, length_map.
  - intros x (h & -> & Hh)%list_elem_of_fmap. unfold apply_status.
    destruct (String.eqb _ _); [by right | by apply Hst].
  - intros r Hr. unfold hypothesis_ids. cbn. rewrite apply_status_ids. by apply Hte.
  - intros ss rk. specialize (Hrk ss rk). unfold at_most_one in *.
    replace (length (List.filter _ (map _ _))) with (length (List.filter (same_slot ss rk) (r_hypotheses rec))); [done|].
    generalize (r_hypotheses rec). intros l. induction l as [|h l IH]; cbn; [done|].
    replace (same_slot ss rk (apply_status st ts session h)) with (same_slot ss rk h).
    + destruct (same_slot ss rk h); cbn; by rewrite IH.
    + unfold same_slot. by rewrite apply_status_body.
  - intros x (h & -> & Hh)%list_elem_of_fmap. rewrite apply_status_body. by apply Hrp.
Qed.

Lemma fresh_session_slot l ss :
  fresh_session l session → py_eq session (VStr ss) = true → ∀ y, y ∈ l → py_eq y (VStr ss) = false.
Proof. intros Hf ->%py_eq_str_r y Hy. by apply Hf. Qed.

Lemma planner_sessions_rec r : planner_sessions (apply rec (e (BRecommendation r))) =
  (map rc_session (r_recommendations rec) ++ [session]) ++ map na_session (r_no_action rec).
Proof. unfold planner_sessions, artefacts. cbn. by rewrite !map_app, !map_map. Qed.
Lemma planner_sessions_eq : planner_sessions rec = map rc_session (r_recommendations rec) ++ map na_session (r_no_action rec).
Proof. unfold planner_sessions, artefacts. by rewrite !map_app, !map_map. Qed.
Lemma artefacts_grow a rec' r : artefacts rec' = (map ARec (r_recommendations rec) ++ [r]) ++ map ANo (r_no_action rec) →
  a ∈ artefacts rec' ↔ a = r ∨ a ∈ artefacts rec.
Proof. intros ->. unfold artefacts. rewrite !elem_of_app, list_elem_of_singleton. tauto. Qed.

Lemma apply_recommendation_wf r : legal rec principal session (BRecommendation r) → wf (apply rec (e (BRecommendation r))).
Proof.
  intros (_ & Hf & Hh & Hrefs & Hid & _).
  assert (∀ a, a ∈ artefacts (apply rec (e (BRecommendation r))) ↔
               a = ARec (mkRecom r session ts (r_revision rec + 1)) ∨ a ∈ artefacts rec) as Hart.
  { intros a. apply artefacts_grow. unfold artefacts. cbn. by rewrite map_app. }
  wf_frame Hwf.
  - rewrite map_app. by apply (ids_next "r").
  - intros a [->|Ha]%Hart; [done | by apply Hev].
  - intros x [Hx|Hx%list_elem_of_singleton]%elem_of_app; [by apply Hte|]. by subst x.
  - intros ss. pose proof (planner_sessions_rec r) as Hp. cbn in Hp. rewrite Hp. rewrite planner_sessions_eq in Hf. specialize (H1a ss).
    rewrite planner_sessions_eq in H1a. apply at_most_one_insert; [done|]. by apply fresh_session_slot.
  - intros x Hx. destruct (Hvd x Hx) as (? & a & Ha & ?). split; [done|]. exists a. split; [|done].
    apply Hart. by right.
Qed.

Lemma apply_no_action_wf n : legal rec principal session (BNoAction n) → wf (apply rec (e (BNoAction n))).
Proof.
  intros (_ & Hf & _ & Hrefs & Hid).
  assert (artefacts (apply rec (e (BNoAction n))) = artefacts rec ++ [ANo (mkNoAct n session ts (r_revision rec + 1))]) as Hart.
  { unfold artefacts. cbn. by rewrite map_app, app_assoc. }
  cbn in Hart.
  wf_frame Hwf.
  - rewrite map_app. by apply (ids_next "n").
  - rewrite Hart. intros a [Ha|Ha%list_elem_of_singleton]%elem_of_app; [by apply Hev | by subst a].
  - intros ss. unfold planner_sessions. rewrite Hart, map_app. apply at_most_one_snoc; [apply H1a|].
    by apply fresh_session_slot.
  - intros x Hx. destruct (Hvd x Hx) as (? & a & Ha & ?). split; [done|]. exists a. split; [|done].
    rewrite Hart. apply elem_of_app. by left.
Qed.

Lemma apply_verdict_wf v : legal rec principal session (BVerdict v) → wf (apply rec (e (BVerdict v))).
Proof.
  intros (_ & Hf & (a & Ha & Hid) & Hres & _). wf_frame Hwf.
  - intros ss. unfold verdict_sessions. cbn. rewrite map_app. apply at_most_one_snoc; [apply H1v|].
    by apply fresh_session_slot.
  - intros x [Hx|Hx%list_elem_of_singleton]%elem_of_app; [by apply Hvd|]. subst x. split; [done|].
    exists a. split; [by apply under_judgement_elem | done].
Qed.

Lemma apply_state_wf frm to why : legal rec principal session (BState frm to why) → wf (apply rec (e (BState frm to why))).
Proof.
  intros (-> & f & Hf & Hall). wf_frame Hwf.
  - exists to. split; [done|]. destruct Hwk as (st & Hst' & Hwk). rewrite Hst' in Hf. injection Hf as ->.
    rewrite Hst'. apply walk_move; [done|done|]. by apply history_revs_lt.
  - apply list.Forall_app. split; [eapply history_revs_weaken; [|done]; lia|]. repeat constructor. cbn. lia.
Qed.

Lemma apply_wf b : legal rec principal session b → wf (apply rec (e b)).
Proof.
  destruct b; intros Hl.
  - done.
  - by apply apply_signal_wf.
  - by apply apply_hypothesis_wf.
  - by apply apply_hypothesis_status_wf.
  - by apply apply_recommendation_wf.
  - by apply apply_no_action_wf.
  - by apply apply_verdict_wf.
  - wf_frame Hwf.
  - wf_frame Hwf.
  - wf_frame Hwf.
  - by apply apply_state_wf.
  - wf_frame Hwf.
  - wf_frame Hwf.
  - wf_frame Hwf.
Qed.
End apply_wf.

(** A new episode. *)
Lemma open_wf eid o ts principal session bundle aref :
  wf (apply (empty_record eid) (mkEntry eid 1 ts (BOpened o) principal session bundle aref)).
Proof.
  split; cbn; try done; try (intros x Hx; by apply not_elem_of_nil in Hx).
  - eauto.
  - eexists. split; [done|]. constructor.
  - repeat constructor. cbn. lia.
  - unfold at_most_one. cbn. lia.
  - unfold at_most_one. cbn. lia.
  - unfold at_most_one. cbn. lia.
Qed.

(** ** Records as a fold of rows *)
Definition entries_of (k : string) (rows : list row) : list row := List.filter (λ r : row, String.eqb (e_episode r) k) rows.

(** The record of an episode from its rows alone. *)
Definition replay (k : string) (rows : list row) : option record :=
  match rows with
  | [] => None
  | _ => Some (fold_left (λ rec (r : row), apply rec r) rows (empty_record k))
  end.

Lemma entries_of_snoc k rows (r : row) :
  entries_of k (rows ++ [r]) = entries_of k rows ++ (if String.eqb (e_episode r) k then [r] else []).
Proof. unfold entries_of. rewrite List.filter_app. cbn. by destruct (String.eqb _ _). Qed.

Lemma entries_of_cons k (r : row) rows :
  entries_of k (r :: rows) = if String.eqb (e_episode r) k then r :: entries_of k rows else entries_of k rows.
Proof. done. Qed.
#[global] Arguments entries_of : simpl never.

Lemma entries_of_elem k rows (r : row) : r ∈ entries_of k rows ↔ r ∈ rows ∧ e_episode r = k.
Proof. unfold entries_of. by rewrite !list_elem_of_In, filter_In, String.eqb_eq. Qed.

Lemma replay_snoc k rows (r : row) :
  replay k (rows ++ [r]) = Some (apply (default (empty_record k) (replay k rows)) r).
Proof. unfold replay. destruct rows as [|r0 rows]; [done|]. cbn. by rewrite fold_left_app. Qed.

(** A row that can be folded in. *)
Definition foldable (r : row) : bool := match apply_error (e_body r) with None => true | Some _ => false end.
Lemma apply_error_inv b x : apply_error b = Some x → x = PyExc "OverflowError" ∧ ∃ c, b = BCost c ∧ no_float (co_usd c) = true.
Proof. destruct b; try done. cbn. destruct (no_float _) eqn:E; [|done]. intros [= <-]. eauto. Qed.

(** The records of a log, whatever its rows. *)
Definition rebuilt (rows : list row) : list (string * record) :=
  fold_left (λ recs (r : row), dset recs (e_episode r) (apply (default (empty_record (e_episode r)) (dget recs (e_episode r))) r)) rows [].
(** [rebuild] gives them when every row can be folded in, and raises when one cannot. *)
Lemma rebuild_run rows : rebuild rows = if forallb foldable rows then Ok (rebuilt rows) else Err (PyExc "OverflowError").
Proof.
  unfold rebuild, rebuilt. generalize (@nil (string * record)). induction rows as [|r rows IH]; intros recs; [done|].
  cbn [rebuild_from fold_left forallb]. unfold applies, foldable at 1. destruct (apply_error (e_body r)) as [x|] eqn:E; [|apply IH].
  by apply apply_error_inv in E as [-> _].
Qed.
(** They are, for every episode, the replay of its own rows. *)
Lemma rebuilt_replay rows k : dget (rebuilt rows) k = replay k (entries_of k rows).
Proof.
  unfold rebuilt. induction rows as [|r rows IH] using rev_ind; [done|].
  rewrite fold_left_app, entries_of_snoc. cbn.
  destruct (String.eqb_spec (e_episode r) k) as [->|Hne].
  - by rewrite dget_dset_eq, IH, replay_snoc.
  - by rewrite dget_dset_ne, IH, app_nil_r.
Qed.

(** ** The invariant *)
Definition revs_from_one (rows : list row) : Prop := map (λ r : row, e_rev r) rows = map Z.of_nat (seq 1 (length rows)).

Record inv (s : store) : Prop := {
  inv_keys : NoDup (dkeys (s_records s));
  inv_keyed : keyed s;
  inv_replay : ∀ k, dget (s_records s) k = replay k (entries_of k (s_entries s));
  inv_revs : ∀ k, revs_from_one (entries_of k (s_entries s));
  inv_revision : ∀ k rec, dget (s_records s) k = Some rec → r_revision rec = Z.of_nat (length (entries_of k (s_entries s)));
  inv_idem : ∀ k, NoDup (map (λ r : row, w_idem r) (entries_of k (s_entries s)));
  inv_wf : ∀ k rec, dget (s_records s) k = Some rec → wf rec;
  inv_dedupe : ∀ key k1 k2 rec1 rec2,
    dget (s_records s) k1 = Some rec1 → dget (s_records s) k2 = Some rec2 →
    dedupe_matches key rec1 = true → dedupe_matches key rec2 = true → k1 = k2;
}.

Lemma inv_init : inv (mkStore [] [] []).
Proof. split; cbn; try done. - constructor. - intros. constructor. Qed.

(** Appending one entry, with its record: the parts of the invariant about rows. *)
Section appended.
Context (s : store) (Hinv : inv s) (k : string) (rec : record) (e : entry) (idem : string) (result : val)
  (opens : list open_row).
Context (Hid : r_episode_id rec = k) (He : e_episode e = k) (Hrev : e_rev e = (r_revision rec + 1)%Z)
  (Hlen : r_revision rec = Z.of_nat (length (entries_of k (s_entries s))))
  (Hrec : replay k (entries_of k (s_entries s) ++ [mkRow e idem result]) = Some (apply rec e))
  (Hidem : record_fresh_idem s k idem) (Hwf : wf (apply rec e))
  (Hdup : ∀ key k' rec', dget (s_records s) k' = Some rec' → dedupe_matches key rec' = true →
    dedupe_matches key (apply rec e) = true → k' = k).
Let s' := appended s (s_records s) rec e idem result opens.

Lemma apply_id rec0 e0 : r_episode_id (apply rec0 e0) = r_episode_id rec0.
Proof. unfold apply. by destruct (e_body e0). Qed.
Lemma apply_revision rec0 e0 : r_revision (apply rec0 e0) = e_rev e0.
Proof. unfold apply. by destruct (e_body e0). Qed.

Lemma appended_entries k' :
  entries_of k' (s_entries s') = entries_of k' (s_entries s) ++ (if String.eqb k k' then [mkRow e idem result] else []).
Proof.
  change (s_entries s') with (s_entries s ++ [mkRow e idem result]). rewrite entries_of_snoc. cbn. by rewrite He, String.eqb_sym.
Qed.
Lemma appended_get_eq : dget (s_records s') k = Some (apply rec e).
Proof. unfold s', appended. cbn. rewrite Hid. apply dget_dset_eq. Qed.
Lemma appended_get_ne k' : k ≠ k' → dget (s_records s') k' = dget (s_records s) k'.
Proof. intros. unfold s', appended. cbn. rewrite Hid. by apply dget_dset_ne. Qed.

(** Case analysis on whether an episode is the one appended to. *)
Lemma appended_get_inv k' rec' : dget (s_records s') k' = Some rec' →
  (k' = k ∧ rec' = apply rec e) ∨ (k ≠ k' ∧ dget (s_records s) k' = Some rec').
Proof.
  destruct (decide (k = k')) as [<-|Hne].
  - rewrite appended_get_eq. intros [= <-]. by left.
  - rewrite appended_get_ne by done. by right.
Qed.

Lemma appended_inv : inv s'.
Proof.
  destruct Hinv as [Hk Hky Hrp Hrv Hrn Hie Hw Hd]. split.
  - by apply dkeys_dset.
  - intros k' rec' [[-> ->]|[_ ?]]%appended_get_inv; [by rewrite apply_id | by apply Hky].
  - intros k'. rewrite appended_entries. destruct (String.eqb_spec k k') as [<-|Hne].
    + by rewrite appended_get_eq, Hrec.
    + by rewrite appended_get_ne, app_nil_r.
  - intros k'. rewrite appended_entries. destruct (String.eqb_spec k k') as [<-|Hne]; [|by rewrite app_nil_r].
    specialize (Hrv k). unfold revs_from_one in *. rewrite map_app, Hrv, length_app, seq_app, map_app. cbn.
    rewrite Hrev, Hlen. do 2 f_equal. lia.
  - intros k' rec' [[-> ->]|[Hne ?]]%appended_get_inv; rewrite appended_entries.
    + rewrite String.eqb_refl, length_app, apply_revision, Hrev, Hlen. cbn. lia.
    + destruct (String.eqb_spec k k'); [done|]. rewrite app_nil_r. by apply Hrn.
  - intros k'. rewrite appended_entries. destruct (String.eqb_spec k k') as [<-|Hne]; [|by rewrite app_nil_r].
    rewrite map_app. apply list.NoDup_app. split_and!; [done| |apply NoDup_singleton].
    intros x (r & -> & Hr)%list_elem_of_fmap Hx%list_elem_of_singleton. cbn in Hx.
    apply entries_of_elem in Hr as [Hr Hrk]. by apply (Hidem r).
  - intros k' rec' [[-> ->]|[_ ?]]%appended_get_inv; [done | by eapply Hw].
  - intros key k1 k2 rec1 rec2 [[-> ->]|[Hne1 H1]]%appended_get_inv [[-> ->]|[Hne2 H2]]%appended_get_inv Hm1 Hm2.
    + done.
    + symmetry. by eapply Hdup.
    + by eapply Hdup.
    + by eapply Hd.
Qed.
End appended.

(** ** Steps and restarts preserve the invariant *)
Lemma replay_get s k rec (e : row) :
  inv s → dget (s_records s) k = Some rec → replay k (entries_of k (s_entries s) ++ [e]) = Some (apply rec e).
Proof. intros Hinv Hk. by rewrite replay_snoc, <- (inv_replay _ Hinv), Hk. Qed.

Lemma entries_of_fresh s k : inv s → dget (s_records s) k = None → entries_of k (s_entries s) = [].
Proof. intros Hinv Hk. rewrite (inv_replay _ Hinv) in Hk. by destruct (entries_of k _). Qed.

(** Only the opening entry sets the dedupe key, and no entry revives a terminal episode. *)
Lemma apply_dedupe rec principal session b k rev ts bundle aref key :
  legal rec principal session b →
  dedupe_matches key (apply rec (mkEntry k rev ts b principal session bundle aref)) = true → dedupe_matches key rec = true.
Proof.
  intros Hl. unfold dedupe_matches. destruct b; cbn; try done.
  destruct Hl as (-> & f & Hf & Hall%allowed_from_nonterminal). intros [H _]%andb_true_iff. rewrite Hf.
  unfold terminal. by rewrite H, Hall.
Qed.

Lemma sstep_inv s l s' : inv s → sstep s l s' → inv s'.
Proof.
  intros Hinv Hstep. destruct Hstep as [k rec b ts principal session bundle aref idem result Hk Hid Hb Hi Hr Hl
    |eid o ts principal aref idem result Hk Hi Hr Hdup Hc Hm|k rec key idem result Hk Hm].
  - eapply appended_inv; try done.
    + by eapply inv_revision.
    + by apply replay_get.
    + rewrite <- Hid. apply apply_wf; [by eapply inv_wf | done].
    + intros key k' rec' Hk' Hm Hm'. eapply inv_dedupe; [done|done|done|done|]. by eapply apply_dedupe.
  - eapply appended_inv; try done.
    + change (r_episode_id _) with eid. by rewrite (entries_of_fresh _ _ Hinv Hk).
    + change (r_episode_id _) with eid. by rewrite (entries_of_fresh _ _ Hinv Hk).
    + apply (open_wf eid).
    + intros key k' rec' Hk' Hm' Ho. exfalso. apply dget_elem, Hdup in Hk'.
      apply andb_true_iff in Ho as [Ho%String.eqb_eq _]. cbn in Ho. congruence.
  - destruct Hinv. by split.
Qed.

(** Sorting keeps the order of an episode's rows when it is by revision already. *)
Lemma row_insert_other k (x : row) l : e_episode x ≠ k → entries_of k (row_insert x l) = entries_of k l.
Proof.
  intros Hx%String.eqb_neq. induction l as [|y l IH]; cbn; [by rewrite entries_of_cons, Hx|].
  destruct (row_le x y); rewrite ?entries_of_cons, ?Hx, ?IH; done.
Qed.
Lemma row_insert_first k (x : row) l :
  e_episode x = k → (∀ y : row, y ∈ entries_of k l → (e_rev x < e_rev y)%Z) →
  entries_of k (row_insert x l) = x :: entries_of k l.
Proof.
  intros Hx Hl. pose proof Hx as Hk%String.eqb_eq. induction l as [|y l IH]; cbn; [by rewrite entries_of_cons, Hk|].
  destruct (row_le x y) eqn:Hle; rewrite !entries_of_cons, ?Hk; [done|].
  rewrite entries_of_cons in Hl. destruct (String.eqb_spec (e_episode y) k) as [Hy|Hy]; [|by apply IH].
  exfalso. assert (e_rev x < e_rev y)%Z by (apply Hl; left). unfold row_le in Hle. apply orb_false_iff in Hle as [_ Hle].
  rewrite Hx, Hy, String.eqb_refl in Hle. apply Z.leb_gt in Hle. lia.
Qed.

Lemma order_rows_entries k rows :
  StronglySorted Z.lt (map (λ r : row, e_rev r) (entries_of k rows)) → entries_of k (order_rows rows) = entries_of k rows.
Proof.
  induction rows as [|x rows IH]; [done|].
  change (order_rows (x :: rows)) with (row_insert x (order_rows rows)). rewrite !entries_of_cons.
  destruct (String.eqb_spec (e_episode x) k) as [Hx|Hx]; cbn [map].
  - intros [Hs Hall]%StronglySorted_inv. rewrite row_insert_first; [by rewrite IH | done |].
    rewrite IH by done. intros y Hy. rewrite List.Forall_forall in Hall. apply Hall.
    apply list_elem_of_In. by apply (list_elem_of_fmap_2 (λ r : row, e_rev r) _ y).
  - intros Hs. rewrite row_insert_other by done. by apply IH.
Qed.

Lemma seq_sorted n m : StronglySorted Z.lt (map Z.of_nat (seq n m)).
Proof.
  revert n. induction m as [|m IH]; intros n; cbn; [constructor|]. constructor; [apply IH|].
  apply List.Forall_forall. intros x (y & <- & Hy%in_seq)%in_map_iff. lia.
Qed.

Lemma row_insert_elem (x y : row) l : y ∈ row_insert x l ↔ y = x ∨ y ∈ l.
Proof.
  induction l as [|z l IH]; cbn; [by rewrite list_elem_of_singleton, elem_of_nil; tauto|].
  destruct (row_le x z); rewrite !elem_of_cons, ?IH; tauto.
Qed.
Lemma order_rows_elem y rows : y ∈ order_rows rows ↔ y ∈ rows.
Proof. induction rows as [|x rows IH]; [done|]. cbn. by rewrite row_insert_elem, IH, elem_of_cons. Qed.
(** A restart keeps the tables, and fails only on a row that cannot be folded in. *)
Lemma restart_run s : restart s =
  if forallb foldable (s_entries s) then Ok (mkStore (s_entries s) (s_opens s) (rebuilt (order_rows (s_entries s)))) else Err (PyExc "OverflowError").
Proof.
  unfold restart. rewrite rebuild_run.
  assert (forallb foldable (order_rows (s_entries s)) = forallb foldable (s_entries s)) as ->; [|by destruct (forallb _ _)].
  apply eq_true_iff_eq. rewrite !forallb_forall. setoid_rewrite <- list_elem_of_In. by setoid_rewrite order_rows_elem.
Qed.
Lemma restart_Ok s s' : restart s = Ok s' → s' = mkStore (s_entries s) (s_opens s) (rebuilt (order_rows (s_entries s))).
Proof. rewrite restart_run. destruct (forallb _ _); [|done]. by intros [= <-]. Qed.
(** The records a restart rebuilds are the records that were there. *)
Lemma rebuilt_get s k : inv s → dget (rebuilt (order_rows (s_entries s))) k = dget (s_records s) k.
Proof.
  intros Hinv. rewrite rebuilt_replay, order_rows_entries, (inv_replay _ Hinv); [done|].
  rewrite (inv_revs _ Hinv k). apply seq_sorted.
Qed.
Lemma restart_get s s' k : inv s → restart s = Ok s' → dget (s_records s') k = dget (s_records s) k.
Proof. intros Hinv ->%restart_Ok. by apply rebuilt_get. Qed.

Lemma rebuilt_keys rows : NoDup (dkeys (rebuilt rows)).
Proof.
  unfold rebuilt. induction rows as [|r rows IH] using rev_ind; [constructor|].
  rewrite fold_left_app. cbn. by apply dkeys_dset.
Qed.

Lemma restart_inv s s' : inv s → restart s = Ok s' → inv s'.
Proof.
  intros Hinv ->%restart_Ok. pose proof (λ k, rebuilt_get s k Hinv) as Hget. destruct Hinv as [Hk Hky Hrp Hrv Hrn Hie Hw Hd].
  split; cbn [s_records s_entries]; try done.
  - apply rebuilt_keys.
  - intros k rec. cbn. rewrite Hget. apply Hky.
  - intros k. rewrite Hget. apply Hrp.
  - intros k rec. rewrite Hget. apply Hrn.
  - intros k rec. rewrite Hget. apply Hw.
  - intros key k1 k2 rec1 rec2. rewrite !Hget. apply Hd.
Qed.

(** ** Requests, restarts, and the stores they reach

    [late] is the second half of [append_verification] run after other requests:
    the store's lock is released between its check and its write. *)
Inductive srequest (s : store) : store → Prop :=
| sreq_handle v uids ep uid pid line resp s' :
    ep ∈ endpoints v uids → dget (s_records s) (v_uuid v) = None →
    handle ep uid pid line s = (resp, s') → srequest s s'
| sreq_late_verification v ctx p r s' : verification_write v ctx p s = (r, s') → srequest s s'
| sreq_restart s' : restart s = Ok s' → srequest s s'.

Definition init_store : store := mkStore [] [] [].
Definition reachable (s : store) : Prop := rtc srequest init_store s.

(** A request is a contract step, or changes no table, nor what any lookup gives. *)
Lemma srequest_step s s' : inv s → srequest s s' →
  (∃ l, sstep s l s') ∨ (s_entries s' = s_entries s ∧ ∀ k, dget (s_records s') k = dget (s_records s) k).
Proof.
  intros Hinv Hs. destruct Hs as [v uids ep uid pid line resp s' Hep Hu H | v ctx p r s' H | s' H].
  - eapply handle_refined in H as [->|(l & Hl & _)]; eauto. by apply inv_keyed.
  - apply verification_write_refined in H as [->|(l & Hl & _)]; eauto. by apply inv_keyed.
  - right. split; [by apply restart_Ok in H as ->|]. intros k. by apply restart_get.
Qed.

Lemma srequest_inv s s' : inv s → srequest s s' → inv s'.
Proof.
  intros Hinv Hs. destruct Hs as [v uids ep uid pid line resp s' Hep Hu H | v ctx p r s' H | s' H].
  - eapply handle_refined in H as [->|(l & Hl & _)]; eauto using sstep_inv. by apply inv_keyed.
  - apply verification_write_refined in H as [->|(l & Hl & _)]; eauto using sstep_inv. by apply inv_keyed.
  - by eapply restart_inv.
Qed.

Lemma requests_inv s s' : inv s → rtc srequest s s' → inv s'.
Proof. intros Hinv Hs. induction Hs as [|s s1 s' H _ IH]; [done|]. apply IH. by eapply srequest_inv. Qed.

Lemma reachable_inv s : reachable s → inv s.
Proof. apply requests_inv, inv_init. Qed.
