(* ===== verification/Scenario.v ===== *)
(** * A recorded run of the store

    A sequence of requests, executed by the model: one episode from [open] to
    [resolved], with a diagnosis, a recommendation, its verdict, a report and the
    verifier's observation. The store's theorems are instantiated at the stores of
    this run. *)
From S2P Require Import Prelude PyVal Schema Canonical Tools Transitions Tokens Rpc Fold Store StoreSpec StoreInv.

(** A request: the environment of the call, the endpoint's principal, the line. *)
Record request : Type := mkReq { q_env : env; q_principal : string; q_line : val }.

Definition uids (p : string) : list Z := [1000%Z].
Definition endpoint_of (v : env) (principal : string) : option (Endpoint store reply) :=
  find_first (λ ep, String.eqb (ep_principal ep) principal) (endpoints v uids).

Definition serve (s : store) (q : request) : store :=
  match endpoint_of (q_env q) (q_principal q) with
  | Some ep => (handle ep 1000 1 (Some (q_line q)) s).2
  | None => s
  end.

Fixpoint fresh_uuids (s : store) (qs : list request) : bool :=
  match qs with
  | [] => true
  | q :: qs' => match dget (s_records s) (v_uuid (q_env q)) with None => fresh_uuids (serve s q) qs' | Some _ => false end
  end.

Lemma serve_requests s qs : fresh_uuids s qs = true → rtc srequest s (fold_left serve qs s).
Proof.
  revert s. induction qs as [|q qs IH]; intros s; cbn; [done|].
  destruct (dget _ _) eqn:Hu; [done|]. intros H. etrans; [|by apply IH].
  unfold serve. destruct (endpoint_of _ _) as [ep|] eqn:Hep; [|done].
  apply find_first_Some in Hep as [Hep _]. apply rtc_once.
  destruct (handle _ _ _ _ _) as [resp s'] eqn:Hh. by eapply sreq_handle.
Qed.

(** ** The run *)
Definition demo_sign (body : string) : string := "signature".
Definition demo_gate : TokenGate := mkGate (λ sig _, String.eqb sig "signature") (Some (λ _, Ok None)) [].
Definition demo_skills : dict :=
  [("restart", VDict [("roles", VList [VStr "change_planner"]); ("modes", VStr "any"); ("preconditions", VList [])]);
   ("tower-only", VDict [("roles", VList [VStr "change_planner"]); ("modes", VList [VStr "tower"])])].
Definition demo_env (uuid : string) : env :=
  mkEnv 100 demo_gate (λ _, Ok None) (λ _, Ok demo_skills) (Some (Ok (VDict [("seq", VInt 7)]))) uuid.

Definition demo_token (role session : string) : string :=
  match mint demo_sign 100 "n0" "ep1" role session "b1" 600 with Ok t => t | Err _ => "" end.

Definition call (uuid principal method : string) (params : dict) : request :=
  mkReq (demo_env uuid) principal (VDict [("id", VInt 1); ("method", VStr method); ("params", VDict params)]).
Definition agent_call (n : nat) (role session method : string) (params : dict) : request :=
  call (fmt_id "u" n) "episode_broker" method
    (params ++ [("episode_id", VStr "ep1"); ("token", VStr (demo_token role session)); ("idem_key", VStr (fmt_id "k" n))]).
Definition move (n : nat) (principal state : string) (rev : Z) : request :=
  call (fmt_id "u" n) principal "set_state"
    [("episode_id", VStr "ep1"); ("state", VStr state); ("expected_revision", VInt rev)].

Definition open_params : dict :=
  [("class", VStr "validator_health");
   ("trigger", VDict [("source", VStr "sentinel"); ("check", VStr "delinquent"); ("severity", VStr "page")]);
   ("validator_id", VStr "v1"); ("consensus_mode", VStr "tower"); ("bundle_id", VStr "b1"); ("idem_key", VStr "o1")].
Definition hypothesis_params : dict :=
  [("hypothesis", VDict [("rank", VInt 1); ("claim", VStr "stalled"); ("test", VStr "catchup"); ("expected_evidence", VStr "slots")])].
Definition recommendation_params : dict :=
  [("recommendation", VDict [("hypothesis_id", VStr "h1"); ("action_text", VStr "restart the validator"); ("skill", VStr "restart");
                             ("preconditions", VList [VStr "not leader soon"]); ("expected_postcondition", VStr "catches up");
                             ("evidence_refs", VList [VStr "s1"])])].
Definition verdict_params : dict :=
  [("target_id", VStr "r1"); ("result", VStr "PASS");
   ("checks", VList [VDict [("check", VStr "evidence"); ("result", VStr "pass")]])].

Definition open_request : request := call "ep1" "controller" "open_episode" open_params.
Definition signal_request : request := call "u2" "controller" "append_signal"
  [("episode_id", VStr "ep1"); ("idem_key", VStr "k2");
   ("snapshot", VDict [("command_id", VStr "catchup"); ("status", VStr "ok"); ("summary", VStr "behind")])].

Definition demo_diagnosis : list request := [
  agent_call 4 "diagnostician" "sess1" "append_hypothesis" hypothesis_params;
  agent_call 5 "diagnostician" "sess1" "append_hypothesis_status"
    [("hypothesis_id", VStr "h1"); ("status", VStr "supported"); ("evidence_refs", VList [VStr "s1"])];
  move 6 "controller" "recommending" 5].

Definition demo_judgement : list request := [
  agent_call 7 "change_planner" "sess2" "append_recommendation" recommendation_params;
  move 8 "controller" "judging" 7;
  agent_call 9 "proposal_judge" "sess3" "append_verdict" verdict_params;
  move 10 "controller" "reporting" 9].

Definition demo_close : list request := [
  move 11 "controller" "awaiting_operator" 10;
  call "u12" "verifier" "append_verification"
    [("episode_id", VStr "ep1"); ("rule", VStr "catchup"); ("result", VStr "pass"); ("idem_key", VStr "k12")];
  move 13 "verifier" "resolved" 12].

Definition started_store : store := fold_left serve [open_request] init_store.
Definition signalled_store : store := fold_left serve [signal_request] started_store.
Definition opened_store : store := fold_left serve [move 3 "controller" "diagnosing" 2] signalled_store.
Definition diagnosed_store : store := fold_left serve demo_diagnosis opened_store.
Definition judged_store : store := fold_left serve demo_judgement diagnosed_store.
Definition closed_store : store := fold_left serve demo_close judged_store.

(** A move asked for after the episode is resolved, and a cost recorded then. *)
Definition late_requests : list request := [
  move 20 "controller" "handed_off" 13;
  call "u21" "controller" "append_cost"
    [("episode_id", VStr "ep1"); ("role", VStr "reporter"); ("usd", VFloat (1 # 10)); ("turns", VInt 3); ("idem_key", VStr "k21")]].
Definition late_store : store := fold_left serve late_requests closed_store.

(** The same trigger again, under another key, while the episode is open. *)
Definition open_again : request :=
  call "ep9" "controller" "open_episode" (dset open_params "idem_key" (VStr "o2")).
Definition reopened_store : store := fold_left serve [open_again] opened_store.

(** A verification whose check ran before the episode was resolved, written after. *)
Definition late_verification : dict :=
  [("episode_id", VStr "ep1"); ("rule", VStr "catchup"); ("result", VStr "fail"); ("idem_key", VStr "k30")].
Definition late_verified_store : store :=
  (verification_write (demo_env "u30") (mkCtx "store" "verifier" 1000 1) late_verification closed_store).2.

Definition state_of (s : store) (k : string) : option string := dget (s_records s) k ≫= r_state.

Lemma started_reachable : reachable started_store.
Proof. apply serve_requests. vm_compute. reflexivity. Qed.
Lemma signalled_from_started : rtc srequest started_store signalled_store.
Proof. apply serve_requests. vm_compute. reflexivity. Qed.
Lemma opened_from_signalled : rtc srequest signalled_store opened_store.
Proof. apply serve_requests. vm_compute. reflexivity. Qed.
Lemma opened_reachable : reachable opened_store.
Proof. unfold reachable. etrans; [apply started_reachable|]. etrans; [apply signalled_from_started | apply opened_from_signalled]. Qed.
Lemma diagnosed_from_opened : rtc srequest opened_store diagnosed_store.
Proof. apply serve_requests. vm_compute. reflexivity. Qed.
Lemma diagnosed_reachable : reachable diagnosed_store.
Proof. unfold reachable. etrans; [apply opened_reachable | apply diagnosed_from_opened]. Qed.
Lemma judged_reachable : reachable judged_store.
Proof. unfold reachable. etrans; [apply diagnosed_reachable|]. apply serve_requests. vm_compute. reflexivity. Qed.
Lemma closed_from_judged : rtc srequest judged_store closed_store.
Proof. apply serve_requests. vm_compute. reflexivity. Qed.
Lemma closed_reachable : reachable closed_store.
Proof. unfold reachable. etrans; [apply judged_reachable | apply closed_from_judged]. Qed.

Lemma late_from_closed : rtc srequest closed_store late_store.
Proof. apply serve_requests. vm_compute. reflexivity. Qed.

Lemma reopened_reachable : reachable reopened_store.
Proof. unfold reachable. etrans; [apply opened_reachable|]. apply serve_requests. vm_compute. reflexivity. Qed.

Example run_states :
  map (λ s, state_of s "ep1") [opened_store; diagnosed_store; judged_store; closed_store; late_store] =
  [Some "diagnosing"; Some "recommending"; Some "reporting"; Some "resolved"; Some "resolved"].
Proof. vm_compute. reflexivity. Qed.
