(* ===== verification/StoreProps.v ===== *)
(** * Properties of the episode store

    What every reachable store satisfies, whatever the sequence of requests at
    its endpoints, of restarts and of lock interleavings. *)
From S2P Require Import Prelude PyVal Schema Canonical Tools Transitions Tokens Rpc Fold Store StoreSpec StoreInv.

(** ** The log only grows *)
Lemma sstep_prefix s l s' : sstep s l s' → s_entries s `prefix_of` s_entries s'.
Proof. intros []; cbn; [by eexists | by eexists | done]. Qed.

Lemma requests_prefix s s' : inv s → rtc srequest s s' → s_entries s `prefix_of` s_entries s'.
Proof.
  intros Hinv Hs. induction Hs as [|s s1 s' H Hs IH]; [done|].
  etrans; [|apply IH; by eapply srequest_inv].
  apply srequest_step in H as [[l Hl%sstep_prefix]|[-> _]]; done.
Qed.

(** ** Retries *)
(** The log holds the answer [res] to the request with key [key] on episode [k]. *)
Definition logged (s : store) (k key : string) (res : val) : Prop :=
  ∃ row, find_idem (s_entries s) k key = Some row ∧ w_result row = res ∧ res ≠ VNone.

Lemma find_first_app {A} (f : A → bool) l1 l2 x : find_first f l1 = Some x → find_first f (l1 ++ l2) = Some x.
Proof. induction l1 as [|y l1 IH]; cbn; [done|]. by destruct (f y). Qed.
Lemma find_first_snoc {A} (f : A → bool) l x : find_first f l = None → f x = true → find_first f (l ++ [x]) = Some x.
Proof. induction l as [|y l IH]; cbn; [by intros _ ->|]. by destruct (f y). Qed.

Lemma logged_requests s s' k key res : inv s → rtc srequest s s' → logged s k key res → logged s' k key res.
Proof.
  intros Hinv Hs (row & Hrow & Hres). apply requests_prefix in Hs as [rows Hrows]; [|done].
  exists row. split; [|done]. unfold find_idem in *. rewrite Hrows. by apply find_first_app.
Qed.

Lemma append_logged v rec b who session key result s res s' :
  append v rec b who session key result s = (Ok res, s') → result ≠ VNone → logged s' (r_episode_id rec) key res.
Proof.
  intros H Hres. apply append_run in H as [[[? ?] _]|(bundle & aref & Hok & _ & _ & Hi & _ & ->)]; [done|].
  destruct (apply_error b); [done|]. injection Hok as <-.
  unfold logged, find_idem, appended. cbn. erewrite find_first_snoc; [by eexists| |].
  - apply find_first_None. intros r Hr. destruct (String.eqb_spec (e_episode r) (r_episode_id rec)); [|done].
    by apply String.eqb_neq, Hi.
  - cbn. by rewrite !String.eqb_refl.
Qed.

Lemma once_Ok k key body s prior s0 res s' :
  idem k key s = (Ok prior, s0) → unless_prior prior body s0 = (Ok res, s') →
  logged s' k (str_of key) res ∨ (s0 = s ∧ body s = (Ok res, s')).
Proof.
  intros H Hb. apply idem_Ok in H as (x & -> & -> & Hp).
  apply unless_prior_run in Hb as [(Hne & [= ->] & ->)|[_ ?]]; [left | by right].
  cbn. destruct (find_idem _ k x) as [row|] eqn:Hrow; [|congruence]. subst prior. by exists row.
Qed.

Lemma once_again k key body s res r s' :
  logged s k (str_of key) res → (prior ← idem k key; unless_prior prior body) s = (r, s') →
  s' = s ∧ ∀ x, r = Ok x → x = res.
Proof.
  intros (row & Hrow & Hres & Hne) H.
  apply bind_readonly in H as [(? & _ & -> & ->)|(prior & Hp & H)]; [by split| |auto with valops].
  apply idem_Ok in Hp as (x & -> & _ & Hp). cbn in Hrow. rewrite Hrow in Hp. subst prior.
  apply unless_prior_run in H as [(_ & -> & ->)|[? _]]; [|congruence].
  split; [done|]. intros x' [= <-]. done.
Qed.

(** A handler whose effect is recorded under its request's key. *)
Record once (h : env → Ctx → dict → SM val) (key : dict → val) : Prop := {
  once_first : ∀ v ctx p s res s', keyed s → h v ctx p s = (Ok res, s') →
    ∃ k, dget_none p "episode_id" = VStr k ∧ logged s' k (str_of (key p)) res;
  once_next : ∀ v ctx p s k res r s', keyed s → dget_none p "episode_id" = VStr k →
    logged s k (str_of (key p)) res → h v ctx p s = (r, s') → s' = s ∧ ∀ x, r = Ok x → x = res;
}.

Definition idem_key (p : dict) : val := dget_none p "idem_key".

(** The episode a handler read its record from. *)
Ltac find_record :=
  match goal with
  | H : agent_gate _ _ _ _ _ = (Ok _, _) |- _ => apply agent_gate_Ok in H as (k' & Hid & Hk & Hst & _)
  | H : get_record _ _ = (Ok _, _) |- _ => apply get_record_Ok in H as (k' & Hid & Hk & Hst)
  end; subst.
Ltac first_time H :=
  let Hrid := fresh "Hrid" in minv H; find_record; match goal with Hky : keyed _, Hk : dget _ _ = Some _ |- _ => pose proof (Hky _ _ Hk) as Hrid end;
  eexists; split; [done|]; rewrite <- Hrid;
  match goal with Hi : idem _ _ _ = _ |- _ =>
    apply (once_Ok _ _ _ _ _ _ _ _ Hi) in H as [H|[-> H]]; [exact H|]; minv H; by eapply append_logged end.
Ltac next_time H :=
  repeat (lazymatch type of H with (idem _ _ ≫= _) _ = _ => fail | _ => ro1 H ltac:(by split) end);
  find_record; match goal with Hky : keyed _, Hk : dget _ _ = Some _ |- _ => pose proof (Hky _ _ Hk) end;
  match goal with H1 : ?x = VStr ?a, H2 : ?x = VStr ?b |- _ => assert (a = b) by congruence end;
  subst; eapply once_again in H; eassumption.

Ltac once_handler h :=
  split; intros *; intros Hky;
  [ intros H; unfold h in H; first_time H | intros Hk0 Hlog H; unfold h in H; next_time H ].

Lemma append_hypothesis_once : once append_hypothesis idem_key.
Proof. once_handler append_hypothesis. Qed.
Lemma append_hypothesis_status_once : once append_hypothesis_status idem_key.
Proof. once_handler append_hypothesis_status. Qed.
Lemma append_recommendation_once : once append_recommendation idem_key.
Proof. once_handler append_recommendation. Qed.
Lemma append_no_action_once : once append_no_action idem_key.
Proof. once_handler append_no_action. Qed.
Lemma append_verdict_once : once append_verdict idem_key.
Proof. once_handler append_verdict. Qed.
Lemma append_report_once : once append_report idem_key.
Proof. once_handler append_report. Qed.

Definition state_key (p : dict) : val :=
  py_or (dget_none p "idem_key") (VStr ("state:" +:+ py_str (dget_none p "expected_revision") +:+ ":" +:+ py_str (dget_none p "state"))).
Lemma set_state_once : once set_state state_key.
Proof. once_handler set_state. Qed.

Lemma append_signal_once who session : once (λ v ctx p, append_signal v ctx p who session) idem_key.
Proof. once_handler append_signal. Qed.
Lemma simple_once b : once (λ v ctx p, simple v ctx p b) idem_key.
Proof. once_handler simple. Qed.

(** A handler that first checks its request, then runs one of the above. *)
Tactic Notation "once_guarded" constr(h) uconstr(base) :=
  split; intros *; intros Hky;
  [ intros H; unfold h in H; minv H; subst; exact (once_first _ _ base _ _ _ _ _ _ Hky H)
  | intros Hk0 Hlog H; unfold h in H; repeat ro1 H ltac:(by split); subst;
    exact (once_next _ _ base _ _ _ _ _ _ _ _ Hky Hk0 Hlog H) ].

Lemma append_cost_once : once append_cost idem_key.
Proof. once_guarded append_cost (simple_once _). Qed.
Lemma append_step_once : once append_step idem_key.
Proof. once_guarded append_step (simple_once _). Qed.
Lemma annotate_once : once annotate idem_key.
Proof. once_guarded annotate (simple_once _). Qed.
Lemma append_recovery_observation_once : once append_recovery_observation idem_key.
Proof. once_guarded append_recovery_observation (simple_once _). Qed.
Lemma verifier_set_state_once : once verifier_set_state state_key.
Proof. once_guarded verifier_set_state set_state_once. Qed.
Lemma append_verification_once : once append_verification idem_key.
Proof.
  pose proof readonly_verification_precheck as Hpre.
  split; intros *; intros Hky; unfold append_verification, verification_write.
  - intros (u & s1 & H1 & H)%bind_Ok. apply readonly_at in H1; [|done]. subst.
    exact (once_first _ _ (simple_once _) _ _ _ _ _ _ Hky H).
  - intros Hk0 Hlog [(e & _ & -> & ->)|(u & H1 & H)]%bind_readonly; [done| |done].
    exact (once_next _ _ (simple_once _) _ _ _ _ _ _ _ _ Hky Hk0 Hlog H).
Qed.
Lemma append_observation_once : once append_observation idem_key.
Proof.
  split; intros *; intros Hky; unfold append_observation; intros H.
  - minv H. find_record. exact (once_first _ _ (append_signal_once _ _) _ _ _ _ _ _ Hky H).
  - intros Hlog H'. repeat ro1 H' ltac:(by split).
    exact (once_next _ _ (append_signal_once _ _) _ _ _ _ _ _ _ _ Hky H Hlog H').
Qed.

(** ** Idempotence of whole requests *)
(** [done_ p s res]: the store holds the answer to a request with parameters [p]. *)
Record idempotent (h : env → Ctx → dict → SM val) (done_ : dict → store → val → Prop) : Prop := {
  ip_first : ∀ v ctx p s res s', inv s → h v ctx p s = (Ok res, s') → done_ p s' res;
  ip_next : ∀ v ctx p s res r s', inv s → done_ p s res → h v ctx p s = (r, s') → s' = s ∧ ∀ x, r = Ok x → x = res;
  ip_stable : ∀ p s s' res, inv s → rtc srequest s s' → done_ p s res → done_ p s' res;
}.

Definition done_keyed (key : dict → val) (p : dict) (s : store) (res : val) : Prop :=
  ∃ k, dget_none p "episode_id" = VStr k ∧ logged s k (str_of (key p)) res.

Lemma once_idempotent h key : once h key → idempotent h (done_keyed key).
Proof.
  intros [Hf Hn]. split.
  - intros v ctx p s res s' Hinv H. eapply Hf; [by apply inv_keyed | done].
  - intros v ctx p s res r s' Hinv (k & Hk & Hlog) H. eapply Hn; [by apply inv_keyed | done..].
  - intros p s s' res Hinv Hs (k & Hk & Hlog). exists k. split; [done|]. by eapply logged_requests.
Qed.

Definition done_open (p : dict) (s : store) (res : val) : Prop :=
  ∃ o, find_first (λ o, String.eqb (op_idem o) (str_of (dget_none p "idem_key"))) (s_opens s) = Some o ∧ op_result o = res.

Lemma srequest_opens s s' : inv s → srequest s s' → s_opens s `prefix_of` s_opens s'.
Proof.
  intros Hinv Hs.
  assert (∀ l, sstep s l s' → s_opens s `prefix_of` s_opens s') as Hstep by (intros l []; cbn; [done | by eexists | by eexists]).
  destruct Hs as [v uids ep uid pid line resp s' Hep Hu H | v ctx p r s' H | s' H]; [| |by apply restart_Ok in H as ->].
  - eapply handle_refined in H as [->|(l & Hl & _)]; eauto. by apply inv_keyed.
  - apply verification_write_refined in H as [->|(l & Hl & _)]; eauto. by apply inv_keyed.
Qed.
Lemma requests_opens s s' : inv s → rtc srequest s s' → s_opens s `prefix_of` s_opens s'.
Proof.
  intros Hinv Hs. induction Hs as [|s s1 s' H Hs IH]; [done|].
  etrans; [by apply srequest_opens|]. apply IH. by eapply srequest_inv.
Qed.

Lemma insert_open_last o u s s' :
  insert_open o s = (Ok u, s') → find_first (λ o', String.eqb (op_idem o') (op_idem o)) (s_opens s') = Some o.
Proof.
  intros H. unfold insert_open in H. minv H. bools. rewrite existsb_false in Hreq. cbv [put_state] in H.
  injection H as _ <-. cbn. apply find_first_snoc; [by apply find_first_None | apply String.eqb_refl].
Qed.

Lemma open_episode_idempotent : idempotent open_episode done_open.
Proof.
  split.
  - intros v ctx p s res s' _ H. unfold open_episode, done_open in *. minv H.
    destruct (find_first _ (s_opens _)) as [o|] eqn:Ho; minv H; [by eauto|].
    destruct (find_first (dedupe_matches _) _); minv H; subst;
      match goal with H : insert_open _ _ = _ |- _ => apply insert_open_last in H end; eexists; (split; [eassumption | done]).
  - intros v ctx p s res r s' _ (o & Ho & <-) H. unfold open_episode in H. ro H ltac:(by split). subst.
    rewrite Ho in H. cbv [mret M_ret] in H. injection H as <- <-. split; [done|]. by intros x [= ->].
  - intros p s s' res Hinv Hs (o & Ho & Hres). apply requests_opens in Hs as [os Hos]; [|done].
    exists o. split; [|done]. rewrite Hos. by apply find_first_app.
Qed.

(** The methods that write, by endpoint. *)
Definition write_method (endpoint name : string) : option (env → Ctx → dict → SM val) :=
  match endpoint with
  | "store-agent" =>
      dget [("append_hypothesis", append_hypothesis); ("append_hypothesis_status", append_hypothesis_status);
            ("append_recommendation", append_recommendation); ("append_no_action", append_no_action);
            ("append_verdict", append_verdict)] name
  | "store-agent-report" => dget [("append_report", append_report)] name
  | "store-control" =>
      dget [("open_episode", open_episode); ("set_state", set_state);
            ("append_signal", λ v ctx p, append_signal v ctx p None VNone); ("append_cost", append_cost);
            ("append_step", append_step); ("annotate", annotate)] name
  | "store-verify" =>
      dget [("append_verification", append_verification); ("append_recovery_observation", append_recovery_observation);
            ("set_state", verifier_set_state)] name
  | "store-observe" => dget [("append_observation", append_observation)] name
  | _ => None
  end.

Lemma write_method_idempotent endpoint name h : write_method endpoint name = Some h → ∃ done_, idempotent h done_.
Proof.
  assert (∀ h key, once h key → ∃ done_, idempotent h done_) as Hone by (intros; eexists; by apply once_idempotent).
  unfold write_method. intros H.
  repeat match type of H with context [match ?x with _ => _ end] => destruct x; cbn in H; try done end;
    simplify_eq;
    first [ eexists; exact open_episode_idempotent
          | eapply Hone; first [ exact append_hypothesis_once | exact append_hypothesis_status_once
              | exact append_recommendation_once | exact append_no_action_once | exact append_verdict_once
              | exact append_report_once | exact set_state_once | exact (append_signal_once None VNone) | exact append_cost_once
              | exact append_step_once | exact annotate_once | exact append_verification_once
              | exact append_recovery_observation_once | exact verifier_set_state_once | exact append_observation_once ] ].
Qed.

Definition replied (h : Ctx → dict → SM val) : Ctx → dict → M store exn reply := λ ctx p, x ← h ctx p; mret (ReplyVal x).

(** A method of an endpoint is one of the writes, or replies with a reading. *)
Lemma methods_table v uids ep name fn :
  ep ∈ endpoints v uids → dget (ep_methods ep) name = Some fn →
  match write_method (ep_name ep) name with
  | Some h => fn = replied (h v)
  | None => ∀ ctx p s r s', fn ctx p s = (Ok r, s') → ∀ x, r ≠ ReplyVal x
  end.
Proof.
  unfold endpoints. rewrite !elem_of_cons, elem_of_nil. intros Hep Hfn.
  repeat destruct Hep as [->|Hep]; [..|done]; cbn in Hfn; cbn;
    repeat match goal with
    | H : context [String.eqb ?a ?b] |- _ => destruct (String.eqb a b); cbn in *
    end; simplify_eq; try done;
    intros ctx p s r s' (y & s1 & _ & Hret)%bind_Ok x; cbv [mret M_ret] in Hret; by simplify_eq.
Qed.

Lemma replied_run h ctx p s r s' : replied h ctx p s = (r, s') →
  (∃ x, r = Ok (ReplyVal x) ∧ h ctx p s = (Ok x, s')) ∨ (∃ e, r = Err e ∧ h ctx p s = (Err e, s')).
Proof. unfold replied, mbind, M_bind. destruct (h ctx p s) as [[x|e] s1]; intros H; injection H as <- <-; eauto. Qed.

(** ** What follows from the invariant *)
Lemma walk_last hs st : walk hs st → ∃ hs' h, hs = hs' ++ [h] ∧ sh_to h = st.
Proof. intros []; [by eexists [], _ | by eexists _, _]. Qed.

Lemma walk_resolved hs : walk hs "resolved" →
  ∃ hs' h, hs = hs' ++ [h] ∧ sh_to h = "resolved" ∧ sh_by h = "verifier" ∧ sh_from h = Some "awaiting_operator".
Proof.
  intros H. remember "resolved" as st eqn:Hst. destruct H as [|hs st ts to by_ rev why Hw Ha Hrev]; [done|].
  subst to. apply allowed_resolved in Ha as [-> ->]. by eexists _, _.
Qed.

(** What no entry changes once the episode is terminal. *)
Record frozen (rec rec' : record) : Prop := {
  fz_state : r_state rec' = r_state rec;
  fz_history : r_history rec' = r_history rec;
  fz_signals : r_signals rec' = r_signals rec;
  fz_hypotheses : r_hypotheses rec' = r_hypotheses rec;
  fz_artefacts : artefacts rec' = artefacts rec;
  fz_verdicts : r_verdicts rec' = r_verdicts rec;
}.
#[global] Instance frozen_preorder : PreOrder frozen.
Proof. split; [by intros rec|]. intros r1 r2 r3 [] []. split; congruence. Qed.

Lemma apply_frozen rec principal session b k rev ts bundle aref :
  terminal (r_state rec) = true → legal rec principal session b →
  frozen rec (apply rec (mkEntry k rev ts b principal session bundle aref)).
Proof.
  intros Ht Hl. destruct b; try done; destruct Hl as [Hs Hl]; try (rewrite Hs in Ht; done).
  destruct Hl as (f & Hf & Ha%allowed_from_nonterminal). unfold terminal in Ht. by rewrite Hf, Ha in Ht.
Qed.

(** A request keeps every record, and freezes the terminal ones. *)
Lemma srequest_record s s' k rec : inv s → srequest s s' → dget (s_records s) k = Some rec →
  ∃ rec', dget (s_records s') k = Some rec' ∧ (r_revision rec ≤ r_revision rec')%Z ∧
    (terminal (r_state rec) = true → frozen rec rec').
Proof.
  intros Hinv Hs Hk. apply srequest_step in Hs as [[l Hl]|[_ Hget]]; [|exists rec; rewrite Hget; by split_and!|done].
  destruct Hl as [k' rec' b ts principal session bundle aref idem result Hk' Hid Hb Hi Hr Hl
    |eid o ts principal aref idem result Hk' Hi Hr Hdup Hc Hm|]; [| |by exists rec].
  - destruct (decide (k' = k)) as [->|Hne].
    + assert (rec' = rec) as -> by congruence. eexists. split; [cbn; rewrite Hid; apply dget_dset_eq|]. split.
      * rewrite apply_revision. cbn. lia.
      * intros Ht. by eapply apply_frozen.
    + exists rec. split; [|by split]. cbn. rewrite Hid, dget_dset_ne by done. done.
  - exists rec. split; [|by split]. cbn. rewrite dget_dset_ne; [done|]. intros ->. congruence.
Qed.

Lemma requests_record s s' k rec : inv s → rtc srequest s s' → dget (s_records s) k = Some rec →
  ∃ rec', dget (s_records s') k = Some rec' ∧ (r_revision rec ≤ r_revision rec')%Z ∧
    (terminal (r_state rec) = true → frozen rec rec').
Proof.
  intros Hinv Hs. revert rec. induction Hs as [s|s s1 s' H Hs IH]; intros rec Hk; [by exists rec|].
  destruct (srequest_record _ _ _ _ Hinv H Hk) as (rec1 & Hk1 & Hr1 & Hf1).
  apply (IH (srequest_inv _ _ Hinv H)) in Hk1 as (rec' & Hk' & Hr' & Hf').
  exists rec'. split_and!; [done|lia|]. intros Ht. pose proof (Hf1 Ht) as Hf. etrans; [done|].
  apply Hf'. by rewrite (fz_state _ _ Hf).
Qed.

(** When the audit service answers, an append with a new key is written, and succeeds when
    it can be folded in. *)
Lemma bindable_none : bindable VNone = Ok tt.
Proof. done. Qed.
Lemma append_succeeds v k rec b principal session idem result s aref bundle :
  inv s → dget (s_records s) k = Some rec → find_idem (s_entries s) k idem = None → audit_of v = Some aref →
  bindable session = Ok tt → r_bundle_id rec = Some bundle →
  append v rec b principal session idem result s =
    (match apply_error b with Some x => Err x | None => Ok result end,
     appended s (s_records s) rec (mkEntry k (r_revision rec + 1) (v_now v) b principal session bundle aref) idem result (s_opens s)).
Proof.
  intros Hinv Hk Hidem Haud Hsess Hb. pose proof (inv_keyed _ Hinv _ _ Hk) as Hid. subst k.
  unfold append, audit_of in *. unfold mbind at 1, M_bind at 1.
  assert (∀ X, match v_audit v with
               | Some (Ok r) => mret (audit_ref_of r)
               | Some (Err (RpcError _ _)) => raise (rpc_error "audit_unavailable")
               | Some (Err e) => raise e
               | None => mret "audit:none"
               end X = (Ok (E := exn) aref, X : store)) as -> by (intros; destruct (v_audit v) as [[]|]; cbv [mret M_ret]; congruence).
  rewrite Hb. cbn. unfold insert_row. cbn. unfold lift, mbind, M_bind. rewrite Hsess. cbv [get_state require put_state].
  replace (existsb _ _) with false; [by destruct (apply_error b)|]. symmetry. apply existsb_false. intros r Hr.
  destruct (String.eqb_spec (e_episode r) (r_episode_id rec)) as [He|]; [|done]. cbn.
  unfold find_idem in Hidem. rewrite find_first_None in Hidem. specialize (Hidem r Hr).
  rewrite He, String.eqb_refl in Hidem. cbn in Hidem. rewrite Hidem, orb_false_r.
  apply Z.eqb_neq. intros Hrev. pose proof (inv_revision _ Hinv _ _ Hk) as Hlen.
  pose proof (inv_revs _ Hinv (r_episode_id rec)) as Hrevs. unfold revs_from_one in Hrevs.
  assert (e_rev r ∈ map (λ r : row, e_rev r) (entries_of (r_episode_id rec) (s_entries s))) as Hin.
  { apply (list_elem_of_fmap_2 (λ r : row, e_rev r) _ r). by apply entries_of_elem. }
  rewrite Hrevs in Hin. apply list_elem_of_In, in_map_iff in Hin as (n & Hn & [_ Hle]%in_seq). lia.
Qed.

(** ** The agents' gate *)
Definition agent_ops : list (string * (env → Ctx → dict → SM val)) :=
  [("append_hypothesis", append_hypothesis); ("append_hypothesis_status", append_hypothesis_status);
   ("append_recommendation", append_recommendation); ("append_no_action", append_no_action);
   ("append_verdict", append_verdict); ("append_report", append_report)].

Lemma agent_gate_token v ctx op p s cap rec s' :
  agent_gate v ctx op p s = (Ok (cap, rec), s') →
  token_carries (v_gate v) (v_now v) (dget_none p "token") (dget_none p "episode_id") VNone cap ∧
  py_eq (c_bundle_id cap) (opt_str (r_bundle_id rec)) = true.
Proof.
  intros H. unfold agent_gate in H. minv H. subst.
  destruct (AGENT_OPS op ≫= TOOLS_BY_NAME); minv H; simplify_eq; (split; [by apply check_token_carries | done]).
Qed.

Ltac gated H := apply bind_readonly in H as [(? & ? & ? & ?)|([cap rec] & Hg & _)]; [done|eauto|auto with valops].
(** An agent's write that changes the store passed the gate. *)
Lemma agent_op_gated op h v ctx p s r s' : (op, h) ∈ agent_ops → h v ctx p s = (r, s') → s' ≠ s →
  ∃ cap rec, agent_gate v ctx op p s = (Ok (cap, rec), s).
Proof.
  intros Hop H Hne. unfold agent_ops in Hop. rewrite !elem_of_cons, elem_of_nil in Hop.
  repeat destruct Hop as [[= -> ->]|Hop]; try done; try (by gated H).
  unfold append_report in H. ro1 H ltac:(done). by gated H.
Qed.

(** ** What the judge sees *)
(** Records the judge cannot tell apart: equal but for the hypotheses, the verdicts,
    reports, costs, steps, annotations, the log position, and the session that
    produced the artefact under judgement. *)
Record judge_equiv (r1 r2 : record) : Prop := {
  je_id : r_episode_id r1 = r_episode_id r2;
  je_class : r_class r1 = r_class r2;
  je_trigger : r_trigger r1 = r_trigger r2;
  je_state : r_state r1 = r_state r2;
  je_bundle : r_bundle_id r1 = r_bundle_id r2;
  je_mode : r_consensus_mode r1 = r_consensus_mode r2;
  je_evidence : r_consensus_mode_evidence r1 = r_consensus_mode_evidence r2;
  je_signals : r_signals r1 = r_signals r2;
  je_artefact : strip_artefact <$> under_judgement r1 = strip_artefact <$> under_judgement r2;
  je_verifications : r_verifications r1 = r_verifications r2;
  je_recovery : r_recovery r1 = r_recovery r2;
}.
#[global] Instance judge_equiv_equivalence : Equivalence judge_equiv.
Proof.
  split; [by intros r|intros r1 r2 []; split; congruence|].
  intros r1 r2 r3 [] []. split; congruence.
Qed.

#[global] Instance judge_view_proper : Proper (judge_equiv ==> eq ==> eq) judge_view.
Proof.
  intros r1 r2 [] skills ? <-. unfold judge_view.
  destruct (under_judgement r1) as [[a1|a1]|], (under_judgement r2) as [[a2|a2]|]; cbn in *; simplify_eq; f_equal; congruence.
Qed.

Definition hidden_kinds : list string :=
  ["hypothesis"; "hypothesis_status"; "verdict"; "report"; "cost"; "step"; "annotation"].

Lemma apply_judge_equiv rec e : kind_of (e_body e) ∈ hidden_kinds → judge_equiv (apply rec e) rec.
Proof.
  intros Hk%str_in_spec. unfold apply. destruct (e_body e); try discriminate Hk; by split.
Qed.

(** Freshness, decided. *)
Lemma fresh_idem_check s k idem :
  existsb (λ r : row, String.eqb (w_idem r) idem) (s_entries s) = false → record_fresh_idem s k idem.
Proof. rewrite existsb_false. intros H r Hr _. by apply String.eqb_neq, H. Qed.
Lemma fresh_rev_check s k rev n :
  rev = n → existsb (λ r : row, (e_rev r =? n)%Z) (s_entries s) = false → record_fresh_rev s k rev.
Proof. intros ->. rewrite existsb_false. intros H r Hr _. by apply Z.eqb_neq, H. Qed.
