(* ===== verification/StoreClaims.v ===== *)
(** * The episode store's guarantees

    Each theorem quantifies over every reachable store: any requests at the
    endpoints, restarts, and the lock interleaving of [append_verification].
    The witnesses instantiate them at the stores of [Scenario]. *)
From S2P Require Import Prelude PyVal Schema Canonical Tools Transitions Tokens Rpc Fold Store StoreSpec StoreInv Scenario StoreProps.

(** The endpoint of a principal, in an environment. *)
Definition ep_of (v : env) (principal : string) : Endpoint store reply :=
  default (mkEndpoint "" "" [] []) (endpoint_of v principal).
Lemma ep_of_elem v principal :
  match endpoint_of v principal with Some _ => true | None => false end = true → ep_of v principal ∈ endpoints v uids.
Proof.
  unfold ep_of. destruct (endpoint_of _ _) as [ep|] eqn:H; [|done]. intros _.
  by apply find_first_Some in H as [H _].
Qed.
Definition demo_endpoint (uuid : string) : string → Endpoint store reply := ep_of (demo_env uuid).
Definition demo_endpoint_elem (uuid principal : string) := ep_of_elem (demo_env uuid) principal.
Definition demo_record (s : store) : record := default (empty_record "none") (dget (s_records s) "ep1").

(** C1: refinement. Every request at every endpoint of a reachable store leaves it
    unchanged, or is exactly one step of the abstract store: a legal entry, a new episode
    or a repeated open, referenced by the audit service's answer, and of a kind the
    endpoint's principal may cause. A request that took a step is answered with a result,
    but for the charge of an integer that is no float, which is answered with an error. *)
Theorem store_refines_contract v uids ep uid pid line s resp s' :
  reachable s → ep ∈ endpoints v uids → dget (s_records s) (v_uuid v) = None →
  handle ep uid pid line s = (resp, s') →
  s' = s ∨ ∃ l, sstep s l s' ∧ audited v l ∧ succeeded resp = answered_ok l ∧ may_write (ep_principal ep) l.
Proof. intros Hr Hep. apply (handle_refined v uids); [done|]. by apply inv_keyed, reachable_inv. Qed.

Lemma store_refines_contract_witness :
  let out := handle (demo_endpoint "u4" "episode_broker") 1000 1
               (Some (q_line (agent_call 4 "diagnostician" "sess1" "append_hypothesis" hypothesis_params))) opened_store in
  length (s_entries out.2) = S (length (s_entries opened_store)) ∧
  (out.2 = opened_store ∨ ∃ l, sstep opened_store l out.2 ∧ audited (demo_env "u4") l ∧ succeeded out.1 = answered_ok l ∧
     may_write (ep_principal (demo_endpoint "u4" "episode_broker")) l).
Proof.
  intros out. split; [vm_compute; reflexivity|].
  apply (store_refines_contract _ _ _ _ _ _ _ _ _ opened_reachable
           (demo_endpoint_elem "u4" "episode_broker" eq_refl) eq_refl (surjective_pairing out)).
Defined.

(** C9: roundtrip. Rebuilding the records from the rows, as a restarted process does,
    keeps the tables and gives for every episode the record that was held in memory. It
    fails exactly when a row charges an integer that is no float. *)
Theorem restart_recovers s : reachable s →
  match restart s with
  | Ok s' => s_entries s' = s_entries s ∧ s_opens s' = s_opens s ∧ ∀ k, dget (s_records s') k = dget (s_records s) k
  | Err e => e = PyExc "OverflowError"
  end ∧
  ((∃ s', restart s = Ok s') ↔ ∀ (r : row) c, r ∈ s_entries s → e_body r = BCost c → no_float (co_usd c) = false).
Proof.
  intros Hinv%reachable_inv. split.
  - destruct (restart s) as [s'|e] eqn:Hr.
    + split_and!; [by apply restart_Ok in Hr as ->..|]. intros k. by apply restart_get.
    + rewrite restart_run in Hr. destruct (forallb _ _); [done|]. by injection Hr.
  - rewrite restart_run. destruct (forallb foldable (s_entries s)) eqn:E.
    + split; [|by eauto]. intros _ r c Hr Hb. rewrite forallb_forall in E. apply list_elem_of_In, E in Hr.
      unfold foldable in Hr. rewrite Hb in Hr. cbn in Hr. by destruct (no_float _).
    + split; [by intros [? ?]|]. intros H. exfalso. apply not_true_iff_false in E. apply E, forallb_forall. intros r Hr%list_elem_of_In.
      unfold foldable. destruct (apply_error (e_body r)) as [x|] eqn:Ex; [|done].
      apply apply_error_inv in Ex as (_ & c & Hb & Hn). by rewrite (H r c Hr Hb) in Hn.
Qed.

Definition restarted_store : store := match restart closed_store with Ok s => s | Err _ => init_store end.
Lemma closed_restarts : restart closed_store = Ok restarted_store.
Proof. vm_compute. reflexivity. Qed.
Lemma restart_recovers_witness :
  reachable closed_store ∧ state_of restarted_store "ep1" = Some "resolved" ∧
  match restart closed_store with
  | Ok s' => s_entries s' = s_entries closed_store ∧ s_opens s' = s_opens closed_store ∧ ∀ k, dget (s_records s') k = dget (s_records closed_store) k
  | Err e => e = PyExc "OverflowError"
  end.
Proof.
  split; [apply closed_reachable|]. split; [vm_compute; reflexivity|].
  destruct (restart_recovers closed_store closed_reachable) as [H _]. exact H.
Defined.

(** An episode's record is the fold of its own rows, when that does not raise; their
    revisions are 1, 2, ..., n and n is the record's revision; no two share an idempotency key. *)
Theorem record_is_fold_of_log s k rec :
  reachable s → dget (s_records s) k = Some rec →
  (fold (map w_entry (entries_of k (s_entries s))) = Ok rec ∨ forallb foldable (s_entries s) = false) ∧
  map (λ r : row, e_rev r) (entries_of k (s_entries s)) = map Z.of_nat (seq 1 (length (entries_of k (s_entries s)))) ∧
  r_revision rec = Z.of_nat (length (entries_of k (s_entries s))) ∧
  NoDup (map (λ r : row, w_idem r) (entries_of k (s_entries s))).
Proof.
  intros Hinv%reachable_inv Hk. split_and!.
  - pose proof (inv_replay _ Hinv k) as Hrep. rewrite Hk in Hrep. unfold replay, fold in *.
    destruct (entries_of k (s_entries s)) as [|r rows] eqn:Hrows; [done|]. injection Hrep as Hrep. cbn.
    assert (e_episode r = k) as ->. { apply (entries_of_elem k (s_entries s) r). rewrite Hrows. left. }
    destruct (forallb foldable (s_entries s)) eqn:Hf; [left|by right]. rewrite forallb_forall in Hf.
    assert (∀ x : row, x ∈ r :: rows → apply_error (e_body x) = None) as Hok.
    { intros x Hx. rewrite <- Hrows in Hx. apply entries_of_elem in Hx as [Hx _]. apply list_elem_of_In, Hf in Hx.
      unfold foldable in Hx. by destruct (apply_error _). }
    subst rec. clear - Hok. change (apply_all (empty_record k) (map w_entry (r :: rows)) = Ok (fold_left (λ rec (r : row), apply rec r) (r :: rows) (empty_record k))).
    generalize (empty_record k). induction (r :: rows) as [|x l IH]; intros rec; [done|]. cbn. unfold applies. rewrite Hok by left.
    apply IH. intros y Hy. apply Hok. by right.
  - by apply inv_revs.
  - by apply inv_revision.
  - by apply inv_idem.
Qed.

Lemma record_is_fold_of_log_witness :
  reachable closed_store ∧
  (fold (map w_entry (entries_of "ep1" (s_entries closed_store))) = Ok (demo_record closed_store) ∨ forallb foldable (s_entries closed_store) = false).
Proof.
  split; [apply closed_reachable|].
  apply (record_is_fold_of_log closed_store "ep1" (demo_record closed_store));
    [apply closed_reachable | vm_compute; reflexivity].
Defined.

(** C2: safety. An episode's history walks the transition tables from [open] to its
    current state, every move by a principal whose table has it, with growing
    revisions; and [resolved] is only ever entered by the verifier from
    [awaiting_operator]. No approval and no execution is ever recorded. *)
Theorem history_walks_tables s k rec :
  reachable s → dget (s_records s) k = Some rec →
  (∃ st, r_state rec = Some st ∧ walk (r_history rec) st) ∧
  (r_state rec = Some "resolved" → ∃ hs h, r_history rec = hs ++ [h] ∧
     sh_to h = "resolved" ∧ sh_by h = "verifier" ∧ sh_from h = Some "awaiting_operator") ∧
  r_approvals rec = [] ∧ r_executions rec = [].
Proof.
  intros Hinv%reachable_inv Hk. pose proof (inv_wf _ Hinv _ _ Hk) as Hwf.
  destruct (wf_walk _ Hwf) as (st & Hst & Hw). split_and!; [eauto| |apply (wf_none _ Hwf)..].
  rewrite Hst. intros [= ->]. by apply walk_resolved.
Qed.

Lemma history_walks_tables_witness :
  reachable closed_store ∧ ∃ hs h, r_history (demo_record closed_store) = hs ++ [h] ∧
    sh_to h = "resolved" ∧ sh_by h = "verifier" ∧ sh_from h = Some "awaiting_operator".
Proof.
  split; [apply closed_reachable|].
  apply (history_walks_tables closed_store "ep1" (demo_record closed_store));
    [apply closed_reachable | vm_compute; reflexivity | vm_compute; reflexivity].
Defined.

(** A terminal episode is frozen: no later request, restart or
    interleaving changes its state, history, signals, hypotheses, artefacts or
    verdicts. *)
Theorem terminal_is_final s s' k rec :
  reachable s → rtc srequest s s' → dget (s_records s) k = Some rec → terminal (r_state rec) = true →
  ∃ rec', dget (s_records s') k = Some rec' ∧ frozen rec rec'.
Proof.
  intros Hinv%reachable_inv Hs Hk Ht. destruct (requests_record _ _ _ _ Hinv Hs Hk) as (rec' & Hk' & _ & Hf).
  eauto.
Qed.

Lemma terminal_is_final_witness :
  length (s_entries late_store) = S (length (s_entries closed_store)) ∧
  ∃ rec', dget (s_records late_store) "ep1" = Some rec' ∧ frozen (demo_record closed_store) rec'.
Proof.
  split; [vm_compute; reflexivity|].
  apply (terminal_is_final closed_store late_store "ep1" (demo_record closed_store) closed_reachable late_from_closed);
    vm_compute; reflexivity.
Defined.

(** C8: functional. A write request is applied exactly once: repeated any time after
    it succeeded, by any connection, across restarts and whatever happened in
    between, it changes nothing, and if it succeeds its answer is the first one. *)
Theorem retry_applies_once v uids ep uid pid line s1 id res s2 s3 v' uids' ep' uid' pid' resp s4 :
  reachable s1 → ep ∈ endpoints v uids → dget (s_records s1) (v_uuid v) = None →
  handle ep uid pid line s1 = (RespResult id (ReplyVal res), s2) →
  rtc srequest s2 s3 →
  ep' ∈ endpoints v' uids' → ep_name ep' = ep_name ep →
  handle ep' uid' pid' line s3 = (resp, s4) →
  s4 = s3 ∧ ∀ id' x, resp = RespResult id' x → x = ReplyVal res.
Proof.
  intros Hr Hep Hu H Hs Hep' Hname H'. assert (reachable s2) as Hinv2%reachable_inv.
  { unfold reachable in *. eapply rtc_r; [done|]. exact (sreq_handle _ _ _ _ _ _ _ _ _ Hep Hu H). }
  apply reachable_inv in Hr. pose proof (requests_inv _ _ Hinv2 Hs) as Hinv3.
  apply handle_routed in H as [[_ ?]|(name & params & fn & r & _ & Hreq & Hfn & Hrun & Hans)]; [done|].
  apply handle_routed in H' as [[-> Hno]|(name' & params' & fn' & r' & _ & Hreq' & Hfn' & Hrun' & Hans')];
    [split; [done|]; intros id' x ?; by subst resp|].
  rewrite Hreq in Hreq'. injection Hreq' as <- <-.
  apply (methods_table _ _ _ _ _ Hep) in Hfn. apply (methods_table _ _ _ _ _ Hep') in Hfn'. rewrite Hname in Hfn'.
  destruct r as [x|[]]; destruct Hans as [id0 Hid]; simplify_eq.
  destruct (write_method _ _) as [h|] eqn:Hwm; [|by eapply Hfn in Hrun].
  apply write_method_idempotent in Hwm as [done_ [Hfirst Hnext Hstable]]. subst fn fn'.
  apply replied_run in Hrun as [(x & [= <-] & Hrun)|(e & ? & _)]; [|done].
  apply Hfirst in Hrun; [|done]. apply (Hstable _ _ _ _ Hinv2 Hs) in Hrun.
  apply replied_run in Hrun' as [(x & -> & Hrun')|(e & -> & Hrun')];
    eapply Hnext in Hrun' as [-> Hx]; try done; (split; [done|]); intros id' y ->.
  - destruct Hans' as [id1 [= -> ->]]. f_equal. by apply Hx.
  - destruct e; destruct Hans' as [id1 ?]; done.
Qed.

Lemma retry_applies_once_witness :
  let out := handle (demo_endpoint "u9" "controller") 1000 1 (Some (q_line signal_request)) opened_store in
  out.1 = RespResult (VInt 1) (ReplyVal (VDict [("signal_id", VStr "s1")])) ∧ out.2 = opened_store.
Proof.
  intros out. split; [vm_compute; reflexivity|].
  assert (handle (demo_endpoint "u2" "controller") 1000 1 (Some (q_line signal_request)) started_store =
          (RespResult (VInt 1) (ReplyVal (VDict [("signal_id", VStr "s1")])), signalled_store)) as H
    by (vm_compute; reflexivity).
  apply (retry_applies_once _ _ _ _ _ _ _ _ _ _ _ _ _ _ _ _ _ _ started_reachable
           (demo_endpoint_elem "u2" "controller" eq_refl) eq_refl H opened_from_signalled
           (demo_endpoint_elem "u9" "controller" eq_refl) eq_refl (surjective_pairing out)).
Defined.

Lemma get_record_run p s k rec :
  dget_none p "episode_id" = VStr k → dget (s_records s) k = Some rec → get_record (dget_none p "episode_id") s = (Ok rec, s).
Proof. intros -> Hk. unfold get_record. by rewrite get_bind, Hk. Qed.
Lemma idem_new s k key :
  nonempty key = true → (slen (str_of key) ≤ 200)%N → find_idem (s_entries s) k (str_of key) = None →
  idem k key s = (Ok VNone, s).
Proof. intros Hne Hlen%N.leb_le Hnew. unfold idem. by rewrite require_bind, Hne, Hlen, get_bind, Hnew. Qed.

(** What [set_state] does, branch by branch: a terminal episode, a
    target state the caller's table never reaches, a stale expected revision (the
    compare-and-swap, which reports the current revision and state), a target not
    reachable from the current state; otherwise the state moves and the revision
    grows by one. *)
Theorem set_state_outcome v ctx p s k rec st to aref :
  reachable s → dget_none p "episode_id" = VStr k → dget (s_records s) k = Some rec → r_state rec = Some st →
  dget_none p "state" = VStr to → audit_of v = Some aref →
  nonempty (state_key p) = true → (slen (str_of (state_key p)) ≤ 200)%N →
  find_idem (s_entries s) k (str_of (state_key p)) = None →
  set_state v ctx p s =
    if terminal (r_state rec) then (Err (rpc_error "terminal"), s)
    else if negb (existsb (λ f, allowed (x_principal ctx) f to) STATES) then (Err (rpc_error "forbidden_transition"), s)
    else if negb (py_eq (dget_none p "expected_revision") (VInt (r_revision rec))) then
      (Err (RpcError "conflict" (VDict [("revision", VInt (r_revision rec)); ("state", VStr st)])), s)
    else if negb (allowed (x_principal ctx) st to) then (Err (rpc_error "forbidden_transition"), s)
    else (Ok (VDict [("revision", VInt (r_revision rec + 1)); ("state", VStr to)]),
          appended s (s_records s) rec
            (mkEntry k (r_revision rec + 1) (v_now v) (BState (Some st) to (dget_none p "reason")) (x_principal ctx) VNone
               (default EmptyString (r_bundle_id rec)) aref)
            (str_of (state_key p)) (VDict [("revision", VInt (r_revision rec + 1)); ("state", VStr to)]) (s_opens s)).
Proof.
  intros Hinv%reachable_inv Hid Hk Hst Hto Haud Hne Hlen Hnew. pose proof (inv_keyed _ Hinv _ _ Hk) as Hrid.
  destruct (wf_bundle _ (inv_wf _ Hinv _ _ Hk)) as [bundle Hb].
  assert (st ∈ STATES) as Hstates.
  { destruct (wf_walk _ (inv_wf _ Hinv _ _ Hk)) as (st' & Hst' & Hw). rewrite Hst in Hst'. injection Hst' as <-.
    destruct Hw as [|? ? ? ? ? ? ? _ Ha _]; [by apply str_in_spec | by apply (allowed_states _ _ _ Ha)]. }
  unfold set_state. fold (state_key p).
  rewrite (bind_run _ _ _ _ _ (get_record_run _ _ _ _ Hid Hk)), Hrid.
  rewrite (bind_run _ _ _ _ _ (idem_new _ _ _ Hne Hlen Hnew)). cbn [unless_prior].
  rewrite require_bind. destruct (terminal (r_state rec)); cbn [negb]; [done|].
  rewrite lift_bind, Hto, Hst. cbn [allowed_val]. rewrite require_bind.
  set (ever := existsb _ STATES).
  assert (allowed (x_principal ctx) st to || ever = ever) as ->.
  { destruct (allowed _ st to) eqn:Ha; [|done]. symmetry. apply existsb_true. eauto. }
  destruct ever; cbn [negb]; [|done].
  rewrite require_bind. destruct (py_eq _ _); cbn [negb]; [|done].
  rewrite require_bind. destruct (allowed _ _ _); cbn [negb]; [|done].
  rewrite Hb. by apply (append_succeeds v k).
Qed.

Definition demo_ctx (principal : string) : Ctx := mkCtx "store" principal 1000 1.
Definition stale_params : dict := [("episode_id", VStr "ep1"); ("state", VStr "recommending"); ("expected_revision", VInt 1)].
Lemma set_state_outcome_witness :
  set_state (demo_env "u9") (demo_ctx "controller") stale_params opened_store =
  (Err (RpcError "conflict" (VDict [("revision", VInt 3); ("state", VStr "diagnosing")])), opened_store).
Proof.
  rewrite (set_state_outcome (demo_env "u9") (demo_ctx "controller") stale_params opened_store "ep1"
             (demo_record opened_store) "diagnosing" "recommending" "audit:7");
    [vm_compute; reflexivity | apply opened_reachable | vm_compute; try reflexivity; discriminate..].
Defined.

(** Evidence exists: every recommendation and no-action, and every
    judged hypothesis, cites at least one signal, and only signals collected in its
    episode; every recommendation names a hypothesis of the episode; every verdict
    judges one of its artefacts. *)
Theorem evidence_exists s k rec :
  reachable s → dget (s_records s) k = Some rec →
  (∀ a, a ∈ artefacts rec → refs_legal rec (a_refs a)) ∧
  (∀ h : hypothesis, h ∈ r_hypotheses rec → h_status h ≠ "open" → refs_legal rec (h_refs h)) ∧
  (∀ r : recommendation, r ∈ r_recommendations rec → rc_hypothesis r ∈ hypothesis_ids rec) ∧
  (∀ v : verdict, v ∈ r_verdicts rec → ∃ a, a ∈ artefacts rec ∧ vd_target_id v = a_id a).
Proof.
  intros Hinv%reachable_inv Hk. pose proof (inv_wf _ Hinv _ _ Hk) as Hwf. split_and!.
  - apply (wf_evidence _ Hwf).
  - intros h Hh Hne. by destruct (wf_status _ Hwf h Hh) as [[? _]|[_ ?]].
  - apply (wf_tested _ Hwf).
  - intros v Hv. by apply (wf_verdicts _ Hwf v Hv).
Qed.

Lemma evidence_exists_witness :
  reachable judged_store ∧ length (artefacts (demo_record judged_store)) = 1 ∧
  (∀ a, a ∈ artefacts (demo_record judged_store) → refs_legal (demo_record judged_store) (a_refs a)).
Proof.
  split; [apply judged_reachable|]. split; [vm_compute; reflexivity|].
  apply (evidence_exists judged_store "ep1" (demo_record judged_store) judged_reachable).
  vm_compute. reflexivity.
Defined.

(** One answer per agent session: a session has at most one artefact
    (recommendation or no-action) and one verdict, and never two hypotheses of the
    same rank. Ids are numbered in order, so none repeats. *)
Theorem one_answer_per_session s k rec session rank :
  reachable s → dget (s_records s) k = Some rec →
  at_most_one (λ x, py_eq x (VStr session)) (planner_sessions rec) ∧
  at_most_one (λ x, py_eq x (VStr session)) (verdict_sessions rec) ∧
  at_most_one (same_slot session rank) (r_hypotheses rec) ∧
  NoDup (signal_ids rec) ∧ NoDup (hypothesis_ids rec) ∧ NoDup (map a_id (artefacts rec)).
Proof.
  intros Hinv%reachable_inv Hk. pose proof (inv_wf _ Hinv _ _ Hk) as Hwf. split_and!.
  - apply (wf_one_artefact _ Hwf).
  - apply (wf_one_verdict _ Hwf).
  - apply (wf_ranks _ Hwf).
  - rewrite (wf_signals _ Hwf). apply ids_NoDup.
  - rewrite (wf_hypotheses _ Hwf). apply ids_NoDup.
  - unfold artefacts. rewrite map_app, !map_map.
    change (map (λ x, a_id (ARec x)) (r_recommendations rec)) with (map (λ x : recommendation, rc_id x) (r_recommendations rec)).
    change (map (λ x, a_id (ANo x)) (r_no_action rec)) with (map (λ x : no_action, na_id x) (r_no_action rec)).
    rewrite (wf_recommendations _ Hwf), (wf_no_actions _ Hwf).
    apply list.NoDup_app. split_and!; [apply ids_NoDup| |apply ids_NoDup].
    intros x (n & -> & _)%list_elem_of_fmap (m & ? & _)%list_elem_of_fmap. done.
Qed.

Lemma one_answer_per_session_witness :
  reachable judged_store ∧ map py_str (planner_sessions (demo_record judged_store)) = ["sess2"] ∧
  at_most_one (λ x, py_eq x (VStr "sess2")) (planner_sessions (demo_record judged_store)).
Proof.
  split; [apply judged_reachable|]. split; [vm_compute; reflexivity|].
  apply (one_answer_per_session judged_store "ep1" (demo_record judged_store) "sess2" 1 judged_reachable).
  vm_compute. reflexivity.
Defined.

(** Deduplication: at most one open episode per dedupe key (class,
    check and validator). *)
Theorem one_open_episode_per_key s key k1 k2 rec1 rec2 :
  reachable s → dget (s_records s) k1 = Some rec1 → dget (s_records s) k2 = Some rec2 →
  r_dedupe_key rec1 = Some key → r_dedupe_key rec2 = Some key →
  terminal (r_state rec1) = false → terminal (r_state rec2) = false → k1 = k2.
Proof.
  intros Hinv%reachable_inv H1 H2 Hk1 Hk2 Ht1 Ht2.
  eapply (inv_dedupe _ Hinv key); [exact H1 | exact H2 | |]; unfold dedupe_matches.
  - by rewrite Hk1, Ht1, String.eqb_refl.
  - by rewrite Hk2, Ht2, String.eqb_refl.
Qed.

Lemma one_open_episode_per_key_witness :
  length (s_opens reopened_store) = 2 ∧
  map fst (s_records reopened_store) = ["ep1"] ∧ "ep1" = "ep1".
Proof.
  split; [vm_compute; reflexivity|]. split; [vm_compute; reflexivity|].
  eapply (one_open_episode_per_key reopened_store "validator_health|delinquent|v1" "ep1" "ep1"
            (demo_record reopened_store) (demo_record reopened_store) reopened_reachable); vm_compute; reflexivity.
Defined.

(** An agent's write that changes the store was authorised: its token was
    signed by the controller's key, unexpired, unrevoked, minted for this episode and
    the episode's bundle; its role is one of the tool's, and the episode is in one of
    the tool's states. *)
Theorem agent_write_authorised op h v ctx p s r s' :
  (op, h) ∈ agent_ops → h v ctx p s = (r, s') → s' ≠ s →
  ∃ cap k rec tool role st,
    AGENT_OPS op ≫= TOOLS_BY_NAME = Some tool ∧
    token_carries (v_gate v) (v_now v) (dget_none p "token") (dget_none p "episode_id") VNone cap ∧
    dget_none p "episode_id" = VStr k ∧ dget (s_records s) k = Some rec ∧
    py_eq (c_bundle_id cap) (opt_str (r_bundle_id rec)) = true ∧
    c_role cap = VStr role ∧ role ∈ t_roles tool ∧ r_state rec = Some st ∧ st ∈ t_states tool.
Proof.
  intros Hop H Hne. destruct (agent_op_gated _ _ _ _ _ _ _ _ Hop H Hne) as (cap & rec & Hg).
  destruct (agent_gate_token _ _ _ _ _ _ _ _ Hg) as [Ht Hb].
  destruct (agent_gate_Ok _ _ _ _ _ _ _ _ Hg) as (k & Hid & Hk & _ & Htool).
  assert (∃ tool, AGENT_OPS op ≫= TOOLS_BY_NAME = Some tool) as [tool Hop'].
  { unfold agent_ops in Hop. rewrite !elem_of_cons, elem_of_nil in Hop.
    repeat destruct Hop as [[= -> ->]|Hop]; try done; eexists; reflexivity. }
  destruct (Htool _ Hop') as [_ (st & Hst & Hin)].
  destruct (agent_gate_role _ _ _ _ _ _ _ _ _ Hg Hop') as (role & Hrole & Hroles).
  by exists cap, k, rec, tool, role, st.
Qed.

Definition agent_ctx : Ctx := mkCtx "store-agent" "episode_broker" 1000 1.
Definition hypothesis_request : dict :=
  hypothesis_params ++ [("episode_id", VStr "ep1"); ("token", VStr (demo_token "diagnostician" "sess1")); ("idem_key", VStr "k4")].
Lemma agent_write_authorised_witness :
  let out := append_hypothesis (demo_env "u4") agent_ctx hypothesis_request opened_store in
  length (s_entries out.2) = S (length (s_entries opened_store)) ∧
  ∃ cap k rec tool role st,
    AGENT_OPS "append_hypothesis" ≫= TOOLS_BY_NAME = Some tool ∧
    token_carries demo_gate 100 (dget_none hypothesis_request "token") (dget_none hypothesis_request "episode_id") VNone cap ∧
    dget_none hypothesis_request "episode_id" = VStr k ∧ dget (s_records opened_store) k = Some rec ∧
    py_eq (c_bundle_id cap) (opt_str (r_bundle_id rec)) = true ∧
    c_role cap = VStr role ∧ role ∈ t_roles tool ∧ r_state rec = Some st ∧ st ∈ t_states tool.
Proof.
  intros out. assert (length (s_entries out.2) = S (length (s_entries opened_store))) as Hlen by (vm_compute; reflexivity).
  split; [exact Hlen|].
  apply (agent_write_authorised "append_hypothesis" append_hypothesis (demo_env "u4") agent_ctx hypothesis_request
           opened_store out.1 out.2).
  - left.
  - exact (surjective_pairing out).
  - intros Heq. rewrite Heq in Hlen. exact (n_Sn _ Hlen).
Defined.

(** C27: safety. The judge is blind to advocacy: an appended hypothesis, hypothesis
    status, verdict, report, cost, step or annotation does not change what a read
    with a proposal judge's token returns. *)
Theorem judge_is_blind v ctx p s k b who aref s' cap :
  reachable s → sstep s (LAppend k b who aref) s' → kind_of b ∈ hidden_kinds →
  check_token (v_gate v) (v_now v) (dget_none p "token") (dget_none p "episode_id") VNone = Ok cap →
  c_role cap = VStr "proposal_judge" →
  (agent_read v ctx p s').1 = (agent_read v ctx p s).1.
Proof.
  intros Hinv%reachable_inv Hstep Hkind Htok Hrole.
  assert (∀ k', match dget (s_records s') k', dget (s_records s) k' with
                | Some r1, Some r2 => judge_equiv r1 r2
                | None, None => True
                | _, _ => False
                end) as Hrel.
  { intros k'. inversion Hstep as [? rec ? ? ? ? ? ? ? ? Hk Hid| |]; subst. cbn.
    destruct (decide (r_episode_id rec = k')) as [<-|Hne].
    - rewrite dget_dset_eq, Hk. by apply apply_judge_equiv.
    - rewrite dget_dset_ne by done. by destruct (dget (s_records s) k'). }
  unfold agent_read, agent_gate, get_record.
  cbv [mbind M_bind lift require raise mret M_ret get_state]. rewrite Htok, Hrole.
  destruct (str_in _ _); [|done]. cbn [AGENT_OPS dget String.eqb].
  destruct (dget_none p "episode_id") as [| | | |k'| |]; try done. specialize (Hrel k').
  destruct (dget (s_records s') k') as [r1|], (dget (s_records s) k') as [r2|]; cbn; try done.
  rewrite (je_bundle _ _ Hrel). destruct (py_eq _ _); [|done]. cbn.
  rewrite Hrole, (je_bundle _ _ Hrel). cbn.
  destruct (of_opt _ _) as [bundle|]; [|done]. destruct (v_skills v bundle) as [skills|]; [|done]. cbn.
  unfold view_for. cbn. by rewrite Hrel.
Qed.

Lemma judge_is_blind_witness :
  let p := [("episode_id", VStr "ep1"); ("token", VStr (demo_token "proposal_judge" "sess3"))] in
  let s' := appended diagnosed_store (s_records diagnosed_store) (demo_record diagnosed_store)
    (mkEntry "ep1" 7 100 (BAnnotation VNone (VStr "the planner is right")) "controller" VNone "b1" "audit:7") "k20" VNone
    (s_opens diagnosed_store) in
  is_ok (agent_read (demo_env "u9") agent_ctx p s').1 = true ∧
  (agent_read (demo_env "u9") agent_ctx p s').1 = (agent_read (demo_env "u9") agent_ctx p diagnosed_store).1.
Proof.
  intros p s'. split; [vm_compute; reflexivity|].
  apply (judge_is_blind (demo_env "u9") agent_ctx p diagnosed_store "ep1" (BAnnotation VNone (VStr "the planner is right"))
           "controller" "audit:7" s'
           (match check_token demo_gate 100 (dget_none p "token") (VStr "ep1") VNone with
            | Ok c => c | Err _ => mkCap VNone VNone VNone VNone VNone VNone VNone VNone end)).
  - apply diagnosed_reachable.
  - apply (sstep_append diagnosed_store "ep1" (demo_record diagnosed_store)); try (vm_compute; reflexivity).
    + apply fresh_idem_check. vm_compute. reflexivity.
    + apply (fresh_rev_check _ _ _ 7%Z); vm_compute; reflexivity.
  - apply str_in_spec. vm_compute. reflexivity.
  - vm_compute. reflexivity.
  - vm_compute. reflexivity.
Defined.

(** The log is append-only: whatever happens, the rows and the recorded
    opens of a reachable store stay, in place and unchanged, and its episodes keep
    their records, with revisions that never go back. *)
Theorem log_is_append_only s s' :
  reachable s → rtc srequest s s' →
  s_entries s `prefix_of` s_entries s' ∧ s_opens s `prefix_of` s_opens s' ∧
  ∀ k rec, dget (s_records s) k = Some rec →
    ∃ rec', dget (s_records s') k = Some rec' ∧ (r_revision rec ≤ r_revision rec')%Z.
Proof.
  intros Hinv%reachable_inv Hs. split_and!; [by apply requests_prefix | by apply requests_opens|].
  intros k rec Hk. destruct (requests_record _ _ _ _ Hinv Hs Hk) as (rec' & Hk' & Hrev & _). eauto.
Qed.

Lemma log_is_append_only_witness :
  length (s_entries judged_store) = 10 ∧ length (s_entries closed_store) = 13 ∧
  s_entries judged_store `prefix_of` s_entries closed_store.
Proof.
  split; [vm_compute; reflexivity|]. split; [vm_compute; reflexivity|].
  apply (log_is_append_only judged_store closed_store judged_reachable closed_from_judged).
Defined.

(** A recommendation is only accepted for a planner skill of the
    episode's own bundle that admits the episode's consensus mode; under an unknown
    mode, only for a skill marked as mode-independent. *)
Theorem recommendation_admissible v ctx p s r s' :
  append_recommendation v ctx p s = (r, s') → s' ≠ s →
  ∃ k rec bundle skills name skill,
    dget (s_records s) k = Some rec ∧ r_bundle_id rec = Some bundle ∧ v_skills v bundle = Ok skills ∧
    dget skills name = Some (VDict skill) ∧
    py_contains (default (VList []) (dget skill "roles")) (VStr "change_planner") = Ok true ∧
    (py_eq (dget_none skill "modes") (VStr "any") = true ∨
     (r_consensus_mode rec ≠ Some "unknown" ∧ py_contains (dget_none skill "modes") (opt_str (r_consensus_mode rec)) = Ok true)).
Proof.
  intros H Hne. unfold append_recommendation in H.
  apply bind_readonly in H as [(? & ? & ? & ?)|([cap rec] & Hg & H)]; [done| |auto with valops].
  destruct (agent_gate_Ok _ _ _ _ _ _ _ _ Hg) as (k & _ & Hk & _).
  apply bind_readonly in H as [(? & ? & ? & ?)|(prior & _ & H)]; [done| |auto with valops].
  apply unless_prior_run in H as [(_ & _ & ?)|[_ H]]; [done|]. ro H ltac:(done).
  match goal with H : skill_admitted _ _ _ = Ok _ |- _ => rename H into Hadm end.
  match goal with H : of_opt (r_bundle_id _) _ = Ok _ |- _ => apply of_opt_Ok in H; rename H into Hb end.
  match goal with H : v_skills _ _ = Ok ?sk |- _ => rename H into Hskills; rename sk into skills end.
  exists k, rec. eexists _, skills. unfold skill_admitted in Hadm.
  destruct (dget_none skills _) as [| | | | | |d] eqn:Hskill; cbn in Hadm; rinv Hadm; try done.
  unfold dget_none in Hskill. destruct (dget skills _) eqn:Hget; cbn in Hskill; [subst|done].
  eexists _, d. split_and!; [done|done|done|done|by subst|].
  destruct (py_eq (dget_none d "modes") _); [by left|]. right. rinv Hadm. bools. subst. split; [|done].
  intros Hmode. by rewrite Hmode in *.
Qed.

Definition recommendation_request : dict :=
  recommendation_params ++ [("episode_id", VStr "ep1"); ("token", VStr (demo_token "change_planner" "sess2")); ("idem_key", VStr "k7")].
Lemma recommendation_admissible_witness :
  let out := append_recommendation (demo_env "u7") agent_ctx recommendation_request diagnosed_store in
  length (s_entries out.2) = S (length (s_entries diagnosed_store)) ∧
  ∃ k rec bundle skills name skill,
    dget (s_records diagnosed_store) k = Some rec ∧ r_bundle_id rec = Some bundle ∧ v_skills (demo_env "u7") bundle = Ok skills ∧
    dget skills name = Some (VDict skill) ∧
    py_contains (default (VList []) (dget skill "roles")) (VStr "change_planner") = Ok true ∧
    (py_eq (dget_none skill "modes") (VStr "any") = true ∨
     (r_consensus_mode rec ≠ Some "unknown" ∧ py_contains (dget_none skill "modes") (opt_str (r_consensus_mode rec)) = Ok true)).
Proof.
  intros out. assert (length (s_entries out.2) = S (length (s_entries diagnosed_store))) as Hlen by (vm_compute; reflexivity).
  split; [exact Hlen|].
  apply (recommendation_admissible (demo_env "u7") agent_ctx recommendation_request diagnosed_store out.1 out.2).
  - exact (surjective_pairing out).
  - intros Heq. rewrite Heq in Hlen. exact (n_Sn _ Hlen).
Defined.

(** C35: error. A failed request changes nothing, but for one: whenever the reply is not a
    result (an error, a refused peer, a dropped connection), the store is as it was, or the
    request charged an integer that is no float, to an episode of the store, and then one
    row was written and one record's revision moved, and nothing else. Without the audit
    service's answer no row and no record is written. *)
Theorem failure_changes_nothing v uids ep uid pid line s resp s' :
  reachable s → ep ∈ endpoints v uids → dget (s_records s) (v_uuid v) = None →
  handle ep uid pid line s = (resp, s') →
  (succeeded resp = false → s' = s ∨
     ep_principal ep = "controller" ∧ ∃ k rec (r : row) c,
       dget (s_records s) k = Some rec ∧ e_episode r = k ∧ e_body r = BCost c ∧ no_float (co_usd c) = true ∧
       s_entries s' = s_entries s ++ [r] ∧ s_opens s' = s_opens s ∧
       s_records s' = dset (s_records s) k (set_revision (r_revision rec + 1) rec)) ∧
  (audit_of v = None → s_entries s' = s_entries s ∧ s_records s' = s_records s).
Proof.
  intros Hinv%reachable_inv Hep Hu H.
  apply (handle_refined v uids) in H as [->|(l & Hl & Ha & Hok & Hw)]; try done; [by split; [left|]| |by apply inv_keyed].
  split; [|intros Hno; destruct Hl; cbn in Ha; [congruence|congruence|done]].
  rewrite Hok. intros Hbad. right. destruct Hl as [k rec b ts principal session bundle aref idem result Hk Hid _ _ _ _|?|?]; [|done..].
  cbn in Hbad. destruct (apply_error b) as [x|] eqn:Hx; [|done]. apply apply_error_inv in Hx as (_ & c & -> & Hn).
  split; [exact Hw|]. exists k, rec. eexists _, c. split_and!; [done| | |done|reflexivity|done|]; [done..|].
  cbn. unfold apply_cost. rewrite Hn, Hid. by destruct rec.
Qed.

Definition silent_env : env :=
  mkEnv 100 demo_gate (λ _, Ok None) (λ _, Ok demo_skills) (Some (Err (rpc_error "unreachable"))) "u9".
Lemma failure_changes_nothing_witness :
  let out := handle (ep_of silent_env "controller") 1000 1
               (Some (q_line (move 9 "controller" "recommending" 3))) opened_store in
  out.1 = RespError (VInt 1) "audit_unavailable" VNone ∧ out.2 = opened_store.
Proof.
  intros out. assert (out.1 = RespError (VInt 1) "audit_unavailable" VNone) as Hout by (vm_compute; reflexivity).
  assert (length (s_entries out.2) = length (s_entries opened_store)) as Hlen by (vm_compute; reflexivity).
  split; [exact Hout|].
  destruct (failure_changes_nothing silent_env uids (ep_of silent_env "controller") 1000 1 (Some (q_line (move 9 "controller" "recommending" 3)))
           opened_store out.1 out.2 opened_reachable (ep_of_elem silent_env "controller" eq_refl) eq_refl (surjective_pairing out)) as [H _].
  destruct H as [H|(_ & k & rec & r & c & _ & _ & _ & _ & H & _)]; [by rewrite Hout|exact H|].
  exfalso. apply (f_equal length) in H. rewrite length_app in H.
  assert (∀ a b c, a = b → a = b + S c → False) as Hno by (clear; intros; lia). exact (Hno _ _ 0 Hlen H).
Defined.

(** A verification recorded on a terminal episode: the check of
    [append_verification] passes, the lock is released, another request resolves the
    episode, and the write goes through. *)
Theorem verification_races_resolution :
  ∃ s s' r,
    reachable s ∧ rtc srequest s s' ∧
    verification_precheck late_verification s = (Ok tt, s) ∧
    state_of s' "ep1" = Some "resolved" ∧
    verification_write (demo_env "u30") (demo_ctx "verifier") late_verification s' = (Ok r, late_verified_store) ∧
    length (r_verifications (demo_record late_verified_store)) = S (length (r_verifications (demo_record s'))).
Proof.
  exists judged_store, closed_store. eexists.
  split; [apply judged_reachable|]. split; [apply closed_from_judged|].
  split; [vm_compute; reflexivity|]. split; [vm_compute; reflexivity|].
  split; vm_compute; reflexivity.
Qed.

(** A charge no float holds: the request fails, the row stays, a repetition is told that it
    was done, and the store cannot be started again. *)
Definition charge (uuid : string) (usd : val) : request := call uuid "controller" "append_cost"
  [("episode_id", VStr "ep1"); ("role", VStr "diagnostician"); ("usd", usd); ("turns", VInt 1); ("idem_key", VStr "charge")].
Abbreviation charged usd s := (handle (demo_endpoint "u9" "controller") 1000 1 (Some (q_line (charge "u9" usd))) s).
Example uncountable_cost :
  let out := charged (VInt (10 ^ 400)) opened_store in
  out.1 = RespError (VInt 1) "internal" VNone ∧ length (s_entries out.2) = S (length (s_entries opened_store)) ∧
  (charged (VInt (10 ^ 400)) out.2).1 = RespResult (VInt 1) (ReplyVal (VDict [("ok", VBool true); ("revision", VInt 4)])) ∧
  restart out.2 = Err (PyExc "OverflowError").
Proof. vm_compute. repeat split. Qed.
