(* ===== verification/AuditChain.v ===== *)
(** * The audit sequencer's hash chain (src/valops/audit/sequencer.py, anchor.py)

    The chain file is its list of lines, each the canonical JSON of an entry that
    holds the hash of the entry before it. The anchor store is the list of anchors
    put into it. Ed25519 signing and verification are parameters of the object, as
    the keys are in the code; the clock is an argument of each call. *)
From S2P Require Import Prelude PyVal Schema Canonical Json Rpc.
From Stdlib Require Import Ascii.

(** src/valops/audit/sequencer.py:27-27 GENESIS *)
Definition GENESIS : string := repeat_str "0" 64.
(** src/valops/audit/sequencer.py:28-32 EVENTS *)
Definition EVENTS : list string := [
  "tool_call"; "tool_result"; "tool_denied"; "state_change"; "integrity_fail"; "alert"; "observe_request";
  "observe_result"; "observe_checkpoint"; "verification"; "anchor"; "store_write"; "model_request";
  "model_refusal"; "token_minted"; "token_revoked"; "step"; "bundle"; "hook"; "sentinel"].
(** src/valops/audit/sequencer.py:33-33 MAX_PAYLOAD *)
Definition MAX_PAYLOAD : N := 8 * 1024 * 1024.

Section sequencer.
Context `{HASH : Hash}.

(** src/valops/audit/sequencer.py:36-37 entry_hash *)
Definition entry_hash (entry : val) : string := sha256_hex (canonical entry).

(** src/valops/audit/sequencer.py:40-41 anchor_body *)
Definition anchor_body (a : val) : result exn string :=
  head ← vindex a "chain_head"; seq ← vindex a "seq"; ts ← vindex a "ts_ms"; key ← vindex a "key_id";
  Ok (canonical (VDict [("chain_head", head); ("seq", seq); ("ts_ms", ts); ("key_id", key)])).

(** The keys the object is built with, and whether the anchor store is reachable. *)
Record seq_env : Type := mkSeqEnv {
  n_sign : string → string;
  n_key_id : string;
  n_daemon : option (string → string → bool);   (* daemon_verifier.verify *)
  n_anchor_up : option exn;                     (* what anchors.put raises *)
}.

(** src/valops/audit/sequencer.py:45-63 AuditSequencer.__init__ *)
Record sequencer : Type := mkSequencer {
  q_lines : list string;                 (* the chain file *)
  q_payloads : list (string * string);   (* the payload directory *)
  q_anchors : list val;                  (* the anchor store *)
  q_seq : val;
  q_head : string;
  q_last_anchor : val;
  q_daemon_last : option (val * val);    (* seq and head *)
  q_integrity : option nat;              (* the line where the chain is broken *)
}.
Abbreviation QM := (M sequencer exn).

(** One line of [_load]; [n] is its number. *)
Definition load_line (n : nat) (line : string) (q : sequencer) : result exn sequencer :=
  e ← of_opt (json_loads line) (PyExc "ValueError");
  prev ← vindex e "prev";
  broken ← (if py_eq prev (VStr (q_head q)) then seq ← vindex e "seq"; Ok (negb (py_eq seq (VInt (Z.of_nat n))))
            else Ok true);
  seq ← vindex e "seq";
  event ← vindex e "event";
  last_anchor ← (if py_eq event (VStr "anchor") then vindex e "ts" else Ok (q_last_anchor q));
  daemon ← (if py_eq event (VStr "observe_checkpoint") then
              data ← vindex e "data"; accepted ← vget data "accepted";
              if truthy accepted then s ← vindex data "seq"; h ← vindex data "head"; Ok (Some (s, h))
              else Ok (q_daemon_last q)
            else Ok (q_daemon_last q));
  Ok (mkSequencer (q_lines q ++ [line]) (q_payloads q) (q_anchors q) seq (entry_hash e) last_anchor daemon
        (if broken : bool then Some n else q_integrity q)).

Fixpoint load_lines (n : nat) (lines : list string) (q : sequencer) : result exn sequencer :=
  match lines with
  | [] => Ok q
  | line :: lines' => q ← load_line n line q; load_lines (S n) lines' q
  end.

(** src/valops/audit/sequencer.py:65-81 AuditSequencer._load

    A process start on the files and the anchors that are there. *)
Definition load (lines : list string) (payloads : list (string * string)) (anchors : list val) : result exn sequencer :=
  load_lines 1 lines (mkSequencer [] payloads anchors (VInt 0) GENESIS VNone None None).

(** [self.seq + 1] *)
Definition py_succ (v : val) : result exn val :=
  match v with
  | VInt z => Ok (VInt (z + 1))
  | VBool b => Ok (VInt (if b then 2 else 1))
  | VFloat q => Ok (VFloat (q + 1))
  | _ => Err (PyExc "TypeError")
  end.

(** The entry [_append] builds. *)
Definition chain_entry (seq : val) (t : Q) (prev actor event : string) (episode_id : val) (data : dict) (payload_ref : val) : dict :=
  [("seq", seq); ("ts", VFloat t); ("prev", VStr prev); ("actor", VStr actor); ("event", VStr event);
   ("episode_id", episode_id); ("data", VDict data); ("payload_ref", payload_ref)].

(** src/valops/audit/sequencer.py:84-95 AuditSequencer._append *)
Definition chain_append (t : Q) (actor event : string) (episode_id : val) (data : dict) (payload_ref : val) : QM val :=
  q ← get_state;
  seq ← lift (py_succ (q_seq q));
  let entry := VDict (chain_entry seq t (q_head q) actor event episode_id data payload_ref) in
  let head := entry_hash entry in
  _ ← put_state (mkSequencer (q_lines q ++ [canonical entry]) (q_payloads q) (q_anchors q) seq head
                   (q_last_anchor q) (q_daemon_last q) (q_integrity q));
  mret (VDict [("seq", seq); ("hash", VStr head); ("payload_ref", payload_ref)]).

(** src/valops/audit/sequencer.py:97-106 AuditSequencer._store_payload *)
Definition store_payload (raw : string) : QM string :=
  _ ← require (slen raw <=? MAX_PAYLOAD)%N (rpc_error "too_large");
  let h := sha256_hex raw in
  q ← get_state;
  _ ← (if dmem (q_payloads q) h then mret tt
       else put_state (mkSequencer (q_lines q) (dset (q_payloads q) h raw) (q_anchors q) (q_seq q) (q_head q)
                         (q_last_anchor q) (q_daemon_last q) (q_integrity q)));
  mret ("sha256:" +:+ h).

(** The payload of a submission, stored by reference. *)
Definition submit_payload (params : dict) : QM val :=
  match dget_none params "payload_b64", dget_none params "payload_json" with
  | VNone, VNone => mret VNone
  | VNone, j => h ← store_payload (canonical j); mret (VStr h)
  | VStr b, _ => raw ← lift (of_opt (b64decode b) (PyExc "ValueError")); h ← store_payload raw; mret (VStr h)
  | _, _ => raise (PyExc "TypeError")
  end.

(** src/valops/audit/sequencer.py:108-120 AuditSequencer.submit *)
Definition submit (t : Q) (actor : string) (params : dict) : QM val :=
  let event := dget_none params "event" in
  known ← lift (in_str_set event EVENTS);
  _ ← require known (rpc_error "invalid");
  data ← lift (match py_or (dget_none params "data") (VDict []) with VDict d => Ok d | _ => Err (rpc_error "invalid") end);
  ref ← submit_payload params;
  chain_append t actor (default EmptyString (as_str event)) (dget_none params "episode_id") data ref.

(** The first half of [anchor_now], read under the lock. *)
Definition anchor_snapshot : QM (val * string) := q ← get_state; mret (q_seq q, q_head q).

(** The rest of it, after the lock is released: [t1], [t2], [t3] are its readings of
    the clock. [put] raises when the store is unreachable. *)
Definition anchor_publish (v : seq_env) (t1 t2 t3 : Q) (snap : val * string) : QM val :=
  let '(seq, head) := snap in
  let fields := [("chain_head", VStr head); ("seq", seq); ("ts_ms", VInt (Qtrunc (t1 * 1000))); ("key_id", VStr (n_key_id v))] in
  body ← lift (anchor_body (VDict fields));
  let a := VDict (fields ++ [("sig", VStr (b64u (n_sign v body)))]) in
  _ ← match n_anchor_up v with
      | Some e => raise e
      | None => modify (λ q, mkSequencer (q_lines q) (q_payloads q) (q_anchors q ++ [a]) (q_seq q) (q_head q) (VFloat t2)
                               (q_daemon_last q) (q_integrity q))
      end;
  _ ← chain_append t3 "audit_sequencer" "anchor" VNone [("anchored_seq", seq); ("chain_head", VStr head)] VNone;
  mret a.

(** src/valops/audit/sequencer.py:123-131 AuditSequencer.anchor_now *)
Definition anchor_now (v : seq_env) (t1 t2 t3 : Q) : QM val :=
  snap ← anchor_snapshot;
  anchor_publish v t1 t2 t3 snap.

(** src/valops/audit/sequencer.py:140-141 AuditSequencer.anchor_lag_s *)
Definition anchor_lag_s (t : Q) (q : sequencer) : result exn val :=
  match q_last_anchor q with
  | VNone => Ok VNone
  | ts => x ← of_opt (num_of ts) (PyExc "TypeError"); Ok (VFloat (t - x))
  end.

(** src/valops/audit/sequencer.py:143-146 AuditSequencer.status *)
Definition status (t : Q) : QM val :=
  q ← get_state;
  lag ← lift (anchor_lag_s t q);
  mret (VDict [("seq", q_seq q); ("head", VStr (q_head q)); ("last_anchor_ts", q_last_anchor q); ("anchor_lag_s", lag);
               ("integrity_error", match q_integrity q with Some n => VStr (fmt_id "chain broken at line " n) | None => VNone end);
               ("daemon_last", match q_daemon_last q with Some (s, h) => VDict [("seq", s); ("head", h)] | None => VNone end)]).

(** [ckpt["seq"]] of a dict that may not have it. *)
Definition dindex (d : dict) (k : string) : result exn val := of_opt (dget d k) (PyExc "KeyError").

(** What a checkpoint says against the last one recorded: [None] is no problem. *)
Definition checkpoint_problem (last : option (val * val)) (ckpt : dict) : result exn (option string) :=
  match last with
  | None => Ok None
  | Some (lseq, lhead) =>
      seq ← dindex ckpt "seq";
      lower ← of_opt (py_lt seq lseq) (PyExc "TypeError");
      if lower : bool then Ok (Some ("daemon chain truncated: seq " +:+ py_str seq +:+ " < recorded " +:+ py_str lseq))
      else if py_eq (dget_none ckpt "since_seq") lseq && py_eq (dget_none ckpt "since_head") lhead then Ok None
      else Ok (Some "daemon chain rewritten: hash at last recorded seq differs")
  end.

(** The signed part of a checkpoint. *)
Definition checkpoint_body (ckpt : dict) : string :=
  canonical (VDict (map (λ k, (k, dget_none ckpt k)) ["seq"; "head"; "ts"; "since_seq"; "since_head"])).

(** src/valops/audit/sequencer.py:149-173 AuditSequencer.record_daemon_checkpoint *)
Definition record_daemon_checkpoint (v : seq_env) (t t' : Q) (actor : string) (ckpt : dict) : QM val :=
  verify ← lift (of_opt (n_daemon v) (rpc_error "unavailable"));
  let body := checkpoint_body ckpt in
  sig ← lift (match default (VStr EmptyString) (dget ckpt "sig") with
              | VStr s => of_opt (b64u_dec s) (PyExc "ValueError")
              | _ => Err (PyExc "TypeError")
              end);
  if negb (verify sig body) then
    _ ← chain_append t actor "integrity_fail" VNone [("what", VStr "daemon checkpoint signature invalid")] VNone;
    raise (rpc_error "integrity")
  else
    q ← get_state;
    problem ← lift (checkpoint_problem (q_daemon_last q) ckpt);
    seq ← lift (dindex ckpt "seq");
    head ← lift (dindex ckpt "head");
    let data := [("seq", seq); ("head", head); ("accepted", VBool (match problem with None => true | _ => false end))] in
    match problem with
    | Some what =>
        _ ← chain_append t actor "integrity_fail" VNone [("what", VStr what)] VNone;
        _ ← chain_append t' actor "observe_checkpoint" VNone (data ++ [("problem", VStr what)]) VNone;
        raise (rpc_error "integrity")
    | None =>
        _ ← modify (λ q, mkSequencer (q_lines q) (q_payloads q) (q_anchors q) (q_seq q) (q_head q) (q_last_anchor q)
                           (Some (seq, head)) (q_integrity q));
        chain_append t actor "observe_checkpoint" VNone data VNone
    end.

(** src/valops/audit/sequencer.py:180-193 AuditSequencer.endpoints

    One endpoint per principal; only the observer broker's records checkpoints and
    only the controller's anchors. *)
Definition audit_endpoints (v : seq_env) (t1 t2 t3 : Q) (principals : list (string * list Z)) : list (Endpoint sequencer val) :=
  let methods (principal : string) : list (string * (Ctx → dict → QM val)) :=
    [("submit", λ ctx p, submit t1 (x_principal ctx) p); ("status", λ ctx p, status t1)] ++
    (if String.eqb principal "observer_broker"
     then [("record_daemon_checkpoint", λ ctx p, record_daemon_checkpoint v t1 t2 (x_principal ctx) p)] else []) ++
    (if String.eqb principal "controller" then [("anchor_now", λ ctx p, anchor_now v t1 t2 t3)] else []) in
  map (λ '(principal, uids), mkEndpoint ("audit-" +:+ principal) principal uids (methods principal)) principals.

(** ** Verification *)
Inductive chain_error : Type :=
| Unparseable (line : nat)
| SeqMismatch (line : nat) (seq : val)
| PrevBroken (line : nat)
| AnchorSignature (seq : val)
| Truncation (seq : val) (end_ : nat)
| Rewrite (seq : val).

(** The text of an error. *)
Definition error_text (e : chain_error) : string :=
  match e with
  | Unparseable n => fmt_id "line " n +:+ ": unparseable"
  | SeqMismatch n seq => fmt_id "line " n +:+ ": seq " +:+ py_str seq +:+ " != " +:+ fmt_id "" n
  | PrevBroken n => fmt_id "seq " n +:+ ": prev link broken"
  | AnchorSignature seq => "anchor at seq " +:+ py_str seq +:+ ": signature invalid"
  | Truncation seq n => "anchor at seq " +:+ py_str seq +:+ " beyond local chain end " +:+ fmt_id "" n +:+ " (truncation)"
  | Rewrite seq => "anchor at seq " +:+ py_str seq +:+ ": local chain differs from anchored head (rewrite)"
  end.

(** The walk of the links: errors, the hash of each line, the last head and how many
    lines were read. It stops at an unparseable line. *)
Fixpoint walk_links (n : nat) (prev : string) (lines : list string) (errs : list chain_error) (hashes : list string) :
    result exn (list chain_error * list string * string) :=
  match lines with
  | [] => Ok (errs, hashes, prev)
  | line :: lines' =>
      match json_loads line with
      | None => Ok (errs ++ [Unparseable n], hashes, prev)
      | Some e =>
          seq ← vget e "seq"; p ← vget e "prev";
          let errs := errs ++ (if py_eq seq (VInt (Z.of_nat n)) then [] else [SeqMismatch n seq])
                           ++ (if py_eq p (VStr prev) then [] else [PrevBroken n]) in
          let h := entry_hash e in
          walk_links (S n) h lines' errs (hashes ++ [h])
      end
  end.

(** [hashes.get(seq)]: keys are the line numbers. *)
Definition hashes_get (hashes : list string) (seq : val) : result exn val :=
  if hashable seq then
    Ok (opt_val VStr (q ← num_of seq; find_first (λ nh : nat * string, Qeq_bool (inject_Z (Z.of_nat nh.1)) q)
                                        (zip (List.seq 1 (length hashes)) hashes) ≫= λ nh, Some nh.2))
  else Err (PyExc "TypeError").

(** [sorted(anchors, key=lambda a: a["seq"])] *)
Fixpoint anchor_insert (x : val) (l : list val) : result exn (list val) :=
  match l with
  | [] => Ok [x]
  | y :: l' =>
      sx ← vindex x "seq"; sy ← vindex y "seq";
      lt ← of_opt (py_lt sy sx) (PyExc "TypeError");
      if lt : bool then l'' ← anchor_insert x l'; Ok (y :: l'') else Ok (x :: l)
  end.
Fixpoint sort_anchors (l : list val) : result exn (list val) :=
  match l with
  | [] => Ok []
  | x :: l' => l'' ← sort_anchors l'; _ ← vindex x "seq"; anchor_insert x l''
  end.

(** [anchor_keys.get(kid)] *)
Definition key_get (keys : list (string * (string → string → bool))) (kid : val) :
    result exn (option (string → string → bool)) :=
  match kid with
  | VStr k => Ok (dget keys k)
  | _ => if hashable kid then Ok None else Err (PyExc "TypeError")
  end.

(** One anchor compared with the chain: its errors, and its seq if it is the newest so far. *)
Definition check_anchor (keys : list (string * (string → string → bool))) (hashes : list string) (a : val) :
    result exn (list chain_error * option val) :=
  d ← match a with VDict d => Ok d | _ => Err (PyExc "AttributeError") end;
  key ← key_get keys (default (VStr EmptyString) (dget d "key_id"));
  seq ← vindex a "seq";
  ok ← match key with
       | None => Ok false
       | Some verify =>
           sig ← vindex a "sig";
           sig ← match sig with VStr s => of_opt (b64u_dec s) (PyExc "ValueError") | _ => Err (PyExc "TypeError") end;
           body ← anchor_body a;
           Ok (verify sig body)
       end;
  if negb ok then Ok ([AnchorSignature seq], None)
  else if py_eq seq (VInt 0) then Ok ([], None)
  else
    beyond ← of_opt (py_lt (VInt (Z.of_nat (length hashes))) seq) (PyExc "TypeError");
    if beyond : bool then Ok ([Truncation seq (length hashes)], Some seq)
    else
      h ← hashes_get hashes seq; head ← vindex a "chain_head";
      Ok (if py_eq h head then [] else [Rewrite seq], Some seq).

Record chain_report : Type := mkReport_ {
  cr_ok : bool; cr_entries : nat; cr_head : string; cr_errors : list chain_error; cr_newest : val }.

Fixpoint check_anchors keys hashes (l : list val) (errs : list chain_error) (newest : val) :
    result exn (list chain_error * val) :=
  match l with
  | [] => Ok (errs, newest)
  | a :: l' =>
      '(e, s) ← check_anchor keys hashes a;
      check_anchors keys hashes l' (errs ++ e) (default newest s)
  end.

(** src/valops/audit/sequencer.py:196-232 verify_chain *)
Definition verify_chain (lines : list string) (anchors : list val)
    (keys : list (string * (string → string → bool))) : result exn chain_report :=
  '(errs, hashes, head) ← walk_links 1 GENESIS lines [] [];
  sorted ← sort_anchors anchors;
  '(errs, newest) ← check_anchors keys hashes sorted errs VNone;
  Ok (mkReport_ (bool_decide (length errs = 0)) (length hashes) head errs newest).
End sequencer.
