(* ===== verification/AuditProps.v ===== *)
(** * What the audit chain guarantees

    An honest sequencer's chain always verifies against every anchor it put; and a
    chain file that verifies against one of those anchors is, up to it, the honest
    one, entry for entry, unless it exhibits a hash collision. *)
From S2P Require Import Prelude PyVal Schema Canonical Json Rpc AuditChain.
From Stdlib Require Import Ascii.

Section audit.
Context `{HASH : Hash}.

(** Two different texts with one hash. *)
Definition collision : Prop := ∃ x y : string, x ≠ y ∧ sha256_hex x = sha256_hex y.

(** ** Linked lines *)
(** [lines], numbered from [n], each holding its number and the hash of the one before;
    [hs] are their hashes, [h] the last of them ([p] when there is none). *)
Inductive links : nat → string → list string → list string → string → Prop :=
| links_nil n p : links n p [] [] p
| links_cons n p line d lines hs h :
    json_loads line = Some (VDict d) →
    py_eq (dget_none d "seq") (VInt (Z.of_nat n)) = true → dget_none d "prev" = VStr p →
    links (S n) (entry_hash (VDict d)) lines hs h →
    links n p (line :: lines) (entry_hash (VDict d) :: hs) h.

Lemma py_eq_int z : py_eq (VInt z) (VInt z) = true.
Proof. cbn. apply Qeq_bool_iff. reflexivity. Qed.

Lemma links_snoc n p lines hs h line d :
  links n p lines hs h → json_loads line = Some (VDict d) →
  dget_none d "seq" = VInt (Z.of_nat (n + length lines)) → dget_none d "prev" = VStr h →
  links n p (lines ++ [line]) (hs ++ [entry_hash (VDict d)]) (entry_hash (VDict d)).
Proof.
  intros Hl Hline Hseq Hprev. induction Hl as [n p|n p line' d' lines hs h Hd' Hs' Hp' Hl IH]; cbn.
  - rewrite Nat.add_0_r in Hseq. eapply links_cons; [done| |done|constructor]. rewrite Hseq. apply py_eq_int.
  - eapply links_cons; [done|done|done|]. apply IH; [|done]. rewrite Hseq. cbn. do 2 f_equal. lia.
Qed.

Lemma links_length n p lines hs h : links n p lines hs h → length hs = length lines.
Proof. induction 1; cbn; congruence. Qed.

Lemma walk_links_ok n p lines hs h errs hs0 :
  links n p lines hs h → walk_links n p lines errs hs0 = Ok (errs, hs0 ++ hs, h).
Proof.
  intros Hl. revert errs hs0. induction Hl as [n p|n p line d lines hs h Hd Hs Hp Hl IH]; intros errs hs0; cbn [walk_links].
  - by rewrite app_nil_r.
  - rewrite Hd. cbn [vget mbind result_bind]. rewrite Hs, Hp. cbn [py_eq]. rewrite String.eqb_refl, !app_nil_r, IH, <- app_assoc. done.
Qed.

Lemma prefix_app_not {A} (l l' : list A) : l' ≠ [] → ¬ (l ++ l') `prefix_of` l.
Proof.
  intros Hne [k Hk]. apply (f_equal length) in Hk. rewrite !length_app in Hk. destruct l'; [done|]. cbn in Hk. lia.
Qed.

Lemma walk_links_inv n p lines errs hs0 errs' hashes h :
  walk_links n p lines errs hs0 = Ok (errs', hashes, h) →
  errs `prefix_of` errs' ∧ (errs' = errs → ∃ hs, hashes = hs0 ++ hs ∧ links n p lines hs h).
Proof.
  revert n p errs hs0. induction lines as [|line lines IH]; intros n p errs hs0 Hw; cbn in Hw.
  - simplify_eq. split; [done|]. intros _. exists []. split; [by rewrite app_nil_r | constructor].
  - destruct (json_loads line) as [e|] eqn:Hline.
    + destruct e as [| | | | | |d]; cbn in Hw; try done.
      destruct (py_eq (dget_none d "seq") _) eqn:Hs; destruct (py_eq (dget_none d "prev") _) eqn:Hp; cbn in Hw;
        rewrite ?app_nil_r in Hw; apply IH in Hw as [Hpre Hw].
      * split; [done|]. intros ->. destruct (Hw eq_refl) as (hs & -> & Hl).
        exists (entry_hash (VDict d) :: hs). rewrite <- app_assoc. split; [done|].
        eapply links_cons; try done. by apply py_eq_str_r.
      * split; [etrans; [|done]; by eexists|]. intros ->. by apply prefix_app_not in Hpre.
      * split; [etrans; [|done]; by eexists|]. intros ->. by apply prefix_app_not in Hpre.
      * split; [etrans; [|done]; by eexists|]. intros ->. by apply prefix_app_not in Hpre.
    + injection Hw as <- <- <-. split; [by eexists|]. intros Heq. apply (f_equal length) in Heq.
      rewrite length_app in Heq. cbn in Heq. lia.
Qed.

(** ** Honest runs *)
Lemma jwf_get d k : jwf (VDict d) → jwf (dget_none d k).
Proof.
  intros [_ Hall]%jwf_dict. unfold dget_none. destruct (dget d k) as [x|] eqn:Hk; [|done].
  apply dget_elem in Hk. by apply (proj1 (list.Forall_forall _ _) Hall (k, x)).
Qed.

(** The sequencer's state against its file and its anchors. *)
Definition hash_at (hs : list string) (n : nat) : option string := match n with O => Some GENESIS | S i => hs !! i end.

(** [a] is an anchor signed for the hash of line [n]. *)
Definition anchors (v : seq_env) (a : val) (n : nat) (h : string) : Prop :=
  ∃ ts, let fields := [("chain_head", VStr h); ("seq", VInt (Z.of_nat n)); ("ts_ms", VInt ts); ("key_id", VStr (n_key_id v))] in
    a = VDict (fields ++ [("sig", VStr (b64u (n_sign v (canonical (VDict fields)))))]).

Record qinv (v : seq_env) (q : sequencer) (hs : list string) : Prop := {
  qi_links : links 1 GENESIS (q_lines q) hs (q_head q);
  qi_seq : q_seq q = VInt (Z.of_nat (length (q_lines q)));
  qi_head : hash_at hs (length hs) = Some (q_head q);
  qi_anchors : ∀ a, a ∈ q_anchors q → ∃ n h, anchors v a n h ∧ n ≤ length hs ∧ hash_at hs n = Some h;
}.

Definition empty_sequencer : sequencer := mkSequencer [] [] [] (VInt 0) GENESIS VNone None None.

Lemma links_end n p lines hs h : links n p lines hs h → (p :: hs) !! length hs = Some h.
Proof. induction 1; [done|]. done. Qed.
Lemma links_hash_at lines hs h : links 1 GENESIS lines hs h → hash_at hs (length hs) = Some h.
Proof. intros Hl%links_end. by destruct hs. Qed.

Lemma hash_at_prefix hs hs' n h : hs `prefix_of` hs' → hash_at hs n = Some h → hash_at hs' n = Some h.
Proof. destruct n as [|i]; [done|]. cbn. intros. by eapply prefix_lookup_Some. Qed.

Lemma hash_at_le hs n h : hash_at hs n = Some h → n ≤ length hs.
Proof. destruct n as [|i]; [lia|]. cbn. intros Hi%lookup_lt_Some. lia. Qed.

Lemma chain_entry_jwf n t prev actor event eid data ref :
  decimal t → jwf eid → jwf (VDict data) → jwf ref → jwf (VDict (chain_entry (VInt n) t prev actor event eid data ref)).
Proof.
  intros Ht He Hd Hr. apply jwf_dict. split; [apply (bool_decide_unpack _); vm_compute; exact I|].
  unfold chain_entry. rewrite !list.Forall_cons. split_and!; done || apply list.Forall_nil_2.
Qed.

(** Later states of a run extend earlier ones. *)
Definition extends (v : seq_env) (q q' : sequencer) : Prop :=
  ∀ hs, qinv v q hs → ∃ hs', qinv v q' hs' ∧ hs `prefix_of` hs'.
#[local] Instance extends_preorder v : PreOrder (extends v).
Proof.
  split; [intros q hs Hq; by exists hs|]. intros q1 q2 q3 H12 H23 hs Hq.
  destruct (H12 hs Hq) as (hs2 & Hq2 & Hp2). destruct (H23 hs2 Hq2) as (hs3 & Hq3 & Hp3). exists hs3. split; [done|]. by etrans.
Qed.

Lemma chain_append_extends v t actor event eid data ref q r q' :
  decimal t → jwf eid → jwf (VDict data) → jwf ref → chain_append t actor event eid data ref q = (r, q') → extends v q q'.
Proof.
  intros Ht Heid Hdata Href H hs [Hl Hs Hh Ha]. unfold chain_append in H. rewrite get_bind, Hs, lift_bind in H. cbn [py_succ] in H.
  cbv [put_state mbind M_bind mret M_ret] in H. injection H as <- <-.
  set (d := chain_entry (VInt (Z.of_nat (length (q_lines q)) + 1)) t (q_head q) actor event eid data ref). set (entry := VDict d).
  assert (jwf entry) as Hw by (by apply chain_entry_jwf).
  pose proof (loads_canonical entry Hw) as Hload. pose proof (canonical_norm entry) as Hcn.
  assert (NoDup (dkeys d)) as Hnd by (apply (bool_decide_unpack _); vm_compute; exact I).
  destruct (norm_get d "seq" Hnd) as (e & Hne & Hseq). destruct (norm_get d "prev" Hnd) as (e' & Hne' & Hprev).
  rewrite Hne in Hne'. injection Hne' as <-. fold entry in Hne. rewrite Hne in *.
  assert (entry_hash (VDict e) = entry_hash entry) as Heh by (unfold entry_hash; by rewrite Hcn).
  exists (hs ++ [entry_hash entry]). split; [|by eexists]. split.
  - cbn. rewrite <- Heh. eapply links_snoc; [exact Hl | exact Hload | |].
    + unfold dget_none. rewrite Hseq. cbn. do 2 f_equal. lia.
    + unfold dget_none. by rewrite Hprev.
  - cbn. f_equal. rewrite length_app. cbn. lia.
  - cbn. rewrite length_app, Nat.add_1_r. cbn. by rewrite lookup_app_r, Nat.sub_diag.
  - intros a Hin. destruct (Ha a Hin) as (n & h & Hanch & Hle & Hat). exists n, h. split; [done|].
    rewrite length_app. split; [lia|]. eapply hash_at_prefix; [|done]. by eexists.
Qed.

(** Changes to the payloads, the last checkpoint or the last anchor's time. *)
Lemma same_chain_extends v q q' :
  q_lines q' = q_lines q → q_seq q' = q_seq q → q_head q' = q_head q → q_anchors q' = q_anchors q → extends v q q'.
Proof. intros H1 H2 H3 H4 hs [Hl Hs Hh Ha]. exists hs. split; [|done]. split; by rewrite ?H1, ?H2, ?H3, ?H4. Qed.

Lemma store_payload_extends v raw q r q' : store_payload raw q = (r, q') → extends v q q'.
Proof.
  unfold store_payload. rewrite require_bind. destruct (slen raw <=? MAX_PAYLOAD)%N; [|intros [= <- <-]; reflexivity].
  rewrite get_bind. destruct (dmem _ _); intros H; cbv [mret M_ret mbind M_bind put_state] in H; injection H as <- <-;
    by apply same_chain_extends.
Qed.

(** ** The handlers, for any relation of states their steps respect *)
Lemma submit_payload_jwf params q ref q' : submit_payload params q = (Ok ref, q') → jwf ref.
Proof.
  unfold submit_payload. intros H.
  destruct (dget_none params "payload_b64"), (dget_none params "payload_json"); minv H; by subst.
Qed.

Lemma dindex_jwf d k x : jwf (VDict d) → dindex d k = Ok x → jwf x.
Proof. intros Hd Hx. unfold dindex in Hx. apply of_opt_Ok in Hx. pose proof (jwf_get d k Hd) as Hj. unfold dget_none in Hj. by rewrite Hx in Hj. Qed.

Section handlers.
Context (R : relation sequencer) `{HR : !PreOrder R}.

Lemma submit_respects t actor params :
  jwf (VDict params) → (∀ raw, respects R (store_payload raw)) →
  (∀ event d ref, dget_none params "event" = VStr event → jwf (VDict d) → jwf ref →
     respects R (chain_append t actor event (dget_none params "episode_id") d ref)) →
  respects R (submit t actor params).
Proof using HR.
  intros Hp Hstore Happ. unfold submit. apply (respects_bind_ro R); [done|]. intros known [q0 Hknown].
  apply (respects_bind_ro R); [done|]. intros _ [q1 Hreq%require_Ok]. apply (respects_bind_ro R); [done|]. intros d [q Hd].
  destruct Hreq as [-> _]. apply lift_Ok in Hknown as [Hknown _]. apply lift_Ok in Hd as [Hd _].
  assert (jwf (VDict d)) as Hjd.
  { unfold py_or in Hd. destruct (truthy (dget_none params "data")).
    - pose proof (jwf_get _ "data" Hp) as Hj. destruct (dget_none params "data"); try discriminate Hd. by injection Hd as <-.
    - injection Hd as <-. apply jwf_dict. split; constructor. }
  assert (∃ event, dget_none params "event" = VStr event) as [event He].
  { unfold in_str_set in Hknown. destruct (dget_none params "event"); try done; by eexists. }
  rewrite He. apply (respects_bind R jwf); [|apply submit_payload_jwf|by intros; apply Happ].
  assert (∀ raw, respects R (h ← store_payload raw; mret (VStr h))) as Hst.
  { intros raw. apply (respects_bind R (λ _, True)); [done|done|]. intros h _. by apply (respects_readonly R). }
  unfold submit_payload. destruct (dget_none params "payload_b64"); try (by apply (respects_readonly R)).
  - destruct (dget_none params "payload_json"); try apply Hst. by apply (respects_readonly R).
  - apply (respects_bind_ro R); [done|]. intros raw _. apply Hst.
Qed.

Lemma record_respects v t t' actor ckpt :
  jwf (VDict ckpt) →
  (∀ what, respects R (chain_append t actor "integrity_fail" VNone [("what", VStr what)] VNone)) →
  (∀ seq head what, jwf seq → jwf head → respects R (chain_append t' actor "observe_checkpoint" VNone
     [("seq", seq); ("head", head); ("accepted", VBool false); ("problem", VStr what)] VNone)) →
  (∀ seq head, jwf seq → jwf head → respects R (_ ← modify (λ q, mkSequencer (q_lines q) (q_payloads q) (q_anchors q) (q_seq q)
       (q_head q) (q_last_anchor q) (Some (seq, head)) (q_integrity q));
     chain_append t actor "observe_checkpoint" VNone [("seq", seq); ("head", head); ("accepted", VBool true)] VNone)) →
  respects R (record_daemon_checkpoint v t t' actor ckpt).
Proof using HR.
  intros Hc Hfail Hbad Hgood. unfold record_daemon_checkpoint. apply (respects_bind_ro R); [done|]. intros verify _.
  apply (respects_bind_ro R); [done|]. intros sig _. destruct (negb _).
  { apply (respects_bind R (λ _, True)); [apply Hfail | done | by intros; apply (respects_readonly R)]. }
  apply (respects_bind_ro R); [done|]. intros q0 _. apply (respects_bind_ro R); [done|]. intros problem _.
  apply (respects_bind_ro R); [done|]. intros seq [q1 [Hseq _]%lift_Ok]. apply (respects_bind_ro R); [done|].
  intros head [q2 [Hhead _]%lift_Ok]. apply dindex_jwf in Hseq; [|done]. apply dindex_jwf in Hhead; [|done].
  destruct problem as [what|]; [|by apply Hgood].
  apply (respects_bind R (λ _, True)); [apply Hfail | done|]. intros _ _.
  apply (respects_bind R (λ _, True)); [by apply Hbad | done | by intros; apply (respects_readonly R)].
Qed.
End handlers.

Lemma chain_append_extending v t actor event eid data ref :
  decimal t → jwf eid → jwf (VDict data) → jwf ref → respects (extends v) (chain_append t actor event eid data ref).
Proof. intros Ht He Hd Hr q r q'. by apply chain_append_extends. Qed.

Lemma submit_extending v t actor params : decimal t → jwf (VDict params) → respects (extends v) (submit t actor params).
Proof.
  intros Ht Hp. apply (submit_respects _); [done| |].
  - intros raw q r q'. apply store_payload_extends.
  - intros event d ref _ Hd Hr. apply chain_append_extending; try done. by apply jwf_get.
Qed.

Lemma record_daemon_checkpoint_extending v t t' actor ckpt :
  decimal t → decimal t' → jwf (VDict ckpt) → respects (extends v) (record_daemon_checkpoint v t t' actor ckpt).
Proof.
  intros Ht Ht' Hc. apply (record_respects _); [done| | |].
  - intros what. apply chain_append_extending; try done. jwf_literal.
  - intros seq head what Hs Hh. apply chain_append_extending; try done. jwf_literal.
  - intros seq head Hs Hh. apply (respects_bind _ (λ _, True)); [|done|].
    + intros q r q' H. cbv [modify] in H. injection H as <- <-. by apply same_chain_extends.
    + intros _ _. apply chain_append_extending; try done. jwf_literal.
Qed.

(** A snapshot of an earlier state is published in any state that extends it. *)
Lemma anchor_publish_extends v t1 t2 t3 q0 hs0 q hs r q' :
  decimal t3 → qinv v q0 hs0 → qinv v q hs → hs0 `prefix_of` hs →
  anchor_publish v t1 t2 t3 (q_seq q0, q_head q0) q = (r, q') → ∃ hs', qinv v q' hs' ∧ hs `prefix_of` hs'.
Proof.
  intros Ht [Hl0 Hs0 Hh0 _] Hq Hpre H. unfold anchor_publish in H. rewrite Hs0 in H.
  set (n := length (q_lines q0)) in *.
  rewrite lift_bind in H. cbn [anchor_body vindex dget String.eqb Ascii.eqb Bool.eqb of_opt mbind result_bind] in H.
  destruct (n_anchor_up v) as [e|].
  { erewrite bind_raises in H by reflexivity. injection H as <- <-. by exists hs. }
  erewrite bind_run in H by reflexivity. apply links_length in Hl0 as Hlen. fold n in Hlen.
  match type of H with (_ ≫= _) ?q1 = _ => assert (qinv v q1 hs) as Hq1; [|set (q1' := q1) in *] end.
  { destruct Hq as [Hl Hs Hh Ha]. split; [done|done|done|]. cbn. intros a [Hin|Hin%list_elem_of_singleton]%elem_of_app; [by apply Ha|].
    exists n, (q_head q0). split; [exists (Qtrunc (t1 * 1000)); exact Hin|].
    assert (hash_at hs n = Some (q_head q0)) as Hat by (eapply hash_at_prefix; [exact Hpre | rewrite <- Hlen; exact Hh0]).
    split; [by eapply hash_at_le | done]. }
  clearbody q1'. apply (respects_bind (extends v) (λ _, True)) in H; [by apply H| |done|by intros; apply (respects_readonly _)].
  apply chain_append_extending; [done|done| |done]. jwf_literal.
Qed.

(** Runs of an honest sequencer, newest state first: requests are JSON, the clock is
    a binary float, and an anchor publishes the snapshot of any earlier moment. [P]
    says which submissions the clients make. *)
Inductive qstep (v : seq_env) (P : dict → Prop) (past : list sequencer) (q q' : sequencer) : Prop :=
| qs_submit t actor params r : P params → decimal t → jwf (VDict params) → submit t actor params q = (r, q') → qstep v P past q q'
| qs_checkpoint t t' actor ckpt r :
    decimal t → decimal t' → jwf (VDict ckpt) → record_daemon_checkpoint v t t' actor ckpt q = (r, q') → qstep v P past q q'
| qs_anchor q0 t1 t2 t3 r :
    q0 ∈ q :: past → decimal t3 → anchor_publish v t1 t2 t3 (q_seq q0, q_head q0) q = (r, q') → qstep v P past q q'.

Inductive run (v : seq_env) (P : dict → Prop) : list sequencer → Prop :=
| run_init : run v P [empty_sequencer]
| run_step q past q' : run v P (q :: past) → qstep v P past q q' → run v P (q' :: q :: past).

Lemma run_inv v P q past : run v P (q :: past) →
  ∃ hs, qinv v q hs ∧ ∀ q0, q0 ∈ q :: past → ∃ hs0, qinv v q0 hs0 ∧ hs0 `prefix_of` hs.
Proof.
  remember (q :: past) as l eqn:Hl. intros Hrun. revert q past Hl.
  induction Hrun as [|q past q' Hrun IH Hstep]; intros p l' Hl; apply (inj2 cons) in Hl as [<- <-].
  - exists []. assert (qinv v empty_sequencer []) as Hq.
    { split; [constructor|done|done|]. intros a Ha. by apply not_elem_of_nil in Ha. }
    split; [done|]. intros q0 Hq0%list_elem_of_singleton. subst. by exists [].
  - destruct (IH _ _ eq_refl) as (hs & Hq & Hpast).
    assert (∃ hs', qinv v q' hs' ∧ hs `prefix_of` hs') as (hs' & Hq' & Hpre).
    { destruct Hstep as [t actor params r _ Ht Hp H|t t' actor ckpt r Ht Ht' Hc H|q0 t1 t2 t3 r Hin Ht H].
      - exact (submit_extending v t actor params Ht Hp q r q' H hs Hq).
      - exact (record_daemon_checkpoint_extending v t t' actor ckpt Ht Ht' Hc q r q' H hs Hq).
      - destruct (Hpast _ Hin) as (hs0 & Hq0 & Hpre0). exact (anchor_publish_extends v t1 t2 t3 q0 hs0 q hs r q' Ht Hq0 Hq Hpre0 H). }
    exists hs'. split; [done|]. intros q0 [->|Hin]%elem_of_cons; [by exists hs'|].
    destruct (Hpast _ Hin) as (hs0 & Hq0 & Hpre0). exists hs0. split; [done|]. by etrans.
Qed.

(** ** Anchors against a chain *)
Definition key_known (v : seq_env) (keys : list (string * (string → string → bool))) : Prop :=
  ∃ verify, dget keys (n_key_id v) = Some verify ∧ ∀ body, verify (n_sign v body) body = true.

Lemma hashes_get_at (hs : list string) (n : nat) h : hs !! n = Some h → hashes_get hs (VInt (Z.of_nat (S n))) = Ok (VStr h).
Proof.
  intros Hn. unfold hashes_get. cbn [hashable num_of]. f_equal. cbn [mbind option_bind].
  assert (∀ k, find_first (λ nh : nat * string, Qeq_bool (inject_Z (Z.of_nat nh.1)) (inject_Z (Z.of_nat (k + n))))
            (zip (List.seq k (length hs)) hs) = Some (k + n, h)) as Hf.
  { revert n Hn. induction hs as [|x hs IH]; intros n Hn k; [done|]. cbn. destruct n as [|n].
    - cbn in Hn. injection Hn as ->. rewrite Nat.add_0_r.
      assert (Qeq_bool (inject_Z (Z.of_nat k)) (inject_Z (Z.of_nat k)) = true) as -> by (apply Qeq_bool_iff; reflexivity). done.
    - destruct (Qeq_bool _ _) eqn:Hq.
      + apply Qeq_bool_iff in Hq. unfold Qeq, inject_Z in Hq. cbn in Hq. lia.
      + rewrite <- Nat.add_succ_comm. by apply (IH n). }
  specialize (Hf 1). change (1 + n) with (S n) in Hf. by rewrite Hf.
Qed.

Lemma py_eq_nat m n : py_eq (VInt (Z.of_nat m)) (VInt (Z.of_nat n)) = (m =? n)%nat.
Proof.
  cbn. destruct (Nat.eqb_spec m n) as [->|Hne]; [apply Qeq_bool_iff; reflexivity|].
  apply not_true_iff_false. rewrite Qeq_bool_iff. unfold Qeq, inject_Z. cbn. lia.
Qed.
Lemma py_lt_nat m n : py_lt (VInt (Z.of_nat m)) (VInt (Z.of_nat n)) = Some (m <? n)%nat.
Proof.
  transitivity (Some (Qltb (inject_Z (Z.of_nat m)) (inject_Z (Z.of_nat n)))); [done|]. f_equal. destruct (Nat.ltb_spec m n) as [Hlt|Hge]; [apply Qltb_lt | apply Qltb_ge]; unfold Qlt, Qle, inject_Z; cbn; lia.
Qed.

(** An honest anchor, checked against hashes: no error exactly when the hash is there. *)
Lemma check_anchor_honest v keys hashes a n h :
  key_known v keys → anchors v a n h →
  check_anchor keys hashes a =
    if (n =? 0)%nat then Ok ([], None)
    else if (length hashes <? n)%nat then Ok ([Truncation (VInt (Z.of_nat n)) (length hashes)], Some (VInt (Z.of_nat n)))
    else Ok (if bool_decide (hash_at hashes n = Some h) then [] else [Rewrite (VInt (Z.of_nat n))], Some (VInt (Z.of_nat n))).
Proof.
  intros (verify & Hkey & Hsign) (ts & ->). unfold check_anchor. cbn [app mbind result_bind].
  set (d := [("chain_head", VStr h); _; _; _; _]).
  change (key_get keys _) with (Ok (E := exn) (dget keys (n_key_id v))). rewrite Hkey. cbn [mbind result_bind].
  change (vindex (VDict d) "seq") with (Ok (E := exn) (VInt (Z.of_nat n))). cbn [mbind result_bind].
  subst d. cbn [vindex dget String.eqb Ascii.eqb Bool.eqb of_opt mbind result_bind]. rewrite b64u_dec_b64u.
  cbn [anchor_body vindex dget String.eqb Ascii.eqb Bool.eqb of_opt mbind result_bind]. rewrite Hsign. cbn [negb].
  change 0%Z with (Z.of_nat 0). rewrite py_eq_nat, py_lt_nat. cbn [of_opt mbind result_bind].
  destruct n as [|n]; [done|]. cbn [Nat.eqb]. destruct (Nat.ltb_spec (length hashes) (S n)) as [Hlt|Hge]; [done|].
  cbn [hash_at]. destruct (lookup_lt_is_Some_2 hashes n) as [x Hx]; [lia|]. rewrite (hashes_get_at _ _ _ Hx), Hx.
  cbn [mbind result_bind py_eq]. destruct (String.eqb_spec x h) as [->|Hne]; [by rewrite bool_decide_true|].
  rewrite bool_decide_false; [done|]. congruence.
Qed.

Lemma anchor_insert_perm x l l' : anchor_insert x l = Ok l' → l' ≡ₚ x :: l.
Proof.
  revert l'. induction l as [|y l IH]; intros l' H; cbn in H; rinv H; [done|].
  case_match; rinv H; [|done]. rewrite (IH _ eq_refl) || match goal with H : anchor_insert _ _ = _ |- _ => rewrite (IH _ H) end.
  apply Permutation_swap.
Qed.
Lemma sort_anchors_perm l l' : sort_anchors l = Ok l' → l' ≡ₚ l.
Proof.
  revert l'. induction l as [|x l IH]; intros l' H; cbn in H; rinv H; [done|].
  match goal with H : sort_anchors _ = _ |- _ => apply IH in H as Hp end.
  apply anchor_insert_perm in H. by rewrite H, Hp.
Qed.

Definition numbered (a : val) : Prop := ∃ n : nat, vindex a "seq" = Ok (VInt (Z.of_nat n)).
Lemma anchor_insert_total x l : numbered x → Forall numbered l → ∃ l', anchor_insert x l = Ok l'.
Proof.
  intros [n Hn] Hl. induction Hl as [|y l [m Hm] Hl [l' IH]]; cbn; [by eexists|].
  rewrite Hn, Hm. cbn [mbind result_bind]. rewrite py_lt_nat. cbn [of_opt mbind result_bind].
  case_match; [rewrite IH; cbn|]; by eexists.
Qed.
Lemma sort_anchors_total l : Forall numbered l → ∃ l', sort_anchors l = Ok l'.
Proof.
  induction 1 as [|x l Hx Hl [l' IH]]; cbn; [by eexists|]. rewrite IH. cbn. destruct Hx as [n Hn]. rewrite Hn.
  apply anchor_insert_total; [by exists n|]. by rewrite (sort_anchors_perm _ _ IH).
Qed.
Lemma anchors_numbered v a n h : anchors v a n h → numbered a.
Proof. intros (ts & ->). by exists n. Qed.

Lemma check_anchors_honest v keys hs l errs newest :
  key_known v keys → Forall (λ a, ∃ n h, anchors v a n h ∧ n ≤ length hs ∧ hash_at hs n = Some h) l →
  ∃ newest', check_anchors keys hs l errs newest = Ok (errs, newest').
Proof.
  intros Hkey Hl. revert newest. induction Hl as [|a l (n & h & Ha & Hn & Hat) Hl IH]; intros newest; cbn; [by eexists|].
  rewrite (check_anchor_honest _ _ _ _ _ _ Hkey Ha). destruct (Nat.eqb_spec n 0) as [->|Hne].
  - cbn. rewrite app_nil_r. apply IH.
  - destruct (Nat.ltb_spec (length hs) n); [lia|]. rewrite bool_decide_true by done. cbn. rewrite app_nil_r. apply IH.
Qed.

Lemma check_anchors_inv keys hashes l errs newest errs' newest' :
  check_anchors keys hashes l errs newest = Ok (errs', newest') →
  errs `prefix_of` errs' ∧ (errs' = errs → ∀ a, a ∈ l → ∃ s, check_anchor keys hashes a = Ok ([], s)).
Proof.
  revert errs newest. induction l as [|a l IH]; intros errs newest H; cbn in H.
  - injection H as <- <-. split; [done|]. intros _ a Ha. by apply not_elem_of_nil in Ha.
  - apply rbind_Ok in H as ([e s] & Hc & H). apply IH in H as [Hpre Heq]. split.
    + etrans; [|done]. by eexists.
    + intros ->. destruct e as [|x e]; [|by apply prefix_app_not in Hpre]. rewrite app_nil_r in Heq.
      intros b [->|Hb]%elem_of_cons; [by exists s | by apply Heq].
Qed.

(** A file the sequencer wrote verifies against every anchor it put, after
    any run of submissions, checkpoints and anchorings, whatever their order: no
    error, every line counted, the head the sequencer's own. *)
Theorem honest_chain_verifies v P keys q past : run v P (q :: past) → key_known v keys →
  ∃ newest, verify_chain (q_lines q) (q_anchors q) keys = Ok (mkReport_ true (length (q_lines q)) (q_head q) [] newest).
Proof.
  intros (hs & [Hl Hs Hh Ha] & _)%run_inv Hkey. unfold verify_chain.
  rewrite (walk_links_ok _ _ _ _ _ _ _ Hl). cbn [app mbind result_bind].
  assert (Forall (λ a, ∃ n h, anchors v a n h ∧ n ≤ length hs ∧ hash_at hs n = Some h) (q_anchors q)) as Hall
    by (apply list.Forall_forall; exact Ha).
  destruct (sort_anchors_total (q_anchors q)) as [l Hsort].
  { eapply list.Forall_impl; [exact Hall|]. intros a (n & h & Han & _). by eapply anchors_numbered. }
  rewrite Hsort. cbn [mbind result_bind]. rewrite <- (sort_anchors_perm _ _ Hsort) in Hall.
  destruct (check_anchors_honest v keys hs l [] VNone Hkey Hall) as [newest Hc]. rewrite Hc. cbn.
  exists newest. by rewrite (links_length _ _ _ _ _ Hl).
Qed.

(** ** Tamper evidence *)
Lemma links_at n p lines hs h i x : links n p lines hs h → hs !! i = Some x →
  ∃ line d prev, lines !! i = Some line ∧ json_loads line = Some (VDict d) ∧ x = entry_hash (VDict d) ∧
    dget d "prev" = Some (VStr prev) ∧ (p :: hs) !! i = Some prev.
Proof.
  intros Hl. revert i. induction Hl as [n p|n p line d lines hs h Hd Hs Hp Hl IH]; intros i Hi; [done|].
  destruct i as [|i].
  - cbn in Hi. injection Hi as <-. exists line, d, p. split_and!; try done. unfold dget_none in Hp.
    destruct (dget d "prev"); cbn in Hp; by simplify_eq.
  - apply (IH i Hi).
Qed.

(** Lines that read as the same value, up to the order of keys. *)
Definition same_entry (x y : string) : Prop := ∃ d e, json_loads x = Some d ∧ json_loads y = Some e ∧ norm d = norm e.

Lemma same_history lines lines' hs hs' h h' n x :
  links 1 GENESIS lines hs h → links 1 GENESIS lines' hs' h' → hash_at hs n = Some x → hash_at hs' n = Some x →
  collision ∨ Forall2 same_entry (take n lines) (take n lines').
Proof.
  intros Hl Hl'. revert x. induction n as [|n IH]; intros x Hx Hx'; [right; constructor|]. cbn in Hx, Hx'.
  destruct (links_at _ _ _ _ _ _ _ Hl Hx) as (line & d & prev & Hline & Hd & -> & Hprev & Hp).
  destruct (links_at _ _ _ _ _ _ _ Hl' Hx') as (line' & d' & prev' & Hline' & Hd' & Heq & Hprev' & Hp').
  destruct (decide (canonical (VDict d) = canonical (VDict d'))) as [Hc|Hc]; [|left; by exists (canonical (VDict d)), (canonical (VDict d'))].
  pose proof (json_loads_jwf _ _ Hd) as Hj. pose proof (json_loads_jwf _ _ Hd') as Hj'.
  pose proof (canonical_member _ _ _ _ Hj Hj' Hc Hprev) as Hsame. rewrite Hprev' in Hsame. injection Hsame as ->.
  destruct (IH prev) as [Hcol|Hall]; [by destruct n | by destruct n | by left|]. right.
  rewrite (take_S_r _ _ _ Hline), (take_S_r _ _ _ Hline'). apply Forall2_app; [done|]. constructor; [|constructor].
  exists (VDict d), (VDict d'). split_and!; [done|done|]. by apply canonical_inj.
Qed.

(** C7: safety. A chain file that verifies against an anchor the sequencer once put is,
    up to the anchored line, the file the sequencer wrote: nothing cut off, inserted,
    dropped, reordered or edited, whatever other anchors are there; otherwise the file
    exhibits two texts with one SHA-256. *)
Theorem anchored_prefix_is_honest v P keys q past lines ancs rep a :
  run v P (q :: past) → key_known v keys → verify_chain lines ancs keys = Ok rep → cr_ok rep = true →
  a ∈ q_anchors q → a ∈ ancs →
  collision ∨ ∃ n h, anchors v a n h ∧ n ≤ length lines ∧ Forall2 same_entry (take n lines) (take n (q_lines q)).
Proof.
  intros (hs & [Hl Hs Hh Ha] & _)%run_inv Hkey Hv Hok Hin Hin'. destruct (Ha a Hin) as (n & h & Han & Hle & Hat).
  unfold verify_chain in Hv. apply rbind_Ok in Hv as ([[errs hashes] head] & Hw & Hv).
  apply rbind_Ok in Hv as (l & Hsort & Hv). apply rbind_Ok in Hv as ([errs' newest] & Hc & Hv).
  injection Hv as <-. cbn in Hok. apply bool_decide_eq_true, nil_length_inv in Hok. subst errs'.
  apply check_anchors_inv in Hc as [Hpre Hc]. apply prefix_nil_inv in Hpre. subst errs.
  destruct (Hc eq_refl a) as [s Hs']; [by rewrite (sort_anchors_perm _ _ Hsort)|].
  apply walk_links_inv in Hw as [_ Hw]. destruct (Hw eq_refl) as (hs' & -> & Hl'). cbn in Hs'.
  assert (n ≤ length hs' ∧ hash_at hs' n = Some h) as [Hn Hat'].
  { rewrite (check_anchor_honest _ _ _ _ _ _ Hkey Han) in Hs'. destruct (Nat.eqb_spec n 0) as [->|Hne]; [split; [lia|exact Hat]|].
    destruct (Nat.ltb_spec (length hs') n); [done|]. split; [done|]. case_bool_decide; [done|discriminate Hs']. }
  destruct (same_history _ _ _ _ _ _ _ _ Hl' Hl Hat' Hat) as [Hcol|Hsame]; [by left|]. right.
  exists n, h. rewrite <- (links_length _ _ _ _ _ Hl'). by split_and!.
Qed.

(** ** Restart *)
Lemma load_lines_snoc n lines line q :
  load_lines n (lines ++ [line]) q = (q' ← load_lines n lines q; load_line (n + length lines) line q').
Proof.
  revert n q. induction lines as [|l lines IH]; intros n q; cbn.
  - rewrite Nat.add_0_r. by destruct (load_line n line q).
  - destruct (load_line n l q) as [q1|]; [|done]. cbn. by rewrite IH, Nat.add_succ_comm.
Qed.

Lemma norm_dict d : NoDup (dkeys d) → ∃ d', norm (VDict d) = VDict d' ∧ ∀ k, dget d' k = norm <$> dget d k.
Proof.
  intros Hnd. eexists. split; [reflexivity|]. intros k. destruct (norm_get d k Hnd) as (d' & Hd' & Hg). by injection Hd' as <-.
Qed.

(** Starting on the file gives the state back, with [d] as the last checkpoint. *)
Definition reloads (q : sequencer) (d : option (val * val)) : Prop :=
  ∀ payloads ancs, ∃ la, load (q_lines q) payloads ancs =
    Ok (mkSequencer (q_lines q) payloads ancs (q_seq q) (q_head q) la d None).

Definition accepted_checkpoint (data : dict) (d d' : option (val * val)) : Prop :=
  ∃ acc s h, dget data "accepted" = Some (VBool acc) ∧ dget data "seq" = Some s ∧ dget data "head" = Some h ∧
    d' = if acc : bool then Some (norm s, norm h) else d.

Lemma load_line_written n q t actor event eid data ref d' :
  decimal t → jwf eid → jwf (VDict data) → jwf ref →
  (if String.eqb event "observe_checkpoint" then accepted_checkpoint data (q_daemon_last q) d' else d' = q_daemon_last q) →
  let e := VDict (chain_entry (VInt (Z.of_nat n)) t (q_head q) actor event eid data ref) in
  ∃ la, load_line n (canonical e) q =
    Ok (mkSequencer (q_lines q ++ [canonical e]) (q_payloads q) (q_anchors q) (VInt (Z.of_nat n)) (entry_hash e) la d' (q_integrity q)).
Proof.
  intros Ht Heid Hdata Href Hd. set (e := chain_entry _ _ _ _ _ _ _ _). cbn zeta.
  assert (jwf (VDict e)) as Hw by (by apply chain_entry_jwf).
  assert (NoDup (dkeys e)) as Hnd by (apply (bool_decide_unpack _); vm_compute; exact I).
  unfold load_line. rewrite (loads_canonical _ Hw). cbn [of_opt mbind result_bind].
  destruct (norm_dict e Hnd) as (e' & Hne & Hg). rewrite Hne.
  assert (entry_hash (VDict e') = entry_hash (VDict e)) as -> by (unfold entry_hash; rewrite <- Hne; by rewrite canonical_norm).
  apply jwf_dict in Hdata as [Hndd _]. destruct (norm_dict data Hndd) as (f & Hnf & Hgf).
  assert (∀ k x, dget e k = Some x → vindex (VDict e') k = Ok (norm x)) as Hidx by (intros k x Hk; cbn; by rewrite Hg, Hk).
  rewrite (Hidx "prev" _ eq_refl), (Hidx "seq" _ eq_refl), (Hidx "event" _ eq_refl), (Hidx "ts" _ eq_refl), (Hidx "data" _ eq_refl), Hnf.
  clear Hidx. cbn [norm mbind result_bind]. rewrite (proj2 (py_eq_str_l _ _) eq_refl), py_eq_int. cbn [negb mbind result_bind].
  assert (∀ x y, py_eq (VStr x) (VStr y) = String.eqb x y) as Hstr by done. rewrite !Hstr.
  destruct (String.eqb_spec event "observe_checkpoint") as [->|Hne'].
  - destruct Hd as (acc & s & h & Hacc & Hs & Hh & ->). cbn [String.eqb Ascii.eqb Bool.eqb mbind result_bind].
    cbn [vget vindex mbind result_bind]. unfold dget_none. rewrite !Hgf, Hacc, Hs, Hh.
    cbn [fmap option_fmap option_map norm default from_option truthy of_opt mbind result_bind].
    destruct acc; cbn; by eexists.
  - subst d'. destruct (String.eqb event "anchor"); cbn; by eexists.
Qed.

Lemma chain_append_reloads t actor event eid data ref q r q' d d' :
  decimal t → jwf eid → jwf (VDict data) → jwf ref → q_seq q = VInt (Z.of_nat (length (q_lines q))) →
  chain_append t actor event eid data ref q = (r, q') → reloads q d →
  (if String.eqb event "observe_checkpoint" then accepted_checkpoint data d d' else d' = d) → reloads q' d'.
Proof.
  intros Ht Heid Hdata Href Hs H Hq Hd pays ancs. unfold chain_append in H. rewrite get_bind, Hs, lift_bind in H. cbn [py_succ] in H.
  cbv [put_state mbind M_bind mret M_ret] in H. injection H as <- <-. cbn [q_lines q_seq q_head].
  destruct (Hq pays ancs) as [la Hload]. unfold load in *. rewrite load_lines_snoc, Hload.
  rewrite Z.add_1_r, <- Nat2Z.inj_succ. set (q1 := mkSequencer _ _ _ _ _ la _ _).
  destruct (load_line_written (S (length (q_lines q))) q1 t actor event eid data ref d' Ht Heid Hdata Href Hd) as [la' Hl].
  exists la'. exact Hl.
Qed.

(** The last checkpoint as a restarted process has it. *)
Definition saved (d : option (val * val)) : option (val * val) := (λ p, (norm p.1, norm p.2)) <$> d.
Definition recoverable (q : sequencer) : Prop :=
  q_seq q = VInt (Z.of_nat (length (q_lines q))) ∧ reloads q (saved (q_daemon_last q)).
Definition recovers (q q' : sequencer) : Prop := recoverable q → recoverable q'.
#[local] Instance recovers_preorder : PreOrder recovers.
Proof. split; [intros q Hq; exact Hq|]. intros q1 q2 q3 H12 H23 H1. by apply H23, H12. Qed.

Lemma load_line_unreadable n q t prev actor data :
  decimal t → jwf (VDict data) → dget data "accepted" = Some (VBool true) → dget data "seq" = None →
  load_line n (canonical (VDict (chain_entry (VInt (Z.of_nat n)) t prev actor "observe_checkpoint" VNone data VNone))) q =
  Err (PyExc "KeyError").
Proof.
  intros Ht Hdata Hacc Hno. set (e := chain_entry _ _ _ _ _ _ _ _).
  assert (jwf (VDict e)) as Hw by (by apply chain_entry_jwf).
  destruct (norm_dict e) as (e' & Hne & Hg); [apply (bool_decide_unpack _); vm_compute; exact I|].
  unfold load_line. rewrite (loads_canonical _ Hw), Hne. cbn [of_opt mbind result_bind].
  apply jwf_dict in Hdata as [Hndd _]. destruct (norm_dict data Hndd) as (f & Hnf & Hgf).
  assert (∀ k x, dget e k = Some x → vindex (VDict e') k = Ok (norm x)) as Hidx by (intros k x Hk; cbn; by rewrite Hg, Hk).
  rewrite (Hidx "prev" _ eq_refl), (Hidx "seq" _ eq_refl), (Hidx "event" _ eq_refl), (Hidx "ts" _ eq_refl), (Hidx "data" _ eq_refl), Hnf.
  cbn [norm mbind result_bind]. destruct (py_eq (VStr prev) _); cbn [mbind result_bind py_eq String.eqb Ascii.eqb Bool.eqb];
    cbn [vget vindex mbind result_bind]; unfold dget_none; rewrite !Hgf, Hacc, Hno; done.
Qed.

Lemma chain_append_seq t actor event eid data ref q r q' :
  q_seq q = VInt (Z.of_nat (length (q_lines q))) → chain_append t actor event eid data ref q = (r, q') →
  q_seq q' = VInt (Z.of_nat (length (q_lines q'))) ∧ q_daemon_last q' = q_daemon_last q.
Proof.
  intros Hs H. unfold chain_append in H. rewrite get_bind, Hs, lift_bind in H. cbn [py_succ] in H.
  cbv [put_state mbind M_bind mret M_ret] in H. injection H as <- <-. cbn. split; [|done]. f_equal. rewrite length_app. cbn. lia.
Qed.

Lemma chain_append_recovers t actor event eid data ref :
  decimal t → jwf eid → jwf (VDict data) → jwf ref →
  event ≠ "observe_checkpoint" ∨ dget data "accepted" = Some (VBool false) ∧ is_Some (dget data "seq") ∧ is_Some (dget data "head") →
  respects recovers (chain_append t actor event eid data ref).
Proof.
  intros Ht He Hd Hr Hev q r q' H [Hs Hq]. destruct (chain_append_seq _ _ _ _ _ _ _ _ _ Hs H) as [Hs' Hdl]. split; [done|].
  rewrite Hdl. apply (chain_append_reloads t actor event eid data ref q r q' (saved (q_daemon_last q)) _ Ht He Hd Hr Hs H Hq).
  destruct (String.eqb_spec event "observe_checkpoint") as [->|Hne]; [|done].
  destruct Hev as [?|(Ha & [s Hseq] & [h Hhead])]; [done|]. by exists false, s, h.
Qed.

Lemma store_payload_recovers raw : respects recovers (store_payload raw).
Proof.
  intros q r q'. unfold store_payload. rewrite require_bind. destruct (slen raw <=? MAX_PAYLOAD)%N; [|intros [= <- <-] Hq; exact Hq].
  rewrite get_bind. destruct (dmem _ _); intros H; cbv [mret M_ret mbind M_bind put_state] in H; injection H as <- <-; intros Hq; exact Hq.
Qed.

Lemma checkpoint_recovers t actor seq head : decimal t → jwf seq → jwf head →
  respects recovers (_ ← modify (λ q, mkSequencer (q_lines q) (q_payloads q) (q_anchors q) (q_seq q)
       (q_head q) (q_last_anchor q) (Some (seq, head)) (q_integrity q));
     chain_append t actor "observe_checkpoint" VNone [("seq", seq); ("head", head); ("accepted", VBool true)] VNone).
Proof.
  intros Ht Hs Hh q r q' H [Hq Hl]. cbv [modify mbind M_bind] in H.
  match type of H with chain_append _ _ _ _ _ _ ?q = _ => set (q1 := q) in H end.
  destruct (chain_append_seq _ _ _ _ _ _ q1 _ _ Hq H) as [Hs' Hdl]. split; [done|].
  rewrite Hdl. eapply (chain_append_reloads t actor "observe_checkpoint" VNone _ VNone q1); try done; [jwf_literal|].
  by exists true, seq, head.
Qed.

Lemma anchor_publish_recovers v t1 t2 t3 snap : decimal t3 → jwf snap.1 → respects recovers (anchor_publish v t1 t2 t3 snap).
Proof.
  intros Ht Hs. destruct snap as [seq head]. unfold anchor_publish. apply (respects_bind_ro _); [done|]. intros body _.
  apply (respects_bind _ (λ _, True)); [|done|intros _ _].
  - intros q r q' H. destruct (n_anchor_up v); [cbv [raise] in H | cbv [modify] in H]; injection H as <- <-; intros Hq; exact Hq.
  - apply (respects_bind _ (λ _, True)); [|done|by intros; apply (respects_readonly _)].
    apply chain_append_recovers; try done; [jwf_literal|by left].
Qed.

(** A sequencer started on the file it wrote has the file's seq, head and
    last daemon checkpoint again, finds the chain intact and appends where it stopped,
    provided no client submitted an [observe_checkpoint] of its own. *)
Theorem sequencer_restart_recovers v P q past payloads ancs :
  run v P (q :: past) → (∀ params, P params → dget_none params "event" ≠ VStr "observe_checkpoint") →
  ∃ last_anchor, load (q_lines q) payloads ancs =
    Ok (mkSequencer (q_lines q) payloads ancs (q_seq q) (q_head q) last_anchor (saved (q_daemon_last q)) None).
Proof.
  intros Hrun HP. enough (recoverable q) as [_ H] by apply H.
  remember (q :: past) as l eqn:Hl. revert q past Hl.
  induction Hrun as [|q past q' Hrun IH Hstep]; intros p l' Hl; apply (inj2 cons) in Hl as [<- <-].
  { split; [done|]. intros pays ancs'. by eexists. }
  specialize (IH _ _ eq_refl). destruct Hstep as [t actor params r HPp Ht Hp H|t t' actor ckpt r Ht Ht' Hc H|q0 t1 t2 t3 r Hin Ht H].
  - eapply (submit_respects recovers t actor params Hp); [apply store_payload_recovers| |exact H|exact IH].
    intros event d ref He Hd Href. apply chain_append_recovers; try done; [by apply jwf_get|]. left. intros ->. by apply HP in HPp.
  - eapply (record_respects recovers v t t' actor ckpt Hc); [| | |exact H|exact IH].
    + intros what. apply chain_append_recovers; try done; [jwf_literal|by left].
    + intros seq head what Hs Hh. apply chain_append_recovers; try done; [jwf_literal|]. right. split_and!; by eexists.
    + intros seq head. by apply checkpoint_recovers.
  - destruct (run_inv _ _ _ _ Hrun) as (hs & _ & Hpast). destruct (Hpast _ Hin) as (hs0 & [_ Hs0 _ _] & _).
    eapply anchor_publish_recovers; [exact Ht| |exact H|exact IH]. cbn. by rewrite Hs0.
Qed.

(** ** A client that submits an [observe_checkpoint] *)
(** Any client's submission stands for the daemon's next checkpoint after a restart,
    and one without its members keeps the sequencer from starting. *)
Theorem submitted_checkpoint_stops_restart q t actor data payloads ancs :
  decimal t → jwf (VDict data) → recoverable q → dget data "accepted" = Some (VBool true) → dget data "seq" = None →
  let '(r, q') := submit t actor [("event", VStr "observe_checkpoint"); ("data", VDict data)] q in
  is_ok r = true ∧ load (q_lines q') payloads ancs = Err (PyExc "KeyError").
Proof.
  intros Ht Hj [Hseq Hq] Hacc Hno. set (params := [_; _]).
  assert (submit t actor params q = chain_append t actor "observe_checkpoint" VNone data VNone q) as ->.
  { unfold submit. cbn [params dget_none dget String.eqb Ascii.eqb Bool.eqb default from_option].
    destruct data as [|kv data]; [done|]. reflexivity. }
  unfold chain_append. rewrite get_bind, Hseq, lift_bind. cbn [py_succ]. cbv [put_state mbind M_bind mret M_ret]. split; [done|].
  cbn [q_lines]. destruct (Hq payloads ancs) as [la Hload]. unfold load in *. rewrite load_lines_snoc, Hload. cbn [mbind result_bind].
  rewrite Z.add_1_r, <- Nat2Z.inj_succ. eapply load_line_unreadable; done.
Qed.
End audit.

(** ** An example run *)
Definition demo_hash : Hash := λ s, fmt_id "h" (String.length s).
Definition demo_audit : seq_env := mkSeqEnv (λ body, "sig:" +:+ body) "k1" None None.
Definition demo_keys : list (string * (string → string → bool)) := [("k1", λ sig body, String.eqb sig ("sig:" +:+ body))].
Definition no_checkpoint (params : dict) : Prop := dget_none params "event" ≠ VStr "observe_checkpoint".
Definition seq1 : sequencer := (submit (HASH := demo_hash) 100 "controller" [("event", VStr "step"); ("episode_id", VStr "ep1")] empty_sequencer).2.
Definition seq2 : sequencer := (anchor_publish (HASH := demo_hash) demo_audit 101 102 103 (q_seq seq1, q_head seq1) seq1).2.
Definition demo_anchor : val := default VNone (head (q_anchors seq2)).

Lemma demo_run : run (HASH := demo_hash) demo_audit no_checkpoint [seq2; seq1; empty_sequencer].
Proof.
  apply run_step; [apply run_step; [apply run_init|]|].
  - eapply (qs_submit (HASH := demo_hash) _ _ _ _ _ 100 "controller" [("event", VStr "step"); ("episode_id", VStr "ep1")]);
      [done | vm_compute; reflexivity | jwf_literal | exact (surjective_pairing _)].
  - eapply (qs_anchor (HASH := demo_hash) _ _ _ _ _ seq1 101 102 103); [left | vm_compute; reflexivity | exact (surjective_pairing _)].
Qed.
Lemma demo_key_known : key_known demo_audit demo_keys.
Proof. eexists. split; [reflexivity|]. intros body. apply String.eqb_refl. Qed.

Lemma honest_chain_verifies_witness :
  ∃ newest, verify_chain (HASH := demo_hash) (q_lines seq2) (q_anchors seq2) demo_keys =
    Ok (mkReport_ true 2 (q_head seq2) [] newest).
Proof.
  change 2 with (length (q_lines seq2)).
  exact (honest_chain_verifies (HASH := demo_hash) demo_audit no_checkpoint demo_keys seq2 [seq1; empty_sequencer] demo_run demo_key_known).
Defined.

(** The file cut off after the anchored line. *)
Lemma anchored_prefix_is_honest_witness :
  collision (HASH := demo_hash) ∨ ∃ n h, anchors demo_audit demo_anchor n h ∧ n ≤ 1 ∧
    Forall2 same_entry (take n (take 1 (q_lines seq2))) (take n (q_lines seq2)).
Proof.
  change 1 with (length (take 1 (q_lines seq2))) at 1.
  eapply (anchored_prefix_is_honest (HASH := demo_hash) demo_audit no_checkpoint demo_keys seq2 [seq1; empty_sequencer]
    (take 1 (q_lines seq2)) (q_anchors seq2) _ demo_anchor demo_run demo_key_known);
    [vm_compute; reflexivity | reflexivity | vm_compute; left | vm_compute; left].
Defined.

Lemma sequencer_restart_recovers_witness :
  ∃ last_anchor, load (HASH := demo_hash) (q_lines seq2) [] [] =
    Ok (mkSequencer (q_lines seq2) [] [] (VInt 2) (q_head seq2) last_anchor None None).
Proof.
  refine (sequencer_restart_recovers (HASH := demo_hash) demo_audit no_checkpoint seq2 [seq1; empty_sequencer] [] [] demo_run _).
  by intros params.
Defined.
