(* ===== verification/LocalChain.v ===== *)
(** * The observer daemon's own chain (src/valops/observer/chain.py)

    The daemon on the validator host keeps a second hash chain and serves signed
    checkpoints of it; the sequencer on the operations host compares each with the
    last one it recorded. *)
From S2P Require Import Prelude PyVal Schema Canonical Json Rpc AuditChain AuditProps.
From Stdlib Require Import Ascii.

Section chain.
Context `{HASH : Hash}.

(** src/valops/observer/chain.py:23-40 LocalChain.__init__

    [c_hashes] are [self.hashes] of 1, 2, ...; [self.hashes[0]] is [GENESIS]. *)
Record local_chain : Type := mkChain {
  c_lines : list string;
  c_hashes : list string;
  c_seq : nat;
}.
Abbreviation CM := (M local_chain exn).

(** One line of the loop of [__init__], with the hash of the one before. *)
Definition start_line (n : nat) (line prev : string) : result exn string :=
  e ← of_opt (json_loads line) (PyExc "ValueError");
  p ← vindex e "prev";
  _ ← check (py_eq p (VStr prev)) (PyExc "RuntimeError");
  seq ← vindex e "seq";
  _ ← check (py_eq seq (VInt (Z.of_nat n))) (PyExc "RuntimeError");
  Ok (entry_hash e).

Fixpoint start_lines (n : nat) (prev : string) (lines : list string) : result exn (list string) :=
  match lines with
  | [] => Ok []
  | line :: lines' => h ← start_line n line prev; hs ← start_lines (S n) h lines'; Ok (h :: hs)
  end.

(** src/valops/observer/chain.py:24-38 LocalChain.__init__

    A daemon start on the file that is there. *)
Definition start_chain (lines : list string) : result exn local_chain :=
  hs ← start_lines 1 GENESIS lines;
  Ok (mkChain lines hs (length lines)).

(** src/valops/observer/chain.py:42-50 LocalChain.append *)
Definition chain_add (t : Q) (data : dict) : CM val :=
  c ← get_state;
  prev ← lift (of_opt (hash_at (c_hashes c) (c_seq c)) (PyExc "KeyError"));
  let e := VDict (dupdate [("seq", VInt (Z.of_nat (c_seq c) + 1)); ("ts", VFloat t); ("prev", VStr prev)] data) in
  let h := entry_hash e in
  _ ← put_state (mkChain (c_lines c ++ [canonical e]) (c_hashes c ++ [h]) (S (c_seq c)));
  mret (VDict [("seq", VInt (Z.of_nat (S (c_seq c)))); ("hash", VStr h)]).

(** The part of a checkpoint that is signed. *)
Definition checkpoint_fields (t : Q) (since : option nat) (c : local_chain) : result exn dict :=
  head ← of_opt (hash_at (c_hashes c) (c_seq c)) (PyExc "KeyError");
  let since := match since with Some s => if (s <=? c_seq c)%nat then Some s else None | None => None end in
  Ok [("seq", VInt (Z.of_nat (c_seq c))); ("head", VStr head); ("ts", VFloat t);
      ("since_seq", opt_val (λ s, VInt (Z.of_nat s)) since);
      ("since_head", opt_val VStr (s ← since; hash_at (c_hashes c) s))].

(** src/valops/observer/chain.py:52-56 LocalChain.checkpoint

    [since] comes from the digits of the request's query. *)
Definition checkpoint (sign : string → string) (t : Q) (since : option nat) (c : local_chain) : result exn dict :=
  ck ← checkpoint_fields t since c;
  Ok (ck ++ [("sig", VStr (b64u (sign (checkpoint_body ck))))]).

(** ** Well-formed chains *)
Definition cinv (c : local_chain) : Prop := (∃ h, links 1 GENESIS (c_lines c) (c_hashes c) h) ∧ c_seq c = length (c_hashes c).

Lemma start_lines_links n p lines hs : start_lines n p lines = Ok hs → ∃ h, links n p lines hs h.
Proof.
  revert n p hs. induction lines as [|line lines IH]; intros n p hs H; cbn in H.
  - injection H as <-. eexists. constructor.
  - rinv H. unfold start_line in Hr. rinv Hr. apply IH in Hr0 as [h' Hl].
    match goal with H : json_loads _ = Some ?e |- _ => destruct e as [| | | | | |d]; try done end.
    eexists. eapply links_cons; try done.
    + cbn in *. unfold dget_none. by destruct (dget d "seq"); simplify_eq/=.
    + cbn in *. unfold dget_none. destruct (dget d "prev"); simplify_eq/=. by apply py_eq_str_r.
Qed.
Lemma start_chain_inv lines c : start_chain lines = Ok c → cinv c ∧ c_lines c = lines.
Proof.
  unfold start_chain. intros H. rinv H. split; [|done]. apply start_lines_links in Hr as [h Hl]. split; [by exists h|].
  cbn. symmetry. by eapply links_length.
Qed.

Lemma dget_dupdate_other {A} (d e : list (string * A)) k : k ∉ dkeys e → dget (dupdate d e) k = dget d k.
Proof.
  unfold dupdate. revert d. induction e as [|[k' x] e IH]; intros d Hk; cbn; [done|].
  cbn in Hk. apply not_elem_of_cons in Hk as [Hne Hk]. rewrite IH by done. by apply dget_dset_ne.
Qed.

(** The daemon's records do not name the chain's own members. *)
Definition chainable (data : dict) : Prop := ("seq" ∉ dkeys data) ∧ ("prev" ∉ dkeys data) ∧ Forall (λ kv, jwf kv.2) data.

Lemma chain_add_inv t data c : cinv c → decimal t → chainable data →
  ∃ h, let c' := mkChain (c_lines c ++ [h.1]) (c_hashes c ++ [h.2]) (S (c_seq c)) in
    chain_add t data c = (Ok (VDict [("seq", VInt (Z.of_nat (S (c_seq c)))); ("hash", VStr h.2)]), c') ∧ cinv c'.
Proof.
  intros [(h & Hl) Hs] Ht (Hseq & Hprev & Hj).
  assert (hash_at (c_hashes c) (c_seq c) = Some h) as Hat by (rewrite Hs; by eapply links_hash_at).
  set (d := dupdate [("seq", VInt (Z.of_nat (c_seq c) + 1)); ("ts", VFloat t); ("prev", VStr h)] data).
  exists (canonical (VDict d), entry_hash (VDict d)). cbn zeta. split.
  { unfold chain_add. rewrite get_bind, lift_bind, Hat. reflexivity. }
  assert (jwf (VDict d)) as Hd by (apply dupdate_jwf; [jwf_literal|done]).
  apply jwf_dict in Hd as Hnd. destruct Hnd as [Hnd _]. destruct (norm_dict d Hnd) as (e & Hne & Hg).
  assert (entry_hash (VDict e) = entry_hash (VDict d)) as Heh by (unfold entry_hash; rewrite <- Hne; by rewrite canonical_norm).
  split; [|cbn; rewrite length_app; cbn; lia]. exists (entry_hash (VDict d)). cbn. rewrite <- Heh. eapply links_snoc; [exact Hl| | |].
  - rewrite loads_canonical by by apply dupdate_jwf; [jwf_literal|]. by rewrite Hne.
  - unfold dget_none. rewrite Hg. unfold d. rewrite dget_dupdate_other by done. cbn. do 2 f_equal.
    rewrite (links_length _ _ _ _ _ Hl) in Hs. lia.
  - unfold dget_none. rewrite Hg. unfold d. by rewrite dget_dupdate_other by done.
Qed.

(** ** The two chains together *)
(** The sequencer's last checkpoint is a moment of the daemon's chain. *)
Definition sync (c : local_chain) (last : option (val * val)) : Prop :=
  match last with
  | None => True
  | Some (s, h) => ∃ n x, s = VInt (Z.of_nat n) ∧ h = VStr x ∧ hash_at (c_hashes c) n = Some x
  end.
(** What the broker asks for: the daemon's hash at the last recorded seq. *)
Definition since_of (last : option (val * val)) : option nat :=
  match last with Some (VInt z, _) => Some (Z.to_nat z) | _ => None end.

Lemma sync_add c last line h n : sync c last → sync (mkChain (c_lines c ++ [line]) (c_hashes c ++ [h]) n) last.
Proof.
  destruct last as [[s x]|]; [|done]. intros (m & y & -> & -> & Hat). exists m, y. split_and!; [done..|].
  eapply hash_at_prefix; [|exact Hat]. by eexists.
Qed.

Context (v : seq_env) (sign : string → string) (verify : string → string → bool).
Context (Hdaemon : n_daemon v = Some verify) (Hsign : ∀ body, verify (sign body) body = true).

(** The checkpoint of a well-formed chain. *)
Lemma checkpoint_made c t since : cinv c → ∃ head,
  hash_at (c_hashes c) (c_seq c) = Some head ∧
  let from := match since with Some s => if (s <=? c_seq c)%nat then Some s else None | None => None end in
  let fields := [("seq", VInt (Z.of_nat (c_seq c))); ("head", VStr head); ("ts", VFloat t);
      ("since_seq", opt_val (λ s, VInt (Z.of_nat s)) from); ("since_head", opt_val VStr (s ← from; hash_at (c_hashes c) s))] in
  checkpoint sign t since c = Ok (fields ++ [("sig", VStr (b64u (sign (checkpoint_body fields))))]).
Proof.
  intros [(h & Hl) Hs]. assert (hash_at (c_hashes c) (c_seq c) = Some h) as Hat by (rewrite Hs; by eapply links_hash_at).
  exists h. split; [done|]. unfold checkpoint, checkpoint_fields. rewrite Hat. reflexivity.
Qed.

(** A signed checkpoint is judged on its members. *)
Lemma record_signed t t' actor s h ts since head q :
  let ck := [("seq", s); ("head", h); ("ts", ts); ("since_seq", since); ("since_head", head)] in
  let ck := ck ++ [("sig", VStr (b64u (sign (checkpoint_body ck))))] in
  let data acc := [("seq", s); ("head", h); ("accepted", VBool acc)] in
  record_daemon_checkpoint v t t' actor ck q =
  (problem ← lift (checkpoint_problem (q_daemon_last q) ck);
   match problem with
   | Some what =>
       _ ← chain_append t actor "integrity_fail" VNone [("what", VStr what)] VNone;
       _ ← chain_append t' actor "observe_checkpoint" VNone (data false ++ [("problem", VStr what)]) VNone;
       raise (rpc_error "integrity")
   | None =>
       _ ← modify (λ q, mkSequencer (q_lines q) (q_payloads q) (q_anchors q) (q_seq q) (q_head q) (q_last_anchor q)
                          (Some (s, h)) (q_integrity q));
       chain_append t actor "observe_checkpoint" VNone (data true) VNone
   end) q.
Proof using Hdaemon Hsign.
  cbn zeta. set (ck := [_; _; _; _; _]). unfold record_daemon_checkpoint. rewrite Hdaemon. cbn [of_opt]. rewrite lift_bind.
  change (dget (ck ++ _) "sig") with (Some (VStr (b64u (sign (checkpoint_body ck))))). cbn [default from_option id].
  rewrite b64u_dec_b64u. cbn [of_opt]. rewrite lift_bind.
  change (checkpoint_body (ck ++ _)) with (checkpoint_body ck). rewrite Hsign. cbn [negb]. rewrite get_bind, !lift_bind.
  destruct (checkpoint_problem _ _) as [[what|]|e]; done.
Qed.

(** An append to a numbered file returns. *)
Lemma chain_append_run t actor event eid data ref q :
  q_seq q = VInt (Z.of_nat (length (q_lines q))) → ∃ r q',
  chain_append t actor event eid data ref q = (Ok r, q') ∧ q_daemon_last q' = q_daemon_last q ∧
  length (q_lines q') = S (length (q_lines q)) ∧ q_seq q' = VInt (Z.of_nat (length (q_lines q'))).
Proof.
  intros Hs. unfold chain_append. rewrite get_bind, Hs, lift_bind. cbn [py_succ]. cbv [put_state mbind M_bind mret M_ret].
  do 2 eexists. split; [reflexivity|]. cbn. rewrite length_app. cbn. split_and!; [done|lia|f_equal; lia].
Qed.

Lemma sync_no_problem c t last ck :
  cinv c → sync c last → checkpoint sign t (since_of last) c = Ok ck → checkpoint_problem last ck = Ok None.
Proof.
  intros Hc Hsync Hck. destruct (checkpoint_made c t (since_of last) Hc) as (head & Hhead & Hmade).
  cbn zeta in Hmade. rewrite Hmade in Hck. apply Ok_inj in Hck. subst ck.
  destruct last as [[s h]|]; [|done]. destruct Hsync as (n & x & -> & -> & Hat). cbn [since_of]. rewrite Nat2Z.id.
  destruct Hc as [_ Hs]. pose proof (hash_at_le _ _ _ Hat) as Hle. rewrite <- Hs in Hle.
  destruct (Nat.leb_spec n (c_seq c)); [|lia]. cbn [opt_val mbind option_bind]. rewrite Hat.
  unfold checkpoint_problem. change (dindex _ "seq") with (Ok (E := exn) (VInt (Z.of_nat (c_seq c)))). cbn [mbind result_bind].
  rewrite py_lt_nat. cbn [of_opt mbind result_bind]. destruct (Nat.ltb_spec (c_seq c) n); [lia|].
  change (dget_none _ "since_seq") with (VInt (Z.of_nat n)). rewrite py_eq_int.
  change (dget_none _ "since_head") with (VStr x). by rewrite (proj2 (py_eq_str_l x (VStr x)) eq_refl).
Qed.

Lemma checkpoint_accepted c q t t1 t2 actor ck :
  cinv c → sync c (q_daemon_last q) → q_seq q = VInt (Z.of_nat (length (q_lines q))) →
  checkpoint sign t (since_of (q_daemon_last q)) c = Ok ck →
  ∃ r q' head, record_daemon_checkpoint v t1 t2 actor ck q = (Ok r, q') ∧ hash_at (c_hashes c) (c_seq c) = Some head ∧
    q_daemon_last q' = Some (VInt (Z.of_nat (c_seq c)), VStr head) ∧ length (q_lines q') = S (length (q_lines q)) ∧
    q_seq q' = VInt (Z.of_nat (length (q_lines q'))).
Proof using Hdaemon Hsign.
  intros Hc Hsync Hseq Hck. pose proof (sync_no_problem _ _ _ _ Hc Hsync Hck) as Hp.
  destruct (checkpoint_made c t (since_of (q_daemon_last q)) Hc) as (head & Hhead & Hmade).
  cbn zeta in Hmade. rewrite Hmade in Hck. apply Ok_inj in Hck. subst ck. rewrite record_signed, Hp, lift_bind.
  erewrite bind_run by reflexivity. edestruct chain_append_run as (r & q' & Hrun & Hd & Hl & Hq); [|rewrite Hrun]; [exact Hseq|].
  exists r, q', head. split_and!; [done|done|by rewrite Hd|done|done].
Qed.

(** ** Both processes *)
Definition joint : Type := local_chain * sequencer.

(** What happens to the two chains: the daemon serves a request or restarts; the
    broker forwards a checkpoint, asking since the last one recorded; a client of the
    sequencer submits; an anchor is put. *)
Inductive jstep (t t1 t2 t3 : Q) : joint → joint → Prop :=
| j_serve c q data r c' : decimal t → chainable data → chain_add t data c = (r, c') → jstep t t1 t2 t3 (c, q) (c', q)
| j_restart c q c' : start_chain (c_lines c) = Ok c' → jstep t t1 t2 t3 (c, q) (c', q)
| j_checkpoint c q actor ck r q' :
    checkpoint sign t (since_of (q_daemon_last q)) c = Ok ck →
    record_daemon_checkpoint v t1 t2 actor ck q = (r, q') → jstep t t1 t2 t3 (c, q) (c, q')
| j_submit c q actor params r q' : jwf (VDict params) → submit t1 actor params q = (r, q') → jstep t t1 t2 t3 (c, q) (c, q')
| j_anchor c q snap r q' : anchor_publish v t1 t2 t3 snap q = (r, q') → jstep t t1 t2 t3 (c, q) (c, q').
Definition jrun : relation joint := rtc (λ x y, ∃ t t1 t2 t3, jstep t t1 t2 t3 x y).

Definition jinv (x : joint) : Prop :=
  cinv x.1 ∧ sync x.1 (q_daemon_last x.2) ∧ q_seq x.2 = VInt (Z.of_nat (length (q_lines x.2))).

(** Steps of the sequencer that leave the last checkpoint alone. *)
Definition quiet (q q' : sequencer) : Prop :=
  q_seq q = VInt (Z.of_nat (length (q_lines q))) →
  q_seq q' = VInt (Z.of_nat (length (q_lines q'))) ∧ q_daemon_last q' = q_daemon_last q.
#[local] Instance quiet_preorder : PreOrder quiet.
Proof. split; [by intros q Hq|]. intros q1 q2 q3 H12 H23 H1. destruct (H12 H1) as [H2 <-]. by apply H23. Qed.

Lemma chain_append_quiet t actor event eid data ref : respects quiet (chain_append t actor event eid data ref).
Proof. intros q r q' H Hs. by apply (chain_append_seq _ _ _ _ _ _ _ _ _ Hs H). Qed.
Lemma store_payload_quiet raw : respects quiet (store_payload raw).
Proof.
  intros q r q'. unfold store_payload. rewrite require_bind. destruct (slen raw <=? MAX_PAYLOAD)%N; [|by intros [= <- <-] Hq].
  rewrite get_bind. destruct (dmem _ _); intros H; cbv [mret M_ret mbind M_bind put_state] in H; injection H as <- <-; by intros Hq.
Qed.
Lemma anchor_publish_quiet t1 t2 t3 snap : respects quiet (anchor_publish v t1 t2 t3 snap).
Proof.
  destruct snap as [seq head]. unfold anchor_publish. apply (respects_bind_ro _); [done|]. intros body _.
  apply (respects_bind _ (λ _, True)); [|done|intros _ _].
  - intros q r q' H. destruct (n_anchor_up v); [cbv [raise] in H | cbv [modify] in H]; injection H as <- <-; by intros Hq.
  - apply (respects_bind _ (λ _, True)); [apply chain_append_quiet|done|by intros; apply (respects_readonly _)].
Qed.

Lemma start_lines_of_links n p lines hs h : links n p lines hs h → start_lines n p lines = Ok hs.
Proof.
  induction 1 as [|n p line d lines hs h Hd Hs Hp Hl IH]; [done|]. cbn. unfold start_line. rewrite Hd. cbn [of_opt mbind result_bind].
  unfold dget_none in Hp, Hs. cbn [vindex]. destruct (dget d "prev") as [x|]; [|done]. cbn in Hp. subst x. cbn [of_opt mbind result_bind].
  rewrite (proj2 (py_eq_str_l p (VStr p)) eq_refl). cbn [check mbind result_bind].
  destruct (dget d "seq") as [x|]; [|done]. cbn in Hs. cbn [of_opt mbind result_bind]. rewrite Hs. cbn [check mbind result_bind].
  by rewrite IH.
Qed.
Lemma start_chain_same c : cinv c → start_chain (c_lines c) = Ok c.
Proof.
  intros [(h & Hl) Hs]. unfold start_chain. rewrite (start_lines_of_links _ _ _ _ _ Hl). cbn.
  rewrite <- (links_length _ _ _ _ _ Hl), <- Hs. by destruct c.
Qed.

Lemma jstep_inv t t1 t2 t3 x y : jstep t t1 t2 t3 x y → jinv x → jinv y.
Proof using Hdaemon Hsign.
  intros Hstep (Hc & Hsync & Hseq). destruct Hstep as [c q data r c' Ht Hd H|c q c' H|c q actor ck r q' Hck H|c q actor params r q' Hp H|c q snap r q' H]; cbn in *.
  - destruct (chain_add_inv t data c Hc Ht Hd) as ([line h] & Hrun & Hc'). rewrite Hrun in H. injection H as <- <-.
    split_and!; [done|by apply sync_add|done].
  - rewrite (start_chain_same _ Hc) in H. by injection H as <-.
  - destruct (checkpoint_accepted _ _ _ t1 t2 actor _ Hc Hsync Hseq Hck) as (r' & q1 & head & Hrun & Hhead & Hlast & _ & Hq).
    rewrite Hrun in H. injection H as <- <-. split_and!; [done| |done]. cbn. rewrite Hlast. by exists (c_seq c), head.
  - assert (respects quiet (submit t1 actor params)) as Hquiet.
    { apply (submit_respects _); [done|apply store_payload_quiet|]. intros. apply chain_append_quiet. }
    destruct (Hquiet _ _ _ H Hseq) as [Hq Hl]. split_and!; cbn; [done|by rewrite Hl|done].
  - destruct (anchor_publish_quiet _ _ _ _ _ _ _ H Hseq) as [Hq Hl]. split_and!; cbn; [done|by rewrite Hl|done].
Qed.

(** The chain of a daemon that is never tampered with is never taken for a
    tampered one: whatever the two processes did since they started on empty files,
    a checkpoint asked for since the last recorded seq is accepted and recorded, the
    request leaves one line and no [integrity_fail]. *)
Theorem honest_daemon_accepted c q t t1 t2 actor ck :
  jrun (mkChain [] [] 0, empty_sequencer) (c, q) → checkpoint sign t (since_of (q_daemon_last q)) c = Ok ck →
  ∃ r q' head, record_daemon_checkpoint v t1 t2 actor ck q = (Ok r, q') ∧ hash_at (c_hashes c) (c_seq c) = Some head ∧
    q_daemon_last q' = Some (VInt (Z.of_nat (c_seq c)), VStr head) ∧ length (q_lines q') = S (length (q_lines q)).
Proof using Hdaemon Hsign.
  intros Hrun Hck. assert (jinv (c, q)) as (Hc & Hsync & Hseq).
  { apply (rtc_ind_r (λ x, jinv x) (mkChain [] [] 0, empty_sequencer)) in Hrun; [done| |].
    - split_and!; [|done|done]. split; [exists GENESIS; constructor|done].
    - intros x y _ (s & s1 & s2 & s3 & Hstep) Hx. by eapply jstep_inv. }
  destruct (checkpoint_accepted _ _ _ t1 t2 actor _ Hc Hsync Hseq Hck) as (r & q' & head & H1 & H2 & H3 & H4 & _).
  by exists r, q', head.
Qed.

(** C29: safety. A daemon started on another file than the one it wrote is found out at
    its next checkpoint, unless the file agrees with the old one, entry for entry, up to
    the last recorded seq, or exhibits two texts with one hash. *)
Theorem rewritten_daemon_detected c c' q n h t t1 t2 actor ck r q' :
  cinv c → sync c (q_daemon_last q) → q_daemon_last q = Some (VInt (Z.of_nat n), h) →
  start_chain (c_lines c') = Ok c' → checkpoint sign t (Some n) c' = Ok ck →
  record_daemon_checkpoint v t1 t2 actor ck q = (Ok r, q') →
  collision ∨ n ≤ length (c_lines c') ∧ Forall2 same_entry (take n (c_lines c')) (take n (c_lines c)).
Proof using Hdaemon Hsign.
  intros [(hc & Hl) Hs] Hsync Hlast Hstart Hck Hrec. apply start_chain_inv in Hstart as [Hc' _].
  rewrite Hlast in Hsync. destruct Hsync as (n' & x & Hn & -> & Hat). injection Hn as Hn. apply Nat2Z.inj in Hn. subst n'.
  destruct (checkpoint_made c' t (Some n) Hc') as (head & Hhead & Hmade). cbn zeta in Hmade. rewrite Hmade in Hck.
  apply Ok_inj in Hck. subst ck. rewrite record_signed, lift_bind, Hlast in Hrec.
  destruct Hc' as [(hc' & Hl') Hs']. rewrite <- (links_length _ _ _ _ _ Hl'), <- Hs'.
  unfold checkpoint_problem in Hrec. change (dindex _ "seq") with (Ok (E := exn) (VInt (Z.of_nat (c_seq c')))) in Hrec.
  cbn [mbind result_bind] in Hrec. rewrite py_lt_nat in Hrec. cbn [of_opt mbind result_bind] in Hrec.
  destruct (Nat.ltb_spec (c_seq c') n) as [Hlt|Hge].
  { apply bind_Ok in Hrec as (? & ? & _ & Hrec). apply bind_Ok in Hrec as (? & ? & _ & Hrec). discriminate Hrec. }
  destruct (Nat.leb_spec n (c_seq c')); [|lia]. cbn [opt_val mbind option_bind] in Hrec.
  destruct (hash_at (c_hashes c') n) as [x'|] eqn:Hat'; [|exfalso; destruct n as [|i]; [done|]; apply lookup_ge_None in Hat'; lia].
  change (dget_none _ "since_seq") with (VInt (Z.of_nat n)) in Hrec. change (dget_none _ "since_head") with (VStr x') in Hrec.
  rewrite py_eq_int in Hrec. cbn [py_eq andb] in Hrec. destruct (String.eqb_spec x' x) as [->|Hne].
  - destruct (same_history _ _ _ _ _ _ _ _ Hl' Hl Hat' Hat) as [Hcol|Hsame]; [by left|]. by right.
  - apply bind_Ok in Hrec as (? & ? & _ & Hrec). apply bind_Ok in Hrec as (? & ? & _ & Hrec). discriminate Hrec.
Qed.
End chain.

(** ** An example: one request served, its checkpoint recorded, another request *)
Definition demo_signature (body : string) : string := "sig:" +:+ body.
Definition demo_verify (sig body : string) : bool := String.eqb sig (demo_signature body).
Definition demo_daemon : seq_env := mkSeqEnv demo_signature "k1" (Some demo_verify) None.
Definition served (id : string) : dict := [("request_id", VStr id); ("command_id", VStr "catchup"); ("status", VStr "ok")].
Definition chain0 : local_chain := mkChain [] [] 0.
Definition chain1 : local_chain := (chain_add (HASH := demo_hash) 100 (served "r1") chain0).2.
Definition chain2 : local_chain := (chain_add (HASH := demo_hash) 200 (served "r2") chain1).2.
Definition checkpoint1 : dict := default [] (result_opt (checkpoint demo_signature 101 None chain1)).
Definition checkpoint2 : dict := default [] (result_opt (checkpoint demo_signature 201 (Some 1) chain2)).
Definition record_checkpoint (ckpt : dict) (q : sequencer) : result exn val * sequencer :=
  record_daemon_checkpoint (HASH := demo_hash) demo_daemon 102 103 "observer_broker" ckpt q.
Definition recorded1 : sequencer := (record_checkpoint checkpoint1 empty_sequencer).2.
Definition recorded2 : sequencer := (record_checkpoint checkpoint2 recorded1).2.

Definition chain1_head : string := default EmptyString (hash_at (c_hashes chain1) 1).

Lemma demo_verifies body : demo_verify (demo_signature body) body = true.
Proof. apply String.eqb_refl. Qed.
Lemma served_chainable id : chainable (served id).
Proof. split_and!; [apply (bool_decide_unpack _); vm_compute; exact I..|]. repeat constructor. Qed.
Lemma demo_jrun : jrun (HASH := demo_hash) demo_daemon demo_signature (chain0, empty_sequencer) (chain1, empty_sequencer).
Proof.
  apply rtc_once. exists 100%Q, 0%Q, 0%Q, 0%Q. eapply (j_serve (HASH := demo_hash) demo_daemon demo_signature 100 0 0 0 chain0 empty_sequencer (served "r1"));
    [vm_compute; reflexivity | apply served_chainable | exact (surjective_pairing _)].
Qed.

Lemma honest_daemon_accepted_witness :
  ∃ r q' head, record_checkpoint checkpoint1 empty_sequencer = (Ok r, q') ∧ hash_at (c_hashes chain1) 1 = Some head ∧
    q_daemon_last q' = Some (VInt 1, VStr head) ∧ length (q_lines q') = 1.
Proof.
  refine (honest_daemon_accepted (HASH := demo_hash) demo_daemon demo_signature demo_verify eq_refl demo_verifies
    chain1 empty_sequencer 101 102 103 "observer_broker" checkpoint1 demo_jrun _).
  vm_compute. reflexivity.
Defined.

Lemma rewritten_daemon_detected_witness :
  collision (HASH := demo_hash) ∨ 1 ≤ 2 ∧ Forall2 same_entry (take 1 (c_lines chain2)) (take 1 (c_lines chain1)).
Proof.
  change 2 with (length (c_lines chain2)).
  eapply (rewritten_daemon_detected (HASH := demo_hash) demo_daemon demo_signature demo_verify eq_refl demo_verifies
    chain1 chain2 recorded1 1 _ 201 102 103 "observer_broker" checkpoint2 _ recorded2).
  - apply (start_chain_inv (HASH := demo_hash) (c_lines chain1)). vm_compute. reflexivity.
  - assert (q_daemon_last recorded1 = Some (VInt (Z.of_nat 1), VStr chain1_head)) as -> by (vm_compute; reflexivity).
    exists 1, chain1_head. split; [reflexivity|]. split; [reflexivity|]. vm_compute. reflexivity.
  - vm_compute. reflexivity.
  - vm_compute. reflexivity.
  - vm_compute. reflexivity.
  - vm_compute. reflexivity.
Defined.
