(* ===== verification/Table.v ===== *)
(** * The observer's command table (src/valops/observer/table.py, validate.py)

    The loader refuses a whole table when one entry could change state; the validator
    checks a request's arguments; the assembler fills the placeholders of an accepted
    command. The table comes from YAML, as a value. *)
From S2P Require Import Prelude PyVal Schema Canonical Json PyConv.
From Stdlib Require Import Ascii.

(** src/valops/observer/table.py:26-29 READ_ONLY_EXEC *)
Definition READ_ONLY_EXEC : list (string * list string) :=
  [("solana", ["catchup"; "balance"; "leader-schedule"; "epoch-info"; "slot"; "cluster-version"; "validators"; "feature"]);
   ("agave-validator", ["monitor"])].
(** src/valops/observer/table.py:30-30 BUILTINS *)
Definition BUILTINS : list string :=
  ["host_metrics"; "host_hygiene"; "consensus_state_files"; "rpc_latency"; "log_tail"; "running_version"].
(** src/valops/observer/table.py:31-40 STATE_CHANGING *)
Definition STATE_CHANGING : list string :=
  ["exit"; "set-identity"; "authorized-voter"; "set-log-filter"; "set-public-address"; "repair-whitelist";
   "staked-nodes-overrides"; "wait-for-restart-window"; "transfer"; "pay"; "airdrop"; "deploy"; "program";
   "withdraw-stake"; "withdraw-from-vote-account"; "delegate-stake"; "deactivate-stake"; "split-stake";
   "merge-stake"; "create-stake-account"; "create-vote-account"; "close-vote-account"; "vote-authorize-voter";
   "vote-authorize-withdrawer"; "vote-update-validator"; "vote-update-commission"; "stake-authorize";
   "redelegate-stake"; "rm"; "mv"; "cp"; "dd"; "kill"; "pkill"; "killall"; "systemctl"; "service"; "reboot";
   "shutdown"; "restart"; "stop"; "start"; "sudo"; "su"; "chmod"; "chown"; "tee"; "truncate"; "curl"; "wget";
   "sh"; "bash"; "python"; "python3"; "--no-snapshot-fetch"; "--snapshot"; "download"].
(** src/valops/observer/table.py:41-41 PLACEHOLDERS *)
Definition PLACEHOLDERS : list string := ["ledger"; "logfile"; "identity_pubkey"; "rpc_url"; "epoch"; "lines"].
(** src/valops/observer/table.py:44-44 ARG_TYPES *)
Definition ARG_TYPES : list string := ["int"; "pubkey"].

(** src/valops/observer/table.py:42-42 _META *)
Definition is_meta (c : ascii) : bool :=
  existsb (Nat.eqb (nat_of_ascii c)) [59; 124; 38; 36; 96; 60; 62; 40; 41; 123; 125; 42; 63; 33; 92; 10; 13; 39; 34; 126]%nat.
Definition has_meta (s : string) : bool := any_char is_meta s.

(** [$] of a pattern matches before a final newline too. *)
Fixpoint chomp (s : string) : string :=
  match s with
  | String c EmptyString => if Ascii.eqb c "010" then EmptyString else s
  | String c s' => String c (chomp s')
  | EmptyString => EmptyString
  end.
(** The text up to a final closing brace. *)
Fixpoint until_brace (s : string) : option string :=
  match s with
  | String "}" EmptyString => Some EmptyString
  | String c s' => String c <$> until_brace s'
  | EmptyString => None
  end.
Definition is_name_char (c : ascii) : bool := let n := nat_of_ascii c in ((97 <=? n) && (n <=? 122) || (n =? 95))%nat.

(** src/valops/observer/table.py:43-43 _PLACEHOLDER

    The name, when the token is a placeholder. *)
Definition placeholder (tok : string) : option string :=
  match chomp tok with
  | String "{" s => name ← until_brace s;
                    if negb (String.eqb name "") && all_chars is_name_char name then Some name else None
  | _ => None
  end.

(** [s.lower()] as far as ASCII letters come of it: the Kelvin sign is the one other
    character with one. *)
Definition lower_char (c : ascii) : ascii :=
  let n := nat_of_ascii c in if ((65 <=? n) && (n <=? 90))%nat then ascii_of_nat (n + 32) else c.
Fixpoint lower (s : string) : string :=
  match s with
  | EmptyString => EmptyString
  | String c s' => match strip_prefix (ch 226 +:+ ch 132 +:+ ch 170) s, s' with
                   | Some _, String _ (String _ r) => String "k" (lower r)
                   | _, _ => String (lower_char c) (lower s')
                   end
  end.

(** src/valops/observer/table.py:47-52 ArgSpec *)
Record ArgSpec : Type := mkArg { ag_type : string; ag_min : val; ag_max : val; ag_required : bool }.

Inductive kind : Type := KExec | KBuiltin | KUnavailable.
#[export] Instance kind_eq_dec : EqDecision kind.
Proof. solve_decision. Defined.

(** src/valops/observer/table.py:55-66 Command *)
Record Command : Type := mkCommand {
  m_id : string; m_kind : kind; m_argv : list string; m_optional_argv : list (string * list string);
  m_args : list (string * ArgSpec); m_parser : val; m_timeout_s : Q; m_output_cap_bytes : Z;
  m_timeout_is_sample : bool; m_rpc_backed : bool }.

(** src/valops/observer/table.py:69-72 CommandTable *)
Record CommandTable : Type := mkTable { tb_version : Z; tb_commands : list (string * Command) }.

Definition table_error : exn := PyExc "TableError".

(** src/valops/observer/table.py:75-87 _check_tokens

    The tokens, when they are all strings and none is refused. *)
Fixpoint check_tokens (tokens : list val) : result exn (list string) :=
  match tokens with
  | [] => Ok []
  | VStr tok :: rest =>
      _ ← check (negb (String.eqb tok "")) table_error;
      _ ← check (match placeholder tok with
                 | Some name => str_in name PLACEHOLDERS
                 | None => negb (has_meta tok) && negb (str_in (lower tok) STATE_CHANGING)
                 end) table_error;
      toks ← check_tokens rest;
      Ok (tok :: toks)
  | _ => Err table_error
  end.

(** [(e.get(k) or {}).items()] *)
Definition items (e : dict) (k : string) : result exn dict :=
  match py_or (dget_none e k) (VDict []) with VDict d => Ok d | _ => Err (PyExc "AttributeError") end.

(** The loop over the declared arguments. *)
Fixpoint load_args (l : dict) : result exn (list (string * ArgSpec)) :=
  match l with
  | [] => Ok []
  | (name, a) :: l' =>
      _ ← check (str_in name PLACEHOLDERS) table_error;
      ty ← vget a "type"; known ← in_str_set ty ARG_TYPES;
      _ ← check known table_error;
      mn ← vget a "min"; mx ← vget a "max"; rq ← vget a "required";
      rest ← load_args l';
      Ok ((name, mkArg (py_str ty) mn mx (truthy rq)) :: rest)
  end.

(** The first token after the executable that is no option and no placeholder. *)
Fixpoint subcommand (argv : list val) : result exn (option string) :=
  match argv with
  | [] => Ok None
  | VStr t :: rest => if negb (String.prefix "-" t) && bool_decide (placeholder t = None) then Ok (Some t) else subcommand rest
  | _ => Err (PyExc "AttributeError")
  end.

Fixpoint load_optional (args : list (string * ArgSpec)) (l : dict) : result exn (list (string * list string)) :=
  match l with
  | [] => Ok []
  | (name, toks) :: l' =>
      _ ← check (dmem args name) table_error;
      toks ← py_iter toks; toks ← check_tokens toks;
      rest ← load_optional args l';
      Ok ((name, toks) :: rest)
  end.

Definition dget_or (d : dict) (k : string) (dflt : val) : val := default dflt (dget d k).

(** [re.fullmatch(r"[a-z][a-z0-9_]{1,40}", cid)] *)
Definition is_lower (c : ascii) : bool := let n := nat_of_ascii c in ((97 <=? n) && (n <=? 122))%nat.
Definition is_id_char (c : ascii) : bool := is_lower c || is_digit c || Ascii.eqb c "_".
Definition command_id_ok (cid : string) : bool :=
  match cid with
  | String c s => is_lower c && all_chars is_id_char s && ((1 <=? String.length s) && (String.length s <=? 40))%nat
  | EmptyString => false
  end.

(** src/valops/observer/table.py:94-134 load_table_data

    One entry of the table: the body of the loop. *)
Definition load_command (cid : string) (e : val) : result exn Command :=
  _ ← check (command_id_ok cid) table_error;
  d ← match e with VDict d => Ok d | _ => Err (PyExc "AttributeError") end;
  _ ← check (match dget_none d "read_only" with VBool true => true | _ => false end) table_error;
  l ← items d "args"; args ← load_args l;
  let k := dget_none d "kind" in
  if py_eq k (VStr "exec") then
    argv ← py_iter (py_or (dget_none d "argv") (VList []));
    exe ← match argv with [] => Err table_error | exe :: _ => Ok exe end;
    _ ← check (hashable exe) (PyExc "TypeError");
    subs ← of_opt (as_str exe ≫= dget READ_ONLY_EXEC) table_error;
    sub ← subcommand (tail argv);
    _ ← check (match sub with Some s => str_in s subs | None => false end) table_error;
    argv ← check_tokens argv;
    l ← items d "optional_argv"; opt ← load_optional args l;
    timeout ← py_float (dget_or d "timeout_s" (VInt 15)); cap ← py_int (dget_or d "output_cap_bytes" (VInt 16384));
    Ok (mkCommand cid KExec argv opt args (dget_none d "parser") timeout cap
          (truthy (dget_none d "timeout_is_sample")) (truthy (dget_none d "rpc_backed")))
  else if py_eq k (VStr "builtin") then
    _ ← check (str_in cid BUILTINS) table_error;
    timeout ← py_float (dget_or d "timeout_s" (VInt 10)); cap ← py_int (dget_or d "output_cap_bytes" (VInt 16384));
    Ok (mkCommand cid KBuiltin [] [] args VNone timeout cap false (truthy (dget_none d "rpc_backed")))
  else if py_eq k (VStr "unavailable") then Ok (mkCommand cid KUnavailable [] [] [] VNone 15 16384 false false)
  else Err table_error.

Fixpoint load_commands (l : dict) : result exn (list (string * Command)) :=
  match l with
  | [] => Ok []
  | (cid, e) :: l' => c ← load_command cid e; rest ← load_commands l'; Ok ((cid, c) :: rest)
  end.

(** src/valops/observer/table.py:90-135 load_table_data *)
Definition load_table_data (data : val) : result exn CommandTable :=
  match data with
  | VDict d =>
      match dget_none d "commands" with
      | VDict cmds => out ← load_commands cmds; version ← py_int (dget_or d "version" (VInt 1)); Ok (mkTable version out)
      | _ => Err table_error
      end
  | _ => Err table_error
  end.

(** ** Arguments *)
(** src/valops/observer/validate.py:9-9 BASE58 *)
Definition is_base58_char (c : ascii) : bool :=
  let n := nat_of_ascii c in
  ((49 <=? n) && (n <=? 57) || (65 <=? n) && (n <=? 90) && negb (n =? 73) && negb (n =? 79) ||
   (97 <=? n) && (n <=? 122) && negb (n =? 108))%nat.
Definition base58 (s : string) : bool :=
  let s := chomp s in all_chars is_base58_char s && ((32 <=? String.length s) && (String.length s <=? 44))%nat.

Definition arg_error : exn := PyExc "ArgError".

(** [v < spec.min] and [v > spec.max], for a bound that may be absent. *)
Definition below (v bound : val) : result exn bool :=
  match bound with VNone => Ok false | _ => of_opt (py_lt v bound) (PyExc "TypeError") end.
Definition above (v bound : val) : result exn bool :=
  match bound with VNone => Ok false | _ => of_opt (py_lt bound v) (PyExc "TypeError") end.

Definition validate_arg (spec : ArgSpec) (v : val) : result exn unit :=
  if String.eqb (ag_type spec) "int" then
    _ ← check (match v with VInt _ => true | _ => false end) arg_error;
    lo ← below v (ag_min spec); _ ← check (negb lo) arg_error;
    hi ← above v (ag_max spec); check (negb hi) arg_error
  else if String.eqb (ag_type spec) "pubkey" then
    check (match v with VStr s => base58 s | _ => false end) arg_error
  else Ok tt.

Fixpoint validate_each (specs : list (string * ArgSpec)) (args : dict) : result exn dict :=
  match specs with
  | [] => Ok []
  | (name, spec) :: specs' =>
      match dget args name with
      | None => _ ← check (negb (ag_required spec)) arg_error; validate_each specs' args
      | Some v => _ ← validate_arg spec v; rest ← validate_each specs' args; Ok ((name, v) :: rest)
      end
  end.

(** src/valops/observer/validate.py:16-40 validate_args *)
Definition validate_args (cmd : Command) (args : val) : result exn dict :=
  d ← match args with VNone => Ok [] | VDict d => Ok d | _ => Err arg_error end;
  _ ← check (forallb (λ k, dmem (m_args cmd) k) (dkeys d)) arg_error;
  validate_each (m_args cmd) d.

(** The local function [fill] of [assemble_argv]. *)
Definition fill (args local : dict) (tok : string) : result exn string :=
  match placeholder tok with
  | None => Ok tok
  | Some key =>
      match dget args key with
      | Some v => Ok (py_str v)
      | None => v ← of_opt (dget local key) arg_error; Ok (py_str v)
      end
  end.
Fixpoint fill_all (args local : dict) (toks : list string) : result exn (list string) :=
  match toks with [] => Ok [] | t :: toks' => x ← fill args local t; xs ← fill_all args local toks'; Ok (x :: xs) end.
Fixpoint fill_optional (args local : dict) (opts : list (string * list string)) : result exn (list string) :=
  match opts with
  | [] => Ok []
  | (name, toks) :: opts' =>
      xs ← (if dmem args name then fill_all args local toks else Ok []);
      rest ← fill_optional args local opts';
      Ok (xs ++ rest)
  end.

(** src/valops/observer/validate.py:43-60 assemble_argv *)
Definition assemble_argv (cmd : Command) (args local : dict) : result exn (list string) :=
  argv ← fill_all args local (m_argv cmd);
  opt ← fill_optional args local (m_optional_argv cmd);
  Ok (argv ++ opt).

(** * A loaded table only reads

    What the loader accepted, and what an accepted command is run as, whatever a request
    asks for. *)

(** Neither a metacharacter nor a state-changing word. *)
Definition harmless (tok : string) : Prop := has_meta tok = false ∧ lower tok ∉ STATE_CHANGING.
Definition safe_token (tok : string) : Prop := (∃ name, placeholder tok = Some name ∧ name ∈ PLACEHOLDERS) ∨ (placeholder tok = None ∧ harmless tok).

Lemma check_tokens_Ok l toks : check_tokens l = Ok toks → l = map VStr toks ∧ Forall safe_token toks.
Proof.
  revert toks. induction l as [|v l IH]; intros toks H; cbn in H; [injection H as <-; by split|].
  destruct v; try done. rinv H. apply IH in Hr1 as [-> Hall]. split; [done|]. constructor; [|done].
  destruct (placeholder s) as [name|] eqn:Hp.
  - left. exists name. by rewrite <- str_in_spec.
  - right. apply andb_true_iff in Hr0 as [Hm Hs]. apply negb_true_iff in Hm, Hs. split; [done|]. split; [done|by apply str_in_false].
Qed.

Definition typed (spec : ArgSpec) : Prop := ag_type spec ∈ ARG_TYPES.
Lemma load_args_Ok l args : load_args l = Ok args → Forall (λ a, a.1 ∈ PLACEHOLDERS ∧ typed a.2) args.
Proof.
  revert args. induction l as [|[name a] l IH]; intros args H; cbn in H; [by injection H as <-|].
  rinv H. constructor; [|by apply IH]. cbn. rewrite <- str_in_spec. split; [done|].
  subst. match goal with H : in_str_set _ _ = Ok true |- _ => apply in_str_set_true in H as (s & -> & Hs) end. done.
Qed.

Lemma load_optional_Ok args l opt : load_optional args l = Ok opt → Forall (λ o, dmem args o.1 = true ∧ Forall safe_token o.2) opt.
Proof.
  revert opt. induction l as [|[name toks] l IH]; intros opt H; cbn in H; [by injection H as <-|].
  rinv H. constructor; [|by apply IH]. cbn. split; [done|].
  by match goal with H : check_tokens _ = Ok _ |- _ => apply check_tokens_Ok in H as [_ H] end.
Qed.

Lemma subcommand_elem l s : subcommand l = Ok (Some s) → VStr s ∈ l.
Proof.
  induction l as [|v l IH]; cbn; [done|]. destruct v; try done. destruct (_ && _); [intros [= ->]; left|]. intros H. right. by apply IH.
Qed.

(** What a loaded command is. *)
Definition reads_only (c : Command) : Prop :=
  match m_kind c with
  | KExec => ∃ exe subs sub, head (m_argv c) = Some exe ∧ dget READ_ONLY_EXEC exe = Some subs ∧ sub ∈ subs ∧ sub ∈ m_argv c ∧
      Forall safe_token (m_argv c) ∧ Forall (λ o, dmem (m_args c) o.1 = true ∧ Forall safe_token o.2) (m_optional_argv c)
  | KBuiltin => m_id c ∈ BUILTINS
  | KUnavailable => m_args c = []
  end.

Lemma load_command_Ok cid e c : load_command cid e = Ok c →
  m_id c = cid ∧ reads_only c ∧ Forall (λ a, a.1 ∈ PLACEHOLDERS ∧ typed a.2) (m_args c).
Proof.
  unfold load_command. intros H. rinv H. destruct (py_eq _ (VStr "exec")).
  - rinv H. split_and!; [done| |by apply load_args_Ok in Hr3].
    destruct a4 as [|exe rest]; [done|]. injection Hr5 as <-. apply bind_Some in Hr7 as (x & Hx & Hsubs).
    destruct exe as [| | | |exe'| |]; try done. injection Hx as <-. destruct a8 as [sub|]; [|done].
    apply check_tokens_Ok in Hr10 as [Htoks Hsafe]. apply subcommand_elem in Hr8. cbn [list.tail] in Hr8.
    exists exe', a7, sub. cbn. destruct a10 as [|t toks]; [done|]. injection Htoks as <- Htoks.
    split_and!; [done|done|by apply str_in_spec| |done|by apply load_optional_Ok in Hr12].
    right. rewrite Htoks in Hr8. apply list_elem_of_fmap in Hr8 as (y & [= <-] & Hy). done.
  - destruct (py_eq _ (VStr "builtin")).
    + rinv H. split_and!; [done|by apply str_in_spec|by apply load_args_Ok in Hr3].
    + destruct (py_eq _ _); [injection H as <-|done]. by split_and!.
Qed.

Lemma load_commands_Ok l cmds cid c : load_commands l = Ok cmds → (cid, c) ∈ cmds →
  m_id c = cid ∧ reads_only c ∧ Forall (λ a, a.1 ∈ PLACEHOLDERS ∧ typed a.2) (m_args c).
Proof.
  revert cmds. induction l as [|[cid0 e] l IH]; intros cmds H Hin; cbn in H; [injection H as <-; by apply not_elem_of_nil in Hin|].
  rinv H. apply elem_of_cons in Hin as [[= -> ->]|Hin]; [by apply load_command_Ok in Hr|by eapply IH].
Qed.
Lemma load_table_Ok data t cid c : load_table_data data = Ok t → (cid, c) ∈ tb_commands t →
  m_id c = cid ∧ reads_only c ∧ Forall (λ a, a.1 ∈ PLACEHOLDERS ∧ typed a.2) (m_args c).
Proof.
  unfold load_table_data. destruct data as [| | | | | |d]; try done. destruct (dget_none d "commands"); try done.
  intros H. rinv H. by eapply load_commands_Ok.
Qed.

(** ** Arguments *)
(** The values an argument of each type may have. *)
Definition arg_value (v : val) : Prop := (∃ z, v = VInt z) ∨ (∃ s, v = VStr s ∧ base58 s = true).

Lemma validate_arg_Ok spec v : typed spec → validate_arg spec v = Ok tt → arg_value v.
Proof.
  unfold typed, validate_arg, ARG_TYPES. rewrite !elem_of_cons, elem_of_nil. intros [->|[->|[]]] H; cbn in H.
  - rinv H. destruct v; try done. left. eauto.
  - destruct v; try done. right. eexists. split; [done|]. by apply check_Ok in H.
Qed.
Lemma validate_each_Ok specs args out : Forall (λ a : string * ArgSpec, a.1 ∈ PLACEHOLDERS ∧ typed a.2) specs →
  validate_each specs args = Ok out → Forall (λ a, arg_value a.2) out.
Proof.
  intros Hspecs. revert out. induction Hspecs as [|[name spec] specs [_ Hty] _ IH]; intros out H; cbn in H; [by injection H as <-|].
  destruct (dget args name) as [v|]; rinv H; [|by apply IH]. destruct a. constructor; [|by apply IH]. by eapply validate_arg_Ok.
Qed.

(** A word of an assembled command line. *)
Definition word_ok (local : dict) (x : string) : Prop :=
  harmless x ∨ (∃ z, x = py_str (VInt z)) ∨ base58 x = true ∨ ∃ k v, dget local k = Some v ∧ x = py_str v.

Lemma fill_ok args local tok x : Forall (λ a, arg_value a.2) args → safe_token tok → fill args local tok = Ok x → word_ok local x.
Proof.
  intros Hargs Htok H. unfold fill in H. destruct Htok as [(name & Hp & _)|[Hp Hh]]; rewrite Hp in H.
  - destruct (dget args name) as [v|] eqn:Hv.
    + injection H as <-. apply dget_elem in Hv. rewrite list.Forall_forall in Hargs. specialize (Hargs _ Hv). cbn in Hargs.
      destruct Hargs as [(z & ->)|(s & -> & Hs)]; right; [left; eauto|right; by left].
    + rinv H. right; right; right. eauto.
  - injection H as <-. by left.
Qed.
Lemma fill_all_ok args local toks l : Forall (λ a, arg_value a.2) args → Forall safe_token toks → fill_all args local toks = Ok l →
  Forall (word_ok local) l.
Proof.
  intros Hargs Htoks. revert l. induction Htoks as [|t toks Ht _ IH]; intros l H; cbn in H; [by injection H as <-|].
  rinv H. constructor; [by eapply fill_ok|by apply IH].
Qed.
Lemma fill_optional_ok args local opts l : Forall (λ a, arg_value a.2) args →
  Forall (λ o : string * list string, Forall safe_token o.2) opts → fill_optional args local opts = Ok l → Forall (word_ok local) l.
Proof.
  intros Hargs Hopts. revert l. induction Hopts as [|[name toks] opts Ht _ IH]; intros l H; cbn in H; [by injection H as <-|].
  rinv H. apply Forall_app. split; [|by apply IH]. destruct (dmem args name); [by eapply fill_all_ok|by injection Hr as <-].
Qed.

(** A word that is no placeholder is run as it stands. *)
Lemma fill_all_plain args local toks l tok : fill_all args local toks = Ok l → tok ∈ toks → placeholder tok = None → tok ∈ l.
Proof.
  revert l. induction toks as [|t toks IH]; intros l H Hin Hp; [by apply not_elem_of_nil in Hin|]. cbn in H. rinv H.
  apply elem_of_cons in Hin as [->|Hin]; [|right; by eapply IH]. unfold fill in Hr. rewrite Hp in Hr. injection Hr as <-. left.
Qed.
Lemma fill_all_head args local toks l tok : fill_all args local toks = Ok l → head toks = Some tok → placeholder tok = None → head l = Some tok.
Proof.
  destruct toks as [|t toks]; [done|]. intros H [= ->] Hp. cbn in H. rinv H. unfold fill in Hr. rewrite Hp in Hr. by injection Hr as <-.
Qed.
Definition plain (tok : string) : bool := match placeholder tok with None => true | Some _ => false end.
Lemma read_only_plain exe subs : dget READ_ONLY_EXEC exe = Some subs → placeholder exe = None ∧ ∀ sub, sub ∈ subs → placeholder sub = None.
Proof.
  intros H%dget_elem. assert (forallb (λ e, plain e.1 && forallb plain e.2) READ_ONLY_EXEC = true) as Hall by (vm_compute; reflexivity).
  rewrite forallb_forall in Hall. specialize (Hall (exe, subs) ltac:(by apply list_elem_of_In)). cbn in Hall.
  apply andb_true_iff in Hall as [He Hs]. rewrite forallb_forall in Hs. unfold plain in *. split; [by destruct (placeholder exe)|].
  intros sub Hsub%list_elem_of_In. specialize (Hs _ Hsub). by destruct (placeholder sub).
Qed.

(** C11: safety. Whatever table was loaded and whatever a request's arguments: the command
    line an executable command is run as starts with an allowed executable, holds one of
    its read-only subcommands, and every word of it is free of shell metacharacters and no
    state-changing word, or is a number, a base58 key, or a value of the daemon's own
    configuration. *)
Theorem request_runs_read_only data t cid c args vargs local argv :
  load_table_data data = Ok t → (cid, c) ∈ tb_commands t → m_kind c = KExec →
  validate_args c args = Ok vargs → assemble_argv c vargs local = Ok argv →
  (∃ exe subs sub, head argv = Some exe ∧ dget READ_ONLY_EXEC exe = Some subs ∧ sub ∈ subs ∧ sub ∈ argv) ∧
  Forall (word_ok local) argv.
Proof.
  intros Hload Hin Hk Hargs Hargv. destruct (load_table_Ok _ _ _ _ Hload Hin) as (_ & Hro & Hty).
  unfold reads_only in Hro. rewrite Hk in Hro. destruct Hro as (exe & subs & sub & Hhead & Hsubs & Hsub & Hmem & Hsafe & Hopt).
  destruct (read_only_plain _ _ Hsubs) as [Hpe Hps].
  unfold validate_args in Hargs. rinv Hargs. apply validate_each_Ok in Hargs; [|done].
  unfold assemble_argv in Hargv. rinv Hargv. split.
  - exists exe, subs, sub. split_and!; [|done|done|].
    + rewrite head_app. by rewrite (fill_all_head _ _ _ _ _ Hr1 Hhead Hpe).
    + apply elem_of_app. left. eapply fill_all_plain; eauto.
  - apply Forall_app. split; [by eapply fill_all_ok|]. eapply fill_optional_ok; [done| |done].
    eapply list.Forall_impl; [exact Hopt|]. by intros o [_ ?].
Qed.

(** A table of two commands, and a request for one of them. *)
Definition demo_table_data : val := VDict [("version", VInt 1); ("commands", VDict [
  ("catchup", VDict [("read_only", VBool true); ("kind", VStr "exec"); ("rpc_backed", VBool true);
                     ("argv", VList [VStr "solana"; VStr "catchup"; VStr "{identity_pubkey}"; VStr "--url"; VStr "{rpc_url}"])]);
  ("leader_schedule_self", VDict [("read_only", VBool true); ("kind", VStr "exec");
                     ("args", VDict [("epoch", VDict [("type", VStr "int"); ("min", VInt 0)])]);
                     ("argv", VList [VStr "solana"; VStr "leader-schedule"]);
                     ("optional_argv", VDict [("epoch", VList [VStr "--epoch"; VStr "{epoch}"])])]);
  ("host_metrics", VDict [("read_only", VBool true); ("kind", VStr "builtin")])])].
Definition demo_table : CommandTable := match load_table_data demo_table_data with Ok t => t | Err _ => mkTable 0 [] end.
Definition demo_command (cid : string) : Command :=
  default (mkCommand EmptyString KUnavailable [] [] [] VNone 0 0 false false) (dget (tb_commands demo_table) cid).
Definition epoch_args : val := VDict [("epoch", VInt 700)].

Lemma request_runs_read_only_witness :
  assemble_argv (demo_command "leader_schedule_self") [("epoch", VInt 700)] [] = Ok ["solana"; "leader-schedule"; "--epoch"; "700"] ∧
  Forall (word_ok []) ["solana"; "leader-schedule"; "--epoch"; "700"].
Proof.
  split; [vm_compute; reflexivity|].
  refine (proj2 (request_runs_read_only demo_table_data demo_table "leader_schedule_self" (demo_command "leader_schedule_self") epoch_args
           [("epoch", VInt 700)] [] ["solana"; "leader-schedule"; "--epoch"; "700"] _ _ _ _ _));
    try (vm_compute; reflexivity).
  apply dget_elem. vm_compute. reflexivity.
Defined.

(** Two things the checks let through. The subcommand is the first word that is no option,
    so an option's value stands for it: here [new-nonce], which is in neither list, is what
    runs. And a key may end in a newline, which [$] ignores. *)
Definition shadowed_data : val := VDict [("commands", VDict [("sneaky", VDict [
  ("read_only", VBool true); ("kind", VStr "exec"); ("argv", VList (map VStr ["solana"; "--keypair"; "slot"; "new-nonce"; "KEY"]))])])].
Example option_value_is_taken_for_subcommand :
  is_ok (load_table_data shadowed_data) = true ∧ "new-nonce" ∉ default [] (dget READ_ONLY_EXEC "solana").
Proof. split; [vm_compute; reflexivity|]. apply (bool_decide_unpack _). vm_compute. exact I. Qed.
Example key_with_newline : base58 (repeat_str "1" 40 +:+ newline) = true.
Proof. vm_compute. reflexivity. Qed.
