(* ===== verification/Daemon.v ===== *)
(** * The observer daemon (src/valops/observer/daemon.py)

    A request is rejected, suspended, rate-limited or refused as busy, or it runs a command
    of the table, alone among its kind; each answer leaves one entry in the local chain.
    What the host did, the reading of its output (regular expressions, UTF-8 decoding) and
    the threads are the environment's: a request runs in two steps, between which others
    may run. *)
From S2P Require Import Prelude PyVal Schema Canonical Json PyConv AuditChain LocalChain Table.
From Stdlib Require Import Ascii.

(** ** The circuit breaker *)
(** src/valops/observer/daemon.py:45-51 Breaker.__init__ *)
Record breaker : Type := mkBreaker {
  bk_threshold_ms : Q; bk_recover : Z; bk_open : bool; bk_good : Z; bk_trips : Z; bk_opened_at : option Q }.
Definition new_breaker (threshold_ms : Q) (recover : Z) : breaker := mkBreaker threshold_ms recover false 0 0 None.

(** src/valops/observer/daemon.py:53-63 Breaker.sample *)
Definition sample (t : Q) (latency_ms : Q) (healthy : bool) (b : breaker) : breaker :=
  let bad := negb healthy || Qltb (bk_threshold_ms b) latency_ms in
  if bad then
    let b := if negb (bk_open b) then mkBreaker (bk_threshold_ms b) (bk_recover b) true (bk_good b) (bk_trips b + 1) (Some t) else b in
    mkBreaker (bk_threshold_ms b) (bk_recover b) (bk_open b) 0 (bk_trips b) (bk_opened_at b)
  else if bk_open b then
    let good := (bk_good b + 1)%Z in
    if (bk_recover b <=? good)%Z then mkBreaker (bk_threshold_ms b) (bk_recover b) false good (bk_trips b) None
    else mkBreaker (bk_threshold_ms b) (bk_recover b) (bk_open b) good (bk_trips b) (bk_opened_at b)
  else b.

(** src/valops/observer/daemon.py:65-66 Breaker.state *)
Definition breaker_state (b : breaker) : val :=
  VDict [("open", VBool (bk_open b)); ("trips", VInt (bk_trips b)); ("opened_at", opt_val VFloat (bk_opened_at b));
         ("threshold_ms", VFloat (bk_threshold_ms b))].

(** ** The daemon *)
(** src/valops/observer/daemon.py:70-79 ObserverDaemon.__init__

    [d_busy] are the commands whose lock is held, [d_calls] the times of each command's
    recent calls, oldest first. *)
Record daemon : Type := mkDaemon {
  d_table : CommandTable; d_local : dict; d_chain : local_chain; d_rate : Z; d_breaker : breaker;
  d_busy : list string; d_calls : list (string * list Q) }.
Abbreviation DM := (M daemon exn).
Definition new_daemon (t : CommandTable) (local : dict) (c : local_chain) (rate : Z) (threshold_ms : Q) (recover : Z) : daemon :=
  mkDaemon t local c rate (new_breaker threshold_ms recover) [] (map (λ k, (k, [])) (dkeys (tb_commands t))).

Definition with_chain (c : local_chain) (d : daemon) : daemon :=
  mkDaemon (d_table d) (d_local d) c (d_rate d) (d_breaker d) (d_busy d) (d_calls d).
Definition with_breaker (b : breaker) (d : daemon) : daemon :=
  mkDaemon (d_table d) (d_local d) (d_chain d) (d_rate d) b (d_busy d) (d_calls d).
Definition with_busy (l : list string) (d : daemon) : daemon :=
  mkDaemon (d_table d) (d_local d) (d_chain d) (d_rate d) (d_breaker d) l (d_calls d).
Definition with_calls (l : list (string * list Q)) (d : daemon) : daemon :=
  mkDaemon (d_table d) (d_local d) (d_chain d) (d_rate d) (d_breaker d) (d_busy d) l.

(** The [while] of [_rate_ok]: calls more than a minute old leave the queue. *)
Fixpoint expire (t : Q) (q : list Q) : list Q :=
  match q with x :: q' => if Qltb 60 (t - x) then expire t q' else q | [] => [] end.
Definition admit_call (rate : Z) (t : Q) (q : list Q) : bool * list Q :=
  let q := expire t q in
  if (rate <=? Z.of_nat (length q))%Z then (false, q) else (true, q ++ [t]).

(** src/valops/observer/daemon.py:81-89 ObserverDaemon._rate_ok *)
Definition rate_ok (t : Q) (cid : string) : DM bool :=
  d ← get_state;
  q ← lift (of_opt (dget (d_calls d) cid) (PyExc "KeyError"));
  let '(ok, q') := admit_call (d_rate d) t q in
  _ ← put_state (with_calls (dset (d_calls d) cid q') d);
  mret ok.

(** ** Running a command *)
(** src/valops/observer/redact.py:39-40 cap *)
Definition cap (data : string) (limit : Z) : string * bool :=
  if (limit <? Z.of_nat (String.length data))%Z
  then (String.substring 0 (Z.to_nat (if (limit <? 0)%Z then Z.of_nat (String.length data) + limit else limit)) data, true)
  else (data, false).

(** What became of a spawned process: the chunks read of its output, and its exit code
    unless it was killed at its time-out. *)
Record process : Type := mkProcess { pr_chunks : list string; pr_exit : option Z }.
(** The reader thread: it keeps draining what it no longer keeps. *)
Definition read_chunk (limit : Z) (acc : string * bool) (chunk : string) : string * bool :=
  if (Z.of_nat (String.length acc.1) <? limit)%Z then (acc.1 +:+ chunk, acc.2) else (acc.1, true).
Definition reader (limit : Z) (chunks : list string) : string * bool := fold_left (read_chunk limit) chunks (EmptyString, false).

(** src/valops/observer/daemon.py:91-116 ObserverDaemon._exec *)
Definition exec_ (cmd : Command) (p : process) : string * string * bool :=
  let '(buf, over) := reader (m_output_cap_bytes cmd) (pr_chunks p) in
  let status := match pr_exit p with
                | Some rc => if (rc =? 0)%Z then "ok" else "error"
                | None => if m_timeout_is_sample cmd then "ok" else "timeout"
                end in
  let '(data, truncated) := cap buf (m_output_cap_bytes cmd) in
  (status, data, truncated || over).

(** [OSError] and its subclasses. *)
Definition os_errors : list string :=
  ["OSError"; "BlockingIOError"; "ChildProcessError"; "ConnectionError"; "BrokenPipeError"; "ConnectionAbortedError";
   "ConnectionRefusedError"; "ConnectionResetError"; "FileExistsError"; "FileNotFoundError"; "InterruptedError";
   "IsADirectoryError"; "NotADirectoryError"; "PermissionError"; "ProcessLookupError"; "TimeoutError"; "URLError"; "HTTPError"].

(** What the host did when the command ran. *)
Inductive host : Type :=
| HBuiltin (r : result exn (string * dict))
| HProcess (r : result exn process).

(** The clock readings of one request: [time.monotonic()] and [now()]. *)
Record clock : Type := mkClock { k_t0 : Q; k_now : Q; k_rate : Q; k_end : Q; k_append : Q; k_trip : Q }.

(** A request between its two steps. *)
Inductive progress : Type :=
| Answered (answer : dict)
| Running (cmd : Command) (vargs : dict).

Section daemon.
Context `{HASH : Hash}.
(** [redact], [suspicious], [bytes.decode(errors="replace")] and [PARSERS.get]. *)
Context (redact : string → string * Z) (suspicious : string → list string) (decode : string → string)
  (parsers : string → option (string → dict → result exn dict)).

Definition base (k : clock) (command_id request_id : val) : dict :=
  [("command_id", command_id); ("request_id", request_id); ("collected_at", VFloat (k_now k))].

(** src/valops/observer/daemon.py:162-169 ObserverDaemon._finish *)
Definition finish (k : clock) (command_id request_id : val) (status : string) (structured : val) (text : string) (truncated : bool) : DM dict :=
  let flags := suspicious text in
  let '(text, n_redacted) := redact text in
  let elapsed := py_round 1 ((k_end k - k_t0 k) * 1000)%Q in
  d ← get_state;
  let '(r, c') := chain_add (k_append k)
    [("request_id", request_id); ("command_id", command_id); ("status", VStr status); ("output_hash", VStr (sha256_hex text));
     ("elapsed_ms", VFloat elapsed)] (d_chain d) in
  _ ← put_state (with_chain c' d);
  ref ← lift r;
  seq ← lift (vindex ref "seq");
  mret (base k command_id request_id ++
        [("status", VStr status); ("structured", structured); ("output", VStr text); ("truncated", VBool truncated);
         ("flags", VList (map VStr flags)); ("redactions", VInt n_redacted); ("elapsed_ms", VFloat elapsed);
         ("audit_ref", VStr ("daemon:" +:+ py_str seq))]).

(** src/valops/observer/daemon.py:118-136 ObserverDaemon.observe

    Up to the acquisition of the command's lock. The message of an [ArgError] is not
    modelled. *)
Definition observe_begin (k : clock) (command_id args request_id : val) : DM progress :=
  let answer (status : string) (structured : dict) : DM progress :=
    a ← finish k command_id request_id status (VDict structured) EmptyString false; mret (Answered a) in
  d ← get_state;
  match as_str command_id ≫= dget (tb_commands (d_table d)) with
  | None => answer "rejected" [("error", VStr "unknown command_id")]
  | Some cmd =>
      match validate_args cmd args with
      | Err (PyExc cls) => if String.eqb cls "ArgError" then answer "rejected" [("error", VStr "invalid args")] else raise (PyExc cls)
      | Err e => raise e
      | Ok vargs =>
          if bool_decide (m_kind cmd = KUnavailable) then
            answer "unavailable" [("reason", VStr "query not verified against a primary source [U]")]
          else if m_rpc_backed cmd && bk_open (d_breaker d) then answer "suspended" [("breaker", breaker_state (d_breaker d))]
          else
            ok ← rate_ok (k_rate k) (m_id cmd);
            if negb ok then answer "rate_limited" []
            else
              d ← get_state;
              if str_in (m_id cmd) (d_busy d) then answer "busy" []
              else _ ← put_state (with_busy (m_id cmd :: d_busy d) d); mret (Running cmd vargs)
      end
  end.

Definition release (cid : string) : DM unit := modify (λ d, with_busy (List.filter (λ x, negb (String.eqb x cid)) (d_busy d)) d).

(** The work done under the lock: what [_finish] is called with, or the error to answer. *)
Definition worked : Type := string * val * string * bool + string.
Definition builtin_work (k : clock) (cmd : Command) (r : result exn (string * dict)) : DM worked :=
  match r with
  | Ok (text, structured) =>
      let '(raw, truncated) := cap text (m_output_cap_bytes cmd) in
      structured ← (if String.eqb (m_id cmd) "rpc_latency" then
                      ms ← lift (vindex (VDict structured) "latency_ms"); healthy ← lift (vindex (VDict structured) "healthy");
                      ms ← lift (of_opt (num_of ms) (PyExc "TypeError"));
                      d ← get_state;
                      let b := sample (k_trip k) ms (truthy healthy) (d_breaker d) in
                      _ ← put_state (with_breaker b d);
                      mret (dset structured "breaker" (breaker_state b))
                    else mret structured);
      mret (inl ("ok", VDict structured, decode raw, truncated))
  | Err (PyExc cls) => if str_in cls os_errors then mret (inr cls) else raise (PyExc cls)
  | Err e => raise e
  end.
Definition process_work (cmd : Command) (vargs : dict) (r : result exn process) : DM worked :=
  d ← get_state;
  _ ← lift (assemble_argv cmd vargs (d_local d));
  match r with
  | Ok p =>
      let '(status, raw, truncated) := exec_ cmd p in
      let text := decode raw in
      parser ← lift (match py_or (m_parser cmd) (VStr EmptyString) with
                     | VStr name => Ok (parsers name)
                     | v => if hashable v then Ok None else Err (PyExc "TypeError")
                     end);
      structured ← lift (match parser with
                         | Some parser => if String.eqb status "ok" then parser text (d_local d) else Ok [("parsed", VBool false)]
                         | None => Ok [("parsed", VBool false)]
                         end);
      mret (inl (status, VDict structured, text, truncated))
  | Err (PyExc cls) => if str_in cls os_errors then mret (inr cls) else raise (PyExc cls)
  | Err e => raise e
  end.
(** What the host did is of the command's kind. *)
Definition work (k : clock) (cmd : Command) (vargs : dict) (h : host) : DM worked :=
  match h with
  | HBuiltin r => if bool_decide (m_kind cmd = KBuiltin) then builtin_work k cmd r else raise (PyExc "KeyError")
  | HProcess r => if bool_decide (m_kind cmd = KBuiltin) then raise (PyExc "KeyError") else process_work cmd vargs r
  end.

(** [m] with [release] on every path out of it. *)
Definition releasing {A} (cid : string) (m : DM A) : DM A := λ d,
  let '(r, d1) := m d in let '(_, d2) := release cid d1 in (r, d2).

(** src/valops/observer/daemon.py:137-160 ObserverDaemon.observe

    From the acquisition of the lock on; an error is answered before its release. *)
Definition observe_end (k : clock) (command_id request_id : val) (cmd : Command) (vargs : dict) (h : host) : DM dict :=
  out ← releasing (m_id cmd) (
    w ← work k cmd vargs h;
    match w with
    | inr cls => a ← finish k command_id request_id "error" (VDict [("error", VStr cls)]) EmptyString false; mret (inr a)
    | inl w => mret (inl w)
    end);
  match out with
  | inr a => mret a
  | inl (status, structured, text, truncated) => finish k command_id request_id status structured text truncated
  end.

Definition observe (k : clock) (command_id args request_id : val) (h : host) : DM dict :=
  p ← observe_begin k command_id args request_id;
  match p with
  | Answered a => mret a
  | Running cmd vargs => observe_end k command_id request_id cmd vargs h
  end.

(** ** The HTTP endpoint *)
(** src/valops/observer/daemon.py:195-209 H.do_POST

    [client_ok] is the client certificate's check, [content_length] the header. *)
Definition do_POST (k : clock) (client_ok : bool) (path : string) (content_length : option string) (body : string) (h : host) : DM (Z * val) :=
  if negb client_ok then mret (403%Z, VDict [("error", VStr "client identity")])
  else if negb (String.eqb path "/observe") then mret (404%Z, VDict [("error", VStr "not found")])
  else
    n ← lift (py_int (VStr (default "0" content_length)));
    if ((n <=? 0) || (16384 <? n))%Z then mret (413%Z, VDict [("error", VStr "body size")])
    else match json_loads (String.substring 0 (Z.to_nat n) body) with
         | None => mret (400%Z, VDict [("error", VStr "json")])
         | Some (VDict req) =>
             a ← observe k (dget_none req "command_id") (dget_none req "args") (dget_none req "request_id") h;
             mret (200%Z, VDict a)
         | Some _ => mret (400%Z, VDict [("error", VStr "json object required")])
         end.

(** src/valops/observer/daemon.py:211-221 H.do_GET

    [since] is the first value of the query's parameter. *)
Definition do_GET (sign : string → string) (t : Q) (client_ok : bool) (path : string) (since : option string) : DM (Z * val) :=
  if negb client_ok then mret (403%Z, VDict [("error", VStr "client identity")])
  else if String.eqb path "/checkpoint" then
    d ← get_state;
    let since := s ← since; N.to_nat <$> digits_N s in
    ck ← lift (checkpoint sign t since (d_chain d));
    mret (200%Z, VDict ck)
  else if String.eqb path "/health" then
    d ← get_state;
    mret (200%Z, VDict [("ok", VBool true); ("breaker", breaker_state (d_breaker d)); ("chain_seq", VInt (Z.of_nat (c_seq (d_chain d))))])
  else mret (404%Z, VDict [("error", VStr "not found")]).
End daemon.
