(* ===== verification/DaemonProps.v ===== *)
(** * The observer daemon's guarantees

    Rate, concurrency of one, the breaker, the bound on output, and that every answer is
    in the local chain. *)
From S2P Require Import Prelude PyVal Schema Canonical Json PyConv AuditChain AuditProps LocalChain Table Daemon.
From Stdlib Require Import Ascii Sorted.

(** ** Rate *)
Section rate.
Local Open Scope Q_scope.

(** Any [n + 1] consecutive members span more than a minute. *)
Definition spaced (n : nat) (l : list Q) : Prop := ∀ i x y, l !! i = Some x → l !! (i + n)%nat = Some y → 60 < y - x.

Lemma spaced_snoc n l y : spaced n l → (∀ i x, (i + n = length l)%nat → l !! i = Some x → 60 < y - x) → (0 < n)%nat → spaced n (l ++ [y]).
Proof.
  intros Hl Hy Hn i x z Hx Hz. destruct (decide (i + n < length l)%nat) as [Hlt|Hge].
  - rewrite lookup_app_l in Hz by done. rewrite lookup_app_l in Hx by lia. by eapply Hl.
  - apply lookup_app_Some in Hz as [Hz|[_ Hz]]; [apply lookup_lt_Some in Hz; lia|].
    apply list_lookup_singleton_Some in Hz as [Hi <-]. rewrite lookup_app_l in Hx by lia. eapply Hy; [|done]. lia.
Qed.

Lemma expire_suffix t q : ∃ gone, q = gone ++ expire t q ∧ Forall (λ x, 60 < t - x) gone.
Proof.
  induction q as [|x q IH]; cbn; [by exists []|]. destruct (Qltb 60 (t - x)) eqn:Hx; [|by exists []].
  destruct IH as (gone & Hq & Hg). exists (x :: gone). split; [cbn; by rewrite <- Hq|]. constructor; [by apply Qltb_lt|done].
Qed.

(** The times at which the calls of one command were let through. *)
Fixpoint let_through (cid : string) (l : list (Q * string)) (d : daemon) : list Q :=
  match l with
  | [] => []
  | (t, c) :: l' =>
      let '(r, d') := rate_ok t c d in
      (if (match r with Ok b => b | Err _ => false end) && String.eqb c cid then [t] else []) ++ let_through cid l' d'
  end.

Lemma rate_ok_run t c d q : dget (d_calls d) c = Some q →
  rate_ok t c d = (Ok (admit_call (d_rate d) t q).1, with_calls (dset (d_calls d) c (admit_call (d_rate d) t q).2) d).
Proof. intros Hq. unfold rate_ok. rewrite get_bind, lift_bind, Hq. cbn. by destruct (admit_call _ _ _). Qed.
Lemma rate_ok_missing t c d : dget (d_calls d) c = None → rate_ok t c d = (Err (PyExc "KeyError"), d).
Proof. intros Hq. unfold rate_ok. by rewrite get_bind, lift_bind, Hq. Qed.

Lemma let_through_spaced cid l t0 d old q : StronglySorted Qle (t0 :: map fst l) → dget (d_calls d) cid = Some q → (0 < d_rate d)%Z →
  spaced (Z.to_nat (d_rate d)) (old ++ q) → Forall (λ x, 60 < t0 - x) old →
  spaced (Z.to_nat (d_rate d)) (old ++ q ++ let_through cid l d).
Proof.
  revert t0 d old q. induction l as [|[t c] l IH]; intros t0 d old q Hs Hq Hr Hsp Hold; cbn; [by rewrite app_nil_r|].
  cbn in Hs. apply StronglySorted_inv in Hs as [Hs Ht0]. inversion Ht0 as [|? ? Ht _]; subst.
  assert (Forall (λ x, 60 < t - x) old) as Hold'.
  { eapply list.Forall_impl; [exact Hold|]. cbn. intros x Hx. lra. }
  destruct (decide (c = cid)) as [->|Hne].
  - rewrite (rate_ok_run _ _ _ _ Hq). rewrite String.eqb_refl, andb_true_r. unfold admit_call.
    destruct (expire_suffix t q) as (gone & Hgone & Hg). set (q1 := expire t q) in *.
    assert (Forall (λ x, 60 < t - x) (old ++ gone)) as Hold2 by (by apply Forall_app).
    destruct (d_rate d <=? Z.of_nat (length q1))%Z eqn:Hfull.
    + cbn [fst snd app]. specialize (IH t (with_calls (dset (d_calls d) cid q1) d) (old ++ gone) q1 Hs (dget_dset_eq _ _ _) Hr).
      assert (∀ r, (old ++ gone) ++ q1 ++ r = old ++ q ++ r) as Heq by (intros r; rewrite Hgone; by rewrite <- !(assoc_L app)).
      rewrite Heq in IH. apply IH; [|done]. specialize (Heq []). rewrite !app_nil_r in Heq. by rewrite Heq.
    + cbn [fst snd app]. apply Z.leb_gt in Hfull.
      specialize (IH t (with_calls (dset (d_calls d) cid (q1 ++ [t])) d) (old ++ gone) (q1 ++ [t]) Hs (dget_dset_eq _ _ _) Hr).
      assert (∀ r, (old ++ gone) ++ (q1 ++ [t]) ++ r = old ++ q ++ [t] ++ r) as Heq.
      { intros r. rewrite Hgone. by rewrite <- !(assoc_L app). }
      rewrite Heq in IH. apply IH; [|done]. specialize (Heq []). rewrite !app_nil_r in Heq. rewrite Heq, (assoc_L app).
      apply spaced_snoc; [done| |cbn; lia]. intros i x Hi Hx. cbn in Hi.
      rewrite Hgone, (assoc_L app) in Hx, Hi. rewrite length_app in Hi. rewrite lookup_app_l in Hx by lia.
      apply list_elem_of_lookup_2 in Hx. rewrite list.Forall_forall in Hold2. by apply Hold2.
  - destruct (dget (d_calls d) c) as [qc|] eqn:Hqc.
    + rewrite (rate_ok_run _ _ _ _ Hqc). destruct (String.eqb_spec c cid); [done|]. rewrite andb_false_r. cbn [app].
      apply (IH t (with_calls _ d)); [done| |done|done|done]. cbn. by rewrite dget_dset_ne.
    + rewrite (rate_ok_missing _ _ _ Hqc). cbn [andb app]. by apply (IH t).
Qed.

(** The rate limit holds over every sliding window: however the calls of all
    commands are interleaved, on a clock that does not go back, any [rate + 1] calls of a
    command that were let through span more than sixty seconds. *)
Theorem rate_limit_holds cid l d i x y :
  StronglySorted Qle (map fst l) → dget (d_calls d) cid = Some [] → (0 < d_rate d)%Z →
  let_through cid l d !! i = Some x → let_through cid l d !! (i + Z.to_nat (d_rate d))%nat = Some y → 60 < y - x.
Proof.
  intros Hs Hq Hr Hx Hy. destruct l as [|[t c] l]; [done|].
  refine (let_through_spaced cid ((t, c) :: l) t d [] [] _ Hq Hr _ _ i x y Hx Hy); [|done|constructor].
  constructor; [done|]. cbn in *. apply StronglySorted_inv in Hs as [_ Hs]. constructor; [lra|done].
Qed.
End rate.

(** ** Output *)
Definition concat_chunks (l : list string) : string := foldr String.append EmptyString l.

Lemma reader_from limit chunks b : Forall (λ c, c ≠ EmptyString) chunks →
  ∃ rest, b +:+ concat_chunks chunks = (fold_left (read_chunk limit) chunks (b, false)).1 +:+ rest ∧
    (rest = EmptyString → (fold_left (read_chunk limit) chunks (b, false)).2 = false) ∧
    (rest ≠ EmptyString → (fold_left (read_chunk limit) chunks (b, false)).2 = true ∧
       (limit <= Z.of_nat (String.length (fold_left (read_chunk limit) chunks (b, false)).1))%Z).
Proof.
  revert b. induction chunks as [|c chunks IH]; intros b Hne; cbn [fold_left].
  - exists EmptyString. by split_and!.
  - inversion Hne as [|? ? Hc Hne']; subst. unfold read_chunk at 2 4 6 8. cbn [fst snd].
    destruct (Z.ltb_spec (Z.of_nat (String.length b)) limit) as [Hlt|Hge].
    + destruct (IH (b +:+ c) Hne') as (rest & Heq & H0 & H1). exists rest. split_and!; [|done|done].
      rewrite <- Heq. cbn. by rewrite string_app_assoc.
    + assert (∀ o, fold_left (read_chunk limit) chunks (b, o) = (b, match chunks with [] => o | _ => true end)) as Hfull.
      { intros o. clear IH Hne Hne'. revert o. induction chunks as [|c' chunks IH]; intros o; [done|]. cbn [fold_left].
        unfold read_chunk at 2. cbn [fst snd]. destruct (Z.ltb_spec (Z.of_nat (String.length b)) limit); [lia|]. rewrite IH. by destruct chunks. }
      rewrite Hfull. cbn [fst snd]. exists (concat_chunks (c :: chunks)). split_and!; [done| |].
      * destruct c; [done|]. by intros.
      * intros _. split; [by destruct chunks|lia].
Qed.

Lemma substring_app n a b : n ≤ String.length a → String.substring 0 n (a +:+ b) = String.substring 0 n a.
Proof.
  revert n. induction a as [|c a IH]; intros n Hn; [cbn in Hn; replace n with 0 by lia; by destruct b|].
  change (String c a +:+ b) with (String c (a +:+ b)). destruct n as [|n]; [done|]. cbn. f_equal. apply IH. cbn in Hn. lia.
Qed.
Lemma substring_all n a : String.length a ≤ n → String.substring 0 n a = a.
Proof.
  revert n. induction a as [|c a IH]; intros n Hn; cbn in *; [by destruct n|]. destruct n as [|n]; [lia|]. f_equal. apply IH. lia.
Qed.
Lemma substring_length n a : n ≤ String.length a → String.length (String.substring 0 n a) = n.
Proof. revert n. induction a as [|c a IH]; intros [|n] Hn; cbn in *; [done|lia|done|]. f_equal. apply IH. lia. Qed.

(** Whatever a process writes, and in whatever chunks: the output kept is the
    first [output_cap_bytes] bytes of it, and [truncated] says whether there was more. *)
Theorem output_is_capped cmd p status data truncated :
  (0 <= m_output_cap_bytes cmd)%Z → Forall (λ c, c ≠ EmptyString) (pr_chunks p) → exec_ cmd p = (status, data, truncated) →
  let total := concat_chunks (pr_chunks p) in
  data = String.substring 0 (Z.to_nat (m_output_cap_bytes cmd)) total ∧
  (truncated = true ↔ (m_output_cap_bytes cmd < Z.of_nat (String.length total))%Z).
Proof.
  intros Hcap Hne H total. unfold exec_, reader in H. set (limit := m_output_cap_bytes cmd) in *.
  destruct (reader_from limit (pr_chunks p) EmptyString Hne) as (rest & Heq & H0 & H1).
  destruct (fold_left _ _ _) as [buf over]. cbn [fst snd] in *. change (EmptyString +:+ concat_chunks (pr_chunks p)) with total in Heq.
  assert (String.length total = String.length buf + String.length rest) as Hlen by (by rewrite Heq, string_length_app).
  unfold cap in H. destruct (decide (rest = EmptyString)) as [->|Hrest].
  - rewrite (H0 eq_refl) in H. rewrite string_app_nil in Heq. rewrite Heq.
    destruct (Z.ltb_spec limit (Z.of_nat (String.length buf))) as [Hlt|Hge]; injection H as <- <- <-.
    + destruct (Z.ltb_spec limit 0); [lia|]. by split.
    + rewrite substring_all by lia. split; [done|]. split; [done|lia].
  - destruct (H1 Hrest) as [-> Hl]. assert (String.length rest ≠ 0) as Hr by (by destruct rest).
    destruct (Z.ltb_spec limit (Z.of_nat (String.length buf))) as [Hlt|Hge]; injection H as <- <- <-.
    + destruct (Z.ltb_spec limit 0); [lia|]. split; [by rewrite Heq, substring_app by lia|]. split; [lia|done].
    + split; [by rewrite Heq, substring_app, substring_all by lia|]. split; [lia|done].
Qed.

(** ** The breaker *)
Definition bad_sample (threshold_ms : Q) (x : Q * Q * bool) : bool := negb x.2 || Qltb threshold_ms x.1.2.
(** How many good samples came since the last bad one, if there was one. *)
Definition since_bad (threshold_ms : Q) (l : list (Q * Q * bool)) : option nat :=
  fold_left (λ k x, if bad_sample threshold_ms x then Some 0 else S <$> k) l None.
Definition run_samples (b : breaker) (l : list (Q * Q * bool)) : breaker := fold_left (λ b '(t, ms, healthy), sample t ms healthy b) l b.

(** The breaker is what it is meant to be, for every sequence of samples:
    open from a bad sample (unhealthy, or slower than the threshold) until the configured
    number of consecutive good ones. *)
Theorem breaker_is_open_since_bad threshold_ms recover l :
  (0 < recover)%Z →
  bk_open (run_samples (new_breaker threshold_ms recover) l) =
  match since_bad threshold_ms l with Some k => (Z.of_nat k <? recover)%Z | None => false end.
Proof.
  intros Hrec.
  enough (let b := run_samples (new_breaker threshold_ms recover) l in
    bk_threshold_ms b = threshold_ms ∧ bk_recover b = recover ∧
    match since_bad threshold_ms l with
    | Some k => bk_open b = (Z.of_nat k <? recover)%Z ∧ (bk_open b = true → bk_good b = Z.of_nat k)
    | None => bk_open b = false
    end) as (_ & _ & H) by (destruct (since_bad threshold_ms l); [by destruct H|done]).
  induction l as [|[[t ms] healthy] l IH] using rev_ind; [done|]. unfold run_samples, since_bad in *. rewrite !fold_left_app. cbn [fold_left].
  destruct (fold_left _ l (new_breaker threshold_ms recover)) as [thr rc open good trips at_]. cbn zeta in *. destruct IH as (Ht & Hr & IH).
  cbn in Ht, Hr. subst thr rc. unfold bad_sample at 1. unfold sample. cbn [bk_threshold_ms bk_recover bk_open bk_good fst snd].
  destruct (negb healthy || Qltb threshold_ms ms).
  - destruct open; cbn; split_and!; try done; symmetry; apply Z.ltb_lt; lia.
  - destruct (fold_left _ l None) as [k|]; cbn [fmap option_fmap option_map].
    + destruct IH as [Ho Hg]. cbn in Ho, Hg. destruct open.
      * rewrite (Hg eq_refl). symmetry in Ho. apply Z.ltb_lt in Ho. destruct (Z.leb_spec recover (Z.of_nat k + 1)); cbn; split_and!; try done; try lia.
        -- symmetry. apply Z.ltb_ge. lia.
        -- symmetry. apply Z.ltb_lt. lia.
      * cbn. split_and!; try done. symmetry in Ho |- *. apply Z.ltb_ge in Ho. apply Z.ltb_ge. lia.
    + cbn in IH. subst open. by split_and!.
Qed.

(** ** Answers and the local chain; the commands that run *)
Lemma py_round_decimal n x : decimal (py_round n x).
Proof.
  unfold py_round. cbv zeta. set (k := match _ with Eq => _ | Lt => _ | Gt => _ end). unfold decimal.
  rewrite (Qred_complete (Qred (k # Z.to_pos (10 ^ Z.of_nat n))) _ (Qred_correct _)). apply decimal_scaled. lia.
Qed.

Section answers.
Context `{HASH : Hash} (redact : string → string * Z) (suspicious : string → list string) (decode : string → string)
  (parsers : string → option (string → dict → result exn dict)).
Abbreviation finish_ := (finish redact suspicious).
Abbreviation begin_ := (observe_begin redact suspicious).
Abbreviation end_ := (observe_end redact suspicious decode parsers).

Lemma finish_run k cid rid status structured text truncated d :
  cinv (d_chain d) → decimal (k_append k) → jwf cid → jwf rid →
  ∃ a c' line, finish_ k cid rid status structured text truncated d = (Ok a, with_chain c' d) ∧ cinv c' ∧
    c_lines c' = c_lines (d_chain d) ++ [line] ∧ dget a "status" = Some (VStr status) ∧
    dget a "audit_ref" = Some (VStr ("daemon:" +:+ py_str (VInt (Z.of_nat (length (c_lines c')))))).
Proof.
  intros Hc Ht Hcid Hrid. unfold finish. destruct (redact text) as [text' n]. rewrite get_bind.
  set (data := [("request_id", rid); _; _; _; _]).
  destruct (chain_add_inv (k_append k) data (d_chain d) Hc Ht) as (h & Hadd & Hc').
  { split_and!; [apply (bool_decide_unpack _); vm_compute; exact I..|].
    repeat constructor; try done. apply py_round_decimal. }
  cbn zeta in Hadd, Hc'. rewrite Hadd. eexists _, _, h.1. split; [reflexivity|]. split; [exact Hc'|]. cbn.
  assert (length (c_lines (d_chain d) ++ [h.1]) = S (c_seq (d_chain d))) as ->; [|done].
  destruct Hc as [[h0 Hl] ->]. rewrite length_app, (links_length _ _ _ _ _ Hl). cbn. lia.
Qed.

(** The chain has one more line, the answer's. *)
Definition logged (d : daemon) (a : dict) (d' : daemon) : Prop :=
  cinv (d_chain d') ∧ (∃ line, c_lines (d_chain d') = c_lines (d_chain d) ++ [line]) ∧
  dget a "audit_ref" = Some (VStr ("daemon:" +:+ py_str (VInt (Z.of_nat (length (c_lines (d_chain d'))))))).
(** Neither the chain nor the set of running commands changed. *)
Definition unlogged (d d' : daemon) : Prop := d_chain d' = d_chain d ∧ d_busy d' = d_busy d.
#[local] Instance unlogged_preorder : PreOrder unlogged.
Proof. split; [by intros d|]. intros d1 d2 d3 [H1 H2] [H3 H4]. split; congruence. Qed.

Lemma rate_ok_unlogged t cid : respects unlogged (rate_ok t cid).
Proof.
  intros d r d' H. destruct (dget (d_calls d) cid) as [q|] eqn:Hq.
  - rewrite (rate_ok_run _ _ _ _ Hq) in H. by injection H as <- <-.
  - rewrite (rate_ok_missing _ _ _ Hq) in H. by injection H as <- <-.
Qed.
Lemma work_unlogged k cmd vargs h : respects unlogged (work decode parsers k cmd vargs h).
Proof.
  assert (∀ A (m : DM A), readonly m → respects unlogged m) as Hro by (intros; by apply (respects_readonly _)).
  assert (respects unlogged (get_state (S := daemon) (E := exn))) as Hget by by apply Hro.
  assert (∀ cls, respects unlogged (if str_in cls os_errors then mret (inr cls) else raise (PyExc cls) : DM worked)) as Herr
    by (intros cls; destruct (str_in cls os_errors); by apply Hro).
  unfold work. destruct h as [r|r]; destruct (bool_decide _); try (by apply Hro); unfold builtin_work, process_work.
  - destruct r as [[text structured]|[c v|cls]]; [|by apply Hro|apply Herr].
    destruct (cap _ _) as [raw truncated]. apply (respects_bind _ (λ _, True)); [|done|intros; by apply Hro].
    destruct (String.eqb (m_id cmd) "rpc_latency"); [|by apply Hro].
    do 3 (apply (respects_bind _ (λ _, True)); [by apply Hro|done|intros ? _]).
    intros d r d' H. rewrite get_bind in H. cbv zeta in H. by injection H as <- <-.
  - apply (respects_bind _ (λ _, True)); [done|done|intros d _]. apply (respects_bind _ (λ _, True)); [by apply Hro|done|intros argv _].
    destruct r as [p|[c v|cls]]; [|by apply Hro|apply Herr].
    destruct (exec_ cmd p) as [[status raw] truncated]. apply (respects_bind _ (λ _, True)); [by apply Hro|done|intros parser _].
    apply (respects_bind _ (λ _, True)); [by apply Hro|done|intros; by apply Hro].
Qed.

(** What every outcome of a request does to the chain and to the running commands. *)
Definition outcome (d : daemon) (r : result exn dict) (d' : daemon) : Prop :=
  d_busy d' = d_busy d ∧ match r with Ok a => logged d a d' | Err _ => d_chain d' = d_chain d end.

Lemma finish_outcome k cid rid status structured text truncated d r d' :
  cinv (d_chain d) → decimal (k_append k) → jwf cid → jwf rid →
  finish_ k cid rid status structured text truncated d = (r, d') → (∃ a, r = Ok a) ∧ outcome d r d'.
Proof.
  intros Hc Ht Hcid Hrid H.
  destruct (finish_run k cid rid status structured text truncated d Hc Ht Hcid Hrid) as (a & c' & line & E & Hc' & Hl & _ & Hr).
  rewrite E in H. injection H as <- <-. split; [by eexists|]. split; [done|]. split; [done|]. split; [by exists line|done].
Qed.

Lemma observe_begin_outcome k cid args rid d r d' :
  cinv (d_chain d) → decimal (k_append k) → jwf cid → jwf rid → begin_ k cid args rid d = (r, d') →
  match r with
  | Ok (Answered a) => outcome d (Ok a) d'
  | Ok (Running cmd vargs) => d_chain d' = d_chain d ∧ m_id cmd ∉ d_busy d ∧ d_busy d' = m_id cmd :: d_busy d
  | Err e => outcome d (Err e) d'
  end.
Proof.
  intros Hc Ht Hcid Hrid H. unfold observe_begin in H. cbv zeta in H. rewrite get_bind in H.
  assert (∀ status structured d1, unlogged d d1 →
    (a ← finish_ k cid rid status structured EmptyString false; mret (Answered a)) d1 = (r, d') →
    ∃ a, r = Ok (Answered a) ∧ outcome d (Ok a) d') as Hans.
  { intros status structured d1 [Hch Hbu] E. apply bind_cases in E as [(e & E1 & ->)|(a & d2 & E1 & E2)].
    - apply finish_outcome in E1 as [[a Ha] _]; [discriminate Ha|by rewrite ?Hch..].
    - injection E2 as <- <-. apply finish_outcome in E1 as [_ [Hb Hl]]; [|by rewrite ?Hch..]. exists a. split; [done|].
      split; [congruence|]. unfold logged in *. by rewrite <- Hch. }
  destruct (as_str cid ≫= _) as [cmd|]; [|apply Hans in H as (a & -> & ?); done].
  destruct (validate_args cmd args) as [vargs|[c v|cls]]; [|injection H as <- <-; split; done|].
  2: { destruct (String.eqb cls "ArgError"); [apply Hans in H as (a & -> & ?); done|injection H as <- <-; by split]. }
  destruct (bool_decide _); [apply Hans in H as (a & -> & ?); done|].
  destruct (m_rpc_backed cmd && _); [apply Hans in H as (a & -> & ?); done|].
  apply bind_cases in H as [(e & H1 & ->)|(ok & d1 & H1 & H)]; apply rate_ok_unlogged in H1 as Hu; [by destruct Hu; split|].
  destruct ok; [|apply Hans in H as (a & -> & ?); done]. cbn [negb] in H. rewrite get_bind in H.
  destruct (str_in (m_id cmd) (d_busy d1)) eqn:Hb; [apply Hans in H as (a & -> & ?); done|].
  injection H as <- <-. destruct Hu as [Hch Hbu]. cbn. split_and!; [done| |by rewrite Hbu].
  rewrite <- Hbu. intros Hin. apply str_in_spec in Hin. congruence.
Qed.

Lemma filter_notin x l : x ∉ l → List.filter (λ y, negb (String.eqb y x)) l = l.
Proof.
  induction l as [|y l IH]; intros Hx; [done|]. cbn. rewrite not_elem_of_cons in Hx. destruct Hx as [Hne Hx].
  destruct (String.eqb_spec y x); [congruence|]. cbn. by rewrite IH.
Qed.

Lemma filter_perm {A} (f : A → bool) l l' : l ≡ₚ l' → List.filter f l ≡ₚ List.filter f l'.
Proof. induction 1; cbn; repeat case_match; eauto using Permutation. Qed.

(** The state with the lock of [x] released. *)
Definition without (x : string) (d : daemon) : daemon := with_busy (List.filter (λ y, negb (String.eqb y x)) (d_busy d)) d.

Lemma releasing_run {A} x (m : DM A) d r d' : releasing x m d = (r, d') → ∃ d1, m d = (r, d1) ∧ d' = without x d1.
Proof. unfold releasing. destruct (m d) as [r1 d1]. cbn. intros [= <- <-]. by exists d1. Qed.

Lemma observe_end_outcome k cid rid cmd vargs h d r d' :
  cinv (d_chain d) → decimal (k_append k) → jwf cid → jwf rid → end_ k cid rid cmd vargs h d = (r, d') →
  outcome (without (m_id cmd) d) r d'.
Proof.
  intros Hc Ht Hcid Hrid H. unfold observe_end in H. apply bind_cases in H as [(e & H & ->)|(out & d3 & H & H2)].
  - apply releasing_run in H as (d1 & H1 & ->). 
    apply bind_cases in H1 as [(e' & H1 & _)|(w & d2 & H1 & H2)]; apply work_unlogged in H1 as [Hch Hbu].
    + split; cbn; [by rewrite Hbu|done].
    + destruct w as [w|cls]; [discriminate H2|]. apply bind_cases in H2 as [(e' & H2 & _)|(a & d4 & _ & H2)]; [|discriminate H2].
      apply finish_outcome in H2 as [[a Ha] _]; [discriminate Ha|by rewrite ?Hch..].
  - apply releasing_run in H as (d1 & H1 & ->).
    apply bind_cases in H1 as [(e' & _ & H1)|(w & d2 & H1 & H3)]; [discriminate H1|]. apply work_unlogged in H1 as [Hch Hbu].
    destruct w as [w|cls].
    + injection H3 as <- <-. destruct w as [[[status structured] text] truncated].
      apply finish_outcome in H2 as [_ [Hb Hl]]; cbn; [|by rewrite ?Hch..]. cbn in Hb, Hl. destruct r as [a|e].
      * split; [cbn; by rewrite Hb, Hbu|]. unfold logged in *. cbn in *. by rewrite <- Hch.
      * split; cbn; [by rewrite Hb, Hbu|by rewrite Hl].
    + apply bind_cases in H3 as [(e' & _ & H3)|(a & d4 & H3 & H4)]; [discriminate H3|]. injection H4 as <- <-. injection H2 as <- <-.
      apply finish_outcome in H3 as [_ [Hb Hl]]; [|by rewrite ?Hch..]. split; cbn; [by rewrite Hb, Hbu|].
      unfold logged in *. cbn in *. by rewrite <- Hch.
Qed.

(** Every answer of the daemon (rejected, suspended, rate-limited, busy, or
    what a command gave, its error included) has left exactly one line at the end of the
    local chain, the one its audit_ref numbers; a request that raises has left none; and on
    every path the command's lock is free again. *)
Theorem every_answer_is_logged k cid args rid h d r d' :
  cinv (d_chain d) → decimal (k_append k) → jwf cid → jwf rid →
  observe redact suspicious decode parsers k cid args rid h d = (r, d') →
  d_busy d' = d_busy d ∧
  match r with
  | Ok a => cinv (d_chain d') ∧ (∃ line, c_lines (d_chain d') = c_lines (d_chain d) ++ [line]) ∧
            dget a "audit_ref" = Some (VStr ("daemon:" +:+ py_str (VInt (Z.of_nat (length (c_lines (d_chain d')))))))
  | Err _ => d_chain d' = d_chain d
  end.
Proof.
  intros Hc Ht Hcid Hrid H. unfold observe in H. apply bind_cases in H as [(e & H & ->)|(p & d1 & H & H2)];
    apply observe_begin_outcome in H; try done. destruct p as [a|cmd vargs]; [by injection H2 as <- <-|].
  destruct H as (Hch & Hni & Hbu). apply observe_end_outcome in H2 as [Hb Hl]; [|by rewrite ?Hch..].
  assert (d_busy (without (m_id cmd) d1) = d_busy d) as Hf.
  { cbn. rewrite Hbu. cbn. rewrite String.eqb_refl. cbn. by apply filter_notin. }
  split; [by rewrite Hb|]. destruct r as [a|e]; [|by rewrite Hl]. unfold logged in Hl. cbn in Hl. by rewrite Hch in Hl.
Qed.

(** Requests interleave: each is in [running] between its two steps. *)
Record request : Type := mkRequest { q_id : val; q_rid : val; q_cmd : Command; q_args : dict }.
Inductive served : list request * daemon → list request * daemon → Prop :=
| ServedStart k cid args rid cmd vargs running d d' : begin_ k cid args rid d = (Ok (Running cmd vargs), d') →
    decimal (k_append k) → jwf cid → jwf rid → served (running, d) (mkRequest cid rid cmd vargs :: running, d')
| ServedAtOnce k cid args rid a running d d' : begin_ k cid args rid d = (Ok (Answered a), d') →
    decimal (k_append k) → jwf cid → jwf rid → served (running, d) (running, d')
| ServedRaised k cid args rid e running d d' : begin_ k cid args rid d = (Err e, d') →
    decimal (k_append k) → jwf cid → jwf rid → served (running, d) (running, d')
| ServedEnd k l1 q l2 h r d d' : end_ k (q_id q) (q_rid q) (q_cmd q) (q_args q) h d = (r, d') →
    decimal (k_append k) → served (l1 ++ q :: l2, d) (l1 ++ l2, d').

Definition serving_inv (s : list request * daemon) : Prop :=
  cinv (d_chain s.2) ∧ map (λ q, m_id (q_cmd q)) s.1 ≡ₚ d_busy s.2 ∧ NoDup (d_busy s.2) ∧ Forall (λ q, jwf (q_id q) ∧ jwf (q_rid q)) s.1.

Lemma outcome_cinv d r d' : cinv (d_chain d) → outcome d r d' → cinv (d_chain d').
Proof. intros Hc [_ H]. destruct r; [by destruct H|by rewrite H]. Qed.

Lemma served_inv s s' : served s s' → serving_inv s → serving_inv s'.
Proof.
  intros H (Hc & Hp & Hn & Hj). unfold serving_inv. destruct H as [k cid args rid cmd vargs running d d' H Ht H1 H2
    |k cid args rid a running d d' H Ht H1 H2|k cid args rid e running d d' H Ht H1 H2|k l1 q l2 h r d d' H Ht]; cbn in *.
  - apply observe_begin_outcome in H; try done. destruct H as (Hch & Hni & Hbu). rewrite Hch, Hbu. split_and!; [done|by constructor|by constructor|by constructor].
  - apply observe_begin_outcome in H; try done. split; [exact (outcome_cinv _ _ _ Hc H)|]. destruct H as [-> _]. done.
  - apply observe_begin_outcome in H; try done. split; [exact (outcome_cinv _ _ _ Hc H)|]. destruct H as [-> _]. done.
  - apply Forall_app in Hj as [Hj1 [[Hq1 Hq2] Hj2]%list.Forall_cons]. apply observe_end_outcome in H; try done.
    split; [exact (outcome_cinv (without _ d) r d' Hc H)|]. destruct H as [-> _]. cbn.
    rewrite map_app in Hp. cbn in Hp. rewrite <- Permutation_middle in Hp. rewrite <- map_app in Hp.
    rewrite <- Hp in Hn. apply list.NoDup_cons in Hn as [Hni Hn]. apply (filter_perm (λ y, negb (String.eqb y (m_id (q_cmd q))))) in Hp.
    cbn in Hp. rewrite String.eqb_refl in Hp. cbn in Hp. rewrite (filter_notin _ _ Hni) in Hp.
    split_and!; [done|by rewrite <- Hp|by apply Forall_app].
Qed.

(** C36: safety. However requests interleave, and whatever the host does: no two runs of the
    same command are in progress at once, the commands in progress are exactly those whose
    lock is held, and the local chain stays well formed. *)
Theorem one_run_per_command s s' :
  rtc served s s' → cinv (d_chain s.2) → d_busy s.2 = [] → s.1 = [] →
  NoDup (map (λ q, m_id (q_cmd q)) s'.1) ∧ (∀ x, x ∈ d_busy s'.2 ↔ x ∈ map (λ q, m_id (q_cmd q)) s'.1) ∧ cinv (d_chain s'.2).
Proof.
  intros Hs Hc Hb Hr. assert (serving_inv s) as Hi.
  { split_and!; [done|by rewrite Hb, Hr|rewrite Hb; constructor|rewrite Hr; constructor]. }
  clear Hc Hb Hr. induction Hs as [s|s s1 s' Hstep _ IH]; [|by eauto using served_inv].
  destruct Hi as (Hc & Hp & Hn & _). split_and!; [by rewrite Hp|intros x; by rewrite Hp|done].
Qed.
End answers.

(** ** A daemon at work *)
Definition demo_clock (t : Q) : clock := mkClock t t t t t t.
Definition demo_daemon : daemon := new_daemon demo_table [] (mkChain [] [] 0) 2 300 5.
Definition demo_redact (s : string) : string * Z := (s, 0%Z).
Definition demo_flags (s : string) : list string := [].
Definition demo_parsers (name : string) : option (string → dict → result exn dict) := None.
Definition demo_process : host := HProcess (Ok (mkProcess ["slot "; "123"] (Some 0%Z))).
Definition first_answer : result exn dict * daemon :=
  observe (HASH := demo_hash) demo_redact demo_flags id demo_parsers (demo_clock 10) (VStr "leader_schedule_self") epoch_args (VStr "r1") demo_process demo_daemon.
Definition demo_capped : Command :=
  mkCommand "epoch_info" KExec ["solana"; "epoch-info"] [] [] VNone 10 4 false false.

Lemma demo_chain_inv : cinv (HASH := demo_hash) (d_chain demo_daemon).
Proof. split; [exists GENESIS; constructor|reflexivity]. Qed.
Example demo_answer : (dget (match first_answer.1 with Ok a => a | Err _ => [] end) "output" = Some (VStr "slot 123")) ∧
  length (c_lines (d_chain first_answer.2)) = 1.
Proof. split; vm_compute; reflexivity. Qed.

Lemma rate_limit_holds_witness :
  let_through "leader_schedule_self" [(10, "leader_schedule_self"); (20, "leader_schedule_self"); (30, "leader_schedule_self"); (75, "leader_schedule_self")]%Q
    demo_daemon = [10; 20; 75]%Q ∧ (60 < 75 - 10)%Q.
Proof.
  split; [vm_compute; reflexivity|].
  refine (rate_limit_holds "leader_schedule_self"
    [(10, "leader_schedule_self"); (20, "leader_schedule_self"); (30, "leader_schedule_self"); (75, "leader_schedule_self")]%Q demo_daemon 0 10%Q 75%Q _ _ _ _ _);
    try (vm_compute; reflexivity).
  cbn. repeat constructor; vm_compute; discriminate.
Defined.

Lemma output_is_capped_witness :
  exec_ demo_capped (mkProcess ["ab"; "cd"; "ef"] (Some 0%Z)) = ("ok", "abcd", true) ∧
  "abcd" = String.substring 0 4 (concat_chunks ["ab"; "cd"; "ef"]).
Proof.
  split; [vm_compute; reflexivity|].
  refine (proj1 (output_is_capped demo_capped (mkProcess ["ab"; "cd"; "ef"] (Some 0%Z)) "ok" "abcd" true _ _ _)).
  - vm_compute. discriminate.
  - repeat constructor; discriminate.
  - vm_compute. reflexivity.
Defined.

Definition demo_samples : list (Q * Q * bool) := [(1, 20, true); (2, 900, true); (3, 20, true)]%Q.
Lemma breaker_is_open_since_bad_witness : bk_open (run_samples (new_breaker 300 5) demo_samples) = true ∧ since_bad 300 demo_samples = Some 1.
Proof.
  split; [|vm_compute; reflexivity]. rewrite (breaker_is_open_since_bad 300 5 demo_samples eq_refl). vm_compute. reflexivity.
Defined.

Lemma every_answer_is_logged_witness : ∃ a, first_answer.1 = Ok a ∧
  dget a "audit_ref" = Some (VStr ("daemon:" +:+ py_str (VInt (Z.of_nat (length (c_lines (d_chain first_answer.2))))))).
Proof.
  pose proof (every_answer_is_logged (HASH := demo_hash) demo_redact demo_flags id demo_parsers (demo_clock 10) (VStr "leader_schedule_self") epoch_args
    (VStr "r1") demo_process demo_daemon first_answer.1 first_answer.2 demo_chain_inv (decimal_int 10) I I (surjective_pairing _)) as [_ H].
  destruct first_answer.1 as [a|e] eqn:E; [|exfalso; revert E; vm_compute; discriminate]. exists a. split; [reflexivity|exact (proj2 (proj2 H))].
Defined.

(** Two requests for different commands at once. *)
Definition two_running : list request * daemon :=
  let b1 := observe_begin (HASH := demo_hash) demo_redact demo_flags (demo_clock 10) (VStr "leader_schedule_self") epoch_args (VStr "r1") demo_daemon in
  match b1.1 with Ok (Running cmd vargs) => ([mkRequest (VStr "leader_schedule_self") (VStr "r1") cmd vargs], b1.2) | _ => ([], b1.2) end.
Lemma one_run_per_command_witness : map (λ q, m_id (q_cmd q)) two_running.1 = ["leader_schedule_self"] ∧ NoDup (map (λ q, m_id (q_cmd q)) two_running.1).
Proof.
  split; [vm_compute; reflexivity|].
  refine (proj1 (one_run_per_command (HASH := demo_hash) demo_redact demo_flags id demo_parsers ([], demo_daemon) two_running _ demo_chain_inv eq_refl eq_refl)).
  apply rtc_once. eapply (ServedStart (HASH := demo_hash) _ _ _ _ (demo_clock 10) (VStr "leader_schedule_self") epoch_args (VStr "r1"));
    [vm_compute; reflexivity|exact (decimal_int 10)|exact I..].
Defined.
