(* ===== verification/AuditClient.v ===== *)
(** * The submitters' audit client (src/valops/audit/client.py)

    Components that keep running while the sequencer is down queue their entries and
    send them, in order, before the next one. The sequencer behind the socket is a
    [Server]: what a call does to it and returns. *)
From S2P Require Import Prelude PyVal Schema Canonical Json Rpc AuditChain.
From Stdlib Require Import Ascii.

(** ** Payloads *)
(** [base64.b64encode(s).decode()]: the standard alphabet, padded. *)
Definition std_char (c : ascii) : ascii :=
  if Ascii.eqb c "-" then "+"%char else if Ascii.eqb c "_" then "/"%char else c.
Fixpoint std_alphabet (s : string) : string :=
  match s with EmptyString => EmptyString | String c s' => String (std_char c) (std_alphabet s') end.
Definition b64encode (s : string) : string := std_alphabet (b64u s) +:+ repeat_str "=" ((4 - String.length (b64u s) mod 4) mod 4).

(** [payload: Any]: nothing, bytes, or a value. *)
Inductive payload : Type := NoPayload | PayloadBytes (raw : string) | PayloadJson (v : val).

(** src/valops/audit/client.py:31-37 AuditClient._params *)
Definition audit_params (event : string) (episode_id : val) (data : option dict) (p : payload) : dict :=
  [("event", VStr event); ("episode_id", episode_id); ("data", VDict (default [] data))] ++
  match p with
  | NoPayload => []
  | PayloadBytes raw => [("payload_b64", VStr (b64encode raw))]
  | PayloadJson VNone => []
  | PayloadJson v => [("payload_json", v)]
  end.

(** ** The client *)
Class Server (S : Type) : Type := rpc_submit : dict → M S exn val.

(** src/valops/audit/client.py:24-29 AuditClient.__init__ *)
Record client (S : Type) : Type := mkClient {
  k_buffer : bool;
  k_max : nat;             (* max_buffer *)
  k_queue : list dict;     (* _q, oldest first *)
  k_dropped : nat;
  k_server : S;
}.
Arguments mkClient {_}.
Arguments k_buffer {_}.
Arguments k_max {_}.
Arguments k_queue {_}.
Arguments k_dropped {_}.
Arguments k_server {_}.

Section client.
Context {S : Type} `{SRV : Server S}.
Abbreviation KM := (M (client S) exn).

(** [self.rpc.call("submit", **params)] *)
Definition call_submit (params : dict) : KM val := λ k,
  let '(r, s) := rpc_submit params (k_server k) in
  (r, mkClient (k_buffer k) (k_max k) (k_queue k) (k_dropped k) s).

(** [self._q.popleft()] *)
Definition popleft : KM unit := modify (λ k, mkClient (k_buffer k) (k_max k) (tail (k_queue k)) (k_dropped k) (k_server k)).

(** The loop of [flush], over the queue it finds. *)
Fixpoint flush_queue (q : list dict) : KM unit :=
  match q with
  | [] => mret tt
  | params :: q' => _ ← call_submit params; _ ← popleft; flush_queue q'
  end.

(** src/valops/audit/client.py:39-43 AuditClient.flush *)
Definition flush : KM unit := k ← get_state; flush_queue (k_queue k).

(** A full [deque(maxlen)] loses its oldest element to an append. *)
Definition enqueue (params : dict) : KM val :=
  _ ← modify (λ k,
    let full := (length (k_queue k) =? k_max k)%nat in
    let q := k_queue k ++ [params] in
    mkClient (k_buffer k) (k_max k) (if full then tail q else q) (if full then Datatypes.S (k_dropped k) else k_dropped k) (k_server k));
  k ← get_state;
  mret (VDict [("pending", VBool true); ("queued", VInt (Z.of_nat (length (k_queue k))))]).

(** src/valops/audit/client.py:45-57 AuditClient.submit *)
Definition client_submit (event : string) (episode_id : val) (data : option dict) (p : payload) : KM val :=
  let params := audit_params event episode_id data p in
  catch (_ ← flush; call_submit params) (λ e,
    match e with
    | RpcError code _ => k ← get_state; if negb (k_buffer k) || negb (String.eqb code "unavailable") then raise e else enqueue params
    | _ => raise e
    end).

(** src/valops/audit/client.py:62-63 AuditClient.ref *)
Definition audit_ref_of (result : dict) : string :=
  match dget result "seq" with Some s => "audit:" +:+ py_str s | None => "audit:pending" end.
End client.

(** ** Order and loss *)
(** [l] with [n] entries left out and some repeated on the spot. *)
Inductive stutter {A} : nat → list A → list A → Prop :=
| st_nil : stutter 0 [] []
| st_once n x l m : stutter n l m → stutter n (x :: l) (x :: m)
| st_again n x l m : stutter n (x :: l) (x :: m) → stutter n (x :: l) (x :: x :: m)
| st_lost n x l m : stutter n l m → stutter (Datatypes.S n) (x :: l) m.

Lemma stutter_snoc {A} n (l m : list A) x : stutter n l m → stutter n (l ++ [x]) (m ++ [x]).
Proof. induction 1; cbn; [by apply st_once, st_nil|by apply st_once|by apply st_again|by apply st_lost]. Qed.
Lemma stutter_repeat {A} n (l a b : list A) p : stutter n l (a ++ p :: b) → stutter n l (a ++ p :: p :: b).
Proof.
  intros H. remember (a ++ p :: b) as m eqn:Hm. revert a Hm.
  induction H as [|n x l m H IH|n x l m H IH|n x l m H IH]; intros a Hm.
  - by destruct a.
  - destruct a as [|y a]; injection Hm as -> ->; cbn; [by apply st_again, st_once|]. by apply st_once, IH.
  - destruct a as [|y a]; [injection Hm as -> <-; by do 2 apply st_again|].
    injection Hm as -> Hm. destruct a as [|z a]; injection Hm as -> ->; cbn.
    + by do 2 apply st_again.
    + apply st_again. by apply (IH (z :: a)).
  - by apply st_lost, IH.
Qed.
Lemma stutter_drop {A} n (l a b : list A) p : stutter n l (a ++ p :: b) → ∃ n', n' ≤ Datatypes.S n ∧ stutter n' l (a ++ b).
Proof.
  intros H. remember (a ++ p :: b) as m eqn:Hm. revert a Hm.
  induction H as [|n x l m H IH|n x l m H IH|n x l m H IH]; intros a Hm.
  - by destruct a.
  - destruct a as [|y a]; injection Hm as -> ->; cbn.
    + eexists. split; [reflexivity|]. by apply st_lost.
    + destruct (IH a eq_refl) as (n' & Hn' & Hst). exists n'. split; [done|]. by apply st_once.
  - destruct a as [|y a]; [injection Hm as -> <-; exists n; split; [lia|done]|].
    injection Hm as -> Hm. destruct a as [|z a]; injection Hm as -> ->; cbn; [exists n; split; [lia|done]|].
    destruct (IH (z :: a) eq_refl) as (n' & Hn' & Hst). exists n'. split; [done|]. by apply st_again.
  - destruct (IH a Hm) as (n' & Hn' & Hst). exists (Datatypes.S n'). split; [lia|]. by apply st_lost.
Qed.

(** A sequencer that takes every entry it is reached with; a call that does not reach
    it, or whose reply is lost, is [unavailable]. *)
Class Reachable (S : Type) `{SRV : Server S} : Type := {
  accepted : S → list dict;
  accepted_ok p s r s' : rpc_submit p s = (Ok r, s') → accepted s' = accepted s ++ [p];
  accepted_err p s e s' : rpc_submit p s = (Err e, s') →
    e = rpc_error "unavailable" ∧ (accepted s' = accepted s ∨ accepted s' = accepted s ++ [p]);
}.

Section order.
Context {S : Type} `{R : Reachable S}.

(** The submissions [l] so far: each is with the sequencer or queued, in order, but
    for at most as many as were counted as dropped. *)
Definition in_order (l : list dict) (k : client S) : Prop :=
  k_buffer k = true ∧ length (k_queue k) ≤ k_max k ∧
  ∃ n, n ≤ k_dropped k ∧ stutter n l (accepted (k_server k) ++ k_queue k).

Lemma call_in_order l p q k r k' :
  in_order l k → k_queue k = p :: q → call_submit p k = (r, k') →
  k_queue k' = p :: q ∧
  match r with
  | Ok _ => in_order l (mkClient (k_buffer k') (k_max k') q (k_dropped k') (k_server k'))
  | Err e => e = rpc_error "unavailable" ∧ in_order l k'
  end.
Proof.
  intros (Hb & Hlen & n & Hn & Hst) Hq H. unfold call_submit in H. destruct (rpc_submit p (k_server k)) as [r' s] eqn:Hrpc.
  injection H as <- <-. cbn. rewrite Hq in *. split; [done|]. destruct r' as [r|e].
  - apply accepted_ok in Hrpc. split_and!; [done|cbn in *; lia|]. exists n. split; [done|]. cbn. by rewrite Hrpc, <- app_assoc.
  - apply accepted_err in Hrpc as [-> Hacc]. split; [done|]. split_and!; [done|done|]. exists n. split; [done|]. cbn.
    destruct Hacc as [->| ->]; [done|]. rewrite <- app_assoc. by apply stutter_repeat.
Qed.

Lemma flush_in_order l k r k' : in_order l k → flush k = (r, k') →
  in_order l k' ∧ k_max k' = k_max k ∧ match r with Ok _ => k_queue k' = [] | Err e => e = rpc_error "unavailable" end.
Proof.
  unfold flush. rewrite get_bind. intros Hk. remember (k_queue k) as q eqn:Hq. revert k Hk Hq.
  induction q as [|p q IH]; intros k Hk Hq H; cbn [flush_queue] in H.
  - injection H as <- <-. by rewrite <- Hq.
  - destruct (call_submit p k) as [[a|e] k1] eqn:Hc.
    + rewrite (bind_run _ _ _ _ _ Hc) in H. erewrite bind_run in H by reflexivity.
      pose proof Hc as Hc'. unfold call_submit in Hc'. destruct (rpc_submit p (k_server k)) in Hc'. injection Hc' as _ <-.
      destruct (call_in_order _ _ _ _ _ _ Hk (eq_sym Hq) Hc) as [_ Hk1]. cbn in *. rewrite <- Hq in *. cbn in *.
      by apply (IH _ Hk1 eq_refl) in H as (H1 & H2 & H3).
    + rewrite (bind_raises _ _ _ _ _ Hc) in H. injection H as <- <-.
      pose proof Hc as Hc'. unfold call_submit in Hc'. destruct (rpc_submit p (k_server k)) in Hc'. injection Hc' as _ <-.
      destruct (call_in_order _ _ _ _ _ _ Hk (eq_sym Hq) Hc) as [_ [-> Hk1]]. done.
Qed.

Lemma enqueue_in_order l k p r k' : in_order l k → k_max k ≠ 0 → enqueue p k = (r, k') →
  in_order (l ++ [p]) k' ∧ k_max k' = k_max k ∧ is_ok r = true.
Proof.
  intros (Hb & Hlen & n & Hn & Hst) Hmax H. unfold enqueue in H. erewrite bind_run in H by reflexivity. rewrite get_bind in H. injection H as <- <-.
  split; [|done]. pose proof (stutter_snoc _ _ _ p Hst) as Hst'. rewrite <- app_assoc in Hst'.
  destruct (Nat.eqb_spec (length (k_queue k)) (k_max k)) as [Heq|Hne].
  - destruct (k_queue k) as [|x q] eqn:Hq; [cbn in *; lia|]. cbn [tail app].
    destruct (stutter_drop _ _ _ _ _ Hst') as (n' & Hn' & Hs). split_and!; cbn; [done| |].
    + rewrite length_app. cbn in *. lia.
    + exists n'. split; [lia|exact Hs].
  - split_and!; cbn; [done| |].
    + rewrite length_app. cbn. lia.
    + by exists n.
Qed.

(** One submission, whatever happens to it on the way. *)
Lemma submit_in_order l k event eid data p r k' :
  in_order l k → k_max k ≠ 0 → client_submit event eid data p k = (r, k') →
  in_order (l ++ [audit_params event eid data p]) k' ∧ k_max k' = k_max k ∧ is_ok r = true.
Proof.
  intros Hk Hmax H. unfold client_submit in H. set (params := audit_params event eid data p) in *. unfold catch in H.
  assert (∀ k1, in_order l k1 → k_max k1 = k_max k →
    (k2 ← get_state; if negb (k_buffer k2) || negb (String.eqb "unavailable" "unavailable") then raise (rpc_error "unavailable")
     else enqueue params) k1 = (r, k') → in_order (l ++ [params]) k' ∧ k_max k' = k_max k ∧ is_ok r = true) as Henq.
  { intros k1 Hk1 Hm Hr. rewrite get_bind in Hr. destruct Hk1 as [Hb Hk1]. rewrite Hb in Hr. cbn in Hr.
    rewrite <- Hm. apply (enqueue_in_order l k1); [by split|congruence|done]. }
  destruct (flush k) as [rf k1] eqn:Hf. destruct (flush_in_order _ _ _ _ Hk Hf) as (Hk1 & Hm & Hr).
  destruct rf as [u|e]; [|rewrite (bind_raises _ _ _ _ _ Hf) in H; subst e; by apply Henq in H].
  rewrite (bind_run _ _ _ _ _ Hf) in H. destruct (call_submit params k1) as [rc k2] eqn:Hc.
  unfold call_submit in Hc. destruct (rpc_submit params (k_server k1)) as [rs s] eqn:Hrpc. injection Hc as -> <-.
  destruct Hk1 as (Hb & Hlen & n & Hn & Hst). rewrite Hr, app_nil_r in *. destruct rc as [a|e].
  - injection H as <- <-. apply accepted_ok in Hrpc. split; [|done]. split_and!; cbn; [done|lia|].
    exists n. split; [done|]. rewrite Hrpc, app_nil_r. by apply stutter_snoc.
  - apply accepted_err in Hrpc as [-> [Hacc|Hacc]].
    + apply Henq in H; [done| |done]. split_and!; cbn; [done|lia|]. exists n. by rewrite Hacc, app_nil_r.
    + rewrite get_bind in H. cbn [k_buffer] in H. rewrite Hb in H. cbn [negb orb String.eqb Ascii.eqb Bool.eqb] in H.
      unfold enqueue in H. erewrite bind_run in H by reflexivity. rewrite get_bind in H. injection H as <- <-.
      cbn [k_queue k_max k_dropped k_server k_buffer]. destruct (k_max k1) as [|m] eqn:Hmk; [congruence|]. cbn [length Nat.eqb].
      split; [|done]. split_and!; cbn; [done|lia|]. exists n. split; [done|]. rewrite Hacc, <- app_assoc. cbn.
      apply stutter_repeat. by apply stutter_snoc.
Qed.

Definition submission : Type := string * val * option dict * payload.
Definition params_of (x : submission) : dict := let '(event, eid, data, p) := x in audit_params event eid data p.
Fixpoint submit_all (l : list submission) (k : client S) : list (result exn val) * client S :=
  match l with
  | [] => ([], k)
  | (event, eid, data, p) :: l' =>
      let '(r, k) := client_submit event eid data p k in
      let '(rs, k) := submit_all l' k in (r :: rs, k)
  end.

(** A buffering client over a sequencer that comes and goes never fails a
    submission, never holds more than its bound, and what has reached the sequencer
    followed by what is queued is the submissions in their order: entries whose reply
    was lost repeated in place, at most [dropped] of them missing. *)
Theorem buffered_client_keeps_order buffer_size s subs :
  buffer_size ≠ 0 → accepted s = [] →
  let '(rs, k) := submit_all subs (mkClient true buffer_size [] 0 s) in
  Forall (λ r, is_ok r = true) rs ∧ length (k_queue k) ≤ buffer_size ∧
  ∃ n, n ≤ k_dropped k ∧ stutter n (params_of <$> subs) (accepted (k_server k) ++ k_queue k).
Proof.
  intros Hmax Hs. assert (∀ l k, in_order l k → k_max k = buffer_size →
    let '(rs, k') := submit_all subs k in Forall (λ r, is_ok r = true) rs ∧ in_order (l ++ (params_of <$> subs)) k' ∧ k_max k' = buffer_size) as Hall.
  { induction subs as [|[[[event eid] data] p] subs IH]; intros l k Hk Hm; cbn; [by rewrite app_nil_r|].
    destruct (client_submit event eid data p k) as [r k1] eqn:Hsub.
    apply (submit_in_order l) in Hsub as (Hk1 & Hm1 & Hr); [|done|congruence].
    specialize (IH _ _ Hk1 (eq_trans Hm1 Hm)). destruct (submit_all subs k1) as [rs k2]. rewrite <- app_assoc in IH.
    destruct IH as (IH & Hin & Hm2). split; [by constructor|done]. }
  specialize (Hall [] (mkClient true buffer_size [] 0 s)). destruct (submit_all _ _) as [rs k].
  destruct Hall as (Hrs & (_ & Hlen & Hst) & Hm); [|done|by rewrite Hm in Hlen].
  split_and!; cbn; [done|lia|]. exists 0. split; [done|]. rewrite Hs. constructor.
Qed.
End order.

(** An entry the sequencer refuses stays first in the queue, and nothing passes it. *)
Theorem refused_entry_blocks {S} `{Server S} (k : client S) p q code data event eid d pl :
  k_queue k = p :: q → rpc_submit p (k_server k) = (Err (RpcError code data), k_server k) → code ≠ "unavailable" →
  client_submit event eid d pl k = (Err (RpcError code data), k).
Proof.
  intros Hq Hrpc Hne. unfold client_submit, catch.
  assert (flush k = (Err (RpcError code data), k)) as Hf.
  { unfold flush. rewrite get_bind, Hq. cbn [flush_queue]. apply bind_raises. unfold call_submit. rewrite Hrpc. by destruct k. }
  rewrite (bind_raises _ _ _ _ _ Hf), get_bind. apply String.eqb_neq in Hne. rewrite Hne. by rewrite orb_true_r.
Qed.

(** ** Bytes *)
Lemma b64_digit_std c : b64_digit (std_char c) = b64_digit c.
Proof.
  unfold std_char. destruct (Ascii.eqb_spec c "-") as [->|]; [reflexivity|]. destruct (Ascii.eqb_spec c "_") as [->|]; reflexivity.
Qed.
Lemma a2b_std s t q l p : a2b q l p (std_alphabet s +:+ t) = a2b q l p (s +:+ t).
Proof.
  revert q l p. induction s as [|c s IH]; intros q l p; [done|]. change (String c s +:+ t) with (String c (s +:+ t)).
  change (std_alphabet (String c s) +:+ t) with (String (std_char c) (std_alphabet s +:+ t)). cbn [a2b].
  assert (Ascii.eqb (std_char c) "=" = Ascii.eqb c "=") as ->.
  { unfold std_char. destruct (Ascii.eqb_spec c "-") as [->|]; [reflexivity|]. destruct (Ascii.eqb_spec c "_") as [->|]; reflexivity. }
  rewrite b64_digit_std. destruct (Ascii.eqb c "="); [by rewrite !IH|]. destruct (b64_digit c); [|by rewrite IH].
  do 3 (destruct q as [|q]; [by rewrite IH|]). by rewrite IH.
Qed.
Lemma any_char_std p s : any_char (λ c, p (std_char c)) s = any_char p (std_alphabet s).
Proof. induction s as [|c s IH]; [done|]. cbn [any_char std_alphabet]. by rewrite IH. Qed.
Lemma drop_chars_none p s : any_char p s = false → drop_chars p s = s.
Proof. induction s as [|c s IH]; [done|]. cbn. intros [-> Hs]%orb_false_iff. by rewrite IH. Qed.
Lemma padding_any_char p s : p "="%char = false → any_char p (padding s) = false.
Proof. intros Hp. unfold padding. repeat case_match; cbn; by rewrite ?Hp. Qed.

(** Bytes submitted as a payload are the bytes the sequencer hashes and stores. *)
Lemma b64decode_b64encode s : b64decode (b64encode s) = Some s.
Proof.
  unfold b64decode, b64encode. rewrite padding_b64u. rewrite !any_char_app, <- !any_char_std.
  rewrite b64u_any_char, padding_any_char by (try done; intros n Hn; do 64 (destruct n as [|n]; [done|]); lia).
  cbn [orb]. rewrite drop_chars_none.
  - by rewrite a2b_std, a2b_b64u.
  - rewrite any_char_app, <- any_char_std, b64u_any_char, padding_any_char; [done|done|].
    intros n Hn. do 64 (destruct n as [|n]; [done|]). lia.
Qed.

(** Bytes a component submits as the payload of an event are the bytes the
    sequencer hashes and keeps under that hash, unless it had the hash already; the call
    returns the reference. *)
Theorem payload_bytes_stored `{HASH : Hash} event eid data raw q r q' :
  submit_payload (audit_params event eid data (PayloadBytes raw)) q = (Ok r, q') →
  r = VStr ("sha256:" +:+ sha256_hex raw) ∧ (slen raw <= MAX_PAYLOAD)%N ∧
  dget (q_payloads q') (sha256_hex raw) = Some (default raw (dget (q_payloads q) (sha256_hex raw))).
Proof.
  unfold submit_payload. change (dget_none _ "payload_b64") with (VStr (b64encode raw)). cbn [audit_params app].
  rewrite b64decode_b64encode. cbn [of_opt]. rewrite lift_bind. unfold store_payload. intros H.
  apply bind_Ok in H as (h & q1 & H & [-> ->]%ret_Ok).
  rewrite require_bind in H. destruct (slen raw <=? MAX_PAYLOAD)%N eqn:Hmax; [|done]. apply N.leb_le in Hmax.
  rewrite get_bind in H. unfold dmem in H. destruct (dget (q_payloads q) (sha256_hex raw)) as [x|] eqn:Hx;
    cbv [mbind M_bind mret M_ret put_state] in H; injection H as <- <-; split_and!; try done.
  cbn. by rewrite dget_dset_eq.
Qed.

Lemma payload_bytes_stored_witness :
  let q := (submit_payload (HASH := λ s, fmt_id "h" (String.length s)) (audit_params "step" VNone None (PayloadBytes "hi?~")) 
              (mkSequencer [] [] [] (VInt 0) GENESIS VNone None None)).2 in
  dget (q_payloads q) "h4" = Some "hi?~".
Proof.
  refine (proj2 (proj2 (payload_bytes_stored (HASH := λ s, fmt_id "h" (String.length s)) "step" VNone None "hi?~"
    (mkSequencer [] [] [] (VInt 0) GENESIS VNone None None) (VStr "sha256:h4") _ _))).
  vm_compute. reflexivity.
Defined.

(** A sequencer that answers from a list of outcomes, for the example: reached, not
    reached, or reached with the reply lost. *)
Inductive outcome : Type := Replied | NotReached | ReplyLost.
Record flaky : Type := mkFlaky { f_outcomes : list outcome; f_entries : list dict }.
#[export] Instance flaky_server : Server flaky := λ p s,
  match f_outcomes s with
  | NotReached :: o => (Err (rpc_error "unavailable"), mkFlaky o (f_entries s))
  | ReplyLost :: o => (Err (rpc_error "unavailable"), mkFlaky o (f_entries s ++ [p]))
  | o => (Ok (VDict [("seq", VInt (Z.of_nat (length (f_entries s))))]), mkFlaky (tail o) (f_entries s ++ [p]))
  end.
#[export] Program Instance flaky_reachable : Reachable flaky := {| accepted := f_entries |}.
Next Obligation. intros p s r s'. unfold rpc_submit, flaky_server. destruct s as [[|[] o] l]; cbn; by intros [= <- <-]. Qed.
Next Obligation. intros p s e s'. unfold rpc_submit, flaky_server. destruct s as [[|[] o] l]; cbn; intros [= <- <-]; auto. Qed.

Definition step_of (episode : string) : submission := ("step", VStr episode, None, NoPayload).
Definition three_steps : list submission := [step_of "a"; step_of "b"; step_of "c"].
Lemma buffered_client_keeps_order_witness :
  let '(rs, k) := submit_all three_steps (mkClient true 5 [] 0 (mkFlaky [NotReached; ReplyLost; Replied] [])) in
  f_entries (k_server k) = params_of <$> [step_of "a"; step_of "a"; step_of "b"; step_of "c"] ∧
  ∃ n, n ≤ 0 ∧ stutter n (params_of <$> three_steps) (f_entries (k_server k) ++ k_queue k).
Proof.
  pose proof (buffered_client_keeps_order 5 (mkFlaky [NotReached; ReplyLost; Replied] []) three_steps ltac:(done) eq_refl) as H.
  vm_compute in H |- *. split; [reflexivity|]. apply H.
Defined.
