(* ===== verification/Bundle.v ===== *)
(** * Policy bundles and their registry (src/valops/bundle/registry.py, builder.py)

    A bundle is a directory named by the hash of its manifest, which lists the hash of
    every file in it. The registry is a directory of bundles with the files [active],
    [active.history] and [revoked]. The YAML parser is a library's, a parameter; so are
    SHA-256 and the Ed25519 verification functions the trusted keys hold. *)
From S2P Require Import Prelude PyVal Schema Canonical Json PyConv.
From Stdlib Require Import Ascii.

(** [s[:n]], in code points: the bytes that continue one go with it. *)
Fixpoint stake (n : nat) (s : string) : string :=
  match s with
  | EmptyString => EmptyString
  | String c s' =>
      let b := nat_of_ascii c in
      if ((128 <=? b) && (b <? 192))%nat then String c (stake n s')
      else match n with O => EmptyString | S n' => String c (stake n' s') end
  end.

(** [s.endswith(x)] *)
Definition ends_with (x s : string) : bool :=
  let n := String.length s - String.length x in String.eqb (String.substring n (String.length x) s) x && (String.length x <=? String.length s)%nat.

(** A path relative to the bundle's root: its parts. *)
Abbreviation path := (list string).
Definition as_posix (p : path) : string := join "/" p.
Fixpoint path_ltb (p q : path) : bool :=
  match p, q with
  | [], _ :: _ => true
  | x :: p', y :: q' => String.ltb x y || (String.eqb x y && path_ltb p' q')
  | _, _ => false
  end.
Fixpoint path_insert (f : path * string) (l : list (path * string)) : list (path * string) :=
  match l with
  | [] => [f]
  | g :: l' => if path_ltb g.1 f.1 then g :: path_insert f l' else f :: l
  end.
Definition sorted_files (l : list (path * string)) : list (path * string) := foldr path_insert [] l.

Definition MANIFEST : string := "MANIFEST.sha256".
Definition SIG : string := "MANIFEST.sha256.sig".

(** A bundle directory: every regular file under it with its content. *)
Abbreviation bundle_dir := (list (path * string)).
Definition read_file (d : bundle_dir) (p : path) : option string :=
  snd <$> find_first (λ f : path * string, bool_decide (f.1 = p)) d.

Section manifest.
Context `{HASH : Hash}.

(** src/valops/bundle/builder.py:45-54 compute_manifest *)
Definition compute_manifest (d : bundle_dir) : string :=
  let lines := map (λ f : path * string, sha256_hex f.2 +:+ "  " +:+ as_posix f.1)
    (List.filter (λ f : path * string, negb (str_in (as_posix f.1) [MANIFEST; SIG])) (sorted_files d)) in
  join newline lines +:+ newline.
End manifest.

(** [s.splitlines()]: the line boundaries of Python's text, the last three of them
    encoded in two or three bytes. *)
Definition line_break (s : string) : option string :=
  match s with
  | String "013"%char (String "010"%char r) => Some r
  | String "194"%char (String "133"%char r) => Some r
  | String "226"%char (String "128"%char (String c r)) => if Ascii.eqb c "168" || Ascii.eqb c "169" then Some r else None
  | String c r => let n := nat_of_ascii c in if ((10 <=? n) && (n <=? 13) || (28 <=? n) && (n <=? 30))%nat then Some r else None
  | EmptyString => None
  end.
Fixpoint splitlines_from (fuel : nat) (cur s : string) : list string :=
  match fuel with
  | O => []
  | S f =>
      match line_break s, s with
      | Some r, _ => cur :: splitlines_from f EmptyString r
      | None, String c r => splitlines_from f (cur +:+ String c EmptyString) r
      | None, EmptyString => match cur with EmptyString => [] | _ => [cur] end
      end
  end.
Definition splitlines (s : string) : list string := splitlines_from (S (String.length s)) EmptyString s.

(** [line.split("  ", 1)] into two parts. *)
Fixpoint split_two_spaces (s : string) : option (string * string) :=
  match s with
  | EmptyString => None
  | String c s' =>
      match strip_prefix "  " s with
      | Some r => Some (EmptyString, r)
      | None => '(a, b) ← split_two_spaces s'; Some (String c a, b)
      end
  end.

(** The [parse] of [_diff_manifest]: hash by path; a line without two spaces raises. *)
Fixpoint parse_manifest (lines : list string) (out : list (string * string)) : result exn (list (string * string)) :=
  match lines with
  | [] => Ok out
  | line :: lines' =>
      if is_blank line then parse_manifest lines' out
      else '(h, rel) ← of_opt (split_two_spaces line) (PyExc "ValueError"); parse_manifest lines' (dset out rel h)
  end.

(** src/valops/bundle/registry.py:208-218 _diff_manifest *)
Definition diff_manifest (a b : string) : result exn (list string) :=
  pa ← parse_manifest (splitlines a) []; pb ← parse_manifest (splitlines b) [];
  let changed := List.filter (λ k, negb (bool_decide (dget pa k = dget pb k)))
                   (dkeys pa ++ List.filter (λ k, negb (dmem pa k)) (dkeys pb)) in
  Ok (take 10 (map fst (ksort (map (λ k, (k, tt)) changed)))).

(** src/valops/bundle/registry.py:24-28 TrustedKey *)
Record TrustedKey : Type := mkTrusted { tk_key_id : string; tk_verify : string → string → bool; tk_status : string }.

(** One line of [active.history]. *)
Record activation : Type := mkActivation { av_ts : Q; av_active : string; av_previous : option string; av_by : string }.

(** src/valops/bundle/registry.py:103-106 BundleRegistry.__init__ *)
Record registry : Type := mkRegistry {
  g_bundles : list (string * bundle_dir);
  g_keys : list (string * TrustedKey);
  g_active : option string;            (* the text of [active], if the file is there *)
  g_history : list activation;
  g_revoked : list string;
}.
Abbreviation GM := (M registry exn).

Definition is_hex_id (s : string) : bool := all_chars is_hex s.

Section registry.
Context `{HASH : Hash}.

(** src/valops/bundle/registry.py:117-137 BundleRegistry.verify_integrity

    The reason, or none when the bundle verifies. *)
Definition verify_integrity (g : registry) (id : string) : result exn (option string) :=
  match dget (g_bundles g) id with
  | None => Ok (Some ("bundle " +:+ stake 12 id +:+ " not present"))
  | Some d =>
      match read_file d [MANIFEST], read_file d [SIG] ≫= json_loads with
      | Some recorded, Some sigdoc =>
          if negb (String.eqb (compute_manifest d) recorded) then
            changed ← diff_manifest recorded (compute_manifest d);
            Ok (Some ("bundle content differs from manifest: " +:+ py_repr (VList (map VStr changed))))
          else if negb (String.eqb (sha256_hex recorded) id) then Ok (Some "manifest hash does not match bundle id")
          else
            sd ← match sigdoc with VDict sd => Ok sd | _ => Err (PyExc "AttributeError") end;
            let kid := default (VStr EmptyString) (dget sd "key_id") in
            _ ← check (hashable kid) (PyExc "TypeError");
            match as_str kid ≫= dget (g_keys g) with
            | None => Ok (Some "manifest signed by an untrusted key")
            | Some key =>
                sig ← vindex sigdoc "sig";
                sig ← match sig with VStr s => of_opt (b64u_dec s) (PyExc "ValueError") | _ => Err (PyExc "TypeError") end;
                Ok (if tk_verify key sig recorded then None else Some "manifest signature invalid")
            end
      | _, _ => Ok (Some "manifest/signature unreadable")
      end
  end.

(** src/valops/bundle/registry.py:109-115 BundleRegistry.verify *)
Definition verify (g : registry) (id : string) : result exn (option string) :=
  if String.eqb id "" || negb (is_hex_id id) || negb (slen id =? 64)%N then Ok (Some "malformed bundle id")
  else if str_in id (g_revoked g) then Ok (Some ("bundle " +:+ stake 12 id +:+ " revoked"))
  else verify_integrity g id.

(** src/valops/bundle/registry.py:146-150 BundleRegistry.active *)
Definition active (g : registry) : option string :=
  match g_active g with
  | Some text => let s := strip text in if String.eqb s "" then None else Some s
  | None => None
  end.

(** src/valops/bundle/registry.py:158-173 BundleRegistry.activate *)
Definition activate (t : Q) (id by_ : string) : GM unit :=
  g ← get_state;
  reason ← lift (verify g id);
  _ ← require (match reason with None => true | Some _ => false end) (PyExc "BundleError");
  d ← lift (of_opt (dget (g_bundles g) id) (PyExc "FileNotFoundError"));
  sigdoc ← lift (of_opt (read_file d [SIG] ≫= json_loads) (PyExc "ValueError"));
  kid ← lift (vindex sigdoc "key_id");
  key ← lift (of_opt (as_str kid ≫= dget (g_keys g)) (PyExc "KeyError"));
  _ ← require (String.eqb (tk_status key) "active") (PyExc "BundleError");
  put_state (mkRegistry (g_bundles g) (g_keys g) (Some (id +:+ newline))
               (g_history g ++ [mkActivation t id (active g) by_]) (g_revoked g)).

(** src/valops/bundle/registry.py:175-183 BundleRegistry.rollback *)
Definition rollback (t : Q) (by_ : string) : GM string :=
  g ← get_state;
  match find_first (λ row, bool_decide (Some (av_active row) = active g) &&
                           match av_previous row with Some p => negb (String.eqb p "") | None => false end) (rev (g_history g)) with
  | Some row => let prev := default EmptyString (av_previous row) in _ ← activate t prev by_; mret prev
  | None => raise (PyExc "BundleError")
  end.

(** src/valops/bundle/registry.py:191-195 BundleRegistry.revoke *)
Definition revoke (id : string) : GM unit :=
  modify (λ g, mkRegistry (g_bundles g) (g_keys g) (g_active g) (g_history g) (g_revoked g ++ [id])).

Fixpoint superseded_from (seen : bool) (id : string) (rows : list activation) : option Q :=
  match rows with
  | [] => None
  | row :: rows' =>
      if String.eqb (av_active row) id then superseded_from true id rows'
      else if seen then Some (av_ts row) else superseded_from seen id rows'
  end.
(** src/valops/bundle/registry.py:197-205 BundleRegistry.superseded_at *)
Definition superseded_at (g : registry) (id : string) : option Q := superseded_from false id (g_history g).
End registry.

(** ** Bundles *)
(** src/valops/bundle/registry.py:35-40 Bundle.__init__ *)
Record Bundle : Type := mkBundle { b_id : string; b_dir : bundle_dir }.

Section bundle.
Context `{HASH : Hash} (yaml : string → result exn val).

(** src/valops/bundle/registry.py:139-143 BundleRegistry.load *)
Definition load_bundle (g : registry) (id : string) : result exn Bundle :=
  reason ← verify g id;
  match reason with
  | Some _ => Err (PyExc "BundleError")
  | None => d ← of_opt (dget (g_bundles g) id) (PyExc "FileNotFoundError"); Ok (mkBundle id d)
  end.

(** src/valops/bundle/registry.py:42-44 Bundle._y *)
Definition b_yaml (b : Bundle) (p : path) : result exn val :=
  text ← of_opt (read_file (b_dir b) p) (PyExc "FileNotFoundError"); yaml text.

(** src/valops/bundle/registry.py:47-48 Bundle.thresholds *)
Definition thresholds (b : Bundle) : result exn val := d ← b_yaml b ["thresholds.yaml"]; vindex d "parameters".
(** src/valops/bundle/registry.py:51-52 Bundle.deployment *)
Definition deployment (b : Bundle) : result exn val := b_yaml b ["deployment.yaml"].
(** src/valops/bundle/registry.py:55-56 Bundle.providers *)
Definition providers (b : Bundle) : result exn val := b_yaml b ["providers.yaml"].
(** src/valops/bundle/registry.py:59-60 Bundle.pricing *)
Definition pricing (b : Bundle) : result exn val := b_yaml b ["pricing.yaml"].
(** src/valops/bundle/registry.py:63-64 Bundle.command_table *)
Definition command_table (b : Bundle) : result exn val := b_yaml b ["command_table.yaml"].
(** src/valops/bundle/registry.py:67-68 Bundle.fault_classes *)
Definition fault_classes (b : Bundle) : result exn val := b_yaml b ["fault_classes.yaml"].
(** src/valops/bundle/registry.py:75-76 Bundle.skills *)
Definition skills (b : Bundle) : result exn val :=
  d ← b_yaml b ["skills"; "index.yaml"]; s ← vget (py_or d (VDict [])) "skills"; Ok (py_or s (VDict [])).

(** src/valops/bundle/registry.py:83-86 Bundle.param

    The parameter, for a configuration. *)
Definition param_of (b : Bundle) (pid configuration : string) : result exn val :=
  th ← thresholds b;
  v ← vindex th pid;
  match v with
  | VDict d =>
      match py_or (dget_none d "by_configuration") (VDict []) with
      | VDict by_conf => match dget by_conf configuration with
                         | Some (VDict c) => Ok (VDict (dupdate d c))
                         | Some _ => Err (PyExc "TypeError")
                         | None => Ok v
                         end
      | x => found ← py_contains x (VStr configuration); if found : bool then Err (PyExc "TypeError") else Ok v
      end
  | _ => Ok v
  end.
(** src/valops/bundle/registry.py:83-89 Bundle.param

    With a key and a configuration. *)
Definition param (b : Bundle) (pid key configuration : string) : result exn val :=
  v ← param_of b pid configuration; vindex v key.

(** [v[k]] for any [v] and [k]: a mapping's member, the item of a list or a string at an
    index that may count from the end. *)
Definition item_at (l : list val) (i : Z) : result exn val :=
  let n := Z.of_nat (length l) in
  of_opt (if ((i <? - n) || (n <=? i))%Z then None else l !! Z.to_nat (if (i <? 0)%Z then n + i else i)) (PyExc "IndexError").
Definition py_index (v k : val) : result exn val :=
  let k' := match k with VBool b => VInt (if b then 1 else 0) | _ => k end in
  match v, k' with
  | VDict d, VStr s => of_opt (dget d s) (PyExc "KeyError")
  | VDict d, _ => Err (PyExc (if hashable k then "KeyError" else "TypeError"))
  | VList l, VInt i => item_at l i
  | VStr s, VInt i => item_at (map (λ c, VStr (String c EmptyString)) (String.list_ascii_of_string s)) i
  | _, _ => Err (PyExc "TypeError")
  end.

(** src/valops/bundle/registry.py:83-89 Bundle.param

    Without a configuration, as a rule reads it; the key may be [None]. *)
Definition rule_param (b : Bundle) (pid key : val) : result exn val :=
  th ← thresholds b;
  v ← py_index th pid;
  match key with VNone => Ok v | _ => py_index v key end.

(** [sorted(d.glob(..))] in the directory of rules. *)
Definition rule_files (d : bundle_dir) : list path :=
  map fst (List.filter (λ f : path * string, match f.1 with ["verifier"; name] => ends_with ".yaml" name | _ => false end) (sorted_files d)).
Fixpoint mapR {A B} (f : A → result exn B) (l : list A) : result exn (list B) :=
  match l with [] => Ok [] | x :: l' => y ← f x; ys ← mapR f l'; Ok (y :: ys) end.
(** src/valops/bundle/registry.py:78-81 Bundle.verifier_rules *)
Definition verifier_rules (b : Bundle) : result exn (list val) := mapR (b_yaml b) (rule_files (b_dir b)).

(** src/valops/bundle/registry.py:94-96 Bundle.configuration_for *)
Definition configuration_for (b : Bundle) (role : string) : result exn (string * val) :=
  p ← providers b;
  roles ← vindex p "roles"; name ← vindex roles role;
  confs ← vindex p "configurations";
  name ← of_opt (as_str name) (PyExc "KeyError");
  conf ← vindex confs name;
  Ok (name, conf).

(** src/valops/bundle/registry.py:91-92 Bundle.prompt_path *)
Definition prompt_path (role : string) (inlined : bool) : path :=
  ["prompts"; if inlined then role +:+ ".inlined.md" else role +:+ ".md"].
End bundle.
