(* ===== verification/BundleProps.v ===== *)
(** * What a verified bundle id stands for

    A bundle that verifies is, file for file, the one whose manifest was signed under
    that id; activation and rollback move between verified bundles. *)
From S2P Require Import Prelude PyVal Schema Canonical Json PyConv AuditProps Bundle.
From Stdlib Require Import Ascii Sorted.

#[local] Arguments String.append !_ _ /.

(** ** Joined lines *)
Definition no_char (c : ascii) (s : string) : Prop := any_char (Ascii.eqb c) s = false.

Lemma no_char_cons c x s : no_char c (String x s) ↔ x ≠ c ∧ no_char c s.
Proof. unfold no_char. cbn. rewrite orb_false_iff, Ascii.eqb_neq. split; intros [? ?]; split; congruence. Qed.
Lemma no_char_app c s t : no_char c (s +:+ t) ↔ no_char c s ∧ no_char c t.
Proof.
  induction s as [|x s IH]; cbn; [by split; [intros; split|intros [? ?]]|]. rewrite !no_char_cons, IH. tauto.
Qed.

(** A text up to the first separator is determined. *)
Lemma app_sep_inj c a a' r r' : no_char c a → no_char c a' → a +:+ String c r = a' +:+ String c r' → a = a' ∧ r = r'.
Proof.
  revert a'. induction a as [|x a IH]; intros [|y a'] Ha Ha' H; cbn in H.
  - by injection H as ->.
  - injection H as -> _. by apply no_char_cons in Ha' as [? _].
  - injection H as -> _. by apply no_char_cons in Ha as [? _].
  - injection H as -> H. apply no_char_cons in Ha as [_ Ha]. apply no_char_cons in Ha' as [_ Ha'].
    destruct (IH a' Ha Ha' H) as [-> ->]. done.
Qed.

Lemma join_cons sep x l : join sep (x :: l) = match l with [] => x | _ => x +:+ sep +:+ join sep l end.
Proof. by destruct l. Qed.

Lemma no_char_sep c a b r : no_char c a → a = b +:+ String c r → False.
Proof. intros Ha ->. apply no_char_app in Ha as [_ Ha]. by apply no_char_cons in Ha as [? _]. Qed.

Lemma join_inj c l l' : Forall (no_char c) l → Forall (no_char c) l' → Forall (λ s, s ≠ EmptyString) l → Forall (λ s, s ≠ EmptyString) l' →
  join (String c EmptyString) l = join (String c EmptyString) l' → l = l'.
Proof.
  intros Hl. revert l'. induction Hl as [|x l Hx Hl IH]; intros l' Hl' Hne Hne' H.
  - destruct Hl' as [|y l' Hy Hl']; [done|]. apply list.Forall_cons in Hne' as [Hy' _]. rewrite join_cons in H. cbn in H.
    destruct l'; [by subst|]. by destruct y.
  - apply list.Forall_cons in Hne as [Hx' Hne]. destruct Hl' as [|y l' Hy Hl'].
    { rewrite join_cons in H. cbn in H. destruct l; [by subst|]. by destruct x. }
    apply list.Forall_cons in Hne' as [Hy' Hne']. rewrite !join_cons in H. destruct l as [|x2 l], l' as [|y2 l'].
    + by subst.
    + by apply no_char_sep in H.
    + symmetry in H. by apply no_char_sep in H.
    + cbn in H. apply app_sep_inj in H as [-> H]; [|done|done]. f_equal. by apply IH.
Qed.

(** ** Paths *)
(** What a file name can be: parts that are not empty and hold neither a separator nor,
    by the bundle's convention, a line break. *)
Definition posix_path (p : path) : Prop := p ≠ [] ∧ Forall (λ s, s ≠ EmptyString ∧ no_char "/" s ∧ no_char "010" s) p.
Definition posix_dir (d : bundle_dir) : Prop := NoDup (map fst d) ∧ Forall (λ f, posix_path f.1) d.

Lemma as_posix_inj p q : posix_path p → posix_path q → as_posix p = as_posix q → p = q.
Proof.
  intros [_ Hp] [_ Hq]. apply join_inj; eapply list.Forall_impl; try done; by intros x (? & ? & ?).
Qed.
Lemma join_no_char c sep l : no_char c sep → Forall (no_char c) l → no_char c (join sep l).
Proof.
  intros Hs Hl. induction Hl as [|x l Hx Hl IH]; [done|]. rewrite join_cons. destruct l; [done|]. rewrite !no_char_app. by split_and!.
Qed.
Lemma as_posix_line p : posix_path p → no_char "010" (as_posix p).
Proof.
  intros [_ Hp]. apply join_no_char; [done|]. eapply list.Forall_impl; [exact Hp|]. by intros x (? & ? & ?).
Qed.

(** ** Sorting *)
Lemma path_insert_perm f l : path_insert f l ≡ₚ f :: l.
Proof. induction l as [|g l IH]; cbn; [done|]. destruct (path_ltb _ _); [|done]. rewrite IH. apply Permutation_swap. Qed.
Lemma sorted_files_perm l : sorted_files l ≡ₚ l.
Proof. induction l as [|f l IH]; cbn; [done|]. by rewrite path_insert_perm, IH. Qed.

Lemma read_file_elem d p c : NoDup (map fst d) → read_file d p = Some c ↔ (p, c) ∈ d.
Proof.
  intros Hnd. unfold read_file. induction d as [|[q x] d IH]; cbn in *.
  - split; [done|]. intros H. by apply not_elem_of_nil in H.
  - apply list.NoDup_cons in Hnd as [Hq Hnd]. case_bool_decide as Heq; cbn.
    + subst q. rewrite elem_of_cons. split; [intros [= ->]; by left|]. intros [[= ->]|Hin]; [done|].
      exfalso. apply Hq, list_elem_of_In, in_map_iff. exists (p, c). split; [done|]. by apply list_elem_of_In.
    + rewrite IH by done. rewrite elem_of_cons. split; [by right|]. intros [[= ->]|Hin]; done.
Qed.
Lemma read_file_eq d d' (P : path → bool) : NoDup (map fst d) → NoDup (map fst d') →
  (∀ f, f ∈ List.filter (λ f : path * string, P f.1) d ↔ f ∈ List.filter (λ f : path * string, P f.1) d') →
  ∀ p, P p = true → read_file d p = read_file d' p.
Proof.
  intros Hd Hd' H p Hp. assert (∀ c, read_file d p = Some c ↔ read_file d' p = Some c) as Hiff.
  { intros c. rewrite !read_file_elem by done. specialize (H (p, c)). rewrite !list_elem_of_In, !filter_In in H. cbn in H.
    rewrite !list_elem_of_In. rewrite Hp in H. tauto. }
  destruct (read_file d p) as [c|]; [symmetry; by apply Hiff|].
  destruct (read_file d' p) as [c|]; [by destruct (Hiff c) as [_ ->]|done].
Qed.

Section content.
Context `{HASH : Hash}.

(** The hash's notation: 64 characters of one line. *)
Definition hex_digest : Prop := ∀ x, String.length (sha256_hex x) = 64 ∧ no_char "010" (sha256_hex x).

Definition listed (d : bundle_dir) : bundle_dir :=
  List.filter (λ f : path * string, negb (str_in (as_posix f.1) [MANIFEST; SIG])) (sorted_files d).
Definition manifest_line (f : path * string) : string := sha256_hex f.2 +:+ "  " +:+ as_posix f.1.

Lemma length_app_inj (a a' r r' : string) : String.length a = String.length a' → a +:+ r = a' +:+ r' → a = a' ∧ r = r'.
Proof.
  revert a'. induction a as [|x a IH]; intros [|y a'] Hl H; cbn in *; try done. injection H as -> H.
  destruct (IH a') as [-> ->]; [lia|done|done].
Qed.

(** Two files with the same manifest line are the same file, or contents of one path that
    clash. *)
Lemma manifest_line_inj f g : hex_digest → posix_path f.1 → posix_path g.1 → manifest_line f = manifest_line g →
  f = g ∨ f.1 = g.1 ∧ f.2 ≠ g.2 ∧ sha256_hex f.2 = sha256_hex g.2.
Proof.
  intros Hhex Hf Hg H. unfold manifest_line in H.
  apply length_app_inj in H as [Hh H]; [|by rewrite !(proj1 (Hhex _))]. cbn in H. injection H as H.
  apply as_posix_inj in H; [|done|done]. destruct f as [p x], g as [q y]; cbn in *. subst q.
  destruct (decide (x = y)) as [->|Hne]; [by left|]. by right.
Qed.
Lemma manifest_lines_inj l l' : hex_digest → Forall (λ f, posix_path f.1) l → Forall (λ f, posix_path f.1) l' →
  map manifest_line l = map manifest_line l' → l = l' ∨ ∃ p x y, (p, x) ∈ l ∧ (p, y) ∈ l' ∧ x ≠ y ∧ sha256_hex x = sha256_hex y.
Proof.
  intros Hhex Hl. revert l'. induction Hl as [|f l Hf Hl IH]; intros [|g l'] Hl' H; try done; [by left|].
  injection H as H1 H2. apply list.Forall_cons in Hl' as [Hg Hl'].
  destruct f as [p x], g as [q y]. destruct (manifest_line_inj _ _ Hhex Hf Hg H1) as [->|(Hp & Hne & Hh)]; cbn in *.
  - destruct (IH l' Hl' H2) as [->|(p' & x' & y' & ? & ? & ? & ?)]; [by left|]. right. exists p', x', y'. split_and!; by try right.
  - subst q. right. exists p, x, y. split_and!; [left|left|done..].
Qed.

Lemma listed_elem d f : f ∈ listed d ↔ f ∈ List.filter (λ f : path * string, negb (str_in (as_posix f.1) [MANIFEST; SIG])) d.
Proof. unfold listed. rewrite !list_elem_of_In, !filter_In, <- !list_elem_of_In. by rewrite sorted_files_perm. Qed.
Lemma listed_posix d : posix_dir d → Forall (λ f, posix_path f.1) (listed d).
Proof.
  intros [_ Hd]. apply list.Forall_forall. intros f Hf. apply (proj1 (listed_elem d f)), list_elem_of_In, filter_In in Hf as [Hf _].
  apply (proj1 (list.Forall_forall _ _) Hd). by apply list_elem_of_In.
Qed.

Lemma manifest_same_files d d' : hex_digest → posix_dir d → posix_dir d' → compute_manifest d = compute_manifest d' →
  (∃ p x y, read_file d p = Some x ∧ read_file d' p = Some y ∧ x ≠ y ∧ sha256_hex x = sha256_hex y) ∨
  ∀ p, str_in (as_posix p) [MANIFEST; SIG] = false → read_file d p = read_file d' p.
Proof.
  intros Hhex Hd Hd' H. unfold compute_manifest in H. fold (listed d) (listed d') in H.
  assert (∀ a b : string, a +:+ newline = b +:+ newline → a = b) as Happ.
  { intros a. induction a as [|x a IH]; intros [|y b]; cbn; try done.
    - intros [= <- H']. by destruct b.
    - intros [= -> H']. by destruct a.
    - intros [= -> H']. f_equal. by apply IH. }
  apply Happ in H. fold manifest_line in H.
  assert (∀ e, posix_dir e → Forall (no_char "010") (map manifest_line (listed e)) ∧ Forall (λ s, s ≠ EmptyString) (map manifest_line (listed e))) as Hlines.
  { intros e He%listed_posix. split; apply List.Forall_map; (eapply list.Forall_impl; [exact He|]); intros f Hf; unfold manifest_line.
    - rewrite !no_char_app. split_and!; [apply Hhex|done|by apply as_posix_line].
    - destruct (Hhex f.2) as [Hlen _]. destruct (sha256_hex f.2); [discriminate Hlen|cbn; discriminate]. }
  destruct (Hlines d Hd) as [H1 H2], (Hlines d' Hd') as [H1' H2'].
  apply join_inj in H; [|done..]. destruct (manifest_lines_inj _ _ Hhex (listed_posix _ Hd) (listed_posix _ Hd') H) as [He|(p & x & y & Hx & Hy & Hne & Hh)].
  2: { left. exists p, x, y. apply (listed_elem d), list_elem_of_In, filter_In in Hx as [Hx _]. apply (listed_elem d'), list_elem_of_In, filter_In in Hy as [Hy _].
       split_and!; [apply (read_file_elem d p x (proj1 Hd))|apply (read_file_elem d' p y (proj1 Hd'))|done..]; by apply list_elem_of_In. }
  right. intros p Hp. apply (read_file_eq d d' (λ p, negb (str_in (as_posix p) [MANIFEST; SIG]))); [apply Hd|apply Hd'| |by rewrite Hp].
  intros f. by rewrite <- !listed_elem, He.
Qed.

(** ** Verification *)
(** What [verify] finds in order when it gives no reason. *)
Record verified (g : registry) (id : string) (d : bundle_dir) : Prop := {
  vd_id : is_hex_id id = true ∧ String.length id = 64;
  vd_revoked : id ∉ g_revoked g;
  vd_dir : dget (g_bundles g) id = Some d;
  vd_manifest : read_file d [MANIFEST] = Some (compute_manifest d);
  vd_hash : sha256_hex (compute_manifest d) = id;
  vd_signed : ∃ text sd kid key sig s, read_file d [SIG] = Some text ∧ json_loads text = Some (VDict sd) ∧
    default (VStr EmptyString) (dget sd "key_id") = VStr kid ∧ dget (g_keys g) kid = Some key ∧
    dget sd "sig" = Some (VStr sig) ∧ b64u_dec sig = Some s ∧ tk_verify key s (compute_manifest d) = true;
}.

Lemma verify_verified g id : verify g id = Ok None ↔ ∃ d, verified g id d.
Proof.
  unfold verify. split.
  - intros H. destruct (String.eqb id ""); cbn in H; [done|].
    destruct (is_hex_id id) eqn:Hhex; cbn in H; [|done].
    destruct (N.eqb_spec (slen id) 64) as [Hlen|]; cbn in H; [|done].
    destruct (str_in id (g_revoked g)) eqn:Hrev; [done|]. apply str_in_false in Hrev.
    unfold verify_integrity in H. destruct (dget (g_bundles g) id) as [d|] eqn:Hd; [|done].
    destruct (read_file d [MANIFEST]) as [recorded|] eqn:Hm; [|done].
    destruct (read_file d [SIG]) as [text|] eqn:Hs; [|done]. cbn [mbind option_bind] in H.
    destruct (json_loads text) as [sigdoc|] eqn:Hj; [|done].
    destruct (String.eqb_spec (compute_manifest d) recorded) as [<-|]; cbn [negb] in H; [|by rinv H].
    destruct (String.eqb_spec (sha256_hex (compute_manifest d)) id) as [Hid|]; cbn [negb] in H; [|done].
    rinv H. destruct sigdoc as [| | | | | |sd]; try done. injection Hr as <-.
    destruct (default (VStr EmptyString) (dget sd "key_id")) as [| | | |kid| |] eqn:Hkid; try done. cbn [as_str mbind option_bind] in H.
    destruct (dget (g_keys g) kid) as [key|] eqn:Hkey; [|done]. rinv H. cbn in Hr.
    match goal with H : of_opt _ _ = Ok _ |- _ => idtac | _ => idtac end.
    destruct (dget sd "sig") as [sig|] eqn:Hsig; [|done]. injection Hr as <-. destruct sig as [| | | |sg| |]; try done.
    apply of_opt_Ok in Hr1. destruct (tk_verify key _ _) eqn:Hver; [|done].
    exists d. split; try done; [split; [done|unfold slen in Hlen; lia]|]. exists text, sd, kid, key, sg, a1. done.
  - intros [d [[Hhex Hlen] Hrev Hd Hm Hh (text & sd & kid & key & sig & s & Hs & Hj & Hkid & Hkey & Hsig & Hb & Hver)]].
    destruct (String.eqb_spec id "") as [->|Hne]; [done|]. rewrite Hhex. cbn [orb negb].
    assert ((slen id =? 64)%N = true) as -> by (unfold slen; rewrite Hlen; done). cbn [negb].
    apply str_in_false in Hrev. rewrite Hrev. unfold verify_integrity. rewrite Hd, Hm, Hs. cbn [mbind option_bind]. rewrite Hj.
    rewrite String.eqb_refl. cbn [negb]. rewrite Hh, String.eqb_refl. cbn [negb mbind result_bind]. rewrite Hkid.
    cbn [hashable check mbind result_bind as_str option_bind]. rewrite Hkey. cbn [vindex]. rewrite Hsig. cbn [mbind result_bind]. rewrite Hb. cbn. by rewrite Hver.
Qed.

(** C10: safety. Content addressing: two bundles that verify under one id, whatever the
    registries and whoever signed them, hold the same files with the same contents; or else
    their two manifests are different texts with one hash, or the contents they have of one
    same path are. So the id an episode is bound to fixes its policy. A hash is 64
    characters without a line end, and the paths are those of ordinary files. *)
Theorem bundle_id_fixes_content g g' id d d' :
  hex_digest → verify g id = Ok None → verify g' id = Ok None →
  dget (g_bundles g) id = Some d → dget (g_bundles g') id = Some d' → posix_dir d → posix_dir d' →
  (compute_manifest d ≠ compute_manifest d' ∧ sha256_hex (compute_manifest d) = sha256_hex (compute_manifest d')) ∨
  (∃ p x y, read_file d p = Some x ∧ read_file d' p = Some y ∧ x ≠ y ∧ sha256_hex x = sha256_hex y) ∨
  ∀ p, str_in (as_posix p) [MANIFEST; SIG] = false → read_file d p = read_file d' p.
Proof.
  intros Hhex [e [_ _ He _ Hid _]]%verify_verified [e' [_ _ He' _ Hid' _]]%verify_verified Hd Hd' Hp Hp'.
  rewrite He in Hd. injection Hd as <-. rewrite He' in Hd'. injection Hd' as <-.
  destruct (decide (compute_manifest e = compute_manifest e')) as [Heq|Hne]; [right; by apply manifest_same_files|].
  left. split; [done|congruence].
Qed.

(** ** Activation *)
(** The key the bundle is signed with, and that it may activate. *)
Definition activatable (g : registry) (id : string) : Prop :=
  verify g id = Ok None ∧ ∃ d sigdoc kid key, dget (g_bundles g) id = Some d ∧ read_file d [SIG] ≫= json_loads = Some sigdoc ∧
    vindex sigdoc "key_id" = Ok (VStr kid) ∧ dget (g_keys g) kid = Some key ∧ tk_status key = "active".

Definition activated (t : Q) (id by_ : string) (g : registry) : registry :=
  mkRegistry (g_bundles g) (g_keys g) (Some (id +:+ newline)) (g_history g ++ [mkActivation t id (active g) by_]) (g_revoked g).

Lemma activate_run t id by_ g : activatable g id → activate t id by_ g = (Ok tt, activated t id by_ g).
Proof.
  intros (Hv & d & sigdoc & kid & key & Hd & Hs & Hk & Hkey & Hst). unfold activate.
  rewrite get_bind, lift_bind, Hv, require_bind, lift_bind, Hd. cbn [of_opt]. rewrite lift_bind, Hs. cbn [of_opt].
  rewrite lift_bind, Hk, lift_bind. cbn [as_str mbind option_bind]. rewrite Hkey. cbn [of_opt]. by rewrite require_bind, Hst.
Qed.
Lemma activate_inv t id by_ g r g' : activate t id by_ g = (Ok r, g') → activatable g id ∧ g' = activated t id by_ g.
Proof.
  intros H. unfold activate in H. minv H. bools. destruct a; [done|]. cbv [put_state] in H. injection H as _ <-.
  apply of_opt_Ok in Hlift0, Hlift1, Hlift3. destruct a3 as [| | | |kid| |]; try done.
  split; [|done]. split; [done|]. by eexists _, _, _, _.
Qed.

Lemma activatable_activated t id by_ g id' : activatable (activated t id by_ g) id' ↔ activatable g id'.
Proof. done. Qed.

Lemma rstrip_clean s : all_chars (λ c, negb (is_space c)) s = true → rstrip (s +:+ newline) = s.
Proof.
  induction s as [|c s IH]; [done|]. cbn. intros [Hc Hs]%andb_true_iff. rewrite (IH Hs). apply negb_true_iff in Hc. rewrite Hc. by destruct s.
Qed.
Lemma strip_clean s : all_chars (λ c, negb (is_space c)) s = true → strip (s +:+ newline) = s.
Proof.
  intros Hs. unfold strip. assert (lstrip (s +:+ newline) = (match s with EmptyString => EmptyString | _ => s +:+ newline end)) as ->.
  { destruct s as [|c s]; [done|]. cbn in *. apply andb_true_iff in Hs as [Hc _]. apply negb_true_iff in Hc. by rewrite Hc. }
  destruct s as [|c s]; [done|]. by apply rstrip_clean.
Qed.
Lemma hex_no_space s : is_hex_id s = true → all_chars (λ c, negb (is_space c)) s = true.
Proof.
  unfold is_hex_id. induction s as [|c s IH]; [done|]. cbn. intros [Hc Hs]%andb_true_iff. rewrite (IH Hs), andb_true_r.
  clear -Hc. destruct c as [[] [] [] [] [] [] [] []]; by vm_compute in Hc |- *.
Qed.

Lemma active_activated t id by_ g : activatable g id → active (activated t id by_ g) = Some id.
Proof.
  intros [[d [[Hhex Hlen] _ _ _ _ _]]%verify_verified _]. unfold active. cbn.
  rewrite strip_clean by by apply hex_no_space. by destruct id.
Qed.

(** The bundles a registry has had active all verify for it to be activated again:
    [rollback] returns to the one before. *)
Lemma rollback_run t t' a b by1 by2 g :
  activatable g a → activatable g b → active g = Some a →
  let g1 := activated t b by1 g in
  rollback t' by2 g1 = (Ok a, activated t' a by2 g1).
Proof.
  intros Ha Hb Hact g1. unfold rollback. rewrite get_bind. cbn [g1 g_history activated].
  rewrite rev_app_distr. cbn [rev app find_first av_active av_previous].
  pose proof (active_activated t b by1 g Hb) as Hact1. fold g1 in Hact1. rewrite Hact1, bool_decide_true by done. rewrite Hact.
  assert (String.eqb a "" = false) as ->.
  { destruct Ha as [[d [[_ Hlen] _ _ _ _ _]]%verify_verified _]. by destruct a. }
  cbn [negb andb av_previous default from_option]. erewrite bind_run; [reflexivity|]. by apply activate_run.
Qed.

(** Activating a bundle and rolling back makes the one before it active
    again, and the registry holds the two activations, newest last. *)
Theorem rollback_undoes_activate t t' a b by1 by2 g r g1 :
  activatable g a → active g = Some a → activate t b by1 g = (Ok r, g1) →
  let '(r', g2) := rollback t' by2 g1 in
  r' = Ok a ∧ active g2 = Some a ∧
  g_history g2 = g_history g ++ [mkActivation t b (Some a) by1; mkActivation t' a (Some b) by2].
Proof.
  intros Ha Hact [Hb ->]%activate_inv. rewrite (rollback_run t t' a b by1 by2 g Ha Hb Hact). split_and!; [done| |].
  - by apply active_activated.
  - pose proof (active_activated t b by1 g Hb) as Hact1. unfold activated at 1. cbn [g_history]. rewrite Hact1. unfold activated. cbn [g_history].
    by rewrite Hact, <- app_assoc.
Qed.

(** ** Draining *)
Lemma superseded_seen id rows t : superseded_from true id (rows ++ [t]) = match superseded_from true id rows with Some x => Some x | None => if String.eqb (av_active t) id then None else Some (av_ts t) end.
Proof.
  induction rows as [|row rows IH]; cbn; [by destruct (String.eqb _ _)|].
  destruct (String.eqb (av_active row) id); [apply IH|done].
Qed.
Lemma superseded_once seen id rows rows' x : superseded_from seen id rows = Some x → superseded_from seen id (rows ++ rows') = Some x.
Proof.
  revert seen. induction rows as [|row rows IH]; intros seen; cbn; [done|].
  destruct (String.eqb (av_active row) id); [apply IH|]. destruct seen; [done|apply IH].
Qed.
Lemma superseded_next id rows b t prev by_ : (∃ row, row ∈ rows ∧ av_active row = id) → b ≠ id →
  is_Some (superseded_from false id (rows ++ [mkActivation t b prev by_])).
Proof.
  intros (row & Hin & Hrow) Hne. apply list_elem_of_split in Hin as (l1 & l2 & ->).
  assert (∀ seen, is_Some (superseded_from seen id ((l1 ++ row :: l2) ++ [mkActivation t b prev by_]))) as H; [|apply H].
  induction l1 as [|r l1 IH]; intros seen; cbn.
  - rewrite Hrow, String.eqb_refl, superseded_seen. destruct (superseded_from true id l2); [by eexists|].
    cbn. apply String.eqb_neq in Hne. rewrite Hne. by eexists.
  - destruct (String.eqb (av_active r) id); [apply IH|]. destruct seen; [by eexists|apply IH].
Qed.

(** A bundle that was active, replaced and rolled back to keeps the date of its
    replacement: [superseded_at] is never reset, though the bundle is the active one. *)
Theorem rolled_back_bundle_stays_superseded t t' a b by1 by2 g :
  activatable g a → activatable g b → active g = Some a → a ≠ b → (∃ row, row ∈ g_history g ∧ av_active row = a) →
  let g2 := activated t' a by2 (activated t b by1 g) in
  active g2 = Some a ∧ is_Some (superseded_at g2 a).
Proof.
  intros Ha Hb Hact Hne Hrow. split; [by apply active_activated|]. unfold superseded_at. cbn [g_history activated].
  destruct (superseded_next a (g_history g) b t (active g) by1 Hrow (not_eq_sym Hne)) as [x Hx].
  exists x. by apply superseded_once.
Qed.

(** A manifest that no longer matches and has a line without two spaces makes [verify]
    raise instead of giving its reason. *)
Theorem broken_manifest_raises g id d recorded sigdoc :
  is_hex_id id = true → String.length id = 64 → id ∉ g_revoked g → dget (g_bundles g) id = Some d →
  read_file d [MANIFEST] = Some recorded → read_file d [SIG] ≫= json_loads = Some sigdoc →
  recorded ≠ compute_manifest d → parse_manifest (splitlines recorded) [] = Err (PyExc "ValueError") →
  verify g id = Err (PyExc "ValueError").
Proof.
  intros Hhex Hlen Hrev Hd Hm Hs Hne Hparse. unfold verify.
  assert (String.eqb id "" = false) as -> by by destruct id. rewrite Hhex.
  assert ((slen id =? 64)%N = true) as -> by (unfold slen; rewrite Hlen; done). cbn [orb negb].
  apply str_in_false in Hrev. rewrite Hrev. unfold verify_integrity. rewrite Hd, Hm, Hs.
  apply not_eq_sym, String.eqb_neq in Hne. rewrite Hne. cbn [negb]. unfold diff_manifest. by rewrite Hparse.
Qed.
End content.

(** ** Two bundles in a registry *)
Definition digit16 (n : nat) : string := nth (n mod 16) ["0"; "1"; "2"; "3"; "4"; "5"; "6"; "7"; "8"; "9"; "a"; "b"; "c"; "d"; "e"; "f"] "0".
Fixpoint char_sum (s : string) : nat := match s with EmptyString => 0 | String c s' => nat_of_ascii c + char_sum s' end.
Definition sum_hash : Hash := λ s, repeat_str "0" 61 +:+ digit16 (char_sum s / 256) +:+ digit16 (char_sum s / 16) +:+ digit16 (char_sum s).

Lemma digit16_one n : String.length (digit16 n) = 1 ∧ no_char "010" (digit16 n).
Proof.
  unfold digit16. pose proof (Nat.mod_upper_bound n 16 ltac:(done)) as H. revert H. generalize (n mod 16) as m. clear n. intros m H.
  do 16 (destruct m as [|m]; [done|]). lia.
Qed.
Lemma sum_hash_hex : hex_digest (HASH := sum_hash).
Proof.
  intros x. unfold sha256_hex, sum_hash. split.
  - rewrite !string_length_app. pose proof (proj1 (digit16_one (char_sum x / 256))).
    pose proof (proj1 (digit16_one (char_sum x / 16))). pose proof (proj1 (digit16_one (char_sum x))).
    change (String.length (repeat_str "0" 61)) with 61. lia.
  - rewrite !no_char_app. split_and!; [done|apply digit16_one..].
Qed.

Definition signed (files : bundle_dir) : bundle_dir :=
  files ++ [([MANIFEST], compute_manifest (HASH := sum_hash) files);
            ([SIG], canonical (VDict [("key_id", VStr "k1"); ("sig", VStr (b64u "s"))]))].
Definition id_of (files : bundle_dir) : string := sha256_hex (Hash := sum_hash) (compute_manifest (HASH := sum_hash) files).
Definition files_a : bundle_dir := [(["thresholds.yaml"], "P-08: 1"); (["skills"; "index.yaml"], "{}")].
Definition files_b : bundle_dir := [(["thresholds.yaml"], "P-08: 2"); (["skills"; "index.yaml"], "{}")].
Definition demo_trusted : TrustedKey := mkTrusted "k1" (λ sig _, String.eqb sig "s") "active".
Definition registry_a : registry :=
  mkRegistry [(id_of files_a, signed files_a); (id_of files_b, signed files_b)] [("k1", demo_trusted)]
    (Some (id_of files_a +:+ newline)) [mkActivation 10 (id_of files_a) None "op"] [].
Definition registry_b : registry := (activate (HASH := sum_hash) 20 (id_of files_b) "op" registry_a).2.

Lemma bundle_id_fixes_content_witness :
  let d := signed files_a in
  (compute_manifest (HASH := sum_hash) d ≠ compute_manifest (HASH := sum_hash) d ∧
     sha256_hex (Hash := sum_hash) (compute_manifest (HASH := sum_hash) d) = sha256_hex (Hash := sum_hash) (compute_manifest (HASH := sum_hash) d)) ∨
  (∃ p x y, read_file d p = Some x ∧ read_file d p = Some y ∧ x ≠ y ∧ sha256_hex (Hash := sum_hash) x = sha256_hex (Hash := sum_hash) y) ∨
  ∀ p, str_in (as_posix p) [MANIFEST; SIG] = false → read_file d p = read_file d p.
Proof.
  apply (bundle_id_fixes_content (HASH := sum_hash) registry_a registry_b (id_of files_a) (signed files_a) (signed files_a) sum_hash_hex);
    try (vm_compute; reflexivity);
    (split; [apply (bool_decide_unpack _); vm_compute; exact I | repeat constructor; discriminate]).
Defined.

Lemma activatable_a : activatable (HASH := sum_hash) registry_a (id_of files_a).
Proof.
  split; [vm_compute; reflexivity|]. exists (signed files_a), (VDict [("key_id", VStr "k1"); ("sig", VStr (b64u "s"))]), "k1", demo_trusted.
  split_and!; vm_compute; reflexivity.
Qed.
Lemma rollback_undoes_activate_witness :
  let '(r', g2) := rollback (HASH := sum_hash) 30 "op" registry_b in
  r' = Ok (id_of files_a) ∧ active g2 = Some (id_of files_a) ∧
  g_history g2 = g_history registry_a ++ [mkActivation 20 (id_of files_b) (Some (id_of files_a)) "op";
                                          mkActivation 30 (id_of files_a) (Some (id_of files_b)) "op"].
Proof.
  refine (rollback_undoes_activate (HASH := sum_hash) 20 30 (id_of files_a) (id_of files_b) "op" "op" registry_a tt registry_b activatable_a _ _);
    vm_compute; reflexivity.
Defined.

(** The drain date of the bundle rolled back to, and the raise on a cut manifest. *)
Example drained : superseded_at (rollback (HASH := sum_hash) 30 "op" registry_b).2 (id_of files_a) = Some 20%Q.
Proof. vm_compute. reflexivity. Qed.
Example cut_manifest_raises :
  verify (HASH := sum_hash) (mkRegistry [(id_of files_a, files_a ++ [([MANIFEST], "0000"); ([SIG], "{}")])] [] None [] []) (id_of files_a)
  = Err (PyExc "ValueError").
Proof. vm_compute. reflexivity. Qed.
