(* ===== verification/Moves.v ===== *)
(** * Who moves an episode, and from which record

    The controller moves an episode by compare-and-swap on the revision of a record it
    read earlier. [read_is_current]: when the swap succeeds, the record in the store
    still is the one it read. [moves_ok J s] says that the record before each of the
    controller's moves satisfied [J]; [quiet] is what the other clients of the store, and
    the controller's own requests other than moves, do to a store. *)
From S2P Require Import Prelude PyVal Schema Canonical Tools Transitions Tokens Rpc Fold Store StoreSpec StoreInv StoreProps.

(** An episode read at [s0] that has the same revision later is unchanged. *)
Lemma entries_prefix k l l' : l `prefix_of` l' → entries_of k l `prefix_of` entries_of k l'.
Proof. intros [m ->]. exists (entries_of k m). unfold entries_of. apply List.filter_app. Qed.
Lemma prefix_same_length {A} (l l' : list A) : l `prefix_of` l' → length l = length l' → l = l'.
Proof. intros [m ->]. rewrite length_app. destruct m; cbn; [by rewrite app_nil_r | lia]. Qed.

Lemma read_is_current s0 s k rec0 rec : inv s0 → rtc srequest s0 s →
  dget (s_records s0) k = Some rec0 → dget (s_records s) k = Some rec → r_revision rec = r_revision rec0 → rec = rec0.
Proof.
  intros Hinv Hs H0 H1 Hrev. pose proof (requests_inv _ _ Hinv Hs) as Hinv'.
  pose proof (entries_prefix k _ _ (requests_prefix _ _ Hinv Hs)) as Hp.
  rewrite (inv_revision _ Hinv _ _ H0), (inv_revision _ Hinv' _ _ H1) in Hrev.
  apply prefix_same_length in Hp; [|lia]. rewrite (inv_replay _ Hinv), Hp, <- (inv_replay _ Hinv') in H0. congruence.
Qed.

(** What a [set_state] that wrote something did: the record it moved has the expected
    revision, whatever the type the number came as. *)
Lemma set_state_swap v ctx p s r s' : keyed s → set_state v ctx p s = (r, s') →
  s' = s ∨ ∃ k rec to aref, dget (s_records s) k = Some rec ∧ dget_none p "episode_id" = VStr k ∧ dget_none p "state" = VStr to ∧
    py_eq (dget_none p "expected_revision") (VInt (r_revision rec)) = true ∧
    sstep s (LAppend k (BState (r_state rec) to (dget_none p "reason")) (x_principal ctx) aref) s'.
Proof.
  intros Hkeyed H. unfold set_state in H.
  apply bind_readonly in H as [(? & ? & -> & ->) | (rec & Hrec & H)]; [by left| |auto with valops].
  apply get_record_Ok in Hrec as (k & Hid & Hk & _).
  apply bind_readonly in H as [(? & ? & -> & ->) | (prior & Hidem & H)]; [by left| |auto with valops].
  apply unless_prior_run in H as [(_ & _ & ->) | [_ H]]; [by left|].
  ro H ltac:(by left). bools. subst.
  destruct (dget_none p "state") as [| | | |to| |] eqn:Hto; cbn in *; try (by case_matches).
  pose proof (Hkeyed _ _ Hk) as Hrid.
  apply append_run in H as [[_ ->] | (bundle & aref & -> & Ha & Hb & Hi & Hr & ->)]; [by left|].
  right. exists k, rec, to, aref. split_and!; try done. subst k. eapply sstep_append; try done.
  split; [done|]. destruct (r_state rec) as [f|]; [|by simplify_eq]. exists f. split; congruence.
Qed.

Section moves.
Context (J : record → string → Prop).

Definition moves_ok (s : store) : Prop := ∀ l (r : row) l' frm to why rec,
  s_entries s = l ++ r :: l' → e_body r = BState frm to why → e_principal r = "controller" →
  replay (e_episode r) (entries_of (e_episode r) l) = Some rec → J rec to.

Lemma snoc_split {A} (l l' m : list A) x y : l ++ x :: l' = m ++ [y] → (l = m ∧ x = y ∧ l' = []) ∨ ∃ l'', m = l ++ x :: l''.
Proof.
  destruct l' as [|z l' _] using rev_ind.
  - intros [-> [= ->]]%app_inj_tail. by left.
  - rewrite (app_comm_cons l' _ x), (assoc_L app). intros [<- _]%app_inj_tail. right. by exists l'.
Qed.

Lemma sstep_moves s l s' : inv s → sstep s l s' → moves_ok s →
  (∀ k frm to why aref rec, l = LAppend k (BState frm to why) "controller" aref → dget (s_records s) k = Some rec → J rec to) →
  moves_ok s'.
Proof.
  intros Hinv Hs Hok HJ.
  assert (∀ x, s_entries s' = s_entries s ++ [x] →
    (∀ frm to why rec, e_body x = BState frm to why → e_principal x = "controller" →
       replay (e_episode x) (entries_of (e_episode x) (s_entries s)) = Some rec → J rec to) → moves_ok s') as Hsnoc.
  { intros x Hx HJx l0 r l' frm to why rec He Hbody Hwho Hrep. rewrite Hx in He. symmetry in He.
    apply snoc_split in He as [(-> & -> & ->)|[l'' He]]; [by eapply HJx|]. exact (Hok _ _ _ _ _ _ _ He Hbody Hwho Hrep). }
  destruct Hs as [k rec b ts principal session bundle aref idem result Hk Hid Hb Hi Hr Hl
    |eid o ts principal aref idem result Hk Hi Hr Hdup Hc Hm|]; [| |exact Hok]; (eapply Hsnoc; [reflexivity|]); cbn; [|done].
  intros frm to why rec' -> -> Hrep. rewrite <- (inv_replay _ Hinv), Hk in Hrep. injection Hrep as <-. by eapply HJ.
Qed.

(** ** Quiet changes *)
(** Nobody but the verifier moves an episode, out of [awaiting_operator]. *)
Definition kept (s s' : store) : Prop := ∀ k rec, dget (s_records s) k = Some rec → r_state rec ≠ Some "awaiting_operator" →
  ∃ rec', dget (s_records s') k = Some rec' ∧ r_state rec' = r_state rec.

Definition quiet (s s' : store) : Prop :=
  inv s → inv s' ∧ rtc srequest s s' ∧ (moves_ok s → moves_ok s') ∧ kept s s'.

Lemma quiet_refl s : quiet s s.
Proof. intros Hs. split_and!; [done|done|done|]. intros k rec Hk _. by exists rec. Qed.
#[export] Instance quiet_preorder : PreOrder quiet.
Proof.
  split; [exact quiet_refl|].
  intros s1 s2 s3 H12 H23 Hs. destruct (H12 Hs) as (Hs2 & Hr & Hm & Hk), (H23 Hs2) as (Hs3 & Hr' & Hm' & Hk').
  split_and!; [done|by etrans|by auto|]. intros k rec Hrec Hst. destruct (Hk _ _ Hrec Hst) as (rec2 & Hrec2 & Hst2).
  destruct (Hk' k rec2 Hrec2) as (rec3 & Hrec3 & Hst3); [congruence|]. exists rec3. split; [done|congruence].
Qed.

Definition by_controller (l : label) : Prop :=
  match l with LAppend _ (BState _ _ _) who _ => who = "controller" | _ => False end.

Lemma apply_state_kept rec e : (∀ o, e_body e ≠ BOpened o) → (∀ frm to why, e_body e ≠ BState frm to why) →
  r_state (apply rec e) = r_state rec.
Proof. intros Ho Hs. unfold apply. destruct (e_body e); naive_solver. Qed.

Lemma sstep_quiet s l s' : srequest s s' → sstep s l s' → ¬ by_controller l → quiet s s'.
Proof.
  intros Hreq Hs Hl Hinv. split_and!; [by eapply srequest_inv|by apply rtc_once| |].
  - intros Hok. eapply sstep_moves; [done|done|done|]. intros k frm to why aref rec -> _. by destruct Hl.
  - intros k0 rec0 Hk0 Hst. destruct Hs as [k rec b ts principal session bundle aref idem result Hk Hid Hb Hi Hr Hlegal
      |eid o ts principal aref idem result Hk Hi Hr Hdup Hc Hm|]; [| |by exists rec0].
    + destruct (decide (k = k0)) as [->|Hne].
      * assert (rec0 = rec) as -> by congruence. eexists. split; [cbn; rewrite Hid; apply dget_dset_eq|].
        apply apply_state_kept; cbn; intros; intros ->; [done|]. destruct Hlegal as (_ & f & Hf & Ha).
        apply allowed_inv in Ha as [[-> _]|(-> & -> & _)]; [by destruct Hl | by rewrite Hf in Hst].
      * exists rec0. split; [|done]. cbn. by rewrite Hid, dget_dset_ne.
    + exists rec0. split; [|done]. cbn. rewrite dget_dset_ne; [done|]. intros ->. congruence.
Qed.

Lemma restart_quiet s s' : restart s = Ok s' → quiet s s'.
Proof.
  intros Hr Hinv. split_and!; [by eapply restart_inv|by apply rtc_once, sreq_restart| |].
  - by apply restart_Ok in Hr as ->.
  - intros k rec Hk _. exists rec. by rewrite (restart_get s).
Qed.

(** A request at another endpoint than the controller's, or a restart. *)
Inductive foreign (s : store) : store → Prop :=
| fo_handle v uids ep uid pid line resp s' :
    ep ∈ endpoints v uids → ep_principal ep ≠ "controller" → dget (s_records s) (v_uuid v) = None →
    handle ep uid pid line s = (resp, s') → foreign s s'
| fo_late_verification v ctx p r s' : verification_write v ctx p s = (r, s') → foreign s s'
| fo_restart s' : restart s = Ok s' → foreign s s'.

Lemma foreign_quiet s s' : foreign s s' → quiet s s'.
Proof.
  intros Hf Hinv. enough (quiet s s') as Hq by exact (Hq Hinv). pose proof (inv_keyed _ Hinv) as Hkeyed.
  destruct Hf as [v uids ep uid pid line resp s' Hep Hp Hu H | v ctx p r s' H | s' H]; [| |by apply restart_quiet].
  - assert (srequest s s') as Hreq by (by eapply sreq_handle).
    destruct (handle_refined _ _ _ _ _ _ _ _ _ Hep Hkeyed Hu H) as [->|(l & Hl & _ & _ & Hmay)]; [exact (quiet_refl s)|].
    apply (sstep_quiet s l); [done|done|]. destruct l as [k b who aref| |]; cbn in *; try done.
    intros Hby. destruct b; try done. cbn in Hby, Hmay. destruct Hmay as [[? _]|(_ & ? & _)]; congruence.
  - assert (srequest s s') as Hreq by (by eapply sreq_late_verification).
    destruct (verification_write_refined _ _ _ _ _ _ Hkeyed H) as [->|(l & Hl & _ & _ & k & b & who & aref & -> & Hkd)];
      [exact (quiet_refl s)|]. apply (sstep_quiet s _ _ Hreq Hl). by destruct b; cbn; intros ?.
Qed.
End moves.
