(* ===== verification/Artefacts.v ===== *)
(** * Artefact validation (src/valops/controller/artefacts.py, common/artefact_schema.py)

    After a step the controller reads the episode record and decides whether the step
    left its artefact. Before a judge's step it checks that the judge's input holds none
    of the reasoning it must not see. *)
From S2P Require Import Prelude PyVal Schema Canonical Json PyConv Tools Fold.
From Stdlib Require Import Ascii.

(** src/valops/common/artefact_schema.py:8-20 ARTEFACT_SCHEMA *)
Definition ARTEFACT_SCHEMA (role : string) : option schema :=
  dget [(DIAG, obj_schema [("hypothesis_ids", arr_schema (Some 1%N) None (str_schema None None (Some (PatId ["h"%char]))))] ["hypothesis_ids"]);
        (PLAN, obj_schema [("artefact_id", str_schema None None (Some (PatId ["r"; "n"]%char)))] ["artefact_id"]);
        (JUDGE, obj_schema [("target_id", str_schema None None (Some (PatId ["r"; "n"]%char)));
                            ("result", enum_schema ["PASS"; "FAIL"])] ["target_id"; "result"]);
        (REPORT, obj_schema [("report_ref", str_schema None None (Some PatReportRef))] ["report_ref"])] role.

(** src/valops/controller/artefacts.py:15-18 Validation *)
Record Validation : Type := mkValidation { va_ok : bool; va_reason : string }.
(** src/valops/controller/artefacts.py:21-22 _fail *)
Definition fail_ (reason : string) : Validation := mkValidation false reason.
Definition pass : Validation := mkValidation true EmptyString.

(** What validation found stored, to compare the structured output with. *)
Inductive stored : Type :=
| StoredIds (l : list string)
| StoredRef (o : option string)
| StoredVerdict (o : option verdict).

(** [sorted(...)] of integers. *)
Fixpoint zinsert (x : Z) (l : list Z) : list Z :=
  match l with [] => [x] | y :: l' => if (y <? x)%Z then y :: zinsert x l' else x :: l end.
Definition zsort (l : list Z) : list Z := foldr zinsert [] l.

Definition of_session (session : string) (x : val) : bool := py_eq x (VStr session).

(** src/valops/controller/artefacts.py:25-35 validate_diagnostician *)
Definition validate_diagnostician (rec : record) (session : string) : Validation * stored :=
  let hs := List.filter (λ h : hypothesis, of_session session (h_step_session h)) (r_hypotheses rec) in
  match hs with
  | [] => (fail_ "missing artefact: no hypothesis written in this step", StoredIds [])
  | _ =>
      match find_first (λ h : hypothesis, is_blank (h_claim h) || is_blank (h_test h) || is_blank (h_expected h)) hs with
      | Some h => (fail_ ("hypothesis " +:+ h_id h +:+ " lacks a contract field"), StoredIds [])
      | None =>
          let ranks := zsort (map (λ h : hypothesis, h_rank h) hs) in
          if bool_decide (ranks = map Z.of_nat (seq 1 (length hs))) then (pass, StoredIds (map (λ h : hypothesis, h_id h) hs))
          else (fail_ ("ranks must be 1.." +:+ pretty (N.of_nat (length hs)) +:+ " with no gaps, got " +:+ py_repr (VList (map VInt ranks))), StoredIds [])
      end
  end.

(** src/valops/controller/artefacts.py:38-46 validate_planner *)
Definition validate_planner (rec : record) (session : string) : Validation * stored :=
  let rs := List.filter (λ a, of_session session (a_session a)) (map ARec (r_recommendations rec)) in
  let ns := List.filter (λ a, of_session session (a_session a)) (map ANo (r_no_action rec)) in
  match rs ++ ns with
  | [art] =>
      match a_refs art with
      | [] => (fail_ "artefact has no evidence references", StoredRef None)
      | _ => (pass, StoredRef (Some (a_id art)))
      end
  | l => (fail_ ("expected exactly one recommendation or no-action record, got " +:+ pretty (N.of_nat (length l))), StoredRef None)
  end.

(** src/valops/controller/artefacts.py:49-56 validate_judge *)
Definition validate_judge (rec : record) (session : string) : Validation * stored :=
  match List.filter (λ v : verdict, of_session session (vd_session v)) (r_verdicts rec) with
  | [v] =>
      if negb (str_in (vd_result v) ["PASS"; "FAIL"]) || bool_decide (vd_checks v = [])
      then (fail_ "verdict without a non-empty checks list", StoredVerdict None)
      else (pass, StoredVerdict (Some v))
  | _ => (fail_ "missing verdict (absence of a verdict is not consent)", StoredVerdict None)
  end.

Definition acknowledged (session kind : string) (a : val) : result exn bool :=
  s ← vget a "session_id"; k ← vget a "kind"; ack ← vget a "ack";
  Ok (of_session session s && py_eq k (VStr kind) && truthy ack).

(** src/valops/controller/artefacts.py:59-66 validate_reporter

    [alerts] is what the report broker answered. *)
Definition validate_reporter (rec : record) (session kind : string) (alerts : val) : result exn (Validation * stored) :=
  let rs := List.filter (λ r : report, of_session session (rp_session r) && String.eqb (rp_kind r) kind) (r_reports rec) in
  match list.last rs with
  | None => Ok (fail_ ("missing " +:+ kind +:+ " report ref"), StoredRef None)
  | Some r =>
      l ← py_iter alerts;
      acked ← filterR (acknowledged session kind) l;
      Ok (match acked with
          | [] => (fail_ (kind +:+ " alert not dispatched/acknowledged by the sink"), StoredRef None)
          | _ => (pass, StoredRef (Some (rp_ref r)))
          end)
  end.

(** [set(a) == set(b)] for hashable members. *)
Definition same_set (a : list val) (b : list string) : bool :=
  forallb (λ x, py_in x (map VStr b)) a && forallb (λ x, py_in (VStr x) a) b.

(** src/valops/controller/artefacts.py:69-84 cross_check

    What was stored is ids after a diagnosis, a verdict after a judgement, one
    reference after the other two roles. *)
Definition cross_check (role : string) (structured : option val) (st : stored) : result exn Validation :=
  match structured with
  | None => Ok pass
  | Some s =>
      sch ← of_opt (ARTEFACT_SCHEMA role) (PyExc "KeyError");
      if negb (is_valid s sch) then Ok (fail_ "structured output does not match its schema")
      else match st return result exn Validation with
      | StoredIds ids =>
          x ← vindex s "hypothesis_ids";
          xs ← match x with VList l => Ok l | _ => Err (PyExc "TypeError") end;
          Ok (if same_set xs ids then pass else fail_ "structured output disagrees with stored hypotheses")
      | StoredVerdict None => Err (PyExc "TypeError")
      | StoredVerdict (Some v) =>
          res ← vindex s "result"; target ← vindex s "target_id";
          Ok (if py_eq res (VStr (vd_result v)) && py_eq target (VStr (vd_target_id v)) then pass
              else fail_ "structured verdict disagrees with stored verdict")
      | StoredRef ref =>
          if String.eqb role PLAN then
            x ← vindex s "artefact_id";
            Ok (if py_eq x (opt_val VStr ref) then pass else fail_ "structured output disagrees with stored artefact")
          else
            x ← vindex s "report_ref";
            Ok (if py_eq x (opt_val VStr ref) then pass else fail_ "structured report ref disagrees with stored report")
      end
  end.

(** ** Judge isolation *)
(** A character of [json.dumps] with its default [ensure_ascii]: those above ASCII are
    escaped by code point, in UTF-16; [s] is UTF-8. *)
Definition hexN (n : N) : string := hex_digit (N.to_nat (n mod 16)).
Definition u4 (n : N) : string := ch 92 +:+ "u" +:+ hexN (n / 4096) +:+ hexN (n / 256) +:+ hexN (n / 16) +:+ hexN n.
Definition u_escape (n : N) : string :=
  if (n <? 65536)%N then u4 n else u4 (55296 + (n - 65536) / 1024) +:+ u4 (56320 + (n - 65536) mod 1024).
Fixpoint ascii_esc (s : string) : string :=
  match s with
  | EmptyString => EmptyString
  | String a s1 =>
      let x := N_of_ascii a in
      if (x <? 127)%N then esc_char a +:+ ascii_esc s1
      else if (x =? 127)%N then u_escape x +:+ ascii_esc s1
      else match s1 with
      | String b s2 =>
          let y := N_of_ascii b in
          if (x <? 224)%N then u_escape ((x mod 32) * 64 + y mod 64) +:+ ascii_esc s2
          else match s2 with
          | String c s3 =>
              let z := N_of_ascii c in
              if (x <? 240)%N then u_escape ((x mod 16) * 4096 + (y mod 64) * 64 + z mod 64) +:+ ascii_esc s3
              else match s3 with
              | String d s4 => u_escape ((x mod 8) * 262144 + (y mod 64) * 4096 + (z mod 64) * 64 + N_of_ascii d mod 64) +:+ ascii_esc s4
              | EmptyString => EmptyString
              end
          | EmptyString => EmptyString
          end
      | EmptyString => EmptyString
      end
  end.
Definition ascii_quote (s : string) : string := ch 34 +:+ ascii_esc s +:+ ch 34.

(** [json.dumps(v)] *)
Fixpoint json_dumps (v : val) : string :=
  match v with
  | VNone => "null"
  | VBool b => if b then "true" else "false"
  | VInt z => print_int z
  | VFloat q => print_float q
  | VStr s => ascii_quote s
  | VList l => "[" +:+ join ", " (map json_dumps l) +:+ "]"
  | VDict d => "{" +:+ join ", " (map (λ '(k, x), ascii_quote k +:+ ": " +:+ json_dumps x) d) +:+ "}"
  end.

Section isolation.
(** [rfc3339] of a timestamp. *)
Context (rfc3339 : Q → string).

Definition signal_json (s : signal) : val :=
  VDict [("id", VStr (sg_id s)); ("command_id", sg_command_id s); ("status", sg_status s); ("summary", sg_summary s);
         ("truncated", VBool (sg_truncated s)); ("collected_at", sg_collected_at s); ("flags", sg_flags s);
         ("ref", sg_ref s); ("source", VStr (sg_source s)); ("t", VStr (rfc3339 (sg_t s))); ("audit_ref", VStr (sg_audit_ref s))].
Definition skill_json (s : skill_view) : val :=
  VDict [("name", VStr (sv_name s)); ("modes", sv_modes s); ("preconditions", sv_preconditions s)].
Definition verification_json (v : verification) : val :=
  VDict [("rule", vf_rule v); ("result", vf_result v); ("samples", vf_samples v); ("t", VStr (rfc3339 (vf_t v))); ("by", VStr "verifier")].
Definition recovery_json (r : recovery) : val :=
  VDict [("rule", rv_rule r); ("note", rv_note r); ("t", VStr (rfc3339 (rv_t r)))].

(** The judge's view as it is sent, without [under_judgement]. *)
Definition judge_json (j : judge_view_t) : dict :=
  [("view", VStr "judge"); ("episode_id", VStr (jv_episode_id j)); ("class", opt_val VStr (jv_class j)); ("trigger", jv_trigger j);
   ("state", opt_val VStr (jv_state j)); ("consensus_mode", opt_val VStr (jv_mode j));
   ("consensus_mode_evidence", jv_mode_evidence j); ("signals", VList (map signal_json (jv_signals j)));
   ("skill", opt_val skill_json (jv_skill j)); ("verifications", VList (map verification_json (jv_verifications j)));
   ("recovery_observations", VList (map recovery_json (jv_recovery j)))].

(** [len(s)]: code points, the bytes that do not continue one. *)
Fixpoint code_points (s : string) : nat :=
  match s with
  | EmptyString => 0
  | String c s' => let n := nat_of_ascii c in if ((128 <=? n) && (n <? 192))%nat then code_points s' else S (code_points s')
  end.
(** A text of at least 12 characters that occurs in the serialized view. *)
Definition leaks (blob text : string) : bool := (12 <=? code_points text)%nat && substr text blob.

(** src/valops/controller/artefacts.py:87-105 assert_judge_isolated

    The full view has forbidden keys; the judge's has none. *)
Definition assert_judge_isolated (v : view) (rec : record) : result exn unit :=
  match v with
  | VFull _ => Err (PyExc "AssertionError")
  | VJudge j =>
      let blob := json_dumps (VDict (judge_json j)) in
      _ ← check (forallb (λ h : hypothesis, negb (leaks blob (h_claim h)) && negb (leaks blob (h_test h)) && negb (leaks blob (h_expected h)))
                   (r_hypotheses rec)) (PyExc "AssertionError");
      foldr (λ c k, note ← vget c "note";
                    let note := py_or note (VStr EmptyString) in
                    match note with
                    | VStr s => if leaks blob s then Err (PyExc "AssertionError") else k
                    | _ => Err (PyExc "TypeError")
                    end) (Ok tt) (flat_map (λ v : verdict, vd_checks v) (r_verdicts rec))
  end.
End isolation.

(** The failed checks of a verdict, by name. *)
Fixpoint failed_checks (checks : list val) : result exn (list string) :=
  match checks with
  | [] => Ok []
  | c :: cs =>
      r ← vindex c "result";
      if py_eq r (VStr "fail") then
        n ← vindex c "check"; n ← of_opt (as_str n) (PyExc "TypeError"); rest ← failed_checks cs; Ok (n :: rest)
      else failed_checks cs
  end.

(** * When a step counts

    What the controller's validators accept, exactly, and what the isolation check
    guarantees of the judge's input. *)
From stdpp Require Import sorting.
From Stdlib Require Import Ascii Sorted.

(** ** Sorting *)
Lemma zinsert_perm x l : zinsert x l ≡ₚ x :: l.
Proof.
  induction l as [|y l IH]; cbn; [done|]. destruct (y <? x)%Z; [|done]. by rewrite IH, Permutation_swap.
Qed.
Lemma zsort_perm l : zsort l ≡ₚ l.
Proof. induction l as [|x l IH]; [done|]. cbn. by rewrite zinsert_perm, IH. Qed.
Lemma zinsert_sorted x l : StronglySorted Z.le l → StronglySorted Z.le (zinsert x l).
Proof.
  induction 1 as [|y l Hl IH Hy]; cbn; [by repeat constructor|]. destruct (Z.ltb_spec y x) as [Hlt|Hge].
  - constructor; [done|]. rewrite zinsert_perm. constructor; [lia|done].
  - constructor; [by constructor|]. constructor; [done|]. eapply list.Forall_impl; [exact Hy|]. intros z Hz. lia.
Qed.
Lemma zsort_sorted l : StronglySorted Z.le (zsort l).
Proof. induction l as [|x l IH]; [constructor|]. by apply zinsert_sorted. Qed.
Lemma ranks_sorted n m : StronglySorted Z.le (map Z.of_nat (seq n m)).
Proof.
  revert n. induction m as [|m IH]; intros n; cbn; constructor; [done|].
  apply Forall_fmap, list.Forall_forall. intros x Hx%elem_of_seq. cbn. lia.
Qed.

(** Ranks sort to [1..n] when they are a rearrangement of it. *)
Lemma zsort_ranks l n : zsort l = map Z.of_nat (seq 1 n) ↔ l ≡ₚ map Z.of_nat (seq 1 n).
Proof.
  split; [intros <-; by rewrite zsort_perm|]. intros Hp.
  apply (StronglySorted_unique Z.le); [apply zsort_sorted|apply ranks_sorted|by rewrite zsort_perm].
Qed.

(** ** What the validators accept *)
Definition diagnosed_in (session : string) (rec : record) : list hypothesis :=
  List.filter (λ h : hypothesis, of_session session (h_step_session h)) (r_hypotheses rec).
Definition planned_in (session : string) (rec : record) : list artefact :=
  List.filter (λ a, of_session session (a_session a)) (artefacts rec).
Definition judged_in (session : string) (rec : record) : list verdict :=
  List.filter (λ v : verdict, of_session session (vd_session v)) (r_verdicts rec).
Definition complete (h : hypothesis) : Prop := is_blank (h_claim h) = false ∧ is_blank (h_test h) = false ∧ is_blank (h_expected h) = false.

Lemma diagnosis_accepted rec session st : validate_diagnostician rec session = (pass, st) ↔
  diagnosed_in session rec ≠ [] ∧ Forall complete (diagnosed_in session rec) ∧
  map (λ h : hypothesis, h_rank h) (diagnosed_in session rec) ≡ₚ map Z.of_nat (seq 1 (length (diagnosed_in session rec))) ∧
  st = StoredIds (map (λ h : hypothesis, h_id h) (diagnosed_in session rec)).
Proof.
  unfold validate_diagnostician. fold (diagnosed_in session rec). destruct (diagnosed_in session rec) as [|h0 l] eqn:Hl; [naive_solver|].
  clear Hl. set (hs := h0 :: l) in *. assert (hs ≠ []) as Hne by done. clearbody hs.
  destruct (find_first _ hs) as [h|] eqn:Hf.
  - apply find_first_Some in Hf as [Hin Hb]. split; [done|]. intros (_ & Hall & _).
    rewrite list.Forall_forall in Hall. destruct (Hall _ Hin) as (H1 & H2 & H3). by rewrite H1, H2, H3 in Hb.
  - rewrite find_first_None in Hf.
    assert (Forall complete hs) as Hall.
    { apply list.Forall_forall. intros h Hin. specialize (Hf h Hin). bools. by split_and!. }
    destruct (bool_decide_reflect (zsort (map (λ h : hypothesis, h_rank h) hs) = map Z.of_nat (seq 1 (length hs)))) as [Hr|Hr];
      rewrite zsort_ranks in Hr; naive_solver.
Qed.

Lemma verdict_accepted rec session st : validate_judge rec session = (pass, st) ↔
  ∃ v : verdict, judged_in session rec = [v] ∧ vd_result v ∈ ["PASS"; "FAIL"] ∧ vd_checks v ≠ [] ∧ st = StoredVerdict (Some v).
Proof.
  unfold validate_judge. fold (judged_in session rec). destruct (judged_in session rec) as [|v [|v' l]]; [naive_solver| |naive_solver].
  destruct (str_in (vd_result v) ["PASS"; "FAIL"]) eqn:Hs; [apply str_in_spec in Hs|apply str_in_false in Hs]; cbn; [|naive_solver].
  destruct (bool_decide_reflect (vd_checks v = [])); naive_solver.
Qed.

Lemma plan_accepted rec session st : validate_planner rec session = (pass, st) ↔
  ∃ a, planned_in session rec = [a] ∧ a_refs a ≠ [] ∧ st = StoredRef (Some (a_id a)).
Proof.
  unfold validate_planner. rewrite <- List.filter_app. fold (artefacts rec). fold (planned_in session rec).
  destruct (planned_in session rec) as [|a [|a' l]]; [split; [done|by intros (a & ? & _)]| |split; [done|by intros (? & ? & _)]].
  destruct (a_refs a) eqn:Hr; (split; [intros [=]|intros (? & [= <-] & ? & ->)]); [congruence|exists a; by rewrite Hr|done].
Qed.

(** What a step must leave to count, exactly. A diagnosis: at least one
    hypothesis of the session, none with a blank contract field, their ranks a
    rearrangement of 1..n. A plan: exactly one recommendation or no-action of the session,
    with evidence. A judgement: exactly one verdict of the session, PASS or FAIL, with
    checks; no verdict, or two, is never a PASS. *)
Theorem step_counts_iff rec session st :
  (validate_diagnostician rec session = (pass, st) ↔
     diagnosed_in session rec ≠ [] ∧ Forall complete (diagnosed_in session rec) ∧
     map (λ h : hypothesis, h_rank h) (diagnosed_in session rec) ≡ₚ map Z.of_nat (seq 1 (length (diagnosed_in session rec))) ∧
     st = StoredIds (map (λ h : hypothesis, h_id h) (diagnosed_in session rec))) ∧
  (validate_planner rec session = (pass, st) ↔
     ∃ a, planned_in session rec = [a] ∧ a_refs a ≠ [] ∧ st = StoredRef (Some (a_id a))) ∧
  (validate_judge rec session = (pass, st) ↔
     ∃ v : verdict, judged_in session rec = [v] ∧ vd_result v ∈ ["PASS"; "FAIL"] ∧ vd_checks v ≠ [] ∧ st = StoredVerdict (Some v)).
Proof. split_and!; [apply diagnosis_accepted|apply plan_accepted|apply verdict_accepted]. Qed.

(** ** Judge isolation *)
(** What the isolation check lets through: no hypothesis text of twelve characters or more
    occurs in the serialized view. *)
Theorem isolated_view_hides_prose rfc3339 v rec : assert_judge_isolated rfc3339 v rec = Ok tt →
  ∃ j, v = VJudge j ∧ ∀ h : hypothesis, h ∈ r_hypotheses rec → ∀ text, text ∈ [h_claim h; h_test h; h_expected h] →
    12 ≤ code_points text → substr text (json_dumps (VDict (judge_json rfc3339 j))) = false.
Proof.
  destruct v as [j|f]; [|done]. cbn. intros H. apply rbind_Ok in H as ([] & Hc & _). apply check_Ok in Hc.
  exists j. split; [done|]. intros h Hh text Ht Hlen. rewrite forallb_forall in Hc.
  specialize (Hc h ltac:(by apply list_elem_of_In)). bools. rewrite !elem_of_cons in Ht. unfold leaks in *.
  apply Nat.leb_le in Hlen. destruct Ht as [->|[->|[->|Ht]]]; [..|by apply not_elem_of_nil in Ht];
    match goal with H : (_ <=? code_points ?t)%nat && _ = false |- substr ?t _ = false => by rewrite Hlen in H end.
Qed.

(** The text compared is the serialized view's, where quotes, newlines and characters
    above ASCII are escaped: a hypothesis with one of them is not found although the view
    carries it word for word. *)
Definition quoted_claim : string := "log says " +:+ ch 34 +:+ "stalled" +:+ ch 34 +:+ " since boot".
Definition leaking_view : view :=
  let sg := mkSignal (mkSignalB "s1" (VStr "log_tail") (VStr "ok") (VStr quoted_claim) false VNone (VList []) VNone "x") 0 "audit:1" in
  VJudge (mkJudgeView "ep1" None VNone None None VNone [sg] None None [] []).
Definition leaking_record : record :=
  set_hypotheses [mkHyp (mkHypB "h1" (VStr "sess1") 1 quoted_claim "t" "e") "open" [] [] 0] (empty_record "ep1").
Example escaped_prose_passes : assert_judge_isolated (λ _, "t") leaking_view leaking_record = Ok tt.
Proof. vm_compute. reflexivity. Qed.
