(* ===== verification/JsonText.v ===== *)
(** * The JSON the program writes, and reads back

    [json.dumps] escapes the characters above ASCII; what it writes, with or without spaces,
    with the keys sorted or as they come, [json.loads] reads back. Characters outside the
    basic plane are left out: the model of the reader takes an escape for a character. *)
From S2P Require Import Prelude PyVal Schema Canonical Json Artefacts.
From Stdlib Require Import Ascii.

(** ** Strings *)
(** Text of the basic plane, in UTF-8. *)
Definition is_cont8 (y : N) : bool := ((128 <=? y) && (y <? 192))%N.
Fixpoint bmp_text (s : string) : bool :=
  match s with
  | EmptyString => true
  | String a s1 =>
      let x := N_of_ascii a in
      if (x <? 128)%N then bmp_text s1
      else match s1 with
      | String b s2 =>
          let y := N_of_ascii b in
          if (x <? 224)%N then (194 <=? x)%N && is_cont8 y && bmp_text s2
          else match s2 with
          | String c s3 =>
              let z := N_of_ascii c in
              (x <? 240)%N && is_cont8 y && is_cont8 z && (2048 <=? (x mod 16) * 4096 + (y mod 64) * 64 + z mod 64)%N && bmp_text s3
          | EmptyString => false
          end
      | EmptyString => false
      end
  end.

Lemma hex_read n : (n < 16) → ∃ c, hex_digit n = String c EmptyString ∧ hex_val c = Some n.
Proof. intros H. do 16 (destruct n as [|n]; [by eexists|]). lia. Qed.
Lemma parse_str_u a b c d r : parse_str (String "092" (String "u" (String a (String b (String c (String d r)))))) =
  (i ← hex_val a; j ← hex_val b; k ← hex_val c; l ← hex_val d; '(x, r') ← parse_str r; Some (utf8 (i * 4096 + j * 256 + k * 16 + l) +:+ x, r')).
Proof. reflexivity. Qed.
Lemma hex_sum n : (n < 65536)%N →
  N.to_nat (n / 4096 mod 16) * 4096 + N.to_nat (n / 256 mod 16) * 256 + N.to_nat (n / 16 mod 16) * 16 + N.to_nat (n mod 16) = N.to_nat n.
Proof. intros Hn. zify. Z.to_euclidean_division_equations. lia. Qed.
Lemma u4_read n r : (n < 65536)%N → parse_str (u4 n +:+ r) = ('(x, r') ← parse_str r; Some (utf8 (N.to_nat n) +:+ x, r')).
Proof.
  intros Hn. unfold u4, hexN.
  assert (∀ k, (k mod 16 < 16)%N) as Hm by (intros k; by apply N.mod_lt).
  destruct (hex_read (N.to_nat (n / 4096 mod 16))) as (a & -> & Ha); [specialize (Hm (n / 4096)%N); lia|].
  destruct (hex_read (N.to_nat (n / 256 mod 16))) as (b & -> & Hb); [specialize (Hm (n / 256)%N); lia|].
  destruct (hex_read (N.to_nat (n / 16 mod 16))) as (c & -> & Hc); [specialize (Hm (n / 16)%N); lia|].
  destruct (hex_read (N.to_nat (n mod 16))) as (d & -> & Hd); [specialize (Hm n); lia|].
  assert (∀ a b c d : ascii, (ch 92 +:+ "u" +:+ String a EmptyString +:+ String b EmptyString +:+ String c EmptyString +:+ String d EmptyString) +:+ r =
    String "092" (String "u" (String a (String b (String c (String d r)))))) as -> by reflexivity.
  rewrite parse_str_u, Ha, Hb, Hc, Hd. cbn [mbind option_bind]. by rewrite hex_sum.
Qed.
Lemma u_escape_read n r : (n < 65536)%N → parse_str (u_escape n +:+ r) = ('(x, r') ← parse_str r; Some (utf8 (N.to_nat n) +:+ x, r')).
Proof. intros Hn. unfold u_escape. rewrite (proj2 (N.ltb_lt _ _) Hn). by apply u4_read. Qed.

Lemma ch_of a n : N.to_nat (N_of_ascii a) = n → ch n = String a EmptyString.
Proof. intros <-. unfold ch, ascii_of_nat. by rewrite Nnat.N2Nat.id, ascii_N_embedding. Qed.
Ltac nlia := zify; Z.to_euclidean_division_equations; lia.
Lemma ascii_N_bound a : (N_of_ascii a < 256)%N.
Proof. apply N_ascii_bounded. Qed.

Lemma utf8_two a b : let x := N_of_ascii a in let y := N_of_ascii b in (194 ≤ x)%N → (x < 224)%N → is_cont8 y = true →
  utf8 (N.to_nat ((x mod 32) * 64 + y mod 64)) = String a (String b EmptyString).
Proof.
  cbn zeta. intros H1 H2 [H3%N.leb_le H4%N.ltb_lt]%andb_prop. unfold utf8. set (n := N.to_nat _).
  assert (Z.of_nat n = Z.of_N (N_of_ascii a) mod 32 * 64 + Z.of_N (N_of_ascii b) mod 64)%Z as Hn by (unfold n; zify; lia).
  rewrite (proj2 (Nat.ltb_ge _ _)) by nlia. rewrite (proj2 (Nat.ltb_lt _ _)) by nlia.
  rewrite (ch_of a) by nlia. rewrite (ch_of b) by nlia. done.
Qed.
Lemma utf8_three a b c : let x := N_of_ascii a in let y := N_of_ascii b in let z := N_of_ascii c in let n := ((x mod 16) * 4096 + (y mod 64) * 64 + z mod 64)%N in
  (224 ≤ x)%N → (x < 240)%N → is_cont8 y = true → is_cont8 z = true → (2048 ≤ n)%N →
  (n < 65536)%N ∧ utf8 (N.to_nat n) = String a (String b (String c EmptyString)).
Proof.
  cbn zeta. intros H1 H2 [H3%N.leb_le H4%N.ltb_lt]%andb_prop [H5%N.leb_le H6%N.ltb_lt]%andb_prop H7. set (m := (_ + _)%N) in *.
  assert (m = N_of_ascii a mod 16 * 4096 + N_of_ascii b mod 64 * 64 + N_of_ascii c mod 64)%N as Hm by done. clearbody m.
  split; [nlia|]. unfold utf8.
  rewrite (proj2 (Nat.ltb_ge _ _)) by nlia. rewrite (proj2 (Nat.ltb_ge _ _)) by nlia.
  rewrite (ch_of a) by nlia. rewrite (ch_of b) by nlia. rewrite (ch_of c) by nlia. done.
Qed.

Lemma ascii_quote_read s r : bmp_text s = true → parse_str (ascii_esc s +:+ String (ascii_of_nat 34) r) = Some (s, r).
Proof.
  revert r. remember (String.length s) as n eqn:En. revert s En.
  induction n as [n IH] using lt_wf_ind. intros [|a s1] En r H; [done|]. cbn [bmp_text ascii_esc] in H |- *. pose proof (ascii_N_bound a).
  cbn [String.length] in En. destruct (N.ltb_spec (N_of_ascii a) 128) as [Ha|Ha].
  - assert (∀ r, parse_str (ascii_esc s1 +:+ String (ascii_of_nat 34) r) = Some (s1, r)) as IHs by (intros; eapply IH; [|done|done]; lia).
    destruct (N.ltb_spec (N_of_ascii a) 127).
    + by rewrite string_app_assoc, parse_str_char, IHs.
    + rewrite (proj2 (N.eqb_eq _ _)) by lia. rewrite string_app_assoc, u_escape_read, IHs by lia. cbn [mbind option_bind]. do 2 f_equal.
      assert (N_of_ascii a = 127)%N as E by lia. rewrite E. rewrite <- (ascii_N_embedding a), E. done.
  - rewrite (proj2 (N.ltb_ge _ _)) by lia. rewrite (proj2 (N.eqb_neq _ _)) by lia. destruct s1 as [|b s2]; [done|]. cbn [String.length] in En.
    destruct (N.ltb_spec (N_of_ascii a) 224) as [Hx|Hx].
    + apply andb_prop in H as [[H1%N.leb_le H2]%andb_prop H3]. rewrite string_app_assoc, u_escape_read by nlia.
      rewrite (IH (String.length s2)) by (done || lia). cbn [mbind option_bind]. by rewrite utf8_two.
    + destruct s2 as [|c s3]; [done|]. cbn [String.length] in En. repeat (apply andb_prop in H as [H ?]). apply N.ltb_lt in H.
      match goal with Hle : (2048 <=? _)%N = true |- _ => apply N.leb_le in Hle end.
      destruct (utf8_three a b c) as [Hn Hu]; [done..|].
      rewrite (proj2 (N.ltb_lt _ _) H), string_app_assoc, u_escape_read by done.
      rewrite (IH (String.length s3)) by (done || lia). cbn [mbind option_bind]. by rewrite Hu.
Qed.
Lemma ascii_quoted s : bmp_text s = true → ∃ t, ascii_quote s = String (ascii_of_nat 34) t ∧ ∀ r, parse_str (t +:+ r) = Some (s, r).
Proof. intros H. exists (ascii_esc s +:+ ch 34). split; [done|]. intros r. rewrite string_app_assoc. by apply ascii_quote_read. Qed.
Lemma ascii_bmp s : any_char (λ c, 128 <=? N_of_ascii c)%N s = false → bmp_text s = true.
Proof.
  induction s as [|c s IH]; [done|]. cbn. intros [Hc Hs]%orb_false_iff. apply N.leb_gt, N.ltb_lt in Hc. rewrite Hc. by apply IH.
Qed.

(** ** Values *)
Definition plain (v : val) : Prop := texts (λ s, bmp_text s = true) v.
Definition in_order (A : Type) (l : list (string * A)) : list (string * A) := l.
(** [json.dumps(v)] *)
Lemma json_dumps_printer : printer json_dumps ascii_quote " " in_order (λ s, bmp_text s = true).
Proof.
  split; try done; [|apply ascii_quoted].
  intros d. unfold in_order. change (json_dumps (VDict d)) with ("{" +:+ join ", " (map (λ '(k, x), ascii_quote k +:+ ": " +:+ json_dumps x) d) +:+ "}").
  do 3 f_equal. apply map_ext. by intros [k x].
Qed.
(** [json.dumps(v, separators=(",", ":"))] *)
Fixpoint json_compact (v : val) : string :=
  match v with
  | VStr s => ascii_quote s
  | VList l => "[" +:+ join "," (map json_compact l) +:+ "]"
  | VDict d => "{" +:+ join "," (map (λ '(k, x), ascii_quote k +:+ ":" +:+ json_compact x) d) +:+ "}"
  | _ => json_dumps v
  end.
Lemma json_compact_printer : printer json_compact ascii_quote EmptyString in_order (λ s, bmp_text s = true).
Proof.
  split; try done; [|apply ascii_quoted].
  intros d. unfold in_order. change (json_compact (VDict d)) with ("{" +:+ join "," (map (λ '(k, x), ascii_quote k +:+ ":" +:+ json_compact x) d) +:+ "}").
  do 3 f_equal. apply map_ext. by intros [k x].
Qed.
(** [json.dumps(v, sort_keys=True)] *)
Fixpoint json_sorted (v : val) : string :=
  match v with
  | VStr s => ascii_quote s
  | VList l => "[" +:+ join ", " (map json_sorted l) +:+ "]"
  | VDict d => "{" +:+ join ", " (map (λ kt, ascii_quote kt.1 +:+ ": " +:+ kt.2) (ksort (map (λ '(k, x), (k, json_sorted x)) d))) +:+ "}"
  | _ => json_dumps v
  end.
Lemma json_sorted_printer : printer json_sorted ascii_quote " " (@ksort) (λ s, bmp_text s = true).
Proof.
  split; try done; [|apply ascii_quoted|intros; apply ksort_perm|intros; apply ksort_map].
  intros d. change (json_sorted (VDict d)) with
    ("{" +:+ join ", " (map (λ kt, ascii_quote kt.1 +:+ ": " +:+ kt.2) (ksort (map (λ '(k, x), (k, json_sorted x)) d))) +:+ "}").
  rewrite (ksort_map json_sorted d), map_map. do 3 f_equal. apply map_ext. by intros [k x].
Qed.

(** The value as it is read back: its floats reduced. *)
Definition reread : val → val := read_as in_order.
Lemma loads_dumps v : jwf v → plain v → json_loads (json_dumps v) = Some (reread v).
Proof. apply (loads_printed _ _ _ _ _ json_dumps_printer). Qed.
Lemma loads_compact v : jwf v → plain v → json_loads (json_compact v) = Some (reread v).
Proof. apply (loads_printed _ _ _ _ _ json_compact_printer). Qed.
Lemma loads_sorted v : jwf v → plain v → json_loads (json_sorted v) = Some (norm v).
Proof. apply (loads_printed _ _ _ _ _ json_sorted_printer). Qed.

(** ** One line *)
Lemma ascii_esc_printable s : printable (ascii_esc s) = true.
Proof.
  assert (∀ n, printable (hexN n) = true) as Hh.
  { intros n. unfold hexN. pose proof (N.mod_lt n 16 ltac:(done)). remember (N.to_nat (n mod 16)) as m eqn:Em. assert (m < 16) as Hm by lia.
    clear - Hm. do 16 (destruct m as [|m]; [done|]). lia. }
  assert (∀ n, printable (u_escape n) = true) as Hu by (intros n; unfold u_escape, u4; destruct (n <? 65536)%N; by rewrite !printable_app, !Hh).
  remember (String.length s) as n eqn:En. revert s En. induction n as [n IH] using lt_wf_ind. intros [|a s1] ->; [done|]. cbn [ascii_esc].
  destruct (N.ltb_spec (N_of_ascii a) 127) as [Ha|Ha].
  - rewrite printable_app, (IH (String.length s1)) by (done || cbn; lia). rewrite andb_true_r. clear - Ha. by destruct a as [[] [] [] [] [] [] [] []].
  - destruct (_ =? 127)%N; [rewrite printable_app, Hu; apply (IH (String.length s1)); [cbn; lia|done]|].
    destruct s1 as [|b s2]; [done|]. destruct (_ <? 224)%N; [rewrite printable_app, Hu; apply (IH (String.length s2)); [cbn; lia|done]|].
    destruct s2 as [|c s3]; [done|]. destruct (_ <? 240)%N; [rewrite printable_app, Hu; apply (IH (String.length s3)); [cbn; lia|done]|].
    destruct s3 as [|d s4]; [done|]. rewrite printable_app, Hu. apply (IH (String.length s4)); [cbn; lia|done].
Qed.
Lemma ascii_quote_printable s : printable (ascii_quote s) = true.
Proof. unfold ascii_quote. by rewrite !printable_app, ascii_esc_printable. Qed.
Lemma compact_printable v : printable (json_compact v) = true.
Proof. eapply pr_printable; [exact json_compact_printer|apply ascii_quote_printable|done]. Qed.
Lemma sorted_printable v : printable (json_sorted v) = true.
Proof. eapply pr_printable; [exact json_sorted_printer|apply ascii_quote_printable|done]. Qed.
