(* ===== verification/Rules.v ===== *)
(** * The verifier's rules (src/valops/verifier/rules.py)

    A rule is data: a predicate over one sample (a leaf compares a field with a value,
    [all_of] and [any_of] combine), the commands sampled, and how many consecutive samples
    must satisfy it. *)
From S2P Require Import Prelude PyVal Schema Canonical Json PyConv.
From Stdlib Require Import Ascii.

(** [s.split(c)] for one character. *)
Fixpoint split_on (c : ascii) (s : string) : list string :=
  match s with
  | EmptyString => [EmptyString]
  | String a s' =>
      if Ascii.eqb a c then EmptyString :: split_on c s'
      else match split_on c s' with x :: l => String a x :: l | [] => [String a EmptyString] end
  end.
(** [f] of what a dict maps a key to. *)
Fixpoint dfind {A} (f : val → A) (k : string) (d : dict) : option A :=
  match d with [] => None | (k', v) :: d' => if String.eqb k' k then Some (f v) else dfind f k d' end.
Lemma dfind_dget {A} (f : val → A) k d : dfind f k d = f <$> dget d k.
Proof. induction d as [|[k' v] d IH]; cbn; [done|]. rewrite (String.eqb_sym k k'). by destruct (String.eqb k' k). Qed.

(** src/valops/verifier/rules.py:11-15 OPS

    [None] is the [TypeError] of operands that do not compare. *)
Inductive op : Type := Olt | Ole | Ogt | Oge | Oeq | One | Oin.
Definition OPS : list (string * op) :=
  [("lt", Olt); ("le", Ole); ("gt", Ogt); ("ge", Oge); ("eq", Oeq); ("ne", One); ("in", Oin)].
Definition py_le (a b : val) : option bool := negb <$> py_lt b a.
Definition run_op (o : op) (a b : val) : option bool :=
  match o with
  | Olt => py_lt a b
  | Ole => py_le a b
  | Ogt => py_lt b a
  | Oge => py_le b a
  | Oeq => Some (py_eq a b)
  | One => Some (negb (py_eq a b))
  | Oin => result_opt (py_contains b a)
  end.
(** src/valops/verifier/rules.py:16-16 CLASSES *)
Definition CLASSES : list string := ["validator_health"; "telemetry_health"].

(** ** Validation *)
Definition rule_error : exn := PyExc "RuleError".
Definition same_keys (d : dict) (l : list string) : bool := (length d =? length l)%nat && forallb (dmem d) l.

(** A leaf: exactly field, op and value, a known op, a dotted field. *)
Definition validate_leaf (d : dict) : result exn unit :=
  _ ← check (same_keys d ["field"; "op"; "value"]) rule_error;
  known ← in_str_set (dget_none d "op") (dkeys OPS);
  _ ← check known rule_error;
  check (match dget_none d "field" with VStr f => any_char (Ascii.eqb ".") f | _ => false end) rule_error.

(** src/valops/verifier/rules.py:23-38 _validate_pred *)
Fixpoint validate_pred (p : val) : result exn unit :=
  let subs (key : string) (v : val) (d : dict) : result exn unit :=
    _ ← check (same_keys d [key]) rule_error;
    match v with
    | VList ((_ :: _) as l) => (fix go (l : list val) : result exn unit := match l with [] => Ok tt | q :: l' => _ ← validate_pred q; go l' end) l
    | _ => Err rule_error
    end in
  match p with
  | VDict ((_ :: _) as d) =>
      match dfind (λ v, subs "all_of" v d) "all_of" d with
      | Some r => r
      | None => match dfind (λ v, subs "any_of" v d) "any_of" d with Some r => r | None => validate_leaf d end
      end
  | _ => Err rule_error
  end.

(** src/valops/verifier/rules.py:55-58 _fields

    The fields of a predicate that passed [validate_pred]. *)
Fixpoint fields (p : val) : list string :=
  let subs (v : val) : list string :=
    match v with VList l => (fix go (l : list val) : list string := match l with [] => [] | q :: l' => fields q ++ go l' end) l | _ => [] end in
  match p with
  | VDict d =>
      match dfind subs "all_of" d with
      | Some r => r
      | None => match dfind subs "any_of" d with
                | Some r => r
                | None => match dget d "field" with Some (VStr f) => [f] | _ => [] end
                end
      end
  | _ => []
  end.

(** [f.split(".", 1)[0]] *)
Definition first_part (f : string) : string := hd EmptyString (split_on "." f).

(** src/valops/verifier/rules.py:41-52 validate_rule *)
Definition validate_rule (rule : dict) : result exn unit :=
  _ ← check (forallb (dmem rule) ["id"; "applies_to"; "samples"; "predicate"; "window"]) rule_error;
  cls ← vget (dget_none rule "applies_to") "class";
  _ ← check (py_in cls (map VStr CLASSES)) rule_error;
  match dget_none rule "samples" with
  | VList ((_ :: _) as samples) =>
      _ ← validate_pred (dget_none rule "predicate");
      check (forallb (λ f, py_in (VStr (first_part f)) samples || String.prefix "telemetry." f) (fields (dget_none rule "predicate"))) rule_error
  | _ => Err rule_error
  end.

(** ** Evaluation *)
Section evaluation.
(** The callable that reads the parameter register. *)
Context (param : val → val → result exn val).

(** src/valops/verifier/rules.py:61-64 resolve *)
Definition resolve (value : val) : result exn val :=
  match value with
  | VDict d => match dget d "param" with Some pid => param pid (dget_none d "key") | None => Ok value end
  | _ => Ok value
  end.

(** src/valops/verifier/rules.py:67-73 _get

    [None] is its [KeyError]. *)
Fixpoint get_path (cur : val) (parts : list string) : option val :=
  match parts with
  | [] => Some cur
  | part :: parts' => match cur with VDict d => v ← dget d part; get_path v parts' | _ => None end
  end.

(** A leaf; [pred["field"].split] raises when the field is no string. *)
Definition evaluate_leaf (sample d : dict) : result exn bool :=
  match dget d "field" with
  | None => Ok false
  | Some (VStr f) =>
      match get_path (VDict sample) (split_on "." f) with
      | None => Ok false
      | Some actual =>
          match (o ← vindex (VDict d) "op";
                 o ← (match o with
                      | VStr name => of_opt (dget OPS name) (PyExc "KeyError")
                      | _ => Err (PyExc (if hashable o then "KeyError" else "TypeError"))
                      end);
                 v ← vindex (VDict d) "value";
                 v ← resolve v;
                 of_opt (run_op o actual v) (PyExc "TypeError")) with
          | Err (PyExc cls) => if String.eqb cls "TypeError" then Ok false else Err (PyExc cls)
          | r => r
          end
      end
  | Some _ => Err (PyExc "AttributeError")
  end.

(** src/valops/verifier/rules.py:76-90 evaluate

    What is no mapping is no predicate: [pred["field"]] raises. *)
Fixpoint evaluate (pred : val) (sample : dict) : result exn bool :=
  let every (v : val) : result exn bool :=
    match v with
    | VList l => (fix go (l : list val) : result exn bool :=
                    match l with [] => Ok true | p :: l' => b ← evaluate p sample; if b : bool then go l' else Ok false end) l
    | VDict [] | VStr EmptyString => Ok true
    | _ => Err (PyExc "TypeError")
    end in
  let some (v : val) : result exn bool :=
    match v with
    | VList l => (fix go (l : list val) : result exn bool :=
                    match l with [] => Ok false | p :: l' => b ← evaluate p sample; if b : bool then Ok true else go l' end) l
    | VDict [] | VStr EmptyString => Ok false
    | _ => Err (PyExc "TypeError")
    end in
  match pred with
  | VDict d =>
      match dfind every "all_of" d with
      | Some r => r
      | None => match dfind some "any_of" d with Some r => r | None => evaluate_leaf sample d end
      end
  | _ => Err (PyExc "TypeError")
  end.

(** src/valops/verifier/rules.py:93-94 window *)
Definition window (rule : val) : result exn Z := w ← vindex rule "window"; v ← resolve w; py_int v.
End evaluation.

(** * The rules' guarantees

    What validation accepts can be evaluated, and evaluates to what it means; data that is
    missing never confirms a recovery. *)

(** The shape of a predicate that passed validation. *)
Inductive shape : val → Prop :=
| ShAll l : l ≠ [] → Forall shape l → shape (VDict [("all_of", VList l)])
| ShAny l : l ≠ [] → Forall shape l → shape (VDict [("any_of", VList l)])
| ShLeaf d f name o v : dget d "all_of" = None → dget d "any_of" = None → dget d "field" = Some (VStr f) →
    dget d "op" = Some (VStr name) → dget OPS name = Some o → dget d "value" = Some v → shape (VDict d).

(** ** The recursive functions, a level at a time *)
Fixpoint validate_all (l : list val) : result exn unit :=
  match l with [] => Ok tt | q :: l' => _ ← validate_pred q; validate_all l' end.
Definition validate_subs (key : string) (v : val) (d : dict) : result exn unit :=
  _ ← check (same_keys d [key]) rule_error;
  match v with VList ((_ :: _) as l) => validate_all l | _ => Err rule_error end.
Lemma validate_pred_dict d : d ≠ [] → validate_pred (VDict d) =
  match dget d "all_of" with
  | Some v => validate_subs "all_of" v d
  | None => match dget d "any_of" with Some v => validate_subs "any_of" v d | None => validate_leaf d end
  end.
Proof.
  intros Hd. destruct d as [|x d0]; [done|]. change (validate_pred (VDict (x :: d0))) with
    (match dfind (λ v, validate_subs "all_of" v (x :: d0)) "all_of" (x :: d0) with
    | Some r => r
    | None => match dfind (λ v, validate_subs "any_of" v (x :: d0)) "any_of" (x :: d0) with Some r => r | None => validate_leaf (x :: d0) end end).
  rewrite !dfind_dget. by destruct (dget _ "all_of"), (dget _ "any_of").
Qed.

Section evaluating.
Context (param : val → val → result exn val) (sample : dict).
Abbreviation eval p := (evaluate param p sample).

Fixpoint eval_every (l : list val) : result exn bool :=
  match l with [] => Ok true | p :: l' => b ← eval p; if b : bool then eval_every l' else Ok false end.
Fixpoint eval_some (l : list val) : result exn bool :=
  match l with [] => Ok false | p :: l' => b ← eval p; if b : bool then Ok true else eval_some l' end.
Lemma evaluate_all l : eval (VDict [("all_of", VList l)]) = eval_every l.
Proof. reflexivity. Qed.
Lemma evaluate_any l : eval (VDict [("any_of", VList l)]) = eval_some l.
Proof. reflexivity. Qed.
Lemma evaluate_neither d : dget d "all_of" = None → dget d "any_of" = None → eval (VDict d) = evaluate_leaf param sample d.
Proof. intros H1 H2. cbn [evaluate]. by rewrite !dfind_dget, H1, H2. Qed.
End evaluating.

Fixpoint fields_all (l : list val) : list string := match l with [] => [] | q :: l' => fields q ++ fields_all l' end.
Lemma fields_of_all l : fields (VDict [("all_of", VList l)]) = fields_all l.
Proof. reflexivity. Qed.
Lemma fields_of_any l : fields (VDict [("any_of", VList l)]) = fields_all l.
Proof. reflexivity. Qed.
Lemma fields_of_leaf d f : dget d "all_of" = None → dget d "any_of" = None → dget d "field" = Some (VStr f) → fields (VDict d) = [f].
Proof. intros H1 H2 H3. cbn [fields]. by rewrite !dfind_dget, H1, H2, H3. Qed.

(** ** Validation *)
Lemma same_keys_one d k : same_keys d [k] = true → ∃ v, d = [(k, v)].
Proof.
  unfold same_keys. intros [Hl Hk]%andb_true_iff. destruct d as [|[k' v] [|? ?]]; try discriminate Hl.
  cbn in Hk. unfold dmem in Hk. cbn in Hk. destruct (String.eqb_spec k k') as [->|]; [by exists v|discriminate Hk].
Qed.
Lemma validate_leaf_shape d : validate_leaf d = Ok tt → ∃ f name o v, dget d "field" = Some (VStr f) ∧
  dget d "op" = Some (VStr name) ∧ dget OPS name = Some o ∧ dget d "value" = Some v.
Proof.
  unfold validate_leaf. intros H. apply rbind_Ok in H as (? & Hk%check_Ok & H). apply rbind_Ok in H as (known & Hop & H).
  apply rbind_Ok in H as (? & Hknown%check_Ok & H%check_Ok). subst known. apply in_str_set_true in Hop as (name & Hop & Hin).
  unfold same_keys in Hk. apply andb_true_iff in Hk as [_ Hk]. cbn [forallb] in Hk.
  apply andb_true_iff in Hk as [H1 Hk]. apply andb_true_iff in Hk as [H2 Hk]. apply andb_true_iff in Hk as [H3 _].
  apply dmem_true in H1 as (vf & Hf), H2 as (vo & Ho), H3 as (v & Hv). unfold dget_none in *. rewrite Hf in H. rewrite Ho in Hop. cbn in H, Hop. subst vo.
  destruct vf as [| | | |f| |]; try discriminate H.
  assert (∃ o, dget OPS name = Some o) as [o Hn]; [|by exists f, name, o, v].
  apply list_elem_of_fmap in Hin as ([name' o] & -> & Hin). exists o. apply elem_dget; [apply (bool_decide_unpack _); vm_compute; exact I|done].
Qed.

Lemma validate_all_shape l : Forall (λ p, validate_pred p = Ok tt → shape p) l → validate_all l = Ok tt → Forall shape l.
Proof.
  induction l as [|p l IHl]; intros Hl H; [constructor|]. inversion Hl as [|? ? Hp Hl']; subst. cbn in H.
  apply rbind_Ok in H as ([] & H1 & H2). constructor; auto.
Qed.
Lemma validate_shape p : validate_pred p = Ok tt → shape p.
Proof.
  enough ((validate_pred p = Ok tt → shape p) ∧ ∀ l, p = VList l → Forall (λ q, validate_pred q = Ok tt → shape q) l) as [H _] by done.
  induction p as [| | | | |l IH|d IH] using val_rect_strong; try by split.
  { split; [discriminate|]. intros l' [= <-]. eapply list.Forall_impl; [exact IH|]. by intros q [Hq _]. }
  split; [|done]. intros H. destruct (decide (d = [])) as [->|Hd]; [discriminate H|]. rewrite validate_pred_dict in H by done.
  assert (∀ key v, dget d key = Some v → validate_subs key v d = Ok tt → ∃ l, d = [(key, VList l)] ∧ l ≠ [] ∧ Forall shape l) as Hsubs.
  { intros key v Hv Hs. unfold validate_subs in Hs. apply rbind_Ok in Hs as (? & Hk%check_Ok & Hs). apply same_keys_one in Hk as (v' & ->).
    cbn in Hv. rewrite String.eqb_refl in Hv. injection Hv as ->. destruct v as [| | | | |l|]; try discriminate Hs.
    inversion IH as [|? ? [_ Hl] _]; subst. destruct l as [|q l]; [discriminate Hs|]. eexists. split; [done|]. split; [done|].
    apply validate_all_shape; [by apply Hl|done]. }
  destruct (dget d "all_of") as [v|] eqn:Ha; [apply (Hsubs _ _ Ha) in H as (l & -> & ? & ?); by constructor|].
  destruct (dget d "any_of") as [v|] eqn:Hy; [apply (Hsubs _ _ Hy) in H as (l & -> & ? & ?); by constructor|].
  apply validate_leaf_shape in H as (f & name & o & v & ? & ? & ? & ?). by econstructor.
Qed.

(** ** Evaluation *)
Section meaning.
Context (param : val → val → result exn val) (sample : dict).

(** What a predicate means. *)
Inductive holds : val → Prop :=
| HoldsAll l : Forall holds l → holds (VDict [("all_of", VList l)])
| HoldsAny l p : p ∈ l → holds p → holds (VDict [("any_of", VList l)])
| HoldsLeaf d f name o v w actual : dget d "all_of" = None → dget d "any_of" = None →
    dget d "field" = Some (VStr f) → dget d "op" = Some (VStr name) → dget OPS name = Some o → dget d "value" = Some v →
    get_path (VDict sample) (split_on "." f) = Some actual → resolve param v = Ok w → run_op o actual w = Some true → holds (VDict d).

(** An evaluation that is right, or the register's own error. *)
Definition agrees (r : result exn bool) (P : Prop) : Prop :=
  match r with Ok b => b = true ↔ P | Err e => ∃ pid key, param pid key = Err e end.
#[local] Instance agrees_proper r : Proper (iff ==> iff) (agrees r).
Proof. intros P Q HPQ. unfold agrees. destruct r; [by rewrite HPQ|done]. Qed.
Definition right (p : val) : Prop := agrees (evaluate param p sample) (holds p).

Lemma holds_all_inv l : holds (VDict [("all_of", VList l)]) ↔ Forall holds l.
Proof. split; [inversion 1; subst; [done|discriminate]|by constructor]. Qed.
Lemma holds_any_inv l : holds (VDict [("any_of", VList l)]) ↔ Exists holds l.
Proof.
  split; [inversion 1; subst; [|discriminate]|]; rewrite ?list.Exists_exists; [by eauto|]. intros (p & ? & ?). by econstructor.
Qed.

Lemma right_leaf d f name o v : dget d "all_of" = None → dget d "any_of" = None → dget d "field" = Some (VStr f) →
  dget d "op" = Some (VStr name) → dget OPS name = Some o → dget d "value" = Some v → right (VDict d).
Proof.
  intros Ha Hy Hf Ho Hn Hv. unfold right, agrees. rewrite (evaluate_neither _ _ _ Ha Hy). unfold evaluate_leaf, vindex. rewrite Hf, Ho, Hv.
  destruct (get_path _ _) as [actual|] eqn:Hp.
  2: { split; [done|]. inversion 1; subst; [discriminate..|]. congruence. }
  cbn [mbind result_bind]. rewrite Hn. cbn [of_opt mbind result_bind].
  destruct (resolve param v) as [w|e] eqn:Hw; cbn [mbind result_bind].
  - destruct (run_op o actual w) as [b|] eqn:Hr; cbn [of_opt].
    + split; [intros ->; by econstructor|]. inversion 1; subst; [discriminate..|]. congruence.
    + split; [done|]. inversion 1; subst; [discriminate..|]. congruence.
  - assert (∃ pid key, param pid key = Err e) as Herr.
    { unfold resolve in Hw. destruct v; try discriminate Hw. destruct (dget _ "param"); [eauto|discriminate Hw]. }
    destruct e as [c x|cls]; [done|]. destruct (String.eqb_spec cls "TypeError") as [->|]; [|done].
    split; [done|]. inversion 1; subst; [discriminate..|]. congruence.
Qed.

(** C37: equivalence. A predicate the validation accepts evaluates to what it means: every
    [all_of] member or some [any_of] member holds, a leaf holds when its field is there and
    compares; an incomparable value is false; the only exception left is one the parameter
    register raised. *)
Theorem evaluate_means p : validate_pred p = Ok tt →
  match evaluate param p sample with Ok b => b = true ↔ holds p | Err e => ∃ pid key, param pid key = Err e end.
Proof.
  intros H%validate_shape. change (right p). revert p H. fix IH 2. intros p H. destruct H as [l Hl Hs|l Hl Hs|d f name o v ? ? ? ? ? ?].
  - unfold right. rewrite evaluate_all, holds_all_inv. clear Hl. induction Hs as [|q l Hq _ IHl]; cbn; [by split|].
    apply IH in Hq. unfold right, agrees in Hq. destruct (evaluate param q sample) as [[|]|e]; cbn; [| |done].
    + destruct (eval_every _ _ l); cbn in *; [|done]. rewrite IHl, list.Forall_cons. tauto.
    + rewrite list.Forall_cons. split; [done|]. intros [Hh _]. by apply Hq in Hh.
  - unfold right. rewrite evaluate_any, holds_any_inv. clear Hl. induction Hs as [|q l Hq _ IHl]; cbn; [split; [done|by inversion 1]|].
    apply IH in Hq. unfold right, agrees in Hq. destruct (evaluate param q sample) as [[|]|e]; cbn; [| |done].
    + rewrite List.Exists_cons. split; [intros _; left; by apply Hq|done].
    + destruct (eval_some _ _ l); cbn in *; [|done]. rewrite IHl, List.Exists_cons. split; [by right|]. intros [Hh|?]; [by apply Hq in Hh|done].
  - by eapply right_leaf.
Qed.

(** Absence of data never confirms recovery: when the sample has none of a
    rule's fields, the rule is false, and the register is not even read. *)
Theorem no_data_no_recovery p : validate_pred p = Ok tt →
  (∀ f, f ∈ fields p → get_path (VDict sample) (split_on "." f) = None) → evaluate param p sample = Ok false.
Proof.
  intros H%validate_shape. revert p H. fix IH 2. intros p H. destruct H as [l Hl Hs|l Hl Hs|d f name o v ? ? Hf ? ? ?].
  - rewrite fields_of_all, evaluate_all. intros Hn. destruct Hs as [|q l Hq _]; [done|]. cbn.
    rewrite (IH q Hq); [done|]. intros f Hf. apply Hn. cbn. by apply elem_of_app; left.
  - rewrite fields_of_any, evaluate_any. clear Hl. induction Hs as [|q l Hq _ IHl]; intros Hn; [done|]. cbn in *.
    rewrite (IH q Hq); [|intros f Hf; apply Hn, elem_of_app; by left]. apply IHl. intros f Hf. apply Hn, elem_of_app. by right.
  - rewrite (fields_of_leaf _ f), evaluate_neither by done. intros Hn. unfold evaluate_leaf. rewrite Hf.
    by rewrite (Hn f) by left.
Qed.
End meaning.

(** ** The rule of the balance check (policy/bundle-src/verifier/balance_recovered.yaml) *)
Definition balance_rule : val := VDict [("all_of", VList [
  VDict [("field", VStr "identity_balance.parsed"); ("op", VStr "eq"); ("value", VBool true)];
  VDict [("field", VStr "identity_balance.balance_sol"); ("op", VStr "ge"); ("value", VDict [("param", VStr "P-02")])]])].
Definition demo_register (pid key : val) : result exn val :=
  if py_eq pid (VStr "P-02") then Ok (VInt 2) else Err (PyExc "KeyError").
Definition balance_sample : dict := [("identity_balance", VDict [("parsed", VBool true); ("balance_sol", VFloat (5 # 2))])].

Lemma evaluate_means_witness :
  validate_pred balance_rule = Ok tt ∧ evaluate demo_register balance_rule balance_sample = Ok true ∧ holds demo_register balance_sample balance_rule.
Proof.
  assert (validate_pred balance_rule = Ok tt) as Hv by (vm_compute; reflexivity).
  assert (evaluate demo_register balance_rule balance_sample = Ok true) as He by (vm_compute; reflexivity).
  split; [exact Hv|]. split; [exact He|]. pose proof (evaluate_means demo_register balance_sample balance_rule Hv) as H. rewrite He in H.
  apply (proj1 H). reflexivity.
Defined.

Lemma no_data_no_recovery_witness : evaluate demo_register balance_rule [("catchup", VDict [])] = Ok false.
Proof.
  refine (no_data_no_recovery demo_register [("catchup", VDict [])] balance_rule _ _); [vm_compute; reflexivity|].
  intros f Hf. cbn in Hf. rewrite !elem_of_cons in Hf. destruct Hf as [->|[->|Hf]]; [vm_compute; reflexivity..|].
  by apply not_elem_of_nil in Hf.
Defined.
