(* ===== verification/Params.v ===== *)
(** * The parameter register (src/valops/bundle/params.py)

    What becomes of the register at a build: each value is checked against its bounds,
    then the rules between parameters; any failure is an exception. *)
From S2P Require Import Prelude PyVal Schema Canonical Json PyConv.
From Stdlib Require Import Ascii.

Definition register_error : exn := PyExc "RegisterError".

(** src/valops/bundle/params.py:16-24 _walk_nulls

    Whether the list of unset paths is non-empty: only that is used. *)
Fixpoint has_null (v : val) : bool :=
  match v with
  | VNone => true
  | VDict d => (fix go (d : dict) : bool := match d with [] => false | (_, sub) :: d' => has_null sub || go d' end) d
  | _ => false
  end.

(** The result of an ordering comparison, or its [TypeError]. *)
Definition compared (o : option bool) : result exn bool := of_opt o (PyExc "TypeError").

(** One value against [min], [max] and [eq]. *)
Definition in_bounds (bounds : dict) (v : val) : result exn unit :=
  _ ← check (is_num v && negb (is_bool v)) register_error;
  _ ← (match dget bounds "min" with Some m => b ← compared (py_lt v m); check (negb b) register_error | None => Ok tt end);
  _ ← (match dget bounds "max" with Some m => b ← compared (py_lt m v); check (negb b) register_error | None => Ok tt end);
  match dget bounds "eq" with Some m => check (py_eq v m) register_error | None => Ok tt end.

(** [min], [max] or [eq] in the bounds: every value in the (nested) mapping. *)
Definition is_limit (bounds : dict) : bool := dmem bounds "min" || dmem bounds "max" || dmem bounds "eq".
Fixpoint limit_all (bounds : dict) (value : val) : result exn unit :=
  match value with
  | VDict d => (fix go (d : dict) : result exn unit :=
                  match d with [] => Ok tt | (_, v) :: d' => _ ← limit_all bounds v; go d' end) d
  | v => in_bounds bounds v
  end.

(** src/valops/bundle/params.py:27-51 _check_bounds *)
Fixpoint check_bounds (value bounds : val) : result exn unit :=
  match bounds with
  | VDict b =>
      if is_limit b then limit_all b value
      else match value with
           | VDict d => (fix go (b : dict) : result exn unit :=
                           match b with
                           | [] => Ok tt
                           | (k, sub) :: b' => v ← of_opt (dget d k) register_error; _ ← check_bounds v sub; go b'
                           end) b
           | _ => Err register_error
           end
  | _ => Ok tt
  end.

(** [f"P-{i:02d}" for i in range(1, 32)] *)
Definition pid (i : nat) : string := if (i <? 10)%nat then fmt_id "P-0" i else fmt_id "P-" i.
Definition pids : list string := map pid (seq 1 31).

(** The loop over the rows of the register. *)
Fixpoint bundled_values (rows out : dict) : result exn dict :=
  match rows with
  | [] => Ok out
  | (pid, row) :: rows' =>
      value ← vget row "value";
      not_bundled ← vget row "not_bundled";
      _ ← check (negb (has_null value && negb (truthy not_bundled))) register_error;
      bounds ← vget row "bounds";
      _ ← check_bounds value bounds;
      bundled_values rows' (if truthy not_bundled then out else dset out pid value)
  end.

(** [2 * v] *)
Definition times2 (v : val) : result exn val :=
  match v with
  | VInt z => Ok (VInt (2 * z))
  | VBool b => Ok (VInt (if b then 2 else 0))
  | VFloat q => Ok (VFloat (2 * q)%Q)
  | VStr s => Ok (VStr (s +:+ s))
  | VList l => Ok (VList (l ++ l))
  | _ => Err (PyExc "TypeError")
  end.

(** The rules between parameters. *)
Definition cross_rules (out : dict) : result exn unit :=
  let o := VDict out in
  p10 ← vindex o "P-10"; p11 ← vindex o "P-11";
  b ← compared (py_lt p11 p10); _ ← check (negb b) register_error;
  p19 ← vindex o "P-19"; p18 ← vindex o "P-18"; p18x2 ← times2 p18;
  b ← compared (py_lt p19 p18x2); _ ← check (negb b) register_error;
  p14 ← vindex o "P-14"; c ← vindex p14 "concurrency"; _ ← check (py_eq c (VInt 1)) register_error;
  p26 ← vindex o "P-26"; rpo ← vindex p26 "rpo_min"; p18 ← vindex o "P-18";
  b ← compared (py_lt p18 rpo); check (negb b) register_error.

(** src/valops/bundle/params.py:54-77 generate_thresholds *)
Definition generate_thresholds (register : val) : result exn val :=
  params ← vget register "parameters";
  let params := py_or params (VDict []) in
  missing ← filterR (λ p, b ← py_contains params (VStr p); Ok (negb b)) pids;
  _ ← check (bool_decide (missing = [])) register_error;
  rows ← (match params with VDict rows => Ok rows | _ => Err (PyExc "AttributeError") end);
  out ← bundled_values rows [];
  _ ← cross_rules out;
  version ← vget register "register_version";
  Ok (VDict [("register_version", version); ("parameters", VDict out)]).

(** * The register's guarantees *)

(** What bounds demand of a value: [min], [max] and [eq] of every number in it, others of
    the members they name. *)
Definition number_within (bounds : dict) (v : val) : Prop :=
  ∃ q, num_of v = Some q ∧ is_bool v = false ∧
    (∀ m, dget bounds "min" = Some m → ∃ x, num_of m = Some x ∧ (x <= q)%Q) ∧
    (∀ m, dget bounds "max" = Some m → ∃ x, num_of m = Some x ∧ (q <= x)%Q) ∧
    (∀ m, dget bounds "eq" = Some m → ∃ x, num_of m = Some x ∧ (q == x)%Q).
(** [leaf v x]: [x] is [v], or a value somewhere in the nested mapping [v], and no mapping. *)
Inductive leaf : val → val → Prop :=
| leaf_here v : is_dict v = false → leaf v v
| leaf_in d k v x : (k, v) ∈ d → leaf v x → leaf (VDict d) x.
Inductive within : val → val → Prop :=
| WiLimit b v : is_limit b = true → (∀ x, leaf v x → number_within b x) → within (VDict b) v
| WiMembers b d : is_limit b = false → (∀ k sub, (k, sub) ∈ b → ∃ v, dget d k = Some v ∧ within sub v) → within (VDict b) (VDict d)
| WiNone b v : is_dict b = false → within b v.

Lemma py_lt_num a b q : num_of a = Some q → is_ok (compared (py_lt a b)) = true → ∃ x, num_of b = Some x ∧ py_lt a b = Some (Qltb q x).
Proof. intros Ha. destruct a; try discriminate Ha; cbn in *; injection Ha as <-; destruct b; try done; intros _; by eexists. Qed.
Lemma py_lt_num_r a b q : num_of b = Some q → is_ok (compared (py_lt a b)) = true → ∃ x, num_of a = Some x ∧ py_lt a b = Some (Qltb x q).
Proof. intros Hb. destruct b; try discriminate Hb; cbn in *; injection Hb as <-; destruct a; try done; intros _; by eexists. Qed.
Lemma Qltb_false x y : Qltb x y = false → (y <= x)%Q.
Proof. unfold Qltb. intros H%negb_false_iff. by apply Qle_bool_iff. Qed.

Lemma in_bounds_within b v : in_bounds b v = Ok tt → number_within b v.
Proof.
  unfold in_bounds. intros H. apply rbind_Ok in H as (? & Hn%check_Ok & H). apply andb_true_iff in Hn as [Hn Hb%negb_true_iff].
  apply rbind_Ok in H as (? & Hmin & H). apply rbind_Ok in H as (? & Hmax & Heq).
  assert (∃ q, num_of v = Some q) as [q Hq] by (destruct v; try discriminate Hn; by eexists). exists q. split_and!; [done|done|..].
  - intros m Hm. rewrite Hm in Hmin. apply rbind_Ok in Hmin as (c & Hc & Hk%check_Ok%negb_true_iff). subst c.
    destruct (py_lt_num v m q Hq) as (y & Hx & Hlt); [by rewrite Hc|]. rewrite Hlt in Hc. injection Hc as Hc. exists y. split; [done|by apply Qltb_false].
  - intros m Hm. rewrite Hm in Hmax. apply rbind_Ok in Hmax as (c & Hc & Hk%check_Ok%negb_true_iff). subst c.
    destruct (py_lt_num_r m v q Hq) as (y & Hx & Hlt); [by rewrite Hc|]. rewrite Hlt in Hc. injection Hc as Hc. exists y. split; [done|by apply Qltb_false].
  - intros m Hm. rewrite Hm in Heq. apply check_Ok in Heq.
    destruct v; try discriminate Hq; cbn in *; injection Hq as <-; destruct m; try discriminate Heq; (eexists; split; [reflexivity|by apply Qeq_bool_iff]).
Qed.

Definition limit_each (b : dict) : dict → result exn unit := fix go (d : dict) :=
  match d with [] => Ok tt | (_, v) :: d' => _ ← limit_all b v; go d' end.
Lemma limit_all_dict b d : limit_all b (VDict d) = limit_each b d.
Proof. reflexivity. Qed.
Lemma limit_all_leaves b v : limit_all b v = Ok tt → ∀ x, leaf v x → in_bounds b x = Ok tt.
Proof.
  intros H x Hl. revert H. induction Hl as [v Hv|d k v x Hin _ IH]; intros H; [by destruct v|].
  apply IH. rewrite limit_all_dict in H. clear IH. induction d as [|[k' v'] d IHd]; [by apply not_elem_of_nil in Hin|].
  cbn in H. apply rbind_Ok in H as ([] & H1 & H2). apply elem_of_cons in Hin as [[= -> ->]|Hin]; auto.
Qed.

Definition check_members (d : dict) : dict → result exn unit := fix go (b : dict) :=
  match b with [] => Ok tt | (k, sub) :: b' => v ← of_opt (dget d k) register_error; _ ← check_bounds v sub; go b' end.
Lemma check_bounds_members d b : is_limit b = false → check_bounds (VDict d) (VDict b) = check_members d b.
Proof. intros H. cbn [check_bounds]. rewrite H. reflexivity. Qed.

Lemma check_bounds_within v b : check_bounds v b = Ok tt → within b v.
Proof.
  revert v. induction b as [| | | | |l _|b IH] using val_rect_strong; intros v H; try (by apply WiNone).
  destruct (is_limit b) eqn:Hl.
  - apply WiLimit; [done|]. intros x Hx. apply in_bounds_within. eapply limit_all_leaves; [|done]. revert H. cbn [check_bounds]. by rewrite Hl.
  - destruct v as [| | | | | |d]; try (cbn [check_bounds] in H; rewrite Hl in H; discriminate H).
    rewrite check_bounds_members in H by done. apply WiMembers; [done|]. clear Hl.
    revert H. induction IH as [|[k sub] b Hsub _ IHb]; intros H k0 sub0 Hin; [by apply not_elem_of_nil in Hin|]. cbn in H, Hsub.
    apply rbind_Ok in H as (v & Hv%of_opt_Ok & H). apply rbind_Ok in H as ([] & H1 & H2).
    apply elem_of_cons in Hin as [[= -> ->]|Hin]; [exists v; auto|by apply IHb].
Qed.

(** What a row of the register gives. *)
Definition row_gives (rows : dict) (pid : string) (value : val) : Prop :=
  ∃ row, (pid, VDict row) ∈ rows ∧ value = dget_none row "value" ∧ truthy (dget_none row "not_bundled") = false ∧
    has_null value = false ∧ within (dget_none row "bounds") value.

Lemma bundled_values_rows rows0 rows out out' : bundled_values rows out = Ok out' → (∀ x, x ∈ rows → x ∈ rows0) →
  (∀ pid value, dget out pid = Some value → row_gives rows0 pid value) → ∀ pid value, dget out' pid = Some value → row_gives rows0 pid value.
Proof.
  revert out. induction rows as [|[pid row] rows IH]; intros out H Hsub Hout; cbn in H; [by injection H as <-|].
  apply rbind_Ok in H as (value & Hval & H). destruct row as [| | | | | |row]; try discriminate Hval. injection Hval as <-.
  apply rbind_Ok in H as (nb & Hnb & H). injection Hnb as <-. apply rbind_Ok in H as (? & Hn%check_Ok & H).
  apply rbind_Ok in H as (bounds & Hb & H). injection Hb as <-. apply rbind_Ok in H as ([] & Hc%check_bounds_within & H).
  eapply IH; [exact H|by intros y Hy; apply Hsub; right|]. destruct (truthy (dget_none row "not_bundled")) eqn:Ht; [done|].
  rewrite andb_true_r in Hn. apply negb_true_iff in Hn. intros pid' v Hv. destruct (decide (pid' = pid)) as [->|Hne].
  - rewrite dget_dset_eq in Hv. injection Hv as <-. exists row. split_and!; try done. apply Hsub. left.
  - rewrite dget_dset_ne in Hv by done. by apply Hout.
Qed.

Lemma vindex_dict {B} v k (f : val → result exn B) r : (vindex v k ≫= f) = Ok r → ∃ d x, v = VDict d ∧ dget d k = Some x ∧ f x = Ok r.
Proof. destruct v as [| | | | | |d]; try discriminate. cbn. destruct (dget d k) as [x|] eqn:Hx; [|discriminate]. intros H. exists d, x. by split_and!. Qed.
Lemma index_bind {B} d k (f : val → result exn B) r : (vindex (VDict d) k ≫= f) = Ok r → ∃ x, dget d k = Some x ∧ f x = Ok r.
Proof. intros (d' & x & [= <-] & ? & ?)%vindex_dict. exists x. by split. Qed.
Lemma compared_bind {B} o e (m : result exn B) r : (b ← compared o; _ ← check (negb b) e; m) = Ok r → o = Some false ∧ m = Ok r.
Proof. unfold compared. destruct o as [[|]|]; cbn; [done|by intros H|done]. Qed.

(** What a build takes from the register: every parameter is the value of a row,
    set throughout, and inside that row's bounds at every number of it; token expiry is not
    above the step time-out, the largest anchor lag not below twice the anchor interval, the
    recovery point not above it, and the concurrency is one. *)
Theorem thresholds_within_bounds register version out :
  generate_thresholds register = Ok (VDict [("register_version", version); ("parameters", VDict out)]) →
  ∃ d rows, register = VDict d ∧ dget d "parameters" = Some (VDict rows) ∧ Forall (λ p, p ∈ dkeys rows) pids ∧
    (∀ pid value, dget out pid = Some value → row_gives rows pid value) ∧
    ∃ p10 p11 p18 p18x2 p19 p14 p26 concurrency rpo,
      dget out "P-10" = Some p10 ∧ dget out "P-11" = Some p11 ∧ py_lt p11 p10 = Some false ∧
      dget out "P-18" = Some p18 ∧ dget out "P-19" = Some p19 ∧ times2 p18 = Ok p18x2 ∧ py_lt p19 p18x2 = Some false ∧
      dget out "P-26" = Some (VDict p26) ∧ dget p26 "rpo_min" = Some rpo ∧ py_lt p18 rpo = Some false ∧
      dget out "P-14" = Some (VDict p14) ∧ dget p14 "concurrency" = Some concurrency ∧ py_eq concurrency (VInt 1) = true.
Proof.
  unfold generate_thresholds. destruct register as [| | | | | |d]; try discriminate. cbn [vget]. cbn zeta.
  set (params := py_or (dget_none d "parameters") (VDict [])). intros H.
  apply rbind_Ok in H as (? & [= <-] & H). fold params in H. apply rbind_Ok in H as (missing & Hm & H).
  apply rbind_Ok in H as (? & Hmis%check_Ok%bool_decide_eq_true & H). subst missing.
  apply rbind_Ok in H as (rows & Hrows & H). destruct params as [| | | | | |rows'] eqn:Hp; try discriminate Hrows. injection Hrows as ->.
  apply rbind_Ok in H as (out' & Hout & H). apply rbind_Ok in H as ([] & Hcross & H). apply rbind_Ok in H as (ver & _ & H).
  injection H as _ <-. exists d, rows.
  assert (Forall (λ p, p ∈ dkeys rows) pids) as Hall.
  { revert Hm. clear. intros Hm. change (Forall (λ p, p ∈ dkeys rows) pids). generalize pids Hm. clear. intros l Hm. revert Hm.
    induction l as [|p l IH]; intros Hm; [constructor|]. cbn in Hm. unfold dmem in Hm. destruct (dget rows p) eqn:Hp; cbn in Hm.
    - destruct (filterR _ l); [|discriminate Hm]. cbn in Hm. constructor; [apply dget_elem in Hp; apply list_elem_of_fmap; by eexists (_, _)|by apply IH].
    - destruct (filterR _ l); discriminate Hm. }
  split; [done|]. split.
  { unfold params, dget_none, py_or in Hp. destruct (dget d "parameters") as [v|]; [|cbn in Hp; injection Hp as <-].
    - cbn in Hp. destruct (truthy v); [by rewrite Hp|]. injection Hp as <-. inversion Hall as [|? ? Hx]. by apply not_elem_of_nil in Hx.
    - inversion Hall as [|? ? Hx]. by apply not_elem_of_nil in Hx. }
  split; [done|]. split; [by eapply (bundled_values_rows rows rows [])|]. clear - Hcross. unfold cross_rules in Hcross.
  apply index_bind in Hcross as (p10 & H10 & Hcross). apply index_bind in Hcross as (p11 & H11 & Hcross).
  apply compared_bind in Hcross as [Hle Hcross].
  apply index_bind in Hcross as (p19 & H19 & Hcross). apply index_bind in Hcross as (p18 & H18 & Hcross).
  apply rbind_Ok in Hcross as (p18x2 & Hx2 & Hcross). apply compared_bind in Hcross as [Hlag Hcross].
  apply index_bind in Hcross as (p14 & H14 & Hcross). apply vindex_dict in Hcross as (d14 & c & -> & Hc & Hcross).
  apply rbind_Ok in Hcross as (? & Hone%check_Ok & Hcross).
  apply index_bind in Hcross as (p26 & H26 & Hcross). apply vindex_dict in Hcross as (d26 & rpo & -> & Hrpo & Hcross).
  apply index_bind in Hcross as (p18' & H18' & Hcross). apply rbind_Ok in Hcross as (b & Hb%of_opt_Ok & Hcross%check_Ok%negb_true_iff). subst b.
  assert (p18' = p18) as -> by congruence. by exists p10, p11, p18, p18x2, p19, d14, d26, c, rpo.
Qed.

(** ** A register in which every parameter is set *)
Definition demo_rows : dict :=
  dupdate (map (λ p, (p, VDict [("value", VInt 1)])) pids)
    [("P-10", VDict [("value", VInt 60); ("bounds", VDict [("min", VInt 30); ("max", VInt 120)])]);
     ("P-11", VDict [("value", VInt 90)]); ("P-19", VDict [("value", VInt 5)]);
     ("P-14", VDict [("value", VDict [("concurrency", VInt 1)]); ("bounds", VDict [("concurrency", VDict [("eq", VInt 1)])])]);
     ("P-26", VDict [("value", VDict [("rpo_min", VInt 1)])])].
Definition demo_register_file : val := VDict [("register_version", VInt 3); ("parameters", VDict demo_rows)].
Definition demo_thresholds : dict :=
  match generate_thresholds demo_register_file with Ok (VDict [_; (_, VDict out)]) => out | _ => [] end.

Lemma thresholds_within_bounds_witness : dget demo_thresholds "P-10" = Some (VInt 60) ∧ row_gives demo_rows "P-10" (VInt 60).
Proof.
  split; [vm_compute; reflexivity|].
  destruct (thresholds_within_bounds demo_register_file (VInt 3) demo_thresholds) as (d & rows & Hd & Hrows & _ & H & _); [vm_compute; reflexivity|].
  injection Hd as <-. injection Hrows as <-. apply H. vm_compute. reflexivity.
Defined.

(** A value outside its bounds is refused. *)
Example out_of_bounds : generate_thresholds (VDict [("parameters", VDict (dset demo_rows "P-10"
  (VDict [("value", VInt 121); ("bounds", VDict [("min", VInt 30); ("max", VInt 120)])])))]) = Err register_error.
Proof. vm_compute. reflexivity. Qed.
