(* ===== verification/Builder.v ===== *)
(** * Building a bundle (src/valops/bundle/builder.py)

    A source directory, the parameter register and an overlay become a directory named by
    the hash of its manifest, or an exception. A directory is the files under it; what the
    YAML library reads and writes is a parameter. *)
From S2P Require Import Prelude PyVal Schema Canonical Json PyConv Bundle Artefacts Params Table Rules Tokens.
From Stdlib Require Import Ascii.

Definition build_error : exn := PyExc "BuildError".
(** src/valops/bundle/builder.py:33-34 REQUIRED *)
Definition REQUIRED : list path :=
  [["command_table.yaml"]; ["deployment.yaml"]; ["providers.yaml"]; ["pricing.yaml"]; ["fault_classes.yaml"]; ["judge_checklist.yaml"];
   ["skills"; "index.yaml"]].
(** src/valops/bundle/builder.py:35-35 ADAPTERS *)
Definition ADAPTERS : list string := ["claude_sdk"; "codex_cli"; "antigravity_cli"; "native"].
(** src/valops/bundle/builder.py:36-36 PROVIDERS *)
Definition PROVIDERS : list string := ["anthropic"; "openai"; "google"].
(** src/valops/bundle/builder.py:37-37 ADMISSION *)
Definition ADMISSION : list string := ["pending"; "admitted"; "native_only"; "not_admitted"].
(** src/valops/bundle/builder.py:38-38 CONSENSUS_MODES *)
Definition CONSENSUS_MODES : list string := ["tower"; "alpenglow"].

(** ** Directories *)
Definition is_file (d : bundle_dir) (p : path) : bool := match read_file d p with Some _ => true | None => false end.
(** [p.write_text(c)] *)
Fixpoint put_file (d : bundle_dir) (p : path) (c : string) : bundle_dir :=
  match d with
  | [] => [(p, c)]
  | f :: d' => if bool_decide (f.1 = p) then (p, c) :: d' else f :: put_file d' p c
  end.
(** [shutil.copytree(src, d, dirs_exist_ok=True)] *)
Definition copytree (src d : bundle_dir) : bundle_dir := fold_left (λ d f, put_file d f.1 f.2) src d.
(** Whether a directory of this path has a file. *)
Fixpoint below_path (p q : path) : bool :=
  match p, q with
  | [], _ :: _ => true
  | x :: p', y :: q' => String.eqb x y && below_path p' q'
  | _, _ => false
  end.
Definition is_dir (d : bundle_dir) (p : path) : bool := existsb (λ f : path * string, below_path p f.1) d.
(** [d.rglob("*")]: the directories and the files, a directory before what is in it. *)
Fixpoint prefixes (p : path) : list path := match p with [] => [] | x :: p' => [x] :: map (cons x) (prefixes p') end.
Definition entries (d : bundle_dir) : list path := remove_dups (flat_map (λ f : path * string, prefixes f.1) d).
Definition named (f : string → bool) (p : path) : bool := match list.last p with Some x => f x | None => false end.

(** [list(d.rglob("__pycache__")) + list(d.rglob("*.pyc"))] *)
Definition junk (d : bundle_dir) : list path :=
  List.filter (named (String.eqb "__pycache__")) (entries d) ++ List.filter (named (ends_with ".pyc")) (entries d).
(** A directory is removed with what is in it; [unlink] of what is gone raises. *)
Definition remove_junk (d : bundle_dir) (p : path) : result exn bundle_dir :=
  if is_dir d p then Ok (List.filter (λ f : path * string, negb (below_path p f.1)) d)
  else if is_file d p then Ok (List.filter (λ f : path * string, negb (bool_decide (f.1 = p))) d)
  else Err (PyExc "FileNotFoundError").
Fixpoint remove_all (d : bundle_dir) (l : list path) : result exn bundle_dir :=
  match l with [] => Ok d | p :: l' => d ← remove_junk d p; remove_all d l' end.

(** [f] of each, until one raises. *)
Fixpoint eachR {A} (f : A → result exn unit) (l : list A) : result exn unit :=
  match l with [] => Ok tt | x :: l' => _ ← f x; eachR f l' end.
(** [(v or {}).items()] *)
Definition items_of (v : val) : result exn dict := match py_or v (VDict []) with VDict d => Ok d | _ => Err (PyExc "AttributeError") end.
(** The parts of [root / name] below the root. *)
Definition name_parts (name : string) : path := List.filter (λ s, negb (String.eqb s "" || String.eqb s ".")) (split_on "/" name).
Definition skill_path (name : string) : path := ["skills"] ++ name_parts name ++ ["SKILL.md"].
Definition role_prompt (r : string) : path := ["prompts"; r +:+ ".md"].

Section builder.
Context `{HASH : Hash} (yaml : string → result exn val) (yaml_dump : val → string).

(** src/valops/bundle/builder.py:57-59 _y *)
Definition y_ (d : bundle_dir) (p : path) : result exn val := text ← of_opt (read_file d p) (PyExc "FileNotFoundError"); yaml text.

(** ** The checks *)
(** src/valops/bundle/builder.py:68-77 _validate

    The deployment. *)
Definition validate_deployment (dep : val) : result exn unit :=
  client ← vget dep "client"; _ ← check (py_eq client (VStr "agave")) build_error;
  mode ← vget dep "declared_consensus_mode"; _ ← check (py_in mode (map VStr CONSENSUS_MODES)) build_error;
  _ ← eachR (λ k, v ← vget dep k; check (truthy v) build_error) ["validator_id"; "identity_pubkey"; "expected_version"; "cluster"];
  cluster ← vindex dep "cluster"; check (py_eq cluster (VStr "testnet")) build_error.

(** Whether a string has [x] in it. *)
Definition has_replace (v : val) : bool := substr "REPLACE" (py_str v).
(** [(m.get(k) or {}).get(k')] of mappings, for any [k'] that can be a key. *)
Definition price_of (pricing provider model : val) : result exn val :=
  p ← (if hashable provider then match pricing with VDict d => Ok (match provider with VStr s => dget_none d s | _ => VNone end) | _ => Err (PyExc "AttributeError") end
       else Err (PyExc "TypeError"));
  match py_or p (VDict []) with
  | VDict d => if hashable model then Ok (match model with VStr s => dget_none d s | _ => VNone end) else Err (PyExc "TypeError")
  | _ => Err (PyExc "AttributeError")
  end.
(** One configuration; only one a role uses has to be pinned and priced. *)
Definition validate_configuration (used : list val) (pricing : val) (name : string) (c : val) : result exn unit :=
  provider ← vget c "provider"; _ ← check (py_in provider (map VStr PROVIDERS)) build_error;
  adapter ← vget c "adapter"; _ ← check (py_in adapter (map VStr ADAPTERS)) build_error;
  admission ← vget c "admission"; _ ← check (py_in admission (map VStr ADMISSION)) build_error;
  if negb (py_in (VStr name) used) then Ok tt
  else
    model ← vget c "model"; _ ← check (truthy model) build_error;
    runtime ← vget c "runtime"; version ← vget (py_or runtime (VDict [])) "version"; _ ← check (truthy version) build_error;
    _ ← check (negb (has_replace model || has_replace version)) build_error;
    price ← price_of pricing provider model; _ ← check (truthy price) build_error;
    eachR (λ k, q ← vget price k; check (is_num q) build_error) ["input_per_mtok"; "output_per_mtok"].
(** src/valops/bundle/builder.py:79-107 _validate

    The configurations, and the roles that name them. *)
Definition validate_providers (d : bundle_dir) (prov : val) : result exn unit :=
  confs ← vget prov "configurations";
  pricing ← y_ d ["pricing.yaml"]; let pricing := py_or pricing (VDict []) in
  roles ← vget prov "roles"; roles ← items_of roles;
  _ ← check (forallb hashable (map snd roles)) (PyExc "TypeError");
  confs ← items_of confs;
  _ ← eachR (λ nc : string * val, validate_configuration (map snd roles) pricing nc.1 nc.2) confs;
  _ ← eachR (λ r, check (match dget_none roles r with VStr n => dmem confs n | _ => false end) build_error) ROLES;
  mixed ← vget prov "allow_mixed_configurations";
  _ ← check (match map (dget_none roles) ROLES with v :: l => forallb (py_eq v) l | [] => true end || truthy mixed) build_error;
  endpoints ← vget prov "endpoints"; endpoints ← py_iter (py_or endpoints (VDict []));
  eachR (λ p, check (py_in p (map VStr PROVIDERS)) build_error) endpoints.

(** One skill of the index. *)
Definition validate_skill (d : bundle_dir) (name : string) (s : val) : result exn unit :=
  _ ← check (is_file d (skill_path name)) build_error;
  modes ← vget s "modes";
  _ ← (if py_eq modes (VStr "any") then Ok tt
       else match modes with
            | VList l => _ ← check (forallb hashable l) (PyExc "TypeError"); check (forallb (λ m, py_in m (map VStr CONSENSUS_MODES)) l) build_error
            | _ => Err build_error
            end);
  roles ← (match s with VDict sd => py_iter (default (VList []) (dget sd "roles")) | _ => Err (PyExc "AttributeError") end);
  eachR (λ r, check (py_in r (map VStr ROLES)) build_error) roles.
Definition skill_index (d : bundle_dir) : result exn dict :=
  idx ← y_ d ["skills"; "index.yaml"]; sk ← vget (py_or idx (VDict [])) "skills"; items_of sk.

(** src/valops/bundle/builder.py:62-123 _validate

    A rule that is no mapping is refused too, with one exception or another. *)
Definition validate_stage (d : bundle_dir) : result exn unit :=
  _ ← eachR (λ p, check (is_file d p) build_error) REQUIRED;
  table ← y_ d ["command_table.yaml"]; _ ← load_table_data table;
  dep ← y_ d ["deployment.yaml"]; _ ← validate_deployment dep;
  prov ← y_ d ["providers.yaml"]; _ ← validate_providers d prov;
  skills ← skill_index d; _ ← eachR (λ ns : string * val, validate_skill d ns.1 ns.2) skills;
  _ ← eachR (λ r, check (is_file d (role_prompt r)) build_error) ROLES;
  eachR (λ p, rule ← y_ d p; match rule with VDict rule => validate_rule rule | _ => Err (PyExc "TypeError") end) (rule_files d).

(** ** The prompts with their skills *)
Definition skill_part (d : bundle_dir) (r name : string) (s : val) : result exn string :=
  sd ← (match s with VDict sd => Ok sd | _ => Err (PyExc "AttributeError") end);
  mine ← py_contains (default (VList []) (dget sd "roles")) (VStr r);
  if negb mine then Ok EmptyString
  else
    body ← of_opt (read_file d (skill_path name)) (PyExc "FileNotFoundError");
    Ok (newline +:+ newline +:+ "---" +:+ newline +:+ "## Skill: " +:+ name +:+ " (modes: " +:+ py_str (dget_none sd "modes") +:+ ")" +:+
        newline +:+ newline +:+ body).
Definition inlined_prompt (d : bundle_dir) (skills : dict) (r : string) : result exn string :=
  prompt ← of_opt (read_file d (role_prompt r)) (PyExc "FileNotFoundError");
  parts ← mapR (λ ns : string * val, skill_part d r ns.1 ns.2) (ksort skills);
  Ok (prompt +:+ fold_right String.append EmptyString parts).
Fixpoint inline_each (skills : dict) (roles : list string) (d : bundle_dir) : result exn bundle_dir :=
  match roles with
  | [] => Ok d
  | r :: roles' => text ← inlined_prompt d skills r; inline_each skills roles' (put_file d (prompt_path r true) text)
  end.
(** src/valops/bundle/builder.py:126-135 _inline_skills *)
Definition inline_skills (d : bundle_dir) : result exn bundle_dir := skills ← skill_index d; inline_each skills ROLES d.

(** src/valops/bundle/builder.py:184-185 attach_signature *)
Definition attach_signature (d : bundle_dir) (key_id sig : string) : bundle_dir :=
  put_file d [SIG] (json_dumps (VDict [("key_id", VStr key_id); ("sig", VStr (b64u sig))])).

(** src/valops/bundle/builder.py:149-161 build

    What the staging directory holds when its manifest is computed. *)
Definition staged (src : bundle_dir) (register : val) (overlay : option bundle_dir) : result exn bundle_dir :=
  thresholds ← generate_thresholds register;
  let d := copytree (default [] overlay) (copytree src []) in
  d ← remove_all d (junk d);
  let d := put_file d ["thresholds.yaml"] (yaml_dump thresholds) in
  _ ← validate_stage d;
  inline_skills d.
(** src/valops/bundle/builder.py:145-181 build

    The state is [out_root]; a build that raises leaves it as it was. *)
Definition build (src : bundle_dir) (register : val) (signer : option (string → string)) (key_id : string) (overlay : option bundle_dir)
    : M (list (string * bundle_dir)) exn string :=
  d ← lift (staged src register overlay);
  let manifest := compute_manifest d in
  let d := put_file d [MANIFEST] manifest in
  let bundle_id := sha256_hex manifest in
  match signer with
  | None => _ ← modify (λ out, dset out (".unsigned-" +:+ bundle_id) d); mret bundle_id
  | Some sign =>
      let d := attach_signature d key_id (sign manifest) in
      _ ← modify (λ out, if dmem out bundle_id then out else dset out bundle_id d);
      mret bundle_id
  end.
End builder.
