(* ===== verification/BuilderProps.v ===== *)
(** * What a build promises

    A bundle that was built verifies in the registry, and its command table, rules, roles,
    deployment, prompts and thresholds have the shape their readers expect. *)
From S2P Require Import Prelude PyVal Schema Canonical Json PyConv Bundle BundleProps Artefacts JsonText Params Table Rules Tokens Builder.
From Stdlib Require Import Ascii Sorted.

(** ** The order of paths *)
Lemma string_compare_cons a b s t : String.compare (String a s) (String b t) =
  match N.compare (N_of_ascii a) (N_of_ascii b) with Eq => String.compare s t | c => c end.
Proof. reflexivity. Qed.
Lemma ltb_trans (a b c : string) : String.ltb a b = true → String.ltb b c = true → String.ltb a c = true.
Proof.
  unfold String.ltb. revert b c. induction a as [|x a IH]; intros [|y b] [|z c]; try done. rewrite !string_compare_cons.
  specialize (IH b c). destruct (N.compare_spec (N_of_ascii x) (N_of_ascii y)) as [Hxy|Hxy|Hxy], (N.compare_spec (N_of_ascii y) (N_of_ascii z)) as [Hyz|Hyz|Hyz];
    try done; intros H1 H2; destruct (N.compare_spec (N_of_ascii x) (N_of_ascii z)); try done; try lia; by apply IH.
Qed.
Lemma ltb_total (a b : string) : String.ltb a b = false → String.ltb b a = false → a = b.
Proof.
  unfold String.ltb. rewrite (String.compare_antisym b a). destruct (String.compare a b) eqn:H; cbn; try done. intros _ _. by apply String.compare_eq_iff.
Qed.
Lemma path_ltb_trans p q r : path_ltb p q = true → path_ltb q r = true → path_ltb p r = true.
Proof.
  revert q r. induction p as [|x p IH]; intros [|y q] [|z r]; cbn; try done. intros [H1|[->%String.eqb_eq H1]%andb_true_iff]%orb_true_iff.
  - intros [H2|[<-%String.eqb_eq _]%andb_true_iff]%orb_true_iff; [by rewrite (ltb_trans _ _ _ H1 H2)|by rewrite H1].
  - intros [H2|[<-%String.eqb_eq H2]%andb_true_iff]%orb_true_iff; [by rewrite H2|]. rewrite String.eqb_refl, (IH _ _ H1 H2). by rewrite orb_true_r.
Qed.
Lemma path_ltb_total p q : path_ltb p q = false → path_ltb q p = false → p = q.
Proof.
  revert q. induction p as [|x p IH]; intros [|y q]; cbn; try done. intros [H1 H2]%orb_false_iff [H3 H4]%orb_false_iff.
  pose proof (ltb_total _ _ H1 H3) as ->. rewrite String.eqb_refl in H2, H4. f_equal. by apply IH.
Qed.
(** No file of [g] comes before [f]. *)
Definition not_before (f g : path * string) : Prop := path_ltb g.1 f.1 = false.
Lemma not_before_trans f g h : not_before f g → not_before g h → not_before f h.
Proof.
  unfold not_before. intros H1 H2. destruct (path_ltb h.1 f.1) eqn:H; [|done].
  destruct (path_ltb g.1 h.1) eqn:H'; [by rewrite (path_ltb_trans _ _ _ H' H) in H1|]. rewrite (path_ltb_total _ _ H' H2) in H1. congruence.
Qed.
Lemma path_ltb_asym p q : path_ltb p q = true → path_ltb q p = false.
Proof.
  intros H. destruct (path_ltb q p) eqn:H'; [|done]. pose proof (path_ltb_trans _ _ _ H H') as Hpp. clear H H'. exfalso.
  induction p as [|x p IH]; cbn in Hpp; [done|]. apply orb_true_iff in Hpp as [H|[_ H]%andb_true_iff]; [|by apply IH].
  unfold String.ltb in H. pose proof (String.compare_antisym x x). by destruct (String.compare x x).
Qed.
Lemma path_insert_sorted f l : StronglySorted not_before l → StronglySorted not_before (path_insert f l).
Proof.
  induction 1 as [|g l Hs IH Hg]; cbn; [by repeat constructor|]. destruct (path_ltb g.1 f.1) eqn:Hlt.
  - constructor; [done|]. rewrite path_insert_perm. constructor; [|done]. by apply path_ltb_asym.
  - constructor; [by constructor|]. constructor; [done|]. eapply list.Forall_impl; [exact Hg|]. intros h. by apply not_before_trans.
Qed.
Lemma sorted_files_sorted l : StronglySorted not_before (sorted_files l).
Proof. unfold sorted_files. induction l as [|f l IH]; [constructor|by apply path_insert_sorted]. Qed.
Lemma filter_insert P f l : StronglySorted not_before l →
  List.filter P (path_insert f l) = if P f then path_insert f (List.filter P l) else List.filter P l.
Proof.
  induction 1 as [|g l Hs IH Hg]; cbn; [done|]. destruct (path_ltb g.1 f.1) eqn:Hlt; cbn.
  - rewrite IH. destruct (P f), (P g) eqn:Hpg; cbn; rewrite ?Hlt; done.
  - destruct (P f) eqn:Hf, (P g) eqn:Hpg; cbn; rewrite ?Hlt; try done.
    assert (Forall (not_before f) (List.filter P l)) as Hall.
    { apply list.Forall_forall. intros h [Hh _]%list_elem_of_In%filter_In. apply list_elem_of_In in Hh.
      eapply not_before_trans; [exact Hlt|]. by eapply list.Forall_forall in Hg. }
    destruct (List.filter P l) as [|h l']; [done|]. inversion Hall as [|? ? Hh _]. cbn. unfold not_before in Hh. by rewrite Hh.
Qed.
(** Sorting what is kept is keeping of what is sorted. *)
Lemma filter_sorted P l : List.filter P (sorted_files l) = sorted_files (List.filter P l).
Proof.
  unfold sorted_files at 1 2. induction l as [|f l IH]; cbn; [done|]. rewrite filter_insert by apply sorted_files_sorted.
  rewrite IH. by destruct (P f).
Qed.

(** ** Files *)
Lemma read_put d p c q : read_file (put_file d p c) q = if bool_decide (p = q) then Some c else read_file d q.
Proof.
  unfold read_file. induction d as [|[p' c'] d IH]; cbn [put_file find_first fst].
  - by destruct (bool_decide (p = q)).
  - destruct (bool_decide_reflect (p' = p)) as [->|Hp]; cbn [find_first fst].
    + by destruct (bool_decide (p = q)).
    + destruct (bool_decide_reflect (p' = q)) as [->|Hq]; [|exact IH]. by rewrite (bool_decide_false (p = q)) by congruence.
Qed.
Lemma read_put_ne d p c q : p ≠ q → read_file (put_file d p c) q = read_file d q.
Proof. intros H. rewrite read_put. by rewrite bool_decide_false. Qed.
Lemma read_put_eq d p c : read_file (put_file d p c) p = Some c.
Proof. rewrite read_put. by rewrite bool_decide_true. Qed.
Lemma filter_put P d p c : (∀ c', P (p, c') = false) → List.filter P (put_file d p c) = List.filter P d.
Proof.
  intros HP. induction d as [|[p' c'] d IH]; cbn [put_file List.filter fst]; [by rewrite HP|].
  destruct (bool_decide_reflect (p' = p)) as [->|Hp]; cbn [List.filter]; [by rewrite !HP|]. by rewrite IH.
Qed.
Section manifest.
Context `{HASH : Hash}.
Lemma manifest_put d p c : str_in (as_posix p) [MANIFEST; SIG] = true → compute_manifest (put_file d p c) = compute_manifest d.
Proof. intros Hp. unfold compute_manifest. rewrite !filter_sorted, filter_put; [done|]. intros c'. cbn [fst]. by rewrite Hp. Qed.
End manifest.

(** ** The signature's file *)
Lemma signature_read kid sig : bmp_text kid = true → json_loads (json_dumps (VDict [("key_id", VStr kid); ("sig", VStr (b64u sig))])) =
  Some (VDict [("key_id", VStr kid); ("sig", VStr (b64u sig))]).
Proof.
  intros Hk. assert (bmp_text (b64u sig) = true) as Hs.
  { apply ascii_bmp, b64u_any_char. intros n Hn. do 64 (destruct n as [|n]; [done|]). lia. }
  rewrite loads_dumps; [done|by apply jwf_dict; split; [apply (bool_decide_unpack _)|repeat constructor]|by apply texts_dict; repeat constructor].
Qed.

Section build.
Context `{HASH : Hash} (yaml : string → result exn val) (yaml_dump : val → string).
Abbreviation build := (Builder.build yaml yaml_dump).

(** The directory a build leaves, when there was none of that id. *)
Definition finished (d : bundle_dir) (key_id sig : string) : bundle_dir := attach_signature (put_file d [MANIFEST] (compute_manifest d)) key_id sig.
Lemma build_run src register sign key_id overlay out id out' : build src register (Some sign) key_id overlay out = (Ok id, out') →
  ∃ d, staged yaml yaml_dump src register overlay = Ok d ∧ id = sha256_hex (compute_manifest d) ∧
    (dmem out id = false → out' = dset out id (finished d key_id (sign (compute_manifest d)))).
Proof.
  unfold Builder.build. intros H. apply bind_Ok in H as (d & s1 & [Hd ->]%lift_Ok & H). rewrite modify_bind in H. injection H as <- <-.
  exists d. split_and!; [done..|]. by intros ->.
Qed.
Lemma finished_manifest d key_id sig : compute_manifest (finished d key_id sig) = compute_manifest d.
Proof. unfold finished, attach_signature. by rewrite !manifest_put. Qed.

(** SHA-256 in hexadecimal: 64 digits. *)
Definition hex_lines : Prop := ∀ x, is_hex_id (sha256_hex x) = true ∧ String.length (sha256_hex x) = 64.
(** C23: functional. What is built is what the registry accepts. A bundle that was not built
    before (no directory of that id in the output, whose signature a rebuild would keep),
    signed with a key the registry trusts, whose id has no character beyond the basic
    plane, and not revoked, verifies there under the id the build returned; if that key is active, so that it may activate, activation succeeds and the
    bundle is the active one. *)
Theorem built_bundle_verifies src register sign key_id overlay out id out' g key :
  hex_lines → bmp_text key_id = true → build src register (Some sign) key_id overlay out = (Ok id, out') → dmem out id = false →
  g_bundles g = out' → dget (g_keys g) key_id = Some key → (∀ m, tk_verify key (sign m) m = true) → id ∉ Bundle.g_revoked g →
  Bundle.verify g id = Ok None ∧
  (tk_status key = "active" → ∀ t by_, ∃ g', activate t id by_ g = (Ok tt, g') ∧ active g' = Some id).
Proof.
  intros Hhex Hplain Hb Hnew Hg Hkey Hsign Hrev. apply build_run in Hb as (d & _ & Hid & Hout). specialize (Hout Hnew).
  set (f := finished d key_id (sign (compute_manifest d))) in *. pose proof (finished_manifest d key_id (sign (compute_manifest d))) as Hm. fold f in Hm.
  assert (read_file f [SIG] = Some (json_dumps (VDict [("key_id", VStr key_id); ("sig", VStr (b64u (sign (compute_manifest d))))]))) as Hsig
    by apply read_put_eq.
  assert (dget (g_bundles g) id = Some f) as Hf by (rewrite Hg, Hout; apply dget_dset_eq).
  assert (Bundle.verify g id = Ok None) as Hv.
  { apply verify_verified. exists f. split; [|done|done| |by rewrite Hm|].
    - rewrite Hid. by destruct (Hhex (compute_manifest d)).
    - rewrite Hm. unfold f, finished, attach_signature. rewrite read_put_ne by done. apply read_put_eq.
    - eexists _, _, key_id, key, _, _. split; [exact Hsig|]. split; [by apply signature_read|]. split; [done|]. split; [done|]. split; [done|].
      split; [apply b64u_dec_b64u|]. rewrite Hm. apply Hsign. }
  split; [exact Hv|]. intros Hactive t by_.
  assert (activatable g id) as Ha.
  { split; [exact Hv|]. eexists f, _, key_id, key. rewrite Hsig. cbn [mbind option_bind]. split_and!; [done|by apply signature_read|done|done|done]. }
  exists (activated t id by_ g). split; [by apply activate_run|by apply active_activated].
Qed.

(** ** What its readers find *)
(** A configuration of a role: its provider is known, its model is named, and what the
    model costs is a number. *)
Definition priced (pricing conf : val) : Prop := ∃ provider model price,
  vget conf "provider" = Ok (VStr provider) ∧ provider ∈ PROVIDERS ∧ vget conf "model" = Ok model ∧ truthy model = true ∧
  price_of (py_or pricing (VDict [])) (VStr provider) model = Ok price ∧
  ∀ k, k ∈ ["input_per_mtok"; "output_per_mtok"] → ∃ q, vget price k = Ok q ∧ is_num q = true.
Record well_formed (register : val) (b : Bundle) : Prop := {
  wf_table : ∃ data t, command_table yaml b = Ok data ∧ load_table_data data = Ok t;
  wf_rules : ∃ rules, verifier_rules yaml b = Ok rules ∧ Forall (λ r, ∃ d, r = VDict d ∧ validate_rule d = Ok tt) rules;
  wf_roles r : r ∈ ROLES → ∃ name conf pr, configuration_for yaml b r = Ok (name, conf) ∧ pricing yaml b = Ok pr ∧ priced pr conf;
  wf_deployment : ∃ dep mode, deployment yaml b = Ok dep ∧ vget dep "client" = Ok (VStr "agave") ∧ vget dep "cluster" = Ok (VStr "testnet") ∧
    vget dep "declared_consensus_mode" = Ok (VStr mode) ∧ mode ∈ CONSENSUS_MODES;
  wf_prompts r : r ∈ ROLES → ∃ text inlined, read_file (b_dir b) (prompt_path r false) = Some text ∧
    read_file (b_dir b) (prompt_path r true) = Some inlined ∧ String.prefix text inlined = true;
  wf_thresholds : ∃ version out, generate_thresholds register = Ok (VDict [("register_version", version); ("parameters", VDict out)]) ∧
    thresholds yaml b = Ok (VDict out) }.

Lemma eachR_elem {A} (f : A → result exn unit) l x : eachR f l = Ok tt → x ∈ l → f x = Ok tt.
Proof.
  induction l as [|y l IH]; cbn; [intros _ []%not_elem_of_nil|]. intros H. apply rbind_Ok in H as ([] & Hy & H).
  intros [->|Hx]%elem_of_cons; [done|by apply IH].
Qed.
Lemma mapR_Forall {A B} (f : A → result exn B) (P : B → Prop) l : (∀ x, x ∈ l → ∃ y, f x = Ok y ∧ P y) → ∃ ys, mapR f l = Ok ys ∧ Forall P ys.
Proof.
  induction l as [|x l IH]; intros H; cbn; [by exists []|]. destruct (H x) as (y & Hy & HP); [left|].
  destruct IH as (ys & Hys & Hall); [intros z Hz; apply H; by right|]. exists (y :: ys). rewrite Hy. cbn. rewrite Hys. split; [done|by constructor].
Qed.
Lemma prefix_app s t : String.prefix s (s +:+ t) = true.
Proof. induction s as [|c s IH]; [by destruct t|]. change (String c s +:+ t) with (String c (s +:+ t)). cbn [String.prefix].
  destruct (ascii_dec c c); [exact IH|congruence]. Qed.

(** A file no step after the checks writes. *)
Definition untouched (p : path) : Prop := p ≠ [MANIFEST] ∧ p ≠ [SIG] ∧ ∀ r, p ≠ prompt_path r true.
Lemma inline_untouched skills roles d d' p : inline_each skills roles d = Ok d' → (∀ r, r ∈ roles → p ≠ prompt_path r true) → read_file d' p = read_file d p.
Proof.
  revert d. induction roles as [|r roles IH]; intros d H Hp; cbn in H; [by injection H as <-|]. apply rbind_Ok in H as (text & _ & H).
  rewrite (IH _ H) by (intros r' Hr'; apply Hp; by right). apply read_put_ne. intros <-. by apply (Hp r); [left|].
Qed.
Lemma finished_untouched skills d d' key_id sig p : inline_each skills ROLES d = Ok d' → untouched p → read_file (finished d' key_id sig) p = read_file d p.
Proof.
  intros Hd (H1 & H2 & H3). unfold finished, attach_signature. rewrite !read_put_ne by congruence. eapply inline_untouched; [exact Hd|]. intros r _. apply H3.
Qed.

(** The inlined prompt of a role is the role's prompt and what is added to it. *)
Lemma inline_prompt skills roles d d' r : inline_each skills roles d = Ok d' → r ∈ roles → NoDup roles →
  (∀ r1 r2, r1 ∈ roles → r2 ∈ roles → role_prompt r1 ≠ prompt_path r2 true ∧ (prompt_path r1 true = prompt_path r2 true → r1 = r2)) →
  ∃ text inlined, read_file d (role_prompt r) = Some text ∧ read_file d' (prompt_path r true) = Some inlined ∧ String.prefix text inlined = true.
Proof.
  revert d. induction roles as [|r0 roles IH]; intros d H Hr Hnd Hne; cbn in H; [by apply not_elem_of_nil in Hr|].
  apply rbind_Ok in H as (text & Ht & H). apply list.NoDup_cons in Hnd as [Hnot Hnd].
  destruct (decide (r = r0)) as [->|Hrr].
  - unfold inlined_prompt in Ht. apply rbind_Ok in Ht as (prompt & Hp%of_opt_Ok & Ht). apply rbind_Ok in Ht as (parts & _ & Ht). injection Ht as <-.
    eexists prompt, _. split; [done|]. split; [|by apply prefix_app].
    rewrite (inline_untouched _ _ _ _ _ H); [apply read_put_eq|]. intros r' Hr' Heq. apply Hne in Heq as ->; [done|left|by right].
  - apply elem_of_cons in Hr as [?|Hr]; [done|]. destruct (IH _ H Hr) as (prompt & inl & H1 & H2 & H3); [done|intros r1 r2 ? ?; apply Hne; by right|].
    exists prompt, inl. split; [|done]. rewrite <- H1. symmetry. apply read_put_ne. intros Heq. by apply (Hne r r0); [right|left|].
Qed.
Lemma ROLES_prompts r1 r2 : r1 ∈ ROLES → r2 ∈ ROLES → role_prompt r1 ≠ prompt_path r2 true ∧ (prompt_path r1 true = prompt_path r2 true → r1 = r2).
Proof.
  intros H1 H2. unfold ROLES in *. repeat (apply elem_of_cons in H1 as [->|H1]); try (by apply not_elem_of_nil in H1);
    repeat (apply elem_of_cons in H2 as [->|H2]); try (by apply not_elem_of_nil in H2); done.
Qed.

(** A file the checks read is read the same of the bundle. *)
Lemma b_yaml_kept d d' id p : read_file d' p = read_file d p → b_yaml yaml (mkBundle id d') p = y_ yaml d p.
Proof. intros H. unfold b_yaml, y_. cbn [b_dir]. by rewrite H. Qed.
Lemma not_inlined x r : [x] ≠ prompt_path r true.
Proof. discriminate. Qed.
Lemma top_untouched x : str_in x [MANIFEST; SIG] = false → untouched [x].
Proof. intros H%str_in_false. rewrite !not_elem_of_cons in H. destruct H as (H1 & H2 & _). split_and!; [congruence|congruence|discriminate]. Qed.
Definition rule_path (p : path) : bool := match p with ["verifier"; name] => ends_with ".yaml" name | _ => false end.
Lemma rule_path_parts p : rule_path p = true → ∃ name, p = ["verifier"; name].
Proof.
  intros H. destruct p as [|x q]; [discriminate H|]. do 8 (destruct x as [|[[] [] [] [] [] [] [] []] x]; try discriminate H).
  destruct x; [|discriminate H]. destruct q as [|name [|]]; try discriminate H. by exists name.
Qed.
Lemma is_file_elem d p : is_file d p = true ↔ p ∈ map fst d.
Proof.
  unfold is_file, read_file. induction d as [|[q c] d IH]; cbn; [by split; [|intros []%not_elem_of_nil]|].
  destruct (bool_decide_reflect (q = p)) as [->|Hne]; cbn; [by split; [left|]|]. rewrite elem_of_cons. split; [intros H; right; by apply IH|].
  intros [->|H]; [done|by apply IH].
Qed.
Lemma rule_files_read d p : p ∈ rule_files d ↔ rule_path p = true ∧ is_file d p = true.
Proof.
  rewrite is_file_elem. unfold rule_files. rewrite !list_elem_of_fmap. split.
  - intros (f & -> & [Hf H]%list_elem_of_In%filter_In). split; [exact H|]. exists f. split; [done|]. apply list_elem_of_In in Hf. by rewrite sorted_files_perm in Hf.
  - intros [H (f & -> & Hf)]. exists f. split; [done|]. apply list_elem_of_In, filter_In. split; [|exact H]. apply list_elem_of_In. by rewrite sorted_files_perm.
Qed.
Lemma vget_vindex v k x : vget v k = Ok x → x ≠ VNone → vindex v k = Ok x.
Proof. destruct v as [| | | | | |d]; try done. cbn. unfold dget_none. destruct (dget d k); [done|]. intros [= <-]. done. Qed.
Lemma validate_deployment_Ok dep : validate_deployment dep = Ok tt → ∃ mode, vget dep "client" = Ok (VStr "agave") ∧ vget dep "cluster" = Ok (VStr "testnet") ∧
  vget dep "declared_consensus_mode" = Ok (VStr mode) ∧ mode ∈ CONSENSUS_MODES.
Proof.
  unfold validate_deployment. intros H. apply rbind_Ok in H as (client & Hc & H). apply rbind_Ok in H as ([] & ->%check_Ok%py_eq_str_r & H).
  apply rbind_Ok in H as (mode & Hm & H). apply rbind_Ok in H as ([] & (m & -> & Hin)%check_Ok%py_in_strs & H). apply rbind_Ok in H as ([] & _ & H).
  apply rbind_Ok in H as (cluster & Hcl & ->%check_Ok%py_eq_str_r). exists m. split_and!; try done.
  destruct dep as [| | | | | |d]; try done. cbn in *. unfold dget_none. by destruct (dget d "cluster"); [injection Hcl as ->|].
Qed.
Lemma thresholds_shape register th : generate_thresholds register = Ok th → ∃ version out, th = VDict [("register_version", version); ("parameters", VDict out)].
Proof.
  unfold generate_thresholds. intros H. do 6 (apply rbind_Ok in H as (? & _ & H)). apply rbind_Ok in H as (version & _ & H). injection H as <-. by eexists _, _.
Qed.
Lemma items_of_inv v d : items_of v = Ok d → d ≠ [] → v = VDict d.
Proof.
  unfold items_of, py_or. intros H Hd. destruct (truthy v) eqn:Ht; [destruct v; try discriminate H; by injection H as <-|]. by injection H as <-.
Qed.
Lemma validate_roles d prov r : validate_providers yaml d prov = Ok tt → r ∈ ROLES →
  ∃ roles confs name conf pr, vget prov "roles" = Ok (VDict roles) ∧ dget roles r = Some (VStr name) ∧ vget prov "configurations" = Ok (VDict confs) ∧
    dget confs name = Some conf ∧ y_ yaml d ["pricing.yaml"] = Ok pr ∧ priced pr conf.
Proof.
  unfold validate_providers. intros H Hr. apply rbind_Ok in H as (confs0 & Hc & H). apply rbind_Ok in H as (pr & Hpr & H).
  apply rbind_Ok in H as (roles0 & Hr0 & H). apply rbind_Ok in H as (roles & Hroles & H). apply rbind_Ok in H as ([] & _ & H).
  apply rbind_Ok in H as (confs & Hconfs & H). apply rbind_Ok in H as ([] & Heach & H). apply rbind_Ok in H as ([] & Hnames & _).
  pose proof (eachR_elem _ _ _ Hnames Hr) as Hname%check_Ok. unfold dget_none in Hname.
  destruct (dget roles r) as [[| | | |name| |]|] eqn:Hrole; try discriminate Hname. cbn in Hname.
  unfold dmem in Hname. destruct (dget confs name) as [conf|] eqn:Hconf; [|discriminate Hname].
  exists roles, confs, name, conf, pr. pose proof (eachR_elem _ _ (name, conf) Heach (dget_elem _ _ _ Hconf)) as Hval. cbn [fst snd] in Hval.
  assert (py_in (VStr name) (map snd roles) = true) as Hused.
  { unfold py_in. apply existsb_true. exists (VStr name). split; [|apply String.eqb_refl]. apply dget_elem in Hrole. by apply (list_elem_of_fmap_2 snd _ (r, VStr name)). }
  rewrite (items_of_inv _ _ Hroles) in Hr0 by (by intros ->). rewrite (items_of_inv _ _ Hconfs) in Hc by (by intros ->).
  split_and!; [done..|]. unfold validate_configuration in Hval.
  apply rbind_Ok in Hval as (provider & Hprov & Hval). apply rbind_Ok in Hval as ([] & Hpin%check_Ok & Hval).
  apply py_in_strs in Hpin as (ps & -> & Hpin). apply rbind_Ok in Hval as (? & _ & Hval). apply rbind_Ok in Hval as ([] & _ & Hval).
  apply rbind_Ok in Hval as (? & _ & Hval). apply rbind_Ok in Hval as ([] & _ & Hval). rewrite Hused in Hval. cbn [negb] in Hval.
  apply rbind_Ok in Hval as (model & Hmodel & Hval). apply rbind_Ok in Hval as ([] & Htruthy%check_Ok & Hval).
  apply rbind_Ok in Hval as (? & _ & Hval). apply rbind_Ok in Hval as (? & _ & Hval). apply rbind_Ok in Hval as ([] & _ & Hval).
  apply rbind_Ok in Hval as ([] & _ & Hval). apply rbind_Ok in Hval as (price & Hprice & Hval). apply rbind_Ok in Hval as ([] & _ & Hval).
  exists ps, model, price. split_and!; try done. intros k Hk. pose proof (eachR_elem _ _ _ Hval Hk) as Hq. cbn beta in Hq.
  apply rbind_Ok in Hq as (q & Hq & Hnum%check_Ok). by exists q.
Qed.

(** What a new bundle was checked for holds of what its readers find. The command table loads, so it names read-only commands only; every verifier rule passes
    the verifier's own check; every role has a configuration whose provider is known and
    whose model has a price; the deployment is an Agave validator on testnet under a
    consensus mode that is one of the two; every role has a prompt, and its inlined prompt
    starts with it; the parameters are those generated from the register. Skills, fault
    classes and endpoints are not said anything of. *)
Theorem built_bundle_is_well_formed src register sign key_id overlay out id out' :
  (∀ v, generate_thresholds register = Ok v → yaml (yaml_dump v) = Ok v) →
  build src register (Some sign) key_id overlay out = (Ok id, out') → dmem out id = false →
  ∃ d, dget out' id = Some d ∧ well_formed register (mkBundle id d).
Proof.
  intros Hyaml Hb Hnew. apply build_run in Hb as (d' & Hd & Hid & Hout). specialize (Hout Hnew). unfold staged in Hd.
  apply rbind_Ok in Hd as (th & Hth & Hd). apply rbind_Ok in Hd as (d0 & Hd0 & Hd). set (d := put_file d0 ["thresholds.yaml"] (yaml_dump th)) in *.
  apply rbind_Ok in Hd as ([] & Hval & Hd). unfold inline_skills in Hd. apply rbind_Ok in Hd as (skills & _ & Hd).
  set (f := finished d' key_id (sign (compute_manifest d'))) in *. exists f. split; [rewrite Hout; apply dget_dset_eq|].
  assert (∀ p, untouched p → b_yaml yaml (mkBundle id f) p = y_ yaml d p) as Hkept.
  { intros p Hp. apply b_yaml_kept. by eapply finished_untouched. }
  unfold validate_stage in Hval. apply rbind_Ok in Hval as ([] & _ & Hval). apply rbind_Ok in Hval as (table & Htable & Hval).
  apply rbind_Ok in Hval as (t & Ht & Hval). apply rbind_Ok in Hval as (dep & Hdep & Hval). apply rbind_Ok in Hval as ([] & Hdepv & Hval).
  apply rbind_Ok in Hval as (prov & Hprov & Hval). apply rbind_Ok in Hval as ([] & Hprovv & Hval). apply rbind_Ok in Hval as (sk & _ & Hval).
  apply rbind_Ok in Hval as ([] & _ & Hval). apply rbind_Ok in Hval as ([] & _ & Hrules).
  split.
  - exists table, t. split; [|done]. unfold command_table. rewrite Hkept; [done|by apply top_untouched].
  - apply mapR_Forall. cbn [b_dir]. intros p [Hp Hfile]%rule_files_read. destruct (rule_path_parts _ Hp) as [name Hname].
    assert (untouched p) as Hunt by (rewrite Hname; split_and!; discriminate). rewrite Hkept by done.
    assert (p ∈ rule_files d) as Hin.
    { apply rule_files_read. split; [done|]. unfold is_file, f in *. by rewrite (finished_untouched _ _ _ _ _ _ Hd Hunt) in Hfile. }
    pose proof (eachR_elem _ _ _ Hrules Hin) as Hr. cbn beta in Hr. apply rbind_Ok in Hr as (rule & Hrule & Hr). exists rule. split; [done|].
    destruct rule as [| | | | | |rd]; try discriminate Hr. by exists rd.
  - intros r Hr. destruct (validate_roles _ _ _ Hprovv Hr) as (roles & confs & name & conf & pr & H1 & H2 & H3 & H4 & H5 & H6).
    exists name, conf, pr. split; [|split; [|done]].
    + unfold configuration_for, Bundle.providers. rewrite Hkept, Hprov by by apply top_untouched. cbn [mbind result_bind].
      rewrite (vget_vindex _ _ _ H1), (vget_vindex _ _ _ H3) by done. cbn. rewrite H2. cbn. by rewrite H4.
    + unfold pricing. by rewrite Hkept by by apply top_untouched.
  - destruct (validate_deployment_Ok _ Hdepv) as (mode & H1 & H2 & H3 & H4). exists dep, mode. split; [|done].
    unfold deployment. by rewrite Hkept by by apply top_untouched.
  - intros r Hr. cbn [b_dir]. destruct (inline_prompt _ _ _ _ _ Hd Hr) as (text & inl & H1 & H2 & H3); [apply (bool_decide_unpack _); by vm_compute|apply ROLES_prompts|].
    exists text, inl. unfold f, finished, attach_signature. rewrite !read_put_ne by discriminate. split_and!; [|done|done].
    change (prompt_path r false) with (role_prompt r). rewrite (inline_untouched _ _ _ _ _ Hd); [done|]. intros r' Hr'. by apply ROLES_prompts.
  - destruct (thresholds_shape _ _ Hth) as (version & ps & ->). exists version, ps. split; [done|].
    unfold thresholds. rewrite Hkept by by apply top_untouched. unfold y_, d. rewrite read_put_eq. cbn [of_opt mbind result_bind]. by rewrite (Hyaml _ Hth).
Qed.
End build.

(** * A build

    A small source directory becomes a bundle; the builder's theorems are instantiated
    here. Then two builds that do not do what they mean to. *)
From S2P Require Import Table Rules.

Definition source_files : bundle_dir := [
  (["command_table.yaml"], "C"); (["deployment.yaml"], "D"); (["providers.yaml"], "P"); (["pricing.yaml"], "$");
  (["fault_classes.yaml"], "F"); (["judge_checklist.yaml"], "J"); (["skills"; "index.yaml"], "I"); (["skills"; "restart"; "SKILL.md"], "How to restart.");
  (["prompts"; "diagnostician.md"], "Diagnose."); (["prompts"; "change_planner.md"], "Plan."); (["prompts"; "proposal_judge.md"], "Judge.");
  (["prompts"; "reporter.md"], "Report."); (["verifier"; "balance.yaml"], "R")].
Definition demo_configuration : val := VDict [("provider", VStr "anthropic"); ("adapter", VStr "native"); ("admission", VStr "admitted");
  ("model", VStr "m"); ("runtime", VDict [("version", VStr "1.2")])].
Definition source_yaml (text : string) : result exn val :=
  if String.eqb text "C" then Ok demo_table_data
  else if String.eqb text "D" then Ok (VDict [("client", VStr "agave"); ("declared_consensus_mode", VStr "tower"); ("validator_id", VStr "v1");
    ("identity_pubkey", VStr "k"); ("expected_version", VStr "3.0"); ("cluster", VStr "testnet")])
  else if String.eqb text "P" then Ok (VDict [("configurations", VDict [("c1", demo_configuration)]); ("roles", VDict (map (λ r, (r, VStr "c1")) ROLES))])
  else if String.eqb text "$" then Ok (VDict [("anthropic", VDict [("m", VDict [("input_per_mtok", VInt 3); ("output_per_mtok", VInt 15)])])])
  else if String.eqb text "I" then Ok (VDict [("skills", VDict [("restart", VDict [("modes", VStr "any"); ("roles", VList [VStr "change_planner"])])])])
  else if String.eqb text "R" then Ok (VDict [("id", VStr "balance"); ("applies_to", VDict [("class", VStr "validator_health")]);
    ("samples", VList [VStr "identity_balance"; VStr "catchup"]); ("predicate", balance_rule); ("window", VInt 1)])
  else generate_thresholds demo_register_file.
Definition source_dump (v : val) : string := "T".
Definition demo_sign_manifest (m : string) : string := "s".
Abbreviation demo_build src sign := (Builder.build (HASH := sum_hash) source_yaml source_dump src demo_register_file (Some sign) "k1" None).

Definition built : result exn string * list (string * bundle_dir) := demo_build source_files demo_sign_manifest [].
Definition built_dirs : list (string * bundle_dir) := built.2.
Definition built_id : string := match built.1 with Ok id => id | Err _ => EmptyString end.
Lemma built_ok : demo_build source_files demo_sign_manifest [] = (Ok built_id, built_dirs).
Proof. vm_compute. reflexivity. Qed.
Definition built_registry : registry := mkRegistry built_dirs [("k1", demo_trusted)] None [] [].

Lemma built_bundles : g_bundles built_registry = built_dirs.
Proof. reflexivity. Qed.
Example planner_reads_its_skill : (dget built_dirs built_id ≫= λ d, read_file d (prompt_path "change_planner" true)) =
  Some ("Plan." +:+ newline +:+ newline +:+ "---" +:+ newline +:+ "## Skill: restart (modes: any)" +:+ newline +:+ newline +:+ "How to restart.").
Proof. vm_compute. reflexivity. Qed.

Lemma digit16_hex n : is_hex_id (digit16 n) = true.
Proof.
  unfold digit16. pose proof (Nat.mod_upper_bound n 16 ltac:(done)) as H. revert H. generalize (n mod 16) as m. clear n. intros m H.
  do 16 (destruct m as [|m]; [done|]). lia.
Qed.
Lemma is_hex_app s t : is_hex_id (s +:+ t) = is_hex_id s && is_hex_id t.
Proof. unfold is_hex_id. induction s as [|c s IH]; [done|].
  change (String c s +:+ t) with (String c (s +:+ t)). cbn [all_chars]. by rewrite IH, andb_assoc.
Qed.
Lemma sum_hash_digits : hex_lines (HASH := sum_hash).
Proof.
  intros x. split; [|apply sum_hash_hex]. unfold sha256_hex, sum_hash. rewrite !is_hex_app, !digit16_hex. done.
Qed.
Lemma built_bundle_verifies_witness :
  Bundle.verify (HASH := sum_hash) built_registry built_id = Ok None ∧
  ∃ g', activate (HASH := sum_hash) 10 built_id "op" built_registry = (Ok tt, g') ∧ active g' = Some built_id.
Proof.
  destruct (built_bundle_verifies (HASH := sum_hash) source_yaml source_dump source_files demo_register_file demo_sign_manifest "k1" None [] built_id built_dirs
    built_registry demo_trusted sum_hash_digits eq_refl built_ok eq_refl built_bundles eq_refl (λ _, eq_refl) (not_elem_of_nil built_id)) as [Hv Ha].
  exact (conj Hv (Ha eq_refl 10%Q "op")).
Defined.
Lemma read_back v : generate_thresholds demo_register_file = Ok v → source_yaml (source_dump v) = Ok v.
Proof. intros H. exact H. Qed.
Lemma built_bundle_is_well_formed_witness :
  ∃ d, dget built_dirs built_id = Some d ∧ well_formed source_yaml demo_register_file (mkBundle built_id d).
Proof.
  exact (built_bundle_is_well_formed (HASH := sum_hash) source_yaml source_dump source_files demo_register_file demo_sign_manifest "k1" None [] built_id built_dirs
    read_back built_ok eq_refl).
Defined.

(** ** Builds that do not do what they mean to *)
(** A source directory with Python's cache in it is to be cleaned of it. The list of what
    to remove names the cache's files too; they are gone with their directory, and the
    removal of the first of them raises: there is no bundle. *)
Example pycache_breaks_build :
  demo_build (source_files ++ [(["skills"; "__pycache__"; "x.cpython-312.pyc"], "")]) demo_sign_manifest [] = (Err (PyExc "FileNotFoundError"), []) ∧
  (demo_build (source_files ++ [(["skills"; "x.pyc"], "")]) demo_sign_manifest []).1 = Ok built_id.
Proof. split; vm_compute; reflexivity. Qed.

(** A directory of that id is taken to be the same bundle. It has the same files, not the
    same signature: built again with a new key, the bundle stays signed by the old one. *)
Example rebuild_keeps_the_old_signature :
  (demo_build source_files (λ _, "new") built_dirs).2 = built_dirs ∧ (demo_build source_files (λ _, "new") []).2 ≠ built_dirs.
Proof. split; [vm_compute; reflexivity|]. vm_compute. discriminate. Qed.
