(* ===== verification/Control.v ===== *)
(** * The controller's surroundings (src/valops/controller/runner.py, preflight.py)

    The controller talks to every other process through RPC clients, launches workers
    and reads the bundle registry. Its world here is the episode store, the observe-only
    flag, what it already alerted on, and the trace of its calls; what the other
    processes answer is an arbitrary function of the trace, so whatever holds for every
    [surroundings] holds for every behaviour of theirs. *)
From S2P Require Import Prelude PyVal Schema Canonical Json PyConv Tools Transitions Tokens Rpc Fold Store AuditChain AuditClient Bundle.
From Stdlib Require Import Ascii.

(** src/valops/controller/spawn.py:32-37 LaunchResult *)
Record LaunchResult : Type := mkLaunch {
  lr_exit_code : val; lr_timed_out : bool; lr_structured_output : option val; lr_stderr : string }.

(** What the controller does that others can see. *)
Inductive event : Type :=
| EvRpc (service method : string) (params : dict)
| EvStore (method : string) (params : dict)                     (* a call to the episode store *)
| EvHome (session : string) (spec : dict) (input : view)      (* build_home *)
| EvLaunch (session : string) (adapter : val) (timeout_s : Q)  (* launcher.run *)
| EvCleanup (session : string)                                 (* remove_home *)
| EvRegistry.                                                  (* the bundle registry is read *)
Abbreviation trace := (list event).

Record surroundings : Type := mkSurroundings {
  n_answer : trace → result exn val;             (* the reply to the RPC just made *)
  n_store : trace → store → option (env * bool);  (* the store's side of the RPC just made, and whether its reply is lost;
                                                     none when it is not reached *)
  n_others : trace → store → store;              (* what the store's other clients did since the last call *)
  n_home : trace → result exn unit;              (* build_home *)
  n_launch : trace → result exn LaunchResult;
  n_sandbox : trace → option string;             (* launcher.preflight() *)
  n_uuid : trace → string;
  n_nonce : trace → string;
  n_now : trace → Q;
  n_registry : trace → registry;
  n_chain : trace → option (result exn (list string * list val));   (* the chain file and the anchor store *)
  n_anchor_keys : list (string * (string → string → bool));
  n_yaml : string → result exn val;
  n_sign : string → string;
  n_rfc3339 : Q → string;
  n_admins : list string;                        (* the brokers' admin sockets *)
  n_worker_sockets : dict;
  n_development : bool;
  n_uid : Z;
}.

(** The observe-only flag's file: absent, or there with its document, if it is JSON. *)
Abbreviation flag_file := (option (option val)).

(** src/valops/controller/runner.py:69-72 Runner.__init__ *)
Record world : Type := mkWorld {
  w_store : store;
  w_trace : trace;
  w_alerted : list string;
  w_flag : flag_file;
}.
Abbreviation RM := (M world exn).

(** [try: m except RpcError: h]: other exceptions pass. *)
Definition catch_rpc {S A} (m : M S exn A) (h : string → M S exn A) : M S exn A :=
  catch m (λ e, match e with RpcError code _ => h code | _ => raise e end).

(** [try: m finally: f]: an exception of [f] replaces one of [m]. *)
Definition finally {S A B} (m : M S exn A) (f : M S exn B) : M S exn A := λ s,
  let '(r, s1) := m s in
  match f s1 with
  | (Ok _, s2) => (r, s2)
  | (Err e, s2) => (Err e, s2)
  end.

Definition set_store (s : store) (w : world) : world := mkWorld s (w_trace w) (w_alerted w) (w_flag w).
Definition log_event (e : event) (w : world) : world := mkWorld (w_store w) (w_trace w ++ [e]) (w_alerted w) (w_flag w).

(** Which methods of which services a process calls: the services with their methods. *)
Definition asks (table : list (string * list string)) (service method : string) : bool :=
  existsb (λ x, String.eqb service x.1 && str_in method x.2) table.
Lemma asks_true table service method : asks table service method = true ↔ ∃ ms, (service, ms) ∈ table ∧ method ∈ ms.
Proof.
  unfold asks. rewrite existsb_true. split.
  - intros ([s ms] & Hin & [->%String.eqb_eq Hm]%andb_true_iff). exists ms. split; [done|]. by apply str_in_spec.
  - intros (ms & Hin & Hm). exists (service, ms). split; [done|]. cbn. rewrite String.eqb_refl. by apply str_in_spec.
Qed.

Section control.
Context `{HASH : Hash} (N : surroundings).

Definition trace_of : RM trace := w ← get_state; mret (w_trace w).
Definition now_ : RM Q := tr ← trace_of; mret (n_now N tr).
Definition registry_ : RM registry := _ ← modify (log_event EvRegistry); tr ← trace_of; mret (n_registry N tr).

(** [client.call(method, **params)] of a service other than the store. *)
Definition rpc (service method : string) (params : dict) : RM val :=
  _ ← modify (log_event (EvRpc service method params));
  tr ← trace_of;
  lift (n_answer N tr).

(** The store's side of a request at an endpoint. *)
Definition serves_at (endpoint : string) (v : env) (line : val) (s : store) : result exn reply * store :=
  match find_first (λ ep, String.eqb (ep_name ep) endpoint) (endpoints v (λ _, [n_uid N])) with
  | Some ep => let '(resp, s') := handle ep (n_uid N) 0 (Some line) s in (call_result resp, s')
  | None => (Err (rpc_error "unavailable"), s)
  end.
Definition store_serves : env → val → store → result exn reply * store := serves_at "store-control".
Definition request_line (method : string) (params : dict) : val :=
  VDict [("id", VInt 1); ("method", VStr method); ("params", VDict params)].

(** [self.d.store.call(method, **params)] *)
Definition store_rpc (method : string) (params : dict) : RM reply :=
  _ ← modify (log_event (EvStore method params));
  w ← get_state;
  let s := n_others N (w_trace w) (w_store w) in
  match n_store N (w_trace w) s with
  | None => _ ← modify (set_store s); raise (rpc_error "unavailable")
  | Some (v, lost) =>
      let '(r, s') := store_serves v (request_line method params) s in
      _ ← modify (set_store s');
      if lost then raise (rpc_error "unavailable") else lift r
  end.

(** src/valops/controller/runner.py:75-80 Runner.alert *)
Definition alert (severity title text : string) (episode_id dedupe : val) : RM unit :=
  catch_rpc (_ ← rpc "report_sys" "system_alert"
                   [("severity", VStr severity); ("title", VStr title); ("text", VStr text); ("episode_id", episode_id);
                    ("dedupe_key", dedupe)];
             mret tt) (λ _, mret tt).

(** src/valops/controller/runner.py:82-86 Runner._audit *)
Definition audit (event : string) (episode_id : string) (data : dict) (p : payload) : RM unit :=
  catch_rpc (_ ← rpc "audit" "submit" (audit_params event (VStr episode_id) (Some data) p); mret tt) (λ _, mret tt).

(** src/valops/controller/runner.py:89-90 Runner.record *)
Definition read_record (eid : string) : RM record :=
  r ← store_rpc "read_episode" [("episode_id", VStr eid); ("view", VStr "record")];
  match r with ReplyRead (RRecord rec) => mret rec | _ => raise (PyExc "TypeError") end.

Definition rec_state (rec : record) : string := default EmptyString (r_state rec).

(** [f"state:{rec['revision']}:{to}"] *)
Definition transition_key (rec : record) (to : string) : string :=
  "state:" +:+ py_str (VInt (r_revision rec)) +:+ ":" +:+ to.
Definition transition_params (rec : record) (to reason : string) : dict :=
  [("episode_id", VStr (r_episode_id rec)); ("state", VStr to); ("expected_revision", VInt (r_revision rec));
   ("reason", VStr reason); ("idem_key", VStr (transition_key rec to))].

(** src/valops/controller/runner.py:92-102 Runner.transition *)
Definition transition (rec : record) (to reason : string) : RM bool :=
  moved ← catch_rpc (_ ← store_rpc "set_state" (transition_params rec to reason); mret true)
                    (λ code, if String.eqb code "conflict" then mret false else raise (rpc_error code));
  if moved : bool then
    _ ← audit "state_change" (r_episode_id rec) [("from", opt_val VStr (r_state rec)); ("to", VStr to); ("reason", VStr reason)] NoPayload;
    mret true
  else mret false.

(** src/valops/controller/runner.py:104-108 Runner.hand_off *)
Definition hand_off (rec : record) (reason severity : string) : RM unit :=
  moved ← transition rec "handed_off" reason;
  if moved : bool then
    check ← lift (vindex (r_trigger rec) "check");
    alert severity ("Episode handed off: " +:+ stake 120 reason)
      ("Episode " +:+ r_episode_id rec +:+ " (" +:+ py_str (opt_val VStr (r_class rec)) +:+ "/" +:+ py_str check +:+
       ") handed to the operator. No action is taken by the system. Reason: " +:+ reason)
      (VStr (r_episode_id rec)) (VStr ("handoff:" +:+ r_episode_id rec))
  else mret tt.

(** ** The observe-only flag *)
(** src/valops/controller/preflight.py:35-37 ObserveOnlyFlag.set *)
Definition flag_set (reason : string) : RM unit :=
  t ← now_;
  modify (λ w, mkWorld (w_store w) (w_trace w) (w_alerted w)
                 (match w_flag w with None => Some (Some (VDict [("reason", VStr reason); ("ts", VFloat t)])) | f => f end)).

(** src/valops/controller/preflight.py:39-43 ObserveOnlyFlag.get *)
Definition flag_get (f : flag_file) : result exn val :=
  match f with
  | None | Some None => Ok VNone
  | Some (Some (VDict d)) => Ok (dget_none d "reason")
  | Some (Some _) => Err (PyExc "TypeError")
  end.

(** src/valops/controller/preflight.py:45-46 ObserveOnlyFlag.clear *)
Definition flag_clear : RM unit := modify (λ w, mkWorld (w_store w) (w_trace w) (w_alerted w) None).

(** ** Pre-flight *)
(** src/valops/controller/preflight.py:17-25 Preflight *)
Record Preflight : Type := mkPreflight { pf_observe_only : list string; pf_no_llm : list string; pf_warnings : list string }.
Definition llm_allowed (pf : Preflight) : bool := bool_decide (pf_observe_only pf = []) && bool_decide (pf_no_llm pf = []).

(** [x * k] for a number [x] of the thresholds. *)
Definition times (x : val) (k : Q) : result exn Q := q ← of_opt (num_of x) (PyExc "TypeError"); Ok (q * k)%Q.
Definition show_int (q : Q) : string := py_str (VInt (Qtrunc q)).

(** The audit part of [run]: reasons against observing, against steps, and warnings. *)
Definition audit_reasons (st : val) (interval max_lag : Q) : result exn (list string * list string * list string) :=
  err ← vget st "integrity_error";
  let oo := if truthy err then ["audit chain: " +:+ py_str err] else [] in
  lag ← vget st "anchor_lag_s";
  match lag with
  | VNone => Ok (oo, ["anchor lag Nones above P-19 (" +:+ show_int max_lag +:+ "s)"], [])
  | _ =>
      q ← of_opt (num_of lag) (PyExc "TypeError");
      if Qltb max_lag q then Ok (oo, ["anchor lag " +:+ show_int q +:+ "s above P-19 (" +:+ show_int max_lag +:+ "s)"], [])
      else if Qltb (interval * (3 # 2)) q then Ok (oo, [], ["anchor lag " +:+ show_int q +:+ "s above P-18"])
      else Ok (oo, [], [])
  end.

(** One broker's ping. *)
Definition ping (name : string) : RM (list string) :=
  catch_rpc (_ ← rpc name "ping" []; mret []) (λ code, mret [name +:+ " unavailable: " +:+ code]).
Fixpoint pings (names : list string) : RM (list string) :=
  match names with
  | [] => mret []
  | name :: names' => r ← ping name; rs ← pings names'; mret (r ++ rs)
  end.

(** src/valops/controller/preflight.py:49-81 run *)
Definition preflight_run (interval max_lag : Q) : RM Preflight :=
  w ← get_state;
  reason ← lift (flag_get (w_flag w));
  g ← registry_;
  bundle ← lift (match active g with
                 | None => Ok ["no active bundle"]
                 | Some id => r ← verify g id; Ok (match r with Some r => ["active bundle fails verification: " +:+ r] | None => [] end)
                 end);
  '(oo, no, warn) ← catch_rpc (st ← rpc "audit" "status" []; lift (audit_reasons st interval max_lag))
                              (λ code, mret ([], ["audit sequencer unavailable: " +:+ code], []));
  downs ← pings ("model_broker" :: n_admins N);
  tr ← trace_of;
  mret (mkPreflight ((if truthy reason then ["observe-only: " +:+ py_str reason] else []) ++ bundle ++ oo)
          (no ++ downs ++ match n_sandbox N tr with Some why => ["sandbox backend unavailable: " +:+ why] | None => [] end)
          warn).
End control.
