(* ===== verification/Runner.v ===== *)
(** * The controller's runner (src/valops/controller/runner.py)

    One tick is a pre-flight and one [advance] per episode: it reads the record, moves
    it along the transition table, or runs one worker step and validates what the step
    left in the record. Exceptions are those of the code, in its order: the [finally]
    of a step runs on every path out of it. *)
From S2P Require Import Prelude PyVal Schema Canonical Json PyConv Tools Transitions Tokens Rpc Fold Store AuditChain AuditClient Bundle Artefacts Control.
From Stdlib Require Import Ascii.

(** src/valops/controller/runner.py:34-34 LIMIT_CAUSES *)
Definition LIMIT_CAUSES : list string := ["limit_requests"; "limit_input_tokens"; "limit_output_or_usd"].

(** src/valops/controller/runner.py:41-46 StepOutcome *)
Record StepOutcome : Type := mkOutcome { so_ok : bool; so_reason : string; so_limit_hit : bool; so_meter : val }.

Definition threshold (b : val) (pid : string) : result exn Q := v ← vindex b pid; py_float v.
Definition threshold_int (b : val) (pid : string) : result exn Z := v ← vindex b pid; py_int v.

Definition starts_pf (k : string) : bool := String.prefix "pf:" k.
(** [r.split(":")[0]] *)
Fixpoint before_colon (s : string) : string :=
  match s with String c s' => if Ascii.eqb c ":" then EmptyString else String c (before_colon s') | EmptyString => EmptyString end.

(** What [run_step] holds in local variables: [ms] is unbound until the session opens. *)
Record locals : Type := mkLocals {
  l_ms : option val; l_home : bool; l_res : option LaunchResult; l_early : option StepOutcome }.
Definition set_ms (v : val) (l : locals) : locals := mkLocals (Some v) (l_home l) (l_res l) (l_early l).
Definition set_home (l : locals) : locals := mkLocals (l_ms l) true (l_res l) (l_early l).
Definition set_res (r : LaunchResult) (l : locals) : locals := mkLocals (l_ms l) (l_home l) (Some r) (l_early l).
Definition set_early (o : StepOutcome) (l : locals) : locals := mkLocals (l_ms l) (l_home l) (l_res l) (Some o).
Abbreviation LM := (M (world * locals) exn).
Definition in_world {A} (m : RM A) : LM A := λ '(w, l), let '(r, w') := m w in (r, (w', l)).
(** The outcome of a block and the local variables it leaves. *)
Definition with_locals {A} (m : LM A) : RM (result exn A * locals) := λ w,
  let '(r, (w', l)) := m (w, mkLocals None false None None) in (Ok (r, l), w').
Definition local (f : locals → locals) : LM unit := modify (λ '(w, l), (w, f l)).

Section runner.
Context `{HASH : Hash} (N : surroundings).
Abbreviation load_ := (load_bundle).

(** src/valops/controller/runner.py:111-132 Runner.preflight *)
Definition preflight : RM Preflight :=
  g ← registry_ N;
  th ← lift (match active g with
             | None => Ok None
             | Some id =>
                 reason ← verify g id;
                 match reason with
                 | Some _ => Ok None
                 | None => b ← load_bundle g id; th ← thresholds (n_yaml N) b; Ok (Some th)
                 end
             end);
  limits ← lift (match th with
                 | Some th => if truthy th then p18 ← vindex th "P-18"; i ← times p18 60; p19 ← vindex th "P-19"; m ← times p19 60; Ok (i, m)
                              else Ok (900, 3600)%Q
                 | None => Ok (900, 3600)%Q
                 end);
  pf ← preflight_run N limits.1 limits.2;
  _ ← for_each (λ r, if substr "fails verification" r || substr "audit chain" r then flag_set N r else mret tt) (pf_observe_only pf);
  _ ← for_each (λ r, let key := "pf:" +:+ before_colon r in
                     w ← get_state;
                     if str_in key (w_alerted w) then mret tt
                     else _ ← alert N (if str_in r (pf_observe_only pf) then "critical" else "high")
                                ("Degraded: " +:+ stake 120 r) r VNone VNone;
                          modify (λ w, mkWorld (w_store w) (w_trace w) (key :: w_alerted w) (w_flag w)))
       (pf_observe_only pf ++ pf_no_llm pf);
  _ ← for_each (λ r, w ← get_state;
                     if str_in "pf:lag" (w_alerted w) then mret tt
                     else _ ← alert N "warning" r r VNone VNone;
                          modify (λ w, mkWorld (w_store w) (w_trace w) ("pf:lag" :: w_alerted w) (w_flag w)))
       (pf_warnings pf);
  _ ← (if llm_allowed pf
       then modify (λ w, mkWorld (w_store w) (w_trace w) (List.filter (λ k, negb (starts_pf k)) (w_alerted w)) (w_flag w))
       else mret tt);
  mret pf.

(** src/valops/controller/runner.py:134-141 Runner.verify_chain_now *)
Definition verify_chain_now : RM (option chain_report) :=
  tr ← trace_of;
  match n_chain N tr with
  | None => mret None
  | Some r =>
      '(lines, anchors) ← lift r;
      res ← lift (verify_chain lines anchors (n_anchor_keys N));
      _ ← (if cr_ok res then mret tt
           else _ ← flag_set N ("chain verification failed: " +:+ join "; " (map error_text (take 3 (cr_errors res))));
                alert N "critical" "Audit chain verification FAILED (RB-10)" (join newline (map error_text (take 20 (cr_errors res)))) VNone VNone);
      mret (Some res)
  end.

(** ** One step *)
(** src/valops/controller/runner.py:144-149 Runner.input_view *)
Definition input_view (rec : record) (role : string) : RM view :=
  let read (which : string) : RM view :=
    r ← store_rpc N "read_episode" [("episode_id", VStr (r_episode_id rec)); ("view", VStr which)];
    match r with ReplyRead (RView v) => mret v | _ => raise (PyExc "TypeError") end in
  if String.eqb role JUDGE then
    v ← read "judge";
    _ ← lift (assert_judge_isolated (n_rfc3339 N) v rec);
    mret v
  else read "full".

(** src/valops/controller/runner.py:235-249 Runner.validate *)
Definition validate (role eid session kind : string) (structured : option val) : RM StepOutcome :=
  rec ← read_record N eid;
  '(v, st) ← (if String.eqb role DIAG then mret (validate_diagnostician rec session)
              else if String.eqb role PLAN then mret (validate_planner rec session)
              else if String.eqb role JUDGE then mret (validate_judge rec session)
              else alerts ← rpc N "report_sys" "alerts_for" [("episode_id", VStr eid); ("session_id", VStr session)];
                   lift (validate_reporter rec session kind alerts));
  if va_ok v then
    c ← lift (cross_check role structured st);
    mret (mkOutcome (va_ok c) (va_reason c) false (VDict []))
  else mret (mkOutcome false (va_reason v) false (VDict [])).

(** The step specification a worker finds in its home. *)
Definition tool_states (role : string) : dict :=
  map (λ t, (t, VList (match TOOLS_BY_NAME t with Some s => map VStr (t_states s) | None => [] end))) (TOOLS_BY_ROLE role).
Definition step_spec (rec : record) (role kind session token conf_name : string) (conf : dict) (inlined : bool)
    (max_turns : Z) (max_budget timeout : Q) : dict :=
  [("role", VStr role); ("episode_id", VStr (r_episode_id rec)); ("session_id", VStr session); ("token", VStr token); ("kind", VStr kind);
   ("state", opt_val VStr (r_state rec)); ("bundle_path", VStr "/bundle"); ("inlined_prompts", VBool inlined);
   ("configuration", VDict (dupdate [("name", VStr conf_name)] conf)); ("model_port", VInt 18080);
   ("sockets", VDict [("episode", VStr "/run/valops/episode.sock"); ("observer", VStr "/run/valops/observer.sock");
                      ("report", VStr "/run/valops/report.sock"); ("model", VStr "/run/valops/model.sock")]);
   ("tools", VList (map VStr (TOOLS_BY_ROLE role))); ("max_turns", VInt max_turns); ("max_budget_usd", VFloat max_budget);
   ("tool_states", VDict (tool_states role)); ("development", VBool (n_development N));
   ("timeout_s", VFloat (if Qltb (timeout - 20) 30 then 30 else timeout - 20))].

Definition early : exn := PyExc "_Early".
Definition session_param (session : string) : dict := [("session_id", VStr session)].

(** The [try] block of [run_step]. *)
Definition step_body (rec : record) (role : string) (b : Bundle) (kind session token conf_name : string) (conf : val) : LM unit :=
  let eid := r_episode_id rec in
  ms ← catch (r ← in_world (rpc N "model_broker" "open_session"
                              [("session_id", VStr session); ("episode_id", VStr eid); ("role", VStr role); ("bundle_id", VStr (b_id b))]);
              mret (inl r))
             (λ e, match e with
                   | RpcError code _ =>
                       mret (inr (mkOutcome false ("model broker refused session: " +:+ code)
                                    (str_in code ["provider_unapproved"; "not_admitted"; "no_key"]) (VDict [])))
                   | _ => raise e
                   end);
  match ms with
  | inr o => _ ← local (set_ms VNone); _ ← local (set_early o); raise early
  | inl ms =>
      _ ← local (set_ms ms);
      view ← in_world (input_view rec role);
      adapter ← lift (vindex conf "adapter");
      inlined ← lift (if negb (py_eq adapter (VStr "claude_sdk")) then Ok true
                      else dep ← deployment (n_yaml N) b;
                           match dep with VDict d => Ok (truthy (default (VBool true) (dget d "skills_inline"))) | _ => Err (PyExc "AttributeError") end);
      conf_dict ← lift (match conf with VDict d => Ok d | _ => Err (PyExc "TypeError") end);
      turns ← lift (v ← param (n_yaml N) b "P-05" role conf_name; py_int v);
      budget ← lift (v ← param (n_yaml N) b "P-06" role conf_name; py_float v);
      limit ← lift (th ← thresholds (n_yaml N) b; threshold th "P-11");
      let spec := step_spec rec role kind session token conf_name conf_dict inlined turns budget limit in
      prompt ← lift (of_opt (read_file (b_dir b) (prompt_path role inlined)) (PyExc "FileNotFoundError"));
      _ ← in_world (_ ← modify (log_event (EvHome session spec view)); tr ← trace_of; lift (n_home N tr));
      _ ← local set_home;
      _ ← lift (vindex ms "socket_path");
      res ← catch (in_world (_ ← modify (log_event (EvLaunch session adapter limit)); tr ← trace_of; lift (n_launch N tr)))
                  (λ e, match e with
                        | PyExc cls => if String.eqb cls "SandboxUnavailable"
                                       then _ ← local (set_early (mkOutcome false "sandbox unavailable" false (VDict []))); raise early
                                       else raise e
                        | _ => raise e
                        end);
      _ ← local (set_res res);
      in_world (audit N "step" eid [("role", VStr role); ("session_id", VStr session); ("exit", lr_exit_code res); ("timed_out", VBool (lr_timed_out res))]
                  (match lr_stderr res with EmptyString => NoPayload | raw => PayloadBytes raw end))
  end.

(** The loop of the [finally] block: every broker is told. *)
Definition revoke_everywhere (session : string) : RM unit :=
  for_each (λ name, catch_rpc (_ ← rpc N name "revoke_session" (session_param session); mret tt) (λ _, mret tt)) (n_admins N).

(** [meter.get(k, dflt)] *)
Definition meter_get (meter : val) (k : string) (dflt : val) : result exn val :=
  match meter with VDict d => Ok (default dflt (dget d k)) | _ => Err (PyExc "AttributeError") end.

(** The call of [append_cost], for a meter that is not empty. *)
Definition charge (eid role session conf_name : string) (meter : val) : RM unit :=
  catch_rpc (
    usd ← lift (v ← meter_get meter "usd" (VFloat 0); py_float v);
    turns ← lift (v ← meter_get meter "requests" (VInt 0); py_int v);
    input ← lift (meter_get meter "input_tokens" VNone); output ← lift (meter_get meter "output_tokens" VNone);
    _ ← store_rpc N "append_cost" [("episode_id", VStr eid); ("role", VStr role); ("usd", VFloat usd); ("turns", VInt turns);
                                  ("session_id", VStr session); ("configuration", VStr conf_name);
                                  ("tokens", VDict [("input", input); ("output", output)]); ("idem_key", VStr ("cost:" +:+ session))];
    mret tt) (λ _, mret tt).

(** The rest of the [finally] block; it returns the meter. *)
Definition settle (eid role session conf_name : string) (l : locals) : RM val :=
  ms ← lift (of_opt (l_ms l) (PyExc "UnboundLocalError"));
  meter ← catch_rpc (if truthy ms then rpc N "model_broker" "close_session" (session_param session) else mret (VDict []))
                    (λ _, mret (VDict []));
  _ ← audit N "token_revoked" eid [("session_id", VStr session)] NoPayload;
  _ ← (if truthy meter then charge eid role session conf_name meter else mret tt);
  _ ← (if l_home l then modify (log_event (EvCleanup session)) else mret tt);
  mret meter.
Definition step_cleanup (eid role session conf_name : string) (l : locals) : RM val :=
  _ ← revoke_everywhere session; settle eid role session conf_name l.

(** [any(r["cause"] in LIMIT_CAUSES for r in meter.get("refusals", []))] *)
Fixpoint any_limit (refusals : list val) : result exn bool :=
  match refusals with
  | [] => Ok false
  | r :: rs => c ← vindex r "cause"; if py_in c (map VStr LIMIT_CAUSES) then Ok true else any_limit rs
  end.

(** The end of [run_step]: how the step counts, which the record is told. [r] is what the
    [try] block raised, if anything, and [l] the local variables it left. *)
Definition step_outcome (rec : record) (role kind session conf_name : string) (th : val) (r : result exn unit) (l : locals)
    (meter : val) : RM StepOutcome :=
  let eid := r_episode_id rec in
  _ ← lift (match r with Err (PyExc cls) => if String.eqb cls "_Early" then Ok tt else Err (PyExc cls) | r => r end);
  limit_hit ← lift (v ← meter_get meter "refusals" (VList []); l ← py_iter v; any_limit l);
  out ← (match l_early l, l_res l with
         | Some o, _ => mret o
         | None, Some res =>
             if lr_timed_out res then
               p11 ← lift (vindex th "P-11");
               mret (mkOutcome false ("step exceeded P-11 (" +:+ py_str p11 +:+ "s); process tree killed") false meter)
             else
               out ← validate role eid session kind (lr_structured_output res);
               mret (mkOutcome (so_ok out) (so_reason out) (so_limit_hit out) meter)
         | None, None => raise (PyExc "AttributeError")
         end);
  let out := if limit_hit && negb (so_ok out)
             then mkOutcome (so_ok out) (so_reason out +:+ "; model-broker budget/limit reached") true (so_meter out) else out in
  _ ← store_rpc N "append_step" [("episode_id", VStr eid); ("role", VStr role); ("session_id", VStr session);
                                ("outcome", VStr (if so_ok out then "ok" else "failed")); ("reason", VStr (so_reason out));
                                ("state", opt_val VStr (r_state rec)); ("configuration", VStr conf_name); ("idem_key", VStr ("step:" +:+ session))];
  mret out.

(** src/valops/controller/runner.py:151-233 Runner.run_step *)
Definition run_step (rec : record) (role : string) (b : Bundle) (kind : string) : RM StepOutcome :=
  let eid := r_episode_id rec in
  tr ← trace_of;
  let session := n_uuid N tr in
  '(conf_name, conf) ← lift (configuration_for (n_yaml N) b role);
  th ← lift (thresholds (n_yaml N) b);
  ttl ← lift (threshold th "P-10");
  t ← now_ N;
  token ← lift (mint (n_sign N) t (n_nonce N tr) eid role session (b_id b) ttl);
  _ ← audit N "token_minted" eid [("role", VStr role); ("session_id", VStr session); ("ttl_s", VFloat ttl); ("configuration", VStr conf_name)] NoPayload;
  '(r, l) ← with_locals (step_body rec role b kind session token conf_name conf);
  meter ← step_cleanup eid role session conf_name l;
  step_outcome rec role kind session conf_name th r l meter.

(** ** The state machine *)
(** src/valops/controller/runner.py:252-255 Runner._failures_in_state *)
Definition failures_in_state (rec : record) (role : string) : result exn (list step) :=
  entered ← of_opt (list.last (r_history rec)) (PyExc "IndexError");
  Ok (List.filter (λ s : step, String.eqb (sp_role s) role && String.eqb (sp_outcome s) "failed" && Qle_bool (sh_ts entered) (sp_ts s))
        (r_steps rec)).

Definition shown (n : nat) : string := pretty (N.of_nat n).

(** src/valops/controller/runner.py:257-264 Runner._after_failure *)
Definition after_failure (rec : record) (role : string) (out : StepOutcome) (b : Bundle) : RM unit :=
  rec ← read_record N (r_episode_id rec);
  if so_limit_hit out then hand_off N rec (role +:+ ": not retryable - " +:+ so_reason out) "high"
  else
    fails ← lift (failures_in_state rec role);
    p08 ← lift (th ← thresholds (n_yaml N) b; threshold_int th "P-08");
    if (p08 <? Z.of_nat (length fails))%Z
    then hand_off N rec (role +:+ ": step failed " +:+ shown (length fails) +:+ "x; last: " +:+ so_reason out) "high"
    else mret tt.

(** src/valops/controller/runner.py:266-282 Runner._bundle_problem *)
Definition bundle_problem (rec : record) : RM bool :=
  bid ← lift (of_opt (r_bundle_id rec) (PyExc "TypeError"));
  g ← registry_ N;
  reason ← lift (verify g bid);
  match reason with
  | Some reason =>
      _ ← (if substr "revoked" reason then hand_off N rec ("bound bundle revoked (RB-4): " +:+ reason) "critical"
           else _ ← flag_set N ("bound bundle " +:+ stake 12 bid +:+ " fails verification: " +:+ reason);
                alert N "critical" "Bundle integrity failure: observe-only (RB-3)" reason (VStr (r_episode_id rec)) (VStr ("integrity:" +:+ bid)));
      mret true
  | None =>
      match superseded_at g bid with
      | Some sup =>
          if terminal (r_state rec) then mret false
          else
            b ← lift (load_bundle g bid);
            t ← now_ N;
            p12 ← lift (th ← thresholds (n_yaml N) b; threshold th "P-12");
            if Qltb (p12 * 3600) (t - sup) then _ ← hand_off N rec "bundle drain deadline exceeded (P-12)" "high"; mret true
            else mret false
      | None => mret false
      end
  end.

(** src/valops/controller/runner.py:336-347 Runner._closure *)
Definition closure (rec : record) (b : Bundle) (pf : Preflight) : RM unit :=
  if existsb (λ r : report, String.eqb (rp_kind r) "closure") (r_reports rec) then mret tt
  else
    let fails := List.filter (λ s : step, String.eqb (sp_role s) REPORT && py_eq (sp_state s) (VStr "resolved") &&
                                          String.eqb (sp_outcome s) "failed") (r_steps rec) in
    p08 ← lift (th ← thresholds (n_yaml N) b; threshold_int th "P-08");
    if (p08 <? Z.of_nat (length fails))%Z
    then alert N "warning" "Closure report could not be produced" ("episode " +:+ r_episode_id rec) (VStr (r_episode_id rec))
           (VStr ("closure-failed:" +:+ r_episode_id rec))
    else if negb (llm_allowed pf) then mret tt
    else _ ← run_step rec REPORT b "closure"; mret tt.

(** The role that works in a state. *)
Definition role_of (state : option string) : option string :=
  s ← state; dget [("diagnosing", DIAG); ("recommending", PLAN); ("judging", JUDGE); ("reporting", REPORT)] s.

(** [all(h["status"] == "refuted" ...)] over the hypotheses of the top one's session. *)
Definition refuted_all (rec : record) : bool :=
  let session := opt_val (λ h : hypothesis, h_step_session h) (top_hypothesis rec) in
  forallb (λ h : hypothesis, String.eqb (h_status h) "refuted")
    (List.filter (λ h : hypothesis, py_eq (h_step_session h) session) (r_hypotheses rec)).

(** The reasons of a hand-off after the last retry. *)
Fixpoint fail_reasons (vs : list verdict) : result exn (list string) :=
  match vs with
  | [] => Ok []
  | x :: vs' => names ← failed_checks (vd_checks x); rest ← fail_reasons vs';
               Ok ((vd_target_id x +:+ ": " +:+ join ", " names) :: rest)
  end.

(** src/valops/controller/runner.py:310-334 Runner.advance

    The branch after a step that left its artefact. *)
Definition after_success (rec : record) (state : string) (b : Bundle) : RM unit :=
  if String.eqb state "diagnosing" then
      match r_recovery rec with
      | _ :: _ => _ ← transition N rec "reporting" "recovery observed"; mret tt
      | [] => if refuted_all rec then _ ← transition N rec "reporting" "all hypotheses refuted"; mret tt
              else _ ← transition N rec "recommending" "hypotheses validated"; mret tt
      end
  else if String.eqb state "recommending" then _ ← transition N rec "judging" "artefact validated"; mret tt
  else if String.eqb state "judging" then
      v ← lift ((λ v : verdict, vd_result v) <$> of_opt (list.last (r_verdicts rec)) (PyExc "IndexError"));
      if String.eqb v "PASS" then _ ← transition N rec "reporting" "Judge PASS"; mret tt
      else
        let fails := List.filter (λ x : verdict, String.eqb (vd_result x) "FAIL") (r_verdicts rec) in
        th ← lift (thresholds (n_yaml N) b);
        p09 ← lift (threshold_int th "P-09");
        if (Z.of_nat (length fails) <=? p09)%Z then
          shown_p09 ← lift (vindex th "P-09");
          _ ← transition N rec "recommending" ("Judge FAIL " +:+ shown (length fails) +:+ "/" +:+ py_str shown_p09); mret tt
        else
          reasons ← lift (fail_reasons fails);
          hand_off N rec ("Judge FAIL retries exhausted (R-3). FAIL reasons: " +:+ join "; " reasons) "high"
  else if String.eqb state "reporting" then
      _ ← transition N rec "awaiting_operator" "report written and alert dispatched"; mret tt
  else mret tt.

(** [try: m except AssertionError: h] *)
Definition catch_assertion {A} (m : RM A) (h : RM A) : RM A :=
  catch m (λ e, match e with PyExc cls => if String.eqb cls "AssertionError" then h else raise e | _ => raise e end).

(** src/valops/controller/runner.py:284-334 Runner.advance *)
Definition advance (eid : string) (pf : Preflight) : RM unit :=
  rec ← read_record N eid;
  if bool_decide (r_state rec = Some "handed_off") || bool_decide (r_state rec = Some "awaiting_operator") then mret tt else
  problem ← bundle_problem rec;
  if problem : bool then mret tt else
  g ← registry_ N;
  bid ← lift (of_opt (r_bundle_id rec) (PyExc "TypeError"));
  b ← lift (load_bundle g bid);
  if bool_decide (r_state rec = Some "resolved") then closure rec b pf
  else if negb (llm_allowed pf) then mret tt
  else if bool_decide (r_state rec = Some "open") then _ ← transition N rec "diagnosing" "bundle verified; LLM path available"; mret tt
  else
    role ← lift (of_opt (role_of (r_state rec)) (PyExc "KeyError"));
    out ← catch_assertion (out ← run_step rec role b "incident"; mret (Some out))
            (rec ← read_record N eid; _ ← hand_off N rec "judge isolation check failed" "critical"; mret None);
    match out with
    | None => mret tt
    | Some out =>
        if so_ok out then rec' ← read_record N eid; after_success rec' (rec_state rec) b
        else after_failure rec role out b
    end.

(** ** The loop *)
(** The body of [tick]'s [for]: what [advance] raised is turned into a hand-off, or left
    to the next tick. *)
Definition give_over (eid reason : string) : RM unit :=
  catch_rpc (rec ← read_record N eid; hand_off N rec reason "high") (λ _, mret tt).
Definition tick_episode (pf : Preflight) (ep : summary) : RM unit :=
  if bool_decide (su_state ep = Some "handed_off") then mret tt
  else
    catch (advance (su_episode_id ep) pf) (λ e,
      match e with
      | RpcError code _ => if str_in code ["unavailable"; "audit_unavailable"] then mret tt
                           else give_over (su_episode_id ep) ("controller error: " +:+ code)
      | PyExc cls => give_over (su_episode_id ep) ("controller exception: " +:+ cls)
      end).

(** src/valops/controller/runner.py:349-375 Runner.tick *)
Definition tick : RM unit :=
  pf ← preflight;
  eps ← catch_rpc (r ← store_rpc N "list_episodes" [("nonterminal_only", VBool false)];
                   match r with ReplyList l => mret (Some l) | _ => raise (PyExc "TypeError") end)
                  (λ code, _ ← alert N "high" "Episode store unavailable (RB-7)" code VNone VNone; mret None);
  match eps with
  | None => mret tt
  | Some l => for_each (tick_episode pf) l
  end.

(** src/valops/controller/runner.py:377-387 Runner.loop

    One turn of the loop; the state between turns is the time of the last verification.
    Waiting between turns is not modelled, nor the stop event. *)
Definition loop_turn (interval : Q) (last_verify : Q) : RM Q :=
  t ← now_ N;
  last' ← (if Qltb interval (t - last_verify)
           then _ ← catch (_ ← verify_chain_now; mret tt) (λ _, mret tt); now_ N
           else mret last_verify);
  _ ← tick;
  mret last'.
Fixpoint loop (n : nat) (interval last_verify : Q) : RM Q :=
  match n with
  | O => mret last_verify
  | S n' => last' ← loop_turn interval last_verify; loop n' interval last'
  end.
End runner.
