(* ===== verification/RunnerSteps.v ===== *)
(** * What every computation of the runner preserves

    A relation [R] between the worlds before and after a computation, given the events
    [P] it may log: that it is a preorder, that logging such an event and changing the
    runner's own notes respect it, and that a request to the store whose event is in [P]
    does. Every function of the runner then respects it; the theorems instantiate [R] and
    [P] with relations on the store and on the trace. *)
From S2P Require Import Prelude PyVal Schema Canonical Json PyConv Tools Transitions Tokens Rpc Fold Store AuditChain AuditClient Bundle Artefacts Control Runner.

(** Events of a step's own: the session it opens, its worker's home and launch. *)
Definition llm_event (e : event) : bool :=
  match e with
  | EvRpc service method _ => String.eqb method "open_session" && String.eqb service "model_broker"
  | EvHome _ _ _ | EvLaunch _ _ _ | EvCleanup _ => true
  | EvStore _ _ | EvRegistry => false
  end.
(** The same for one session. *)
Definition in_session (session : string) (e : event) : bool :=
  llm_event e && match e with
                 | EvHome s _ _ | EvLaunch s _ _ | EvCleanup s => String.eqb s session
                 | EvRpc _ _ params => py_eq (dget_none params "session_id") (VStr session)
                 | _ => true
                 end.
(** Of the store's methods the runner calls four beside [set_state]. *)
Definition store_event (e : event) : bool :=
  match e with EvStore method _ => str_in method ["read_episode"; "list_episodes"; "append_cost"; "append_step"] | _ => true end.
(** Of the other services' methods, these. *)
Definition runner_asks : list (string * list string) :=
  [("report_sys", ["system_alert"; "alerts_for"]); ("audit", ["submit"; "status"]); ("model_broker", ["ping"; "open_session"; "close_session"])].
Definition rpc_event (N : surroundings) (e : event) : bool :=
  match e with
  | EvRpc service method _ =>
      asks runner_asks service method || (str_in service (n_admins N) && str_in method ["ping"; "revoke_session"])
  | _ => true
  end.
Definition tame (N : surroundings) (e : event) : bool := negb (llm_event e) && (store_event e && rpc_event N e).
Lemma tame_inv N e : tame N e = true → llm_event e = false ∧ store_event e = true ∧ rpc_event N e = true.
Proof. intros [Hl%negb_true_iff [Hs Hr]%andb_true_iff]%andb_true_iff. done. Qed.

Lemma readonly_trace_of : readonly trace_of.
Proof. unfold trace_of. auto with valops. Qed.
#[local] Hint Resolve readonly_trace_of : valops.
Lemma readonly_now N : readonly (now_ N).
Proof. unfold now_. auto with valops. Qed.
#[local] Hint Resolve readonly_now : valops.

Section runner_steps.
Context `{HASH : Hash} (N : surroundings) (R : relation world) `{HR : !PreOrder R} (P : event → Prop).
Context (R_log : ∀ e w, P e → R w (log_event e w))
  (R_local : ∀ w a f, w_flag w = f ∨ w_flag w = None → R w (mkWorld (w_store w) (w_trace w) a f))
  (R_store : ∀ method params, P (EvStore method params) → respects R (store_rpc N method params))
  (P_tame : ∀ e, tame N e = true → P e).

Definition on_world (x y : world * locals) : Prop := R x.1 y.1.
#[local] Instance on_world_preorder : PreOrder on_world.
Proof using HR. split; [intros x; exact (@PreOrder_Reflexive _ R HR x.1) | intros x y z H1 H2; exact (@PreOrder_Transitive _ R HR _ _ _ H1 H2)]. Qed.

Lemma respects_log e : P e → respects R (modify (log_event e) : RM unit).
Proof using R_log. intros He. apply respects_modify. intros w. by apply R_log. Qed.
Lemma respects_notes f : (∀ w, ∃ a fl, f w = mkWorld (w_store w) (w_trace w) a fl ∧ (w_flag w = fl ∨ w_flag w = None)) →
  respects R (modify f : RM unit).
Proof using R_local. intros Hf. apply respects_modify. intros w. destruct (Hf w) as (a & fl & -> & Hfl). by apply R_local. Qed.
Lemma respects_in_world {A} (m : RM A) : respects R m → respects on_world (in_world m).
Proof using Type. intros Hm [w l] r [w' l'] H. cbn in H. destruct (m w) as [r0 w0] eqn:Hrun. injection H as <- <- <-. by eapply Hm. Qed.
Lemma respects_with_locals {A} (m : LM A) : respects on_world m → respects R (with_locals m).
Proof using Type.
  intros Hm w r w' H. unfold with_locals in H. destruct (m _) as [r0 [w0 l]] eqn:Hrun. injection H as <- <-.
  exact (Hm _ _ _ Hrun).
Qed.
Lemma respects_local f : respects on_world (local f).
Proof using HR. intros [w l] r [w' l'] [= _ <- _]. exact (PreOrder_Reflexive w). Qed.
Lemma respects_for_each {A} (f : A → RM unit) l : (∀ x, x ∈ l → respects R (f x)) → respects R (for_each f l).
Proof using HR.
  induction l as [|x l IH]; intros Hf; cbn [for_each]; [by apply respects_readonly|].
  apply (respects_bind R (λ _, True)); [apply Hf; left|done|intros _ _]. apply IH. intros y Hy. apply Hf. by right.
Qed.
Lemma respects_catch_rpc {A} (m : RM A) h : respects R m → (∀ c, respects R (h c)) → respects R (catch_rpc m h).
Proof using HR.
  intros Hm Hh. apply respects_catch; [done|done|]. intros [code data|cls]; [apply Hh|]. by apply respects_readonly.
Qed.
Lemma respects_rpc service method params : P (EvRpc service method params) → respects R (rpc N service method params).
Proof using R_log HR.
  intros He. apply (respects_bind R (λ _, True)); [by apply respects_log|done|intros _ _]. by apply respects_readonly.
Qed.
(** A request to a broker whose admin socket the runner has. *)
Lemma respects_admin name method : name ∈ n_admins N → str_in method ["ping"; "revoke_session"] = true → llm_event (EvRpc name method []) = false →
  ∀ params, respects R (rpc N name method params).
Proof using R_log HR P_tame.
  intros Hn Hm Hl params. apply respects_rpc, P_tame. unfold tame. cbn in Hl. cbn [llm_event]. rewrite Hl. cbn [negb andb store_event rpc_event].
  rewrite (proj2 (str_in_spec _ _) Hn), Hm. apply orb_true_r.
Qed.
Lemma respects_registry : respects R (registry_ N).
Proof using R_log HR P_tame.
  apply (respects_bind R (λ _, True)); [by apply respects_log, P_tame|done|intros _ _]. by apply respects_readonly.
Qed.

(** Takes a computation of the runner apart; [auto] closes its basic steps. *)
Ltac steps := repeat lazymatch goal with
  | |- respects _ (_ ≫= _) => first [apply (respects_bind R (λ _, True)) | apply (respects_bind on_world (λ _, True))]; [|done|intros ? _]
  | |- respects _ (match ?x with _ => _ end) => destruct x
  | |- respects R (catch_rpc _ _) => apply respects_catch_rpc; [|intros ?]
  | |- respects _ (catch _ _) => apply respects_catch; [typeclasses eauto| |intros ?]
  | |- respects R (for_each _ _) => apply respects_for_each; intros ? ?
  | |- respects on_world (in_world _) => apply respects_in_world
  | |- respects on_world (local _) => apply respects_local
  | |- respects _ (let _ := _ in _) => cbv zeta
  | |- respects _ _ => first [apply respects_readonly; [typeclasses eauto|solve [auto 10 with valops]] | solve [auto]]
  end.

Lemma respects_alert a b c d e : respects R (alert N a b c d e).
Proof using All. unfold alert. steps. by apply respects_rpc, P_tame. Qed.
Lemma respects_audit event eid d p : respects R (audit N event eid d p).
Proof using All. unfold audit. steps. by apply respects_rpc, P_tame. Qed.
Lemma respects_read_record eid : respects R (read_record N eid).
Proof using All. unfold read_record. steps. Qed.
Lemma respects_flag_set reason : respects R (flag_set N reason).
Proof using All. unfold flag_set. steps. apply respects_notes. intros w. eexists _, _. split; [done|]. destruct (w_flag w); auto. Qed.

Lemma respects_transition rec to reason :
  P (EvStore "set_state" (transition_params rec to reason)) → respects R (transition N rec to reason).
Proof using All.
  intros HP. unfold transition. steps. apply respects_audit.
Qed.
Lemma respects_hand_off rec reason severity :
  P (EvStore "set_state" (transition_params rec "handed_off" reason)) → respects R (hand_off N rec reason severity).
Proof using All. intros HP. unfold hand_off. steps; [by apply respects_transition | apply respects_alert]. Qed.

Lemma respects_preflight : respects R (preflight N).
Proof using All.
  unfold preflight, preflight_run. steps; try apply respects_registry; try apply respects_flag_set; try apply respects_alert;
    try (apply respects_notes; intros w; eexists _, _; split; [done|by left]); try (by apply respects_rpc, P_tame).
  assert (∀ name, name ∈ "model_broker" :: n_admins N → respects R (rpc N name "ping" [])) as Hping.
  { intros name [->|Hn]%elem_of_cons; [by apply respects_rpc, P_tame|by apply respects_admin]. }
  revert Hping. generalize ("model_broker" :: n_admins N). intros names.
  induction names as [|name names IH]; intros Hping; cbn [pings]; unfold ping; steps;
    [apply Hping; left|apply IH; intros; apply Hping; by right].
Qed.

Lemma respects_verify_chain : respects R (verify_chain_now N).
Proof using All. unfold verify_chain_now. steps; [apply respects_flag_set | apply respects_alert]. Qed.

Lemma respects_bundle_problem rec :
  (∀ reason, P (EvStore "set_state" (transition_params rec "handed_off" reason))) → respects R (bundle_problem N rec).
Proof using All.
  intros HP. unfold bundle_problem.
  steps; auto using respects_registry, respects_hand_off, respects_flag_set, respects_alert.
Qed.

Lemma respects_after_failure rec role out b :
  (∀ rec' reason, P (EvStore "set_state" (transition_params rec' "handed_off" reason))) →
  respects R (after_failure N rec role out b).
Proof using All.
  intros HP. unfold after_failure. steps; auto using respects_read_record, respects_hand_off.
Qed.

Lemma respects_give_over eid reason :
  (∀ rec' reason, P (EvStore "set_state" (transition_params rec' "handed_off" reason))) → respects R (give_over N eid reason).
Proof using All. intros HP. unfold give_over. steps; auto using respects_read_record, respects_hand_off. Qed.

(** *** Steps *)
Lemma respects_validate role eid session kind structured : respects R (validate N role eid session kind structured).
Proof using All. unfold validate. steps; auto using respects_read_record. by apply respects_rpc, P_tame. Qed.

Lemma respects_input_view rec role : respects R (input_view N rec role).
Proof using All. unfold input_view. steps. Qed.

Lemma respects_revoke session : respects R (revoke_everywhere N session).
Proof using All. unfold revoke_everywhere. steps. by apply respects_admin. Qed.

Lemma respects_outcome rec role kind session conf_name th r l meter :
  respects R (step_outcome N rec role kind session conf_name th r l meter).
Proof using All. unfold step_outcome. steps; auto using respects_validate. Qed.

Lemma respects_charge eid role session conf_name meter : respects R (charge N eid role session conf_name meter).
Proof using All. unfold charge. steps. Qed.

Section session.
Context (session : string) (P_session : ∀ e, in_session session e = true → P e).

Lemma respects_settle eid role conf_name l : respects R (settle N eid role session conf_name l).
Proof using All.
  unfold settle. steps; auto using respects_audit, respects_charge.
  - by apply respects_rpc, P_tame.
  - apply respects_log, P_session. apply String.eqb_refl.
Qed.
Lemma respects_cleanup eid role conf_name l : respects R (step_cleanup N eid role session conf_name l).
Proof using All. unfold step_cleanup. steps; auto using respects_revoke, respects_settle. Qed.

Lemma respects_step_body rec role b kind token conf_name conf :
  respects on_world (step_body N rec role b kind session token conf_name conf).
Proof using All.
  unfold step_body. steps; auto using respects_input_view, respects_audit;
    try (apply respects_log, P_session, String.eqb_refl).
  apply respects_rpc, P_session. apply String.eqb_refl.
Qed.
End session.

Section llm.
Context (P_llm : ∀ e, llm_event e = true → P e).
Lemma session_llm session e : in_session session e = true → P e.
Proof using P_llm. intros [He _]%andb_true_iff. by apply P_llm. Qed.

Lemma respects_run_step rec role b kind : respects R (run_step N rec role b kind).
Proof using All.
  unfold run_step. pose proof session_llm. steps; eauto using respects_audit, respects_cleanup, respects_outcome.
  apply respects_with_locals. eapply respects_step_body; eauto.
Qed.

Lemma respects_closure rec b pf : respects R (closure N rec b pf).
Proof using All. unfold closure. steps; auto using respects_alert, respects_run_step. Qed.
End llm.

(** *** The loop, from what [advance] does *)
Section hand_offs.
Context (P_hand : ∀ rec reason, P (EvStore "set_state" (transition_params rec "handed_off" reason))).

Lemma respects_tick_episode pf ep : respects R (advance N (su_episode_id ep) pf) → respects R (tick_episode N pf ep).
Proof using All. intros Ha. unfold tick_episode. steps; auto using respects_give_over. Qed.

Lemma respects_episodes : respects R (catch_rpc
  (r ← store_rpc N "list_episodes" [("nonterminal_only", VBool false)];
   match r with ReplyList l => mret (Some l) | _ => raise (PyExc "TypeError") end)
  (λ code, _ ← alert N "high" "Episode store unavailable (RB-7)" code VNone VNone; mret None)).
Proof using All. steps. apply respects_alert. Qed.

Lemma respects_tick : (∀ eid pf, respects R (advance N eid pf)) → respects R (tick N).
Proof using All.
  intros Ha. unfold tick. apply (respects_bind R (λ _, True)); [apply respects_preflight|done|intros pf _].
  apply (respects_bind R (λ _, True)); [apply respects_episodes|done|intros eps _].
  steps. by apply respects_tick_episode.
Qed.

Lemma respects_loop n interval last_verify : (∀ eid pf, respects R (advance N eid pf)) → respects R (loop N n interval last_verify).
Proof using All.
  intros Ha. revert last_verify. induction n as [|n IH]; intros last_verify; cbn [loop]; [steps|]. unfold loop_turn.
  steps; auto using respects_verify_chain, respects_tick.
Qed.
End hand_offs.

(** [advance], where every move is allowed for. *)
Lemma respects_advance eid pf : (∀ e, llm_event e = true → P e) →
  (∀ rec to reason, P (EvStore "set_state" (transition_params rec to reason))) → respects R (advance N eid pf).
Proof using All.
  intros P_llm P_move. unfold advance, catch_assertion, after_success.
  steps; auto using respects_read_record, respects_bundle_problem, respects_registry, respects_closure, respects_transition,
    respects_run_step, respects_hand_off, respects_after_failure.
Qed.
End runner_steps.
