(* ===== verification/RunnerProps.v ===== *)
(** * The runner and the store together

    The controller's requests, in a world where the store's other clients act between any
    two of them: what a step does to an episode, what a move is based on. *)
From S2P Require Import Prelude PyVal Schema Canonical Json PyConv Tools Transitions Tokens Rpc Fold Store StoreSpec StoreInv StoreProps Moves.
From S2P Require Import AuditChain AuditClient Bundle Artefacts Control Runner RunnerSteps.

(** ** Requests of the controller *)
(** A request at the controller's endpoint, run as the method it names. *)
Lemma store_serves_run N v method params s :
  String.eqb method "rpc.methods" = false →
  store_serves N v (request_line method params) s =
  match find_first (λ ep, String.eqb (ep_name ep) "store-control") (endpoints v (λ _, [n_uid N])) ≫= λ ep, dget (ep_methods ep) method with
  | None => (Err (rpc_error "unknown_method"), s)
  | Some fn => match fn (mkCtx "store-control" "controller" (n_uid N) 0) (strip_identity params) s with
               | (Ok r, s') => (Ok r, s')
               | (Err (RpcError c d), s') => (Err (RpcError c d), s')
               | (Err (PyExc _), s') => (Err (rpc_error "internal"), s')
               end
  end.
Proof.
  intros Hm. unfold store_serves, serves_at.
  assert (∃ ep, find_first (λ ep, String.eqb (ep_name ep) "store-control") (endpoints v (λ _, [n_uid N])) = Some ep ∧
    ep_name ep = "store-control" ∧ ep_principal ep = "controller" ∧ ep_allowed_uids ep = [n_uid N]) as (ep & -> & Hn & Hp & Hu)
    by (eexists; split_and!; reflexivity).
  unfold handle. rewrite Hu, Hn, Hp. cbn [existsb]. rewrite Z.eqb_refl. cbn [orb mbind option_bind]. unfold dispatch, request_line.
  assert (py_or (VDict params) (VDict []) = VDict params) as Hor by (unfold py_or; by destruct params).
  unfold dget_none. cbn [dget String.eqb Ascii.eqb Bool.eqb default from_option id]. rewrite Hor.
  cbn [py_eq]. rewrite Hm. cbn [hashable negb as_str mbind option_bind ep_methods ep_name ep_principal].
  destruct (dget _ method) as [fn|]; [|done].
  destruct (fn _ _ s) as [[r|[c d|cls]] s']; done.
Qed.

Lemma store_serves_request N v line s r s' : dget (s_records s) (v_uuid v) = None →
  store_serves N v line s = (r, s') → s' = s ∨ srequest s s'.
Proof.
  intros Hu H. unfold store_serves, serves_at in H. destruct (find_first _ _) as [ep|] eqn:Hep; [|injection H as _ <-; by left].
  apply find_first_Some in Hep as [Hep _]. destruct (handle _ _ _ _ _) as [resp s1] eqn:Hh. injection H as _ <-.
  right. by eapply sreq_handle.
Qed.

Definition control_method (N : surroundings) (v : env) (method : string) : option (Ctx → dict → M store exn reply) :=
  find_first (λ ep, String.eqb (ep_name ep) "store-control") (endpoints v (λ _, [n_uid N])) ≫= λ ep, dget (ep_methods ep) method.
Definition replied_val (h : Ctx → dict → SM val) : Ctx → dict → M store exn reply := λ ctx p, x ← h ctx p; mret (ReplyVal x).

Lemma control_methods N v :
  control_method N v "append_cost" = Some (replied_val (append_cost v)) ∧
  control_method N v "append_step" = Some (replied_val (append_step v)) ∧
  control_method N v "set_state" = Some (replied_val (set_state v)) ∧
  control_method N v "read_episode" = Some (λ ctx p, x ← control_read v ctx p; mret (ReplyRead x)) ∧
  control_method N v "list_episodes" = Some (λ ctx p, x ← list_episodes v ctx p; mret (ReplyList x)).
Proof. split_and!; reflexivity. Qed.

(** The state a served request leaves is the one its method left. *)
Lemma store_serves_method N v method params s fn r s' :
  String.eqb method "rpc.methods" = false → control_method N v method = Some fn →
  store_serves N v (request_line method params) s = (r, s') →
  ∃ r0, fn (mkCtx "store-control" "controller" (n_uid N) 0) (strip_identity params) s = (r0, s') ∧
    (∀ x, r = Ok x → r0 = Ok x) ∧ (∀ x, r0 = Ok x → r = Ok x).
Proof.
  intros Hm Hfn H. rewrite store_serves_run in H by done. fold (control_method N v method) in H. rewrite Hfn in H.
  destruct (fn _ _ s) as [[x|[c d|cls]] s1]; injection H as <- <-; eexists; (split; [done|]); split; intros; congruence.
Qed.

Section served.
Context (J : record → string → Prop) (N : surroundings).

Lemma refined_quiet {A} v (res : result exn A) s s' kd :
  inv s → (s' = s ∨ srequest s s') → refined v res s s' (writes kd) →
  kd ≠ "state" → quiet J s s'.
Proof.
  intros Hinv [->|Hreq]; [intros _ _; apply quiet_refl|].
  intros [->|(l & Hl & _ & _ & k & b & who & aref & -> & Hkd)] Hne; [apply quiet_refl|].
  eapply sstep_quiet; [done|done|]. destruct b; cbn in *; congruence || tauto.
Qed.

Lemma store_serves_quiet v method params s r s' :
  str_in method ["read_episode"; "list_episodes"; "append_cost"; "append_step"] = true →
  dget (s_records s) (v_uuid v) = None → store_serves N v (request_line method params) s = (r, s') → quiet J s s'.
Proof.
  intros Hm%str_in_spec Hu H Hinv. enough (quiet J s s') as Hq by exact (Hq Hinv).
  pose proof (store_serves_request _ _ _ _ _ _ Hu H) as Hreq. pose proof (inv_keyed _ Hinv) as Hkeyed.
  destruct (control_methods N v) as (H1 & H2 & _ & H4 & H5). rewrite !elem_of_cons in Hm.
  destruct Hm as [->|[->|[->|[->|Hm]]]]; [..|by apply not_elem_of_nil in Hm];
    (eapply store_serves_method in H as (r0 & Hrun & _); [|done|eassumption]).
  - apply bind_mret_run in Hrun as (r' & Hrun & _). apply readonly_at in Hrun; [|apply control_read_readonly].
    subst. apply quiet_refl.
  - apply bind_mret_run in Hrun as (r' & Hrun & _). apply readonly_at in Hrun; [|apply list_episodes_readonly].
    subst. apply quiet_refl.
  - apply bind_mret_run in Hrun as (r' & Hrun & _). eapply append_cost_refined in Hrun; [|done]. by eapply refined_quiet.
  - apply bind_mret_run in Hrun as (r' & Hrun & _). eapply append_step_refined in Hrun; [|done]. by eapply refined_quiet.
Qed.
End served.

Lemma store_serves_swap N v rec to reason s r s' : inv s →
  store_serves N v (request_line "set_state" (transition_params rec to reason)) s = (r, s') →
  s' = s ∨ ∃ rec1 aref, dget (s_records s) (r_episode_id rec) = Some rec1 ∧ r_revision rec1 = r_revision rec ∧
    sstep s (LAppend (r_episode_id rec) (BState (r_state rec1) to (VStr reason)) "controller" aref) s'.
Proof.
  intros Hinv H. destruct (control_methods N v) as (_ & _ & H3 & _ & _).
  eapply store_serves_method in H as (r0 & Hrun & _); [|done|exact H3].
  apply bind_mret_run in Hrun as (r' & Hrun & _).
  apply set_state_swap in Hrun as [->|(k & rec1 & to' & aref & Hk & Hid & Hto & Hrev & Hs)]; [by left| |by apply inv_keyed].
  right. cbn in Hid, Hto, Hrev, Hs. injection Hid as ->. injection Hto as ->. exists rec1, aref. split_and!; [done| |done].
  apply Qeq_bool_eq in Hrev. unfold Qeq in Hrev. cbn in Hrev. lia.
Qed.

(** What the runner may do to a store: requests that keep the moves justified. *)
Definition moving (J : record → string → Prop) (s s' : store) : Prop :=
  inv s → inv s' ∧ rtc srequest s s' ∧ (moves_ok J s → moves_ok J s').
#[export] Instance moving_preorder J : PreOrder (moving J).
Proof.
  split; [intros s Hs; done|]. intros s1 s2 s3 H12 H23 Hs. destruct (H12 Hs) as (Hs2 & Hr & Hm), (H23 Hs2) as (Hs3 & Hr' & Hm').
  split_and!; [done|by etrans|by auto].
Qed.
Lemma quiet_moving J s s' : quiet J s s' → moving J s s'.
Proof. intros Hq Hs. destruct (Hq Hs) as (? & ? & ? & _). done. Qed.

Section together.
Context `{HASH : Hash} (N : surroundings) (J : record → string → Prop).
(** The other clients reach the store at their own endpoints only; fresh uuids are fresh;
    any record may be handed off. *)
Context (Hothers : ∀ tr s, rtc foreign s (n_others N tr s))
  (Huuid : ∀ tr s v lost, n_store N tr s = Some (v, lost) → dget (s_records s) (v_uuid v) = None)
  (Hhand : ∀ rec, J rec "handed_off").

Definition wquiet (w w' : world) : Prop := quiet J (w_store w) (w_store w').
Definition wmoving (w w' : world) : Prop := moving J (w_store w) (w_store w').
#[export] Instance wquiet_preorder : PreOrder wquiet.
Proof. split; [intros w; apply quiet_refl | intros w1 w2 w3; apply quiet_preorder]. Qed.
#[export] Instance wmoving_preorder : PreOrder wmoving.
Proof. split; [intros w; apply moving_preorder | intros w1 w2 w3; apply moving_preorder]. Qed.

Lemma others_quiet tr s : quiet J s (n_others N tr s).
Proof using Hothers.
  induction (Hothers tr s) as [s0|s0 s1 s2 H _ IH]; [apply quiet_refl|]. etrans; [by apply foreign_quiet|exact IH].
Qed.

(** A call to the store: the others act, then the store serves it, or not. *)
Lemma store_rpc_cases method params w r w' : store_rpc N method params w = (r, w') →
  ∃ s1, quiet J (w_store w) s1 ∧
    ((w_store w' = s1 ∧ is_ok r = false) ∨ ∃ v r0, dget (s_records s1) (v_uuid v) = None ∧
       store_serves N v (request_line method params) s1 = (r0, w_store w') ∧ (∀ x, r = Ok x → r0 = Ok x)).
Proof using Hothers Huuid.
  intros H. unfold store_rpc in H. rewrite modify_bind, get_bind in H.
  cbv zeta in H. set (w1 := log_event _ w) in *. set (s1 := n_others N _ _) in *. exists s1. split; [apply (others_quiet (w_trace w1) (w_store w))|].
  destruct (n_store N (w_trace w1) s1) as [[v lost]|] eqn:Hst.
  - right. exists v. destruct (store_serves N v (request_line method params) s1) as [r0 s2] eqn:Hs. exists r0.
    rewrite modify_bind in H.
    split; [by eapply Huuid|]. destruct lost; injection H as <- <-; done.
  - left. rewrite modify_bind in H. by injection H as <- <-.
Qed.

Definition quiet_event (e : event) : Prop := store_event e = true.
Lemma store_rpc_quiet method params : quiet_event (EvStore method params) → respects wquiet (store_rpc N method params).
Proof using Hothers Huuid.
  intros He w r w' H. apply store_rpc_cases in H as (s1 & Hq & [[Hs _]|(v & r0 & Hu & Hs & _)]).
  - unfold wquiet. by rewrite Hs.
  - unfold wquiet. etrans; [exact Hq|]. by eapply store_serves_quiet.
Qed.

(** A move requested from a record read earlier. *)
Definition known (rec : record) (w : world) : Prop :=
  ∃ s0, inv s0 ∧ rtc srequest s0 (w_store w) ∧ dget (s_records s0) (r_episode_id rec) = Some rec.

Lemma move_moving rec to reason w r w' :
  (J rec to ∧ known rec w) ∨ to = "handed_off" → store_rpc N "set_state" (transition_params rec to reason) w = (r, w') → wmoving w w'.
Proof using Hothers Huuid Hhand.
  intros HJ H Hinv. apply store_rpc_cases in H as (s1 & Hq & Hc). destruct (Hq Hinv) as (Hinv1 & Hr1 & Hm1 & _).
  destruct Hc as [[Hs _]|(v & r0 & Hu & Hs & _)]; [by rewrite Hs|].
  pose proof (store_serves_request _ _ _ _ _ _ Hu Hs) as Hreq.
  destruct (store_serves_swap _ _ _ _ _ _ _ _ Hinv1 Hs) as [Heq|(rec1 & aref & Hk & Hrev & Hstep)]; [by rewrite Heq|].
  destruct Hreq as [Heq|Hreq]; [by rewrite Heq|]. split_and!; [by eapply srequest_inv|by eapply rtc_r|].
  intros Hok. eapply sstep_moves; [done|done|by apply Hm1|]. intros k frm to' why aref' rec' [= <- <- <- <- <-] Hk'.
  assert (rec1 = rec') as <- by congruence. destruct HJ as [[HJ (s0 & Hinv0 & Hr0 & Hk0)] | ->]; [|apply Hhand].
  assert (rec1 = rec) as ->; [|done]. eapply (read_is_current s0 s1); [done|by etrans|done|done|done].
Qed.

Lemma read_record_known eid w rec w' : inv (w_store w) → read_record N eid w = (Ok rec, w') →
  dget (s_records (w_store w')) eid = Some rec ∧ r_episode_id rec = eid ∧ known rec w'.
Proof using Hothers Huuid J.
  intros Hinv H. unfold read_record in H. apply bind_Ok in H as (x & w1 & H & Hx).
  destruct x as [| [|rec0] |]; try discriminate Hx. apply ret_Ok in Hx as [<- ->].
  apply store_rpc_cases in H as (s1 & Hq & [[_ Hr]|(v & r0 & Hu & Hs & Hok)]); [discriminate Hr|].
  destruct (Hq Hinv) as (Hinv1 & _). destruct (control_methods N v) as (_ & _ & _ & H4 & _).
  eapply store_serves_method in Hs as (r1 & Hrun & Hr1 & _); [|done|exact H4]. rewrite (Hr1 _ (Hok _ eq_refl)) in Hrun.
  apply bind_Ok in Hrun as (y & s2 & Hread & Hy). apply ret_Ok in Hy as [Hy Hs2]. injection Hy as <-.
  unfold control_read in Hread. apply bind_Ok in Hread as (rec1 & s3 & Hget & Hread).
  apply get_record_Ok in Hget as (k & Hid & Hk & ->). cbn in Hid. injection Hid as <-.
  apply ret_Ok in Hread as [Hread Hs]. injection Hread as <-. subst s2. rewrite Hs2.
  assert (r_episode_id rec = eid) as Hrid by (by apply (inv_keyed _ Hinv1)).
  split_and!; [done|done|]. exists s1. rewrite Hrid, Hs2. by split_and!.
Qed.

(** *** Moves from a record that was read *)
Definition from_record (rec : record) (w w' : world) : Prop :=
  inv (w_store w) → known rec w → wmoving w w' ∧ known rec w'.
#[local] Instance from_record_preorder rec : PreOrder (from_record rec).
Proof.
  split; [intros w Hw Hk; by split|]. intros w1 w2 w3 H12 H23 Hinv Hk. destruct (H12 Hinv Hk) as [Hm Hk2].
  destruct (Hm Hinv) as (Hinv2 & _). destruct (H23 Hinv2 Hk2) as [Hm' Hk3]. split; [by etrans|done].
Qed.
Lemma moving_from rec w w' : wmoving w w' → from_record rec w w'.
Proof.
  intros Hm Hinv (s0 & Hinv0 & Hr0 & Hk0). split; [done|]. exists s0. split_and!; [done| |done].
  etrans; [done|]. by destruct (Hm Hinv) as (_ & ? & _).
Qed.
Lemma from_moving rec w w' : inv (w_store w) → known rec w → from_record rec w w' → wmoving w w'.
Proof. intros Hinv Hk H. by destruct (H Hinv Hk). Qed.

(** What may be requested with [rec] in hand: a move it justifies, or a hand-off. *)
Definition move_event (rec : option record) (e : event) : Prop :=
  match e with
  | EvStore method params =>
      quiet_event e ∨ ∃ rec1 to reason, method = "set_state" ∧ params = transition_params rec1 to reason ∧
        ((rec = Some rec1 ∧ J rec1 to) ∨ to = "handed_off")
  | _ => True
  end.
Lemma move_event_tame rec e : tame N e = true → move_event rec e.
Proof. intros (_ & He & _)%tame_inv. destruct e; try done. by left. Qed.
Lemma move_event_hand_off rec rec1 reason : move_event rec (EvStore "set_state" (transition_params rec1 "handed_off" reason)).
Proof. right. exists rec1, "handed_off", reason. by split_and!; [..|right]. Qed.

Lemma store_rpc_from rec method params : move_event (Some rec) (EvStore method params) →
  respects (from_record rec) (store_rpc N method params).
Proof using Hothers Huuid Hhand.
  intros [Hq|(rec1 & to & reason & -> & -> & HJ)] w r w' H.
  - apply moving_from. eapply quiet_moving, store_rpc_quiet; done.
  - intros Hinv Hk. apply (moving_from rec); [|done|done]. eapply move_moving; [|exact H].
    destruct HJ as [[[= <-] HJ]| ->]; [by left|by right].
Qed.
Lemma store_rpc_moving method params : move_event None (EvStore method params) → respects wmoving (store_rpc N method params).
Proof using Hothers Huuid Hhand.
  intros [Hq|(rec1 & to & reason & -> & -> & HJ)] w r w' H.
  - eapply quiet_moving, store_rpc_quiet; done.
  - eapply move_moving; [|exact H]. destruct HJ as [[? _]| ->]; [done|by right].
Qed.

(** The steps of the runner, for the relations above. *)
Lemma same_store_moving w w' : w_store w' = w_store w → wmoving w w'.
Proof. unfold wmoving. intros ->. reflexivity. Qed.
Ltac sides := first
  [ done | typeclasses eauto | by intros; apply same_store_moving | by intros; apply moving_from, same_store_moving
  | by intros; unfold wquiet; cbn; reflexivity
  | by intros; apply store_rpc_from | by intros; apply store_rpc_moving | by intros; apply store_rpc_quiet
  | by intros; apply move_event_tame | by intros; apply move_event_hand_off ].

Lemma run_step_quiet rec role b kind : respects wquiet (run_step N rec role b kind).
Proof using HASH Hothers Huuid.
  apply (respects_run_step N wquiet (λ e, quiet_event e)); try sides.
  - intros e He. by apply tame_inv in He as (_ & He & _).
  - intros e He. by destruct e.
Qed.

Lemma bundle_problem_from rec : respects (from_record rec) (bundle_problem N rec).
Proof using HASH Hothers Huuid Hhand. apply (respects_bundle_problem N _ (move_event (Some rec))); sides. Qed.
Lemma transition_from rec to reason : J rec to → respects (from_record rec) (transition N rec to reason).
Proof using HASH Hothers Huuid Hhand.
  intros HJ. apply (respects_transition N _ (move_event (Some rec))); try sides.
  right. exists rec, to, reason. split_and!; [done|done|by left].
Qed.
Lemma hand_off_moving rec reason severity : respects wmoving (hand_off N rec reason severity).
Proof using HASH Hothers Huuid Hhand. apply (respects_hand_off N _ (move_event None)); sides. Qed.
Lemma read_record_moving eid : respects wmoving (read_record N eid).
Proof using HASH Hothers Huuid Hhand. apply (respects_read_record N _ (move_event None)); sides. Qed.
Lemma after_failure_moving rec role out b : respects wmoving (after_failure N rec role out b).
Proof using HASH Hothers Huuid Hhand. apply (respects_after_failure N _ (move_event None)); sides. Qed.
Lemma closure_moving rec b pf : respects wmoving (closure N rec b pf).
Proof using HASH Hothers Huuid Hhand. apply (respects_closure N _ (move_event None)); try sides. intros e He. by destruct e. Qed.
Lemma give_over_moving eid reason : respects wmoving (give_over N eid reason).
Proof using HASH Hothers Huuid Hhand. apply (respects_give_over N _ (move_event None)); sides. Qed.
Lemma preflight_moving : respects wmoving (preflight N).
Proof using HASH Hothers Huuid Hhand. apply (respects_preflight N _ (move_event None)); sides. Qed.
Lemma alert_moving a b c d e : respects wmoving (alert N a b c d e).
Proof using HASH Hothers Huuid Hhand. apply (respects_alert N _ (move_event None)); sides. Qed.
Lemma verify_chain_moving : respects wmoving (verify_chain_now N).
Proof using HASH Hothers Huuid Hhand. apply (respects_verify_chain N _ (move_event None)); sides. Qed.

(** Without a problem with the bundle, nothing was asked of the store. *)
Lemma registry_run w g w' : registry_ N w = (Ok g, w') → w_store w' = w_store w.
Proof. intros [= _ <-]. done. Qed.
Lemma bundle_problem_none rec w w' : bundle_problem N rec w = (Ok false, w') → w_store w' = w_store w.
Proof.
  unfold bundle_problem. intros H. apply bind_Ok in H as (bid & w1 & H1 & H). apply lift_Ok in H1 as [_ ->].
  apply bind_Ok in H as (g & w1 & H1 & H). apply registry_run in H1 as <-.
  apply bind_Ok in H as (reason & w2 & H1 & H). apply lift_Ok in H1 as [_ ->].
  destruct reason as [reason|]; [apply bind_Ok in H as (u & w2 & _ & H); by apply ret_Ok in H as [? _]|].
  destruct (superseded_at g bid) as [sup|]; [|by apply ret_Ok in H as [_ ->]].
  destruct (terminal (r_state rec)); [by apply ret_Ok in H as [_ ->]|].
  apply bind_Ok in H as (b & w2 & H1 & H). apply lift_Ok in H1 as [_ ->].
  apply bind_Ok in H as (t & w2 & H1 & H). apply readonly_at in H1; [|apply readonly_now]. subst w2.
  apply bind_Ok in H as (p12 & w2 & H1 & H). apply lift_Ok in H1 as [_ ->].
  destruct (Qltb _ _); [apply bind_Ok in H as (u & w2 & _ & H); by apply ret_Ok in H as [? _]|].
  by apply ret_Ok in H as [_ ->].
Qed.

Lemma catch_assertion_moving {A} (m h : RM A) : respects wmoving m → respects wmoving h → respects wmoving (catch_assertion m h).
Proof.
  intros Hm Hh. apply (respects_catch wmoving); [done|]. intros [c d|cls]; [by apply (respects_readonly wmoving)|].
  destruct (String.eqb cls "AssertionError"); [done|]. by apply (respects_readonly wmoving).
Qed.
End together.

(** ** What a move is based on *)
(** Out of [diagnosing] and [judging], where the next state depends on the outcome: the
    record the move applies to has the findings, or the verdict, that call for it. *)
Definition last_verdict (rec : record) : option string := (λ v : verdict, vd_result v) <$> list.last (r_verdicts rec).
Definition justified (rec : record) (to : string) : Prop :=
  (r_state rec = Some "diagnosing" → to = "recommending" → r_recovery rec = [] ∧ refuted_all rec = false) ∧
  (r_state rec = Some "diagnosing" → to = "reporting" → r_recovery rec ≠ [] ∨ refuted_all rec = true) ∧
  (r_state rec = Some "judging" → to = "reporting" → last_verdict rec = Some "PASS") ∧
  (r_state rec = Some "judging" → to = "recommending" → ∃ r, last_verdict rec = Some r ∧ r ≠ "PASS").

Lemma justified_hand_off rec : justified rec "handed_off".
Proof. by split_and!. Qed.
#[local] Instance from_preorder rec : PreOrder (from_record justified rec) := from_record_preorder justified rec.

Section gate.
Context `{HASH : Hash} (N : surroundings).
Context (Hothers : ∀ tr s, rtc foreign s (n_others N tr s))
  (Huuid : ∀ tr s v lost, n_store N tr s = Some (v, lost) → dget (s_records s) (v_uuid v) = None).

Lemma move_from rec to reason : justified rec to →
  respects (from_record justified rec) (_ ← transition N rec to reason; mret tt).
Proof using HASH Hothers Huuid.
  intros HJ. apply (respects_bind _ (λ _, True)); [|done|intros _ _; by apply (respects_readonly _)].
  by apply transition_from; [..|apply justified_hand_off|].
Qed.
Lemma lift_from {A} rec (r : result exn A) : respects (from_record justified rec) (lift r).
Proof. by apply (respects_readonly _). Qed.

Lemma after_success_from rec state b : r_state rec = Some state →
  respects (from_record justified rec) (after_success N rec state b).
Proof using HASH Hothers Huuid.
  intros Hst. unfold after_success.
  destruct (String.eqb_spec state "diagnosing") as [->|_].
  { destruct (r_recovery rec) eqn:Hrv; [destruct (refuted_all rec) eqn:Hra|]; apply move_from; split_and!; rewrite Hst; try done; intros _ _.
    - by right.
    - left. by rewrite Hrv. }
  destruct (String.eqb_spec state "recommending") as [->|_]; [apply move_from; split_and!; by rewrite Hst|].
  destruct (String.eqb_spec state "judging") as [->|_].
  - intros w. apply (bind_at _); [apply lift_from|]. intros v w1 Hv. apply lift_Ok in Hv as [Hv ->].
    assert (last_verdict rec = Some v) as Hlast.
    { unfold last_verdict. destruct (list.last (r_verdicts rec)); cbn in *; congruence. }
    destruct (String.eqb_spec v "PASS") as [->|Hne]; [apply move_from; split_and!; by rewrite Hst|].
    apply (respects_bind _ (λ _, True)); [apply lift_from|done|intros th _].
    apply (respects_bind _ (λ _, True)); [apply lift_from|done|intros p09 _].
    destruct (_ <=? _)%Z.
    + apply (respects_bind _ (λ _, True)); [apply lift_from|done|intros shown_p09 _].
      apply move_from. split_and!; rewrite Hst; try done. intros _ _. by exists v.
    + apply (respects_bind _ (λ _, True)); [apply lift_from|done|intros reasons _].
      intros w2 r w' H. apply moving_from. by eapply hand_off_moving; [..|apply justified_hand_off|exact H].
  - destruct (String.eqb_spec state "reporting") as [->|_]; [apply move_from; split_and!; by rewrite Hst|].
    by apply (respects_readonly _).
Qed.

(** The branch of [advance] that runs a step. *)
Lemma same_store_moving' w w' : w_store w' = w_store w → wmoving justified w w'.
Proof. apply same_store_moving. Qed.

Lemma run_branch_moving eid rec role b w1 r w' :
  inv (w_store w1) → dget (s_records (w_store w1)) eid = Some rec → role_of (r_state rec) = Some role →
  (out ← catch_assertion (out ← run_step N rec role b "incident"; mret (Some out))
           (rec ← read_record N eid; _ ← hand_off N rec "judge isolation check failed" "critical"; mret None);
   match out with
   | None => mret tt
   | Some out =>
       if so_ok out then rec' ← read_record N eid; after_success N rec' (rec_state rec) b
       else after_failure N rec role out b
   end) w1 = (r, w') → wmoving justified w1 w'.
Proof using HASH Hothers Huuid.
  intros Hinv Hk Hrole. revert r w'. pose proof justified_hand_off as Hhand.
  assert (respects (wmoving justified) (out ← run_step N rec role b "incident"; mret (Some out))) as Hm.
  { apply (respects_bind _ (λ _, True)); [|done|intros; by apply (respects_readonly _)].
    intros w r w' H. eapply quiet_moving, run_step_quiet; done. }
  assert (respects (wmoving justified) (rec ← read_record N eid; _ ← hand_off N rec "judge isolation check failed" "critical"; mret (None (A := StepOutcome)))) as Hh.
  { apply (respects_bind _ (λ _, True)); [by apply read_record_moving|done|intros rec1 _].
    apply (respects_bind _ (λ _, True)); [by apply hand_off_moving|done|intros; by apply (respects_readonly _)]. }
  apply (bind_at _); [exact (catch_assertion_moving _ _ _ Hm Hh w1)|]. intros [out|] w2 Hrun;
    [|intros r w' H; exact (respects_readonly (wmoving justified) _ (readonly_ret tt) _ _ _ H)].
  assert (run_step N rec role b "incident" w1 = (Ok out, w2)) as Hstep.
  { unfold catch_assertion, catch in Hrun. match type of Hrun with (match ?x with _ => _ end = _) => destruct x as [[o|e] w3] eqn:Hbody end.
    - injection Hrun as -> ->. apply bind_Ok in Hbody as (o & w4 & Hbody & Ho). apply ret_Ok in Ho as [[= ->] ->]. done.
    - destruct e as [c d|cls]; [done|]. destruct (String.eqb cls "AssertionError"); [|done].
      apply bind_Ok in Hrun as (rec1 & w4 & _ & Hrun). apply bind_Ok in Hrun as (u & w5 & _ & Hrun). by apply ret_Ok in Hrun as [? _]. }
  destruct (so_ok out); [|by apply after_failure_moving].
  assert (wquiet justified w1 w2) as Hq by (by eapply run_step_quiet).
  destruct (Hq Hinv) as (Hinv2 & _ & _ & Hkept).
  apply (bind_at _); [by apply read_record_moving|]. intros rec' w3 Hread r w' H.
  assert (respects (wquiet justified) (read_record N eid)) as Hrq.
  { apply (respects_read_record N _ quiet_event); try done; try typeclasses eauto; try (intros; apply quiet_refl).
    - intros. by apply store_rpc_quiet.
    - intros e He. by apply tame_inv in He as (_ & He & _). }
  destruct (Hrq _ _ _ Hread Hinv2) as (Hinv3 & _ & _ & Hkept').
  destruct (read_record_known N justified Hothers Huuid _ _ _ _ Hinv2 Hread) as (Hk3 & Hid & Hknown).
  assert (r_state rec ≠ Some "awaiting_operator") as Hna by (intros Hst; by rewrite Hst in Hrole).
  destruct (Hkept _ _ Hk Hna) as (rec2 & Hk2 & Hst2). destruct (Hkept' _ _ Hk2) as (rec3 & Hk3' & Hst3); [congruence|].
  assert (rec3 = rec') as -> by congruence.
  assert (r_state rec' = Some (rec_state rec)) as Hst.
  { rewrite Hst3, Hst2. unfold rec_state. destruct (r_state rec); [done|discriminate Hrole]. }
  eapply from_moving; [exact Hinv3|exact Hknown|]. by eapply after_success_from.
Qed.

Lemma advance_moving eid pf : respects (wmoving justified) (advance N eid pf).
Proof using HASH Hothers Huuid.
  pose proof justified_hand_off as Hhand. intros w r w' H Hinv. enough (wmoving justified w w') as Hm by exact (Hm Hinv).
  revert r w' H. apply (bind_at _); [by apply read_record_moving|]. intros rec w1 Hread r w' H.
  assert (inv (w_store w1)) as Hinv1 by (by eapply (read_record_moving N justified Hothers Huuid Hhand eid w)).
  destruct (read_record_known N justified Hothers Huuid _ _ _ _ Hinv Hread) as (Hk1 & Hid & Hknown).
  eapply from_moving; [exact Hinv1|exact Hknown|]. revert r w' H.
  destruct (_ || _); [by apply (respects_readonly _)|].
  apply (bind_at _); [by apply bundle_problem_from|]. intros problem w2 Hp r w' H.
  destruct problem; [by eapply (respects_readonly (from_record justified rec) _ (readonly_ret tt))|].
  pose proof (bundle_problem_none N rec _ _ Hp) as Hs2.
  revert r w' H. apply (bind_at _); [intros g w3 Hg; apply moving_from, same_store_moving'; by injection Hg as _ <-|].
  intros g w3 Hg. apply registry_run in Hg. rewrite Hs2 in Hg.
  apply (bind_at _); [apply lift_from|]. intros bid w4 Hbid. apply lift_Ok in Hbid as [_ ->].
  apply (bind_at _); [apply lift_from|]. intros b w4 Hb. apply lift_Ok in Hb as [_ ->].
  destruct (bool_decide _); [intros r w' H; apply moving_from; by eapply closure_moving|].
  destruct (negb _); [by apply (respects_readonly _)|].
  destruct (bool_decide_reflect (r_state rec = Some "open")) as [Hopen|_]; [apply move_from; split_and!; by rewrite Hopen|].
  apply (bind_at _); [apply lift_from|]. intros role w4 Hrole. apply lift_Ok in Hrole as [Hrole%of_opt_Ok ->].
  intros r w' H. apply moving_from. eapply run_branch_moving; [|by rewrite Hg|exact Hrole|exact H]. by rewrite Hg.
Qed.

Lemma loop_moving n interval last_verify : respects (wmoving justified) (loop N n interval last_verify).
Proof using HASH Hothers Huuid.
  pose proof justified_hand_off as Hhand. apply (respects_loop N _ (move_event justified None)); try typeclasses eauto.
  - intros. by apply same_store_moving.
  - intros. by apply same_store_moving.
  - intros. by apply store_rpc_moving.
  - apply move_event_tame.
  - intros. apply move_event_hand_off.
  - apply advance_moving.
Qed.
End gate.
