(* ===== verification/RunnerTrace.v ===== *)
(** * What the runner's trace shows

    Properties of the calls the controller makes, whatever the other processes answer:
    when it degrades no worker starts and only hand-offs move an episode, the
    observe-only flag outlasts the loop, and a step's session is revoked at every broker
    on every path out of it. *)
From S2P Require Import Prelude PyVal Schema Canonical Json PyConv Tools Transitions Tokens Rpc Fold Store AuditChain AuditClient Bundle Artefacts Control Runner RunnerSteps.

(** ** Degraded operation *)
(** [Q] holds of every event added to the trace. *)
Definition logs (Q : event → Prop) (w w' : world) : Prop := ∃ l, w_trace w' = w_trace w ++ l ∧ Forall Q l.
#[export] Instance logs_preorder Q : PreOrder (logs Q).
Proof.
  split; [intros w; exists []; by rewrite app_nil_r|]. intros w1 w2 w3 (l1 & H1 & Hl1) (l2 & H2 & Hl2).
  exists (l1 ++ l2). split; [by rewrite H2, H1, (assoc_L app) | by apply Forall_app].
Qed.

Section logs.
Context `{HASH : Hash} (N : surroundings) (Q : event → Prop).

Lemma log_logs e w : Q e → logs Q w (log_event e w).
Proof. intros He. exists [e]. split; [done|by constructor]. Qed.
Lemma local_logs w a f : w_flag w = f ∨ w_flag w = None → logs Q w (mkWorld (w_store w) (w_trace w) a f).
Proof. intros _. exists []. by rewrite app_nil_r. Qed.
Lemma store_rpc_logs method params : Q (EvStore method params) → respects (logs Q) (store_rpc N method params).
Proof.
  intros He w r w' H. exists [EvStore method params]. split; [|by constructor].
  unfold store_rpc in H. rewrite modify_bind, get_bind in H. cbv zeta in H. destruct (n_store N _ _) as [[v lost]|].
  - destruct (store_serves _ _ _ _) as [r0 s2]. rewrite modify_bind in H. destruct lost; injection H as _ <-; done.
  - rewrite modify_bind in H. injection H as _ <-. done.
Qed.
End logs.

(** No step: no session, no worker, and of the moves only hand-offs. *)
Definition no_step (e : event) : Prop :=
  llm_event e = false ∧ ∀ params, e = EvStore "set_state" params → dget params "state" = Some (VStr "handed_off").

Lemma tame_no_step N e : tame N e = true → no_step e.
Proof.
  intros (Hl & Hs & _)%tame_inv. split; [done|]. intros params ->. discriminate Hs.
Qed.

Section degraded.
Context `{HASH : Hash} (N : surroundings).
Ltac sides := first [ done | typeclasses eauto | apply log_logs | by apply local_logs | apply store_rpc_logs | apply (tame_no_step N)
  | by intros; split; [done|intros params [= <-]] ].
Abbreviation quiet_logs := (logs no_step).

Lemma advance_degraded eid pf : llm_allowed pf = false → respects quiet_logs (advance N eid pf).
Proof.
  intros Hpf. unfold advance. rewrite Hpf.
  assert (∀ A (m : RM A), readonly m → respects quiet_logs m) as Hro by (intros; by apply (respects_readonly _)).
  apply (respects_bind _ (λ _, True)); [apply (respects_read_record N _ no_step); sides|done|intros rec _].
  destruct (_ || _); [by apply Hro|].
  apply (respects_bind _ (λ _, True)); [apply (respects_bundle_problem N _ no_step); sides|done|intros problem _].
  destruct problem; [by apply Hro|].
  apply (respects_bind _ (λ _, True)); [apply (respects_registry N _ no_step); sides|done|intros g _].
  apply (respects_bind _ (λ _, True)); [by apply Hro|done|intros bid _].
  apply (respects_bind _ (λ _, True)); [by apply Hro|done|intros b _].
  destruct (bool_decide _); [|by apply Hro]. unfold closure. rewrite Hpf. destruct (existsb _ _); [by apply Hro|].
  apply (respects_bind _ (λ _, True)); [by apply Hro|done|intros p08 _].
  destruct (_ <? _)%Z; [apply (respects_alert N _ no_step); sides|by apply Hro].
Qed.

Lemma give_over_degraded eid reason : respects quiet_logs (give_over N eid reason).
Proof. apply (respects_give_over N _ no_step); sides. Qed.

Lemma tick_episode_degraded pf ep : llm_allowed pf = false → respects quiet_logs (tick_episode N pf ep).
Proof.
  intros Hpf. unfold tick_episode. destruct (bool_decide _); [by apply (respects_readonly _)|].
  apply (respects_catch _); [by apply advance_degraded|]. intros [code d|cls]; [|apply give_over_degraded].
  destruct (str_in code _); [by apply (respects_readonly _)|apply give_over_degraded].
Qed.
Lemma preflight_degraded : respects quiet_logs (preflight N).
Proof. apply (respects_preflight N _ no_step); sides. Qed.

(** *** The observe-only flag *)
(** A flag that is set stays as it is. *)
Definition flag_stays (w w' : world) : Prop := w_flag w ≠ None → w_flag w' = w_flag w.
#[export] Instance flag_stays_preorder : PreOrder flag_stays.
Proof. split; [by intros w|]. intros w1 w2 w3 H12 H23 Hf. rewrite <- (H12 Hf). apply H23. by rewrite H12. Qed.
Lemma store_rpc_flag method params : respects flag_stays (store_rpc N method params).
Proof.
  intros w r w' H _. unfold store_rpc in H. rewrite modify_bind, get_bind in H. cbv zeta in H.
  destruct (n_store N _ _) as [[v lost]|].
  - destruct (store_serves _ _ _ _) as [r0 s2]. rewrite modify_bind in H. destruct lost; injection H as _ <-; done.
  - rewrite modify_bind in H. injection H as _ <-. done.
Qed.
Lemma local_flag w a f : w_flag w = f ∨ w_flag w = None → flag_stays w (mkWorld (w_store w) (w_trace w) a f).
Proof. intros [<-|Hf] Hset; [done|congruence]. Qed.
Lemma log_flag e w : True → flag_stays w (log_event e w).
Proof. by intros _ _. Qed.
Ltac fsides := first [ done | typeclasses eauto | by intros; apply store_rpc_flag
  | apply local_flag | apply log_flag ].
Lemma preflight_flag : respects flag_stays (preflight N).
Proof. apply (respects_preflight N _ (λ _, True)); fsides. Qed.

(** With the flag set for a reason, the pre-flight allows no step. *)
Lemma preflight_run_flag reason i m w pf w' :
  flag_get (w_flag w) = Ok reason → truthy reason = true →
  preflight_run N i m w = (Ok pf, w') → llm_allowed pf = false.
Proof.
  intros Hf Ht H. unfold preflight_run in H. rewrite get_bind in H. rewrite lift_bind, Hf in H.
  minv H. unfold llm_allowed. cbn. rewrite Ht. done.
Qed.

Lemma preflight_blocked reason w pf w' :
  flag_get (w_flag w) = Ok reason → truthy reason = true → preflight N w = (Ok pf, w') → llm_allowed pf = false.
Proof.
  intros Hf Ht H. unfold preflight in H. apply bind_Ok in H as (g & w1 & [= _ <-] & H).
  apply bind_Ok in H as (th & w2 & H1 & H). apply lift_Ok in H1 as [_ ->].
  apply bind_Ok in H as (limits & w2 & H1 & H). apply lift_Ok in H1 as [_ ->].
  apply bind_Ok in H as (pf0 & w2 & Hrun & H). apply preflight_run_flag with (reason := reason) in Hrun; [|exact Hf|exact Ht].
  do 4 (apply bind_Ok in H as (? & ? & _ & H)). apply ret_Ok in H as [-> _]. done.
Qed.

Lemma loop_flag n interval last_verify : respects flag_stays (loop N n interval last_verify).
Proof. apply (respects_loop N _ (λ _, True)); try fsides. intros eid pf. apply (respects_advance N _ (λ _, True)); fsides. Qed.

Lemma tick_degraded w r w' : (∀ pf w1, preflight N w = (Ok pf, w1) → llm_allowed pf = false) →
  tick N w = (r, w') → logs no_step w w'.
Proof.
  intros Hpf. revert r w'. unfold tick. apply (bind_at _); [apply preflight_degraded|]. intros pf w1 Hrun. apply Hpf in Hrun.
  intros r w'. revert w1 r w'. change (respects quiet_logs (eps ← catch_rpc
    (r ← store_rpc N "list_episodes" [("nonterminal_only", VBool false)];
     match r with ReplyList l => mret (Some l) | _ => raise (PyExc "TypeError") end)
    (λ code, _ ← alert N "high" "Episode store unavailable (RB-7)" code VNone VNone; mret None);
    match eps with Some l => for_each (tick_episode N pf) l | None => mret tt end)).
  apply (respects_bind _ (λ _, True)); [apply (respects_episodes N _ no_step); sides|done|intros eps _].
  destruct eps as [l|]; [|by apply (respects_readonly _)]. apply (respects_for_each _). intros ep _. by apply tick_episode_degraded.
Qed.

(** The reason the flag is set for, when it is. *)
Definition observing (w : world) : Prop := ∃ reason, flag_get (w_flag w) = Ok reason ∧ truthy reason = true.
Definition stays_observing (w w' : world) : Prop := observing w → w_flag w' = w_flag w ∧ logs no_step w w'.
#[local] Instance stays_preorder : PreOrder stays_observing.
Proof.
  split; [by intros w _|]. intros w1 w2 w3 H12 H23 Hw. destruct (H12 Hw) as [Hf Hl].
  destruct H23 as [Hf' Hl']; [unfold observing; by rewrite Hf|]. split; [congruence|by etrans].
Qed.
Lemma observing_set w : observing w → w_flag w ≠ None.
Proof. intros (reason & Hf & Ht) Hn. rewrite Hn in Hf. cbn in Hf. apply Ok_inj in Hf. by subst reason. Qed.

Lemma tick_observing : respects stays_observing (tick N).
Proof.
  intros w r w' H Hw. split.
  - assert (respects flag_stays (tick N)) as Hf; [|by apply (Hf w r w' H), observing_set].
    apply (respects_tick N _ (λ _, True)); try fsides. intros. apply (respects_advance N _ (λ _, True)); fsides.
  - eapply tick_degraded; [|exact H]. intros pf w1 Hp. destruct Hw as (reason & Hf & Ht). by eapply preflight_blocked.
Qed.

Lemma loop_observing n interval last_verify : respects stays_observing (loop N n interval last_verify).
Proof.
  assert (∀ A (m : RM A), readonly m → respects stays_observing m) as Hro by (intros; by apply (respects_readonly _)).
  revert last_verify. induction n as [|n IH]; intros last_verify; cbn [loop]; [by apply Hro|].
  apply (respects_bind _ (λ _, True)); [|done|intros; apply IH]. unfold loop_turn.
  apply (respects_bind _ (λ _, True)); [apply Hro, readonly_now|done|intros t _].
  apply (respects_bind _ (λ _, True)); [|done|intros last' _;
    apply (respects_bind _ (λ _, True)); [apply tick_observing|done|intros; by apply Hro]].
  destruct (Qltb _ _); [|by apply Hro].
  apply (respects_bind _ (λ _, True)); [|done|intros; apply Hro, readonly_now].
  apply (respects_catch _); [|intros; by apply Hro].
  apply (respects_bind _ (λ _, True)); [|done|intros; by apply Hro].
  intros w r w' H Hw. split.
  - assert (respects flag_stays (verify_chain_now N)) as Hf by (apply (respects_verify_chain N _ (λ _, True)); fsides).
    by apply (Hf w r w' H), observing_set.
  - assert (respects quiet_logs (verify_chain_now N)) as Hl by (apply (respects_verify_chain N _ no_step); sides). by eapply Hl.
Qed.
End degraded.

(** ** Revocation *)
Section revocation.
Context `{HASH : Hash} (N : surroundings).
(** A call returns or raises [RpcError]; other exceptions are the transport's. *)
Definition answers_rpc : Prop := ∀ tr e, n_answer N tr = Err e → ∃ code data, e = RpcError code data.
Context (Hrpc : answers_rpc).

Lemma rpc_run service method params w : rpc N service method params w =
  (n_answer N (w_trace w ++ [EvRpc service method params]), log_event (EvRpc service method params) w).
Proof. done. Qed.
(** A call whose errors are swallowed returns. *)
Lemma swallowed_run service method params w :
  catch_rpc (_ ← rpc N service method params; mret tt) (λ _, mret tt) w = (Ok tt, log_event (EvRpc service method params) w).
Proof using Hrpc.
  unfold catch_rpc, catch, mbind, M_bind. rewrite rpc_run. destruct (n_answer N _) as [v|e] eqn:Ha; [done|].
  by destruct (Hrpc _ _ Ha) as (code & data & ->).
Qed.
Lemma revoke_everywhere_run session w :
  ∃ w', revoke_everywhere N session w = (Ok tt, w') ∧
    w_trace w' = w_trace w ++ map (λ name, EvRpc name "revoke_session" (session_param session)) (n_admins N).
Proof using Hrpc.
  unfold revoke_everywhere. revert w. induction (n_admins N) as [|name names IH]; intros w; cbn [for_each map].
  - exists w. split; [done|by rewrite app_nil_r].
  - rewrite (bind_run _ _ _ _ _ (swallowed_run _ _ _ _)). destruct (IH (log_event (EvRpc name "revoke_session" (session_param session)) w)) as (w' & Hrun & Htr).
    exists w'. split; [done|]. rewrite Htr. cbn. by rewrite <- (assoc_L app).
Qed.

(** What uses a session: opening it, making its worker's home, launching the worker. *)
Definition uses_session (e : event) : bool := llm_event e && negb (match e with EvCleanup _ => true | _ => false end).
Definition idle (e : event) : Prop := uses_session e = false.
Lemma tame_idle e : tame N e = true → idle e.
Proof. intros (Hl & _ & _)%tame_inv. unfold idle, uses_session. by rewrite Hl. Qed.
Ltac sides := first [ done | typeclasses eauto | apply log_logs | by apply local_logs | apply store_rpc_logs | apply tame_idle ].

Lemma settle_idle eid role session conf_name l : respects (logs idle) (settle N eid role session conf_name l).
Proof.
  unfold settle. assert (∀ A (m : RM A), readonly m → respects (logs idle) m) as Hro by (intros; by apply (respects_readonly _)).
  apply (respects_bind _ (λ _, True)); [by apply Hro|done|intros ms _].
  apply (respects_bind _ (λ _, True)); [|done|intros meter _].
  { apply (respects_catch_rpc _); [|intros; by apply Hro]. destruct (truthy ms); [|by apply Hro].
    apply (respects_rpc N _ idle); sides. }
  apply (respects_bind _ (λ _, True)); [apply (respects_audit N _ idle); sides|done|intros _ _].
  apply (respects_bind _ (λ _, True)); [|done|intros _ _].
  { destruct (truthy meter); [apply (respects_charge N _ idle); sides|by apply Hro]. }
  apply (respects_bind _ (λ _, True)); [|done|intros _ _; by apply Hro].
  destruct (l_home l); [|by apply Hro]. apply (respects_modify _). intros w. by apply log_logs.
Qed.

(** A step's events name its session. *)
Definition of_step (session : string) (e : event) : Prop := llm_event e = true → in_session session e = true.
Lemma step_body_logs session rec role b kind token conf_name conf w r w' :
  with_locals (step_body N rec role b kind session token conf_name conf) w = (r, w') → logs (of_step session) w w'.
Proof.
  intros H. revert H. apply (respects_with_locals (logs (of_step session))).
  apply (respects_step_body N _ (of_step session)); try sides.
  - intros e [Hl _]%andb_true_iff Ht. apply negb_true_iff in Hl. congruence.
  - by intros e He _.
Qed.

Lemma trace_bind {A} (k : trace → RM A) w : (trace_of ≫= k) w = k (w_trace w) w.
Proof. done. Qed.

Lemma step_trace rec role b kind w r w' : run_step N rec role b kind w = (r, w') →
  let session := n_uuid N (w_trace w) in
  w_trace w' = w_trace w ∨ ∃ before after,
    w_trace w' = w_trace w ++ before ++ after ∧ Forall (of_step session) before ∧ Forall idle after ∧
    ∀ name, name ∈ n_admins N → EvRpc name "revoke_session" (session_param session) ∈ after.
Proof using HASH Hrpc.
  intros H session. unfold run_step in H. rewrite trace_bind in H. cbv zeta in H. fold session in H.
  apply bind_readonly in H as [(e & _ & _ & ->)|([conf_name conf] & _ & H)]; [by left| |done].
  apply bind_readonly in H as [(e & _ & _ & ->)|(th & _ & H)]; [by left| |done].
  apply bind_readonly in H as [(e & _ & _ & ->)|(ttl & _ & H)]; [by left| |done].
  apply bind_readonly in H as [(e & _ & _ & ->)|(t & _ & H)]; [by left| |apply readonly_now].
  apply bind_readonly in H as [(e & _ & _ & ->)|(token & _ & H)]; [by left| |done].
  right. unfold audit in H at 1. rewrite (bind_run _ _ _ _ _ (swallowed_run _ _ _ _)) in H.
  apply bind_cases in H as [(e & Hb & _)|([rb l] & w2 & Hb & H)].
  { unfold with_locals in Hb. destruct (step_body _ _ _ _ _ _ _ _ _ _) as [? [? ?]]. discriminate Hb. }
  apply step_body_logs in Hb as (l1 & Hl1 & Hs1).
  assert (∃ w3, logs idle w3 w' ∧ w_trace w3 = w_trace w2 ++ map (λ name, EvRpc name "revoke_session" (session_param session)) (n_admins N))
    as (w3 & (l2 & Hl2 & Hi2) & Htr).
  { destruct (revoke_everywhere_run session w2) as (w3 & Hrun & Htr). exists w3. split; [|done].
    apply bind_cases in H as [(e & H & _)|(meter & w4 & H & H')]; unfold step_cleanup in H; rewrite (bind_run _ _ _ _ _ Hrun) in H.
    - by eapply settle_idle.
    - etrans; [by eapply settle_idle|]. revert H'. apply (respects_outcome N _ idle); sides. }
  eexists (EvRpc "audit" "submit" _ :: l1), (map _ (n_admins N) ++ l2). split_and!.
  - rewrite Hl2, Htr, Hl1. cbn. rewrite <- !(assoc_L app). done.
  - constructor; [|done]. by intros ?.
  - apply Forall_app. split; [|done]. apply Forall_fmap, Forall_true. done.
  - intros name Hname. apply elem_of_app. left. by apply (list_elem_of_fmap_2 (λ name, EvRpc name "revoke_session" _)).
Qed.
End revocation.
