(* ===== verification/RunnerDemo.v ===== *)
(** * A recorded run of the controller

    The runner, the store and stand-ins for the processes around them, executed by the
    model: a registry with one signed bundle, brokers that answer, and workers that write
    what their role should. One episode goes from [open] to [awaiting_operator], with a
    verdict that fails once. The theorems about the runner are instantiated here. *)
From S2P Require Import Prelude PyVal Schema Canonical Json PyConv Tools Transitions Tokens Rpc Fold Store StoreSpec StoreInv StoreProps Scenario Moves.
From S2P Require Import AuditChain AuditClient Bundle BundleProps Artefacts Control Runner RunnerSteps RunnerProps RunnerTrace.

(** ** The bundle *)
Definition demo_files : bundle_dir :=
  [(["thresholds.yaml"], "T"); (["providers.yaml"], "P"); (["prompts"; "diagnostician.inlined.md"], "d"); (["prompts"; "change_planner.inlined.md"], "c");
   (["prompts"; "proposal_judge.inlined.md"], "j"); (["prompts"; "reporter.inlined.md"], "r")].
Definition demo_bundle_id : string := id_of demo_files.
Definition demo_registry : registry :=
  mkRegistry [(demo_bundle_id, signed demo_files)] [("k1", demo_trusted)] (Some (demo_bundle_id +:+ newline))
    [mkActivation 10 demo_bundle_id None "op"] [].
Definition per_role (v : val) : val := VDict (map (λ r, (r, v)) ROLES).
Definition demo_yaml (text : string) : result exn val :=
  match text with
  | "T" => Ok (VDict [("parameters", VDict
             [("P-05", per_role (VInt 10)); ("P-06", per_role (VInt 1)); ("P-08", VInt 1); ("P-09", VInt 1); ("P-10", VInt 900);
              ("P-11", VInt 600); ("P-12", VInt 24); ("P-18", VInt 15); ("P-19", VInt 60)])])
  | "P" => Ok (VDict [("roles", per_role (VStr "c1")); ("configurations", VDict [("c1", VDict [("adapter", VStr "cli"); ("model", VStr "m")])])])
  | _ => Err (PyExc "YAMLError")
  end.

(** ** The other processes *)
Definition demo_reply (service method : string) (p : dict) : val :=
  if String.eqb service "audit" && String.eqb method "status" then VDict [("integrity_error", VNone); ("anchor_lag_s", VInt 10)]
  else if String.eqb method "open_session" then VDict [("socket_path", VStr "/run/s")]
  else if String.eqb method "close_session" then VDict [("usd", VFloat (1 # 2)); ("requests", VInt 3); ("refusals", VList [])]
  else if String.eqb method "alerts_for"
       then VList [VDict [("session_id", dget_none p "session_id"); ("kind", VStr "incident"); ("ack", VBool true)]]
  else VDict [("ok", VBool true)].
Definition demo_answer (tr : trace) : result exn val :=
  Ok (match list.last tr with Some (EvRpc service method p) => demo_reply service method p | _ => VNone end).

(** A key no episode has. *)
Definition fresh_key (s : store) : string := "x" +:+ String.concat EmptyString (dkeys (s_records s)).
Lemma concat_length k l : k ∈ l → String.length k ≤ String.length (String.concat EmptyString l).
Proof.
  induction l as [|x l IH]; [by intros ?%not_elem_of_nil|]. intros [->|Hk]%elem_of_cons.
  - destruct l; cbn [String.concat]; [done|]. rewrite !string_length_app. lia.
  - destruct l as [|y l]; [by apply not_elem_of_nil in Hk|]. specialize (IH Hk).
    change (String.concat EmptyString (x :: y :: l)) with (x +:+ EmptyString +:+ String.concat EmptyString (y :: l)).
    rewrite !string_length_app. lia.
Qed.
Lemma fresh_key_new s : dget (s_records s) (fresh_key s) = None.
Proof.
  destruct (dget _ _) as [rec|] eqn:Hk; [|done]. apply dget_elem in Hk.
  assert (fresh_key s ∈ dkeys (s_records s)) as Hl by (by apply (list_elem_of_fmap_2 fst _ (_, rec))).
  apply concat_length in Hl. unfold fresh_key in Hl at 1. rewrite string_length_app in Hl. cbn in Hl. lia.
Qed.

(** A worker's write: at another endpoint than the controller's, with its step's token. *)
Definition agent_write (principal method : string) (params : dict) (s : store) : store :=
  if String.eqb principal "controller" then s
  else serve s (mkReq (demo_env (fresh_key s)) principal (VDict [("id", VInt 1); ("method", VStr method); ("params", VDict params)])).
Lemma agent_write_foreign principal method params s : foreign s (agent_write principal method params s) ∨ agent_write principal method params s = s.
Proof.
  unfold agent_write. destruct (String.eqb_spec principal "controller") as [|Hp]; [by right|]. unfold serve. cbn [q_env q_principal].
  destruct (endpoint_of _ _) as [ep|] eqn:Hep; [|by right]. left. apply find_first_Some in Hep as [Hep Hpr%String.eqb_eq].
  eapply (fo_handle s (demo_env (fresh_key s)) uids ep 1000 1); [done|congruence|apply fresh_key_new|]. apply surjective_pairing.
Qed.

Definition last_home (tr : trace) : option dict :=
  find_first (λ _, true) (omap (λ e, match e with EvHome _ spec _ => Some spec | _ => None end) (rev tr)).
Definition launches (tr : trace) : nat := length (List.filter (λ e, match e with EvLaunch _ _ _ => true | _ => false end) tr).

(** What the worker of the step wrote, by the time the step's cost is charged. *)
Definition worker_call (n : nat) (role : string) : string * string * dict :=
  if String.eqb role DIAG then ("episode_broker", "append_hypothesis", hypothesis_params)
  else if String.eqb role PLAN then ("episode_broker", "append_recommendation", recommendation_params)
  else if String.eqb role JUDGE then
    ("episode_broker", "append_verdict",
     [("target_id", VStr (if (n =? 3)%nat then "r1" else "r2")); ("result", VStr (if (n =? 3)%nat then "FAIL" else "PASS"));
      ("checks", VList [VDict [("check", VStr "evidence"); ("result", VStr "fail")]])])
  else ("report_broker", "append_report", [("kind", VStr "incident"); ("ref", VStr "report:sha256:00")]).
Definition charging (tr : trace) : bool :=
  match list.last tr with Some (EvStore method _) => String.eqb method "append_cost" | _ => false end.
Definition worker_write (tr : trace) (s : store) : store :=
  match last_home tr with
  | Some spec =>
      if charging tr then
        let '(principal, method, params) := worker_call (launches tr) (py_str (dget_none spec "role")) in
        agent_write principal method
          (params ++ [("episode_id", VStr "ep1"); ("token", dget_none spec "token"); ("idem_key", VStr (fmt_id "w" (launches tr)))]) s
      else s
  | None => s
  end.

Definition demo_with (answer : trace → result exn val) (launch : result exn LaunchResult) : surroundings := {|
  n_answer := answer; n_store := λ _ s, Some (demo_env (fresh_key s), false); n_others := worker_write;
  n_home := λ _, Ok tt; n_launch := λ _, launch; n_sandbox := λ _, None;
  n_uuid := λ tr, fmt_id "sess" (length tr); n_nonce := λ _, "n0"; n_now := λ _, 100%Q; n_registry := λ _, demo_registry;
  n_chain := λ _, None; n_anchor_keys := []; n_yaml := demo_yaml; n_sign := demo_sign; n_rfc3339 := λ _, "t";
  n_admins := ["episode_broker"; "observer_broker"; "report_broker"]; n_worker_sockets := []; n_development := false; n_uid := 1000 |}.
Definition demo_surroundings : surroundings := demo_with demo_answer (Ok (mkLaunch (VInt 0) false None EmptyString)).

Definition demo_open : request := call "ep1" "controller" "open_episode" (dset open_params "bundle_id" (VStr demo_bundle_id)).
Definition demo_start : store := fold_left serve [demo_open; signal_request] init_store.
Definition demo_world : world := mkWorld demo_start [] [] None.
Definition demo_turns (n : nat) : result exn Q * world := loop (HASH := sum_hash) demo_surroundings n 900 100 demo_world.

Example demo_states : map (λ n, state_of (w_store (demo_turns n).2) "ep1") (seq 0 9) =
  [Some "open"; Some "diagnosing"; Some "recommending"; Some "judging"; Some "recommending"; Some "judging"; Some "reporting";
   Some "awaiting_operator"; Some "awaiting_operator"].
Proof. vm_compute. reflexivity. Qed.

(** * The runner's theorems

    What the controller guarantees of an episode, a step and a degraded system, each with
    the run of [RunnerDemo] as its concrete case. *)

(** C3: safety. However often the controller runs, with the store's other clients acting
    between any two of its requests and replies getting lost, the store stays reachable
    and every move the controller makes is justified by the record it moves: out of
    [judging] to [reporting] only on a last verdict PASS, back to [recommending] only on
    another verdict, out of [diagnosing] to [recommending] only with no recovery seen and
    a hypothesis not refuted. *)
Theorem controller_moves_justified `{HASH : Hash} N n interval last_verify w r w' :
  (∀ tr s, rtc foreign s (n_others N tr s)) →
  (∀ tr s v lost, n_store N tr s = Some (v, lost) → dget (s_records s) (v_uuid v) = None) →
  reachable (w_store w) → moves_ok justified (w_store w) →
  loop N n interval last_verify w = (r, w') →
  reachable (w_store w') ∧ moves_ok justified (w_store w').
Proof.
  intros Ho Hu Hr Hm H. destruct (loop_moving N Ho Hu n interval last_verify w r w' H (reachable_inv _ Hr)) as (_ & Hs & Hm').
  split; [unfold reachable; by etrans|by apply Hm'].
Qed.

Lemma demo_others tr s : rtc foreign s (n_others demo_surroundings tr s).
Proof.
  cbn. unfold worker_write.
  assert (∀ principal method params, rtc foreign s (agent_write principal method params s)) as Hw.
  { intros. destruct (agent_write_foreign principal method params s) as [H|H]; [by apply rtc_once|by rewrite H]. }
  destruct (last_home tr) as [spec|]; [|done]. destruct (charging tr); [|done]. destruct (worker_call _ _) as [[principal method] params].
  apply Hw.
Qed.
Lemma demo_uuids tr s v lost : n_store demo_surroundings tr s = Some (v, lost) → dget (s_records s) (v_uuid v) = None.
Proof. intros [= <- _]. apply fresh_key_new. Qed.
Lemma demo_start_reachable : reachable demo_start.
Proof. apply serve_requests. vm_compute. reflexivity. Qed.
Lemma demo_start_moves : moves_ok justified demo_start.
Proof.
  assert (forallb (λ r : row, match e_body r with BState _ _ _ => false | _ => true end) (s_entries demo_start) = true) as Hall
    by (vm_compute; reflexivity).
  intros l r l' frm to why rec He Hb. rewrite forallb_forall in Hall. specialize (Hall r).
  rewrite He, Hb in Hall. assert (List.In r (l ++ r :: l')) as Hin by (apply in_or_app; right; by left). by apply Hall in Hin.
Qed.
Lemma controller_moves_justified_witness :
  state_of (w_store (demo_turns 7).2) "ep1" = Some "awaiting_operator" ∧
  reachable (w_store (demo_turns 7).2) ∧ moves_ok justified (w_store (demo_turns 7).2).
Proof.
  split; [vm_compute; reflexivity|].
  apply (controller_moves_justified (HASH := sum_hash) demo_surroundings 7 900 100 demo_world (demo_turns 7).1 (demo_turns 7).2
           demo_others demo_uuids demo_start_reachable demo_start_moves (surjective_pairing _)).
Defined.

(** C13: safety. A tick whose pre-flight finds any reason, against observing or against
    steps, opens no model session, makes no worker's home and launches no worker, and the
    only state it asks for is [handed_off]; in particular nothing is retried or advanced. *)
Theorem degraded_tick_starts_nothing `{HASH : Hash} N w r w' :
  (∀ pf w1, preflight N w = (Ok pf, w1) → llm_allowed pf = false) → tick N w = (r, w') → logs no_step w w'.
Proof. apply tick_degraded. Qed.

(** The same processes with the audit sequencer's integrity broken. *)
Definition broken_answer (tr : trace) : result exn val :=
  match list.last tr with
  | Some (EvRpc service method p) =>
      if String.eqb method "status" then Ok (VDict [("integrity_error", VStr "line 3: unparseable"); ("anchor_lag_s", VInt 10)])
      else Ok (demo_reply service method p)
  | _ => Ok VNone
  end.
Definition broken_surroundings : surroundings := demo_with broken_answer (Err (PyExc "OSError")).
Definition broken_tick : result exn unit * world := tick (HASH := sum_hash) broken_surroundings demo_world.

Lemma degraded_tick_starts_nothing_witness :
  llm_allowed (match (preflight (HASH := sum_hash) broken_surroundings demo_world).1 with Ok pf => pf | Err _ => mkPreflight [] [] [] end) = false ∧
  logs no_step demo_world broken_tick.2.
Proof.
  split; [vm_compute; reflexivity|].
  refine (degraded_tick_starts_nothing (HASH := sum_hash) broken_surroundings demo_world broken_tick.1 broken_tick.2 _ (surjective_pairing _)).
  intros pf w1 H. assert (llm_allowed (match (preflight (HASH := sum_hash) broken_surroundings demo_world).1 with Ok pf => pf | Err _ => mkPreflight [] [] [] end) = false)
    as Hf by (vm_compute; reflexivity). rewrite H in Hf. exact Hf.
Defined.

(** Observe-only is sticky: once the flag is set for a reason, any number
    of turns of the loop leave the flag as it is and start no step, whatever everyone
    answers, until an operator clears it. *)
Theorem observe_only_persists `{HASH : Hash} N n interval last_verify w reason r w' :
  flag_get (w_flag w) = Ok reason → truthy reason = true → loop N n interval last_verify w = (r, w') →
  w_flag w' = w_flag w ∧ logs no_step w w'.
Proof. intros Hf Ht H. apply (loop_observing N n interval last_verify w r w' H). by exists reason. Qed.

Lemma observe_only_persists_witness :
  w_flag broken_tick.2 ≠ None ∧
  let out := loop (HASH := sum_hash) demo_surroundings 2 900 100 broken_tick.2 in
  w_flag out.2 = w_flag broken_tick.2 ∧ logs no_step broken_tick.2 out.2.
Proof.
  split; [vm_compute; discriminate|].
  refine (observe_only_persists (HASH := sum_hash) demo_surroundings 2 900 100 broken_tick.2 (VStr "audit chain: line 3: unparseable") _ _ _ eq_refl (surjective_pairing _)).
  vm_compute. reflexivity.
Defined.

(** C26: safety. Whatever happens in a step, success, refusal, time-out or exception: if it
    logged anything, the session it opened, its worker's home and launch are all those of
    one session, and after the last of them every broker is told to revoke that session,
    provided calls fail with [RpcError] only. *)
Theorem step_revokes_token N rec role b kind w r w' :
  answers_rpc N → run_step N rec role b kind w = (r, w') →
  let session := n_uuid N (w_trace w) in
  w_trace w' = w_trace w ∨ ∃ before after,
    w_trace w' = w_trace w ++ before ++ after ∧ Forall (of_step session) before ∧ Forall idle after ∧
    ∀ name, name ∈ n_admins N → EvRpc name "revoke_session" (session_param session) ∈ after.
Proof. intros Hrpc H. exact (step_trace (HASH := id) N Hrpc rec role b kind w r w' H). Qed.

Lemma demo_answers launch : answers_rpc (demo_with demo_answer launch).
Proof. intros tr e H. discriminate H. Qed.

(** A step whose launch raises: no worker, and the session revoked all the same. *)
Definition crash_surroundings : surroundings := demo_with demo_answer (Err (PyExc "OSError")).
Definition demo_bundle : Bundle := mkBundle demo_bundle_id (signed demo_files).
Definition diagnosing_world : world := (demo_turns 1).2.
Definition diagnosing_record : record := default (empty_record "ep1") (dget (s_records (w_store diagnosing_world)) "ep1").
Definition crashed : result exn StepOutcome * world :=
  run_step crash_surroundings diagnosing_record DIAG demo_bundle "incident" diagnosing_world.

Lemma step_revokes_token_witness :
  crashed.1 = Err (PyExc "OSError") ∧
  (w_trace crashed.2 = w_trace diagnosing_world ∨ ∃ before after,
    w_trace crashed.2 = w_trace diagnosing_world ++ before ++ after ∧
    Forall (of_step (n_uuid crash_surroundings (w_trace diagnosing_world))) before ∧ Forall idle after ∧
    ∀ name, name ∈ n_admins crash_surroundings →
      EvRpc name "revoke_session" (session_param (n_uuid crash_surroundings (w_trace diagnosing_world))) ∈ after).
Proof.
  split; [vm_compute; reflexivity|].
  exact (step_revokes_token crash_surroundings diagnosing_record DIAG demo_bundle "incident" diagnosing_world
           crashed.1 crashed.2 (demo_answers _) (surjective_pairing _)).
Defined.

(** The proviso is needed: a call that fails otherwise, as one that times out does
    (rpc.py:181-190 turns only a failed connection into [RpcError]), leaves the [finally]
    block at the first broker; the other brokers are not told, nothing is charged, and the
    revocation is not audited. *)
Theorem timeout_skips_revocation N name names eid role session conf_name l w cls :
  n_admins N = name :: names → n_answer N (w_trace w ++ [EvRpc name "revoke_session" (session_param session)]) = Err (PyExc cls) →
  step_cleanup N eid role session conf_name l w = (Err (PyExc cls), log_event (EvRpc name "revoke_session" (session_param session)) w).
Proof.
  intros Hn Ha. unfold step_cleanup, revoke_everywhere. rewrite Hn. cbn [for_each].
  apply bind_raises, bind_raises. unfold catch_rpc, catch, mbind, M_bind. by rewrite rpc_run, Ha.
Qed.
