(* ===== verification/Verifier.v ===== *)
(** * The verifier (src/valops/verifier/verifier.py)

    For every episode that is not resolved it samples the commands of the episode's rules,
    counts the consecutive fresh samples that satisfied each, and resolves an episode that
    waits for the operator once a rule has held for its window. The observer, the report
    broker, the clock and the other clients of the store are arbitrary, as in [Control]. *)
From S2P Require Import Prelude PyVal Schema Canonical Json PyConv Keyed Tools Transitions Tokens Rpc Fold Store AuditChain AuditClient Bundle Control Rules.
From Stdlib Require Import Ascii Qround.

(** What happened so far: the calls, the episodes the store listed, and how each evaluation
    of a rule came out. The latter two are there for the theorems only: nothing reads them. *)
Inductive vevent : Type :=
| VCall (e : event)
| VListed (l : list summary)
| VHeld (eid : string) (rid : val) (held : bool).
Definition calls_of (l : list vevent) : trace := omap (λ e, match e with VCall e => Some e | _ => None end) l.

(** src/valops/verifier/verifier.py:30-39 Verifier.__init__ *)
Record verifier : Type := mkVerifier {
  vf_store : store; vf_trace : list vevent; vf_streak : list (skey * Z); vf_escalated : list string;
  vf_recovered_after_handoff : list string }.
Abbreviation VM := (M verifier exn).
Definition vf_log (e : vevent) (w : verifier) : verifier :=
  mkVerifier (vf_store w) (vf_trace w ++ [e]) (vf_streak w) (vf_escalated w) (vf_recovered_after_handoff w).
Definition vf_set_store (s : store) (w : verifier) : verifier :=
  mkVerifier s (vf_trace w) (vf_streak w) (vf_escalated w) (vf_recovered_after_handoff w).
Definition vf_set_streak (l : list (skey * Z)) (w : verifier) : verifier :=
  mkVerifier (vf_store w) (vf_trace w) l (vf_escalated w) (vf_recovered_after_handoff w).
Definition vf_escalate (eid : string) (w : verifier) : verifier :=
  mkVerifier (vf_store w) (vf_trace w) (vf_streak w) (eid :: vf_escalated w) (vf_recovered_after_handoff w).
Definition vf_recovered (eid : string) (w : verifier) : verifier :=
  mkVerifier (vf_store w) (vf_trace w) (vf_streak w) (vf_escalated w) (eid :: vf_recovered_after_handoff w).

Section verifier.
Context `{HASH : Hash} (N : surroundings).

Definition v_calls : VM trace := w ← get_state; mret (calls_of (vf_trace w)).
Definition v_now_ : VM Q := tr ← v_calls; mret (n_now N tr).
(** A call to the observer or the report broker. *)
Definition v_rpc (service method : string) (params : dict) : VM val :=
  _ ← modify (vf_log (VCall (EvRpc service method params)));
  tr ← v_calls;
  lift (n_answer N tr).
(** A call to the store, at the verifier's endpoint. *)
Definition v_store_rpc (method : string) (params : dict) : VM reply :=
  _ ← modify (vf_log (VCall (EvStore method params)));
  w ← get_state;
  let tr := calls_of (vf_trace w) in
  let s := n_others N tr (vf_store w) in
  match n_store N tr s with
  | None => _ ← modify (vf_set_store s); raise (rpc_error "unavailable")
  | Some (v, lost) =>
      let '(r, s') := serves_at N "store-verify" v (request_line method params) s in
      _ ← modify (vf_set_store s');
      if lost then raise (rpc_error "unavailable") else lift r
  end.
Definition v_record (eid : string) : VM record :=
  r ← v_store_rpc "read_episode" [("episode_id", VStr eid); ("view", VStr "record")];
  match r with ReplyRead (RRecord rec) => mret rec | _ => raise (PyExc "TypeError") end.
Definition v_bundle (id : option string) : VM Bundle :=
  _ ← modify (vf_log (VCall EvRegistry));
  tr ← v_calls;
  id ← lift (of_opt id (PyExc "TypeError"));
  lift (load_bundle (n_registry N tr) id).

(** ** Sampling *)
(** [dict(v)] *)
Definition pair_of (v : val) : result exn (string * val) :=
  match v with
  | VList [VStr k; x] => Ok (k, x)
  | VList [_; _] => Err (PyExc "TypeError")
  | VStr (String a (String b EmptyString)) => Ok (String a EmptyString, VStr (String b EmptyString))
  | VList _ | VStr _ | VDict _ => Err (PyExc "ValueError")
  | _ => Err (PyExc "TypeError")
  end.
Definition py_dict (v : val) : result exn dict :=
  match v with
  | VDict d => Ok d
  | _ => l ← py_iter v; ps ← mapR pair_of l; Ok (dupdate [] ps)
  end.

(** What [telemetry] gives, unless a call fails. *)
Definition sample_telemetry : VM (option dict) :=
  catch_rpc (
    probe ← v_rpc "observer" "probe" [];
    tel ← v_rpc "observer" "telemetry" [];
    d ← lift (match tel with VDict d => Ok d | _ => Err (PyExc "TypeError") end);
    reachable ← lift (vget probe "reachable");
    latency ← lift (vget probe "latency_ms");
    probe_breaker ← lift (vget probe "breaker");
    open ← lift (vget (py_or (py_or (dget_none d "breaker") probe_breaker) (VDict [])) "open");
    mret (Some (dupdate d [("probe_reachable", VBool (truthy reachable)); ("probe_latency_ms", latency); ("breaker_open", VBool (truthy open))])))
    (λ _, mret None).

(** What one command gives, if it is fresh. *)
Definition sample_command (cid : string) (max_age_s : Q) : VM (option dict) :=
  r ← catch_rpc (r ← v_rpc "observer" "sample" [("command_id", VStr cid)]; mret (Some r)) (λ _, mret None);
  match r with
  | None => mret None
  | Some r =>
      status ← lift (vget r "status");
      if negb (py_eq status (VStr "ok")) then mret None
      else
        t ← v_now_;
        collected ← lift (c ← vget r "collected_at"; py_float (py_or c (VInt 0)));
        if Qltb max_age_s (t - collected) then mret None
        else d ← lift (s ← vget r "structured"; py_dict (py_or s (VDict []))); mret (Some d)
  end.

(** The loop over the commands; a command id is a string. *)
Fixpoint sample_each (cids : list val) (max_age_s : Q) (out : dict) (fresh : bool) : VM (dict * bool) :=
  match cids with
  | [] => mret (out, fresh)
  | VStr cid :: cids' =>
      r ← (if String.eqb cid "telemetry" then sample_telemetry else sample_command cid max_age_s);
      match r with
      | Some d => sample_each cids' max_age_s (dset out cid (VDict d)) fresh
      | None => sample_each cids' max_age_s out false
      end
  | _ :: _ => raise (PyExc "TypeError")
  end.

(** Whether the version sampled is the one the bundle expects, put in the sample. *)
Definition with_version (bundle : Bundle) (out : dict) : result exn dict :=
  match dget out "running_version" with
  | Some (VDict rv) =>
      dep ← deployment (n_yaml N) bundle;
      expected ← vget dep "expected_version";
      Ok (dset out "running_version" (VDict (dset rv "version_matches_expected" (VBool (py_eq (dget_none rv "version") expected)))))
  | _ => Ok out
  end.
(** src/valops/verifier/verifier.py:41-67 Verifier._sample *)
Definition v_sample (cids : val) (max_age_s : Q) (bundle : Bundle) : VM (dict * bool) :=
  cids ← lift (py_iter cids);
  '(out, fresh) ← sample_each cids max_age_s [] true;
  out ← lift (with_version bundle out);
  mret (out, fresh).

(** ** Deciding *)
Definition applies (ep : summary) (rule : val) : result exn bool :=
  a ← vindex rule "applies_to";
  cls ← vindex a "class";
  if py_eq cls (opt_val VStr (su_class ep)) then
    chk ← vindex (su_trigger ep) "check";
    py_contains (default (VList [chk]) (match a with VDict d => dget d "checks" | _ => None end)) chk
  else Ok false.
(** src/valops/verifier/verifier.py:69-71 Verifier.rules_for *)
Definition rules_for (bundle : Bundle) (ep : summary) : result exn (list val) :=
  rules ← verifier_rules (n_yaml N) bundle; filterR (applies ep) rules.

Definition awaiting (state : option string) : bool := bool_decide (state = Some "awaiting_operator").
Definition vf_param (bundle : Bundle) : val → val → result exn val := rule_param (n_yaml N) bundle.

Definition resolve_params (eid : string) (rec : record) (rid : val) (n : Z) : dict :=
  [("episode_id", VStr eid); ("state", VStr "resolved"); ("expected_revision", VInt (r_revision rec));
   ("reason", VStr (py_str rid +:+ " held for " +:+ py_str (VInt n) +:+ " consecutive fresh samples"))].
Definition verification_params (eid : string) (rec : record) (rid : val) (sample : dict) (n : Z) : dict :=
  let stale := List.filter (λ a, py_eq (an_kind a) (VStr "stale_signals")) (r_annotations rec) in
  [("episode_id", VStr eid); ("rule", rid); ("result", VStr "pass");
   ("samples", VList [VDict [("n", VInt n); ("sample", VDict sample); ("stale_annotations_seen", VInt (Z.of_nat (length stale)))]]);
   ("idem_key", VStr ("verif:" +:+ eid +:+ ":" +:+ py_str rid +:+ ":" +:+ py_str (VInt (r_revision rec))))].
(** src/valops/verifier/verifier.py:98-113 Verifier._resolve *)
Definition v_resolve (eid : string) (rid : val) (sample : dict) (n : Z) : VM unit :=
  rec ← v_record eid;
  if negb (awaiting (r_state rec)) then mret tt
  else
    _ ← v_store_rpc "append_verification" (verification_params eid rec rid sample n);
    rec ← v_record eid;
    catch (_ ← v_store_rpc "set_state" (resolve_params eid rec rid n); mret tt)
          (λ e, match e with RpcError code _ => if String.eqb code "conflict" then mret tt else raise e | _ => raise e end).

(** src/valops/verifier/verifier.py:115-129 Verifier._maybe_escalate *)
Definition maybe_escalate (ep : summary) (bundle : Bundle) : VM unit :=
  w ← get_state;
  if negb (awaiting (su_state ep)) || str_in (su_episode_id ep) (vf_escalated w) then mret tt
  else
    rec ← v_record (su_episode_id ep);
    let since := sh_ts <$> find_first (λ h, String.eqb (sh_to h) "awaiting_operator") (rev (r_history rec)) in
    minutes ← lift (v ← vf_param bundle (VStr "P-17") (VStr "deadline_min"); py_float v);
    let deadline_s := (minutes * 60)%Q in
    t ← v_now_;
    match since with
    | Some since =>
        if Qltb deadline_s (t - since) then
          catch_rpc (_ ← v_rpc "report" "system_alert"
                           [("severity", VStr "high"); ("episode_id", VStr (su_episode_id ep));
                            ("title", VStr ("Recovery not confirmed within " +:+ py_str (VInt (Qfloor (deadline_s / 60))) +:+ " min"));
                            ("text", VStr "Episode stays awaiting_operator. The verifier does not hand off on its own.");
                            ("dedupe_key", VStr ("deadline:" +:+ su_episode_id ep))];
                     modify (vf_escalate (su_episode_id ep)))
                    (λ _, mret tt)
        else mret tt
    | None => mret tt
    end.

(** The count of a rule's consecutive samples, updated. *)
Definition count (eid : string) (rid : val) (held : bool) : VM Z :=
  _ ← require (hashable rid) (PyExc "TypeError");
  w ← get_state;
  let n := if held then (default 0 (sget (vf_streak w) (eid, rid)) + 1)%Z else 0%Z in
  _ ← modify (λ w, vf_set_streak (sset (vf_streak w) (eid, rid) n) (vf_log (VHeld eid rid held) w));
  mret n.

(** What is noted of a recovery before the episode waits for the operator, or after it was
    handed off. *)
Definition observe_recovery (ep : summary) (rid : val) : VM unit :=
  let handed_off := bool_decide (su_state ep = Some "handed_off") in
  tr ← v_calls;
  _ ← v_store_rpc "append_recovery_observation"
        [("episode_id", VStr (su_episode_id ep)); ("rule", rid);
         ("note", VStr (if handed_off then "observed after hand-off; not reopened" else "observed during analysis"));
         ("idem_key", VStr ("recov:" +:+ su_episode_id ep +:+ ":" +:+ py_str rid +:+ ":" +:+ n_uuid N tr))];
  if handed_off then modify (vf_recovered (su_episode_id ep)) else mret tt.

(** The loop of [check_episode] over the rules: [true] when it returned from inside. *)
Definition check_rule (ep : summary) (bundle : Bundle) (max_age : Q) (rule : val) : VM bool :=
  rid ← lift (vindex rule "id");
  cids ← lift (vindex rule "samples");
  '(sample, fresh) ← v_sample cids max_age bundle;
  held ← (if fresh : bool then lift (p ← vindex rule "predicate"; evaluate (vf_param bundle) p sample) else mret false);
  n ← count (su_episode_id ep) rid held;
  w ← lift (window (vf_param bundle) rule);
  if negb held then mret false
  else if awaiting (su_state ep) then
    if (w <=? n)%Z then _ ← v_resolve (su_episode_id ep) rid sample n; mret true else mret false
  else if (n =? 1)%Z then _ ← observe_recovery ep rid; mret false
  else mret false.
Fixpoint check_rules (ep : summary) (bundle : Bundle) (max_age : Q) (rules : list val) : VM bool :=
  match rules with
  | [] => mret false
  | rule :: rules' => returned ← check_rule ep bundle max_age rule; if returned : bool then mret true else check_rules ep bundle max_age rules'
  end.

(** [bundle.thresholds["P-15"] * bundle.thresholds["P-01"]], two numbers. *)
Definition age_limit (bundle : Bundle) : result exn Q :=
  th ← thresholds (n_yaml N) bundle;
  p15 ← vindex th "P-15"; p01 ← vindex th "P-01";
  x ← of_opt (num_of p15) (PyExc "TypeError"); y ← of_opt (num_of p01) (PyExc "TypeError"); Ok (x * y)%Q.

(** src/valops/verifier/verifier.py:73-96 Verifier.check_episode *)
Definition check_episode (ep : summary) : VM unit :=
  bundle ← v_bundle (su_bundle_id ep);
  max_age ← lift (age_limit bundle);
  rules ← lift (rules_for bundle ep);
  returned ← check_rules ep bundle max_age rules;
  if returned : bool then mret tt else maybe_escalate ep bundle.

Definition check_listed (ep : summary) : VM unit :=
  w ← get_state;
  if bool_decide (su_state ep = Some "resolved") then mret tt
  else if bool_decide (su_state ep = Some "handed_off") && str_in (su_episode_id ep) (vf_recovered_after_handoff w) then mret tt
  else catch (check_episode ep) (λ _, mret tt).
(** src/valops/verifier/verifier.py:131-140 Verifier.tick *)
Definition vf_tick : VM unit :=
  r ← v_store_rpc "list_episodes" [("nonterminal_only", VBool false)];
  match r with ReplyList l => _ ← modify (vf_log (VListed l)); for_each check_listed l | _ => raise (PyExc "TypeError") end.

(** src/valops/verifier/verifier.py:142-147 Verifier.loop

    The first [n] turns: an error of the call alone is survived. *)
Fixpoint vf_loop (n : nat) : VM unit :=
  match n with O => mret tt | S n => _ ← catch_rpc vf_tick (λ _, mret tt); vf_loop n end.
End verifier.
