(* ===== verification/VerifierProps.v ===== *)
(** * The verifier's guarantees

    Its counters count consecutive samples; it asks the store to resolve an episode only
    when a rule of the episode's verified bundle has held for its window. *)
From S2P Require Import Prelude PyVal Schema Canonical Json PyConv Keyed Tools Transitions Tokens Rpc Fold Store AuditChain AuditClient Bundle Control Rules Verifier.
From Stdlib Require Import Ascii.

(** ** Counting *)
(** How many of the last evaluations of a rule for an episode held, in a row. *)
Definition tally (k : skey) (n : Z) (e : vevent) : Z :=
  match e with
  | VHeld eid rid held => if skey_eqb k (eid, rid) then if held then (n + 1)%Z else 0%Z else n
  | _ => n
  end.
Definition in_a_row (k : skey) (l : list vevent) : Z := fold_left (tally k) l 0%Z.
Lemma in_a_row_calls k l l' : in_a_row k (l ++ map VCall l') = in_a_row k l.
Proof. unfold in_a_row. rewrite fold_left_app. generalize (fold_left (tally k) l 0%Z). induction l' as [|e l' IH]; intros n; cbn; [done|apply IH]. Qed.
Lemma in_a_row_snoc k l e : in_a_row k (l ++ [e]) = tally k (in_a_row k l) e.
Proof. unfold in_a_row. by rewrite fold_left_app. Qed.

Definition tallied (w : verifier) : Prop :=
  Forall (λ x, key_ok x.1) (vf_streak w) ∧ ∀ k, key_ok k → default 0%Z (sget (vf_streak w) k) = in_a_row k (vf_trace w).

Section verifier.
Context `{HASH : Hash} (N : surroundings).

(** ** What a sample shows *)
Lemma calls_of_app l l' : calls_of (l ++ map VCall l') = calls_of l ++ l'.
Proof. unfold calls_of. rewrite omap_app. f_equal. induction l' as [|e l' IH]; cbn; [done|by rewrite IH]. Qed.
Lemma calls_of_snoc l e : calls_of (l ++ [VCall e]) = calls_of l ++ [e].
Proof. exact (calls_of_app l [e]). Qed.

(** The calls made for a command, and what they show of it: the answers to these very calls,
    and for a command of the observer one that is ok and was collected at most [max_age]
    before it was looked at. [tr] is what was called before. *)
Definition calls_for (cid : string) : list event :=
  if String.eqb cid "telemetry" then [EvRpc "observer" "probe" []; EvRpc "observer" "telemetry" []]
  else [EvRpc "observer" "sample" [("command_id", VStr cid)]].
Definition shows (tr : trace) (max_age : Q) (cid : string) (d : dict) : Prop :=
  if String.eqb cid "telemetry" then
    ∃ probe tel extra, n_answer N (tr ++ [EvRpc "observer" "probe" []]) = Ok probe ∧ n_answer N (tr ++ calls_for cid) = Ok (VDict tel) ∧
      d = dupdate tel extra ∧ map fst extra = ["probe_reachable"; "probe_latency_ms"; "breaker_open"]
  else
    ∃ a collected, n_answer N (tr ++ calls_for cid) = Ok (VDict a) ∧ dget_none a "status" = VStr "ok" ∧
      py_float (py_or (dget_none a "collected_at") (VInt 0)) = Ok collected ∧ (n_now N (tr ++ calls_for cid) - collected <= max_age)%Q ∧
      py_dict (py_or (dget_none a "structured") (VDict [])) = Ok d.
(** A sample of commands, all of them shown, one after the other: the calls [l] were made
    after [tr], and [out] became [out']. *)
Fixpoint sampled (tr : trace) (max_age : Q) (cids : list val) (out out' : dict) (l : list event) : Prop :=
  match cids with
  | [] => l = [] ∧ out' = out
  | VStr cid :: cids => ∃ d l', l = calls_for cid ++ l' ∧ shows tr max_age cid d ∧ sampled (tr ++ calls_for cid) max_age cids (dset out cid (VDict d)) out' l'
  | _ :: _ => False
  end.

Lemma v_rpc_run service method params w r w' : v_rpc N service method params w = (r, w') →
  vf_trace w' = vf_trace w ++ [VCall (EvRpc service method params)] ∧ r = n_answer N (calls_of (vf_trace w) ++ [EvRpc service method params]).
Proof.
  unfold v_rpc. rewrite modify_bind. unfold v_calls. intros H. injection H as <- <-. split; [done|].
  cbn [vf_log vf_trace]. by rewrite calls_of_snoc.
Qed.
Lemma catch_rpc_some {A} (m : VM A) w d w' : catch_rpc (x ← m; mret (Some x)) (λ _, mret None) w = (Ok (Some d), w') → m w = (Ok d, w').
Proof.
  unfold catch_rpc, catch, mbind, M_bind. destruct (m w) as [[a|e] w1]; [by intros [= <- <-]|]. by destruct e.
Qed.
Lemma sample_command_shows cid max_age d w w' : String.eqb cid "telemetry" = false → sample_command N cid max_age w = (Ok (Some d), w') →
  vf_trace w' = vf_trace w ++ map VCall (calls_for cid) ∧ shows (calls_of (vf_trace w)) max_age cid d.
Proof.
  intros Hcid. unfold sample_command, shows, calls_for. rewrite Hcid. intros H. apply bind_Ok in H as (r & w1 & H1 & H).
  destruct r as [r|]; [|by apply ret_Ok in H as [[=] _]]. apply catch_rpc_some, v_rpc_run in H1 as [Ht Ha].
  apply bind_Ok in H as (status & w2 & [Hst ->]%lift_Ok & H). destruct r as [| | | | | |rd]; try discriminate Hst. injection Hst as <-.
  destruct (py_eq _ _) eqn:Hok; cbn [negb] in H; [|by apply ret_Ok in H as [[=] _]]. apply py_eq_str_r in Hok.
  apply bind_Ok in H as (t & w3 & Hnow & H). apply bind_Ok in H as (collected & w4 & [Hc ->]%lift_Ok & H). cbn in Hc.
  destruct (Qltb max_age _) eqn:Hage; [by apply ret_Ok in H as [[=] _]|]. injection Hnow as <- <-.
  apply bind_Ok in H as (d' & w5 & [Hd ->]%lift_Ok & H). cbn in Hd. apply ret_Ok in H as [[= ->] ->].
  split; [done|]. exists rd, collected. split_and!; try done. unfold Qltb in Hage. apply negb_false_iff, Qle_bool_iff in Hage.
  rewrite Ht, calls_of_snoc in Hage. exact Hage.
Qed.
Lemma sample_telemetry_shows max_age d w w' : sample_telemetry N w = (Ok (Some d), w') →
  vf_trace w' = vf_trace w ++ map VCall (calls_for "telemetry") ∧ shows (calls_of (vf_trace w)) max_age "telemetry" d.
Proof.
  unfold sample_telemetry, catch_rpc, catch. intros H.
  match type of H with context [?m w] => destruct (m w) as [[x|e] w1] eqn:E end; [|by destruct e]. injection H as -> ->.
  apply bind_Ok in E as (probe & w1 & [Ht1 Hp]%v_rpc_run & E). apply bind_Ok in E as (tel & w2 & [Ht2 Htel]%v_rpc_run & E).
  rewrite Ht1, calls_of_snoc, <- (assoc_L app) in Htel. rewrite Ht1, <- (assoc_L app) in Ht2.
  apply bind_Ok in E as (td & w3 & [Htd ->]%lift_Ok & E). destruct tel as [| | | | | |td']; try discriminate Htd. injection Htd as ->.
  apply bind_Ok in E as (reachable & ? & [_ ->]%lift_Ok & E). apply bind_Ok in E as (latency & ? & [_ ->]%lift_Ok & E).
  apply bind_Ok in E as (breaker & ? & [_ ->]%lift_Ok & E). apply bind_Ok in E as (is_open & ? & [_ ->]%lift_Ok & E).
  apply ret_Ok in E as [[= ->] ->]. split; [done|].
  exists probe, td, [("probe_reachable", VBool (truthy reachable)); ("probe_latency_ms", latency); ("breaker_open", VBool (truthy is_open))].
  by split_and!.
Qed.
Lemma sample_each_fresh cids max_age out fresh w out' w' : sample_each N cids max_age out fresh w = (Ok (out', true), w') →
  fresh = true ∧ ∃ l, vf_trace w' = vf_trace w ++ map VCall l ∧ sampled (calls_of (vf_trace w)) max_age cids out out' l.
Proof.
  revert out fresh w. induction cids as [|c cids IH]; intros out fresh w H; cbn [sample_each] in H.
  - apply ret_Ok in H as [[= -> <-] ->]. split; [done|]. exists []. by rewrite app_nil_r.
  - destruct c as [| | | |cid| |]; try (discriminate H). apply bind_Ok in H as (r & w1 & H1 & H).
    destruct r as [d|]; [|by apply IH in H as [Hf _]]. apply IH in H as (-> & l & Hl & Hs). split; [done|].
    assert (vf_trace w1 = vf_trace w ++ map VCall (calls_for cid) ∧ shows (calls_of (vf_trace w)) max_age cid d) as [Ht Hshow].
    { destruct (String.eqb_spec cid "telemetry") as [->|Hne]; [by apply sample_telemetry_shows|].
      apply sample_command_shows; [by apply String.eqb_neq|done]. }
    exists (calls_for cid ++ l). split; [by rewrite Hl, Ht, map_app, (assoc_L app)|]. exists d, l. split_and!; [done|done|].
    by rewrite Ht, calls_of_app in Hs.
Qed.
Lemma v_sample_fresh cids max_age b w sample w' : v_sample N cids max_age b w = (Ok (sample, true), w') →
  ∃ cl out l, py_iter cids = Ok cl ∧ vf_trace w' = vf_trace w ++ map VCall l ∧ sampled (calls_of (vf_trace w)) max_age cl [] out l ∧
    with_version N b out = Ok sample.
Proof.
  unfold v_sample. intros H. apply bind_Ok in H as (cl & w1 & [Hl ->]%lift_Ok & H). apply bind_Ok in H as ([out fresh] & w2 & H1 & H).
  apply bind_Ok in H as (out' & w3 & [Hv ->]%lift_Ok & H). apply ret_Ok in H as [[= <- <-] <-].
  apply sample_each_fresh in H1 as (_ & l & Ht & Hs). by exists cl, out, l.
Qed.

(** ** Requests to the store *)
Definition no_listing (l : list vevent) : Prop := Forall (λ e, match e with VListed _ => False | _ => True end) l.
(** The store listed the episode the last time it was asked. *)
Definition listed (h : list vevent) (ep : summary) : Prop := ∃ h1 l h2, h = h1 ++ VListed l :: h2 ∧ no_listing h2 ∧ ep ∈ l.
(** Since then its bundle was loaded from the registry, which verified it. *)
Definition loaded (h : list vevent) (ep : summary) (b : Bundle) : Prop :=
  ∃ h1 h2 bid, h = h1 ++ VCall EvRegistry :: h2 ∧ listed h1 ep ∧ no_listing h2 ∧ su_bundle_id ep = Some bid ∧
    load_bundle (n_registry N (calls_of h1 ++ [EvRegistry])) bid = Ok b.
(** An evaluation that held: of a rule of that bundle that applies to the episode as it was
    listed, on a sample whose every command was answered, fresh, by the calls just made,
    with a predicate true of it. *)
Definition evaluated (h : list vevent) (ep : summary) (b : Bundle) (rule rid : val) (sample : dict) : Prop :=
  ∃ h0 l rules age cids cl out p, h = h0 ++ map VCall l ∧ loaded h0 ep b ∧ rules_for N b ep = Ok rules ∧ rule ∈ rules ∧
    vindex rule "id" = Ok rid ∧ vindex rule "samples" = Ok cids ∧ py_iter cids = Ok cl ∧ age_limit N b = Ok age ∧
    sampled (calls_of h0) age cl [] out l ∧ with_version N b out = Ok sample ∧
    vindex rule "predicate" = Ok p ∧ evaluate (vf_param N b) p sample = Ok true.
(** What justifies asking to resolve: the last evaluation held of an episode that waited
    for the operator, and with it as many in a row as the rule's window. *)
Definition confirmed (h : list vevent) (eid : string) (rid : val) (sample : dict) (n : Z) : Prop :=
  ∃ h0 calls ep b rule w, h = h0 ++ VHeld eid rid true :: map VCall calls ∧ su_episode_id ep = eid ∧ su_state ep = Some "awaiting_operator" ∧
    evaluated h0 ep b rule rid sample ∧ window (vf_param N b) rule = Ok w ∧ (w <= n)%Z ∧ in_a_row (eid, rid) h = n.

(** What the history must be when a request is made. *)
Definition warranted (h : list vevent) (method : string) (params : dict) : Prop :=
  method = "read_episode" ∨ method = "list_episodes" ∨
  (method = "append_recovery_observation" ∧ ∃ eid rid, dget params "episode_id" = Some (VStr eid) ∧ dget params "rule" = Some rid ∧
     in_a_row (eid, rid) h = 1%Z) ∨
  (method = "append_verification" ∧ ∃ eid rid rec sample n, params = verification_params eid rec rid sample n ∧
     r_state rec = Some "awaiting_operator" ∧ confirmed h eid rid sample n) ∨
  (method = "set_state" ∧ ∃ eid rid rec rec0 sample n h0 read, params = resolve_params eid rec rid n ∧ confirmed h eid rid sample n ∧
     h = h0 ++ [VCall (EvStore "append_verification" (verification_params eid rec0 rid sample n)); VCall (EvStore "read_episode" read)]).
(** What the history must be at an event: an evaluation is only counted as held if it did. *)
Definition justified (h : list vevent) (e : vevent) : Prop :=
  match e with
  | VCall (EvStore method params) => warranted h method params
  | VHeld eid rid true => ∃ ep b rule sample, su_episode_id ep = eid ∧ evaluated h ep b rule rid sample
  | _ => True
  end.

Abbreviation sound := (Prelude.sound justified).

Lemma no_listing_calls l : no_listing (map VCall l).
Proof. apply List.Forall_map. by induction l; constructor. Qed.
Lemma listed_app h l ep : no_listing l → listed h ep → listed (h ++ l) ep.
Proof. intros Hl (h1 & x & h2 & -> & Hn & Hin). exists h1, x, (h2 ++ l). rewrite <- (assoc_L app). split_and!; [done|by apply Forall_app|done]. Qed.
Lemma loaded_app h l ep b : no_listing l → loaded h ep b → loaded (h ++ l) ep b.
Proof.
  intros Hl (h1 & h2 & bid & -> & Hx & Hn & Hb). exists h1, (h2 ++ l), bid. rewrite <- (assoc_L app).
  split_and!; [done|done|by apply Forall_app|by destruct Hb..].
Qed.

(** Calls that need no warrant, and none of the counters. *)
Definition free (e : event) : Prop := match e with EvStore m _ => m = "read_episode" ∨ m = "list_episodes" | _ => True end.
Definition calm (w w' : verifier) : Prop :=
  vf_streak w' = vf_streak w ∧ ∃ l, vf_trace w' = vf_trace w ++ map VCall l ∧ Forall free l.
#[export] Instance calm_preorder : PreOrder calm.
Proof.
  split; [intros w; split; [done|]; exists []; split; [by rewrite app_nil_r|done]|].
  intros w1 w2 w3 (H12 & l & Hl & Hf) (H23 & l' & Hl' & Hf'). split; [congruence|]. exists (l ++ l').
  split; [by rewrite Hl', Hl, map_app, (assoc_L app)|by apply Forall_app].
Qed.
Lemma tallied_calls w w' l : tallied w → vf_streak w' = vf_streak w → vf_trace w' = vf_trace w ++ map VCall l → tallied w'.
Proof. intros [Hk Ht] Hs Hl. unfold tallied. rewrite Hs, Hl. split; [done|]. intros k Hkk. rewrite in_a_row_calls. by apply Ht. Qed.
(** ** The parts that only read *)
Lemma calm_readonly {A} (m : VM A) : readonly m → respects calm m.
Proof. intros Hm. by apply (respects_readonly _). Qed.
Lemma calm_bind {A B} (m : VM A) (k : A → VM B) : respects calm m → (∀ a, respects calm (k a)) → respects calm (m ≫= k).
Proof. intros Hm Hk. by apply (respects_bind _ (λ _, True)). Qed.
Lemma calm_log e : free e → respects calm (modify (vf_log (VCall e)) : VM unit).
Proof. intros He w r w' [= _ <-]. split; [done|]. exists [e]. split; [done|by constructor]. Qed.
Lemma calm_catch_rpc {A} (m : VM A) h : respects calm m → (∀ c, respects calm (h c)) → respects calm (catch_rpc m h).
Proof. intros Hm Hh. apply (respects_catch _); [done|]. intros [c d|cls]; [apply Hh|by apply calm_readonly]. Qed.
Lemma v_store_rpc_run method params w r w' : v_store_rpc N method params w = (r, w') →
  vf_trace w' = vf_trace w ++ [VCall (EvStore method params)] ∧ vf_streak w' = vf_streak w.
Proof.
  intros H. unfold v_store_rpc in H. rewrite modify_bind, get_bind in H. cbv zeta in H. destruct (n_store N _ _) as [[v lost]|].
  - destruct (serves_at _ _ _ _ _) as [r0 s2]. rewrite modify_bind in H. destruct lost; injection H as _ <-; done.
  - rewrite modify_bind in H. injection H as _ <-. done.
Qed.
Lemma calm_store method params : free (EvStore method params) → respects calm (v_store_rpc N method params).
Proof. intros Hf w r w' [Ht Hs]%v_store_rpc_run. split; [done|]. exists [EvStore method params]. split; [done|by constructor]. Qed.
Lemma calm_calls : respects calm v_calls.
Proof. apply calm_readonly. by intros w. Qed.
Lemma calm_now : respects calm (v_now_ N).
Proof. apply calm_readonly. by intros w. Qed.

#[local] Hint Resolve calm_calls calm_now : core.
Ltac calmly := repeat lazymatch goal with
  | |- respects calm (_ ≫= _) => apply calm_bind; [|intros ?]
  | |- respects calm (match ?x with _ => _ end) => destruct x
  | |- respects calm (catch_rpc _ _) => apply calm_catch_rpc; [|intros ?]
  | |- respects calm (modify (vf_log _)) => apply calm_log; cbn; tauto
  | |- respects calm (v_store_rpc _ _ _) => apply calm_store; cbn; tauto
  | |- respects calm _ => first [done | apply calm_readonly; by auto 10 with valops]
  end.

Lemma calm_rpc service method params : respects calm (v_rpc N service method params).
Proof. unfold v_rpc. calmly. Qed.
Lemma calm_record eid : respects calm (v_record N eid).
Proof. unfold v_record. calmly. Qed.
Lemma calm_bundle id : respects calm (v_bundle N id).
Proof. unfold v_bundle. calmly. Qed.
Lemma calm_sample_each cids max_age out fresh : respects calm (sample_each N cids max_age out fresh).
Proof.
  revert out fresh. induction cids as [|cid cids IH]; intros out fresh; cbn [sample_each]; [calmly|].
  unfold sample_telemetry, sample_command. calmly; apply calm_rpc.
Qed.
Lemma calm_sample cids max_age b : respects calm (v_sample N cids max_age b).
Proof. unfold v_sample. calmly. apply calm_sample_each. Qed.
Lemma calm_escalate ep b : respects calm (maybe_escalate N ep b).
Proof.
  unfold maybe_escalate. calmly; [apply calm_record|apply calm_rpc|]. intros w r w' [= _ <-]. split; [done|]. exists []. by rewrite app_nil_r.
Qed.

(** ** Requests that need a warrant *)
Lemma sound_free h l : Forall free l → sound h (map VCall l).
Proof.
  intros Hf l1 e l2 Heq. assert (e ∈ map VCall l) as Hin by (rewrite Heq; apply elem_of_app; right; left).
  apply list_elem_of_fmap in Hin as (x & -> & Hin). rewrite list.Forall_forall in Hf. apply Hf in Hin.
  destruct x as [| m p| | | |]; try done. destruct Hin as [->| ->]; [by left|by right; left].
Qed.

Section serving.
(** What is known of the history while an episode is checked. *)
Context (known : list vevent → Prop) (known_app : ∀ h l, no_listing l → known h → known (h ++ l)).
(** What every computation of a check does. *)
Definition serving (w w' : verifier) : Prop := tallied w → known (vf_trace w) →
  tallied w' ∧ ∃ l, vf_trace w' = vf_trace w ++ l ∧ sound (vf_trace w) l ∧ no_listing l.
#[local] Instance serving_preorder : PreOrder serving.
Proof using known_app.
  split; [intros w Hw _; split; [done|]; exists []; split_and!; [by rewrite app_nil_r|apply sound_nil|constructor]|].
  intros w1 w2 w3 H12 H23 Hw Hk. destruct (H12 Hw Hk) as (Hw2 & l & Hl & Hs & Hn).
  destruct (H23 Hw2) as (Hw3 & l' & Hl' & Hs' & Hn'); [rewrite Hl; by apply known_app|].
  split; [done|]. exists (l ++ l'). rewrite Hl', Hl, (assoc_L app) in *. split_and!; [done|by apply sound_app|by apply Forall_app].
Qed.
Lemma calm_serving w w' : calm w w' → serving w w'.
Proof.
  intros (Hs & l & Hl & Hf) Hw _. split; [by eapply tallied_calls|]. exists (map VCall l).
  split_and!; [done|by apply sound_free|apply no_listing_calls].
Qed.
Lemma serving_request method params w r w' : v_store_rpc N method params w = (r, w') → warranted (vf_trace w) method params → serving w w'.
Proof.
  intros [Ht Hs]%v_store_rpc_run Hw Htal _. split; [by eapply (tallied_calls w w' [_])|]. eexists.
  split_and!; [exact Ht|by apply sound_one|apply (no_listing_calls [_])].
Qed.
Lemma confirmed_calls h l eid rid sample n : confirmed h eid rid sample n → confirmed (h ++ map VCall l) eid rid sample n.
Proof.
  intros (h0 & calls & ep & b & rule & w & -> & H). exists h0, (calls ++ l), ep, b, rule, w. rewrite in_a_row_calls.
  split; [by rewrite <- (assoc_L app), map_app|exact H].
Qed.

Lemma v_record_run eid w r w' : v_record N eid w = (r, w') →
  vf_trace w' = vf_trace w ++ [VCall (EvStore "read_episode" [("episode_id", VStr eid); ("view", VStr "record")])].
Proof.
  unfold v_record. intros H. apply bind_cases in H as [(e & H & ->)|(a & w1 & H & H2)]; apply v_store_rpc_run in H as [Ht _]; [done|].
  destruct a as [|[]|]; injection H2 as _ <-; done.
Qed.

Lemma resolve_serving eid rid sample n w r w' : confirmed (vf_trace w) eid rid sample n → v_resolve N eid rid sample n w = (r, w') → serving w w'.
Proof using known_app.
  intros Hc. revert r w'. unfold v_resolve. apply (bind_at serving).
  { intros r w' H. by apply calm_serving, (calm_record eid w r w'). }
  intros rec w1 H1%v_record_run. destruct (awaiting (r_state rec)) eqn:Haw; cbn [negb]; [|by intros r w' [= _ <-]].
  apply bool_decide_eq_true in Haw. apply (confirmed_calls _ [EvStore "read_episode" [("episode_id", VStr eid); ("view", VStr "record")]]) in Hc.
  cbn [map] in Hc. rewrite <- H1 in Hc. clear H1. apply (bind_at serving).
  { intros r w2 H. eapply serving_request; [done|]. do 3 right. left. split; [done|]. by exists eid, rid, rec, sample, n. }
  intros _ w2 [Hw2 _]%v_store_rpc_run. apply (bind_at serving).
  { intros r w3 H. by apply calm_serving, (calm_record eid w2 r w3). }
  intros rec2 w3 H3%v_record_run. rewrite Hw2, <- (assoc_L app) in H3. cbn [app] in H3.
  intros r w4 H. unfold catch in H.
  assert (∀ r2 w5, (_ ← v_store_rpc N "set_state" (resolve_params eid rec2 rid n); mret tt) w3 = (r2, w5) → serving w3 w5) as Hset.
  { apply (bind_at serving); [|by intros ? ? _ r2 w6 [= _ <-]]. intros r2 w5 H2. eapply serving_request; [done|]. do 4 right. split; [done|].
    eexists eid, rid, rec2, rec, sample, n, _, _. split; [done|]. split; [|exact H3].
    apply (confirmed_calls _ [EvStore "append_verification" (verification_params eid rec rid sample n);
      EvStore "read_episode" [("episode_id", VStr eid); ("view", VStr "record")]]) in Hc. cbn [map] in Hc. by rewrite <- H3 in Hc. }
  specialize (Hset _ _ (surjective_pairing _)). revert H Hset.
  destruct ((_ ← v_store_rpc N "set_state" _; mret tt) w3) as [[u|e] w5]; cbn [fst snd]; intros H Hset; [by injection H as _ <-|].
  destruct e as [code d|cls]; [destruct (String.eqb code "conflict")|]; by injection H as _ <-.
Qed.

Lemma in_a_row_key k k' l : key_ok k → key_ok k' → skey_eqb k k' = true → in_a_row k' l = in_a_row k l.
Proof.
  intros Hk Hk' He. unfold in_a_row. generalize 0%Z. induction l as [|[e|ls|eid rid held] l IH]; intros n; cbn [fold_left tally]; [done|apply IH..|].
  rewrite (skey_trans k k' (eid, rid)) by done. apply IH.
Qed.
Lemma count_run eid rid held w r w' : count eid rid held w = (r, w') → tallied w →
  (w' = w ∧ ∃ e, r = Err e) ∨ ∃ n, r = Ok n ∧ tallied w' ∧ vf_trace w' = vf_trace w ++ [VHeld eid rid held] ∧ in_a_row (eid, rid) (vf_trace w') = n.
Proof.
  intros H [Hk Ht]. unfold count in H. rewrite require_bind in H. destruct (hashable rid) eqn:Hh; [|injection H as <- <-; by left; eauto].
  rewrite get_bind in H. cbv zeta in H. rewrite modify_bind in H. injection H as <- <-. right. set (n := if held then _ else _).
  assert (key_ok (eid, rid)) as Hkey by done.
  assert (∀ k, key_ok k → default 0%Z (sget (sset (vf_streak w) (eid, rid) n) k) = in_a_row k (vf_trace w ++ [VHeld eid rid held])) as Hall.
  { intros k Hkk. rewrite sget_sset, in_a_row_snoc by done. cbn [tally]. destruct (skey_eqb k (eid, rid)) eqn:He; [|by apply Ht].
    cbn. unfold n. destruct held; [|done]. f_equal. rewrite Ht by done. by apply in_a_row_key. }
  exists n. split; [done|]. split; [split; [by apply sset_keys|exact Hall]|]. split; [done|].
  change (in_a_row (eid, rid) (vf_trace w ++ [VHeld eid rid held]) = n). rewrite <- Hall by done.
  rewrite sget_sset by done. by rewrite skey_refl.
Qed.

(** ** A check of an episode *)
Lemma held_serving w w' eid rid held : tallied w' → vf_trace w' = vf_trace w ++ [VHeld eid rid held] → justified (vf_trace w) (VHeld eid rid held) → serving w w'.
Proof. intros Ht Hl Hj _ _. split; [done|]. eexists. split_and!; [done|by apply sound_one|by repeat constructor]. Qed.
(** From a state what is known of it may be used. *)
Lemma serving_now w w' : (tallied w → known (vf_trace w) → serving w w') → serving w w'.
Proof. intros H Hw Hk. by apply (H Hw Hk). Qed.
Lemma serving_from w w1 w' : serving w w1 → (tallied w1 → known (vf_trace w1) → serving w1 w') → serving w w'.
Proof using known_app.
  intros H1 H2. apply serving_now. intros Hw Hk. destruct (H1 Hw Hk) as (Hw1 & l & Hl & _ & Hn). etrans; [exact H1|].
  apply H2; [done|]. rewrite Hl. by apply known_app.
Qed.
Lemma observe_serving ep rid w r w' : in_a_row (su_episode_id ep, rid) (vf_trace w) = 1%Z → observe_recovery N ep rid w = (r, w') → serving w w'.
Proof using known_app.
  intros H1 H. unfold observe_recovery in H. cbv zeta in H.
  apply bind_cases in H as [(e & H & _)|(tr & w1 & [= _ <-] & H)]; [discriminate H|]. revert r w' H. apply (bind_at serving).
  - intros r w' H. eapply serving_request; [done|]. right. right. left. split; [done|]. exists (su_episode_id ep), rid. by split_and!.
  - intros _ w1 _ r w' H. destruct (bool_decide _); injection H as _ <-; [|done]. apply calm_serving. split; [done|]. exists []. by rewrite app_nil_r.
Qed.
End serving.

Section rules.
Context (ep : summary) (b : Bundle) (rules : list val) (Hrules : rules_for N b ep = Ok rules)
  (max_age : Q) (Hage : age_limit N b = Ok max_age).
Abbreviation checking := (serving (λ h, loaded h ep b)).
#[local] Instance checking_preorder : PreOrder checking.
Proof. apply serving_preorder. intros h l. by apply loaded_app. Qed.
Let known : ∀ h l, no_listing l → loaded h ep b → loaded (h ++ l) ep b.
Proof. intros h l. by apply loaded_app. Qed.
Abbreviation calm_checking := (calm_serving (λ h, loaded h ep b)).

Lemma check_rule_serving rule : rule ∈ rules → respects checking (check_rule N ep b max_age rule).
Proof using All.
  intros Hin w r w' H. unfold check_rule in H. rewrite lift_bind in H. destruct (vindex rule "id") as [rid|] eqn:Hid; [|by injection H as _ <-].
  rewrite lift_bind in H. destruct (vindex rule "samples") as [cids|] eqn:Hcids; [|by injection H as _ <-].
  apply bind_cases in H as [(e & H & _)|([sample fresh] & w1 & H1 & H)]; [by apply calm_checking, (calm_sample _ _ _ _ _ _ H)|].
  apply serving_now. intros _ Hload. eapply (serving_from _ known); [by apply calm_checking, (calm_sample _ _ _ _ _ _ H1)|]. intros Ht Hload1.
  apply bind_cases in H as [(e & H & _)|(held & w2 & H2 & H)].
  { destruct fresh; [apply lift_Err in H as [_ ->]; done|discriminate H]. }
  assert (w2 = w1 ∧ (held = true → evaluated (vf_trace w1) ep b rule rid sample)) as [-> Hheld].
  { destruct fresh; [|by injection H2 as <- <-]. apply lift_Ok in H2 as [(p & Hp & Hev)%rbind_Ok ->]. split; [done|]. intros ->.
    apply v_sample_fresh in H1 as (cl & out & l & Hcl & Htr & Hs & Hver). exists (vf_trace w), l, rules, max_age, cids, cl, out, p. by split_and!. }
  clear H1 H2. apply bind_cases in H as [(e & H & _)|(n & w2 & H2 & H)].
  { by destruct (count_run _ _ _ _ _ _ H Ht) as [[-> _]|(n & [=] & _)]. }
  destruct (count_run _ _ _ _ _ _ H2 Ht) as [[_ [e He]]|(n' & He & Ht2 & Hl & Hn)]; [discriminate He|]. injection He as <-.
  eapply (serving_from _ known); [apply (held_serving _ w1 w2 (su_episode_id ep) rid held Ht2 Hl)|].
  { destruct held; [|done]. exists ep, b, rule, sample. split; [done|]. by apply Hheld. }
  intros _ _. clear H2 Ht2. rewrite lift_bind in H. destruct (window _ rule) as [k|] eqn:Hk; [|by injection H as _ <-].
  destruct held; cbn [negb] in H; [|by injection H as _ <-]. specialize (Hheld eq_refl).
  destruct (awaiting (su_state ep)) eqn:Haw.
  - destruct (Z.leb_spec k n); [|by injection H as _ <-]. apply bool_decide_eq_true in Haw.
    assert (confirmed (vf_trace w2) (su_episode_id ep) rid sample n) as Hc by (by exists (vf_trace w1), [], ep, b, rule, k).
    apply bind_cases in H as [(e & H & _)|(u & w3 & H3 & H)]; [by apply (resolve_serving _ known) in H|]. injection H as _ <-.
    by apply (resolve_serving _ known) in H3.
  - destruct (Z.eqb_spec n 1) as [H1|]; [|by injection H as _ <-]. rewrite H1 in Hn.
    apply bind_cases in H as [(e & H & _)|(u & w3 & H3 & H)]; [by apply (observe_serving _ known _ _ _ _ _ Hn) in H|].
    injection H as _ <-. by apply (observe_serving _ known _ _ _ _ _ Hn) in H3.
Qed.
Lemma check_rules_serving l : (∀ x, x ∈ l → x ∈ rules) → respects checking (check_rules N ep b max_age l).
Proof using All.
  induction l as [|rule l IH]; intros Hsub; cbn [check_rules]; [by apply (respects_readonly _)|].
  apply (respects_bind _ (λ _, True)); [apply check_rule_serving, Hsub; left|done|intros [|] _; [by apply (respects_readonly _)|]].
  apply IH. intros x Hx. apply Hsub. by right.
Qed.
End rules.

(** What is known during a tick. *)
Definition listing (l : list summary) (h : list vevent) : Prop := ∃ h1 h2, h = h1 ++ VListed l :: h2 ∧ no_listing h2.
Lemma listing_app ls h l : no_listing l → listing ls h → listing ls (h ++ l).
Proof. intros Hl (h1 & h2 & -> & Hn). exists h1, (h2 ++ l). rewrite <- (assoc_L app). split; [done|by apply Forall_app]. Qed.
Lemma serving_more (known known' : list vevent → Prop) w w' : (known' (vf_trace w) → known (vf_trace w)) → serving known w w' → serving known' w w'.
Proof. intros Hk H Hw Hk'. by apply H; [|apply Hk]. Qed.
Lemma check_episode_serving ls ep : ep ∈ ls → respects (serving (listing ls)) (check_episode N ep).
Proof.
  intros Hin w r w' H. pose proof (serving_preorder (listing ls) (listing_app ls)) as Hpre. unfold check_episode in H.
  apply serving_now. intros _ (h1 & h2 & Htr & Hn).
  apply bind_cases in H as [(e & H & _)|(b & w1 & H1 & H)]; [by apply calm_serving, (calm_bundle _ _ _ _ H)|].
  assert (loaded (vf_trace w1) ep b) as Hload.
  { unfold v_bundle in H1. rewrite modify_bind in H1. apply bind_Ok in H1 as (tr & w2 & [= <- <-] & H1).
    apply bind_Ok in H1 as (bid & w3 & [Hbid%of_opt_Ok ->]%lift_Ok & [H1 ->]%lift_Ok). exists (vf_trace w), [], bid. split_and!; [done| |constructor|done|].
    - exists h1, ls, h2. by split_and!.
    - cbn [vf_log vf_trace] in H1. by rewrite calls_of_snoc in H1. }
  etrans; [by apply calm_serving, (calm_bundle _ _ _ _ H1)|]. clear H1.
  rewrite lift_bind in H. destruct (age_limit N b) as [max_age|] eqn:Hage; [|by injection H as _ <-].
  rewrite lift_bind in H. destruct (rules_for N b ep) as [rules|] eqn:Hrules; [|by injection H as _ <-].
  pose proof (λ l Hl w r w', check_rules_serving ep b rules Hrules max_age Hage l Hl w r w') as Hchecks.
  apply bind_cases in H as [(e & H & _)|(returned & w2 & H2 & H)].
  { apply Hchecks in H; [|done]. by eapply serving_more, H. }
  apply Hchecks in H2; [|done]. etrans; [by eapply serving_more, H2|]. destruct returned; [by injection H as _ <-|].
  by apply calm_serving, (calm_escalate _ _ _ _ _ H).
Qed.

(** ** Ticks *)
Definition ticking (w w' : verifier) : Prop := tallied w → tallied w' ∧ ∃ l, vf_trace w' = vf_trace w ++ l ∧ sound (vf_trace w) l.
#[export] Instance ticking_preorder : PreOrder ticking.
Proof.
  split; [intros w Hw; split; [done|]; exists []; split; [by rewrite app_nil_r|apply sound_nil]|].
  intros w1 w2 w3 H12 H23 Hw. destruct (H12 Hw) as (Hw2 & l & Hl & Hs). destruct (H23 Hw2) as (Hw3 & l' & Hl' & Hs').
  split; [done|]. exists (l ++ l'). rewrite Hl', Hl, (assoc_L app) in *. split; [done|]. by apply sound_app.
Qed.
Lemma serving_ticking known w w' : known (vf_trace w) → serving known w w' → ticking w w'.
Proof. intros Hk H Hw. destruct (H Hw Hk) as (Hw' & l & Hl & Hs & _). split; [done|]. by exists l. Qed.
Lemma calm_ticking w w' : calm w w' → ticking w w'.
Proof. intros H. by apply (serving_ticking (λ _, True)), calm_serving. Qed.

Lemma check_all_serving ls l : (∀ ep, ep ∈ l → ep ∈ ls) → respects (serving (listing ls)) (for_each (check_listed N) l).
Proof.
  pose proof (serving_preorder (listing ls) (listing_app ls)) as Hpre. induction l as [|ep l IH]; intros Hsub; cbn [for_each]; [by apply (respects_readonly _)|].
  apply (respects_bind _ (λ _, True)); [|done|intros _ _; apply IH; intros x Hx; apply Hsub; by right]. unfold check_listed.
  apply (respects_bind _ (λ _, True)); [by apply (respects_readonly _)|done|intros w _].
  destruct (bool_decide _); [by apply (respects_readonly _)|]. destruct (_ && _); [by apply (respects_readonly _)|].
  apply (respects_catch _); [apply check_episode_serving, Hsub; left|intros e; by apply (respects_readonly _)].
Qed.
Lemma tick_ticking : respects ticking (vf_tick N).
Proof.
  intros w r w' H. unfold vf_tick in H. apply bind_cases in H as [(e & H & _)|(x & w1 & H1 & H)].
  { apply calm_ticking. revert H. apply calm_store. cbn. tauto. }
  assert (ticking w w1) as Hw1 by (apply calm_ticking; revert H1; apply calm_store; cbn; tauto).
  etrans; [exact Hw1|]. destruct x as [| |l]; [by injection H as _ <-..|]. rewrite modify_bind in H.
  etrans; [|eapply (serving_ticking (listing l)), check_all_serving, H; [exists (vf_trace w1), []; split; [done|constructor]|done]].
  intros [Hk Ht]. split; [split; [done|]|exists [VListed l]; by split; [|apply sound_one]].
  intros k Hkk. cbn [vf_log vf_trace vf_streak]. rewrite in_a_row_snoc. cbn [tally]. by apply Ht.
Qed.
Lemma loop_ticking n : respects ticking (vf_loop N n).
Proof.
  induction n as [|n IH]; cbn [vf_loop]; [by apply (respects_readonly _)|].
  apply (respects_bind _ (λ _, True)); [|done|done]. unfold catch_rpc. apply (respects_catch _); [apply tick_ticking|].
  intros [c d|cls]; by apply (respects_readonly _).
Qed.

(** However long the verifier runs, and whatever the observer, the store and
    the registry answer: the counter of a rule for an episode is the number of that rule's
    evaluations for it, up to the last one, that held without a failed or stale one between. *)
Theorem streaks_are_consecutive n s r w :
  vf_loop N n (mkVerifier s [] [] [] []) = (r, w) →
  ∀ eid rid, hashable rid = true → default 0%Z (sget (vf_streak w) (eid, rid)) = in_a_row (eid, rid) (vf_trace w).
Proof.
  intros H eid rid Hh. destruct (loop_ticking n _ _ _ H) as [[_ Ht] _]; [split; [constructor|done]|]. by apply Ht.
Qed.

(** C4: safety. Every request the verifier makes of the store has its warrant, and every
    evaluation it counts as held did hold. An evaluation is counted as held only of an
    episode the store last listed, for a rule of that episode's bundle as the registry has
    just verified and loaded it, that applies to the episode, when each of the rule's
    commands was answered by the calls just made for it, ok and no older than the limit at
    that moment, and the predicate is true of the sample made of these answers. The verifier
    asks to resolve an episode only right after recording the verification that passed, of
    an episode listed as waiting for the operator, when its last evaluation held, on the
    sample recorded, and ended as many in a row as the rule's window; it notes a recovery
    only on the first of a streak; everything else only reads. *)
Theorem requests_are_warranted n s r w l1 e l2 :
  vf_loop N n (mkVerifier s [] [] [] []) = (r, w) → vf_trace w = l1 ++ e :: l2 → justified l1 e.
Proof.
  intros H Hl. destruct (loop_ticking n _ _ _ H) as [_ (l & Hl' & Hs)]; [split; [constructor|done]|]. cbn in Hl', Hs. subst l.
  exact (Hs _ _ _ Hl).
Qed.
End verifier.

(** * A recorded run of the verifier

    An episode that waits for the operator is confirmed by two fresh samples and resolved;
    the theorems about the verifier are instantiated here. *)
From S2P Require Import StoreSpec StoreInv StoreProps Scenario.
From S2P Require Import BundleProps RunnerDemo.

Definition recovery_files : bundle_dir := [(["thresholds.yaml"], "T"); (["verifier"; "delinquency.yaml"], "R")].
Definition recovery_id : string := id_of recovery_files.
Definition recovery_registry : registry :=
  mkRegistry [(recovery_id, signed recovery_files)] [("k1", demo_trusted)] (Some (recovery_id +:+ newline))
    [mkActivation 10 recovery_id None "op"] [].
Definition recovery_rule : val := VDict [
  ("id", VStr "delinquency_recovered"); ("applies_to", VDict [("class", VStr "validator_health"); ("checks", VList [VStr "delinquent"])]);
  ("samples", VList [VStr "catchup"]);
  ("predicate", VDict [("all_of", VList [
     VDict [("field", VStr "catchup.parsed"); ("op", VStr "eq"); ("value", VBool true)];
     VDict [("field", VStr "catchup.slots_behind"); ("op", VStr "le"); ("value", VDict [("param", VStr "P-03"); ("key", VStr "threshold")])]])]);
  ("window", VDict [("param", VStr "P-17"); ("key", VStr "window")])].
Definition recovery_yaml (text : string) : result exn val :=
  if String.eqb text "T" then Ok (VDict [("parameters", VDict
    [("P-01", VInt 30); ("P-03", VDict [("threshold", VInt 10)]); ("P-15", VInt 2); ("P-17", VDict [("window", VInt 2); ("deadline_min", VInt 60)])])])
  else if String.eqb text "R" then Ok recovery_rule else Err (PyExc "YAMLError").

(** The observer's answers: behind at the first sample, then caught up. *)
Definition samples_in (tr : trace) : nat := length (List.filter (λ e, match e with EvRpc _ _ _ => true | _ => false end) tr).
Definition recovery_answer (tr : trace) : result exn val :=
  Ok (VDict [("status", VStr "ok"); ("collected_at", VFloat 90);
             ("structured", VDict [("parsed", VBool true); ("slots_behind", VInt (if (samples_in tr <=? 1)%nat then 500 else 3))])]).
Definition recovery_surroundings : surroundings := {|
  n_answer := recovery_answer; n_store := λ _ s, Some (demo_env (fresh_key s), false); n_others := λ _ s, s;
  n_home := λ _, Ok tt; n_launch := λ _, Ok (mkLaunch (VInt 0) false None EmptyString); n_sandbox := λ _, None;
  n_uuid := λ tr, fmt_id "u" (length tr); n_nonce := λ _, "n0"; n_now := λ _, 100%Q; n_registry := λ _, recovery_registry;
  n_chain := λ _, None; n_anchor_keys := []; n_yaml := recovery_yaml; n_sign := demo_sign; n_rfc3339 := λ _, "t";
  n_admins := []; n_worker_sockets := []; n_development := false; n_uid := 1000 |}.

Definition waiting_requests : list request :=
  [call "ep1" "controller" "open_episode" (dset open_params "bundle_id" (VStr recovery_id)); signal_request;
   move 3 "controller" "diagnosing" 2; move 4 "controller" "recommending" 3; move 5 "controller" "judging" 4;
   move 6 "controller" "reporting" 5; move 7 "controller" "awaiting_operator" 6].
Definition waiting_store : store := fold_left serve waiting_requests init_store.
Definition verifier_turns (n : nat) : result exn () * verifier :=
  vf_loop (HASH := sum_hash) recovery_surroundings n (mkVerifier waiting_store [] [] [] []).

Example recovery_states : map (λ n, state_of (vf_store (verifier_turns n).2) "ep1") (seq 0 5) =
  [Some "awaiting_operator"; Some "awaiting_operator"; Some "awaiting_operator"; Some "resolved"; Some "resolved"].
Proof. vm_compute. reflexivity. Qed.
Example first_sample_missed : in_a_row ("ep1", VStr "delinquency_recovered") (vf_trace (verifier_turns 1).2) = 0%Z.
Proof. vm_compute. reflexivity. Qed.

Definition delinquency_key : skey := ("ep1", VStr "delinquency_recovered").
Lemma streaks_are_consecutive_witness :
  default 0%Z (sget (vf_streak (verifier_turns 3).2) delinquency_key) = in_a_row delinquency_key (vf_trace (verifier_turns 3).2) ∧
  in_a_row delinquency_key (vf_trace (verifier_turns 3).2) = 2%Z.
Proof.
  split; [|vm_compute; reflexivity].
  exact (streaks_are_consecutive (HASH := sum_hash) recovery_surroundings 3 waiting_store (verifier_turns 3).1 (verifier_turns 3).2
    (surjective_pairing _) "ep1" (VStr "delinquency_recovered") eq_refl).
Defined.

(** The request to resolve, and what came before it. *)
Definition resolve_event (e : vevent) : bool := match e with VCall (EvStore m _) => String.eqb m "set_state" | _ => false end.
Definition run_end : verifier := (verifier_turns 3).2.
Lemma run_ends : vf_loop (HASH := sum_hash) recovery_surroundings 3 (mkVerifier waiting_store [] [] [] []) = ((verifier_turns 3).1, run_end).
Proof. unfold run_end, verifier_turns. exact (surjective_pairing _). Qed.
Definition resolve_at : nat := length (vf_trace run_end) - 1.
Definition resolve_request : dict := match (vf_trace run_end) !! resolve_at with Some (VCall (EvStore _ p)) => p | _ => [] end.
Lemma resolve_there : (vf_trace run_end) !! resolve_at = Some (VCall (EvStore "set_state" resolve_request)).
Proof. vm_compute. reflexivity. Qed.

Lemma requests_are_warranted_witness :
  dget resolve_request "state" = Some (VStr "resolved") ∧
  justified (HASH := sum_hash) recovery_surroundings (take resolve_at (vf_trace run_end)) (VCall (EvStore "set_state" resolve_request)).
Proof.
  split; [vm_compute; reflexivity|].
  exact (requests_are_warranted (HASH := sum_hash) recovery_surroundings 3 waiting_store (verifier_turns 3).1 run_end
    (take resolve_at (vf_trace run_end)) (VCall (EvStore "set_state" resolve_request)) (drop (S resolve_at) (vf_trace run_end)) run_ends
    (eq_sym (take_drop_middle (vf_trace run_end) resolve_at (VCall (EvStore "set_state" resolve_request)) resolve_there))).
Defined.
