(* ===== verification/Client.v ===== *)
(** * A process that calls the others

    What the sentinel and a broker have in common with the controller: a trace of the
    calls made, the store on the other side of a socket, and answers that are an arbitrary
    function of the trace. [Client] is the interface a component's state offers for it. *)
From S2P Require Import Prelude PyVal Schema Canonical Json PyConv Tools Transitions Tokens Rpc Fold Store AuditChain AuditClient Bundle Control.

Class Client (S : Type) := {
  cl_store : S → store;
  cl_calls : S → trace;
  cl_log : event → S → S;
  cl_put : store → S → S;
  cl_calls_log e s : cl_calls (cl_log e s) = cl_calls s ++ [e];
  cl_store_log e s : cl_store (cl_log e s) = cl_store s;
  cl_store_put st s : cl_store (cl_put st s) = st;
  cl_calls_put st s : cl_calls (cl_put st s) = cl_calls s;
}.

Section client.
Context `{HASH : Hash} {S : Type} `{C : Client S} (N : surroundings).
Abbreviation CM := (M S exn).

Definition calls : CM trace := s ← get_state; mret (cl_calls s).
Definition clock_ : CM Q := tr ← calls; mret (n_now N tr).
Definition uuid_ : CM string := tr ← calls; mret (n_uuid N tr).
(** [client.call(method, **params)] of a service other than the store. *)
Definition call_rpc (service method : string) (params : dict) : CM val :=
  _ ← modify (cl_log (EvRpc service method params));
  tr ← calls;
  lift (n_answer N tr).
(** The same of the store, at one of its endpoints: the others act, then the store serves
    the request or is not reached, and the reply may be lost. *)
Definition call_store (endpoint method : string) (params : dict) : CM reply :=
  _ ← modify (cl_log (EvStore method params));
  s ← get_state;
  let st := n_others N (cl_calls s) (cl_store s) in
  match n_store N (cl_calls s) st with
  | None => _ ← modify (cl_put st); raise (rpc_error "unavailable")
  | Some (v, lost) =>
      let '(r, st') := serves_at N endpoint v (request_line method params) st in
      _ ← modify (cl_put st');
      if lost then raise (rpc_error "unavailable") else lift r
  end.
(** [self.bundles]: the registry as it is now. *)
Definition read_registry : CM registry := _ ← modify (cl_log EvRegistry); tr ← calls; mret (n_registry N tr).

(** Each adds one event to the trace. *)
Lemma call_rpc_run service method params s r s' : call_rpc service method params s = (r, s') →
  s' = cl_log (EvRpc service method params) s ∧ r = n_answer N (cl_calls s').
Proof. unfold call_rpc, calls. rewrite modify_bind. intros H. by injection H as <- <-. Qed.
Lemma call_store_run endpoint method params s r s' : call_store endpoint method params s = (r, s') →
  ∃ st, s' = cl_put st (cl_log (EvStore method params) s).
Proof.
  unfold call_store. rewrite modify_bind, get_bind. cbv zeta. destruct (n_store N _ _) as [[v lost]|].
  - destruct (serves_at _ _ _ _ _) as [r0 st']. rewrite modify_bind. destruct lost; intros H; injection H as _ <-; by eexists.
  - rewrite modify_bind. intros H. injection H as _ <-. by eexists.
Qed.
Lemma call_store_calls endpoint method params s r s' : call_store endpoint method params s = (r, s') →
  cl_calls s' = cl_calls s ++ [EvStore method params].
Proof. intros [st ->]%call_store_run. by rewrite cl_calls_put, cl_calls_log. Qed.
(** What the store answered, it answered after the others' acts, through one of the
    endpoint's methods. *)
Lemma call_store_Ok endpoint method params s x s' : call_store endpoint method params s = (Ok x, s') →
  ∃ v tr st', serves_at N endpoint v (request_line method params) (n_others N tr (cl_store s)) = (Ok x, st') ∧
    s' = cl_put st' (cl_log (EvStore method params) s).
Proof.
  unfold call_store. rewrite modify_bind, get_bind. cbv zeta. destruct (n_store N _ _) as [[v lost]|]; [|by rewrite modify_bind].
  destruct (serves_at _ _ _ _ _) as [r st'] eqn:Hserve. rewrite modify_bind. rewrite cl_store_log in Hserve.
  destruct lost; [done|]. intros H. apply lift_Ok in H as [-> ->]. by eexists _, _, _.
Qed.
Lemma serves_at_method endpoint v method params s x s' : serves_at N endpoint v (request_line method params) s = (Ok x, s') →
  ∃ ep fn ctx, find_first (λ ep, String.eqb (ep_name ep) endpoint) (endpoints v (λ _, [n_uid N])) = Some ep ∧
    dget (ep_methods ep) method = Some fn ∧ fn ctx (strip_identity params) s = (Ok x, s').
Proof.
  unfold serves_at. destruct (find_first _ _) as [ep|]; [|done].
  destruct (handle _ _ _ _ _) as [resp s1] eqn:Hh. intros [= Hr <-].
  apply handle_routed in Hh as [[_ Hno]|(name & ps & fn & r0 & _ & Hreq & Hfn & Hrun & Hans)]; [by destruct resp|].
  destruct resp as [i y|i l|i c d|e]; try done. injection Hr as ->.
  assert (r0 = Ok x) as -> by (destruct r0 as [z|[c d|cls]]; destruct Hans as [id Hid]; by simplify_eq).
  assert (request_of (Some (request_line method params)) = Some (method, strip_identity params)) as Hreq' by (cbn; by destruct params).
  rewrite Hreq' in Hreq. injection Hreq as <- <-. by eexists ep, fn, _.
Qed.
Lemma readonly_calls : readonly calls.
Proof. by intros s. Qed.
Lemma readonly_clock : readonly clock_.
Proof. by intros s. Qed.
Lemma readonly_uuid : readonly uuid_.
Proof. by intros s. Qed.

(** ** What is added to the trace *)
Definition adds (Q : event → Prop) (s s' : S) : Prop := ∃ l, cl_calls s' = cl_calls s ++ l ∧ Forall Q l.
#[export] Instance adds_preorder Q : PreOrder (adds Q).
Proof.
  split; [intros s; exists []; by rewrite app_nil_r|]. intros s1 s2 s3 (l1 & H1 & Hl1) (l2 & H2 & Hl2).
  exists (l1 ++ l2). split; [by rewrite H2, H1, (assoc_L app) | by apply Forall_app].
Qed.

(** A relation that calls of [Q] only cannot break. *)
Class Follows (Q : event → Prop) (R : relation S) : Prop := {
  follows_pre :: PreOrder R;
  follows_log e s : Q e → R s (cl_log e s);
  follows_put st s : R s (cl_put st s);
}.
#[export] Instance adds_follows Q : Follows Q (adds Q).
Proof.
  split; [apply adds_preorder|intros e s He; exists [e]; rewrite cl_calls_log; split; [done|by constructor]|].
  intros st s. exists []. by rewrite cl_calls_put, app_nil_r.
Qed.

Context {Q : event → Prop} {R : relation S} `{F : !Follows Q R}.
Lemma follows_readonly {A} (m : CM A) : readonly m → respects R m.
Proof using F. intros Hm. by apply (respects_readonly _). Qed.
Lemma follows_bind {A B} (m : CM A) (k : A → CM B) : respects R m → (∀ a, respects R (k a)) → respects R (m ≫= k).
Proof using F. intros Hm Hk. by apply (respects_bind _ (λ _, True)). Qed.
Lemma follows_catch_rpc {A} (m : CM A) h : respects R m → (∀ c, respects R (h c)) → respects R (catch_rpc m h).
Proof using F. intros Hm Hh. apply (respects_catch _); [done|]. intros [c d|cls]; [apply Hh|by apply follows_readonly]. Qed.
Lemma follows_for_each {A} (f : A → CM unit) l : (∀ x, respects R (f x)) → respects R (for_each f l).
Proof using F. intros Hf. induction l as [|x l IH]; cbn [for_each]; [by apply follows_readonly|]. by apply follows_bind. Qed.
Lemma follows_rpc service method params : Q (EvRpc service method params) → respects R (call_rpc service method params).
Proof using F. intros He s r s' [-> _]%call_rpc_run. by apply follows_log. Qed.
Lemma follows_store endpoint method params : Q (EvStore method params) → respects R (call_store endpoint method params).
Proof using F. intros He s r s' [st ->]%call_store_run. etrans; [by apply follows_log|apply follows_put]. Qed.
Lemma follows_registry : Q EvRegistry → respects R read_registry.
Proof using F.
  intros He. apply follows_bind; [|intros _; by apply follows_bind; [apply follows_readonly, readonly_calls|intros; apply follows_readonly]].
  intros s r s' [= _ <-]. by apply follows_log.
Qed.
End client.
#[export] Hint Resolve readonly_calls readonly_clock readonly_uuid : valops.

(** Takes a client's computation apart: [side] closes what each call must satisfy. *)
Ltac client_steps side := repeat lazymatch goal with
  | |- respects _ (_ ≫= _) => eapply follows_bind; [|intros ?]
  | |- respects _ (match ?x with _ => _ end) => destruct x
  | |- respects _ (let _ := _ in _) => cbv zeta
  | |- respects _ (catch_rpc _ _) => eapply follows_catch_rpc; [|intros ?]
  | |- respects _ (for_each _ _) => eapply follows_for_each; intros ?
  | |- respects _ (call_rpc _ _ _ _) => eapply follows_rpc; [typeclasses eauto|side]
  | |- respects _ (call_store _ _ _ _) => eapply follows_store; [typeclasses eauto|side]
  | |- respects _ (read_registry _) => eapply follows_registry; [typeclasses eauto|side]
  | |- respects _ _ => first [done | eapply follows_readonly; solve [auto 10 with valops]]
  end.
