(* ===== verification/Consensus.v ===== *)
(** * The consensus mode (src/valops/consensus.py)

    The declared mode against three observed inputs: all agree, or the mode is unknown. *)
From S2P Require Import Prelude PyVal Schema Canonical Json PyConv Rules.
From Stdlib Require Import Ascii.

(** [int(s)] of a text: a sign, digits with single underscores between them. *)
Fixpoint int_digits (s : string) (acc : Z) : option Z :=
  match s with
  | EmptyString => Some acc
  | String c s' =>
      let digit (c : ascii) (s : string) := if is_digit c then int_digits s (acc * 10 + (Z.of_nat (nat_of_ascii c) - 48))%Z else None in
      if Ascii.eqb c "_" then match s' with String d s'' => digit d s'' | EmptyString => None end
      else digit c s'
  end.
Definition int_of_text (s : string) : option Z :=
  let unsigned (s : string) := match s with String c _ => if is_digit c then int_digits s 0 else None | EmptyString => None end in
  match strip s with
  | String "-" s' => Z.opp <$> unsigned s'
  | String "+" s' => unsigned s'
  | s' => unsigned s'
  end.
Fixpoint all_ints (l : list string) : result exn (list Z) :=
  match l with [] => Ok [] | x :: l' => z ← of_opt (int_of_text x) (PyExc "ValueError"); zs ← all_ints l'; Ok (z :: zs) end.

(** src/valops/consensus.py:16-17 _vtuple *)
Definition vtuple (v : val) : result exn (list Z) :=
  match v with VStr s => all_ints (split_on "." s) | _ => Err (PyExc "AttributeError") end.
(** [a <= b] on tuples of integers. *)
Fixpoint tuple_le (a b : list Z) : bool :=
  match a, b with
  | [], _ => true
  | _ :: _, [] => false
  | x :: a', y :: b' => (x <? y)%Z || ((x =? y)%Z && tuple_le a' b')
  end.

(** One entry of [support]: its mode, if it admits the version. *)
Definition supports (v : list Z) (r : val) : result exn bool :=
  lo ← vget r "min"; lo ← (if truthy lo then vtuple lo else Ok [0%Z]);
  hi ← vget r "max"; hi ← (if truthy hi then vtuple hi else Ok [(10 ^ 9)%Z]);
  Ok (tuple_le lo v && tuple_le v hi).
Fixpoint supporting (v : list Z) (support : dict) : result exn (list string) :=
  match support with
  | [] => Ok []
  | (mode, r) :: rest => b ← supports v r; modes ← supporting v rest; Ok (if b : bool then mode :: modes else modes)
  end.
(** [x or {}], which must have [items] or [get]. *)
Definition as_mapping (v : val) : result exn dict :=
  match py_or v (VDict []) with VDict d => Ok d | _ => Err (PyExc "AttributeError") end.

(** src/valops/consensus.py:20-35 version_mode *)
Definition version_mode (version support : val) : result exn (option string) :=
  if negb (truthy version) then Ok None
  else match vtuple version with
       | Err (PyExc cls) => if String.eqb cls "ValueError" then Ok None else Err (PyExc cls)
       | Err e => Err e
       | Ok v =>
           support ← as_mapping support;
           modes ← supporting v support;
           Ok (match modes with [mode] => Some mode | _ => None end)
       end.

(** src/valops/consensus.py:38-47 files_mode *)
Definition files_mode (files : val) : result exn (option string) :=
  if negb (truthy files) then Ok None
  else
    status ← vget files "status";
    if negb (py_in status [VNone; VStr "ok"]) then Ok None
    else
      s ← vget files "structured";
      let s := py_or s files in
      tower ← vget s "tower"; vh ← vget s "vote_history";
      Ok (if truthy tower && negb (truthy vh) then Some "tower"
          else if truthy vh && negb (truthy tower) then Some "alpenglow"
          else None).

(** src/valops/consensus.py:50-54 feature_mode *)
Definition feature_mode (feature : val) : result exn val :=
  if negb (truthy feature) then Ok VNone
  else
    status ← vget feature "status";
    if negb (py_eq status (VStr "ok")) then Ok VNone
    else s ← vget feature "structured"; s ← as_mapping s; Ok (dget_none s "mode").

(** src/valops/consensus.py:57-76 determine

    [disagreeing_inputs] in the sorted order of the three names. *)
Definition determine (declared running_version feature_state state_files support : val) : result exn (val * dict) :=
  rv ← as_mapping running_version;
  st ← as_mapping (dget_none rv "structured");
  let ver := dget_none st "version" in
  by_version ← version_mode ver support;
  by_feature ← feature_mode feature_state;
  by_files ← files_mode state_files;
  let observed := [("feature_state", by_feature); ("files", opt_val VStr by_files); ("version", opt_val VStr by_version)] in
  feature ← as_mapping feature_state;
  files ← as_mapping state_files;
  let evidence :=
    [("declared", declared);
     ("version", VDict [("running", ver); ("implies", opt_val VStr by_version)]);
     ("feature_state", VDict [("status", default (VStr "unavailable") (dget feature "status")); ("implies", by_feature)]);
     ("files", VDict [("observed", dget_none files "structured"); ("implies", opt_val VStr by_files)])] in
  let disagreeing := List.filter (λ kv : string * val, negb (py_eq kv.2 declared)) observed in
  match disagreeing with
  | [] => Ok (declared, evidence ++ [("result", declared)])
  | _ => Ok (VStr "unknown", evidence ++ [("result", VStr "unknown"); ("disagreeing_inputs", VList (map (λ kv, VStr kv.1) disagreeing))])
  end.

(** ** What a determined mode rests on *)
Lemma as_mapping_get v d k x : as_mapping v = Ok d → dget d k = Some x → v = VDict d.
Proof.
  unfold as_mapping, py_or. destruct (truthy v) eqn:Ht; [|by intros [= <-]]. destruct v as [| | | | | |d']; try discriminate. by intros [= <-].
Qed.
Lemma dget_none_some d k x : dget_none d k = x → x ≠ VNone → dget d k = Some x.
Proof. unfold dget_none. destruct (dget d k) as [y|]; cbn; congruence. Qed.

Lemma supporting_spec v d modes : supporting v d = Ok modes → ∀ mode, mode ∈ modes ↔ ∃ r, (mode, r) ∈ d ∧ supports v r = Ok true.
Proof.
  revert modes. induction d as [|[m r] d IH]; intros modes H mode; cbn in H.
  - injection H as <-. split; [by intros ?%not_elem_of_nil|by intros (r & ?%not_elem_of_nil & _)].
  - apply rbind_Ok in H as (b & Hb & H). apply rbind_Ok in H as (ms & Hms & H). injection H as <-. specialize (IH _ Hms mode).
    assert ((∃ r', (mode, r') ∈ (m, r) :: d ∧ supports v r' = Ok true) ↔ (mode = m ∧ b = true) ∨ mode ∈ ms) as ->.
    { rewrite IH. split.
      - intros (r' & [[= -> ->]|Hin]%elem_of_cons & Hs); [left; split; [done|congruence]|right; eauto].
      - intros [[-> ->]|(r' & Hin & Hs)]; [exists r|exists r']; (split; [|done]); [left|by right]. }
    destruct b; rewrite ?elem_of_cons; naive_solver.
Qed.

(** What each input must show for a mode. *)
Definition version_shows (version support : val) (mode : string) : Prop :=
  ∃ s v d, version = VStr s ∧ all_ints (split_on "." s) = Ok v ∧ support = VDict d ∧
    ∀ m, (∃ r, (m, r) ∈ d ∧ supports v r = Ok true) ↔ m = mode.
Definition files_show (files : val) (mode : string) : Prop :=
  ∃ d tower vh, vget (py_or (dget_none d "structured") files) "tower" = Ok tower ∧ files = VDict d ∧
    vget (py_or (dget_none d "structured") files) "vote_history" = Ok vh ∧
    ((mode = "tower" ∧ truthy tower = true ∧ truthy vh = false) ∨ (mode = "alpenglow" ∧ truthy tower = false ∧ truthy vh = true)).
Definition feature_shows (feature : val) (mode : string) : Prop :=
  ∃ d s, feature = VDict d ∧ dget d "status" = Some (VStr "ok") ∧ dget d "structured" = Some (VDict s) ∧ dget s "mode" = Some (VStr mode).

Lemma version_mode_shows version support mode : version_mode version support = Ok (Some mode) → version_shows version support mode.
Proof.
  unfold version_mode. destruct (truthy version); [|discriminate]. cbn [negb].
  destruct (vtuple version) as [v|[c x|cls]] eqn:Hv; [|discriminate|destruct (String.eqb cls "ValueError"); discriminate].
  intros H. apply rbind_Ok in H as (d & Hd & H). apply rbind_Ok in H as (modes & Hm & H).
  destruct modes as [|m [|? ?]]; try discriminate H. injection H as ->. pose proof (supporting_spec _ _ _ Hm) as Hs.
  destruct version as [| | | |s| |]; try discriminate Hv. cbn in Hv. exists s, v, d. split_and!; [done|done| |].
  - unfold as_mapping, py_or in Hd. destruct (truthy support) eqn:Ht; [destruct support; try discriminate Hd; by injection Hd as <-|].
    injection Hd as <-. discriminate Hm.
  - intros m. rewrite <- Hs, list_elem_of_singleton. done.
Qed.
Lemma files_mode_shows files mode : files_mode files = Ok (Some mode) → files_show files mode.
Proof.
  unfold files_mode. destruct (truthy files); [|discriminate]. cbn [negb]. intros H. apply rbind_Ok in H as (status & _ & H).
  destruct (py_in _ _); [|discriminate H]. cbn [negb] in H. apply rbind_Ok in H as (s & Hs & H).
  destruct files as [| | | | | |d]; try discriminate Hs. injection Hs as <-. cbv zeta in H.
  apply rbind_Ok in H as (tower & Ht & H). apply rbind_Ok in H as (vh & Hv & H). exists d, tower, vh. split_and!; try done.
  destruct (truthy tower), (truthy vh); cbn in H; try discriminate H; injection H as <-; tauto.
Qed.
Lemma feature_mode_shows feature mode : feature_mode feature = Ok (VStr mode) → feature_shows feature mode.
Proof.
  unfold feature_mode. destruct (truthy feature); [|discriminate]. cbn [negb]. intros H. apply rbind_Ok in H as (status & Hst & H).
  destruct feature as [| | | | | |d]; try discriminate Hst. injection Hst as Hst. destruct (py_eq status _) eqn:He; [|discriminate H].
  apply py_eq_str_r in He as ->. cbn [negb] in H. apply rbind_Ok in H as (s0 & Hs0 & H). injection Hs0 as <-. apply rbind_Ok in H as (s & Hs & H).
  injection H as H. apply dget_none_some in H; [|discriminate]. apply (as_mapping_get _ _ _ _ Hs) in H as Hd. exists d, s.
  split_and!; [done|by apply dget_none_some|by apply dget_none_some|done].
Qed.

Lemma determine_known declared running_version feature_state state_files support mode evidence :
  determine declared running_version feature_state state_files support = Ok (VStr mode, evidence) → mode ≠ "unknown" →
  declared = VStr mode ∧ (mode = "tower" ∨ mode = "alpenglow") ∧
  (∃ d s version, running_version = VDict d ∧ dget d "structured" = Some (VDict s) ∧ dget s "version" = Some version ∧ version_shows version support mode) ∧
  feature_shows feature_state mode ∧ files_show state_files mode.
Proof.
  unfold determine. intros H Hne. apply rbind_Ok in H as (rv & Hrv & H). apply rbind_Ok in H as (st & Hst & H). cbv zeta in H.
  apply rbind_Ok in H as (by_version & Hver & H). apply rbind_Ok in H as (by_feature & Hfeat & H). apply rbind_Ok in H as (by_files & Hfiles & H).
  apply rbind_Ok in H as (feature & _ & H). apply rbind_Ok in H as (files & _ & H). cbn [List.filter snd] in H.
  destruct (py_eq by_feature declared) eqn:E1; [|injection H as <- _; congruence].
  destruct (py_eq (opt_val VStr by_files) declared) eqn:E2; [|injection H as <- _; congruence].
  destruct (py_eq (opt_val VStr by_version) declared) eqn:E3; [|injection H as <- _; congruence].
  cbn in H. injection H as -> _. apply py_eq_str_r in E1 as ->, E2, E3.
  destruct by_files as [m|]; [|discriminate E2]. injection E2 as ->. destruct by_version as [m|]; [|discriminate E3]. injection E3 as ->.
  pose proof (files_mode_shows _ _ Hfiles) as Hf. pose proof (version_mode_shows _ _ _ Hver) as Hv.
  split; [done|]. split; [destruct Hf as (? & ? & ? & _ & _ & _ & [[-> _]|[-> _]]); auto|]. split; [|split; [by apply feature_mode_shows|done]].
  assert (∃ s, dget_none st "version" = VStr s) as [s Hs] by (destruct Hv as (s & ? & ? & Hs & _); eauto). rewrite Hs in Hv.
  apply dget_none_some in Hs; [|discriminate]. pose proof (as_mapping_get _ _ _ _ Hst Hs) as Hd.
  apply dget_none_some in Hd; [|discriminate]. pose proof (as_mapping_get _ _ _ _ Hrv Hd) as Hr.
  exists rv, st, (VStr s). by split_and!.
Qed.

(** A mode is only ever determined on evidence: a result other than [unknown] is
    the declared mode, the running version lies in the interval of that mode and of no other,
    the cluster's feature state was obtained and names it, and of the two consensus state
    files exactly that mode's is there; an input that is missing, ambiguous or unverified
    makes the mode unknown. *)
Theorem known_mode_is_observed declared running_version feature_state state_files support mode evidence :
  determine declared running_version feature_state state_files support = Ok (VStr mode, evidence) → mode ≠ "unknown" →
  declared = VStr mode ∧ (mode = "tower" ∨ mode = "alpenglow") ∧
  (∃ d s version, running_version = VDict d ∧ dget d "structured" = Some (VDict s) ∧ dget s "version" = Some version ∧ version_shows version support mode) ∧
  feature_shows feature_state mode ∧ files_show state_files mode.
Proof. apply determine_known. Qed.

Definition demo_support : val :=
  VDict [("tower", VDict [("min", VNone); ("max", VStr "3.9.9")]); ("alpenglow", VDict [("min", VStr "4.0.0"); ("max", VNone)])].
Definition ok_with (d : dict) : val := VDict [("status", VStr "ok"); ("structured", VDict d)].
Definition demo_determined : result exn (val * dict) :=
  determine (VStr "tower") (ok_with [("version", VStr "3.0.11")]) (ok_with [("mode", VStr "tower")])
    (ok_with [("tower", VBool true); ("vote_history", VBool false)]) demo_support.
Definition demo_evidence : dict := match demo_determined with Ok (_, e) => e | Err _ => [] end.
Lemma known_mode_is_observed_witness :
  demo_determined = Ok (VStr "tower", demo_evidence) ∧ version_shows (VStr "3.0.11") demo_support "tower".
Proof.
  split; [vm_compute; reflexivity|].
  destruct (known_mode_is_observed (VStr "tower") (ok_with [("version", VStr "3.0.11")]) (ok_with [("mode", VStr "tower")])
    (ok_with [("tower", VBool true); ("vote_history", VBool false)]) demo_support "tower" demo_evidence)
    as (_ & _ & (d & s & v & Hd & Hs & Hv & H) & _); [vm_compute; reflexivity|discriminate|].
  injection Hd as <-. injection Hs as <-. injection Hv as <-. exact H.
Defined.
(** Until the feature query is verified it answers [unavailable]. *)
Example unavailable_is_unknown :
  fst <$> determine (VStr "tower") (ok_with [("version", VStr "3.0.11")]) (VDict [("status", VStr "unavailable")])
    (ok_with [("tower", VBool true)]) demo_support = Ok (VStr "unknown").
Proof. vm_compute. reflexivity. Qed.
