(* ===== verification/Checks.v ===== *)
(** * The sentinel's rules (src/valops/sentinel/checks.py)

    Functions of samples and thresholds; the only state is a counter of consecutive
    breaches. [th] and [dep] are [bundle.thresholds] and [bundle.deployment], whose reading
    may raise. *)
From S2P Require Import Prelude PyVal Schema Canonical Json PyConv Bundle Consensus.
From Stdlib Require Import Ascii.

(** src/valops/sentinel/checks.py:9-15 Finding *)
Record Finding : Type := mkFinding {
  fd_cls : string; fd_check : string; fd_severity : string; fd_detail : string; fd_command_ids : list string }.

(** src/valops/sentinel/checks.py:18-23 _ok *)
Definition ok_sample (s : val) : result exn (option dict) :=
  if negb (truthy s) then Ok None
  else
    status ← vget s "status";
    if negb (py_eq status (VStr "ok")) then Ok None
    else
      st ← vget s "structured";
      st ← as_mapping st;
      Ok (if truthy (dget_none st "parsed") then Some st else None).

(** src/valops/sentinel/checks.py:26-32 ConsecutiveCounter.update *)
Abbreviation counter := (list (string * Z)).
Definition update (key : string) (breached : bool) : M counter exn Z :=
  n ← get_state;
  let k := if breached then (default 0 (dget n key) + 1)%Z else 0%Z in
  _ ← put_state (dset n key k);
  mret k.

(** [a < b] and [a > b] on values. *)
Definition lt_ (a b : val) : result exn bool := of_opt (py_lt a b) (PyExc "TypeError").
Definition gt_ (a b : val) : result exn bool := lt_ b a.
Definition half (v : val) : result exn val := q ← of_opt (num_of v) (PyExc "TypeError"); Ok (VFloat (q / 2)%Q).
Definition vh_finding (check severity detail : string) (cids : list string) : Finding := mkFinding "validator_health" check severity detail cids.
Definition th_finding (check severity detail : string) : Finding := mkFinding "telemetry_health" check severity detail [].

Definition host_findings (p : val) (hm : dict) : result exn (list Finding) :=
  let unit := match dget_none hm "unit_active" with
              | VBool false => [vh_finding "unit_state" "high" ("unit state " +:+ py_str (dget_none hm "unit_state")) ["host_metrics"]]
              | _ => []
              end in
  let mf := dget_none hm "min_free_pct" in
  disk ← (if is_num mf then
            floor ← vindex p "P-04";
            b ← lt_ mf floor;
            Ok (if b : bool then [vh_finding "disk_headroom" "high" ("min free " +:+ py_str mf +:+ "% < " +:+ py_str floor +:+ "%") ["host_metrics"]] else [])
          else Ok []);
  Ok (unit ++ disk).
Definition balance_findings (p : val) (bal : dict) : result exn (list Finding) :=
  sol ← vindex (VDict bal) "balance_sol"; floor ← vindex p "P-02";
  b ← lt_ sol floor;
  if b : bool then
    h ← half floor; low ← lt_ sol h;
    Ok [vh_finding "balance" (if low : bool then "high" else "warning") (py_str sol +:+ " SOL < floor " +:+ py_str floor) ["identity_balance"]]
  else Ok [].
Definition version_findings (exp : val) (rv : option dict) : list Finding :=
  match rv with
  | Some rv =>
      let v := dget_none rv "version" in
      if truthy v && negb (py_eq v exp)
      then [vh_finding "version_drift" "warning" ("running " +:+ py_str v +:+ " != expected " +:+ py_str exp) ["running_version"]] else []
  | None => []
  end.
Definition delinquency_findings (p : val) (cu : dict) : M counter exn (list Finding) :=
  behind ← lift (vindex (VDict cu) "slots_behind");
  p03 ← lift (vindex p "P-03");
  threshold ← lift (vindex p03 "threshold");
  breached ← lift (gt_ behind threshold);
  n ← update "delinquency" breached;
  samples ← lift (vindex p03 "samples");
  few ← lift (lt_ (VInt n) samples);
  mret (if few : bool then []
        else [vh_finding "delinquency" "high" (py_str behind +:+ " slots behind for " +:+ py_str (VInt n) +:+ " samples")
                ["catchup"; "validator_monitor"; "host_metrics"]]).

(** src/valops/sentinel/checks.py:35-62 validator_findings *)
Definition validator_findings (samples : dict) (th dep : result exn val) : M counter exn (list Finding) :=
  p ← lift th;
  hm ← lift (ok_sample (dget_none samples "host_metrics"));
  f1 ← lift (match hm with Some hm => host_findings p hm | None => Ok [] end);
  cu ← lift (ok_sample (dget_none samples "catchup"));
  f2 ← (match cu with Some cu => delinquency_findings p cu | None => mret [] end);
  bal ← lift (ok_sample (dget_none samples "identity_balance"));
  f3 ← lift (match bal with Some bal => balance_findings p bal | None => Ok [] end);
  rv ← lift (ok_sample (dget_none samples "running_version"));
  exp ← lift (d ← dep; vindex d "expected_version");
  mret (f1 ++ f2 ++ f3 ++ version_findings exp rv).

(** ** Telemetry *)
(** The age of a file: it may be missing, which is an infinite age. *)
Inductive age : Type := Age (q : Q) | Infinite.
Definition age_str (a : age) : result exn string :=
  match a with Age q => Ok (py_str (VInt (Qtrunc q))) | Infinite => Err (PyExc "OverflowError") end.
Definition older (a : age) (limit : Q) : bool := match a with Age q => Qltb limit q | Infinite => true end.

(** [v.get(k, d)] *)
Definition get_or (v : val) (k : string) (d : val) : result exn val :=
  match v with VDict e => Ok (default d (dget e k)) | _ => Err (PyExc "AttributeError") end.
(** [p["P-15"] * p["P-01"]], two numbers. *)
Definition stale_after (th : result exn val) : result exn Q :=
  p ← th; p15 ← vindex p "P-15"; p01 ← vindex p "P-01";
  x ← of_opt (num_of p15) (PyExc "TypeError"); y ← of_opt (num_of p01) (PyExc "TypeError"); Ok (x * y)%Q.
(** Whether a command's newest sample is too old, and whether it is missing. *)
Definition aged (limit : Q) (s : val) : result exn (option bool) :=
  a ← vget s "age_s"; match a with VNone => Ok None | _ => b ← gt_ a (VFloat limit); Ok (Some b) end.

(** The two loops that stop at the first hit. *)
Fixpoint first_stale (limit : Q) (per : dict) : result exn (list Finding) :=
  match per with
  | [] => Ok []
  | (cid, s) :: per' =>
      if String.eqb cid "health" then first_stale limit per'
      else
        a ← aged limit s;
        match a with
        | Some true => Ok [th_finding "sample_stale" "high"
                             (cid +:+ " newest sample " +:+ py_str (match s with VDict d => dget_none d "age_s" | _ => VNone end) +:+ "s old")]
        | _ => first_stale limit per'
        end
  end.
Fixpoint first_erring (tcfg : val) (per : dict) : result exn (list Finding) :=
  match per with
  | [] => Ok []
  | (cid, s) :: per' =>
      rate ← vget s "error_rate";
      limit ← get_or tcfg "error_rate_max" (VFloat (1 # 2)); limit ← py_float limit;
      b ← gt_ (py_or rate (VInt 0)) (VFloat limit);
      if b : bool then Ok [th_finding "command_errors" "warning" (cid +:+ " error rate " +:+ py_str rate)] else first_erring tcfg per'
  end.

(** src/valops/sentinel/checks.py:65-94 telemetry_findings *)
Definition telemetry_findings (telemetry probe : val) (th dep : result exn val) (watchtower : option age) : result exn (list Finding) :=
  limit ← stale_after th;
  dep ← dep;
  tcfg ← vget dep "telemetry";
  let tcfg := py_or tcfg (VDict []) in
  reachable ← vget probe "reachable";
  down ← (if negb (truthy reachable) then Ok true
          else n ← get_or telemetry "consecutive_unreachable" (VInt 0); few ← lt_ n (VInt 2); Ok (negb few));
  if down : bool then
    e ← vget probe "error"; last ← (if truthy e then Ok VNone else vget telemetry "last_unreachable_error");
    Ok [th_finding "observer_unreachable" "high" (stake 200 (py_str (py_or e last)))]
  else
    lat ← vget probe "latency_ms";
    slow ← (if is_num lat then limit ← get_or tcfg "observer_latency_ms_max" (VInt 5000); limit ← py_float limit; gt_ lat (VFloat limit) else Ok false);
    per ← vget telemetry "per_command"; per ← as_mapping per;
    f2 ← first_stale limit per;
    f3 ← first_erring tcfg per;
    b1 ← vget telemetry "breaker"; b2 ← vget probe "breaker"; br ← as_mapping (py_or b1 b2);
    f5 ← (match watchtower with
          | Some a => if older a limit then s ← age_str a; Ok [th_finding "watchtower_silent" "warning" ("no watchtower heartbeat for " +:+ s +:+ "s")] else Ok []
          | None => Ok []
          end);
    Ok ((if slow : bool then [th_finding "observer_slow" "warning" ("probe latency " +:+ py_str lat +:+ " ms")] else []) ++ f2 ++ f3 ++
        (if truthy (dget_none br "open")
         then [th_finding "rpc_breaker_open" "warning" ("local-RPC breaker open (trips " +:+ py_str (dget_none br "trips") +:+ ")")] else []) ++ f5).

Fixpoint str_insert (x : string) (l : list string) : list string :=
  match l with [] => [x] | y :: l' => if String.ltb y x then y :: str_insert x l' else x :: l end.

(** src/valops/sentinel/checks.py:97-100 stale_checks *)
Definition stale_checks (telemetry : val) (th : result exn val) : result exn (list string) :=
  limit ← stale_after th;
  per ← vget telemetry "per_command"; per ← as_mapping per;
  l ← filterR (λ kv : string * val, if String.eqb kv.1 "health" then Ok false else a ← aged limit kv.2; Ok (default true a)) per;
  Ok (foldr str_insert [] (map fst l)).

(** src/valops/sentinel/checks.py:103-104 summarise *)
Definition summarise (sample : val) : result exn dict :=
  match sample with
  | VDict d => Ok (map (λ k, (k, dget_none d k)) ["command_id"; "status"; "structured"; "truncated"; "collected_at"; "flags"; "audit_ref"])
  | _ => Err (PyExc "AttributeError")
  end.
