(* ===== verification/Sentinel.v ===== *)
(** * The sentinel (src/valops/sentinel/scheduler.py)

    Each tick samples the validator and the telemetry, evaluates the rules, opens an
    episode for each finding with the samples attached, and marks open episodes whose
    samples are stale. *)
From S2P Require Import Prelude PyVal Schema Canonical Json PyConv Tools Transitions Tokens Rpc Fold Store AuditChain AuditClient Bundle Control Client Consensus Checks.

(** src/valops/sentinel/scheduler.py:24-25 VALIDATOR_SAMPLES *)
Definition VALIDATOR_SAMPLES : list string := ["host_metrics"; "catchup"; "identity_balance"; "running_version"; "rpc_latency"].
Definition MODE_SAMPLES : list string := ["running_version"; "cluster_feature_state"; "consensus_state_files"].

(** src/valops/sentinel/scheduler.py:29-39 Sentinel.__init__ *)
Record sentinel : Type := mkSentinel {
  sn_store : store; sn_trace : trace; sn_counter : counter; sn_annotated : list (string * string) }.
#[export] Instance sentinel_client : Client sentinel := {|
  cl_store := sn_store; cl_calls := sn_trace;
  cl_log e w := mkSentinel (sn_store w) (sn_trace w ++ [e]) (sn_counter w) (sn_annotated w);
  cl_put s w := mkSentinel s (sn_trace w) (sn_counter w) (sn_annotated w);
  cl_calls_log _ _ := eq_refl; cl_store_log _ _ := eq_refl; cl_store_put _ _ := eq_refl; cl_calls_put _ _ := eq_refl |}.
Abbreviation NM := (M sentinel exn).

Section sentinel.
Context `{HASH : Hash} (N : surroundings) (watchtower_age : trace → option age).

(** A call that gives [d] when it fails with [RpcError]. *)
Definition or_else (m : NM val) (d : string → val) : NM val := catch_rpc m (λ code, mret (d code)).

(** src/valops/sentinel/scheduler.py:41-45 Sentinel._sample *)
Definition sn_sample (cid : string) : NM val :=
  or_else (call_rpc N "observer" "sample" [("command_id", VStr cid)])
    (λ code, VDict [("command_id", VStr cid); ("status", VStr "unreachable"); ("structured", VDict [("error", VStr code)])]).
Fixpoint sample_all (cids : list string) : NM dict :=
  match cids with [] => mret [] | cid :: cids' => s ← sn_sample cid; rest ← sample_all cids'; mret ((cid, s) :: rest) end.

(** The counter's part of the state. *)
Definition counting {A} (m : M counter exn A) : NM A := λ w,
  let '(r, n) := m (sn_counter w) in (r, mkSentinel (sn_store w) (sn_trace w) n (sn_annotated w)).

(** src/valops/sentinel/scheduler.py:133-137 Sentinel._alert *)
Definition sn_alert (severity title text episode_id dedupe : string) : NM unit :=
  catch_rpc (_ ← call_rpc N "report" "system_alert"
                   [("severity", VStr severity); ("title", VStr title); ("text", VStr text); ("episode_id", VStr episode_id);
                    ("dedupe_key", VStr dedupe)]; mret tt) (λ _, mret tt).

Definition mode_sample (samples : dict) (cid : string) : NM val :=
  let s := dget_none samples cid in if truthy s then mret s else sn_sample cid.
(** src/valops/sentinel/scheduler.py:77-81 Sentinel._mode *)
Definition sn_mode (dep : result exn val) (samples : dict) : NM (val * dict) :=
  rv ← mode_sample samples "running_version";
  fs ← mode_sample samples "cluster_feature_state";
  sf ← mode_sample samples "consensus_state_files";
  dep ← lift dep;
  declared ← lift (vindex dep "declared_consensus_mode");
  support ← lift (vget dep "mode_support");
  lift (determine declared rv fs sf (py_or support (VDict []))).

(** One sample, attached to the episode. *)
Definition attach (eid : val) (s : val) : NM unit :=
  catch_rpc (
    snapshot ← lift (summarise s);
    cid ← lift (vget s "command_id");
    rid ← lift (vget s "request_id");
    u ← uuid_ N;
    _ ← call_store N "store-control" "append_signal"
          [("episode_id", eid); ("snapshot", VDict snapshot);
           ("idem_key", VStr ("sig:" +:+ py_str cid +:+ ":" +:+ py_str (if truthy rid then rid else VStr u)))];
    mret tt) (λ _, mret tt).

Definition open_params_of (f : Finding) (bundle_id : string) (vid mode : val) (evidence : dict) (u : string) : dict :=
  [("class", VStr (fd_cls f));
   ("trigger", VDict [("source", VStr "sentinel"); ("check", VStr (fd_check f)); ("severity", VStr (fd_severity f)); ("detail", VStr (fd_detail f))]);
   ("validator_id", vid); ("bundle_id", VStr bundle_id); ("consensus_mode", mode); ("consensus_mode_evidence", VDict evidence);
   ("idem_key", VStr ("open:" +:+ fd_cls f +:+ ":" +:+ fd_check f +:+ ":" +:+ py_str vid +:+ ":" +:+ u))].

(** src/valops/sentinel/scheduler.py:83-111 Sentinel._open *)
Definition sn_open (f : Finding) (bundle_id : string) (dep : result exn val) (samples : dict) (telemetry : val) : NM (option val) :=
  '(mode, evidence) ← (if String.eqb (fd_cls f) "validator_health" then sn_mode dep samples
                       else mret (VStr "unknown", [("note", VStr "not determined for telemetry-health episodes (observer impaired)")]));
  vid ← lift (d ← dep; vindex d "validator_id");
  u ← uuid_ N;
  res ← catch_rpc (r ← call_store N "store-control" "open_episode" (open_params_of f bundle_id vid mode evidence u);
                   match r with ReplyVal v => mret (Some v) | _ => raise (PyExc "TypeError") end) (λ _, mret None);
  match res with
  | None => mret None
  | Some res =>
      eid ← lift (vindex res "episode_id");
      let snaps := omap (dget samples) (fd_command_ids f) ++
                   (if String.eqb (fd_cls f) "telemetry_health"
                    then [VDict [("command_id", VStr "telemetry_health"); ("status", VStr "ok"); ("structured", telemetry)]] else []) in
      _ ← for_each (attach eid) snaps;
      dup ← lift (vget res "deduplicated");
      _ ← (if negb (truthy dup) && py_eq mode (VStr "unknown") && String.eqb (fd_cls f) "validator_health" then
             eid ← lift (of_opt (as_str eid) (PyExc "TypeError"));
             sn_alert "warning" ("Consensus mode unknown for episode " +:+ stake 8 eid)
               ("Inputs disagree: " +:+ py_str (dget_none evidence "disagreeing_inputs") +:+ ". Mode-specific recommendations are prohibited.")
               eid ("mode-unknown:" +:+ eid)
           else mret tt);
      mret (Some res)
  end.
Fixpoint open_all (fs : list Finding) (bundle_id : string) (dep : result exn val) (samples : dict) (telemetry : val) : NM (list (option val)) :=
  match fs with
  | [] => mret []
  | f :: fs' => r ← sn_open f bundle_id dep samples telemetry; rs ← open_all fs' bundle_id dep samples telemetry; mret (r :: rs)
  end.

Definition annotate_one (stale : list string) (ep : summary) : NM unit :=
  let key := (su_episode_id ep, join "," stale) in
  w ← get_state;
  if bool_decide (key ∈ sn_annotated w) then mret tt
  else
    u ← uuid_ N;
    catch_rpc (_ ← call_store N "store-control" "annotate"
                     [("episode_id", VStr (su_episode_id ep)); ("kind", VStr "stale_signals");
                      ("note", VStr ("TH-3: samples stale for " +:+ py_str (VList (map VStr stale)) +:+ "; recovery cannot be confirmed from stale data"));
                      ("idem_key", VStr ("stale:" +:+ u))];
               modify (λ w, mkSentinel (sn_store w) (sn_trace w) (sn_counter w) (key :: sn_annotated w)))
              (λ _, mret tt).
(** src/valops/sentinel/scheduler.py:113-131 Sentinel._annotate_stale *)
Definition annotate_stale (telemetry : val) (th : result exn val) : NM unit :=
  stale ← lift (stale_checks telemetry th);
  match stale with
  | [] => mret tt
  | _ =>
      eps ← catch_rpc (r ← call_store N "store-control" "list_episodes" [("nonterminal_only", VBool true); ("class", VStr "validator_health")];
                       match r with ReplyList l => mret (Some l) | _ => raise (PyExc "TypeError") end) (λ _, mret None);
      match eps with Some eps => for_each (annotate_one stale) eps | None => mret tt end
  end.

(** src/valops/sentinel/scheduler.py:55-75 Sentinel.tick *)
Definition sn_tick : NM (list val) :=
  g ← read_registry N;
  match active g with
  | None => mret []
  | Some bundle_id =>
      g ← read_registry N;
      bundle ← lift (load_bundle g bundle_id);
      let th := thresholds (n_yaml N) bundle in
      let dep := deployment (n_yaml N) bundle in
      probe ← or_else (call_rpc N "observer" "probe" [])
                (λ code, VDict [("reachable", VBool false); ("error", VStr ("observer broker: " +:+ code))]);
      reachable ← lift (vget probe "reachable");
      samples ← (if truthy reachable then sample_all VALIDATOR_SAMPLES else mret []);
      telemetry ← or_else (call_rpc N "observer" "telemetry" []) (λ _, VDict [("consecutive_unreachable", VInt 99)]);
      f1 ← counting (validator_findings samples th dep);
      tr ← calls;
      f2 ← lift (telemetry_findings telemetry probe th dep (watchtower_age tr));
      opened ← open_all (f1 ++ f2) bundle_id dep samples telemetry;
      _ ← annotate_stale telemetry th;
      _ ← call_rpc N "audit" "submit" (audit_params "sentinel" VNone
            (Some [("findings", VList (map (λ f, VStr (fd_check f)) (f1 ++ f2))); ("reachable", reachable)]) NoPayload);
      mret (List.filter truthy (omap id opened))
  end.

(** How long the loop waits, if that can be read. *)
Definition sn_interval : NM Q :=
  g ← read_registry N;
  match active g with
  | None => mret 60%Q
  | Some id =>
      g ← read_registry N;
      lift (b ← load_bundle g id; th ← thresholds (n_yaml N) b; p01 ← vindex th "P-01"; py_float p01)
  end.
(** src/valops/sentinel/scheduler.py:139-149 Sentinel.loop

    One turn of the loop, and the seconds it then waits. *)
Definition sn_turn : NM Q := λ w,
  match sn_interval w with
  | (Err _, w1) => (Ok 60%Q, w1)
  | (Ok interval, w1) => let '(_, w2) := sn_tick w1 in (Ok interval, w2)
  end.
Fixpoint sn_loop (n : nat) : NM unit := match n with O => mret tt | S n => _ ← sn_turn; sn_loop n end.
End sentinel.
