(* ===== verification/SentinelProps.v ===== *)
(** * The sentinel's guarantees

    Missing data never opens an episode; a consensus mode is never opened under without
    evidence; the sentinel moves nothing. *)
From S2P Require Import Prelude PyVal Schema Canonical Json PyConv Tools Transitions Tokens Rpc Fold Store AuditChain AuditClient Bundle Control Client Consensus Checks Sentinel.
From Stdlib Require Import Ascii.

(** ** The rules *)
(** A sample that is there, succeeded and was parsed. *)
Definition measured (samples : dict) (cid : string) (st : dict) : Prop :=
  ∃ d, dget samples cid = Some (VDict d) ∧ dget d "status" = Some (VStr "ok") ∧ dget d "structured" = Some (VDict st) ∧
    truthy (dget_none st "parsed") = true.
Lemma ok_sample_measured samples cid st : ok_sample (dget_none samples cid) = Ok (Some st) → measured samples cid st.
Proof.
  unfold ok_sample. destruct (truthy (dget_none samples cid)) eqn:Ht; [|discriminate]. cbn [negb]. intros H.
  apply rbind_Ok in H as (status & Hst & H). destruct (dget_none samples cid) as [| | | | | |d] eqn:Hd; try discriminate Hst. injection Hst as Hst.
  destruct (py_eq status _) eqn:Hok; [|discriminate H]. apply py_eq_str_r in Hok as ->. cbn [negb] in H.
  apply rbind_Ok in H as (s0 & Hs0 & H). injection Hs0 as <-. apply rbind_Ok in H as (s & Hs & H).
  destruct (truthy (dget_none s "parsed")) eqn:Hp; [|discriminate H]. injection H as ->.
  exists d. split; [by apply dget_none_some|]. split; [by apply dget_none_some|]. split; [|done].
  assert (∃ x, dget st "parsed" = Some x) as [x Hx] by (unfold dget_none in Hp; destruct (dget st "parsed"); [eauto|discriminate Hp]).
  apply (as_mapping_get _ _ _ _ Hs) in Hx. by apply dget_none_some.
Qed.

(** A finding about the validator that a measurement stands behind. *)
Definition backed (samples : dict) (f : Finding) : Prop :=
  fd_cls f = "validator_health" ∧ ∃ cid st, cid ∈ fd_command_ids f ∧ measured samples cid st.

Lemma host_backed samples p hm fs : host_findings p hm = Ok fs → measured samples "host_metrics" hm → Forall (backed samples) fs.
Proof.
  intros H Hm. unfold host_findings in H. cbv zeta in H. apply rbind_Ok in H as (disk & Hd & H). injection H as <-.
  assert (∀ check severity detail, backed samples (vh_finding check severity detail ["host_metrics"])) as Hb
    by (intros; split; [done|]; exists "host_metrics", hm; split; [left|done]).
  apply Forall_app. split.
  - destruct (dget_none hm "unit_active") as [|[|]| | | | |]; by constructor.
  - destruct (is_num _); [|by injection Hd as <-; constructor]. apply rbind_Ok in Hd as (floor & _ & Hd). apply rbind_Ok in Hd as (b & _ & Hd).
    injection Hd as <-. destruct b; [|done]. constructor; [apply Hb|done].
Qed.
Lemma balance_backed samples p bal fs : balance_findings p bal = Ok fs → measured samples "identity_balance" bal → Forall (backed samples) fs.
Proof.
  intros H Hm. unfold balance_findings in H. apply rbind_Ok in H as (sol & _ & H). apply rbind_Ok in H as (floor & _ & H).
  apply rbind_Ok in H as (b & _ & H). destruct b; [|by injection H as <-]. apply rbind_Ok in H as (h & _ & H). apply rbind_Ok in H as (low & _ & H).
  injection H as <-. constructor; [|done]. split; [done|]. exists "identity_balance", bal. split; [left|done].
Qed.
Lemma version_backed samples exp rv : (∀ d, rv = Some d → measured samples "running_version" d) → Forall (backed samples) (version_findings exp rv).
Proof.
  intros Hm. unfold version_findings. destruct rv as [d|]; [|done]. destruct (_ && _); [|done]. constructor; [|done]. split; [done|].
  exists "running_version", d. split; [left|auto].
Qed.
Lemma delinquency_run samples p cu n r n' : delinquency_findings p cu n = (r, n') → measured samples "catchup" cu →
  ∀ fs, r = Ok fs → Forall (backed samples) fs.
Proof.
  intros H Hm fs ->. unfold delinquency_findings in H. do 4 (apply bind_Ok in H as (? & ? & _ & H)).
  apply bind_Ok in H as (k & ? & _ & H). do 2 (apply bind_Ok in H as (? & ? & _ & H)). apply ret_Ok in H as [-> _].
  case_match; [done|]. constructor; [|done]. split; [done|]. exists "catchup", cu. split; [left|done].
Qed.

(** Missing data never opens a validator-health episode: behind every finding
    stands a sample of one of its commands that succeeded and was parsed; and without such a
    sample of [catchup] the count of consecutive breaches neither grows nor restarts. *)
Theorem findings_rest_on_data samples th dep n r n' :
  validator_findings samples th dep n = (r, n') →
  (∀ fs f, r = Ok fs → f ∈ fs → fd_cls f = "validator_health" ∧ ∃ cid st, cid ∈ fd_command_ids f ∧ measured samples cid st) ∧
  ((∀ st, ¬ measured samples "catchup" st) → n' = n).
Proof.
  intros H. unfold validator_findings in H.
  assert (∀ e, (r, n') = (Err e, n) → (∀ fs f, r = Ok fs → f ∈ fs → backed samples f) ∧ ((∀ st, ¬ measured samples "catchup" st) → n' = n)) as Herr
    by (by intros e [= -> ->]).
  rewrite lift_bind in H. destruct th as [p|e]; [|by apply (Herr e)].
  rewrite lift_bind in H. destruct (ok_sample (dget_none samples "host_metrics")) as [hm|e] eqn:Hhm; [|by apply (Herr e)].
  rewrite lift_bind in H. destruct (match hm with Some _ => _ | None => _ end) as [f1|e] eqn:Hf1; [|by apply (Herr e)].
  rewrite lift_bind in H. destruct (ok_sample (dget_none samples "catchup")) as [cu|e] eqn:Hcu; [|by apply (Herr e)].
  assert (Forall (backed samples) f1) as Hb1.
  { destruct hm; [eapply host_backed; [done|by apply ok_sample_measured]|by injection Hf1 as <-]. }
  assert (∀ r2 n2, match cu with Some cu => delinquency_findings p cu | None => mret [] end n = (r2, n2) →
    (∀ fs, r2 = Ok fs → Forall (backed samples) fs) ∧ ((∀ st, ¬ measured samples "catchup" st) → n2 = n)) as Hdel.
  { intros r2 n2 H2. destruct cu as [cu|]; [|injection H2 as <- <-; split; [by intros fs [= <-]|done]]. apply ok_sample_measured in Hcu.
    split; [by eapply delinquency_run|]. intros Hno. by apply Hno in Hcu. }
  apply bind_cases in H as [(e & H & ->)|(f2 & n1 & H2 & H)]; [apply Hdel in H as [_ Hn]; split; [discriminate|done]|].
  apply Hdel in H2 as [Hb2 Hn]. specialize (Hb2 _ eq_refl).
  assert (∀ e, (r, n') = (Err e, n1) → (∀ fs f, r = Ok fs → f ∈ fs → backed samples f) ∧ ((∀ st, ¬ measured samples "catchup" st) → n' = n)) as Herr1
    by (intros e [= -> ->]; split; [discriminate|done]).
  rewrite lift_bind in H. destruct (ok_sample (dget_none samples "identity_balance")) as [bal|e] eqn:Hbal; [|by apply (Herr1 e)].
  rewrite lift_bind in H. destruct (match bal with Some _ => _ | None => _ end) as [f3|e] eqn:Hf3; [|by apply (Herr1 e)].
  rewrite lift_bind in H. destruct (ok_sample (dget_none samples "running_version")) as [rv|e] eqn:Hrv; [|by apply (Herr1 e)].
  rewrite lift_bind in H. destruct (mbind _ dep) as [exp|e]; [|by apply (Herr1 e)]. injection H as <- <-. split; [|done].
  intros fs f [= <-]. revert f. apply list.Forall_forall. rewrite !Forall_app. split_and!; [done|done| |].
  - destruct bal; [eapply balance_backed; [done|by apply ok_sample_measured]|by injection Hf3 as <-].
  - apply version_backed. intros d ->. by apply ok_sample_measured.
Qed.

(** ** The requests *)
Definition sentinel_asks : list (string * list string) :=
  [("observer", ["sample"; "probe"; "telemetry"]); ("report", ["system_alert"]); ("audit", ["submit"])].
Definition quiet_requests : list string := ["list_episodes"; "append_signal"; "annotate"].
(** What it calls when it opens nothing, and does not read the registry either. *)
Definition quiet_event (e : event) : Prop :=
  match e with
  | EvStore method _ => str_in method quiet_requests = true
  | EvRpc service method _ => asks sentinel_asks service method = true
  | _ => False
  end.
Definition sample_event (cid : string) : event := EvRpc "observer" "sample" [("command_id", VStr cid)].
Definition unreachable (cid code : string) : val :=
  VDict [("command_id", VStr cid); ("status", VStr "unreachable"); ("structured", VDict [("error", VStr code)])].

Section requests.
Context `{HASH : Hash} (N : surroundings) (watchtower_age : trace → option age).
Abbreviation ok_adds := (adds quiet_event).
Ltac side := reflexivity.

(** The calls of the tick in progress: the registry was read twice, for the active bundle
    and to load it ([before]), and not since. *)
Definition in_tick (h before since : trace) (bid : string) (bundle : Bundle) : Prop :=
  h = before ++ since ∧ EvRegistry ∉ since ∧
  ∃ h0, before = h0 ++ [EvRegistry; EvRegistry] ∧ active (n_registry N (h0 ++ [EvRegistry])) = Some bid ∧
    load_bundle (n_registry N before) bid = Ok bundle.
(** The observer's answer to a sample this tick asked for, or what stands for a failed call. *)
Definition observed (before since : trace) (cid : string) (v : val) : Prop :=
  ∃ l1 l2, since = l1 ++ sample_event cid :: l2 ∧ n_answer N (before ++ l1 ++ [sample_event cid]) = Ok v.
Definition taken (before since : trace) (cid : string) (v : val) : Prop := observed before since cid v ∨ ∃ code, v = unreachable cid code.
(** A mode shown: the bundle of the tick declares it, its table admits the version observed
    for that mode alone, and the feature state and the state files observed show it. *)
Definition shown (before since : trace) (bundle : Bundle) (mode : string) : Prop :=
  ∃ dep support version s v feature files, deployment (n_yaml N) bundle = Ok dep ∧
    vindex dep "declared_consensus_mode" = Ok (VStr mode) ∧ vget dep "mode_support" = Ok support ∧
    observed before since "running_version" (VDict version) ∧ observed before since "cluster_feature_state" feature ∧
    observed before since "consensus_state_files" files ∧
    dget version "structured" = Some (VDict s) ∧ dget s "version" = Some v ∧ version_shows v (py_or support (VDict [])) mode ∧
    feature_shows feature mode ∧ files_show files mode.
(** What [_mode] worked out in the tick. *)
Definition worked_out (before since : trace) (bundle : Bundle) (mode : val) (evidence : dict) : Prop :=
  ∃ dep declared support version feature files, deployment (n_yaml N) bundle = Ok dep ∧
    vindex dep "declared_consensus_mode" = Ok declared ∧ vget dep "mode_support" = Ok support ∧
    taken before since "running_version" version ∧ taken before since "cluster_feature_state" feature ∧
    taken before since "consensus_state_files" files ∧ determine declared version feature files (py_or support (VDict [])) = Ok (mode, evidence).
(** An opening and the calls before it. *)
Definition warranted_open (h : trace) (params : dict) : Prop :=
  ∃ before since bundle_id bundle f vid mode evidence u, in_tick h before since bundle_id bundle ∧
    params = open_params_of f bundle_id vid mode evidence u ∧
    ((fd_cls f = "validator_health" ∧ worked_out before since bundle mode evidence) ∨ (fd_cls f ≠ "validator_health" ∧ mode = VStr "unknown")).
Definition sentinel_event (h : trace) (e : event) : Prop :=
  match e with
  | EvStore method params => str_in method quiet_requests = true ∨ (method = "open_episode" ∧ warranted_open h params)
  | EvRegistry => True
  | _ => quiet_event e
  end.

Lemma quiet_justified h e : quiet_event e → sentinel_event h e.
Proof. destruct e; cbn; auto. Qed.
Lemma quiet_no_registry l : Forall quiet_event l → EvRegistry ∉ l.
Proof. rewrite list.Forall_forall. intros H Hin. exact (H _ Hin). Qed.

(** ** The parts that open nothing *)
Lemma sample_adds cid : respects ok_adds (sn_sample N cid).
Proof. unfold sn_sample, or_else. client_steps side. Qed.
Lemma sample_all_adds cids : respects ok_adds (sample_all N cids).
Proof. induction cids as [|cid cids IH]; cbn [sample_all]; client_steps side. apply sample_adds. Qed.
Lemma mode_adds dep samples : respects ok_adds (sn_mode N dep samples).
Proof. unfold sn_mode, mode_sample. client_steps side; apply sample_adds. Qed.
Lemma attach_adds eid s : respects ok_adds (attach N eid s).
Proof. unfold attach. client_steps side. Qed.
Lemma alert_adds a b c d e : respects ok_adds (sn_alert N a b c d e).
Proof. unfold sn_alert. client_steps side. Qed.
Lemma local_adds (m : NM unit) : (∀ w r w', m w = (r, w') → sn_trace w' = sn_trace w) → respects ok_adds m.
Proof. intros Hm w r w' H. exists []. rewrite app_nil_r. split; [by eapply Hm|done]. Qed.
Lemma annotate_adds telemetry th : respects ok_adds (annotate_stale N telemetry th).
Proof.
  unfold annotate_stale, annotate_one. client_steps side. apply local_adds. by intros w r w' [= _ <-].
Qed.

(** ** Samples *)
Lemma taken_app before since l cid v : taken before since cid v → taken before (since ++ l) cid v.
Proof.
  intros [(l1 & l2 & -> & Ha)|Hu]; [left|by right]. exists l1, (l2 ++ l). by rewrite <- (assoc_L app).
Qed.
Lemma sample_run cid w r w' : sn_sample N cid w = (r, w') →
  sn_trace w' = sn_trace w ++ [sample_event cid] ∧ ∀ v, r = Ok v → n_answer N (sn_trace w ++ [sample_event cid]) = Ok v ∨ ∃ code, v = unreachable cid code.
Proof.
  unfold sn_sample, or_else, catch_rpc, catch. destruct (call_rpc _ _ _ _ w) as [r0 w0] eqn:E. apply call_rpc_run in E as [-> ->]. cbn.
  destruct (n_answer _ _) as [v0|[code d|cls]]; intros [= <- <-]; (split; [done|]); [left|right|]; naive_solver.
Qed.
Lemma sample_taken before since cid w v w' : sn_trace w = before ++ since → sn_sample N cid w = (Ok v, w') →
  ∃ l, sn_trace w' = before ++ since ++ l ∧ Forall quiet_event l ∧ taken before (since ++ l) cid v.
Proof.
  intros Hw [Ht Ha]%sample_run. exists [sample_event cid]. rewrite Ht, Hw, <- (assoc_L app). split_and!; [done|by constructor|].
  destruct (Ha v eq_refl) as [Hv|Hu]; [left|by right]. exists since, []. split; [done|]. by rewrite Hw, <- (assoc_L app) in Hv.
Qed.
Definition samples_taken (before since : trace) (samples : dict) : Prop := Forall (λ kv, taken before since kv.1 kv.2) samples.
Lemma samples_taken_app before since l samples : samples_taken before since samples → samples_taken before (since ++ l) samples.
Proof. intros H. eapply list.Forall_impl; [exact H|]. intros kv. apply taken_app. Qed.
Lemma sample_all_taken cids before since w d w' : sn_trace w = before ++ since → sample_all N cids w = (Ok d, w') →
  ∃ l, sn_trace w' = before ++ since ++ l ∧ Forall quiet_event l ∧ samples_taken before (since ++ l) d.
Proof.
  revert since w d w'. induction cids as [|cid cids IH]; intros since w d w' Hw H; cbn [sample_all] in H.
  - apply ret_Ok in H as [-> ->]. exists []. rewrite app_nil_r. split_and!; [done|done|by constructor].
  - apply bind_Ok in H as (v & w1 & H1 & H). apply (sample_taken before since) in H1 as (l & Hl & Hq & Hv); [|done].
    apply bind_Ok in H as (d1 & w2 & H2 & H). apply (IH (since ++ l)) in H2 as (l' & Hl' & Hq' & Hd); [|by rewrite Hl].
    apply ret_Ok in H as [-> ->]. exists (l ++ l'). rewrite (assoc_L app since). split_and!; [done|by apply Forall_app|].
    constructor; [by apply taken_app|done].
Qed.
Lemma mode_sample_taken before since samples cid w v w' : sn_trace w = before ++ since → samples_taken before since samples →
  mode_sample N samples cid w = (Ok v, w') → ∃ l, sn_trace w' = before ++ since ++ l ∧ Forall quiet_event l ∧ taken before (since ++ l) cid v.
Proof.
  intros Hw Hs. unfold mode_sample. cbv zeta. destruct (truthy (dget_none samples cid)) eqn:Ht; [|by apply sample_taken].
  intros [-> ->]%ret_Ok. exists []. rewrite !app_nil_r. split_and!; [done|done|].
  assert (dget samples cid = Some (dget_none samples cid)) as Hd by (apply dget_none_some; [done|]; intros E; by rewrite E in Ht).
  apply dget_elem in Hd. unfold samples_taken in Hs. rewrite list.Forall_forall in Hs. exact (Hs _ Hd).
Qed.
Lemma mode_worked_out before since bundle samples w mode evidence w' : sn_trace w = before ++ since → samples_taken before since samples →
  sn_mode N (deployment (n_yaml N) bundle) samples w = (Ok (mode, evidence), w') →
  ∃ l, sn_trace w' = before ++ since ++ l ∧ Forall quiet_event l ∧ worked_out before (since ++ l) bundle mode evidence.
Proof.
  intros Hw Hs H. unfold sn_mode in H.
  apply bind_Ok in H as (rv & w1 & H1 & H). apply (mode_sample_taken before since) in H1 as (l1 & Hl1 & Hq1 & Hrv); [|done..].
  apply bind_Ok in H as (fs & w2 & H2 & H). apply (mode_sample_taken before (since ++ l1)) in H2 as (l2 & Hl2 & Hq2 & Hfs);
    [|by rewrite Hl1|by apply samples_taken_app].
  apply bind_Ok in H as (sf & w3 & H3 & H). apply (mode_sample_taken before ((since ++ l1) ++ l2)) in H3 as (l3 & Hl3 & Hq3 & Hsf);
    [|by rewrite Hl2|by repeat apply samples_taken_app].
  apply bind_Ok in H as (dep & ? & [Hdep ->]%lift_Ok & H). apply bind_Ok in H as (declared & ? & [Hdecl ->]%lift_Ok & H).
  apply bind_Ok in H as (support & ? & [Hsup ->]%lift_Ok & H). apply lift_Ok in H as [H ->].
  exists (l1 ++ l2 ++ l3). rewrite !(assoc_L app). rewrite (assoc_L app) in Hl3. rewrite Hl3, !(assoc_L app). split_and!; [done|by rewrite !Forall_app|].
  exists dep, declared, support, rv, fs, sf. split_and!; try done; repeat first [assumption|apply taken_app].
Qed.

(** ** The calls of a tick *)
(** After a computation the calls it made are justified by those before them, and it did not
    read the registry. *)
Definition opening (w w' : sentinel) : Prop :=
  ∃ l, sn_trace w' = sn_trace w ++ l ∧ sound sentinel_event (sn_trace w) l ∧ EvRegistry ∉ l.
Lemma adds_opening w w' : ok_adds w w' → opening w w'.
Proof.
  intros (l & Hl & Hq). exists l. split_and!; [done| |by apply quiet_no_registry]. eapply sound_Forall; [apply quiet_justified|done].
Qed.
#[local] Instance opening_preorder : PreOrder opening.
Proof.
  split; [intros w; exists []; split_and!; [by rewrite app_nil_r|apply sound_nil|apply not_elem_of_nil]|].
  intros w1 w2 w3 (l & Hl & Hs & Hn) (l' & Hl' & Hs' & Hn'). exists (l ++ l'). rewrite Hl', Hl, (assoc_L app) in *.
  split_and!; [done|by apply sound_app|]. rewrite elem_of_app. tauto.
Qed.
Lemma in_tick_app h before since bid b l : EvRegistry ∉ l → in_tick h before since bid b → in_tick (h ++ l) before (since ++ l) bid b.
Proof. intros Hl (-> & Hn & Hb). split; [by rewrite (assoc_L app)|]. split; [rewrite elem_of_app; tauto|done]. Qed.
Lemma mode_opening before since bundle f samples w mode evidence w' : sn_trace w = before ++ since → samples_taken before since samples →
  (if String.eqb (fd_cls f) "validator_health" then sn_mode N (deployment (n_yaml N) bundle) samples
   else mret (VStr "unknown", [("note", VStr "not determined for telemetry-health episodes (observer impaired)")])) w = (Ok (mode, evidence), w') →
  ∃ l, sn_trace w' = before ++ since ++ l ∧ Forall quiet_event l ∧
    ((fd_cls f = "validator_health" ∧ worked_out before (since ++ l) bundle mode evidence) ∨ (fd_cls f ≠ "validator_health" ∧ mode = VStr "unknown")).
Proof.
  intros Hw Hs. destruct (String.eqb_spec (fd_cls f) "validator_health") as [Hc|Hc]; intros H.
  - apply (mode_worked_out before since) in H as (l & Hl & Hq & Hm); [|done..]. exists l. split_and!; [done|done|by left].
  - apply ret_Ok in H as [[= -> ->] ->]. exists []. rewrite !app_nil_r. split_and!; [done|done|by right].
Qed.
Lemma catch_rpc_state {A} (m : NM A) a w r w' : catch_rpc m (λ _, mret a) w = (r, w') → ∃ r0, m w = (r0, w').
Proof. unfold catch_rpc, catch. destruct (m w) as [[x|[c d|cls]] w1]; intros [= _ <-]; by eexists. Qed.
Lemma open_request_opening params w r w' : warranted_open (sn_trace w) params →
  catch_rpc (r ← call_store N "store-control" "open_episode" params;
             match r with ReplyVal v => mret (Some v) | _ => raise (PyExc "TypeError") end) (λ _, mret None) w = (r, w') → opening w w'.
Proof.
  intros Hp [r0 H]%catch_rpc_state. assert (sn_trace w' = sn_trace w ++ [EvStore "open_episode" params]) as Ht.
  { apply bind_cases in H as [(e & H & _)|(a & w1 & H1 & H2)]; [by apply call_store_calls in H|].
    apply call_store_calls in H1. by destruct a; injection H2 as _ <-. }
  eexists. split_and!; [exact Ht|apply sound_one; right; by split|]. by intros [?|?%elem_of_nil]%elem_of_cons.
Qed.
Lemma open_opening before since bid bundle f samples telemetry w r w' : in_tick (sn_trace w) before since bid bundle → samples_taken before since samples →
  sn_open N f bid (deployment (n_yaml N) bundle) samples telemetry w = (r, w') → opening w w'.
Proof.
  intros Htick Hs. revert r w'. unfold sn_open. apply (bind_at opening).
  { intros r w' H. apply adds_opening. destruct (String.eqb _ _); [by eapply mode_adds|]. injection H as _ <-. reflexivity. }
  intros [mode evidence] w1 H1. pose proof Htick as (Hw & _). apply (mode_opening before since) in H1 as (l & Hl & Hq & Hm); [|done..].
  apply (bind_at opening); [by intros r w' [= _ <-]|]. intros vid w2 [_ ->]%lift_Ok.
  apply (bind_at opening); [by intros r w' [= _ <-]|]. intros u w3 [= _ <-].
  apply (bind_at opening).
  { intros r w'. apply open_request_opening. exists before, (since ++ l), bid, bundle, f, vid, mode, evidence, u. split_and!; [|done|done].
    rewrite Hl, (assoc_L app), <- Hw. apply in_tick_app; [by apply quiet_no_registry|done]. }
  intros res w4 _ r w' H. apply adds_opening. revert H. match goal with |- ?m w4 = _ → _ => assert (respects ok_adds m) as Hr; [|apply Hr] end.
  client_steps side; first [apply attach_adds|apply alert_adds].
Qed.
Lemma open_all_opening fs before since bid bundle samples telemetry w r w' : in_tick (sn_trace w) before since bid bundle → samples_taken before since samples →
  open_all N fs bid (deployment (n_yaml N) bundle) samples telemetry w = (r, w') → opening w w'.
Proof.
  revert since w r w'. induction fs as [|f fs IH]; intros since w r w' Htick Hs; cbn [open_all]; [by intros [= _ <-]|].
  revert r w'. apply (bind_at opening); [intros r w'; by eapply open_opening|]. intros x w1 H1.
  eapply open_opening in H1 as (l & Hl & _ & Hn); [|done..]. apply (bind_at opening); [|by intros ? ? _ r w' [= _ <-]].
  intros r w'. eapply (IH (since ++ l)); [|by apply samples_taken_app]. rewrite Hl. by apply in_tick_app.
Qed.

(** ** Ticks *)
Definition sn_ticking (w w' : sentinel) : Prop := ∃ l, sn_trace w' = sn_trace w ++ l ∧ sound sentinel_event (sn_trace w) l.
#[local] Instance ticking_preorder : PreOrder sn_ticking.
Proof.
  split; [intros w; exists []; split; [by rewrite app_nil_r|apply sound_nil]|].
  intros w1 w2 w3 (l & Hl & Hs) (l' & Hl' & Hs'). exists (l ++ l'). rewrite Hl', Hl, (assoc_L app) in *. split; [done|by apply sound_app].
Qed.
Lemma opening_ticking w w' : opening w w' → sn_ticking w w'.
Proof. intros (l & Hl & Hs & _). by exists l. Qed.
Lemma adds_ticking w w' : ok_adds w w' → sn_ticking w w'.
Proof. intros H. by apply opening_ticking, adds_opening. Qed.
Lemma sn_registry_run w r w' : read_registry N w = (r, w') → r = Ok (n_registry N (sn_trace w')) ∧ sn_trace w' = sn_trace w ++ [EvRegistry].
Proof. intros [= <- <-]. done. Qed.
Lemma registry_ticking w r w' : read_registry N w = (r, w') → sn_ticking w w'.
Proof. intros [_ Ht]%sn_registry_run. eexists. split; [exact Ht|by apply sound_one]. Qed.

(** A tick once its bundle is loaded. *)
Definition tick_with (bid : string) (bundle : Bundle) : NM (list val) :=
  let th := thresholds (n_yaml N) bundle in
  let dep := deployment (n_yaml N) bundle in
  probe ← or_else (call_rpc N "observer" "probe" [])
            (λ code, VDict [("reachable", VBool false); ("error", VStr ("observer broker: " +:+ code))]);
  reachable ← lift (vget probe "reachable");
  samples ← (if truthy reachable then sample_all N VALIDATOR_SAMPLES else mret []);
  telemetry ← or_else (call_rpc N "observer" "telemetry" []) (λ _, VDict [("consecutive_unreachable", VInt 99)]);
  f1 ← counting (validator_findings samples th dep);
  tr ← calls;
  f2 ← lift (telemetry_findings telemetry probe th dep (watchtower_age tr));
  opened ← open_all N (f1 ++ f2) bid dep samples telemetry;
  _ ← annotate_stale N telemetry th;
  _ ← call_rpc N "audit" "submit" (audit_params "sentinel" VNone
        (Some [("findings", VList (map (λ f, VStr (fd_check f)) (f1 ++ f2))); ("reachable", reachable)]) NoPayload);
  mret (List.filter truthy (omap id opened)).
Lemma counting_adds {A} (m : M counter exn A) w r w' : counting m w = (r, w') → sn_trace w' = sn_trace w.
Proof. unfold counting. destruct (m _) as [r0 n]. by intros [= _ <-]. Qed.
Lemma or_else_run service method params d w r w' : or_else (call_rpc N service method params) d w = (r, w') →
  sn_trace w' = sn_trace w ++ [EvRpc service method params].
Proof.
  unfold or_else, catch_rpc, catch. destruct (call_rpc _ _ _ _ w) as [r0 w0] eqn:E. apply call_rpc_run in E as [-> _]. cbn.
  by destruct r0 as [v|[c e|cls]]; intros [= _ <-].
Qed.
Lemma tick_with_opening bid bundle w r w' : in_tick (sn_trace w) (sn_trace w) [] bid bundle → tick_with bid bundle w = (r, w') → opening w w'.
Proof.
  intros Htick. revert r w'. unfold tick_with. cbv zeta. apply (bind_at opening).
  { intros r w' H%or_else_run. apply adds_opening. exists [EvRpc "observer" "probe" []]. split; [done|by constructor]. }
  intros probe w1 H1%or_else_run. apply (bind_at opening); [by intros r w' [= _ <-]|]. intros reachable w2 [_ ->]%lift_Ok.
  set (before := sn_trace w) in *. apply (bind_at opening).
  { intros r w' H. apply adds_opening. destruct (truthy reachable); [by eapply sample_all_adds|by injection H as _ <-]. }
  intros samples w3 H3. assert (∃ since, in_tick (sn_trace w3) before since bid bundle ∧ samples_taken before since samples) as (since & Ht3 & Hs3).
  { assert (∃ l, sn_trace w3 = before ++ [EvRpc "observer" "probe" []] ++ l ∧ Forall quiet_event l ∧
      samples_taken before ([EvRpc "observer" "probe" []] ++ l) samples) as (l & Hl & Hq & Hs).
    { destruct (truthy reachable); [by eapply sample_all_taken|]. injection H3 as <- <-. exists [].
      rewrite !app_nil_r. split_and!; [done|done|by constructor]. }
    exists ([EvRpc "observer" "probe" []] ++ l). split; [|done]. rewrite Hl. apply (in_tick_app _ _ []); [|done].
    intros [?|Hin]%elem_of_app; [by apply elem_of_cons in H as [?|?%elem_of_nil]|by eapply quiet_no_registry]. }
  apply (bind_at opening).
  { intros r w' H%or_else_run. apply adds_opening. exists [EvRpc "observer" "telemetry" []]. split; [done|by constructor]. }
  intros telemetry w4 H4%or_else_run. apply (in_tick_app _ _ _ _ _ [EvRpc "observer" "telemetry" []]) in Ht3;
    [|by intros [?|?%elem_of_nil]%elem_of_cons]. rewrite <- H4 in Ht3.
  apply (bind_at opening). { intros r w' H%counting_adds. exists []. rewrite app_nil_r. split_and!; [done|apply sound_nil|apply not_elem_of_nil]. }
  intros f1 w5 H5%counting_adds. rewrite <- H5 in Ht3.
  apply (bind_at opening); [by intros r w' [= _ <-]|]. intros tr w6 [= _ <-].
  apply (bind_at opening); [by intros r w' [= _ <-]|]. intros f2 w7 [_ ->]%lift_Ok.
  apply (bind_at opening). { intros r w'. eapply open_all_opening; [exact Ht3|by apply samples_taken_app]. }
  intros opened w8 _ r w' H. apply adds_opening. revert H. match goal with |- ?m w8 = _ → _ => assert (respects ok_adds m) as Hr; [|apply Hr] end.
  client_steps side. apply annotate_adds.
Qed.
Lemma sn_tick_ticking w r w' : sn_tick N watchtower_age w = (r, w') → sn_ticking w w'.
Proof.
  revert r w'. unfold sn_tick. apply (bind_at sn_ticking); [apply registry_ticking|]. intros g w1 [[= ->] H1]%sn_registry_run.
  destruct (active _) as [bid|] eqn:Hact; [|by intros r w' [= _ <-]]. apply (bind_at sn_ticking); [apply registry_ticking|].
  intros g2 w2 [[= ->] H2]%sn_registry_run. apply (bind_at sn_ticking); [by intros r w' [= _ <-]|]. intros bundle w3 [Hb ->]%lift_Ok.
  intros r w' H. apply opening_ticking. apply (tick_with_opening bid bundle w2 r w'); [|exact H].
  split_and!; [by rewrite app_nil_r|apply not_elem_of_nil|]. exists (sn_trace w). rewrite H2, H1 in *. by rewrite <- (assoc_L app) in *.
Qed.
Lemma sn_loop_ticking n w r w' : sn_loop N watchtower_age n w = (r, w') → sn_ticking w w'.
Proof.
  revert w r w'. induction n as [|n IH]; intros w; cbn [sn_loop]; [by intros r w' [= _ <-]|].
  apply (bind_at sn_ticking); [|by intros _ w1 _ r w'; apply IH]. intros r w' H. unfold sn_turn in H.
  assert (respects sn_ticking (sn_interval N)) as Hint.
  { unfold sn_interval. apply (respects_bind _ (λ _, True)); [exact registry_ticking|done|]. intros g _. destruct (active g); [|by intros ? ? ? [= _ <-]].
    apply (respects_bind _ (λ _, True)); [exact registry_ticking|done|]. intros g' _. by intros ? ? ? [= _ <-]. }
  destruct (sn_interval N w) as [[q|e] w1] eqn:Hi; apply Hint in Hi; [|by injection H as _ <-].
  destruct (sn_tick N watchtower_age w1) as [r2 w2] eqn:Ht. injection H as _ <-. etrans; [exact Hi|by eapply sn_tick_ticking].
Qed.

(** What was worked out, and is known, was shown by the observer's answers. *)
Lemma worked_out_shown before since bundle mode evidence : worked_out before since bundle (VStr mode) evidence → mode ≠ "unknown" →
  shown before since bundle mode.
Proof.
  intros (dep & declared & support & version & feature & files & Hdep & Hdecl & Hsup & Hver & Hfe & Hfi & Hd) Hne.
  apply determine_known in Hd as (-> & _ & (d & s & v & -> & Hst & Hv & Hvs) & Hfs & Hfis); [|done].
  exists dep, support, d, s, v, feature, files. split_and!; try done.
  - destruct Hver as [?|[code [= ->]]]; [done|]. injection Hst as <-. discriminate Hv.
  - destruct Hfe as [?|[code ->]]; [done|]. destruct Hfs as (d' & s' & [= <-] & Hst' & _). discriminate Hst'.
  - destruct Hfi as [?|[code ->]]; [done|]. destruct Hfis as (d' & tower & vh & Ht & [= <-] & Hh & [(_ & Htt & _)|(_ & _ & Htt)]).
    + injection Ht as <-. discriminate Htt.
    + injection Hh as <-. discriminate Htt.
Qed.

(** C28: safety. What the sentinel asks of the store, however long it runs and whatever the
    others answer: it lists episodes, attaches signals and annotates, and it opens; it asks
    for no state. An episode is opened under the bundle that was active when the tick
    started, loaded from the registry since; and under a mode other than [unknown] only for
    a validator-health finding, when that mode is the one the bundle declares and all three
    of the observer's answers to the samples asked for in this very tick show it: the
    running version is one the bundle's table admits for that mode alone, the feature state
    names it, and of the two consensus state files exactly that mode's is there. *)
Theorem sentinel_opens_honestly n w r w' h e t :
  sn_loop N watchtower_age n w = (r, w') → sn_trace w' = (sn_trace w ++ h) ++ e :: t →
  match e with
  | EvStore method params =>
      method ∈ ["list_episodes"; "append_signal"; "annotate"; "open_episode"] ∧
      (method = "open_episode" → ∃ before since bid bundle, in_tick (sn_trace w ++ h) before since bid bundle ∧
         dget params "bundle_id" = Some (VStr bid) ∧
         ∀ mode, dget params "consensus_mode" = Some (VStr mode) → mode ≠ "unknown" →
           dget params "class" = Some (VStr "validator_health") ∧ shown before since bundle mode)
  | EvRpc _ _ _ | EvRegistry => True
  | _ => False
  end.
Proof.
  intros (l & Hl & Hs)%sn_loop_ticking Ht. rewrite Hl, <- (assoc_L app) in Ht. apply app_inv_head in Ht. specialize (Hs h e t Ht).
  destruct e as [| method params| | | |]; try done. cbn [sentinel_event] in Hs.
  split; [rewrite !elem_of_cons; destruct Hs as [Hs|[-> _]]; [apply str_in_spec in Hs; unfold quiet_requests in Hs; rewrite !elem_of_cons in Hs|]; tauto|].
  intros ->. destruct Hs as [Hs|[_ (before & since & bid & bundle & f & vid & md & ev & u & Htick & -> & Hd)]]; [discriminate Hs|].
  exists before, since, bid, bundle. split_and!; [done|done|]. intros mode Hmode Hne. cbn in Hmode. injection Hmode as ->.
  destruct Hd as [[Hc Hd]|[_ [= ->]]]; [|done]. split; [cbn; by rewrite Hc|by eapply worked_out_shown].
Qed.
End requests.

(** * A recorded tick of the sentinel

    A validator whose unit is down: one finding, one episode opened under the mode all the
    inputs show. The sentinel's theorems are instantiated here, and the tick that a missing
    heartbeat file stops is executed. *)
From S2P Require Import StoreSpec StoreInv StoreProps Scenario.
From S2P Require Import BundleProps RunnerDemo.

Definition watch_files : bundle_dir := [(["thresholds.yaml"], "T"); (["deployment.yaml"], "D")].
Definition watch_id : string := id_of watch_files.
Definition watch_registry : registry :=
  mkRegistry [(watch_id, signed watch_files)] [("k1", demo_trusted)] (Some (watch_id +:+ newline)) [mkActivation 10 watch_id None "op"] [].
Definition watch_yaml (text : string) : result exn val :=
  if String.eqb text "T" then Ok (VDict [("parameters", VDict
    [("P-01", VInt 30); ("P-02", VInt 2); ("P-03", VDict [("threshold", VInt 50); ("samples", VInt 3)]); ("P-04", VInt 10); ("P-15", VInt 2)])])
  else if String.eqb text "D" then Ok (VDict [("expected_version", VStr "3.0.11"); ("validator_id", VStr "v1");
    ("declared_consensus_mode", VStr "tower"); ("mode_support", demo_support)])
  else Err (PyExc "YAMLError").

Definition watch_structured (cid : string) : dict :=
  if String.eqb cid "host_metrics" then [("parsed", VBool true); ("unit_active", VBool false); ("unit_state", VStr "failed"); ("min_free_pct", VInt 40)]
  else if String.eqb cid "catchup" then [("parsed", VBool true); ("slots_behind", VInt 3)]
  else if String.eqb cid "running_version" then [("parsed", VBool true); ("version", VStr "3.0.11")]
  else if String.eqb cid "cluster_feature_state" then [("mode", VStr "tower")]
  else if String.eqb cid "consensus_state_files" then [("tower", VBool true); ("vote_history", VBool false)]
  else [("parsed", VBool false)].
Definition watch_sample (cid : string) : val :=
  VDict [("command_id", VStr cid); ("status", VStr "ok"); ("structured", VDict (watch_structured cid))].
Definition watch_answer (tr : trace) : result exn val :=
  Ok (match list.last tr with
      | Some (EvRpc _ method p) =>
          if String.eqb method "sample" then watch_sample (py_str (dget_none p "command_id"))
          else if String.eqb method "probe" then VDict [("reachable", VBool true)]
          else VDict []
      | _ => VNone
      end).
Definition watch_surroundings : surroundings := {|
  n_answer := watch_answer; n_store := λ _ s, Some (demo_env (fresh_key s), false); n_others := λ _ s, s;
  n_home := λ _, Ok tt; n_launch := λ _, Ok (mkLaunch (VInt 0) false None EmptyString); n_sandbox := λ _, None;
  n_uuid := λ tr, fmt_id "u" (length tr); n_nonce := λ _, "n0"; n_now := λ _, 100%Q; n_registry := λ _, watch_registry;
  n_chain := λ _, None; n_anchor_keys := []; n_yaml := watch_yaml; n_sign := demo_sign; n_rfc3339 := λ _, "t";
  n_admins := []; n_worker_sockets := []; n_development := false; n_uid := 1000 |}.
Definition watch_start : sentinel := mkSentinel init_store [] [] [].
Definition watch_end : sentinel := (sn_loop (HASH := sum_hash) watch_surroundings (λ _, None) 1 watch_start).2.

Definition opened (w : sentinel) : list (option string * option string) :=
  map (λ kv, (r_class kv.2, r_consensus_mode kv.2)) (s_records (sn_store w)).
Example one_opened : opened watch_end = [(Some "validator_health", Some "tower")].
Proof. vm_compute. reflexivity. Qed.

Definition opens (e : event) : bool := match e with EvStore m _ => String.eqb m "open_episode" | _ => false end.
(** The calls before the opening, its parameters, and the calls after. *)
Definition watch_before : trace := take 13 (sn_trace watch_end).
Definition watch_params : dict :=
  match find_first opens (sn_trace watch_end) with Some (EvStore _ p) => p | _ => [] end.
Definition watch_after : trace := drop 14 (sn_trace watch_end).
Lemma watch_found : sn_trace watch_end = (sn_trace watch_start ++ watch_before) ++ EvStore "open_episode" watch_params :: watch_after.
Proof. vm_compute. reflexivity. Qed.
Lemma watch_ends : sn_loop (HASH := sum_hash) watch_surroundings (λ _, None) 1 watch_start =
  ((sn_loop (HASH := sum_hash) watch_surroundings (λ _, None) 1 watch_start).1, watch_end).
Proof. unfold watch_end. exact (surjective_pairing _). Qed.

Lemma sentinel_opens_honestly_witness : dget watch_params "consensus_mode" = Some (VStr "tower") ∧
  ∃ before since bundle, shown watch_surroundings before since bundle "tower".
Proof.
  assert (dget watch_params "consensus_mode" = Some (VStr "tower")) as Hm by (vm_compute; reflexivity). split; [exact Hm|].
  pose proof (sentinel_opens_honestly (HASH := sum_hash) watch_surroundings (λ _, None) 1 watch_start _ watch_end
    watch_before (EvStore "open_episode" watch_params) watch_after watch_ends watch_found) as [_ H].
  destruct (H eq_refl) as (before & since & bid & bundle & _ & _ & Hs). exists before, since, bundle.
  refine (proj2 (Hs "tower" Hm _)). discriminate.
Defined.

Definition watch_samples : dict := [("host_metrics", watch_sample "host_metrics")].
Definition watch_thresholds : result exn val := watch_yaml "T" ≫= λ d, vindex d "parameters".
Definition watch_finding : Finding := vh_finding "unit_state" "high" "unit state failed" ["host_metrics"].
Lemma findings_rest_on_data_witness :
  validator_findings watch_samples watch_thresholds (watch_yaml "D") [] = (Ok [watch_finding], []) ∧
  ∃ cid st, cid ∈ fd_command_ids watch_finding ∧ measured watch_samples cid st.
Proof.
  assert (validator_findings watch_samples watch_thresholds (watch_yaml "D") [] = (Ok [watch_finding], [])) as H by (vm_compute; reflexivity).
  split; [exact H|]. refine (proj2 (proj1 (findings_rest_on_data _ _ _ _ _ _ H) [watch_finding] watch_finding eq_refl _)). left.
Defined.

(** A missing heartbeat file is an infinite age, and the text of its own finding converts
    it to an integer: the whole tick raises, before any episode is opened, on every turn. *)
Definition blind_end : sentinel := (sn_loop (HASH := sum_hash) watch_surroundings (λ _, Some Infinite) 3 watch_start).2.
Example missing_heartbeat_stops_sentinel :
  telemetry_findings (VDict []) (VDict [("reachable", VBool true)]) watch_thresholds (watch_yaml "D") (Some Infinite) = Err (PyExc "OverflowError") ∧
  opened blind_end = [] ∧ List.filter opens (sn_trace blind_end) = [].
Proof. split_and!; vm_compute; reflexivity. Qed.
