(* ===== verification/Broker.v ===== *)
(** * The brokers' common part (src/valops/brokers/base.py)

    A worker calls a broker with its session's token; the broker re-checks everything the
    worker's hooks should have, charges the session's quota and records the call. *)
From S2P Require Import Prelude PyVal Schema Canonical Json PyConv Keyed Tools Transitions Tokens Rpc Fold Store AuditChain AuditClient Bundle Control Client.

(** src/valops/brokers/base.py:26-28 Quota.__init__

    The broker's state: its gate, the quota taken per kind and session, and the world. *)
Record broker : Type := mkBroker {
  br_gate : TokenGate; br_quota : list (skey * Z); br_store : store; br_trace : trace }.
#[export] Instance broker_client : Client broker := {|
  cl_store := br_store; cl_calls := br_trace;
  cl_log e w := mkBroker (br_gate w) (br_quota w) (br_store w) (br_trace w ++ [e]);
  cl_put s w := mkBroker (br_gate w) (br_quota w) s (br_trace w);
  cl_calls_log _ _ := eq_refl; cl_store_log _ _ := eq_refl; cl_store_put _ _ := eq_refl; cl_calls_put _ _ := eq_refl |}.
Abbreviation BM := (M broker exn).

Section broker.
Context `{HASH : Hash} (N : surroundings).

(** src/valops/brokers/base.py:30-35 Quota.take *)
Definition take_quota (kind : string) (session : val) (limit : Z) : BM unit :=
  w ← get_state;
  let n := default 0%Z (sget (br_quota w) (kind, session)) in
  _ ← require (negb (limit <=? n)%Z) (rpc_error "quota");
  put_state (mkBroker (br_gate w) (sset (br_quota w) (kind, session) (n + 1)) (br_store w) (br_trace w)).

(** src/valops/brokers/base.py:59-66 BrokerBase._audit

    The broker has an audit client; its answer is the audit service's. *)
Definition br_audit (event : string) (cap : option Capability) (data : dict) (p : payload) : BM string :=
  let data := match cap with
              | Some cap => dupdate data [("worker_role", c_role cap); ("session_id", c_session_id cap); ("bundle_id", c_bundle_id cap)]
              | None => data
              end in
  let eid := match cap with Some cap => c_episode_id cap | None => VNone end in
  r ← call_rpc N "audit" "submit" (audit_params event eid (Some data) p);
  mret (Store.audit_ref_of r).

(** [self.gate.check(p.get("token"), episode_id=p.get("episode_id"))] *)
Definition br_check (p : dict) : BM Capability :=
  w ← get_state; t ← clock_ N;
  lift (check_token (br_gate w) t (dget_none p "token") (dget_none p "episode_id") VNone).

(** src/valops/brokers/base.py:46-57 BrokerBase.authorize

    The schema's complaint is not modelled. *)
Definition authorize (p : dict) (tool : string) : BM (Capability * val) :=
  cap ← br_check p;
  allowed ← lift (tool_allowed (c_role cap) tool);
  if negb allowed then
    _ ← br_audit "tool_denied" (Some cap) [("tool", VStr tool); ("reason", VStr "role")] NoPayload;
    raise (rpc_error "forbidden")
  else
    let args := py_or (dget_none p "args") (VDict []) in
    spec ← lift (of_opt (TOOLS_BY_NAME tool) (PyExc "KeyError"));
    if negb (validate (t_input_schema spec) args) then
      _ ← br_audit "tool_denied" (Some cap) [("tool", VStr tool); ("reason", VStr "schema")] NoPayload;
      raise (rpc_error "invalid_args")
    else mret (cap, args).

(** [self.bundles.load(cap.bundle_id)] *)
Definition br_bundle (id : val) : BM Bundle :=
  g ← read_registry N;
  id ← lift (of_opt (as_str id) (PyExc "TypeError"));
  lift (load_bundle g id).
(** [int(bundle.param(pid, key))] *)
Definition br_limit (id : val) (pid : string) (key : val) : BM Z :=
  b ← br_bundle id;
  v ← lift (rule_param (n_yaml N) b (VStr pid) key);
  lift (py_int v).

(** src/valops/brokers/base.py:68-78 BrokerBase.admin_endpoint *)
Definition br_revoke (p : dict) : BM val :=
  match dget_none p "session_id" with
  | VStr (String _ _ as sid) =>
      _ ← modify (λ w, mkBroker (revoke_session (br_gate w) sid) (br_quota w) (br_store w) (br_trace w));
      mret (VDict [("revoked", VStr sid)])
  | _ => raise (rpc_error "invalid")
  end.
Definition br_ping (name : string) : BM val := mret (VDict [("ok", VBool true); ("broker", VStr name)]).
End broker.
