(* ===== verification/EpisodeBroker.v ===== *)
(** * The episode broker (src/valops/brokers/episode_broker.py)

    Workers write to the store and read episodes through it; it talks to the store's agent
    endpoint only. *)
From S2P Require Import Prelude PyVal Schema Canonical Json PyConv Keyed Tools Transitions Tokens Rpc Fold Store AuditChain AuditClient Bundle Control Client Broker.
From Stdlib Require Import Ascii.

(** src/valops/brokers/episode_broker.py:14-14 WRITE_QUOTA_FACTOR *)
Definition WRITE_QUOTA_FACTOR : Z := 4.

(** [re.fullmatch(r"[A-Za-z0-9:_\-]{8,120}", idem)] *)
Definition idem_char (c : ascii) : bool := is_digit c || is_lower c || is_upper c || Ascii.eqb c ":" || Ascii.eqb c "_" || Ascii.eqb c "-".
Definition idem_ok (s : string) : bool := all_chars idem_char s && (8 <=? String.length s)%nat && (String.length s <=? 120)%nat.

(** What a method answers: a value, what the store answered, or what it made of a view. *)
Inductive breply : Type :=
| BVal (v : val)
| BStore (r : reply)
| BVerifications (verifications : list verification) (recovery : list recovery) (state : option string).

Definition view_mode (v : view) : option string :=
  match v with VJudge j => jv_mode j | VFull f => r_consensus_mode (fv_record f) end.
Definition view_verifications (v : view) : breply :=
  match v with
  | VJudge j => BVerifications (jv_verifications j) (jv_recovery j) (jv_state j)
  | VFull f => BVerifications (r_verifications (fv_record f)) (r_recovery (fv_record f)) (r_state (fv_record f))
  end.

Section episode_broker.
Context `{HASH : Hash} (N : surroundings).
(** [_section(text, mode)]: a search with a regular expression. *)
Context (section_of : string → string → option string).

(** The parameters of [self.store.call(op, token=..., episode_id=..., idem_key=..., **extra)]. *)
Definition store_params (token eid : val) (idem : string) (extra : val) : result exn dict :=
  match extra with
  | VDict d =>
      if existsb (dmem d) ["self"; "method"; "token"; "episode_id"; "idem_key"] then Err (PyExc "TypeError")
      else Ok ([("token", token); ("episode_id", eid); ("idem_key", VStr idem)] ++ d)
  | _ => Err (PyExc "TypeError")
  end.

(** src/valops/brokers/episode_broker.py:25-40 EpisodeBroker._write

    The message of the store's error is not modelled. *)
Definition eb_write (p : dict) (tool op : string) (build : val → val) : BM breply :=
  '(cap, args) ← authorize N p tool;
  limit ← br_limit N (c_bundle_id cap) "P-05" (c_role cap);
  _ ← take_quota "writes" (c_session_id cap) (WRITE_QUOTA_FACTOR * limit);
  idem ← (match dget_none p "idem_key" with
          | VStr idem => _ ← require (idem_ok idem) (rpc_error "invalid"); mret idem
          | _ => raise (rpc_error "invalid")
          end);
  _ ← br_audit N "tool_call" (Some cap) [("tool", VStr tool)] (PayloadJson args);
  res ← catch (params ← lift (store_params (dget_none p "token") (c_episode_id cap) (py_str (c_session_id cap) +:+ ":" +:+ idem) (build args));
               r ← call_store N "store-agent" op params;
               match r with ReplyVal v => mret v | _ => raise (PyExc "TypeError") end)
              (λ e, match e with
                    | RpcError code _ =>
                        _ ← br_audit N "tool_denied" (Some cap) [("tool", VStr tool); ("reason", VStr code)] NoPayload; raise e
                    | _ => raise e
                    end);
  _ ← br_audit N "tool_result" (Some cap) [("tool", VStr tool)] (PayloadJson res);
  mret (BVal res).

(** src/valops/brokers/episode_broker.py:42-43 EpisodeBroker.add_hypothesis *)
Definition eb_add_hypothesis (p : dict) : BM breply := eb_write p "add_hypothesis" "append_hypothesis" (λ a, VDict [("hypothesis", a)]).
(** src/valops/brokers/episode_broker.py:45-46 EpisodeBroker.set_hypothesis_status *)
Definition eb_set_hypothesis_status (p : dict) : BM breply := eb_write p "set_hypothesis_status" "append_hypothesis_status" id.
(** src/valops/brokers/episode_broker.py:48-49 EpisodeBroker.propose_recommendation *)
Definition eb_propose_recommendation (p : dict) : BM breply :=
  eb_write p "propose_recommendation" "append_recommendation" (λ a, VDict [("recommendation", a)]).
(** src/valops/brokers/episode_broker.py:51-52 EpisodeBroker.report_no_action *)
Definition eb_report_no_action (p : dict) : BM breply := eb_write p "report_no_action" "append_no_action" id.
(** src/valops/brokers/episode_broker.py:54-55 EpisodeBroker.submit_verdict *)
Definition eb_submit_verdict (p : dict) : BM breply := eb_write p "submit_verdict" "append_verdict" id.

(** [self.store.call("read_episode", token=p["token"], episode_id=cap.episode_id)] *)
Definition eb_view (p : dict) (cap : Capability) : BM reply :=
  call_store N "store-agent" "read_episode" [("token", dget_none p "token"); ("episode_id", c_episode_id cap)].
Definition as_view (r : reply) : BM view := match r with ReplyRead (RView v) => mret v | _ => raise (PyExc "AttributeError") end.

(** src/valops/brokers/episode_broker.py:57-60 EpisodeBroker.read_episode *)
Definition eb_read_episode (p : dict) : BM breply :=
  cap ← br_check N p;
  limit ← br_limit N (c_bundle_id cap) "P-05" (c_role cap);
  _ ← take_quota "reads" (c_session_id cap) (4 * limit);
  r ← eb_view p cap; mret (BStore r).

(** src/valops/brokers/episode_broker.py:62-66 EpisodeBroker.get_verification_result *)
Definition eb_get_verification_result (p : dict) : BM breply :=
  '(cap, _) ← authorize N p "get_verification_result";
  r ← eb_view p cap; v ← as_view r; mret (view_verifications v).

(** src/valops/brokers/episode_broker.py:68-81 EpisodeBroker.draft_failover_runbook *)
Definition eb_draft_failover_runbook (p : dict) : BM breply :=
  '(cap, _) ← authorize N p "draft_failover_runbook";
  r ← eb_view p cap; v ← as_view r;
  mode ← (match view_mode v with
          | Some mode => _ ← require (str_in mode ["tower"; "alpenglow"]) (rpc_error "mode_unknown"); mret mode
          | None => raise (rpc_error "mode_unknown")
          end);
  b ← br_bundle N (c_bundle_id cap);
  text ← lift (of_opt (read_file (b_dir b) ["skills"; "failover-runbook-draft"; "SKILL.md"]) (rpc_error "not_found"));
  let checklist := match section_of text mode with Some s => if String.eqb s "" then text else s | None => text end in
  _ ← br_audit N "tool_call" (Some cap) [("tool", VStr "draft_failover_runbook"); ("mode", VStr mode)] NoPayload;
  mret (BVal (VDict [("mode", VStr mode); ("checklist", VStr checklist); ("note", VStr "Text only. Nothing is executed by this system.")])).

(** src/valops/brokers/episode_broker.py:83-89 EpisodeBroker.audit_note *)
Definition eb_audit_note (p : dict) : BM breply :=
  cap ← br_check N p;
  _ ← take_quota "notes" (c_session_id cap) 500;
  let data := match dget_none p "data" with VDict d => d | _ => [] end in
  let note := dupdate [("hook", VStr (stake 40 (py_str (default (VStr EmptyString) (dget p "hook")))))]
                (map (λ '(k, v), (k, VStr (stake 500 (py_str v)))) data) in
  ref ← br_audit N "hook" (Some cap) note NoPayload;
  mret (BVal (VDict [("ref", VStr ref)])).

(** src/valops/brokers/episode_broker.py:91-96 EpisodeBroker.endpoints *)
Definition eb_endpoints (worker_uids controller_uids : list Z) : list (Endpoint broker breply) :=
  let m (h : dict → BM breply) : Ctx → dict → BM breply := λ _ p, h p in
  [mkEndpoint "episode-broker" "worker" worker_uids
     [("add_hypothesis", m eb_add_hypothesis); ("set_hypothesis_status", m eb_set_hypothesis_status);
      ("propose_recommendation", m eb_propose_recommendation); ("report_no_action", m eb_report_no_action);
      ("submit_verdict", m eb_submit_verdict); ("read_episode", m eb_read_episode);
      ("get_verification_result", m eb_get_verification_result); ("draft_failover_runbook", m eb_draft_failover_runbook);
      ("audit_note", m eb_audit_note)];
   mkEndpoint "episode_broker-admin" "controller" controller_uids
     [("revoke_session", m (λ p, v ← br_revoke p; mret (BVal v))); ("ping", m (λ _, v ← br_ping "episode_broker"; mret (BVal v)))]].
End episode_broker.
