(* ===== verification/EpisodeBrokerProps.v ===== *)
(** * The episode broker's guarantees

    Every write that reaches the store through it was admitted: token, role, schema, quota;
    a session never gets more writes through than its quota. *)
From S2P Require Import Prelude PyVal Schema Canonical Json PyConv Keyed Tools Transitions Tokens Rpc Fold Store AuditChain AuditClient Bundle Control Client Broker EpisodeBroker.
From Stdlib Require Import Ascii.

(** ** Tokens and quotas *)
(** The capability a token carries, signed or not. *)
Definition token_cap (token : val) : option Capability :=
  '(body_s, _) ← (s ← as_str token; split_dot s); body ← b64u_dec body_s; v ← json_loads body; cap_of_body v.
Lemma check_token_cap g t token eid role cap : check_token g t token eid role = Ok cap →
  token_cap token = Some cap ∧ hashable (c_session_id cap) = true.
Proof.
  unfold check_token, token_cap. intros H. apply rbind_Ok in H as ([body_s sig_s] & H1%of_opt_Ok & H). apply rbind_Ok in H as (body & H2%of_opt_Ok & H).
  apply rbind_Ok in H as (sig & _ & H). apply rbind_Ok in H as (? & _ & H). apply rbind_Ok in H as (cap' & H3%of_opt_Ok & H).
  apply rbind_Ok in H as (? & _ & H). apply rbind_Ok in H as (? & _ & H). apply rbind_Ok in H as (revoked & H4 & H).
  apply rbind_Ok in H as (? & _ & H). apply rbind_Ok in H as (? & _ & H). apply rbind_Ok in H as (? & _ & H). apply rbind_Ok in H as (? & _ & H).
  injection H as ->. rewrite H1. cbn. rewrite H2. cbn. split; [done|]. destruct (c_session_id cap); done.
Qed.

Definition quota_of (w : broker) (s : val) : Z := default 0%Z (sget (br_quota w) ("writes", s)).
Definition quota_keys (w : broker) : Prop := Forall (λ x, key_ok x.1) (br_quota w).
(** A request to the store that may write. *)
Definition is_write (e : event) : bool := match e with EvStore m _ => negb (String.eqb m "read_episode") | _ => false end.
Definition no_write (e : event) : Prop := is_write e = false.

(** No write, and no change to the writes' quotas. *)
Definition neutral (w w' : broker) : Prop :=
  quota_keys w → quota_keys w' ∧ (∀ s, hashable s = true → quota_of w' s = quota_of w s) ∧
  ∃ l, br_trace w' = br_trace w ++ l ∧ Forall no_write l.
#[export] Instance neutral_preorder : PreOrder neutral.
Proof.
  split; [intros w Hk; split_and!; [done|done|]; exists []; by rewrite app_nil_r|].
  intros w1 w2 w3 H12 H23 Hk. destruct (H12 Hk) as (Hk2 & Hq & l & Hl & Hw), (H23 Hk2) as (Hk3 & Hq' & l' & Hl' & Hw').
  split_and!; [done|intros s Hs; by rewrite Hq', Hq|]. exists (l ++ l'). split; [by rewrite Hl', Hl, (assoc_L app)|by apply Forall_app].
Qed.
#[export] Instance neutral_follows : Follows no_write neutral.
Proof.
  split; [apply neutral_preorder|intros e w He Hk; split_and!; [done|done|]; exists [e]; split; [done|by constructor]|].
  intros st w Hk. split_and!; [done|done|]. exists []. by rewrite app_nil_r.
Qed.

Section broker.
Context `{HASH : Hash} (N : surroundings).
Ltac side := done.

Lemma check_neutral p : respects neutral (br_check N p).
Proof. unfold br_check. client_steps side. Qed.
Lemma check_capability p w cap w' : br_check N p w = (Ok cap, w') →
  w' = w ∧ check_token (br_gate w) (n_now N (br_trace w)) (dget_none p "token") (dget_none p "episode_id") VNone = Ok cap.
Proof. unfold br_check. intros H. apply bind_Ok in H as (w0 & w1 & [= <- <-] & H). apply bind_Ok in H as (t & w2 & [= <- <-] & H). by apply lift_Ok in H as [H ->]. Qed.
Lemma audit_neutral event cap data p : respects neutral (br_audit N event cap data p).
Proof. unfold br_audit. client_steps side. Qed.
Lemma bundle_neutral id : respects neutral (br_bundle N id).
Proof. unfold br_bundle. client_steps side. Qed.
Lemma limit_neutral id pid key : respects neutral (br_limit N id pid key).
Proof. unfold br_limit. client_steps side. apply bundle_neutral. Qed.
Lemma authorize_neutral p tool : respects neutral (authorize N p tool).
Proof. unfold authorize. client_steps side; first [apply check_neutral|apply audit_neutral]. Qed.
Lemma authorize_admits p tool w cap args w' : authorize N p tool w = (Ok (cap, args), w') →
  check_token (br_gate w) (n_now N (br_trace w)) (dget_none p "token") (dget_none p "episode_id") VNone = Ok cap ∧
  tool_allowed (c_role cap) tool = Ok true ∧ args = py_or (dget_none p "args") (VDict []) ∧
  ∃ spec, TOOLS_BY_NAME tool = Some spec ∧ validate (t_input_schema spec) args = true.
Proof.
  unfold authorize. intros H. apply bind_Ok in H as (cap' & w1 & [-> Hc]%check_capability & H).
  apply bind_Ok in H as (allowed & w2 & [Ha ->]%lift_Ok & H). destruct allowed; cbn [negb] in H.
  2: { apply bind_Ok in H as (? & ? & _ & H). discriminate H. }
  apply bind_Ok in H as (spec & w3 & [Hs%of_opt_Ok ->]%lift_Ok & H). destruct (validate _ _) eqn:Hv; cbn [negb] in H.
  2: { apply bind_Ok in H as (? & ? & _ & H). discriminate H. }
  apply ret_Ok in H as [[= -> ->] ->]. split_and!; try done. by exists spec.
Qed.

Lemma authorize_same p tool w cap args w' : authorize N p tool w = (Ok (cap, args), w') → w' = w.
Proof.
  unfold authorize. intros H. apply bind_Ok in H as (cap' & w1 & [-> _]%check_capability & H).
  apply bind_Ok in H as (allowed & w2 & [_ ->]%lift_Ok & H). destruct allowed; cbn [negb] in H; [|minv H; discriminate].
  apply bind_Ok in H as (spec & w3 & [_ ->]%lift_Ok & H). destruct (validate _ _); cbn [negb] in H; [|minv H; discriminate].
  by apply ret_Ok in H as [_ ->].
Qed.

Lemma take_run kind s limit w r w' : take_quota kind s limit w = (r, w') →
  let n := default 0%Z (sget (br_quota w) (kind, s)) in
  (w' = w ∧ is_ok r = false) ∨
  (r = Ok tt ∧ (n < limit)%Z ∧ w' = mkBroker (br_gate w) (sset (br_quota w) (kind, s) (n + 1)) (br_store w) (br_trace w)).
Proof.
  unfold take_quota. rewrite get_bind, require_bind. cbv zeta. destruct (Z.leb_spec limit (default 0%Z (sget (br_quota w) (kind, s)))); cbn [negb].
  - intros [= <- <-]. by left.
  - intros H'. injection H' as <- <-. by right.
Qed.
Lemma take_neutral kind s limit : kind ≠ "writes" → hashable s = true → respects neutral (take_quota kind s limit).
Proof.
  intros Hk Hs w r w' [[-> _]|(_ & _ & ->)]%take_run; [done|]. intros Hkeys. cbn. split; [by apply sset_keys|]. split.
  - intros s' Hs'. unfold quota_of. cbn. rewrite sget_sset by done.
    destruct (skey_eqb ("writes", s') (kind, s)) eqn:He; [|done]. apply andb_true_iff in He as [He%String.eqb_eq _]. cbn [fst] in He. congruence.
  - exists []. by rewrite app_nil_r.
Qed.

(** ** A write *)
(** No write, and no change to any quota. *)
Definition plain (w w' : broker) : Prop := br_quota w' = br_quota w ∧ adds no_write w w'.
#[export] Instance plain_follows : Follows no_write plain.
Proof.
  split; [split; [by intros w|]|intros e w He; split; [done|by apply (follows_log (R := adds no_write))]|].
  - intros w1 w2 w3 [H1 H2] [H3 H4]. split; [congruence|by etrans].
  - intros st w. split; [done|by apply (follows_put (Q := no_write) (R := adds no_write))].
Qed.
#[export] Instance plain_preorder : PreOrder plain.
Proof. apply (follows_pre (Q := no_write)). Qed.
Lemma audit_plain event cap data p : respects plain (br_audit N event cap data p).
Proof. unfold br_audit. client_steps side. Qed.

(** What forwarding to the store adds to the trace. *)
Definition forwards (op : string) (sp : result exn dict) (w w' : broker) : Prop :=
  br_quota w' = br_quota w ∧ ∃ l, br_trace w' = br_trace w ++ l ∧
    (Forall no_write l ∨ ∃ l1 params l2, l = l1 ++ EvStore op params :: l2 ∧ Forall no_write l1 ∧ Forall no_write l2 ∧ sp = Ok params).
Lemma plain_forwards op sp w w' : plain w w' → forwards op sp w w'.
Proof. intros (Hq & l & Hl & Hn). split; [done|]. exists l. split; [done|by left]. Qed.
Lemma forwards_plain op sp w w1 w' : forwards op sp w w1 → plain w1 w' → forwards op sp w w'.
Proof.
  intros (Hq & l & Hl & Hw) (Hq' & l' & Hl' & Hn'). split; [congruence|]. exists (l ++ l'). cbn in Hl'. split; [by rewrite Hl', Hl, (assoc_L app)|].
  destruct Hw as [Hn|(l1 & params & l2 & -> & H1 & H2 & Hs)]; [left; by apply Forall_app|right].
  exists l1, params, (l2 ++ l'). split; [by rewrite <- (assoc_L app)|]. split_and!; [done|by apply Forall_app|done].
Qed.
Lemma plain_then op sp w w1 w' : plain w w1 → forwards op sp w1 w' → forwards op sp w w'.
Proof.
  intros (Hq & l & Hl & Hn) (Hq' & l' & Hl' & Hw). split; [congruence|]. exists (l ++ l'). cbn in Hl. split; [by rewrite Hl', Hl, (assoc_L app)|].
  destruct Hw as [Hn'|(l1 & params & l2 & -> & H1 & H2 & Hs)]; [left; by apply Forall_app|right].
  exists (l ++ l1), params, l2. split; [by rewrite (assoc_L app)|]. split_and!; [by apply Forall_app|done..].
Qed.
Lemma catch_forwards op sp (h : exn → BM val) w r w' : (∀ e, respects plain (h e)) →
  catch (params ← lift sp; r ← call_store N "store-agent" op params;
         match r with ReplyVal v => mret v | _ => raise (PyExc "TypeError") end) h w = (r, w') → forwards op sp w w'.
Proof.
  intros Hh H. unfold catch in H.
  destruct ((params ← lift sp; r ← call_store N "store-agent" op params; match r with ReplyVal v => mret v | _ => raise (PyExc "TypeError") end) w)
    as [r1 w1] eqn:H1.
  assert (forwards op sp w w1) as Hf.
  { rewrite lift_bind in H1. destruct sp as [params|e]; [|injection H1 as _ <-; by apply plain_forwards].
    apply bind_cases in H1 as [(e & H1 & _)|(x & w2 & H1 & H2)].
    - apply call_store_run in H1 as [st ->]. split; [done|]. exists [EvStore op params]. split; [done|]. right. by exists [], params, [].
    - apply call_store_run in H1 as [st ->]. assert (w1 = cl_put st (cl_log (EvStore op params) w)) as -> by (destruct x; by injection H2 as _ <-).
      split; [done|]. exists [EvStore op params]. split; [done|]. right. by exists [], params, []. }
  destruct r1 as [v|e]; [by injection H as _ <-|]. eapply forwards_plain; [exact Hf|by eapply Hh].
Qed.

(** What the broker checked before it forwarded a write of [tool] with [params]. *)
Definition admitted (w : broker) (p : dict) (tool op : string) (build : val → val) (limit : Z) (params : dict) : Prop :=
  ∃ cap args spec idem,
    check_token (br_gate w) (n_now N (br_trace w)) (dget_none p "token") (dget_none p "episode_id") VNone = Ok cap ∧
    tool_allowed (c_role cap) tool = Ok true ∧
    args = py_or (dget_none p "args") (VDict []) ∧ TOOLS_BY_NAME tool = Some spec ∧ validate (t_input_schema spec) args = true ∧
    (∃ w1 w2, br_limit N (c_bundle_id cap) "P-05" (c_role cap) w1 = (Ok limit, w2)) ∧ (quota_of w (c_session_id cap) < WRITE_QUOTA_FACTOR * limit)%Z ∧
    dget_none p "idem_key" = VStr idem ∧ idem_ok idem = true ∧
    store_params (dget_none p "token") (c_episode_id cap) (py_str (c_session_id cap) +:+ ":" +:+ idem) (build args) = Ok params.

(** A request that took a session's quota once and forwarded at most one write, which was
    admitted. *)
Definition charged (w : broker) (p : dict) (tool op : string) (build : val → val) (w' : broker) : Prop :=
  ∃ cap limit, token_cap (dget_none p "token") = Some cap ∧ hashable (c_session_id cap) = true ∧
    (∃ w1 w2, br_limit N (c_bundle_id cap) "P-05" (c_role cap) w1 = (Ok limit, w2)) ∧ (quota_of w (c_session_id cap) < WRITE_QUOTA_FACTOR * limit)%Z ∧
    quota_keys w' ∧
    (∀ s, hashable s = true → quota_of w' s = if py_eq s (c_session_id cap) then (quota_of w (c_session_id cap) + 1)%Z else quota_of w s) ∧
    ∃ l, br_trace w' = br_trace w ++ l ∧
      (Forall no_write l ∨ ∃ l1 params l2, l = l1 ++ EvStore op params :: l2 ∧ Forall no_write l1 ∧ Forall no_write l2 ∧ admitted w p tool op build limit params).

Lemma write_cases p tool op build w r w' : quota_keys w → eb_write N p tool op build w = (r, w') →
  neutral w w' ∨ charged w p tool op build w'.
Proof.
  intros Hkeys H. unfold eb_write in H.
  apply bind_cases in H as [(e & H & _)|([cap args] & w1 & H1 & H)]; [left; by apply authorize_neutral in H|].
  pose proof (authorize_admits _ _ _ _ _ _ H1) as (Hc & Ha & Hargs & spec & Hspec & Hv). apply authorize_neutral in H1.
  apply bind_cases in H as [(e & H & _)|(limit & w2 & H2 & H)]; [left; etrans; [done|by apply limit_neutral in H]|].
  assert (∃ w1 w2, br_limit N (c_bundle_id cap) "P-05" (c_role cap) w1 = (Ok limit, w2)) as Hlim by eauto.
  apply limit_neutral in H2. assert (neutral w w2) as H12 by (by etrans). clear H1 H2.
  pose proof (H12 Hkeys) as (Hkeys2 & Hq2 & l0 & Hl0 & Hw0). destruct (check_token_cap _ _ _ _ _ _ Hc) as [Hcap Hs].
  apply bind_cases in H as [(e & H & _)|(u & w3 & H3 & H)].
  { left. apply take_run in H as [[-> _]|[[=] _]]. done. }
  apply take_run in H3 as [[_ [=]]|(_ & Hlt & Hw3)]. fold (quota_of w2 (c_session_id cap)) in Hlt. rewrite Hq2 in Hlt by done.
  right.
  assert (quota_keys w3) as Hkeys3 by (rewrite Hw3; by apply sset_keys).
  assert (∀ s, hashable s = true → quota_of w3 s = if py_eq s (c_session_id cap) then (quota_of w (c_session_id cap) + 1)%Z else quota_of w s) as Hq3.
  { intros s Hh. unfold quota_of at 1. rewrite Hw3. cbn [br_quota]. rewrite sget_sset by done. unfold skey_eqb. cbn [fst snd]. rewrite String.eqb_refl. cbn [andb].
    destruct (py_eq s (c_session_id cap)); cbn [default from_option id]; [fold (quota_of w2 (c_session_id cap)); by rewrite Hq2|by apply Hq2]. }
  assert (∀ sp, forwards op sp w3 w' → (∀ params, sp = Ok params → admitted w p tool op build limit params) →
    charged w p tool op build w') as Hdone.
  { intros sp (Hqs & l & Hl & Hfw) Hadm. exists cap, limit. split_and!; try done; [by unfold quota_keys; rewrite Hqs| |].
    - intros s Hh. unfold quota_of at 1. rewrite Hqs. by apply Hq3.
    - exists (l0 ++ l). split; [rewrite Hl, Hw3; cbn; by rewrite Hl0, (assoc_L app)|].
      destruct Hfw as [Hn|(l1 & params & l2 & -> & H1 & H2 & Hs')]; [left; by apply Forall_app|right].
      exists (l0 ++ l1), params, l2. split; [by rewrite (assoc_L app)|]. split_and!; [by apply Forall_app|done|by apply Hadm]. }
  assert (plain w3 w' → charged w p tool op build w') as Hplain.
  { intros Hp. apply (Hdone (Err (PyExc EmptyString))); [by apply plain_forwards|discriminate]. }
  destruct (dget_none p "idem_key") as [| | | |idem| |] eqn:Hidem; try (by apply Hplain; injection H as _ <-).
  apply bind_cases in H as [(e & H & _)|(idem' & w4 & H4 & H)].
  { apply Hplain. rewrite require_bind in H. by destruct (idem_ok idem); injection H as _ <-. }
  rewrite require_bind in H4. destruct (idem_ok idem) eqn:Hi; [|discriminate H4]. injection H4 as <- <-.
  apply bind_cases in H as [(e & H & _)|(ref & w4 & H4 & H)]; [by apply Hplain; apply audit_plain in H|]. apply audit_plain in H4.
  set (sp := store_params _ _ _ _) in H.
  assert (∀ params, sp = Ok params → admitted w p tool op build limit params) as Hadm by (intros params Hp; by exists cap, args, spec, idem).
  set (h := λ e : exn, match e with RpcError code _ => _ | _ => _ end) in H.
  assert (∀ e, respects plain (h e)) as Hh.
  { intros [code d|cls]; unfold h; [|by apply follows_readonly]. apply follows_bind; [apply audit_plain|intros ?; by apply follows_readonly]. }
  apply bind_cases in H as [(e & H & _)|(res & w5 & H5 & H)].
  { apply (Hdone sp); [|done]. eapply plain_then; [exact H4|]. by eapply catch_forwards. }
  apply (Hdone sp); [|done]. eapply plain_then; [exact H4|]. eapply forwards_plain; [by eapply catch_forwards|].
  apply bind_cases in H as [(e & H & _)|(ref2 & w6 & H6 & H)]; [by apply audit_plain in H|]. injection H as _ <-. by apply audit_plain in H6.
Qed.

(** ** Every request *)
Context (section_of : string → string → option string) (worker_uids controller_uids : list Z).

Lemma read_neutral p : respects neutral (eb_read_episode N p).
Proof.
  unfold eb_read_episode. apply (respects_bind _ (λ cap, hashable (c_session_id cap) = true)); [apply check_neutral| |].
  - intros w cap w' [_ Hc]%check_capability. by apply check_token_cap in Hc as [_ ?].
  - intros cap Hs. apply follows_bind; [apply limit_neutral|intros limit]. apply follows_bind; [by apply take_neutral|intros _].
    unfold eb_view. client_steps side.
Qed.
Lemma note_neutral p : respects neutral (eb_audit_note N p).
Proof.
  unfold eb_audit_note. apply (respects_bind _ (λ cap, hashable (c_session_id cap) = true)); [apply check_neutral| |].
  - intros w cap w' [_ Hc]%check_capability. by apply check_token_cap in Hc as [_ ?].
  - intros cap Hs. apply follows_bind; [by apply take_neutral|intros _]. cbv zeta. apply follows_bind; [apply audit_neutral|intros ?].
    by apply follows_readonly.
Qed.
Lemma result_neutral p : respects neutral (eb_get_verification_result N p).
Proof. unfold eb_get_verification_result, eb_view, as_view. client_steps side. apply authorize_neutral. Qed.
Lemma runbook_neutral p : respects neutral (eb_draft_failover_runbook N section_of p).
Proof.
  unfold eb_draft_failover_runbook, eb_view, as_view. client_steps side; first [apply authorize_neutral|apply bundle_neutral|apply audit_neutral].
Qed.
Lemma revoke_neutral p : respects neutral (br_revoke p).
Proof.
  unfold br_revoke. destruct (dget_none p "session_id") as [| | | |[|c sid]| |]; try (by apply follows_readonly).
  apply follows_bind; [|intros _; by apply follows_readonly]. intros w r w' [= _ <-] Hk. split_and!; [done|done|]. exists []. by rewrite app_nil_r.
Qed.

(** The tools that write, the store's operation each is forwarded to, and how its
    arguments become the operation's. *)
Inductive write_tool : string → string → (val → val) → Prop :=
| WtHypothesis : write_tool "add_hypothesis" "append_hypothesis" (λ a, VDict [("hypothesis", a)])
| WtStatus : write_tool "set_hypothesis_status" "append_hypothesis_status" id
| WtRecommendation : write_tool "propose_recommendation" "append_recommendation" (λ a, VDict [("recommendation", a)])
| WtNoAction : write_tool "report_no_action" "append_no_action" id
| WtVerdict : write_tool "submit_verdict" "append_verdict" id.

(** A request at one of the broker's sockets. *)
Definition bstep (w w' : broker) : Prop := ∃ ep uid pid line resp,
  ep ∈ eb_endpoints N section_of worker_uids controller_uids ∧ handle ep uid pid line w = (resp, w').

Lemma method_cases name fn ctx p w r w' ep : ep ∈ eb_endpoints N section_of worker_uids controller_uids →
  dget (ep_methods ep) name = Some fn → fn ctx p w = (r, w') → quota_keys w →
  neutral w w' ∨ ∃ tool op build, write_tool tool op build ∧ charged w p tool op build w'.
Proof.
  intros Hep Hfn H Hk.
  assert (∀ m : BM breply, m w = (r, w') → respects neutral m → neutral w w' ∨ ∃ tool op build, write_tool tool op build ∧ charged w p tool op build w') as Hn
    by (intros m Hm Hr; left; by apply Hr in Hm).
  assert (∀ tool op build, write_tool tool op build → eb_write N p tool op build w = (r, w') →
    neutral w w' ∨ ∃ tool op build, write_tool tool op build ∧ charged w p tool op build w') as Hw.
  { intros tool op build Ht Hr. destruct (write_cases _ _ _ _ _ _ _ Hk Hr) as [?|?]; [by left|right; eauto]. }
  unfold eb_endpoints in Hep. rewrite !elem_of_cons, elem_of_nil in Hep. destruct Hep as [->|[->|[]]]; cbn [ep_methods] in Hfn;
    apply dget_elem in Hfn; rewrite !elem_of_cons, elem_of_nil in Hfn.
  - destruct Hfn as [Hf|[Hf|[Hf|[Hf|[Hf|[Hf|[Hf|[Hf|[Hf|[]]]]]]]]]]; injection Hf as -> ->.
    + by eapply Hw; [apply WtHypothesis|]. + by eapply Hw; [apply WtStatus|]. + by eapply Hw; [apply WtRecommendation|].
    + by eapply Hw; [apply WtNoAction|]. + by eapply Hw; [apply WtVerdict|].
    + eapply Hn; [exact H|apply read_neutral]. + eapply Hn; [exact H|apply result_neutral].
    + eapply Hn; [exact H|apply runbook_neutral]. + eapply Hn; [exact H|apply note_neutral].
  - destruct Hfn as [Hf|[Hf|[]]]; injection Hf as -> ->.
    + eapply Hn; [exact H|]. apply follows_bind; [apply revoke_neutral|intros ?; by apply follows_readonly].
    + eapply Hn; [exact H|]. by apply follows_readonly.
Qed.

Lemma bstep_cases w w' : quota_keys w → bstep w w' → neutral w w' ∨ ∃ p tool op build, write_tool tool op build ∧ charged w p tool op build w'.
Proof.
  intros Hk (ep & uid & pid & line & resp & Hep & H).
  apply handle_routed in H as [[-> _]|(name & params & fn & r & _ & _ & Hfn & Hrun & _)]; [by left|].
  destruct (method_cases _ _ _ _ _ _ _ _ Hep Hfn Hrun Hk) as [?|(tool & op & build & ? & ?)]; [by left|right]. by exists params, tool, op, build.
Qed.
Lemma bstep_keys w w' : quota_keys w → bstep w w' → quota_keys w'.
Proof. intros Hk Hs. destruct (bstep_cases _ _ Hk Hs) as [Hn|(p & tool & op & build & _ & cap & limit & _ & _ & _ & _ & ? & _)]; [by destruct (Hn Hk)|done]. Qed.

(** C6: safety. Nothing is written through the broker that was not admitted: whatever
    requests come in, from whomever, each write it forwards to the store came in a request
    whose token was signed, live and of this episode, from a role the tool is allowed to,
    with arguments of the tool's schema, an idempotency key, and quota left. *)
Theorem writes_are_admitted w w' e :
  rtc bstep w w' → quota_keys w → e ∈ drop (length (br_trace w)) (br_trace w') → is_write e = true →
  ∃ w0 p tool op build limit params, rtc bstep w w0 ∧ write_tool tool op build ∧ e = EvStore op params ∧
    admitted w0 p tool op build limit params.
Proof.
  intros Hs Hk. enough (∃ l, br_trace w' = br_trace w ++ l ∧ quota_keys w' ∧ ∀ e, e ∈ l → is_write e = true →
    ∃ w0 p tool op build limit params, rtc bstep w w0 ∧ write_tool tool op build ∧ e = EvStore op params ∧ admitted w0 p tool op build limit params)
    as (l & -> & _ & Hl) by (rewrite drop_app_length; apply Hl).
  revert w' Hs. apply rtc_ind_r.
  { exists []. split; [by rewrite app_nil_r|]. split; [done|]. by intros e' ?%not_elem_of_nil. }
  intros w1 w2 Hrtc Hstep (l & Hl & Hk1 & Hall). pose proof (bstep_keys _ _ Hk1 Hstep) as Hk2.
  destruct (bstep_cases _ _ Hk1 Hstep) as [Hn|(p & tool & op & build & Ht & cap & limit & _ & _ & _ & _ & _ & _ & l' & Hl' & Hw)].
  - destruct (Hn Hk1) as (_ & _ & l' & Hl' & Hw). exists (l ++ l'). rewrite Hl', Hl, (assoc_L app). split_and!; [done|done|].
    intros e' [He|He]%elem_of_app Hwr; [by apply Hall|]. rewrite list.Forall_forall in Hw. apply Hw in He. unfold no_write in He. congruence.
  - exists (l ++ l'). rewrite Hl', Hl, (assoc_L app). split_and!; [done|done|]. intros e' [He|He]%elem_of_app Hwr; [by apply Hall|].
    destruct Hw as [Hw|(l1 & params & l2 & -> & H1 & H2 & Hadm)].
    + rewrite list.Forall_forall in Hw. apply Hw in He. unfold no_write in He. congruence.
    + rewrite list.Forall_forall in H1, H2. apply elem_of_app in He as [He|[He|He]%elem_of_cons].
      * apply H1 in He. unfold no_write in He. congruence.
      * exists w1, p, tool, op, build, limit, params. split_and!; done.
      * apply H2 in He. unfold no_write in He. congruence.
Qed.

(** ** How often *)
(** The writes forwarded with a token of session [s]. *)
Definition of_session (s : val) (e : event) : bool :=
  match e with
  | EvStore _ params => is_write e && match token_cap (dget_none params "token") with Some cap => py_eq s (c_session_id cap) | None => false end
  | _ => false
  end.
Definition writes_of (s : val) (l : trace) : Z := Z.of_nat (length (List.filter (of_session s) l)).
Lemma writes_of_app s l l' : writes_of s (l ++ l') = (writes_of s l + writes_of s l')%Z.
Proof. unfold writes_of. rewrite List.filter_app, length_app. lia. Qed.
Lemma writes_of_none s l : Forall no_write l → writes_of s l = 0%Z.
Proof.
  unfold writes_of. induction 1 as [|e l He _ IH]; [done|]. cbn. destruct e as [|m params| | | |]; cbn; try done. unfold no_write, is_write in He.
  by rewrite He.
Qed.
Lemma store_params_token token eid idem extra params : store_params token eid idem extra = Ok params → dget_none params "token" = token.
Proof.
  unfold store_params. destruct extra as [| | | | | |d]; try discriminate. destruct (existsb _ _); [discriminate|]. by intros [= <-].
Qed.

(** A session never gets more writes through than its quota: however many
    requests come, in whatever order, from whichever workers hold a token of the session,
    the writes forwarded with one are at most four times the largest P-05 a bundle grants. *)
Theorem session_writes_bounded w w' s bound :
  rtc bstep w w' → br_quota w = [] → br_trace w = [] → hashable s = true → (0 <= bound)%Z →
  (∀ id role z w1 w2, br_limit N id "P-05" role w1 = (Ok z, w2) → (WRITE_QUOTA_FACTOR * z <= bound)%Z) →
  (writes_of s (br_trace w') <= bound)%Z.
Proof.
  intros Hs Hq0 Ht0 Hh Hb Hlim. enough (quota_keys w' ∧ (writes_of s (br_trace w') <= quota_of w' s <= bound)%Z) as [_ ?] by lia.
  revert w' Hs. apply rtc_ind_r.
  { unfold quota_keys, quota_of. rewrite Hq0, Ht0. split; [constructor|]. change (0 <= 0 <= bound)%Z. lia. }
  intros w1 w2 _ Hstep (Hk1 & Hle). pose proof (bstep_keys _ _ Hk1 Hstep) as Hk2. split; [done|].
  destruct (bstep_cases _ _ Hk1 Hstep) as [Hn|(p & tool & op & build & Ht & cap & limit & Hcap & Hhc & (wa & wb & Hl) & Hlt & _ & Hq & l & Hl' & Hw)].
  - destruct (Hn Hk1) as (_ & Hq & l & -> & Hw). rewrite writes_of_app, (writes_of_none s l), Hq by done. lia.
  - rewrite Hl', writes_of_app, Hq by done. apply Hlim in Hl.
    assert (writes_of s l <= if py_eq s (c_session_id cap) then 1 else 0)%Z as Hone.
    { destruct Hw as [Hw|(l1 & params & l2 & -> & H1 & H2 & Hadm)]; [rewrite writes_of_none by done; by destruct (py_eq _ _)|].
      rewrite writes_of_app, writes_of_none by done. change (EvStore op params :: l2) with ([EvStore op params] ++ l2).
      rewrite writes_of_app, (writes_of_none s l2) by done. destruct Hadm as (cap' & args & spec & idem & _ & _ & _ & _ & _ & _ & _ & _ & _ & Hp).
      apply store_params_token in Hp. unfold writes_of. cbn [List.filter of_session]. rewrite Hp, Hcap.
      destruct (is_write _); cbn [andb]; destruct (py_eq s _); cbn; lia. }
    destruct (py_eq s (c_session_id cap)) eqn:He; [|lia].
    assert (quota_of w1 s = quota_of w1 (c_session_id cap)) as Hsame.
    { unfold quota_of. f_equal. apply sget_key; [done..|]. unfold skey_eqb. cbn [fst snd]. by rewrite String.eqb_refl. }
    lia.
Qed.
End broker.

(** * A write through the episode broker

    A diagnostician's hypothesis, from its socket to the store; the broker's theorems are
    instantiated here. *)
From S2P Require Import StoreSpec StoreInv StoreProps Scenario.
From S2P Require Import BundleProps RunnerDemo.

Definition quota_files : bundle_dir := [(["thresholds.yaml"], "T")].
Definition quota_id : string := id_of quota_files.
Definition quota_registry : registry :=
  mkRegistry [(quota_id, signed quota_files)] [("k1", demo_trusted)] (Some (quota_id +:+ newline)) [mkActivation 10 quota_id None "op"] [].
Definition quota_yaml (text : string) : result exn val :=
  Ok (VDict [("parameters", VDict [("P-05", VDict [("diagnostician", VInt 10)])])]).
Definition write_surroundings : surroundings := {|
  n_answer := λ _, Ok (VDict [("seq", VInt 7)]); n_store := λ _ s, Some (demo_env (fresh_key s), false); n_others := λ _ s, s;
  n_home := λ _, Ok tt; n_launch := λ _, Ok (mkLaunch (VInt 0) false None EmptyString); n_sandbox := λ _, None;
  n_uuid := λ tr, fmt_id "u" (length tr); n_nonce := λ _, "n0"; n_now := λ _, 100%Q; n_registry := λ _, quota_registry;
  n_chain := λ _, None; n_anchor_keys := []; n_yaml := quota_yaml; n_sign := demo_sign; n_rfc3339 := λ _, "t";
  n_admins := []; n_worker_sockets := []; n_development := false; n_uid := 1000 |}.

Definition quota_token : string :=
  match mint demo_sign 100 "n0" "ep1" "diagnostician" "sess1" quota_id 600 with Ok t => t | Err _ => EmptyString end.
Definition write_store : store :=
  fold_left serve [call "ep1" "controller" "open_episode" (dset open_params "bundle_id" (VStr quota_id)); signal_request;
                   move 3 "controller" "diagnosing" 2] init_store.
Definition write_start : broker := mkBroker demo_gate [] write_store [].
Definition write_line : val := VDict [("id", VInt 1); ("method", VStr "add_hypothesis"); ("params", VDict
  [("token", VStr quota_token); ("episode_id", VStr "ep1"); ("idem_key", VStr "k-000001"); ("args", dget_none hypothesis_params "hypothesis")])].
Definition no_section (text mode : string) : option string := None.
Definition write_endpoint : Endpoint broker breply :=
  default (mkEndpoint EmptyString EmptyString [] []) (eb_endpoints (HASH := sum_hash) write_surroundings no_section [1000%Z] [0%Z] !! 0).
Definition write_handled := handle write_endpoint 1000 1 (Some write_line) write_start.
Definition write_end : broker := write_handled.2.

Example hypothesis_written :
  (length ∘ r_hypotheses) <$> dget (s_records (br_store write_end)) "ep1" = Some 1 ∧ quota_of write_end (VStr "sess1") = 1%Z.
Proof. split; vm_compute; reflexivity. Qed.

Abbreviation demo_bstep := (bstep (HASH := sum_hash) write_surroundings no_section [1000%Z] [0%Z]).
Lemma write_step : rtc demo_bstep write_start write_end.
Proof.
  apply rtc_once. exists write_endpoint, 1000%Z, 1%Z, (Some write_line), write_handled.1.
  split; [left|]. unfold write_end, write_handled. exact (surjective_pairing _).
Qed.
Definition written_params : dict := match find_first is_write (br_trace write_end) with Some (EvStore _ p) => p | _ => [] end.
Lemma written_found : find_first is_write (br_trace write_end) = Some (EvStore "append_hypothesis" written_params).
Proof. vm_compute. reflexivity. Qed.
Lemma written_in : EvStore "append_hypothesis" written_params ∈ drop (length (br_trace write_start)) (br_trace write_end).
Proof. exact (proj1 (find_first_Some is_write (br_trace write_end) _ written_found)). Qed.

Lemma writes_are_admitted_witness :
  ∃ w0 p tool op build limit params, rtc demo_bstep write_start w0 ∧ write_tool tool op build ∧
    EvStore "append_hypothesis" written_params = EvStore op params ∧ admitted (HASH := sum_hash) write_surroundings w0 p tool op build limit params.
Proof.
  exact (writes_are_admitted (HASH := sum_hash) write_surroundings no_section [1000%Z] [0%Z] write_start write_end
    (EvStore "append_hypothesis" written_params) write_step (List.Forall_nil _) written_in eq_refl).
Defined.

(** The bundle grants ten. *)
Lemma ten_granted id role z w1 w2 : br_limit (HASH := sum_hash) write_surroundings id "P-05" role w1 = (Ok z, w2) → (WRITE_QUOTA_FACTOR * z <= 40)%Z.
Proof.
  unfold br_limit. intros H. apply bind_Ok in H as (b & w3 & _ & H). apply bind_Ok in H as (v & w4 & [Hv ->]%lift_Ok & H). apply lift_Ok in H as [H _].
  unfold rule_param in Hv. apply rbind_Ok in Hv as (th & Hth & Hv). unfold thresholds in Hth. apply rbind_Ok in Hth as (d & Hd & Hth).
  unfold b_yaml in Hd. apply rbind_Ok in Hd as (text & _ & Hd). cbn in Hd. injection Hd as <-. cbn in Hth. injection Hth as <-.
  assert (∀ s, py_index (VDict [("diagnostician", VInt 10)]) (VStr s) = Ok v → (WRITE_QUOTA_FACTOR * z <= 40)%Z) as Hrole.
  { intros s Hs. apply of_opt_Ok, dget_elem, list_elem_of_singleton in Hs. injection Hs as _ ->. cbn in H. injection H as <-. done. }
  destruct role as [|b'|i|q|s|l|d]; try discriminate Hv; [injection Hv as <-; discriminate H|exact (Hrole s Hv)].
Qed.
Lemma session_writes_bounded_witness :
  writes_of (VStr "sess1") (br_trace write_end) = 1%Z ∧ (writes_of (VStr "sess1") (br_trace write_end) <= 40)%Z.
Proof.
  split; [vm_compute; reflexivity|].
  exact (session_writes_bounded (HASH := sum_hash) write_surroundings no_section [1000%Z] [0%Z] write_start write_end (VStr "sess1") 40
    write_step eq_refl eq_refl eq_refl (Zle_bool_imp_le 0 40 eq_refl) ten_granted).
Defined.
