(* ===== verification/Providers.v ===== *)
(** * What the model broker knows of the providers (src/valops/brokers/providers.py)

    Which paths a worker may post to, where a request names its model, the field that caps
    its output, what a response says it used, and the shape of errors and credentials. A
    provider is one of the three the tables name; [PATHS[provider]] raises for another. *)
From S2P Require Import Prelude PyVal Schema Canonical Json PyConv Bundle.
From Stdlib Require Import Ascii.

(** ** Routes *)
(** [[A-Za-z0-9.\-_]] *)
Definition model_char (c : ascii) : bool :=
  is_digit c || is_lower c || is_upper c || Ascii.eqb c "." || Ascii.eqb c "-" || Ascii.eqb c "_".
(** The model a Gemini path names. *)
Definition google_path (s : string) : option string :=
  r ← strip_prefix "/v1beta/models/" s;
  let '(model, action) := span model_char r in
  if negb (String.eqb model "") && str_in action [":generateContent"; ":streamGenerateContent"] then Some model else None.
(** A pattern followed by [$], with its group. *)
Definition dollar_group {A} (m : string → option A) (s : string) : option A := match m s with Some x => Some x | None => m (chomp s) end.
Definition literal (p s : string) : option (option string) := if String.eqb s p then Some None else None.

(** src/valops/brokers/providers.py:10-14 PATHS

    A match is its group, if it has one. *)
Definition PATHS : list (string * list (string → option (option string))) :=
  [("anthropic", [literal "/v1/messages"]);
   ("openai", [literal "/v1/chat/completions"; literal "/v1/responses"]);
   ("google", [λ s, Some <$> google_path s])].
(** src/valops/brokers/providers.py:17-21 FORWARD_HEADERS *)
Definition FORWARD_HEADERS : list (string * list string) :=
  [("anthropic", ["content-type"; "accept"; "anthropic-version"; "anthropic-beta"]);
   ("openai", ["content-type"; "accept"; "openai-beta"]);
   ("google", ["content-type"; "accept"])].
(** src/valops/brokers/providers.py:22-22 CREDENTIAL_HEADERS *)
Definition CREDENTIAL_HEADERS : list string :=
  ["authorization"; "x-api-key"; "x-goog-api-key"; "api-key"; "cookie"; "proxy-authorization"].

Fixpoint first_match (l : list (string → option (option string))) (path : string) : option (option string) :=
  match l with
  | [] => None
  | rx :: l' => match dollar_group rx path with Some m => Some m | None => first_match l' path end
  end.
(** src/valops/brokers/providers.py:25-30 path_ok *)
Definition path_ok (provider path : string) : result exn (option (option string)) :=
  l ← of_opt (dget PATHS provider) (PyExc "KeyError"); Ok (first_match l path).

(** src/valops/brokers/providers.py:33-37 requested_model *)
Definition requested_model (provider : string) (m : option string) (body : dict) : option string :=
  if String.eqb provider "google" then m else as_str (dget_none body "model").

(** src/valops/brokers/providers.py:40-43 is_stream *)
Definition is_stream (provider path : string) (body : dict) : bool :=
  if String.eqb provider "google" then ends_with ":streamGenerateContent" path else truthy (dget_none body "stream").

(** ** The cap on the output *)
(** [min(int(d.get(k) or remaining), remaining)], set at [k]. *)
Definition cap_at (d : dict) (k : string) (remaining : Z) : result exn (Z * dict) :=
  n ← py_int (py_or (dget_none d k) (VInt remaining));
  let c := Z.min n remaining in Ok (c, dset d k (VInt c)).
(** [{**(v or {}), "include_usage": True}] *)
Definition include_usage (v : val) : result exn val :=
  match py_or v (VDict []) with VDict d => Ok (VDict (dset d "include_usage" (VBool true))) | _ => Err (PyExc "TypeError") end.

(** src/valops/brokers/providers.py:46-62 clamp_output

    The cap, and the body it was set in. *)
Definition clamp_output (provider path : string) (body : dict) (remaining : Z) : result exn (Z * dict) :=
  if String.eqb provider "anthropic" then cap_at body "max_tokens" remaining
  else if String.eqb provider "openai" then
    if ends_with "/responses" path then cap_at body "max_output_tokens" remaining
    else
      let key := if dmem body "max_tokens" then "max_tokens" else "max_completion_tokens" in
      '(c, body) ← cap_at body key remaining;
      if truthy (dget_none body "stream") then
        so ← include_usage (dget_none body "stream_options"); Ok (c, dset body "stream_options" so)
      else Ok (c, body)
  else
    gc ← match default (VDict []) (dget body "generationConfig") with VDict gc => Ok gc | _ => Err (PyExc "AttributeError") end;
    '(c, gc) ← cap_at gc "maxOutputTokens" remaining;
    Ok (c, dset body "generationConfig" (VDict gc)).

(** ** Usage *)
(** [int(u.get(k) or 0)] *)
Definition count_at (u : dict) (k : string) : result exn Z := py_int (py_or (dget_none u k) (VInt 0)).
(** [a.get("usage") or (a.get(inner) or {}).get("usage")] *)
Definition usage_member (d : dict) (inner : string) : result exn val :=
  let u := dget_none d "usage" in
  if truthy u then Ok u else vget (py_or (dget_none d inner) (VDict [])) "usage".
Definition anthropic_input (u : dict) : result exn Z :=
  a ← count_at u "input_tokens"; b ← count_at u "cache_creation_input_tokens"; c ← count_at u "cache_read_input_tokens";
  Ok (a + b + c)%Z.

(** src/valops/brokers/providers.py:65-85 usage_from_json *)
Definition usage_from_json (provider : string) (obj : val) : result exn (option (Z * Z)) :=
  match obj with
  | VDict d =>
      if String.eqb provider "anthropic" then
        u ← usage_member d "message";
        match u with
        | VDict u => if dmem u "input_tokens" || dmem u "output_tokens"
                     then i ← anthropic_input u; o ← count_at u "output_tokens"; Ok (Some (i, o)) else Ok None
        | _ => Ok None
        end
      else if String.eqb provider "openai" then
        u ← usage_member d "response";
        match u with
        | VDict u =>
            let i := default (dget_none u "input_tokens") (dget u "prompt_tokens") in
            let o := default (dget_none u "output_tokens") (dget u "completion_tokens") in
            match i, o with
            | VNone, VNone => Ok None
            | _, _ => i ← py_int (py_or i (VInt 0)); o ← py_int (py_or o (VInt 0)); Ok (Some (i, o))
            end
        | _ => Ok None
        end
      else
        match dget_none d "usageMetadata" with
        | VDict u => i ← count_at u "promptTokenCount"; o ← count_at u "candidatesTokenCount"; t ← count_at u "thoughtsTokenCount";
                     Ok (Some (i, (o + t)%Z))
        | _ => Ok None
        end
  | _ => Ok None
  end.

(** One event of a stream, after what the events before it showed. *)
Definition stream_event (provider : string) (acc : option Z * option Z) (obj : val) : result exn (option Z * option Z) :=
  let '(inp, out) := acc in
  if String.eqb provider "anthropic" then
    ty ← vget obj "type";
    if py_eq ty (VStr "message_start") then
      m ← vget obj "message"; u ← vget (py_or m (VDict [])) "usage";
      match py_or u (VDict []) with
      | VDict u => i ← anthropic_input u; Ok (Some i, out)
      | _ => Err (PyExc "AttributeError")
      end
    else if py_eq ty (VStr "message_delta") then
      u ← vget obj "usage";
      match u with
      | VDict u =>
          o ← count_at u "output_tokens";
          match dget u "input_tokens" with
          | Some i => if truthy i then i ← py_int i; Ok (Some i, Some o) else Ok (inp, Some o)
          | None => Ok (inp, Some o)
          end
      | _ => Ok acc
      end
    else Ok acc
  else
    u ← usage_from_json provider obj;
    Ok (match u with Some (i, o) => (Some i, Some o) | None => acc end).
Fixpoint stream_events (provider : string) (acc : option Z * option Z) (objs : list val) : result exn (option Z * option Z) :=
  match objs with [] => Ok acc | obj :: objs' => acc ← stream_event provider acc obj; stream_events provider acc objs' end.

(** The [data:] lines, as far as they are JSON. *)
Definition data_lines (text : string) : list string :=
  omap (λ ln, strip <$> strip_prefix "data:" ln) (splitlines text).

(** src/valops/brokers/providers.py:88-118 usage_from_stream

    [text] is the decoded response. An element of an array is dumped and read back, which
    gives it again. *)
Definition usage_from_stream (provider text : string) : result exn (option (Z * Z)) :=
  objs ← match data_lines text with
         | [] => if String.eqb provider "google" then
                   match json_loads text with
                   | Some (VList l) => Ok (Some l)
                   | Some v => Ok (Some [v])
                   | None => Ok None
                   end
                 else Ok (Some [])
         | datas => Ok (Some (omap json_loads datas))
         end;
  match objs with
  | None => Ok None
  | Some objs =>
      '(inp, out) ← stream_events provider (None, None) objs;
      Ok (match inp, out with None, None => None | _, _ => Some (default 0%Z inp, default 0%Z out) end)
  end.

(** ** Errors and credentials *)
Definition code_name (l : list (Z * string)) (status : Z) (dflt : string) : string :=
  match find_first (λ x : Z * string, (x.1 =? status)%Z) l with Some x => x.2 | None => dflt end.
(** src/valops/brokers/providers.py:121-128 error_body

    The document, which is sent as JSON. *)
Definition error_body (provider : string) (status : Z) (message : string) : val :=
  if String.eqb provider "anthropic" then
    let t := code_name [(400%Z, "invalid_request_error"); (403%Z, "permission_error"); (429%Z, "rate_limit_error")] status "api_error" in
    VDict [("type", VStr "error"); ("error", VDict [("type", VStr t); ("message", VStr message)])]
  else if String.eqb provider "openai" then
    VDict [("error", VDict [("message", VStr message); ("type", VStr "invalid_request_error"); ("code", VStr "valops_broker_refusal")])]
  else
    let s := code_name [(400%Z, "INVALID_ARGUMENT"); (403%Z, "PERMISSION_DENIED"); (429%Z, "RESOURCE_EXHAUSTED")] status "INTERNAL" in
    VDict [("error", VDict [("code", VInt status); ("message", VStr message); ("status", VStr s)])].

(** src/valops/brokers/providers.py:131-136 auth_headers *)
Definition auth_headers (provider key : string) : list (string * string) :=
  if String.eqb provider "anthropic" then [("x-api-key", key)]
  else if String.eqb provider "openai" then [("authorization", "Bearer " +:+ key)]
  else [("x-goog-api-key", key)].

(** ** Facts *)
Lemma cap_at_spec d k remaining c d' : cap_at d k remaining = Ok (c, d') → (c <= remaining)%Z ∧ d' = dset d k (VInt c).
Proof. unfold cap_at. intros H. rinv H. split; [lia|done]. Qed.
Lemma dmem_dset {A} (d : list (string * A)) k v k' : dmem (dset d k v) k' = String.eqb k' k || dmem d k'.
Proof.
  unfold dmem. destruct (String.eqb_spec k' k) as [->|Hne]; [by rewrite dget_dset_eq|by rewrite dget_dset_ne].
Qed.

(** The member that caps the output of a request. *)
Definition cap_of (provider path : string) (body : dict) : option val :=
  if String.eqb provider "anthropic" then dget body "max_tokens"
  else if String.eqb provider "openai" then
    dget body (if ends_with "/responses" path then "max_output_tokens" else if dmem body "max_tokens" then "max_tokens" else "max_completion_tokens")
  else match dget body "generationConfig" with Some (VDict gc) => dget gc "maxOutputTokens" | _ => None end.

(** The body a request leaves with says the cap, which is within what is left; the model
    it names is the one it named. *)
Lemma clamp_output_spec provider path body remaining c body' : clamp_output provider path body remaining = Ok (c, body') →
  (c <= remaining)%Z ∧ cap_of provider path body' = Some (VInt c) ∧ dget body' "model" = dget body "model".
Proof.
  unfold clamp_output, cap_of. intros H. destruct (String.eqb provider "anthropic").
  { apply cap_at_spec in H as [Hc ->]. by rewrite dget_dset_eq, dget_dset_ne by done. }
  destruct (String.eqb provider "openai").
  - destruct (ends_with "/responses" path).
    { apply cap_at_spec in H as [Hc ->]. by rewrite dget_dset_eq, dget_dset_ne by done. }
    apply rbind_Ok in H as ([c0 b0] & [Hc ->]%cap_at_spec & H).
    set (key := if dmem body "max_tokens" then _ else _) in *.
    assert (key = "max_tokens" ∧ dmem body "max_tokens" = true ∨ key = "max_completion_tokens" ∧ dmem body "max_tokens" = false) as Hkey.
    { subst key. destruct (dmem body "max_tokens"); [by left|by right]. }
    assert (∀ b, dget b "max_tokens" = dget (dset body key (VInt c0)) "max_tokens" → dget b key = Some (VInt c0) →
              dget b (if dmem b "max_tokens" then "max_tokens" else "max_completion_tokens") = Some (VInt c0)) as Hb.
    { intros b Hb1 Hb2. unfold dmem at 1. rewrite Hb1. destruct Hkey as [[-> Hm]|[-> Hm]].
      - by rewrite dget_dset_eq.
      - rewrite dget_dset_ne by done. unfold dmem in Hm. by destruct (dget body "max_tokens"). }
    assert (key ≠ "model" ∧ key ≠ "stream_options") as [Hk1 Hk2] by (by destruct Hkey as [[-> _]|[-> _]]).
    destruct (truthy _).
    + apply rbind_Ok in H as (so & _ & H). injection H as <- <-. split_and!; [done| |by rewrite !dget_dset_ne].
      apply Hb; [by rewrite dget_dset_ne|by rewrite dget_dset_ne, dget_dset_eq].
    + injection H as <- <-. split_and!; [done| |by rewrite dget_dset_ne]. apply Hb; [done|by rewrite dget_dset_eq].
  - apply rbind_Ok in H as (gc & _ & H). apply rbind_Ok in H as ([c0 g0] & [Hc ->]%cap_at_spec & H).
    injection H as <- <-. rewrite dget_dset_eq, dget_dset_eq. by rewrite dget_dset_ne.
Qed.

(** The other member that caps a chat completion is passed on as it came. *)
Example second_cap_passes :
  clamp_output "openai" "/v1/chat/completions" [("max_tokens", VInt 1); ("max_completion_tokens", VInt 100000)] 50
  = Ok (1%Z, [("max_tokens", VInt 1); ("max_completion_tokens", VInt 100000)]).
Proof. reflexivity. Qed.
