(* ===== verification/ModelBroker.v ===== *)
(** * The model broker (src/valops/brokers/model_broker.py)

    The only way out of a worker's sandbox: a socket per session, on which it may post to
    one provider, for one model, within the session's limits. A request runs in two steps,
    under the session's lock each: it is admitted or refused, and what the provider made of
    it is metered; others may run in between. So may a session be closed, in two steps of
    its own. HTTP and TLS are the environment's. *)
From S2P Require Import Prelude PyVal Schema Canonical Json PyConv Keyed Tools Transitions Tokens Rpc Fold Store AuditChain AuditClient Bundle Artefacts Table Providers.
From Stdlib Require Import Ascii.

(** src/valops/brokers/model_broker.py:43-45 MAX_REQUEST *)
Definition MAX_REQUEST : Z := 4 * 1024 * 1024.
Definition MAX_RESPONSE : N := 8 * 1024 * 1024.
Definition AUDIT_CAP : N := 1024 * 1024.

(** [b[:n]], of bytes *)
Definition take_bytes (n : N) (s : string) : string := if (slen s <=? n)%N then s else String.substring 0 (N.to_nat n) s.

(** src/valops/brokers/model_broker.py:48-71 Session

    What is fixed when it is opened, and what it used. *)
Record session_terms : Type := mkTerms {
  ss_session_id : string; ss_episode_id : string; ss_role : string; ss_bundle_id : string; ss_configuration : string;
  ss_provider : string; ss_model : string; ss_upstream : string; ss_price_in : Q; ss_price_out : Q;
  ss_max_requests : Z; ss_max_input_tokens : Z; ss_max_output_tokens : Z; ss_max_usd : Q; ss_socket_path : string }.
Record Session : Type := mkSession {
  ss_terms : session_terms; ss_requests : Z; ss_input_tokens : Z; ss_output_tokens : Z; ss_usd : Q;
  ss_refusals : list val; ss_upstream_errors : Z }.

(** src/valops/brokers/model_broker.py:73-79 Session.meter *)
Definition meter (s : Session) : val :=
  let t := ss_terms s in
  VDict [("session_id", VStr (ss_session_id t)); ("configuration", VStr (ss_configuration t)); ("provider", VStr (ss_provider t));
         ("model", VStr (ss_model t)); ("requests", VInt (ss_requests s)); ("input_tokens", VInt (ss_input_tokens s));
         ("output_tokens", VInt (ss_output_tokens s)); ("usd", VFloat (py_round 6 (ss_usd s))); ("refusals", VList (ss_refusals s));
         ("upstream_errors", VInt (ss_upstream_errors s));
         ("limits", VDict [("requests", VInt (ss_max_requests t)); ("input_tokens", VInt (ss_max_input_tokens t));
                           ("output_tokens", VInt (ss_max_output_tokens t)); ("usd", VFloat (ss_max_usd t))])].

(** src/valops/brokers/model_broker.py:82-85 Refusal

    Why the handling of a request stopped: a refusal, or another exception. *)
Inductive stop : Type :=
| Refusal (status : Z) (cause message : string)
| Raised (e : exn).

(** ** A request *)
Record http_request : Type := mkHttp {
  hq_path : string; hq_headers : list (string * string); hq_content_length : option string; hq_body : string }.
(** What is sent to the provider. *)
Record upstream_request : Type := mkUp {
  up_base : string; up_path : string; up_headers : list (string * string); up_body : string }.
(** A request that was let through: what the session's lock was held for, and the body as
    it leaves. *)
Record admission : Type := mkAdm {
  ad_object : nat; ad_est_in : Z; ad_clamp : Z; ad_rest : string; ad_body : dict; ad_stream : bool; ad_headers : list (string * string) }.
Definition ad_out_body (a : admission) : string := json_dumps (VDict (ad_body a)).

(** What came of the exchange with the provider: its response, the connection or the
    worker's lost on the way, or another exception. The chunks are those read so far. *)
Inductive exchange : Type :=
| XDone (status : Z) (chunks : list string)
| XLost (chunks : list string)
| XRaised (e : exn).

(** [s.partition(c)] *)
Fixpoint partition_at (c : ascii) (s : string) : string * string :=
  match s with
  | EmptyString => (EmptyString, EmptyString)
  | String a s' => if Ascii.eqb a c then (EmptyString, s') else let '(l, r) := partition_at c s' in (String a l, r)
  end.
Fixpoint lstrip_slash (s : string) : string :=
  match s with String "/" s' => lstrip_slash s' | _ => s end.
Fixpoint rstrip_slash (s : string) : string :=
  match s with
  | EmptyString => EmptyString
  | String c s' => match rstrip_slash s' with EmptyString => if Ascii.eqb c "/" then EmptyString else String c EmptyString | r => String c r end
  end.
Fixpoint until_any (cs : list ascii) (s : string) : string :=
  match s with String c s' => if existsb (Ascii.eqb c) cs then EmptyString else String c (until_any cs s') | EmptyString => EmptyString end.
Fixpoint from_any (cs : list ascii) (s : string) : string :=
  match s with String c s' => if existsb (Ascii.eqb c) cs then s else from_any cs s' | EmptyString => EmptyString end.
Fixpoint after_netloc (s : string) : string :=
  match s with
  | EmptyString => EmptyString
  | String _ s' => match strip_prefix "://" s with Some r => from_any ["/"%char; "?"%char; "#"%char] r | None => after_netloc s' end
  end.
(** [urlparse(u).path] of a URL without parameters. *)
Definition url_path (u : string) : string := until_any ["?"%char; "#"%char] (after_netloc u).

(** The provider the path names, and the rest of it. *)
Definition route (path : string) : string * string :=
  let '(seg, rest) := partition_at "/" (lstrip_slash (partition_at "?" path).1) in (seg, "/" +:+ rest).

Definition refuse_if (b : bool) (status : Z) (cause message : string) : result stop unit := if b then Err (Refusal status cause message) else Ok tt.
Definition raising {A} (r : result exn A) : result stop A := match r with Ok a => Ok a | Err e => Err (Raised e) end.

Definition with_requests (n : Z) (s : Session) : Session :=
  mkSession (ss_terms s) n (ss_input_tokens s) (ss_output_tokens s) (ss_usd s) (ss_refusals s) (ss_upstream_errors s).
Definition with_refusal (r : val) (s : Session) : Session :=
  mkSession (ss_terms s) (ss_requests s) (ss_input_tokens s) (ss_output_tokens s) (ss_usd s) (ss_refusals s ++ [r]) (ss_upstream_errors s).

(** The output tokens a request may still have. *)
Definition remaining_output (s : Session) (est_in : Z) : Z :=
  let t := ss_terms s in
  let remaining := (ss_max_output_tokens t - ss_output_tokens s)%Z in
  let usd_left := (ss_max_usd t - ss_usd s - inject_Z est_in * ss_price_in t)%Q in
  if Qltb 0 (ss_price_out t) then Z.min remaining (Qtrunc (usd_left / ss_price_out t)) else remaining.

(** src/valops/brokers/model_broker.py:215-250 ModelBroker.handle

    Up to the end of the first lock. *)
Definition admission_of (i : nat) (s : Session) (h : http_request) : result stop (admission * Session) :=
  let t := ss_terms s in
  let '(provider_seg, rest) := route (hq_path h) in
  n ← raising (py_int (match hq_content_length h with Some (String _ _ as v) => VStr v | _ => VInt 0 end));
  _ ← refuse_if ((n <=? 0) || (MAX_REQUEST <? n))%Z 400 "size" "request body missing or too large";
  let raw := take_bytes (Z.to_N n) (hq_body h) in
  _ ← refuse_if (negb (String.eqb provider_seg (ss_provider t))) 403 "provider" ("this session is bound to " +:+ ss_provider t);
  m ← raising (path_ok (ss_provider t) rest);
  m ← match m with Some m => Ok m | None => Err (Refusal 403 "path" ("path " +:+ rest +:+ " not permitted")) end;
  body ← match json_loads raw with
         | Some (VDict body) => Ok body
         | Some _ => Err (Refusal 400 "json" "request body must be a JSON object")
         | None => Err (Refusal 400 "json" "request body must be JSON")
         end;
  _ ← refuse_if (negb (bool_decide (requested_model (ss_provider t) m body = Some (ss_model t))))
        403 "model" ("model not allowlisted for this session; pinned " +:+ ss_model t);
  _ ← refuse_if (ss_max_requests t <=? ss_requests s)%Z 429 "limit_requests" "request limit reached";
  let est_in := Z.max 1 (Z.of_N (slen raw) / 4) in
  _ ← refuse_if (ss_max_input_tokens t <? ss_input_tokens s + est_in)%Z 429 "limit_input_tokens" "input token limit reached";
  let remaining := remaining_output s est_in in
  _ ← refuse_if (remaining <? 1)%Z 429 "limit_output_or_usd" "output token or USD limit reached";
  '(clamp, body) ← raising (clamp_output (ss_provider t) rest body remaining);
  Ok (mkAdm i est_in clamp rest body (is_stream (ss_provider t) rest body) (hq_headers h),
      with_requests (ss_requests s + 1) s).

(** ** The exchange *)
(** [{k.lower(): v for ...}] and [d.update(..)] *)
Definition put_all (d l : list (string * string)) : list (string * string) := fold_left (λ d kv, dset d kv.1 kv.2) l d.

(** src/valops/brokers/model_broker.py:276-289 ModelBroker._forward

    The request sent, for a key. *)
Definition upstream_of (t : session_terms) (key : string) (a : admission) : upstream_request :=
  let allowed := default [] (dget FORWARD_HEADERS (ss_provider t)) in
  let headers := put_all [] (List.filter (λ kv : string * string, str_in kv.1 allowed)
                                         (map (λ kv : string * string, (lower kv.1, kv.2)) (ad_headers a))) in
  let headers := put_all headers (auth_headers (ss_provider t) key) in
  let headers := if String.eqb (ss_provider t) "anthropic" && negb (dmem headers "anthropic-version")
                 then dset headers "anthropic-version" "2023-06-01" else headers in
  let headers := dset (dset headers "content-type" "application/json") "content-length" (py_str (VInt (Z.of_N (slen (ad_out_body a))))) in
  mkUp (ss_upstream t)
       (rstrip_slash (url_path (ss_upstream t)) +:+ ad_rest a +:+
        (if String.eqb (ss_provider t) "google" && ad_stream a then "?alt=sse" else ""))
       headers (ad_out_body a).

(** What is kept of a stream, chunk by chunk. *)
Definition capture (acc chunk : string) : string := if (slen acc <? MAX_RESPONSE)%N then acc +:+ chunk else acc.
(** src/valops/brokers/model_broker.py:295-324 ModelBroker._forward

    The status and the bytes kept of the response. *)
Definition forwarded (stream : bool) (x : exchange) : result exn (Z * string) :=
  match x with
  | XDone status chunks =>
      Ok (status, if stream && (200 <=? status)%Z && (status <? 300)%Z then fold_left capture chunks ""
                  else take_bytes MAX_RESPONSE (String.concat "" chunks))
  | XLost chunks => Ok (0%Z, if stream then fold_left capture chunks "" else take_bytes MAX_RESPONSE (String.concat "" chunks))
  | XRaised e => Err e
  end.

Section request.
(** [bytes.decode(errors="replace")] *)
Context (decode : string → string).

(** src/valops/brokers/model_broker.py:254-257 ModelBroker.handle

    What the exchange is charged. *)
Definition usage_of (t : session_terms) (a : admission) (status : Z) (resp : string) : result exn (Z * Z) :=
  u ← (if ad_stream a then usage_from_stream (ss_provider t) (decode resp)
       else usage_from_json (ss_provider t) (default VNone (json_loads resp)));
  Ok (match u with
      | Some u => u
      | None => if ((200 <=? status) && (status <? 300))%Z then (ad_est_in a, ad_clamp a) else (0%Z, 0%Z)
      end).

(** src/valops/brokers/model_broker.py:258-263 ModelBroker.handle *)
Definition charge_usage (u : Z * Z) (status : Z) (s : Session) : Session :=
  let t := ss_terms s in
  mkSession t (ss_requests s) (ss_input_tokens s + u.1) (ss_output_tokens s + u.2)
    (ss_usd s + (inject_Z u.1 * ss_price_in t + inject_Z u.2 * ss_price_out t)) (ss_refusals s)
    (if ((500 <=? status) || (status =? 0))%Z then ss_upstream_errors s + 1 else ss_upstream_errors s).

(** From the forwarding of a request to its metering. *)
Definition finish_request (a : admission) (x : exchange) (s : Session) : result exn Session :=
  '(status, resp) ← forwarded (ad_stream a) x;
  u ← usage_of (ss_terms s) a status resp;
  Ok (charge_usage u status s).
End request.

(** ** The broker *)
(** [mb_objects] holds every session object ever made: a thread that serves a request, or
    closes a session, keeps its own. [mb_closing] are the sessions between the two steps of
    [close_session], [mb_inflight] the requests between theirs. [mb_forwarded] and
    [mb_audited] are what was sent to the providers and to the audit service. *)
Record model_broker : Type := mkMB {
  mb_objects : list Session; mb_sessions : list (string * nat); mb_closing : list (string * nat); mb_closed : list (string * val);
  mb_inflight : list admission; mb_forwarded : list (nat * upstream_request); mb_audited : list dict }.
Abbreviation PM := (M model_broker exn).
Definition new_model_broker : model_broker := mkMB [] [] [] [] [] [] [].

Definition set_object (i : nat) (s : Session) (w : model_broker) : model_broker :=
  mkMB (<[i := s]> (mb_objects w)) (mb_sessions w) (mb_closing w) (mb_closed w) (mb_inflight w) (mb_forwarded w) (mb_audited w).
Definition mb_audit (params : dict) (w : model_broker) : model_broker :=
  mkMB (mb_objects w) (mb_sessions w) (mb_closing w) (mb_closed w) (mb_inflight w) (mb_forwarded w) (mb_audited w ++ [params]).

(** src/valops/brokers/model_broker.py:130-145 ModelBroker.__init__

    What the broker is given. *)
Record mb_config : Type := mkConfig {
  cf_dir : string; cf_keys : list (string * string); cf_approved : list string; cf_worker_uids : list Z;
  cf_allow_insecure : bool; cf_development : bool }.

(** [x["a"][role]], as an integer *)
Definition limit_at (lim : val) (k role : string) : result exn Z := v ← vindex lim k; v ← vindex v role; py_int v.
(** [x / 1e6] *)
Definition per_token (v : val) : result exn Q := q ← of_opt (num_of v) (PyExc "TypeError"); Ok (q / 1000000)%Q.
Definition non_empty_str (v : val) : option string := match v with VStr (String _ _ as s) => Some s | _ => None end.

Section broker.
Context `{HASH : Hash} (yaml : string → result exn val) (decode : string → string) (C : mb_config).

(** src/valops/brokers/model_broker.py:147-174 ModelBroker.open_session

    The terms of a session: all of them come from the bundle. Prices are a mapping. *)
Definition terms_of (g : registry) (sid eid role bundle_id : string) : result exn session_terms :=
  bundle ← load_bundle g bundle_id;
  '(conf_name, conf) ← configuration_for yaml bundle role;
  provider ← vindex conf "provider";
  approved ← in_str_set provider (cf_approved C);
  _ ← check approved (rpc_error "provider_unapproved");
  adm ← vget conf "admission";
  _ ← check (py_in adm (map VStr ["admitted"; "native_only"]) || cf_development C) (rpc_error "not_admitted");
  provider ← of_opt (as_str provider) (PyExc "TypeError");
  _ ← check (dmem (cf_keys C) provider) (rpc_error "no_key");
  provs ← providers yaml bundle; eps ← vget provs "endpoints"; upstream ← vget (py_or eps (VDict [])) provider;
  _ ← check (truthy upstream) (rpc_error "invalid");
  upstream ← of_opt (as_str upstream) (PyExc "AttributeError");
  _ ← check (match strip_prefix "https://" upstream with Some _ => true | None => cf_allow_insecure C end) (rpc_error "invalid");
  prices ← pricing yaml bundle; prices ← vindex prices provider; model ← vindex conf "model";
  model ← of_opt (as_str model) (PyExc (if hashable model then "KeyError" else "TypeError"));
  price ← vindex prices model;
  lim ← param_of yaml bundle "P-30" conf_name;
  price_in ← vindex price "input_per_mtok" ≫= per_token;
  price_out ← vindex price "output_per_mtok" ≫= per_token;
  max_requests ← param yaml bundle "P-05" role conf_name ≫= py_int;
  max_in ← limit_at lim "input_tokens" role;
  max_out ← limit_at lim "output_tokens" role;
  max_usd ← param yaml bundle "P-06" role conf_name ≫= py_float;
  Ok (mkTerms sid eid role bundle_id conf_name provider model upstream price_in price_out max_requests max_in max_out max_usd
        (cf_dir C +:+ "/" +:+ sid +:+ ".sock")).

(** src/valops/brokers/model_broker.py:147-182 ModelBroker.open_session *)
Definition open_session (g : registry) (p : dict) : PM val :=
  match non_empty_str (dget_none p "session_id"), non_empty_str (dget_none p "episode_id"),
        non_empty_str (dget_none p "role"), non_empty_str (dget_none p "bundle_id") with
  | Some sid, Some eid, Some role, Some bundle_id =>
      t ← lift (terms_of g sid eid role bundle_id);
      w ← get_state;
      _ ← require (negb (dmem (mb_sessions w) sid || dmem (mb_closed w) sid)) (rpc_error "conflict");
      _ ← put_state (mkMB (mb_objects w ++ [mkSession t 0 0 0 0 [] 0]) (dset (mb_sessions w) sid (length (mb_objects w)))
                       (mb_closing w) (mb_closed w) (mb_inflight w) (mb_forwarded w) (mb_audited w));
      mret (VDict [("socket_path", VStr (ss_socket_path t)); ("provider", VStr (ss_provider t)); ("model", VStr (ss_model t));
                   ("configuration", VStr (ss_configuration t))])
  | _, _, _, _ => raise (rpc_error "invalid")
  end.

(** src/valops/brokers/model_broker.py:184-192 ModelBroker.close_session

    Under the lock: the meter of a session closed before, or the session to close. *)
Definition close_begin (p : dict) : PM (option val) :=
  w ← get_state;
  let sid := dget_none p "session_id" in
  _ ← require (hashable sid) (PyExc "TypeError");
  match as_str sid with
  | None => raise (rpc_error "not_found")
  | Some sid =>
      match dget (mb_closed w) sid, dget (mb_sessions w) sid with
      | Some m, _ => mret (Some m)
      | None, None => raise (rpc_error "not_found")
      | None, Some i =>
          _ ← put_state (mkMB (mb_objects w) (dpop (mb_sessions w) sid) (mb_closing w ++ [(sid, i)]) (mb_closed w)
                           (mb_inflight w) (mb_forwarded w) (mb_audited w));
          mret None
      end
  end.
(** src/valops/brokers/model_broker.py:193-200 ModelBroker.close_session

    The rest, for the [k]-th session being closed: its server stops, its meter is read. *)
Definition close_end (k : nat) : PM val :=
  w ← get_state;
  match mb_closing w !! k with
  | None => raise (rpc_error "not_found")
  | Some (sid, i) =>
      s ← lift (of_opt (mb_objects w !! i) (PyExc "KeyError"));
      let m := meter s in
      _ ← put_state (mkMB (mb_objects w) (mb_sessions w) (delete k (mb_closing w)) (dset (mb_closed w) sid m)
                       (mb_inflight w) (mb_forwarded w) (mb_audited w));
      mret m
  end.

(** src/valops/brokers/model_broker.py:202-208 ModelBroker.meter *)
Definition mb_meter (p : dict) : PM val :=
  w ← get_state;
  let sid := dget_none p "session_id" in
  _ ← require (hashable sid) (PyExc "TypeError");
  match as_str sid ≫= dget (mb_sessions w), as_str sid ≫= dget (mb_closed w) with
  | Some i, _ => s ← lift (of_opt (mb_objects w !! i) (PyExc "KeyError")); mret (meter s)
  | None, Some m => mret m
  | None, None => raise (rpc_error "not_found")
  end.

(** src/valops/brokers/model_broker.py:326-333 ModelBroker._audit

    The submission; an [RpcError] of the audit service is only logged. *)
Definition session_data (t : session_terms) (data : dict) : dict :=
  dupdate data [("session_id", VStr (ss_session_id t)); ("role", VStr (ss_role t)); ("configuration", VStr (ss_configuration t));
                ("model", VStr (ss_model t))].
Definition submission_of (t : session_terms) (event : string) (data : dict) (p : payload) : dict :=
  audit_params event (VStr (ss_episode_id t)) (Some (session_data t data)) p.

(** src/valops/brokers/model_broker.py:215-275 ModelBroker.handle

    The first step of a request on the socket of object [i], by a peer the server accepts:
    it is refused, with the answer the worker gets, or forwarded. *)
Definition request_begin (t : Q) (i : nat) (uid : Z) (h : http_request) : PM (option (Z * val)) :=
  w ← get_state;
  s ← lift (of_opt (mb_objects w !! i) (PyExc "KeyError"));
  _ ← require (existsb (Z.eqb uid) (cf_worker_uids C)) (PyExc "ConnectionRefusedError");
  match admission_of i s h with
  | Ok (a, s') =>
      key ← lift (of_opt (dget (cf_keys C) (ss_provider (ss_terms s))) (PyExc "KeyError"));
      _ ← put_state (mkMB (<[i := s']> (mb_objects w)) (mb_sessions w) (mb_closing w) (mb_closed w) (mb_inflight w ++ [a])
                       (mb_forwarded w ++ [(i, upstream_of (ss_terms s) key a)]) (mb_audited w));
      mret None
  | Err (Refusal status cause message) =>
      let r := VDict [("cause", VStr cause); ("message", VStr message); ("t", VFloat t)] in
      _ ← put_state (mb_audit (submission_of (ss_terms s) "model_refusal" [("cause", VStr cause); ("message", VStr message)] NoPayload)
                              (set_object i (with_refusal r s) w));
      mret (Some (status, error_body (ss_provider (ss_terms s)) status ("valops model broker refused: " +:+ message)))
  | Err (Raised e) => raise e
  end.

(** src/valops/brokers/model_broker.py:253-268 ModelBroker.handle

    The second step of the [k]-th request in flight: what it used is charged and recorded. *)
Definition request_end (k : nat) (x : exchange) : PM unit :=
  w ← get_state;
  match mb_inflight w !! k with
  | None => raise (PyExc "KeyError")
  | Some a =>
      let i := ad_object a in
      _ ← put_state (mkMB (mb_objects w) (mb_sessions w) (mb_closing w) (mb_closed w) (delete k (mb_inflight w)) (mb_forwarded w) (mb_audited w));
      w ← get_state;
      s ← lift (of_opt (mb_objects w !! i) (PyExc "KeyError"));
      '(status, resp) ← lift (forwarded (ad_stream a) x);
      u ← lift (usage_of decode (ss_terms s) a status resp);
      _ ← put_state (set_object i (charge_usage u status s) w);
      modify (mb_audit (submission_of (ss_terms s) "model_request"
        [("status", VInt status); ("stream", VBool (ad_stream a)); ("usage", VList [VInt u.1; VInt u.2]);
         ("request_sha256", VStr (sha256_hex (ad_out_body a))); ("response_sha256", VStr (sha256_hex resp))]
        (PayloadJson (VDict [("request", VStr (decode (take_bytes AUDIT_CAP (ad_out_body a)))); ("response", VStr (decode (take_bytes AUDIT_CAP resp)))]))))
  end.

(** src/valops/brokers/model_broker.py:184-200 ModelBroker.close_session

    Both steps, when nothing comes between them. *)
Definition close_session (p : dict) : PM val :=
  m ← close_begin p;
  match m with
  | Some m => mret m
  | None => w ← get_state; close_end (pred (length (mb_closing w)))
  end.

(** src/valops/brokers/model_broker.py:208-212 ModelBroker.admin_endpoint *)
Definition mb_admin_endpoint (g : registry) (controller_uids : list Z) : Endpoint model_broker val :=
  let approved := map fst (ksort (map (λ s, (s, tt)) (list.remove_dups (cf_approved C)))) in
  mkEndpoint "model-broker-admin" "controller" controller_uids
    [("open_session", λ _ p, open_session g p); ("close_session", λ _ p, close_session p); ("meter", λ _ p, mb_meter p);
     ("ping", λ _ _, mret (VDict [("ok", VBool true); ("approved_providers", VList (map VStr approved))]))].

(** ** Runs *)
(** What can happen at the broker, one locked section at a time. *)
Inductive mb_action : Type :=
| AOpen (g : registry) (p : dict)
| ACloseBegin (p : dict)
| ACloseEnd (k : nat)
| AMeter (p : dict)
| ARequest (t : Q) (i : nat) (uid : Z) (h : http_request)
| AResponse (k : nat) (x : exchange).
Definition mb_act (a : mb_action) (w : model_broker) : model_broker :=
  match a with
  | AOpen g p => (open_session g p w).2
  | ACloseBegin p => (close_begin p w).2
  | ACloseEnd k => (close_end k w).2
  | AMeter p => (mb_meter p w).2
  | ARequest t i uid h => (request_begin t i uid h w).2
  | AResponse k x => (request_end k x w).2
  end.
Definition mb_run (l : list mb_action) (w : model_broker) : model_broker := fold_left (λ w a, mb_act a w) l w.
End broker.
