(* ===== verification/ModelBrokerProps.v ===== *)
(** * The model broker's guarantees

    What leaves the sandbox is pinned to its session; what a session uses stays within its
    limits, as long as it asks for one thing at a time. *)
From S2P Require Import Prelude PyVal Schema Canonical Json PyConv Keyed Tools Transitions Tokens Rpc Fold Store AuditChain AuditClient Bundle Artefacts Table Providers ModelBroker.
From Stdlib Require Import Ascii.

Section props.
Context `{HASH : Hash} (yaml : string → result exn val) (decode : string → string) (C : mb_config).
Abbreviation act := (mb_act yaml decode C).
Abbreviation run := (mb_run yaml decode C).

(** ** What one action does *)
Definition same_work (w w' : model_broker) : Prop :=
  mb_objects w' = mb_objects w ∧ mb_inflight w' = mb_inflight w ∧ mb_forwarded w' = mb_forwarded w.
Inductive mb_step (a : mb_action) (w w' : model_broker) : Prop :=
| ms_admin : same_work w w' → mb_step a w w'
| ms_open g sid eid role bid t :
    terms_of yaml C g sid eid role bid = Ok t → mb_objects w' = mb_objects w ++ [mkSession t 0 0 0 0 [] 0] →
    mb_inflight w' = mb_inflight w → mb_forwarded w' = mb_forwarded w → mb_step a w w'
| ms_refuse i s r :
    mb_objects w !! i = Some s → mb_objects w' = <[i := with_refusal r s]> (mb_objects w) →
    mb_inflight w' = mb_inflight w → mb_forwarded w' = mb_forwarded w → mb_step a w w'
| ms_admit t i uid h s ad s' key :
    a = ARequest t i uid h → mb_objects w !! i = Some s → admission_of i s h = Ok (ad, s') → dget (cf_keys C) (ss_provider (ss_terms s)) = Some key →
    mb_objects w' = <[i := s']> (mb_objects w) → mb_inflight w' = mb_inflight w ++ [ad] →
    mb_forwarded w' = mb_forwarded w ++ [(i, upstream_of (ss_terms s) key ad)] → mb_step a w w'
| ms_drop k ad :
    mb_inflight w !! k = Some ad → mb_objects w' = mb_objects w → mb_inflight w' = delete k (mb_inflight w) →
    mb_forwarded w' = mb_forwarded w → mb_step a w w'
| ms_charge k x ad s status resp u :
    a = AResponse k x → mb_inflight w !! k = Some ad → mb_objects w !! ad_object ad = Some s →
    forwarded (ad_stream ad) x = Ok (status, resp) → usage_of decode (ss_terms s) ad status resp = Ok u →
    mb_objects w' = <[ad_object ad := charge_usage u status s]> (mb_objects w) → mb_inflight w' = delete k (mb_inflight w) →
    mb_forwarded w' = mb_forwarded w → mb_step a w w'.

Lemma same_work_refl w : same_work w w.
Proof. done. Qed.
Hint Resolve same_work_refl ms_admin : core.

Lemma open_step a g p w : mb_step a w (open_session yaml C g p w).2.
Proof.
  unfold open_session. destruct (non_empty_str _) as [sid|]; [|by auto]. destruct (non_empty_str _) as [eid|]; [|by auto].
  destruct (non_empty_str _) as [role|]; [|by auto]. destruct (non_empty_str _) as [bid|]; [|by auto].
  rewrite lift_bind. destruct (terms_of _ _ _ _ _ _ _) as [t|e] eqn:Ht; [|by auto]. rewrite get_bind, require_bind.
  destruct (negb _); [|by auto]. by eapply ms_open.
Qed.
Lemma close_begin_step a p w : mb_step a w (close_begin p w).2.
Proof.
  apply ms_admin. unfold close_begin. rewrite get_bind, require_bind. destruct (hashable _); [|done]. destruct (as_str _) as [sid|]; [|done].
  destruct (dget (mb_closed w) sid); [done|]. by destruct (dget (mb_sessions w) sid).
Qed.
Lemma close_end_step a k w : mb_step a w (close_end k w).2.
Proof.
  apply ms_admin. unfold close_end. rewrite get_bind. destruct (mb_closing w !! k) as [[sid i]|]; [|done].
  rewrite lift_bind. by destruct (mb_objects w !! i).
Qed.
Lemma meter_step a p w : mb_step a w (mb_meter p w).2.
Proof.
  apply ms_admin. unfold mb_meter. rewrite get_bind, require_bind. destruct (hashable _); [|done].
  destruct (as_str _ ≫= dget (mb_sessions w)) as [i|].
  - rewrite lift_bind. by destruct (mb_objects w !! i).
  - by destruct (as_str _ ≫= dget (mb_closed w)).
Qed.
Lemma request_step t i uid h w : mb_step (ARequest t i uid h) w (request_begin C t i uid h w).2.
Proof.
  unfold request_begin. rewrite get_bind, lift_bind. destruct (mb_objects w !! i) as [s|] eqn:Hs; [|by auto]. cbn [of_opt].
  rewrite require_bind. destruct (existsb _ _); [|by auto]. destruct (admission_of i s h) as [[ad s']|[status cause msg|e]] eqn:Ha; [| |by auto].
  - rewrite lift_bind. destruct (dget (cf_keys C) _) as [key|] eqn:Hk; [|by auto]. by eapply ms_admit.
  - by eapply ms_refuse.
Qed.
Lemma response_step k x w : mb_step (AResponse k x) w (request_end decode k x w).2.
Proof.
  unfold request_end. rewrite get_bind. destruct (mb_inflight w !! k) as [ad|] eqn:Hk; [|by auto]. cbv zeta.
  rewrite put_bind, get_bind, lift_bind. cbn [mb_objects].
  destruct (mb_objects w !! ad_object ad) as [s|] eqn:Hs; cbn [of_opt]; [|by eapply ms_drop]. rewrite lift_bind.
  destruct (forwarded _ _) as [[status resp]|e] eqn:Hf; [|by eapply ms_drop]. rewrite lift_bind.
  destruct (usage_of _ _ _ _ _) as [u|e] eqn:Hu; [|by eapply ms_drop]. by eapply ms_charge.
Qed.
Lemma act_step a w : mb_step a w (act a w).
Proof. destruct a; [apply open_step|apply close_begin_step|apply close_end_step|apply meter_step|apply request_step|apply response_step]. Qed.

Lemma run_app l1 l2 w : run (l1 ++ l2) w = run l2 (run l1 w).
Proof. apply fold_left_app. Qed.

(** What holds at the start and is kept by every action holds of every run. *)
Lemma mb_run_inv (I : model_broker → Prop) l : I new_model_broker → (∀ a w w', I w → mb_step a w w' → I w') → I (run l new_model_broker).
Proof.
  intros H0 Hs. induction l as [|a l IH] using rev_ind; [done|]. rewrite run_app. cbn. eapply Hs; [exact IH|apply act_step].
Qed.

(** ** Admission *)
Lemma refuse_if_Ok b status cause message u : refuse_if b status cause message = Ok u ↔ b = false.
Proof. unfold refuse_if. destruct b, u; naive_solver. Qed.
Lemma raising_Ok {A} (r : result exn A) a : raising r = Ok a ↔ r = Ok a.
Proof. destruct r; cbn; naive_solver. Qed.

(** What an admitted request is. *)
Record admitted (i : nat) (s : Session) (ad : admission) : Prop := {
  am_object : ad_object ad = i;
  am_route : ∃ m, path_ok (ss_provider (ss_terms s)) (ad_rest ad) = Ok (Some m) ∧
                  requested_model (ss_provider (ss_terms s)) m (ad_body ad) = Some (ss_model (ss_terms s));
  am_cap : cap_of (ss_provider (ss_terms s)) (ad_rest ad) (ad_body ad) = Some (VInt (ad_clamp ad));
  am_requests : (ss_requests s < ss_max_requests (ss_terms s))%Z;
  am_input : (ss_input_tokens s + ad_est_in ad <= ss_max_input_tokens (ss_terms s))%Z;
  am_output : (ad_clamp ad <= remaining_output s (ad_est_in ad))%Z;
  am_some : (1 <= remaining_output s (ad_est_in ad))%Z;
  am_estimate : (1 <= ad_est_in ad)%Z }.
Lemma requested_model_ext provider m b b' : dget b' "model" = dget b "model" → requested_model provider m b' = requested_model provider m b.
Proof. unfold requested_model, dget_none. by intros ->. Qed.
Lemma admit_spec i s h ad s' : admission_of i s h = Ok (ad, s') → admitted i s ad ∧ s' = with_requests (ss_requests s + 1) s.
Proof.
  unfold admission_of. destruct (route _) as [seg rest]. intros H. apply rbind_Ok in H as (n & _ & H). apply rbind_Ok in H as (u1 & _ & H).
  apply rbind_Ok in H as (u2 & _ & H). apply rbind_Ok in H as (m0 & Hpath%raising_Ok & H). apply rbind_Ok in H as (m & Hm & H).
  assert (m0 = Some m) as -> by (destruct m0; congruence). clear Hm.
  apply rbind_Ok in H as (body & Hbody & H). apply rbind_Ok in H as (u3 & Hmodel%refuse_if_Ok & H). bools.
  apply rbind_Ok in H as (u4 & Hreq%refuse_if_Ok & H). apply rbind_Ok in H as (u5 & Hin%refuse_if_Ok & H).
  apply rbind_Ok in H as (u6 & Hrem%refuse_if_Ok & H). apply rbind_Ok in H as ([clamp body'] & Hcl%raising_Ok & H).
  injection H as <- <-. apply clamp_output_spec in Hcl as (Hc & Hcap & Hmod). split; [|done].
  split; cbn; try done; try lia. exists m. split; [done|]. rewrite (requested_model_ext _ _ body) by done. done.
Qed.

(** ** What leaves *)
(** A request sent for a session: to the provider of its bundle, on an allowed path, for
    its model, with the cap in it, and with no credential but the broker's key. *)
Record pinned (t : session_terms) (u : upstream_request) : Prop := {
  pn_base : up_base u = ss_upstream t;
  pn_body : ∃ body rest m c sse,
    up_body u = json_dumps (VDict body) ∧ path_ok (ss_provider t) rest = Ok (Some m) ∧
    up_path u = rstrip_slash (url_path (ss_upstream t)) +:+ rest +:+ sse ∧ sse ∈ [""; "?alt=sse"] ∧
    requested_model (ss_provider t) m body = Some (ss_model t) ∧ cap_of (ss_provider t) rest body = Some (VInt c);
  pn_credentials k v : (k, v) ∈ up_headers u → k ∈ CREDENTIAL_HEADERS →
    ∃ key, dget (cf_keys C) (ss_provider t) = Some key ∧ (k, v) ∈ auth_headers (ss_provider t) key }.
Lemma elem_dset {A} (d : list (string * A)) k v k0 v0 : (k, v) ∈ dset d k0 v0 → k = k0 ∧ v = v0 ∨ (k, v) ∈ d.
Proof.
  induction d as [|[k1 v1] d IH]; cbn; [intros [= -> ->]%list_elem_of_singleton; by left|].
  destruct (String.eqb k0 k1) eqn:Hk; bools; subst; rewrite !elem_of_cons.
  - intros [[= -> ->]|Hin]; [by left|by right; right].
  - intros [[= -> ->]|Hin]; [by right; left|]. destruct (IH Hin) as [?|?]; [by left|by right; right].
Qed.
Lemma elem_put_all l d k v : (k, v) ∈ put_all d l → (k, v) ∈ d ∨ (k, v) ∈ l.
Proof.
  revert d. induction l as [|[k1 v1] l IH]; intros d; cbn; [by left|]. intros [H|H]%IH; [|by right; right].
  apply elem_dset in H as [[-> ->]|H]; [right; left|by left].
Qed.

(** No header of the worker's is a credential. *)
Lemma forward_no_credentials provider k : k ∈ default [] (dget FORWARD_HEADERS provider) → k ∉ CREDENTIAL_HEADERS.
Proof.
  intros Hk Hc. assert (existsb (λ c, str_in c CREDENTIAL_HEADERS) (default [] (dget FORWARD_HEADERS provider)) = true) as H.
  { apply existsb_true. exists k. split; [done|]. by apply str_in_spec. }
  cbn in H. destruct (String.eqb provider "anthropic"); [done|]. destruct (String.eqb provider "openai"); [done|].
  by destruct (String.eqb provider "google").
Qed.
Lemma upstream_credentials t key ad k v :
  (k, v) ∈ up_headers (upstream_of t key ad) → k ∈ CREDENTIAL_HEADERS → (k, v) ∈ auth_headers (ss_provider t) key.
Proof.
  cbn [upstream_of up_headers]. intros H Hk.
  assert (∀ s, str_in s CREDENTIAL_HEADERS = false → k ≠ s) as Hne.
  { intros s Hs ->. apply str_in_spec in Hk. congruence. }
  apply elem_dset in H as [[-> _]|H]; [by destruct (Hne "content-length" eq_refl)|].
  apply elem_dset in H as [[-> _]|H]; [by destruct (Hne "content-type" eq_refl)|].
  set (h := put_all _ (auth_headers _ _)) in H. assert ((k, v) ∈ h) as Hh.
  { destruct (_ && _); [|done]. apply elem_dset in H as [[-> _]|H]; [by destruct (Hne "anthropic-version" eq_refl)|done]. }
  subst h. apply elem_put_all in Hh as [Hh|Hh]; [|done]. apply elem_put_all in Hh as [Hh%not_elem_of_nil|Hh]; [done|].
  apply list_elem_of_In, filter_In in Hh as [_ Hh%str_in_spec]. by destruct (forward_no_credentials _ _ Hh).
Qed.

Lemma upstream_pinned i s ad key : admitted i s ad → dget (cf_keys C) (ss_provider (ss_terms s)) = Some key →
  pinned (ss_terms s) (upstream_of (ss_terms s) key ad).
Proof.
  intros [_ (m & Hpath & Hmodel) Hcap _ _ _ _ _] Hkey. split; [done| |].
  - exists (ad_body ad), (ad_rest ad), m, (ad_clamp ad), (if String.eqb (ss_provider (ss_terms s)) "google" && ad_stream ad then "?alt=sse" else "").
    split_and!; try done. destruct (_ && _); [by right; left|by left].
  - intros k v Hh Hk. exists key. split; [done|]. by eapply upstream_credentials.
Qed.

(** The terms a session was opened on. *)
Definition opened_on (t : session_terms) : Prop := ∃ g sid eid role bid, terms_of yaml C g sid eid role bid = Ok t.
Definition terms_at (w : model_broker) (i : nat) : option session_terms := ss_terms <$> mb_objects w !! i.

Lemma step_terms a w w' i t : mb_step a w w' → terms_at w i = Some t → terms_at w' i = Some t.
Proof.
  unfold terms_at. intros Hs Ht. apply fmap_Some in Ht as (s & Hi & ->).
  assert (∀ j s0 s1, mb_objects w !! j = Some s0 → ss_terms s1 = ss_terms s0 → ss_terms <$> <[j := s1]> (mb_objects w) !! i = Some (ss_terms s)) as Hset.
  { intros j s0 s1 Hj Heq. destruct (decide (i = j)) as [->|Hne].
    - rewrite list_lookup_insert_eq by (by eapply lookup_lt_Some). cbn. congruence.
    - by rewrite list_lookup_insert_ne, Hi. }
  destruct Hs as [(-> & _)|g ? ? ? ? t' _ -> _ _|j s0 r Hj -> _ _|? j ? ? s0 ad s1 key _ Hj [_ ->]%admit_spec _ -> _ _|k ad _ -> _ _|k x ad s0 ? ? u _ _ Hj _ _ -> _ _];
    [by rewrite Hi| |by eapply Hset|by eapply Hset|by rewrite Hi|by eapply Hset].
  by rewrite lookup_app_l, Hi by (by eapply lookup_lt_Some).
Qed.
Lemma step_new_terms a w w' i t : mb_step a w w' → terms_at w' i = Some t → terms_at w i = Some t ∨ opened_on t.
Proof.
  intros Hs Ht. destruct (terms_at w i) as [t0|] eqn:Hi; [left; by rewrite (step_terms _ _ _ _ _ Hs Hi) in Ht|right].
  assert (∀ j s0 s1, mb_objects w !! j = Some s0 → ss_terms <$> <[j := s1]> (mb_objects w) !! i = Some t → opened_on t) as Hset.
  { intros j s0 s1 Hj H. unfold terms_at in Hi. destruct (decide (i = j)) as [->|Hne].
    - by rewrite Hj in Hi.
    - rewrite list_lookup_insert_ne in H by done. congruence. }
  unfold terms_at in *.
  destruct Hs as [(Ho & _)|g sid eid role bid t' Hopen Ho _ _|j s0 r Hj Ho _ _|? j ? ? s0 ad s1 key _ Hj _ _ Ho _ _|k ad _ Ho _ _|k x ad s0 ? ? u _ _ Hj _ _ Ho _ _];
    rewrite Ho in Ht; [congruence| |by eapply Hset|by eapply Hset|congruence|by eapply Hset].
  apply fmap_Some in Ht as (s & [Hl|[_ Hl]]%lookup_app_Some & ->); [by rewrite Hl in Hi|].
  apply list_lookup_singleton_Some in Hl as [_ <-]. by exists g, sid, eid, role, bid.
Qed.

(** Every session's terms are a verified bundle's, and what was sent is pinned to them. *)
Definition work_ok (w : model_broker) : Prop :=
  (∀ i t, terms_at w i = Some t → opened_on t) ∧
  ∀ i u, (i, u) ∈ mb_forwarded w → ∃ t, terms_at w i = Some t ∧ pinned t u.
Lemma work_step a w w' : work_ok w → mb_step a w w' → work_ok w'.
Proof.
  intros [Ht Hf] Hs. split; [intros i t Hi; destruct (step_new_terms _ _ _ _ _ Hs Hi) as [?|?]; eauto|].
  assert (∀ i u, (i, u) ∈ mb_forwarded w → ∃ t, terms_at w' i = Some t ∧ pinned t u) as Hold.
  { intros i u Hin. destruct (Hf i u Hin) as (t & Hi & Hp). exists t. split; [by eapply step_terms|done]. }
  intros i u Hin. pose proof Hs as Hs'.
  destruct Hs' as [(_ & _ & Hw)|? ? ? ? ? ? _ _ _ Hw|? ? ? _ _ _ Hw|? j ? ? s0 ad s1 key _ Hj Ha Hkey _ _ Hw|? ? _ _ _ Hw|? ? ? ? ? ? ? _ _ _ _ _ _ _ Hw];
    rewrite Hw in Hin; eauto.
  apply elem_of_app in Hin as [Hin|Hin%list_elem_of_singleton]; [eauto|]. injection Hin as -> ->.
  apply admit_spec in Ha as [Ha _]. exists (ss_terms s0). split; [|by eapply upstream_pinned].
  apply (step_terms _ _ _ _ _ Hs). unfold terms_at. by rewrite Hj.
Qed.
Lemma run_work l : work_ok (run l new_model_broker).
Proof. apply mb_run_inv; [split; [intros i t H; by destruct i|intros i u H; by apply not_elem_of_nil in H]|intros; by eapply work_step]. Qed.

(** The terms of a session come from a bundle that verifies. *)
Lemma terms_of_spec g sid eid role bid t : terms_of yaml C g sid eid role bid = Ok t →
  verify g bid = Ok None ∧ ss_provider t ∈ cf_approved C ∧ ss_bundle_id t = bid ∧ ss_session_id t = sid ∧
  ((∃ r, ss_upstream t = "https://" +:+ r) ∨ cf_allow_insecure C = true).
Proof.
  unfold terms_of. intros H. apply rbind_Ok in H as (b & Hb & H). apply rbind_Ok in H as ([cn conf] & _ & H).
  apply rbind_Ok in H as (prov & _ & H). apply rbind_Ok in H as (ok & Happ & H). apply rbind_Ok in H as (u1 & ->%check_Ok & H).
  apply rbind_Ok in H as (adm & _ & H). apply rbind_Ok in H as (u2 & _ & H). apply rbind_Ok in H as (p & Hp%of_opt_Ok & H).
  apply rbind_Ok in H as (u3 & _ & H). do 3 apply rbind_Ok in H as (? & _ & H). apply rbind_Ok in H as (u4 & _ & H).
  apply rbind_Ok in H as (up & _ & H). apply rbind_Ok in H as (u5 & Hs%check_Ok & H). do 12 apply rbind_Ok in H as (? & _ & H). injection H as <-. cbn.
  apply in_str_set_true in Happ as (p' & -> & Happ). injection Hp as ->.
  unfold load_bundle in Hb. apply rbind_Ok in Hb as ([r|] & Hv & Hb); [discriminate Hb|]. split_and!; try done.
  destruct (strip_prefix _ up) as [r|] eqn:Hr; [left|by right]. apply strip_prefix_Some in Hr. by exists r.
Qed.

(** C15: safety. The sandbox has one way out: whatever a worker posts, on whatever socket,
    and however sessions open and close meanwhile, each request that leaves for a provider
    belongs to a session opened on a verified bundle; it goes to that bundle's endpoint of
    an approved provider, over TLS (unless the configuration allows insecure upstreams, as
    tests do), on an allowed path, for the session's model, with a cap on its output set, and carries no credential but the broker's own key. *)
Theorem forwarded_is_pinned l i u : (i, u) ∈ mb_forwarded (run l new_model_broker) →
  ∃ s g sid eid role bid, mb_objects (run l new_model_broker) !! i = Some s ∧ terms_of yaml C g sid eid role bid = Ok (ss_terms s) ∧
    verify g bid = Ok None ∧ ss_provider (ss_terms s) ∈ cf_approved C ∧
    ((∃ r, ss_upstream (ss_terms s) = "https://" +:+ r) ∨ cf_allow_insecure C = true) ∧ pinned (ss_terms s) u.
Proof.
  intros Hin. destruct (run_work l) as [Ht Hf]. destruct (Hf i u Hin) as (t & Hi & Hp). destruct (Ht i t Hi) as (g & sid & eid & role & bid & Ho).
  unfold terms_at in Hi. apply fmap_Some in Hi as (s & Hs & ->). exists s, g, sid, eid, role, bid.
  apply terms_of_spec in Ho as Hspec. destruct Hspec as (Hv & Ha & _ & _ & Hu). by split_and!.
Qed.

(** ** Budgets *)
(** [P] holds of each action and the broker it meets, along a run. *)
Fixpoint along (P : mb_action → model_broker → Prop) (l : list mb_action) (w : model_broker) : Prop :=
  match l with [] => True | a :: l' => P a w ∧ along P l' (act a w) end.
(** Session [i] is asked for one thing at a time, *)
Definition alone (i : nat) (a : mb_action) (w : model_broker) : Prop :=
  match a with ARequest _ j _ _ => j = i → ∀ ad, ad ∈ mb_inflight w → ad_object ad ≠ i | _ => True end.
(** and what its exchanges are charged is within what was estimated and allowed. *)
Definition honest (i : nat) (a : mb_action) (w : model_broker) : Prop :=
  match a with
  | AResponse k x => ∀ ad s status resp u, mb_inflight w !! k = Some ad → ad_object ad = i → mb_objects w !! i = Some s →
      forwarded (ad_stream ad) x = Ok (status, resp) → usage_of decode (ss_terms s) ad status resp = Ok u →
      (u.1 <= ad_est_in ad ∧ u.2 <= ad_clamp ad)%Z
  | _ => True
  end.
(** Limits and prices that are none are not kept: with free output the USD limit is not looked at. *)
Definition budgeted (t : session_terms) : Prop :=
  (0 <= ss_max_input_tokens t ∧ 0 <= ss_max_output_tokens t)%Z ∧ (0 <= ss_max_usd t ∧ 0 < ss_price_out t ∧ 0 <= ss_price_in t)%Q.
(** [s] has room for [input] and [output] more. *)
Definition room (s : Session) (input output : Z) : Prop :=
  let t := ss_terms s in
  (ss_input_tokens s + input <= ss_max_input_tokens t ∧ ss_output_tokens s + output <= ss_max_output_tokens t)%Z ∧
  (ss_usd s + (inject_Z input * ss_price_in t + inject_Z output * ss_price_out t) <= ss_max_usd t)%Q.

Lemma Qtrunc_le q : (1 <= Qtrunc q)%Z → (inject_Z (Qtrunc q) <= q)%Q.
Proof.
  unfold Qtrunc, Qle, inject_Z. cbn. intros H. rewrite Z.mul_1_r. assert (0 <= Qnum q)%Z as Hn.
  { destruct (Z.le_gt_cases 0 (Qnum q)) as [?|Hlt]; [done|]. pose proof (Z.quot_opp_l (- Qnum q) (Zpos (Qden q)) ltac:(done)) as Ho.
    rewrite Z.opp_involutive in Ho. pose proof (Z.quot_pos (- Qnum q) (Zpos (Qden q)) ltac:(lia) ltac:(lia)). lia. }
  rewrite Z.mul_comm. apply Z.mul_quot_le; [done|lia].
Qed.
Lemma admitted_room i s ad : admitted i s ad → (0 < ss_price_out (ss_terms s))%Q → room s (ad_est_in ad) (ad_clamp ad).
Proof.
  intros [_ _ _ _ Hin Hout Hsome _] Hpo. unfold room. unfold remaining_output in *. set (t := ss_terms s) in *.
  assert (Qltb 0 (ss_price_out t) = true) as Hpaid by (by apply Qltb_lt). rewrite Hpaid in Hout, Hsome.
  set (left := (ss_max_usd t - ss_usd s - inject_Z (ad_est_in ad) * ss_price_in t)%Q) in *.
  split; [lia|]. assert (inject_Z (ad_clamp ad) <= left / ss_price_out t)%Q as Hq.
  { eapply Qle_trans; [|apply Qtrunc_le; lia]. rewrite <- Zle_Qle. lia. }
  assert (inject_Z (ad_clamp ad) * ss_price_out t <= left)%Q as Hl.
  { pose proof (Qmult_le_compat_r _ _ _ Hq (Qlt_le_weak _ _ Hpo)) as Hm. eapply Qle_trans; [exact Hm|].
    rewrite Qmult_comm, Qmult_div_r; [apply Qle_refl|].
    intros H0. rewrite H0 in Hpo. by apply Qlt_irrefl in Hpo. }
  subst left. lra.
Qed.
Lemma room_less s i o i' o' : budgeted (ss_terms s) → room s i o → (i' <= i)%Z → (o' <= o)%Z → room s i' o'.
Proof.
  intros (_ & _ & Hpo & Hpi) [[Hi Ho] Hu] Hi' Ho'. split; [lia|]. eapply Qle_trans; [|exact Hu].
  apply Qplus_le_r, Qplus_le_compat; apply Qmult_le_compat_r; try (by apply Qlt_le_weak); try done; by rewrite <- Zle_Qle.
Qed.
Lemma charged_room s u status : room s u.1 u.2 → room (charge_usage u status s) 0 0.
Proof.
  intros [[Hi Ho] Hu]. split; cbn [charge_usage ss_terms ss_usd ss_input_tokens ss_output_tokens]; [lia|].
  change (inject_Z 0) with 0%Q. lra.
Qed.

Record budget_ok (i : nat) (w : model_broker) : Prop := {
  bo_bound ad : ad ∈ mb_inflight w → ad_object ad < length (mb_objects w);
  bo_alone k1 k2 a1 a2 : mb_inflight w !! k1 = Some a1 → mb_inflight w !! k2 = Some a2 → ad_object a1 = i → ad_object a2 = i → k1 = k2;
  bo_room s : mb_objects w !! i = Some s → budgeted (ss_terms s) → room s 0 0;
  bo_reserved s ad : mb_objects w !! i = Some s → budgeted (ss_terms s) → ad ∈ mb_inflight w → ad_object ad = i →
    room s (ad_est_in ad) (ad_clamp ad) }.

Lemma delete_elem {A} (l : list A) k x : x ∈ delete k l → ∃ k', k' ≠ k ∧ l !! k' = Some x.
Proof.
  intros [j Hj]%list_elem_of_lookup. destruct (decide (j < k)) as [Hlt|Hge].
  - rewrite list_lookup_delete_lt in Hj by done. exists j. split; [lia|done].
  - rewrite list_lookup_delete_ge in Hj by lia. exists (S j). split; [lia|done].
Qed.
Lemma delete_lookup {A} (l : list A) k j x : delete k l !! j = Some x → l !! (if decide (j < k) then j else S j) = Some x.
Proof. destruct (decide (j < k)); [by rewrite list_lookup_delete_lt|by rewrite list_lookup_delete_ge by lia]. Qed.

(** What is in flight may only shrink, and the sessions' use not grow. *)
Lemma budget_shrinks i w w' k : budget_ok i w → mb_inflight w' = mb_inflight w ∨ mb_inflight w' = delete k (mb_inflight w) →
  length (mb_objects w) ≤ length (mb_objects w') →
  (∀ s', mb_objects w' !! i = Some s' → budgeted (ss_terms s') → room s' 0 0) →
  (∀ s' ad, mb_objects w' !! i = Some s' → budgeted (ss_terms s') → ad ∈ mb_inflight w' → ad_object ad = i →
     room s' (ad_est_in ad) (ad_clamp ad)) → budget_ok i w'.
Proof.
  intros [Hb Ha _ _] Hf Hlen Hr Hres. split; [| |done|done].
  - intros ad Hin. assert (ad ∈ mb_inflight w) as Hin'.
    { destruct Hf as [Hf|Hf]; rewrite Hf in Hin; [done|]. apply delete_elem in Hin as (k' & _ & Hk'). by eapply list_elem_of_lookup_2. }
    specialize (Hb ad Hin'). lia.
  - intros k1 k2 a1 a2 H1 H2 E1 E2. destruct Hf as [Hf|Hf]; rewrite Hf in H1, H2; [by eapply Ha|].
    apply delete_lookup in H1, H2. pose proof (Ha _ _ _ _ H1 H2 E1 E2) as He. destruct (decide (k1 < k)), (decide (k2 < k)); lia.
Qed.

(** Another object's change, or one that leaves the counters alone, is no concern. *)
Lemma set_other i w w' j s s1 : budget_ok i w → mb_objects w !! j = Some s → mb_objects w' = <[j := s1]> (mb_objects w) →
  mb_inflight w' = mb_inflight w → ss_terms s1 = ss_terms s → (∀ a b, room s a b → room s1 a b) → budget_ok i w'.
Proof.
  intros Hok Hj Ho Hf Ht Hroom. pose proof Hok as [Hb Ha Hr Hres]. eapply (budget_shrinks i w w' 0); [done|by left|by rewrite Ho, length_insert|..].
  - intros s' Hs' Hbud. rewrite Ho in Hs'. destruct (decide (i = j)) as [->|Hne].
    + rewrite list_lookup_insert_eq in Hs' by (by eapply lookup_lt_Some). injection Hs' as <-. apply Hroom, Hr; [done|]. by rewrite <- Ht.
    + rewrite list_lookup_insert_ne in Hs' by done. by apply Hr.
  - intros s' ad Hs' Hbud Hin He. rewrite Hf in Hin. rewrite Ho in Hs'. destruct (decide (i = j)) as [->|Hne].
    + rewrite list_lookup_insert_eq in Hs' by (by eapply lookup_lt_Some). injection Hs' as <-. apply Hroom, Hres; [done| |done..]. by rewrite <- Ht.
    + rewrite list_lookup_insert_ne in Hs' by done. by apply Hres.
Qed.

Lemma fresh_room t : budgeted t → room (mkSession t 0 0 0 0 [] 0) 0 0.
Proof. intros ([Hi Ho] & Hu & _). split; cbn [ss_terms ss_input_tokens ss_output_tokens ss_usd]; [lia|]. change (inject_Z 0) with 0%Q. lra. Qed.

Lemma open_budget i w w' t : budget_ok i w → mb_objects w' = mb_objects w ++ [mkSession t 0 0 0 0 [] 0] → mb_inflight w' = mb_inflight w → budget_ok i w'.
Proof.
  intros Hok Ho Hf. pose proof Hok as [Hb Ha Hr Hres]. eapply (budget_shrinks i w w' 0); [done|by left|rewrite Ho, length_app; lia|..].
  - intros s' Hs' Hbud. rewrite Ho in Hs'. apply lookup_app_Some in Hs' as [Hs'|[_ Hs']]; [by apply Hr|].
    apply list_lookup_singleton_Some in Hs' as [_ <-]. by apply fresh_room.
  - intros s' ad Hs' Hbud Hin He. rewrite Hf in Hin. rewrite Ho in Hs'. apply lookup_app_Some in Hs' as [Hs'|[Hge _]]; [by apply Hres|].
    specialize (Hb ad Hin). lia.
Qed.

Lemma admit_budget i w w' j s ad : budget_ok i w → mb_objects w !! j = Some s → admitted j s ad →
  mb_objects w' = <[j := with_requests (ss_requests s + 1) s]> (mb_objects w) → mb_inflight w' = mb_inflight w ++ [ad] →
  (j = i → ∀ b, b ∈ mb_inflight w → ad_object b ≠ i) → budget_ok i w'.
Proof.
  intros [Hb Ha Hr Hres] Hj Had Ho Hf Hal. assert (j < length (mb_objects w)) as Hlt by (by eapply lookup_lt_Some).
  assert (∀ s', mb_objects w' !! i = Some s' → (j = i ∧ s' = with_requests (ss_requests s + 1) s) ∨ (j ≠ i ∧ mb_objects w !! i = Some s')) as Hs'.
  { intros s' H. rewrite Ho in H. destruct (decide (j = i)) as [->|Hne]; [left|right; by rewrite list_lookup_insert_ne in H].
    rewrite list_lookup_insert_eq in H by done. by injection H as <-. }
  split.
  - intros b Hin. rewrite Ho, length_insert. rewrite Hf in Hin. apply elem_of_app in Hin as [Hin| ->%list_elem_of_singleton]; [by apply Hb|].
    by rewrite (am_object _ _ _ Had).
  - intros k1 k2 a1 a2 H1 H2 E1 E2. rewrite Hf in H1, H2. apply lookup_app_Some in H1 as [H1|[Hk1 H1]], H2 as [H2|[Hk2 H2]].
    + by eapply Ha.
    + apply list_lookup_singleton_Some in H2 as [_ <-]. rewrite (am_object _ _ _ Had) in E2. by destruct (Hal E2 a1 (list_elem_of_lookup_2 _ _ _ H1)).
    + apply list_lookup_singleton_Some in H1 as [_ <-]. rewrite (am_object _ _ _ Had) in E1. by destruct (Hal E1 a2 (list_elem_of_lookup_2 _ _ _ H2)).
    + apply list_lookup_singleton_Some in H1 as [? _], H2 as [? _]. lia.
  - intros s' Hi Hbud. destruct (Hs' s' Hi) as [[-> ->]|[_ Hi']]; [by apply (Hr s)|by apply Hr].
  - intros s' b Hi Hbud Hin He. rewrite Hf in Hin. apply elem_of_app in Hin as [Hin| ->%list_elem_of_singleton].
    + destruct (Hs' s' Hi) as [[Hji _]|[_ Hi']]; [by destruct (Hal Hji b Hin)|by apply Hres].
    + rewrite (am_object _ _ _ Had) in He. destruct (Hs' s' Hi) as [[_ ->]|[Hne _]]; [apply (admitted_room j s ad); [done|apply Hbud]|done].
Qed.

Lemma charge_budget i w w' k ad s u status : budget_ok i w → mb_inflight w !! k = Some ad → mb_objects w !! ad_object ad = Some s →
  mb_objects w' = <[ad_object ad := charge_usage u status s]> (mb_objects w) → mb_inflight w' = delete k (mb_inflight w) →
  (ad_object ad = i → (u.1 <= ad_est_in ad ∧ u.2 <= ad_clamp ad)%Z) → budget_ok i w'.
Proof.
  intros Hok Hk Hs Ho Hf Hu. pose proof Hok as [Hb Ha Hr Hres]. eapply (budget_shrinks i w w' k); [done|by right|by rewrite Ho, length_insert|..].
  - intros s' Hs' Hbud. rewrite Ho in Hs'. destruct (decide (ad_object ad = i)) as [He|Hne].
    + rewrite He in Hs'. rewrite list_lookup_insert_eq in Hs' by (rewrite <- He; by eapply lookup_lt_Some). injection Hs' as <-.
      destruct (Hu He) as [Hu1 Hu2]. apply charged_room. rewrite He in Hs. eapply room_less; [done| |exact Hu1|exact Hu2].
      apply Hres; try done. by eapply list_elem_of_lookup_2.
    + rewrite list_lookup_insert_ne in Hs' by done. by apply Hr.
  - intros s' b Hs' Hbud Hin He. rewrite Hf in Hin. apply delete_elem in Hin as (k' & Hne & Hk'). rewrite Ho in Hs'.
    destruct (decide (ad_object ad = i)) as [He'|Hne'].
    + by destruct (Hne (Ha _ _ _ _ Hk' Hk He He')).
    + rewrite list_lookup_insert_ne in Hs' by done. apply Hres; try done. by eapply list_elem_of_lookup_2.
Qed.

Lemma step_budget i a w w' : budget_ok i w → alone i a w → honest i a w → mb_step a w w' → budget_ok i w'.
Proof.
  intros Hok Hal Hho [(Ho & Hf & _)|g sid eid role bid t _ Ho Hf _|j s r Hj Ho Hf _|t j uid h s ad s' key -> Hj Had _ Ho Hf _
    |k ad Hk Ho Hf _|k x ad s status resp u -> Hk Hs Hfw Hu Ho Hf _].
  - destruct Hok as [Hb Ha Hr Hres]. split; rewrite ?Ho, ?Hf; eauto.
  - by eapply open_budget.
  - by eapply set_other.
  - apply admit_spec in Had as [Had ->]. by eapply admit_budget.
  - pose proof Hok as [Hb Ha Hr Hres]. eapply (budget_shrinks i w w' k); [done|by right|by rewrite Ho|rewrite Ho; done|].
    intros s' b Hs' Hbud Hin. rewrite Ho in Hs'. rewrite Hf in Hin. apply delete_elem in Hin as (k' & _ & Hk').
    apply Hres; [done..|by eapply list_elem_of_lookup_2].
  - eapply charge_budget; try done. intros He. rewrite He in Hs. by eapply (Hho ad s status resp u).
Qed.
Lemma along_budget i l w : budget_ok i w → along (λ a w, alone i a w ∧ honest i a w) l w → budget_ok i (run l w).
Proof.
  revert w. induction l as [|a l IH]; intros w Hok; [done|]. intros [[Hal Hho] Hl]. apply IH; [|done].
  eapply step_budget; [done..|apply act_step].
Qed.

Definition requests_ok (w : model_broker) : Prop :=
  ∀ s, s ∈ mb_objects w → (ss_requests s <= Z.max 0 (ss_max_requests (ss_terms s)))%Z.
Lemma elem_insert {A} (l : list A) i x y : y ∈ <[i := x]> l → y = x ∨ y ∈ l.
Proof.
  intros [j Hj]%list_elem_of_lookup. destruct (decide (j = i)) as [->|Hne].
  - destruct (decide (i < length l)) as [Hlt|Hge].
    + rewrite list_lookup_insert_eq in Hj by done. injection Hj as ->. by left.
    + rewrite list_insert_ge in Hj by lia. right. by eapply list_elem_of_lookup_2.
  - rewrite list_lookup_insert_ne in Hj by done. right. by eapply list_elem_of_lookup_2.
Qed.
Lemma requests_step a w w' : requests_ok w → mb_step a w w' → requests_ok w'.
Proof.
  intros Hok [(Ho & _)|g sid eid role bid t _ Ho _ _|j s r Hj Ho _ _|t j uid h s ad s' key _ Hj Had _ Ho _ _
    |k ad _ Ho _ _|k x ad s status resp u _ _ Hj _ _ Ho _ _] s1 Hin; rewrite Ho in Hin; try by apply Hok.
  - apply elem_of_app in Hin as [Hin| ->%list_elem_of_singleton]; [by apply Hok|]. cbn. lia.
  - apply elem_insert in Hin as [->|Hin]; [|by apply Hok]. by apply (Hok s), (list_elem_of_lookup_2 _ j).
  - apply elem_insert in Hin as [->|Hin]; [|by apply Hok]. apply admit_spec in Had as [Had ->].
    pose proof (am_requests _ _ _ Had). cbn. lia.
  - apply elem_insert in Hin as [->|Hin]; [|by apply Hok]. by apply (Hok s), (list_elem_of_lookup_2 _ (ad_object ad)).
Qed.

(** ** What is counted *)
(** What was sent for session [i], and what the exchanges that ended are found to have used. *)
Definition sent (i : nat) (w : model_broker) : list upstream_request :=
  map snd (List.filter (λ x : nat * upstream_request, (x.1 =? i)%nat) (mb_forwarded w)).
Definition used (i : nat) (a : mb_action) (w : model_broker) : list (Z * Z) :=
  match a with
  | AResponse k x =>
      match mb_inflight w !! k, mb_objects w !! i with
      | Some ad, Some s =>
          if (ad_object ad =? i)%nat then
            match forwarded (ad_stream ad) x ≫= (λ r, usage_of decode (ss_terms s) ad r.1 r.2) with Ok u => [u] | Err _ => [] end
          else []
      | _, _ => []
      end
  | _ => []
  end.
Fixpoint used_along (i : nat) (l : list mb_action) (w : model_broker) : list (Z * Z) :=
  match l with [] => [] | a :: l' => used i a w ++ used_along i l' (act a w) end.
Definition total (f : Z * Z → Z) (l : list (Z * Z)) : Z := foldr (λ u n, f u + n)%Z 0%Z l.
Definition cost_of (t : session_terms) (l : list (Z * Z)) : Q :=
  (inject_Z (total fst l) * ss_price_in t + inject_Z (total snd l) * ss_price_out t)%Q.
(** The counters of a session that made these requests and used this. *)
Definition counted (s : Session) (n : nat) (l : list (Z * Z)) : Prop :=
  ss_requests s = Z.of_nat n ∧ ss_input_tokens s = total fst l ∧ ss_output_tokens s = total snd l ∧ (ss_usd s == cost_of (ss_terms s) l)%Q.

Lemma total_snoc f l u : total f (l ++ [u]) = (total f l + f u)%Z.
Proof. unfold total. induction l as [|x l IH]; cbn in *; lia. Qed.
Lemma used_along_snoc i l a w : used_along i (l ++ [a]) w = used_along i l w ++ used i a (run l w).
Proof. revert w. induction l as [|b l IH]; intros w; cbn; [by rewrite app_nil_r|]. by rewrite IH, (assoc_L app). Qed.
Lemma sent_snoc i w w' j u : mb_forwarded w' = mb_forwarded w ++ [(j, u)] → sent i w' = sent i w ++ (if (j =? i)%nat then [u] else []).
Proof. intros H. unfold sent. rewrite H, List.filter_app, map_app. cbn. by destruct (j =? i)%nat. Qed.

Lemma act_object l w i s : mb_objects w !! i = Some s → ∃ s', mb_objects (run l w) !! i = Some s' ∧ ss_terms s' = ss_terms s.
Proof.
  revert w s. induction l as [|a l IH]; intros w s Hs; [by exists s|].
  assert (terms_at (act a w) i = Some (ss_terms s)) as Ht by (eapply step_terms; [apply act_step|]; unfold terms_at; by rewrite Hs).
  apply fmap_Some in Ht as (s1 & Hs1 & Ht). rewrite Ht. by apply IH.
Qed.
(** A session that is not there yet was sent nothing for and used nothing. *)
Lemma none_sent l i : mb_objects (run l new_model_broker) !! i = None → sent i (run l new_model_broker) = [].
Proof.
  intros Hi. unfold sent. destruct (run_work l) as [_ Hf]. assert (∀ x, x ∈ mb_forwarded (run l new_model_broker) → (x.1 =? i)%nat = false) as H.
  { intros [j u] Hin. apply Nat.eqb_neq. intros E. cbn in E. subst j. apply Hf in Hin as (t & Ht & _). unfold terms_at in Ht. by rewrite Hi in Ht. }
  revert H. generalize (mb_forwarded (run l new_model_broker)). intros fs. induction fs as [|x fs IH]; intros H; [done|]. cbn.
  rewrite (H x) by left. apply IH. intros y Hy. apply H. by right.
Qed.
Lemma none_used l w i : mb_objects (run l w) !! i = None → used_along i l w = [].
Proof.
  revert w. induction l as [|a l IH]; intros w Hi; [done|]. cbn. rewrite IH by done.
  assert (mb_objects w !! i = None) as Hw.
  { destruct (mb_objects w !! i) as [s|] eqn:Hs; [|done]. by destruct (act_object (a :: l) w i s Hs) as (s' & Hs' & _); congruence. }
  unfold used. destruct a; try done. rewrite Hw. by destruct (mb_inflight w !! k).
Qed.

Lemma charge_counted s n l u status : counted s n l → counted (charge_usage u status s) n (l ++ [u]).
Proof.
  intros (Hr & Hi & Ho & Hu). unfold counted, cost_of in *. cbn. rewrite !total_snoc. split_and!; [done|by rewrite Hi|by rewrite Ho|].
  rewrite Hu, !inject_Z_plus. ring.
Qed.
(** What a response changes. *)
Lemma response_counts k x w i s : mb_objects w !! i = Some s → ∃ s', mb_objects (act (AResponse k x) w) !! i = Some s' ∧
  mb_forwarded (act (AResponse k x) w) = mb_forwarded w ∧
  ∀ n l, counted s n l → counted s' n (l ++ used i (AResponse k x) w).
Proof.
  intros Hs. cbn [mb_act used]. rewrite Hs. unfold request_end. rewrite get_bind. destruct (mb_inflight w !! k) as [ad|] eqn:Hk.
  2: { exists s. split_and!; [done|done|]. intros n l. by rewrite app_nil_r. }
  cbv zeta. rewrite put_bind, get_bind, lift_bind. cbn [mb_objects].
  destruct (Nat.eqb_spec (ad_object ad) i) as [->|Hne].
  - rewrite Hs. cbn [of_opt]. rewrite lift_bind. destruct (forwarded _ _) as [[status resp]|e]; cbn [mbind result_bind fst snd].
    2: { exists s. split_and!; [done|done|]. intros n l. by rewrite app_nil_r. }
    rewrite lift_bind. destruct (usage_of _ _ _ _ _) as [u|e].
    + exists (charge_usage u status s). split_and!; [|done|intros n l; apply charge_counted]. cbn. apply list_lookup_insert_eq. by eapply lookup_lt_Some.
    + exists s. split_and!; [done|done|]. intros n l. by rewrite app_nil_r.
  - destruct (mb_objects w !! ad_object ad) as [s0|] eqn:Hs0; cbn [of_opt].
    2: { exists s. split_and!; [done|done|]. intros n l. by rewrite app_nil_r. }
    rewrite lift_bind. destruct (forwarded _ _) as [[status resp]|e].
    2: { exists s. split_and!; [done|done|]. intros n l. by rewrite app_nil_r. }
    rewrite lift_bind. exists s. destruct (usage_of _ _ _ _ _) as [u|e]; (split_and!; [|done|intros n l; by rewrite app_nil_r]); [|done].
    refine (eq_trans (list_lookup_insert_ne _ _ _ _ _) Hs). exact Hne.
Qed.

Lemma fresh_counted t : counted (mkSession t 0 0 0 0 [] 0) 0 [].
Proof. unfold counted, cost_of. cbn. split_and!; [done..|]. change (inject_Z 0) with 0%Q. ring. Qed.
Lemma run_counted l i s : mb_objects (run l new_model_broker) !! i = Some s →
  counted s (length (sent i (run l new_model_broker))) (used_along i l new_model_broker).
Proof.
  revert s. induction l as [|a l IH] using rev_ind; intros s; [by destruct i|]. rewrite run_app, used_along_snoc.
  set (w := run l new_model_broker) in *. change (run [a] w) with (act a w).
  destruct (mb_objects w !! i) as [s0|] eqn:Hs0.
  - specialize (IH s0 eq_refl). assert ((∃ k x, a = AResponse k x) ∨ used i a w = [] ∧ ∀ k x, a ≠ AResponse k x) as [(k & x & ->)|[Hno Hna]].
    { destruct a; try (right; by split). left. eauto. }
    + destruct (response_counts k x w i s0 Hs0) as (s' & Hs' & Hf & Hc). intros Hs. assert (s' = s) as -> by congruence.
      unfold sent in *. rewrite Hf. by apply Hc.
    + rewrite Hno, app_nil_r. destruct (act_step a w) as [(Ho & _ & Hf)|g sid eid role bid t _ Ho _ Hf|j s1 r Hj Ho _ Hf|t j uid h s1 ad s' key -> Hj Had _ Ho _ Hf
        |k ad _ Ho _ Hf|k x ad s1 status resp u -> _ _ _ _ Ho _ Hf]; rewrite Ho.
      * unfold sent. rewrite Hf. intros Hs. by assert (s = s0) as -> by congruence.
      * unfold sent. rewrite Hf, lookup_app_l by (by eapply lookup_lt_Some). intros Hs. by assert (s = s0) as -> by congruence.
      * unfold sent. rewrite Hf. destruct (decide (j = i)) as [->|Hne].
        -- rewrite list_lookup_insert_eq by (by eapply lookup_lt_Some). intros [= <-]. by assert (s1 = s0) as -> by congruence.
        -- rewrite list_lookup_insert_ne by done. intros Hs. by assert (s = s0) as -> by congruence.
      * rewrite (sent_snoc i _ _ _ _ Hf). apply admit_spec in Had as [Had ->]. destruct (Nat.eqb_spec j i) as [->|Hne].
        -- rewrite list_lookup_insert_eq by (by eapply lookup_lt_Some). intros [= <-]. assert (s1 = s0) as -> by congruence.
           destruct IH as (Hr & Hi & Ho' & Hu). rewrite length_app. split_and!; try done. cbn. lia.
        -- rewrite list_lookup_insert_ne, app_nil_r by done. intros Hs. by assert (s = s0) as -> by congruence.
      * unfold sent. rewrite Hf. intros Hs. by assert (s = s0) as -> by congruence.
      * by destruct (Hna k x).
  - pose proof (none_sent l i Hs0) as Hsent. pose proof (none_used l _ i Hs0) as Hused. fold w in Hsent, Hused. intros Hs. rewrite Hused.
    assert (used i a w = []) as -> by (unfold used; destruct a; try done; rewrite Hs0; by destruct (mb_inflight w !! _)).
    destruct (act_step a w) as [(Ho & _ & Hf)|g sid eid role bid t _ Ho _ Hf|j s1 r Hj Ho _ Hf|t j uid h s1 ad s' key -> Hj Had _ Ho _ Hf
        |k ad _ Ho _ Hf|k x ad s1 status resp u -> _ Hj _ _ Ho _ Hf]; rewrite Ho in Hs; try congruence.
    + apply lookup_app_Some in Hs as [Hs|[_ Hs]]; [congruence|]. apply list_lookup_singleton_Some in Hs as [_ <-].
      unfold sent in *. rewrite Hf, Hsent. apply fresh_counted.
    + rewrite list_lookup_insert_ne in Hs; [congruence|]. intros ->. congruence.
    + rewrite list_lookup_insert_ne in Hs; [congruence|]. intros ->. congruence.
    + rewrite list_lookup_insert_ne in Hs; [congruence|]. intros E. congruence.
Qed.

(** A request sent with a cap within what is left of a session that used [l]. *)
Definition capped (t : session_terms) (l : list (Z * Z)) (u : upstream_request) : Prop :=
  ∃ body rest c est, up_body u = json_dumps (VDict body) ∧ cap_of (ss_provider t) rest body = Some (VInt c) ∧ (1 <= est)%Z ∧
    (total fst l + est <= ss_max_input_tokens t)%Z ∧ (total snd l + c <= ss_max_output_tokens t)%Z ∧
    ((0 < ss_price_out t)%Q → (cost_of t l + (inject_Z est * ss_price_in t + inject_Z c * ss_price_out t) <= ss_max_usd t)%Q).
Lemma remaining_le s est : (remaining_output s est <= ss_max_output_tokens (ss_terms s) - ss_output_tokens s)%Z.
Proof. unfold remaining_output. destruct (Qltb _ _); lia. Qed.
Lemma admitted_capped i s ad key n l : admitted i s ad → counted s n l → capped (ss_terms s) l (upstream_of (ss_terms s) key ad).
Proof.
  intros Had (_ & Hi & Ho & Hu). exists (ad_body ad), (ad_rest ad), (ad_clamp ad), (ad_est_in ad). pose proof Had as [_ _ Hcap _ Hin Hout _ Hest].
  pose proof (remaining_le s (ad_est_in ad)). split_and!; [done|done|done|lia|lia|]. intros Hpo.
  destruct (admitted_room i s ad Had Hpo) as [_ Hr]. by rewrite Hu in Hr.
Qed.

Lemma sent_capped l1 a l2 i s u : mb_objects (run ((l1 ++ [a]) ++ l2) new_model_broker) !! i = Some s →
  sent i (run (l1 ++ [a]) new_model_broker) = sent i (run l1 new_model_broker) ++ [u] → capped (ss_terms s) (used_along i l1 new_model_broker) u.
Proof.
  rewrite !run_app. set (w := run l1 new_model_broker). change (run [a] w) with (act a w). intros Hs Hsent.
  assert (mb_forwarded (act a w) ≠ mb_forwarded w) as Hne.
  { intros E. unfold sent in Hsent. rewrite E in Hsent. apply (f_equal length) in Hsent. rewrite length_app in Hsent. cbn in Hsent. lia. }
  destruct (act_step a w) as [(_ & _ & Hf)|? ? ? ? ? ? _ _ _ Hf|? ? ? _ _ _ Hf|t j uid h s1 ad s' key _ Hj Had _ Ho _ Hf|? ? _ _ _ Hf|? ? ? ? ? ? ? _ _ _ _ _ _ _ Hf]; try done.
  rewrite (sent_snoc i _ _ _ _ Hf) in Hsent. apply app_inv_head in Hsent. destruct (Nat.eqb_spec j i) as [->|]; [|done].
  injection Hsent as <-. apply admit_spec in Had as [Had _].
  destruct (act_object (a :: l2) w i s1 Hj) as (s2 & Hs2 & Ht). cbn in Hs2. assert (s2 = s) as -> by (unfold mb_run in *; congruence). rewrite Ht.
  eapply admitted_capped; [done|]. by apply (run_counted l1).
Qed.

(** C14: bounds. A session's limits hold. However requests interleave, no more requests are
    sent for it than it may make, and the broker's counters are the number of those sent
    and the sums of what the exchanges that ended are found to have used; each request is
    sent with a cap within what these leave of the output tokens and, when output costs
    anything, of the money. So when it is asked for one thing at a time, and no exchange is
    found to have used more than was estimated and allowed (a provider that keeps to the
    cap it is sent), its exchanges never use more input tokens, output tokens or money than
    the bundle grants its role. *)
Theorem budget_holds l i s : mb_objects (run l new_model_broker) !! i = Some s →
  let t := ss_terms s in
  (Z.of_nat (length (sent i (run l new_model_broker))) <= Z.max 0 (ss_max_requests t))%Z ∧
  counted s (length (sent i (run l new_model_broker))) (used_along i l new_model_broker) ∧
  (∀ l1 a l2 u, l = l1 ++ a :: l2 → sent i (run (l1 ++ [a]) new_model_broker) = sent i (run l1 new_model_broker) ++ [u] →
     capped t (used_along i l1 new_model_broker) u) ∧
  (along (λ a w, alone i a w ∧ honest i a w) l new_model_broker → budgeted t →
   (total fst (used_along i l new_model_broker) <= ss_max_input_tokens t)%Z ∧
   (total snd (used_along i l new_model_broker) <= ss_max_output_tokens t)%Z ∧
   (cost_of t (used_along i l new_model_broker) <= ss_max_usd t)%Q).
Proof.
  intros Hs t. pose proof (run_counted l i s Hs) as Hc. pose proof Hc as (Hr & Hi & Ho & Hu). split; [|split; [exact Hc|split]].
  - rewrite <- Hr. apply (mb_run_inv requests_ok l); [by intros s0 ?%not_elem_of_nil|intros; by eapply requests_step|by eapply list_elem_of_lookup_2].
  - intros l1 a l2 u -> Hsent. eapply sent_capped; [|exact Hsent]. rewrite <- (app_nil_l l2), (app_comm_cons [] l2 a), (assoc_L app) in Hs. exact Hs.
  - intros Hal Hbud. rewrite <- Hi, <- Ho. assert (budget_ok i new_model_broker) as H0.
    { split; [by intros ad ?%not_elem_of_nil|intros k1; by destruct k1|by destruct i|by destruct i]. }
    destruct (bo_room _ _ (along_budget i l _ H0 Hal) s Hs Hbud) as [[Hi' Ho'] Hu']. subst t. split_and!; [lia..|].
    rewrite <- Hu. change (inject_Z 0) with 0%Q in Hu'. lra.
Qed.
End props.

(** * Requests through the model broker

    A session of a signed bundle, one request and its response; the broker's theorems are
    instantiated here. Then what its limits do not hold against: requests in parallel, a
    worker that hangs up before the last chunk of a stream, a session closed meanwhile. *)
From S2P Require Import BundleProps.

(** ** A bundle *)
Definition model_files : bundle_dir := [(["pricing.yaml"], "$"); (["providers.yaml"], "P"); (["thresholds.yaml"], "T")].
Definition model_bundle : string := id_of model_files.
Definition model_registry : registry :=
  mkRegistry [(model_bundle, signed model_files)] [("k1", demo_trusted)] (Some (model_bundle +:+ newline)) [mkActivation 10 model_bundle None "op"] [].
Definition role_limit (n : Z) : val := VDict [("diagnostician", VInt n)].
Definition model_yaml (text : string) : result exn val :=
  if String.eqb text "T" then Ok (VDict [("parameters", VDict
    [("P-05", role_limit 10); ("P-06", role_limit 1); ("P-30", VDict [("input_tokens", role_limit 1000); ("output_tokens", role_limit 100)])])])
  else if String.eqb text "P" then Ok (VDict
    [("roles", VDict [("diagnostician", VStr "c1")]); ("endpoints", VDict [("anthropic", VStr "https://api.example/")]);
     ("configurations", VDict [("c1", VDict [("provider", VStr "anthropic"); ("model", VStr "m"); ("admission", VStr "admitted")])])])
  else Ok (VDict [("anthropic", VDict [("m", VDict [("input_per_mtok", VInt 3); ("output_per_mtok", VInt 15)])])]).
Definition model_config : mb_config := mkConfig "/run/mb" [("anthropic", "KEY")] ["anthropic"] [2000%Z] false false.
Definition demo_mb_run : list mb_action → model_broker := λ l, mb_run (HASH := sum_hash) model_yaml id model_config l new_model_broker.

(** ** One session, one request *)
Definition open_s1 : mb_action := AOpen model_registry
  [("session_id", VStr "s1"); ("episode_id", VStr "ep1"); ("role", VStr "diagnostician"); ("bundle_id", VStr model_bundle)].
Definition message (stream : bool) : string :=
  json_dumps (VDict ([("model", VStr "m"); ("max_tokens", VInt 80)] ++ if stream then [("stream", VBool true)] else [])).
Definition post (stream : bool) : mb_action := ARequest 100 0 2000 (mkHttp "/anthropic/v1/messages" [("X-Api-Key", "stolen"); ("Accept", "*")]
  (Some (py_str (VInt (Z.of_N (slen (message stream)))))) (message stream)).
Definition usage (input output : Z) : string :=
  json_dumps (VDict [("usage", VDict [("input_tokens", VInt input); ("output_tokens", VInt output)])]).
Definition one_exchange : list mb_action := [open_s1; post false; AResponse 0 (XDone 200 [usage 8 80])].

Definition sent_first (w : model_broker) : option upstream_request := snd <$> head (mb_forwarded w).
Example sent_with_the_key : (λ u, (up_path u, up_headers u, up_body u)) <$> sent_first (demo_mb_run one_exchange) =
  Some ("/v1/messages",
        [("accept", "*"); ("x-api-key", "KEY"); ("anthropic-version", "2023-06-01"); ("content-type", "application/json");
         ("content-length", "32")], message false).
Proof. vm_compute. reflexivity. Qed.
(** With twenty tokens left, the next request is sent with a cap of twenty. *)
Example cap_is_what_is_left : up_body <$> (snd <$> mb_forwarded (demo_mb_run (one_exchange ++ [post false])) !! 1) =
  Some (json_dumps (VDict [("model", VStr "m"); ("max_tokens", VInt 20)])).
Proof. vm_compute. reflexivity. Qed.

Definition first_sent : upstream_request := default (mkUp "" "" [] "") (sent_first (demo_mb_run one_exchange)).
Lemma first_in : (0, first_sent) ∈ mb_forwarded (demo_mb_run one_exchange).
Proof. apply (list_elem_of_lookup_2 _ 0). vm_compute. reflexivity. Qed.
Lemma forwarded_is_pinned_witness :
  ∃ s g sid eid role bid, mb_objects (demo_mb_run one_exchange) !! 0 = Some s ∧
    terms_of (HASH := sum_hash) model_yaml model_config g sid eid role bid = Ok (ss_terms s) ∧
    verify (HASH := sum_hash) g bid = Ok None ∧ ss_provider (ss_terms s) ∈ cf_approved model_config ∧
    ((∃ r, ss_upstream (ss_terms s) = "https://" +:+ r) ∨ cf_allow_insecure model_config = true) ∧ pinned model_config (ss_terms s) first_sent.
Proof. exact (forwarded_is_pinned (HASH := sum_hash) model_yaml id model_config one_exchange 0 first_sent first_in). Defined.

Definition used_session : Session := default (mkSession (mkTerms "" "" "" "" "" "" "" "" 0 0 0 0 0 0 "") 0 0 0 0 [] 0) (mb_objects (demo_mb_run one_exchange) !! 0).
Lemma used_found : mb_objects (demo_mb_run one_exchange) !! 0 = Some used_session.
Proof. vm_compute. reflexivity. Qed.
Lemma one_exchange_keeps : along (HASH := sum_hash) model_yaml id model_config (λ a w, alone 0 a w ∧ honest id 0 a w) one_exchange new_model_broker.
Proof.
  refine (conj (conj I I) (conj (conj _ I) (conj (conj I _) I))).
  - intros _ ad H. vm_compute in H. by apply not_elem_of_nil in H.
  - intros ad s status resp u Had _ Hs Hf Hu. vm_compute in Had. injection Had as <-. vm_compute in Hs. injection Hs as <-.
    vm_compute in Hf. injection Hf as <- <-. vm_compute in Hu. injection Hu as <-. split; vm_compute; discriminate.
Qed.
Lemma budget_holds_witness :
  let uses := used_along (HASH := sum_hash) model_yaml id model_config 0 one_exchange new_model_broker in
  uses = [(8%Z, 80%Z)] ∧ ss_max_output_tokens (ss_terms used_session) = 100%Z ∧
  (total snd uses <= ss_max_output_tokens (ss_terms used_session))%Z.
Proof.
  split; [vm_compute; reflexivity|]. split; [vm_compute; reflexivity|].
  destruct (budget_holds (HASH := sum_hash) model_yaml id model_config one_exchange 0 used_session used_found) as (_ & _ & _ & H).
  apply H; [exact one_exchange_keeps|]. split; [by vm_compute|]. split_and!; by vm_compute.
Defined.

(** ** What the limits do not hold against *)
Definition output_used (w : model_broker) : option Z := ss_output_tokens <$> mb_objects w !! 0.
(** Two requests at once are each capped at what is left before either: of a hundred
    tokens the session uses a hundred and sixty. *)
Example parallel_requests_overspend :
  output_used (demo_mb_run [open_s1; post false; post false; AResponse 0 (XDone 200 [usage 8 80]); AResponse 0 (XDone 200 [usage 8 80])]) = Some 160%Z.
Proof. vm_compute. reflexivity. Qed.

Definition stream_start : string :=
  "data: " +:+ json_dumps (VDict [("type", VStr "content_block_delta"); ("delta", VStr "the answer")]) +:+ newline +:+ newline.
(** A worker that reads a stream and hangs up before the event that carries the usage is
    charged nothing for it. *)
Example hung_up_stream_is_free :
  (λ s, (ss_requests s, ss_input_tokens s, ss_output_tokens s, Qred (ss_usd s))) <$>
    mb_objects (demo_mb_run [open_s1; post true; AResponse 0 (XLost [stream_start])]) !! 0 = Some (1%Z, 0%Z, 0%Z, 0%Q).
Proof. vm_compute. reflexivity. Qed.

(** A request in flight when its session is closed is charged to an object nobody reads:
    the meter that becomes the episode's cost leaves it out. *)
Definition closed_output (w : model_broker) : option val :=
  m ← dget (mb_closed w) "s1"; match m with VDict d => dget d "output_tokens" | _ => None end.
Example late_usage_is_lost :
  let w := demo_mb_run [open_s1; post false; ACloseBegin [("session_id", VStr "s1")]; ACloseEnd 0; AResponse 0 (XDone 200 [usage 8 80])] in
  closed_output w = Some (VInt 0) ∧ output_used w = Some 80%Z.
Proof. split; vm_compute; reflexivity. Qed.
