(* ===== verification/ReportBroker.v ===== *)
(** * The report broker (src/valops/brokers/report_broker.py, alerts.py)

    It stores the reporter's reports and sends alerts, whose fields it fills from the
    episode record itself; it repeats an alert nobody acknowledged once and then goes to
    the backup operator. The sink that delivers, the clock and the other processes are
    arbitrary. The sections under the broker's lock are one step each; a handler is a
    sequence of them. *)
From S2P Require Import Prelude PyVal Schema Canonical Json PyConv Keyed Tools Transitions Tokens Rpc Fold Store AuditChain AuditClient Bundle Control Artefacts Client Broker.
From Stdlib Require Import Ascii.

(** src/valops/brokers/report_broker.py:28-28 MAX_ALERTS_PER_HOUR *)
Definition MAX_ALERTS_PER_HOUR : nat := 60.

(** ** The text of an alert *)
Fixpoint upper (s : string) : string :=
  match s with
  | EmptyString => EmptyString
  | String c s' => let n := nat_of_ascii c in String (if ((97 <=? n) && (n <=? 122))%nat then ascii_of_nat (n - 32) else c) (upper s')
  end.
Definition spaced (s : string) : string :=
  String.string_of_list_ascii (map (λ c, if Ascii.eqb c "_" then " "%char else c) (String.list_ascii_of_string s)).
(** src/valops/brokers/alerts.py:16-27 render_text

    A severity is a string; a text is one too, since it is joined. *)
Definition render_text (a : dict) : result exn string :=
  severity ← of_opt (as_str (default (VStr "?") (dget a "severity"))) (PyExc "AttributeError");
  let head := "[" +:+ upper severity +:+ "] " +:+ py_str (default (VStr "") (dget a "title")) in
  let line k := if truthy (dget_none a k) then [spaced k +:+ ": " +:+ py_str (dget_none a k)] else [] in
  text ← (if truthy (dget_none a "text") then t ← of_opt (as_str (dget_none a "text")) (PyExc "TypeError"); Ok [t] else Ok []);
  Ok (join newline ((if truthy (dget_none a "development") then ["DEVELOPMENT RUN - no gate weight"] else []) ++ [head] ++
        flat_map line ["fault_class"; "top_hypothesis"; "recommendation"; "judge_verdict"; "report"; "episode_id"] ++
        (if truthy (dget_none a "summary") then ["summary (model-written): " +:+ py_str (dget_none a "summary")] else []) ++ text)).

(** ** The broker *)
(** src/valops/brokers/report_broker.py:34-48 ReportBroker.__init__

    [rb_log] are the lines of [alerts.jsonl], as values; [rb_sends] is what the sink was
    given, to whom; the reports are files named by their hash. *)
Record report_broker : Type := mkRB {
  rb_base : broker; rb_alerts : list (string * dict); rb_sent_times : list Q; rb_log : list val;
  rb_reports : list (string * string); rb_sends : list (string * dict) }.
Definition with_base (b : broker) (w : report_broker) : report_broker :=
  mkRB b (rb_alerts w) (rb_sent_times w) (rb_log w) (rb_reports w) (rb_sends w).
Definition with_times (l : list Q) (w : report_broker) : report_broker :=
  mkRB (rb_base w) (rb_alerts w) l (rb_log w) (rb_reports w) (rb_sends w).
Definition with_alerts (l : list (string * dict)) (line : val) (w : report_broker) : report_broker :=
  mkRB (rb_base w) l (rb_sent_times w) (rb_log w ++ [line]) (rb_reports w) (rb_sends w).
Definition with_report (h body : string) (w : report_broker) : report_broker :=
  mkRB (rb_base w) (rb_alerts w) (rb_sent_times w) (rb_log w) (rb_reports w ++ [(h, body)]) (rb_sends w).
Definition with_send (target : string) (a : dict) (w : report_broker) : report_broker :=
  mkRB (rb_base w) (rb_alerts w) (rb_sent_times w) (rb_log w) (rb_reports w) (rb_sends w ++ [(target, a)]).
Abbreviation RBM := (M report_broker exn).
#[export] Program Instance report_broker_client : Client report_broker := {|
  cl_store w := br_store (rb_base w); cl_calls w := br_trace (rb_base w);
  cl_log e w := with_base (cl_log e (rb_base w)) w; cl_put s w := with_base (cl_put s (rb_base w)) w |}.
Solve All Obligations with done.

(** What the base class does. *)
Definition base {A} (m : BM A) : RBM A := λ w, let '(r, b) := m (rb_base w) in (r, with_base b w).

(** ** The log of alerts *)
Definition sent_line (a : dict) : val := VDict [("ev", VStr "sent"); ("alert", VDict a)].
Definition update_line (aid : val) (upd : dict) : val := VDict [("ev", VStr "update"); ("alert_id", aid); ("update", VDict upd)].

(** src/valops/brokers/report_broker.py:51-59 ReportBroker._load

    One line of the log. *)
Definition load_line (alerts : list (string * dict)) (ev : val) : result exn (list (string * dict)) :=
  kind ← vindex ev "ev";
  if py_eq kind (VStr "sent") then
    a ← vindex ev "alert"; id ← vindex a "alert_id";
    a ← match a with VDict a => Ok a | _ => Err (PyExc "TypeError") end;
    id ← of_opt (as_str id) (PyExc "TypeError"); Ok (dset alerts id a)
  else
    id ← vindex ev "alert_id";
    _ ← check (hashable id) (PyExc "TypeError");
    match as_str id ≫= dget alerts, as_str id with
    | Some a, Some id => upd ← vindex ev "update"; match upd with VDict upd => Ok (dset alerts id (dupdate a upd)) | _ => Err (PyExc "TypeError") end
    | _, _ => Ok alerts
    end.
(** src/valops/brokers/report_broker.py:51-59 ReportBroker._load *)
Fixpoint load_alerts (alerts : list (string * dict)) (lines : list val) : result exn (list (string * dict)) :=
  match lines with [] => Ok alerts | ev :: lines' => alerts ← load_line alerts ev; load_alerts alerts lines' end.

Section report_broker.
Context `{HASH : Hash} (N : surroundings).
(** The delivery of what the sink is given, with what it was given before. *)
Context (sink : list (string * dict) → result exn val) (ack_window_s : Q) (development : bool).

Definition rb_audit (cap : option Capability) (event : string) (data : dict) : RBM string := base (br_audit N event cap data NoPayload).
(** [self.sink.send(target, alert)] *)
Definition deliver (target : string) (a : dict) : RBM val :=
  _ ← modify (with_send target a); w ← get_state; lift (sink (rb_sends w)).

(** The first lock of [_dispatch]: the alert rate. *)
Definition take_alert (t : Q) (a : dict) : RBM unit :=
  w ← get_state;
  let recent := List.filter (λ x, Qltb (t - x) 3600) (rb_sent_times w) in
  if (MAX_ALERTS_PER_HOUR <=? length recent)%nat && negb (py_eq (dget_none a "severity") (VStr "critical")) then
    _ ← modify (with_times recent);
    _ ← rb_audit None "alert" [("what", VStr "alert rate cap reached; alert suppressed"); ("title", dget_none a "title")];
    raise (rpc_error "rate_limited")
  else modify (with_times (recent ++ [t])).
(** The second: it is recorded, in memory and in the log. *)
Definition record_alert (id : string) (a : dict) : RBM unit := modify (λ w, with_alerts (dset (rb_alerts w) id a) (sent_line a) w).

(** src/valops/brokers/report_broker.py:67-87 ReportBroker._dispatch

    [t] and [t'] are its two readings of the clock; the alert has no id yet. *)
Definition rb_dispatch (t t' : Q) (a : dict) : RBM dict :=
  _ ← take_alert t a;
  id ← uuid_ N;
  let a := dset (dset (dset a "alert_id" (VStr id)) "sent_ts" (VFloat t')) "development" (VBool development) in
  ack ← catch (deliver "primary" a) (λ _, raise (rpc_error "alert_failed"));
  let a := dupdate (dset a "ack" ack) [("acked", VBool false); ("resent", VBool false); ("escalated", VBool false)] in
  _ ← record_alert id a;
  _ ← rb_audit None "alert" [("alert_id", VStr id); ("episode_id", dget_none a "episode_id"); ("kind", dget_none a "kind"); ("severity", dget_none a "severity")];
  mret a.

(** ** The worker socket *)
(** [args["k"]], a string by the tool's schema. *)
Definition arg_str (args : val) (k : string) : result exn string := v ← vindex args k; of_opt (as_str v) (PyExc "AttributeError").

(** src/valops/brokers/report_broker.py:90-104 ReportBroker.write_incident_report *)
Definition write_incident_report (p : dict) : RBM val :=
  '(cap, args) ← base (authorize N p "write_incident_report");
  _ ← base (take_quota "reports" (c_session_id cap) 4);
  body ← lift (arg_str args "markdown");
  let h := sha256_hex body in
  _ ← modify (λ w, if dmem (rb_reports w) h then w else with_report h body w);
  let ref := "report:sha256:" +:+ h in
  kind ← lift (vindex args "kind");
  _ ← call_store N "store-agent-report" "append_report"
        [("token", dget_none p "token"); ("episode_id", c_episode_id cap); ("kind", kind); ("ref", VStr ref);
         ("idem_key", VStr (py_str (c_session_id cap) +:+ ":report:" +:+ py_str kind +:+ ":" +:+ String.substring 0 16 h))];
  _ ← rb_audit (Some cap) "tool_result" [("tool", VStr "write_incident_report"); ("ref", VStr ref)];
  mret (VDict [("ref", VStr ref)]).

(** What the alert says of the last artefact, and of the last verdict. *)
Definition artefact_text (a : artefact) : string :=
  match a with
  | ARec r => rc_id r +:+ ": " +:+ (if String.eqb (rc_action_text r) "" then "NO ACTION - None" else rc_action_text r)
  | ANo n => na_id n +:+ ": NO ACTION - " +:+ na_reason n
  end.
Definition verdict_text (v : verdict) : result exn string :=
  fails ← failed_checks (vd_checks v);
  Ok (vd_result v +:+ " on " +:+ vd_target_id v +:+ (match fails with [] => "" | _ => " (failed: " +:+ join ", " fails +:+ ")" end)).
Definition or_none (o : option string) : val := match o with Some s => if String.eqb s "" then VStr "none" else VStr s | None => VStr "none" end.

(** src/valops/brokers/report_broker.py:122-145 ReportBroker.compose *)
Definition compose (f : full_view_t) (kind : val) (summary report_ref : string) (bundle : Bundle) : result exn dict :=
  let rec := fv_record f in
  let trig := py_or (r_trigger rec) (VDict []) in
  fcs ← fault_classes (n_yaml N) bundle; by_check ← vget fcs "by_check";
  check ← vget trig "check";
  fc ← match py_or by_check (VDict []) with
       | VDict d => if hashable check then Ok (match check with VStr c => dget_none d c | _ => VNone end) else Err (PyExc "TypeError")
       | _ => Err (PyExc "AttributeError")
       end;
  verdict ← match list.last (r_verdicts rec) with Some v => Some <$> verdict_text v | None => Ok None end;
  severity ← match trig with VDict d => Ok (default (VStr "unknown") (dget d "severity")) | _ => Err (PyExc "AttributeError") end;
  Ok [("kind", kind); ("episode_id", VStr (r_episode_id rec)); ("severity", severity);
      ("title", VStr ((if py_eq kind (VStr "closure") then "Closure" else "Incident") +:+ ": " +:+ py_str (opt_val VStr (r_class rec)) +:+ " / " +:+ py_str check));
      ("fault_class", py_or fc (VStr "outside supported classes"));
      ("top_hypothesis", VStr (match fv_top f with
                               | Some h => "rank " +:+ py_str (VInt (h_rank h)) +:+ ": " +:+ h_claim h
                               | None => "no hypothesis" end));
      ("recommendation", or_none (artefact_text <$> under_judgement rec)); ("judge_verdict", or_none verdict);
      ("report", VStr report_ref); ("summary", VStr (stake 1500 summary)); ("state", opt_val VStr (r_state rec));
      ("consensus_mode", opt_val VStr (r_consensus_mode rec)); ("opened_ts", opt_val VFloat (r_opened_ts rec));
      ("needs_ack", VBool (py_eq kind (VStr "incident")))].

(** The view the store gives a reporter. *)
Definition full_of (r : reply) : result exn full_view_t :=
  match r with ReplyRead (RView (VFull f)) => Ok f | ReplyRead (RView (VJudge _)) => Err (PyExc "KeyError") | _ => Err (PyExc "TypeError") end.
Definition alert_ref (a : dict) (more : dict) : result exn val :=
  id ← of_opt (dget a "alert_id") (PyExc "KeyError"); ack ← of_opt (dget a "ack") (PyExc "KeyError");
  Ok (VDict ([("alert_id", id); ("ack", ack)] ++ more)).

(** src/valops/brokers/report_broker.py:106-119 ReportBroker.send_alert *)
Definition send_alert (t t' : Q) (p : dict) : RBM val :=
  '(cap, args) ← base (authorize N p "send_alert");
  kind ← lift (vindex args "kind");
  w ← get_state;
  match find_first (λ x : string * dict, py_eq (dget_none x.2 "session_id") (c_session_id cap) && py_eq (dget_none x.2 "kind") kind) (rb_alerts w) with
  | Some (_, a) => lift (alert_ref a [("duplicate", VBool true)])
  | None =>
      r ← call_store N "store-agent-report" "read_episode" [("token", dget_none p "token"); ("episode_id", c_episode_id cap)];
      f ← lift (full_of r);
      ref ← lift (of_opt ((λ x : report, rp_ref x) <$> list.last (List.filter (λ x : report, py_eq (VStr (rp_kind x)) kind) (r_reports (fv_record f))))
                         (rpc_error "contract"));
      summary ← lift (arg_str args "summary");
      bundle ← base (br_bundle N (c_bundle_id cap));
      a ← lift (compose f kind summary ref bundle);
      sent ← rb_dispatch t t' (dset a "session_id" (c_session_id cap));
      lift (alert_ref sent [])
  end.

(** ** The system socket *)
(** src/valops/brokers/report_broker.py:148-162 ReportBroker.system_alert *)
Definition system_alert (t t' : Q) (ctx : Ctx) (p : dict) : RBM val :=
  let sev := dget_none p "severity" in
  _ ← require (py_in sev (map VStr ["info"; "warning"; "high"; "critical"])) (rpc_error "invalid");
  let str_at k n := VStr (stake n (py_str (default (VStr "") (dget p k)))) in
  let a := [("kind", VStr "system"); ("severity", sev); ("title", str_at "title" 200); ("text", str_at "text" 4000);
            ("episode_id", dget_none p "episode_id"); ("source", VStr (x_principal ctx));
            ("needs_ack", VBool (py_in sev (map VStr ["high"; "critical"])))] in
  let dedupe := dget_none p "dedupe_key" in
  w ← get_state;
  match (if truthy dedupe then find_first (λ x : string * dict, py_eq (dget_none x.2 "dedupe_key") dedupe) (rb_alerts w) else None) with
  | Some (_, x) => id ← lift (of_opt (dget x "alert_id") (PyExc "KeyError")); mret (VDict [("alert_id", id); ("duplicate", VBool true)])
  | None =>
      sent ← rb_dispatch t t' (if truthy dedupe then dset a "dedupe_key" dedupe else a);
      lift (alert_ref sent [])
  end.

(** src/valops/brokers/report_broker.py:164-167 ReportBroker.alerts_for *)
Definition alerts_for (p : dict) : RBM val :=
  w ← get_state;
  mret (VList (map VDict (List.filter (λ a, py_eq (dget_none a "episode_id") (dget_none p "episode_id") &&
    match dget_none p "session_id" with VNone => true | sid => py_eq (dget_none a "session_id") sid end) (map snd (rb_alerts w))))).

(** ** The operator socket *)
(** [a.update(upd)] and its line, under the lock. *)
Definition update_alert (id : string) (upd : dict) : RBM unit :=
  modify (λ w, match dget (rb_alerts w) id with
               | Some a => with_alerts (dset (rb_alerts w) id (dupdate a upd)) (update_line (VStr id) upd) w
               | None => w
               end).
(** src/valops/brokers/report_broker.py:170-180 ReportBroker.ack *)
Definition ack (t : Q) (ctx : Ctx) (p : dict) : RBM val :=
  let aid := dget_none p "alert_id" in
  _ ← require (hashable aid) (PyExc "TypeError");
  w ← get_state;
  match as_str aid ≫= λ id, (λ a, (id, a)) <$> dget (rb_alerts w) id with
  | None => raise (rpc_error "not_found")
  | Some (id, _) =>
      _ ← update_alert id [("acked", VBool true); ("acked_ts", VFloat t); ("acked_by", VStr (x_principal ctx))];
      _ ← rb_audit None "alert" [("alert_id", aid); ("acked", VBool true)];
      mret (VDict [("ok", VBool true)])
  end.

(** [sorted(alerts, key=lambda a: a["sent_ts"])], with the keys. *)
Fixpoint ts_insert (x : Q * dict) (l : list (Q * dict)) : list (Q * dict) :=
  match l with [] => [x] | y :: l' => if Qltb y.1 x.1 then y :: ts_insert x l' else x :: l end.
Definition sent_ts (a : dict) : result exn Q := v ← of_opt (dget a "sent_ts") (PyExc "KeyError"); of_opt (num_of v) (PyExc "TypeError").
(** src/valops/brokers/report_broker.py:182-184 ReportBroker.list_alerts *)
Definition list_alerts (p : dict) : RBM val :=
  w ← get_state;
  keyed ← lift (mapR (λ x : string * dict, q ← sent_ts x.2; Ok (q, x.2)) (rb_alerts w));
  n ← lift (py_int (default (VInt 50) (dget p "limit")));
  mret (VList (map (λ x, VDict x.2) (last_n n (foldr ts_insert [] keyed)))).

(** ** Escalation *)
(** src/valops/brokers/report_broker.py:208-212 ReportBroker._update *)
Definition rb_update (id : string) (upd : dict) : RBM unit :=
  _ ← update_alert id upd;
  _ ← rb_audit None "alert" ([("alert_id", VStr id)] ++ List.filter (λ kv : string * val, is_bool kv.2) upd);
  mret tt.
Definition titled (prefix : string) (a : dict) : result exn dict :=
  title ← of_opt (as_str (default (VStr "") (dget a "title"))) (PyExc "TypeError"); Ok (dset a "title" (VStr (prefix +:+ title))).
(** [try: m except Exception: continue] *)
Definition unless_raised {A} (m : RBM A) (k : RBM unit) : RBM unit :=
  ok ← catch (_ ← m; mret true) (λ _, mret false); if ok : bool then k else mret tt.
Definition dindex_ (a : dict) (k : string) : result exn val := of_opt (dget a k) (PyExc "KeyError").

(** One alert of [escalate_tick]. *)
Definition escalate_one (t : Q) (id : string) : RBM unit :=
  w ← get_state;
  match dget (rb_alerts w) id with
  | None => mret tt
  | Some a =>
      if negb (truthy (dget_none a "needs_ack")) || truthy (dget_none a "acked") || truthy (dget_none a "escalated") then mret tt
      else
        ts ← lift (sent_ts a);
        resent ← lift (dindex_ a "resent");
        if negb (truthy resent) && Qltb ack_window_s (t - ts) then
          unless_raised (b ← lift (titled "RE-SENT (unacknowledged): " a); deliver "primary" b)
            (rb_update id [("resent", VBool true); ("resent_ts", VFloat t)])
        else if truthy resent then
          resent_ts ← lift (match dget a "resent_ts" with Some v => of_opt (num_of v) (PyExc "TypeError") | None => Ok t end);
          if Qltb ack_window_s (t - resent_ts) then
            unless_raised (b ← lift (titled "ESCALATED to backup operator: " a); deliver "backup" b)
              (rb_update id [("escalated", VBool true); ("escalated_ts", VFloat t)])
          else mret tt
        else mret tt
  end.
(** src/valops/brokers/report_broker.py:187-206 ReportBroker.escalate_tick *)
Definition escalate_tick (t : Q) : RBM unit := w ← get_state; for_each (escalate_one t) (dkeys (rb_alerts w)).
(** src/valops/brokers/report_broker.py:214-216 ReportBroker.escalate_loop

    The turns at these times; an exception ends the loop. *)
Definition escalate_loop (times : list Q) : RBM unit := for_each escalate_tick times.

(** src/valops/brokers/report_broker.py:218-228 ReportBroker.endpoints *)
Definition rb_endpoints (t t' : Q) (worker_uids system_uids operator_uids controller_uids : list Z) : list (Endpoint report_broker val) :=
  let m (h : dict → RBM val) : Ctx → dict → RBM val := λ _ p, h p in
  [mkEndpoint "report-broker" "worker" worker_uids [("write_incident_report", m write_incident_report); ("send_alert", m (send_alert t t'))];
   mkEndpoint "report-broker-system" "system" system_uids [("system_alert", system_alert t t'); ("alerts_for", m alerts_for)];
   mkEndpoint "report-broker-operator" "operator" operator_uids [("ack", ack t); ("list_alerts", m list_alerts)];
   mkEndpoint "report_broker-admin" "controller" controller_uids
     [("revoke_session", m (λ p, base (br_revoke p))); ("ping", m (λ _, base (br_ping "report_broker")))]].
End report_broker.
