(* ===== verification/ReportBrokerProps.v ===== *)
(** * The report broker's guarantees

    The alerts in memory are those of the log; an alert says what the record says; one that
    nobody acknowledges reaches the backup operator. *)
From S2P Require Import Prelude PyVal Schema Canonical Json PyConv Keyed Tools Transitions Tokens Rpc Fold Store AuditChain AuditClient Bundle Control Artefacts Client Broker ReportBroker.
From Stdlib Require Import Ascii.

(** ** The broker's locked sections *)
(** An alert as it is recorded: its id, a numeric time, and not yet re-sent. *)
Record recorded (id : string) (a : dict) : Prop := {
  rc_alert_id : dget a "alert_id" = Some (VStr id);
  rc_sent : ∃ q, dget a "sent_ts" = Some (VFloat q);
  rc_resent : ∃ b, dget a "resent" = Some (VBool b);
  rc_resent_ts : match dget a "resent_ts" with Some v => ∃ q, num_of v = Some q | None => True end }.
(** An update: the members it sets are none of those. *)
Inductive update : dict → Prop :=
| up_acked t who : update [("acked", VBool true); ("acked_ts", VFloat t); ("acked_by", VStr who)]
| up_resent t : update [("resent", VBool true); ("resent_ts", VFloat t)]
| up_escalated t : update [("escalated", VBool true); ("escalated_ts", VFloat t)].

(** [resent_ts] is set by an update only. *)
Inductive section_step (w w' : report_broker) : Prop :=
| ss_other : rb_alerts w' = rb_alerts w → rb_log w' = rb_log w → section_step w w'
| ss_record id a : recorded id a → rb_alerts w' = dset (rb_alerts w) id a → rb_log w' = rb_log w ++ [sent_line a] → section_step w w'
| ss_update id a upd : dget (rb_alerts w) id = Some a → update upd → rb_alerts w' = dset (rb_alerts w) id (dupdate a upd) →
    rb_log w' = rb_log w ++ [update_line (VStr id) upd] → section_step w w'.
Abbreviation sections := (rtc section_step).

#[export] Instance sections_follow : Follows (λ _, True) sections.
Proof. split; [typeclasses eauto|intros e w _|intros st w]; apply rtc_once; by apply ss_other. Qed.

Section props.
Context `{HASH : Hash} (N : surroundings) (sink : list (string * dict) → result exn val) (ack_window_s : Q) (development : bool).
Abbreviation follow := (respects (E := exn) sections).

(** Every request and every turn of the escalation is a sequence of sections. *)
Lemma other_sections {A} (m : RBM A) : (∀ w, rb_alerts (m w).2 = rb_alerts w ∧ rb_log (m w).2 = rb_log w) → follow m.
Proof. intros H w r w' Hm. destruct (H w) as [Ha Hl]. rewrite Hm in Ha, Hl. apply rtc_once. by apply ss_other. Qed.
Lemma base_sections {A} (m : BM A) : follow (base m).
Proof. apply other_sections. intros w. unfold base. by destruct (m (rb_base w)). Qed.
Lemma readonly_sections {A} (m : RBM A) : readonly m → follow m.
Proof. intros Hm. by apply (follows_readonly (F := sections_follow)). Qed.
Lemma bind_sections {A B} (m : RBM A) (k : A → RBM B) : follow m → (∀ a, follow (k a)) → follow (m ≫= k).
Proof. apply (follows_bind (F := sections_follow)). Qed.
Lemma deliver_sections target a : follow (deliver sink target a).
Proof. apply other_sections. by intros w. Qed.
Lemma modify_sections f : (∀ w, rb_alerts (f w) = rb_alerts w ∧ rb_log (f w) = rb_log w) → follow (modify f).
Proof. intros H. apply other_sections. intros w. apply H. Qed.
Lemma record_sections id a : recorded id a → follow (record_alert id a).
Proof. intros Ha w r w' [= _ <-]. apply rtc_once. by eapply ss_record. Qed.
Lemma update_sections id upd : update upd → follow (update_alert id upd).
Proof.
  intros Hu w r w' [= _ <-]. apply rtc_once. destruct (dget (rb_alerts w) id) as [a|] eqn:Ha; [by eapply ss_update|by apply ss_other].
Qed.
Lemma catch_sections {A} (m : RBM A) h : follow m → (∀ e, follow (h e)) → follow (catch m h).
Proof. apply (respects_catch sections). Qed.
Lemma store_sections endpoint method params : follow (call_store N endpoint method params).
Proof. by apply (follows_store N (F := sections_follow)). Qed.
End props.

#[export] Hint Resolve base_sections readonly_sections deliver_sections store_sections : valops.
(** Takes a handler apart into its sections. *)
Ltac sections_steps := repeat lazymatch goal with
  | |- respects _ (_ ≫= _) => apply bind_sections; [|intros ?]
  | |- respects _ (match ?x with _ => _ end) => destruct x eqn:?
  | |- respects _ (let _ := _ in _) => cbv zeta
  | |- respects _ (catch _ _) => apply catch_sections; [|intros ?]
  | |- respects _ (for_each _ _) => apply (follows_for_each (F := sections_follow)); intros ?
  | |- respects _ (base _) => apply base_sections
  | |- respects _ (deliver _ _ _) => apply deliver_sections
  | |- respects _ (call_store _ _ _ _) => apply store_sections
  | |- respects _ (modify _) => apply modify_sections; intros ?
  | |- respects _ _ => first [assumption | apply readonly_sections; solve [auto 10 with valops]]
  end.

Section handlers.
Context `{HASH : Hash} (N : surroundings) (sink : list (string * dict) → result exn val) (ack_window_s : Q) (development : bool).
Abbreviation follow := (respects (E := exn) sections).

Lemma rb_audit_sections cap event data : follow (rb_audit N cap event data).
Proof. apply base_sections. Qed.
Lemma take_sections t a : follow (take_alert N t a).
Proof. unfold take_alert, rb_audit. sections_steps; done. Qed.
Lemma fresh_recorded id a t' dev ack0 : dget a "resent_ts" = None →
  recorded id (dupdate (dset (dset (dset (dset a "alert_id" (VStr id)) "sent_ts" (VFloat t')) "development" (VBool dev)) "ack" ack0)
                       [("acked", VBool false); ("resent", VBool false); ("escalated", VBool false)]).
Proof.
  intros Hr. unfold dupdate. cbn [fold_left fst snd]. split.
  - by rewrite !dget_dset_ne, dget_dset_eq by done.
  - exists t'. by rewrite !dget_dset_ne, dget_dset_eq by done.
  - exists false. by rewrite dget_dset_ne, dget_dset_eq by done.
  - by rewrite !dget_dset_ne, Hr by done.
Qed.
Lemma dispatch_sections t t' a : dget a "resent_ts" = None → follow (rb_dispatch N sink development t t' a).
Proof.
  intros Hr. unfold rb_dispatch. apply bind_sections; [apply take_sections|intros _]. apply bind_sections; [apply readonly_sections; auto with valops|intros id].
  apply bind_sections; [apply catch_sections; [apply deliver_sections|intros e; by apply readonly_sections]|intros ack0].
  apply bind_sections; [apply record_sections; by apply fresh_recorded|intros _].
  apply bind_sections; [apply rb_audit_sections|intros; by apply readonly_sections].
Qed.

Lemma compose_fresh f kind summary ref b a : compose N f kind summary ref b = Ok a → dget a "resent_ts" = None.
Proof.
  unfold compose. intros H. do 6 (apply rbind_Ok in H as (? & _ & H)). by injection H as <-.
Qed.
Lemma report_sections p : follow (write_incident_report N p).
Proof.
  unfold write_incident_report, rb_audit. sections_steps; by destruct (dmem _ _).
Qed.
Lemma send_alert_sections t t' p : follow (send_alert N sink development t t' p).
Proof.
  unfold send_alert. apply bind_sections; [apply base_sections|intros [cap args]]. apply bind_sections; [by apply readonly_sections|intros kind].
  apply bind_sections; [by apply readonly_sections|intros w]. destruct (find_first _ _) as [[id a]|]; [by apply readonly_sections|].
  apply bind_sections; [apply store_sections|intros r]. do 3 (apply bind_sections; [by apply readonly_sections|intros ?]).
  apply bind_sections; [apply base_sections|intros bundle]. intros w0 r0 w1 H. unfold mbind, M_bind, lift at 1 in H.
  destruct (compose _ _ _ _ _ _) as [al|e] eqn:Hc; [|injection H as _ <-; done].
  eapply (bind_sections (rb_dispatch N sink development t t' (dset al "session_id" (c_session_id cap)))
            (λ sent, lift (alert_ref sent []))); [| |exact H]; [|intros ?; by apply readonly_sections].
  apply dispatch_sections. rewrite dget_dset_ne by done. by eapply compose_fresh.
Qed.
Lemma system_alert_sections t t' ctx p : follow (system_alert N sink development t t' ctx p).
Proof.
  unfold system_alert. apply bind_sections; [by apply readonly_sections|intros _]. cbv zeta. apply bind_sections; [by apply readonly_sections|intros w].
  destruct (if truthy _ then _ else _) as [[id a]|]; [sections_steps|]. apply bind_sections; [|intros ?; by apply readonly_sections].
  apply dispatch_sections. by destruct (truthy _).
Qed.
Lemma ack_sections t ctx p : follow (ack N t ctx p).
Proof.
  unfold ack. apply bind_sections; [by apply readonly_sections|intros _]. apply bind_sections; [by apply readonly_sections|intros w].
  destruct (_ ≫= _) as [[id a]|]; [|by apply readonly_sections]. apply bind_sections; [apply update_sections; constructor|intros _].
  apply bind_sections; [apply rb_audit_sections|intros _; by apply readonly_sections].
Qed.
Lemma rb_update_sections id upd : update upd → follow (rb_update N id upd).
Proof.
  intros Hu. unfold rb_update. apply bind_sections; [by apply update_sections|intros _]. apply bind_sections; [apply rb_audit_sections|intros _; by apply readonly_sections].
Qed.
Lemma unless_raised_sections {A} (m : RBM A) k : follow m → follow k → follow (unless_raised m k).
Proof. intros Hm Hk. unfold unless_raised. sections_steps; try done; by apply readonly_sections. Qed.
Lemma escalate_one_sections t id : follow (escalate_one N sink ack_window_s t id).
Proof.
  unfold escalate_one. sections_steps; try (apply unless_raised_sections; [sections_steps|apply rb_update_sections; constructor]).
Qed.
Lemma tick_sections t : follow (escalate_tick N sink ack_window_s t).
Proof. unfold escalate_tick. sections_steps. apply escalate_one_sections. Qed.
Lemma endpoint_sections t t' u1 u2 u3 u4 ep name fn ctx p :
  ep ∈ rb_endpoints N sink development t t' u1 u2 u3 u4 → dget (ep_methods ep) name = Some fn → follow (fn ctx p).
Proof.
  unfold rb_endpoints. intros Hep Hfn. apply dget_elem in Hfn.
  repeat (apply elem_of_cons in Hep as [->|Hep]); [..|by apply not_elem_of_nil in Hep]; cbn [ep_methods] in Hfn;
    repeat (apply elem_of_cons in Hfn as [[= -> ->]|Hfn]); try (by apply not_elem_of_nil in Hfn).
  - apply report_sections.
  - apply send_alert_sections.
  - apply system_alert_sections.
  - unfold alerts_for. sections_steps.
  - apply ack_sections.
  - unfold list_alerts. sections_steps.
  - apply base_sections.
  - apply base_sections.
Qed.

(** ** The log is the alerts *)
(** A request at an endpoint, a turn of the escalation, or a section of either while the
    other threads are at theirs. *)
Inductive rb_move (w w' : report_broker) : Prop :=
| rm_request t t' u1 u2 u3 u4 ep uid pid line resp :
    ep ∈ rb_endpoints N sink development t t' u1 u2 u3 u4 → handle ep uid pid line w = (resp, w') → rb_move w w'
| rm_tick t r : escalate_tick N sink ack_window_s t w = (r, w') → rb_move w w'
| rm_section : section_step w w' → rb_move w w'.
Lemma moves_sections w w' : rtc rb_move w w' → sections w w'.
Proof.
  induction 1 as [w|w w1 w2 Hm _ IH]; [done|]. etrans; [|exact IH]. destruct Hm as [t t' u1 u2 u3 u4 ep uid pid line resp Hep Hh|t r Ht|Hs].
  - apply handle_routed in Hh as [[-> _]|(name & params & fn & r & _ & _ & Hfn & Hrun & _)]; [done|]. by eapply endpoint_sections.
  - by eapply tick_sections.
  - by apply rtc_once.
Qed.

Lemma load_snoc alerts l ev : load_alerts alerts (l ++ [ev]) = (a ← load_alerts alerts l; load_line a ev).
Proof.
  revert alerts. induction l as [|x l IH]; intros alerts; cbn [load_alerts app].
  - cbn. by destruct (load_line alerts ev).
  - destruct (load_line alerts x); cbn; [apply IH|done].
Qed.
Lemma load_sent alerts id a : dget a "alert_id" = Some (VStr id) → load_line alerts (sent_line a) = Ok (dset alerts id a).
Proof. intros Ha. cbn. by rewrite Ha. Qed.
Lemma load_update alerts id a upd : dget alerts id = Some a → load_line alerts (update_line (VStr id) upd) = Ok (dset alerts id (dupdate a upd)).
Proof. intros Ha. cbn. by rewrite Ha. Qed.
Lemma section_log w w' : load_alerts [] (rb_log w) = Ok (rb_alerts w) → section_step w w' → load_alerts [] (rb_log w') = Ok (rb_alerts w').
Proof.
  intros Hl [-> -> |id a [Ha _ _ _] -> ->|id a upd Ha _ -> ->]; [done|..]; rewrite load_snoc, Hl; cbn [mbind result_bind].
  - by apply load_sent.
  - by apply load_update.
Qed.

(** C19: roundtrip. Alerts survive a restart: whatever requests came in at its sockets and
    however the escalation went, section by section interleaved, reading the log gives the
    alerts that were in memory, acknowledgements, repeats and escalations included. *)
Theorem alerts_survive_restart w0 w : load_alerts [] (rb_log w0) = Ok (rb_alerts w0) → rtc rb_move w0 w →
  load_alerts [] (rb_log w) = Ok (rb_alerts w).
Proof.
  intros H0 Hm%moves_sections. induction Hm as [w|w w1 w2 Hs _ IH]; [done|]. apply IH. by eapply section_log.
Qed.

(** ** Escalation *)
Record alerts_ok (w : report_broker) : Prop := {
  ao_recorded id a : dget (rb_alerts w) id = Some a → recorded id a;
  ao_keys : NoDup (dkeys (rb_alerts w)) }.
Lemma update_get upd a k : update upd → dget (dupdate a upd) k = match dget upd k with Some v => Some v | None => dget a k end.
Proof.
  intros Hu. destruct Hu; unfold dupdate; cbn [fold_left fst snd]; cbn [dget];
    repeat (match goal with |- context [String.eqb k ?s] => destruct (String.eqb_spec k s) as [->|] end; rewrite ?dget_dset_ne by done; rewrite ?dget_dset_eq; try done).
Qed.
Lemma update_recorded id a upd : update upd → recorded id a → recorded id (dupdate a upd).
Proof.
  intros Hu [H1 H2 [b Hb] H4]. split; rewrite (update_get _ _ _ Hu); destruct Hu; cbn; eauto; try by exists t.
Qed.
Lemma section_ok w w' : alerts_ok w → section_step w w' → alerts_ok w'.
Proof.
  intros [Hr Hk] [Ha _|id a Hrec Ha _|id a upd Hget Hu Ha _]; split; rewrite Ha; try done; try (by apply dkeys_dset).
  - intros id' a' H. destruct (decide (id' = id)) as [->|Hne]; [rewrite dget_dset_eq in H; by injection H as <-|].
    rewrite dget_dset_ne in H by done. by apply Hr.
  - intros id' a' H. destruct (decide (id' = id)) as [->|Hne]; [|rewrite dget_dset_ne in H by done; by apply Hr].
    rewrite dget_dset_eq in H. injection H as <-. apply update_recorded; [done|by apply Hr].
Qed.
Lemma sections_ok w w' : alerts_ok w → sections w w' → alerts_ok w'.
Proof. intros Hok Hs. induction Hs as [w|w w1 w2 Hs _ IH]; [done|]. apply IH. by eapply section_ok. Qed.

Section escalation.
(** The audit client buffers: a submission never raises. *)
Context (audit_takes : ∀ tr data, list.last tr = Some (EvRpc "audit" "submit" data) → ∃ v, n_answer N tr = Ok v).

Lemma rb_audit_run cap event data w : ∃ ref b, rb_audit N cap event data w = (Ok ref, with_base b w).
Proof using audit_takes.
  unfold rb_audit, base, br_audit. cbv zeta. set (params := audit_params _ _ _ _).
  destruct (call_rpc N "audit" "submit" params (rb_base w)) as [r b] eqn:Hc. pose proof Hc as Hrun. apply call_rpc_run in Hc as [-> ->].
  rewrite cl_calls_log in Hrun. destruct (audit_takes (cl_calls (rb_base w) ++ [EvRpc "audit" "submit" params]) params) as [v Hv]; [by rewrite last_snoc|].
  rewrite Hv in Hrun. rewrite (bind_run _ _ _ _ _ Hrun). by eexists _, _.
Qed.
Lemma rb_update_run id upd w a : dget (rb_alerts w) id = Some a →
  ∃ w', rb_update N id upd w = (Ok tt, w') ∧ rb_alerts w' = dset (rb_alerts w) id (dupdate a upd) ∧ rb_sends w' = rb_sends w.
Proof using audit_takes.
  intros Ha. unfold rb_update, update_alert. rewrite modify_bind, Ha.
  set (w1 := with_alerts _ _ _). destruct (rb_audit_run None "alert" ([("alert_id", VStr id)] ++ List.filter (λ kv : string * val, is_bool kv.2) upd) w1) as (ref & b & Hrun).
  rewrite (bind_run _ _ _ _ _ Hrun). by eexists.
Qed.
(** What a delivery and its update come to: both happen, or neither. *)
Lemma deliver_alert_run target prefix a id upd w : dget (rb_alerts w) id = Some a → let
  m := (b ← lift (titled prefix a); deliver sink target b) in
  ∃ w', unless_raised m (rb_update N id upd) w = (Ok tt, w') ∧
    (rb_alerts w' = rb_alerts w ∨ rb_alerts w' = dset (rb_alerts w) id (dupdate a upd)) ∧ (∃ l, rb_sends w' = rb_sends w ++ l) ∧
    (∀ b v, titled prefix a = Ok b → sink (rb_sends w ++ [(target, b)]) = Ok v →
       rb_alerts w' = dset (rb_alerts w) id (dupdate a upd) ∧ rb_sends w' = rb_sends w ++ [(target, b)]).
Proof using audit_takes.
  intros Ha. cbv zeta. unfold unless_raised. destruct (titled prefix a) as [b|e] eqn:Ht.
  - set (w1 := with_send target b w). destruct (sink (rb_sends w1)) as [v|e] eqn:Hs.
    + destruct (rb_update_run id upd w1 a Ha) as (w' & Hrun & Ha' & Hs'). exists w'. split_and!; [|by right|by exists [(target, b)]|].
      * rewrite (bind_run _ _ _ true w1); [exact Hrun|]. unfold catch. erewrite bind_run; [done|]. rewrite lift_bind. unfold deliver.
        rewrite modify_bind, get_bind. fold w1. unfold lift. by rewrite Hs.
      * intros b' v' [= <-] _. done.
    + exists w1. split_and!; [|by left|by exists [(target, b)]|].
      * rewrite (bind_run _ _ _ false w1); [done|]. unfold catch. erewrite bind_raises; [done|]. rewrite lift_bind. unfold deliver.
        rewrite modify_bind, get_bind. fold w1. unfold lift. by rewrite Hs.
      * intros b' v' [= <-] Hv. change (rb_sends w1) with (rb_sends w ++ [(target, b)]) in Hs. congruence.
  - exists w. split_and!; [|by left|exists []; by rewrite app_nil_r|done]. rewrite (bind_run _ _ _ false w); [done|]. unfold catch.
    rewrite (bind_raises _ _ w e w); [done|]. by rewrite lift_bind.
Qed.

(** A turn takes every alert in its turn, whatever the sink does, and touches no other. *)
Definition turned (id : string) (w w' : report_broker) : Prop :=
  alerts_ok w' ∧ dkeys (rb_alerts w') = dkeys (rb_alerts w) ∧ (∀ id', id' ≠ id → dget (rb_alerts w') id' = dget (rb_alerts w) id') ∧
  ∃ l, rb_sends w' = rb_sends w ++ l.
Lemma dkeys_dset_in {A} (d : list (string * A)) k v : dmem d k = true → dkeys (dset d k v) = dkeys d.
Proof.
  unfold dmem. induction d as [|[k' v'] d IH]; cbn; [done|]. destruct (String.eqb_spec k k') as [->|Hne]; cbn; [done|].
  intros H. f_equal. by apply IH.
Qed.
Lemma turned_refl id w : alerts_ok w → turned id w w.
Proof. intros Hok. split_and!; try done. exists []. by rewrite app_nil_r. Qed.
Lemma turned_update id w w' a upd l : alerts_ok w → dget (rb_alerts w) id = Some a → update upd →
  rb_alerts w' = rb_alerts w ∨ rb_alerts w' = dset (rb_alerts w) id (dupdate a upd) → rb_sends w' = rb_sends w ++ l → turned id w w'.
Proof.
  intros Hok Ha Hu Hw Hl. assert (alerts_ok w') as Hok'.
  { destruct Hok as [Hr Hk]. destruct Hw as [Hw|Hw]; split; rewrite Hw; try done; [|by apply dkeys_dset].
    intros id' a'. destruct (decide (id' = id)) as [->|Hne]; [rewrite dget_dset_eq|rewrite dget_dset_ne by done; apply Hr].
    intros [= <-]. apply update_recorded; [done|by apply Hr]. }
  split_and!; [done| | |by exists l].
  - destruct Hw as [->| ->]; [done|]. apply dkeys_dset_in. unfold dmem. by rewrite Ha.
  - intros id' Hne. destruct Hw as [->| ->]; [done|]. by rewrite dget_dset_ne.
Qed.
Lemma sent_ts_recorded id a : recorded id a → ∃ q, sent_ts a = Ok q.
Proof. intros [_ [q Hq] _ _]. exists q. unfold sent_ts. by rewrite Hq. Qed.
Lemma escalate_one_run t id w : alerts_ok w → ∃ w', escalate_one N sink ack_window_s t id w = (Ok tt, w') ∧ turned id w w'.
Proof using audit_takes.
  intros Hok. unfold escalate_one. rewrite get_bind. destruct (dget (rb_alerts w) id) as [a|] eqn:Ha; [|exists w; split; [done|by apply turned_refl]].
  destruct (_ || _ || _); [exists w; split; [done|by apply turned_refl]|]. pose proof (ao_recorded _ Hok _ _ Ha) as Hrec.
  destruct (sent_ts_recorded _ _ Hrec) as [ts Hts]. rewrite Hts, lift_bind. destruct (rc_resent _ _ Hrec) as [b Hb].
  unfold dindex_. rewrite Hb. cbn [of_opt]. rewrite lift_bind. destruct (_ && _).
  - destruct (deliver_alert_run "primary" "RE-SENT (unacknowledged): " a id [("resent", VBool true); ("resent_ts", VFloat t)] w Ha)
      as (w' & Hrun & Hw & [l Hl] & _). exists w'. split; [exact Hrun|]. eapply turned_update; try done. constructor.
  - destruct (truthy (VBool b)); [|exists w; split; [done|by apply turned_refl]].
    assert (∃ q, (match dget a "resent_ts" with Some v => of_opt (num_of v) (PyExc "TypeError") | None => Ok t end) = Ok q) as [q Hq].
    { pose proof (rc_resent_ts _ _ Hrec) as Hr. destruct (dget a "resent_ts") as [v|]; [|by exists t]. destruct Hr as [q Hq]. exists q. by rewrite Hq. }
    rewrite Hq, lift_bind. destruct (Qltb _ _); [|exists w; split; [done|by apply turned_refl]].
    destruct (deliver_alert_run "backup" "ESCALATED to backup operator: " a id [("escalated", VBool true); ("escalated_ts", VFloat t)] w Ha)
      as (w' & Hrun & Hw & [l Hl] & _). exists w'. split; [exact Hrun|]. eapply turned_update; try done. constructor.
Qed.
Lemma escalate_others t ids id w : alerts_ok w → id ∉ ids →
  ∃ w', for_each (escalate_one N sink ack_window_s t) ids w = (Ok tt, w') ∧ alerts_ok w' ∧ dkeys (rb_alerts w') = dkeys (rb_alerts w) ∧
    dget (rb_alerts w') id = dget (rb_alerts w) id ∧ ∃ l, rb_sends w' = rb_sends w ++ l.
Proof using audit_takes.
  revert w. induction ids as [|i ids IH]; intros w Hok Hid; cbn [for_each].
  - exists w. split_and!; try done. exists []. by rewrite app_nil_r.
  - apply not_elem_of_cons in Hid as [Hne Hid]. destruct (escalate_one_run t i w Hok) as (w1 & Hrun & Hok1 & Hk1 & Hg1 & l1 & Hl1).
    destruct (IH w1 Hok1 Hid) as (w2 & Hrun2 & Hok2 & Hk2 & Hg2 & l2 & Hl2). exists w2. rewrite (bind_run _ _ _ _ _ Hrun). split_and!; try done.
    + by rewrite Hk2.
    + by rewrite Hg2, Hg1.
    + exists (l1 ++ l2). by rewrite Hl2, Hl1, (assoc_L app).
Qed.

(** An alert, as the escalation finds it. *)
Definition unanswered (a : dict) : Prop :=
  truthy (dget_none a "needs_ack") = true ∧ truthy (dget_none a "acked") = false ∧ truthy (dget_none a "escalated") = false.
(** The sink delivers this alert. *)
Definition delivers (id : string) : Prop := ∀ l target b, dget b "alert_id" = Some (VStr id) → ∃ v, sink (l ++ [(target, b)]) = Ok v.
Definition has_title (a : dict) : Prop := ∃ s, default (VStr "") (dget a "title") = VStr s.
Lemma titled_run prefix id a : recorded id a → has_title a → ∃ b, titled prefix a = Ok b ∧ dget b "alert_id" = Some (VStr id).
Proof.
  intros [Hid _ _ _] [s Hs]. exists (dset a "title" (VStr (prefix +:+ s))). unfold titled. rewrite Hs. split; [done|].
  by rewrite dget_dset_ne.
Qed.
(** The turn that repeats the alert, and the one that goes to the backup. *)
Lemma resend_turn t id w a ts : alerts_ok w → dget (rb_alerts w) id = Some a → unanswered a → dget a "resent" = Some (VBool false) →
  sent_ts a = Ok ts → has_title a → delivers id → Qltb ack_window_s (t - ts) = true →
  ∃ w', escalate_one N sink ack_window_s t id w = (Ok tt, w') ∧ turned id w w' ∧
    dget (rb_alerts w') id = Some (dupdate a [("resent", VBool true); ("resent_ts", VFloat t)]).
Proof using audit_takes.
  intros Hok Ha (Hn & Hk & He) Hr Hts Ht Hd Hold. destruct (escalate_one_run t id w Hok) as (w' & Hrun & Hturn). exists w'. split_and!; [done..|].
  unfold escalate_one in Hrun. rewrite get_bind, Ha, Hn, Hk, He in Hrun. cbn [negb orb] in Hrun. rewrite Hts, lift_bind in Hrun. unfold dindex_ in Hrun.
  rewrite Hr in Hrun. cbn [of_opt] in Hrun. rewrite lift_bind, Hold in Hrun. cbn [truthy negb andb] in Hrun.
  destruct (titled_run "RE-SENT (unacknowledged): " id a (ao_recorded _ Hok _ _ Ha) Ht) as (b & Hb & Hid).
  destruct (Hd (rb_sends w) "primary" b Hid) as [v Hv].
  destruct (deliver_alert_run "primary" "RE-SENT (unacknowledged): " a id [("resent", VBool true); ("resent_ts", VFloat t)] w Ha) as (w1 & Hrun1 & _ & _ & Hdone).
  destruct (Hdone b v Hb Hv) as [Hal _]. assert (w1 = w') as <- by congruence. by rewrite Hal, dget_dset_eq.
Qed.
Lemma escalate_turn t t1 id w a : alerts_ok w → dget (rb_alerts w) id = Some a → unanswered a → dget a "resent" = Some (VBool true) →
  dget a "resent_ts" = Some (VFloat t1) → has_title a → delivers id → Qltb ack_window_s (t - t1) = true →
  ∃ w' b, escalate_one N sink ack_window_s t id w = (Ok tt, w') ∧ turned id w w' ∧
    dget (rb_alerts w') id = Some (dupdate a [("escalated", VBool true); ("escalated_ts", VFloat t)]) ∧
    ("backup", b) ∈ rb_sends w' ∧ dget b "alert_id" = Some (VStr id).
Proof using audit_takes.
  intros Hok Ha (Hn & Hk & He) Hr Hrt Ht Hd Hold. destruct (escalate_one_run t id w Hok) as (w' & Hrun & Hturn).
  destruct (titled_run "ESCALATED to backup operator: " id a (ao_recorded _ Hok _ _ Ha) Ht) as (b & Hb & Hid). exists w', b.
  assert (dget (rb_alerts w') id = Some (dupdate a [("escalated", VBool true); ("escalated_ts", VFloat t)]) ∧ rb_sends w' = rb_sends w ++ [("backup", b)]) as [Hal Hs].
  { unfold escalate_one in Hrun. rewrite get_bind, Ha, Hn, Hk, He in Hrun. cbn [negb orb] in Hrun.
    destruct (sent_ts_recorded _ _ (ao_recorded _ Hok _ _ Ha)) as [ts Hts]. rewrite Hts, lift_bind in Hrun. unfold dindex_ in Hrun.
    rewrite Hr in Hrun. cbn [of_opt] in Hrun. rewrite lift_bind in Hrun. cbn [truthy negb andb] in Hrun. rewrite Hrt in Hrun. cbn [num_of of_opt] in Hrun.
    rewrite lift_bind, Hold in Hrun. destruct (Hd (rb_sends w) "backup" b Hid) as [v Hv].
    destruct (deliver_alert_run "backup" "ESCALATED to backup operator: " a id [("escalated", VBool true); ("escalated_ts", VFloat t)] w Ha) as (w1 & Hrun1 & _ & _ & Hdone).
    destruct (Hdone b v Hb Hv) as [Hal Hs]. assert (w1 = w') as <- by congruence. by rewrite Hal, dget_dset_eq. }
  split_and!; try done. rewrite Hs. apply elem_of_app. right. by left.
Qed.

Lemma for_each_app {S A} (f : A → M S exn unit) l1 l2 s s1 : for_each f l1 s = (Ok tt, s1) → for_each f (l1 ++ l2) s = for_each f l2 s1.
Proof.
  revert s. induction l1 as [|x l1 IH]; intros s; cbn [for_each app]; [by intros [= ->]|]. unfold mbind, M_bind.
  destruct (f x s) as [[[]|e] s2]; [apply IH|done].
Qed.
(** What one alert's turn does, the whole turn does. *)
Lemma tick_turn t id w (P : report_broker → Prop) : alerts_ok w → id ∈ dkeys (rb_alerts w) →
  (∀ w1, alerts_ok w1 → dget (rb_alerts w1) id = dget (rb_alerts w) id → ∃ w2, escalate_one N sink ack_window_s t id w1 = (Ok tt, w2) ∧ turned id w1 w2 ∧ P w2) →
  (∀ w2 w3, P w2 → dget (rb_alerts w3) id = dget (rb_alerts w2) id → (∃ l, rb_sends w3 = rb_sends w2 ++ l) → P w3) →
  ∃ w', escalate_tick N sink ack_window_s t w = (Ok tt, w') ∧ alerts_ok w' ∧ P w'.
Proof using audit_takes.
  intros Hok Hid Hone Hkeep. unfold escalate_tick. rewrite get_bind. pose proof (ao_keys _ Hok) as Hnd.
  apply list_elem_of_split in Hid as (l1 & l2 & Hl). rewrite Hl in *. apply list.NoDup_app in Hnd as (_ & Hnot & [Hnot2 _]%list.NoDup_cons).
  assert (id ∉ l1) as Hnot1 by (intros Hin; by apply (Hnot id Hin); left).
  destruct (escalate_others t l1 id w Hok Hnot1) as (w1 & Hrun1 & Hok1 & _ & Hg1 & _).
  destruct (Hone w1 Hok1 Hg1) as (w2 & Hrun2 & (Hok2 & _ & _ & _) & HP2).
  destruct (escalate_others t l2 id w2 Hok2 Hnot2) as (w3 & Hrun3 & Hok3 & _ & Hg3 & Hl3).
  exists w3. rewrite (for_each_app _ _ _ _ _ Hrun1). cbn [for_each]. rewrite (bind_run _ _ _ _ _ Hrun2). split_and!; [done..|]. by eapply Hkeep.
Qed.
Lemma get_dkeys {A} (d : list (string * A)) k v : dget d k = Some v → k ∈ dkeys d.
Proof. intros H%dget_elem. by apply (list_elem_of_fmap_2 fst _ (k, v)). Qed.
Lemma updated_title a upd : update upd → has_title a → has_title (dupdate a upd).
Proof. intros Hu [s Hs]. exists s. rewrite (update_get _ _ _ Hu). by destruct Hu. Qed.
Lemma updated_unanswered a t : unanswered a → unanswered (dupdate a [("resent", VBool true); ("resent_ts", VFloat t)]).
Proof. unfold unanswered, dget_none. rewrite !(update_get _ _ _ (up_resent t)). done. Qed.

(** C18: liveness. An alert nobody acknowledges reaches the backup operator: once it has
    waited longer than the window, the next turn repeats it; once it has waited longer
    than the window again, whatever requests came in between, the next turn sends it to
    the backup. Other alerts that cannot be delivered do not hold it up, provided this one
    can be and the audit client takes what it is given. *)
Theorem unacked_alert_escalates w0 w w1 w2 w3 r1 r2 id a ts t1 t2 :
  rb_alerts w0 = [] → rtc rb_move w0 w →
  dget (rb_alerts w) id = Some a → unanswered a → dget a "resent" = Some (VBool false) → sent_ts a = Ok ts → has_title a → delivers id →
  (ack_window_s < t1 - ts)%Q → escalate_tick N sink ack_window_s t1 w = (r1, w1) →
  rtc rb_move w1 w2 → dget (rb_alerts w2) id = dget (rb_alerts w1) id →
  (ack_window_s < t2 - t1)%Q → escalate_tick N sink ack_window_s t2 w2 = (r2, w3) →
  r1 = Ok tt ∧ r2 = Ok tt ∧ (∃ a3, dget (rb_alerts w3) id = Some a3 ∧ dget a3 "escalated" = Some (VBool true)) ∧
  ∃ b, ("backup", b) ∈ rb_sends w3 ∧ dget b "alert_id" = Some (VStr id).
Proof using audit_takes.
  intros H0 Hm Ha Hun Hr Hts Hti Hd Hw1 Htick1 Hm2 Hsame Hw2 Htick2. apply Qltb_lt in Hw1, Hw2.
  assert (alerts_ok w) as Hok.
  { eapply sections_ok; [|by apply moves_sections]. split; rewrite H0; [done|constructor]. }
  set (a1 := dupdate a [("resent", VBool true); ("resent_ts", VFloat t1)]).
  destruct (tick_turn t1 id w (λ w', dget (rb_alerts w') id = Some a1) Hok (get_dkeys _ _ _ Ha)) as (w1' & Hrun1 & Hok1 & Ha1).
  { intros w' Hok' Hg. rewrite Ha in Hg. by apply (resend_turn t1 id w' a ts). }
  { intros w' w'' HP Hg _. by rewrite Hg. }
  rewrite Hrun1 in Htick1. injection Htick1 as <- <-.
  assert (alerts_ok w2) as Hok2 by (eapply sections_ok; [exact Hok1|by apply moves_sections]). rewrite Ha1 in Hsame.
  set (P := λ w' : report_broker, (∃ a3, dget (rb_alerts w') id = Some a3 ∧ dget a3 "escalated" = Some (VBool true)) ∧
              ∃ b, ("backup", b) ∈ rb_sends w' ∧ dget b "alert_id" = Some (VStr id)).
  destruct (tick_turn t2 id w2 P Hok2 (get_dkeys _ _ _ Hsame)) as (w3' & Hrun2 & _ & HP).
  { intros w' Hok' Hg. rewrite Hsame in Hg.
    destruct (escalate_turn t2 t1 id w' a1 Hok' Hg) as (w'' & b & Hrun & Hturn & Hal & Hb & Hid); try done.
    - by apply updated_unanswered.
    - unfold a1. by rewrite (update_get _ _ _ (up_resent t1)).
    - unfold a1. by rewrite (update_get _ _ _ (up_resent t1)).
    - apply updated_title; [constructor|done].
    - exists w''. split_and!; try done. split; [|by exists b]. eexists. split; [exact Hal|]. by rewrite (update_get _ _ _ (up_escalated t2)). }
  { intros w' w'' [(a3 & Ha3 & He) (b & Hb & Hid)] Hg [l Hl]. split; [exists a3; by rewrite Hg|]. exists b. rewrite Hl. split; [apply elem_of_app; by left|done]. }
  rewrite Hrun2 in Htick2. injection Htick2 as <- <-. destruct HP. by split_and!.
Qed.
End escalation.
End handlers.
