(* ===== verification/AlertProps.v ===== *)
(** * What an alert says

    The reporter, a language model, asks for an alert; the fields that say what happened
    are those of the record the store holds, whatever it writes in its summary. *)
From S2P Require Import Prelude PyVal Schema Canonical Json PyConv Keyed Tools Transitions Tokens Rpc Fold Store StoreSpec AuditChain AuditClient Bundle Control Artefacts Client Broker EpisodeBrokerProps ReportBroker.

(** ** What the record says *)
Definition says_verdict (v : verdict) (text : string) : Prop :=
  ∃ fails, failed_checks (vd_checks v) = Ok fails ∧
    text = vd_result v +:+ " on " +:+ vd_target_id v +:+ match fails with [] => "" | _ => " (failed: " +:+ join ", " fails +:+ ")" end.
(** An artefact's id, and what it recommends, or why nothing. *)
Definition says_artefact (x : artefact) (text : string) : Prop :=
  match x with
  | ARec r => rc_action_text r ≠ "" → text = rc_id r +:+ ": " +:+ rc_action_text r
  | ANo n => text = na_id n +:+ ": NO ACTION - " +:+ na_reason n
  end.
(** The alert of a record: its state, the severity of its trigger, the last verdict, the
    artefact that was judged last, the hypothesis ranked first, one of its reports. *)
Record tells (rec : record) (a : dict) : Prop := {
  tl_episode : dget a "episode_id" = Some (VStr (r_episode_id rec));
  tl_state : dget a "state" = Some (opt_val VStr (r_state rec));
  tl_severity trig : r_trigger rec = VDict trig → dget a "severity" = Some (default (VStr "unknown") (dget trig "severity"));
  tl_verdict : ∃ text, dget a "judge_verdict" = Some (VStr text) ∧
    match list.last (r_verdicts rec) with Some v => says_verdict v text | None => text = "none" end;
  tl_artefact : ∃ text, dget a "recommendation" = Some (VStr text) ∧
    match under_judgement rec with Some x => says_artefact x text | None => text = "none" end;
  tl_hypothesis h : top_hypothesis rec = Some h → dget a "top_hypothesis" = Some (VStr ("rank " +:+ py_str (VInt (h_rank h)) +:+ ": " +:+ h_claim h));
  tl_report : ∃ rp : report, rp ∈ r_reports rec ∧ dget a "report" = Some (VStr (rp_ref rp)) ∧ dget a "kind" = Some (VStr (rp_kind rp)) }.

Definition broker_fields : list string := ["alert_id"; "sent_ts"; "development"; "ack"; "acked"; "resent"; "escalated"].
Lemma tells_kept rec a a' : (∀ k, str_in k broker_fields = false → dget a' k = dget a k) → tells rec a → tells rec a'.
Proof. intros Hk [H1 H2 H3 H4 H5 H6 H7]. by split; rewrite ?Hk. Qed.

Lemma or_none_app s c t : or_none (Some (s +:+ String c t)) = VStr (s +:+ String c t).
Proof. unfold or_none. by destruct s. Qed.
Lemma artefact_said x : ∃ text, or_none (Some (artefact_text x)) = VStr text ∧ says_artefact x text.
Proof.
  destruct x as [r|n]; eexists; (split; [by apply or_none_app|]); cbn [says_artefact]; [|done].
  intros Hne. by destruct (String.eqb_spec (rc_action_text r) "").
Qed.

Section alerts.
Context `{HASH : Hash} (N : surroundings) (sink : list (string * dict) → result exn val) (development : bool).

(** ** The view the store serves the broker *)
Lemma view_served v params st r st' f : serves_at N "store-agent-report" v (request_line "read_episode" params) st = (Ok r, st') →
  full_of r = Ok f → ∃ k rec, dget_none (strip_identity params) "episode_id" = VStr k ∧ dget (s_records st) k = Some rec ∧ f = full_view rec.
Proof.
  intros (ep & fn & ctx & Hep & Hfn & Hrun)%serves_at_method Hf. revert Hep. cbn. intros [= <-]. injection Hfn as <-.
  apply bind_Ok in Hrun as (x & s2 & Hread & Hret). apply ret_Ok in Hret as [-> ->]. unfold agent_read in Hread.
  apply bind_Ok in Hread as ([cap rec] & s3 & (k & Hk & Hrec & -> & _)%agent_gate_Ok & Hread). minv Hread. subst. cbn in Hf.
  unfold view_for in Hf. destruct (py_eq _ _); [done|]. injection Hf as <-. by exists k, rec.
Qed.

(** ** Composing it *)
Lemma compose_tells f kind summary (rp : report) bundle a sid : compose N f kind summary (rp_ref rp) bundle = Ok a →
  ∀ rec, f = full_view rec → rp ∈ r_reports rec → kind = VStr (rp_kind rp) → tells rec (dset a "session_id" sid).
Proof.
  intros H rec -> Hrp ->. unfold compose in H. cbn [fv_record] in H. do 4 (apply rbind_Ok in H as (? & _ & H)).
  apply rbind_Ok in H as (verdict & Hv & H). apply rbind_Ok in H as (sev & Hs & H). injection H as <-.
  split; rewrite ?dget_dset_ne by done.
  - done.
  - done.
  - intros trig Ht. cbn. cbn in Hs. rewrite Ht in Hs. unfold py_or in Hs. destruct trig; cbn in Hs; by injection Hs as <-.
  - cbn in Hv |- *. destruct (list.last (r_verdicts rec)) as [v|]; [|injection Hv as <-; exists "none"; split; [reflexivity|reflexivity]].
    unfold verdict_text in Hv. destruct (failed_checks (vd_checks v)) as [fails|] eqn:Hf; [|done]. injection Hv as <-.
    eexists. split; [apply f_equal, (or_none_app (vd_result v))|]. by exists fails.
  - match goal with |- context [dget ?x ?k] => change (dget x k) with (Some (or_none (artefact_text <$> under_judgement rec))) end.
    destruct (under_judgement rec) as [y|]; [|by exists "none"]. destruct (artefact_said y) as (text & Ht & Hsays). exists text. split; [exact (f_equal Some Ht)|done].
  - intros h Hh. cbn. by rewrite Hh.
  - by exists rp.
Qed.
Lemma compose_summary f kind summary ref bundle a : compose N f kind summary ref bundle = Ok a → dget a "summary" = Some (VStr (stake 1500 summary)).
Proof. unfold compose. intros H. do 6 (apply rbind_Ok in H as (? & _ & H)). by injection H as <-. Qed.

(** ** Sending it *)
Lemma base_Ok {A} (m : BM A) w (x : A) w' : base m w = (Ok x, w') → ∃ b, m (rb_base w) = (Ok x, b) ∧ w' = with_base b w.
Proof. unfold base. destruct (m (rb_base w)) as [r b]. intros [= -> <-]. by exists b. Qed.
(** What the base class and the store's socket do leaves the alerts. *)
Lemma base_alerts {A} (m : BM A) w r w' : base m w = (r, w') → rb_alerts w' = rb_alerts w.
Proof. unfold base. destruct (m (rb_base w)) as [r0 b]. by intros [= _ <-]. Qed.

(** The alert that is recorded is the one composed, with what the broker adds. *)
Lemma dispatch_records t t' a w sent w' : rb_dispatch N sink development t t' a w = (Ok sent, w') →
  ∃ id, rb_alerts w' = dset (rb_alerts w) id sent ∧
    ∀ k, str_in k broker_fields = false → dget sent k = dget a k.
Proof.
  unfold rb_dispatch. intros H. apply bind_Ok in H as ([] & w1 & Htake & H).
  assert (rb_alerts w1 = rb_alerts w) as Hw1.
  { unfold take_alert in Htake. apply bind_Ok in Htake as (? & ? & [-> ->]%get_state_Ok & Htake). destruct (_ && _).
    - apply bind_Ok in Htake as (? & ? & _ & Htake). apply bind_Ok in Htake as (? & ? & _ & Htake). discriminate Htake.
    - injection Htake as <-. done. }
  apply bind_Ok in H as (id & w2 & Hid & H). apply (f_equal snd) in Hid. rewrite (readonly_uuid N w1) in Hid. cbn in Hid. subst w2.
  apply bind_Ok in H as (ack & w3 & Hdel & H). assert (rb_alerts w3 = rb_alerts w1) as Hw3.
  { unfold catch in Hdel. destruct (deliver _ _ _ _) as [[v|e] w4] eqn:Hd; [|discriminate Hdel]. injection Hdel as _ <-. by injection Hd as _ <-. }
  apply bind_Ok in H as ([] & w4 & Hrec & H). injection Hrec as <-.
  apply bind_Ok in H as (? & w5 & Haud%base_alerts & H). apply ret_Ok in H as [-> ->]. exists id. split.
  - rewrite Haud. cbn. by rewrite Hw3, Hw1.
  - intros k Hk. unfold dupdate. cbn [fold_left fst snd].
    assert (∀ s, str_in s broker_fields = true → s ≠ k) as Hne by (intros s Hs <-; congruence).
    by rewrite !dget_dset_ne by (by apply Hne).
Qed.

(** An alert tells the record. Whoever asks for it holds a token the broker
    admits for that tool, and what the alert says of the episode's state and severity, of
    the verdict and the artefact it judged, of the first hypothesis and of the report is
    what the store's record of that token's episode says when the broker reads it; of
    what the model wrote it carries the summary alone, as such. *)
Theorem alert_tells_the_record t t' p w v w' id a :
  send_alert N sink development t t' p w = (Ok v, w') → dget (rb_alerts w) id = None → dget (rb_alerts w') id = Some a →
  ∃ cap args tr eid rec summary,
    check_token (br_gate (rb_base w)) (n_now N (br_trace (rb_base w))) (dget_none p "token") (dget_none p "episode_id") VNone = Ok cap ∧
    tool_allowed (c_role cap) "send_alert" = Ok true ∧ c_episode_id cap = VStr eid ∧
    dget (s_records (n_others N tr (br_store (rb_base w)))) eid = Some rec ∧ tells rec a ∧
    args = py_or (dget_none p "args") (VDict []) ∧ vindex args "summary" = Ok (VStr summary) ∧ dget a "summary" = Some (VStr (stake 1500 summary)).
Proof.
  unfold send_alert. intros H Hnew Ha. apply bind_Ok in H as ([cap args] & w1 & (b & Hauth & ->)%base_Ok & H).
  pose proof (authorize_same _ _ _ _ _ _ _ Hauth) as ->. apply authorize_admits in Hauth as (Hcap & Hrole & Hargs & _).
  apply bind_Ok in H as (kind & w2 & [_ ->]%lift_Ok & H). rewrite get_bind in H. destruct (find_first _ _) as [[i x]|].
  { apply lift_Ok in H as [_ ->]. cbn in Ha. congruence. }
  apply bind_Ok in H as (r & w3 & Hcall & H). apply bind_Ok in H as (f & w4 & [Hf ->]%lift_Ok & H).
  apply bind_Ok in H as (ref & w4 & [Href%of_opt_Ok ->]%lift_Ok & H). apply bind_Ok in H as (summary & w4 & [Hsum ->]%lift_Ok & H).
  apply bind_Ok in H as (bundle & w4 & Hb%base_alerts & H). apply bind_Ok in H as (al & w5 & [Hal ->]%lift_Ok & H).
  apply bind_Ok in H as (sent & w5 & Hsent & H). apply lift_Ok in H as [_ ->].
  apply call_store_Ok in Hcall as (e & tr & st' & Hserve & ->). destruct (view_served _ _ _ _ _ _ Hserve Hf) as (eid & rec & Heid & Hrec & ->).
  apply dispatch_records in Hsent as (id' & Hals & Hfields).
  assert (a = sent) as ->.
  { rewrite Hals in Ha. destruct (decide (id = id')) as [->|Hne]; [rewrite dget_dset_eq in Ha; by injection Ha as ->|].
    rewrite dget_dset_ne, Hb in Ha by done. cbn in Ha. congruence. }
  unfold arg_str in Hsum. apply rbind_Ok in Hsum as (sv & Hsv & Hstr%of_opt_Ok). destruct sv; try discriminate Hstr. injection Hstr as ->.
  exists cap, args, tr, eid, rec, summary. refine (conj Hcap (conj Hrole (conj Heid (conj Hrec (conj _ (conj Hargs (conj Hsv _))))))).
  - apply (tells_kept _ (dset al "session_id" (c_session_id cap))); [exact Hfields|].
    apply fmap_Some in Href as (rp & Hlast & ->). apply last_Some_elem_of, list_elem_of_In, filter_In in Hlast as [Hrp Hkind].
    eapply compose_tells; [exact Hal|done|by apply list_elem_of_In|]. by apply py_eq_str_l.
  - rewrite Hfields by done. rewrite dget_dset_ne by done. by eapply compose_summary.
Qed.
End alerts.

(** * An alert, from the reporter's socket to the backup operator

    A reporter stores its report and asks for an alert; nobody acknowledges it. The report
    broker's theorems are instantiated here. *)
From S2P Require Import StoreInv StoreProps Scenario.
From S2P Require Import BundleProps RunnerDemo ReportBrokerProps.

Definition alert_files : bundle_dir := [(["fault_classes.yaml"], "F")].
Definition alert_bundle : string := id_of alert_files.
Definition alert_registry : registry :=
  mkRegistry [(alert_bundle, signed alert_files)] [("k1", demo_trusted)] (Some (alert_bundle +:+ newline)) [mkActivation 10 alert_bundle None "op"] [].
Definition alert_yaml (text : string) : result exn val := Ok (VDict [("by_check", VDict [("delinquent", VStr "validator stopped voting")])]).
Definition alert_surroundings : surroundings := {|
  n_answer := λ _, Ok (VDict [("seq", VInt 7)]); n_store := λ _ s, Some (demo_env (fresh_key s), false); n_others := λ _ s, s;
  n_home := λ _, Ok tt; n_launch := λ _, Ok (mkLaunch (VInt 0) false None EmptyString); n_sandbox := λ _, None;
  n_uuid := λ tr, fmt_id "u" (length tr); n_nonce := λ _, "n0"; n_now := λ _, 100%Q; n_registry := λ _, alert_registry;
  n_chain := λ _, None; n_anchor_keys := []; n_yaml := alert_yaml; n_sign := demo_sign; n_rfc3339 := λ _, "t";
  n_admins := []; n_worker_sockets := []; n_development := false; n_uid := 1000 |}.
Definition demo_sink (l : list (string * dict)) : result exn val := Ok (VStr "delivered").

(** ** The episode, up to its report *)
Definition session_token (role session : string) : string :=
  match mint demo_sign 100 "n0" "ep1" role session alert_bundle 600 with Ok t => t | Err _ => EmptyString end.
Definition writes (n : nat) (role session method : string) (params : dict) : request :=
  call (fmt_id "u" n) "episode_broker" method
    (params ++ [("episode_id", VStr "ep1"); ("token", VStr (session_token role session)); ("idem_key", VStr (fmt_id "k" n))]).
Definition report_store : store := fold_left serve [
  call "ep1" "controller" "open_episode" (dset open_params "bundle_id" (VStr alert_bundle)); signal_request;
  move 3 "controller" "diagnosing" 2; writes 4 "diagnostician" "sess1" "append_hypothesis" hypothesis_params;
  writes 5 "diagnostician" "sess1" "append_hypothesis_status" [("hypothesis_id", VStr "h1"); ("status", VStr "supported"); ("evidence_refs", VList [VStr "s1"])];
  move 6 "controller" "recommending" 5; writes 7 "change_planner" "sess2" "append_recommendation" recommendation_params;
  move 8 "controller" "judging" 7; writes 9 "proposal_judge" "sess3" "append_verdict" verdict_params;
  move 10 "controller" "reporting" 9] init_store.
Definition alert_start : report_broker := mkRB (mkBroker demo_gate [] report_store []) [] [] [] [] [].

Definition tool_params (args : dict) : dict :=
  [("token", VStr (session_token "reporter" "sess4")); ("episode_id", VStr "ep1"); ("args", VDict args)].
Definition tool_line (method : string) (args : dict) : val :=
  VDict [("id", VInt 1); ("method", VStr method); ("params", VDict (tool_params args))].
Definition alert_endpoint : Endpoint report_broker val := default (mkEndpoint EmptyString EmptyString [] [])
  (rb_endpoints (HASH := sum_hash) alert_surroundings demo_sink false 1000 1000 [1000%Z] [1000%Z] [1000%Z] [0%Z] !! 0).
Definition alert_serve (line : val) (w : report_broker) : response val * report_broker := handle alert_endpoint 1000 1 (Some line) w.
Definition report_line : val := tool_line "write_incident_report" [("kind", VStr "incident"); ("markdown", VStr "# Delinquent")].
Definition alert_args : dict := [("kind", VStr "incident"); ("summary", VStr "all is well, the judge approved everything")].
Definition reported : report_broker := (alert_serve report_line alert_start).2.
Definition alerted : report_broker := (alert_serve (tool_line "send_alert" alert_args) reported).2.
Definition demo_id : string := match rb_alerts alerted with (id, _) :: _ => id | [] => EmptyString end.
Definition demo_alert : dict := default [] (dget (rb_alerts alerted) demo_id).
Lemma demo_alerted : dget (rb_alerts alerted) demo_id = Some demo_alert.
Proof. vm_compute. reflexivity. Qed.

Example the_alert :
  map (dget_none demo_alert) ["severity"; "fault_class"; "recommendation"; "judge_verdict"; "summary"] =
  map VStr ["page"; "validator stopped voting"; "r1: restart the validator"; "PASS on r1"; "all is well, the judge approved everything"].
Proof. vm_compute. reflexivity. Qed.

(** ** The theorems, here *)
Abbreviation demo_move := (rb_move (HASH := sum_hash) alert_surroundings demo_sink 300 false).
Lemma demo_moves : rtc demo_move alert_start alerted.
Proof.
  apply (rtc_l _ _ reported); [|apply rtc_once].
  - apply (rm_request (HASH := sum_hash) alert_surroundings demo_sink 300 false alert_start reported 1000 1000 [1000%Z] [1000%Z] [1000%Z] [0%Z]
      alert_endpoint 1000 1 (Some report_line) (alert_serve report_line alert_start).1); [left|]. unfold reported. exact (surjective_pairing _).
  - apply (rm_request (HASH := sum_hash) alert_surroundings demo_sink 300 false reported alerted 1000 1000 [1000%Z] [1000%Z] [1000%Z] [0%Z]
      alert_endpoint 1000 1 (Some (tool_line "send_alert" alert_args)) (alert_serve (tool_line "send_alert" alert_args) reported).1); [left|].
    unfold alerted. exact (surjective_pairing _).
Qed.
Lemma alerts_survive_restart_witness :
  length (rb_log alerted) = 1 ∧ load_alerts [] (rb_log alerted) = Ok (rb_alerts alerted).
Proof.
  split; [vm_compute; reflexivity|].
  exact (alerts_survive_restart (HASH := sum_hash) alert_surroundings demo_sink 300 false alert_start alerted eq_refl demo_moves).
Defined.

Abbreviation demo_send := (send_alert (HASH := sum_hash) alert_surroundings demo_sink false 1000 1000 (tool_params alert_args) reported).
Definition sent_reply : val := match demo_send.1 with Ok v => v | Err _ => VNone end.
Definition sent_end : report_broker := demo_send.2.
Lemma sent_ok : demo_send = (Ok sent_reply, sent_end).
Proof. vm_compute. reflexivity. Qed.
Lemma sent_id : dget (rb_alerts sent_end) demo_id = Some demo_alert.
Proof. vm_compute. reflexivity. Qed.
Lemma sent_new : dget (rb_alerts reported) demo_id = None.
Proof. vm_compute. reflexivity. Qed.
Lemma alert_tells_the_record_witness :
  ∃ cap args tr eid rec summary,
    check_token (br_gate (rb_base reported)) 100 (VStr (session_token "reporter" "sess4")) (VStr "ep1") VNone = Ok cap ∧
    tool_allowed (c_role cap) "send_alert" = Ok true ∧ c_episode_id cap = VStr eid ∧
    dget (s_records (n_others alert_surroundings tr (br_store (rb_base reported)))) eid = Some rec ∧ tells rec demo_alert ∧
    args = py_or (dget_none (tool_params alert_args) "args") (VDict []) ∧ vindex args "summary" = Ok (VStr summary) ∧
    dget demo_alert "summary" = Some (VStr (stake 1500 summary)).
Proof.
  exact (alert_tells_the_record (HASH := sum_hash) alert_surroundings demo_sink false 1000 1000 (tool_params alert_args) reported sent_reply
    sent_end demo_id demo_alert sent_ok sent_new sent_id).
Defined.

Abbreviation demo_tick := (escalate_tick alert_surroundings demo_sink 300).
Definition resent_end : report_broker := (demo_tick 1301 alerted).2.
Definition escalated_end : report_broker := (demo_tick 1602 resent_end).2.
Lemma demo_ticks : demo_tick 1301 alerted = (Ok tt, resent_end) ∧ demo_tick 1602 resent_end = (Ok tt, escalated_end).
Proof. split; vm_compute; reflexivity. Qed.
Lemma demo_unanswered : unanswered demo_alert ∧ dget demo_alert "resent" = Some (VBool false) ∧ sent_ts demo_alert = Ok 1000%Q.
Proof. vm_compute. by split_and!. Qed.
Lemma demo_title : has_title demo_alert.
Proof. eexists. vm_compute. reflexivity. Qed.
Lemma resent_keeps : dget (rb_alerts resent_end) demo_id = dget (rb_alerts resent_end) demo_id.
Proof. reflexivity. Qed.
Lemma demo_audits tr data : list.last tr = Some (EvRpc "audit" "submit" data) → ∃ v, n_answer alert_surroundings tr = Ok v.
Proof. intros _. by eexists. Qed.
Lemma demo_delivers : delivers demo_sink demo_id.
Proof. intros l target b _. by eexists. Qed.
Lemma unacked_alert_escalates_witness :
  map fst (rb_sends escalated_end) = ["primary"; "primary"; "backup"] ∧
  ∃ b, ("backup", b) ∈ rb_sends escalated_end ∧ dget b "alert_id" = Some (VStr demo_id).
Proof.
  split; [vm_compute; reflexivity|].
  pose proof (unacked_alert_escalates (HASH := sum_hash) alert_surroundings demo_sink 300 false demo_audits alert_start alerted resent_end resent_end escalated_end
    (Ok tt) (Ok tt) demo_id demo_alert 1000 1301 1602 eq_refl demo_moves demo_alerted (proj1 demo_unanswered) (proj1 (proj2 demo_unanswered))
    (proj2 (proj2 demo_unanswered)) demo_title demo_delivers ltac:(by vm_compute) (proj1 demo_ticks) (rtc_refl _ _) resent_keeps ltac:(by vm_compute) (proj2 demo_ticks)) as H.
  exact (proj2 (proj2 (proj2 H))).
Defined.
