(* ===== verification/ObserverBrokerProps.v ===== *)
(** * The observer broker's guarantees

    The daemon runs nothing for a worker that was not admitted; what a worker is shown is
    a signal of its episode; the telemetry is a function of the samples taken. *)
From S2P Require Import Prelude PyVal Schema Canonical Json PyConv Keyed Tools Transitions Tokens Rpc Fold Store StoreSpec AuditChain AuditClient Bundle Control Artefacts Client Broker EpisodeBrokerProps ObserverBroker.

(** ** The telemetry of a history *)
Record sample : Type := mkSample { sm_cid : string; sm_status : val; sm_ms : option Q; sm_t : Q }.
Definition of_command (cid : string) (ss : list sample) : list sample := List.filter (λ s, String.eqb (sm_cid s) cid) ss.
Definition lost (s : sample) : bool := py_eq (sm_status s) (VStr "unreachable").
Definition good (s : sample) : bool := py_eq (sm_status s) (VStr "ok").
Definition recent {A} (l : list A) : list A := drop (length l - DEQUE) l.
(** How many of the last samples in a row had no answer. *)
Fixpoint lost_run (n : Z) (ss : list sample) : Z :=
  match ss with [] => n | s :: ss' => lost_run (if lost s then n + 1 else 0) ss' end.
(** The telemetry that samples amount to. *)
Record sums_up (ss : list sample) (m : Telemetry) : Prop := {
  su_outcomes cid : at_key (tm_outcomes m) cid = recent (map sm_status (of_command cid ss));
  su_latency cid : at_key (tm_latency m) cid = recent (omap sm_ms (List.filter (λ s, negb (lost s)) (of_command cid ss)));
  su_last_ok cid : dget (tm_last_ok m) cid = sm_t <$> list.last (List.filter good (of_command cid ss));
  su_lost : tm_consecutive_unreachable m = lost_run 0 ss }.

Lemma push_recent {A} (l : list A) x : push (recent l) x = recent (l ++ [x]).
Proof.
  unfold push, recent. rewrite <- (drop_app_le l [x]) by lia. rewrite length_drop, length_app, drop_drop. f_equal. cbn [length]. lia.
Qed.
Lemma at_push {A} (d : list (string * list A)) k k' x : at_key (push_at d k x) k' = if String.eqb k k' then push (at_key d k) x else at_key d k'.
Proof.
  unfold push_at, at_key. destruct (String.eqb_spec k k') as [->|Hne]; [by rewrite dget_dset_eq|by rewrite dget_dset_ne].
Qed.
Lemma of_command_snoc cid ss s : of_command cid (ss ++ [s]) = of_command cid ss ++ if String.eqb (sm_cid s) cid then [s] else [].
Proof. unfold of_command. rewrite List.filter_app. cbn. by destruct (String.eqb _ _). Qed.
Lemma lost_run_snoc n ss s : lost_run n (ss ++ [s]) = if lost s then (lost_run n ss + 1)%Z else 0%Z.
Proof. revert n. induction ss as [|x ss IH]; intros n; cbn; [done|apply IH]. Qed.
Lemma lost_not_good s : lost s = true → good s = false.
Proof. unfold lost, good. intros H%py_eq_str_r. by rewrite H. Qed.

Definition noted (m : Telemetry) (s : sample) : Telemetry := tm_record (sm_t s) (sm_cid s) (sm_status s) (sm_ms s) m.
Lemma sums_up_snoc ss m s : sums_up ss m → sums_up (ss ++ [s]) (noted m s).
Proof.
  intros [Ho Hl Hk Hr]. unfold noted, tm_record. fold (lost s). fold (good s).
  split; try intros cid; rewrite ?of_command_snoc, ?lost_run_snoc.
  - assert (∀ m', tm_outcomes m' = push_at (tm_outcomes m) (sm_cid s) (sm_status s) → at_key (tm_outcomes m') cid =
      recent (map sm_status (of_command cid ss ++ (if String.eqb (sm_cid s) cid then [s] else [])))) as H.
    { intros m' ->. rewrite at_push, map_app. destruct (String.eqb_spec (sm_cid s) cid) as [<-|]; [|by rewrite app_nil_r].
      cbn. by rewrite Ho, push_recent. }
    by destruct (lost s); apply H.
  - destruct (lost s) eqn:Hs; cbn [tm_latency].
    + rewrite Hl, List.filter_app. destruct (String.eqb _ _); cbn; rewrite ?Hs; cbn; by rewrite app_nil_r.
    + rewrite List.filter_app, omap_app. destruct (sm_ms s) as [q|] eqn:Hq.
      * rewrite at_push. destruct (String.eqb_spec (sm_cid s) cid) as [<-|]; cbn; rewrite ?Hs; cbn; rewrite ?Hq, ?app_nil_r; [|done].
        by rewrite Hl, push_recent.
      * destruct (String.eqb _ _); cbn; rewrite ?Hs; cbn; rewrite ?Hq, ?app_nil_r; done.
  - assert (good s = true → lost s = false) as Hgl by (intros Hg; destruct (lost s) eqn:Hs; [|done]; by rewrite lost_not_good in Hg).
    rewrite List.filter_app. destruct (lost s) eqn:Hs; cbn [tm_last_ok].
    + rewrite Hk. destruct (String.eqb _ _); cbn; rewrite ?(lost_not_good _ Hs); by rewrite app_nil_r.
    + destruct (String.eqb_spec (sm_cid s) cid) as [<-|Hne]; cbn; [|rewrite app_nil_r].
      * destruct (good s); [by rewrite dget_dset_eq, last_snoc|by rewrite app_nil_r].
      * destruct (good s); [by rewrite dget_dset_ne|done].
  - rewrite <- Hr. by destruct (lost s).
Qed.

Section props.
Context `{HASH : Hash} (N : surroundings).
Context (wires : trace → wire) (json_error : string → string) (time_ns : trace → Z).

(** ** The samples of a trace *)
(** What the client makes of what came back of the last call. *)
Definition replied (tr : trace) : string + val * Q :=
  match wires tr with
  | WireError text => inl text
  | WireResponse status body ms =>
      let body := if (slen body <=? MAX_RESPONSE)%N then body else stake (N.to_nat MAX_RESPONSE) body in
      match json_loads body with
      | None => inl (json_error body)
      | Some payload => if (status =? 200)%Z then inr (payload, ms) else inl ("HTTP " +:+ py_str (VInt status) +:+ ": " +:+ py_str payload)
      end
  end.
(** A call of the daemon that asks for a command, or for its health, is one sample: of what
    the daemon answered, or of its silence. *)
Definition sample_at (tr : trace) (e : event) : list sample :=
  match e with
  | EvRpc service method params =>
      if negb (String.eqb service "daemon") then []
      else if String.eqb method "POST /observe" then
        match dget_none params "command_id", replied tr with
        | VStr cid, inl _ => [mkSample cid (VStr "unreachable") None (n_now N tr)]
        | VStr cid, inr (VDict res, ms) => [mkSample cid (default (VStr "error") (dget res "status")) (Some ms) (n_now N tr)]
        | _, _ => []
        end
      else if String.eqb method "GET /health" then
        match replied tr with
        | inl _ => [mkSample "health" (VStr "unreachable") None (n_now N tr)]
        | inr (_, ms) => [mkSample "health" (VStr "ok") (Some ms) (n_now N tr)]
        end
      else []
  | _ => []
  end.
Fixpoint samples_from (past l : trace) : list sample :=
  match l with [] => [] | e :: l' => sample_at (past ++ [e]) e ++ samples_from (past ++ [e]) l' end.
Lemma samples_app past l l' : samples_from past (l ++ l') = samples_from past l ++ samples_from (past ++ l) l'.
Proof.
  revert past. induction l as [|e l IH]; intros past; cbn; [by rewrite app_nil_r|]. by rewrite IH, <- !(assoc_L app).
Qed.

(** Whatever the samples before the calls amount to, those after amount to with theirs. *)
Definition kept_up (w w' : observer_broker) : Prop := ∃ l, br_trace (ob_base w') = br_trace (ob_base w) ++ l ∧
  ∀ ss, sums_up ss (ob_telemetry w) → sums_up (ss ++ samples_from (br_trace (ob_base w)) l) (ob_telemetry w').
#[export] Instance kept_up_preorder : PreOrder kept_up.
Proof.
  split; [intros w; exists []; rewrite app_nil_r; split; [done|]; intros ss H; by rewrite app_nil_r|].
  intros w1 w2 w3 (l1 & Hl1 & H1) (l2 & Hl2 & H2). exists (l1 ++ l2). split; [by rewrite Hl2, Hl1, (assoc_L app)|].
  intros ss Hs%H1%H2. rewrite samples_app, <- Hl1. by rewrite <- (assoc_L app) in Hs.
Qed.
(** A call that is no sample. *)
Definition no_sample (e : event) : Prop := match e with EvRpc service _ _ => service ≠ "daemon" | _ => True end.
Lemma no_sample_at tr e : no_sample e → sample_at tr e = [].
Proof. destruct e; try done. cbn. intros Hne. by destruct (String.eqb_spec service "daemon"). Qed.
#[export] Instance kept_up_follows : Follows no_sample kept_up.
Proof.
  split; [apply kept_up_preorder|intros e w He; exists [e]; split; [done|]|intros st w; exists []; split; [by rewrite app_nil_r|]]; intros ss H; cbn.
  - by rewrite no_sample_at, app_nil_r.
  - by rewrite app_nil_r.
Qed.

(** ** Every operation keeps it up *)
Lemma req_run method path body w : oc_req wires json_error method path body w =
  let w1 := cl_log (EvRpc "daemon" (method +:+ " " +:+ path) body) w in (Ok (replied (cl_calls w1)), w1).
Proof. reflexivity. Qed.
Lemma note_run cid status ms w : tm_note N cid status ms w = (Ok tt, on_telemetry (λ m, noted m (mkSample cid status ms (n_now N (cl_calls w)))) w).
Proof. reflexivity. Qed.
Lemma one_sample e w w' : br_trace (ob_base w') = br_trace (ob_base w) ++ [e] →
  (∀ ss, sums_up ss (ob_telemetry w) → sums_up (ss ++ sample_at (br_trace (ob_base w) ++ [e]) e) (ob_telemetry w')) → kept_up w w'.
Proof. intros Ht Hs. exists [e]. split; [done|]. intros ss H. cbn. rewrite app_nil_r. by apply Hs. Qed.
Lemma sums_up_same ss m m' : tm_last_ok m' = tm_last_ok m → tm_latency m' = tm_latency m → tm_outcomes m' = tm_outcomes m →
  tm_consecutive_unreachable m' = tm_consecutive_unreachable m → sums_up ss m → sums_up ss m'.
Proof. intros H1 H2 H3 H4 [Ho Hl Hk Hr]. split; intros; rewrite ?H1, ?H2, ?H3, ?H4; done. Qed.

Lemma sample_of_observe tr cid l : sample_at tr (EvRpc "daemon" "POST /observe" (("command_id", VStr cid) :: l)) =
  match replied tr with
  | inl _ => [mkSample cid (VStr "unreachable") None (n_now N tr)]
  | inr (VDict res, ms) => [mkSample cid (default (VStr "error") (dget res "status")) (Some ms) (n_now N tr)]
  | inr _ => []
  end.
Proof. reflexivity. Qed.
Lemma sample_of_health tr l : sample_at tr (EvRpc "daemon" "GET /health" l) =
  match replied tr with
  | inl _ => [mkSample "health" (VStr "unreachable") None (n_now N tr)]
  | inr (_, ms) => [mkSample "health" (VStr "ok") (Some ms) (n_now N tr)]
  end.
Proof. reflexivity. Qed.
(** An operation that notes one sample, among changes of what no sample is about. *)
Lemma noted_keeps e s w w' : br_trace (ob_base w') = br_trace (ob_base w) ++ [e] → sample_at (br_trace (ob_base w) ++ [e]) e = [s] →
  let m := noted (ob_telemetry w) s in let m' := ob_telemetry w' in
  tm_last_ok m' = tm_last_ok m → tm_latency m' = tm_latency m → tm_outcomes m' = tm_outcomes m →
  tm_consecutive_unreachable m' = tm_consecutive_unreachable m → kept_up w w'.
Proof. intros Ht Hs m m' H1 H2 H3 H4. apply (one_sample e); [done|]. rewrite Hs. intros ss Hss. eapply (sums_up_same _ m); [done..|by apply sums_up_snoc]. Qed.

Lemma sample_keeps cid args : respects kept_up (ob_sample N wires json_error cid args).
Proof.
  intros w r w' H. unfold ob_sample in H.
  set (l := [("args", py_or args (VDict [])); ("request_id", VStr (n_uuid N (cl_calls w)))]).
  set (e := EvRpc "daemon" "POST /observe" (("command_id", VStr cid) :: l)).
  assert (oc_observe N wires json_error cid args w = (Ok (replied (cl_calls w ++ [e])), cl_log e w)) as Hreq by reflexivity.
  rewrite (bind_run _ _ _ _ _ Hreq) in H. pose proof (sample_of_observe (cl_calls w ++ [e]) cid l) as Hs. fold e in Hs.
  destruct (replied (cl_calls w ++ [e])) as [text|[v ms]].
  - rewrite modify_bind in H. erewrite bind_run in H by apply note_run. injection H as _ <-. by eapply noted_keeps.
  - destruct v as [| | | | | |res]; try (injection H as _ <-; apply (one_sample e); [done|]; intros ss Hss; cbn [cl_calls observer_broker_client] in Hs; by rewrite Hs, app_nil_r).
    erewrite bind_run in H by apply note_run. rewrite modify_bind in H. injection H as _ <-.
    eapply noted_keeps; [|exact Hs|..]; by destruct (String.eqb _ _), (dget_none res "structured").
Qed.
Lemma probe_keeps : respects kept_up (sys_probe N wires json_error).
Proof.
  intros w r w' H. unfold sys_probe in H. set (e := EvRpc "daemon" "GET /health" []).
  assert (oc_health wires json_error w = (Ok (replied (cl_calls w ++ [e])), cl_log e w)) as Hreq by reflexivity.
  rewrite (bind_run _ _ _ _ _ Hreq) in H. pose proof (sample_of_health (cl_calls w ++ [e]) []) as Hs. fold e in Hs.
  destruct (replied (cl_calls w ++ [e])) as [text|[v ms]].
  - rewrite modify_bind in H. erewrite bind_run in H by apply note_run. injection H as _ <-. by eapply noted_keeps.
  - erewrite bind_run in H by apply note_run. destruct v as [| | | | | |h]; cbn [vget] in H; try rewrite lift_bind in H.
    all: injection H as _ <-; by eapply noted_keeps.
Qed.
Lemma checkpoint_keeps since : respects kept_up (oc_checkpoint wires json_error since).
Proof.
  intros w r w' H. unfold oc_checkpoint in H. rewrite (bind_run _ _ _ _ _ (req_run _ _ _ _)) in H. injection H as _ <-.
  match goal with |- context [EvRpc "daemon" ?m ?b] => apply (one_sample (EvRpc "daemon" m b)) end; [done|].
  intros ss Hss. rewrite <- (app_nil_r ss) in Hss. exact Hss.
Qed.
Lemma base_keeps {A} (m : BM A) : respects (adds no_sample) m → respects kept_up (ob_lift m).
Proof.
  intros Hm w r w' H. unfold ob_lift in H. destruct (m (ob_base w)) as [r0 b] eqn:Hb. injection H as _ <-.
  apply Hm in Hb as (l & Hl & Hno). exists l. split; [done|]. intros ss Hss. cbn.
  assert (samples_from (br_trace (ob_base w)) l = []) as ->; [|by rewrite app_nil_r].
  clear Hl. revert Hno. generalize (br_trace (ob_base w)). induction l as [|e l IH]; intros past Hno; [done|].
  inversion_clear Hno. cbn. by rewrite no_sample_at, IH.
Qed.
Lemma calm_adds {A} (m : BM A) : (∀ b r b', m b = (r, b') → br_trace b' = br_trace b) → respects (adds no_sample) m.
Proof. intros Hm b r b' H%Hm. exists []. by rewrite app_nil_r. Qed.
Lemma br_check_adds p : respects (adds no_sample) (br_check N p).
Proof. unfold br_check. client_steps done. Qed.
Lemma br_audit_adds event cap data p : respects (adds no_sample) (br_audit N event cap data p).
Proof. unfold br_audit. client_steps done. Qed.
Lemma authorize_adds p tool : respects (adds no_sample) (authorize N p tool).
Proof. unfold authorize. client_steps done; first [apply br_check_adds|apply br_audit_adds]. Qed.
Lemma br_bundle_adds id : respects (adds no_sample) (br_bundle N id).
Proof. unfold br_bundle. client_steps done. Qed.
Lemma quota_adds kind s limit : respects (adds no_sample) (take_quota kind s limit).
Proof.
  apply calm_adds. intros b r b' H. apply take_run in H as [[-> _]|(_ & _ & ->)]; done.
Qed.
Lemma revoke_adds p : respects (adds no_sample) (br_revoke p).
Proof. apply calm_adds. intros b r b' H. unfold br_revoke in H. by destruct (dget_none p "session_id") as [| | | |[|c s]| |]; injection H as _ <-. Qed.
End props.
#[export] Hint Resolve br_check_adds br_audit_adds authorize_adds br_bundle_adds quota_adds revoke_adds : valops.

(** Takes an operation of the broker apart. *)
Ltac keeps_steps := repeat lazymatch goal with
  | |- respects _ (_ ≫= _) => eapply (follows_bind (Q := no_sample)); [|intros ?]
  | |- respects _ (match ?x with _ => _ end) => destruct x
  | |- respects _ (let _ := _ in _) => cbv zeta
  | |- respects _ (catch_rpc _ _) => eapply (follows_catch_rpc (Q := no_sample)); [|intros ?]
  | |- respects _ (ob_lift _) => apply base_keeps; auto with valops
  | |- respects _ (ob_audit _ _ _ _ _) => apply base_keeps; auto with valops
  | |- respects _ (ob_sample _ _ _ _ _) => apply sample_keeps
  | |- respects _ (oc_checkpoint _ _ _) => apply checkpoint_keeps
  | |- respects _ (call_rpc _ _ _ _) => eapply (follows_rpc _ (Q := no_sample)); done
  | |- respects _ (call_store _ _ _ _) => eapply (follows_store _ (Q := no_sample)); done
  | |- respects _ _ => eapply (follows_readonly (Q := no_sample)); solve [auto 10 with valops]
  end.

Section handlers.
Context `{HASH : Hash} (N : surroundings).
Context (wires : trace → wire) (json_error : string → string) (time_ns : trace → Z).
Abbreviation keeps := (respects (kept_up N wires json_error)).

Lemma tool_keeps tool p : keeps (ob_tool N wires json_error time_ns tool p).
Proof. unfold ob_tool, ob_observe. keeps_steps. Qed.
Lemma forward_keeps : keeps (forward_checkpoint N wires json_error).
Proof. unfold forward_checkpoint. keeps_steps. Qed.
Lemma system_keeps p : keeps (sys_sample N wires json_error p).
Proof. unfold sys_sample. keeps_steps. Qed.

(** ** Its runs *)
Context (worker_uids system_uids controller_uids : list Z).
Abbreviation eps := (ob_endpoints N wires json_error time_ns worker_uids system_uids controller_uids).
(** A request at a socket, or a turn of the checkpoint loop. *)
Inductive ob_move (w w' : observer_broker) : Prop :=
| om_request ep uid pid line resp : ep ∈ eps → handle ep uid pid line w = (resp, w') → ob_move w w'
| om_checkpoint n r : checkpoint_loop N wires json_error n w = (r, w') → ob_move w w'.
Lemma worker_method name fn : dget (map (λ t, (t_name t, λ (_ : Ctx) p, ob_tool N wires json_error time_ns (t_name t) p))
    (List.filter (λ t, String.eqb (t_broker t) "observer") TOOLS)) name = Some fn →
  ∃ spec, TOOLS_BY_NAME name = Some spec ∧ t_broker spec = "observer" ∧ fn = λ _ p, ob_tool N wires json_error time_ns name p.
Proof.
  intros H. cbn in H. repeat match type of H with (if String.eqb name ?s then _ else _) = _ =>
    destruct (String.eqb_spec name s) as [->|]; [injection H as <-; by eexists|] end. done.
Qed.
Lemma endpoint_keeps ep name fn ctx p : ep ∈ eps → dget (ep_methods ep) name = Some fn → keeps (fn ctx p).
Proof.
  unfold ob_endpoints. cbv zeta. intros Hep Hfn. repeat (apply elem_of_cons in Hep as [->|Hep]); [..|by apply not_elem_of_nil in Hep]; cbn [ep_methods] in Hfn.
  1: { apply worker_method in Hfn as (_ & _ & _ & ->). apply tool_keeps. }
  all: apply dget_elem in Hfn; repeat (apply elem_of_cons in Hfn as [[= -> ->]|Hfn]); try (by apply not_elem_of_nil in Hfn).
  - apply system_keeps.
  - unfold sys_telemetry. keeps_steps.
  - apply probe_keeps.
  - apply base_keeps. apply revoke_adds.
  - apply base_keeps. by apply calm_adds; intros b r b' [= _ <-].
Qed.
Lemma loop_keeps n : keeps (checkpoint_loop N wires json_error n).
Proof. induction n as [|n IH]; cbn [checkpoint_loop]; keeps_steps; [apply forward_keeps|apply IH]. Qed.
Lemma moves_keep w w' : rtc ob_move w w' → kept_up N wires json_error w w'.
Proof.
  induction 1 as [w|w w1 w2 Hm _ IH]; [done|]. etrans; [|exact IH]. destruct Hm as [ep uid pid line resp Hep Hh|n r Hl].
  - apply handle_routed in Hh as [[-> _]|(name & ps & fn & r & _ & _ & Hfn & Hrun & _)]; [done|]. by eapply endpoint_keeps.
  - by eapply loop_keeps.
Qed.

(** What the broker tells the controller of its telemetry is what happened.
    Whatever requests it served, one after the other, the outcomes it holds of a command are the last fifty
    of what the daemon answered for it over the wire, silences included, the latencies
    those of the last fifty answers, a command's age is counted from its last good answer,
    and the count of losses in a row is the number of samples, of whatever command, at the
    end of the history that had no answer. *)
Theorem telemetry_is_the_history w0 w : ob_telemetry w0 = new_telemetry → rtc ob_move w0 w →
  ∃ l, br_trace (ob_base w) = br_trace (ob_base w0) ++ l ∧ sums_up (samples_from N wires json_error (br_trace (ob_base w0)) l) (ob_telemetry w).
Proof.
  intros H0 (l & Hl & H)%moves_keep. exists l. split; [done|]. apply (H []). rewrite H0. by split.
Qed.

(** ** What a worker may have the daemon run *)
(** The bundle is signed, and loaded under the id the token carries. *)
Definition bound (cap : Capability) (bundle : Bundle) : Prop := ∃ g id, c_bundle_id cap = VStr id ∧ load_bundle g id = Ok bundle.
(** The command is in its table. *)
Definition in_table (bundle : Bundle) (cid : string) : Prop :=
  ∃ table commands, command_table (n_yaml N) bundle = Ok table ∧ vget table "commands" = Ok commands ∧
    py_contains (py_or commands (VDict [])) (VStr cid) = Ok true.
Definition observe_event (cid : string) (args : val) (id : string) : event :=
  EvRpc "daemon" "POST /observe" [("command_id", VStr cid); ("args", py_or args (VDict [])); ("request_id", VStr id)].
(** A call of the daemon that the capability, the tool and the bundle allow. *)
Definition allowed_observation (cap : Capability) (bundle : Bundle) (tool : string) (args : val) (e : event) : Prop :=
  ∃ spec cid id, TOOLS_BY_NAME tool = Some spec ∧ t_command_id spec = Some cid ∧ in_table bundle cid ∧ e = observe_event cid args id.
Abbreviation only Q := (respects (E := exn) (adds (λ e, no_sample e ∨ Q e))).

Lemma lift_adds {A} (m : BM A) Q : respects (adds no_sample) m → respects (adds (λ e, no_sample e ∨ Q e)) (ob_lift m).
Proof.
  intros Hm w r w' H. unfold ob_lift in H. destruct (m (ob_base w)) as [r0 b] eqn:Hb. injection H as _ <-.
  apply Hm in Hb as (l & Hl & Hno). exists l. split; [done|]. eapply list.Forall_impl; [exact Hno|by left].
Qed.
Lemma ob_lift_Ok {A} (m : BM A) w (x : A) w' : ob_lift m w = (Ok x, w') → ∃ b, m (ob_base w) = (Ok x, b) ∧ w' = ob_with_base b w.
Proof. unfold ob_lift. destruct (m (ob_base w)) as [r b]. intros [= -> <-]. by exists b. Qed.
Lemma bundle_bound cap w bundle w' : br_bundle N (c_bundle_id cap) w = (Ok bundle, w') → bound cap bundle.
Proof.
  unfold br_bundle. intros H. apply bind_Ok in H as (g & w1 & _ & H). apply bind_Ok in H as (id & w2 & [Hid%of_opt_Ok _]%lift_Ok & H).
  apply lift_Ok in H as [H _]. exists g, id. split; [|done]. destruct (c_bundle_id cap); try discriminate Hid. by injection Hid as ->.
Qed.
Lemma store_only Q endpoint method params : only Q (call_store N endpoint method params).
Proof. intros w r w' H%call_store_calls. eexists. split; [exact H|]. constructor; [by left|constructor]. Qed.
Ltac only_steps := repeat lazymatch goal with
  | |- respects _ (_ ≫= _) => apply (respects_bind _ (λ _, True)); [|done|intros ? _]
  | |- respects _ (match ?x with _ => _ end) => destruct x
  | |- respects _ (catch_rpc _ _) => apply (respects_catch _); [|intros [?|?]]
  | |- respects _ (ob_lift _) => apply lift_adds; auto with valops
  | |- respects _ (ob_audit _ _ _ _ _) => apply lift_adds; auto with valops
  | |- respects _ (call_store _ _ _ _) => apply store_only
  | |- respects _ _ => apply (respects_readonly _); solve [auto 10 with valops]
  end.
Lemma sample_only Q cid args : (∀ id, Q (observe_event cid args id)) → only Q (ob_sample N wires json_error cid args).
Proof.
  intros HQ w r w' H. unfold ob_sample in H. set (e := observe_event cid args (n_uuid N (cl_calls w))).
  assert (oc_observe N wires json_error cid args w = (Ok (replied wires json_error (cl_calls w ++ [e])), cl_log e w)) as Hreq by reflexivity.
  rewrite (bind_run _ _ _ _ _ Hreq) in H. exists [e]. split; [|constructor; [right; apply HQ|constructor]].
  destruct (replied _ _ _) as [text|[v ms]]; [by injection H as _ <-|].
  destruct v as [| | | | | |res]; try (by injection H as _ <-). erewrite bind_run in H by apply note_run. rewrite modify_bind in H.
  injection H as _ <-. by destruct (String.eqb _ _), (dget_none res "structured").
Qed.
Lemma observe_only Q cap bundle tool args :
  (∀ spec cid id, TOOLS_BY_NAME tool = Some spec → t_command_id spec = Some cid → in_table bundle cid → Q (observe_event cid args id)) →
  only Q (ob_observe N wires json_error cap bundle tool args).
Proof.
  intros HQ. unfold ob_observe. destruct (String.eqb _ _).
  { apply (respects_bind_ro _); [auto with valops|]. intros t _. apply (respects_bind_ro _); [auto with valops|]. intros w _. by apply (respects_readonly _). }
  apply (respects_bind_ro _); [auto with valops|]. intros spec [_ [Hspec%of_opt_Ok _]%lift_Ok]. apply (respects_bind_ro _); [auto with valops|].
  intros table [_ [Htable _]%lift_Ok]. apply (respects_bind_ro _); [auto with valops|]. intros commands [_ [Hcs _]%lift_Ok].
  apply (respects_bind_ro _); [auto with valops|]. intros known [_ [Hknown _]%lift_Ok]. apply (respects_bind_ro _); [auto with valops|].
  intros [] [_ [Hk _]%require_Ok]. apply (respects_bind_ro _); [auto with valops|]. intros cid [_ [Hcid%of_opt_Ok _]%lift_Ok].
  apply (respects_bind _ (λ _, True)); [apply lift_adds; auto with valops|done|]. intros _ _. apply sample_only. intros id.
  apply (HQ spec); [done..|]. exists table, commands. rewrite Hcid, Hk in Hknown. by split_and!.
Qed.

(** C17: safety. The daemon runs nothing for a worker that was not admitted. Whatever a
    worker asks, every call of the daemon its request causes names the command of the tool
    it asked for, with its arguments; the tool is an observation its token's role has, the
    token is valid for the episode it names, the arguments match the tool's schema, and
    the command is in the table of the bundle that token is bound to, loaded after its
    signature was verified. *)
Theorem observations_are_admitted ep uid pid line w resp w' e : ep ∈ eps → ep_name ep = "observer-broker" →
  handle ep uid pid line w = (resp, w') → e ∈ drop (length (br_trace (ob_base w))) (br_trace (ob_base w')) → ¬ no_sample e →
  ∃ tool p cap args spec cid id bundle,
    request_of line = Some (tool, p) ∧ TOOLS_BY_NAME tool = Some spec ∧ t_broker spec = "observer" ∧ t_command_id spec = Some cid ∧
    check_token (br_gate (ob_base w)) (n_now N (br_trace (ob_base w))) (dget_none p "token") (dget_none p "episode_id") VNone = Ok cap ∧
    tool_allowed (c_role cap) tool = Ok true ∧ args = py_or (dget_none p "args") (VDict []) ∧ validate (t_input_schema spec) args = true ∧
    bound cap bundle ∧ in_table bundle cid ∧ e = observe_event cid args id.
Proof.
  intros Hep Hn Hh He Hno. apply handle_routed in Hh as [[-> _]|(tool & p & fn & r & _ & Hreq & Hfn & Hrun & _)].
  { rewrite drop_all in He. by apply not_elem_of_nil in He. }
  assert (∃ spec, TOOLS_BY_NAME tool = Some spec ∧ t_broker spec = "observer" ∧ fn = λ _ p, ob_tool N wires json_error time_ns tool p) as (spec & Hspec & Hb & ->).
  { unfold ob_endpoints in Hep. cbv zeta in Hep. apply elem_of_cons in Hep as [->|Hep]; [by apply worker_method|].
    repeat (apply elem_of_cons in Hep as [->|Hep]; [discriminate Hn|]). by apply not_elem_of_nil in Hep. }
  set (Q := λ e, ∃ cap args bundle, check_token (br_gate (ob_base w)) (n_now N (br_trace (ob_base w))) (dget_none p "token") (dget_none p "episode_id") VNone = Ok cap ∧
    tool_allowed (c_role cap) tool = Ok true ∧ args = py_or (dget_none p "args") (VDict []) ∧ validate (t_input_schema spec) args = true ∧ bound cap bundle ∧
    allowed_observation cap bundle tool args e).
  assert (adds (λ e, no_sample e ∨ Q e) w w') as (l & Hl & Hadd); [|].
  { unfold ob_tool in Hrun. revert Hrun. apply (bind_at (adds (λ e, no_sample e ∨ Q e))); [apply lift_adds; auto with valops|].
    intros [cap args] w1 (b & Hauth & ->)%ob_lift_Ok. apply authorize_admits in Hauth as (Hcap & Hrole & Hargs & spec' & Hspec' & Hval).
    assert (spec' = spec) as -> by congruence.
    apply (respects_bind _ (bound cap)); [apply lift_adds; auto with valops| |].
    { intros s bundle s' (b' & Hbundle & _)%ob_lift_Ok. by eapply bundle_bound. }
    intros bundle Hbound. only_steps. apply observe_only. intros spec' cid id Hs Hc Ht. exists cap, args, bundle. split_and!; try done. by exists spec', cid, id. }
  change (cl_calls w') with (br_trace (ob_base w')) in Hl. change (cl_calls w) with (br_trace (ob_base w)) in Hl.
  rewrite Hl, drop_app_length in He. pose proof (proj1 (list.Forall_forall _ _) Hadd e He) as [?|(cap & args & bundle & H1 & H2 & H3 & H4 & H5 & spec' & cid & id & H6 & H7 & H8 & H9)]; [done|].
  assert (spec' = spec) as -> by congruence. by exists tool, p, cap, args, spec, cid, id, bundle.
Qed.

(** ** What a worker is shown *)
Lemma appended_signal rec b e : e_body e = BSignal b → r_signals (apply rec e) = r_signals rec ++ [mkSignal b (e_ts e) (e_audit_ref e)].
Proof. intros H. unfold apply. rewrite H. done. Qed.
(** The signal says what the snapshot says. *)
Record says (snap : dict) (sg : signal) : Prop := {
  sy_command : sg_command_id sg = dget_none snap "command_id"; sy_status : sg_status sg = dget_none snap "status";
  sy_summary : sg_summary sg = match dget_none snap "structured" with VNone => dget_none snap "summary" | x => x end }.
Lemma signal_appended v ctx p who session s x s' : append_signal v ctx p who session s = (Ok x, s') →
  ∃ k rec key, dget_none p "episode_id" = VStr k ∧ dget (s_records s) k = Some rec ∧ dget_none p "idem_key" = VStr key ∧
    ((∃ row, find_idem (s_entries s) (r_episode_id rec) key = Some row ∧ x = w_result row ∧ s' = s) ∨
     ∃ rec' sg snap, dget (s_records s') (r_episode_id rec) = Some rec' ∧ r_signals rec' = r_signals rec ++ [sg] ∧
       x = VDict [("signal_id", VStr (sg_id sg))] ∧ py_or (dget_none p "snapshot") (VDict []) = VDict snap ∧ says snap sg).
Proof.
  unfold append_signal. intros H. apply bind_Ok in H as (rec & s1 & (k & Hk & Hrec & ->)%get_record_Ok & H).
  apply bind_Ok in H as (prior & s2 & Hidem & H). apply idem_Ok in Hidem as (key & Hkey & -> & Hprior).
  exists k, rec, key. split_and!; [done..|]. apply unless_prior_run in H as [(Hne & [= ->] & ->)|[_ H]].
  { left. destruct (find_idem _ _ _) as [row|]; [|by subst prior]. by exists row. }
  right. apply bind_Ok in H as ([] & s3 & [_ ->]%require_Ok & H).
  destruct (py_or _ _) as [| | | | | |snap] eqn:Hsnap; try (apply bind_Ok in H as (? & ? & [Hv _]%lift_Ok & _); discriminate Hv).
  repeat (apply bind_Ok in H as (? & ? & [[= <-] ->]%lift_Ok & H) || apply bind_Ok in H as ([] & ? & [_ ->]%require_Ok & H)).
  apply append_run in H as [[[e ?] _]|(bundle & aref & [= ->] & _ & _ & _ & _ & ->)]; [done|].
  eexists _, _, snap. split; [apply dget_dset_eq|]. split; [by apply appended_signal|]. split; [done|]. split; [done|].
  split; [done|done|]. cbn. by destruct (dget_none snap "structured").
Qed.

(** Until the store is called, nothing of it changes. *)
Definition same_store (w w' : observer_broker) : Prop := br_store (ob_base w') = br_store (ob_base w).
#[local] Instance same_store_preorder : PreOrder same_store.
Proof. split; [by intros w|]. intros w1 w2 w3 H1 H2. unfold same_store in *. congruence. Qed.
Lemma lift_same {A} (m : BM A) : (∀ b r b', m b = (r, b') → br_store b' = br_store b) → respects same_store (ob_lift m).
Proof. intros Hm w r w' H. unfold ob_lift in H. destruct (m (ob_base w)) as [r0 b] eqn:Hb. injection H as _ <-. by eapply Hm. Qed.
Lemma audit_same cap event data pl : respects same_store (ob_audit N cap event data pl).
Proof.
  apply lift_same. intros b r b' H. unfold br_audit in H. cbv zeta in H. apply bind_cases in H as [(e & H & _)|(x & b1 & H & Hret)].
  - by apply call_rpc_run in H as [-> _].
  - injection Hret as _ <-. by apply call_rpc_run in H as [-> _].
Qed.
Lemma sample_same cid args : respects same_store (ob_sample N wires json_error cid args).
Proof.
  intros w r w' H. unfold ob_sample in H. destruct (oc_observe N wires json_error cid args w) as [[x|e] w1] eqn:Ho; [|discriminate Ho].
  rewrite (bind_run _ _ _ _ _ Ho) in H. assert (same_store w w1) as Hw by (by injection Ho as _ <-). unfold same_store in *. rewrite <- Hw.
  destruct x as [text|[v ms]]; [by injection H as _ <-|]. destruct v as [| | | | | |res]; try (by injection H as _ <-).
  erewrite bind_run in H by apply note_run. rewrite modify_bind in H. injection H as _ <-. by destruct (String.eqb _ _), (dget_none res "structured").
Qed.
Lemma observe_same cap bundle tool args : respects same_store (ob_observe N wires json_error cap bundle tool args).
Proof.
  unfold ob_observe. destruct (String.eqb _ _).
  { do 2 (apply (respects_bind _ (λ _, True)); [by apply (respects_readonly _); auto with valops|done|intros ? _]). by apply (respects_readonly _). }
  repeat (apply (respects_bind _ (λ _, True)); [first [apply audit_same|apply (respects_readonly _); solve [auto with valops]]|done|intros ? _]).
  apply sample_same.
Qed.

(** What a worker is shown is a signal of its episode. When a tool answers,
    the token was valid for the episode and the store, at its own socket and after checking
    the token again, holds under the identifier in the answer a signal appended for it,
    with the status in the answer and, as its content, the structure in the answer; or the
    request repeats the key of an earlier one of the session, and then nothing is written
    and the identifier is the one that request was given. *)
Theorem answers_are_signals tool p w answer w' : ob_tool N wires json_error time_ns tool p w = (Ok answer, w') →
  ∃ cap eid tr rec key, let st := n_others N tr (br_store (ob_base w)) in let st' := br_store (ob_base w') in
    check_token (br_gate (ob_base w)) (n_now N (br_trace (ob_base w))) (dget_none p "token") (dget_none p "episode_id") VNone = Ok cap ∧
    c_episode_id cap = VStr eid ∧ dget (s_records st) eid = Some rec ∧
    ((∃ row, find_idem (s_entries st) (r_episode_id rec) key = Some row ∧ vindex (w_result row) "signal_id" = vindex answer "signal_id" ∧ st' = st) ∨
     ∃ rec' sg, dget (s_records st') (r_episode_id rec) = Some rec' ∧ r_signals rec' = r_signals rec ++ [sg] ∧
       vindex answer "signal_id" = Ok (VStr (sg_id sg)) ∧ vindex answer "status" = Ok (sg_status sg) ∧
       (vindex answer "structured" = Ok (sg_summary sg) ∨ vindex answer "structured" = Ok VNone)).
Proof.
  unfold ob_tool. intros H. apply bind_Ok in H as ([cap args] & w1 & (b & Hauth & ->)%ob_lift_Ok & H).
  pose proof (authorize_same _ _ _ _ _ _ _ Hauth) as ->. apply authorize_admits in Hauth as (Hcap & _).
  apply bind_Ok in H as (bundle & w2 & Hw2 & H). apply bind_Ok in H as (rate0 & w3 & [_ ->]%lift_Ok & H).
  apply bind_Ok in H as (rate & w3 & [_ ->]%lift_Ok & H). apply bind_Ok in H as ([] & w3 & Hw3 & H). apply bind_Ok in H as (res & w4 & Hw4 & H).
  apply bind_Ok in H as (cid & w5 & [_ ->]%lift_Ok & H). apply bind_Ok in H as (status & w5 & [_ ->]%lift_Ok & H).
  apply bind_Ok in H as (ref & w5 & Hw5 & H). apply bind_Ok in H as (tr0 & w6 & [= <- <-] & H).
  apply bind_Ok in H as (sig & w6 & Hsig & H). apply lift_Ok in H as [Hans ->].
  assert (br_store (ob_base w5) = br_store (ob_base w)) as Hst.
  { apply observe_same in Hw4. apply audit_same in Hw5. unfold same_store in *. rewrite Hw5, Hw4.
    apply lift_same in Hw3 as ->; [|by intros b0 r b1 [[-> _]|(_ & _ & ->)]%take_run]. apply lift_same in Hw2 as ->; [done|].
    intros b0 r b1 Hb. unfold br_bundle in Hb. apply bind_cases in Hb as [(e & Hb & _)|(g & b2 & Hb & Hb')]; [by injection Hb as _ <-|].
    apply bind_cases in Hb' as [(e & Hb' & _)|(i & b3 & Hb' & Hb'')]; injection Hb as _ <-; injection Hb' as _ <-; [done|by injection Hb'' as _ <-]. }
  unfold catch_rpc, catch in Hsig. match type of Hsig with context [match ?m w5 with _ => _ end] => destruct (m w5) as [[x|e] w7] eqn:Hcall end; [|by destruct e].
  injection Hsig as -> ->. apply bind_Ok in Hcall as (rp & w8 & Hcall & Hret).
  destruct rp as [v|v|v]; try discriminate Hret. injection Hret as -> ->.
  apply call_store_Ok in Hcall as (e & tr & st' & Hserve & ->). apply serves_at_method in Hserve as (ep & fn & ctx & Hep & Hfn & Hrun).
  revert Hep. cbn. intros [= <-]. injection Hfn as <-. apply bind_Ok in Hrun as (x & s1 & Hrun & Hret). injection Hret as -> ->.
  unfold append_observation in Hrun. apply bind_Ok in Hrun as (cap' & s2 & [Hcap' ->]%lift_Ok & Hrun).
  apply bind_Ok in Hrun as (rec0 & s2 & (k0 & _ & _ & ->)%get_record_Ok & Hrun). apply bind_Ok in Hrun as ([] & s2 & [_ ->]%require_Ok & Hrun).
  apply signal_appended in Hrun as (eid & rec & key & Heid & Hrec & _ & Hcases). exists cap, eid, tr, rec, key. cbv zeta.
  change (br_store (ob_base (cl_put st' _))) with st'. change (cl_store w5) with (br_store (ob_base w5)) in *. rewrite Hst in *.
  assert (c_episode_id cap = VStr eid) as Hid by exact Heid.
  refine (conj Hcap (conj Hid (conj Hrec _))). unfold ob_answer in Hans.
  apply rbind_Ok in Hans as (sid & Hsid & Hans). apply rbind_Ok in Hans as (status' & Hstatus%of_opt_Ok & Hans). injection Hans as <-.
  destruct Hcases as [(row & Hrow & Hx & Hs)|(rec' & sg & snap & Hrec' & Hsigs & Hx & Hsnap & Hsays)]; [left|right].
  - exists row. split; [done|]. split; [|done]. rewrite <- Hx, Hsid. done.
  - exists rec', sg. split; [done|]. split; [done|]. rewrite Hx in Hsid. injection Hsid as <-. split; [done|].
    assert (snap = dset res "audit_ref" (VStr ref)) as ->.
    { cbn in Hsnap. unfold py_or in Hsnap. destruct (dset res "audit_ref" (VStr ref)) eqn:Hd; cbn in Hsnap; by injection Hsnap as <-. }
    destruct Hsays as [_ Hst' Hsum]. unfold dget_none in Hst', Hsum. rewrite !dget_dset_ne in Hst', Hsum by done. split.
    + cbn. by rewrite Hst', Hstatus.
    + cbn. unfold dget_none. destruct (dget res "structured") as [[]|]; cbn in *; first [by right|left; by rewrite Hsum].
Qed.
End handlers.

(** * An observation, from the worker's socket to the record

    A diagnostician asks how far the validator is behind. The observer broker's theorems
    are instantiated here; then a request repeated under the same key, whose answer is not
    the signal it cites. *)
From S2P Require Import StoreInv StoreProps Scenario.
From S2P Require Import BundleProps RunnerDemo.

Definition watch_files : bundle_dir := [(["command_table.yaml"], "C"); (["thresholds.yaml"], "T")].
Definition watch_bundle : string := id_of watch_files.
Definition observe_registry : registry :=
  mkRegistry [(watch_bundle, signed watch_files)] [("k1", demo_trusted)] (Some (watch_bundle +:+ newline)) [mkActivation 10 watch_bundle None "op"] [].
Definition observe_yaml (text : string) : result exn val :=
  if String.eqb text "T" then Ok (VDict [("parameters", VDict [("P-14", VDict [("rate_per_min", VInt 6)])])])
  else Ok (VDict [("commands", VDict [("catchup", VDict []); ("identity_balance", VDict [])])]).
Definition observe_surroundings : surroundings := {|
  n_answer := λ _, Ok (VDict [("seq", VInt 7)]); n_store := λ _ s, Some (demo_env (fresh_key s), false); n_others := λ _ s, s;
  n_home := λ _, Ok tt; n_launch := λ _, Ok (mkLaunch (VInt 0) false None EmptyString); n_sandbox := λ _, None;
  n_uuid := λ tr, fmt_id "u" (length tr); n_nonce := λ _, "n0"; n_now := λ tr, inject_Z (100 + Z.of_nat (length tr)); n_registry := λ _, observe_registry;
  n_chain := λ _, None; n_anchor_keys := []; n_yaml := observe_yaml; n_sign := demo_sign; n_rfc3339 := λ _, "t";
  n_admins := []; n_worker_sockets := []; n_development := false; n_uid := 1000 |}.
(** The daemon answers every request with how many it has had, until it is not reached. *)
Definition daemon_calls (tr : trace) : list event := List.filter (λ e, match e with EvRpc "daemon" _ _ => true | _ => false end) tr.
Definition answers_to (cid : string) (n : nat) : string :=
  json_dumps (VDict [("command_id", VStr cid); ("status", VStr "ok"); ("structured", VDict [("behind", VInt (Z.of_nat n))])]).
Definition demo_wires (tr : trace) : wire :=
  match list.last (daemon_calls tr) with
  | Some (EvRpc _ _ params) =>
      if (2 <? length (daemon_calls tr))%nat then WireError "ConnectionRefusedError: refused"
      else WireResponse 200 (answers_to (str_of (dget_none params "command_id")) (length (daemon_calls tr))) 12
  | _ => WireError ""
  end.
Definition no_json (body : string) : string := "JSONDecodeError".

Definition observe_token : string :=
  match mint demo_sign 100 "n0" "ep1" "diagnostician" "sess1" watch_bundle 600 with Ok t => t | Err _ => EmptyString end.
Definition observe_store : store :=
  fold_left serve [call "ep1" "controller" "open_episode" (dset open_params "bundle_id" (VStr watch_bundle)); signal_request;
                   move 3 "controller" "diagnosing" 2] init_store.
Definition observe_start : observer_broker := mkOB (mkBroker demo_gate [] observe_store []) new_telemetry.
Definition observe_params : dict :=
  [("token", VStr observe_token); ("episode_id", VStr "ep1"); ("args", VDict []); ("idem_key", VStr "k1")].
Definition observe_line (tool : string) : val := VDict [("id", VInt 1); ("method", VStr tool); ("params", VDict observe_params)].
Definition observe_endpoint : Endpoint observer_broker val := default (mkEndpoint EmptyString EmptyString [] [])
  (ob_endpoints (HASH := sum_hash) observe_surroundings demo_wires no_json (λ _, 5%Z) [1000%Z] [1000%Z] [0%Z] !! 0).
Definition observe_serve (tool : string) (w : observer_broker) : response val * observer_broker :=
  handle observe_endpoint 1000 1 (Some (observe_line tool)) w.
Definition observed_once : observer_broker := (observe_serve "get_catchup" observe_start).2.
Definition observed_twice : observer_broker := (observe_serve "get_identity_balance" observed_once).2.

Example observed : map (λ s : signal, (sg_id s, sg_summary s)) (default [] (r_signals <$> dget (s_records (br_store (ob_base observed_once))) "ep1")) =
  [("s1", VStr "behind"); ("s2", VDict [("behind", VInt 1)])].
Proof. vm_compute. reflexivity. Qed.
(** The second request repeats the key of the first, for another tool. Nothing is written,
    and the identifier it is given is that of the first signal, which says otherwise. *)
Definition answered (r : response val) : result exn val := call_result r.
Example reused_key_shows_another_sample :
  let second := observe_serve "get_identity_balance" observed_once in
  answered second.1 ≫= (λ v, vindex v "signal_id") = Ok (VStr "s2") ∧
  answered second.1 ≫= (λ v, vindex v "structured") = Ok (VDict [("behind", VInt 2)]) ∧
  br_store (ob_base second.2) = br_store (ob_base observed_once).
Proof. split_and!; vm_compute; reflexivity. Qed.

(** ** The theorems, here *)
Abbreviation demo_ob_move := (ob_move (HASH := sum_hash) observe_surroundings demo_wires no_json (λ _, 5%Z) [1000%Z] [1000%Z] [0%Z]).
Lemma observe_move tool w : demo_ob_move w (observe_serve tool w).2.
Proof.
  apply (om_request (HASH := sum_hash) observe_surroundings demo_wires no_json (λ _, 5%Z) [1000%Z] [1000%Z] [0%Z] w _
    observe_endpoint 1000 1 (Some (observe_line tool)) (observe_serve tool w).1); [left|]. unfold observe_serve. exact (surjective_pairing _).
Qed.
Definition observed_thrice : observer_broker := (observe_serve "get_catchup" observed_twice).2.
Lemma observe_moves : rtc demo_ob_move observe_start observed_thrice.
Proof. apply (rtc_l _ _ observed_once); [apply observe_move|]. apply (rtc_l _ _ observed_twice); [apply observe_move|]. apply rtc_once, observe_move. Qed.
Lemma telemetry_is_the_history_witness :
  tm_consecutive_unreachable (ob_telemetry observed_thrice) = 1%Z ∧
  ∃ l, br_trace (ob_base observed_thrice) = [] ++ l ∧ sums_up (samples_from observe_surroundings demo_wires no_json [] l) (ob_telemetry observed_thrice).
Proof.
  split; [vm_compute; reflexivity|].
  exact (telemetry_is_the_history (HASH := sum_hash) observe_surroundings demo_wires no_json (λ _, 5%Z) [1000%Z] [1000%Z] [0%Z]
    observe_start observed_thrice eq_refl observe_moves).
Defined.

Definition asked : event := default EvRegistry (find_first (λ e, match e with EvRpc "daemon" _ _ => true | _ => false end) (br_trace (ob_base observed_once))).
Lemma asked_in : asked ∈ drop 0 (br_trace (ob_base observed_once)).
Proof.
  assert (find_first (λ e, match e with EvRpc "daemon" _ _ => true | _ => false end) (br_trace (ob_base observed_once)) = Some asked) as H
    by (vm_compute; reflexivity). exact (proj1 (find_first_Some _ _ _ H)).
Qed.
Lemma asked_daemon : ¬ no_sample asked.
Proof. assert (match asked with EvRpc s _ _ => s | _ => "" end = "daemon") as H by (vm_compute; reflexivity). intros Hn. destruct asked; try discriminate H. by apply Hn. Qed.
Definition observed_answer : response val := (observe_serve "get_catchup" observe_start).1.
Lemma observed_step : handle observe_endpoint 1000 1 (Some (observe_line "get_catchup")) observe_start = (observed_answer, observed_once).
Proof. unfold observed_once, observed_answer, observe_serve. exact (surjective_pairing _). Qed.
Lemma observe_endpoint_in : observe_endpoint ∈ ob_endpoints (HASH := sum_hash) observe_surroundings demo_wires no_json (λ _, 5%Z) [1000%Z] [1000%Z] [0%Z].
Proof. left. Qed.
Lemma observations_are_admitted_witness :
  ∃ tool p cap args spec cid id bundle,
    request_of (Some (observe_line "get_catchup")) = Some (tool, p) ∧ TOOLS_BY_NAME tool = Some spec ∧ t_broker spec = "observer" ∧ t_command_id spec = Some cid ∧
    check_token demo_gate 100 (dget_none p "token") (dget_none p "episode_id") VNone = Ok cap ∧
    tool_allowed (c_role cap) tool = Ok true ∧ args = py_or (dget_none p "args") (VDict []) ∧ validate (t_input_schema spec) args = true ∧
    bound (HASH := sum_hash) cap bundle ∧ in_table observe_surroundings bundle cid ∧ asked = observe_event cid args id.
Proof.
  exact (observations_are_admitted (HASH := sum_hash) observe_surroundings demo_wires no_json (λ _, 5%Z) [1000%Z] [1000%Z] [0%Z]
    observe_endpoint 1000 1 (Some (observe_line "get_catchup")) observe_start observed_answer observed_once asked observe_endpoint_in eq_refl
    observed_step asked_in asked_daemon).
Defined.

Abbreviation demo_tool := (ob_tool (HASH := sum_hash) observe_surroundings demo_wires no_json (λ _, 5%Z) "get_catchup" observe_params observe_start).
Definition shown : val := match demo_tool.1 with Ok v => v | Err _ => VNone end.
Definition shown_end : observer_broker := demo_tool.2.
Lemma shown_ok : demo_tool = (Ok shown, shown_end).
Proof. vm_compute. reflexivity. Qed.
Lemma answers_are_signals_witness : vindex shown "signal_id" = Ok (VStr "s2") ∧
  ∃ cap eid tr rec key, let st := n_others observe_surroundings tr (br_store (ob_base observe_start)) in let st' := br_store (ob_base shown_end) in
    check_token (br_gate (ob_base observe_start)) (n_now observe_surroundings (br_trace (ob_base observe_start)))
      (dget_none observe_params "token") (dget_none observe_params "episode_id") VNone = Ok cap ∧
    c_episode_id cap = VStr eid ∧ dget (s_records st) eid = Some rec ∧
    ((∃ row, find_idem (s_entries st) (r_episode_id rec) key = Some row ∧ vindex (w_result row) "signal_id" = vindex shown "signal_id" ∧ st' = st) ∨
     ∃ rec' sg, dget (s_records st') (r_episode_id rec) = Some rec' ∧ r_signals rec' = r_signals rec ++ [sg] ∧
       vindex shown "signal_id" = Ok (VStr (sg_id sg)) ∧ vindex shown "status" = Ok (sg_status sg) ∧
       (vindex shown "structured" = Ok (sg_summary sg) ∨ vindex shown "structured" = Ok VNone)).
Proof.
  split; [vm_compute; reflexivity|].
  exact (answers_are_signals (HASH := sum_hash) observe_surroundings demo_wires no_json (λ _, 5%Z) "get_catchup" observe_params observe_start shown shown_end shown_ok).
Defined.
