(* ===== verification/Sandbox.v ===== *)
(** * The worker's sandbox (src/valops/sandbox/bwrap.py, src/valops/controller/spawn.py)

    The command line a worker is started under, its home directory, and the launcher
    that starts it, kills it at its time-out and reads the last lines it printed. What
    the operating system answers (is there a [bwrap], does its probe run, what a process
    prints and returns) is an argument; files and processes are a trace of what was asked
    of the system. *)
From S2P Require Import Prelude PyVal Schema Canonical Json PyConv Tools Transitions Tokens Rpc Fold Store AuditChain AuditClient Bundle Control.
From Stdlib Require Import Ascii.

(** ** bwrap.py *)
(** src/valops/sandbox/bwrap.py:23-24 HOST_RO_DIRS *)
Definition HOST_RO_DIRS : list string :=
  ["/usr"; "/lib"; "/lib64"; "/bin"; "/sbin"; "/etc/ssl"; "/etc/ca-certificates"; "/etc/alternatives";
   "/etc/ld.so.cache"; "/etc/localtime"].

(** src/valops/sandbox/bwrap.py:32-35 RootfsSpec *)
Record RootfsSpec : Type := mkRootfs {
  rf_path : option string; rf_host_ro : bool; rf_extra_ro : list (string * string) }.

(** src/valops/sandbox/bwrap.py:39-45 SandboxSpec *)
Record SandboxSpec : Type := mkSandboxSpec {
  sb_rootfs : RootfsSpec; sb_home : string; sb_bundle : string; sb_sockets : list (string * string);
  sb_scratch_tmpfs_mb : Z; sb_env : list (string * string) }.

Definition sandbox_unavailable : exn := PyExc "SandboxUnavailable".

(** What running the probe gave: an [OSError] or a time-out, with its text, or an exit
    code and its standard error, decoded. *)
Inductive probe_outcome : Type :=
| ProbeFailed (text : string)
| ProbeExit (rc : Z) (stderr : string).

(** src/valops/sandbox/bwrap.py:48-63 available *)
Definition available (exe : option string) (probe : string → probe_outcome) : bool * string :=
  match exe with
  | Some (String _ _ as exe) =>
      match probe exe with
      | ProbeFailed text => (false, "bwrap probe failed: " +:+ text)
      | ProbeExit rc err => if negb (rc =? 0)%Z then (false, "bwrap probe exit " +:+ print_int rc +:+ ": " +:+ stake 200 err)
                            else (true, "ok")
      end
  | _ => (false, "bwrap not installed")
  end.

(** [for host, inside in d.items(): a += [op, host, inside]] *)
Definition pairs_as (op : string) (d : list (string * string)) : list string :=
  concat (map (λ '(x, y), [op; x; y]) d).

(** The environment of the worker. *)
Definition sandbox_env (spec : SandboxSpec) : list (string * string) :=
  dupdate [("HOME", "/home/valops"); ("PATH", "/usr/local/bin:/usr/bin:/bin"); ("LANG", "C.UTF-8")] (sb_env spec).

(** src/valops/sandbox/bwrap.py:66-92 build_argv *)
Definition build_argv (exe : option string) (spec : SandboxSpec) (command : list string) : result exn (list string) :=
  match exe with
  | Some (String _ _ as exe) =>
      let a := [exe; "--unshare-all"; "--die-with-parent"; "--new-session"; "--cap-drop"; "ALL"; "--clearenv";
                "--hostname"; "valops-worker"] in
      root ← match rf_path (sb_rootfs spec) with
             | Some (String _ _ as path) => Ok ["--ro-bind"; path; "/"]
             | _ => if rf_host_ro (sb_rootfs spec) then Ok (pairs_as "--ro-bind-try" (map (λ d, (d, d)) HOST_RO_DIRS))
                    else Err sandbox_unavailable
             end;
      Ok (a ++ root ++ pairs_as "--ro-bind" (rf_extra_ro (sb_rootfs spec)) ++
          ["--proc"; "/proc"; "--dev"; "/dev"] ++
          ["--ro-bind"; sb_home spec; "/home/valops"; "--ro-bind"; sb_bundle spec; "/bundle"] ++
          ["--dir"; "/run/valops"] ++
          pairs_as "--bind" (sb_sockets spec) ++
          (if (0 <? sb_scratch_tmpfs_mb spec)%Z
           then ["--size"; print_int (sb_scratch_tmpfs_mb spec * 1024 * 1024); "--tmpfs"; "/tmp"] else []) ++
          pairs_as "--setenv" (sandbox_env spec) ++
          ["--chdir"; "/home/valops"; "--"] ++ command)
  | _ => Err sandbox_unavailable
  end.

(** ** spawn.py *)
(** src/valops/controller/spawn.py:24-26 MODEL_PORT, WORKER_PY, MCP_COMMAND *)
Definition MODEL_PORT : Z := 18080.
Definition WORKER_PY : string := "/usr/bin/python3".
Definition MCP_COMMAND : list string := [WORKER_PY; "-m"; "valops.worker.tools.mcp_server"; "/home/valops/step.json"].
(** src/valops/controller/spawn.py:27-28 SOCKETS_INSIDE *)
Definition SOCKETS_INSIDE : list (string * string) :=
  [("episode", "/run/valops/episode.sock"); ("observer", "/run/valops/observer.sock");
   ("report", "/run/valops/report.sock"); ("model", "/run/valops/model.sock")].
(** src/valops/controller/spawn.py:29-29 STDERR_CAP *)
Definition STDERR_CAP : nat := 1024 * 1024.

(** src/valops/controller/spawn.py:69-74 BwrapLauncher.__init__ *)
Record BwrapLauncher : Type := mkLauncher {
  bl_rootfs : list (string * RootfsSpec); bl_worker_uid : option Z; bl_worker_gid : option Z;
  bl_scratch_mb : list (string * Z); bl_python_path : string }.

(** What is asked of the operating system. *)
Inductive os_event : Type :=
| OsSpawn (argv : list string) (ids : option (Z * option Z))  (* Popen, as the user and group, if one is set *)
| OsKillGroup.                                                 (* killpg(pid, SIGKILL) *)

(** A process: does it outlive its time-out, what it prints, its return code; and whether
    the kill of its group fails other than for its having ended. *)
Record process : Type := mkProcess {
  p_late : bool; p_stdout : string; p_stderr : string; p_returncode : Z; p_kill : result exn unit }.

(** [l[-3:]] *)
Definition last3 {A} (l : list A) : list A := drop (length l - 3) l.

(** src/valops/controller/spawn.py:117-118 _last_json_line (the loop's last lines) *)
Definition structured_of (obj : val) : option val :=
  match obj with
  | VDict d => match dget_none d "structured_output" with VDict so => Some (VDict so) | _ => None end
  | _ => None
  end.
Fixpoint first_json (lines : list string) : option val :=
  match lines with
  | [] => None
  | line :: lines => match json_loads line with Some obj => structured_of obj | None => first_json lines end
  end.
(** src/valops/controller/spawn.py:111-119 _last_json_line

    [out] is the decoded text. *)
Definition last_json_line (out : string) : option val := first_json (rev (last3 (splitlines (strip out)))).

(** *** The step's home

    A file's text is its value where it is a JSON document. *)
Inductive home_text : Type := JsonText (v : val) | PlainText (s : string).
Inductive entry : Type := Directory (mode : Z) | File (mode : Z) (text : home_text).
(** The steps' directory: what is at each path under it. *)
Abbreviation steps_dir := (list (string * entry)).
Abbreviation HM := (M steps_dir exn).

Definition entry_mode (e : entry) : Z := match e with Directory m | File m _ => m end.
(** [os.chmod]: octal 550 for a directory, 440 for a file; 700 for either. *)
Definition read_only (e : entry) : entry := match e with Directory _ => Directory 360 | File _ t => File 288 t end.
Definition writable (e : entry) : entry := match e with Directory _ => Directory 448 | File _ t => File 448 t end.

(** Paths of the tree under a directory, and the directory itself. *)
Definition inside (home p : string) : bool := if strip_prefix (home +:+ "/") p is Some _ then true else false.
Definition in_tree (home p : string) : bool := String.eqb home p || inside home p.
Definition chmod_tree (f : entry → entry) (home : string) : HM unit :=
  modify (map (λ '(p, e), (p, if in_tree home p then f e else e))).

Section home.
Context (umask_dir umask_file : Z).   (* the modes of new directories and files *)

(** [path.mkdir()] and [path.write_text(...)] *)
Definition mkdir (p : string) : HM unit :=
  fs ← get_state; if dmem fs p then raise (PyExc "FileExistsError") else put_state (dset fs p (Directory umask_dir)).
Definition write_text (p : string) (t : home_text) : HM unit := modify (λ fs, dset fs p (File umask_file t)).

(** src/valops/worker/adapters/codex_cli/config.py:11-12 _q *)
Fixpoint q_esc (s : string) : string :=
  match s with
  | EmptyString => EmptyString
  | String c s' => (if (nat_of_ascii c =? 92)%nat then ch 92 +:+ ch 92
                    else if (nat_of_ascii c =? 34)%nat then ch 92 +:+ ch 34 else String c EmptyString) +:+ q_esc s'
  end.
Definition toml_quote (s : string) : string := ch 34 +:+ q_esc s +:+ ch 34.

(** src/valops/worker/adapters/codex_cli/config.py:15-40 config_toml *)
Definition config_toml (model : string) (port : Z) (mcp_command : string * list string) : string :=
  let dq := ch 34 in
  join (ch 10)
    ["# GENERATED by the valops controller from the bound bundle. Read-only at runtime.";
     "model = " +:+ toml_quote model;
     "model_provider = " +:+ dq +:+ "valops" +:+ dq;
     "approval_policy = " +:+ dq +:+ "never" +:+ dq +:+ "            # non-interactive; no escalation path            [U] exact key";
     "sandbox_mode = " +:+ dq +:+ "read-only" +:+ dq +:+ "           # nested inside D11; must never degrade to none   [U] PC-5";
     "default_permissions = " +:+ dq +:+ ":read-only" +:+ dq +:+ "   # [E] S10";
     "check_for_update_on_startup = false  # PC-7                                           [U]";
     "";
     "[model_providers.valops]";
     "name = " +:+ dq +:+ "valops-model-broker" +:+ dq;
     "base_url = " +:+ dq +:+ "http://127.0.0.1:" +:+ print_int port +:+ "/openai/v1" +:+ dq +:+ "   # the broker loopback is the only route  [E] S11";
     "env_key = " +:+ dq +:+ "VALOPS_PLACEHOLDER_KEY" +:+ dq;
     "wire_api = " +:+ dq +:+ "responses" +:+ dq;
     "";
     "[mcp_servers.valops]                  # the ONLY tool source (PC-6)                   [E] S12";
     "command = " +:+ toml_quote mcp_command.1;
     "args = [" +:+ join ", " (map toml_quote mcp_command.2) +:+ "]";
     "";
     "[tools]";
     "web_search = false                    # [U] exact key";
     "";
     "[analytics]";
     "enabled = false                       # PC-7                                           [U]";
     ""].

(** src/valops/worker/adapters/codex_cli/config.py:43-45 agents_md *)
Definition agents_md (role_prompt : string) : string :=
  "<!-- GENERATED from the bound policy bundle; no other instruction file is read -->" +:+ ch 10 +:+ role_prompt.

(** src/valops/worker/adapters/antigravity_cli/config.py:14-16 settings_json *)
Definition settings_json : home_text :=
  JsonText (VDict [("permissions", VDict [("allow", VList [])]); ("telemetry", VDict [("enabled", VBool false)]); ("autoUpdate", VBool false)]).
(** src/valops/worker/adapters/antigravity_cli/config.py:19-21 mcp_config_json *)
Definition mcp_config_json (mcp_command : string * list string) : home_text :=
  JsonText (VDict [("mcpServers", VDict [("valops", VDict [("command", VStr mcp_command.1); ("args", VList (map VStr mcp_command.2))])])]).

(** src/valops/controller/spawn.py:40-58 build_home

    The home's path is the session's identifier under the steps' directory. *)
Definition build_home (session_id : string) (spec : dict) (prompt_text : string) (adapter : val) : HM string :=
  let home := session_id in
  let mcp := (WORKER_PY, tail MCP_COMMAND) in
  _ ← mkdir home;
  _ ← write_text (home +:+ "/step.json") (JsonText (VDict spec));
  _ ← (if py_eq adapter (VStr "codex_cli") then
         let d := home +:+ "/.codex" in
         _ ← mkdir d;
         model ← lift (conf ← vindex (VDict spec) "configuration"; vindex conf "model");
         model ← lift (of_opt (as_str model) (PyExc "AttributeError"));
         _ ← write_text (d +:+ "/config.toml") (PlainText (config_toml model MODEL_PORT mcp));
         write_text (home +:+ "/AGENTS.md") (PlainText (agents_md prompt_text))
       else if py_eq adapter (VStr "antigravity_cli") then
         let d := home +:+ "/.gemini/antigravity-cli" in
         _ ← mkdir (home +:+ "/.gemini"); _ ← mkdir d;
         _ ← write_text (d +:+ "/settings.json") settings_json;
         write_text (d +:+ "/mcp_config.json") (mcp_config_json mcp)
       else mret tt);
  _ ← chmod_tree read_only home;
  mret home.

(** src/valops/controller/spawn.py:61-65 remove_home *)
Definition remove_home (home : string) : HM unit :=
  _ ← chmod_tree writable home; modify (List.filter (λ '(p, _), negb (in_tree home p))).
End home.

Section launcher.
Context (exe : option string) (probe : string → probe_outcome) (popen : list string → result exn process).
Implicit Types L : BwrapLauncher.

(** src/valops/controller/spawn.py:76-78 BwrapLauncher.preflight *)
Definition launcher_preflight : option string :=
  let '(ok, why) := available exe probe in if ok : bool then None else Some why.

(** src/valops/controller/spawn.py:88-88 BwrapLauncher.run

    [{host: SOCKETS_INSIDE[k] for k, host in sockets.items()}] *)
Fixpoint sockets_inside (sockets : list (string * string)) (acc : list (string * string)) : result exn (list (string * string)) :=
  match sockets with
  | [] => Ok acc
  | (k, host) :: rest =>
      inside ← of_opt (dget SOCKETS_INSIDE k) (PyExc "KeyError");
      sockets_inside rest (dset acc host inside)
  end.

(** src/valops/controller/spawn.py:84-91 BwrapLauncher.run

    The sandbox of a worker. *)
Definition worker_spec L (adapter home bundle_dir : string) (sockets : list (string * string)) : result exn SandboxSpec :=
  rootfs ← of_opt (dget (bl_rootfs L) adapter) sandbox_unavailable;
  inside ← sockets_inside sockets [];
  Ok (mkSandboxSpec rootfs home bundle_dir inside (default 0%Z (dget (bl_scratch_mb L) adapter))
        [("PYTHONPATH", bl_python_path L); ("PYTHONDONTWRITEBYTECODE", "1"); ("VALOPS_PLACEHOLDER_KEY", "placeholder-not-a-secret")]).
Definition WORKER_COMMAND : list string := [WORKER_PY; "-m"; "valops.worker.main"; "/home/valops/step.json"].

(** src/valops/controller/spawn.py:80-108 BwrapLauncher.run *)
Definition launcher_run L (adapter home bundle_dir : string) (sockets : list (string * string)) : M (list os_event) exn LaunchResult :=
  _ ← require (available exe probe).1 sandbox_unavailable;
  spec ← lift (worker_spec L adapter home bundle_dir sockets);
  argv ← lift (build_argv exe spec WORKER_COMMAND);
  _ ← modify (λ tr, tr ++ [OsSpawn argv ((λ u, (u, bl_worker_gid L)) <$> bl_worker_uid L)]);
  proc ← lift (popen argv);
  _ ← (if p_late proc then _ ← modify (λ tr, tr ++ [OsKillGroup]); lift (p_kill proc) else mret tt);
  mret (mkLaunch (VInt (p_returncode proc)) (p_late proc) (last_json_line (p_stdout proc)) (stake STDERR_CAP (p_stderr proc))).
End launcher.

(** * What a sandbox's command line says

    Read the way bubblewrap documents its options, the command line built for a sandbox
    is the sandbox: its options in order, and the command; whatever strings the paths and
    the environment are. *)

(** ** Reading a command line *)
(** bwrap(1): how many arguments an option takes. *)
Class Bwrap := {
  arity : string → option nat;
  arity_none o : o ∈ ["--unshare-all"; "--die-with-parent"; "--new-session"; "--clearenv"] → arity o = Some 0;
  arity_one o : o ∈ ["--cap-drop"; "--hostname"; "--proc"; "--dev"; "--dir"; "--size"; "--tmpfs"; "--chdir"] → arity o = Some 1;
  arity_two o : o ∈ ["--ro-bind"; "--ro-bind-try"; "--bind"; "--setenv"] → arity o = Some 2;
}.

Abbreviation option_ := (string * list string)%type.

(** The options up to [--], and the command after it. [cur] is the option being read, its
    arguments so far and how many more it takes. *)
Fixpoint read_options `{Bwrap} (l : list string) (cur : option (option_ * nat)) : option (list option_ * list string) :=
  match l with
  | [] => None
  | w :: l =>
      match cur with
      | Some (op, got, S n) => read_options l (Some (op, got ++ [w], n))
      | _ =>
          let done := match cur with Some (o, _) => [o] | None => [] end in
          if String.eqb w "--" then Some (done, l)
          else n ← arity w; '(os, command) ← read_options l (Some (w, [], n)); Some (done ++ os, command)
      end
  end.

Definition written (opts : list option_) : list string := concat (map (λ o, o.1 :: o.2) opts).

Section reading.
Context `{Bwrap}.

Definition well_formed (o : option_) : Prop := o.1 ≠ "--" ∧ arity o.1 = Some (length o.2).

Lemma read_arguments args : ∀ op got n l, read_options (args ++ l) (Some (op, got, length args + n)) = read_options l (Some (op, got ++ args, n)).
Proof.
  induction args as [|a args IH]; intros op got n l; cbn [app length Nat.add]; [by rewrite app_nil_r|].
  cbn [read_options]. rewrite IH. by rewrite <- (assoc_L app).
Qed.
Lemma read_from opts : Forall well_formed opts → ∀ o command,
  read_options (written opts ++ "--" :: command) (Some (o, 0)) = Some (o :: opts, command).
Proof.
  induction 1 as [|[op args] opts [Hop Har] _ IH]; intros [o os] command; [done|]. cbn [fst snd] in *.
  unfold written in *. cbn [map concat app fst snd]. cbn [read_options]. rewrite (proj2 (String.eqb_neq _ _) Hop), Har. cbn [mbind option_bind].
  pose proof (read_arguments args op [] 0 (concat (map (λ o, o.1 :: o.2) opts) ++ "--" :: command)) as Hread. rewrite Nat.add_0_r in Hread.
  rewrite <- (assoc_L app), Hread. cbn [app]. by rewrite IH.
Qed.
Lemma read_written opts command : Forall well_formed opts → read_options (written opts ++ "--" :: command) None = Some (opts, command).
Proof.
  intros Hw. destruct opts as [|[op args] opts]; [done|]. apply list.Forall_cons in Hw as [[Hop Har] Hw]. cbn [fst snd] in *.
  unfold written. cbn [map concat app fst snd]. cbn [read_options]. rewrite (proj2 (String.eqb_neq _ _) Hop), Har. cbn [mbind option_bind].
  pose proof (read_arguments args op [] 0 (written opts ++ "--" :: command)) as Hread. rewrite Nat.add_0_r in Hread.
  rewrite <- (assoc_L app). unfold written in Hread at 1. rewrite Hread. cbn [app]. by rewrite read_from.
Qed.
End reading.

(** ** What the options mean *)
(** The options that isolate or that only show something read-only, [--bind] apart: none
    shares a namespace again, keeps a capability or mounts the host writable. *)
Definition CONFINING : list string :=
  ["--unshare-all"; "--die-with-parent"; "--new-session"; "--clearenv"; "--cap-drop"; "--hostname"; "--proc"; "--dev"; "--dir";
   "--size"; "--tmpfs"; "--chdir"; "--ro-bind"; "--ro-bind-try"; "--setenv"].

(** The two arguments of the options of some names. *)
Definition arguments_of (ops : list string) (o : option_) : option (string * string) :=
  if str_in o.1 ops then match o.2 with [x; y] => Some (x, y) | _ => None end else None.
Definition read_only_binds : list option_ → list (string * string) := omap (arguments_of ["--ro-bind"; "--ro-bind-try"]).
Definition writable_binds : list option_ → list (string * string) := omap (arguments_of ["--bind"]).
Definition environment : list option_ → list (string * string) := omap (arguments_of ["--setenv"]).

(** The options of a sandbox. *)
Definition as_options (op : string) (d : list (string * string)) : list option_ := map (λ '(x, y), (op, [x; y])) d.
Definition root_options (r : RootfsSpec) : list option_ :=
  match rf_path r with
  | Some (String _ _ as path) => [("--ro-bind", [path; "/"])]
  | _ => as_options "--ro-bind-try" (map (λ d, (d, d)) HOST_RO_DIRS)
  end.
Definition root_binds (r : RootfsSpec) : list (string * string) :=
  match rf_path r with Some (String _ _ as path) => [(path, "/")] | _ => map (λ d, (d, d)) HOST_RO_DIRS end.
Definition options_of (spec : SandboxSpec) : list option_ :=
  [("--unshare-all", []); ("--die-with-parent", []); ("--new-session", []); ("--cap-drop", ["ALL"]); ("--clearenv", []);
   ("--hostname", ["valops-worker"])] ++
  root_options (sb_rootfs spec) ++ as_options "--ro-bind" (rf_extra_ro (sb_rootfs spec)) ++
  [("--proc", ["/proc"]); ("--dev", ["/dev"]); ("--ro-bind", [sb_home spec; "/home/valops"]);
   ("--ro-bind", [sb_bundle spec; "/bundle"]); ("--dir", ["/run/valops"])] ++
  as_options "--bind" (sb_sockets spec) ++
  (if (0 <? sb_scratch_tmpfs_mb spec)%Z
   then [("--size", [print_int (sb_scratch_tmpfs_mb spec * 1024 * 1024)]); ("--tmpfs", ["/tmp"])] else []) ++
  as_options "--setenv" (sandbox_env spec) ++ [("--chdir", ["/home/valops"])].

Lemma written_app a b : written (a ++ b) = written a ++ written b.
Proof. unfold written. by rewrite map_app, concat_app. Qed.
Lemma written_pairs op d : written (as_options op d) = pairs_as op d.
Proof. unfold written, as_options, pairs_as. rewrite map_map. f_equal. apply map_ext. by intros [x y]. Qed.
Lemma root_written r : written (root_options r) =
  match rf_path r with Some (String _ _ as path) => ["--ro-bind"; path; "/"] | _ => pairs_as "--ro-bind-try" (map (λ d, (d, d)) HOST_RO_DIRS) end.
Proof. unfold root_options. destruct (rf_path r) as [[|c s]|]; [apply written_pairs|done|apply written_pairs]. Qed.

Lemma build_argv_written exe spec command argv : build_argv exe spec command = Ok argv →
  ∃ e, exe = Some e ∧ argv = e :: written (options_of spec) ++ "--" :: command.
Proof.
  unfold build_argv. destruct exe as [[|c e]|]; [done| |done]. intros H. exists (String c e). split; [done|].
  apply rbind_Ok in H as (root & Hroot & [= <-]).
  assert (root = written (root_options (sb_rootfs spec))) as ->.
  { rewrite root_written. destruct (rf_path _) as [[|x s]|]; [|by injection Hroot|]; destruct (rf_host_ro _); try discriminate Hroot; by injection Hroot. }
  unfold options_of. rewrite !written_app, !written_pairs, <- !(assoc_L app). cbn [app]. f_equal. cbn [written map concat app fst snd].
  by destruct (0 <? _)%Z.
Qed.

Section options.
Context `{Bwrap}.
Ltac arity := first [apply arity_none | apply arity_one | apply arity_two]; rewrite !elem_of_cons; tauto.

Lemma pairs_well_formed op d : op ∈ ["--ro-bind"; "--ro-bind-try"; "--bind"; "--setenv"] → Forall well_formed (as_options op d).
Proof.
  intros Hop. apply list.Forall_forall. intros o Ho. apply list_elem_of_fmap in Ho as ([x y] & -> & _). split; cbn [fst snd].
  - intros ->. by rewrite !elem_of_cons, elem_of_nil in Hop; repeat destruct Hop as [Hop|Hop].
  - by apply arity_two.
Qed.
Lemma options_well_formed spec : Forall well_formed (options_of spec).
Proof.
  unfold options_of, root_options. rewrite !Forall_app. split_and!.
  - repeat constructor; cbn [fst snd length]; solve [done | arity].
  - destruct (rf_path _) as [[|c s]|]; [apply pairs_well_formed; set_solver| |apply pairs_well_formed; set_solver].
    repeat constructor; cbn [fst snd length]; solve [done | arity].
  - apply pairs_well_formed; set_solver.
  - repeat constructor; cbn [fst snd length]; solve [done | arity].
  - apply pairs_well_formed; set_solver.
  - destruct (0 <? _)%Z; repeat constructor; cbn [fst snd length]; solve [done | arity].
  - apply pairs_well_formed; set_solver.
  - repeat constructor; cbn [fst snd length]; solve [done | arity].
Qed.
End options.

Lemma arguments_pairs ops op d : omap (arguments_of ops) (as_options op d) = if str_in op ops then d else [].
Proof.
  unfold as_options. induction d as [|[x y] d IH]; cbn; [by destruct (str_in op ops)|]. unfold arguments_of at 1. cbn [fst snd].
  destruct (str_in op ops); [by rewrite IH|done].
Qed.
Lemma root_arguments ops r : omap (arguments_of ops) (root_options r) =
  if str_in (match rf_path r with Some (String _ _) => "--ro-bind" | _ => "--ro-bind-try" end) ops then root_binds r else [].
Proof.
  unfold root_options, root_binds. destruct (rf_path r) as [[|c s]|]; [apply arguments_pairs| |apply arguments_pairs].
  cbn [omap list_omap]. unfold arguments_of. cbn [fst snd]. by destruct (str_in _ _).
Qed.

Lemma options_read spec : read_only_binds (options_of spec) =
    root_binds (sb_rootfs spec) ++ rf_extra_ro (sb_rootfs spec) ++ [(sb_home spec, "/home/valops"); (sb_bundle spec, "/bundle")] ∧
  writable_binds (options_of spec) = sb_sockets spec ∧ environment (options_of spec) = sandbox_env spec.
Proof.
  unfold read_only_binds, writable_binds, environment, options_of. rewrite !omap_app, !arguments_pairs, !root_arguments.
  destruct (rf_path _) as [[|c s]|], (0 <? _)%Z; cbn; rewrite ?app_nil_r; done.
Qed.
Lemma options_confine spec : Forall (λ o, o.1 = "--bind" ∨ o.1 ∈ CONFINING) (options_of spec).
Proof.
  assert (∀ op d, op = "--bind" ∨ op ∈ CONFINING → Forall (λ o, o.1 = "--bind" ∨ o.1 ∈ CONFINING) (as_options op d)) as Hp.
  { intros op d Hop. apply list.Forall_forall. intros o Ho. by apply list_elem_of_fmap in Ho as ([x y] & -> & _). }
  assert (∀ o : option_, str_in o.1 CONFINING = true → o.1 = "--bind" ∨ o.1 ∈ CONFINING) as Hc by (intros o Ho; right; by apply str_in_spec).
  unfold options_of, root_options. rewrite !Forall_app. split_and!;
    try (repeat constructor; by apply Hc); try (apply Hp; first [by left | right; by apply str_in_spec]).
  - destruct (rf_path _) as [[|c s]|]; try (apply Hp; right; by apply str_in_spec). repeat constructor; by apply Hc.
  - destruct (0 <? _)%Z; repeat constructor; by apply Hc.
Qed.

(** C22: roundtrip. The command line is the sandbox. Read the way bubblewrap documents its
    options, it gives the command asked for, everything the process can reach bound
    read-only or as one of its sockets, and its environment; every namespace is unshared,
    every capability dropped, the environment cleared, and no other option is there;
    whatever strings the paths, the environment and the command hold. *)
Theorem sandbox_command_reads_back `{Bwrap} exe spec command argv : build_argv exe spec command = Ok argv →
  ∃ e line opts, exe = Some e ∧ argv = e :: line ∧ read_options line None = Some (opts, command) ∧
    ("--unshare-all", []) ∈ opts ∧ ("--cap-drop", ["ALL"]) ∈ opts ∧ ("--clearenv", []) ∈ opts ∧
    Forall (λ o, o.1 = "--bind" ∨ o.1 ∈ CONFINING) opts ∧
    writable_binds opts = sb_sockets spec ∧
    read_only_binds opts = root_binds (sb_rootfs spec) ++ rf_extra_ro (sb_rootfs spec) ++
      [(sb_home spec, "/home/valops"); (sb_bundle spec, "/bundle")] ∧
    environment opts = sandbox_env spec.
Proof.
  intros (e & -> & ->)%build_argv_written. destruct (options_read spec) as (Hro & Hw & Henv).
  exists e, (written (options_of spec) ++ "--" :: command), (options_of spec).
  split_and!; try done; [by apply read_written, options_well_formed| | | |apply options_confine];
    unfold options_of; apply elem_of_app; left; rewrite !elem_of_cons; tauto.
Qed.

(** What the launcher asks of the system: nothing, or one process under a sandbox, killed
    at its time-out; and only when the probe of the sandbox succeeded. *)
Lemma launcher_spawns exe probe popen L adapter home bundle_dir sockets r tr :
  launcher_run exe probe popen L adapter home bundle_dir sockets [] = (r, tr) →
  tr = [] ∨ (available exe probe).1 = true ∧ ∃ spec argv ids rest, worker_spec L adapter home bundle_dir sockets = Ok spec ∧
    build_argv exe spec WORKER_COMMAND = Ok argv ∧ ids = (λ u, (u, bl_worker_gid L)) <$> bl_worker_uid L ∧
    tr = OsSpawn argv ids :: rest ∧ Forall (eq OsKillGroup) rest.
Proof.
  unfold launcher_run. intros H. rewrite require_bind in H. destruct (available exe probe).1; [|injection H as _ <-; by left].
  rewrite lift_bind in H. destruct (worker_spec _ _ _ _ _) as [spec|e] eqn:Hs; [|injection H as _ <-; by left].
  rewrite lift_bind in H. destruct (build_argv exe spec _) as [argv|e] eqn:Ha; [|injection H as _ <-; by left].
  rewrite modify_bind, lift_bind in H. right. split; [done|].
  destruct (popen argv) as [p|e]; [|injection H as _ <-; by eexists spec, argv, _, []].
  destruct (p_late p); [|injection H as _ <-; by eexists spec, argv, _, []].
  unfold mbind, M_bind, modify, lift in H. exists spec, argv, ((λ u, (u, bl_worker_gid L)) <$> bl_worker_uid L), [OsKillGroup].
  destruct (p_kill p); injection H as _ <-; by repeat constructor.
Qed.
