(* ===== verification/Services.v ===== *)
(** * Configuration and wiring (src/valops/config.py, src/valops/services.py)

    Which process classes there are and under which uids they run, which sockets each
    process serves, to whom, and where each process finds the others. The sockets are
    described by what the components' own [endpoints] give; what a component is built on
    besides its sockets (keys, files, the network) is in its own model. A path is a string
    in its normal form. *)
From S2P Require Import Prelude PyVal Schema Canonical Json PyConv Keyed Tools Transitions Tokens Rpc Fold Store AuditChain AuditClient Bundle Artefacts Table Control Client Broker EpisodeBroker ReportBroker ObserverBroker Providers ModelBroker Sandbox.

(** ** config.py *)
(** src/valops/config.py:20-21 CLASSES *)
Definition CLASSES : list string :=
  ["controller"; "worker"; "verifier"; "episode_broker"; "observer_broker"; "report_broker"; "model_broker";
   "audit_sequencer"; "store"; "operator"].

(** src/valops/config.py:42-55 Config *)
Record Config : Type := mkCfg {
  cg_data : dict; cg_development : bool; cg_run : string; cg_state : string; cg_uids : list (string * list Z) }.

(** The uid an element of a set can equal. *)
Definition uid_of (v : val) : option Z :=
  match v with
  | VInt z => Some z
  | VBool b => Some (if b then 1%Z else 0%Z)
  | VFloat q => let q := Qred q in if Pos.eqb (Qden q) 1 then Some (Qnum q) else None
  | _ => None
  end.
(** [set(v)] *)
Definition uid_set (v : val) : result exn (list Z) :=
  l ← py_iter v; _ ← check (forallb hashable l) (PyExc "TypeError"); Ok (omap uid_of l).
(** [{c: set(data["uids"][c]) for c in classes}] *)
Fixpoint uids_from (data : dict) (classes : list string) : result exn (list (string * list Z)) :=
  match classes with
  | [] => Ok []
  | c :: classes => u ← vindex (VDict data) "uids"; v ← vindex u c; s ← uid_set v; rest ← uids_from data classes; Ok ((c, s) :: rest)
  end.

(** [Path(v)] *)
Definition as_path (v : val) : result exn string := of_opt (as_str v) (PyExc "TypeError").

(** src/valops/config.py:43-60 Config.__init__, Config.load

    [me] is the uid of the process. *)
Definition load_config (data : dict) (me : Z) : result exn Config :=
  let development := truthy (default (VBool false) (dget data "development")) in
  run ← as_path (default (VStr "/run/valops") (dget data "runtime_dir"));
  state ← as_path (default (VStr "/var/lib/valops") (dget data "state_dir"));
  uids ← (if truthy (dget_none data "dev_single_uid") then
            _ ← check development (PyExc "ValueError"); Ok (map (λ c, (c, [me])) CLASSES)
          else uids_from data CLASSES);
  Ok (mkCfg data development run state uids).

Definition uids (cfg : Config) (c : string) : list Z := default [] (dget (cg_uids cfg) c).

(** src/valops/config.py:24-39 Paths *)
Definition store_path (cfg : Config) (name : string) : string := cg_run cfg +:+ "/store/" +:+ name +:+ ".sock".
Definition audit_path (cfg : Config) (principal : string) : string := cg_run cfg +:+ "/audit/" +:+ principal +:+ ".sock".
Definition broker_path (cfg : Config) (broker name : string) : string := cg_run cfg +:+ "/" +:+ broker +:+ "/" +:+ name +:+ ".sock".
Definition model_sessions (cfg : Config) : string := cg_run cfg +:+ "/model-broker/sessions".

(** ** The sockets *)
(** A socket, as one who connects to it sees it. *)
Record Socket : Type := mkSocket {
  so_path : string; so_name : string; so_principal : string; so_uids : list Z; so_methods : list string }.
Definition socket_at {S R} (path : string) (ep : Endpoint S R) : Socket :=
  mkSocket path (ep_name ep) (ep_principal ep) (ep_allowed_uids ep) (served ep).
(** The endpoints of a component, at their paths in its directory. *)
Definition sockets_at {S R} (paths : list string) (eps : list (Endpoint S R)) : list Socket := zip_with socket_at paths eps.

(** ** Keys, approvals and the sandbox *)
(** [{**d}] of a mapping of strings to strings. *)
Fixpoint string_items (d : dict) : result exn (list (string * string)) :=
  match d with [] => Ok [] | (k, x) :: d => x ← as_path x; d ← string_items d; Ok ((k, x) :: d) end.
(** [x or {}], when it is a mapping. *)
Definition mapping (x : val) : result exn dict :=
  match py_or x (VDict []) with VDict d => Ok d | _ => Err (PyExc "AttributeError") end.

(** src/valops/services.py:103-106 build_model_broker

    The providers whose approval is on record. *)
Definition approval (a : val) : result exn bool :=
  if negb (truthy a) then Ok false
  else match a with
       | VDict d => Ok (match dget_none d "approved" with VBool true => truthy (dget_none d "record") | _ => false end)
       | _ => Err (PyExc "AttributeError")
       end.
Fixpoint approved_in (l : dict) : result exn (list string) :=
  match l with
  | [] => Ok []
  | (p, a) :: l => b ← approval a; rest ← approved_in l; Ok (if b : bool then p :: rest else rest)
  end.
Definition approved_from (doc : val) : result exn (list string) :=
  match py_or doc (VDict []) with
  | VDict d => l ← mapping (dget_none d "providers"); approved_in l
  | _ => Err (PyExc "AttributeError")
  end.

Section configured.
(** The files: their text, if they are there; and the YAML parser. *)
Context (read_text : string → option string) (yaml : string → result exn val).
Implicit Types cfg : Config.

Fixpoint keys_from (l : dict) : result exn (list (string * string)) :=
  match l with
  | [] => Ok []
  | (p, f) :: l =>
      f ← as_path f; text ← of_opt (read_text f) (PyExc "FileNotFoundError"); rest ← keys_from l; Ok ((p, strip text) :: rest)
  end.

(** src/valops/services.py:100-110 build_model_broker

    What the model broker is given. *)
Definition mb_config_of cfg : result exn mb_config :=
  m ← vindex (VDict (cg_data cfg)) "model_broker";
  m ← of_opt (match m with VDict m => Some m | _ => None end) (PyExc "AttributeError");
  kd ← mapping (dget_none m "keys"); keys ← keys_from kd;
  approved ← (let file := dget_none m "approvals_file" in
              if truthy file then
                f ← as_path file;
                match read_text f with None => Ok [] | Some text => doc ← yaml text; approved_from doc end
              else Ok []);
  Ok (mkConfig (model_sessions cfg) keys approved (uids cfg "worker")
        (truthy (dget_none m "allow_insecure_upstream_for_tests") && cg_development cfg) (cg_development cfg)).

(** src/valops/services.py:117-121 controller_deps

    The root file systems of the adapters: the configured ones, and for development the
    host's own. [pkg] is the directory of the program. *)
Definition ADAPTERS : list string := ["native"; "claude_sdk"; "codex_cli"; "antigravity_cli"].
Definition setdefault {A} (d : list (string * A)) (kv : string * A) : list (string * A) := if dmem d kv.1 then d else dset d kv.1 kv.2.
Fixpoint rootfs_paths (l : dict) : result exn (list (string * RootfsSpec)) :=
  match l with
  | [] => Ok []
  | (a, p) :: l =>
      p ← match p with VNone => Ok None | VStr p => Ok (Some p) | _ => Err (PyExc "TypeError") end;
      rest ← rootfs_paths l; Ok ((a, mkRootfs p false []) :: rest)
  end.
Definition rootfs_of cfg (sb : dict) (pkg : string) : result exn (list (string * RootfsSpec)) :=
  l ← mapping (dget_none sb "rootfs"); configured ← rootfs_paths l;
  if cg_development cfg && truthy (dget_none sb "host_ro_dev") then
    x ← mapping (dget_none sb "extra_ro"); extra ← string_items x;
    let dev := mkRootfs None true (dupdate [(pkg, "/opt/valops/valops")] extra) in
    Ok (fold_left setdefault (map (λ a, (a, dev)) ADAPTERS) configured)
  else Ok configured.

(** An optional integer, and a mapping to integers. *)
Definition int_or_none (x : val) : result exn (option Z) :=
  match x with VNone => Ok None | VInt z => Ok (Some z) | _ => Err (PyExc "TypeError") end.
Fixpoint int_items (d : dict) : result exn (list (string * Z)) :=
  match d with
  | [] => Ok []
  | (k, VInt z) :: d => d ← int_items d; Ok ((k, z) :: d)
  | _ => Err (PyExc "TypeError")
  end.

(** src/valops/services.py:115-123 controller_deps

    The launcher of the workers. A value of another type than the launcher's annotations
    say is refused here; the code passes it on and fails when it is used. *)
Definition launcher_of cfg (pkg : string) : result exn BwrapLauncher :=
  sb ← vindex (VDict (cg_data cfg)) "sandbox";
  sb ← of_opt (match sb with VDict sb => Some sb | _ => None end) (PyExc "AttributeError");
  rootfs ← rootfs_of cfg sb pkg;
  uid ← int_or_none (dget_none sb "worker_uid"); gid ← int_or_none (dget_none sb "worker_gid");
  x ← mapping (dget_none sb "scratch_mb"); scratch ← int_items x;
  python_path ← as_path (default (VStr "/opt/valops") (dget sb "python_path"));
  Ok (mkLauncher rootfs uid gid scratch python_path).
End configured.

(** src/valops/services.py:134-135 controller_deps *)
Definition worker_sockets (cfg : Config) : list (string * string) :=
  [("episode", broker_path cfg "episode-broker" "worker"); ("observer", broker_path cfg "observer-broker" "worker");
   ("report", broker_path cfg "report-broker" "worker")].
(** src/valops/controller/runner.py:188-188 Runner.run_step

    The sockets a worker is launched with: [model] is its session's. *)
Definition step_sockets (cfg : Config) (model : string) : list (string * string) := dset (worker_sockets cfg) "model" model.

(** src/valops/services.py:127-157 controller_deps, build_controller, build_verifier

    Where a process of a class finds the others, by the names its model calls them; the
    clients of the brokers and the store are made by their own builders. *)
Definition clients_of (cfg : Config) (cls : string) : list (string * string) :=
  match cls with
  | "controller" =>
      [("store", store_path cfg "control"); ("audit", audit_path cfg "controller");
       ("report_sys", broker_path cfg "report-broker" "system"); ("model_broker", broker_path cfg "model-broker" "admin");
       ("episode_broker", broker_path cfg "episode-broker" "admin"); ("observer_broker", broker_path cfg "observer-broker" "admin");
       ("report_broker", broker_path cfg "report-broker" "admin")]
  | "sentinel" =>
      [("store", store_path cfg "control"); ("observer", broker_path cfg "observer-broker" "system");
       ("report", broker_path cfg "report-broker" "system"); ("audit", audit_path cfg "controller")]
  | "verifier" =>
      [("store", store_path cfg "verify"); ("observer", broker_path cfg "observer-broker" "system");
       ("report", broker_path cfg "report-broker" "system")]
  | "episode_broker" => [("store", store_path cfg "agent"); ("audit", audit_path cfg "episode_broker")]
  | "observer_broker" => [("store", store_path cfg "observe"); ("audit", audit_path cfg "observer_broker")]
  | "report_broker" => [("store", store_path cfg "agent-report"); ("audit", audit_path cfg "report_broker")]
  | "store" => [("audit", audit_path cfg "store")]
  | "model_broker" => [("audit", audit_path cfg "model_broker")]
  | _ => []
  end.
Definition client_path (cfg : Config) (cls service : string) : option string := dget (clients_of cfg cls) service.
(** src/valops/services.py:130-132 controller_deps *)
Definition ADMINS : list string := ["episode_broker"; "observer_broker"; "report_broker"].
(** The class whose uid a process has: the sentinel is a thread of the controller. *)
Definition class_of (process : string) : string := if String.eqb process "sentinel" then "controller" else process.

(** src/valops/services.py:170-170 ORDER *)
Definition ORDER : list string := ["sequencer"; "store"; "episode-broker"; "observer-broker"; "report-broker"; "model-broker"; "verifier"; "controller"].
(** The processes, by the names of [clients_of], a builder starts. *)
Definition processes_of (name : string) : list string :=
  match name with
  | "store" => ["store"] | "episode-broker" => ["episode_broker"] | "observer-broker" => ["observer_broker"]
  | "report-broker" => ["report_broker"] | "model-broker" => ["model_broker"] | "verifier" => ["verifier"]
  | "controller" => ["controller"; "sentinel"] | _ => []
  end.

Section sockets.
Context `{HASH : Hash} (N : surroundings).
(** What the components are built on besides. *)
Context (v : env) (sv : seq_env) (section_of : string → string → option string)
  (wires : trace → wire) (json_error : string → string) (time_ns : trace → Z)
  (sink : list (string * dict) → result exn val) (ack_window_s : Q)
  (yaml : string → result exn val) (decode : string → string) (mb : mb_config) (g : registry) (t : Q).
Implicit Types cfg : Config.

(** src/valops/services.py:48-61 build_sequencer *)
Definition SUBMITTERS : list string :=
  ["controller"; "verifier"; "store"; "episode_broker"; "observer_broker"; "report_broker"; "model_broker"].
Definition sequencer_sockets cfg : list Socket :=
  sockets_at (map (audit_path cfg) SUBMITTERS) (audit_endpoints sv t t t (map (λ p, (p, uids cfg p)) SUBMITTERS)).

(** src/valops/services.py:64-69 build_store *)
Definition store_sockets cfg : list Socket :=
  sockets_at (map (store_path cfg) ["agent"; "agent-report"; "control"; "verify"; "observe"]) (endpoints v (uids cfg)).

(** src/valops/services.py:72-75 build_episode_broker *)
Definition episode_broker_sockets cfg : list Socket :=
  sockets_at (map (broker_path cfg "episode-broker") ["worker"; "admin"])
    (eb_endpoints N section_of (uids cfg "worker") (uids cfg "controller")).

(** src/valops/services.py:78-87 build_observer_broker *)
Definition observer_broker_sockets cfg : list Socket :=
  sockets_at (map (broker_path cfg "observer-broker") ["worker"; "system"; "admin"])
    (ob_endpoints N wires json_error time_ns (uids cfg "worker") (uids cfg "controller" ++ uids cfg "verifier") (uids cfg "controller")).

(** src/valops/services.py:90-97 build_report_broker *)
Definition report_broker_sockets cfg : list Socket :=
  sockets_at (map (broker_path cfg "report-broker") ["worker"; "system"; "operator"; "admin"])
    (rb_endpoints N sink (cg_development cfg) t t (uids cfg "worker") (uids cfg "controller" ++ uids cfg "verifier")
       (uids cfg "operator") (uids cfg "controller")).

(** src/valops/services.py:100-112 build_model_broker

    The admin socket: the sessions' sockets come and go. *)
Definition model_broker_sockets cfg : list Socket :=
  [socket_at (broker_path cfg "model-broker" "admin") (mb_admin_endpoint yaml mb g (uids cfg "controller"))].

(** Every socket of the system, in the order the processes are started. *)
Definition system_sockets cfg : list Socket :=
  sequencer_sockets cfg ++ store_sockets cfg ++ episode_broker_sockets cfg ++ observer_broker_sockets cfg ++
  report_broker_sockets cfg ++ model_broker_sockets cfg.
(** src/valops/services.py:160-169 BUILDERS

    What each builder starts, by its sockets: the verifier and the controller have none. *)
Definition BUILDERS cfg : list (string * list Socket) :=
  [("sequencer", sequencer_sockets cfg); ("store", store_sockets cfg); ("episode-broker", episode_broker_sockets cfg);
   ("observer-broker", observer_broker_sockets cfg); ("report-broker", report_broker_sockets cfg); ("model-broker", model_broker_sockets cfg);
   ("controller", []); ("verifier", [])].
(** src/valops/services.py:173-187 serve

    The sockets that are served while it waits, in the order they were started; an unknown
    name raises, and what was started goes down with the process. *)
Fixpoint serve cfg (names : list string) : result exn (list Socket) :=
  match names with
  | [] => Ok []
  | n :: names => srvs ← of_opt (dget (BUILDERS cfg) n) (PyExc "KeyError"); rest ← serve cfg names; Ok (srvs ++ rest)
  end.
(** src/valops/cli.py:79-84 cmd_serve *)
Definition cmd_serve cfg (names : list string) : result exn (list Socket) :=
  serve cfg (if bool_decide (names = ["all"]) then ORDER else names).
End sockets.
