(* ===== verification/Calls.v ===== *)
(** * What each process asks of the others

    The methods of the other processes the controller, the sentinel and the verifier call,
    as tables, and that however long their loops run and whatever the others answer, they
    call no other. *)
From S2P Require Import Prelude PyVal Schema Canonical Json PyConv Keyed Tools Transitions Tokens Rpc Fold Store AuditChain AuditClient Bundle Artefacts Control Runner RunnerSteps RunnerTrace.
From S2P Require Import Client Consensus Checks Sentinel SentinelProps Rules Verifier VerifierProps.

(** A call is one of a table's; the store's methods are those of [store]. *)
Definition calls_in (table : list (string * list string)) (e : event) : Prop :=
  match e with
  | EvRpc service method _ => asks table service method = true
  | EvStore method _ => asks table "store" method = true
  | _ => True
  end.

Definition runner_calls (admins : list string) : list (string * list string) :=
  [("store", ["read_episode"; "list_episodes"; "append_cost"; "append_step"; "set_state"])] ++ runner_asks ++
  map (λ a, (a, ["ping"; "revoke_session"])) admins.
Definition sentinel_calls : list (string * list string) :=
  ("store", ["list_episodes"; "append_signal"; "annotate"; "open_episode"]) :: sentinel_asks.
Definition verifier_calls : list (string * list string) :=
  [("store", ["read_episode"; "list_episodes"; "append_recovery_observation"; "append_verification"; "set_state"]);
   ("observer", ["sample"; "probe"; "telemetry"]); ("report", ["system_alert"])].

Lemma asks_app a b service method : asks (a ++ b) service method = asks a service method || asks b service method.
Proof. unfold asks. apply existsb_app. Qed.

(** ** The controller *)
Section runner.
Context `{HASH : Hash} (N : surroundings).
Abbreviation Q := (calls_in (runner_calls (n_admins N))).

Lemma tame_called e : tame N e = true → Q e.
Proof.
  intros (_ & Hs & Hr)%tame_inv. unfold calls_in, runner_calls. destruct e as [service method params|method params| | | |]; try done; cbn [store_event rpc_event] in *.
  - rewrite !asks_app. apply orb_true_iff. right. apply orb_true_iff in Hr as [Hr|[Ha Hm]%andb_true_iff]; [by rewrite Hr|].
    apply orb_true_iff. right. apply asks_true. exists ["ping"; "revoke_session"]. split; [|by apply str_in_spec].
    apply list_elem_of_fmap. exists service. split; [done|]. by apply str_in_spec.
  - rewrite asks_app. apply orb_true_iff. left. apply asks_true. eexists. split; [left|]. apply str_in_spec in Hs.
    revert Hs. rewrite !elem_of_cons. tauto.
Qed.
Lemma llm_called e : llm_event e = true → Q e.
Proof.
  destruct e as [service method params| | | | |]; try done. cbn [llm_event]. intros [->%String.eqb_eq ->%String.eqb_eq]%andb_true_iff.
  cbn [calls_in]. unfold runner_calls. by rewrite !asks_app.
Qed.
Lemma runner_calls_only n interval last_verify w r w' : loop N n interval last_verify w = (r, w') → logs Q w w'.
Proof.
  assert (respects (logs Q) (loop N n interval last_verify)) as H; [|apply H].
  apply (respects_loop N _ Q); try typeclasses eauto; try (by intros; apply log_logs); try (by intros; apply local_logs);
    try (by intros; apply store_rpc_logs); try apply tame_called; try done.
  intros eid pf. apply (respects_advance N _ Q); try typeclasses eauto; try (by intros; apply log_logs); try (by intros; apply local_logs);
    try (by intros; apply store_rpc_logs); try apply tame_called; try apply llm_called; done.
Qed.
End runner.

(** ** The sentinel *)
Lemma sentinel_calls_only `{HASH : Hash} N age n w r w' : sn_loop N age n w = (r, w') → adds (calls_in sentinel_calls) w w'.
Proof.
  intros (l & Hl & Hs)%sn_loop_ticking. exists l. split; [done|]. apply list.Forall_forall. intros e (l1 & l2 & ->)%list_elem_of_split.
  specialize (Hs l1 e l2 eq_refl). destruct e as [service method params|method params| | | |]; cbn [sentinel_event quiet_event] in Hs; try done.
  - cbn in *. unfold asks in *. cbn in *. rewrite Hs. apply orb_true_r.
  - destruct Hs as [Hs|[-> _]]; [|cbn; tauto]. apply str_in_spec in Hs. revert Hs. unfold quiet_requests. rewrite !elem_of_cons, elem_of_nil.
    intros [->|[->|[->|[]]]]; cbn; tauto.
Qed.

(** ** The verifier *)
Section verifier.
Context `{HASH : Hash} (N : surroundings).
Definition vf_called (w w' : verifier) : Prop :=
  ∃ l, vf_trace w' = vf_trace w ++ l ∧ Forall (λ x, match x with VCall e => calls_in verifier_calls e | _ => True end) l.
#[export] Instance vf_called_preorder : PreOrder vf_called.
Proof.
  split; [intros w; exists []; by rewrite app_nil_r|]. intros w1 w2 w3 (l1 & H1 & Hl1) (l2 & H2 & Hl2).
  exists (l1 ++ l2). split; [by rewrite H2, H1, (assoc_L app) | by apply Forall_app].
Qed.
Lemma called_log e : calls_in verifier_calls e → respects vf_called (modify (vf_log (VCall e)) : VM unit).
Proof. intros He w r w' [= _ <-]. exists [VCall e]. split; [done|by constructor]. Qed.
Lemma called_listed l : respects vf_called (modify (vf_log (VListed l)) : VM unit).
Proof. intros w r w' [= _ <-]. exists [VListed l]. split; [done|by constructor]. Qed.
Lemma called_store method params : calls_in verifier_calls (EvStore method params) → respects vf_called (v_store_rpc N method params).
Proof. intros He w r w' [Ht _]%v_store_rpc_run. exists [VCall (EvStore method params)]. split; [done|by constructor]. Qed.
Lemma called_same (m : VM unit) : (∀ w r w', m w = (r, w') → vf_trace w' = vf_trace w) → respects vf_called m.
Proof. intros Hm w r w' H. exists []. rewrite app_nil_r. split; [by eapply Hm|done]. Qed.
Lemma called_readonly {A} (m : VM A) : readonly m → respects vf_called m.
Proof. by apply (respects_readonly _). Qed.
Lemma called_bind {A B} (m : VM A) (k : A → VM B) : respects vf_called m → (∀ a, respects vf_called (k a)) → respects vf_called (m ≫= k).
Proof. intros Hm Hk. by apply (respects_bind _ (λ _, True)). Qed.
Lemma called_for_each {A} (f : A → VM unit) l : (∀ x, respects vf_called (f x)) → respects vf_called (for_each f l).
Proof. intros Hf. induction l as [|x l IH]; cbn [for_each]; [by apply called_readonly|]. by apply called_bind. Qed.

Ltac calling := repeat lazymatch goal with
  | |- respects vf_called (_ ≫= _) => apply called_bind; [|intros ?]
  | |- respects vf_called (match ?x with _ => _ end) => destruct x
  | |- respects vf_called (let _ := _ in _) => cbv zeta
  | |- respects vf_called (catch_rpc _ _) => apply (respects_catch _); [|intros [? ?|?]]
  | |- respects vf_called (catch _ _) => apply (respects_catch _); [|intros ?]
  | |- respects vf_called (for_each _ _) => apply called_for_each; intros ?
  | |- respects vf_called (modify (vf_log (VListed _))) => apply called_listed
  | |- respects vf_called (modify (vf_log _)) => apply called_log; reflexivity
  | |- respects vf_called (v_store_rpc _ _ _) => apply called_store; reflexivity
  | |- respects vf_called _ => first [done | apply called_readonly; solve [auto 10 with valops | by intros ?]]
  end.
Lemma called_rpc service method params : asks verifier_calls service method = true → respects vf_called (v_rpc N service method params).
Proof. intros He. unfold v_rpc. apply called_bind; [by apply called_log|intros ?]. calling. Qed.
Lemma called_sample_each cids max_age out fresh : respects vf_called (sample_each N cids max_age out fresh).
Proof.
  revert out fresh. induction cids as [|cid cids IH]; intros out fresh; cbn [sample_each]; [calling|].
  unfold sample_telemetry, sample_command. calling; by apply called_rpc.
Qed.
Lemma called_record eid : respects vf_called (v_record N eid).
Proof. unfold v_record. calling. Qed.
Lemma called_rule ep b max_age rule : respects vf_called (check_rule N ep b max_age rule).
Proof.
  unfold check_rule, v_sample, v_resolve, observe_recovery, count. calling;
    try apply called_sample_each; try apply called_record; try (by apply called_same; intros w r w' [= _ <-]).
  intros w r w' [= _ <-]. eexists. split; [done|by constructor].
Qed.
Lemma called_rules ep b max_age l : respects vf_called (check_rules N ep b max_age l).
Proof. induction l as [|rule l IH]; cbn [check_rules]; calling. apply called_rule. Qed.
Lemma called_tick : respects vf_called (vf_tick N).
Proof.
  unfold vf_tick, check_listed, check_episode, v_bundle, maybe_escalate. calling;
    try apply called_rules; try apply called_record; try (by apply called_rpc); by apply called_same; intros w r w' [= _ <-].
Qed.
Lemma verifier_calls_only n w r w' : vf_loop N n w = (r, w') → vf_called w w'.
Proof.
  assert (respects vf_called (vf_loop N n)) as H; [|apply H]. induction n as [|n IH]; cbn [vf_loop]; calling. apply called_tick.
Qed.
End verifier.
