(* ===== verification/ServicesProps.v ===== *)
(** * The processes together

    What the wiring gives: every call the controller, the sentinel and the verifier make
    arrives at a socket that lets them in and serves the method; and a worker finds in its
    sandbox the sockets meant for workers, and no other of the system's. *)
From S2P Require Import Prelude PyVal Schema Canonical Json PyConv Keyed Tools Transitions Tokens Rpc Fold Store AuditChain AuditClient Bundle Artefacts Table.
From S2P Require Import Control Client Broker EpisodeBroker ReportBroker ObserverBroker Providers ModelBroker Runner RunnerTrace Sentinel Verifier VerifierProps Calls.
From S2P Require Import Scenario BundleProps ModelBrokerProps Consensus Checks.
From S2P Require Import Sandbox Services.

Section wiring.
Context `{HASH : Hash} (N : surroundings).
Context (v : env) (sv : seq_env) (section_of : string → string → option string)
  (wires : trace → wire) (json_error : string → string) (time_ns : trace → Z) (sink : list (string * dict) → result exn val)
  (yaml : string → result exn val) (mb : mb_config) (g : registry) (t : Q).
Implicit Types cfg : Config.
Abbreviation sockets cfg := (system_sockets N v sv section_of wires json_error time_ns sink yaml mb g t cfg).

(** A call of a process reaches its method: where the process looks for the service there
    is a socket of the system, it lets in every uid of the process's class, and serves the
    method. *)
Definition reaches cfg (process service method : string) : Prop :=
  ∃ path so, client_path cfg process service = Some path ∧ so ∈ sockets cfg ∧ so_path so = path ∧
    uids cfg (class_of process) ⊆ so_uids so ∧ method ∈ so_methods so.
Definition answered cfg (process : string) (e : event) : Prop :=
  match e with
  | EvRpc service method _ => reaches cfg process service method
  | EvStore method _ => reaches cfg process "store" method
  | _ => True
  end.

(** A table of calls that all reach their methods. *)
Definition reachable_calls cfg (process : string) (table : list (string * list string)) : Prop :=
  Forall (λ x, ∃ path, client_path cfg process x.1 = Some path ∧
    Exists (λ so, so_path so = path ∧ uids cfg (class_of process) ⊆ so_uids so ∧ forallb (λ m, str_in m (so_methods so)) x.2 = true) (sockets cfg)) table.
Lemma calls_answered cfg process table e : reachable_calls cfg process table → calls_in table e → answered cfg process e.
Proof.
  intros Hr. assert (∀ service method, asks table service method = true → reaches cfg process service method) as Ha.
  { intros service method (ms & Hin & Hm)%asks_true. unfold reachable_calls in Hr. rewrite list.Forall_forall in Hr. specialize (Hr _ Hin) as (path & Hp & Hex).
    apply list.Exists_exists in Hex as (so & Hso & Hpath & Hu & Hms). exists path, so. split_and!; try done.
    rewrite forallb_forall in Hms. apply str_in_spec, Hms. by apply list_elem_of_In. }
  destruct e; cbn; auto.
Qed.

Ltac subset := first [reflexivity | intros ? ?; apply elem_of_app; tauto].
Ltac find_socket := first
  [ apply Exists_cons_hd; solve [split; [reflexivity|split; [subset|reflexivity]]] | apply Exists_cons_tl; find_socket ].
Ltac wired := unfold reachable_calls; cbn -[String.append]; repeat (apply Forall_cons_2; [eexists; split; [reflexivity|find_socket]|]); apply Forall_nil_2.

Lemma runner_wired cfg : reachable_calls cfg "controller" (runner_calls ADMINS).
Proof. wired. Qed.
Lemma sentinel_wired cfg : reachable_calls cfg "sentinel" sentinel_calls.
Proof. wired. Qed.
Lemma verifier_wired cfg : reachable_calls cfg "verifier" verifier_calls.
Proof. wired. Qed.

(** No two sockets are at one path. *)
Lemma socket_paths cfg : NoDup (map so_path (sockets cfg)).
Proof.
  assert (map so_path (sockets cfg) = map (String.append (cg_run cfg))
    ["/audit/controller.sock"; "/audit/verifier.sock"; "/audit/store.sock"; "/audit/episode_broker.sock"; "/audit/observer_broker.sock";
     "/audit/report_broker.sock"; "/audit/model_broker.sock"; "/store/agent.sock"; "/store/agent-report.sock"; "/store/control.sock";
     "/store/verify.sock"; "/store/observe.sock"; "/episode-broker/worker.sock"; "/episode-broker/admin.sock";
     "/observer-broker/worker.sock"; "/observer-broker/system.sock"; "/observer-broker/admin.sock"; "/report-broker/worker.sock";
     "/report-broker/system.sock"; "/report-broker/operator.sock"; "/report-broker/admin.sock"; "/model-broker/admin.sock"]) as -> by reflexivity.
  apply (NoDup_fmap_2 (String.append (cg_run cfg))). by apply (bool_decide_eq_true_1 (NoDup _)).
Qed.

(** C20: safety. Every call is answered. However long the controller, the sentinel and the
    verifier run and whatever the others do, each call they make of another process
    arrives, where their configuration says that process is, at a socket of the system that
    lets every uid of the caller's class in and serves the method called; and no two
    sockets are at one path. So none of their calls is ever [denied] or [unknown_method]. *)
Theorem calls_are_answered cfg watchtower_age n interval last_verify w0 r0 w0' w1 r1 w1' w2 r2 w2' :
  n_admins N = ADMINS →
  loop N n interval last_verify w0 = (r0, w0') → sn_loop N watchtower_age n w1 = (r1, w1') → vf_loop N n w2 = (r2, w2') →
  Forall (answered cfg "controller") (drop (length (w_trace w0)) (w_trace w0')) ∧
  Forall (answered cfg "sentinel") (drop (length (sn_trace w1)) (sn_trace w1')) ∧
  (∀ e, VCall e ∈ drop (length (vf_trace w2)) (vf_trace w2') → answered cfg "verifier" e) ∧
  NoDup (map so_path (sockets cfg)).
Proof.
  intros Hadm H0 H1 H2. apply runner_calls_only in H0 as (l0 & -> & Hl0). rewrite Hadm in Hl0.
  apply sentinel_calls_only in H1 as (l1 & Heq1 & Hl1). cbn in Heq1. apply verifier_calls_only in H2 as (l2 & -> & Hl2).
  rewrite Heq1, !drop_app_length. split_and!; [| | |apply socket_paths].
  - eapply list.Forall_impl; [exact Hl0|]. intros e. apply calls_answered, runner_wired.
  - eapply list.Forall_impl; [exact Hl1|]. intros e. apply calls_answered, sentinel_wired.
  - intros e He. rewrite list.Forall_forall in Hl2. apply Hl2 in He. revert He. apply calls_answered, verifier_wired.
Qed.

(** ** The order of the start *)
Abbreviation serves cfg names := (serve N v sv section_of wires json_error time_ns sink yaml mb g t cfg names).
Abbreviation serves_all cfg := (cmd_serve N v sv section_of wires json_error time_ns sink yaml mb g t cfg).
(** The paths of what is served after starting [names]. *)
Definition served_paths cfg names : list string := match serves cfg names with Ok l => map so_path l | Err _ => [] end.
(** The builders of a list with what was started before each. *)
Fixpoint starts (before names : list string) : list (list string * string) :=
  match names with [] => [] | n :: names => (before, n) :: starts (before ++ [n]) names end.
Lemma elem_starts before names l1 n l2 : names = l1 ++ n :: l2 → (before ++ l1, n) ∈ starts before names.
Proof.
  revert before l1. induction names as [|n0 names IH]; intros before l1 H; [by destruct l1|]. cbn [starts].
  destruct l1 as [|m l1]; injection H as -> H; [rewrite app_nil_r; left|]. right.
  rewrite (cons_middle m before l1), (assoc_L app). by apply IH.
Qed.
Lemma starts_wired cfg : Forall (λ x : list string * string, Forall (λ p, Forall (λ c, c.2 ∈ served_paths cfg x.1) (clients_of cfg p)) (processes_of x.2)) (starts [] ORDER).
Proof.
  cbn -[String.append served_paths]. repeat (apply Forall_cons_2; [|]); try apply Forall_nil_2; repeat (apply Forall_cons_2; [|]); try apply Forall_nil_2;
    cbn -[String.append]; rewrite ?elem_of_cons; tauto.
Qed.

(** The order of the start. [valops serve all] brings up every socket of the
    system, and starts each process only after the sockets of every other it is a client
    of: at the path the process calls there is a socket of those already served. *)
Theorem servers_start_first cfg :
  serves_all cfg ["all"] = Ok (sockets cfg) ∧
  (∀ l1 n l2 process service path, ORDER = l1 ++ n :: l2 → process ∈ processes_of n → client_path cfg process service = Some path →
     ∃ started so, serves cfg l1 = Ok started ∧ so ∈ started ∧ so_path so = path).
Proof.
  split; [reflexivity|]. intros l1 n l2 process service path Hord Hp Hc%dget_elem.
  pose proof (starts_wired cfg) as H. rewrite list.Forall_forall in H. specialize (H _ (elem_starts [] _ _ _ _ Hord)).
  rewrite list.Forall_forall in H. specialize (H _ Hp). rewrite list.Forall_forall in H. specialize (H _ Hc). cbn [fst snd app] in H.
  unfold served_paths in H. destruct (serves cfg l1) as [started|]; [|by apply not_elem_of_nil in H].
  apply list_elem_of_fmap in H as (so & -> & Hso). by exists started, so.
Qed.

(** ** The worker *)
(** What may be asked at a socket meant for workers: a tool of the table, a look at the
    token's episode, a note for the audit log. *)
Definition worker_method (m : string) : Prop := m ∈ map t_name TOOLS ∨ m ∈ ["read_episode"; "audit_note"].
Definition meant_for_workers cfg (so : Socket) : Prop := so_uids so = uids cfg "worker" ∧ Forall worker_method (so_methods so).
Lemma worker_methods ms : forallb (λ m, str_in m (map t_name TOOLS ++ ["read_episode"; "audit_note"])) ms = true → Forall worker_method ms.
Proof. rewrite forallb_forall, list.Forall_forall. intros H m Hm%list_elem_of_In%H%str_in_spec%elem_of_app. exact Hm. Qed.

Lemma worker_paths cfg path : path ∈ map snd (worker_sockets cfg) → ∃ so, so ∈ sockets cfg ∧ so_path so = path ∧ meant_for_workers cfg so.
Proof.
  intros Hp. assert (Exists (λ so, so_path so = path ∧ meant_for_workers cfg so) (sockets cfg)) as Hex.
  { cbn in Hp. rewrite !elem_of_cons, elem_of_nil in Hp. cbn -[String.append].
    destruct Hp as [->|[->|[->|[]]]];
    repeat first [ apply Exists_cons_hd; solve [split; [reflexivity|split; [reflexivity|apply worker_methods; reflexivity]]] | apply Exists_cons_tl ]. }
  apply list.Exists_exists in Hex as (so & ? & ? & ?). eauto.
Qed.
(** Sockets meant for others let no one in but the uids of another class. *)
Lemma other_sockets cfg so : so ∈ sockets cfg → so_path so ∈ map snd (worker_sockets cfg) ∨
  ∀ u, u ∈ so_uids so → ∃ c, c ∈ CLASSES ∧ c ≠ "worker" ∧ u ∈ uids cfg c.
Proof.
  revert so. apply list.Forall_forall. cbn -[String.append CLASSES].
  assert (∀ c, str_in c CLASSES && negb (String.eqb c "worker") = true →
    ∀ u, u ∈ uids cfg c → ∃ c, c ∈ CLASSES ∧ c ≠ "worker" ∧ u ∈ uids cfg c) as Hc.
  { intros c [Hin Hne]%andb_true_iff u Hu. exists c. split_and!; [by apply str_in_spec|by apply negb_true_iff, String.eqb_neq in Hne|done]. }
  repeat (apply Forall_cons_2; [first
    [ left; cbn; rewrite !elem_of_cons; solve [by left | by right; left | by right; right; left]
    | right; solve [by apply Hc | intros u [Hu|Hu]%elem_of_app; revert u Hu; by apply Hc] ]|]). apply Forall_nil_2.
Qed.
Lemma inside_hosts sockets : ∀ acc d, sockets_inside sockets acc = Ok d → ∀ h, h ∈ dkeys d ↔ h ∈ dkeys acc ∨ h ∈ map snd sockets.
Proof.
  induction sockets as [|[k host] sockets IH]; intros acc d H h; cbn [sockets_inside] in H.
  - injection H as <-. cbn. rewrite elem_of_nil. tauto.
  - apply rbind_Ok in H as (i & _ & H). rewrite (IH _ _ H), elem_dkeys_dset. cbn. rewrite elem_of_cons. tauto.
Qed.

(** Where the ids of a configured launcher come from. *)
Lemma launcher_ids cfg pkg L : launcher_of cfg pkg = Ok L → ∃ sb, dget (cg_data cfg) "sandbox" = Some (VDict sb) ∧
  int_or_none (dget_none sb "worker_uid") = Ok (fst <$> ((λ u, (u, bl_worker_gid L)) <$> bl_worker_uid L)) ∧
  ∀ u gid, (λ u, (u, bl_worker_gid L)) <$> bl_worker_uid L = Some (u, gid) → int_or_none (dget_none sb "worker_gid") = Ok gid.
Proof.
  unfold launcher_of. intros H. apply rbind_Ok in H as (sb & Hsb & H). apply rbind_Ok in H as (d & Hd & H). apply of_opt_Ok in Hd.
  destruct sb as [| | | | | |sb]; try done. injection Hd as ->. apply rbind_Ok in H as (rootfs & _ & H).
  apply rbind_Ok in H as (uid & Hu & H). apply rbind_Ok in H as (gid & Hg & H). do 3 (apply rbind_Ok in H as (? & _ & H)). injection H as <-.
  cbn [bl_worker_uid bl_worker_gid]. exists d. cbn [vindex] in Hsb. apply of_opt_Ok in Hsb. split; [done|].
  destruct uid as [u|]; cbn; split; [done| |done|done]. by intros ? ? [= <- <-].
Qed.

(** C16: safety. A worker is confined. What the launcher starts, whatever its configuration,
    is the worker's command under the sandbox's command line, and only when the probe of the
    sandbox succeeded. It runs under the uid and gid the launcher was given, which are the
    [worker_uid] and [worker_gid] of the configuration, and under the controller's own
    account when there is no [worker_uid]; nothing ties that uid to those of the class
    [worker]. Read as bubblewrap documents its options, that
    line unshares every namespace, drops every capability and clears the environment, sets
    no variable but six that hold no credential, and binds writable nothing but sockets:
    the session's own of the model broker, and those of the system meant for workers, which
    let in the worker's uids only and serve tools of the table, a look at the episode and
    audit notes. When the classes share no uid, no other socket of the system lets the
    worker in. *)
Theorem worker_is_confined `{Bwrap} cfg L adapter home bundle_dir model exe probe popen r tr argv ids :
  launcher_run exe probe popen L adapter home bundle_dir (step_sockets cfg model) [] = (r, tr) → OsSpawn argv ids ∈ tr →
  (available exe probe).1 = true ∧ ids = (λ u, (u, bl_worker_gid L)) <$> bl_worker_uid L ∧
  (∀ pkg, launcher_of cfg pkg = Ok L → ∃ sb, dget (cg_data cfg) "sandbox" = Some (VDict sb) ∧
     int_or_none (dget_none sb "worker_uid") = Ok (fst <$> ids) ∧
     ∀ u gid, ids = Some (u, gid) → int_or_none (dget_none sb "worker_gid") = Ok gid) ∧
  ∃ e line opts, argv = e :: line ∧ read_options line None = Some (opts, WORKER_COMMAND) ∧
    ("--unshare-all", []) ∈ opts ∧ ("--cap-drop", ["ALL"]) ∈ opts ∧ ("--clearenv", []) ∈ opts ∧
    Forall (λ o, o.1 = "--bind" ∨ o.1 ∈ CONFINING) opts ∧
    environment opts = [("HOME", "/home/valops"); ("PATH", "/usr/local/bin:/usr/bin:/bin"); ("LANG", "C.UTF-8");
      ("PYTHONPATH", bl_python_path L); ("PYTHONDONTWRITEBYTECODE", "1"); ("VALOPS_PLACEHOLDER_KEY", "placeholder-not-a-secret")] ∧
    (∀ host, host ∈ map fst (writable_binds opts) →
       host = model ∨ ∃ so, so ∈ sockets cfg ∧ so_path so = host ∧ meant_for_workers cfg so) ∧
    (∀ so u, so ∈ sockets cfg → u ∈ so_uids so → u ∈ uids cfg "worker" →
       (∀ c, c ∈ CLASSES → c ≠ "worker" → u ∉ uids cfg c) → so_path so ∈ map fst (writable_binds opts)).
Proof.
  intros Hrun Hin. apply launcher_spawns in Hrun as [->|(Hprobe & spec & argv' & ids' & rest & Hspec & Hargv & Hids & -> & Hrest)]; [by apply elem_of_nil in Hin|].
  apply elem_of_cons in Hin as [[= -> ->]|Hin]; [|rewrite list.Forall_forall in Hrest; by apply Hrest in Hin].
  split; [done|]. split; [done|]. split; [intros pkg HL; rewrite Hids; by eapply launcher_ids|].
  apply build_argv_written in Hargv as (e & _ & ->).
  unfold worker_spec in Hspec. apply rbind_Ok in Hspec as (rootfs & _ & Hspec). apply rbind_Ok in Hspec as (inside & Hinside & [= <-]).
  set (spec := mkSandboxSpec _ _ _ _ _ _). destruct (options_read spec) as (_ & Hw & Henv).
  exists e, (written (options_of spec) ++ "--" :: WORKER_COMMAND), (options_of spec). rewrite Hw, Henv. cbn [sb_sockets].
  pose proof (inside_hosts _ _ _ Hinside) as Hhosts. unfold dkeys in Hhosts. cbn [map] in Hhosts.
  split_and!; try done; [by apply read_written, options_well_formed| | | |apply options_confine| |].
  1-3: unfold options_of; apply elem_of_app; left; rewrite !elem_of_cons; tauto.
  - intros host [Hn|Hh]%Hhosts; [by apply elem_of_nil in Hn|].
    change (map snd (step_sockets cfg model)) with (map snd (worker_sockets cfg) ++ [model]) in Hh.
    apply elem_of_app in Hh as [Hh|Hh]; [right; by apply worker_paths|left; by apply list_elem_of_singleton in Hh].
  - intros so u Hso Hu Hwk Hdis. apply other_sockets in Hso as [Hp|Ho].
    + apply Hhosts. right. change (map snd (step_sockets cfg model)) with (map snd (worker_sockets cfg) ++ [model]). apply elem_of_app. by left.
    + apply Ho in Hu as (c & Hc & Hne & Hu). by destruct (Hdis c Hc Hne).
Qed.
End wiring.

(** * Sandboxes and services, executed

    A configuration, the worker it launches, and one turn of each loop of the system that
    is wired by it; the theorems on sandboxes and on the wiring are instantiated here. *)

(** ** A sandbox *)
Definition demo_arity (o : string) : option nat :=
  if str_in o ["--unshare-all"; "--die-with-parent"; "--new-session"; "--clearenv"; "--share-net"] then Some 0
  else if str_in o ["--cap-drop"; "--hostname"; "--proc"; "--dev"; "--dir"; "--size"; "--tmpfs"; "--chdir"] then Some 1
  else if str_in o ["--ro-bind"; "--ro-bind-try"; "--bind"; "--setenv"] then Some 2 else None.
Lemma demo_bwrap_none o : o ∈ ["--unshare-all"; "--die-with-parent"; "--new-session"; "--clearenv"] → demo_arity o = Some 0.
Proof. rewrite !elem_of_cons, elem_of_nil. by intros [->|[->|[->|[->|[]]]]]. Qed.
Lemma demo_bwrap_one o : o ∈ ["--cap-drop"; "--hostname"; "--proc"; "--dev"; "--dir"; "--size"; "--tmpfs"; "--chdir"] → demo_arity o = Some 1.
Proof. rewrite !elem_of_cons, elem_of_nil. by intros [->|[->|[->|[->|[->|[->|[->|[->|[]]]]]]]]]. Qed.
Lemma demo_bwrap_two o : o ∈ ["--ro-bind"; "--ro-bind-try"; "--bind"; "--setenv"] → demo_arity o = Some 2.
Proof. rewrite !elem_of_cons, elem_of_nil. by intros [->|[->|[->|[->|[]]]]]. Qed.
#[export] Instance demo_bwrap : Bwrap :=
  {| arity := demo_arity; arity_none := demo_bwrap_none; arity_one := demo_bwrap_one; arity_two := demo_bwrap_two |}.

(** A value that looks like an option stays a value. *)
Definition sly_spec : SandboxSpec :=
  mkSandboxSpec (mkRootfs (Some "/srv/rootfs") false []) "/steps/s1" "--share-net" [("/run/w.sock", "/run/valops/episode.sock")] 16
    [("X", "--bind"); ("--share-net", "--")].
Definition sly_argv : list string := match build_argv (Some "/usr/bin/bwrap") sly_spec ["true"] with Ok l => l | Err _ => [] end.
Lemma sly_built : build_argv (Some "/usr/bin/bwrap") sly_spec ["true"] = Ok sly_argv.
Proof. reflexivity. Qed.
Lemma sandbox_command_reads_back_witness : ∃ e line opts, Some "/usr/bin/bwrap" = Some e ∧ sly_argv = e :: line ∧
  read_options line None = Some (opts, ["true"]) ∧
  ("--unshare-all", []) ∈ opts ∧ ("--cap-drop", ["ALL"]) ∈ opts ∧ ("--clearenv", []) ∈ opts ∧
  Forall (λ o, o.1 = "--bind" ∨ o.1 ∈ CONFINING) opts ∧ writable_binds opts = sb_sockets sly_spec ∧
  read_only_binds opts = root_binds (sb_rootfs sly_spec) ++ rf_extra_ro (sb_rootfs sly_spec) ++
    [(sb_home sly_spec, "/home/valops"); (sb_bundle sly_spec, "/bundle")] ∧
  environment opts = sandbox_env sly_spec.
Proof. exact (sandbox_command_reads_back (Some "/usr/bin/bwrap") sly_spec ["true"] sly_argv sly_built). Defined.

(** ** A configuration *)
Definition demo_data : dict :=
  [("uids", VDict (map (λ '(c, u), (c, VList [VInt u])) (zip CLASSES [2001; 2002; 2003; 2004; 2005; 2006; 2007; 2008; 2009; 2010]%Z)));
   ("sandbox", VDict [("rootfs", VDict [("native", VStr "/srv/rootfs/native")]); ("worker_uid", VInt 2002); ("worker_gid", VInt 2002)])].
Definition demo_config : Config := match load_config demo_data 0 with Ok c => c | Err _ => mkCfg [] false EmptyString EmptyString [] end.
Definition demo_launcher : BwrapLauncher := match launcher_of demo_config "/opt" with Ok l => l | Err _ => mkLauncher [] None None [] EmptyString end.
Example configured : uids demo_config "worker" = [2002%Z] ∧ bl_worker_uid demo_launcher = Some 2002%Z ∧
  worker_sockets demo_config = [("episode", "/run/valops/episode-broker/worker.sock"); ("observer", "/run/valops/observer-broker/worker.sock");
                                ("report", "/run/valops/report-broker/worker.sock")].
Proof. by vm_compute. Qed.

Definition demo_probe (_ : string) : probe_outcome := ProbeExit 0 EmptyString.
Definition demo_popen (_ : list string) : result exn process := Ok (mkProcess true "{}" EmptyString (-9) (Ok tt)).
Definition demo_launch : result exn LaunchResult * list os_event :=
  launcher_run (Some "/usr/bin/bwrap") demo_probe demo_popen demo_launcher "native" "/steps/s1" "/bundles/b1" (step_sockets demo_config "/run/m.sock") [].
Definition demo_spawned : list string * option (Z * option Z) := match demo_launch.2 with OsSpawn argv ids :: _ => (argv, ids) | _ => ([], None) end.
Lemma launch_eq : launcher_run (Some "/usr/bin/bwrap") demo_probe demo_popen demo_launcher "native" "/steps/s1" "/bundles/b1"
  (step_sockets demo_config "/run/m.sock") [] = (demo_launch.1, [OsSpawn demo_spawned.1 demo_spawned.2; OsKillGroup]).
Proof. by vm_compute. Qed.

(** Without [worker_uid] the sandboxed worker keeps the controller's account, whatever uids
    the class [worker] has. *)
Definition bare_data : dict := dset demo_data "sandbox" (VDict [("rootfs", VDict [("native", VStr "/srv/rootfs/native")])]).
Example unset_uid_keeps_account :
  (cfg ← load_config bare_data 0; L ← launcher_of cfg "/opt";
   let tr := (launcher_run (Some "/usr/bin/bwrap") demo_probe demo_popen L "native" "/steps/s1" "/bundles/b1" (step_sockets cfg "/run/m.sock") []).2 in
   Ok (uids cfg "worker", omap (λ e, match e with OsSpawn _ ids => Some ids | _ => None end) tr)) = Ok ([2002%Z], [None]).
Proof. by vm_compute. Qed.

(** ** One turn of the loops *)
Definition wired_surroundings : surroundings := {|
  n_answer := λ _, Ok (VDict [("ok", VBool true)]); n_store := λ _ s, Some (demo_env "u1", false); n_others := λ _ s, s;
  n_home := λ _, Ok tt; n_launch := λ _, Ok (mkLaunch (VInt 0) false None EmptyString); n_sandbox := λ _, None;
  n_uuid := λ tr, fmt_id "u" (length tr); n_nonce := λ _, "n0"; n_now := λ _, 100%Q;
  n_registry := λ _, mkRegistry [] [] None [] [];
  n_chain := λ _, None; n_anchor_keys := []; n_yaml := λ _, Ok VNone; n_sign := demo_sign; n_rfc3339 := λ _, "t";
  n_admins := ADMINS; n_worker_sockets := []; n_development := false; n_uid := 1000 |}.
Definition empty_world : world := mkWorld (mkStore [] [] []) [] [] None.
Definition empty_sentinel : sentinel := mkSentinel (mkStore [] [] []) [] [] [].
Definition empty_verifier : verifier := mkVerifier (mkStore [] [] []) [] [] [] [].
Definition no_sequencer : seq_env := mkSeqEnv demo_sign "k1" None None.
Abbreviation demo_sockets := (system_sockets (HASH := sum_hash) wired_surroundings (demo_env "u1") no_sequencer (λ _ _, None) (λ _, WireError EmptyString)
  id (λ _, 0%Z) (λ _, Ok VNone) (λ _, Ok VNone) model_config model_registry 0 demo_config).
Abbreviation demo_answered := (answered (HASH := sum_hash) wired_surroundings (demo_env "u1") no_sequencer (λ _ _, None) (λ _, WireError EmptyString)
  id (λ _, 0%Z) (λ _, Ok VNone) (λ _, Ok VNone) model_config model_registry 0 demo_config).

Lemma worker_is_confined_witness :
  (available (Some "/usr/bin/bwrap") demo_probe).1 = true ∧ demo_spawned.2 = (λ u, (u, bl_worker_gid demo_launcher)) <$> bl_worker_uid demo_launcher ∧
  (∀ pkg, launcher_of demo_config pkg = Ok demo_launcher → ∃ sb, dget (cg_data demo_config) "sandbox" = Some (VDict sb) ∧
     int_or_none (dget_none sb "worker_uid") = Ok (fst <$> demo_spawned.2) ∧
     ∀ u gid, demo_spawned.2 = Some (u, gid) → int_or_none (dget_none sb "worker_gid") = Ok gid) ∧
  ∃ e line opts, demo_spawned.1 = e :: line ∧ read_options line None = Some (opts, WORKER_COMMAND) ∧
    ("--unshare-all", []) ∈ opts ∧ ("--cap-drop", ["ALL"]) ∈ opts ∧ ("--clearenv", []) ∈ opts ∧
    Forall (λ o, o.1 = "--bind" ∨ o.1 ∈ CONFINING) opts ∧
    environment opts = [("HOME", "/home/valops"); ("PATH", "/usr/local/bin:/usr/bin:/bin"); ("LANG", "C.UTF-8");
      ("PYTHONPATH", bl_python_path demo_launcher); ("PYTHONDONTWRITEBYTECODE", "1"); ("VALOPS_PLACEHOLDER_KEY", "placeholder-not-a-secret")] ∧
    (∀ host, host ∈ map fst (writable_binds opts) →
       host = "/run/m.sock" ∨ ∃ so, so ∈ demo_sockets ∧ so_path so = host ∧ meant_for_workers demo_config so) ∧
    (∀ so u, so ∈ demo_sockets → u ∈ so_uids so → u ∈ uids demo_config "worker" →
       (∀ c, c ∈ CLASSES → c ≠ "worker" → u ∉ uids demo_config c) → so_path so ∈ map fst (writable_binds opts)).
Proof.
  exact (worker_is_confined (HASH := sum_hash) wired_surroundings (demo_env "u1") no_sequencer (λ _ _, None) (λ _, WireError EmptyString)
    id (λ _, 0%Z) (λ _, Ok VNone) (λ _, Ok VNone) model_config model_registry 0 demo_config demo_launcher "native" "/steps/s1" "/bundles/b1"
    "/run/m.sock" (Some "/usr/bin/bwrap") demo_probe demo_popen _ _ demo_spawned.1 demo_spawned.2 launch_eq (list_elem_of_here _ _)).
Defined.

Abbreviation run_controller := (loop (HASH := sum_hash) wired_surroundings 1 60 0 empty_world).
Abbreviation run_sentinel := (sn_loop (HASH := sum_hash) wired_surroundings (λ _, None) 1 empty_sentinel).
Abbreviation run_verifier := (vf_loop (HASH := sum_hash) wired_surroundings 1 empty_verifier).
Lemma calls_are_answered_witness :
  Forall (demo_answered "controller") (drop 0 (w_trace run_controller.2)) ∧
  Forall (demo_answered "sentinel") (drop 0 (sn_trace run_sentinel.2)) ∧
  (∀ e, VCall e ∈ drop 0 (vf_trace run_verifier.2) → demo_answered "verifier" e) ∧ NoDup (map so_path demo_sockets).
Proof.
  exact (calls_are_answered (HASH := sum_hash) wired_surroundings (demo_env "u1") no_sequencer (λ _ _, None) (λ _, WireError EmptyString)
    id (λ _, 0%Z) (λ _, Ok VNone) (λ _, Ok VNone) model_config model_registry 0 demo_config (λ _, None) 1 60 0
    empty_world run_controller.1 run_controller.2 empty_sentinel run_sentinel.1 run_sentinel.2 empty_verifier run_verifier.1 run_verifier.2
    eq_refl (surjective_pairing _) (surjective_pairing _) (surjective_pairing _)).
Defined.
(** How many calls each made: the controller degraded, for want of a bundle. *)
Example calls_made : length (w_trace run_controller.2) = 10 ∧ length (sn_trace run_sentinel.2) = 2 ∧ length (calls_of (vf_trace run_verifier.2)) = 1.
Proof. by vm_compute. Qed.
