(* ===== verification/Runtimes.v ===== *)
(** * The worker's runtimes (src/valops/worker/main.py, tools/mcp_server.py, adapters/)

    The native loop over a provider's binding, the tool server the command-line runtimes
    talk to, the settings the runtimes are started with, and the entry point that chooses
    one. The runtimes themselves and the providers' libraries are third-party: a binding
    is a record of operations, a runtime a function of how it is started. *)
From S2P Require Import Prelude PyVal Schema Canonical Json PyConv Tools Transitions Tokens Rpc Fold Store AuditChain AuditClient Bundle Artefacts Control Worker.
From Stdlib Require Import Ascii.

(** ** adapters/native/loop.py *)
(** A call the model asks for: an identifier, a tool's name, arguments. *)
Record tool_call : Type := mkCall { tc_id : string; tc_name : string; tc_args : val }.
(** What a call gave: its identifier and name, the text, whether it is an error. *)
Record tool_result : Type := mkToolResult { tr_id : string; tr_name : string; tr_text : string; tr_is_error : bool }.

(** src/valops/worker/adapters/native/loop.py:19-22 Binding

    A provider's conversation [C]: how it starts, a request to the model, the results. *)
Record Binding (C : Type) : Type := mkBinding {
  bd_start : string → string → list ToolSpec → result exn C;
  bd_step : C → result exn (list tool_call * C);
  bd_add_results : C → list tool_result → C;
}.
Arguments bd_start {_}. Arguments bd_step {_}. Arguments bd_add_results {_}.

(** ["error" in res] *)
Definition is_error (res : val) : bool := match res with VDict d => dmem d "error" | _ => false end.

Section native.
Context {C : Type} (B : Binding C) (answer : trace → result exn val) (key : trace → string).

(** A worker that converses: its calls of the brokers, and how often it asked the model. *)
Record conversation : Type := mkConversation { cv_calls : trace; cv_requests : nat }.
Abbreviation VM := (M conversation exn).
Definition brokered {A} (m : WM A) : VM A := λ w,
  let '(r, tr) := m (cv_calls w) in (r, mkConversation tr (cv_requests w)).

(** src/valops/worker/adapters/native/loop.py:32-37 run

    One call the model asked for: only a tool of the role is passed on. *)
Definition run_call (S : ToolStubs) (c : tool_call) : WM tool_result :=
  res ← (if negb (py_in (VStr (tc_name c)) (ts_allowed S))
         then mret (tool_error "forbidden" (tc_name c +:+ " is not available to this role"))
         else stub_call answer key S (VStr (tc_name c)) (match tc_args c with VDict d => VDict d | _ => VDict [] end));
  mret (mkToolResult (tc_id c) (tc_name c) (render res) (is_error res)).
Fixpoint run_calls (S : ToolStubs) (calls : list tool_call) : WM (list tool_result) :=
  match calls with
  | [] => mret []
  | c :: calls => r ← run_call S c; rs ← run_calls S calls; mret (r :: rs)
  end.

(** src/valops/worker/adapters/native/loop.py:25-39 run

    The loop, with this many turns left: the model is asked, until it asks for nothing. *)
Fixpoint native_turns (S : ToolStubs) (turns : nat) (c : C) : VM unit :=
  match turns with
  | O => mret tt
  | Datatypes.S turns =>
      _ ← modify (λ w, mkConversation (cv_calls w) (Datatypes.S (cv_requests w)));
      '(calls, c) ← lift (bd_step B c);
      match calls with
      | [] => mret tt
      | _ => results ← brokered (run_calls S calls); native_turns S turns (bd_add_results B c results)
      end
  end.
Definition native_run (spec : dict) (system_prompt : string) (S : ToolStubs) : VM unit :=
  user ← lift (user_message spec); schemas ← lift (stub_schemas (ts_allowed S));
  c ← lift (bd_start B system_prompt user schemas);
  turns ← lift (vindex (VDict spec) "max_turns" ≫= py_int);
  native_turns S (Z.to_nat turns) c.
End native.

(** src/valops/worker/adapters/native/loop.py:42-54 binding_for

    Which binding, at which address, for which model. *)
Inductive binding_kind : Type := AnthropicBinding | OpenAIBinding | GeminiBinding.
Definition binding_for (provider : val) (spec : dict) : result exn (binding_kind * string * val) :=
  port ← vindex (VDict spec) "model_port";
  let base := "http://127.0.0.1:" +:+ py_str port in
  conf ← vindex (VDict spec) "configuration"; model ← vindex conf "model";
  if py_eq provider (VStr "anthropic") then Ok (AnthropicBinding, base +:+ "/anthropic", model)
  else if py_eq provider (VStr "openai") then Ok (OpenAIBinding, base +:+ "/openai/v1", model)
  else if py_eq provider (VStr "google") then Ok (GeminiBinding, base +:+ "/google", model)
  else Err (PyExc "ValueError").

(** src/valops/worker/adapters/native/gemini.py:12-30 _clean

    Keys of a schema are its record's fields; no property of the tools' schemas has the
    name of one, and no constant is a mapping. *)
Fixpoint clean (s : schema) : schema :=
  Schema (s_type s) (s_const s) (s_enum s) None None None (s_minimum s) (s_maximum s) (s_minItems s) (s_maxItems s)
    (match s_items s with Some i => Some (clean i) | None => None end)
    ((fix go (l : list (string * schema)) := match l with [] => [] | (k, x) :: l => (k, clean x) :: go l end) (s_properties s))
    (s_required s) false.

(** ** The bindings *)
(** What the provider's library returns for a conversation, as the bindings read it. *)
Record anthropic_response : Type := mkAnthropic { ar_content : list val; ar_stop_reason : string }.
Definition call_of_block (b : val) : result exn (option tool_call) :=
  ty ← vindex b "type";
  if py_eq ty (VStr "tool_use") then
    i ← vindex b "id" ≫= (λ x, of_opt (as_str x) (PyExc "TypeError")); n ← vindex b "name" ≫= (λ x, of_opt (as_str x) (PyExc "TypeError"));
    x ← vindex b "input"; Ok (Some (mkCall i n x))
  else Ok None.
Fixpoint calls_of_blocks (l : list val) : result exn (list tool_call) :=
  match l with
  | [] => Ok []
  | b :: l => c ← call_of_block b; cs ← calls_of_blocks l; Ok (match c with Some c => c :: cs | None => cs end)
  end.

(** src/valops/worker/adapters/native/anthropic.py:18-44 AnthropicBinding

    A conversation is its messages; [create] is the library's request, with the system
    prompt, the tools and the messages so far. A block is a mapping of its attributes. *)
Record anthropic_conversation : Type := mkAnthropicConv { ac_system : string; ac_tools : list ToolSpec; ac_messages : list val }.
Definition user_turn (content : val) : val := VDict [("role", VStr "user"); ("content", content)].
Definition result_block (r : tool_result) : val :=
  VDict [("type", VStr "tool_result"); ("tool_use_id", VStr (tr_id r)); ("content", VStr (tr_text r)); ("is_error", VBool (tr_is_error r))].
Definition anthropic_binding (create : anthropic_conversation → result exn anthropic_response) : Binding anthropic_conversation :=
  mkBinding _ (λ system user tools, Ok (mkAnthropicConv system tools [user_turn (VStr user)]))
    (λ c, resp ← create c;
          let c' := mkAnthropicConv (ac_system c) (ac_tools c)
                      (ac_messages c ++ [VDict [("role", VStr "assistant"); ("content", VList (ar_content resp))]]) in
          if String.eqb (ar_stop_reason resp) "refusal" then Ok ([], c')
          else if negb (String.eqb (ar_stop_reason resp) "tool_use") then Ok ([], c')
          else calls ← calls_of_blocks (ar_content resp); Ok (calls, c'))
    (λ c results, mkAnthropicConv (ac_system c) (ac_tools c) (ac_messages c ++ [user_turn (VList (map result_block results))])).

(** A tool call of a chat completion: its identifier, the function's name, the arguments' text. *)
Record chat_call : Type := mkChatCall { cc_id : string; cc_name : string; cc_arguments : val }.
(** src/valops/worker/adapters/native/openai.py:14-37 OpenAIBinding

    The message the library returns is kept as it dumps it. *)
Record chat_conversation : Type := mkChatConv { oc_tools : list ToolSpec; oc_messages : list val }.
Definition chat_arguments (v : val) : result exn val :=
  match py_or v (VStr "{}") with
  | VStr s => Ok (default (VDict [("__invalid_json__", VBool true)]) (json_loads s))
  | _ => Err (PyExc "TypeError")
  end.
Fixpoint chat_calls (l : list chat_call) : result exn (list tool_call) :=
  match l with
  | [] => Ok []
  | c :: l => a ← chat_arguments (cc_arguments c); cs ← chat_calls l; Ok (mkCall (cc_id c) (cc_name c) a :: cs)
  end.
Definition openai_binding (create : chat_conversation → result exn (val * list chat_call)) : Binding chat_conversation :=
  mkBinding _ (λ system user tools, Ok (mkChatConv tools [VDict [("role", VStr "system"); ("content", VStr system)]; user_turn (VStr user)]))
    (λ c, '(msg, calls) ← create c; cs ← chat_calls calls; Ok (cs, mkChatConv (oc_tools c) (oc_messages c ++ [msg])))
    (λ c results, mkChatConv (oc_tools c) (oc_messages c ++
       map (λ r, VDict [("role", VStr "tool"); ("tool_call_id", VStr (tr_id r)); ("content", VStr (tr_text r))]) results)).

(** ** tools/mcp_server.py *)
(** What the server writes: a result, the role's tools, an error. *)
Inductive mcp_response : Type :=
| McpResult (id : val) (result : val)
| McpTools (id : val) (tools : list ToolSpec)
| McpError (id : val) (code : Z) (message : string).
Definition response_id (r : mcp_response) : val := match r with McpResult i _ | McpTools i _ | McpError i _ _ => i end.

Definition option_list {A} (o : option A) : list A := match o with Some x => [x] | None => [] end.

Section mcp.
Context (answer : trace → result exn val) (key : trace → string).

(** [params.get(k, dflt)] *)
Definition param_or (params : val) (k : string) (dflt : val) : result exn val :=
  match params with VDict d => Ok (default dflt (dget d k)) | _ => Err (PyExc "AttributeError") end.

(** src/valops/worker/tools/mcp_server.py:22-52 serve

    One line of input, and the line written for it, if one is. *)
Definition serve_line (S : ToolStubs) (line : string) : WM (option mcp_response) :=
  let line := strip line in
  if String.eqb line EmptyString then mret None
  else match json_loads line with
  | None => mret (Some (McpError VNone (-32700) "parse error"))
  | Some (VDict req) =>
      let rid := dget_none req "id" in
      let method := dget_none req "method" in
      let params := py_or (dget_none req "params") (VDict []) in
      match rid with
      | VNone => mret None
      | _ =>
          if py_eq method (VStr "initialize") then
            version ← lift (param_or params "protocolVersion" (VStr "2025-06-18"));
            mret (Some (McpResult rid (VDict [("protocolVersion", version);
              ("capabilities", VDict [("tools", VDict [("listChanged", VBool false)])]);
              ("serverInfo", VDict [("name", VStr "valops"); ("version", VStr "0.5")])])))
          else if py_eq method (VStr "tools/list") then
            tools ← lift (stub_schemas (ts_allowed S)); mret (Some (McpTools rid tools))
          else if py_eq method (VStr "tools/call") then
            name ← lift (param_or params "name" VNone);
            res ← (if negb (py_in name (ts_allowed S))
                   then mret (tool_error "forbidden" (py_str name +:+ " is not available to this role"))
                   else args ← lift (param_or params "arguments" VNone); stub_call answer key S name (py_or args (VDict [])));
            mret (Some (McpResult rid (VDict [("content", VList [VDict [("type", VStr "text"); ("text", VStr (render res))]]);
                                              ("isError", VBool (is_error res))])))
          else if py_eq method (VStr "ping") then mret (Some (McpResult rid (VDict [])))
          else mret (Some (McpError rid (-32601) (py_str method +:+ " not supported")))
      end
  | Some _ => raise (PyExc "AttributeError")
  end.
(** src/valops/worker/tools/mcp_server.py:16-52 serve

    The lines of its input, until one makes it raise; the state has what was written. *)
Fixpoint serve (S : ToolStubs) (lines : list string) : M (trace * list mcp_response) exn unit :=
  match lines with
  | [] => mret tt
  | line :: lines =>
      _ ← (λ w : trace * list mcp_response,
             let '(r, tr) := serve_line S line w.1 in
             match r with Ok o => (Ok tt, (tr, w.2 ++ option_list o)) | Err e => (Err e, (tr, w.2)) end);
      serve S lines
  end.
End mcp.

(** ** adapters/claude_sdk/options.py *)
(** src/valops/worker/adapters/claude_sdk/options.py:14-26 DISALLOWED, SANDBOX_PROFILE *)
Definition DISALLOWED : list string := ["Bash"; "Write"; "Edit"; "NotebookEdit"; "WebFetch"; "WebSearch"; "Task"].
Definition SANDBOX_PROFILE : val := VDict
  [("enabled", VBool true); ("autoAllowBashIfSandboxed", VBool false); ("allowUnsandboxedCommands", VBool false); ("excludedCommands", VList []);
   ("enableWeakerNestedSandbox", VBool false);
   ("network", VDict [("allowedDomains", VList []); ("allowUnixSockets", VList [VStr "/run/valops/model.sock"]); ("allowLocalBinding", VBool false)])].

(** The options that vary; the others are constants of the code. *)
Record ClaudeOptions : Type := mkClaudeOptions {
  co_tools : list string; co_allowed_tools : list string; co_disallowed_tools : list string; co_gate : PolicyGate;
  co_sandbox : val; co_prompt_path : string; co_max_turns : Z; co_max_budget_usd : Q; co_model : val; co_env : list (string * string) }.
Fixpoint strings_of (l : list val) : result exn (list string) :=
  match l with [] => Ok [] | v :: l => s ← of_opt (as_str v) (PyExc "TypeError"); ss ← strings_of l; Ok (s :: ss) end.

(** src/valops/worker/adapters/claude_sdk/options.py:43-75 build_options

    [bundle] is what is mounted at the specification's bundle path. *)
Definition build_options (spec : dict) (bundle : bundle_dir) (prompt_path : string) : result exn ClaudeOptions :=
  tools ← vindex (VDict spec) "tools" ≫= py_iter; tools ← strings_of tools;
  let names := map (String.append MCP_PREFIX) tools in
  gate ← new_gate spec bundle;
  inlined ← vindex (VDict spec) "inlined_prompts";
  turns ← vindex (VDict spec) "max_turns" ≫= py_int; budget ← vindex (VDict spec) "max_budget_usd" ≫= py_float;
  conf ← vindex (VDict spec) "configuration"; model ← vindex conf "model"; port ← vindex (VDict spec) "model_port";
  Ok (mkClaudeOptions (if truthy inlined then names else "Skill" :: names) names DISALLOWED gate SANDBOX_PROFILE prompt_path turns budget model
        [("ANTHROPIC_BASE_URL", "http://127.0.0.1:" +:+ py_str port +:+ "/anthropic"); ("ANTHROPIC_API_KEY", "placeholder-not-a-secret");
         ("DISABLE_AUTOUPDATER", "1"); ("DISABLE_TELEMETRY", "1"); ("DISABLE_ERROR_REPORTING", "1");
         ("CLAUDE_CODE_DISABLE_NONESSENTIAL_TRAFFIC", "1")]).

(** ** The command-line runtimes *)
(** A process a launcher starts: its command line and environment. *)
Record started : Type := mkStarted { st_argv : list string; st_env : list (string * string) }.

Section launchers.
(** [shutil.which] and the environment. *)
Context (which : string → option string) (environ : string → option string).

(** src/valops/worker/adapters/codex_cli/launcher.py:18-29 run *)
Definition run_codex (spec : dict) : result exn started :=
  match which "codex" with
  | Some (String _ _ as exe) =>
      user ← user_message spec;
      Ok (mkStarted [exe; "exec"; "--skip-git-repo-check"; "--json"; "-C"; "/home/valops"; user]
            [("HOME", "/home/valops"); ("CODEX_HOME", "/home/valops/.codex"); ("PATH", default "/usr/bin" (environ "PATH"));
             ("VALOPS_PLACEHOLDER_KEY", "placeholder-not-a-secret"); ("LANG", "C.UTF-8"); ("PYTHONPATH", default EmptyString (environ "PYTHONPATH"))])
  | _ => Err (PyExc "RuntimeError")
  end.

(** src/valops/worker/adapters/antigravity_cli/launcher.py:21-34 run *)
Definition run_agy (spec : dict) (timeout_s : Q) : result exn started :=
  conf ← vindex (VDict spec) "configuration";
  override ← vget conf "endpoint_override_env"; adm ← vget conf "admission";
  if negb (truthy override) || negb (py_eq adm (VStr "admitted")) then Err (PyExc "NotAdmitted")
  else match which "agy" with
  | Some (String _ _ as exe) =>
      port ← vindex (VDict spec) "model_port"; override ← of_opt (as_str override) (PyExc "TypeError");
      user ← user_message spec; model ← vindex conf "model" ≫= (λ m, of_opt (as_str m) (PyExc "TypeError"));
      Ok (mkStarted [exe; "-p"; user; "--output-format"; "stream-json"; "--model"; model;
                     "--print-timeout"; py_str (VInt (Z.max 30 (Qtrunc timeout_s - 30)))]
            (dupdate [("HOME", "/home/valops"); ("PATH", default "/usr/bin" (environ "PATH")); ("LANG", "C.UTF-8")]
               [(override, "http://127.0.0.1:" +:+ py_str port +:+ "/google"); ("PYTHONPATH", default EmptyString (environ "PYTHONPATH"))]))
  | _ => Err (PyExc "RuntimeError")
  end.
End launchers.

(** ** main.py *)
Section entry.
(** What each runtime gives, run as the entry point runs it. *)
Context (run_claude : string → result exn val) (run_native : binding_kind * string * val → string → result exn unit)
  (run_cli : string → Q → result exn unit) (read_prompt : string → result exn string).

(** src/valops/worker/main.py:19-47 main

    Its exit code, and what it writes on standard output. *)
Definition worker_main (spec : dict) : result exn (Z * string) :=
  let s := VDict spec in
  _ ← vindex s "model_port" ≫= py_int; sockets ← vindex s "sockets"; _ ← vindex sockets "model";
  _ ← new_stubs spec;
  conf ← vindex s "configuration"; path ← vindex s "bundle_path"; role ← vindex s "role"; inlined ← vindex s "inlined_prompts";
  let prompt := py_str path +:+ "/prompts/" +:+ py_str role +:+ (if truthy inlined then ".inlined" else EmptyString) +:+ ".md" in
  adapter ← vindex conf "adapter";
  let timeout := py_float (default (VInt 280) (dget spec "timeout_s")) in
  structured ← (if py_eq adapter (VStr "claude_sdk") then v ← run_claude prompt; Ok (Some v)
                else if py_eq adapter (VStr "native") then
                  text ← read_prompt prompt; provider ← vindex conf "provider"; b ← binding_for provider spec; _ ← run_native b text; Ok (Some VNone)
                else if py_eq adapter (VStr "codex_cli") then t ← timeout; _ ← run_cli "codex" t; Ok (Some VNone)
                else if py_eq adapter (VStr "antigravity_cli") then t ← timeout; _ ← run_cli "agy" t; Ok (Some VNone)
                else Ok None);
  match structured with
  | Some v => Ok (0%Z, json_dumps (VDict [("structured_output", v)]) +:+ newline)
  | None => Ok (2%Z, EmptyString)
  end.
End entry.
