(* ===== verification/WorkerProps.v ===== *)
(** * What the worker's checks and loops amount to

    The policy gate against the brokers' own checks; the native loop and the tool server:
    that they stop, answer each request once, and pass on a role's tools only. *)
From S2P Require Import Prelude PyVal Schema Canonical Json PyConv Tools Transitions Tokens Rpc Fold Store AuditChain AuditClient Bundle Artefacts Control.
From S2P Require Import Keyed StoreSpec StoreInv StoreProps Scenario BundleProps Runner RunnerDemo Client Broker EpisodeBroker EpisodeBrokerProps.
From S2P Require Import Worker Runtimes.
From Stdlib Require Import Ascii.

(** ** The policy gate *)
Section gate.
Context `{HASH : Hash} `{OUT : Elsewhere} (N : surroundings).

Lemma raises {S A B} (m : M S exn A) e s (x : B) : ((m ≫= λ _, raise e) s).1 = Ok x → False.
Proof. unfold mbind, M_bind, raise. by destruct (m s) as [[a|e'] s']. Qed.
(** [authorize] on a token it admits: the tool is its role's and the arguments fit. *)
Lemma authorize_passes p tool w w1 cap role : br_check N p w = (Ok cap, w1) → c_role cap = VStr role →
  (∃ x, (authorize N p tool w).1 = Ok x) ↔
  tool ∈ TOOLS_BY_ROLE role ∧ ∃ t, TOOLS_BY_NAME tool = Some t ∧ Schema.validate (t_input_schema t) (py_or (dget_none p "args") (VDict [])) = true.
Proof.
  intros Hc Hrole. unfold authorize. rewrite (bind_run _ _ _ _ _ Hc), lift_bind, Hrole. cbn [tool_allowed].
  destruct (str_in tool (TOOLS_BY_ROLE role)) eqn:Hin; cbn [negb].
  - apply str_in_spec in Hin. rewrite lift_bind. destruct (TOOLS_BY_NAME tool) as [t|]; cbn [of_opt].
    + destruct (Schema.validate _ _) eqn:Hv; cbn [negb].
      * split; [intros _; split; [done|by exists t]|intros _; cbn; by eexists].
      * split; [by intros [x Hx%raises]|intros (_ & t' & [= <-] & Hv'); congruence].
    + split; [by intros [x [=]]|by intros (_ & t & [=] & _)].
  - split; [by intros [x Hx%raises]|intros [Hin' _]; apply str_in_spec in Hin'; congruence].
Qed.

Lemma tool_states_get role t : t ∈ TOOLS_BY_ROLE role →
  dget (tool_states role) t = Some (VList (match TOOLS_BY_NAME t with Some s => map VStr (t_states s) | None => [] end)).
Proof.
  unfold tool_states. induction (TOOLS_BY_ROLE role) as [|x l IH]; [by intros ?%elem_of_nil|]. cbn [map dget].
  intros [->|Hin]%elem_of_cons; [by rewrite String.eqb_refl|]. destruct (String.eqb_spec t x) as [->|]; [done|by apply IH].
Qed.

Lemma new_gate_step rec role kind session token conf_name conf inlined turns budget limit bundle :
  new_gate (step_spec N rec role kind session token conf_name conf inlined turns budget limit) bundle =
  Ok (mkPolicyGate (VStr role) (map VStr (TOOLS_BY_ROLE role)) (opt_val VStr (r_state rec)) (VDict (tool_states role)) (turns * 3) bundle 0).
Proof.
  unfold new_gate, step_spec. cbn -[TOOLS_BY_ROLE tool_states].
  assert (forallb hashable (map VStr (TOOLS_BY_ROLE role)) = true) as -> by (by induction (TOOLS_BY_ROLE role)). done.
Qed.

(** The gate when it has counted [k] calls more. *)
Definition counted (k : nat) (g : PolicyGate) : PolicyGate :=
  mkPolicyGate (pg_role g) (pg_allowed g) (pg_state g) (pg_tool_states g) (pg_max_calls g) (pg_bundle g) (pg_calls g + Z.of_nat k).
Lemma count_counted k g : count_call (counted k g) = counted (S k) g.
Proof. unfold count_call, counted. cbn [pg_calls pg_role pg_allowed pg_state pg_tool_states pg_max_calls pg_bundle]. f_equal. lia. Qed.

(** C24: equivalence. The gate in front of the model asks what the brokers ask. For the
    worker of a role, started with the specification the controller writes, a tool call
    passes the gate exactly when the broker that serves it admits it, role and schema, the
    tool is legal in the state the step began in, the session's calls are not used up, and
    the mounted bundle verifies; for every token of the role the broker accepts. *)
Theorem gate_asks_what_brokers_ask rec role kind session token conf_name conf inlined turns budget limit bundle g k tool args p w cap w1 :
  new_gate (step_spec N rec role kind session token conf_name conf inlined turns budget limit) bundle = Ok g →
  br_check N p w = (Ok cap, w1) → c_role cap = VStr role → dget_none p "args" = args →
  (gate_check tool args (counted k g)).1 = Ok None ↔
  (∃ x, (authorize N p (bare_name tool) w).1 = Ok x) ∧
  (∃ t state, TOOLS_BY_NAME (bare_name tool) = Some t ∧ r_state rec = Some state ∧ state ∈ t_states t) ∧
  (Z.of_nat k < turns * 3)%Z ∧ bundle_ok bundle = Ok true.
Proof.
  intros Hg Hc Hrole Hargs. rewrite new_gate_step in Hg. injection Hg as <-. rewrite (authorize_passes _ _ _ _ _ _ Hc Hrole), Hargs.
  unfold gate_check. rewrite get_bind. cbv zeta. cbn [counted pg_allowed pg_state pg_tool_states pg_max_calls pg_bundle pg_calls].
  set (name := bare_name tool).
  destruct (py_in (VStr name) (map VStr (TOOLS_BY_ROLE role))) eqn:Hin; cbn [negb].
  2: { split; [done|]. intros ((Hin' & _) & _). assert (py_in (VStr name) (map VStr (TOOLS_BY_ROLE role)) = true) by (apply py_in_strs; eauto). congruence. }
  apply py_in_strs in Hin as (s & [= <-] & Hin). rewrite lift_bind.
  destruct (TOOLS_BY_NAME name) as [t|] eqn:Ht; cbn [of_opt]; [|by split; [|intros ((_ & t & [=] & _) & _)]].
  destruct (Schema.validate _ _) eqn:Hv; cbn [negb]; [|split; [done|]; intros ((_ & t' & [= <-] & Hv') & _); congruence].
  rewrite modify_bind, Z.add_0_l. destruct (Z.ltb_spec (turns * 3) (Z.of_nat k + 1)) as [Hq|Hq]; [split; [done|]; intros (_ & _ & ? & _); lia|].
  rewrite lift_bind, (tool_states_get _ _ Hin), Ht. cbn [from_option id].
  destruct (py_in (opt_val VStr (r_state rec)) (map VStr (t_states t))) eqn:Hs; cbn [negb].
  - apply py_in_strs in Hs as (st & Hst' & Hlegal). rewrite lift_bind. destruct (bundle_ok bundle) as [[|]|e] eqn:Hbo;
      try (split; [done|by intros (_ & _ & _ & [=])]).
    split; [intros _|done]. split_and!; [done|by exists t|exists t, st; split_and!; try done|lia|done].
    destruct (r_state rec) as [x|]; [by injection Hst' as ->|discriminate Hst'].
  - split; [done|]. intros (_ & (t' & st & [= <-] & Hrec & Hlegal) & _). rewrite Hrec in Hs.
    assert (py_in (opt_val VStr (Some st)) (map VStr (t_states t)) = true) by (apply py_in_strs; eauto). congruence.
Qed.
End gate.

(** ** The loops *)
(** A call of a tool of the stubs' role, at the tool's broker, with the step's token. *)
Definition role_tool_call (S : ToolStubs) (e : event) : Prop :=
  match e with
  | EvRpc service method params =>
      ∃ t, t ∈ TOOLS ∧ VStr (t_name t) ∈ ts_allowed S ∧ service = t_broker t ∧ method = t_name t ∧
        dget params "token" = dget (ts_spec S) "token" ∧ dget params "episode_id" = dget (ts_spec S) "episode_id"
  | _ => False
  end.
Definition calls_tools (S : ToolStubs) (tr tr' : trace) : Prop := ∃ l, tr' = tr ++ l ∧ Forall (role_tool_call S) l.
#[export] Instance calls_tools_preorder S : PreOrder (calls_tools S).
Proof.
  split; [intros tr; exists []; by rewrite app_nil_r|]. intros t1 t2 t3 (l1 & -> & H1) (l2 & -> & H2). exists (l1 ++ l2).
  split; [by rewrite (assoc_L app)|by apply Forall_app].
Qed.

(** Stubs that have what a call needs: a client of every tool's broker, the token and the
    episode's identifier; and brokers that answer or fail with [RpcError]. *)
Record equipped (S : ToolStubs) : Prop := {
  eq_clients : Forall (λ t, t_broker t ∈ ts_clients S) TOOLS;
  eq_token : is_Some (dget (ts_spec S) "token");
  eq_episode : is_Some (dget (ts_spec S) "episode_id");
}.
Definition polite (answer : trace → result exn val) : Prop := ∀ tr e, answer tr = Err e → ∃ code data, e = RpcError code data.

Lemma bind_stops {S A B} (m : M S exn A) (k : A → M S exn B) s e s1 : m s = (Err e, s1) → (m ≫= k) s = (Err e, s1).
Proof. unfold mbind, M_bind. by intros ->. Qed.

Section loops.
Context (answer : trace → result exn val) (key : trace → string) (S : ToolStubs).

(** What a stub's call does: at most that one call, and with all it needs it returns. *)
Lemma stub_call_run n args tr : VStr n ∈ ts_allowed S → let x := stub_call answer key S (VStr n) args tr in
  calls_tools S tr x.2 ∧ (equipped S → polite answer → ∃ v, x.1 = Ok v).
Proof.
  intros Hn. cbv zeta. unfold stub_call. rewrite require_bind. cbn [hashable as_str]. cbn [mbind option_bind].
  destruct (TOOLS_BY_NAME n) as [t|] eqn:Ht; [|split; [reflexivity|by eexists]]. apply TOOLS_BY_NAME_Some in Ht as [Ht Hname].
  unfold catch_rpc, catch, client_of. rewrite require_bind. destruct (str_in (t_broker t) (ts_clients S)) eqn:Hb.
  2: { split; [reflexivity|]. intros [Hc _ _]. rewrite list.Forall_forall in Hc. apply Hc, str_in_spec in Ht. congruence. }
  rewrite lift_bind. cbn [vindex]. destruct (dget (ts_spec S) "token") as [tok|] eqn:Htok.
  2: { split; [reflexivity|]. intros [_ [? Hx] _]. congruence. }
  cbn [of_opt]. rewrite lift_bind. destruct (dget (ts_spec S) "episode_id") as [eid|] eqn:Heid.
  2: { split; [reflexivity|]. intros [_ _ [? Hx]]. congruence. }
  cbn [of_opt]. rewrite get_bind. set (params := _ :: _). set (e := EvRpc (t_broker t) (t_name t) params).
  assert (calls_tools S tr (tr ++ [e])) as Hcalls.
  { exists [e]. split; [done|]. constructor; [|done]. exists t. split_and!; try done. by rewrite Hname. }
  assert (wk_rpc answer (t_broker t) (t_name t) params tr = (answer (tr ++ [e]), tr ++ [e])) as Hrpc by done.
  destruct (answer (tr ++ [e])) as [res|[code d|cls]] eqn:Ha.
  - rewrite (bind_run _ _ _ _ _ Hrpc). split; [done|by eexists].
  - rewrite (bind_stops _ _ _ _ _ Hrpc). split; [done|by eexists].
  - rewrite (bind_stops _ _ _ _ _ Hrpc). split; [done|]. intros _ Hp. apply Hp in Ha as (? & ? & [=]).
Qed.

Lemma run_call_run c tr : let x := run_call answer key S c tr in
  calls_tools S tr x.2 ∧ (equipped S → polite answer → ∃ v, x.1 = Ok v).
Proof.
  cbv zeta. unfold run_call. destruct (py_in (VStr (tc_name c)) (ts_allowed S)) eqn:Hin; cbn [negb]; [|split; [reflexivity|by eexists]].
  set (args := match tc_args c with VDict d => VDict d | _ => VDict [] end).
  assert (VStr (tc_name c) ∈ ts_allowed S) as Hal.
  { unfold py_in in Hin. apply existsb_true in Hin as (x & Hx & Heq). by apply py_eq_str_l in Heq as ->. }
  destruct (stub_call_run (tc_name c) args tr Hal) as [Hc Ht]. unfold mbind, M_bind.
  destruct (stub_call answer key S (VStr (tc_name c)) args tr) as [[v|e] tr'] eqn:Hrun; cbn in *.
  - split; [done|by eexists].
  - split; [done|]. intros He Hp. by destruct (Ht He Hp) as [v [=]].
Qed.
Lemma run_calls_run calls : ∀ tr, let x := run_calls answer key S calls tr in
  calls_tools S tr x.2 ∧ (equipped S → polite answer → ∃ v, x.1 = Ok v).
Proof.
  induction calls as [|c calls IH]; intros tr; cbv zeta; cbn [run_calls]; [split; [reflexivity|by eexists]|].
  destruct (run_call_run c tr) as [Hc Ht]. unfold mbind, M_bind. destruct (run_call answer key S c tr) as [[v|e] tr1] eqn:Hrun; cbn [fst snd] in *.
  - destruct (IH tr1) as [Hc1 Ht1]. destruct (run_calls answer key S calls tr1) as [[vs|e] tr2] eqn:Hruns; cbn [fst snd] in *; (split; [by etrans|]).
    + intros _ _. by eexists.
    + intros He Hp. by destruct (Ht1 He Hp) as [? [=]].
  - split; [done|]. intros He Hp. by destruct (Ht He Hp) as [? [=]].
Qed.

(** The loop: as many requests to the model as it has turns, at most; and it returns. *)
Lemma native_turns_run {C} (B : Binding C) turns : ∀ c w, let x := native_turns B answer key S turns c w in
  calls_tools S (cv_calls w) (cv_calls x.2) ∧ cv_requests x.2 ≤ cv_requests w + turns ∧
  (equipped S → polite answer → (∀ c, ∃ y, bd_step B c = Ok y) → x.1 = Ok tt).
Proof.
  induction turns as [|turns IH]; intros c w; cbv zeta; cbn [native_turns]; [split_and!; [reflexivity|cbn; lia|done]|].
  rewrite modify_bind, lift_bind. destruct (bd_step B c) as [[calls c']|e] eqn:Hstep.
  2: { split_and!; [reflexivity|cbn; lia|]. intros _ _ Ht. by destruct (Ht c) as [y Hy]; rewrite Hstep in Hy. }
  destruct calls as [|x calls]; [split_and!; [reflexivity|cbn; lia|done]|].
  set (w1 := mkConversation (cv_calls w) (Datatypes.S (cv_requests w))). unfold mbind, M_bind, brokered.
  destruct (run_calls_run (x :: calls) (cv_calls w1)) as [Hc Ht].
  destruct (run_calls answer key S (x :: calls) (cv_calls w1)) as [[results|e] tr1] eqn:Hrun; cbn [fst snd] in *.
  - destruct (IH (bd_add_results B c' results) (mkConversation tr1 (cv_requests w1))) as (Hc2 & Hn & Ht2). cbn [cv_calls cv_requests w1] in *.
    split_and!; [by etrans|lia|done].
  - cbn. split_and!; [done|lia|]. intros He Hp _. by destruct (Ht He Hp) as [? [=]].
Qed.
End loops.

(** *** A step's worker *)
Section step.
Context (N : surroundings) (rec : record) (role kind session token conf_name : string) (conf : dict) (inlined : bool) (turns : Z) (budget limit : Q)
  (view : val).
(** What the worker reads: the specification with the input the controller assembled. *)
Definition step_json : dict := step_spec N rec role kind session token conf_name conf inlined turns budget limit ++ [("input_view", view)].

Lemma step_stubs S : new_stubs step_json = Ok S → ts_spec S = step_json ∧ ts_allowed S = map VStr (TOOLS_BY_ROLE role) ∧ equipped S.
Proof using Type.
  unfold new_stubs, step_json, step_spec. cbn -[TOOLS_BY_ROLE tool_states TOOLS]. intros [= <-]. split_and!; [done|done|].
  split; [|by eexists|by eexists]. apply list.Forall_forall. intros t Ht.
  assert (forallb (λ t, str_in (t_broker t) ["episode"; "observer"; "report"]) TOOLS = true) as Hall by done.
  rewrite forallb_forall in Hall. apply str_in_spec, Hall. by apply list_elem_of_In.
Qed.
Lemma role_schemas l : (∀ t, t ∈ l → is_Some (TOOLS_BY_NAME t)) → ∃ ts, stub_schemas (map VStr l) = Ok ts.
Proof using Type.
  induction l as [|t l IH]; intros Hl; cbn [map stub_schemas]; [by eexists|]. destruct (Hl t) as [s Hs]; [left|].
  cbn [as_str mbind option_bind]. rewrite Hs. destruct IH as [ts Hts]; [intros x Hx; apply Hl; by right|]. rewrite Hts. by eexists.
Qed.
Lemma role_tools_known t : t ∈ TOOLS_BY_ROLE role → is_Some (TOOLS_BY_NAME t).
Proof using Type.
  unfold TOOLS_BY_ROLE. destruct (str_in role _); [|by intros ?%elem_of_nil]. intros (s & -> & Hs)%list_elem_of_fmap.
  apply list_elem_of_In, filter_In in Hs as [Hs _].
  assert (forallb (λ t, match TOOLS_BY_NAME (t_name t) with Some _ => true | None => false end) TOOLS = true) as Hall by done.
  rewrite forallb_forall in Hall. apply Hall in Hs. destruct (TOOLS_BY_NAME _); [by eexists|done].
Qed.

(** C25: termination. A worker's native loop ends. Whatever the model answers, however many
    tools it asks for in a turn, and whether the brokers refuse its calls or not (as long as
    their calls fail with an [RpcError] only), it returns after at most P-05 requests to the model, provided the provider's library returns from
    each; and whatever it asked of the brokers were tools of its role, each at the broker
    that serves it, with the step's own token and episode. *)
Theorem native_loop_stops {C} (B : Binding C) answer key S prompt w :
  role ∈ ROLES → new_stubs step_json = Ok S → polite answer →
  (∀ system user tools, ∃ c, bd_start B system user tools = Ok c) → (∀ c, ∃ y, bd_step B c = Ok y) →
  ∃ w', native_run B answer key step_json prompt S w = (Ok tt, w') ∧ cv_requests w' ≤ cv_requests w + Z.to_nat turns ∧
    ts_allowed S = map VStr (TOOLS_BY_ROLE role) ∧ calls_tools S (cv_calls w) (cv_calls w').
Proof using Type.
  intros Hrole HS Hpolite Hstart Hstep. apply step_stubs in HS as (Hspec & Hal & Heq).
  assert (∃ user, user_message step_json = Ok user) as [user Huser].
  { unfold user_message, step_json, step_spec. cbn -[json_indent String.append stake Nat.mul].
    unfold ROLES in Hrole. rewrite !elem_of_cons, elem_of_nil in Hrole. destruct Hrole as [->|[->|[->|[->|[]]]]]; eexists; reflexivity. }
  destruct (role_schemas (TOOLS_BY_ROLE role) role_tools_known) as [schemas Hschemas].
  destruct (Hstart prompt user schemas) as [c Hc].
  unfold native_run. rewrite lift_bind, Huser, lift_bind, Hal, Hschemas, lift_bind, Hc, lift_bind.
  assert (vindex (VDict step_json) "max_turns" ≫= py_int = Ok turns) as -> by done.
  destruct (native_turns_run answer key S B (Z.to_nat turns) c w) as (Hcalls & Hn & Hok).
  destruct (native_turns B answer key S (Z.to_nat turns) c w) as [r w'] eqn:Hrun. cbn [fst snd] in *.
  exists w'. rewrite (Hok Heq Hpolite Hstep). done.
Qed.
End step.

(** ** The tool server *)
Definition some_id (i : val) : option val := match i with VNone => None | _ => Some i end.
(** The identifier a line of input is answered under, if it is. *)
Definition expected_id (line : string) : option val :=
  let line := strip line in
  if String.eqb line EmptyString then None
  else match json_loads line with
       | None => Some VNone
       | Some (VDict req) => some_id (dget_none req "id")
       | Some _ => None
       end.
(** A line the server does not raise on: no JSON, or an object whose parameters are one. *)
Definition proper_line (line : string) : Prop :=
  match json_loads (strip line) with
  | Some (VDict req) => is_dict (py_or (dget_none req "params") (VDict [])) = true
  | Some _ => False
  | None => True
  end.

Section mcp.
Context (answer : trace → result exn val) (key : trace → string) (S : ToolStubs) (role : string) (Hal : ts_allowed S = map VStr (TOOLS_BY_ROLE role)).

Lemma serve_line_run line tr : let x := serve_line answer key S line tr in
  calls_tools S tr x.2 ∧ (∀ o, x.1 = Ok o → response_id <$> o = expected_id line) ∧
  (proper_line line → equipped S → polite answer → ∃ o, x.1 = Ok o).
Proof using Hal.
  cbv zeta. unfold serve_line, expected_id, proper_line. destruct (String.eqb_spec (strip line) EmptyString) as [->|Hne].
  { split_and!; [reflexivity|by intros o [= <-]|by eexists]. }
  destruct (json_loads (strip line)) as [[| | | | | |req]|]; try (split_and!; [reflexivity|by intros o [=]|done]).
  2: { split_and!; [reflexivity|by intros o [= <-]|by eexists]. }
  set (params := py_or (dget_none req "params") (VDict [])). set (method := dget_none req "method").
  assert (dget_none req "id" = VNone ∨ ∀ A (a b : A), match dget_none req "id" with VNone => a | _ => b end = b) as [->|Hrid] by (destruct (dget_none req "id"); auto);
    [split_and!; [reflexivity|by intros o [= <-]|by eexists]|].
  rewrite !Hrid. set (rid := dget_none req "id") in *.
  assert (some_id rid = Some rid) as -> by apply Hrid.
  clearbody rid params method. clear Hrid.
  assert (∀ k d, is_dict params = true → ∃ v, param_or params k d = Ok v) as Hpar by (intros k d; destruct params; try done; by eexists).
  destruct (py_eq method (VStr "initialize")).
  { rewrite lift_bind. destruct (param_or params "protocolVersion" _) as [v|e] eqn:Hp; (split_and!; [reflexivity| |]).
    - by intros o [= <-].
    - by eexists.
    - by intros o [=].
    - intros Hd. destruct (Hpar "protocolVersion" (VStr "2025-06-18") Hd). congruence. }
  destruct (py_eq method (VStr "tools/list")).
  { rewrite lift_bind, Hal. destruct (role_schemas (TOOLS_BY_ROLE role) (role_tools_known role)) as [ts ->].
    split_and!; [reflexivity|by intros o [= <-]|by eexists]. }
  destruct (py_eq method (VStr "tools/call")).
  { rewrite lift_bind. destruct (param_or params "name" VNone) as [name|e] eqn:Hp.
    2: { split_and!; [reflexivity|by intros o [=]|]. intros Hd. destruct (Hpar "name" VNone Hd). congruence. }
    destruct (py_in name (ts_allowed S)) eqn:Hin; cbn [negb]; [|split_and!; [reflexivity|by intros o [= <-]|by eexists]].
    rewrite Hal in Hin. apply py_in_strs in Hin as (n & -> & Hn).
    assert (VStr n ∈ ts_allowed S) as Hn' by (rewrite Hal; by apply list_elem_of_fmap_2).
    unfold mbind, M_bind, lift. destruct (param_or params "arguments" VNone) as [args|e] eqn:Hargs.
    2: { split_and!; [reflexivity|by intros o [=]|]. intros Hd. destruct (Hpar "arguments" VNone Hd). congruence. }
    destruct (stub_call_run answer key S n (py_or args (VDict [])) tr Hn') as [Hc Hok].
    destruct (stub_call answer key S (VStr n) (py_or args (VDict [])) tr) as [[v|e] tr'] eqn:Hrun; cbn [fst snd] in *.
    - split_and!; [done|by intros o [= <-]|by eexists].
    - split_and!; [done|by intros o [=]|]. intros _ He Hp'. by destruct (Hok He Hp') as [? [=]]. }
  destruct (py_eq method (VStr "ping")); (split_and!; [reflexivity|by intros o [= <-]|by eexists]).
Qed.

(** The tool server answers each request once. Whatever lines it is sent, it
    writes, in their order, one response for each request under the request's own
    identifier, an error for each line that is not JSON, and nothing for notifications and
    blank lines; on the way it calls nothing but tools of the role. It stops only at a line
    that is JSON but no object with an object for parameters. *)
Theorem mcp_answers_in_order lines tr out r tr' out' : serve answer key S lines (tr, out) = (r, (tr', out')) →
  calls_tools S tr tr' ∧ (∃ ids, map response_id out' = map response_id out ++ ids ∧ ids `prefix_of` omap expected_id lines ∧
    (r = Ok tt → ids = omap expected_id lines)) ∧
  (Forall proper_line lines → equipped S → polite answer → r = Ok tt).
Proof using Hal.
  revert tr out. induction lines as [|line lines IH]; intros tr out H; cbn [serve] in H.
  { injection H as <- <- <-. split_and!; [reflexivity|exists []; by rewrite app_nil_r|done]. }
  destruct (serve_line_run line tr) as (Hc & Hid & Hok). unfold mbind, M_bind in H. cbn [fst] in H.
  destruct (serve_line answer key S line tr) as [[o|e] tr1] eqn:Hline; cbn [fst snd] in *.
  - apply IH in H as (Hc2 & (ids & Hids & Hpre & Hall) & Hok2). specialize (Hid o eq_refl).
    split_and!; [by etrans| |].
    + exists (option_list (expected_id line) ++ ids). rewrite Hids, map_app, <- Hid. split; [by destruct o; cbn; rewrite <- ?(assoc_L app)|].
      cbn [omap list_omap]. rewrite <- Hid. destruct o as [x|]; cbn; [|done].
      split; [by apply prefix_cons|]. intros Hr. by rewrite Hall.
    + intros [Hp Hps]%list.Forall_cons He Hpol. by apply Hok2.
  - injection H as <- <- <-. split_and!; [done| |].
    + exists []. rewrite app_nil_r. split_and!; [done|apply prefix_nil|done].
    + intros [Hp Hps]%list.Forall_cons He Hpol. by destruct (Hok Hp He Hpol) as [? [=]].
Qed.
End mcp.

(** * The worker's loops, executed

    A diagnostician's gate, a conversation that calls two tools, and a session of the tool
    server; the theorems on the worker are instantiated here. *)

(** ** The gate *)
#[local] Instance nothing_else : Elsewhere := λ _, None.
Definition write_record : record := default (empty_record "none") (dget (s_records write_store) "ep1").
Abbreviation gate_spec role := (step_spec write_surroundings write_record role "incident" "sess1" quota_token "c1" [("model", VStr "m")] true 10 1 600).
Definition demo_gate_of (role : string) : PolicyGate :=
  match new_gate (gate_spec role) (signed quota_files) with
  | Ok g => g | Err _ => mkPolicyGate VNone [] VNone VNone 0 [] 0 end.
Lemma diagnostician_gate : new_gate (gate_spec "diagnostician") (signed quota_files) = Ok (demo_gate_of "diagnostician").
Proof. reflexivity. Qed.
Definition hypothesis_call : dict :=
  [("token", VStr quota_token); ("episode_id", VStr "ep1"); ("idem_key", VStr "k-000001"); ("args", dget_none hypothesis_params "hypothesis")].
Definition write_cap : Capability :=
  match br_check write_surroundings hypothesis_call write_start with
  | (Ok c, _) => c | _ => mkCap VNone VNone VNone VNone VNone VNone VNone VNone end.
Definition checked : broker := (br_check write_surroundings hypothesis_call write_start).2.
Lemma write_checked : br_check write_surroundings hypothesis_call write_start = (Ok write_cap, checked).
Proof. by vm_compute. Qed.
Lemma write_role : c_role write_cap = VStr "diagnostician".
Proof. by vm_compute. Qed.
Definition the_hypothesis : val := dget_none hypothesis_params "hypothesis".
(** Five calls in, the hypothesis passes the gate: it is what the broker admits. *)
Lemma gate_asks_what_brokers_ask_witness :
  (gate_check (HASH := sum_hash) "mcp__valops__add_hypothesis" the_hypothesis (counted 5 (demo_gate_of "diagnostician"))).1 = Ok None ∧
  ((gate_check (HASH := sum_hash) "mcp__valops__add_hypothesis" the_hypothesis (counted 5 (demo_gate_of "diagnostician"))).1 = Ok None ↔
   (∃ x, (authorize write_surroundings hypothesis_call (bare_name "mcp__valops__add_hypothesis") write_start).1 = Ok x) ∧
   (∃ t state, TOOLS_BY_NAME (bare_name "mcp__valops__add_hypothesis") = Some t ∧ r_state write_record = Some state ∧ state ∈ t_states t) ∧
   (Z.of_nat 5 < 10 * 3)%Z ∧ bundle_ok (HASH := sum_hash) (signed quota_files) = Ok true).
Proof.
  split; [vm_compute; reflexivity|].
  exact (gate_asks_what_brokers_ask (HASH := sum_hash) write_surroundings write_record "diagnostician" "incident" "sess1" quota_token "c1"
    [("model", VStr "m")] true 10 1 600 (signed quota_files) (demo_gate_of "diagnostician") 5 "mcp__valops__add_hypothesis" the_hypothesis
    hypothesis_call write_start write_cap checked diagnostician_gate write_checked write_role eq_refl).
Defined.

(** The check of the state is the gate's own for a tool that only reads: in [diagnosing],
    where [get_verification_result] is not legal, the gate denies it and the broker answers. *)
Definition planner_token : string :=
  match mint demo_sign 100 "n0" "ep1" "change_planner" "sess2" quota_id 600 with Ok t => t | Err _ => EmptyString end.
Definition read_call : dict := [("token", VStr planner_token); ("episode_id", VStr "ep1"); ("args", VDict [])].
Example state_is_not_checked_again :
  r_state write_record = Some "diagnosing" ∧
  (gate_check (HASH := sum_hash) "get_verification_result" VNone (demo_gate_of "change_planner")).1 = Ok (Some IllegalState) ∧
  is_ok (eb_get_verification_result write_surroundings read_call write_start).1 = true.
Proof. by vm_compute. Qed.

(** ** The native loop *)
(** Three turns: two calls, one of them not the role's, a call the broker refuses, an end. *)
Definition demo_turn (n : nat) : list tool_call :=
  match n with
  | 0 => [mkCall "a" "get_catchup" (VDict []); mkCall "b" "send_alert" (VDict [])]
  | 1 => [mkCall "c" "add_hypothesis" the_hypothesis]
  | _ => []
  end.
Definition demo_binding : Binding nat := mkBinding _ (λ _ _ _, Ok 0) (λ n, Ok (demo_turn n, S n)) (λ n _, n).
Definition demo_broker_answers (tr : trace) : result exn val :=
  match list.last tr with Some (EvRpc "observer" _ _) => Ok (VDict [("status", VStr "ok")]) | _ => Err (rpc_error "quota") end.
Lemma demo_polite : polite demo_broker_answers.
Proof.
  intros tr e. unfold demo_broker_answers. intros H. exists "quota", VNone. revert H.
  repeat (case_match; try (by intros [= <-])); by intros [=].
Qed.
Abbreviation demo_step := (step_json write_surroundings write_record "diagnostician" "incident" "sess1" quota_token "c1" [("model", VStr "m")] true 10 1 600 (VStr "view")).
Definition demo_stubs : ToolStubs := match new_stubs demo_step with Ok s => s | Err _ => mkStubs [] VNone [] [] end.
Lemma demo_stubs_made : new_stubs demo_step = Ok demo_stubs.
Proof. reflexivity. Qed.
Definition demo_key (tr : trace) : string := fmt_id "k-" (length tr).

Lemma native_loop_stops_witness :
  ∃ w', native_run demo_binding demo_broker_answers demo_key demo_step "prompt" demo_stubs (mkConversation [] 0) = (Ok tt, w') ∧
    cv_requests w' ≤ 0 + Z.to_nat 10 ∧ ts_allowed demo_stubs = map VStr (TOOLS_BY_ROLE "diagnostician") ∧ calls_tools demo_stubs [] (cv_calls w').
Proof.
  exact (native_loop_stops write_surroundings write_record "diagnostician" "incident" "sess1" quota_token "c1" [("model", VStr "m")] true 10 1 600 (VStr "view")
    demo_binding demo_broker_answers demo_key demo_stubs "prompt" (mkConversation [] 0) (list_elem_of_here _ _) demo_stubs_made demo_polite
    (λ _ _ _, ex_intro _ 0 eq_refl) (λ n, ex_intro _ (demo_turn n, S n) eq_refl)).
Defined.

(** ** The tool server *)
Definition q (s : string) : string := String (ascii_of_nat 34) (s +:+ String (ascii_of_nat 34) EmptyString).
Definition demo_lines : list string :=
  ["{" +:+ q "id" +:+ ":1," +:+ q "method" +:+ ":" +:+ q "initialize" +:+ "}"; "{" +:+ q "method" +:+ ":" +:+ q "notifications/initialized" +:+ "}"; "not json";
   "{" +:+ q "id" +:+ ":2," +:+ q "method" +:+ ":" +:+ q "tools/call" +:+ "," +:+ q "params" +:+ ":{" +:+ q "name" +:+ ":" +:+ q "get_catchup" +:+ "}}"; ""].
Abbreviation demo_serve := (serve demo_broker_answers demo_key demo_stubs demo_lines ([], [])).
Definition served_out : list mcp_response := demo_serve.2.2.
Definition served_calls : trace := demo_serve.2.1.
Lemma demo_served : demo_serve = (demo_serve.1, (served_calls, served_out)).
Proof. unfold served_calls, served_out. destruct demo_serve as [r [tr out]]. reflexivity. Qed.
Lemma demo_allowed : ts_allowed demo_stubs = map VStr (TOOLS_BY_ROLE "diagnostician").
Proof. reflexivity. Qed.
Example three_responses : map response_id served_out = [VInt 1; VNone; VInt 2] ∧ demo_serve.1 = Ok tt ∧ length served_calls = 1.
Proof. vm_compute. split_and!; reflexivity. Qed.

Lemma mcp_answers_in_order_witness :
  calls_tools demo_stubs [] served_calls ∧
  (∃ ids, map response_id served_out = [] ++ ids ∧ ids `prefix_of` omap expected_id demo_lines ∧
     (demo_serve.1 = Ok tt → ids = omap expected_id demo_lines)) ∧
  (Forall proper_line demo_lines → equipped demo_stubs → polite demo_broker_answers → demo_serve.1 = Ok tt).
Proof.
  exact (mcp_answers_in_order demo_broker_answers demo_key demo_stubs "diagnostician" demo_allowed demo_lines [] [] demo_serve.1
    served_calls served_out demo_served).
Defined.
