(* ===== verification/Regex.v ===== *)
(** * Regular expressions as Python's [re] runs them

    Text is a list of characters, each the bytes of one code point. A pattern is matched by
    backtracking: the leftmost position first, alternatives in order, a greedy repetition
    as often as it can. [matches] says, without a search order, what a pattern matches;
    the matcher finds a match exactly where there is one. The Unicode database is the class
    [Unicode]: what it says of characters outside ASCII is arbitrary.

    The fuel of a repetition is the number of characters left, since every turn takes one:
    the program repeats no pattern that matches nothing. *)
From S2P Require Import Prelude PyVal Table Schema Canonical.
From Stdlib Require Import Ascii.

#[local] Arguments String.append !_ _ /.

(** ** Characters *)
Abbreviation char := string.
Abbreviation text := (list char).
Definition is_cont (c : ascii) : bool := let n := nat_of_ascii c in ((128 <=? n) && (n <? 192))%nat.
(** The code points of a string: the bytes that continue one go with it. *)
Fixpoint chars (s : string) : text :=
  match s with
  | EmptyString => []
  | String c s' =>
      match chars s' with
      | String d x :: l => if is_cont d then String c (String d x) :: l else String c EmptyString :: String d x :: l
      | l => String c EmptyString :: l
      end
  end.
Definition concat_text (l : text) : string := fold_right String.append EmptyString l.

Lemma chars_concat s : concat_text (chars s) = s.
Proof.
  induction s as [|c s IH]; cbn; [done|]. destruct (chars s) as [|[|d x] l]; cbn in *; [by rewrite <- IH|by rewrite <- IH|].
  destruct (is_cont d); cbn; by rewrite <- IH.
Qed.

(** A character as [chars] makes it, and one that may follow another. *)
Definition tail_cont (x : char) : Prop := ∃ c r, x = String c r ∧ Forall (λ d, is_cont d = true) (String.list_ascii_of_string r).
Definition starts_char (x : char) : Prop := match x with String c _ => is_cont c = false | EmptyString => False end.
Definition well_split (l : text) : Prop := Forall tail_cont l ∧ Forall starts_char (tl l).

Lemma chars_cont r s : Forall (λ d, is_cont d = true) (String.list_ascii_of_string r) → r ≠ EmptyString →
  (∀ x l, chars s = x :: l → starts_char x) → chars (r +:+ s) = r :: chars s.
Proof.
  induction r as [|c r IH]; [by intros _ []|]. intros Hr _ Hs. cbn in Hr. apply list.Forall_cons in Hr as [Hc Hr]. cbn.
  destruct r as [|d r'].
  - cbn. destruct (chars s) as [|[|e x] l] eqn:E; [done|by destruct (Hs _ _ eq_refl)|]. specialize (Hs _ _ eq_refl). cbn in Hs. by rewrite Hs.
  - rewrite IH by done. cbn in Hr. apply list.Forall_cons in Hr as [Hd _]. cbn. by rewrite Hd.
Qed.
Lemma chars_char x s : tail_cont x → (∀ y l, chars s = y :: l → starts_char y) → chars (x +:+ s) = x :: chars s.
Proof.
  intros (c & r & -> & Hr) Hs. cbn. destruct r as [|d r'].
  - cbn. destruct (chars s) as [|[|e y] l] eqn:E; [done|by destruct (Hs _ _ eq_refl)|]. specialize (Hs _ _ eq_refl). cbn in Hs. by rewrite Hs.
  - rewrite chars_cont by done. cbn in Hr. apply list.Forall_cons in Hr as [Hd _]. by rewrite Hd.
Qed.
Lemma chars_of_concat l : well_split l → chars (concat_text l) = l.
Proof.
  intros [Ht Hs]. revert Hs. induction Ht as [|x l Hx Hl IH]; intros Hs; [done|]. cbn in Hs. cbn [concat_text fold_right].
  assert (chars (concat_text l) = l) as E by (apply IH; destruct Hs; [done|by cbn]).
  change (fold_right String.append EmptyString l) with (concat_text l).
  rewrite chars_char; [by rewrite E|done|]. intros y l' Hy. rewrite E in Hy. rewrite Hy in Hs. by apply list.Forall_cons in Hs as [? _].
Qed.
Lemma chars_split s : well_split (chars s).
Proof.
  induction s as [|c s [Ht Hs]]; [by split|]. cbn. destruct (chars s) as [|[|d x] l].
  - split; [|by cbn]. apply list.Forall_singleton. by exists c, EmptyString.
  - apply list.Forall_cons in Ht as [(c0 & r0 & [=] & _) _].
  - apply list.Forall_cons in Ht as [(c0 & r0 & [= <- <-] & Hr) Hl]. cbn in Hs. destruct (is_cont d) eqn:Ed.
    + split; [|done]. apply list.Forall_cons. split; [|done]. exists c, (String d x). split; [done|]. cbn. by apply list.Forall_cons.
    + split; cbn.
      * apply list.Forall_cons. split; [by exists c, EmptyString|]. apply list.Forall_cons. split; [by exists d, x|done].
      * apply list.Forall_cons. by split.
Qed.

(** ** The classes of characters *)
(** What [str.isdecimal], [str.isspace] and [str.isalnum] say outside ASCII; a decimal
    digit has a value. *)
Class Unicode : Type := { udigit : char → option Z; uspace : char → bool; ualnum : char → bool }.
Definition ascii_of (x : char) : option ascii :=
  match x with String c EmptyString => if (nat_of_ascii c <? 128)%nat then Some c else None | _ => None end.
(** A class of ASCII characters. *)
Definition asc (p : ascii → bool) : char → bool := λ x, match ascii_of x with Some c => p c | None => false end.
Definition one_of (l : list ascii) : char → bool := asc (λ c, existsb (Ascii.eqb c) l).
Definition none_of (p : char → bool) : char → bool := λ x, negb (p x).
Definition any_of (p q : char → bool) : char → bool := λ x, p x || q x.
Definition is_alnum (c : ascii) : bool := is_digit c || is_lower c || is_upper c.
Definition is_b58 (c : ascii) : bool :=
  in_range "1"%char "9"%char c || in_range "A"%char "H"%char c || in_range "J"%char "N"%char c || in_range "P"%char "Z"%char c ||
  in_range "a"%char "k"%char c || in_range "m"%char "z"%char c.
Definition line_end : char → bool := one_of ["010"%char].

Section regex.
Context `{UNI : Unicode}.

Definition digit_value (x : char) : option Z :=
  match ascii_of x with
  | Some c => if is_digit c then Some (Z.of_nat (nat_of_ascii c) - 48)%Z else None
  | None => udigit x
  end.
(** [\d], [\s] and [\w] *)
Definition digit_class (x : char) : bool := bool_decide (is_Some (digit_value x)).
Definition space_class (x : char) : bool := match ascii_of x with Some c => is_space c | None => uspace x end.
Definition word_class (x : char) : bool :=
  match ascii_of x with Some c => is_alnum c || Ascii.eqb c "_" | None => ualnum x end.

(** ** Patterns *)
(** [Bol] and [Eol] are [^] and [$] under [re.M]. *)
Inductive re : Type :=
| Eps
| Cls (p : char → bool)
| Cat (r1 r2 : re)
| Alt (r1 r2 : re)
| Rep (greedy : bool) (lo : nat) (hi : option nat) (r : re)
| WordB
| NotBehind (p : char → bool)
| Bol
| Eol
| Grp (n : nat) (r : re).

(** A position: the character before it and the text after it. *)
Abbreviation prev_t := (option char).
Definition at_word (x : option char) : bool := match x with Some x => word_class x | None => false end.
(** Whether a pattern that takes nothing holds at a position. *)
Definition holds (r : re) (p : prev_t) (s : text) : bool :=
  match r with
  | Eps => true
  | WordB => xorb (at_word p) (at_word (head s))
  | NotBehind f => match p with Some x => negb (f x) | None => true end
  | Bol => match p with Some x => line_end x | None => true end
  | Eol => match s with x :: _ => line_end x | [] => true end
  | _ => false
  end.

(** ** The matcher *)
Abbreviation caps := (list (nat * text)).
Abbreviation cont A := (prev_t → text → caps → option A).

(** The turns of a repetition, with this much fuel. *)
Fixpoint turns {A} (step : prev_t → text → caps → cont A → option A) (greedy : bool) (fuel lo : nat) (hi : option nat)
    (p : prev_t) (s : text) (c : caps) (k : cont A) : option A :=
  match fuel with
  | O => None
  | S f =>
      let more (_ : unit) :=
        match hi with
        | Some O => None
        | _ => step p s c (λ p' s' c', if (length s' <? length s)%nat then turns step greedy f (pred lo) (pred <$> hi) p' s' c' k else None)
        end in
      match lo with
      | S _ => more tt
      | O => if greedy then match more tt with Some a => Some a | None => k p s c end
             else match k p s c with Some a => Some a | None => more tt end
      end
  end.

Fixpoint run {A} (r : re) (p : prev_t) (s : text) (c : caps) (k : cont A) : option A :=
  match r with
  | Cls f => match s with x :: s' => if f x then k (Some x) s' c else None | [] => None end
  | Cat r1 r2 => run r1 p s c (λ p s c, run r2 p s c k)
  | Alt r1 r2 => match run r1 p s c k with Some a => Some a | None => run r2 p s c k end
  | Rep greedy lo hi r => turns (run r) greedy (S (length s)) lo hi p s c k
  | Grp n r => run r p s c (λ p' s' c', k p' s' ((n, take (length s - length s') s) :: c'))
  | r => if holds r p s then k p s c else None
  end.

(** ** What a pattern matches *)
Inductive matches : re → prev_t → text → prev_t → text → Prop :=
| MCls f p x s : f x = true → matches (Cls f) p (x :: s) (Some x) s
| MCat r1 r2 p s p1 s1 p2 s2 : matches r1 p s p1 s1 → matches r2 p1 s1 p2 s2 → matches (Cat r1 r2) p s p2 s2
| MAltL r1 r2 p s p' s' : matches r1 p s p' s' → matches (Alt r1 r2) p s p' s'
| MAltR r1 r2 p s p' s' : matches r2 p s p' s' → matches (Alt r1 r2) p s p' s'
| MRepStop greedy hi r p s : matches (Rep greedy 0 hi r) p s p s
| MRepMore greedy lo hi r p s p1 s1 p2 s2 : hi ≠ Some 0 → matches r p s p1 s1 → length s1 < length s →
    matches (Rep greedy (pred lo) (pred <$> hi) r) p1 s1 p2 s2 → matches (Rep greedy lo hi r) p s p2 s2
| MGrp n r p s p' s' : matches r p s p' s' → matches (Grp n r) p s p' s'
| MHolds r p s : holds r p s = true → matches r p s p s.

(** The same with the groups a match records: [c'] after [c]. *)
Inductive takes : re → prev_t → text → caps → prev_t → text → caps → Prop :=
| TCls f p x s c : f x = true → takes (Cls f) p (x :: s) c (Some x) s c
| TCat r1 r2 p s c p1 s1 c1 p2 s2 c2 : takes r1 p s c p1 s1 c1 → takes r2 p1 s1 c1 p2 s2 c2 → takes (Cat r1 r2) p s c p2 s2 c2
| TAltL r1 r2 p s c p' s' c' : takes r1 p s c p' s' c' → takes (Alt r1 r2) p s c p' s' c'
| TAltR r1 r2 p s c p' s' c' : takes r2 p s c p' s' c' → takes (Alt r1 r2) p s c p' s' c'
| TRepStop greedy hi r p s c : takes (Rep greedy 0 hi r) p s c p s c
| TRepMore greedy lo hi r p s c p1 s1 c1 p2 s2 c2 : hi ≠ Some 0 → takes r p s c p1 s1 c1 → length s1 < length s →
    takes (Rep greedy (pred lo) (pred <$> hi) r) p1 s1 c1 p2 s2 c2 → takes (Rep greedy lo hi r) p s c p2 s2 c2
| TGrp n r p s c p' s' c' : takes r p s c p' s' c' → takes (Grp n r) p s c p' s' ((n, take (length s - length s') s) :: c')
| THolds r p s c : holds r p s = true → takes r p s c p s c.
Lemma takes_matches r p s c p' s' c' : takes r p s c p' s' c' → matches r p s p' s'.
Proof. induction 1; by econstructor. Qed.

Lemma turns_takes {A} r (step : prev_t → text → caps → cont A → option A) greedy :
  (∀ p s c k a, step p s c k = Some a → ∃ p' s' c', takes r p s c p' s' c' ∧ k p' s' c' = Some a) →
  ∀ f lo hi p s c k a, turns step greedy f lo hi p s c k = Some a →
  ∃ p' s' c', takes (Rep greedy lo hi r) p s c p' s' c' ∧ k p' s' c' = Some a.
Proof.
  intros Hstep f. induction f as [|f IH]; intros lo hi p s c k a H; [done|]. cbn in H.
  set (more := match hi with Some O => None | _ => _ end) in H.
  assert (more = Some a → ∃ p' s' c', takes (Rep greedy lo hi r) p s c p' s' c' ∧ k p' s' c' = Some a) as Hmore.
  { unfold more. intros Hm. assert (hi ≠ Some 0) as Hhi by (intros ->; done).
    assert (∃ p1 s1 c1, takes r p s c p1 s1 c1 ∧
      (if (length s1 <? length s)%nat then turns step greedy f (pred lo) (pred <$> hi) p1 s1 c1 k else None) = Some a) as (p1 & s1 & c1 & H1 & H2)
      by (destruct hi as [[|]|]; [done|by apply Hstep in Hm..]).
    destruct (length s1 <? length s)%nat eqn:El; [|done]. apply Nat.ltb_lt in El.
    apply IH in H2 as (p' & s' & c' & H2 & Hk). exists p', s', c'. split; [by eapply TRepMore|done]. }
  assert (lo = 0 → k p s c = Some a → ∃ p' s' c', takes (Rep greedy lo hi r) p s c p' s' c' ∧ k p' s' c' = Some a) as Hstop.
  { intros -> Hk. exists p, s, c. split; [apply TRepStop|done]. }
  destruct lo as [|lo]; [|by apply Hmore]. destruct greedy.
  - destruct more eqn:E; [by apply Hmore; rewrite <- H|by apply Hstop].
  - destruct (k p s c) eqn:E; [by apply Hstop; [|rewrite <- H]|by apply Hmore].
Qed.
Lemma run_takes {A} r p s c (k : cont A) a : run r p s c k = Some a → ∃ p' s' c', takes r p s c p' s' c' ∧ k p' s' c' = Some a.
Proof.
  revert p s c k a. induction r as [|f|r1 IH1 r2 IH2|r1 IH1 r2 IH2|greedy lo hi r IH| |f| | |n r IH]; intros p s c k a H; cbn [run] in H.
  2: { destruct s as [|x s]; [done|]. destruct (f x) eqn:Ef; [|done]. exists (Some x), s, c. split; [by constructor|done]. }
  2: { apply IH1 in H as (p1 & s1 & c1 & H1 & H). apply IH2 in H as (p2 & s2 & c2 & H2 & H). exists p2, s2, c2. split; [by econstructor|done]. }
  2: { destruct (run r1 p s c k) eqn:E.
    - rewrite <- H. apply IH1 in E as (p' & s' & c' & E & Hk). exists p', s', c'. split; [by apply TAltL|done].
    - apply IH2 in H as (p' & s' & c' & H & Hk). exists p', s', c'. split; [by apply TAltR|done]. }
  2: by eapply turns_takes in H.
  6: { apply IH in H as (p' & s' & c' & H & Hk). eexists p', s', _. split; [by constructor|done]. }
  all: destruct (holds _ p s) eqn:E; [|done]; exists p, s, c; split; [by apply THolds|done].
Qed.
(** Whoever finds a match has one. *)
Lemma run_sound {A} r p s c (k : cont A) a : run r p s c k = Some a → ∃ p' s' c', matches r p s p' s' ∧ k p' s' c' = Some a.
Proof. intros (p' & s' & c' & H & Hk)%run_takes. exists p', s', c'. split; [by eapply takes_matches|done]. Qed.

Lemma turns_complete {A} r (step : prev_t → text → caps → cont A → option A) greedy :
  (∀ p s p' s', matches r p s p' s' → ∀ c k, (∀ c', is_Some (k p' s' c')) → is_Some (step p s c k)) →
  ∀ f lo hi p s p' s', matches (Rep greedy lo hi r) p s p' s' → length s < f → ∀ c k, (∀ c', is_Some (k p' s' c')) →
  is_Some (turns step greedy f lo hi p s c k).
Proof.
  intros Hstep f. induction f as [|f IH]; intros lo hi p s p' s' H Hf c k Hk; [lia|]. cbn.
  assert (Hor : ∀ a b : option A, is_Some a ∨ is_Some b → is_Some (match a with Some x => Some x | None => b end))
    by (intros [x|] b [Ha|Hb]; [by exists x|by exists x|by destruct Ha|done]).
  inversion H; subst.
  - destruct greedy; apply Hor; [right|left]; apply Hk.
  - set (more := match hi with Some O => None | _ => _ end).
    assert (is_Some more) as Hmore.
    { unfold more. assert (is_Some (step p s c (λ p' s' c', if (length s' <? length s)%nat
         then turns step greedy f (pred lo) (pred <$> hi) p' s' c' k else None))) as Hs.
      { eapply Hstep; [done|]. intros c'. cbn beta. rewrite (proj2 (Nat.ltb_lt _ _)) by done. eapply IH; [done|lia|done]. }
      by destruct hi as [[|]|]. }
    destruct lo as [|lo]; [|done]. destruct greedy; apply Hor; [by left|by right].
  - done.
Qed.
(** Where there is a match, one is found. *)
Lemma run_complete {A} r p s p' s' : matches r p s p' s' → ∀ c (k : cont A), (∀ c', is_Some (k p' s' c')) → is_Some (run r p s c k).
Proof.
  revert p s p' s'. induction r as [|f|r1 IH1 r2 IH2|r1 IH1 r2 IH2|greedy lo hi r IH| |f| | |n r IH]; intros p s p' s' H c k Hk; cbn [run holds].
  5: { eapply turns_complete; [exact IH|done|lia|done]. }
  all: inversion H; subst; try done.
  - by match goal with E : f _ = true |- _ => rewrite E end.
  - eapply IH1; [done|]. intros c'. by eapply IH2.
  - eapply IH1 in Hk as [a Ha]; [|done]. rewrite Ha. by eexists.
  - destruct (run r1 p s c k); [by eexists|by eapply IH2].
  - by match goal with E : holds _ _ _ = true |- _ => cbn in E; rewrite E end.
  - by match goal with E : holds _ _ _ = true |- _ => cbn in E; rewrite E end.
  - by match goal with E : holds _ _ _ = true |- _ => cbn in E; rewrite E end.
  - by match goal with E : holds _ _ _ = true |- _ => cbn in E; rewrite E end.
  - eapply IH; [done|]. intros c'. apply Hk.
Qed.

(** ** Positions *)
Definition after (p : prev_t) (w : text) : prev_t := match list.last w with Some x => Some x | None => p end.
Lemma after_app p a b : after p (a ++ b) = after (after p a) b.
Proof. unfold after. rewrite last_app. by destruct (list.last b). Qed.
Lemma after_cons p x w : after p (x :: w) = after (Some x) w.
Proof. by rewrite (after_app p [x] w : after p (x :: w) = _). Qed.

(** A match takes a piece of the text. *)
Lemma matches_piece r p s p' s' : matches r p s p' s' → ∃ w, s = w ++ s' ∧ p' = after p w.
Proof.
  induction 1 as [f p x s Hf|r1 r2 p s p1 s1 p2 s2 _ IH1 _ IH2|r1 r2 p s p' s' _ IH|r1 r2 p s p' s' _ IH|g hi r p s
    |g lo hi r p s p1 s1 p2 s2 _ _ IH1 _ _ IH2|n r p s p' s' _ IH|r p s _]; try done; try (by exists []).
  - by exists [x].
  - destruct IH1 as (w1 & -> & ->), IH2 as (w2 & -> & ->). exists (w1 ++ w2). by rewrite <- app_assoc, after_app.
  - destruct IH1 as (w1 & -> & ->), IH2 as (w2 & -> & ->). exists (w1 ++ w2). by rewrite <- app_assoc, after_app.
Qed.

(** [r] matches the piece [w] between [a] and [b]; what is before [a] is [p]. *)
Definition match_at (r : re) (p : prev_t) (a w b : text) : Prop := matches r (after p a) (w ++ b) (after p (a ++ w)) b.
Definition occurs (r : re) (p : prev_t) (s : text) : Prop := ∃ a w b, s = a ++ w ++ b ∧ match_at r p a w b.
Definition starts_at (r : re) (p : prev_t) (s : text) : Prop := ∃ p' s', matches r p s p' s'.

Lemma occurs_starts r p s : occurs r p s ↔ ∃ a b, s = a ++ b ∧ starts_at r (after p a) b.
Proof.
  split.
  - intros (a & w & b & -> & H). exists a, (w ++ b). split; [done|]. by eexists _, _.
  - intros (a & b & -> & p' & s' & H). destruct (matches_piece _ _ _ _ _ H) as (w & -> & ->). exists a, w, s'. split; [done|].
    unfold match_at. by rewrite after_app.
Qed.
Lemma occurs_cons r p x s : occurs r p (x :: s) ↔ starts_at r p (x :: s) ∨ occurs r (Some x) s.
Proof.
  rewrite !occurs_starts. split.
  - intros ([|y a] & b & E & H); [left; by rewrite E|]. injection E as -> ->. right. exists a, b. split; [done|]. by rewrite <- (after_cons p).
  - intros [H|(a & b & -> & H)]; [by exists [], (x :: s)|]. exists (x :: a), b. split; [done|]. by rewrite after_cons.
Qed.
Lemma occurs_nil r p : occurs r p [] ↔ starts_at r p [].
Proof.
  rewrite occurs_starts. split; [|by exists [], []]. intros (a & b & E & H). symmetry in E. apply app_eq_nil in E as [-> ->]. done.
Qed.

(** ** Searching *)
Record found : Type := mkFound { fd_before : text; fd_piece : text; fd_caps : caps; fd_rest : text }.
Definition match_here (r : re) (p : prev_t) (s : text) : option (caps * text) := run r p s [] (λ _ s' c', Some (c', s')).
(** [pattern.search]: the leftmost match. *)
Fixpoint search (r : re) (p : prev_t) (s : text) : option found :=
  match match_here r p s with
  | Some (c, s') => Some (mkFound [] (take (length s - length s') s) c s')
  | None => match s with
            | [] => None
            | x :: s' => match search r (Some x) s' with
                         | Some f => Some (mkFound (x :: fd_before f) (fd_piece f) (fd_caps f) (fd_rest f))
                         | None => None
                         end
            end
  end.

Lemma match_here_None r p s : match_here r p s = None ↔ ¬ starts_at r p s.
Proof.
  unfold match_here. split.
  - intros H (p' & s' & Hm). destruct (run_complete _ _ _ _ _ Hm [] (λ _ s' c', Some (c', s'))) as [x Hx]; [by eexists|congruence].
  - intros H. destruct (run _ _ _ _ _) as [[c s']|] eqn:E; [|done]. apply run_sound in E as (p1 & s1 & c1 & Hm & _). destruct H. by eexists _, _.
Qed.
Lemma match_here_Some r p s c s' : match_here r p s = Some (c, s') →
  ∃ w, s = w ++ s' ∧ take (length s - length s') s = w ∧ matches r p s (after p w) s'.
Proof.
  unfold match_here. intros H. apply run_sound in H as (p1 & s1 & c1 & Hm & [= -> ->]).
  destruct (matches_piece _ _ _ _ _ Hm) as (w & -> & ->). exists w. rewrite length_app. split; [done|]. split; [|done].
  replace (length w + length s' - length s') with (length w) by lia. apply take_app_length.
Qed.

(** The search is complete, and sound: it finds the leftmost match. *)
Lemma search_None r p s : search r p s = None ↔ ¬ occurs r p s.
Proof.
  revert p. induction s as [|x s IH]; intros p; cbn.
  - rewrite occurs_nil, <- match_here_None. by destruct (match_here r p []) as [[]|].
  - rewrite occurs_cons. destruct (match_here r p (x :: s)) as [[c s']|] eqn:E.
    + split; [done|]. intros H. destruct H. left. apply match_here_Some in E as (w & _ & _ & Hm). by eexists _, _.
    + apply match_here_None in E. specialize (IH (Some x)). destruct (search r (Some x) s); split; try done.
      * intros H. discriminate (proj2 IH (λ Ho, H (or_intror Ho))).
      * intros _ [H|H]; [done|]. by apply IH in H.
Qed.
Lemma search_Some r p s f : search r p s = Some f →
  s = fd_before f ++ fd_piece f ++ fd_rest f ∧
  match_here r (after p (fd_before f)) (fd_piece f ++ fd_rest f) = Some (fd_caps f, fd_rest f) ∧
  match_at r p (fd_before f) (fd_piece f) (fd_rest f) ∧
  ∀ a b, fd_before f = a ++ b → b ≠ [] → ¬ starts_at r (after p a) (b ++ fd_piece f ++ fd_rest f).
Proof.
  revert p f. induction s as [|x s IH]; intros p f H; cbn [search] in H.
  - destruct (match_here r p []) as [[c s']|] eqn:E; [|done]. injection H as <-. pose proof E as Hh. apply match_here_Some in E as (w & Hw & Ht & Hm).
    symmetry in Hw. apply app_eq_nil in Hw as [-> ->]. cbn. split; [done|]. split; [done|]. split; [done|]. by intros [|] [|].
  - destruct (match_here r p (x :: s)) as [[c s']|] eqn:E.
    + injection H as <-. pose proof E as Hh. apply match_here_Some in E as (w & Hw & Ht & Hm). cbn [fd_before fd_piece fd_rest fd_caps]. cbn [length] in Ht. rewrite Ht. split; [done|].
      split; [by rewrite Hw in Hh|]. split; [by rewrite Hw in Hm|]. intros a b Ha Hb. symmetry in Ha. by apply app_eq_nil in Ha as [_ ?].
    + destruct (search r (Some x) s) as [g|] eqn:Es; [|done]. injection H as <-. apply IH in Es as (Hs & Hh & Hm & Hl). cbn [fd_before fd_piece fd_rest fd_caps app]. split; [by rewrite <- Hs|].
      split; [by rewrite after_cons|]. split; [unfold match_at in *; cbn [app]; by rewrite !after_cons|]. intros [|y a] b Hab Hb; cbn in Hab.
      * subst b. apply match_here_None in E. cbn [app]. by rewrite <- Hs.
      * injection Hab as <- Hab. rewrite after_cons. by apply Hl.
Qed.

(** *** Groups *)
Fixpoint quiet (r : re) : bool :=
  match r with
  | Cat r1 r2 | Alt r1 r2 => quiet r1 && quiet r2
  | Rep _ _ _ r => quiet r
  | Grp _ _ => false
  | _ => true
  end.
Lemma takes_quiet r p s c p' s' c' : takes r p s c p' s' c' → quiet r = true → c' = c ∧ matches r p s p' s'.
Proof.
  intros H Hq. split; [|by eapply takes_matches]. revert Hq.
  induction H; cbn; intros Hq; try apply andb_prop in Hq as [? ?]; try done; try (by auto); (etransitivity; [by apply IHtakes2|by apply IHtakes1]).
Qed.
Lemma t_cat r1 r2 p s c p' s' c' : takes (Cat r1 r2) p s c p' s' c' → ∃ p1 s1 c1, takes r1 p s c p1 s1 c1 ∧ takes r2 p1 s1 c1 p' s' c'.
Proof. inversion 1; subst; [by eexists _, _, _|done]. Qed.
Lemma t_grp n r p s c p' s' c' : quiet r = true → takes (Grp n r) p s c p' s' c' →
  ∃ w, s = w ++ s' ∧ p' = after p w ∧ c' = (n, w) :: c ∧ matches r p s p' s'.
Proof.
  intros Hq. inversion 1 as [| | | | | |? ? ? ? ? ? ? ? Ht|]; subst; [|done]. apply takes_quiet in Ht as [-> Hm]; [|done].
  destruct (matches_piece _ _ _ _ _ Hm) as (w & -> & ->). exists w. split; [done|]. split; [done|]. split; [|done].
  rewrite length_app. replace (length w + length s' - length s') with (length w) by lia. by rewrite take_app_length.
Qed.
Lemma search_takes r p s f : search r p s = Some f →
  takes r (after p (fd_before f)) (fd_piece f ++ fd_rest f) [] (after p (fd_before f ++ fd_piece f)) (fd_rest f) (fd_caps f).
Proof.
  intros (Hs & Hh & _ & _)%search_Some. unfold match_here in Hh. apply run_takes in Hh as (p' & s' & c' & Ht & [= -> ->]).
  pose proof Ht as Hm. apply takes_matches, matches_piece in Hm as (w & E & ->). apply app_inv_tail in E as <-. by rewrite after_app.
Qed.

(** ** Substituting and listing *)
(** A pattern all of whose matches take a character. *)
Fixpoint consumes (r : re) : bool :=
  match r with
  | Cls _ => true
  | Cat r1 r2 => consumes r1 || consumes r2
  | Alt r1 r2 => consumes r1 && consumes r2
  | Rep _ lo _ r => (0 <? lo)%nat && consumes r
  | Grp _ r => consumes r
  | _ => false
  end.
(** Every repetition repeats such a pattern. *)
Fixpoint steady (r : re) : bool :=
  match r with
  | Cat r1 r2 | Alt r1 r2 => steady r1 && steady r2
  | Rep _ _ _ r => consumes r && steady r
  | Grp _ r => steady r
  | _ => true
  end.
Lemma consumes_spec r p s p' s' : matches r p s p' s' → consumes r = true → length s' < length s.
Proof.
  assert (Hle : ∀ r p s p' s', matches r p s p' s' → length s' ≤ length s)
    by (intros ????? (w & -> & _)%matches_piece; rewrite length_app; lia).
  induction 1; cbn; intros Hc; try done; try (by auto).
  - apply orb_prop in Hc as [Hc|Hc]; [specialize (IHmatches1 Hc)|specialize (IHmatches2 Hc)];
      repeat match goal with H : matches _ _ _ _ _ |- _ => apply Hle in H end; lia.
  - apply andb_prop in Hc as [Hc _]. by apply IHmatches.
  - apply andb_prop in Hc as [_ Hc]. by apply IHmatches.
  - repeat match goal with H : matches _ _ _ _ _ |- _ => apply Hle in H end. lia.
  - by destruct r.
Qed.

(** [pattern.subn(repl, text)], for a pattern that consumes; the fuel is the length. *)
Fixpoint subn_from (fuel : nat) (r : re) (repl : text) (p : prev_t) (s : text) : text * nat :=
  match fuel with
  | O => (s, 0)
  | S fuel =>
      match search r p s with
      | None => (s, 0)
      | Some f => let '(t, n) := subn_from fuel r repl (after p (fd_before f ++ fd_piece f)) (fd_rest f) in
                  (fd_before f ++ repl ++ t, S n)
      end
  end.
Definition subn (r : re) (repl : string) (s : text) : text * nat := subn_from (S (length s)) r (chars repl) None s.
(** [pattern.finditer(text)] *)
Fixpoint find_from (fuel : nat) (r : re) (p : prev_t) (s : text) : list found :=
  match fuel with
  | O => []
  | S fuel => match search r p s with
              | None => []
              | Some f => f :: find_from fuel r (after p (fd_before f ++ fd_piece f)) (fd_rest f)
              end
  end.
Definition find_all (r : re) (s : text) : list found := find_from (S (length s)) r None s.
(** [m.group(n)] *)
Definition group (f : found) (n : nat) : option text := snd <$> find_first (λ c, Nat.eqb c.1 n) (fd_caps f).

(** ** What a substitution leaves *)
(** The pieces of a text around the matches of a pattern, from left to right: each gap
    with its match, then the last gap. *)
Inductive pieces (r : re) : prev_t → text → list (text * text) → text → Prop :=
| PEnd p s : ¬ occurs r p s → pieces r p s [] s
| PMatch p a w b c l e : match_here r (after p a) (w ++ b) = Some (c, b) → match_at r p a w b →
    (∀ a1 a2, a = a1 ++ a2 → a2 ≠ [] → ¬ starts_at r (after p a1) (a2 ++ w ++ b)) →
    pieces r (after p (a ++ w)) b l e → pieces r p (a ++ w ++ b) ((a, w) :: l) e.

(** The fuel of [subn] is enough: it replaces all of them. *)
Lemma subn_from_pieces r repl fuel p s : consumes r = true → length s < fuel →
  ∃ l e, pieces r p s l e ∧ subn_from fuel r repl p s = (mjoin (map (λ x, x.1 ++ repl) l) ++ e, length l).
Proof.
  intros Hc. revert p s. induction fuel as [|fuel IH]; intros p s Hf; [lia|]. cbn. destruct (search r p s) as [f|] eqn:E.
  - apply search_Some in E as (Hs & Hh & Hm & Hl). pose proof (consumes_spec _ _ _ _ _ Hm Hc) as Hlen.
    destruct (IH (after p (fd_before f ++ fd_piece f)) (fd_rest f)) as (l & e & Hp & ->).
    { rewrite Hs, length_app in Hf. lia. }
    exists ((fd_before f, fd_piece f) :: l), e. split; [rewrite Hs; by econstructor|]. cbn. by rewrite <- !app_assoc.
  - apply search_None in E. exists [], s. split; [by constructor|done].
Qed.
Lemma subn_pieces r repl s : consumes r = true →
  ∃ l e, pieces r None s l e ∧ subn r repl s = (mjoin (map (λ x, x.1 ++ chars repl) l) ++ e, length l).
Proof. intros Hc. apply subn_from_pieces; [done|lia]. Qed.

(** Nothing replaced is nothing changed. *)
Lemma subn_zero r repl s t : consumes r = true → subn r repl s = (t, 0) ↔ t = s ∧ ¬ occurs r None s.
Proof.
  intros Hc. destruct (subn_pieces r repl s Hc) as (l & e & Hp & ->). split.
  - intros [= <- Hl]. apply nil_length_inv in Hl as ->. by inversion Hp; subst.
  - intros [-> Ho]. inversion Hp as [|p a w b c l' e' _ Hm _ _]; subst; [done|]. destruct Ho. by exists a, w, b.
Qed.

(** *** Another pattern, after a substitution *)
(** [r] starts at no position of the gaps. *)
Inductive gaps_free (r : re) : prev_t → list (text * text) → text → Prop :=
| GEnd p e : ¬ occurs r p e → gaps_free r p [] e
| GMore p a w l e : (∀ a1 a2, a = a1 ++ a2 → a2 ≠ [] → ¬ starts_at r (after p a1) (a2 ++ w ++ mjoin (map (λ x, x.1 ++ x.2) l) ++ e)) →
    gaps_free r (after p (a ++ w)) l e → gaps_free r p ((a, w) :: l) e.

Lemma pieces_text r p s l e : pieces r p s l e → s = mjoin (map (λ x, x.1 ++ x.2) l) ++ e.
Proof. induction 1 as [|p a w b c l e _ _ _ _ ->]; cbn; [done|]. by rewrite <- !app_assoc. Qed.
Lemma gaps_free_self r p s l e : pieces r p s l e → gaps_free r p l e.
Proof.
  induction 1 as [p s Ho|p a w b c l e _ _ Hl Hp IH]; [by constructor|]. constructor; [|done].
  intros a1 a2 Ha Hne. rewrite <- (pieces_text _ _ _ _ _ Hp). by apply Hl.
Qed.
Lemma gaps_free_other r r' p s l e : pieces r p s l e → ¬ occurs r' p s → gaps_free r' p l e.
Proof.
  induction 1 as [p s Ho|p a w b c l e _ _ Hl Hp IH]; intros Hr; [by constructor|]. constructor.
  - intros a1 a2 -> Hne Hs. apply Hr, occurs_starts. exists a1, (a2 ++ w ++ b). rewrite (pieces_text _ _ _ _ _ Hp), <- app_assoc. done.
  - apply IH. intros Ho. apply Hr, occurs_starts. apply occurs_starts in Ho as (a' & b' & -> & Hs).
    exists (a ++ w ++ a'), b'. rewrite <- !app_assoc. split; [done|]. by rewrite app_assoc, after_app.
Qed.

(** [r'] is kept out by a substitution of [repl] for [r]: it does not start in [repl], nor
    right after a match; and what starts before [repl] started before the match. *)
Record kept_out (r r' : re) (repl : text) : Prop := mkKept {
  ko_nothing : ∀ p, ¬ starts_at r' p [];
  ko_within : ∀ p a1 a2 t, repl = a1 ++ a2 → a2 ≠ [] → ¬ starts_at r' (after p a1) (a2 ++ t);
  ko_next : ∀ p w x b c q t, match_here r p (w ++ x :: b) = Some (c, x :: b) → ¬ starts_at r' q (x :: t);
  ko_before : ∀ p a w b t, a ≠ [] → matches r (after p a) (w ++ b) (after p (a ++ w)) b →
    starts_at r' p (a ++ repl ++ t) → starts_at r' p (a ++ w ++ b) }.

Lemma starts_split r p a b : occurs r p (a ++ b) →
  (∃ a1 a2, a = a1 ++ a2 ∧ a2 ≠ [] ∧ starts_at r (after p a1) (a2 ++ b)) ∨ occurs r (after p a) b.
Proof.
  rewrite !occurs_starts. intros (x & y & E & H). apply app_eq_inv in E as [(u & -> & ->)|(u & -> & ->)].
  - destruct u as [|z u]; [right; exists [], b; split; [done|]; by rewrite app_nil_r|]. left. by exists x, (z :: u).
  - right. exists u, y. split; [done|]. by rewrite <- after_app.
Qed.
Lemma sub_keeps_out r r' repl p s l e q : kept_out r r' repl → pieces r p s l e → gaps_free r' p l e →
  q = p ∨ (∀ x b t q, s = x :: b → ¬ starts_at r' q (x :: t)) → ¬ occurs r' q (mjoin (map (λ x, x.1 ++ repl) l) ++ e).
Proof.
  intros K Hp. revert q. induction Hp as [p s Ho|p a w b c l e Hh Hm Hl Hp IH]; intros q Hg Hq Hocc; cbn in Hocc.
  - inversion Hg; subst. destruct Hq as [->|Hq]; [done|]. destruct s as [|x s]; [by apply occurs_nil, (ko_nothing _ _ _ K) in Hocc|].
    apply occurs_cons in Hocc as [Hs|Hs]; [by eapply Hq in Hs|].
    match goal with H : ¬ occurs _ _ _ |- _ => apply H, occurs_cons; by right end.
  - inversion Hg as [|? ? ? ? ? Hgap Hg']; subst. rewrite <- (pieces_text _ _ _ _ _ Hp) in Hgap. rewrite <- !app_assoc in Hocc.
    apply starts_split in Hocc as [(a1 & a2 & -> & Hne & Hs)|Hocc].
    + assert (after q a1 = after p a1 ∨ a1 = [] ∧ q ≠ p) as [E|[-> Hqp]].
      { destruct a1 as [|x a1]; [|left; by rewrite !after_cons]. destruct (decide (q = p)) as [->|]; [by left|by right]. }
      * rewrite E in Hs. eapply (Hgap a1 a2); [done|done|]. eapply (ko_before _ _ _ K); [done| |exact Hs].
        unfold match_at in Hm. rewrite <- !app_assoc, !after_app in Hm. by rewrite !after_app.
      * destruct Hq as [->|Hq]; [done|]. destruct a2 as [|x a2]; [done|]. by eapply Hq in Hs.
    + apply starts_split in Hocc as [(a1 & a2 & -> & Hne & Hs)|Hocc]; [by eapply (ko_within _ _ _ K) in Hs|].
      eapply IH in Hocc; [done|done|]. right. intros x b' t q' ->. by eapply (ko_next _ _ _ K).
Qed.

Lemma subn_keeps_out r r' repl s : consumes r = true → kept_out r r' (chars repl) → r = r' ∨ ¬ occurs r' None s →
  ¬ occurs r' None (subn r repl s).1.
Proof.
  intros Hc K Hs. destruct (subn_pieces r repl s Hc) as (l & e & Hp & ->). cbn. eapply sub_keeps_out; [done|done| |by left].
  destruct Hs as [<-|Hs]; [by eapply gaps_free_self|by eapply gaps_free_other].
Qed.

(** ** Shapes *)
(** A pattern that stops only where [f] does not hold of the next character. *)
Definition stops (r : re) (f : char → bool) : Prop := ∀ A p s c (k : cont A) a, (∀ p s c, is_Some (k p s c)) → run r p s c k = Some a →
  ∃ p' s' c', k p' s' c' = Some a ∧ ∀ x t, s' = x :: t → f x = false.
Lemma stops_cat r1 r2 f : stops r2 f → stops (Cat r1 r2) f.
Proof. intros H A p s c k a Hk Hr. cbn in Hr. apply run_sound in Hr as (p1 & s1 & c1 & _ & Hr). by eapply H. Qed.
Lemma stops_alt r1 r2 f : stops r1 f → stops r2 f → stops (Alt r1 r2) f.
Proof.
  intros H1 H2 A p s c k a Hk Hr. cbn in Hr. destruct (run r1 p s c k) eqn:E; [|by eapply H2]. injection Hr as <-. by eapply H1.
Qed.
Lemma stops_rep lo f : stops (Rep true lo None (Cls f)) f.
Proof.
  intros A p s c k a Hk Hr. cbn [run] in Hr. assert (length s < S (length s)) as Hf by lia. revert Hf Hr.
  generalize (S (length s)) as fuel. intros fuel. revert lo p s. induction fuel as [|fuel IH]; intros lo p s Hf Hr; [done|].
  assert (∀ p s c, length s < fuel → is_Some (turns (run (Cls f)) true fuel 0 None p s c k)) as Hsome.
  { destruct fuel as [|fuel']; [lia|]. intros p1 s1 c1 _. cbn. destruct (match s1 with _ :: _ => _ | [] => _ end); [by eexists|apply Hk]. }
  destruct s as [|x s]; cbn in Hr, Hf.
  - destruct lo; [|done]. exists p, [], c. by split.
  - destruct (f x) eqn:Ef.
    + rewrite (proj2 (Nat.leb_le _ _)) in Hr by lia. destruct lo as [|lo]; [|by eapply IH; [|exact Hr]; lia].
      destruct (Hsome (Some x) s c) as [b Hb]; [lia|]. cbn in Hb, Hr. rewrite Hb in Hr. injection Hr as ->. by eapply (IH 0); [|exact Hb]; lia.
    + destruct lo as [|lo]; [|done]. exists p, (x :: s), c. split; [done|]. by intros y t [= <- <-].
Qed.
Lemma stops_weaken r (f g : char → bool) : stops r f → (∀ x, g x = true → f x = true) → stops r g.
Proof.
  intros H Hfg A p s c k a Hk Hr. destruct (H _ _ _ _ _ _ Hk Hr) as (p' & s' & c' & Ha & Hs). exists p', s', c'. split; [done|].
  intros x t ->. destruct (g x) eqn:E; [|done]. apply Hfg in E. specialize (Hs _ _ eq_refl). congruence.
Qed.
Lemma match_here_stops r f p s c x b : stops r f → match_here r p s = Some (c, x :: b) → f x = false.
Proof.
  intros H Hm. unfold match_here in Hm. destruct (H _ _ _ _ _ _ (λ p s c, ex_intro _ _ eq_refl) Hm) as (p' & s' & c' & [= _ ->] & Hs). by eapply Hs.
Qed.

(** Literal text. *)
Definition char_eq (x : char) : char → bool := String.eqb x.
Definition lit (l : string) : re := fold_right (λ x r, Cat (Cls (char_eq x)) r) Eps (chars l).

Lemma m_eps p s p' s' : matches Eps p s p' s' ↔ p' = p ∧ s' = s.
Proof. split; [by inversion 1|]. intros [-> ->]. by apply MHolds. Qed.
Lemma m_cls f p s p' s' : matches (Cls f) p s p' s' ↔ ∃ x, s = x :: s' ∧ f x = true ∧ p' = Some x.
Proof. split; [inversion 1; subst; [by eexists|done]|]. intros (x & -> & Hf & ->). by constructor. Qed.
Lemma m_cat r1 r2 p s p' s' : matches (Cat r1 r2) p s p' s' ↔ ∃ p1 s1, matches r1 p s p1 s1 ∧ matches r2 p1 s1 p' s'.
Proof. split; [inversion 1; subst; [by eexists _, _|done]|]. intros (p1 & s1 & H1 & H2). by econstructor. Qed.
Lemma m_alt r1 r2 p s p' s' : matches (Alt r1 r2) p s p' s' ↔ matches r1 p s p' s' ∨ matches r2 p s p' s'.
Proof. split; [inversion 1; subst; [by left|by right|done]|]. intros [H|H]; [by apply MAltL|by apply MAltR]. Qed.
Lemma m_grp n r p s p' s' : matches (Grp n r) p s p' s' ↔ matches r p s p' s'.
Proof. split; [by inversion 1|by constructor]. Qed.
Lemma m_wordb p s p' s' : matches WordB p s p' s' ↔ xorb (at_word p) (at_word (head s)) = true ∧ p' = p ∧ s' = s.
Proof. split; [by inversion 1|]. intros (H & -> & ->). by apply MHolds. Qed.
Lemma m_not_behind f p s p' s' : matches (NotBehind f) p s p' s' ↔ holds (NotBehind f) p s = true ∧ p' = p ∧ s' = s.
Proof. split; [by inversion 1|]. intros (H & -> & ->). by apply MHolds. Qed.

Lemma m_rep_cls greedy lo hi f p s p' s' : matches (Rep greedy lo hi (Cls f)) p s p' s' →
  ∃ w, s = w ++ s' ∧ p' = after p w ∧ Forall (λ x, f x = true) w ∧ lo ≤ length w.
Proof.
  intros H. remember (Rep greedy lo hi (Cls f)) as r eqn:E. revert lo hi E. induction H as [| | | |greedy' hi' r' p s|greedy' lo' hi' r' p s p1 s1 p2 s2 _ H1 _ Hl H2 IH| |r p s Hh];
    intros lo hi E; try done.
  - injection E as -> <- -> ->. exists []. split; [done|]. split; [done|]. split; [constructor|cbn; lia].
  - injection E as -> -> -> ->. apply m_cls in H1 as (x & -> & Hx & ->). destruct (IH _ _ eq_refl) as (w & -> & -> & Hw & Hlen).
    exists (x :: w). split; [done|]. split; [by rewrite after_cons|]. split; [by constructor|]. cbn. lia.
  - by subst.
Qed.
Lemma m_rep_many greedy lo f p w s : Forall (λ x, f x = true) w → lo ≤ length w → matches (Rep greedy lo None (Cls f)) p (w ++ s) (after p w) s.
Proof.
  intros Hw. revert p lo. induction Hw as [|x w Hx Hw IH]; intros p lo Hl; cbn in Hl |- *.
  - replace lo with 0 by lia. apply MRepStop.
  - rewrite after_cons. eapply MRepMore; [done|by constructor|rewrite length_app; cbn; rewrite length_app; lia|]. apply IH. lia.
Qed.
Lemma m_lit_from l p s p' s' : matches (fold_right (λ x r, Cat (Cls (char_eq x)) r) Eps l) p s p' s' ↔ s = l ++ s' ∧ p' = after p l.
Proof.
  revert p s. induction l as [|x l IH]; intros p s; cbn [fold_right].
  - rewrite m_eps. cbn. naive_solver.
  - rewrite m_cat. setoid_rewrite m_cls. setoid_rewrite IH. split.
    + intros (p1 & s1 & (y & -> & Hy & ->) & -> & ->). apply String.eqb_eq in Hy as ->. by rewrite after_cons.
    + intros (-> & ->). eexists _, _. split; [exists x; split; [done|]; split; [by apply String.eqb_eq|done]|]. split; [done|]. by rewrite after_cons.
Qed.
Lemma m_lit l p s p' s' : matches (lit l) p s p' s' ↔ s = chars l ++ s' ∧ p' = after p (chars l).
Proof. apply m_lit_from. Qed.

(** A piece that cannot hold [x] ends before it. *)
Lemma piece_before (a : text) x r u t : a ++ x :: r = u ++ t → x ∉ u → ∃ v, a = u ++ v ∧ t = v ++ x :: r.
Proof.
  intros E Hx. apply app_eq_inv in E as [(v & -> & ->)|(v & -> & E)]; [by exists v|]. destruct v as [|y v].
  - exists []. rewrite !app_nil_r. by cbn in E.
  - injection E as <- E. destruct Hx. apply elem_of_app. right. by left.
Qed.

(** *** The characters of a substituted text *)
Lemma sub_Forall (P : char → Prop) repl (l : list (text * text)) e : Forall P repl → Forall P (mjoin (map (λ x, x.1 ++ x.2) l) ++ e) →
  Forall P (mjoin (map (λ x, x.1 ++ repl) l) ++ e).
Proof.
  intros Hr. induction l as [|[a w] l IH]; cbn; [done|]. rewrite <- !app_assoc. intros (Ha & (_ & H)%list.Forall_app)%list.Forall_app. apply list.Forall_app. split; [done|]. apply list.Forall_app. split; [done|]. by apply IH.
Qed.
Lemma subn_well_split r repl s : consumes r = true → Forall tail_cont (chars repl) → Forall starts_char (chars repl) → well_split s →
  well_split (subn r repl s).1.
Proof.
  intros Hc H1 H2 [Ht Hs]. destruct (subn_pieces r repl s Hc) as (l & e & Hp & ->). cbn [fst].
  pose proof (pieces_text _ _ _ _ _ Hp) as E. rewrite E in Ht, Hs. split; [by apply sub_Forall|].
  inversion Hp as [|p a w b c l' e' _ Hm _ _]; subst; [done|]. apply consumes_spec in Hm; [|done]. cbn in Hs |- *.
  rewrite <- !app_assoc in Hs |- *. destruct a as [|x a]; cbn in Hs |- *.
  - destruct w as [|y w]; [cbn in Hm; lia|]. cbn in Hs. apply list.Forall_app in Hs as [_ Hs]. apply (sub_Forall _ (chars repl)) in Hs; [|done].
    assert (∀ q : text, Forall starts_char q → Forall starts_char (tl q)) as Htl by (intros [|z q]; [done|by intros [_ ?]%list.Forall_cons]).
    by apply Htl, list.Forall_app.
  - apply list.Forall_app in Hs as (Ha & (_ & Hs)%list.Forall_app). apply list.Forall_app. split; [done|]. apply list.Forall_app.
    split; [done|]. by apply sub_Forall.
Qed.

(** A pattern that looks at nothing but its piece and the character before. *)
Fixpoint plain (r : re) : bool :=
  match r with
  | Cat r1 r2 | Alt r1 r2 => plain r1 && plain r2
  | Rep _ _ _ r | Grp _ r => plain r
  | WordB | Bol | Eol => false
  | _ => true
  end.
(** A pattern whose pieces do not hold a character. *)
Fixpoint avoids (r : re) (x : char) : bool :=
  match r with
  | Cls f => negb (f x)
  | Cat r1 r2 | Alt r1 r2 => avoids r1 x && avoids r2 x
  | Rep _ _ _ r | Grp _ r => avoids r x
  | _ => true
  end.
Lemma plain_elsewhere r p u t p' t' : matches r p (u ++ t) p' t → plain r = true → matches r p (u ++ t') p' t'.
Proof.
  intros H. remember (u ++ t) as s eqn:E. revert u t' E.
  induction H as [f p x s Hf|r1 r2 p s p1 s1 p2 s2 H1 IH1 H2 IH2|r1 r2 p s p' s' _ IH|r1 r2 p s p' s' _ IH|g hi r p s
    |g lo hi r p s p1 s1 p2 s2 Hh H1 IH1 Hl H2 IH2|n r p s p' s' _ IH|r p s Hh]; intros u t' E Hp; cbn in Hp.
  - apply (app_inv_tail s [x]) in E as <-. by constructor.
  - apply andb_prop in Hp as [Hp1 Hp2]. destruct (matches_piece _ _ _ _ _ H1) as (w1 & -> & ->), (matches_piece _ _ _ _ _ H2) as (w2 & -> & ->).
    rewrite app_assoc in E. apply app_inv_tail in E as <-. rewrite <- app_assoc. econstructor; [by apply IH1|by apply IH2].
  - apply andb_prop in Hp as [Hp1 _]. apply MAltL. by apply IH.
  - apply andb_prop in Hp as [_ Hp1]. apply MAltR. by apply IH.
  - apply (app_inv_tail s []) in E as <-. apply MRepStop.
  - destruct (matches_piece _ _ _ _ _ H1) as (w1 & -> & ->), (matches_piece _ _ _ _ _ H2) as (w2 & -> & ->).
    rewrite app_assoc in E. apply app_inv_tail in E as <-. rewrite <- app_assoc. eapply MRepMore; [done|by apply IH1| |by apply IH2].
    rewrite !length_app in Hl |- *. lia.
  - constructor. by apply IH.
  - apply (app_inv_tail s []) in E as <-. apply MHolds. by destruct r.
Qed.
Lemma avoids_piece r p u t p' x : matches r p (u ++ t) p' t → avoids r x = true → x ∉ u.
Proof.
  intros H. remember (u ++ t) as s eqn:E. revert u E.
  induction H as [f p y s Hf|r1 r2 p s p1 s1 p2 s2 H1 IH1 H2 IH2|r1 r2 p s p' s' _ IH|r1 r2 p s p' s' _ IH|g hi r p s
    |g lo hi r p s p1 s1 p2 s2 Hh H1 IH1 Hl H2 IH2|n r p s p' s' _ IH|r p s Hh]; intros u E Hp; cbn in Hp.
  - apply (app_inv_tail s [y]) in E as <-. rewrite list_elem_of_singleton. intros ->. by rewrite Hf in Hp.
  - apply andb_prop in Hp as [Hp1 Hp2]. destruct (matches_piece _ _ _ _ _ H1) as (w1 & -> & ->), (matches_piece _ _ _ _ _ H2) as (w2 & -> & ->).
    rewrite app_assoc in E. apply app_inv_tail in E as <-. rewrite elem_of_app. intros [Hx|Hx]; [by eapply IH1|by eapply IH2].
  - apply andb_prop in Hp as [Hp1 _]. by apply IH.
  - apply andb_prop in Hp as [_ Hp1]. by apply IH.
  - apply (app_inv_tail s []) in E as <-. apply not_elem_of_nil.
  - destruct (matches_piece _ _ _ _ _ H1) as (w1 & -> & ->), (matches_piece _ _ _ _ _ H2) as (w2 & -> & ->).
    rewrite app_assoc in E. apply app_inv_tail in E as <-. rewrite elem_of_app. intros [Hx|Hx]; [by eapply IH1|by eapply IH2].
  - by apply IH.
  - apply (app_inv_tail s []) in E as <-. apply not_elem_of_nil.
Qed.
(** Such a pattern, found across a text that begins with what it avoids, is found before it. *)
Lemma found_before r p a x repl t t' : plain r = true → avoids r x = true → starts_at r p (a ++ (x :: repl) ++ t) →
  starts_at r p (a ++ t') ∧ ∃ u v, a = u ++ v ∧ matches r p (u ++ v ++ t') (after p u) (v ++ t').
Proof.
  intros Hp Ha (p' & s' & H). destruct (matches_piece _ _ _ _ _ H) as (u & E & ->). rewrite E in H.
  pose proof (avoids_piece _ _ _ _ _ _ H Ha) as Hx. cbn in E. apply piece_before in E as (v & -> & ->); [|done].
  apply (plain_elsewhere _ _ _ _ _ (v ++ t')) in H; [|done]. split; [rewrite <- app_assoc; by eexists _, _|]. by exists u, v.
Qed.

(** *** Common shapes *)
Definition opt (r : re) : re := Rep true 0 (Some 1) r.
Definition star (f : char → bool) : re := Rep true 0 None (Cls f).
Definition plus (f : char → bool) : re := Rep true 1 None (Cls f).
Definition at_least (n : nat) (f : char → bool) : re := Rep true n None (Cls f).
Definition cats (l : list re) : re := foldr Cat Eps l.
Definition alts (r : re) (l : list re) : re := foldl Alt r l.
Definition lits (l : string) (ls : list string) : re := alts (lit l) (map lit ls).
Definition any_char (_ : char) : bool := true.
(** *** Ignoring case *)
(** The four characters outside ASCII that [re.IGNORECASE] takes for an ASCII letter. *)
Definition folds_to (c : ascii) (x : char) : bool :=
  match c with
  | "i"%char => String.eqb x (ch 196 +:+ ch 176) || String.eqb x (ch 196 +:+ ch 177)
  | "s"%char => String.eqb x (ch 197 +:+ ch 191)
  | "k"%char => String.eqb x (ch 226 +:+ ch 132 +:+ ch 170)
  | _ => false
  end.
Definition char_eq_i (c : ascii) : char → bool := any_of (asc (λ d, Ascii.eqb (lower_char d) c)) (folds_to c).
(** A literal of lower-case ASCII. *)
Fixpoint lit_i (l : string) : re := match l with String c l => Cat (Cls (char_eq_i c)) (lit_i l) | EmptyString => Eps end.
Definition lits_i (l : string) (ls : list string) : re := alts (lit_i l) (map lit_i ls).
End regex.
