(* ===== verification/Parsers.v ===== *)
(** * Parsers of command output (src/valops/observer/parsers.py)

    Each takes the text a command printed and the daemon's local configuration to the
    structured answer; a text it does not recognise is [{"parsed": False}]. A float is the
    decimal the text writes, not its nearest double; [int] refuses more than 4300 digits. *)
From S2P Require Import Prelude PyVal Table Schema Canonical PyConv Bundle Regex.
From Stdlib Require Import Ascii.

Section parsers.
Context `{UNI : Unicode}.

(** ** Patterns *)
Definition digits : re := plus digit_class.
Definition spaces : re := star space_class.
Definition ascii_digits : re := plus (asc is_digit).

(** src/valops/observer/parsers.py:12-12 _US_THEM *)
Definition US_THEM : re := cats [lit "us:"; spaces; Grp 1 digits; plus space_class; lit "them:"; spaces; Grp 2 digits].
(** src/valops/observer/parsers.py:13-13 _SOL *)
Definition SOL : re :=
  cats [Bol; spaces; Grp 1 (Cat ascii_digits (opt (Cat (lit ".") ascii_digits))); plus space_class; lit "SOL"; WordB].
(** src/valops/observer/parsers.py:14-14 _VERSION *)
Definition VERSION : re := cats [WordB; Grp 1 (cats [digits; lit "."; digits; lit "."; digits]); WordB].
(** src/valops/observer/parsers.py:15-15 _MONITOR_SLOT *)
Definition MONITOR_SLOT : re :=
  cats [Grp 1 (lits_i "processed" ["confirmed"; "finalized"]); Rep true 0 (Some 10) (Cls (none_of digit_class)); Grp 2 digits].
(** src/valops/observer/parsers.py:16-16 _SCHED *)
Definition SCHED : re :=
  cats [Bol; spaces; Grp 1 digits; plus space_class; Grp 2 (Rep true 32 (Some 44) (Cls (asc is_b58))); spaces; Eol].

(** ** Conversions of what a group took *)
Definition digits_value (w : text) : Z := fold_left (λ acc x, acc * 10 + default 0 (digit_value x))%Z w 0%Z.
(** [int(w)] of decimal digits *)
Definition int_text (w : text) : result exn Z := if (4300 <? length w)%nat then Err (PyExc "ValueError") else Ok (digits_value w).
(** [float(w)] of decimal digits, with or without a point *)
Definition is_point (x : char) : bool := String.eqb x ".".
Fixpoint split_point (w : text) : text * text :=
  match w with
  | [] => ([], [])
  | x :: w' => if is_point x then ([], w') else let '(i, f) := split_point w' in (x :: i, f)
  end.
Definition float_text (w : text) : Q :=
  let '(i, f) := split_point w in Qmake (digits_value (i ++ f)) (Z.to_pos (10 ^ Z.of_nat (length f))).
(** [w.lower()], where [w] is of ASCII letters or what they fold with *)
Definition lower_text (w : text) : string :=
  concat_text (map (λ x, match ascii_of x with
                         | Some c => String (lower_char c) EmptyString
                         | None => if String.eqb x (ch 196 +:+ ch 176) then "i" +:+ ch 204 +:+ ch 135 else x
                         end) w).
Definition grp (f : found) (n : nat) : text := default [] (group f n).

Definition not_parsed : dict := [("parsed", VBool false)].

(** ** The parsers *)
(** src/valops/observer/parsers.py:19-25 catchup *)
Definition catchup (text : string) (_ : dict) : result exn dict :=
  match search US_THEM None (chars text) with
  | None => Ok not_parsed
  | Some m =>
      us ← int_text (grp m 1); them ← int_text (grp m 2);
      let caught := substr "has caught up" text in
      Ok [("parsed", VBool true); ("our_slot", VInt us); ("cluster_slot", VInt them); ("slots_behind", VInt (Z.max 0 (them - us)));
          ("caught_up", VBool caught)]
  end.

(** src/valops/observer/parsers.py:28-30 balance *)
Definition balance (text : string) (_ : dict) : result exn dict :=
  Ok (match search SOL None (chars text) with
      | Some m => [("parsed", VBool true); ("balance_sol", VFloat (float_text (grp m 1)))]
      | None => not_parsed
      end).

(** The first line with a version. *)
Fixpoint first_version (lines : list string) : dict :=
  match lines with
  | [] => not_parsed
  | ln :: lines' =>
      match search VERSION None (chars ln) with
      | Some m => [("parsed", VBool true); ("version", VStr (concat_text (grp m 1)))]
      | None => first_version lines'
      end
  end.
(** src/valops/observer/parsers.py:33-39 running_version *)
Definition running_version (text : string) (_ : dict) : result exn dict :=
  let lines := List.filter (λ ln, substr "Starting validator with" ln || substr "agave-validator" ln) (splitlines text) in
  Ok (first_version (rev lines)).

(** src/valops/observer/parsers.py:42-44 validator_monitor *)
Definition validator_monitor (text : string) (_ : dict) : result exn dict :=
  found ← mapR (λ m, v ← int_text (grp m 2); Ok (lower_text (grp m 1), VInt v)) (find_all MONITOR_SLOT (chars text));
  let slots := fold_left (λ d kv, dset d kv.1 kv.2) found [] in
  Ok (match slots with
      | [] => not_parsed
      | _ => [("parsed", VBool true); ("slots", VDict slots)]
      end).

(** src/valops/observer/parsers.py:47-52 leader_schedule_self *)
Definition leader_schedule_self (text : string) (local : dict) : result exn dict :=
  let ident := dget_none local "identity_pubkey" in
  let own := List.filter (λ m, py_eq (VStr (concat_text (grp m 2))) ident) (find_all SCHED (chars text)) in
  slots ← mapR (λ m, int_text (grp m 1)) own;
  match slots, search SCHED None (chars text) with
  | [], None => Ok not_parsed
  | _, _ => Ok [("parsed", VBool true); ("own_leader_slots", VList (map VInt (take 200 slots))); ("count", VInt (Z.of_nat (length slots)))]
  end.

(** src/valops/observer/parsers.py:55-58 PARSERS *)
Definition PARSERS (name : string) : option (string → dict → result exn dict) :=
  dget [("catchup", catchup); ("balance", balance); ("running_version", running_version); ("validator_monitor", validator_monitor);
        ("leader_schedule_self", leader_schedule_self)] name.
End parsers.

(** The program's own examples of the formats. *)
Section examples.
#[local] Instance plain_text : Unicode := {| udigit _ := None; uspace _ := false; ualnum _ := false |}.
Example catchup_demo : catchup "abc 57 slot(s) behind (us:43 them:100), our node is catching up" [] =
  Ok [("parsed", VBool true); ("our_slot", VInt 43); ("cluster_slot", VInt 100); ("slots_behind", VInt 57); ("caught_up", VBool false)].
Proof. by vm_compute. Qed.
Example balance_demo : balance ("12.5 SOL" +:+ newline) [] = Ok [("parsed", VBool true); ("balance_sol", VFloat (125 # 10))].
Proof. by vm_compute. Qed.
Example version_demo : running_version ("[..] Starting validator with: ..." +:+ newline +:+ "agave-validator 2.2.0 (src:1)") [] =
  Ok [("parsed", VBool true); ("version", VStr "2.2.0")].
Proof. by vm_compute. Qed.
Example monitor_demo : validator_monitor "Processed Slot: 120 | Confirmed: 118 | processed 121" [] =
  Ok [("parsed", VBool true); ("slots", VDict [("processed", VInt 121); ("confirmed", VInt 118)])].
Proof. by vm_compute. Qed.
Definition ident : string := "Abc3ntity11111111111111111111111111111111".
Example schedule_demo :
  leader_schedule_self ("  10 " +:+ ident +:+ newline +:+ "  11 Xther11111111111111111111111111111111111" +:+ newline +:+ "  12 " +:+ ident +:+ newline)
    [("identity_pubkey", VStr ident)] =
  Ok [("parsed", VBool true); ("own_leader_slots", VList [VInt 10; VInt 12]); ("count", VInt 2)].
Proof. by vm_compute. Qed.

(** What takes the shape of a version is taken for one: here the address the validator
    binds to. *)
Example address_for_version :
  running_version ("agave-validator 2.2.0 (src:1)" +:+ newline +:+ "Starting validator with: --rpc-bind-address 127.0.0.1 --rpc-port 8899") [] =
  Ok [("parsed", VBool true); ("version", VStr "127.0.0")].
Proof. by vm_compute. Qed.
End examples.

(** * What the parsers read *)

Section props.
Context `{UNI : Unicode}.

(** ** Classes and where they stop *)
Lemma stops_end r f : stops r f → stops (Cat r Eps) f.
Proof. intros H A p s c k a Hk Hr. by eapply H. Qed.
Lemma stops_grp n r f : stops r f → stops (Grp n r) f.
Proof. intros H A p s c k a Hk Hr. cbn [run] in Hr. eapply H in Hr as (p' & s' & c' & Ha & Hs); [by eexists p', s', _|]. intros. apply Hk. Qed.
Lemma m_star f p s p' s' : matches (star f) p s p' s' → ∃ w, s = w ++ s' ∧ p' = after p w ∧ Forall (λ x, f x = true) w.
Proof. intros (w & -> & -> & Hw & _)%m_rep_cls. by exists w. Qed.
Lemma m_plus f p s p' s' : matches (plus f) p s p' s' → ∃ w, s = w ++ s' ∧ p' = after p w ∧ Forall (λ x, f x = true) w ∧ w ≠ [].
Proof. intros (w & -> & -> & Hw & Hl)%m_rep_cls. exists w. split_and!; try done. by intros ->; cbn in Hl; lia. Qed.

(** ** The slots of [solana catchup] *)
(** [s] starts with [us: u them: v], as the tool writes it, up to white space. *)
Definition us_them (s u v b : text) : Prop := ∃ sp1 sp2 sp3,
  s = chars "us:" ++ sp1 ++ u ++ sp2 ++ chars "them:" ++ sp3 ++ v ++ b ∧
  Forall (λ x, space_class x = true) (sp1 ++ sp2 ++ sp3) ∧ sp2 ≠ [] ∧ Forall (λ x, digit_class x = true) (u ++ v) ∧ u ≠ [] ∧ v ≠ [].
Lemma us_them_starts p s u v b : us_them s u v b → starts_at US_THEM p s.
Proof.
  intros (sp1 & sp2 & sp3 & -> & (H1 & (H2 & H3)%list.Forall_app)%list.Forall_app & Hne & (Hu & Hv)%list.Forall_app & Hu0 & Hv0).
  assert (∀ {A} (l : list A), l ≠ [] → 1 ≤ length l) as Hlen by (intros A [|] ?; [done|cbn; lia]).
  eexists _, b. unfold US_THEM, cats. cbn [foldr]. econstructor; [by apply m_lit|]. econstructor; [apply m_rep_many; [done|lia]|].
  econstructor; [apply MGrp, m_rep_many; [done|by apply Hlen]|]. econstructor; [apply m_rep_many; [done|by apply Hlen]|].
  econstructor; [by apply m_lit|]. econstructor; [apply m_rep_many; [done|lia]|]. econstructor; [apply MGrp, m_rep_many; [done|by apply Hlen]|].
  by apply m_eps.
Qed.
Lemma us_them_takes p s p' b c : takes US_THEM p s [] p' b c → ∃ u v, us_them s u v b ∧ c = [(2, v); (1, u)].
Proof.
  unfold US_THEM, cats. cbn [foldr]. intros H.
  repeat match goal with H : takes (Cat _ _) _ _ _ _ _ _ |- _ => apply t_cat in H as (? & ? & ? & ? & H) end.
  repeat match goal with H : takes _ _ _ _ _ _ _ |- _ =>
    first [apply takes_quiet in H as [-> H]; [|done] | apply t_grp in H as (? & ? & ? & -> & H); [|done]] end.
  repeat match goal with
    | H : matches (lit _) _ _ _ _ |- _ => apply m_lit in H as [-> ->]
    | H : matches spaces _ _ _ _ |- _ => apply m_star in H as (? & -> & -> & ?)
    | H : matches (plus _) _ _ _ _ |- _ => apply m_plus in H as (? & -> & -> & ? & ?)
    | H : matches digits _ _ _ _ |- _ => apply m_plus in H as (? & ? & ? & ? & ?)
    | H : matches Eps _ _ _ _ |- _ => apply m_eps in H as [-> ->]
    end.
  simplify_list_eq. eexists _, _. split; [|done]. eexists _, _, _. split; [done|]. rewrite !list.Forall_app. done.
Qed.

(** The leftmost place, and there the longest second number. *)
Definition first_us_them (s u v : text) : Prop := ∃ a t b, s = a ++ t ∧ us_them t u v b ∧ (∀ x b', b = x :: b' → digit_class x = false) ∧
  ∀ a1 a2 u' v' b', a = a1 ++ a2 → a2 ≠ [] → ¬ us_them (a2 ++ t) u' v' b'.
Lemma us_them_stops : stops US_THEM digit_class.
Proof. unfold US_THEM, cats. cbn [foldr]. do 6 apply stops_cat. apply stops_end, stops_grp, stops_rep. Qed.
Lemma search_us_them s :
  match search US_THEM None s with
  | None => ∀ a t u v b, s = a ++ t → ¬ us_them t u v b
  | Some m => first_us_them s (grp m 1) (grp m 2)
  end.
Proof.
  destruct (search US_THEM None s) as [m|] eqn:E.
  - pose proof (search_takes _ _ _ _ E) as (u & v & Ht & Hc)%us_them_takes. apply search_Some in E as (Hs & Hh & _ & Hl).
    unfold grp, group. rewrite Hc. cbn. exists (fd_before m), (fd_piece m ++ fd_rest m), (fd_rest m). split; [done|]. split; [done|]. split.
    + intros x b' Hb. rewrite Hb in Hh. by apply (match_here_stops _ _ _ _ _ _ _ us_them_stops) in Hh.
    + intros a1 a2 u' v' b' Ha Hne Hut. eapply us_them_starts in Hut. by eapply Hl in Ha.
  - intros a t u v b -> Hut. apply search_None in E. apply E, occurs_starts. exists a, t. split; [done|]. by eapply us_them_starts.
Qed.

(** C34: functional. [catchup] answers [{parsed: False}] when nowhere in the text the two
    slots stand as the tool writes them; otherwise it reads the two numbers of the leftmost
    such place, to their last digit, answers how far the second is ahead of the first, never
    less than zero, and raises exactly when one of them has more than 4300 digits. *)
Theorem catchup_reads s local :
  (catchup s local = Ok not_parsed ∧ ∀ a t u v b, chars s = a ++ t → ¬ us_them t u v b) ∨
  ∃ u v, first_us_them (chars s) u v ∧
    ((4300 < length u ∨ 4300 < length v) ∧ catchup s local = Err (PyExc "ValueError") ∨
     length u ≤ 4300 ∧ length v ≤ 4300 ∧ catchup s local =
       Ok [("parsed", VBool true); ("our_slot", VInt (digits_value u)); ("cluster_slot", VInt (digits_value v));
           ("slots_behind", VInt (Z.max 0 (digits_value v - digits_value u))); ("caught_up", VBool (substr "has caught up" s))]).
Proof.
  unfold catchup. pose proof (search_us_them (chars s)) as H. destruct (search US_THEM None (chars s)) as [m|]; [right|by left].
  exists (grp m 1), (grp m 2). split; [done|]. unfold int_text.
  destruct (Nat.ltb_spec 4300 (length (grp m 1))); [left; split; [by left|done]|].
  destruct (Nat.ltb_spec 4300 (length (grp m 2))); [left; split; [by right|done]|]. by right.
Qed.

(** ** Versions in a log *)
(** Three runs of digits with points between them, between word boundaries. *)
Definition version_text (v : text) : Prop := ∃ a b c, v = a ++ ["."] ++ b ++ ["."] ++ c ∧ Forall (λ x, digit_class x = true) (a ++ b ++ c) ∧
  a ≠ [] ∧ b ≠ [] ∧ c ≠ [].
Lemma version_takes p s p' b c : takes VERSION p s [] p' b c → ∃ v, s = v ++ b ∧ c = [(1, v)] ∧ version_text v.
Proof.
  unfold VERSION, cats. cbn [foldr]. intros H.
  repeat match goal with H : takes (Cat _ _) _ _ _ _ _ _ |- _ => apply t_cat in H as (? & ? & ? & ? & H) end.
  repeat match goal with H : takes _ _ _ _ _ _ _ |- _ =>
    first [apply takes_quiet in H as [-> H]; [|done] | apply t_grp in H as (? & ? & ? & -> & H); [|done]] end.
  repeat match goal with H : matches (Cat _ _) _ _ _ _ |- _ => apply m_cat in H as (? & ? & ? & H) end.
  repeat match goal with
    | H : matches (lit _) _ _ _ _ |- _ => apply m_lit in H as [-> ->]
    | H : matches digits _ _ _ _ |- _ => apply m_plus in H as (? & -> & -> & ? & ?)
    | H : matches WordB _ _ _ _ |- _ => apply m_wordb in H as (_ & -> & ->)
    | H : matches Eps _ _ _ _ |- _ => apply m_eps in H as [-> ->]
    end.
  simplify_list_eq. eexists. split; [|split; [done|]].
  - match goal with H : matches WordB _ _ _ _ |- _ => apply m_wordb in H as (_ & <- & <-) end. by simplify_list_eq.
  - eexists _, _, _. split; [done|]. by rewrite !list.Forall_app.
Qed.
Definition announces (ln : string) : bool := substr "Starting validator with" ln || substr "agave-validator" ln.
(** A line's leftmost version. *)
Definition line_version (ln v : string) : Prop := ∃ a w b, chars ln = a ++ w ++ b ∧ v = concat_text w ∧ version_text w ∧
  ∀ a1 a2, a = a1 ++ a2 → a2 ≠ [] → ¬ starts_at VERSION (after None a1) (a2 ++ w ++ b).
Lemma search_version ln :
  match search VERSION None (chars ln) with
  | None => ¬ occurs VERSION None (chars ln)
  | Some m => line_version ln (concat_text (grp m 1))
  end.
Proof.
  destruct (search VERSION None (chars ln)) as [m|] eqn:E; [|by apply search_None in E].
  pose proof (search_takes _ _ _ _ E) as (v & Ht & Hc & Hv)%version_takes. apply search_Some in E as (Hs & _ & _ & Hl).
  unfold grp, group. rewrite Hc. cbn. apply app_inv_tail in Ht as <-. by exists (fd_before m), (fd_piece m), (fd_rest m).
Qed.
Lemma first_version_reads lines :
  (first_version lines = not_parsed ∧ ∀ ln, ln ∈ lines → ¬ occurs VERSION None (chars ln)) ∨
  ∃ l1 ln l2 v, lines = l1 ++ ln :: l2 ∧ (∀ x, x ∈ l1 → ¬ occurs VERSION None (chars x)) ∧ line_version ln v ∧
    first_version lines = [("parsed", VBool true); ("version", VStr v)].
Proof.
  induction lines as [|ln lines IH]; cbn [first_version]; [left; split; [done|by intros ? ?%not_elem_of_nil]|].
  pose proof (search_version ln) as Hv. destruct (search VERSION None (chars ln)) as [m|].
  - right. exists [], ln, lines, (concat_text (grp m 1)). split; [done|]. split; [by intros ? ?%not_elem_of_nil|done].
  - destruct IH as [[-> H]|(l1 & x & l2 & v & -> & H & Hx & ->)]; [left|right].
    + split; [done|]. intros y [->|Hy]%elem_of_cons; [done|by apply H].
    + exists (ln :: l1), x, l2, v. split; [done|]. split; [|done]. intros y [->|Hy]%elem_of_cons; [done|by apply H].
Qed.
(** [running_version] takes the last line that announces the validator and holds a version,
    and of it the first version. *)
Lemma running_version_reads s local : let lines := List.filter announces (splitlines s) in
  (running_version s local = Ok not_parsed ∧ ∀ ln, ln ∈ lines → ¬ occurs VERSION None (chars ln)) ∨
  ∃ l1 ln l2 v, lines = l1 ++ ln :: l2 ∧ (∀ x, x ∈ l2 → ¬ occurs VERSION None (chars x)) ∧ line_version ln v ∧
    running_version s local = Ok [("parsed", VBool true); ("version", VStr v)].
Proof.
  cbn zeta. unfold running_version. fold announces. set (lines := List.filter announces (splitlines s)).
  destruct (first_version_reads (rev lines)) as [[-> H]|(l1 & ln & l2 & v & E & H & Hv & ->)]; [left|right].
  - split; [done|]. intros ln Hln. apply H. by rewrite list_elem_of_In, <- in_rev, <- list_elem_of_In.
  - exists (rev l2), ln, (rev l1), v. split_and!; [|intros x Hx|done..].
    + rewrite <- (rev_involutive lines), E, rev_app_distr. cbn. by rewrite <- app_assoc.
    + apply H. by rewrite list_elem_of_In, in_rev, <- list_elem_of_In.
Qed.
End props.
