(* ===== verification/Builtins.v ===== *)
(** * The daemon's own read-only commands (src/valops/observer/builtins.py)

    What the host answers (files, processes, volumes, the validator's RPC port, the clock)
    is the record [Os], each answer a value or the exception raised; what the code makes of
    the answers is modelled in full. Each command gives the text it shows and the structured
    answer. *)
From S2P Require Import Prelude PyVal Schema Canonical Json PyConv Table Bundle Rules Consensus Artefacts Daemon Regex Redact Parsers.
From Stdlib Require Import Ascii.

(** ** What the host answers *)
Record Os : Type := mkOs {
  os_file : val → result exn string;                  (* the bytes of [open(path, "rb")] *)
  os_text : string → result exn string;               (* [Path(path).read_text()] *)
  os_exists : string → result exn bool;               (* [Path(path).exists()] *)
  os_disk : val → result exn (Z * Z);                 (* [shutil.disk_usage(path)]: free, total *)
  os_run : list val → result exn string;              (* the standard output of [subprocess.run(argv, timeout=5)] *)
  os_load : result exn Q;                             (* [os.getloadavg()[0]] *)
  os_which : string → bool;                           (* [shutil.which(name) is not None] *)
  os_glob : val → string → result exn (list string);  (* [glob.glob(os.path.join(dir, pattern))] *)
  os_mtime : string → result exn Q;                   (* [os.stat(path).st_mtime] *)
  os_http : val → string → Q → result exn string;     (* the first 4096 bytes a POST is answered with *)
  os_start : Q; os_end : Q                            (* [time.monotonic()] before and after the POST *)
}.

(** [try: m  except names: h]. *)
Definition except {A} (names : list string) (m : result exn A) (h : string → result exn A) : result exn A :=
  match m with Err (PyExc cls) => if str_in cls names then h cls else m | _ => m end.
Definition run_errors : list string := "TimeoutExpired" :: os_errors.

(** [s.split(":", 1)] into two parts, the part after the last [sep], a sorted list. *)
Fixpoint split_once (sep : ascii) (s : string) : option (string * string) :=
  match s with
  | EmptyString => None
  | String c s' => if Ascii.eqb c sep then Some (EmptyString, s')
                   else match split_once sep s' with Some (a, b) => Some (String c a, b) | None => None end
  end.
Definition last_part (sep : ascii) (s : string) : string := List.last (split_on sep s) EmptyString.
Fixpoint string_insert (x : string) (l : list string) : list string :=
  match l with [] => [x] | y :: l' => if String.ltb y x then y :: string_insert x l' else x :: l end.
Definition sorted_strings (l : list string) : list string := foldr string_insert [] l.
(** [a / b] *)
Definition ratio (a b : Q) : result exn Q := if Qeq_bool b 0 then Err (PyExc "ZeroDivisionError") else Ok (a / b)%Q.
(** [min(l)] of a list that is not empty *)
Definition least (x : Q) (l : list Q) : Q := fold_left (λ a b, if Qltb b a then b else a) l x.

Section builtins.
Context `{UNI : Unicode} (decode : string → string) (os : Os).

(** [s.split()] *)
Fixpoint words_from (cur : text) (s : text) : list string :=
  match s with
  | [] => match cur with [] => [] | _ => [concat_text cur] end
  | x :: s' => if space_class x then match cur with [] => words_from [] s' | _ => concat_text cur :: words_from [] s' end
               else words_from (cur ++ [x]) s'
  end.
Definition words (s : string) : list string := words_from [] (chars s).

(** [s.strip()] *)
Fixpoint skip_space (s : text) : text := match s with x :: s' => if space_class x then skip_space s' else s | [] => [] end.
Definition strip_text (s : string) : string := concat_text (rev (skip_space (rev (skip_space (chars s))))).

(** src/valops/observer/builtins.py:18-23 _tail_bytes *)
Definition tail_bytes (path : val) (max_bytes : Z) : result exn string :=
  data ← os_file os path;
  let size := Z.of_nat (String.length data) in
  let from := Z.max 0 (size - max_bytes) in
  if (max_bytes <? -1)%Z then Err (PyExc "ValueError")
  else
    let rest := String.substring (Z.to_nat from) (String.length data - Z.to_nat from) data in
    Ok (if (max_bytes =? -1)%Z then rest else String.substring 0 (Z.to_nat max_bytes) rest).

(** src/valops/observer/builtins.py:26-30 log_tail *)
Definition log_tail (args local : dict) : result exn (string * dict) :=
  lines ← vindex (VDict args) "lines"; lines ← py_int lines;
  logfile ← vindex (VDict local) "logfile";
  max_bytes ← py_int (default (VInt 262144) (dget local "log_tail_max_bytes"));
  raw ← tail_bytes logfile max_bytes;
  let shown := last_n lines (splitlines (decode raw)) in
  let text := join newline shown in
  let n := if String.eqb text EmptyString then 0%Z else (Z.of_nat (length (split_on "010" text)))%Z in
  Ok (text, [("lines", VInt (Z.min lines n))]).

(** The lines that announce a start, each with the line before it. *)
Fixpoint start_lines (before : option string) (lines : list string) : list string :=
  match lines with
  | [] => []
  | ln :: lines' =>
      (if substr "Starting validator with" ln then match before with Some b => [b; ln] | None => [ln] end else []) ++ start_lines (Some ln) lines'
  end.
(** src/valops/observer/builtins.py:33-42 running_version *)
Definition builtin_running_version (args local : dict) : result exn (string * dict) :=
  logfile ← vindex (VDict local) "logfile";
  max_bytes ← py_int (default (VInt (8 * 1024 * 1024)) (dget local "log_scan_max_bytes"));
  raw ← tail_bytes logfile max_bytes;
  let hits := start_lines None (splitlines (decode raw)) in
  let text := join newline (last_n 4 hits) in
  structured ← running_version text local;
  Ok (text, structured).

(** src/valops/observer/builtins.py:45-50 _systemctl_is_active *)
Definition systemctl_is_active (unit_name : val) : result exn string :=
  except run_errors (out ← os_run os [VStr "systemctl"; VStr "is-active"; unit_name];
                     Ok (match strip_text out with EmptyString => "unknown" | s => s end))
    (λ _, Ok "unknown").

(** One volume, if the configuration names its path. *)
Definition volume (path : val) : result exn dict :=
  except os_errors (du ← os_disk os path; let '(free, total) := du in
                    pct ← ratio (100 * inject_Z free) (inject_Z total);
                    Ok [("free_pct", VFloat (py_round 2 pct)); ("free_gib", VFloat (py_round 2 (inject_Z free / inject_Z (2 ^ 30))))])
    (λ cls, Ok [("error", VStr cls)]).
Fixpoint volumes (local : dict) (names : list string) : result exn dict :=
  match names with
  | [] => Ok []
  | name :: names' =>
      let own := dget_none local (name +:+ "_path") in
      path ← (if truthy own then Ok own else if String.eqb name "ledger" then vindex (VDict local) "ledger" else Ok VNone);
      if truthy path then v ← volume path; vols ← volumes local names'; Ok ((name, VDict v) :: vols) else volumes local names'
  end.
Definition free_pcts (vols : dict) : list Q :=
  omap (λ kv : string * val, match kv.2 with VDict v => match dget v "free_pct" with Some (VFloat q) => Some q | _ => None end | _ => None end) vols.
Fixpoint meminfo (lines : list string) (mem : list (string * Z)) : result exn (list (string * Z)) :=
  match lines with
  | [] => Ok mem
  | ln :: lines' =>
      kv ← of_opt (split_once ":" ln) (PyExc "ValueError");
      if str_in kv.1 ["MemTotal"; "MemAvailable"] then
        w ← of_opt (head (words kv.2)) (PyExc "IndexError");
        z ← of_opt (int_of_text w) (PyExc "ValueError");
        meminfo lines' (dset mem kv.1 z)
      else meminfo lines' mem
  end.
(** src/valops/observer/builtins.py:53-79 host_metrics

    What [meminfo] has read when reading fails is nothing: the file is read at once. *)
Definition host_metrics (args local : dict) : result exn (string * dict) :=
  vols ← volumes local ["ledger"; "accounts"];
  mem ← except os_errors (t ← os_text os "/proc/meminfo"; meminfo (splitlines t) []) (λ _, Ok []);
  state ← systemctl_is_active (default (VStr "sol.service") (dget local "unit_name"));
  avail ← (match dget mem "MemTotal", dget mem "MemAvailable" with
           | Some total, Some avail => pct ← ratio (100 * inject_Z avail) (inject_Z total); Ok (VFloat (py_round 2 pct))
           | _, _ => Ok VNone
           end);
  load ← os_load os;
  let structured :=
    [("parsed", VBool true); ("volumes", VDict vols);
     ("min_free_pct", match free_pcts vols with q :: qs => VFloat (least q qs) | [] => VNone end);
     ("mem_available_pct", avail); ("load1", VFloat load); ("unit_state", VStr state); ("unit_active", VBool (String.eqb state "active"))] in
  Ok (json_dumps (VDict structured), structured).

(** The last setting of the file. *)
Definition password_setting (lines : list string) : string :=
  fold_left (λ s ln, let ln := strip_text ln in
               if String.prefix "passwordauthentication" (lower ln) then lower (List.last (words ln) EmptyString) else s) lines "unknown".
Definition listening (out : string) : list string :=
  take 100 (foldr set_insert [] (omap (λ ln, match words ln with _ :: _ :: _ :: w :: _ => Some (last_part ":" w) | _ => None end) (splitlines out))).
Definition take_chars (n : nat) (s : string) : string := concat_text (take n (chars s)).
Definition updates_note : string := "/var/lib/update-notifier/updates-available".
(** src/valops/observer/builtins.py:82-106 host_hygiene *)
Definition host_hygiene (args local : dict) : result exn (string * dict) :=
  pw_auth ← except os_errors (t ← os_text os "/etc/ssh/sshd_config"; Ok (password_setting (splitlines t))) (λ _, Ok "unknown");
  ports ← except run_errors (out ← os_run os [VStr "ss"; VStr "-ltnH"]; Ok (listening out)) (λ _, Ok []);
  there ← os_exists os updates_note;
  pending ← (if there : bool then except os_errors (t ← os_text os updates_note; Ok (VStr (take_chars 500 t))) (λ _, Ok VNone) else Ok VNone);
  let structured :=
    [("parsed", VBool true); ("ssh_password_authentication", VStr pw_auth); ("fail2ban_present", VBool (os_which os "fail2ban-client"));
     ("listening_tcp_ports", VList (map VStr ports)); ("pending_updates_note", pending)] in
  Ok (json_dumps (VDict structured), structured).

(** The files of one kind; a file that is gone by then is left out. *)
Fixpoint stamped (paths : list string) : result exn (list val) :=
  match paths with
  | [] => Ok []
  | p :: paths' =>
      here ← except os_errors (m ← os_mtime os p; Ok [VDict [("name", VStr (last_part "/" p)); ("mtime", VFloat m)]]) (λ _, Ok []);
      rest ← stamped paths'; Ok (here ++ rest)
  end.
(** src/valops/observer/builtins.py:109-118 consensus_state_files *)
Definition consensus_state_files (args local : dict) : result exn (string * dict) :=
  ledger ← vindex (VDict local) "ledger";
  towers ← os_glob os ledger "tower-*.bin"; tower ← stamped (take 10 (sorted_strings towers));
  histories ← os_glob os ledger "vote_history-*.bin"; history ← stamped (take 10 (sorted_strings histories));
  let out := [("parsed", VBool true); ("tower", VList tower); ("vote_history", VList history)] in
  Ok (json_dumps (VDict out), out).

Definition health_body : string := json_dumps (VDict [("jsonrpc", VStr "2.0"); ("id", VInt 1); ("method", VStr "getHealth")]).
(** src/valops/observer/builtins.py:121-134 rpc_latency *)
Definition rpc_latency (args local : dict) : result exn (string * dict) :=
  let url := default (VStr "http://127.0.0.1:8899") (dget local "rpc_url") in
  let answer := timeout ← py_float (default (VInt 5) (dget local "rpc_timeout_s")); os_http os url health_body timeout in
  outcome ← (match answer with
             | Ok body => Ok (substr (ch 34 +:+ "ok" +:+ ch 34) body, VNone)
             | Err (PyExc cls) => Ok (false, VStr cls)
             | Err e => Err e
             end);
  let '(ok, err) := (outcome : bool * val) in
  let ms := py_round 1 ((os_end os - os_start os) * 1000)%Q in
  let structured := [("parsed", VBool true); ("latency_ms", VFloat ms); ("healthy", VBool ok); ("error", err)] in
  Ok (json_dumps (VDict structured), structured).

(** src/valops/observer/builtins.py:137-140 BUILTINS *)
Definition BUILTINS (name : string) : option (dict → dict → result exn (string * dict)) :=
  dget [("log_tail", log_tail); ("running_version", builtin_running_version); ("host_metrics", host_metrics); ("host_hygiene", host_hygiene);
        ("consensus_state_files", consensus_state_files); ("rpc_latency", rpc_latency)] name.
(** [BUILTINS[cmd.id](vargs, self.local)] *)
Definition run_builtin (name : string) (vargs local : dict) : result exn (string * dict) :=
  match BUILTINS name with Some f => f vargs local | None => Err (PyExc "KeyError") end.
End builtins.

(** * What the daemon's own commands answer, and what the sentinel makes of it *)
From S2P Require Import Checks Parsers.

#[local] Arguments String.append !_ _ /.

(** ** Bounded reads *)
Lemma substring_suffix s n : (n ≤ String.length s) → ∃ pre, s = pre +:+ String.substring n (String.length s - n) s ∧ String.length pre = n.
Proof.
  revert n. induction s as [|c s IH]; intros [|n] H; cbn in H |- *; try lia.
  - by exists EmptyString.
  - exists EmptyString. split; [|done]. cbn. f_equal. destruct (IH 0) as (pre & E & Hp); [lia|].
    destruct pre; [|done]. by rewrite Nat.sub_0_r in E.
  - destruct (IH n) as (pre & E & Hp); [lia|]. exists (String c pre). cbn. split; [by f_equal|by f_equal].
Qed.
Lemma string_app_nil_r s : s +:+ EmptyString = s.
Proof. induction s as [|c s IH]; cbn; [done|by rewrite IH]. Qed.
Lemma substring_zero s n : String.substring n 0 s = EmptyString.
Proof. revert n. by induction s as [|c s IH]; intros [|n]; cbn. Qed.
Lemma substring_whole s n : (String.length s ≤ n) → String.substring 0 n s = s.
Proof. revert n. induction s as [|c s IH]; intros [|n] H; cbn in *; try done; try lia. f_equal. apply IH. lia. Qed.

Section builtins.
Context `{UNI : Unicode} (os : Os).

Lemma tail_bytes_spec path m raw : tail_bytes os path m = Ok raw →
  (-1 ≤ m)%Z ∧ ∃ data pre, os_file os path = Ok data ∧ data = pre +:+ raw ∧
  Z.of_nat (String.length raw) = Z.min (Z.of_nat (String.length data)) (Z.max 0 m).
Proof.
  unfold tail_bytes. intros (data & Hd & H)%rbind_Ok. destruct (Z.ltb_spec m (-1)); [done|]. split; [lia|].
  set (from := Z.to_nat (Z.max 0 (Z.of_nat (String.length data) - m))) in H. injection H as H. destruct (Z.eqb_spec m (-1)) as [->|Hm].
  - exists data, data. split; [done|]. assert (raw = EmptyString) as ->; [|split; [by rewrite string_app_nil_r|cbn; lia]].
    rewrite <- H. replace (String.length data - from) with 0 by (unfold from; lia). apply substring_zero.
  - destruct (substring_suffix data from) as (pre & E & Hp); [unfold from; lia|]. exists data, pre. split; [done|].
    assert (String.length (String.substring from (String.length data - from) data) = String.length data - from) as Hl.
    { pose proof (f_equal String.length E) as El. rewrite string_length_app in El. lia. }
    rewrite substring_whole in H by (rewrite Hl; unfold from; lia). rewrite <- H. split; [done|]. rewrite Hl. unfold from. lia.
Qed.

Lemma last_n_spec {A} n (l : list A) : (0 < n)%Z → ∃ pre, l = pre ++ last_n n l ∧ Z.of_nat (length (last_n n l)) = Z.min n (Z.of_nat (length l)).
Proof.
  intros Hn. unfold last_n. rewrite (proj2 (Z.ltb_lt _ _)) by done. exists (take (length l - Z.to_nat n) l). split; [by rewrite take_drop|].
  rewrite length_drop. lia.
Qed.

(** The log command reads no more than the configured number of bytes, the last
    ones of the file, and shows no more than the number of lines asked for, the last ones of
    what it read; the count it answers is at most that, too. *)
Theorem log_tail_is_bounded (decode : string → string) args local text st n :
  log_tail decode os args local = Ok (text, st) → dget args "lines" = Some (VInt n) → (0 < n)%Z →
  ∃ path m raw data pre before shown,
    vindex (VDict local) "logfile" = Ok path ∧ py_int (default (VInt 262144) (dget local "log_tail_max_bytes")) = Ok m ∧
    os_file os path = Ok data ∧ data = pre +:+ raw ∧ (Z.of_nat (String.length raw) ≤ Z.max 0 m)%Z ∧
    splitlines (decode raw) = before ++ shown ∧ (Z.of_nat (length shown) ≤ n)%Z ∧ text = join newline shown ∧
    ∃ k, dget st "lines" = Some (VInt k) ∧ (0 ≤ k ≤ n)%Z.
Proof.
  unfold log_tail. cbn [vindex]. intros H Hl Hn. rewrite Hl in H. cbn in H.
  apply rbind_Ok in H as (path & Hp & H). apply rbind_Ok in H as (m & Hm & H). apply rbind_Ok in H as (raw & Hr & [= <- <-]).
  apply tail_bytes_spec in Hr as (_ & data & pre & Hd & E & Hlen).
  destruct (last_n_spec n (splitlines (decode raw)) Hn) as (before & Hs & Hle).
  exists path, m, raw, data, pre, before, (last_n n (splitlines (decode raw))). split_and!; try done; [lia|lia|].
  eexists. split; [done|]. destruct (String.eqb _ _); lia.
Qed.

(** ** Volumes *)
Lemma least_spec x l : (∃ q, q ∈ x :: l ∧ least x l = q) ∧ ∀ q, q ∈ x :: l → (least x l <= q)%Q.
Proof.
  revert x. induction l as [|y l IH]; intros x; cbn.
  - split; [exists x; split; [by left|done]|]. intros q [->|[]%not_elem_of_nil]%elem_of_cons. apply Qle_refl.
  - specialize (IH (if Qltb y x then y else x)) as [(q & Hq & E) Hle]. unfold least in *. split.
    + exists q. split; [|done]. apply elem_of_cons in Hq as [->|Hq]; [|by do 2 right]. destruct (Qltb y x); [right; left|left].
    + intros z Hz. assert ((if Qltb y x then y else x) <= x /\ (if Qltb y x then y else x) <= y)%Q as [Hx Hy].
      { destruct (Qltb y x) eqn:E'; [apply Qltb_lt in E'|apply Qltb_ge in E']; split; try apply Qle_refl; [by apply Qlt_le_weak|done]. }
      apply elem_of_cons in Hz as [->|Hz]; [|apply elem_of_cons in Hz as [->|Hz]].
      * eapply Qle_trans; [apply Hle; left|done].
      * eapply Qle_trans; [apply Hle; left|done].
      * apply Hle. by right.
Qed.

(** A volume the metrics measured. *)
Definition measured_volume (vols : dict) (q : Q) : Prop := ∃ name v, (name, VDict v) ∈ vols ∧ dget v "free_pct" = Some (VFloat q).
Lemma free_pcts_measured vols q : q ∈ free_pcts vols ↔ measured_volume vols q.
Proof.
  unfold free_pcts, measured_volume. rewrite list.list_elem_of_omap. split.
  - intros ([name v] & Hin & H). cbn in H. destruct v as [| | | | | |v]; try done. exists name, v. split; [done|].
    destruct (dget v "free_pct") as [[]|]; try done. by injection H as ->.
  - intros (name & v & Hin & H). exists (name, VDict v). split; [done|]. cbn. by rewrite H.
Qed.

(** What [host_metrics] answers. *)
Record metrics (st vols : dict) (state : string) : Prop := mkMetrics {
  hm_parsed : dget st "parsed" = Some (VBool true);
  hm_volumes : dget st "volumes" = Some (VDict vols);
  hm_least : dget st "min_free_pct" = Some (match free_pcts vols with q :: qs => VFloat (least q qs) | [] => VNone end);
  hm_state : dget st "unit_state" = Some (VStr state);
  hm_active : dget st "unit_active" = Some (VBool (String.eqb state "active")) }.
Lemma host_metrics_shape args local text st : host_metrics os args local = Ok (text, st) →
  text = json_dumps (VDict st) ∧ ∃ vols state, metrics st vols state ∧
    systemctl_is_active os (default (VStr "sol.service") (dget local "unit_name")) = Ok state.
Proof.
  unfold host_metrics. intros (vols & _ & (mem & _ & (state & Hst & (avail & _ & (load & _ & H)%rbind_Ok)%rbind_Ok)%rbind_Ok)%rbind_Ok)%rbind_Ok.
  injection H as <- <-. split; [done|]. exists vols, state. split; [by split|done].
Qed.

Lemma lt_num a b p q : num_of a = Some p → num_of b = Some q → lt_ a b = Ok (Qltb p q).
Proof. intros Ha Hb. unfold lt_. destruct a, b; try done; cbn in *; by simplify_eq. Qed.

(** The sentinel's disk finding stands exactly when one of the volumes the
    host measured has less free space than the floor, a volume that could not be measured
    raising none; and its unit finding exactly when systemd does not call the unit active. *)
Theorem disk_finding_is_of_a_volume args local text st p floor f :
  host_metrics os args local = Ok (text, st) → vindex p "P-04" = Ok floor → num_of floor = Some f →
  ∃ vols state fs, dget st "volumes" = Some (VDict vols) ∧
    systemctl_is_active os (default (VStr "sol.service") (dget local "unit_name")) = Ok state ∧ host_findings p st = Ok fs ∧
    ((∃ x, x ∈ fs ∧ fd_check x = "disk_headroom") ↔ ∃ q, measured_volume vols q ∧ (q < f)%Q) ∧
    ((∃ x, x ∈ fs ∧ fd_check x = "unit_state") ↔ state ≠ "active").
Proof.
  intros (_ & vols & state & [Hp Hv Hl Hs Ha] & Hst)%host_metrics_shape Hf Hnum. exists vols, state. unfold host_findings, dget_none. rewrite Hl, Ha, Hs.
  cbn [from_option id]. setoid_rewrite <- free_pcts_measured.
  destruct (free_pcts vols) as [|q qs]; cbn [is_num].
  - eexists. split_and!; [done|done|reflexivity|..]; destruct (String.eqb_spec state "active") as [->|Hne]; cbn.
    + setoid_rewrite elem_of_nil. naive_solver.
    + setoid_rewrite elem_of_cons. setoid_rewrite elem_of_nil. split; [by intros (x & [->|[]] & [=])|by intros (q & [] & _)].
    + setoid_rewrite elem_of_nil. naive_solver.
    + split; [done|]. intros _. eexists. split; [by left|done].
  - rewrite Hf. cbn [mbind result_bind]. destruct (least_spec q qs) as [(z & Hz & Ez) Hle].
    rewrite (lt_num (VFloat (least q qs)) floor _ _ eq_refl Hnum). 
    assert (Qltb (least q qs) f = true ↔ ∃ z, z ∈ q :: qs ∧ (z < f)%Q) as Hiff.
    { rewrite Qltb_lt. split; [intros H; exists z; split; [done|by rewrite <- Ez]|]. intros (y & Hy & Hlt). eapply Qle_lt_trans; [by apply Hle|done]. }
    eexists. split_and!; [done|done|reflexivity|..].
    + rewrite <- Hiff. destruct (Qltb _ _); destruct (String.eqb state "active"); cbn; repeat setoid_rewrite elem_of_cons; setoid_rewrite elem_of_nil; naive_solver.
    + destruct (Qltb _ _); destruct (String.eqb_spec state "active"); cbn; repeat setoid_rewrite elem_of_cons; setoid_rewrite elem_of_nil; naive_solver.
Qed.
End builtins.

(** ** A host *)
#[export] Existing Instance no_unicode.
Definition demo_log : string :=
  "agave-validator 2.2.0 (src:1)" +:+ newline +:+ "Starting validator with: --rpc-bind-address 127.0.0.1 --rpc-port 8899" +:+ newline +:+
  "slot 1" +:+ newline +:+ "slot 2" +:+ newline.
Definition demo_note : string := "2 updates" +:+ newline +:+ "/root/.config/token" +:+ newline.
Definition demo_os : Os := {|
  os_file _ := Ok demo_log;
  os_text p := if String.eqb p "/proc/meminfo" then Ok ("MemTotal: 200 kB" +:+ newline +:+ "MemAvailable: 50 kB" +:+ newline)
               else if String.eqb p "/etc/ssh/sshd_config" then Ok ("PasswordAuthentication no" +:+ newline)
               else Ok demo_note;
  os_exists _ := Ok true;
  os_disk p := if py_eq p (VStr "/mnt/ledger") then Ok (12, 100)%Z else Err (PyExc "PermissionError");
  os_run argv := if bool_decide (length argv = 3) then Ok ("failed" +:+ newline) else Ok ("LISTEN 0 128 0.0.0.0:22 0.0.0.0:*" +:+ newline);
  os_load := Ok (1 # 2)%Q; os_which _ := false;
  os_glob _ pat := Ok (if String.prefix "tower" pat then ["/mnt/ledger/tower-1_9-x.bin"] else []);
  os_mtime _ := Ok 17%Q;
  os_http _ _ _ := Err (PyExc "URLError");
  os_start := 1; os_end := (3 # 2)%Q |}.
Definition demo_local : dict := [("logfile", VStr "/var/log/sol.log"); ("ledger", VStr "/mnt/ledger"); ("accounts_path", VStr "/mnt/accounts")].

Lemma log_tail_is_bounded_witness :
  log_tail id demo_os [("lines", VInt 1)] demo_local = Ok ("slot 2", [("lines", VInt 1)]) ∧
  ∃ raw before shown, splitlines raw = before ++ shown ∧ "slot 2" = join newline shown ∧ (Z.of_nat (length shown) ≤ 1)%Z.
Proof.
  split; [vm_compute; reflexivity|].
  destruct (log_tail_is_bounded demo_os id [("lines", VInt 1)] demo_local "slot 2" [("lines", VInt 1)] 1 ltac:(vm_compute; reflexivity) eq_refl eq_refl)
    as (path & m & raw & data & pre & before & shown & _ & _ & _ & _ & _ & Hs & Hl & Ht & _).
  exists raw, before, shown. split_and!; assumption.
Defined.

Definition demo_metrics : dict := match host_metrics demo_os [] demo_local with Ok (_, st) => st | Err _ => [] end.
Definition demo_thresholds : val :=
  VDict [("P-02", VInt 5); ("P-03", VDict [("threshold", VInt 50); ("samples", VInt 1)]); ("P-04", VInt 15)].
Example demo_metrics_eq : demo_metrics =
  [("parsed", VBool true); ("volumes", VDict [("ledger", VDict [("free_pct", VFloat 12); ("free_gib", VFloat 0)]); ("accounts", VDict [("error", VStr "PermissionError")])]);
   ("min_free_pct", VFloat 12); ("mem_available_pct", VFloat 25); ("load1", VFloat (1 # 2)%Q); ("unit_state", VStr "failed"); ("unit_active", VBool false)].
Proof. by vm_compute. Qed.
Lemma disk_finding_is_of_a_volume_witness : ∃ fs, host_findings demo_thresholds demo_metrics = Ok fs ∧ (∃ x, x ∈ fs ∧ fd_check x = "disk_headroom") ∧
  ∃ x, x ∈ fs ∧ fd_check x = "unit_state".
Proof.
  destruct (disk_finding_is_of_a_volume demo_os [] demo_local (json_dumps (VDict demo_metrics)) demo_metrics demo_thresholds (VInt 15) 15%Q
    ltac:(vm_compute; reflexivity) eq_refl eq_refl) as (vols & state & fs & Hv & Hs & Hf & Hd & Hu).
  exists fs. split; [exact Hf|]. split.
  - apply Hd. exists 12%Q. split; [|reflexivity]. injection Hv as <-. exists "ledger", [("free_pct", VFloat 12); ("free_gib", VFloat 0)]. split; [left|reflexivity].
  - apply Hu. intros ->. vm_compute in Hs. discriminate Hs.
Defined.

(** *** What these show *)
(** The note of pending updates reaches the answer twice: as text, where redaction does not
    see the path for the [n] of the escaped line end before it, and in the structured
    answer, which is not redacted at all. *)
Example note_not_redacted :
  match host_hygiene demo_os [] demo_local with
  | Ok (text, st) => substr "/root/.config/token" (redact text).1 = true ∧ dget st "pending_updates_note" = Some (VStr demo_note)
  | Err _ => False
  end ∧ substr "/root/.config/token" (redact demo_note).1 = false.
Proof. by vm_compute. Qed.
(** A volume of no size stops the whole command, although a volume that cannot be read is
    answered as an error of its own. *)
Example empty_volume_raises : ∀ args,
  host_metrics {| os_file := os_file demo_os; os_text := os_text demo_os; os_exists := os_exists demo_os; os_disk _ := Ok (0, 0)%Z;
    os_run := os_run demo_os; os_load := os_load demo_os; os_which := os_which demo_os; os_glob := os_glob demo_os; os_mtime := os_mtime demo_os;
    os_http := os_http demo_os; os_start := 0; os_end := 0 |} args demo_local = Err (PyExc "ZeroDivisionError").
Proof. by vm_compute. Qed.
