(* ===== verification/RpcWire.v ===== *)
(** * RPC on the wire (src/valops/common/rpc.py)

    Requests and responses as the bytes that cross a socket: one JSON text per line, read
    with a cap. The texts of error messages are the argument [message]. A connection is the
    bytes one peer sends; a lost connection, the threads and the peer credentials are the
    system's. *)
From S2P Require Import Prelude PyVal Schema Canonical Json Artefacts JsonText Rpc.
From Stdlib Require Import Ascii.

(** src/valops/common/rpc.py:29-29 MAX_MESSAGE *)
Definition MAX_MESSAGE : N := (4 * 1024 * 1024)%N.

(** [f.readline(n)]: the line with its end, as far as [n] bytes go, and the rest. *)
Fixpoint readline (n : N) (s : string) : string * string :=
  match s with
  | EmptyString => (EmptyString, EmptyString)
  | String c s' =>
      if (n =? 0)%N then (EmptyString, s)
      else if Ascii.eqb c "010" then (newline, s')
      else let '(l, r) := readline (N.pred n) s' in (String c l, r)
  end.
Definition size (s : string) : N := N.of_nat (String.length s).

Section wire.
Context {S : Type} (message : string → val → string).
Implicit Types ep : Endpoint S val.

(** src/valops/common/rpc.py:40-44 RpcError.to_dict *)
Definition error_dict (code : string) (data : val) : val :=
  VDict ([("code", VStr code); ("message", VStr (message code data))] ++ match data with VNone => [] | _ => [("data", data)] end).
(** What [_dispatch] returns, [None] when an exception left it. *)
Definition response_obj (resp : response val) : option val :=
  match resp with
  | RespResult id r => Some (VDict [("id", id); ("result", r)])
  | RespMethods id l => Some (VDict [("id", id); ("result", VList (map VStr l))])
  | RespError id code data => Some (VDict [("id", id); ("error", error_dict code data)])
  | RespDropped _ => None
  end.
(** src/valops/common/rpc.py:126-131 _Handler._send *)
Definition sent (obj : val) : string := json_compact obj +:+ newline.
Definition too_large : val := VDict [("id", VNone); ("error", error_dict "too_large" VNone)].
Definition denied : val := VDict [("id", VNone); ("error", error_dict "denied" VNone)].

(** src/valops/common/rpc.py:91-98 _Handler.handle

    The loop of a connection whose peer was let in: what it sends, and the state after. *)
Fixpoint connection (fuel : nat) ep (ctx : Ctx) (input : string) (s : S) : string * S :=
  match fuel with
  | O => (EmptyString, s)
  | Datatypes.S fuel =>
      let '(line, rest) := readline (MAX_MESSAGE + 1) input in
      if String.eqb line EmptyString then (EmptyString, s)
      else if (MAX_MESSAGE <? size line)%N then (sent too_large, s)
      else
        let '(resp, s1) := dispatch ep ctx (json_loads line) s in
        match response_obj resp with
        | None => (EmptyString, s1)
        | Some obj => let '(out, s2) := connection fuel ep ctx rest s1 in (sent obj +:+ out, s2)
        end
  end.
(** src/valops/common/rpc.py:80-90 _Handler.handle *)
Definition serve_peer ep (uid pid : Z) (input : string) (s : S) : string * S :=
  if existsb (Z.eqb uid) (ep_allowed_uids ep)
  then connection (Datatypes.S (String.length input)) ep (mkCtx (ep_name ep) (ep_principal ep) uid pid) input s
  else (sent denied, s).

(** ** The client *)
(** src/valops/common/rpc.py:193-193 RpcClient.call *)
Definition request_line (rid : Z) (method : string) (params : dict) : string :=
  sent (VDict [("id", VInt rid); ("method", VStr method); ("params", VDict params)]).
(** src/valops/common/rpc.py:195-202 RpcClient.call

    What the call returns or raises for the line it read. The code of an error object is a
    string: the server sends no other. *)
Definition read_reply (line : string) : result exn val :=
  if String.eqb line EmptyString then Err (rpc_error "unavailable")
  else match json_loads line with
       | None => Err (PyExc "ValueError")
       | Some (VDict resp) =>
           match dget resp "error" with
           | None => Ok (dget_none resp "result")
           | Some (VDict e) =>
               match default (VStr "error") (dget e "code") with
               | VStr code => Err (RpcError code (dget_none e "data"))
               | v => Err (RpcError (py_str v) (dget_none e "data"))
               end
           | Some _ => Err (PyExc "AttributeError")
           end
       | Some (VList l) => if py_in (VStr "error") l then Err (PyExc "TypeError") else Err (PyExc "AttributeError")
       | Some (VStr t) => if substr "error" t then Err (PyExc "TypeError") else Err (PyExc "AttributeError")
       | Some _ => Err (PyExc "TypeError")
       end.
(** src/valops/common/rpc.py:183-202 RpcClient.call

    One call of a peer that could connect. *)
Definition wire_call ep (uid pid : Z) (rid : Z) (method : string) (params : dict) (s : S) : result exn val * S :=
  let '(out, s') := serve_peer ep uid pid (request_line rid method params) s in
  (read_reply (readline (MAX_MESSAGE + 1) out).1, s').

(** ** Lines *)
Lemma printable_no_break c : printable_char c = true → Ascii.eqb c "010" = false.
Proof. by destruct c as [[] [] [] [] [] [] [] []]. Qed.
Lemma readline_line n t r : printable t = true → (size t < n)%N → readline n (t +:+ newline +:+ r) = (t +:+ newline, r).
Proof.
  revert n. induction t as [|c t IH]; intros n Hp Hn; unfold size in Hn; cbn in Hp, Hn.
  - change (EmptyString +:+ newline +:+ r) with (String "010" r). cbn [readline]. by rewrite (proj2 (N.eqb_neq _ _)) by lia.
  - apply andb_prop in Hp as [Hc Ht]. change (String c t +:+ newline +:+ r) with (String c (t +:+ newline +:+ r)). cbn [readline].
    rewrite (proj2 (N.eqb_neq _ _)) by lia. rewrite (printable_no_break c Hc), IH; [done|done|unfold size; lia].
Qed.
(** A request line that fits is dispatched, and nothing else happens. *)
Lemma connection_one fuel ep ctx t r s : printable t = true → (size t < MAX_MESSAGE)%N →
  connection (Datatypes.S fuel) ep ctx (t +:+ newline +:+ r) s =
    let '(resp, s1) := dispatch ep ctx (json_loads (t +:+ newline)) s in
    match response_obj resp with
    | None => (EmptyString, s1)
    | Some obj => let '(out, s2) := connection fuel ep ctx r s1 in (sent obj +:+ out, s2)
    end.
Proof.
  intros Hp Hn. cbn [connection]. rewrite readline_line by (done || lia).
  assert (String.eqb (t +:+ newline) EmptyString = false) as -> by by destruct t.
  rewrite (proj2 (N.ltb_ge _ _)); [done|]. unfold size in *. rewrite string_length_app. cbn. lia.
Qed.
(** One that does not fit is answered [too_large], and nothing after it is read. *)
Lemma connection_large fuel ep ctx t r s : printable t = true → (MAX_MESSAGE < size t)%N →
  connection (Datatypes.S fuel) ep ctx (t +:+ r) s = (sent too_large, s).
Proof.
  intros Hp Hn. cbn [connection]. destruct (readline (MAX_MESSAGE + 1) (t +:+ r)) as [line rest] eqn:E.
  assert (size line = MAX_MESSAGE + 1)%N as Hl.
  { clear s. revert E Hp Hn. generalize MAX_MESSAGE as m. intros m. revert t line rest. induction m as [|m IH] using N.peano_ind; intros t line rest E Hp Hn.
    - destruct t as [|c t]; [done|]. cbn in Hp. apply andb_prop in Hp as [Hc _]. change (String c t +:+ r) with (String c (t +:+ r)) in E.
      cbn [readline] in E. rewrite (printable_no_break c Hc) in E. destruct (t +:+ r); cbn in E; by injection E as <- <-.
    - destruct t as [|c t]; [unfold size in Hn; cbn in Hn; lia|]. cbn in Hp. apply andb_prop in Hp as [Hc Ht].
      change (String c t +:+ r) with (String c (t +:+ r)) in E. cbn [readline] in E. rewrite (printable_no_break c Hc) in E.
      rewrite (proj2 (N.eqb_neq _ _)) in E by lia. replace (N.pred (N.succ m + 1)) with (m + 1)%N in E by lia.
      destruct (readline (m + 1) (t +:+ r)) as [l q] eqn:El. injection E as <- <-. specialize (IH _ _ _ El Ht).
      unfold size in *. cbn [String.length] in *. lia. }
  destruct line as [|c line]; [unfold size in Hl; cbn in Hl; lia|]. cbn [String.eqb]. by rewrite (proj2 (N.ltb_lt _ _)) by (rewrite Hl; lia).
Qed.

(** ** A call, end to end *)
(** What a caller is left with. *)
Definition outcome (resp : response val) : result exn val :=
  match resp with
  | RespResult _ r => Ok (reread r)
  | RespMethods _ l => Ok (VList (map VStr l))
  | RespError _ code data => Err (RpcError code (reread data))
  | RespDropped _ => Err (rpc_error "unavailable")
  end.
(** A value that fits on a line. *)
Definition fits (obj : val) : Prop := jwf obj ∧ plain obj ∧ (size (json_compact obj) ≤ MAX_MESSAGE)%N.

Lemma read_sent obj r : fits obj → (readline (MAX_MESSAGE + 1) (sent obj +:+ r)).1 = sent obj ∧ json_loads (sent obj) = Some (reread obj).
Proof.
  intros (Hw & Hp & Hs). unfold sent. rewrite string_app_assoc, readline_line; [|apply compact_printable|lia]. split; [done|].
  by apply (loads_line _ _ _ _ _ json_compact_printer).
Qed.
Lemma reply_read resp obj : response_obj resp = Some obj → fits obj → read_reply (sent obj) = outcome resp.
Proof.
  intros Ho Hf. destruct (read_sent obj EmptyString Hf) as [_ Hl]. unfold read_reply. rewrite Hl.
  assert (String.eqb (sent obj) EmptyString = false) as -> by by (unfold sent; destruct (json_compact obj)).
  destruct resp as [id r|id l|id code data|e]; [..|done]; injection Ho as <-; cbn; [done| |by destruct data].
  unfold reread. cbn. do 2 f_equal. by rewrite map_map.
Qed.

(** C21: refinement. A call over the socket is a call of the dispatcher: the line the client
    writes is the request the server reads, and what the client returns or raises for the
    line the server writes is what the dispatcher answered, whatever the method, its
    parameters and the outcome (a result, the method list, an error of any kind, a peer that
    is not let in, a connection lost to an exception), as long as request and response are
    JSON and fit in a line. *)
Theorem call_crosses_the_wire ep uid pid rid method params s resp s' :
  let request := VDict [("id", VInt rid); ("method", VStr method); ("params", VDict params)] in
  fits request → size (json_compact request) ≠ MAX_MESSAGE →
  handle ep uid pid (Some (reread request)) s = (resp, s') → (∀ obj, response_obj resp = Some obj → fits obj) →
  wire_call ep uid pid rid method params s = (outcome resp, s').
Proof.
  cbn zeta. set (request := VDict _). intros (Hw & Hp & Hs) Hne Hh Hresp. unfold wire_call, serve_peer, handle, request_line in *. fold request.
  destruct (existsb _ _).
  - unfold sent at 1 2. rewrite <- (string_app_nil newline) at 2.
    rewrite connection_one; [|apply compact_printable|lia].
    rewrite (loads_line _ _ _ _ _ json_compact_printer request newline Hw Hp eq_refl eq_refl : json_loads _ = Some (reread request)), Hh.
    destruct (response_obj resp) as [obj|] eqn:Eo.
    + assert (∀ fuel ep ctx s, connection fuel ep ctx EmptyString s = (EmptyString, s)) as Hnil by (by intros [|]).
      rewrite Hnil. specialize (Hresp _ eq_refl). by rewrite (proj1 (read_sent obj EmptyString Hresp)), (reply_read resp).
    + by destruct resp.
  - injection Hh as <- <-. assert (fits denied) as Hd by by apply Hresp. pose proof (read_sent denied EmptyString Hd) as [Hr _].
    rewrite string_app_nil in Hr. rewrite Hr. f_equal. by apply (reply_read (RespError VNone "denied" VNone)).
Qed.
End wire.

(** ** A server at work *)
Definition demo_message (code : string) (data : val) : string := "refused".
(** A counter: [add] adds, and refuses a negative amount. *)
Definition demo_add (ctx : Ctx) (params : dict) : M Z exn val :=
  n ← get_state;
  match dget params "by" with
  | Some (VInt z) => if (z <? 0)%Z then raise (RpcError "invalid" (VInt z)) else _ ← put_state (n + z)%Z; mret (VInt (n + z))
  | _ => raise (PyExc "KeyError")
  end.
Definition demo_endpoint : Endpoint Z val := mkEndpoint "counter" "operator" [1000%Z] [("add", demo_add)].
Example two_requests_in_order :
  serve_peer demo_message demo_endpoint 1000 7 (request_line 1 "add" [("by", VInt 2)] +:+ request_line 2 "add" [("by", VInt (-1))]) 40%Z =
  (sent (VDict [("id", VInt 1); ("result", VInt 42)]) +:+
   sent (VDict [("id", VInt 2); ("error", VDict [("code", VStr "invalid"); ("message", VStr "refused"); ("data", VInt (-1))])]), 42%Z).
Proof. by vm_compute. Qed.
Ltac fit := split; [cbn; split_and!; try exact I; apply (bool_decide_unpack _); vm_compute; exact I
                   |split; [apply texts_dict; repeat constructor|apply N.leb_le; vm_compute; reflexivity]].
Lemma call_crosses_the_wire_witness :
  wire_call demo_message demo_endpoint 1000 7 1 "add" [("by", VInt 2)] 40%Z = (Ok (VInt 42), 42%Z) ∧
  wire_call demo_message demo_endpoint 1000 7 1 "add" [("by", VInt (-1))] 40%Z = (Err (RpcError "invalid" (VInt (-1))), 40%Z).
Proof.
  split.
  - apply (call_crosses_the_wire demo_message demo_endpoint 1000 7 1 "add" [("by", VInt 2)] 40%Z (RespResult (VInt 1) (VInt 42)) 42%Z);
      [fit|vm_compute; discriminate|vm_compute; reflexivity|intros obj [= <-]; fit].
  - apply (call_crosses_the_wire demo_message demo_endpoint 1000 7 1 "add" [("by", VInt (-1))] 40%Z (RespError (VInt 1) "invalid" (VInt (-1))) 40%Z);
      [fit|vm_compute; discriminate|vm_compute; reflexivity|intros obj [= <-]; fit].
Defined.
