(* ===== verification/Lines.v ===== *)
(** * Files of lines

    [str.splitlines] on a file of complete lines gives back the lines, as long as nothing
    inside them counts as a line end. *)
From S2P Require Import Prelude PyVal Schema Canonical Json Bundle.
From Stdlib Require Import Ascii.

(** No position of [s] starts a line boundary. *)
Fixpoint breakless (s : string) : bool :=
  match line_break s with
  | Some _ => false
  | None => match s with EmptyString => true | String _ s' => breakless s' end
  end.
Definition lines (l : list string) : string := foldr String.append EmptyString (map (λ s, s +:+ newline) l).

Definition line_break_at (c : ascii) (s : string) : option string :=
  if Ascii.eqb c "013" then Some (match s with String "010"%char r => r | _ => s end)
  else if Ascii.eqb c "194" then match s with String "133"%char r => Some r | _ => None end
  else if Ascii.eqb c "226" then match s with String "128"%char (String e r) => if Ascii.eqb e "168" || Ascii.eqb e "169" then Some r else None | _ => None end
  else let n := nat_of_ascii c in if ((10 <=? n) && (n <=? 13) || (28 <=? n) && (n <=? 30))%nat then Some s else None.
Lemma line_break_cases c s : line_break (String c s) = line_break_at c s.
Proof.
  destruct c as [[] [] [] [] [] [] [] []]; try reflexivity; destruct s as [|[[] [] [] [] [] [] [] []] s]; try reflexivity; by destruct s.
Qed.
Lemma line_break_app c s t : line_break (String c s) = None → line_break (String c (s +:+ newline +:+ t)) = None.
Proof.
  rewrite !line_break_cases. unfold line_break_at. destruct (Ascii.eqb c "013"); [done|].
  destruct (Ascii.eqb c "194"); [destruct s as [|[[] [] [] [] [] [] [] []] s]; done|].
  destruct (Ascii.eqb c "226"); [|by destruct (_ || _)].
  destruct s as [|[[] [] [] [] [] [] [] []] s]; try done. destruct s as [|e s]; [done|].
  change (String "128" (String e s) +:+ newline +:+ t) with (String "128" (String e (s +:+ newline +:+ t))). cbn iota beta.
  by destruct (Ascii.eqb e "168" || Ascii.eqb e "169").
Qed.
Lemma printable_breakless s : printable s = true → breakless s = true.
Proof.
  induction s as [|c s IH]; [done|]. cbn [printable all_chars]. unfold printable. cbn [all_chars]. intros [Hc Hs]%andb_prop.
  cbn [breakless]. rewrite line_break_cases. rewrite IH by done. unfold line_break_at. by destruct c as [[] [] [] [] [] [] [] []].
Qed.

Lemma splitlines_line f cur s t : breakless s = true → String.length s < f →
  splitlines_from f cur (s +:+ newline +:+ t) = (cur +:+ s) :: splitlines_from (f - S (String.length s)) EmptyString t.
Proof.
  revert f cur. induction s as [|c s IH]; intros f cur Hb Hf; destruct f as [|f]; try lia.
  - cbn [String.length]. rewrite string_app_nil, Nat.sub_succ, Nat.sub_0_r. by destruct t.
  - cbn [String.length] in *. cbn [breakless] in Hb. destruct (line_break (String c s)) eqn:E; [done|].
    apply (line_break_app _ _ t) in E. change (String c s +:+ newline +:+ t) with (String c (s +:+ newline +:+ t)). cbn [splitlines_from]. rewrite E.
    rewrite IH by (done || lia). rewrite Nat.sub_succ. f_equal. by rewrite string_app_assoc.
Qed.
Lemma splitlines_lines_from l : Forall (λ s, breakless s = true) l → ∀ f, String.length (lines l) < f → splitlines_from f EmptyString (lines l) = l.
Proof.
  induction 1 as [|s l Hs Hl IH]; intros f Hf; [by destruct f|]. change (lines (s :: l)) with ((s +:+ newline) +:+ lines l) in *.
  rewrite string_app_assoc in *. rewrite !string_length_app in Hf. cbn in Hf. rewrite splitlines_line by (done || lia). cbn. f_equal. apply IH. lia.
Qed.
Lemma splitlines_lines l : Forall (λ s, breakless s = true) l → splitlines (lines l) = l.
Proof. intros H. apply splitlines_lines_from; [done|lia]. Qed.
Lemma lines_snoc l s : lines l +:+ s +:+ newline = lines (l ++ [s]).
Proof.
  induction l as [|x l IH]; [change (s +:+ newline = (s +:+ newline) +:+ EmptyString); by rewrite string_app_nil|].
  change (lines (x :: l)) with ((x +:+ newline) +:+ lines l). rewrite string_app_assoc, IH. done.
Qed.
