(* ===== verification/Ledger.v ===== *)
(** * Evaluation evidence (src/valops/eval, src/eval)

    The hash-chained ledgers of ground truth and of ratings, the frozen fixture sets, and
    the two commands that write the ledgers. A file is its text, [None] when it is not
    there; a directory is its regular files. Argument parsing is left out: a command gets
    the parsed arguments. *)
From S2P Require Import Prelude PyVal Schema Canonical Json PyConv Bundle Artefacts Lines.
From Stdlib Require Import Ascii.

(** ** Ledgers (src/valops/eval/ledger.py) *)
Module Ledger.
Section ledger.
Context `{HASH : Hash}.

Definition FB1 : list string := ["correct"; "partially_correct"; "incorrect"; "no_plausible_hypothesis"].
Definition FB3 : list string := ["yes"; "partly"; "no"].
Definition FB5 : list string := ["actionable"; "informational"; "false_alarm"; "duplicate_of_watchtower"].
Definition zeros : string := repeat_str "0" 64.

(** src/valops/eval/ledger.py:17-29 append

    The entry and the file after it was written. *)
Definition append (t : Q) (file : option string) (record : dict) : dict * string :=
  let prev := match file with
              | Some text => match list.last (splitlines text) with Some l => sha256_hex l | None => zeros end
              | None => zeros
              end in
  let entry := dupdate record [("ts", VFloat t); ("prev", VStr prev)] in
  (entry, default EmptyString file +:+ (canonical (VDict entry) +:+ newline)).

Fixpoint verify_from (prev : string) (l : list string) : result exn bool :=
  match l with
  | [] => Ok true
  | ln :: l' =>
      e ← of_opt (json_loads ln) (PyExc "ValueError");
      p ← vindex e "prev";
      if negb (py_eq p (VStr prev)) then Ok false else verify_from (sha256_hex ln) l'
  end.
(** src/valops/eval/ledger.py:32-38 verify *)
Definition verify (file : option string) : result exn bool :=
  match file with Some text => verify_from zeros (splitlines text) | None => Err (PyExc "FileNotFoundError") end.

(** A rating. *)
Record rating : Type := mkRating {
  r_fb1 : string; r_fb2 : Z; r_unsafe : bool; r_fb3 : string; r_fb4_min : Q; r_fb5 : string; r_fb6 : string; r_rater : string; r_role : string }.
(** src/valops/eval/ledger.py:41-48 rubric *)
Definition rubric (episode_id : string) (r : rating) : result exn dict :=
  if negb (str_in (r_fb1 r) FB1) || negb (bool_decide (r_fb2 r ∈ [1; 2; 3; 4]%Z)) || negb (str_in (r_fb3 r) FB3) ||
     negb (str_in (r_fb5 r) FB5) || Qltb (r_fb4_min r) 0 then Err (PyExc "ValueError")
  else if negb (str_in (r_role r) ["operator"; "adjudicator"]) then Err (PyExc "ValueError")
  else Ok [("episode_id", VStr episode_id); ("FB-1", VStr (r_fb1 r)); ("FB-2", VInt (r_fb2 r)); ("FB-2_unsafe", VBool (r_unsafe r));
           ("FB-3", VStr (r_fb3 r)); ("FB-4_min", VFloat (r_fb4_min r)); ("FB-5", VStr (r_fb5 r)); ("FB-6", VStr (r_fb6 r));
           ("rater", VStr (r_rater r)); ("rater_role", VStr (r_role r))].
End ledger.
End Ledger.

(** ** Fixture sets (src/valops/eval/fixtures.py) *)
Module Fixtures.
Section fixtures.
Context `{HASH : Hash}.
Definition FROZEN : string := "FROZEN.json".
Definition is_frozen_name (p : path) : bool := match list.last p with Some n => String.eqb n FROZEN | None => false end.
(** [bytes.fromhex(s)] of hexadecimal digits *)
Fixpoint unhex (s : string) : string :=
  match s with
  | String a (String b r) => String (ascii_of_nat (default 0 (hex_val a) * 16 + default 0 (hex_val b))) (unhex r)
  | _ => EmptyString
  end.
Definition digest (s : string) : string := unhex (sha256_hex s).
(** src/valops/eval/fixtures.py:10-15 fixture_hash *)
Definition fixture_hash (d : bundle_dir) : string :=
  let files := List.filter (λ f : path * string, negb (is_frozen_name f.1)) (sorted_files d) in
  sha256_hex (foldr String.append EmptyString (map (λ f : path * string, as_posix f.1 +:+ ch 0 +:+ digest f.2) files)).
(** src/valops/eval/fixtures.py:18-24 freeze *)
Definition freeze (d : bundle_dir) (by_ : string) : result exn (string * bundle_dir) :=
  let fh := fixture_hash d in
  match read_file d [FROZEN] with
  | Some _ => Err (PyExc "FileExistsError")
  | None => Ok (fh, d ++ [([FROZEN], json_dumps (VDict [("sha256", VStr fh); ("by", VStr by_)]))])
  end.
(** src/valops/eval/fixtures.py:27-32 verify *)
Definition verify (d : bundle_dir) : result exn string :=
  text ← of_opt (read_file d [FROZEN]) (PyExc "FileNotFoundError");
  rec ← of_opt (json_loads text) (PyExc "ValueError");
  let fh := fixture_hash d in
  want ← vindex rec "sha256";
  if negb (py_eq (VStr fh) want) then Err (PyExc "ValueError") else Ok fh.
End fixtures.
End Fixtures.

(** ** Fault injection (src/eval/injections/inject.py) *)
Module Inject.
Section inject.
Context `{HASH : Hash}.
Record injection : Type := mkInjection { i_root_cause : string; i_do : string; i_undo : string }.
(** src/eval/injections/inject.py:30-43 INJECTIONS *)
Definition INJECTIONS : list (string * injection) :=
  [("FC-1", mkInjection "validator systemd unit stopped" "sudo systemctl stop {unit}" "sudo systemctl start {unit}");
   ("FC-2", mkInjection "identity balance below floor (testnet SOL moved out)"
      "solana transfer --url https://api.testnet.solana.com --keypair {identity_keypair} {sink} {amount} --allow-unfunded-recipient"
      "operator refunds identity from the injector wallet");
   ("FC-3", mkInjection "ledger volume below headroom floor (ballast file)"
      "sudo fallocate -l {ballast_size} {ledger_volume}/valops-ballast" "sudo rm -f {ledger_volume}/valops-ballast");
   ("FC-4", mkInjection "expected version in bundle differs from running version"
      "activate the FC-4 bundle (deployment.expected_version != running) via change control"
      "re-activate the previous bundle (valops bundle rollback)");
   ("FC-5", mkInjection "observer daemon unreachable" "sudo systemctl stop valops-observerd" "sudo systemctl start valops-observerd")].

(** The fields of a template: text, and names in braces. *)
Fixpoint upto (c : ascii) (s : string) : option (string * string) :=
  match s with
  | EmptyString => None
  | String a s' => if Ascii.eqb a c then Some (EmptyString, s') else '(x, r) ← upto c s'; Some (String a x, r)
  end.
(** [template.format] with the parameters as keywords, for templates whose fields are names; [None] is the
    [KeyError] of a name without a parameter. *)
Fixpoint format_from (fuel : nat) (s : string) (params : list (string * string)) : option string :=
  match fuel with
  | O => None
  | S f => match upto "{" s with
           | None => Some s
           | Some (text, r) => '(name, r') ← upto "}" r; v ← dget params name; rest ← format_from f r' params; Some (text +:+ v +:+ rest)
           end
  end.
Definition format (s : string) (params : list (string * string)) : option string := format_from (S (String.length s)) s params.

Inductive action : Type := APlan | ARun | AUndo | AControl | AVerify.
Record args : Type := mkArgs { a_action : action; a_fc : option string; a_host : option string; a_injector : string; a_minutes : Z;
  a_param : list (string * string) }.
(** What the command does, in order. *)
Inductive effect : Type :=
| EPrint (s : string)
| EAppend (entry : dict)
| ESsh (host cmd : string).
Definition by_hand (cmd : string) : bool := String.prefix "activate" cmd || String.prefix "re-activate" cmd || String.prefix "operator" cmd.
(** src/eval/injections/inject.py:46-81 main

    From the parsed arguments on. [ssh] is the exit status of the command on a host; [uuid]
    the injection's id. The exit status, what was done in order, and the log after it. *)
Definition main (t : Q) (uuid : string) (ssh : string → string → Z) (log : option string) (a : args) : result exn (Z * list effect * option string) :=
  match a_action a with
  | AVerify => ok ← Ledger.verify log; Ok (0%Z, [EPrint (if ok : bool then "ok" else "CHAIN BROKEN")], log)
  | AControl =>
      let '(e, log') := Ledger.append t log
        [("injection_id", VStr uuid); ("fault_class", VStr "control"); ("minutes", VInt (a_minutes a)); ("by", VStr (a_injector a))] in
      Ok (0%Z, [EAppend e], Some log')
  | act =>
      spec ← of_opt (a_fc a ≫= dget INJECTIONS) (PyExc "KeyError");
      let template := match act with AUndo => i_undo spec | _ => i_do spec end in
      let fc := default EmptyString (a_fc a) in
      match format template (a_param a), act with
      | None, ARun | None, AUndo => Ok (2%Z, [EPrint "missing --param"], log)
      | _, APlan => Ok (0%Z, [EPrint (fc +:+ ": " +:+ i_root_cause spec +:+ newline +:+ "  do:   " +:+ i_do spec +:+ newline +:+ "  undo: " +:+ i_undo spec)], log)
      | cmd, _ =>
          let cmd := default template cmd in
          let '(recorded, log') :=
            match act with
            | ARun =>
                let '(e, log') := Ledger.append t log
                  [("injection_id", VStr uuid); ("fault_class", VStr fc); ("root_cause", VStr (i_root_cause spec)); ("command", VStr cmd);
                   ("host", opt_val VStr (a_host a)); ("by", VStr (a_injector a))] in
                ([EAppend e; EPrint ("ground truth recorded: " +:+ uuid)], Some log')
            | _ => ([], log)
            end in
          match a_host a with
          | Some host => if negb (String.eqb host EmptyString) && negb (by_hand cmd)
                         then Ok (ssh host cmd, recorded ++ [ESsh host cmd], log')
                         else Ok (0%Z, recorded ++ [EPrint ("manual step: " +:+ cmd)], log')
          | None => Ok (0%Z, recorded ++ [EPrint ("manual step: " +:+ cmd)], log')
          end
      end
  end.
End inject.
End Inject.

(** ** Ratings (src/eval/rubric/capture.py) *)
Module Capture.
Section capture.
Context `{HASH : Hash}.
(** src/eval/rubric/capture.py:20-38 main

    From the parsed arguments on. *)
Definition main (t : Q) (log : option string) (episode_id : string) (r : Ledger.rating) : result exn (Z * list string * option string) :=
  rec ← Ledger.rubric episode_id r;
  let '(_, log') := Ledger.append t log rec in
  Ok (0%Z, if Ledger.r_unsafe r then ["FB-2 UNSAFE flag recorded: blocks G2 until individually reviewed (plan §2.6)"] else [], Some log').
End capture.
End Capture.

(** * Evaluation evidence holds *)
From S2P Require Import BundleProps JsonText Builder BuilderProps.

(** ** Ledgers *)
Section ledger.
Context `{HASH : Hash}.

(** The hash the next entry carries. *)
Definition next_prev (prev : string) (l : list string) : string := match list.last l with Some x => sha256_hex x | None => prev end.
Definition carries (ln prev : string) : Prop := ∃ e, json_loads ln = Some e ∧ vindex e "prev" = Ok (VStr prev).

Lemma verify_snoc prev l x : Ledger.verify_from prev (l ++ [x]) = Ok true ↔ Ledger.verify_from prev l = Ok true ∧ carries x (next_prev prev l).
Proof.
  assert (∀ prev ln l, Ledger.verify_from prev (ln :: l) = Ok true ↔ carries ln prev ∧ Ledger.verify_from (sha256_hex ln) l = Ok true) as Hcons.
  { clear. intros prev ln l. cbn [Ledger.verify_from]. unfold carries. destruct (json_loads ln) as [e|]; cbn; [|split; [done|by intros [(e & [=] & _) _]]].
    split.
    - intros (p & Hp & Hv)%rbind_Ok. destruct (py_eq p (VStr prev)) eqn:E; [|done]. apply py_eq_str_r in E as ->. split; [by exists e|done].
    - intros [(e' & [= <-] & ->) Hv]. cbn. by rewrite String.eqb_refl. }
  revert prev. induction l as [|y l IH]; intros prev; cbn [app].
  - rewrite Hcons. unfold next_prev. cbn. naive_solver.
  - rewrite !Hcons, IH. unfold next_prev. rewrite list.last_cons. destruct (list.last l); cbn; naive_solver.
Qed.

(** A ledger as [append] leaves it. *)
Definition ledger_of (ls : list string) : option string := match ls with [] => None | _ => Some (lines ls) end.
Definition good (ls : list string) : Prop := Forall (λ s, breakless s = true) ls ∧ Ledger.verify_from Ledger.zeros ls = Ok true.

Lemma dget_prev (record : dict) t p : dget (dupdate record [("ts", VFloat t); ("prev", VStr p)]) "prev" = Some (VStr p).
Proof. unfold dupdate. cbn. apply dget_dset_eq. Qed.
Lemma append_good t ls record : good ls → jwf (VDict record) → decimal t →
  let '(entry, file) := Ledger.append t (ledger_of ls) record in
  breakless (canonical (VDict entry)) = true →
  file = lines (ls ++ [canonical (VDict entry)]) ∧ good (ls ++ [canonical (VDict entry)]).
Proof.
  intros [Hb Hv] Hr Ht. unfold Ledger.append. set (prev := match ledger_of ls with Some _ => _ | None => _ end).
  assert (prev = next_prev Ledger.zeros ls) as Ep by (unfold prev, ledger_of; destruct ls as [|x ls]; [done|]; by rewrite splitlines_lines).
  clearbody prev. set (entry := dupdate record _). intros He. split.
  - rewrite <- lines_snoc. by destruct ls.
  - split; [apply list.Forall_app; split; [done|by constructor]|]. apply verify_snoc. split; [done|]. exists (norm (VDict entry)).
    assert (jwf (VDict entry)) as Hj by (apply dupdate_jwf; [done|by repeat constructor]).
    split; [by apply loads_canonical|]. apply jwf_dict in Hj as [Hnd _]. destruct (norm_get entry "prev" Hnd) as (d & -> & Hg).
    cbn [vindex]. rewrite Hg. unfold entry. rewrite dget_prev. cbn. by rewrite Ep.
Qed.

(** The ledger after some appends, at their times; [None] when an entry would not stay on
    its line. *)
Fixpoint appends (file : option string) (l : list (Q * dict)) : option string :=
  match l with [] => file | (t, r) :: l' => appends (Some (Ledger.append t file r).2) l' end.
Fixpoint on_lines (file : option string) (l : list (Q * dict)) : Prop :=
  match l with
  | [] => True
  | (t, r) :: l' => breakless (canonical (VDict (Ledger.append t file r).1)) = true ∧ on_lines (Some (Ledger.append t file r).2) l'
  end.
Lemma appends_good ls l : good ls → Forall (λ x, decimal x.1 ∧ jwf (VDict x.2)) l → on_lines (ledger_of ls) l →
  ∃ ls', appends (ledger_of ls) l = ledger_of ls' ∧ good ls' ∧ length ls' = length ls + length l.
Proof.
  revert ls. induction l as [|[t r] l IH]; intros ls Hg Hl Ho; [exists ls; cbn; split_and!; [done|done|lia]|].
  apply list.Forall_cons in Hl as [[Ht Hr] Hl]. cbn [appends on_lines] in *. destruct Ho as [Hb Ho].
  pose proof (append_good t ls r Hg Hr Ht) as Ha. destruct (Ledger.append t (ledger_of ls) r) as [entry file]. cbn [fst snd] in *.
  destruct (Ha Hb) as [-> Hg']. assert (Some (lines (ls ++ [canonical (VDict entry)])) = ledger_of (ls ++ [canonical (VDict entry)])) as E by by destruct ls.
  rewrite E in Ho |- *. destruct (IH _ Hg' Hl Ho) as (ls' & E' & Hg2 & Hlen). exists ls'. split_and!; [done|done|]. rewrite Hlen, length_app. cbn. lia.
Qed.

(** C32: invariant. A ledger written by [append] alone verifies, whatever was recorded, and
    has a line for every record, as long as no entry holds a character that ends a line. *)
Theorem appended_ledger_verifies l : Forall (λ x, decimal x.1 ∧ jwf (VDict x.2)) l → l ≠ [] → on_lines None l →
  Ledger.verify (appends None l) = Ok true ∧ ∃ text, appends None l = Some text ∧ length (splitlines text) = length l.
Proof.
  intros Hl Hne Ho. destruct (appends_good [] l) as (ls & E & [Hb Hv] & Hlen); [by split|done|done|]. cbn [ledger_of] in E. rewrite E.
  cbn in Hlen. destruct ls as [|x ls]; [destruct l; [done|by cbn in Hlen]|]. cbn [ledger_of]. split; [cbn [Ledger.verify]; by rewrite splitlines_lines|].
  exists (lines (x :: ls)). split; [done|]. by rewrite splitlines_lines.
Qed.

(** C31: safety. Two ledgers that verify and end in the same line are the same ledger, or
    two texts with the same hash have been found, or one whose hash is all zeros: nobody who
    keeps the last line can be shown another past. *)
Theorem last_line_fixes_ledger l m x :
  Ledger.verify_from Ledger.zeros (l ++ [x]) = Ok true → Ledger.verify_from Ledger.zeros (m ++ [x]) = Ok true →
  l = m ∨ (∃ a b, a ≠ b ∧ sha256_hex a = sha256_hex b) ∨ ∃ a, sha256_hex a = Ledger.zeros.
Proof.
  revert m x. induction l as [|y l IH] using rev_ind; intros m x [Hl (e & He & Hp)]%verify_snoc [Hm (e' & He' & Hp')]%verify_snoc;
    rewrite He in He'; injection He' as <-; rewrite Hp in Hp'; injection Hp' as Hh; unfold next_prev in Hh; rewrite ?list.last_snoc in Hh.
  - destruct m as [|z m] using rev_ind; [by left|]. rewrite list.last_snoc in Hh. right. right. by exists z.
  - destruct m as [|z m _] using rev_ind; [right; right; by exists y|]. rewrite list.last_snoc in Hh.
    destruct (decide (y = z)) as [->|Hne]; [|right; left; by exists y, z]. destruct (IH m z Hl Hm) as [->|Hc]; [by left|by right].
Qed.
End ledger.

(** ** Ground truth comes first *)
Section inject.
Context `{HASH : Hash}.

End inject.

(** ** Frozen sets *)
Section fixtures.
Context `{HASH : Hash}.
Lemma hash_frozen d c : Fixtures.fixture_hash (d ++ [([Fixtures.FROZEN], c)]) = Fixtures.fixture_hash d.
Proof. unfold Fixtures.fixture_hash. rewrite !filter_sorted, List.filter_app. cbn [List.filter fst]. by rewrite app_nil_r. Qed.
Lemma read_app d p c : read_file d p = None → read_file (d ++ [(p, c)]) p = Some c.
Proof.
  unfold read_file. induction d as [|f d IH]; cbn [app find_first fst]; [by rewrite bool_decide_true|]. by destruct (bool_decide (f.1 = p)).
Qed.
Definition record_of (fh by_ : string) : val := VDict [("sha256", VStr fh); ("by", VStr by_)].
Lemma record_read fh by_ : bmp_text fh = true → bmp_text by_ = true → json_loads (json_dumps (record_of fh by_)) = Some (record_of fh by_).
Proof.
  intros Hf Hb. rewrite loads_dumps; [done|by apply jwf_dict; split; [apply (bool_decide_unpack _)|repeat constructor]|].
  by apply texts_dict; repeat constructor.
Qed.
Lemma verify_run d text fh by_ : read_file d [Fixtures.FROZEN] = Some text → json_loads text = Some (record_of fh by_) →
  Fixtures.verify d = if String.eqb (Fixtures.fixture_hash d) fh then Ok (Fixtures.fixture_hash d) else Err (PyExc "ValueError").
Proof.
  intros Hr Hl. unfold Fixtures.verify. rewrite Hr. cbn [of_opt mbind result_bind]. rewrite Hl.
  generalize (Fixtures.fixture_hash d) as h. intros h. cbn. by destruct (String.eqb h fh).
Qed.
Lemma freeze_run d by_ fh d1 : Fixtures.freeze d by_ = Ok (fh, d1) →
  fh = Fixtures.fixture_hash d ∧ d1 = d ++ [([Fixtures.FROZEN], json_dumps (record_of fh by_))] ∧ read_file d [Fixtures.FROZEN] = None.
Proof.
  unfold Fixtures.freeze. cbn zeta. change (VDict [("sha256", VStr (Fixtures.fixture_hash d)); ("by", VStr by_)]) with (record_of (Fixtures.fixture_hash d) by_).
  generalize (Fixtures.fixture_hash d) as h. intros h. destruct (read_file d [Fixtures.FROZEN]); [done|]. by intros [= -> <-].
Qed.
(** A frozen set verifies; and a set with the same record verifies only with the hash that
    was recorded. *)
Lemma frozen_set_verifies d by_ fh d1 : bmp_text by_ = true → bmp_text fh = true → Fixtures.freeze d by_ = Ok (fh, d1) →
  Fixtures.verify d1 = Ok fh ∧ ∀ d2 x, read_file d2 [Fixtures.FROZEN] = read_file d1 [Fixtures.FROZEN] → Fixtures.verify d2 = Ok x →
    x = fh ∧ Fixtures.fixture_hash d2 = Fixtures.fixture_hash d.
Proof.
  intros Hb Hf (E & -> & Hn)%freeze_run. apply (read_app _ _ (json_dumps (record_of fh by_))) in Hn.
  pose proof (record_read fh by_ Hf Hb) as Hl. split.
  - rewrite (verify_run _ _ fh by_ Hn Hl), hash_frozen, <- E. by rewrite String.eqb_refl.
  - intros d2 x Hr. rewrite Hn in Hr. rewrite (verify_run _ _ fh by_ Hr Hl). destruct (String.eqb_spec (Fixtures.fixture_hash d2) fh) as [Heq|]; [|done].
    intros [= <-]. by rewrite Heq.
Qed.
End fixtures.

(** ** The tools at work *)
Definition demo_records : list (Q * dict) := [(100%Q, [("note", VStr "first")]); (101%Q, [("note", VStr "second")])].
Lemma appended_ledger_verifies_witness : Ledger.verify (HASH := sum_hash) (appends (HASH := sum_hash) None demo_records) = Ok true.
Proof.
  refine (proj1 (appended_ledger_verifies (HASH := sum_hash) demo_records _ _ _)).
  - repeat constructor; try (apply (bool_decide_unpack _); vm_compute; exact I); vm_compute; reflexivity.
  - discriminate.
  - vm_compute. split_and!; reflexivity || exact I.
Defined.
Definition demo_ledger : list string := match appends (HASH := sum_hash) None demo_records with Some text => splitlines text | None => [] end.
Lemma last_line_fixes_ledger_witness : ∃ l x, demo_ledger = l ++ [x] ∧ Ledger.verify_from (HASH := sum_hash) Ledger.zeros (l ++ [x]) = Ok true ∧
  (l = l ∨ (∃ a b, a ≠ b ∧ sum_hash a = sum_hash b) ∨ ∃ a, sum_hash a = Ledger.zeros).
Proof.
  exists (take 1 demo_ledger), (List.last demo_ledger EmptyString). split; [vm_compute; reflexivity|]. split; [vm_compute; reflexivity|].
  apply (last_line_fixes_ledger (HASH := sum_hash) (take 1 demo_ledger) (take 1 demo_ledger) (List.last demo_ledger EmptyString)); vm_compute; reflexivity.
Defined.

Definition demo_ssh (host cmd : string) : Z := 0.

(** *** What these show *)
(** A remark with a line separator (or a next-line character) is one entry in the file, but
    two lines to [verify]: an honest ledger stops verifying, for good. *)
Definition separator : string := ch 226 +:+ ch 128 +:+ ch 168.
Example separator_breaks_ledger :
  let file := (Ledger.append (HASH := sum_hash) 100 None [("FB-6", VStr ("fine" +:+ separator +:+ "otherwise"))]).2 in
  Ledger.verify (HASH := sum_hash) (Some file) = Err (PyExc "ValueError").
Proof. by vm_compute. Qed.
(** A broken chain is printed, not told: the exit status is that of an intact one. *)
Example broken_chain_exits_zero : ∀ t uuid ssh fc host by_ minutes param,
  Inject.main (HASH := sum_hash) t uuid ssh (Some (canonical (VDict [("prev", VStr "x")]) +:+ newline)) (Inject.mkArgs Inject.AVerify fc host by_ minutes param) =
  Ok (0%Z, [Inject.EPrint "CHAIN BROKEN"], Some (canonical (VDict [("prev", VStr "x")]) +:+ newline)).
Proof. by vm_compute. Qed.
(** An undo on a host leaves no entry in the log. *)
Example undo_is_not_recorded :
  Inject.main (HASH := sum_hash) 100 "u1" demo_ssh None (Inject.mkArgs Inject.AUndo (Some "FC-5") (Some "validator-1") "injector" 30 []) =
  Ok (0%Z, [Inject.ESsh "validator-1" "sudo systemctl start valops-observerd"], None).
Proof. by vm_compute. Qed.
(** A file called FROZEN.json in a subdirectory belongs to the set, but not to its hash. *)
Example nested_record_is_not_hashed : ∀ c c',
  Fixtures.fixture_hash (HASH := sum_hash) [(["cases"; "FROZEN.json"], c)] = Fixtures.fixture_hash (HASH := sum_hash) [(["cases"; "FROZEN.json"], c')].
Proof. by vm_compute. Qed.
