(* ===== verification/Stats.v ===== *)
(** * The model-quality gate (src/valops/eval/stats.py)

    In the machine's floats, rounding included: [spec_float] with 53 bits is IEEE 754's
    binary64. Counts are taken below [2 ^ 53], which a float holds exactly. The quantile of
    the normal distribution is the argument [inv_cdf]. *)
From S2P Require Import Prelude PyVal.
From Stdlib Require Import SpecFloat ZArith.

(** ** Floats *)
Definition of_int (n : Z) : spec_float := binary_normalize 53 1024 n 0 false.
Definition fadd : spec_float → spec_float → spec_float := SFadd 53 1024.
Definition fsub : spec_float → spec_float → spec_float := SFsub 53 1024.
Definition fmul : spec_float → spec_float → spec_float := SFmul 53 1024.
(** Division by zero and the root of a negative number raise. *)
Definition fdiv (x y : spec_float) : result exn spec_float :=
  if SFeqb y (S754_zero false) then Err (PyExc "ZeroDivisionError") else Ok (SFdiv 53 1024 x y).
Definition fsqrt (x : spec_float) : result exn spec_float :=
  if SFltb x (S754_zero false) then Err (PyExc "ValueError") else Ok (SFsqrt 53 1024 x).
(** [max(x, y)] and [min(x, y)] give their first argument unless the second is beyond it. *)
Definition fmax (x y : spec_float) : spec_float := if SFltb x y then y else x.
Definition fmin (x y : spec_float) : spec_float := if SFltb y x then y else x.
Definition zero : spec_float := S754_zero false.
Definition one : spec_float := of_int 1.

Section stats.
Context (inv_cdf : spec_float → result exn spec_float).

(** src/valops/eval/stats.py:9-17 wilson *)
Definition wilson (k n : Z) (confidence : spec_float) : result exn (spec_float * spec_float) :=
  if (n =? 0)%Z then Ok (zero, one)
  else
    tail ← fdiv (fsub one confidence) (of_int 2);
    z ← inv_cdf (fsub one tail);
    p ← fdiv (of_int k) (of_int n);
    zn ← fdiv (fmul z z) (of_int n);
    let denom := fadd one zn in
    z2n ← fdiv (fmul z z) (of_int (2 * n));
    centre ← fdiv (fadd p z2n) denom;
    pn ← fdiv (fmul p (fsub one p)) (of_int n);
    z4n ← fdiv (fmul z z) (of_int (4 * n * n));
    root ← fsqrt (fadd pn z4n);
    half ← fdiv (fmul z root) denom;
    Ok (fmax zero (fsub centre half), fmin one (fadd centre half)).

Record gate_result : Type := mkGate {
  g_point : option spec_float; g_lcb : spec_float; g_ucb : spec_float; g_target : spec_float; g_pass : bool }.
(** src/valops/eval/stats.py:20-22 gate *)
Definition gate (k n : Z) (target confidence : spec_float) : result exn gate_result :=
  '(lo, hi) ← wilson k n confidence;
  point ← (if (n =? 0)%Z then Ok None else Some <$> fdiv (of_int k) (of_int n));
  Ok (mkGate point lo hi target (SFleb target lo)).

(** The bounds stay within 0 and 1 whatever the numbers, and a gate passes on the lower one. *)
Lemma gate_bounds k n target confidence g : gate k n target confidence = Ok g →
  (g_lcb g = zero ∨ SFltb zero (g_lcb g) = true) ∧ (g_ucb g = one ∨ SFltb (g_ucb g) one = true) ∧
  g_pass g = SFleb target (g_lcb g) ∧ (n = 0%Z → g_lcb g = zero ∧ g_point g = None).
Proof.
  unfold gate. intros ([lo hi] & Hw & H)%rbind_Ok. apply rbind_Ok in H as (point & Hp & [= <-]). cbn [g_lcb g_ucb g_pass g_point].
  assert ((lo = zero ∨ SFltb zero lo = true) ∧ (hi = one ∨ SFltb hi one = true) ∧ (n = 0%Z → lo = zero)) as (Hlo & Hhi & H0).
  { unfold wilson in Hw. destruct (Z.eqb_spec n 0) as [->|Hn]; [by injection Hw as <- <-; auto|].
    do 10 (apply rbind_Ok in Hw as (? & _ & Hw)). injection Hw as <- <-. unfold fmax, fmin.
    split_and!; [| |done]; by destruct (SFltb _ _) eqn:E; auto. }
  split_and!; try done. intros ->. split; [by apply H0|]. by injection Hp as <-.
Qed.
End stats.

(** ** The interval of floats may miss the estimate

    At the quantile of 95% the interval of thirteen out of thirteen ends below 1, and that
    of none out of five begins above 0. *)
Definition z95 : spec_float := S754_finite false 8826893070434178 (-52).
Definition confidence95 : spec_float := S754_finite false 8556839292003942 (-53).
Definition wilson95 (k n : Z) : result exn (spec_float * spec_float) := wilson (λ _, Ok z95) k n confidence95.
Example nine_of_ten : wilson95 9 10 = Ok (S754_finite false 5366939434587369 (-53), S754_finite false 8846184641473459 (-53)).
Proof. vm_compute. reflexivity. Qed.
Example interval_misses_estimate :
  (fdiv (of_int 13) (of_int 13) = Ok one ∧ (λ w, SFltb w.2 one) <$> wilson95 13 13 = Ok true) ∧
  (fdiv (of_int 0) (of_int 5) = Ok zero ∧ (λ w, SFltb zero w.1) <$> wilson95 0 5 = Ok true).
Proof. split; split; vm_compute; reflexivity. Qed.
(** Nine of ten pass a gate at one half; nothing passes on no sample. *)
Definition half : spec_float := S754_finite false 4503599627370496 (-53).
Example gate_decides :
  (g_pass <$> gate (λ _, Ok z95) 9 10 half confidence95) = Ok true ∧
  (g_pass <$> gate (λ _, Ok z95) 0 0 half confidence95) = Ok false.
Proof. split; vm_compute; reflexivity. Qed.
