(* ===== verification/Anchor.v ===== *)
(** * External anchor stores (src/valops/audit/anchor.py)

    The store in a file, and what a bucket is asked to keep. The object storage is a
    service: the bodies it gives back are an argument, and the retention date it is asked
    for, which is the clock's, is left out. *)
From S2P Require Import ModelBroker Prelude PyVal Schema Canonical Json PyConv Artefacts JsonText Bundle Lines.
From Stdlib Require Import Ascii.

(** ** A file *)
(** src/valops/audit/anchor.py:26-31 FileAnchorStore.put *)
Definition file_put (file : option string) (anchor : val) : option string := Some (default EmptyString file +:+ (json_sorted anchor +:+ newline)).
(** src/valops/audit/anchor.py:33-36 FileAnchorStore.list *)
Definition file_list (file : option string) : result exn (list val) :=
  match file with
  | None => Ok []
  | Some text => mapR (λ x, of_opt (json_loads x) (PyExc "ValueError")) (List.filter (λ x, negb (is_blank x)) (splitlines text))
  end.

(** ** A bucket *)
(** [f"{z:020d}"] *)
Definition padded (z : Z) : string :=
  let digits := print_N (Z.abs_N z) in
  if (z <? 0)%Z then "-" +:+ repeat_str "0" (19 - String.length digits) +:+ digits else repeat_str "0" (20 - String.length digits) +:+ digits.
(** src/valops/audit/anchor.py:39-49 S3AnchorStore *)
Record S3AnchorStore : Type := mkS3 { s3_bucket : string; s3_prefix : string; s3_retention_days : Z }.
Definition new_s3 (bucket prefix : string) (retention_days : Z) : S3AnchorStore := mkS3 bucket (rstrip_slash prefix) retention_days.
(** What the bucket is asked to keep. *)
Record put_request : Type := mkPut { p_bucket : string; p_key : string; p_body : string; p_mode : string; p_days : Z }.
(** src/valops/audit/anchor.py:51-60 S3AnchorStore.put *)
Definition s3_put (st : S3AnchorStore) (anchor : val) : result exn put_request :=
  seq ← vindex anchor "seq"; ts_ms ← vindex anchor "ts_ms";
  match seq with
  | VInt z => Ok (mkPut (s3_bucket st) (s3_prefix st +:+ "/" +:+ padded z +:+ "-" +:+ py_str ts_ms +:+ ".json") (json_sorted anchor) "COMPLIANCE" (s3_retention_days st))
  | VBool b => Ok (mkPut (s3_bucket st) (s3_prefix st +:+ "/" +:+ padded (if b then 1 else 0) +:+ "-" +:+ py_str ts_ms +:+ ".json") (json_sorted anchor) "COMPLIANCE"
                     (s3_retention_days st))
  | _ => Err (PyExc "ValueError")
  end.
(** src/valops/audit/anchor.py:62-69 S3AnchorStore.list

    [bodies]: of the objects under the prefix, as the service lists them. *)
Definition s3_list (bodies : list string) : result exn (list val) := mapR (λ x, of_opt (json_loads x) (PyExc "ValueError")) bodies.

Inductive store : Type :=
| FileStore (path : val)
| S3Store (st : S3AnchorStore) (region reader_profile : val).
(** src/valops/audit/anchor.py:72-79 from_config

    A prefix that is no string has no [rstrip]. *)
Definition from_config (cfg : dict) : result exn store :=
  let kind := default (VStr "file") (dget cfg "kind") in
  if py_eq kind (VStr "file") then p ← vindex (VDict cfg) "path"; Ok (FileStore p)
  else if py_eq kind (VStr "s3") then
    bucket ← vindex (VDict cfg) "bucket";
    days ← vindex (VDict cfg) "retention_days"; days ← py_int days;
    prefix ← of_opt (as_str (default (VStr "valops-anchors") (dget cfg "prefix"))) (PyExc "AttributeError");
    Ok (S3Store (new_s3 (py_str bucket) prefix days) (dget_none cfg "region") (dget_none cfg "reader_profile"))
  else Err (PyExc "ValueError").

(** ** What was put is what is listed *)
Definition put_all (l : list val) : option string := fold_left file_put l None.
Lemma put_all_lines l : l ≠ [] → put_all l = Some (lines (map json_sorted l)).
Proof.
  unfold put_all. induction l as [|v l IH] using rev_ind; [done|]. intros _. rewrite fold_left_app, map_app. cbn [fold_left map].
  rewrite <- lines_snoc. destruct l as [|w l]; [done|]. by rewrite IH.
Qed.
Lemma sorted_not_blank d : is_blank (json_sorted (VDict d)) = false.
Proof. done. Qed.
(** C30: roundtrip. Whatever anchors are put into the file store, whatever their texts (line
    separators and all of the basic plane included), its list gives them back, all of them,
    in order, with their keys sorted. *)
Theorem anchors_read_back l : Forall (λ d, jwf (VDict d) ∧ plain (VDict d)) l →
  file_list (put_all (map VDict l)) = Ok (map (λ d, norm (VDict d)) l).
Proof.
  intros Hl. destruct l as [|d l]; [done|]. rewrite put_all_lines by done. unfold file_list. rewrite splitlines_lines.
  2: { rewrite map_map. apply List.Forall_map. apply list.Forall_forall. intros x _. apply printable_breakless, sorted_printable. }
  revert Hl. generalize (d :: l) as k. clear. induction k as [|d k IH]; [done|]. intros [[Hw Hp] Hk]%list.Forall_cons.
  cbn [map List.filter]. rewrite sorted_not_blank. cbn [negb mapR map]. rewrite (loads_sorted _ Hw Hp). cbn [of_opt mbind result_bind].
  by rewrite IH.
Qed.

(** ** No object overwrites another *)
Lemma repeat_digits n : all_digits (repeat_str "0" n) = true.
Proof. by induction n. Qed.
Lemma span_dash a b r r' : all_digits a = true → all_digits b = true → a +:+ String "-" r = b +:+ String "-" r' → a = b ∧ r = r'.
Proof.
  revert b. induction a as [|c a IH]; intros [|d b] Ha Hb E; cbn in E.
  - by injection E as ->.
  - injection E as <- _. done.
  - injection E as -> _. done.
  - injection E as -> E. cbn in Ha, Hb. apply andb_prop in Ha as [_ Ha], Hb as [_ Hb]. by destruct (IH b Ha Hb E) as [-> ->].
Qed.
Lemma print_N_all_digits n : all_digits (print_N n) = true.
Proof. pose proof (print_N_digits n) as H. unfold digits_N in H. destruct (print_N n) eqn:E; [done|]. by apply digits_acc_all in H. Qed.
Lemma all_digits_app a b : all_digits (a +:+ b) = all_digits a && all_digits b.
Proof. unfold all_digits. induction a as [|c a IH]; [done|]. change (String c a +:+ b) with (String c (a +:+ b)). cbn [all_chars]. by rewrite IH, andb_assoc. Qed.
Lemma padded_value n : digits_N (padded (Z.of_N n)) = Some n ∧ all_digits (padded (Z.of_N n)) = true.
Proof.
  unfold padded. rewrite (proj2 (Z.ltb_ge _ _)) by lia. rewrite Zabs2N.abs_N_nonneg, N2Z.id by lia.
  assert (∀ k, digits_N (repeat_str "0" k +:+ print_N n) = Some n) as Hv.
  { intros k. assert (∀ s, digits_N s = Some n → digits_N (String "0" s) = Some n) as Hz by (by intros [|c s]).
    induction k as [|k IH]; [apply print_N_digits|]. cbn [repeat_str]. rewrite string_app_assoc. by apply Hz. }
  split; [apply Hv|]. by rewrite all_digits_app, repeat_digits, print_N_all_digits.
Qed.
(** Two anchors of the sequencer (a sequence number and a time, neither
    negative) are asked to be kept under the same key only when both numbers agree: no
    anchor replaces another, and every one is put under the compliance lock. *)
Theorem anchor_keys_differ st a b n m t u ra rb :
  vindex a "seq" = Ok (VInt (Z.of_N n)) → vindex b "seq" = Ok (VInt (Z.of_N m)) →
  vindex a "ts_ms" = Ok (VInt (Z.of_N t)) → vindex b "ts_ms" = Ok (VInt (Z.of_N u)) → s3_put st a = Ok ra → s3_put st b = Ok rb →
  p_mode ra = "COMPLIANCE" ∧ (p_key ra = p_key rb → n = m ∧ t = u).
Proof.
  intros Ha Hb Hta Htb Hra Hrb. unfold s3_put in *. rewrite Ha, Hta in Hra. rewrite Hb, Htb in Hrb. injection Hra as <-. injection Hrb as <-.
  split; [done|]. cbn [p_key]. intros E%(inj (String.append (s3_prefix st)))%(inj (String.append "/")).
  destruct (padded_value n) as [Hn Hdn], (padded_value m) as [Hm Hdm].
  apply span_dash in E as [E1 E2]; [|done..]. rewrite E1, Hm in Hn. injection Hn as ->. split; [done|].
  assert (∀ x y, String.append x ".json" = String.append y ".json" → x = y) as Hinj.
  { intros x. induction x as [|c x IH]; intros [|d y] H; [done| | |].
    - apply (f_equal String.length) in H. rewrite string_length_app in H. cbn in H. rewrite string_length_app in H. cbn in H. lia.
    - apply (f_equal String.length) in H. rewrite string_length_app in H. cbn in H. rewrite string_length_app in H. cbn in H. lia.
    - injection H as -> H. f_equal. by apply IH. }
  apply Hinj in E2. cbn in E2. apply (inj _) in E2. lia.
Qed.

Definition demo_store : S3AnchorStore := new_s3 "bucket" "valops-anchors/" 365.
Definition demo_anchor (seq ts : N) : val := VDict [("seq", VInt (Z.of_N seq)); ("ts_ms", VInt (Z.of_N ts)); ("head", VStr "ab")].
Example demo_key : p_key <$> s3_put demo_store (demo_anchor 7 1700000000000) = Ok "valops-anchors/00000000000000000007-1700000000000.json".
Proof. by vm_compute. Qed.
Definition demo_put (seq ts : N) : put_request := match s3_put demo_store (demo_anchor seq ts) with Ok r => r | Err _ => mkPut "" "" "" "" 0 end.
Lemma anchor_keys_differ_witness : p_key (demo_put 7 17) ≠ p_key (demo_put 71 7).
Proof.
  intros E. destruct (anchor_keys_differ demo_store (demo_anchor 7 17) (demo_anchor 71 7) 7 71 17 7 (demo_put 7 17) (demo_put 71 7)) as [_ H];
    [vm_compute; reflexivity..|]. destruct (H E) as [Hn _]. discriminate Hn.
Defined.
Lemma anchors_read_back_witness :
  file_list (put_all (map VDict [[("seq", VInt 1); ("head", VStr "ab")]; [("note", VStr "x")]])) =
  Ok [VDict [("head", VStr "ab"); ("seq", VInt 1)]; VDict [("note", VStr "x")]].
Proof.
  rewrite (anchors_read_back [[("seq", VInt 1); ("head", VStr "ab")]; [("note", VStr "x")]]); [vm_compute; reflexivity|].
  apply list.Forall_cons; split; [|apply list.Forall_cons; split; [|constructor]].
  all: split; [apply jwf_dict; split; [apply (bool_decide_unpack _); vm_compute; exact I|repeat constructor]|apply texts_dict; repeat constructor].
Defined.
