(* ===== verification/SampleProps.v ===== *)
(** * From the host to the findings

    The daemon's answers, with the parsers, the host commands and the redaction as the code
    wires them, are what the sentinel's health rules can read. *)
From S2P Require Import Prelude PyVal Schema Canonical Json PyConv Table AuditChain AuditProps LocalChain Bundle Rules Consensus Artefacts Daemon DaemonProps Checks Regex Redact Parsers Builtins.
From Stdlib Require Import Ascii.

(** ** From the daemon to the sentinel *)
Section collected.
Context `{UNI : Unicode} (decode : string → string).

(** The structured answers of the daemon to the four commands the health rules read: of the
    command's own parser or host call, at whatever time and whatever the host said, or of
    none ([{"parsed": False}], an error). *)
Inductive answered : string → dict → Prop :=
| AUnparsed cid st : truthy (dget_none st "parsed") = false → answered cid st
| ACatchup text local st : catchup text local = Ok st → answered "catchup" st
| ABalance text local st : balance text local = Ok st → answered "identity_balance" st
| AVersion os args local text st : builtin_running_version decode os args local = Ok (text, st) → answered "running_version" st
| AMetrics os args local text st : host_metrics os args local = Ok (text, st) → answered "host_metrics" st
| AOther cid st : cid ∉ ["catchup"; "identity_balance"; "running_version"; "host_metrics"] → answered cid st.
(** A sample of such an answer. *)
Definition collected (samples : dict) : Prop := ∀ cid s, dget samples cid = Some s →
  ∃ d st, s = VDict d ∧ dget d "structured" = Some (VDict st) ∧ answered cid st.

(** What the rules need of each. *)
Definition readable (cid : string) (st : dict) : Prop :=
  (cid = "catchup" → ∃ z, dget st "slots_behind" = Some (VInt z)) ∧
  (cid = "identity_balance" → ∃ q, dget st "balance_sol" = Some (VFloat q)).
Lemma answered_readable cid st : answered cid st → truthy (dget_none st "parsed") = true → readable cid st.
Proof.
  intros Ha Ht. destruct Ha as [? ? Hf|text local st H|text local st H| | |cid st Hn]; [congruence|..]; split; try (by intros [=]).
  3, 4: intros ->; destruct Hn; by repeat constructor.
  all: intros _.
  - destruct (catchup_reads text local) as [[E _]|(u & v & _ & [[_ E]|(_ & _ & E)])]; rewrite E in H; [|done|]; injection H as <-; [done|by eexists].
  - unfold balance in H. injection H as <-. destruct (search _ _ _); [by eexists|done].
Qed.

Lemma ok_sample_collected samples cid : collected samples →
  ∃ o, ok_sample (dget_none samples cid) = Ok o ∧ ∀ st, o = Some st → answered cid st ∧ truthy (dget_none st "parsed") = true.
Proof.
  intros Hc. destruct (dget samples cid) as [s|] eqn:E; unfold dget_none, ok_sample; rewrite E; cbn [from_option id]; [|by exists None].
  destruct (Hc _ _ E) as (d & st & -> & Hd & Ha). destruct d as [|kv d]; [done|]. set (d' := kv :: d) in *. cbn [truthy negb].
  change (vget (VDict d') "status") with (@Ok exn _ (dget_none d' "status")). change (vget (VDict d') "structured") with (@Ok exn _ (dget_none d' "structured")).
  unfold dget_none at 2. rewrite Hd. cbn. destruct (py_eq _ _); [|by exists None]. cbn.
  destruct st as [|x st]; cbn; [by exists None|]. destruct (truthy _) eqn:Ht; [|by exists None].
  exists (Some (x :: st)). split; [done|]. by intros ? [= <-].
Qed.

(** The thresholds the rules read are numbers. *)
Definition number_at (p : val) (k : string) : Prop := ∃ v q, vindex p k = Ok v ∧ num_of v = Some q.
Record thresholds_ok (p : val) : Prop := mkThresholds {
  th_balance : number_at p "P-02"; th_headroom : number_at p "P-04";
  th_delinquency : ∃ d, vindex p "P-03" = Ok d ∧ number_at d "threshold" ∧ number_at d "samples" }.

Lemma host_findings_total p st : thresholds_ok p → ∃ fs, host_findings p st = Ok fs.
Proof.
  intros [_ (v & q & Hv & Hq) _]. unfold host_findings. destruct (is_num (dget_none st "min_free_pct")) eqn:Hn; [|by eexists].
  assert (∃ m, num_of (dget_none st "min_free_pct") = Some m) as [m Hm] by (destruct (dget_none st "min_free_pct"); try done; by eexists).
  rewrite Hv. cbn. rewrite (lt_num _ _ _ _ Hm Hq). by eexists.
Qed.
Lemma delinquency_total p st n : thresholds_ok p → readable "catchup" st → ∃ fs n', delinquency_findings p st n = (Ok fs, n').
Proof.
  intros [_ _ (d & Hd & (t & tq & Ht & Htq) & (m & mq & Hm & Hmq))] [Hr _]. destruct (Hr eq_refl) as [z Hz].
  unfold delinquency_findings. cbn [vindex]. rewrite Hz, Hd. cbn. unfold mbind, M_bind, lift. rewrite Ht. cbn. unfold gt_.
  rewrite (lt_num t (VInt z) _ _ Htq eq_refl). cbn. rewrite Hm. cbn.
  destruct (update _ _ _) as [[k|e] n'] eqn:Eu; [|by destruct (Qltb _ _) in Eu].
  match goal with |- context [lt_ (VInt ?k) m] => rewrite (lt_num (VInt k) m _ _ eq_refl Hmq) end. cbn. by eexists _, _.
Qed.
Lemma balance_total p st : thresholds_ok p → readable "identity_balance" st → ∃ fs, balance_findings p st = Ok fs.
Proof.
  intros [(v & q & Hv & Hq) _ _] [_ Hr]. destruct (Hr eq_refl) as [b Hb]. unfold balance_findings. cbn [vindex]. rewrite Hb, Hv. cbn.
  rewrite (lt_num (VFloat b) v _ _ eq_refl Hq). cbn. destruct (Qltb b q); [|by eexists].
  assert (half v = Ok (VFloat (q / 2))) as -> by (unfold half; by rewrite Hq). cbn [mbind result_bind].
  rewrite (lt_num (VFloat b) (VFloat (q / 2)) _ _ eq_refl eq_refl). by eexists.
Qed.


Lemma rules_read samples p dep n : collected samples → thresholds_ok p → (∃ v, vindex dep "expected_version" = Ok v) →
  ∃ fs n', validator_findings samples (Ok p) (Ok dep) n = (Ok fs, n').
Proof.
  intros Hc Hp [exp Hexp]. unfold validator_findings.
  destruct (ok_sample_collected samples "host_metrics" Hc) as (hm & Ehm & _).
  destruct (ok_sample_collected samples "catchup" Hc) as (cu & Ecu & Hcu).
  destruct (ok_sample_collected samples "identity_balance" Hc) as (bal & Ebal & Hbal).
  destruct (ok_sample_collected samples "running_version" Hc) as (rv & Erv & _).
  assert (∃ f1, match hm with Some hm => host_findings p hm | None => Ok [] end = Ok f1) as [f1 E1]
    by (destruct hm; [by apply host_findings_total|by eexists]).
  assert (∃ f2 n', match cu with Some cu => delinquency_findings p cu | None => mret [] end n = (Ok f2, n')) as (f2 & n' & E2).
  { destruct cu as [st|]; [|by eexists _, _]. apply delinquency_total; [done|]. by eapply answered_readable; apply Hcu. }
  assert (∃ f3, match bal with Some bal => balance_findings p bal | None => Ok [] end = Ok f3) as [f3 E3].
  { destruct bal as [st|]; [|by eexists]. apply balance_total; [done|]. by eapply answered_readable; apply Hbal. }
  exists (f1 ++ f2 ++ f3 ++ version_findings exp rv), n'. unfold mbind, M_bind, lift. cbn -[balance_findings].
  rewrite Ehm, E1, Ecu, E2. cbn -[balance_findings]. rewrite Ebal. cbn -[balance_findings]. rewrite E3, Erv. cbn. by rewrite Hexp.
Qed.

(** ** What the daemon answers *)
Section served.
Context `{HASH : Hash}.
(** The table gives the four commands the parsers and host calls they are named after, as
    the shipped one does. *)
Definition wired (t : CommandTable) : Prop := ∀ cid cmd, dget (tb_commands t) cid = Some cmd → m_id cmd = cid ∧
  (cid = "catchup" → m_kind cmd ≠ KBuiltin ∧ m_parser cmd = VStr "catchup") ∧
  (cid = "identity_balance" → m_kind cmd ≠ KBuiltin ∧ m_parser cmd = VStr "balance") ∧
  (cid = "running_version" ∨ cid = "host_metrics" → m_kind cmd = KBuiltin).
(** A host call is one of the daemon's own. *)
Definition own_call (cid : string) (h : host) : Prop := ∀ r, h = HBuiltin r → ∃ os vargs local, r = run_builtin decode os cid vargs local.

Lemma gives_get {A} (P : A → Prop) (f : daemon → DM A) : (∀ d, gives P (f d)) → gives P (d ← get_state; f d).
Proof. apply gives_bind. Qed.
Lemma gives_lift {A} (P : A → Prop) (r : result exn A) : (∀ a, r = Ok a → P a) → gives P (lift r).
Proof. intros H d a d' E. destruct r; [|done]. injection E as <- <-. by apply H. Qed.
Definition served_structure (cid : string) (a : dict) : Prop := ∃ st, dget a "structured" = Some (VDict st) ∧ answered cid st.

Lemma finish_structured k cid id_ rid status st text truncated : answered cid st →
  gives (served_structure cid) (finish redact suspicious k id_ rid status (VDict st) text truncated).
Proof.
  intros Ha. unfold finish. destruct (redact text) as [text' n]. apply gives_bind. intros d. destruct (chain_add _ _ _) as [r c'].
  do 3 (apply gives_bind; intros ?). apply gives_ret. exists st. by split.
Qed.
Definition begun (cid : string) (t : CommandTable) (p : progress) : Prop := match p with
  | Answered a => served_structure cid a
  | Running cmd _ => dget (tb_commands t) cid = Some cmd
  end.
Lemma begin_structured k cid args rid d p d' : observe_begin redact suspicious k (VStr cid) args rid d = (Ok p, d') → begun cid (d_table d) p.
Proof.
  intros E. unfold observe_begin in E. cbv zeta in E. rewrite get_bind in E. revert E.
  assert (∀ status st, truthy (dget_none st "parsed") = false → gives (begun cid (d_table d))
    (a ← finish redact suspicious k (VStr cid) rid status (VDict st) EmptyString false; mret (Answered a))) as Hans.
  { intros status st Hst. eapply gives_then; [apply (finish_structured k cid); by apply AUnparsed|]. intros a Ha. by apply gives_ret. }
  assert (∀ m : DM progress, gives (begun cid (d_table d)) m → m d = (Ok p, d') → begun cid (d_table d) p) as Hg by (intros m Hm Em; by eapply Hm).
  cbn [as_str mbind option_bind]. destruct (dget (tb_commands (d_table d)) cid) as [cmd|] eqn:Hcmd; [|by apply Hg, Hans].
  destruct (validate_args _ _) as [vargs|[c v|cls]]; [|by apply Hg, gives_raise|].
  2: { destruct (String.eqb _ _); [by apply Hg, Hans|by apply Hg, gives_raise]. }
  destruct (bool_decide _); [by apply Hg, Hans|]. destruct (_ && _); [by apply Hg, Hans|]. apply Hg, gives_bind. intros ok.
  destruct (negb ok); [by apply Hans|]. apply gives_bind. intros d1. destruct (str_in _ _); [by apply Hans|]. apply gives_bind. intros ?.
  by apply gives_ret.
Qed.

Lemma builtin_answered cid os vargs local text st : run_builtin decode os cid vargs local = Ok (text, st) → answered cid st.
Proof.
  intros H. destruct (decide (cid ∈ ["catchup"; "identity_balance"; "running_version"; "host_metrics"])) as [Hin|Hn]; [|by apply AOther].
  rewrite !list.elem_of_cons in Hin. destruct Hin as [->|[->|[->|[->|[]%not_elem_of_nil]]]]; try done.
  - exact (AVersion os vargs local text st H).
  - exact (AMetrics os vargs local text st H).
Qed.
Lemma work_structured k t cmd vargs h : wired t → dget (tb_commands t) (m_id cmd) = Some cmd → own_call (m_id cmd) h →
  gives (λ w : worked, match w with inl (_, v, _, _) => ∃ st, v = VDict st ∧ answered (m_id cmd) st | inr _ => True end) (work decode PARSERS k cmd vargs h).
Proof.
  intros Hw Ht Ho. destruct (Hw _ _ Ht) as (_ & Hcu & Hbal & Hown). unfold work. destruct h as [r|r]; destruct (bool_decide_reflect (m_kind cmd = KBuiltin)) as [Hk|Hk]; try apply gives_raise.
  - unfold builtin_work. destruct r as [[text st]|[c v|cls]]; [|by apply gives_raise|].
    2: { destruct (str_in _ _); [by apply gives_ret|by apply gives_raise]. }
    destruct (Ho _ eq_refl) as (os & va & local & Hr). symmetry in Hr. apply builtin_answered in Hr.
    destruct (cap _ _) as [raw truncated]. eapply (gives_then (λ st', answered (m_id cmd) st')); [|intros st' Ha; apply gives_ret; by exists st'].
    destruct (String.eqb_spec (m_id cmd) "rpc_latency") as [E|]; [|by apply gives_ret].
    do 3 (apply gives_bind; intros ?). apply gives_get. intros d. cbv zeta. apply gives_bind. intros ?. apply gives_ret. rewrite E. apply AOther.
    rewrite !list.elem_of_cons. intros [?|[?|[?|[?|[]%not_elem_of_nil]]]]; done.
  - unfold process_work. apply gives_get. intros d. apply gives_bind. intros argv. destruct r as [p|[c v|cls]]; [|by apply gives_raise|].
    2: { destruct (str_in _ _); [by apply gives_ret|by apply gives_raise]. }
    destruct (exec_ cmd p) as [[status raw] truncated]. set (text := decode raw).
    eapply (gives_then (λ parser : option (string → dict → result exn dict), ∀ f, parser = Some f → ∀ st, f text (d_local d) = Ok st → answered (m_id cmd) st)).
    + apply gives_lift. intros parser Hp f -> st Hf.
      destruct (decide (m_id cmd ∈ ["catchup"; "identity_balance"; "running_version"; "host_metrics"])) as [Hin|Hn]; [|by apply AOther].
      rewrite !list.elem_of_cons in Hin. destruct Hin as [E|[E|[E|[E|[]%not_elem_of_nil]]]].
      * destruct (Hcu E) as [_ Hpar]. rewrite Hpar in Hp. injection Hp as <-. rewrite E. by eapply ACatchup.
      * destruct (Hbal E) as [_ Hpar]. rewrite Hpar in Hp. injection Hp as <-. rewrite E. by eapply ABalance.
      * destruct Hk. apply Hown. by left.
      * destruct Hk. apply Hown. by right.
    + intros parser Hp. eapply (gives_then (λ st, answered (m_id cmd) st)); [|intros st Ha; apply gives_ret; by exists st].
      apply gives_lift. intros st Hst. destruct parser as [f|]; [destruct (String.eqb status "ok"); [by eapply Hp|]|]; injection Hst as <-; by apply AUnparsed.
Qed.

(** An answer of a daemon to a command, at whatever time and in whatever state. *)
Definition served (cid : string) (a : dict) : Prop := ∃ k args rid h d d',
  wired (d_table d) ∧ own_call cid h ∧ observe redact suspicious decode PARSERS k (VStr cid) args rid h d = (Ok a, d').
Lemma served_structured cid a : served cid a → served_structure cid a.
Proof.
  intros (k & args & rid & h & d & d' & Hw & Ho & H). unfold observe in H. apply bind_cases in H as [(e & _ & [=])|(p & d1 & Hb & H)].
  apply begin_structured in Hb. destruct p as [b|cmd vargs]; cbn in Hb; [by injection H as <- <-|].
  destruct (Hw _ _ Hb) as (Hid & _). rewrite <- Hid in Hb, Ho.
  revert H. generalize d1 d'. intros x y. revert a. unfold observe_end. rewrite <- Hid.
  enough (gives (served_structure (m_id cmd)) (out ← releasing (m_id cmd) (w ← work decode PARSERS k cmd vargs h;
    match w with
    | inr cls => a ← finish redact suspicious k (VStr (m_id cmd)) rid "error" (VDict [("error", VStr cls)]) EmptyString false; mret (inr a)
    | inl w => mret (inl w)
    end);
  match out with
  | inr a => mret a
  | inl (status, structured, text, truncated) => finish redact suspicious k (VStr (m_id cmd)) rid status structured text truncated
  end)) as Hg by (intros a E; by eapply Hg).
  eapply (gives_then (λ out : string * val * string * bool + dict, match out with
    | inr a => served_structure (m_id cmd) a | inl (_, v, _, _) => ∃ st, v = VDict st ∧ answered (m_id cmd) st end)).
  - apply gives_releasing. eapply gives_then; [by eapply work_structured|]. intros [[[[status v] text] truncated]|cls] Hv; [by apply gives_ret|].
    eapply gives_then; [apply (finish_structured k (m_id cmd)); by apply AUnparsed|]. intros b Hst. by apply gives_ret.
  - intros [[[[status v] text] truncated]|b] Hv; [|by apply gives_ret]. destruct Hv as (st & -> & Ha). by apply finish_structured.
Qed.

(** C5: type. What the daemon answers is what the sentinel's health rules can read: on
    samples that are the answers of a daemon with a wired table, its own parsers and host
    commands and its redaction, whatever the commands printed and whatever the host said,
    with numeric thresholds and an expected version, the rules give findings and never
    raise. *)
Theorem sentinel_reads_what_is_served samples p dep n :
  (∀ cid s, dget samples cid = Some s → ∃ a, s = VDict a ∧ served cid a) → thresholds_ok p → (∃ v, vindex dep "expected_version" = Ok v) →
  ∃ fs n', validator_findings samples (Ok p) (Ok dep) n = (Ok fs, n').
Proof.
  intros Hs. apply rules_read. intros cid s H. destruct (Hs _ _ H) as (a & -> & (st & Hst & Ha)%served_structured). by exists a, st.
Qed.
End served.
End collected.

(** ** A round of samples, from the host to the findings *)
Definition sample_table_data : val := VDict [("version", VInt 1); ("commands", VDict [
  ("catchup", VDict [("kind", VStr "exec"); ("read_only", VBool true); ("rpc_backed", VBool true); ("parser", VStr "catchup");
                     ("argv", VList [VStr "solana"; VStr "catchup"; VStr "--our-localhost"; VStr "8899"])]);
  ("running_version", VDict [("kind", VStr "builtin"); ("read_only", VBool true)]);
  ("host_metrics", VDict [("kind", VStr "builtin"); ("read_only", VBool true)])])].
Definition sample_table : CommandTable := match load_table_data sample_table_data with Ok t => t | Err _ => mkTable 0 [] end.
Definition sample_daemon : daemon := new_daemon sample_table demo_local (mkChain [] [] 0) 60 300 5.
Definition ask (cid : string) (h : host) : dict :=
  match (observe (HASH := demo_hash) redact suspicious id PARSERS (demo_clock 10) (VStr cid) (VDict []) (VStr "r1") h sample_daemon).1 with Ok a => a | Err _ => [] end.
Definition call_host (cid : string) : host := HBuiltin (run_builtin id demo_os cid [] demo_local).
Definition slots_behind : host := HProcess (Ok (mkProcess ["57 slot(s) behind (us:43 them:100)"] (Some 0%Z))).
Definition demo_samples : dict :=
  [("host_metrics", VDict (ask "host_metrics" (call_host "host_metrics"))); ("catchup", VDict (ask "catchup" slots_behind));
   ("running_version", VDict (ask "running_version" (call_host "running_version")))].
Definition demo_expected : val := VDict [("expected_version", VStr "2.2.0")].

Lemma sample_table_wired : wired sample_table.
Proof.
  assert (Forall (λ x : string * Command, String.eqb (m_id x.2) x.1 = true ∧ (x.1 = "catchup" → m_kind x.2 ≠ KBuiltin ∧ m_parser x.2 = VStr "catchup") ∧
    (x.1 = "identity_balance" → m_kind x.2 ≠ KBuiltin ∧ m_parser x.2 = VStr "balance") ∧ (x.1 = "running_version" ∨ x.1 = "host_metrics" → m_kind x.2 = KBuiltin))
    (tb_commands sample_table)) as H.
  { vm_compute. repeat constructor; try done; by intros [|]. }
  intros cid cmd Hc. rewrite list.Forall_forall in H. apply dget_elem in Hc. destruct (H _ Hc) as (He & H1 & H2 & H3). apply String.eqb_eq in He. by split_and!.
Qed.
Lemma served_nil : ∀ cid s, dget ([] : dict) cid = Some s → ∃ a, s = VDict a ∧ served (HASH := demo_hash) id cid a.
Proof. by intros cid s [=]. Qed.
Lemma served_cons cid0 h samples d' : own_call id cid0 h →
  observe (HASH := demo_hash) redact suspicious id PARSERS (demo_clock 10) (VStr cid0) (VDict []) (VStr "r1") h sample_daemon = (Ok (ask cid0 h), d') →
  (∀ cid s, dget samples cid = Some s → ∃ a, s = VDict a ∧ served (HASH := demo_hash) id cid a) →
  ∀ cid s, dget ((cid0, VDict (ask cid0 h)) :: samples) cid = Some s → ∃ a, s = VDict a ∧ served (HASH := demo_hash) id cid a.
Proof.
  intros Ho Hr Hs cid s H. cbn [dget] in H. destruct (String.eqb_spec cid cid0) as [->|_]; [|by apply Hs]. injection H as <-.
  exists (ask cid0 h). split; [done|]. exists (demo_clock 10), (VDict []), (VStr "r1"), h, sample_daemon, d'. split; [exact sample_table_wired|by split].
Qed.
Lemma call_host_own cid : own_call id cid (call_host cid).
Proof. intros r [= <-]. by exists demo_os, [], demo_local. Qed.
Lemma demo_sample_served : ∀ cid s, dget demo_samples cid = Some s → ∃ a, s = VDict a ∧ served (HASH := demo_hash) id cid a.
Proof.
  unfold demo_samples. eapply served_cons; [apply call_host_own|by vm_compute|].
  eapply served_cons; [by intros r [=]|by vm_compute|]. eapply served_cons; [apply call_host_own|by vm_compute|]. exact served_nil.
Qed.
Lemma sentinel_reads_what_is_served_witness : ∃ fs n', validator_findings demo_samples (Ok demo_thresholds) (Ok demo_expected) [] = (Ok fs, n').
Proof.
  apply (sentinel_reads_what_is_served (HASH := demo_hash) id demo_samples demo_thresholds demo_expected []).
  - exact demo_sample_served.
  - split; [exists (VInt 5), 5%Q; split; reflexivity|exists (VInt 15), 15%Q; split; reflexivity|].
    exists (VDict [("threshold", VInt 50); ("samples", VInt 1)]). split; [reflexivity|]. split.
    + exists (VInt 50), 50%Q. split; reflexivity.
    + exists (VInt 1), 1%Q. split; reflexivity.
  - exists (VStr "2.2.0"). reflexivity.
Defined.

(** The log says 2.2.0, the version that was expected, and the sentinel finds a drift: the
    bind address on the line below is read first. *)
Example drift_of_an_address :
  match (validator_findings demo_samples (Ok demo_thresholds) (Ok demo_expected) []).1 with
  | Ok fs => map fd_detail (List.filter (λ x, String.eqb (fd_check x) "version_drift") fs)
  | Err _ => []
  end = ["running 127.0.0 != expected 2.2.0"].
Proof. by vm_compute. Qed.
