(* ===== verification/Writepath.v ===== *)
(** * The write-path check (src/valops/writepath.py)

    The offline check of a source tree that nothing shipped can change a validator: what it
    looks at, what it reports, and what a tree without a report is sure to be. A tree is the
    list of its entries below the root in the order the directories list them; links are
    not followed and not modelled. *)
From S2P Require Import Prelude PyVal Schema Canonical Json PyConv Table Bundle Regex Redact.
From Stdlib Require Import Ascii.

Inductive node : Type := File (text : string) | Dir.
Abbreviation tree := (list (path * node)).

(** What is reported, without the texts. *)
Inductive problem : Type :=
| Present (d : path)          (* an executor or approval service *)
| BadTable (p : path)         (* a command table the loader refuses *)
| Spawns (p : path).          (* a process started outside the audited sites *)

(** src/valops/writepath.py:18-25 SPAWN_ALLOWED *)
Definition SPAWN_ALLOWED : list string :=
  ["valops/observer/daemon.py"; "valops/observer/builtins.py"; "valops/controller/spawn.py"; "valops/sandbox/bwrap.py";
   "valops/worker/adapters/codex_cli/launcher.py"; "valops/worker/adapters/antigravity_cli/launcher.py"].
(** The directories that must not be there. *)
Definition FORBIDDEN : list path := [["executor"]; ["approval"]; ["valops"; "executor"]; ["valops"; "approval"]].

Definition exists_ (t : tree) (p : path) : bool := existsb (λ x : path * node, bool_decide (x.1 = p)) t.
(** [p.read_text()], of text in the encoding of the locale. *)
Definition read_text (n : node) : result exn string := match n with File s => Ok s | Dir => Err (PyExc "IsADirectoryError") end.
(** [root.glob(top + "/**/" + name)] *)
Definition below (top name : string) (p : path) : bool :=
  match p with d :: (_ :: _) as q => String.eqb d top && bool_decide (list.last q = Some name) | _ => false end.
(** [(root / top).rglob("*.py")] *)
Definition module_below (top : string) (p : path) : bool :=
  match p with d :: (_ :: _) as q => String.eqb d top && match list.last q with Some n => ends_with ".py" n | None => false end | _ => false end.
Definition audited (rel : string) : bool := str_in rel SPAWN_ALLOWED || String.eqb rel "valops/writepath.py".

Section check.
Context `{UNI : Unicode} (yaml : string → result exn val).

(** src/valops/writepath.py:26-26 _SPAWN *)
Definition SPAWN : re := Cat WordB (Grp 1 (lits "subprocess." ["os.system"; "os.exec"; "os.spawn"; "Popen("])).

(** What is raised besides [TableError] is not caught. *)
Definition check_table (x : path * node) : result exn (list problem) :=
  match (text ← read_text x.2; data ← yaml text; load_table_data data) with
  | Ok _ => Ok []
  | Err (PyExc cls) => if String.eqb cls "TableError" then Ok [BadTable x.1] else Err (PyExc cls)
  | Err e => Err e
  end.
Definition check_module (x : path * node) : result exn (list problem) :=
  text ← read_text x.2;
  Ok (match search SPAWN None (chars text) with
      | Some _ => if audited (as_posix x.1) then [] else [Spawns x.1]
      | None => []
      end).
Definition entries_of (f : path → bool) (t : tree) : tree := List.filter (λ x : path * node, f x.1) t.
(** src/valops/writepath.py:29-43 check *)
Definition check (t : tree) : result exn (list problem) :=
  let present := map Present (List.filter (exists_ t) FORBIDDEN) in
  tables ← mapR check_table (entries_of (below "policy" "command_table.yaml") t ++ entries_of (below "var" "command_table.yaml") t);
  modules ← mapR check_module (entries_of (module_below "valops") t);
  Ok (present ++ mjoin tables ++ mjoin modules).





End check.

(** ** Trees of one module *)
Definition tree_of (text : string) : tree := [(["valops"], Dir); (["valops"; "sentinel"], Dir); (["valops"; "sentinel"; "helper.py"], File text)].
Definition check_text (text : string) : result exn (list problem) := check (UNI := no_unicode) (λ _, Err (PyExc "YAMLError")) (tree_of text).
Example spawn_seen : check_text ("import subprocess" +:+ newline +:+ "subprocess.run(argv)") = Ok [Spawns ["valops"; "sentinel"; "helper.py"]].
Proof. by vm_compute. Qed.
(** Names that are imported, and the other ways to start a process, pass. *)
Example spawn_not_seen :
  Forall (λ text, check_text text = Ok [])
    ["from subprocess import run" +:+ newline +:+ "run(argv)"; "await asyncio.create_subprocess_exec(*argv)"; "os.posix_spawn(path, argv, env)";
     "from os import system" +:+ newline +:+ "system(command)"; "pty.spawn(argv)"].
Proof. by repeat constructor; vm_compute. Qed.
