(* ===== verification/Sinks.v ===== *)
(** * Alert sinks (src/valops/brokers/alerts.py)

    The development sink, a file of JSON lines; the webhooks; and the choice between them
    by configuration. What a webhook answers, the files and their modes are parameters,
    and so are the random ids. *)
From S2P Require Import Prelude PyVal Schema Canonical Json PyConv Keyed Tools Transitions Tokens Rpc Fold Store AuditChain AuditClient Bundle Control Artefacts JsonText Client Broker EpisodeBrokerProps ReportBroker AlertProps Lines.
From Stdlib Require Import Ascii.

(** [uuid.uuid4().hex[:12]] *)
Definition short_id (hex : string) : string := String.substring 0 12 hex.

(** ** A file of lines *)
(** What [FileSink.send] writes of an alert: the alert's own fields go over the sink's. *)
Definition file_entry (target ack : string) (alert : dict) (text : string) : dict :=
  dset (dupdate [("target", VStr target); ("ack", VStr ack)] alert) "text_rendered" (VStr text).
(** src/valops/brokers/alerts.py:37-41 FileSink.send

    The file is opened, so created, before the text is rendered. *)
Definition file_send (hex : string) (file : option string) (target : string) (alert : dict) : result exn string * option string :=
  let ack := "file:" +:+ short_id hex in
  let opened := default EmptyString file in
  match render_text alert with
  | Ok text => (Ok ack, Some (opened +:+ (json_dumps (VDict (file_entry target ack alert text)) +:+ newline)))
  | Err e => (Err e, Some opened)
  end.

(** ** Webhooks *)
(** src/valops/brokers/alerts.py:44-50 WebhookSink.__init__

    The time-out is the network's. *)
Record WebhookSink : Type := mkWebhook { wh_urls : list (string * string); wh_style : val }.
(** The body of the request: the text goes out whole, or the part a Discord message may have. *)
Definition webhook_body (style : val) (text : string) : string :=
  json_dumps (VDict (if py_eq style (VStr "discord") then [("content", VStr (stake 1900 text))] else [("text", VStr text)])).
(** src/valops/brokers/alerts.py:52-60 WebhookSink.send

    [post] gives the status of the response to a body sent to a URL, or what is raised. *)
Definition webhook_send (post : string → string → result exn Z) (hex : string) (s : WebhookSink) (target : string) (alert : dict) : result exn string :=
  url ← of_opt (dget (wh_urls s) target) (PyExc "KeyError");
  text ← render_text alert;
  status ← post url (webhook_body (wh_style s) text);
  _ ← check ((200 <=? status) && (status <? 300))%Z (PyExc "OSError");
  Ok ("webhook:" +:+ target +:+ ":" +:+ short_id hex).

(** ** The choice *)
Inductive AlertSink : Type :=
| FileSink (path : string)
| Webhook (s : WebhookSink).
Section config.
(** The mode bits of a file and its text. *)
Context (st_mode : string → result exn Z) (read_text : string → result exn string).
(** [str] or [os.PathLike] *)
Definition a_path (v : val) : result exn string := of_opt (as_str v) (PyExc "TypeError").
Fixpoint all_private (l : dict) : result exn unit :=
  match l with
  | [] => Ok tt
  | (_, p) :: l => p ← a_path p; mode ← st_mode p; _ ← check (Z.land mode 63 =? 0)%Z (PyExc "PermissionError"); all_private l
  end.
Fixpoint read_urls (l : dict) : result exn (list (string * string)) :=
  match l with [] => Ok [] | (t, p) :: l => p ← a_path p; text ← read_text p; rest ← read_urls l; Ok ((t, strip text) :: rest) end.
(** src/valops/brokers/alerts.py:63-71 from_config *)
Definition from_config (cfg : dict) : result exn AlertSink :=
  let kind := default (VStr "file") (dget cfg "kind") in
  if py_eq kind (VStr "file") then p ← vindex (VDict cfg) "path"; p ← a_path p; Ok (FileSink p)
  else if py_eq kind (VStr "webhook") then
    files ← vindex (VDict cfg) "url_files";
    files ← of_opt (match files with VDict d => Some d | _ => None end) (PyExc "AttributeError");
    _ ← all_private files;
    urls ← read_urls files;
    Ok (Webhook (mkWebhook urls (default (VStr "slack") (dget cfg "style"))))
  else Err (PyExc "ValueError").
End config.

(** The sink of a report broker: what becomes of the last of the alerts it was given. The
    file and the answers depend on what was sent before. *)
Definition webhook_sink (post : list (string * dict) → string → string → result exn Z) (hex : list (string * dict) → string) (s : WebhookSink)
    (sends : list (string * dict)) : result exn val :=
  match list.last sends with
  | Some (target, a) => ack ← webhook_send (post sends) (hex sends) s target a; Ok (VStr ack)
  | None => Err (PyExc "IndexError")
  end.

(** ** The file reads back *)
Lemma dget_dupdate {A} (d e : list (string * A)) k : NoDup (dkeys e) → dget (dupdate d e) k = match dget e k with Some v => Some v | None => dget d k end.
Proof.
  revert d. induction e as [|[k' v] e IH]; intros d; [done|]. cbn. intros [Hk Hn]%list.NoDup_cons. unfold dupdate in *. cbn [fold_left fst snd].
  rewrite IH by done. destruct (String.eqb_spec k k') as [->|Hne].
  - rewrite dget_dset_eq. destruct (dget e k') as [x|] eqn:E; [|done]. apply dget_elem in E. destruct Hk. by apply (list_elem_of_fmap_2 fst) in E.
  - by rewrite dget_dset_ne by congruence.
Qed.
Lemma dset_jwf d k v : jwf (VDict d) → jwf v → jwf (VDict (dset d k v)).
Proof. intros Hd Hv. apply (dupdate_jwf d [(k, v)]); [done|]. by apply list.Forall_cons. Qed.
Lemma file_entry_jwf target ack a text : jwf (VDict a) → jwf (VDict (file_entry target ack a text)).
Proof.
  intros [_ Ha]%jwf_dict. apply dset_jwf; [|done]. apply dupdate_jwf; [|done]. apply jwf_dict. split; [|by repeat constructor].
  apply (bool_decide_unpack _). by vm_compute.
Qed.

Lemma dumps_printable v : printable (json_dumps v) = true.
Proof. eapply pr_printable; [exact json_dumps_printer|apply ascii_quote_printable|done]. Qed.
(** An alert sent to the development sink is a new last line of its file,
    after the lines that were there, whatever texts the alert holds; read as JSON the line
    has every field of the alert, the target, the returned acknowledgement where the alert
    had none, and the text as it was rendered. *)
Theorem sent_alert_is_on_file hex ls target a ack file' :
  Forall (λ s, breakless s = true) ls → jwf (VDict a) →
  (∀ text, render_text a = Ok text → JsonText.plain (VDict (file_entry target ack a text))) →
  file_send hex (Some (lines ls)) target a = (Ok ack, file') →
  ∃ line d text, file' = Some (lines (ls ++ [line])) ∧ splitlines (lines (ls ++ [line])) = ls ++ [line] ∧
    json_loads line = Some (VDict d) ∧ render_text a = Ok text ∧ dget d "text_rendered" = Some (VStr text) ∧
    (∀ k v, k ≠ "text_rendered" → dget a k = Some v → dget d k = Some (reread v)) ∧
    (dget a "target" = None → dget d "target" = Some (VStr target)) ∧ (dget a "ack" = None → dget d "ack" = Some (VStr ack)).
Proof.
  intros Hls Ha Hp H. unfold file_send in H. destruct (render_text a) as [text|] eqn:Ht; [|done]. specialize (Hp _ eq_refl).
  injection H as <- <-. set (ack := "file:" +:+ short_id hex) in *. set (e := file_entry target ack a text) in *.
  assert (jwf (VDict e)) as Hj by by apply file_entry_jwf.
  assert (∀ k, dget (map (λ '(k, x), (k, reread x)) e) k = reread <$> dget e k) as Hget by apply dget_map.
  assert (∀ k, k ≠ "text_rendered" → dget e k = match dget a k with Some v => Some v | None => dget [("target", VStr target); ("ack", VStr ack)] k end) as He.
  { intros k Hk. unfold e, file_entry. rewrite dget_dset_ne by done. apply dget_dupdate. by apply jwf_dict in Ha as [? _]. }
  exists (json_dumps (VDict e)), (map (λ '(k, x), (k, reread x)) e), text. split_and!.
  - by rewrite <- lines_snoc.
  - apply splitlines_lines, list.Forall_app. split; [done|]. apply list.Forall_singleton, printable_breakless, dumps_printable.
  - by rewrite (loads_dumps _ Hj Hp).
  - done.
  - rewrite Hget. unfold e, file_entry. by rewrite dget_dset_eq.
  - intros k v Hk Hv. by rewrite Hget, He, Hv by done.
  - intros Hn. rewrite Hget, He, Hn by done. done.
  - intros Hn. rewrite Hget, He, Hn by done. done.
Qed.

(** ** What the broker sends *)
Section dispatch.
Context (N : surroundings).
(** An alert the broker returns was given to the sink, which answered. *)
Lemma dispatch_delivers sink development t t' a w sent w' : rb_dispatch N sink development t t' a w = (Ok sent, w') →
  ∃ given ack, rb_sends w' = rb_sends w ++ [("primary", given)] ∧ sink (rb_sends w') = Ok ack ∧ dget sent "ack" = Some ack ∧
    ∀ k, str_in k broker_fields = false → dget given k = dget a k ∧ dget sent k = dget a k.
Proof.
  unfold rb_dispatch. intros H. apply bind_Ok in H as ([] & w1 & Htake & H).
  assert (rb_sends w1 = rb_sends w) as Hw1.
  { unfold take_alert in Htake. apply bind_Ok in Htake as (? & ? & [-> ->]%get_state_Ok & Htake). destruct (_ && _).
    - apply bind_Ok in Htake as (? & ? & _ & Htake). apply bind_Ok in Htake as (? & ? & _ & Htake). discriminate Htake.
    - injection Htake as <-. done. }
  apply bind_Ok in H as (id & w2 & Hid & H). apply (f_equal snd) in Hid. rewrite (readonly_uuid N w1) in Hid. cbn in Hid. subst w2.
  apply bind_Ok in H as (ack & w3 & Hdel & H). apply bind_Ok in H as ([] & w4 & Hrec & H). injection Hrec as <-.
  apply bind_Ok in H as (? & w5 & (b & _ & ->)%base_Ok & H). apply ret_Ok in H as [-> ->].
  unfold catch in Hdel. destruct (deliver _ _ _ _) as [[v|e] w4] eqn:Hd; [|discriminate Hdel]. injection Hdel as -> ->.
  injection Hd as Hsink <-. eexists _, ack. split; [cbn; by rewrite Hw1|]. split; [exact Hsink|].
  split; [unfold dupdate; cbn [fold_left fst snd]; rewrite !dget_dset_ne by done; by rewrite dget_dset_eq|].
  assert (∀ k, str_in k broker_fields = false → ∀ s, str_in s broker_fields = true → s ≠ k) as Hne by (intros k Hk s Hs <-; congruence).
  intros k Hk. unfold dupdate. cbn [fold_left fst snd]. split; by rewrite !dget_dset_ne by (by apply (Hne k Hk)).
Qed.

Lemma urls_of_files st_mode read_text l urls target url : read_urls read_text l = Ok urls → all_private st_mode l = Ok tt →
  dget urls target = Some url → ∃ p mode text, dget l target = Some (VStr p) ∧ st_mode p = Ok mode ∧ Z.land mode 63 = 0%Z ∧ read_text p = Ok text ∧ url = strip text.
Proof.
  revert urls. induction l as [|[t0 p0] l IH]; cbn [read_urls all_private]; intros urls Hr Hp Hu; [injection Hr as <-; discriminate Hu|].
  apply rbind_Ok in Hr as (p & Hp0 & Hr). apply rbind_Ok in Hr as (text & Htext & Hr). apply rbind_Ok in Hr as (rest & Hrest & Hr). injection Hr as <-.
  rewrite Hp0 in Hp. cbn [mbind result_bind] in Hp. apply rbind_Ok in Hp as (mode & Hmode & Hp). apply rbind_Ok in Hp as ([] & Hland%check_Ok%Z.eqb_eq & Hp).
  cbn [dget] in *. destruct (String.eqb target t0); [|by eapply IH]. injection Hu as <-. exists p, mode, text. split_and!; try done.
  unfold a_path in Hp0. apply of_opt_Ok in Hp0. destruct p0; try discriminate Hp0. by injection Hp0 as ->.
Qed.

(** With a webhook for a sink, an alert the broker returns was accepted by
    the primary channel: the text rendered of the alert as composed was posted, to the
    URL that stands in the primary's credential file, which nobody but its owner may read,
    and the answer was a success; the acknowledgement of the alert names that channel. *)
Theorem sent_alert_was_accepted st_mode read_text cfg s post hex development t t' a w sent w' :
  from_config st_mode read_text cfg = Ok (Webhook s) →
  rb_dispatch N (webhook_sink post hex s) development t t' a w = (Ok sent, w') →
  ∃ files p mode credential given text status,
    vindex (VDict cfg) "url_files" = Ok (VDict files) ∧ dget files "primary" = Some (VStr p) ∧
    st_mode p = Ok mode ∧ Z.land mode 63 = 0%Z ∧ read_text p = Ok credential ∧
    rb_sends w' = rb_sends w ++ [("primary", given)] ∧ render_text given = Ok text ∧
    post (rb_sends w') (strip credential) (webhook_body (wh_style s) text) = Ok status ∧ (200 ≤ status < 300)%Z ∧
    dget sent "ack" = Some (VStr ("webhook:primary:" +:+ short_id (hex (rb_sends w')))) ∧
    ∀ k, str_in k broker_fields = false → dget given k = dget a k ∧ dget sent k = dget a k.
Proof.
  intros Hc H. apply dispatch_delivers in H as (given & ack & Hsends & Hsink & Hack & Hfields).
  unfold from_config in Hc. destruct (py_eq _ (VStr "file")).
  { apply rbind_Ok in Hc as (? & _ & Hc). apply rbind_Ok in Hc as (? & _ & Hc). discriminate Hc. }
  destruct (py_eq _ (VStr "webhook")); [|discriminate Hc]. apply rbind_Ok in Hc as (fv & Hfv & Hc). apply rbind_Ok in Hc as (files & Hf%of_opt_Ok & Hc).
  destruct fv as [| | | | | |d]; try discriminate Hf. injection Hf as ->.
  apply rbind_Ok in Hc as ([] & Hpriv & Hc). apply rbind_Ok in Hc as (urls & Hurls & Hc). injection Hc as <-.
  unfold webhook_sink in Hsink. rewrite Hsends, last_snoc, <- Hsends in Hsink. apply rbind_Ok in Hsink as (ack' & Hsend & [= <-]).
  unfold webhook_send in Hsend. cbn [wh_urls wh_style] in *. apply rbind_Ok in Hsend as (url & Hurl%of_opt_Ok & Hsend).
  apply rbind_Ok in Hsend as (text & Htext & Hsend). apply rbind_Ok in Hsend as (status & Hpost & Hsend).
  apply rbind_Ok in Hsend as ([] & Hst%check_Ok & [= <-]). apply andb_true_iff in Hst as [H1%Z.leb_le H2%Z.ltb_lt].
  destruct (urls_of_files _ _ _ _ _ _ Hurls Hpriv Hurl) as (p & mode & credential & Hp & Hmode & Hland & Hread & ->).
  exists files, p, mode, credential, given, text, status. by split_and!.
Qed.
End dispatch.

(** ** Here *)
Definition webhook_config : dict := [("kind", VStr "webhook"); ("url_files", VDict [("primary", VStr "/etc/valops/primary.url")])].
Definition demo_mode (p : string) : result exn Z := if String.eqb p "/etc/valops/primary.url" then Ok 33152%Z else Err (PyExc "FileNotFoundError").
Definition demo_text (p : string) : result exn string := Ok ("https://hooks.example/T1" +:+ newline).
Definition demo_webhook : WebhookSink := mkWebhook [("primary", "https://hooks.example/T1")] (VStr "slack").
Lemma webhook_configured : from_config demo_mode demo_text webhook_config = Ok (Webhook demo_webhook).
Proof. reflexivity. Qed.
(** A credential others may read is refused. *)
Example readable_credential_refused : from_config (λ _, Ok 33188%Z) demo_text webhook_config = Err (PyExc "PermissionError").
Proof. reflexivity. Qed.

Abbreviation demo_post := (λ (_ : list (string * dict)) (url body : string), if String.eqb url "https://hooks.example/T1" then Ok 200%Z else Err (PyExc "URLError")).
Abbreviation demo_hex := (λ _ : list (string * dict), "0123456789abcdef0123456789abcdef").
Definition page : dict := [("severity", VStr "page"); ("title", VStr "validator stopped voting"); ("kind", VStr "incident")].
Abbreviation demo_dispatch :=
  (rb_dispatch alert_surroundings (webhook_sink demo_post demo_hex demo_webhook) false 1000 1000 page alert_start).
Definition paged : dict := match demo_dispatch.1 with Ok a => a | Err _ => [] end.
Definition paged_end : report_broker := demo_dispatch.2.
Lemma page_sent : demo_dispatch = (Ok paged, paged_end).
Proof. vm_compute. reflexivity. Qed.
Lemma sent_alert_was_accepted_witness : ∃ files p mode credential given text status,
  vindex (VDict webhook_config) "url_files" = Ok (VDict files) ∧ dget files "primary" = Some (VStr p) ∧
  demo_mode p = Ok mode ∧ Z.land mode 63 = 0%Z ∧ demo_text p = Ok credential ∧
  rb_sends paged_end = rb_sends alert_start ++ [("primary", given)] ∧ render_text given = Ok text ∧
  demo_post (rb_sends paged_end) (strip credential) (webhook_body (VStr "slack") text) = Ok status ∧ (200 ≤ status < 300)%Z ∧
  dget paged "ack" = Some (VStr ("webhook:primary:" +:+ short_id (demo_hex (rb_sends paged_end)))) ∧
  ∀ k, str_in k broker_fields = false → dget given k = dget page k ∧ dget paged k = dget page k.
Proof.
  exact (sent_alert_was_accepted alert_surroundings demo_mode demo_text webhook_config demo_webhook demo_post demo_hex false 1000 1000
    page alert_start paged paged_end webhook_configured page_sent).
Defined.

(** An alert that is sent again still has the acknowledgement of the first time: it is what
    the file says, not the one returned now. *)
Definition resent : dict := page ++ [("ack", VStr "file:000000000000"); ("resent", VBool false)].
Definition resent_file : result exn string * option string := file_send (demo_hex []) None "primary" resent.
Example resent_keeps_first_ack : resent_file.1 = Ok "file:0123456789ab" ∧
  (text ← resent_file.2; v ← json_loads text; d ← (match v with VDict d => Some d | _ => None end); dget d "ack") = Some (VStr "file:000000000000").
Proof. split; vm_compute; reflexivity. Qed.

Definition page_file : option string := (file_send (demo_hex []) (Some (lines [])) "primary" page).2.
Lemma page_filed : file_send (demo_hex []) (Some (lines [])) "primary" page = (Ok "file:0123456789ab", page_file).
Proof. vm_compute. reflexivity. Qed.
Lemma page_well_formed : jwf (VDict page).
Proof. apply jwf_dict. split; [apply (bool_decide_unpack _); vm_compute; exact I|repeat constructor]. Qed.
Lemma page_plain text : render_text page = Ok text → JsonText.plain (VDict (file_entry "primary" "file:0123456789ab" page text)).
Proof. intros H. vm_compute in H. injection H as <-. apply texts_dict. by repeat constructor. Qed.
Lemma sent_alert_is_on_file_witness : ∃ line d text, page_file = Some (lines ([] ++ [line])) ∧ splitlines (lines ([] ++ [line])) = [] ++ [line] ∧
  json_loads line = Some (VDict d) ∧ render_text page = Ok text ∧ dget d "text_rendered" = Some (VStr text) ∧
  (∀ k v, k ≠ "text_rendered" → dget page k = Some v → dget d k = Some (reread v)) ∧
  (dget page "target" = None → dget d "target" = Some (VStr "primary")) ∧ (dget page "ack" = None → dget d "ack" = Some (VStr "file:0123456789ab")).
Proof.
  exact (sent_alert_is_on_file (demo_hex []) [] "primary" page "file:0123456789ab" page_file (list.Forall_nil_2 _) page_well_formed page_plain page_filed).
Defined.
