(* ===== verification/Crypto.v ===== *)
(** * Keys (src/valops/common/crypto.py, and [keygen] of src/valops/cli.py)

    The wrappers around the Ed25519 keys of a library, and the files the keys are kept in.
    The library is a class with the laws it documents; a file has its mode and its text and
    belongs to the process. *)
From S2P Require Import Prelude PyVal Schema Canonical Json Tools Tokens.
From Stdlib Require Import Ascii.

(** ** The library *)
Class Ed25519 : Type := {
  private_key : Type; public_key : Type;
  public_of : private_key → public_key;
  raw_sign : private_key → string → string;
  raw_verify : public_key → string → string → result exn unit;
  private_pem : private_key → string; public_pem : public_key → string;
  load_private_pem : string → result exn private_key; load_public_pem : string → result exn public_key;
  signed_verifies k data : raw_verify (public_of k) (raw_sign k data) data = Ok tt;
  private_pem_read k : load_private_pem (private_pem k) = Ok k;
  public_pem_read p : load_public_pem (public_pem p) = Ok p;
  verify_raises p sig data e : raw_verify p sig data = Err e → e = PyExc "InvalidSignature" }.

(** ** Files with modes *)
Record file : Type := mkFile { fi_mode : Z; fi_text : string }.
Abbreviation files := (list (string * file)).
Abbreviation FM := (M files exn).
(** The bits of a mode for its owner, and for everybody else. *)
Definition owner_reads (m : Z) : bool := Z.testbit m 8.
Definition owner_writes (m : Z) : bool := Z.testbit m 7.
Definition others_bits (m : Z) : Z := Z.land m 63.

Section files.
(** A privileged process is not bound by modes; the umask is the process's. *)
Context (privileged : bool) (umask : Z).
(** [open(path, O_WRONLY | O_CREAT | O_TRUNC, mode)] and a write: the mode is that of a file
    that is made, not of one that is there. *)
Definition write_file (path : string) (mode : Z) (text : string) : FM unit :=
  s ← get_state;
  match dget s path with
  | None => put_state (dset s path (mkFile (Z.land mode (Z.lnot umask)) text))
  | Some f =>
      _ ← require (privileged || owner_writes (fi_mode f)) (PyExc "PermissionError");
      put_state (dset s path (mkFile (fi_mode f) text))
  end.
Definition read_file (s : files) (path : string) : result exn string :=
  f ← of_opt (dget s path) (PyExc "FileNotFoundError");
  _ ← check (privileged || owner_reads (fi_mode f)) (PyExc "PermissionError");
  Ok (fi_text f).

Section keys.
Context `{ED : Ed25519}.
(** ** Signer *)
(** src/valops/common/crypto.py:24-27 Signer.load *)
Definition load_signer (s : files) (path : string) : result exn private_key := raw ← read_file s path; load_private_pem raw.
(** src/valops/common/crypto.py:29-37 Signer.save *)
Definition save_signer (k : private_key) (path : string) : FM unit := write_file path 256 (private_pem k).
(** src/valops/common/crypto.py:39-40 Signer.sign *)
Definition sign (k : private_key) (data : string) : string := raw_sign k data.
(** src/valops/common/crypto.py:42-44 Signer.verifier *)
Definition verifier_of (k : private_key) : public_key := public_of k.
(** ** Verifier *)
(** src/valops/common/crypto.py:51-57 Verifier.load, Verifier.from_pem *)
Definition load_verifier (s : files) (path : string) : result exn public_key := raw ← read_file s path; load_public_pem raw.
(** src/valops/common/crypto.py:59-65 Verifier.pem, Verifier.save *)
Definition save_verifier (p : public_key) (path : string) : FM unit := write_file path 438 (public_pem p).
(** src/valops/common/crypto.py:67-72 Verifier.verify *)
Definition verify (p : public_key) (sig data : string) : result exn bool :=
  match raw_verify p sig data with
  | Ok _ => Ok true
  | Err (PyExc cls) => if String.eqb cls "InvalidSignature" then Ok false else Err (PyExc cls)
  | Err e => Err e
  end.

(** ** valops keygen *)
Definition KEY_NAMES : list string := ["token"; "chain"; "bundle"; "daemon"].
Definition private_path (out name : string) : string := out +:+ "/" +:+ name +:+ ".pem".
Definition public_path (out name : string) : string := out +:+ "/" +:+ name +:+ ".pub.pem".
Fixpoint save_keys (out : string) (l : list (string * private_key)) : FM unit :=
  match l with
  | [] => mret tt
  | (name, k) :: l => _ ← save_signer k (private_path out name); _ ← save_verifier (verifier_of k) (public_path out name); save_keys out l
  end.
(** src/valops/cli.py:29-38 cmd_keygen

    [generate] are the keys the library makes, in order. *)
Definition cmd_keygen (out : string) (generate : nat → private_key) : FM (Z * string) :=
  _ ← save_keys out (imap (λ i name, (name, generate i)) KEY_NAMES);
  mret (0%Z, "wrote token/chain/bundle/daemon keys to " +:+ out +:+ " (DEVELOPMENT ONLY; D14 governs production custody)").

(** ** Verification always answers *)
Definition verifies (p : public_key) (sig data : string) : bool := match raw_verify p sig data with Ok _ => true | Err _ => false end.
Lemma verify_answers p sig data : verify p sig data = Ok (verifies p sig data).
Proof.
  unfold verify, verifies. destruct (raw_verify p sig data) as [[]|e] eqn:E; [done|]. by rewrite (verify_raises _ _ _ _ E).
Qed.
Lemma signed_verify k data : verifies (verifier_of k) (sign k data) data = true.
Proof. unfold verifies, verifier_of, sign. by rewrite signed_verifies. Qed.

(** ** What is on disk afterwards *)
Definition paths_of (out : string) (names : list string) : list string := flat_map (λ n, [private_path out n; public_path out n]) names.
Definition fresh (s : files) (l : list string) : Prop := ∀ p, p ∈ l → dget s p = None.
Definition made (mode : Z) (text : string) : file := mkFile (Z.land mode (Z.lnot umask)) text.
Lemma write_fresh s path mode text : dget s path = None → write_file path mode text s = (Ok tt, dset s path (made mode text)).
Proof. intros H. unfold write_file. rewrite get_bind. by rewrite H. Qed.
Lemma save_keys_fresh out l s : NoDup (paths_of out l.*1) → fresh s (paths_of out l.*1) → ∃ s', save_keys out l s = (Ok tt, s') ∧
  (∀ name k, (name, k) ∈ l → dget s' (private_path out name) = Some (made 256 (private_pem k)) ∧
     dget s' (public_path out name) = Some (made 438 (public_pem (verifier_of k)))) ∧
  ∀ p, p ∉ paths_of out l.*1 → dget s' p = dget s p.
Proof.
  revert s. induction l as [|[name k] l IH]; intros s Hn Hf.
  - exists s. split; [done|]. split; [by intros ? ? ?%not_elem_of_nil|done].
  - cbn [fmap list_fmap paths_of flat_map app fst] in Hn, Hf. apply list.NoDup_cons in Hn as [H1 [H2 Hn]%list.NoDup_cons].
    set (s1 := dset (dset s (private_path out name) (made 256 (private_pem k))) (public_path out name) (made 438 (public_pem (verifier_of k)))).
    assert (∀ p, p ≠ private_path out name → p ≠ public_path out name → dget s1 p = dget s p) as Hs1 by (intros p ? ?; unfold s1; by rewrite !dget_dset_ne by congruence).
    destruct (IH s1 Hn) as (s' & Hrun & Hkeys & Hrest).
    { intros p Hp. rewrite Hs1; [apply Hf; by do 2 right|intros ->; apply H1; by right|by intros ->]. }
    exists s'. split; [|split].
    + cbn [save_keys]. unfold save_signer, save_verifier. erewrite bind_run by (apply write_fresh, Hf; by left).
      erewrite bind_run; [exact Hrun|]. apply write_fresh. rewrite dget_dset_ne; [apply Hf; right; by left|]. intros E. apply H1. rewrite E. by left.
    + intros name' k' [[= -> ->]|Hin]%elem_of_cons; [|by apply Hkeys]. rewrite !Hrest.
      * unfold s1. rewrite dget_dset_eq, dget_dset_ne, dget_dset_eq; [done|]. intros E. apply H1. rewrite E. by left.
      * done.
      * intros Hp. apply H1. by right.
    + intros p Hp. rewrite Hrest by (intros Hq; apply Hp; by do 2 right). apply Hs1; intros ->; apply Hp; [by left|right; by left].
Qed.
Lemma key_paths_differ out : NoDup (paths_of out KEY_NAMES).
Proof.
  assert (paths_of out KEY_NAMES = map (String.append (out +:+ "/")) ["token.pem"; "token.pub.pem"; "chain.pem"; "chain.pub.pem"; "bundle.pem";
    "bundle.pub.pem"; "daemon.pem"; "daemon.pub.pem"]) as -> by (cbn [map]; rewrite !string_app_assoc; reflexivity).
  apply (NoDup_fmap_2 (String.append (out +:+ "/"))). by apply (bool_decide_eq_true_1 (NoDup _)).
Qed.
Lemma made_read s path mode text : dget s path = Some (made mode text) → owner_reads mode = true → owner_reads umask = false → read_file s path = Ok text.
Proof.
  intros H Hm Hu. unfold read_file, made in *. rewrite H. cbn [of_opt mbind result_bind fi_mode fi_text]. unfold owner_reads in *. rewrite Z.land_spec, Z.lnot_spec by done. by rewrite Hm, Hu, orb_true_r.
Qed.
Lemma made_mode mode text : others_bits mode = 0%Z → others_bits (fi_mode (made mode text)) = 0%Z.
Proof.
  unfold others_bits, made. cbn [fi_mode]. intros H. rewrite <- Z.land_assoc, (Z.land_comm (Z.lnot _)), Z.land_assoc, H. apply Z.land_0_l.
Qed.

(** In a place without keys, [keygen] makes four pairs that work once they
    are loaded from their files: whatever the private key signs, the public one verifies,
    and a token minted with the first pair is admitted by a gate that loaded its public
    half; the private files are readable by nobody else and writable by nobody, no other
    file is touched, and a second run by an unprivileged process fails before it replaces
    a key. *)
Theorem keygen_makes_pairs out generate s :
  owner_reads umask = false → fresh s (paths_of out KEY_NAMES) →
  ∃ s' msg, cmd_keygen out generate s = (Ok (0%Z, msg), s') ∧
    (∀ i name, KEY_NAMES !! i = Some name → ∃ f p, dget s' (private_path out name) = Some f ∧ others_bits (fi_mode f) = 0%Z ∧
       owner_writes (fi_mode f) = false ∧ load_signer s' (private_path out name) = Ok (generate i) ∧
       load_verifier s' (public_path out name) = Ok p ∧ (∀ data, verify p (sign (generate i) data) data = Ok true)) ∧
    (∀ p t nonce episode role session bundle ttl token t', load_verifier s' (public_path out "token") = Ok p → decimal t → decimal (t + ttl) →
       mint (sign (generate 0)) t nonce episode role session bundle ttl = Ok token → Qltb (t + ttl) t' = false →
       check_token (mkGate (verifies p) None []) t' (VStr token) (VStr episode) (VStr role) = Ok (read_back (minted t nonce episode role session bundle ttl))) ∧
    (∀ path, path ∉ paths_of out KEY_NAMES → dget s' path = dget s path) ∧
    (privileged = false → ∀ generate', cmd_keygen out generate' s' = (Err (PyExc "PermissionError"), s')).
Proof.
  intros Hu Hf. pose proof (key_paths_differ out) as Hd.
  destruct (save_keys_fresh out (imap (λ i name, (name, generate i)) KEY_NAMES) s Hd Hf) as (s' & Hrun & Hkeys & Hrest).
  assert (∀ i name, KEY_NAMES !! i = Some name → (name, generate i) ∈ imap (λ i name, (name, generate i)) KEY_NAMES) as Hin.
  { intros i name H. apply list.list_elem_of_lookup. exists i. by rewrite list_lookup_imap, H. }
  assert (∀ i name, KEY_NAMES !! i = Some name → load_verifier s' (public_path out name) = Ok (verifier_of (generate i))) as Hpub.
  { intros i name [_ H]%Hin%Hkeys. unfold load_verifier. rewrite (made_read _ _ _ _ H) by done. apply public_pem_read. }
  exists s'. eexists. split; [unfold cmd_keygen; by erewrite bind_run by exact Hrun|]. split_and!.
  - intros i name H. destruct (Hkeys _ _ (Hin _ _ H)) as [Hpriv _]. eexists _, _. split; [exact Hpriv|]. split; [by apply made_mode|].
    split; [unfold owner_writes, made; cbn [fi_mode]; by rewrite Z.land_spec|].
    split; [unfold load_signer; rewrite (made_read _ _ _ _ Hpriv) by done; apply private_pem_read|]. split; [by apply Hpub|].
    intros data. by rewrite verify_answers, signed_verify.
  - intros p t nonce episode role session bundle ttl token t' Hp Ht Htt Hmint Hexp.
    rewrite (Hpub 0 "token" eq_refl) in Hp. injection Hp as <-.
    rewrite (minted_token_outcome (mkGate (verifies (verifier_of (generate 0))) None []) (sign (generate 0)) t nonce episode role session bundle ttl token); [|apply signed_verify|done..].
    rewrite Hexp. cbn. by rewrite !String.eqb_refl.
  - exact Hrest.
  - intros Hun generate'. destruct (Hkeys _ _ (Hin 0 "token" eq_refl)) as [Hpriv _].
    unfold cmd_keygen. apply bind_raises. cbn -[save_signer save_verifier]. apply bind_raises.
    unfold save_signer, write_file. rewrite get_bind, Hpriv, require_bind, Hun. cbn [fi_mode made orb].
    unfold owner_writes. by rewrite Z.land_spec.
Qed.
End keys.
End files.

(** ** A toy library *)
Definition toy_verify (k sig data : string) : result exn unit := if String.eqb sig (k +:+ data) then Ok tt else Err (PyExc "InvalidSignature").
Lemma toy_signed k data : toy_verify k (k +:+ data) data = Ok tt.
Proof. unfold toy_verify. by rewrite String.eqb_refl. Qed.
Lemma toy_raises k sig data e : toy_verify k sig data = Err e → e = PyExc "InvalidSignature".
Proof. unfold toy_verify. destruct (String.eqb _ _); [done|]. by intros [= <-]. Qed.
#[local] Instance toy : Ed25519 := {|
  private_key := string; public_key := string; public_of := id; raw_sign k data := k +:+ data; raw_verify := toy_verify;
  private_pem := id; public_pem := id; load_private_pem := Ok; load_public_pem := Ok;
  signed_verifies := toy_signed; private_pem_read k := eq_refl; public_pem_read p := eq_refl; verify_raises := toy_raises |}.
Lemma keygen_makes_pairs_witness :
  ∃ s' msg, cmd_keygen false 18 "keys" (λ i, print_N (N.of_nat i)) [] = (Ok (0%Z, msg), s') ∧
    (∀ i name, KEY_NAMES !! i = Some name → ∃ f p, dget s' (private_path "keys" name) = Some f ∧ others_bits (fi_mode f) = 0%Z ∧
       owner_writes (fi_mode f) = false ∧ load_signer false s' (private_path "keys" name) = Ok (print_N (N.of_nat i)) ∧
       load_verifier false s' (public_path "keys" name) = Ok p ∧ (∀ data, verify p (sign (print_N (N.of_nat i)) data) data = Ok true)) ∧
    (∀ p t nonce episode role session bundle ttl token t', load_verifier false s' (public_path "keys" "token") = Ok p → decimal t → decimal (t + ttl) →
       mint (sign (print_N 0)) t nonce episode role session bundle ttl = Ok token → Qltb (t + ttl) t' = false →
       check_token (mkGate (verifies p) None []) t' (VStr token) (VStr episode) (VStr role) = Ok (read_back (minted t nonce episode role session bundle ttl))) ∧
    (∀ path, path ∉ paths_of "keys" KEY_NAMES → dget s' path = dget [] path) ∧
    (false = false → ∀ generate', cmd_keygen false 18 "keys" generate' s' = (Err (PyExc "PermissionError"), s')).
Proof. exact (keygen_makes_pairs false 18 "keys" (λ i, print_N (N.of_nat i)) [] eq_refl (λ _ _, eq_refl)). Defined.
(** A file that is there keeps its mode: a key saved over a file others may read can be
    read by them. *)
Example saved_over_a_readable_file :
  (dget (save_signer false 18 "key" "keys/token.pem" [("keys/token.pem", mkFile 420 "old")]).2 "keys/token.pem" : option file) = Some (mkFile 420 "key") ∧
  others_bits 420 ≠ 0%Z.
Proof. by vm_compute. Qed.
