(* ===== verification/Cli.v ===== *)
(** * The command line (src/valops/cli.py)

    The commands from their parsed arguments on: what each does to the state it opens, what
    it prints, and its exit status. A command that raises is an error, and Python then exits
    with a status that is not zero. Files are a parameter, as what is read from a path;
    the process's configuration is that of [Services], its keys those of [Crypto]. *)
From S2P Require Import Prelude PyVal Schema Canonical Json PyConv Keyed Tools Transitions Tokens Rpc Fold Store.
From S2P Require Import Crypto Writepath Regex Redact Parsers AuditChain AuditProps LocalChain Daemon Sinks Anchor AuditClient Bundle BundleProps Rules Builder Artefacts Table.
From S2P Require Import Control Client Broker EpisodeBroker ReportBroker ObserverBroker Providers ModelBroker Sandbox Services.
From Stdlib Require Import Ascii.

(** What a command prints: a line, or a value as indented JSON. *)
Inductive shown : Type := Line (s : string) | Json (v : val).
(** The exit status and the output. *)
Abbreviation done_ := (Z * list shown)%type.

(** ** Keys of the configuration (src/valops/config.py) *)
Section commands.
Context `{HASH : Hash} `{ED : Ed25519} `{UNI : Unicode}.
(** The key files and who reads them, the text files, the YAML parser and writer. *)
Context (privileged : bool) (disk : files) (text_at : string → option string) (yaml : string → result exn val) (yaml_dump : val → string).
Implicit Types cfg : Config.

Definition public_at (v : val) : result exn public_key := p ← a_path v; load_verifier privileged disk p.
Fixpoint trusted_from (l : list val) : result exn (list (string * TrustedKey)) :=
  match l with
  | [] => Ok []
  | k :: l =>
      id ← vindex k "key_id"; id ← of_opt (as_str id) (PyExc "TypeError"); pub ← vindex k "public"; pub ← public_at pub;
      let status := default (VStr "active") (match k with VDict k => dget k "status" | _ => None end) in
      rest ← trusted_from l; Ok (dupdate [(id, mkTrusted id (verifies pub) (py_str status))] rest)
  end.
(** src/valops/config.py:68-72 Config.bundles

    The keys the registry trusts; a later entry with an id replaces an earlier one. *)
Definition bundle_keys cfg : result exn (list (string * TrustedKey)) :=
  k ← vindex (VDict (cg_data cfg)) "keys"; l ← vindex k "bundle_trusted"; l ← py_iter l; trusted_from l.
(** src/valops/config.py:74-75 Config.token_verifier *)
Definition token_verifier cfg : result exn public_key :=
  k ← vindex (VDict (cg_data cfg)) "keys"; p ← vindex k "token_public"; public_at p.
(** src/valops/config.py:77-79 Config.anchor_keys *)
Definition anchor_keys cfg : result exn (list (string * (string → string → bool))) :=
  k ← vindex (VDict (cg_data cfg)) "keys"; id ← vindex k "chain_key_id"; id ← of_opt (as_str id) (PyExc "TypeError");
  p ← vindex k "chain_public"; pub ← public_at p; Ok [(id, verifies pub)].
(** src/valops/services.py:43-45 _gate *)
Definition gate_of cfg (g : registry) : result exn TokenGate :=
  pub ← token_verifier cfg;
  Ok (mkGate (verifies pub) (Some (λ id, match id with VStr s => Bundle.verify g s | VNone => Bundle.verify g EmptyString | _ => Err (PyExc "TypeError") end)) []).

(** ** valops bundle *)
Inductive bundle_action : Type := BActivate | BRevoke | BRollback | BVerify | BList.
(** The bundles, and whether the file of revocations has a line that names none: it is
    what [revoke] without an id writes. *)
Record bundles : Type := mkBundles { bu_registry : registry; bu_null : bool }.
Abbreviation CM := (M bundles exn).
Definition on_registry {A} (m : M registry exn A) : CM A := λ s,
  let '(r, g) := m (bu_registry s) in (r, mkBundles g (bu_null s)).
Definition history_row (a : activation) : val :=
  VDict [("ts", VFloat (av_ts a)); ("active", VStr (av_active a)); ("previous", opt_val VStr (av_previous a)); ("by", VStr (av_by a))].
(** src/valops/cli.py:53-66 cmd_bundle *)
Definition cmd_bundle (t : Q) (action : bundle_action) (id : option string) (by_ : string) : CM done_ :=
  let name := default EmptyString id in
  match action with
  | BVerify =>
      s ← get_state; reason ← lift (Bundle.verify (bu_registry s) name);
      let bad := match reason with Some r => negb (String.eqb r EmptyString) | None => false end in
      mret (if bad then 1%Z else 0%Z, [Line (if bad then default EmptyString reason else "ok")])
  | BActivate => _ ← on_registry (activate t name by_); mret (0%Z, [])
  | BRevoke =>
      _ ← (match id with
           | Some id => on_registry (revoke id)
           | None => modify (λ s, mkBundles (bu_registry s) true)
           end);
      mret (0%Z, [])
  | BRollback => prev ← on_registry (rollback t by_); mret (0%Z, [Line prev])
  | BList =>
      s ← get_state;
      let g := bu_registry s in
      let revoked := foldr set_insert [] (g_revoked g) in
      _ ← require (negb (bu_null s && match revoked with [] => false | _ => true end)) (PyExc "TypeError");
      mret (0%Z, [Json (VDict [("active", opt_val VStr (Bundle.active g));
                               ("revoked", VList (if bu_null s then [VNone] else map VStr revoked)); ("history", VList (map history_row (g_history g)))])])
  end.
(** src/valops/cli.py:45-52 cmd_bundle

    [bundle build]: the source, the overlay and the register as they are on disk. *)
Definition cmd_build (src : bundle_dir) (register : string) (key : option string) (key_id : string) (overlay : option bundle_dir) :
    M (list (string * bundle_dir)) exn done_ :=
  register ← lift (yaml register);
  signer ← lift (match key with
                 | Some p => if String.eqb p EmptyString then Ok None else k ← load_signer privileged disk p; Ok (Some (Crypto.sign k))
                 | None => Ok None
                 end);
  bid ← build yaml yaml_dump src register signer key_id overlay;
  mret (0%Z, [Line bid]).

(** ** valops chain *)
Definition file_lines (text : option string) : list string :=
  match text with
  | None => []
  | Some s => let l := split_on "010" s in if bool_decide (list.last l = Some EmptyString) then removelast l else l
  end.
Definition report_val (r : chain_report) : val :=
  VDict [("ok", VBool (cr_ok r)); ("entries", VInt (Z.of_nat (cr_entries r))); ("head", VStr (cr_head r));
         ("errors", VList (map (λ e, VStr (error_text e)) (cr_errors r))); ("newest_anchor_seq", cr_newest r)].
(** The objects of a bucket, one after the other. *)
Context (bodies : S3AnchorStore → list string).
Definition anchors_of (st : Anchor.store) : result exn (list val) :=
  match st with
  | FileStore p => p ← a_path p; file_list (text_at p)
  | S3Store st _ _ => s3_list (bodies st)
  end.
(** src/valops/cli.py:69-76 cmd_chain *)
Definition cmd_chain cfg : result exn done_ :=
  a ← vindex (VDict (cg_data cfg)) "anchor"; a ← of_opt (match a with VDict a => Some a | _ => None end) (PyExc "AttributeError");
  st ← Anchor.from_config a; anchors ← anchors_of st; keys ← anchor_keys cfg;
  rep ← verify_chain (file_lines (text_at (cg_state cfg +:+ "/audit/chain.jsonl"))) anchors keys;
  Ok (if cr_ok rep then 0%Z else 1%Z, [Json (report_val rep)]).

(** ** valops alerts, valops ack *)
(** [f"{s:8}"] *)
Definition pad8 (s : string) : string := s +:+ repeat_str " " (8 - length (chars s)).
Definition alert_line (a : val) : result exn string :=
  id ← vindex a "alert_id"; id ← of_opt (as_str id) (PyExc "TypeError");
  severity ← vindex a "severity"; severity ← of_opt (as_str severity) (PyExc "TypeError");
  acked ← vget a "acked"; title ← vget a "title";
  Ok (stake 12 id +:+ " " +:+ pad8 severity +:+ " acked=" +:+ py_str acked +:+ " " +:+ py_str title).
(** src/valops/cli.py:108-117 cmd_alerts

    [call] is the report broker's operator socket; an alert's id and severity are strings. *)
Definition cmd_ack (call : string → dict → result exn val) (alert_id : string) : result exn done_ :=
  v ← call "ack" [("alert_id", VStr alert_id)]; Ok (0%Z, [Line (py_str v)]).
Definition cmd_alerts (call : string → dict → result exn val) (limit : Z) : result exn done_ :=
  v ← call "list_alerts" [("limit", VInt limit)]; l ← py_iter v; ls ← mapR alert_line l; Ok (0%Z, map Line ls).

(** ** valops observe-only clear *)
(** src/valops/cli.py:120-126 cmd_observe_only *)
Definition cmd_observe_only : M flag_file exn done_ :=
  f ← get_state; was ← lift (flag_get f); _ ← put_state None;
  mret (0%Z, [Line ("clearing observe-only (was: " +:+ py_str was +:+ ")")]).

(** ** valops check-write-path *)
Definition problem_line (p : problem) : string :=
  match p with
  | Present d => as_posix d +:+ "/ present: M0 must not ship an executor or approval service"
  | BadTable t => as_posix t
  | Spawns m => as_posix m +:+ ": spawns a process outside the audited sites"
  end.
(** src/valops/cli.py:129-136 cmd_check_write_path

    The text of a table's error is left out. *)
Definition cmd_check_write_path (root : tree) : result exn done_ :=
  problems ← Writepath.check yaml root;
  let bad := match problems with [] => false | _ => true end in
  Ok (if bad then 1%Z else 0%Z, map (λ p, Line (problem_line p)) problems ++ [Line ("write-path absence: " +:+ if bad then "FAIL" else "ok")]).

(** ** valops observerd *)
(** [bytes.splitlines()] *)
Fixpoint bytes_lines (cur : string) (after_cr : bool) (s : string) : list string :=
  match s with
  | EmptyString => if String.eqb cur EmptyString then [] else [cur]
  | String c s' =>
      if Ascii.eqb c "010" then (if after_cr then bytes_lines cur false s' else cur :: bytes_lines EmptyString false s')
      else if Ascii.eqb c "013" then cur :: bytes_lines EmptyString true s'
      else bytes_lines (cur +:+ String c EmptyString) false s'
  end.
(** The socket the daemon listens on: with TLS, the certificate, its key and the
    authority clients must show a certificate of. *)
Record listener : Type := mkListener { ln_host : val; ln_port : Z; ln_tls : option (val * val * val); ln_cn : val }.
(** src/valops/observer/daemon.py:226-236 serve

    An authority that is left out is refused when the context is made; a file that cannot
    be loaded raises and is not modelled. *)
Definition serve_daemon (host : val) (port : Z) (t : dict) : result exn listener :=
  let cert := dget_none t "cert" in let ca := dget_none t "client_ca" in
  _ ← Prelude.check (negb (truthy cert) || match ca with VNone => false | _ => true end) (PyExc "TypeError");
  Ok (mkListener host port (if truthy cert then Some (cert, dget_none t "key", ca) else None) (dget_none t "expected_client_cn")).
(** src/valops/observer/daemon.py:180-185 H._client_ok

    [peer] is the subject of the certificate a TLS client showed; a plain connection has
    none. *)
Definition client_ok (expected : val) (peer : option (list (string * string))) : bool :=
  match expected with
  | VNone => true
  | VStr cn => existsb (λ kv : string * string, String.eqb kv.1 "commonName" && String.eqb kv.2 cn) (default [] peer)
  | _ => false
  end.
Inductive started : Type := Exit (status : Z) | Serving (l : listener) (d : daemon).
(** src/valops/cli.py:87-105 cmd_observerd

    [c] is the daemon's configuration. *)
Definition cmd_observerd (c : dict) : result exn started :=
  path ← vindex (VDict c) "command_table"; path ← a_path path; text ← of_opt (text_at path) (PyExc "FileNotFoundError");
  data ← yaml text; table ← load_table_data data;
  local ← vindex (VDict c) "local"; local ← of_opt (match local with VDict d => Some d | _ => None end) (PyExc "TypeError");
  chain ← vindex (VDict c) "chain"; path ← vindex chain "path"; path ← a_path path; key ← vindex chain "key"; key ← a_path key;
  _ ← load_signer privileged disk key;
  lc ← start_chain (match text_at path with Some s => bytes_lines EmptyString false s | None => [] end);
  rate ← vindex (VDict c) "rate_per_min"; rate ← py_int rate;
  threshold ← vindex (VDict c) "breaker_threshold_ms"; threshold ← py_float threshold;
  let d := new_daemon table local lc rate threshold 5 in
  t ← mapping (dget_none c "tls");
  if bool_decide (t = []) && negb (truthy (dget_none c "development")) then Ok (Exit 2)
  else
    listen ← vindex (VDict c) "listen"; host ← vindex listen "host"; port ← vindex listen "port"; port ← py_int port;
    l ← serve_daemon host port t; Ok (Serving l d).

(** ** Exit statuses *)
Lemma reasons_said g id r : Bundle.verify g id = Ok (Some r) → r ≠ EmptyString.
Proof.
  unfold Bundle.verify. destruct (_ || _); [by intros [= <-]|]. destruct (str_in _ _); [by intros [= <-]|]. unfold verify_integrity.
  destruct (dget _ _) as [d|]; [|by intros [= <-]]. destruct (read_file d [MANIFEST]); [|by intros [= <-]].
  destruct (read_file d [SIG]) as [sg|]; [|by intros [= <-]]. cbn [mbind option_bind]. destruct (json_loads sg) as [sigdoc|]; [|by intros [= <-]].
  destruct (negb _); [intros H; apply rbind_Ok in H as (? & _ & H); by injection H as <-|]. destruct (negb _); [by intros [= <-]|].
  intros H. apply rbind_Ok in H as (sd & _ & H). apply rbind_Ok in H as (? & _ & H).
  destruct (as_str _ ≫= dget (g_keys g)) as [key|]; [|by injection H as <-].
  apply rbind_Ok in H as (? & _ & H). apply rbind_Ok in H as (? & _ & H). destruct (tk_verify _ _ _); [done|by injection H as <-].
Qed.
Lemma activate_keeps t id by_ g e g' : activate t id by_ g = (Err e, g') → g' = g.
Proof.
  unfold activate. rewrite get_bind, lift_bind. destruct (Bundle.verify g id); [|by intros [= _ <-]]. rewrite require_bind.
  destruct a; [by intros [= _ <-]|]. rewrite lift_bind. destruct (of_opt (dget (g_bundles g) id) _); [|by intros [= _ <-]].
  rewrite lift_bind. destruct (of_opt _ _); [|by intros [= _ <-]]. rewrite lift_bind. destruct (vindex _ _); [|by intros [= _ <-]].
  rewrite lift_bind. destruct (of_opt _ _); [|by intros [= _ <-]]. rewrite require_bind. destruct (String.eqb _ _); [done|by intros [= _ <-]].
Qed.
(** What a chain report without an error says. *)
Lemma clean_report lines anchors keys rep : verify_chain lines anchors keys = Ok rep → cr_ok rep = true →
  ∃ hs h, links 1 GENESIS lines hs h ∧ ∀ a, a ∈ anchors → ∃ s, check_anchor keys hs a = Ok ([], s).
Proof.
  intros Hv Hok. unfold verify_chain in Hv. apply rbind_Ok in Hv as ([[errs hashes] head] & Hw & Hv).
  apply rbind_Ok in Hv as (l & Hsort & Hv). apply rbind_Ok in Hv as ([errs' newest] & Hc & Hv).
  injection Hv as <-. cbn in Hok. apply bool_decide_eq_true, nil_length_inv in Hok. subst errs'.
  apply check_anchors_inv in Hc as [Hpre Hc]. apply prefix_nil_inv in Hpre. subst errs.
  apply walk_links_inv in Hw as [_ Hw]. destruct (Hw eq_refl) as (hs & -> & Hl). cbn in Hc. exists hs, head. split; [done|].
  intros a Ha. apply (Hc eq_refl). by rewrite (sort_anchors_perm _ _ Hsort).
Qed.

(** The exit statuses that gate a change say what was checked. [bundle
    verify] leaves the registry alone and exits with 0 exactly when the bundle verifies;
    [bundle activate] exits with 0 only when the bundle verifies under a key that may
    activate, and it is then the active one, and changes nothing when it fails; [chain
    verify] exits with 0 only on a chain whose every link holds and whose every anchor is
    signed and agrees with it; [check-write-path] exits with 0 exactly on a tree without a
    problem. *)
Theorem exit_zero_was_checked :
  (∀ t id by_ s rc out s', cmd_bundle t BVerify id by_ s = (Ok (rc, out), s') →
     s' = s ∧ (rc = 0%Z ↔ ∃ d, verified (bu_registry s) (default EmptyString id) d)) ∧
  (∀ t id by_ s r s', cmd_bundle t BActivate id by_ s = (r, s') →
     match r with
     | Ok (rc, _) => rc = 0%Z ∧ activatable (bu_registry s) (default EmptyString id) ∧ Bundle.active (bu_registry s') = Some (default EmptyString id)
     | Err _ => s' = s
     end) ∧
  (∀ cfg rc out, cmd_chain cfg = Ok (rc, out) → rc = 0%Z →
     ∃ a st anchors keys hs h, vindex (VDict (cg_data cfg)) "anchor" = Ok (VDict a) ∧ Anchor.from_config a = Ok st ∧ anchors_of st = Ok anchors ∧
       anchor_keys cfg = Ok keys ∧ links 1 GENESIS (file_lines (text_at (cg_state cfg +:+ "/audit/chain.jsonl"))) hs h ∧
       ∀ x, x ∈ anchors → ∃ s, check_anchor keys hs x = Ok ([], s)) ∧
  (∀ root rc out, cmd_check_write_path root = Ok (rc, out) → (rc = 0%Z ↔ Writepath.check yaml root = Ok [])).
Proof.
  split_and!.
  - intros t id by_ s rc out s' H. cbn [cmd_bundle] in H. rewrite get_bind, lift_bind in H. rewrite <- verify_verified.
    destruct (Bundle.verify _ _) as [[r|]|e] eqn:Ev; [|injection H as <- _ <-; done|done].
    apply reasons_said in Ev. rewrite (proj2 (String.eqb_neq _ _) Ev) in H. injection H as <- _ <-. done.
  - intros t id by_ s r s' H. cbn [cmd_bundle] in H. apply bind_cases in H as [(e & Ha & ->)|(x & s1 & Ha & H)]; unfold on_registry in Ha.
    + destruct (activate _ _ _ _) as [[[]|e'] g'] eqn:E; [discriminate Ha|]. injection Ha as <- <-. apply activate_keeps in E as ->. by destruct s.
    + destruct (activate _ _ _ _) as [[[]|e] g'] eqn:E; [|discriminate Ha]. injection Ha as _ <-. injection H as <- <-.
      apply activate_inv in E as [Hact ->]. split_and!; [done|done|]. by apply active_activated.
  - intros cfg rc out H Hrc. unfold cmd_chain in H. apply rbind_Ok in H as (av & Hav & H). apply rbind_Ok in H as (a & Ha%of_opt_Ok & H).
    destruct av as [| | | | | |d]; try discriminate Ha. injection Ha as ->.
    apply rbind_Ok in H as (st & Hst & H). apply rbind_Ok in H as (anchors & Hanc & H). apply rbind_Ok in H as (keys & Hkeys & H).
    apply rbind_Ok in H as (rep & Hrep & H). injection H as H _. destruct (cr_ok rep) eqn:Hok; [|congruence].
    destruct (clean_report _ _ _ _ Hrep Hok) as (hs & h & Hl & Hx). exists a, st, anchors, keys, hs, h. by split_and!.
  - intros root rc out H. unfold cmd_check_write_path in H. apply rbind_Ok in H as (problems & -> & H). injection H as <- _.
    destruct problems; done.
Qed.

(** ** The daemon that listens *)
(** Whether a connection of this kind can be made: with TLS, the client showed a
    certificate of the authority; without, there is none to show. *)
Definition connects (l : listener) (peer : option (list (string * string))) : Prop :=
  match ln_tls l with Some _ => peer ≠ None | None => peer = None end.
Lemma serve_daemon_Ok host port t l : serve_daemon host port t = Ok l →
  ln_cn l = dget_none t "expected_client_cn" ∧
  (truthy (dget_none t "cert") = true → ∃ ca, ln_tls l = Some (dget_none t "cert", dget_none t "key", ca) ∧ ca ≠ VNone) ∧
  (truthy (dget_none t "cert") = false → ln_tls l = None).
Proof.
  unfold serve_daemon. intros H. apply rbind_Ok in H as ([] & Hc%check_Ok & H). injection H as <-. cbn [ln_cn ln_tls]. split; [done|].
  split; intros Ht; rewrite Ht in *; [|done]. exists (dget_none t "client_ca"). split; [done|]. intros E. rewrite E in Hc. discriminate Hc.
Qed.
Lemma unnamed_refused k expected cn peer path n body h d : expected = VStr cn → (∀ subject, peer = Some subject → ("commonName", cn) ∉ subject) →
  client_ok expected peer = false ∧ do_POST redact suspicious (λ s, s) Parsers.PARSERS k (client_ok expected peer) path n body h d =
    (Ok (403%Z, VDict [("error", VStr "client identity")]), d).
Proof.
  intros -> Hn. assert (client_ok (VStr cn) peer = false) as ->; [|done]. cbn. destruct peer as [subject|]; [|done]. cbn [default from_option id].
  apply not_true_iff_false. rewrite existsb_exists. intros ([x y] & Hin & [Hx%String.eqb_eq Hy%String.eqb_eq]%andb_true_iff).
  cbn in Hx, Hy. subst. apply (Hn _ eq_refl). by apply list_elem_of_In.
Qed.

(** A daemon that was started only reads: every command of its table is an
    observation, its chain is the unbroken continuation of the one on disk, and outside
    development its configuration has a TLS section. Where that names a certificate,
    nobody connects without a certificate of the clients' authority; and where it names a
    client, a request of anybody else is answered 403 and changes nothing. *)
Theorem daemon_starts_guarded c l d : cmd_observerd c = Ok (Serving l d) →
  (∀ cid cmd, (cid, cmd) ∈ tb_commands (d_table d) → reads_only cmd) ∧ cinv (d_chain d) ∧
  ∃ t, py_or (dget_none c "tls") (VDict []) = VDict t ∧ (truthy (dget_none c "development") = true ∨ t ≠ []) ∧
    (truthy (dget_none t "cert") = true → ∀ peer, connects l peer → ∃ subject, peer = Some subject) ∧
    (∀ cn, dget_none t "expected_client_cn" = VStr cn → ∀ peer, (∀ subject, peer = Some subject → ("commonName", cn) ∉ subject) →
       ∀ k path n body h, do_POST redact suspicious (λ s, s) Parsers.PARSERS k (client_ok (ln_cn l) peer) path n body h d =
         (Ok (403%Z, VDict [("error", VStr "client identity")]), d)).
Proof.
  unfold cmd_observerd. intros H. apply rbind_Ok in H as (? & _ & H). apply rbind_Ok in H as (? & _ & H). apply rbind_Ok in H as (? & _ & H).
  apply rbind_Ok in H as (? & _ & H). apply rbind_Ok in H as (table & Htable & H). apply rbind_Ok in H as (? & _ & H). apply rbind_Ok in H as (? & _ & H).
  do 5 (apply rbind_Ok in H as (? & _ & H)). apply rbind_Ok in H as (? & _ & H). apply rbind_Ok in H as (lc & Hlc & H).
  do 4 (apply rbind_Ok in H as (? & _ & H)). apply rbind_Ok in H as (t & Ht & H).
  assert (py_or (dget_none c "tls") (VDict []) = VDict t) as Htls.
  { unfold mapping in Ht. destruct (py_or _ _); try done. by injection Ht as ->. }
  destruct (bool_decide (t = []) && negb (truthy (dget_none c "development"))) eqn:E; [discriminate H|].
  do 4 (apply rbind_Ok in H as (? & _ & H)). apply rbind_Ok in H as (l' & Hl & H). injection H as -> <-.
  apply serve_daemon_Ok in Hl as (Hcn & Hcert & _). cbn [d_table d_chain new_daemon]. split.
  { intros cid cmd Hin. by eapply load_table_Ok in Hin as (_ & ? & _). }
  split.
  { unfold start_chain in Hlc. apply rbind_Ok in Hlc as (hs & Hs & Hlc). injection Hlc as <-. apply start_lines_links in Hs as [h Hl].
    split; [by exists h|]. cbn. symmetry. by eapply links_length. }
  exists t. split; [done|]. split.
  { apply andb_false_iff in E as [E%bool_decide_eq_false|E%negb_false_iff]; [by right|by left]. }
  split.
  - intros (ca & Htl & _)%Hcert peer Hp. unfold connects in Hp. rewrite Htl in Hp. destruct peer as [subject|]; [by exists subject|done].
  - intros cn Hx peer Hpeer k path n body h. rewrite Hcn. by apply (unnamed_refused k _ cn peer path n body h).
Qed.
End commands.

(** ** Here *)
Definition cli_text (p : string) : option string := if String.eqb p "/etc/valops/table.yaml" then Some "T" else None.
Definition cli_yaml (text : string) : result exn val :=
  Ok (VDict [("commands", VDict [("host_metrics", VDict [("kind", VStr "builtin"); ("read_only", VBool true)])])]).
Definition cli_disk : files := [("/etc/valops/daemon.pem", mkFile 256 "k")].
Definition observerd_config (tls : dict) : dict :=
  [("command_table", VStr "/etc/valops/table.yaml"); ("local", VDict []);
   ("chain", VDict [("path", VStr "/var/lib/valops/chain.jsonl"); ("key", VStr "/etc/valops/daemon.pem")]);
   ("rate_per_min", VInt 10); ("breaker_threshold_ms", VInt 500); ("tls", VDict tls);
   ("listen", VDict [("host", VStr "0.0.0.0"); ("port", VInt 8443)])].
Definition full_tls : dict :=
  [("cert", VStr "/etc/valops/tls.pem"); ("key", VStr "/etc/valops/tls.key"); ("client_ca", VStr "/etc/valops/ca.pem"); ("expected_client_cn", VStr "observer-broker")].
Abbreviation demo_observerd tls := (cmd_observerd (HASH := sum_hash) (ED := toy) false cli_disk cli_text cli_yaml (observerd_config tls)).
Definition demo_started (tls : dict) : listener * daemon :=
  match demo_observerd tls with
  | Ok (Serving l d) => (l, d)
  | _ => (mkListener VNone 0 None VNone, new_daemon (mkTable 0 []) [] (mkChain [] [] 0) 0 0 0)
  end.
Example no_tls_no_service : demo_observerd [] = Ok (Exit 2).
Proof. reflexivity. Qed.
(** A TLS section without a certificate passes for one: the daemon listens in the clear and
    serves whoever connects. *)
Example keyed_but_plain :
  demo_observerd [("key", VStr "/etc/valops/tls.key")] = Ok (Serving (mkListener (VStr "0.0.0.0") 8443 None VNone) (demo_started [("key", VStr "/etc/valops/tls.key")]).2) ∧
  connects (mkListener (VStr "0.0.0.0") 8443 None VNone) None ∧ client_ok VNone None = true.
Proof. split_and!; reflexivity. Qed.
Lemma full_started : demo_observerd full_tls = Ok (Serving (demo_started full_tls).1 (demo_started full_tls).2).
Proof. reflexivity. Qed.
Lemma daemon_starts_guarded_witness :
  (∀ cid cmd, (cid, cmd) ∈ tb_commands (d_table (demo_started full_tls).2) → reads_only cmd) ∧ cinv (HASH := sum_hash) (d_chain (demo_started full_tls).2) ∧
  ∃ t, py_or (dget_none (observerd_config full_tls) "tls") (VDict []) = VDict t ∧
    (truthy (dget_none (observerd_config full_tls) "development") = true ∨ t ≠ []) ∧
    (truthy (dget_none t "cert") = true → ∀ peer, connects (demo_started full_tls).1 peer → ∃ subject, peer = Some subject) ∧
    (∀ cn, dget_none t "expected_client_cn" = VStr cn → ∀ peer, (∀ subject, peer = Some subject → ("commonName", cn) ∉ subject) →
       ∀ k path n body h, do_POST (HASH := sum_hash) (redact (UNI := no_unicode)) (suspicious (UNI := no_unicode)) (λ s, s) (Parsers.PARSERS (UNI := no_unicode)) k
         (client_ok (ln_cn (demo_started full_tls).1) peer) path n body h (demo_started full_tls).2 =
         (Ok (403%Z, VDict [("error", VStr "client identity")]), (demo_started full_tls).2)).
Proof.
  exact (daemon_starts_guarded (HASH := sum_hash) (ED := toy) (UNI := no_unicode) false cli_disk cli_text cli_yaml (observerd_config full_tls)
    (demo_started full_tls).1 (demo_started full_tls).2 full_started).
Defined.

Definition cli_bundles : bundles := mkBundles registry_a false.
Abbreviation demo_bundle := (cmd_bundle (HASH := sum_hash) 20).
(** [revoke] without an id writes null; with any other revocation, [list] then raises. *)
Example nameless_revoke_breaks_list :
  (demo_bundle BList None "op" (demo_bundle BRevoke None "op" (demo_bundle BRevoke (Some "abc") "op" cli_bundles).2).2).1 = Err (PyExc "TypeError").
Proof. vm_compute. reflexivity. Qed.
Lemma verify_ok : demo_bundle BVerify (Some (id_of files_a)) "op" cli_bundles = (Ok (0%Z, [Line "ok"]), cli_bundles).
Proof. vm_compute. reflexivity. Qed.
Lemma exit_zero_was_checked_witness : cli_bundles = cli_bundles ∧ (0%Z = 0%Z ↔ ∃ d, verified (HASH := sum_hash) (bu_registry cli_bundles) (id_of files_a) d).
Proof.
  exact (proj1 (exit_zero_was_checked (HASH := sum_hash) (ED := toy) (UNI := no_unicode) false cli_disk cli_text cli_yaml (λ _, []))
    20%Q (Some (id_of files_a)) "op" cli_bundles 0%Z [Line "ok"] cli_bundles verify_ok).
Defined.
