(* ===== verification/Bridge.v ===== *)
(** * The worker's bridge to its model socket (src/valops/worker/bridge.py)

    Inside the sandbox a loopback port is carried to the session's socket: a thread for
    each direction of each connection. A connection is a state machine whose steps are
    those of the two peers, of the two threads, in any order, and of the errors a socket may
    give; the bytes a socket carries are a string. *)
From S2P Require Import Prelude PyVal Schema Canonical Json.

(** [recv(65536)] *)
Definition CHUNK : N := 65536.
Definition bytes (s : string) : N := N.of_nat (String.length s).

(** A direction: from the client to the broker, or back. *)
Inductive way : Type := Up | Down.
#[export] Instance way_eq_dec : EqDecision way.
Proof. solve_decision. Defined.

(** Where a thread is in [_pipe]: about to receive, sending what is left of a chunk, or
    past its [finally], at the end of the data or after an error. *)
Inductive pump : Type := Receiving | Sending (left_ : string) | Finished (failed : bool).
(** A direction of a connection: what its source wrote, whether it ended its side, what the
    thread took of it, and what it gave to the other socket. *)
Record line : Type := mkLine { l_written : string; l_ended : bool; l_taken : string; l_given : string; l_pump : pump }.
(** A connection: its two lines, and whether its sockets were shut down. *)
Record conn : Type := mkConn { c_up : line; c_down : line; c_shut : bool }.
Definition at_ (w : way) (c : conn) : line := match w with Up => c_up c | Down => c_down c end.
Definition put (w : way) (l : line) (shut : bool) (c : conn) : conn :=
  match w with Up => mkConn l (c_down c) shut | Down => mkConn (c_up c) l shut end.
Definition fresh_line : line := mkLine EmptyString false EmptyString EmptyString Receiving.
Definition accepted : conn := mkConn fresh_line fresh_line false.

(** src/valops/worker/bridge.py:10-24 _pipe

    A step of a connection. The peers write at will and may end their sides; a thread takes
    at most a chunk of what is written and not taken, sends it piece by piece while the
    sockets are open, and ends when there is no more, or at an error, which a shut socket's
    early end of data counts as; then both sockets are shut down, for both directions. *)
Inductive step : conn → conn → Prop :=
| s_write w c data : l_ended (at_ w c) = false →
    let l := at_ w c in step c (put w (mkLine (l_written l +:+ data) false (l_taken l) (l_given l) (l_pump l)) (c_shut c) c)
| s_end w c : let l := at_ w c in step c (put w (mkLine (l_written l) true (l_taken l) (l_given l) (l_pump l)) (c_shut c) c)
| s_recv w c data more : let l := at_ w c in
    l_pump l = Receiving → l_written l = l_taken l +:+ data +:+ more → data ≠ EmptyString → (bytes data ≤ CHUNK)%N →
    step c (put w (mkLine (l_written l) (l_ended l) (l_taken l +:+ data) (l_given l) (Sending data)) (c_shut c) c)
| s_send w c now_ later : let l := at_ w c in
    l_pump l = Sending (now_ +:+ later) → c_shut c = false →
    step c (put w (mkLine (l_written l) (l_ended l) (l_taken l) (l_given l +:+ now_) (Sending later)) (c_shut c) c)
| s_sent w c : let l := at_ w c in
    l_pump l = Sending EmptyString →
    step c (put w (mkLine (l_written l) (l_ended l) (l_taken l) (l_given l) Receiving) (c_shut c) c)
| s_eof w c : let l := at_ w c in
    l_pump l = Receiving → l_ended l = true → l_taken l = l_written l →
    step c (put w (mkLine (l_written l) true (l_taken l) (l_given l) (Finished false)) true c)
| s_error w c : let l := at_ w c in
    (∀ b, l_pump l ≠ Finished b) →
    step c (put w (mkLine (l_written l) (l_ended l) (l_taken l) (l_given l) (Finished true)) true c).


Lemma at_put w l shut c : at_ w (put w l shut c) = l.
Proof. by destruct w. Qed.
Lemma at_put_other w w' l shut c : w ≠ w' → at_ w' (put w l shut c) = at_ w' c.
Proof. by destruct w, w'. Qed.
Lemma shut_put w l shut c : c_shut (put w l shut c) = shut.
Proof. by destruct w. Qed.
Lemma string_app_nil_inv (a b : string) : a = a +:+ b → b = EmptyString.
Proof. induction a as [|c a IH]; cbn; [done|]. intros [= H]. by apply IH. Qed.


(** Nothing is given once the sockets are shut down. *)
Lemma shut_gives_nothing c c' w : step c c' → c_shut c = true → c_shut c' = true ∧ l_given (at_ w c') = l_given (at_ w c).
Proof.
  intros Hstep Hsh. destruct Hstep as [w' c data He l|w' c l|w' c data more l Hp|w' c now_ later l Hp Hn|w' c l Hp|w' c l Hp He Ht|w' c l Hp];
    rewrite ?shut_put; try congruence; (split; [done|]); (destruct (decide (w' = w)) as [<-|Hne]; [by rewrite at_put|by rewrite at_put_other]).
Qed.


(** ** The listener *)
(** What [accept] gave: a client, and whether the broker's socket could be reached; or an
    error. *)
Inductive arrival : Type := Client (reachable : bool) | AcceptFailed.
(** src/valops/worker/bridge.py:27-49 start

    The connections that are carried; a client is closed when the broker cannot be
    reached, and an error of [accept] ends the loop. *)
Fixpoint accept_loop (l : list arrival) : list (option conn) :=
  match l with
  | [] | AcceptFailed :: _ => []
  | Client true :: l => Some accepted :: accept_loop l
  | Client false :: l => None :: accept_loop l
  end.

(** ** A request, and a side that ends early *)
Definition asked : conn := mkConn (mkLine "POST" false "POST" "POST" Receiving) fresh_line false.
Lemma reaches_asked : rtc step accepted asked.
Proof.
  eapply rtc_l; [apply (s_write Up accepted "POST"); done|]. eapply rtc_l; [by apply (s_recv Up _ "POST" EmptyString)|].
  eapply rtc_l; [apply (s_send Up _ "POST" EmptyString); done|]. eapply rtc_l; [apply (s_sent Up); done|]. apply rtc_refl.
Qed.
(** A client that ends its side after its request loses the answer. *)
Definition half_closed : conn :=
  mkConn (mkLine "POST" true "POST" "POST" (Finished false)) (mkLine "200 OK" false EmptyString EmptyString Receiving) true.
Example half_close_loses_the_answer : rtc step accepted half_closed ∧
  ∀ c, rtc step half_closed c → l_given (at_ Down c) = EmptyString.
Proof.
  assert (rtc step accepted half_closed) as Hr.
  { etrans; [apply reaches_asked|]. eapply rtc_l; [apply (s_write Down _ "200 OK"); done|]. eapply rtc_l; [apply (s_end Up)|].
    eapply rtc_l; [apply (s_eof Up); done|]. apply rtc_refl. }
  split; [done|]. intros c Hc. enough (l_given (at_ Down c) = l_given (at_ Down half_closed)) by done.
  assert (c_shut half_closed = true) as Hsh by done. revert Hsh. generalize dependent half_closed. intros h _ Hc.
  induction Hc as [c|c c1 c' Hstep _ IH]; [done|]. intros Hsh.
  destruct (shut_gives_nothing _ _ Down Hstep Hsh) as [Hsh1 <-]. by apply IH.
Qed.
